(* ===== verification/_CoqProject ===== *)
-Q . S2P
Prelude.v
StringLib.v
Interrupts.v
Keyboard.v
Console.v
Text.v
BlockDev.v
Ata.v
AtaProof.v
Ext2.v
Ext2Proof.v
DirBlock.v
Ext2Layout.v
Ext2Files.v
Ext2Inodes.v
Ext2Dirs.v
Ext2Tree.v
Ext2Mkdir.v
Ext2Unlink.v
Ext2Runs.v
LinkedList.v
Vfs.v
VfsProof.v
VfsRefs.v
FsLib.v
Ext2Vfs.v
Shell.v
ShellProof.v
Pmm.v
Vmm.v
VmmProof.v
VmmSpace.v
Heap.v
HeapProof.v
Scheduler.v
Machine.v
SchedulerProof.v
ProcessProof.v
KernelVm.v
Elf.v
ElfProof.v
Syscall.v
Boot.v
KernelMain.v
