(* ===== verification/Prelude.v ===== *)
(** * DvivonOS: a verification development for the i686 kernel under src/

    DvivonOS is a 32-bit kernel in C.  Boot code (boot.s) builds a page directory
    and calls [kernel_main] (kernel/main.c), which starts the memory managers, the
    drivers, the file system and the scheduler.  The parts and how they interact:

    - the boot loader's memory map (boot/loader.c) is handed to the physical
      memory manager (kernel/memory/pmm.c), which hands out page frames from a
      bitmap;
    - the virtual memory manager (kernel/memory/vmm.c) maps frames through the
      recursive entry of the page directory, for the kernel, for processes and
      for the heap;
    - the kernel heap (kernel/memory/heap-allocator.c) is a boundary-tag
      allocator whose arena grows by pages of the virtual memory manager;
    - descriptor tables, interrupt controllers, handler tables and the timer
      (arch/i686/cpu, kernel/time) deliver interrupts to the drivers and to the
      scheduler;
    - the string library, the keyboard driver, the VGA console, stdio and the
      terminal carry input and output;
    - block devices are registered in a table and used through an operations
      structure; the ATA driver implements one, the ext2 file system sits on it,
      the virtual file system (fs/vfs) above resolves paths and counts
      references, and the file library (lib/fs.c) offers one-call operations to
      the shell and to the program loader;
    - the scheduler (kernel/scheduler) keeps a ring of processes; the ELF loader
      (kernel/elf.c) makes processes of files, and processes enter the kernel
      through system calls (kernel/syscall.c).

    ** Files

    - [Prelude] (this file): the outcome and state monads, the total-correctness
      rules [wp_*], machine integers, little-endian buffers, tactics, hints.
    - [StringLib]: lib/string.c over a byte memory ([mem]), one definition per
      function and one per loop.
    - [Interrupts]: arch/i686/cpu/gdt.c and idt.c, include/arch/i686/pic.h and
      kernel/time/time.c; descriptors as encoded words, the handler table as a
      list of addresses, the writes to the controllers as a port log.
    - [Keyboard]: drivers/keyboard.c; record [kbd] holds the modifier flags, the
      extended-prefix flag and the event ring; [keyboard_callback] is the
      interrupt handler with the byte read from port 0x60 as argument.
    - [Console]: drivers/vga.c (record [vga]: cursor, colour, end-of-screen
      handler, text buffer, the bytes written to ports), lib/stdio.c (record
      [console]: the screen and the active interface) and prog/terminal.c.
      [Text] has string literals and what a message does to a console.
    - [BlockDev]: drivers/block_device.c ([registry]) and the operations of a
      device as the class [BlockDevice]; [HealthyDevice] is a device that serves
      every request inside its range, with a RAM disk as the instance.
    - [Ata]: drivers/disk/ata.c over an interface of port operations, waiting
      and interrupts; [AtaProof] has the documented behaviour of a drive, which may
      raise its request for the next sector at any time, even at once, the exact
      condition under which a read misses one ([request_missed]), and the adapter as
      an instance of [BlockDevice]: a [HealthyDevice] for blocks of one sector, and
      for larger ones on a drive that no read of a block misses a request of.
    - [Ext2]: fs/ext2 with [inode_put] of fs/vfs/inode.c; record [ext2] is
      [ext2_fs_data_t] with the device and the heap; on-disk structures are
      bytes read at the offsets of the packed C structures.  The heap under it is
      the class [KHeap], which counts the requests it refuses ([kh_refusals]), so
      that a theorem can blame a failure on a refusal during the call itself
      ([refused]).  [Ext2Proof] has the
      bitmaps, the inode table and the rules for the device; on top of it
      [DirBlock] (the entries of one block of a directory), [Ext2Layout] (volumes
      whose free blocks are data blocks, and what a step on one keeps),
      [Ext2Files] (reading and writing a file), [Ext2Inodes] (allocation and
      loading of inodes), [Ext2Dirs] (a directory on disk), [Ext2Tree] (lookup and
      creation), [Ext2Mkdir], [Ext2Unlink] (removal) and [Ext2Runs] (any sequence
      of calls).
    - [LinkedList]: the lists through a next pointer that the virtual file system
      searches and unlinks from.
    - [Vfs]: fs/vfs; record [vfs] maps addresses to inodes, dentries, files,
      superblocks, mounts and types.  The operations tables of a file system are
      the class [Backend], addresses of new objects the class [Addresses].
      [VfsProof] has paths, the registry and unmounting, [VfsRefs] the reference
      counts.  What they need of a file system are the classes [LookupOne],
      [DropFrees] and [WriteKeeps].
    - [FsLib]: lib/fs.c over [Vfs], with its theorems; [Readable] is what reading
      a whole file needs of the file system.  [Ext2Vfs] makes [Ext2] a [Backend]
      with all four.
    - [Shell]: prog/shell.c over [FsLib], [Console] and the key events;
      [ShellProof] has the shell as an interpreter of lines.
    - [Pmm]: kernel/memory/pmm.c; record [pmm] is the bitmap, [usable_end_words]
      and [last_alloc].
    - [Vmm]: kernel/memory/vmm.c; record [vm] is physical memory in words, cr3,
      the translation cache, the frame allocator and the statics of the file.
      [VmmProof] has page allocation, [VmmSpace] address spaces.
    - [Heap]: kernel/memory/heap-allocator.c; record [heap] is the mapped words,
      [free_list_head], [heap_max] and the page source, an instance of the class
      [KernelPages]; [vmm_pages] is the instance built on [Vmm].  [HeapProof]
      holds its theorems, proved for every page source.
    - [Scheduler]: kernel/scheduler/scheduler.c and stack_switch.s; record
      [sched] is the process structures by address, the statics of the file and
      the stack pointer; the services of the memory managers are the class
      [Kernel].  [Machine] states the laws that are used of them: [KernelLaws] for
      the address space register and the stack of the task segment, [KernelWords]
      for the words of kernel memory that a call leaves alone when it returns.
      [SchedulerProof] has the ring, [ProcessProof] the creation of a process up
      to its first instruction.  [KernelVm] is the kernel the program has: the
      interface by [Heap] over [Vmm], with both laws as theorems.  Whether a call
      of the memory managers returns, fails or faults is not assumed: the theorems
      on processes say what the caller does in each case.
    - [Elf]: kernel/elf.c over [Scheduler], with its theorems in [ElfProof].
    - [Syscall]: kernel/syscall.c and include/arch/i686/irq_lock.h; record [sys]
      is the scheduler, the console and the flags register.
    - [Boot]: boot/loader.c and the parts of kernel/main.c that put components
      together: the memory map, the start of the memory management, programs
      from files, the test of the heap.  [KernelMain] has the rest of main.c: the
      routing of interrupts, the colours, the page directory's dump and the main
      loop, one iteration at a time.

    ** Conventions

    A C integer of width w is a [Z] with its wrap-around written out ([u32],
    [+!], [-!], [*!]).  Stateful code is a function of type [ST S A]: it returns
    a value and the new state, or [Fault] (an access outside an object or to an
    unmapped page, a division by zero), or [Diverge] (a loop ran out of fuel, or
    the machine sleeps or halts for ever).  [wp c s Q] says that [c] returns from
    [s] with a result in [Q]; theorems about calls that return are stated with it
    or as an equation with [Ret].  A component that uses several others lifts
    their operations into its own state ([on_con], [on_vfs], [on_sched]).
    Diagnostic messages are left out below the shell, the system calls and the
    start-up code, where they are part of the model, and so are the [NULL] tests
    of pointers that the model represents by values.

    ** What the theorems show

    - Frames: no frame is handed out twice or lost in any sequence of calls, an
      allocation always ends, the bitmap after start-up is the free memory of
      the boot loader's map.
    - Virtual memory: a user page is mapped to a fresh zeroed frame and nothing
      else changes; a new address space shares the kernel half and has an empty
      user half; destroying one faults, and a global recursive entry leaves a
      stale directory window behind.
    - Heap: the tiling of the arena by blocks, the doubly linked free list and
      the tags are an invariant of every call; live allocations never overlap
      and keep their contents; allocation ends and fails only when no page can
      be had.
    - Interrupts: an interrupt runs the handler registered last for its vector
      and is acknowledged; the timer's callback table is a list.
    - Strings, keyboard and console: the functions meet their C contracts for
      every input, the key ring is a FIFO queue below its capacity, writing
      never leaves the text buffer, [printf] prints the expansion of its format.
    - Disks and ext2: the ATA driver is an array of blocks, up to the reads of
      several sectors that miss a request of the drive and sleep for ever; blocks of
      any well-formed volume are allocated and
      released.  On such a volume a file is an array of bytes under reading and
      writing and a directory is a list of names under search, insertion and
      removal; a created file or directory is found, a removed one is not and its
      blocks and inode are free; other files keep their contents; and every
      sequence of legal calls goes through without a fault.  A call that does less
      than it was asked to does so because the volume is full or has no inode in
      the very state of the run, or because the heap refused a request during it.
    - Files: a path is looked up component by component, reference counts equal
      the number of holders in every sequence of operations and nothing leaks,
      operations return when the file system's own calls do, the file library
      reads whole files, splits paths and answers queries; the
      shell edits lines, carries out their commands and shows the results.
    - Main loop: in every interleaving with keyboard interrupts the screen is the
      echo of the keys handled, in the order they were typed.
    - Processes: the ring is a queue and the timer makes it go round; a process
      starts at its entry point; an executable is loaded by a fixed sequence of
      mappings and copies that leaves exactly its segments in memory; system calls
      print and exit; a program file becomes a process.  Each has the outcome of the
      kernel calls it makes, faults included; on the program's own kernel the exit
      of a process that is not the current one faults.
    - Findings, where the code does something else than it means to, are
      theorems too, and their statements say what happens instead.

    ** Bounds

    The theorems about contents of files and directories on disk are for the
    twelve direct blocks of an inode; the indirect block maps are modelled, but
    a claim about them would need the disjointness of two more levels of
    pointers in the invariant.  Files of one volume are told apart by the blocks
    they own: a theorem that a file is kept assumes that it shares no block with
    the one that changes.  The other bounds are those of the machine: 32-bit
    sizes and addresses, 255 bytes in a name, 256 key events in the ring.

    ** Fuel

    Loops over a counter recurse on the number of rounds left and need no fuel.
    The others get a bound that the theorems prove sufficient: the length of the
    bitmap for [pmm_alloc_page], the number of twelve-byte blocks in the arena
    for the free list, the pages of the request for the recursion of [kmalloc],
    the number of pages of the address space for the search for a kernel page,
    the number of objects for the lists and rings, the length of the path, of
    the directory, of the file's buffer and of the memory map for the walks over
    them, the pages of a segment for its allocation, the keys for the lines of
    the shell.  The string functions take any fuel above the length of the
    string.

    ** Not modelled

    Assembly apart from the switch of stacks; the calls of [_init] and
    [kernel_main] in their order, since the components of the start have states
    of their own here that the program keeps in shared tables; the inline system
    call of main.c; the demonstration loops (main.c and prog/shell-loops.c), which
    print for ever.  Interrupts are modelled where they are the interface
    (the keyboard handler as steps interleaved with reads, the disk's requests
    during a transfer, the timer as calls of [schedule]); the other parts run
    with the interleaving the C code has, one call at a time.  The heap under the
    virtual file system and the one under the scheduler are the same in the
    program and two instances of their interfaces here. *)

From Stdlib Require Export ZArith Lia ZifyBool.
From stdpp Require Export base decidable option list gmap numbers.

#[export] Set Default Goal Selector "1".
Global Open Scope Z_scope.

(** ** Outcomes of C code

    [Ret] is a normal return, [Fault] an access outside the object or the
    mapped memory (undefined behaviour in C, a page fault on the machine),
    [Diverge] the exhaustion of the fuel a loop was given. *)
Inductive outcome (A : Type) : Type :=
| Ret (a : A)
| Fault
| Diverge.
Arguments Ret {A} _.
Arguments Fault {A}.
Arguments Diverge {A}.

#[export] Instance outcome_ret : MRet outcome := fun A => @Ret A.
#[export] Instance outcome_bind : MBind outcome := fun A B f m =>
  match m with Ret a => f a | Fault => Fault | Diverge => Diverge end.

(** Code that reads and writes a state of type [S]. *)
Definition ST (S A : Type) : Type := S -> outcome (A * S).

#[export] Instance ST_ret {S} : MRet (ST S) := fun A a s => Ret (a, s).
#[export] Instance ST_bind {S} : MBind (ST S) := fun A B f m s =>
  match m s with
  | Ret (a, s') => f a s'
  | Fault => Fault
  | Diverge => Diverge
  end.

Definition st_get {S} : ST S S := fun s => Ret (s, s).
Definition st_put {S} (s : S) : ST S unit := fun _ => Ret (tt, s).
Definition st_modify {S} (f : S -> S) : ST S unit := fun s => Ret (tt, f s).
Definition st_gets {S A} (f : S -> A) : ST S A := fun s => Ret (f s, s).
Definition st_lift {S A} (o : outcome A) : ST S A := fun s =>
  match o with Ret a => Ret (a, s) | Fault => Fault | Diverge => Diverge end.
Definition st_fault {S A} : ST S A := fun _ => Fault.

(** [when b c] is [if (b) c;]. *)
Definition when {S} (b : bool) (c : ST S unit) : ST S unit :=
  if b then c else mret tt.

(** [for (i = i0; i < i0 + n; i++) body(i);] *)
Fixpoint st_for {S} (n : nat) (i : Z) (body : Z -> ST S unit) : ST S unit :=
  match n with
  | O => mret tt
  | Datatypes.S n => body i;; st_for n (i + 1) body
  end.

(** [of_option] turns a partial read into [Fault]. *)
Definition of_option {A} (o : option A) : outcome A :=
  match o with Some a => Ret a | None => Fault end.

(** Total correctness: [wp c s Q] holds when [c], run from [s], returns (it
    neither faults nor runs out of fuel) with a result and state in [Q]. *)
Definition wp {S A} (c : ST S A) (s : S) (Q : A -> S -> Prop) : Prop :=
  match c s with Ret (a, s') => Q a s' | _ => False end.

(** ** Machine integers *)
Declare Scope cint_scope.
Delimit Scope cint_scope with cint.

Definition u8 (z : Z) : Z := z mod 256.
Definition u16 (z : Z) : Z := z mod 65536.
Definition u32 (z : Z) : Z := z mod 4294967296.
Definition u64 (z : Z) : Z := z mod 18446744073709551616.

(** [int] of a 32-bit pattern. *)
Definition s32 (z : Z) : Z :=
  if u32 z <? 2147483648 then u32 z else u32 z - 4294967296.

Notation "x +! y" := (u32 (x + y)) (at level 50, left associativity) : cint_scope.
Notation "x -! y" := (u32 (x - y)) (at level 50, left associativity) : cint_scope.
Notation "x *! y" := (u32 (x * y)) (at level 40, left associativity) : cint_scope.

Open Scope cint_scope.

(** [~x] on [uint32_t]. *)
Definition not32 (z : Z) : Z := u32 (Z.lnot z).

Definition is_u32 (z : Z) : Prop := 0 <= z < 4294967296.
Definition is_u8 (z : Z) : Prop := 0 <= z < 256.

(** [__builtin_ffs]: one plus the index of the least significant one bit,
    zero for zero. *)
Fixpoint pos_ffs (p : positive) : Z :=
  match p with
  | xI _ => 1
  | xH => 1
  | xO q => 1 + pos_ffs q
  end.
Definition builtin_ffs (z : Z) : Z :=
  match z with Zpos p => pos_ffs p | _ => 0 end.

(** ** Little-endian words in byte buffers *)
Fixpoint le_bytes (n : nat) (z : Z) : list Z :=
  match n with
  | O => []
  | S n => z mod 256 :: le_bytes n (z / 256)
  end.

Fixpoint le_val (bs : list Z) : Z :=
  match bs with
  | [] => 0
  | b :: bs => b + 256 * le_val bs
  end.

(** The [n] bytes of [buf] from offset [off], when they are all inside. *)
Definition slice (buf : list Z) (off n : Z) : option (list Z) :=
  if (0 <=? off) && (0 <=? n) && (off + n <=? Z.of_nat (length buf))
  then Some (take (Z.to_nat n) (drop (Z.to_nat off) buf))
  else None.

(** [buf] with the bytes from [off] on replaced by [src]. *)
Definition blit (buf : list Z) (off : Z) (src : list Z) : option (list Z) :=
  if (0 <=? off) && (off + Z.of_nat (length src) <=? Z.of_nat (length buf))
  then Some (take (Z.to_nat off) buf ++ src ++
             drop (Z.to_nat off + length src) buf)
  else None.

Definition get_le (n : nat) (buf : list Z) (off : Z) : option Z :=
  le_val <$> slice buf off (Z.of_nat n).
Definition put_le (n : nat) (buf : list Z) (off v : Z) : option (list Z) :=
  blit buf off (le_bytes n v).

Abbreviation get_u8 := (get_le 1).
Abbreviation get_u16 := (get_le 2).
Abbreviation get_u32 := (get_le 4).
Abbreviation get_u64 := (get_le 8).
Abbreviation put_u8 := (put_le 1).
Abbreviation put_u16 := (put_le 2).
Abbreviation put_u32 := (put_le 4).

(** Array reads and writes by a C index: out of range is a fault. *)
Definition znth {A} (l : list A) (i : Z) : option A :=
  if 0 <=? i then l !! Z.to_nat i else None.
Definition zset {A} (l : list A) (i : Z) (x : A) : option (list A) :=
  if (0 <=? i) && (i <? Z.of_nat (length l)) then Some (<[Z.to_nat i := x]> l)
  else None.

(** A word memory with the [n] words from [a] on cleared. *)
Fixpoint zero_words (n : nat) (a : Z) (m : gmap Z Z) : gmap Z Z :=
  match n with
  | O => m
  | S n => <[a := 0]> (zero_words n (a + 4) m)
  end.

(** ** Tactics *)

(** Linear arithmetic with division and modulo by constants. *)
Ltac zlia := Z.to_euclidean_division_equations; lia.

(** Case analysis on a boolean comparison of the code. *)
Ltac case_bool :=
  match goal with
  | |- context [if ?b then _ else _] => destruct b eqn:?
  | H : context [if ?b then _ else _] |- _ => destruct b eqn:?
  end.

Ltac simp_outcome :=
  repeat match goal with
  | H : Ret _ = Ret _ |- _ => injection H as H; try subst
  | H : Ret _ = Fault |- _ => discriminate H
  | H : Ret _ = Diverge |- _ => discriminate H
  | H : Fault = Ret _ |- _ => discriminate H
  | H : Diverge = Ret _ |- _ => discriminate H
  | H : (_, _) = (_, _) |- _ => injection H as ??; try subst
  end.

(** ** Hint databases *)
Create HintDb kernel discriminated.

(** ** Rules of the program logic *)
Lemma st_bind_Ret {S A B} (m : ST S A) (k : A -> ST S B) s a s' :
  m s = Ret (a, s') -> (m ≫= k) s = k a s'.
Proof. unfold mbind, ST_bind. by intros ->. Qed.

(** Run the first command of a sequence with a tactic that proves what it returns. *)
Tactic Notation "pstep" tactic3(tac) := erewrite st_bind_Ret; [|tac].

Lemma st_bind_ext {S A B} (m : ST S A) (k k' : A -> ST S B) s :
  (forall a s', k a s' = k' a s') -> (m ≫= k) s = (m ≫= k') s.
Proof. intros Hk. unfold mbind, ST_bind. by destruct (m s) as [[a s']| |]. Qed.

Lemma st_bind_Fault {S A B} (m : ST S A) (k : A -> ST S B) s : m s = Fault -> (m ≫= k) s = Fault.
Proof. unfold mbind, ST_bind. by intros ->. Qed.

Lemma st_bind_Diverge {S A B} (m : ST S A) (k : A -> ST S B) s : m s = Diverge -> (m ≫= k) s = Diverge.
Proof. unfold mbind, ST_bind. by intros ->. Qed.

Lemma st_bind_inv {S A B} (m : ST S A) (k : A -> ST S B) s b s2 : (m ≫= k) s = Ret (b, s2) ->
  exists a s1, m s = Ret (a, s1) /\ k a s1 = Ret (b, s2).
Proof. unfold mbind, ST_bind. destruct (m s) as [[a s1]| |]; [|done|done]. by exists a, s1. Qed.

(** The value and the state a closed run ends with; [run_final] establishes a run
    from its value alone. *)
Definition ret_val {S A} (o : outcome (A * S)) : option A := match o with Ret (a, _) => Some a | _ => None end.
Definition final {S A} (c : ST S A) (s : S) : S := match c s with Ret (_, s') => s' | _ => s end.

Lemma run_final {S A} (c : ST S A) s a : ret_val (c s) = Some a -> c s = Ret (a, final c s).
Proof. unfold final. destruct (c s) as [[a' s']| |]; [|done|done]. by intros [= ->]. Qed.

(** What holds of every value [c] returns. *)
Definition returns {S A} (c : ST S A) (Q : A -> Prop) : Prop := forall s a s', c s = Ret (a, s') -> Q a.
Lemma returns_ret {S A} (a : A) Q : Q a -> returns (S := S) (mret a) Q.
Proof. by intros H s b s' [= <- _]. Qed.
Lemma returns_bind {S A B} (m : ST S A) (k : A -> ST S B) Q : (forall a, returns (k a) Q) -> returns (m ≫= k) Q.
Proof. intros Hk s b s2 (a & s1 & _ & H)%st_bind_inv. by eapply Hk. Qed.
Lemma returns_then {S A B} (m : ST S A) (k : A -> ST S B) P Q :
  returns m P -> (forall a, P a -> returns (k a) Q) -> returns (m ≫= k) Q.
Proof. intros Hm Hk s b s2 (a & s1 & H1 & H)%st_bind_inv. eapply Hk; [by eapply Hm|done]. Qed.

Section wp.
Context {S : Type}.

Lemma wp_ret {A} (a : A) (s : S) Q : Q a s -> wp (mret a) s Q.
Proof. done. Qed.

Lemma wp_bind {A B} (c : ST S A) (k : A -> ST S B) s Q :
  wp c s (fun a s' => wp (k a) s' Q) -> wp (c ≫= k) s Q.
Proof.
  unfold wp, mbind, ST_bind. by destruct (c s) as [[a s']| |].
Qed.

Lemma wp_bind_inv {A B} (c : ST S A) (k : A -> ST S B) s Q :
  wp (c ≫= k) s Q -> wp c s (fun a s' => wp (k a) s' Q).
Proof.
  unfold wp, mbind, ST_bind. by destruct (c s) as [[a s']| |].
Qed.

Lemma wp_bind_Ret {A B} (c : ST S A) (k : A -> ST S B) s a s' Q :
  c s = Ret (a, s') -> wp (k a) s' Q -> wp (c ≫= k) s Q.
Proof. unfold wp, mbind, ST_bind. by intros ->. Qed.

Lemma wp_mono {A} (c : ST S A) s (P Q : A -> S -> Prop) :
  wp c s P -> (forall a s', P a s' -> Q a s') -> wp c s Q.
Proof. unfold wp. destruct (c s) as [[a s']| |]; auto. Qed.

Lemma wp_gets {A} (f : S -> A) s Q : Q (f s) s -> wp (st_gets f) s Q.
Proof. done. Qed.

Lemma wp_get (s : S) Q : Q s s -> wp st_get s Q.
Proof. done. Qed.

Lemma wp_modify (f : S -> S) s Q : Q tt (f s) -> wp (st_modify f) s Q.
Proof. done. Qed.

Lemma wp_lift_some {A} (o : option A) (a : A) (s : S) Q :
  o = Some a -> Q a s -> wp (st_lift (of_option o)) s Q.
Proof. by intros ->. Qed.

(** The rule of a counted loop: an invariant indexed by the counter. *)
Lemma wp_for (I : Z -> S -> Prop) n : forall i body s (Q : unit -> S -> Prop),
  I i s ->
  (forall j s, i <= j < i + Z.of_nat n -> I j s -> wp (body j) s (fun _ s' => I (j + 1) s')) ->
  (forall s', I (i + Z.of_nat n) s' -> Q tt s') ->
  wp (st_for n i body) s Q.
Proof.
  induction n as [|n IH]; intros i body s Q Hi Hb HQ; cbn [st_for].
  - apply wp_ret, HQ. by rewrite Z.add_0_r.
  - apply wp_bind. eapply wp_mono; [apply Hb; [lia|done]|]. intros [] s1 H1.
    apply IH; [done| |].
    + intros j s2 Hj. apply Hb. lia.
    + intros s' Hs'. apply HQ. by replace (i + Z.of_nat (Datatypes.S n)) with (i + 1 + Z.of_nat n) by lia.
Qed.

(** A total run is a returned value. *)
Lemma wp_run {A} (c : ST S A) s Q :
  wp c s Q <-> exists a s', c s = Ret (a, s') /\ Q a s'.
Proof.
  unfold wp. split.
  - destruct (c s) as [[a s']| |]; [eauto|done|done].
  - intros (a & s' & -> & HQ). done.
Qed.
End wp.

(** ** Lemmas on machine integers *)
Lemma u32_range z : is_u32 (u32 z).
Proof. unfold is_u32, u32. zlia. Qed.

Lemma u32_small z : is_u32 z -> u32 z = z.
Proof. unfold is_u32, u32. intros. apply Z.mod_small. lia. Qed.

Lemma u8_range z : is_u8 (u8 z).
Proof. unfold is_u8, u8. zlia. Qed.

Lemma u8_small z : is_u8 z -> u8 z = z.
Proof. unfold is_u8, u8. intros. apply Z.mod_small. lia. Qed.

#[export] Hint Resolve u32_range u32_small u8_range u8_small : kernel.

Lemma testbit_lt_pow2 z n i : 0 <= z < 2 ^ n -> n <= i -> Z.testbit z i = false.
Proof.
  intros Hz Hi. destruct (decide (0 <= n)) as [Hn|].
  - rewrite <- (Z.mod_small z (2 ^ n)) by lia. by apply Z.mod_pow2_bits_high; lia.
  - rewrite (Z.pow_neg_r 2 n) in Hz by lia. lia.
Qed.

Lemma u32_testbit z i : 0 <= i ->
  Z.testbit (u32 z) i = (i <? 32) && Z.testbit z i.
Proof.
  intros Hi. unfold u32. change 4294967296 with (2 ^ 32).
  destruct (Z.ltb_spec i 32).
  - rewrite Z.mod_pow2_bits_low by lia. done.
  - rewrite Z.mod_pow2_bits_high by lia. done.
Qed.

Lemma not32_testbit z i : 0 <= i -> is_u32 z ->
  Z.testbit (not32 z) i = (i <? 32) && negb (Z.testbit z i).
Proof. intros Hi Hz. unfold not32. rewrite u32_testbit, Z.lnot_spec by lia. done. Qed.

Lemma shiftl_1_testbit k i : 0 <= k -> Z.testbit (Z.shiftl 1 k) i = (i =? k).
Proof.
  intros Hk. rewrite Z.shiftl_1_l.
  destruct (Z.eqb_spec i k) as [->|].
  - by apply Z.pow2_bits_true.
  - by apply Z.pow2_bits_false; lia.
Qed.

(** A nonnegative number with no bit at or above 32 is a [uint32_t]. *)
Lemma is_u32_bits z : 0 <= z -> (forall i, 32 <= i -> Z.testbit z i = false) -> is_u32 z.
Proof.
  intros Hz Hb. split; [done|].
  destruct (decide (z < 4294967296)) as [|Hge]; [done|]. exfalso.
  assert (Hl : 32 <= Z.log2 z).
  { change 32 with (Z.log2 4294967296). apply Z.log2_le_mono. lia. }
  specialize (Hb _ Hl). rewrite Z.bit_log2 in Hb by lia. done.
Qed.

(** Masking the low bits off rounds down. *)
Lemma land_not32_ones w n : is_u32 w -> 0 <= n <= 32 ->
  Z.land w (not32 (Z.ones n)) = w - w mod 2 ^ n.
Proof.
  intros Hw Hn. rewrite <- Z.land_ones by lia.
  assert (Z.land w (not32 (Z.ones n)) = Z.ldiff w (Z.ones n)) as ->.
  { apply Z.bits_inj'. intros i Hi. rewrite Z.land_spec, Z.ldiff_spec.
    unfold not32. rewrite u32_testbit, Z.lnot_spec by lia.
    destruct (Z.ltb_spec i 32); [done|].
    rewrite (testbit_lt_pow2 w 32) by (unfold is_u32 in Hw; lia). done. }
  symmetry. apply Z.sub_move_r. rewrite Z.add_nocarry_lxor;
    apply Z.bits_inj'; intros i Hi; rewrite ?Z.lxor_spec, ?Z.land_spec, Z.ldiff_spec, ?Z.land_spec, ?Z.bits_0;
    by destruct (Z.testbit w i), (Z.testbit (Z.ones n) i).
Qed.

(** A value below [2 ^ n] joined with one shifted up by [n]. *)
Lemma lor_low_high n a b : 0 <= n -> 0 <= a < 2 ^ n -> Z.lor a (Z.shiftl b n) = a + b * 2 ^ n.
Proof.
  intros Hn Ha. rewrite <- Z.shiftl_mul_pow2 by done. rewrite <- Z.add_lor_land.
  enough (Z.land a (Z.shiftl b n) = 0) as -> by lia.
  apply Z.bits_inj'. intros i Hi. rewrite Z.land_spec, Z.shiftl_spec, Z.bits_0 by done.
  destruct (decide (i < n)) as [|Hge].
  - rewrite (Z.testbit_neg_r b) by lia. apply andb_false_r.
  - by rewrite (testbit_lt_pow2 a n) by lia.
Qed.

Lemma land_mask n z : 0 <= n -> Z.land z (Z.ones n) = z mod 2 ^ n.
Proof. apply Z.land_ones. Qed.

(** *** Find first set *)
Lemma pos_ffs_pos p : 0 < pos_ffs p.
Proof. induction p; simpl; lia. Qed.

Lemma pos_ffs_bit p : Z.testbit (Zpos p) (pos_ffs p - 1) = true.
Proof.
  induction p as [p IH|p IH|]; [done| |done].
  simpl pos_ffs. pose proof (pos_ffs_pos p).
  replace (1 + pos_ffs p - 1) with (Z.succ (pos_ffs p - 1)) by lia.
  rewrite Pos2Z.pos_xO, Z.testbit_even_succ by lia. done.
Qed.

Lemma builtin_ffs_spec z : 0 < z ->
  0 < builtin_ffs z /\ Z.testbit z (builtin_ffs z - 1) = true.
Proof.
  intros Hz. destruct z as [|p|p]; [lia| |lia].
  split; [apply pos_ffs_pos | apply pos_ffs_bit].
Qed.

(** *** Little-endian encoding *)
Lemma length_le_bytes n z : length (le_bytes n z) = n.
Proof. revert z. induction n; intros; simpl; [done|]. by rewrite IHn. Qed.

Lemma le_bytes_range n z : Forall is_u8 (le_bytes n z).
Proof.
  revert z. induction n; intros; simpl; constructor; [|done].
  unfold is_u8. zlia.
Qed.

Lemma le_val_bytes n z : le_val (le_bytes n z) = z mod 256 ^ Z.of_nat n.
Proof.
  revert z. induction n as [|n IH]; intros z; cbn [le_bytes le_val].
  - by rewrite Z.pow_0_r, Z.mod_1_r.
  - rewrite IH, Nat2Z.inj_succ, Z.pow_succ_r by lia.
    rewrite Z.rem_mul_r by lia. lia.
Qed.

Lemma le_val_bytes_small n z : 0 <= z < 256 ^ Z.of_nat n -> le_val (le_bytes n z) = z.
Proof. intros. rewrite le_val_bytes. by apply Z.mod_small. Qed.

Lemma le_val_range bs : Forall is_u8 bs -> 0 <= le_val bs < 256 ^ Z.of_nat (length bs).
Proof.
  induction 1 as [|b bs Hb _ IH]; cbn [le_val length]; [lia|].
  rewrite Nat2Z.inj_succ, Z.pow_succ_r by lia. unfold is_u8 in Hb. lia.
Qed.

Lemma le_bytes_val bs : Forall is_u8 bs -> le_bytes (length bs) (le_val bs) = bs.
Proof.
  induction 1 as [|b bs Hb _ IH]; cbn [le_val length le_bytes]; [done|].
  unfold is_u8 in Hb. f_equal.
  - zlia.
  - replace ((b + 256 * le_val bs) / 256) with (le_val bs) by zlia. done.
Qed.

(** *** Buffers *)
Lemma slice_length buf off n l : slice buf off n = Some l -> Z.of_nat (length l) = n.
Proof.
  unfold slice. case_bool; [|done]. intros [= <-].
  rewrite length_take, length_drop. lia.
Qed.

Lemma blit_length buf off src buf' :
  blit buf off src = Some buf' -> length buf' = length buf.
Proof.
  unfold blit. case_bool; [|done]. intros [= <-].
  rewrite !length_app, length_take, length_drop. lia.
Qed.

Lemma blit_is_Some buf off src :
  0 <= off -> off + Z.of_nat (length src) <= Z.of_nat (length buf) ->
  is_Some (blit buf off src).
Proof. intros. unfold blit. case_bool; [eauto|lia]. Qed.

Lemma slice_is_Some buf off n :
  0 <= off -> 0 <= n -> off + n <= Z.of_nat (length buf) -> is_Some (slice buf off n).
Proof. intros. unfold slice. case_bool; [eauto|lia]. Qed.

(** Reading back exactly what was written. *)
Lemma slice_blit_same buf off src buf' :
  blit buf off src = Some buf' -> slice buf' off (Z.of_nat (length src)) = Some src.
Proof.
  intros Hb. pose proof (blit_length _ _ _ _ Hb) as Hl. revert Hb.
  unfold blit, slice. case_bool; [|done]. intros [= <-]. rewrite Hl.
  case_bool; [|lia]. f_equal.
  assert (Ht : length (take (Z.to_nat off) buf) = Z.to_nat off)
    by (rewrite length_take; lia).
  rewrite drop_app_ge, Ht, Nat.sub_diag, drop_0 by lia.
  rewrite Nat2Z.id. by rewrite take_app_length.
Qed.

(** Bytes outside the written range are untouched. *)
Lemma slice_blit_other buf off src buf' off2 n :
  blit buf off src = Some buf' ->
  off2 + n <= off \/ off + Z.of_nat (length src) <= off2 ->
  slice buf' off2 n = slice buf off2 n.
Proof.
  intros Hb Hd. pose proof (blit_length _ _ _ _ Hb) as Hl. revert Hb.
  unfold blit, slice. case_bool; [|done]. intros [= <-]. rewrite Hl.
  case_bool; [|done]. f_equal. apply list_eq. intros i.
  destruct (decide (i < Z.to_nat n)%nat).
  2: { rewrite !lookup_take_ge by lia. done. }
  rewrite !lookup_take_lt by lia. rewrite !lookup_drop.
  destruct Hd.
  - rewrite lookup_app_l by (rewrite length_take; lia).
    rewrite lookup_take_lt by lia. done.
  - rewrite lookup_app_r by (rewrite length_take; lia). rewrite length_take.
    rewrite lookup_app_r by lia. rewrite lookup_drop. f_equal. lia.
Qed.

Lemma get_put_le_same n buf off v buf' :
  put_le n buf off v = Some buf' -> 0 <= v < 256 ^ Z.of_nat n ->
  get_le n buf' off = Some v.
Proof.
  unfold put_le, get_le. intros Hb Hv. apply slice_blit_same in Hb.
  rewrite length_le_bytes in Hb. rewrite Hb. simpl. by rewrite le_val_bytes_small.
Qed.

Lemma get_put_le_other n m buf off v buf' off2 :
  put_le n buf off v = Some buf' ->
  off2 + Z.of_nat m <= off \/ off + Z.of_nat n <= off2 ->
  get_le m buf' off2 = get_le m buf off2.
Proof.
  unfold put_le, get_le. intros Hb Hd. erewrite slice_blit_other; [done|done|].
  by rewrite length_le_bytes.
Qed.

(** A stretch of a buffer given by what is around it. *)
Lemma slice_at buf pre l post off n : buf = pre ++ l ++ post -> off = Z.of_nat (length pre) -> n = Z.of_nat (length l) ->
  slice buf off n = Some l.
Proof.
  intros -> -> ->. unfold slice. rewrite !length_app. case_bool; [|lia]. f_equal.
  by rewrite !Nat2Z.id, drop_app_length, take_app_length.
Qed.

Lemma blit_at buf pre old post off new : buf = pre ++ old ++ post -> off = Z.of_nat (length pre) -> length new = length old ->
  blit buf off new = Some (pre ++ new ++ post).
Proof.
  intros -> -> Hl. unfold blit. rewrite !length_app. case_bool; [|lia]. do 2 f_equal.
  - by rewrite Nat2Z.id, take_app_length.
  - f_equal. rewrite Nat2Z.id, Hl, <- drop_drop, drop_app_length, drop_app_length. done.
Qed.

Lemma get_le_at n v buf pre post off : buf = pre ++ le_bytes n v ++ post -> off = Z.of_nat (length pre) ->
  0 <= v < 256 ^ Z.of_nat n -> get_le n buf off = Some v.
Proof.
  intros Hb Ho Hv. unfold get_le. rewrite (slice_at buf pre (le_bytes n v) post) by (rewrite ?length_le_bytes; done).
  cbn. by rewrite le_val_bytes_small.
Qed.

Lemma put_le_at n v buf pre old post off : buf = pre ++ old ++ post -> off = Z.of_nat (length pre) -> length old = n ->
  put_le n buf off v = Some (pre ++ le_bytes n v ++ post).
Proof. intros Hb Ho Hl. unfold put_le. eapply blit_at; [exact Hb|done|by rewrite length_le_bytes]. Qed.

Lemma slice_inv buf off n l : slice buf off n = Some l ->
  exists pre post, buf = pre ++ l ++ post /\ off = Z.of_nat (length pre) /\ n = Z.of_nat (length l).
Proof.
  intros Hs. pose proof (slice_length _ _ _ _ Hs) as Hn. revert Hs. unfold slice. case_bool; [|done]. intros [= <-].
  exists (take (Z.to_nat off) buf), (drop (Z.to_nat n) (drop (Z.to_nat off) buf)). rewrite !take_drop, length_take. split_and!; (done || lia).
Qed.

Lemma blit_inv buf off new b : blit buf off new = Some b ->
  exists pre old post, buf = pre ++ old ++ post /\ off = Z.of_nat (length pre) /\ length old = length new /\
    b = pre ++ new ++ post.
Proof.
  unfold blit. case_bool; [|done]. intros [= <-].
  exists (take (Z.to_nat off) buf), (take (length new) (drop (Z.to_nat off) buf)), (drop (length new) (drop (Z.to_nat off) buf)).
  rewrite !take_drop, !length_take, length_drop, drop_drop. split_and!; (done || lia).
Qed.

(** Adjacent stretches. *)
Lemma slice_join buf a n m x y : slice buf a n = Some x -> slice buf (a + n) m = Some y -> slice buf a (n + m) = Some (x ++ y).
Proof.
  intros (pre & post & E & -> & ->)%slice_inv (pre2 & post2 & E2 & Ho & ->)%slice_inv. subst buf.
  rewrite app_assoc in E2. apply app_inj_1 in E2 as [<- E2]; [|rewrite length_app; lia]. subst post.
  apply (slice_at _ pre (x ++ y) post2); [by rewrite <- app_assoc|done|rewrite length_app; lia].
Qed.

Lemma blit_join buf a x y b c : blit buf a x = Some b -> blit b (a + Z.of_nat (length x)) y = Some c ->
  blit buf a (x ++ y) = Some c.
Proof.
  intros (pre & old & post & -> & -> & Hl & ->)%blit_inv (pre2 & old2 & post2 & E2 & Ho & Hl2 & ->)%blit_inv.
  rewrite app_assoc in E2. apply app_inj_1 in E2 as [<- ->]; [|rewrite length_app; lia].
  rewrite <- !app_assoc, (app_assoc x). eapply (blit_at _ pre (old ++ old2)); [by rewrite <- app_assoc|done|rewrite !length_app; lia].
Qed.

Lemma blit_full buf new : length new = length buf -> blit buf 0 new = Some new.
Proof. intros Hl. rewrite (blit_at buf [] buf [] 0 new) by (rewrite ?app_nil_r; done). by rewrite app_nil_r. Qed.

(** A sequence of blocks of the same size. *)
Lemma length_concat_blocks bs (l : list (list Z)) : Forall (fun b => Z.of_nat (length b) = bs) l ->
  Z.of_nat (length (concat l)) = bs * Z.of_nat (length l).
Proof. induction 1 as [|b l Hb _ IH]; cbn; [lia|]. rewrite length_app. lia. Qed.

Lemma concat_split bs (l : list (list Z)) k b : Forall (fun b => Z.of_nat (length b) = bs) l -> l !! k = Some b ->
  concat l = concat (take k l) ++ b ++ concat (drop (S k) l) /\ Z.of_nat (length (concat (take k l))) = bs * Z.of_nat k.
Proof.
  intros Hl Hk. split.
  - rewrite <- (take_drop_middle l k b Hk) at 1. by rewrite concat_app.
  - rewrite (length_concat_blocks bs) by (by apply Forall_take). rewrite length_take.
    pose proof (lookup_lt_Some _ _ _ Hk). do 2 f_equal. lia.
Qed.

Lemma slice_concat bs (l : list (list Z)) k b off n x : Forall (fun b => Z.of_nat (length b) = bs) l -> l !! k = Some b ->
  slice b off n = Some x -> slice (concat l) (bs * Z.of_nat k + off) n = Some x.
Proof.
  intros Hl Hk (pre & post & E & -> & ->)%slice_inv. destruct (concat_split bs l k b Hl Hk) as [-> Hlen]. subst b.
  eapply (slice_at _ (concat (take k l) ++ pre) x (post ++ concat (drop (S k) l))); [by rewrite <- !app_assoc|rewrite length_app; lia|done].
Qed.

Lemma blit_concat bs (l : list (list Z)) k b off x b' : Forall (fun b => Z.of_nat (length b) = bs) l -> l !! k = Some b ->
  blit b off x = Some b' -> blit (concat l) (bs * Z.of_nat k + off) x = Some (concat (<[k := b']> l)).
Proof.
  intros Hl Hk Hb. pose proof (lookup_lt_Some _ _ _ Hk) as Hlt.
  apply blit_inv in Hb as (pre & old & post & E & -> & Ho & ->). destruct (concat_split bs l k b Hl Hk) as [-> Hlen].
  rewrite insert_take_drop, concat_app by done. cbn [concat]. subst b.
  rewrite (blit_at _ (concat (take k l) ++ pre) old (post ++ concat (drop (S k) l)));
    [by rewrite <- !app_assoc|by rewrite <- !app_assoc|rewrite length_app; lia|done].
Qed.

Lemma get_le_app n v pre post :
  0 <= v < 256 ^ Z.of_nat n ->
  get_le n (pre ++ le_bytes n v ++ post) (Z.of_nat (length pre)) = Some v.
Proof. intros Hv. by eapply get_le_at. Qed.

(** *** Arrays *)
Lemma znth_Some {A} (l : list A) i :
  0 <= i < Z.of_nat (length l) -> is_Some (znth l i).
Proof.
  intros. unfold znth. case_bool; [|lia]. apply lookup_lt_is_Some. lia.
Qed.

Lemma znth_inv {A} (l : list A) i x :
  znth l i = Some x -> 0 <= i < Z.of_nat (length l) /\ l !! Z.to_nat i = Some x.
Proof.
  unfold znth. case_bool; [|done]. intros H. split; [|done].
  apply lookup_lt_Some in H. lia.
Qed.

Lemma zset_Some {A} (l : list A) i x :
  0 <= i < Z.of_nat (length l) -> zset l i x = Some (<[Z.to_nat i := x]> l).
Proof. intros. unfold zset. case_bool; [done|lia]. Qed.

Lemma znth_insert_list {A} (l : list A) i j x : 0 <= i < Z.of_nat (length l) -> 0 <= j ->
  znth (<[Z.to_nat i := x]> l) j = if j =? i then Some x else znth l j.
Proof.
  intros Hi Hj. unfold znth. destruct (Z.leb_spec 0 j); [|lia].
  destruct (Z.eqb_spec j i) as [->|].
  - apply list_lookup_insert_eq. lia.
  - apply list_lookup_insert_ne. lia.
Qed.

Lemma znth_None {A} (l : list A) i : Z.of_nat (length l) <= i -> znth l i = None.
Proof. intros. unfold znth. case_bool; [|done]. apply lookup_ge_None_2. lia. Qed.

Lemma zero_words_lookup n : forall a m k,
  zero_words n a m !! k =
    if (a <=? k) && (k <? a + 4 * Z.of_nat n) && ((k - a) mod 4 =? 0) then Some 0 else m !! k.
Proof.
  induction n as [|n IH]; intros a m k; cbn [zero_words].
  { by destruct (_ && _ && _) eqn:E; [lia|]. }
  destruct (decide (k = a)) as [->|Hne].
  - rewrite lookup_insert_eq. rewrite Z.sub_diag. case_bool; [done|].
    rewrite Z.mod_0_l in Heqb by lia. lia.
  - rewrite lookup_insert_ne, IH by done.
    assert (E : (k - (a + 4)) mod 4 = (k - a) mod 4) by zlia. rewrite E. clear E.
    assert ((k - a) mod 4 = 0 -> k < a \/ a + 4 <= k) by zlia.
    by repeat case_bool; try lia.
Qed.
