(* ===== verification/StringLib.v ===== *)
(** * The freestanding string library (src/src/lib/string.c)

    The routines run on a byte memory: a finite map from the addresses the
    program may touch to their bytes.  An access outside the map is a
    [Fault].  Addresses do not wrap: C pointers stay inside one object.  Loops
    over a [size_t] count recurse on the count; loops that look for a
    terminator take fuel. *)

From S2P Require Import Prelude.

Abbreviation mem := (gmap Z Z).

Definition load8 (a : Z) : ST mem Z := fun m =>
  match m !! a with Some v => Ret (v, m) | None => Fault end.
Definition store8 (a v : Z) : ST mem unit := fun m =>
  match m !! a with Some _ => Ret (tt, <[a := v]> m) | None => Fault end.

(** ** Code *)
Fixpoint memcmp_loop (n : nat) (a b : Z) : ST mem Z :=
  match n with
  | O => mret 0
  | S n =>
      x ← load8 a; y ← load8 b;
      if x <? y then mret (-1)
      else if y <? x then mret 1
      else memcmp_loop n (a + 1) (b + 1)
  end.
Definition memcmp (aptr bptr size : Z) : ST mem Z := memcmp_loop (Z.to_nat size) aptr bptr.

(** [for (i = 0; i < size; i++) dst[i] = src[i];] *)
Fixpoint copy_up (n : nat) (dst src : Z) : ST mem unit :=
  match n with
  | O => mret tt
  | S n => x ← load8 src; store8 dst x;; copy_up n (dst + 1) (src + 1)
  end.

(** [for (i = size; i != 0; i--) dst[i - 1] = src[i - 1];] *)
Fixpoint copy_down (n : nat) (dst src : Z) : ST mem unit :=
  match n with
  | O => mret tt
  | S n => x ← load8 (src + Z.of_nat n); store8 (dst + Z.of_nat n) x;; copy_down n dst src
  end.

Definition memcpy (dstptr srcptr size : Z) : ST mem Z :=
  copy_up (Z.to_nat size) dstptr srcptr;; mret dstptr.

Definition memmove (dstptr srcptr size : Z) : ST mem Z :=
  (if dstptr <? srcptr then copy_up (Z.to_nat size) dstptr srcptr
   else copy_down (Z.to_nat size) dstptr srcptr);;
  mret dstptr.

Fixpoint memset_loop (n : nat) (buf value : Z) : ST mem unit :=
  match n with
  | O => mret tt
  | S n => store8 buf (u8 value);; memset_loop n (buf + 1) value
  end.
Definition memset (bufptr value size : Z) : ST mem Z :=
  memset_loop (Z.to_nat size) bufptr value;; mret bufptr.

Fixpoint strlen_loop (fuel : nat) (str len : Z) : ST mem Z :=
  match fuel with
  | O => fun _ => Diverge
  | S fuel =>
      c ← load8 (str + len);
      if c =? 0 then mret len else strlen_loop fuel str (len + 1)
  end.
Definition strlen (fuel : nat) (str : Z) : ST mem Z := strlen_loop fuel str 0.

Fixpoint strcpy_loop (fuel : nat) (dest src : Z) : ST mem unit :=
  match fuel with
  | O => fun _ => Diverge
  | S fuel =>
      c ← load8 src; store8 dest c;;
      if c =? 0 then mret tt else strcpy_loop fuel (dest + 1) (src + 1)
  end.
Definition strcpy (fuel : nat) (dest src : Z) : ST mem Z :=
  strcpy_loop fuel dest src;; mret dest.

Fixpoint strcmp (fuel : nat) (s1 s2 : Z) : ST mem Z :=
  match fuel with
  | O => fun _ => Diverge
  | S fuel =>
      x ← load8 s1;
      if x =? 0 then y ← load8 s2; mret (x - y)
      else
        y ← load8 s2;
        if x =? y then strcmp fuel (s1 + 1) (s2 + 1) else mret (x - y)
  end.

Fixpoint strncmp_loop (n : nat) (s1 s2 : Z) : ST mem Z :=
  match n with
  | O => mret 0
  | S n =>
      x ← load8 s1;
      if x =? 0 then y ← load8 s2; mret (x - y)
      else
        y ← load8 s2;
        if x =? y then strncmp_loop n (s1 + 1) (s2 + 1) else mret (x - y)
  end.
Definition strncmp (s1 s2 n : Z) : ST mem Z := strncmp_loop (Z.to_nat n) s1 s2.

(** ** Views of memory *)

(** The bytes [l] from address [a] on. *)
Fixpoint bytes_at (m : mem) (a : Z) (l : list Z) : Prop :=
  match l with
  | [] => True
  | x :: l => m !! a = Some x /\ bytes_at m (a + 1) l
  end.

(** The C string [l] at [a]: no zero byte in [l], a terminator after it. *)
Definition cstring (m : mem) (a : Z) (l : list Z) : Prop :=
  bytes_at m a (l ++ [0]) /\ Forall (fun c => 0 < c < 256) l.

Definition mapped_range (m : mem) (a : Z) (n : nat) : Prop :=
  forall k, a <= k < a + Z.of_nat n -> is_Some (m !! k).

(** [m'] differs from [m] at most in the [n] bytes from [a]. *)
Definition changed_only (m m' : mem) (a : Z) (n : nat) : Prop :=
  forall k, ~ (a <= k < a + Z.of_nat n) -> m' !! k = m !! k.

(** The sign of the lexicographic comparison of equally long byte strings. *)
Fixpoint lex (l1 l2 : list Z) : Z :=
  match l1, l2 with
  | x :: l1, y :: l2 => if x <? y then -1 else if y <? x then 1 else lex l1 l2
  | _, _ => 0
  end.

(** The difference at the first place where two terminated strings differ. *)
Fixpoint str_diff (l1 l2 : list Z) : Z :=
  match l1, l2 with
  | x :: l1, y :: l2 => if x =? y then str_diff l1 l2 else x - y
  | x :: _, [] => x
  | [], y :: _ => - y
  | [], [] => 0
  end.

(** ** Lemmas *)
Lemma wp_load8 m a v Q : m !! a = Some v -> Q v m -> wp (load8 a) m Q.
Proof. intros Ha HQ. unfold wp, load8. by rewrite Ha. Qed.

Lemma wp_store8 m a v Q : is_Some (m !! a) -> Q tt (<[a := v]> m) -> wp (store8 a v) m Q.
Proof. intros [w Ha] HQ. unfold wp, store8. by rewrite Ha. Qed.

Lemma bytes_at_app m a l1 l2 :
  bytes_at m a (l1 ++ l2) <-> bytes_at m a l1 /\ bytes_at m (a + Z.of_nat (length l1)) l2.
Proof.
  revert a. induction l1 as [|x l1 IH]; intros a; cbn [app bytes_at length].
  - rewrite Z.add_0_r. tauto.
  - rewrite IH. replace (a + 1 + Z.of_nat (length l1)) with (a + Z.of_nat (S (length l1))) by lia.
    tauto.
Qed.

Lemma bytes_at_frame m m' a l :
  (forall k, a <= k < a + Z.of_nat (length l) -> m' !! k = m !! k) ->
  bytes_at m a l -> bytes_at m' a l.
Proof.
  revert a. induction l as [|x l IH]; intros a Hm; cbn [bytes_at length] in *; [done|].
  intros [Hx Hl]. split; [by rewrite Hm by lia|]. apply IH; [|done]. intros k Hk. apply Hm. lia.
Qed.

Lemma mapped_range_insert m a n k v : mapped_range m a n -> mapped_range (<[k := v]> m) a n.
Proof.
  intros Hm j Hj. destruct (decide (j = k)) as [->|].
  - rewrite lookup_insert_eq. eauto.
  - rewrite lookup_insert_ne by done. auto.
Qed.

Lemma wp_copy_up l : forall m dst src Q,
  bytes_at m src l -> mapped_range m dst (length l) ->
  dst < src \/ dst + Z.of_nat (length l) <= src \/ src + Z.of_nat (length l) <= dst ->
  (forall m', bytes_at m' dst l -> changed_only m m' dst (length l) -> Q tt m') ->
  wp (copy_up (length l) dst src) m Q.
Proof.
  induction l as [|x l IH]; intros m dst src Q Hsrc Hdst Ho HQ; cbn [length copy_up].
  { by apply wp_ret, HQ. }
  destruct Hsrc as [Hx Hsrc]. cbn [length] in *.
  apply wp_bind, (wp_load8 _ _ _ _ Hx), wp_bind, wp_store8; [apply Hdst; lia|].
  apply IH.
  - eapply bytes_at_frame; [|exact Hsrc]. intros k Hk. apply lookup_insert_ne. lia.
  - apply mapped_range_insert. intros k Hk. apply Hdst. lia.
  - lia.
  - intros m' Hb Hc. apply HQ.
    + split; [|done]. rewrite Hc by lia. apply lookup_insert_eq.
    + intros k Hk. rewrite Hc by lia. apply lookup_insert_ne. lia.
Qed.

Lemma wp_copy_down l : forall m dst src Q,
  bytes_at m src l -> mapped_range m dst (length l) -> src <= dst ->
  (forall m', bytes_at m' dst l -> changed_only m m' dst (length l) -> Q tt m') ->
  wp (copy_down (length l) dst src) m Q.
Proof.
  induction l as [|x l IH] using rev_ind; intros m dst src Q Hsrc Hdst Ho HQ.
  { by apply wp_ret, HQ. }
  rewrite length_app in *. cbn [length] in *. rewrite Nat.add_1_r in *. cbn [copy_down].
  apply bytes_at_app in Hsrc as [Hsrc [Hx _]].
  apply wp_bind, (wp_load8 _ _ _ _ Hx), wp_bind, wp_store8; [apply Hdst; lia|].
  apply IH.
  - eapply bytes_at_frame; [|exact Hsrc]. intros k Hk. apply lookup_insert_ne. lia.
  - apply mapped_range_insert. intros k Hk. apply Hdst. lia.
  - done.
  - intros m' Hb Hc. apply HQ.
    + apply bytes_at_app. split; [done|]. split; [|done]. rewrite Hc by lia. apply lookup_insert_eq.
    + intros k Hk. rewrite Hc by lia. apply lookup_insert_ne. lia.
Qed.

Lemma wp_memset_loop n : forall m buf v Q, mapped_range m buf n ->
  (forall m', bytes_at m' buf (replicate n (u8 v)) -> changed_only m m' buf n -> Q tt m') ->
  wp (memset_loop n buf v) m Q.
Proof.
  induction n as [|n IH]; intros m buf v Q Hm HQ; cbn [memset_loop]; [by apply wp_ret, HQ|].
  apply wp_bind, wp_store8; [apply Hm; lia|]. apply IH.
  - apply mapped_range_insert. intros k Hk. apply Hm. lia.
  - intros m' Hb Hc. apply HQ.
    + cbn [replicate bytes_at]. split; [|done]. rewrite Hc by lia. apply lookup_insert_eq.
    + intros k Hk. rewrite Hc by lia. apply lookup_insert_ne. lia.
Qed.

Lemma wp_memcmp_loop l1 : forall l2 m a b,
  bytes_at m a l1 -> bytes_at m b l2 -> length l1 = length l2 ->
  wp (memcmp_loop (length l1) a b) m (fun r m' => m' = m /\ r = lex l1 l2).
Proof.
  induction l1 as [|x l1 IH]; intros [|y l2] m a b H1 H2 Hl; try done.
  destruct H1 as [Hx H1], H2 as [Hy H2]. injection Hl as Hl. cbn [length memcmp_loop lex].
  apply wp_bind, (wp_load8 _ _ _ _ Hx), wp_bind, (wp_load8 _ _ _ _ Hy).
  case_bool; [by apply wp_ret|]. case_bool; [by apply wp_ret|]. by apply IH.
Qed.

Lemma lex_eq l1 : forall l2, length l1 = length l2 -> lex l1 l2 = 0 <-> l1 = l2.
Proof.
  induction l1 as [|x l1 IH]; intros [|y l2] Hl; try done. injection Hl as Hl. cbn [lex].
  destruct (Z.ltb_spec x y); [|destruct (Z.ltb_spec y x)].
  - split; [done|]. intros [= -> _]. lia.
  - split; [done|]. intros [= -> _]. lia.
  - assert (x = y) as -> by lia. rewrite IH by done. split; congruence.
Qed.

Lemma wp_strlen l : forall m str k fuel,
  bytes_at m (str + k) (l ++ [0]) -> Forall (fun c => 0 < c < 256) l -> (length l < fuel)%nat ->
  wp (strlen_loop fuel str k) m (fun r m' => m' = m /\ r = k + Z.of_nat (length l)).
Proof.
  induction l as [|x l IH]; intros m str k fuel Hb Hf Hfuel; (destruct fuel; [cbn in Hfuel; lia|]);
    cbn [strlen_loop app bytes_at length] in *; destruct Hb as [Hx Hb];
    apply wp_bind, (wp_load8 _ _ _ _ Hx).
  - apply wp_ret. split; [done|lia].
  - apply Forall_cons_1 in Hf as [? Hf]. destruct (Z.eqb_spec x 0); [lia|].
    eapply wp_mono; [apply IH; [by rewrite Z.add_assoc|done|lia]|].
    intros r m' [-> ->]. split; [done|lia].
Qed.

Lemma wp_strcpy l : forall m dst src fuel Q,
  bytes_at m src (l ++ [0]) -> Forall (fun c => 0 < c < 256) l ->
  mapped_range m dst (S (length l)) ->
  dst + Z.of_nat (S (length l)) <= src \/ src + Z.of_nat (S (length l)) <= dst ->
  (length l < fuel)%nat ->
  (forall m', bytes_at m' dst (l ++ [0]) -> changed_only m m' dst (S (length l)) -> Q tt m') ->
  wp (strcpy_loop fuel dst src) m Q.
Proof.
  induction l as [|x l IH]; intros m dst src fuel Q Hb Hf Hm Ho Hfuel HQ;
    (destruct fuel; [cbn in Hfuel; lia|]); cbn [strcpy_loop app bytes_at length] in *;
    destruct Hb as [Hx Hb];
    apply wp_bind, (wp_load8 _ _ _ _ Hx), wp_bind, wp_store8; try (apply Hm; lia).
  - apply wp_ret, HQ; [by rewrite lookup_insert_eq|]. intros k Hk. apply lookup_insert_ne. lia.
  - apply Forall_cons_1 in Hf as [? Hf]. destruct (Z.eqb_spec x 0); [lia|].
    apply IH; [|done| |lia|lia|].
    + eapply bytes_at_frame; [|exact Hb]. intros k Hk. rewrite length_app in Hk. cbn [length] in Hk.
      apply lookup_insert_ne. lia.
    + apply mapped_range_insert. intros k Hk. apply Hm. lia.
    + intros m' Hb' Hc. apply HQ.
      * split; [|done]. rewrite Hc by lia. apply lookup_insert_eq.
      * intros k Hk. rewrite Hc by lia. apply lookup_insert_ne. lia.
Qed.

Lemma wp_strcmp l1 : forall l2 m a b fuel,
  bytes_at m a (l1 ++ [0]) -> bytes_at m b (l2 ++ [0]) ->
  Forall (fun c => 0 < c < 256) l1 -> Forall (fun c => 0 < c < 256) l2 ->
  (length l1 < fuel)%nat ->
  wp (strcmp fuel a b) m (fun r m' => m' = m /\ r = str_diff l1 l2).
Proof.
  induction l1 as [|x l1 IH]; intros [|y l2] m a b fuel [Hx H1] [Hy H2] Hf1 Hf2 Hfuel;
    (destruct fuel; [cbn in Hfuel; lia|]); cbn [strcmp str_diff length] in *;
    apply wp_bind, (wp_load8 _ _ _ _ Hx).
  - by apply wp_bind, (wp_load8 _ _ _ _ Hy), wp_ret.
  - by apply wp_bind, (wp_load8 _ _ _ _ Hy), wp_ret.
  - apply Forall_cons_1 in Hf1 as [? _]. destruct (Z.eqb_spec x 0); [lia|].
    apply wp_bind, (wp_load8 _ _ _ _ Hy). destruct (Z.eqb_spec x 0); [lia|].
    apply wp_ret. split; [done|lia].
  - apply Forall_cons_1 in Hf1 as [? Hf1]. apply Forall_cons_1 in Hf2 as [? Hf2].
    destruct (Z.eqb_spec x 0); [lia|]. apply wp_bind, (wp_load8 _ _ _ _ Hy).
    destruct (Z.eqb_spec x y); [|by apply wp_ret]. apply IH; try done. lia.
Qed.

Lemma str_diff_eq l1 : forall l2, Forall (fun c => 0 < c < 256) l1 ->
  Forall (fun c => 0 < c < 256) l2 -> str_diff l1 l2 = 0 <-> l1 = l2.
Proof.
  induction l1 as [|x l1 IH]; intros [|y l2] H1 H2; cbn [str_diff]; [done|..].
  - apply Forall_cons_1 in H2 as [? _]. split; [lia|done].
  - apply Forall_cons_1 in H1 as [? _]. split; [lia|done].
  - apply Forall_cons_1 in H1 as [? H1]. apply Forall_cons_1 in H2 as [? H2]. destruct (Z.eqb_spec x y) as [->|].
    + rewrite IH by done. split; congruence.
    + split; [lia|]. congruence.
Qed.

(** ** Theorems *)

(** [memmove] copies correctly for every overlap of source and
    destination: it never leaves the two ranges, the destination ends up with
    the bytes the source had before the call, and no other byte changes. *)
Theorem memmove_correct m dst src l :
  bytes_at m src l -> mapped_range m dst (length l) ->
  exists m', memmove dst src (Z.of_nat (length l)) m = Ret (dst, m') /\
    bytes_at m' dst l /\ changed_only m m' dst (length l).
Proof.
  intros Hs Hd.
  enough (wp (memmove dst src (Z.of_nat (length l))) m (fun r m' =>
    r = dst /\ bytes_at m' dst l /\ changed_only m m' dst (length l))) as H.
  { apply wp_run in H as (r & m' & Hr & -> & H). eauto. }
  unfold memmove. rewrite Nat2Z.id. apply wp_bind. destruct (Z.ltb_spec dst src).
  - apply wp_copy_up; [done|done|by left|]. intros. by apply wp_ret.
  - apply wp_copy_down; [done|done|done|]. intros. by apply wp_ret.
Qed.

(** [strcmp] of two C strings ends, changes nothing and returns the
    difference of the first bytes that differ; it is zero exactly when the
    strings are equal. *)
Theorem strcmp_correct m a b l1 l2 fuel :
  cstring m a l1 -> cstring m b l2 -> (length l1 < fuel)%nat ->
  strcmp fuel a b m = Ret (str_diff l1 l2, m) /\ (str_diff l1 l2 = 0 <-> l1 = l2).
Proof.
  intros [H1 F1] [H2 F2] Hf. split; [|by apply str_diff_eq].
  pose proof (wp_strcmp l1 l2 m a b fuel H1 H2 F1 F2 Hf) as H.
  by apply wp_run in H as (r & m' & Hr & -> & ->).
Qed.

(** [strcpy] into a separate buffer of [strlen(src) + 1] bytes copies the
    string with its terminator, writes nothing else, and afterwards [strlen] of
    the copy and of the original agree. *)
Theorem strcpy_correct m dst src l fuel :
  cstring m src l -> mapped_range m dst (S (length l)) ->
  dst + Z.of_nat (S (length l)) <= src \/ src + Z.of_nat (S (length l)) <= dst ->
  (length l < fuel)%nat ->
  exists m', strcpy fuel dst src m = Ret (dst, m') /\ cstring m' dst l /\ cstring m' src l /\
    changed_only m m' dst (S (length l)) /\
    strlen fuel dst m' = Ret (Z.of_nat (length l), m') /\
    strlen fuel src m' = Ret (Z.of_nat (length l), m').
Proof.
  intros [Hs Hf] Hd Ho Hfuel.
  assert (Hlen : forall m' a, bytes_at m' a (l ++ [0]) ->
    strlen fuel a m' = Ret (Z.of_nat (length l), m')).
  { intros m' a Ha. assert (wp (strlen fuel a) m' (fun r m'' => m'' = m' /\ r = 0 + Z.of_nat (length l))) as H.
    { apply wp_strlen; [by rewrite Z.add_0_r|done|done]. }
    by apply wp_run in H as (r & ? & Hr & -> & ->). }
  enough (wp (strcpy fuel dst src) m (fun r m' => r = dst /\ bytes_at m' dst (l ++ [0]) /\
    changed_only m m' dst (S (length l)))) as H.
  { apply wp_run in H as (r & m' & Hr & -> & Hb & Hc). exists m'.
    assert (bytes_at m' src (l ++ [0])).
    { eapply bytes_at_frame; [|exact Hs]. rewrite length_app. cbn [length]. intros k Hk. apply Hc. lia. }
    unfold cstring. split_and!; auto. }
  by apply wp_bind, (wp_strcpy l).
Qed.

(** [memcmp] of two ranges returns the sign of their lexicographic
    comparison as unsigned bytes, zero exactly when the ranges hold the same
    bytes. *)
Theorem memcmp_correct m a b l1 l2 :
  bytes_at m a l1 -> bytes_at m b l2 -> length l1 = length l2 ->
  memcmp a b (Z.of_nat (length l1)) m = Ret (lex l1 l2, m) /\ (lex l1 l2 = 0 <-> l1 = l2).
Proof.
  intros H1 H2 Hl. split; [|by apply lex_eq].
  pose proof (wp_memcmp_loop l1 l2 m a b H1 H2 Hl) as H. unfold memcmp. rewrite Nat2Z.id.
  by apply wp_run in H as (r & m' & Hr & -> & ->).
Qed.

(** ** Witnesses *)
Definition sample_mem : mem :=
  list_to_map (zip (seqZ 100 12) [72; 105; 0; 9; 9; 9; 72; 106; 0; 7; 7; 7]).

Lemma memmove_correct_witness : exists m',
  memmove 101 100 3 sample_mem = Ret (101, m') /\ bytes_at m' 101 [72; 105; 0].
Proof.
  destruct (memmove_correct sample_mem 101 100 [72; 105; 0]) as (m' & H & Hb & _).
  - by vm_compute.
  - intros k Hk. assert (k = 101 \/ k = 102 \/ k = 103) as [-> |[-> | ->]] by (cbn in Hk; lia);
      by eexists.
  - exists m'. by split.
Defined.

Lemma strcmp_correct_witness : strcmp 3 100 106 sample_mem = Ret (-1, sample_mem).
Proof.
  apply (strcmp_correct sample_mem 100 106 [72; 105] [72; 106] 3).
  - split; [by vm_compute|repeat constructor; lia].
  - split; [by vm_compute|repeat constructor; lia].
  - cbn. lia.
Defined.

Lemma strcpy_correct_witness : exists m',
  strcpy 3 109 100 sample_mem = Ret (109, m') /\ strlen 3 109 m' = Ret (2, m').
Proof.
  destruct (strcpy_correct sample_mem 109 100 [72; 105] 3) as (m' & H & _ & _ & _ & Hl & _).
  - split; [by vm_compute|repeat constructor; lia].
  - intros k Hk. assert (k = 109 \/ k = 110 \/ k = 111) as [-> |[-> | ->]] by (cbn in Hk; lia);
      by eexists.
  - cbn. lia.
  - cbn. lia.
  - exists m'. by split.
Defined.

Lemma memcmp_correct_witness : memcmp 100 106 2 sample_mem = Ret (-1, sample_mem).
Proof. apply (memcmp_correct sample_mem 100 106 [72; 105] [72; 106]); by vm_compute. Defined.
