(* ===== verification/Interrupts.v ===== *)
(** * Interrupts and descriptor tables

    Port input and output (include/arch/i686/io.h), the interrupt controllers
    (pic.h), the descriptor tables (arch/i686/cpu/gdt.c, idt.c), the table of
    interrupt handlers and its dispatcher (idt.c), and the timer
    (kernel/time/time.c).

    The hardware behind the ports is a parameter: [Ports] gives the four port
    instructions, [Pic8259] states what the data sheet of the interrupt
    controller says about its mask and initialisation registers. *)

From S2P Require Import Prelude.

(** ** Port input and output (io.h) *)
Class Ports (D : Type) := {
  p_inb : Z -> D -> Z * D;
  p_outb : Z -> Z -> D -> D;
  p_inw : Z -> D -> Z * D;
  p_outw : Z -> Z -> D -> D
}.

Section io.
Context {D : Type} `{!Ports D}.
Definition inb (port : Z) : ST D Z := fun d => Ret (p_inb port d).
Definition outb (port value : Z) : ST D unit := fun d => Ret (tt, p_outb port (u8 value) d).
Definition inw (port : Z) : ST D Z := fun d => Ret (p_inw port d).
Definition outw (port value : Z) : ST D unit := fun d => Ret (tt, p_outw port (u16 value) d).
Definition io_wait : ST D unit := outb 0x80 0.
End io.

(** A machine that only records what is written to its ports. *)
Definition port_log := list (Z * Z).
#[export] Instance log_ports : Ports port_log := {
  p_inb _ l := (0, l);
  p_outb p v l := l ++ [(p, v)];
  p_inw _ l := (0, l);
  p_outw p v l := l ++ [(p, v)]
}.

(** ** The interrupt controllers (pic.h, ports.h) *)
Definition PIC_MASTER_CMD : Z := 0x20.
Definition PIC_MASTER_DATA : Z := 0x21.
Definition PIC_SLAVE_CMD : Z := 0xA0.
Definition PIC_SLAVE_DATA : Z := 0xA1.
Definition PIC_EOI : Z := 0x20.
Definition ICW1_INIT : Z := 0x10.
Definition ICW1_ICW4 : Z := 0x01.
Definition ICW4_8086 : Z := 0x01.

Section pic.
Context {D : Type} `{!Ports D}.

Definition pic_send_eoi (irq : Z) : ST D unit :=
  when (8 <=? irq) (outb PIC_SLAVE_CMD PIC_EOI);;
  outb PIC_MASTER_CMD PIC_EOI.

Definition pic_remap (offset1 offset2 : Z) : ST D unit :=
  master_mask ← inb PIC_MASTER_DATA;
  slave_mask ← inb PIC_SLAVE_DATA;
  outb PIC_MASTER_CMD (Z.lor ICW1_INIT ICW1_ICW4);;
  outb PIC_SLAVE_CMD (Z.lor ICW1_INIT ICW1_ICW4);;
  outb PIC_MASTER_DATA offset1;;
  outb PIC_SLAVE_DATA offset2;;
  outb PIC_MASTER_DATA 0x04;;
  outb PIC_SLAVE_DATA 0x02;;
  outb PIC_MASTER_DATA ICW4_8086;;
  outb PIC_SLAVE_DATA ICW4_8086;;
  outb PIC_MASTER_DATA master_mask;;
  outb PIC_SLAVE_DATA slave_mask.

(** [port] and [irq_line] after the first [if]. *)
Definition pic_line (irq_line : Z) : Z * Z :=
  if irq_line <? 8 then (PIC_MASTER_DATA, irq_line) else (PIC_SLAVE_DATA, u8 (irq_line - 8)).

Definition pic_set_mask (irq_line : Z) : ST D unit :=
  let '(port, line) := pic_line irq_line in
  v ← inb port;
  outb port (u8 (Z.lor v (Z.shiftl 1 line))).

Definition pic_clear_mask (irq_line : Z) : ST D unit :=
  let '(port, line) := pic_line irq_line in
  v ← inb port;
  outb port (u8 (Z.land v (not32 (Z.shiftl 1 line)))).

Definition pic_disable_all : ST D unit :=
  outb PIC_MASTER_DATA 0xFF;;
  outb PIC_SLAVE_DATA 0xFF.
End pic.

(** The registers of the two controllers, by the data sheet: a byte written to
    the data port is one of three initialisation words while the chip expects
    them and the mask otherwise; the first initialisation word clears the mask;
    the data port reads as the mask; an end of interrupt touches none of this. *)
Inductive chip := Master | Slave.
#[export] Instance chip_eq_dec : EqDecision chip.
Proof. solve_decision. Defined.
Definition data_port (c : chip) : Z := match c with Master => PIC_MASTER_DATA | Slave => PIC_SLAVE_DATA end.
Definition cmd_port (c : chip) : Z := match c with Master => PIC_MASTER_CMD | Slave => PIC_SLAVE_CMD end.

Record pic_regs := { pic_mask : Z; pic_expects : nat; pic_offset : Z }.

(** A byte at the data port. *)
Definition pic_data_write (v : Z) (r : pic_regs) : pic_regs :=
  match pic_expects r with
  | O => {| pic_mask := v; pic_expects := 0; pic_offset := pic_offset r |}
  | S k => {| pic_mask := pic_mask r; pic_expects := k;
              pic_offset := if (k =? 2)%nat then v else pic_offset r |}
  end.

Class Pic8259 (D : Type) `{!Ports D} := {
  pic : chip -> D -> pic_regs;
  pic_mask_byte : forall c d, is_u8 (pic_mask (pic c d));
  pic_in : forall c d, p_inb (data_port c) d = (pic_mask (pic c d), d);
  pic_out_data : forall c c' d v, is_u8 v ->
    pic c' (p_outb (data_port c) v d) = (match c, c' with
      | Master, Master | Slave, Slave => pic_data_write v (pic c' d) | _, _ => pic c' d end);
  pic_out_init : forall c c' d,
    pic c' (p_outb (cmd_port c) 0x11 d) = (match c, c' with
      | Master, Master | Slave, Slave => {| pic_mask := 0; pic_expects := 3; pic_offset := 0 |}
      | _, _ => pic c' d end);
  pic_out_eoi : forall c c' d, pic c' (p_outb (cmd_port c) PIC_EOI d) = pic c' d
}.

(** ** Segment descriptors (gdt.c, gdt.h) *)
Definition GDT_ENTRY_COUNT : Z := 6.
Definition GDT_SEGMENT_BASE : Z := 0x00000000.
Definition GDT_SEGMENT_LIMIT : Z := 0x000FFFFF.
Definition GDT_ACCESS_KERNEL_CODE : Z := 0x9A.
Definition GDT_ACCESS_KERNEL_DATA : Z := 0x92.
Definition GDT_ACCESS_USER_CODE : Z := 0xFA.
Definition GDT_ACCESS_USER_DATA : Z := 0xF2.
Definition GDT_KERNEL_CODE_SEL : Z := 0x08.
Definition GDT_KERNEL_DATA_SEL : Z := 0x10.
Definition GDT_USER_CODE_SEL : Z := 0x1B.
Definition GDT_USER_DATA_SEL : Z := 0x23.
Definition GDT_TSS_SEL : Z := 0x28.
Definition GDT_GRANULARITY_FLAGS : Z := 0xC.
Definition KERNEL_INTERRUPT_STACK_SIZE : Z := 0x4000.
Definition MASK_LOW_16BIT : Z := 0xFFFF.
Definition MASK_LOW_8BIT : Z := 0xFF.
Definition MASK_LOW_4BIT : Z := 0x0F.
Definition SHIFT_MID_BYTE : Z := 16.
Definition SHIFT_HIGH_BYTE : Z := 24.
Definition SHIFT_HIGH_LIMIT : Z := 16.
Definition SHIFT_GRAN_FLAGS : Z := 4.

Record gdt_entry := {
  limit_low : Z; base_low : Z; base_mid : Z; access : Z; gran : Z; base_high : Z
}.
Definition gdt_null : gdt_entry :=
  {| limit_low := 0; base_low := 0; base_mid := 0; access := 0; gran := 0; base_high := 0 |}.

(** The fields of [struct tss_entry] the code writes; the others stay zero. *)
Record tss_entry := { esp0 : Z; ss0 : Z; iomap_base : Z }.
Definition sizeof_tss : Z := 104.
Definition sizeof_gdt_entry : Z := 8.

(** The statics of gdt.c and what the CPU was told: the table register and the
    task register. *)
Record gdt_state := {
  gdt : list gdt_entry;
  gp_limit : Z;
  gp_base : Z;
  tss : tss_entry;
  gdtr : option (Z * Z);
  tr : Z
}.

(** The descriptor [gdt_set_entry] stores. *)
Definition encode_entry (base limit acc flags_high_nibble : Z) : gdt_entry :=
  {| limit_low := u16 (Z.land limit MASK_LOW_16BIT);
     base_low := u16 (Z.land base MASK_LOW_16BIT);
     base_mid := u8 (Z.land (Z.shiftr base SHIFT_MID_BYTE) MASK_LOW_8BIT);
     access := acc;
     gran := u8 (Z.lor (Z.land (Z.shiftr limit SHIFT_HIGH_LIMIT) MASK_LOW_4BIT)
                       (Z.shiftl flags_high_nibble SHIFT_GRAN_FLAGS));
     base_high := u8 (Z.land (Z.shiftr base SHIFT_HIGH_BYTE) MASK_LOW_8BIT) |}.

Definition set_gdt (g : list gdt_entry) (s : gdt_state) : gdt_state :=
  {| gdt := g; gp_limit := gp_limit s; gp_base := gp_base s; tss := tss s; gdtr := gdtr s; tr := tr s |}.

Definition gdt_set_entry (i base limit acc flags_high_nibble : Z) : ST gdt_state unit := fun s =>
  match zset (gdt s) i (encode_entry base limit acc flags_high_nibble) with
  | Some g => Ret (tt, set_gdt g s)
  | None => Fault
  end.

Definition tss_set_stack (e : Z) : ST gdt_state unit := st_modify (fun s =>
  {| gdt := gdt s; gp_limit := gp_limit s; gp_base := gp_base s;
     tss := {| esp0 := e; ss0 := ss0 (tss s); iomap_base := iomap_base (tss s) |};
     gdtr := gdtr s; tr := tr s |}).

(** [gdt_load] and [tss_load] of lgdt.s tell the CPU. *)
Definition gdt_load : ST gdt_state unit := st_modify (fun s =>
  {| gdt := gdt s; gp_limit := gp_limit s; gp_base := gp_base s; tss := tss s;
     gdtr := Some (gp_limit s, gp_base s); tr := tr s |}).
Definition tss_load (sel : Z) : ST gdt_state unit := st_modify (fun s =>
  {| gdt := gdt s; gp_limit := gp_limit s; gp_base := gp_base s; tss := tss s; gdtr := gdtr s; tr := sel |}).

(** [gdt_init]; the addresses of [gdt], [tss] and the interrupt stack are
    arguments. *)
Definition gdt_init (gdt_addr tss_addr stack_addr : Z) : ST gdt_state unit :=
  st_modify (fun s =>
    {| gdt := gdt s; gp_limit := u16 (GDT_ENTRY_COUNT * sizeof_gdt_entry - 1); gp_base := gdt_addr;
       tss := tss s; gdtr := gdtr s; tr := tr s |});;
  gdt_set_entry 0 0 0 0 0;;
  gdt_set_entry 1 GDT_SEGMENT_BASE GDT_SEGMENT_LIMIT GDT_ACCESS_KERNEL_CODE GDT_GRANULARITY_FLAGS;;
  gdt_set_entry 2 GDT_SEGMENT_BASE GDT_SEGMENT_LIMIT GDT_ACCESS_KERNEL_DATA GDT_GRANULARITY_FLAGS;;
  gdt_set_entry 3 GDT_SEGMENT_BASE GDT_SEGMENT_LIMIT GDT_ACCESS_USER_CODE GDT_GRANULARITY_FLAGS;;
  gdt_set_entry 4 GDT_SEGMENT_BASE GDT_SEGMENT_LIMIT GDT_ACCESS_USER_DATA GDT_GRANULARITY_FLAGS;;
  st_modify (fun s =>
    {| gdt := gdt s; gp_limit := gp_limit s; gp_base := gp_base s;
       tss := {| esp0 := u32 (stack_addr + KERNEL_INTERRUPT_STACK_SIZE); ss0 := GDT_KERNEL_DATA_SEL;
                 iomap_base := u16 sizeof_tss |};
       gdtr := gdtr s; tr := tr s |});;
  gdt_set_entry 5 tss_addr (u32 (sizeof_tss - 1)) 0x89 0x0;;
  gdt_load;;
  tss_load GDT_TSS_SEL.

(** How the CPU reads a descriptor. *)
Definition desc_base (e : gdt_entry) : Z := base_low e + 65536 * base_mid e + 16777216 * base_high e.
Definition desc_limit (e : gdt_entry) : Z := limit_low e + 65536 * (gran e mod 16).
Definition desc_flags (e : gdt_entry) : Z := gran e / 16.
(** Bytes from 0 to the last one the segment covers. *)
Definition desc_last (e : gdt_entry) : Z :=
  if Z.testbit (desc_flags e) 3 then desc_limit e * 4096 + 4095 else desc_limit e.
Definition desc_dpl (e : gdt_entry) : Z := (access e / 32) mod 4.
(** The descriptor a selector names. *)
Definition selected (s : gdt_state) (sel : Z) : option gdt_entry := znth (gdt s) (sel / 8).

(** ** Interrupt gates and handlers (idt.c, idt.h) *)
Definition INTURRUPT_COUNT : Z := 256.
Definition MAX_HANDELERS_PER_INTURRUPT : Z := 4.
Definition IDT_TRAP_GATE_USER : Z := 0xEF.
Definition SYSCALL_INT : Z := 0x67.
Definition EXCEPTION_COUNT : Z := 32.
Definition IRQ_COUNT : Z := 16.
Definition IDT_INTERRUPT_GATE : Z := 0x8E.
Definition SHIFT_HIGH_16BIT : Z := 16.
Definition PIC_MASTER_OFFSET : Z := 0x20.
Definition PIC_SLAVE_OFFSET : Z := 0x28.
Definition IRQ_BASE_VECTOR : Z := 0x20.
Definition sizeof_idt_entry : Z := 8.

Definition irq_to_vector (irq : Z) : Z := irq + IRQ_BASE_VECTOR.
Definition vector_to_irq (vec : Z) : Z := vec - IRQ_BASE_VECTOR.

Record idt_entry := { isr_low : Z; kernel_cs : Z; reserved : Z; attributes : Z; isr_high : Z }.
Definition idt_zero : idt_entry :=
  {| isr_low := 0; kernel_cs := 0; reserved := 0; attributes := 0; isr_high := 0 |}.

Definition encode_gate (base sel flags : Z) : idt_entry :=
  {| isr_low := u16 (Z.land base MASK_LOW_16BIT); kernel_cs := sel; reserved := 0;
     attributes := flags; isr_high := u16 (Z.land (Z.shiftr base SHIFT_HIGH_16BIT) MASK_LOW_16BIT) |}.

(** The address of the handler as the CPU assembles it. *)
Definition gate_target (e : idt_entry) : Z := isr_low e + 65536 * isr_high e.

(** The statics of idt.c, the table of the linker script, the ports and what
    the CPU was told. *)
Record idt_state (D : Type) := {
  io : D;
  idt : list idt_entry;
  isr_table : list Z;
  idtr : option (Z * Z);
  interrupts_on : bool
}.
Arguments io {D} _. Arguments idt {D} _. Arguments isr_table {D} _.
Arguments idtr {D} _. Arguments interrupts_on {D} _.

Section idt.
Context {D : Type} `{!Ports D}.

Definition on_io {A} (c : ST D A) : ST (idt_state D) A := fun s =>
  match c (io s) with
  | Ret (a, d) => Ret (a, {| io := d; idt := idt s; isr_table := isr_table s; idtr := idtr s;
                             interrupts_on := interrupts_on s |})
  | Fault => Fault
  | Diverge => Diverge
  end.

Definition idt_set_gate (num base sel flags : Z) : ST (idt_state D) unit := fun s =>
  match zset (idt s) num (encode_gate base sel flags) with
  | Some l => Ret (tt, {| io := io s; idt := l; isr_table := isr_table s; idtr := idtr s;
                          interrupts_on := interrupts_on s |})
  | None => Fault
  end.

Definition set_isr_table (t : list Z) (s : idt_state D) : idt_state D :=
  {| io := io s; idt := idt s; isr_table := t; idtr := idtr s; interrupts_on := interrupts_on s |}.

(** [exceptions[i]], [irqs[i]] and [isr103] of interrupts.s are arguments. *)
Definition idt_init (exceptions irqs : Z -> Z) (syscall idt_addr : Z) : ST (idt_state D) unit :=
  on_io pic_disable_all;;
  on_io (pic_remap PIC_MASTER_OFFSET PIC_SLAVE_OFFSET);;
  st_modify (set_isr_table (replicate (Z.to_nat (INTURRUPT_COUNT * MAX_HANDELERS_PER_INTURRUPT)) 0));;
  st_for (Z.to_nat EXCEPTION_COUNT) 0 (fun i =>
    idt_set_gate (u8 i) (exceptions i) GDT_KERNEL_CODE_SEL IDT_INTERRUPT_GATE);;
  st_for (Z.to_nat IRQ_COUNT) 0 (fun i =>
    idt_set_gate (u8 (EXCEPTION_COUNT + i)) (irqs i) GDT_KERNEL_CODE_SEL IDT_INTERRUPT_GATE);;
  idt_set_gate SYSCALL_INT syscall GDT_KERNEL_CODE_SEL IDT_TRAP_GATE_USER;;
  st_modify (fun s =>
    {| io := io s; idt := idt s; isr_table := isr_table s;
       idtr := Some (u16 (INTURRUPT_COUNT * sizeof_idt_entry - 1), idt_addr); interrupts_on := true |}).
End idt.

(** The slot [i] of vector [num]. *)
Definition isr_slot (num i : Z) : Z := num * MAX_HANDELERS_PER_INTURRUPT + i.

Definition isr_register_handler (num handler : Z) (table : list Z) : outcome (list Z) :=
  of_option (zset table (isr_slot num 0) handler).

Fixpoint unregister_loop (n : nat) (i num handler : Z) (table : list Z) : outcome (list Z) :=
  match n with
  | O => Ret table
  | S n =>
      h ← of_option (znth table (isr_slot num i));
      if h =? handler then of_option (zset table (isr_slot num i) 0)
      else unregister_loop n (i + 1) num handler table
  end.
Definition isr_unregister_handler (num handler : Z) (table : list Z) : outcome (list Z) :=
  unregister_loop (Z.to_nat MAX_HANDELERS_PER_INTURRUPT) 0 num handler table.

(** The dispatcher, for a state [S] that holds the table and the ports;
    [call h] runs the function at address [h]. *)
Section dispatch.
Context {S : Type} (table : S -> list Z) (out : Z -> Z -> ST S unit) (call : Z -> ST S unit).

Fixpoint run_handlers (n : nat) (i int_no : Z) : ST S unit :=
  match n with
  | O => mret tt
  | Datatypes.S n =>
      t ← st_gets table;
      h ← st_lift (of_option (znth t (u32 (isr_slot int_no i))));
      when (negb (h =? 0)) (call h);;
      run_handlers n (i + 1) int_no
  end.

Definition isr_common_handler (int_no : Z) : ST S unit :=
  run_handlers (Z.to_nat MAX_HANDELERS_PER_INTURRUPT) 0 int_no;;
  when (40 <=? int_no) (out 0xA0 0x20);;
  out 0x20 0x20.
End dispatch.

(** ** The timer (time.c) *)
Definition PIT_FREQUENCY : Z := 1193180.
Definition PIT_COMMAND_PORT : Z := 0x43.
Definition PIT_CHANNEL0 : Z := 0x40.
Definition MAX_TIMER_CALLBACKS : Z := 16.

(** The statics of time.c; [world] is what the callbacks work on. *)
Record timer (W : Type) := {
  system_ticks : Z;
  callbacks : list Z;
  callback_count : Z;
  world : W
}.
Arguments system_ticks {W} _. Arguments callbacks {W} _.
Arguments callback_count {W} _. Arguments world {W} _.

Section timer.
Context {W : Type}.

Definition timer_boot (w : W) : timer W :=
  {| system_ticks := 0; callbacks := replicate (Z.to_nat MAX_TIMER_CALLBACKS) 0; callback_count := 0; world := w |}.

Definition set_callbacks (l : list Z) (n : Z) (t : timer W) : timer W :=
  {| system_ticks := system_ticks t; callbacks := l; callback_count := n; world := world t |}.

(** [for (i = 0; i < callback_count; i++) if (callbacks[i]) callbacks[i](system_ticks);] *)
Fixpoint call_loop (call : Z -> Z -> ST (timer W) unit) (fuel : nat) (i : Z) : ST (timer W) unit :=
  match fuel with
  | O => fun _ => Diverge
  | S fuel =>
      t ← st_get;
      if callback_count t <=? i then mret tt
      else
        c ← st_lift (of_option (znth (callbacks t) i));
        when (negb (c =? 0)) (call c (system_ticks t));;
        call_loop call fuel (i + 1)
  end.

Definition timer_interrupt_handler (call : Z -> Z -> ST (timer W) unit) : ST (timer W) unit :=
  st_modify (fun t => {| system_ticks := u64 (system_ticks t + 1); callbacks := callbacks t;
                         callback_count := callback_count t; world := world t |});;
  call_loop call (S (Z.to_nat MAX_TIMER_CALLBACKS)) 0.

Definition register_timer_callback (callback : Z) : ST (timer W) Z :=
  t ← st_get;
  if MAX_TIMER_CALLBACKS <=? callback_count t then mret 1
  else
    l ← st_lift (of_option (zset (callbacks t) (callback_count t) callback));
    st_modify (set_callbacks l (callback_count t + 1));;
    mret 0.

(** [for (j = i; j < callback_count - 1; j++) callbacks[j] = callbacks[j + 1];] *)
Definition shift_down (n : nat) (i : Z) : ST (timer W) unit :=
  st_for n i (fun j =>
    t ← st_get;
    c ← st_lift (of_option (znth (callbacks t) (j + 1)));
    l ← st_lift (of_option (zset (callbacks t) j c));
    st_modify (set_callbacks l (callback_count t))).

Fixpoint unregister_callback_loop (n : nat) (i callback : Z) : ST (timer W) unit :=
  match n with
  | O => mret tt
  | S n =>
      t ← st_get;
      c ← st_lift (of_option (znth (callbacks t) i));
      if c =? callback then
        shift_down (Z.to_nat (callback_count t - 1 - i)) i;;
        t ← st_get;
        l ← st_lift (of_option (zset (callbacks t) (callback_count t - 1) 0));
        st_modify (set_callbacks l (callback_count t - 1))
      else unregister_callback_loop n (i + 1) callback
  end.

Definition unregister_timer_callback (callback : Z) : ST (timer W) unit :=
  t ← st_get;
  unregister_callback_loop (Z.to_nat (callback_count t)) 0 callback.
End timer.

(** [clock_init]: the divisor goes out low byte first; the timer handler takes
    slot 0 of the timer's vector and the line is unmasked. *)
Definition clock_init {D} `{!Ports D} (frequency timer_handler : Z) : ST (idt_state D) unit :=
  if frequency =? 0 then st_fault
  else
    let divisor := PIT_FREQUENCY / frequency in
    on_io (outb PIT_COMMAND_PORT 0x36);;
    on_io (outb PIT_CHANNEL0 (u8 (Z.land divisor 0xFF)));;
    on_io (outb PIT_CHANNEL0 (u8 (Z.land (Z.shiftr divisor 8) 0xFF)));;
    s ← st_get;
    t ← st_lift (isr_register_handler (irq_to_vector 0) timer_handler (isr_table s));
    st_modify (set_isr_table t);;
    on_io (pic_clear_mask 0).

(** ** Descriptors *)
Lemma encode_entry_fields base limit acc flags :
  is_u32 base -> 0 <= limit < 1048576 -> 0 <= flags < 16 ->
  let e := encode_entry base limit acc flags in
  desc_base e = base /\ desc_limit e = limit /\ desc_flags e = flags /\ access e = acc.
Proof.
  intros Hb Hl Hf. unfold is_u32 in Hb. unfold desc_base, desc_limit, desc_flags, encode_entry.
  cbn [limit_low base_low base_mid access gran base_high].
  unfold MASK_LOW_16BIT, MASK_LOW_8BIT, MASK_LOW_4BIT, SHIFT_MID_BYTE, SHIFT_HIGH_BYTE,
    SHIFT_HIGH_LIMIT, SHIFT_GRAN_FLAGS.
  change 65535 with (Z.ones 16). change 255 with (Z.ones 8). change 15 with (Z.ones 4).
  rewrite !land_mask by lia. rewrite !Z.shiftr_div_pow2 by lia.
  change (2 ^ 16) with 65536. change (2 ^ 8) with 256. change (2 ^ 4) with 16. change (2 ^ 24) with 16777216.
  rewrite (lor_low_high 4) by (change (2 ^ 4) with 16; zlia). change (2 ^ 4) with 16.
  unfold u16, u8. split_and!; [zlia|zlia|zlia|done].
Qed.

Lemma gate_target_encode base sel flags : is_u32 base -> gate_target (encode_gate base sel flags) = base.
Proof.
  intros Hb. unfold is_u32 in Hb. unfold gate_target, encode_gate. cbn [isr_low isr_high].
  unfold MASK_LOW_16BIT, SHIFT_HIGH_16BIT. change 65535 with (Z.ones 16).
  rewrite !land_mask, Z.shiftr_div_pow2 by lia. change (2 ^ 16) with 65536. unfold u16. zlia.
Qed.

(** ** Rules for the controllers *)
Section pic_rules.
Context {D : Type} `{!Ports D} `{!Pic8259 D}.
Implicit Types d : D.

(** Writing the mask while no initialisation word is expected. *)
Lemma pic_out_mask c d v : is_u8 v -> pic_expects (pic c d) = 0%nat ->
  let d' := p_outb (data_port c) v d in
  pic_mask (pic c d') = v /\ pic_expects (pic c d') = 0%nat /\ pic_offset (pic c d') = pic_offset (pic c d) /\
  forall c', c' <> c -> pic c' d' = pic c' d.
Proof.
  intros Hv He. cbv zeta. split_and!.
  1-3: rewrite pic_out_data by done; destruct c; unfold pic_data_write; by rewrite He.
  intros c' Hne. rewrite pic_out_data by done. by destruct c, c'.
Qed.

(** The chip and the line of an interrupt request. *)
Definition irq_chip (irq : Z) : chip := if irq <? 8 then Master else Slave.

Lemma pic_line_spec irq : 0 <= irq < 16 ->
  pic_line irq = (data_port (irq_chip irq), irq mod 8).
Proof.
  intros Hi. unfold pic_line, irq_chip. destruct (Z.ltb_spec irq 8); f_equal; unfold u8; zlia.
Qed.
End pic_rules.

(** ** Timer callbacks as a list *)

(** The registered callbacks, oldest first. *)
Definition active {W} (t : timer W) : list Z := take (Z.to_nat (callback_count t)) (callbacks t).

Record timer_wf {W} (t : timer W) : Prop := {
  tw_size : length (callbacks t) = Z.to_nat MAX_TIMER_CALLBACKS;
  tw_count : 0 <= callback_count t <= MAX_TIMER_CALLBACKS
}.

(** The specification of unregistering: the first occurrence goes. *)
Fixpoint remove_first (x : Z) (l : list Z) : list Z :=
  match l with
  | [] => []
  | y :: l => if y =? x then l else y :: remove_first x l
  end.

Lemma active_length {W} (t : timer W) : timer_wf t -> length (active t) = Z.to_nat (callback_count t).
Proof.
  intros [Hs Hc]. unfold active. rewrite length_take, Hs. unfold MAX_TIMER_CALLBACKS in *. lia.
Qed.

Lemma remove_first_delete x : forall l i, l !! i = Some x ->
  (forall j, (j < i)%nat -> l !! j <> Some x) -> remove_first x l = delete i l.
Proof.
  induction l as [|y l IH]; intros [|i] Hi Hn; try done; cbn in *.
  - injection Hi as ->. by rewrite Z.eqb_refl.
  - destruct (Z.eqb_spec y x) as [->|]; [by destruct (Hn 0%nat); [lia|]|].
    f_equal. apply IH; [done|]. intros j Hj. apply (Hn (S j)). lia.
Qed.

Lemma remove_first_absent x l : (forall j, l !! j <> Some x) -> remove_first x l = l.
Proof.
  induction l as [|y l IH]; intros Hn; [done|]. cbn. destruct (Z.eqb_spec y x) as [->|].
  - by destruct (Hn 0%nat).
  - f_equal. apply IH. intros j. apply (Hn (S j)).
Qed.

Section timer_rules.
Context {W : Type}.
Implicit Types t : timer W.

Lemma timer_slot t i : timer_wf t -> 0 <= i < MAX_TIMER_CALLBACKS -> exists c, znth (callbacks t) i = Some c.
Proof.
  intros [Hs _] Hi. destruct (znth_Some (callbacks t) i) as [c Hc]; [|by exists c].
  rewrite Hs. unfold MAX_TIMER_CALLBACKS in *. lia.
Qed.

(** A state that differs from [t] in the table and the count. *)
Definition with_table t (l : list Z) (n : Z) : timer W := set_callbacks l n t.

(** Everything above slot [i] moves down by one. *)
Lemma wp_shift_down t i Q : timer_wf t -> 0 <= i < callback_count t ->
  (forall l, length l = length (callbacks t) ->
     (forall k, 0 <= k < callback_count t - 1 ->
        znth l k = znth (callbacks t) (if k <? i then k else k + 1)) ->
     Q tt (with_table t l (callback_count t))) ->
  wp (shift_down (Z.to_nat (callback_count t - 1 - i)) i) t Q.
Proof.
  intros Hwf Hi HQ. pose proof Hwf as [Hs Hc]. unfold shift_down.
  apply (wp_for (fun j t' => exists l, t' = with_table t l (callback_count t) /\
    length l = length (callbacks t) /\
    forall k, 0 <= k < MAX_TIMER_CALLBACKS ->
      znth l k = znth (callbacks t) (if (i <=? k) && (k <? j) then k + 1 else k))).
  - exists (callbacks t). split; [by destruct t|]. split; [done|]. intros k Hk. by case_bool; [lia|].
  - intros j t' Hj (l & -> & Hl & Hz). unfold MAX_TIMER_CALLBACKS in *.
    destruct (timer_slot t (j + 1) Hwf) as [c Hcj]; [unfold MAX_TIMER_CALLBACKS; lia|].
    apply wp_bind, wp_get, wp_bind, (wp_lift_some _ c).
    { cbn [callbacks with_table set_callbacks]. rewrite Hz by lia. case_bool; [lia|done]. }
    apply wp_bind, (wp_lift_some _ (<[Z.to_nat j := c]> l)).
    { apply zset_Some. cbn [callbacks with_table set_callbacks]. lia. }
    apply wp_modify. exists (<[Z.to_nat j := c]> l). split; [done|]. split; [by rewrite length_insert|].
    intros k Hk. rewrite znth_insert_list, Hz by lia.
    destruct (Z.eqb_spec k j) as [->|Hne]; repeat case_bool; by try lia.
  - intros t' (l & -> & Hl & Hz). apply HQ; [done|]. intros k Hk.
    rewrite Hz by lia. by repeat case_bool; try lia.
Qed.

Lemma active_lookup t k : timer_wf t -> 0 <= k < callback_count t ->
  active t !! Z.to_nat k = znth (callbacks t) k.
Proof.
  intros Hwf Hk. unfold active, znth. rewrite lookup_take_lt by lia. case_bool; [done|lia].
Qed.

Lemma wp_unregister_loop n : forall t i x Q, timer_wf t -> 0 <= i -> i + Z.of_nat n = callback_count t ->
  (forall j, 0 <= j < i -> znth (callbacks t) j <> Some x) ->
  (forall t', timer_wf t' -> active t' = remove_first x (active t) ->
     system_ticks t' = system_ticks t -> world t' = world t -> Q tt t') ->
  wp (unregister_callback_loop n i x) t Q.
Proof.
  induction n as [|n IH]; intros t i x Q Hwf Hi Hn Hbefore HQ; cbn [unregister_callback_loop];
    pose proof Hwf as [Hs Hc].
  - apply wp_ret, HQ; try done. rewrite remove_first_absent; [done|]. intros j Hj.
    pose proof (lookup_lt_Some _ _ _ Hj) as Hlt. rewrite (active_length t Hwf) in Hlt.
    apply (Hbefore (Z.of_nat j)); [lia|]. rewrite <- active_lookup by (done || lia). by rewrite Nat2Z.id.
  - destruct (timer_slot t i Hwf) as [c Hci]; [unfold MAX_TIMER_CALLBACKS in *; lia|].
    apply wp_bind, wp_get, wp_bind, (wp_lift_some _ c); [done|].
    destruct (Z.eqb_spec c x) as [->|Hne].
    2: { apply IH; try done; [lia|lia|]. intros j Hj. destruct (decide (j = i)) as [->|].
         - rewrite Hci. congruence.
         - apply Hbefore. lia. }
    apply wp_bind, wp_shift_down; [done|lia|]. intros l Hl Hz.
    apply wp_bind, wp_get, wp_bind, (wp_lift_some _ (<[Z.to_nat (callback_count t - 1) := 0]> l)).
    { apply zset_Some. cbn [callbacks callback_count with_table set_callbacks].
      unfold MAX_TIMER_CALLBACKS in *. lia. }
    apply wp_modify. apply HQ; try done.
    { split; cbn [callbacks callback_count with_table set_callbacks]; [by rewrite length_insert, Hl|lia]. }
    rewrite (remove_first_delete x _ (Z.to_nat i)).
    2: { by rewrite active_lookup by (done || lia). }
    2: { intros j Hj Hx. apply (Hbefore (Z.of_nat j)); [lia|].
         rewrite <- active_lookup by (done || lia). by rewrite Nat2Z.id. }
    apply list_eq. intros k. unfold active at 1. cbn [callbacks callback_count with_table set_callbacks].
    destruct (decide (Z.of_nat k < callback_count t - 1)) as [Hk|Hk].
    + rewrite lookup_take_lt, list_lookup_insert_ne by lia. specialize (Hz (Z.of_nat k)).
      unfold znth at 1 in Hz. rewrite Nat2Z.id in Hz. destruct (Z.leb_spec 0 (Z.of_nat k)); [|lia].
      rewrite Hz by lia. destruct (Z.ltb_spec (Z.of_nat k) i) as [Hlt|Hge].
      * rewrite list_lookup_delete_lt by lia. rewrite <- active_lookup by (done || lia). by rewrite Nat2Z.id.
      * rewrite list_lookup_delete_ge by lia. rewrite <- active_lookup by (done || lia). f_equal. lia.
    + rewrite lookup_take_ge by lia. symmetry. apply lookup_ge_None.
      rewrite length_delete, (active_length t Hwf) by (rewrite active_lookup by (done || lia); eauto). lia.
Qed.
End timer_rules.

(** ** Theorems *)

(** A callback that works on [world] only. *)
Definition pure_call {W} (f : Z -> Z -> W -> W) (c ticks : Z) : ST (timer W) unit := st_modify (fun t =>
  {| system_ticks := system_ticks t; callbacks := callbacks t; callback_count := callback_count t;
     world := f c ticks (world t) |}).

(** What one tick does to the world: the callbacks in order of registration. *)
Definition tick_world {W} (f : Z -> Z -> W -> W) (ticks : Z) (w : W) (l : list Z) : W :=
  foldl (fun w c => if c =? 0 then w else f c ticks w) w l.

Lemma wp_call_loop {W} (f : Z -> Z -> W -> W) fuel : forall (t : timer W) i Q,
  timer_wf t -> 0 <= i <= callback_count t -> callback_count t - i < Z.of_nat fuel ->
  (forall t', timer_wf t' -> active t' = active t -> system_ticks t' = system_ticks t ->
     world t' = tick_world f (system_ticks t) (world t) (drop (Z.to_nat i) (active t)) -> Q tt t') ->
  wp (call_loop (pure_call f) fuel i) t Q.
Proof.
  induction fuel as [|fuel IH]; intros t i Q Hwf Hi Hf HQ; cbn [call_loop]; [lia|].
  apply wp_bind, wp_get. destruct (Z.leb_spec (callback_count t) i) as [Hge|Hlt].
  { apply wp_ret, HQ; try done. rewrite drop_ge; [done|]. rewrite (active_length t Hwf). lia. }
  destruct (timer_slot t i Hwf) as [c Hc]; [destruct Hwf; lia|].
  apply wp_bind, (wp_lift_some _ c); [done|]. apply wp_bind.
  assert (Hd : drop (Z.to_nat i) (active t) = c :: drop (Z.to_nat (i + 1)) (active t)).
  { rewrite (drop_S _ c) by (rewrite active_lookup by (done || lia); done). do 2 f_equal. lia. }
  unfold when. destruct (Z.eqb_spec c 0) as [E|E]; cbn [negb].
  - apply wp_ret, IH; [done|lia|lia|]. intros t' H1 H2 H3 H4. apply HQ; try done.
    rewrite H4, Hd. unfold tick_world. cbn [foldl]. by rewrite (proj2 (Z.eqb_eq c 0) E).
  - apply wp_modify, IH; [by destruct Hwf|cbn [callback_count]; lia|cbn [callback_count]; lia|].
    intros t' H1 H2 H3 H4. apply HQ; try done. rewrite H4, Hd. unfold tick_world. cbn [foldl].
    by rewrite (proj2 (Z.eqb_neq c 0) E).
Qed.

(** (C34) The callback table is a list of at most sixteen callbacks: registering
    appends and fails only when sixteen are registered, unregistering removes
    the first occurrence, and a timer interrupt advances the tick count and runs
    the registered callbacks, oldest first, once each. *)
Theorem timer_callbacks_refine {W} (t : timer W) : timer_wf t ->
  (forall c, exists r t', register_timer_callback c t = Ret (r, t') /\ timer_wf t' /\ world t' = world t /\
     (r = 1 /\ t' = t /\ length (active t) = 16%nat \/ r = 0 /\ active t' = active t ++ [c])) /\
  (forall c, exists t', unregister_timer_callback c t = Ret (tt, t') /\ timer_wf t' /\ world t' = world t /\
     active t' = remove_first c (active t)) /\
  (forall f, exists t', timer_interrupt_handler (pure_call f) t = Ret (tt, t') /\ timer_wf t' /\
     active t' = active t /\ system_ticks t' = u64 (system_ticks t + 1) /\
     world t' = tick_world f (u64 (system_ticks t + 1)) (world t) (active t)).
Proof.
  intros Hwf. pose proof Hwf as [Hs Hc]. split_and!.
  - intros c. apply (wp_run (register_timer_callback c) t). apply wp_bind, wp_get.
    destruct (Z.leb_spec MAX_TIMER_CALLBACKS (callback_count t)) as [Hge|Hlt].
    { apply wp_ret. split_and!; try done. left. split_and!; try done. rewrite (active_length t Hwf).
      unfold MAX_TIMER_CALLBACKS in *. lia. }
    apply wp_bind, (wp_lift_some _ (<[Z.to_nat (callback_count t) := c]> (callbacks t))).
    { apply zset_Some. unfold MAX_TIMER_CALLBACKS in *. lia. }
    apply wp_bind, wp_modify, wp_ret. split; [split; cbn; [by rewrite length_insert|lia]|].
    split; [done|]. right. split; [done|]. unfold active, MAX_TIMER_CALLBACKS in *.
    cbn [callbacks callback_count set_callbacks].
    replace (Z.to_nat (callback_count t + 1)) with (S (Z.to_nat (callback_count t))) by lia.
    erewrite take_S_r by (apply list_lookup_insert_eq; lia). by rewrite take_insert_ge by lia.
  - intros c. enough (Hwp : wp (unregister_timer_callback c) t (fun _ t' => timer_wf t' /\
      world t' = world t /\ active t' = remove_first c (active t))).
    { apply wp_run in Hwp as ([] & t' & H & ?). by exists t'. }
    apply wp_bind, wp_get, wp_unregister_loop; [done|lia|lia|lia|]. by intros t' ? ? ? ?.
  - intros f. enough (Hwp : wp (timer_interrupt_handler (pure_call f)) t (fun _ t' => timer_wf t' /\
      active t' = active t /\ system_ticks t' = u64 (system_ticks t + 1) /\
      world t' = tick_world f (u64 (system_ticks t + 1)) (world t) (active t))).
    { apply wp_run in Hwp as ([] & t' & H & ?). by exists t'. }
    apply wp_bind, wp_modify, wp_call_loop.
    + by destruct Hwf.
    + cbn [callback_count]. lia.
    + cbn [callback_count]. unfold MAX_TIMER_CALLBACKS in *. lia.
    + intros t' H1 H2 H3 H4. split_and!; try done.
Qed.

Lemma timer_callbacks_refine_witness :
  timer_wf (timer_boot ([] : list (Z * Z))) /\
  exists t', timer_interrupt_handler (pure_call (fun c n w => w ++ [(c, n)])) (timer_boot []) = Ret (tt, t').
Proof.
  assert (Hwf : timer_wf (timer_boot ([] : list (Z * Z)))).
  { split; [reflexivity|]. cbn. unfold MAX_TIMER_CALLBACKS. lia. }
  split; [exact Hwf|]. destruct (timer_callbacks_refine _ Hwf) as (_ & _ & H).
  destruct (H (fun c n w => w ++ [(c, n)])) as (t' & Ht & _). exists t'. exact Ht.
Defined.

(** The slots of a vector that no registration writes. *)
Definition upper_slots_empty (table : list Z) (num : Z) : Prop :=
  forall i, 1 <= i < 4 -> znth table (isr_slot num i) = Some 0.

Lemma run_empty_slots {S} (table : S -> list Z) call num n : forall i s,
  0 <= num < 256 -> 1 <= i -> i + Z.of_nat n = 4 -> upper_slots_empty (table s) num ->
  run_handlers table call n i num s = Ret (tt, s).
Proof.
  induction n as [|n IH]; intros i s Hnum Hi Hn He; [done|]. cbn [run_handlers].
  assert (Hu : u32 (isr_slot num i) = isr_slot num i).
  { apply u32_small. unfold isr_slot, MAX_HANDELERS_PER_INTURRUPT, is_u32. lia. }
  assert (Hz : znth (table s) (isr_slot num i) = Some 0) by (apply He; lia).
  rewrite (st_bind_Ret _ _ s (table s) s) by done.
  rewrite (st_bind_Ret _ _ s 0 s) by (unfold st_lift; by rewrite Hu, Hz).
  rewrite (st_bind_Ret _ _ s tt s) by done. apply IH; [done|lia|lia|done].
Qed.

(** (C33) Dispatch: once [handler] is registered for vector [num], an interrupt
    on it runs exactly that handler and then acknowledges the interrupt, on the
    slave controller too from vector 40 on; the other vectors keep their
    handlers.  Whatever was registered for [num] before is not run any more,
    because registration always writes the first of the four slots: the
    scheduler takes the timer's vector this way and the tick count stops. *)
Theorem registered_handler_runs table num handler :
  length table = 1024%nat -> 0 <= num < 256 -> handler <> 0 -> upper_slots_empty table num ->
  exists table', isr_register_handler num handler table = Ret table' /\ upper_slots_empty table' num /\
    (forall n i, 0 <= n < 256 -> n <> num -> 0 <= i < 4 ->
       znth table' (isr_slot n i) = znth table (isr_slot n i)) /\
    forall (S : Type) (tbl : S -> list Z) out (call : Z -> ST S unit) (s s1 : S), tbl s = table' ->
      call handler s = Ret (tt, s1) -> tbl s1 = table' ->
      isr_common_handler tbl out call num s =
        (when (40 <=? num) (out 0xA0 0x20);; out 0x20 0x20) s1.
Proof.
  intros Hl Hnum Hh He. unfold isr_register_handler, upper_slots_empty in *.
  unfold isr_slot, MAX_HANDELERS_PER_INTURRUPT in *. rewrite Z.add_0_r.
  rewrite zset_Some by lia. exists (<[Z.to_nat (num * 4) := handler]> table).
  assert (Hz : forall k, 0 <= k -> znth (<[Z.to_nat (num * 4) := handler]> table) k =
    if k =? num * 4 then Some handler else znth table k) by (intros; apply znth_insert_list; lia).
  split; [done|]. split; [|split].
  - intros i Hi. rewrite Hz by lia. case_bool; [lia|]. by apply He.
  - intros n i Hn Hne Hi. rewrite Hz by lia. case_bool; [lia|done].
  - intros S tbl out call s s1 Ht Hc Ht1. unfold isr_common_handler.
    change (Z.to_nat MAX_HANDELERS_PER_INTURRUPT) with 4%nat.
    rewrite (st_bind_Ret _ _ s tt s1); [done|]. cbn [run_handlers].
    rewrite (st_bind_Ret _ _ s (tbl s) s) by done.
    rewrite (st_bind_Ret _ _ s handler s).
    2: { unfold st_lift, isr_slot, MAX_HANDELERS_PER_INTURRUPT.
         rewrite Ht, Z.add_0_r, u32_small, Hz, Z.eqb_refl by (unfold is_u32; lia). done. }
    rewrite (st_bind_Ret _ _ s tt s1).
    2: { destruct (Z.eqb_spec handler 0); [done|]. exact Hc. }
    apply (run_empty_slots tbl call num 3 (0 + 1) s1); [done|lia|lia|].
    intros i Hi. rewrite Ht1. unfold isr_slot, MAX_HANDELERS_PER_INTURRUPT.
    rewrite Hz by lia. case_bool; [lia|]. by apply He.
Qed.

(** The timer's handler, address 2, is replaced by the scheduler's, address 7. *)
Lemma registered_handler_runs_witness :
  exists table', isr_register_handler 32 7 (<[128%nat := 2]> (replicate 1024 0)) = Ret table' /\
    isr_common_handler fst (fun _ _ => mret tt) (fun h => st_modify (fun s => (s.1, s.2 ++ [h]))) 32
      (table', []) = Ret (tt, (table', [7])).
Proof.
  destruct (registered_handler_runs (<[128%nat := 2]> (replicate 1024 0)) 32 7) as (t & Ht & _ & _ & H);
    [reflexivity|lia|lia| |].
  { intros i Hi. assert (Hc : i = 1 \/ i = 2 \/ i = 3) by lia.
    destruct Hc as [-> |[-> | ->]]; reflexivity. }
  exists t. split; [exact Ht|].
  rewrite (H _ fst (fun _ _ => mret tt) _ (t, []) (t, [7])); reflexivity.
Defined.

Lemma wp_gdt_set_entry i base limit acc fl (s : gdt_state) Q :
  0 <= i < Z.of_nat (length (gdt s)) ->
  Q tt (set_gdt (<[Z.to_nat i := encode_entry base limit acc fl]> (gdt s)) s) ->
  wp (gdt_set_entry i base limit acc fl) s Q.
Proof. intros Hi HQ. unfold wp, gdt_set_entry. by rewrite zset_Some. Qed.

(** A flat 4 GB segment of privilege level [dpl] with access byte [acc]. *)
Definition flat_segment (s : gdt_state) (sel acc dpl : Z) : Prop :=
  exists e, selected s sel = Some e /\ desc_base e = 0 /\ desc_last e = 0xFFFFFFFF /\
    access e = acc /\ desc_dpl e = dpl /\ sel mod 4 = dpl.

(** After [gdt_init] every selector of gdt.h names the descriptor it
    should: flat 4 GB code and data segments for the kernel at level 0 and for
    user code at level 3, and a task segment of 104 bytes at the address of
    [tss], whose stack is the end of the interrupt stack; the null descriptor is
    empty and the CPU has been given the table of six descriptors. *)
Theorem gdt_init_correct (s : gdt_state) gdt_addr tss_addr stack_addr :
  length (gdt s) = 6%nat -> is_u32 tss_addr ->
  exists s', gdt_init gdt_addr tss_addr stack_addr s = Ret (tt, s') /\
    selected s' 0 = Some gdt_null /\
    flat_segment s' GDT_KERNEL_CODE_SEL GDT_ACCESS_KERNEL_CODE 0 /\
    flat_segment s' GDT_KERNEL_DATA_SEL GDT_ACCESS_KERNEL_DATA 0 /\
    flat_segment s' GDT_USER_CODE_SEL GDT_ACCESS_USER_CODE 3 /\
    flat_segment s' GDT_USER_DATA_SEL GDT_ACCESS_USER_DATA 3 /\
    (exists e, selected s' GDT_TSS_SEL = Some e /\ desc_base e = tss_addr /\ desc_last e = 103 /\
       access e = 0x89) /\
    tss s' = {| esp0 := stack_addr +! 0x4000; ss0 := GDT_KERNEL_DATA_SEL; iomap_base := 104 |} /\
    gdtr s' = Some (47, gdt_addr) /\ tr s' = GDT_TSS_SEL.
Proof.
  intros Hl Ht. destruct (gdt s) as [|e0 [|e1 [|e2 [|e3 [|e4 [|e5 [|]]]]]]] eqn:Eg; try done.
  enough (Hwp : wp (gdt_init gdt_addr tss_addr stack_addr) s (fun _ s' =>
    gdt s' = [encode_entry 0 0 0 0;
      encode_entry 0 GDT_SEGMENT_LIMIT GDT_ACCESS_KERNEL_CODE GDT_GRANULARITY_FLAGS;
      encode_entry 0 GDT_SEGMENT_LIMIT GDT_ACCESS_KERNEL_DATA GDT_GRANULARITY_FLAGS;
      encode_entry 0 GDT_SEGMENT_LIMIT GDT_ACCESS_USER_CODE GDT_GRANULARITY_FLAGS;
      encode_entry 0 GDT_SEGMENT_LIMIT GDT_ACCESS_USER_DATA GDT_GRANULARITY_FLAGS;
      encode_entry tss_addr 103 0x89 0] /\
    tss s' = {| esp0 := stack_addr +! 0x4000; ss0 := GDT_KERNEL_DATA_SEL; iomap_base := 104 |} /\
    gdtr s' = Some (47, gdt_addr) /\ tr s' = GDT_TSS_SEL)).
  { apply wp_run in Hwp as ([] & s' & H & Hg & Htss & Hr). exists s'. split; [done|].
    unfold flat_segment, selected. rewrite Hg. split; [done|].
    do 4 (split; [by eexists|]). split; [|done].
    destruct (encode_entry_fields tss_addr 103 0x89 0) as (H1 & H2 & H3 & H4); [done|lia|lia|].
    eexists. split; [done|]. split; [done|]. split; [|done]. unfold desc_last. by rewrite H3, H2. }
  apply wp_bind, wp_modify.
  do 5 (apply wp_bind, wp_gdt_set_entry; [cbn [gdt set_gdt]; rewrite ?length_insert, Eg; cbn; lia|]).
  apply wp_bind, wp_modify.
  apply wp_bind, wp_gdt_set_entry; [cbn [gdt set_gdt]; rewrite ?length_insert, Eg; cbn; lia|].
  apply wp_bind, wp_modify, wp_modify. cbn [gdt set_gdt]. by rewrite Eg.
Qed.

Definition gdt_boot : gdt_state :=
  {| gdt := replicate 6 gdt_null; gp_limit := 0; gp_base := 0;
     tss := {| esp0 := 0; ss0 := 0; iomap_base := 0 |}; gdtr := None; tr := 0 |}.

Lemma gdt_init_correct_witness :
  exists s', gdt_init 0xC0100000 0xC0101000 0xC0102000 gdt_boot = Ret (tt, s') /\ gdtr s' = Some (47, 0xC0100000).
Proof.
  destruct (gdt_init_correct gdt_boot 0xC0100000 0xC0101000 0xC0102000) as (s' & H & Hs);
    [reflexivity|unfold is_u32; lia|].
  exists s'. split; [exact H|]. destruct Hs as (_ & _ & _ & _ & _ & _ & _ & Hg & _). exact Hg.
Defined.

Section pic_theorems.
Context {D : Type} `{!Ports D} `{!Pic8259 D}.
Implicit Types d : D.

Lemma wp_inb_mask c d Q : Q (pic_mask (pic c d)) d -> wp (inb (data_port c)) d Q.
Proof. intros HQ. unfold wp, inb. by rewrite pic_in. Qed.

Lemma wp_outb port v d (Q : unit -> D -> Prop) : Q tt (p_outb port (u8 v) d) -> wp (outb port v) d Q.
Proof. done. Qed.

(** The mask bit of a request line. *)
Definition masked d (irq : Z) : bool := Z.testbit (pic_mask (pic (irq_chip irq) d)) (irq mod 8).

(** Reading the mask of one chip and writing back [f] of it. *)
Lemma wp_mask_update irq (f : Z -> Z) d Q : 0 <= irq < 16 -> pic_expects (pic (irq_chip irq) d) = 0%nat ->
  (forall d', (forall c, pic_expects (pic c d') = pic_expects (pic c d)) ->
     (forall c, pic_offset (pic c d') = pic_offset (pic c d)) ->
     (forall k, masked d' k = if decide (irq_chip k = irq_chip irq)
        then Z.testbit (u8 (f (pic_mask (pic (irq_chip irq) d)))) (k mod 8) else masked d k) -> Q tt d') ->
  wp (v ← inb (data_port (irq_chip irq)); outb (data_port (irq_chip irq)) (u8 (f v))) d Q.
Proof.
  intros Hi He HQ. apply wp_bind, wp_inb_mask, wp_outb.
  set (v := u8 (u8 (f (pic_mask (pic (irq_chip irq) d))))).
  destruct (pic_out_mask (irq_chip irq) d v) as (H1 & H2 & H3 & H4); [apply u8_range|done|].
  apply HQ.
  - intros c. destruct (decide (c = irq_chip irq)) as [->|Hne]; [by rewrite H2, He|by rewrite H4].
  - intros c. destruct (decide (c = irq_chip irq)) as [->|Hne]; [by rewrite H3|by rewrite H4].
  - intros k. unfold masked. destruct (decide (irq_chip k = irq_chip irq)) as [->|Hne]; [|by rewrite H4].
    rewrite H1. unfold v, u8. by rewrite Z.mod_mod by lia.
Qed.

Lemma same_line irq k : 0 <= irq < 16 -> 0 <= k < 16 -> irq_chip k = irq_chip irq ->
  (k mod 8 =? irq mod 8) = (k =? irq).
Proof.
  unfold irq_chip. intros Hi Hk. destruct (Z.ltb_spec k 8), (Z.ltb_spec irq 8); intros; try done;
    destruct (Z.eqb_spec (k mod 8) (irq mod 8)), (Z.eqb_spec k irq); zlia.
Qed.

(** [pic_set_mask] and [pic_clear_mask] mask and unmask exactly the request
    line they are given, on either controller: every other of the sixteen lines
    keeps its state and the vector offsets are kept. *)
Theorem pic_mask_one_line irq d : 0 <= irq < 16 -> pic_expects (pic (irq_chip irq) d) = 0%nat ->
  (exists d', pic_set_mask irq d = Ret (tt, d') /\
     (forall k, 0 <= k < 16 -> masked d' k = (k =? irq) || masked d k) /\
     forall c, pic_offset (pic c d') = pic_offset (pic c d) /\ pic_expects (pic c d') = pic_expects (pic c d)) /\
  (exists d', pic_clear_mask irq d = Ret (tt, d') /\
     (forall k, 0 <= k < 16 -> masked d' k = negb (k =? irq) && masked d k) /\
     forall c, pic_offset (pic c d') = pic_offset (pic c d) /\ pic_expects (pic c d') = pic_expects (pic c d)).
Proof.
  intros Hi He. pose proof (pic_mask_byte (irq_chip irq) d) as Hb. unfold is_u8 in Hb.
  assert (Hr : 0 <= irq mod 8 < 8) by zlia. split.
  - enough (Hwp : wp (pic_set_mask irq) d (fun _ d' =>
      (forall k, 0 <= k < 16 -> masked d' k = (k =? irq) || masked d k) /\
      forall c, pic_offset (pic c d') = pic_offset (pic c d) /\ pic_expects (pic c d') = pic_expects (pic c d))).
    { apply wp_run in Hwp as ([] & d' & H & ?). by exists d'. }
    unfold pic_set_mask. rewrite pic_line_spec by done.
    apply (wp_mask_update irq (fun v => Z.lor v (Z.shiftl 1 (irq mod 8)))); [done|done|].
    intros d' H1 H2 H3. split; [|done]. intros k Hk. rewrite H3.
    destruct (decide (irq_chip k = irq_chip irq)) as [E|E].
    + unfold u8. change 256 with (2 ^ 8). rewrite Z.mod_pow2_bits_low by zlia.
      rewrite Z.lor_spec, shiftl_1_testbit, same_line by (done || lia).
      unfold masked. rewrite E. apply orb_comm.
    + destruct (Z.eqb_spec k irq) as [->|]; [done|]. done.
  - enough (Hwp : wp (pic_clear_mask irq) d (fun _ d' =>
      (forall k, 0 <= k < 16 -> masked d' k = negb (k =? irq) && masked d k) /\
      forall c, pic_offset (pic c d') = pic_offset (pic c d) /\ pic_expects (pic c d') = pic_expects (pic c d))).
    { apply wp_run in Hwp as ([] & d' & H & ?). by exists d'. }
    unfold pic_clear_mask. rewrite pic_line_spec by done.
    apply (wp_mask_update irq (fun v => Z.land v (not32 (Z.shiftl 1 (irq mod 8))))); [done|done|].
    intros d' H1 H2 H3. split; [|done]. intros k Hk. rewrite H3.
    destruct (decide (irq_chip k = irq_chip irq)) as [E|E].
    + unfold u8. change 256 with (2 ^ 8). rewrite Z.mod_pow2_bits_low by zlia.
      rewrite Z.land_spec. unfold not32. rewrite u32_testbit, Z.lnot_spec, shiftl_1_testbit, same_line by (done || zlia).
      destruct (Z.ltb_spec (k mod 8) 32); [|zlia]. unfold masked. rewrite E. apply andb_comm.
    + destruct (Z.eqb_spec k irq) as [->|]; [done|]. done.
Qed.

(** *** Initialisation *)
Lemma wp_on_io {A} (c : ST D A) (s : idt_state D) Q :
  wp c (io s) (fun a d => Q a {| io := d; idt := idt s; isr_table := isr_table s; idtr := idtr s;
                                 interrupts_on := interrupts_on s |}) -> wp (on_io c) s Q.
Proof. unfold wp, on_io. by destruct (c (io s)) as [[a d]| |]. Qed.

Definition pics d : pic_regs * pic_regs := (pic Master d, pic Slave d).

Lemma pics_out_data c d v : is_u8 v -> pics (p_outb (data_port c) v d) =
  match c with Master => (pic_data_write v (pics d).1, (pics d).2)
             | Slave => ((pics d).1, pic_data_write v (pics d).2) end.
Proof. intros Hv. unfold pics. rewrite !pic_out_data by done. by destruct c. Qed.

Lemma pics_out_init c d : pics (p_outb (cmd_port c) 0x11 d) =
  match c with Master => ({| pic_mask := 0; pic_expects := 3; pic_offset := 0 |}, (pics d).2)
             | Slave => ((pics d).1, {| pic_mask := 0; pic_expects := 3; pic_offset := 0 |}) end.
Proof. unfold pics. rewrite !pic_out_init. by destruct c. Qed.

(** The remapping sequence keeps the masks and sets the offsets. *)
Lemma wp_pic_remap o1 o2 d Q : is_u8 o1 -> is_u8 o2 ->
  (forall d', pic Master d' = {| pic_mask := pic_mask (pic Master d); pic_expects := 0; pic_offset := o1 |} ->
     pic Slave d' = {| pic_mask := pic_mask (pic Slave d); pic_expects := 0; pic_offset := o2 |} -> Q tt d') ->
  wp (pic_remap o1 o2) d Q.
Proof.
  intros H1 H2 HQ. pose proof (pic_mask_byte Master d) as Hm. pose proof (pic_mask_byte Slave d) as Hs.
  unfold pic_remap. change PIC_MASTER_DATA with (data_port Master). change PIC_SLAVE_DATA with (data_port Slave).
  change PIC_MASTER_CMD with (cmd_port Master). change PIC_SLAVE_CMD with (cmd_port Slave).
  change (Z.lor ICW1_INIT ICW1_ICW4) with 0x11.
  do 2 apply wp_bind, wp_inb_mask. do 9 apply wp_bind, wp_outb. apply wp_outb.
  match goal with |- Q tt ?d' => enough (E : pics d' =
    ({| pic_mask := pic_mask (pic Master d); pic_expects := 0; pic_offset := o1 |},
     {| pic_mask := pic_mask (pic Slave d); pic_expects := 0; pic_offset := o2 |})) end.
  { injection E as E1 E2. by apply HQ. }
  change (u8 17) with 0x11. rewrite !pics_out_data, !pics_out_init by apply u8_range.
  cbn [fst snd]. unfold pic_data_write. cbn. by rewrite !u8_small.
Qed.

Definition gates_ok (l : list idt_entry) (n : Z) (exceptions irqs : Z -> Z) (zero : Z -> option idt_entry) : Prop :=
  length l = 256%nat /\
  forall k, 0 <= k < 256 -> znth l k =
    if k <? n then Some (encode_gate (if k <? 32 then exceptions k else irqs (k - 32)) GDT_KERNEL_CODE_SEL IDT_INTERRUPT_GATE)
    else zero k.

Lemma gates_ok_step l n ex irqs zero : gates_ok l n ex irqs zero -> 0 <= n < 48 ->
  gates_ok (<[Z.to_nat n := encode_gate (if n <? 32 then ex n else irqs (n - 32)) GDT_KERNEL_CODE_SEL
    IDT_INTERRUPT_GATE]> l) (n + 1) ex irqs zero.
Proof.
  intros [Hl Hz] Hn. split; [by rewrite length_insert|]. intros k Hk.
  rewrite znth_insert_list, Hz by lia. destruct (Z.eqb_spec k n) as [->|]; repeat case_bool; by try lia.
Qed.

Lemma wp_idt_set_gate num base sel fl (s : idt_state D) Q :
  0 <= num < Z.of_nat (length (idt s)) ->
  Q tt {| io := io s; idt := <[Z.to_nat num := encode_gate base sel fl]> (idt s);
          isr_table := isr_table s; idtr := idtr s; interrupts_on := interrupts_on s |} ->
  wp (idt_set_gate num base sel fl) s Q.
Proof. intros Hn HQ. unfold wp, idt_set_gate. by rewrite zset_Some. Qed.

(** The state while the gates are being filled in. *)
Definition filling_gates (s0 : idt_state D) d ex irqs (n : Z) (s : idt_state D) : Prop :=
  io s = d /\ isr_table s = replicate 1024 0 /\ gates_ok (idt s) n ex irqs (fun k => znth (idt s0) k).

Lemma wp_fill_gates s0 d ex irqs f n m s Q :
  filling_gates s0 d ex irqs n s -> 0 <= n -> n + Z.of_nat m <= 48 ->
  (forall i, n <= i < n + Z.of_nat m -> f (i - n) = if i <? 32 then ex i else irqs (i - 32)) ->
  (forall s', filling_gates s0 d ex irqs (n + Z.of_nat m) s' -> Q tt s') ->
  wp (st_for m 0 (fun i => idt_set_gate (u8 (n + i)) (f i) GDT_KERNEL_CODE_SEL IDT_INTERRUPT_GATE)) s Q.
Proof.
  intros Hs Hn Hm Hf HQ. apply (wp_for (fun i s => filling_gates s0 d ex irqs (n + i) s)).
  - by rewrite Z.add_0_r.
  - intros j s1 Hj (H1 & H2 & H3). rewrite u8_small by (unfold is_u8; lia).
    apply wp_idt_set_gate; [destruct H3; lia|]. split; [done|]. split; [done|]. cbn [idt].
    specialize (Hf (n + j)). replace (n + j - n) with j in Hf by lia. rewrite Hf by lia.
    rewrite Z.add_assoc. apply gates_ok_step; [done|lia].
  - intros s' Hs'. by apply HQ.
Qed.

(** [idt_init] fills the interrupt table: the 32 exceptions and the 16
    requests enter the kernel through interrupt gates at the addresses of their
    stubs, vector 0x67 is a trap gate that level 3 may use, every other gate
    keeps its (zero) contents; the controllers deliver at 0x20 and 0x28 with all
    lines masked, no handler is registered and interrupts are on. *)
Theorem idt_init_correct (s : idt_state D) exceptions irqs syscall idt_addr :
  length (idt s) = 256%nat -> (forall i, is_u32 (exceptions i)) -> (forall i, is_u32 (irqs i)) ->
  is_u32 syscall -> pic_expects (pic Master (io s)) = 0%nat -> pic_expects (pic Slave (io s)) = 0%nat ->
  exists s', idt_init exceptions irqs syscall idt_addr s = Ret (tt, s') /\
    (forall k, 0 <= k < 48 -> exists e, znth (idt s') k = Some e /\ attributes e = IDT_INTERRUPT_GATE /\
       kernel_cs e = GDT_KERNEL_CODE_SEL /\
       gate_target e = if k <? 32 then exceptions k else irqs (k - 32)) /\
    (exists e, znth (idt s') SYSCALL_INT = Some e /\ attributes e = IDT_TRAP_GATE_USER /\ gate_target e = syscall) /\
    (forall k, 48 <= k < 256 -> k <> SYSCALL_INT -> znth (idt s') k = znth (idt s) k) /\
    (forall irq, 0 <= irq < 16 -> masked (io s') irq = true) /\
    pic_offset (pic Master (io s')) = 0x20 /\ pic_offset (pic Slave (io s')) = 0x28 /\
    isr_table s' = replicate 1024 0 /\ idtr s' = Some (2047, idt_addr) /\ interrupts_on s' = true /\
    forall c, pic_expects (pic c (io s')) = 0%nat.
Proof.
  intros Hl Hex Hirq Hsys Hm Hs.
  enough (Hwp : wp (idt_init exceptions irqs syscall idt_addr) s (fun _ s' =>
    (exists l, gates_ok l 48 exceptions irqs (fun k => znth (idt s) k) /\
       idt s' = <[Z.to_nat SYSCALL_INT := encode_gate syscall GDT_KERNEL_CODE_SEL IDT_TRAP_GATE_USER]> l) /\
    pic Master (io s') = {| pic_mask := 255; pic_expects := 0; pic_offset := 0x20 |} /\
    pic Slave (io s') = {| pic_mask := 255; pic_expects := 0; pic_offset := 0x28 |} /\
    isr_table s' = replicate 1024 0 /\ idtr s' = Some (2047, idt_addr) /\ interrupts_on s' = true)).
  { apply wp_run in Hwp as ([] & s' & H & (l & [Hg Hz] & Ei) & Em & Es & Hrest). exists s'. split; [done|].
    rewrite Ei, Em, Es. unfold SYSCALL_INT in *. split_and!; try apply Hrest; try done.
    - intros k Hk. rewrite znth_insert_list, Hz by lia. case_bool; [lia|]. case_bool; [|lia].
      eexists. split; [done|]. split; [done|]. split; [done|]. apply gate_target_encode. by case_bool.
    - rewrite znth_insert_list by lia. rewrite Z.eqb_refl. eexists. split; [done|]. split; [done|].
      by apply gate_target_encode.
    - intros k Hk Hne. rewrite znth_insert_list, Hz by lia. case_bool; [lia|]. case_bool; [lia|]. done.
    - intros irq Hi. unfold masked, irq_chip.
      assert (Hb : Z.testbit 255 (irq mod 8) = true).
      { change 255 with (Z.ones 8). apply Z.ones_spec_low. zlia. }
      destruct (irq <? 8); [by rewrite Em|by rewrite Es].
    - intros []; by rewrite ?Em, ?Es. }
  apply wp_bind, wp_on_io. unfold pic_disable_all.
  change PIC_MASTER_DATA with (data_port Master). change PIC_SLAVE_DATA with (data_port Slave).
  apply wp_bind, wp_outb, wp_outb. set (d1 := p_outb _ _ (p_outb _ _ _)).
  assert (E1 : pics d1 = ({| pic_mask := 255; pic_expects := 0; pic_offset := pic_offset (pic Master (io s)) |},
                          {| pic_mask := 255; pic_expects := 0; pic_offset := pic_offset (pic Slave (io s)) |})).
  { unfold d1. rewrite !pics_out_data by apply u8_range. unfold pics, pic_data_write. cbn [fst snd]. by rewrite Hm, Hs. }
  injection E1 as Em Es.
  apply wp_bind, wp_on_io, wp_pic_remap; [done|done|]. cbn [io]. rewrite Em, Es. cbn [pic_mask].
  intros d2 Em2 Es2. apply wp_bind, wp_modify.
  apply wp_bind, (wp_fill_gates s d2 exceptions irqs exceptions 0); [|done|done| |].
  { split; [done|]. split; [done|]. split; [done|]. intros k Hk. case_bool; [lia|done]. }
  { intros i Hi. rewrite Z.sub_0_r. case_bool; [done|]. unfold EXCEPTION_COUNT in *. lia. }
  intros s2 H2. apply wp_bind, (wp_fill_gates s d2 exceptions irqs irqs 32); [exact H2|done|done| |].
  { intros i Hi. case_bool; [lia|done]. }
  intros s3 (H3 & H4 & H5). apply wp_bind, wp_idt_set_gate; [destruct H5 as [-> _]; unfold SYSCALL_INT; lia|].
  apply wp_modify. split; [by eexists|]. cbn [io isr_table idtr interrupts_on]. rewrite H3. done.
Qed.
End pic_theorems.

(** ** A pair of controllers, for the witnesses *)
Record pic_pair := { pp_master : pic_regs; pp_slave : pic_regs }.
Definition byte_mask (r : pic_regs) : pic_regs :=
  {| pic_mask := u8 (pic_mask r); pic_expects := pic_expects r; pic_offset := pic_offset r |}.
Definition pp_out (port v : Z) (d : pic_pair) : pic_pair :=
  let '{| pp_master := m; pp_slave := s |} := d in
  let init := {| pic_mask := 0; pic_expects := 3; pic_offset := 0 |} in
  if port =? PIC_MASTER_DATA then {| pp_master := pic_data_write v (byte_mask m); pp_slave := s |}
  else if port =? PIC_SLAVE_DATA then {| pp_master := m; pp_slave := pic_data_write v (byte_mask s) |}
  else if (port =? PIC_MASTER_CMD) && (v =? 0x11) then {| pp_master := init; pp_slave := s |}
  else if (port =? PIC_SLAVE_CMD) && (v =? 0x11) then {| pp_master := m; pp_slave := init |}
  else d.
#[export] Instance pp_ports : Ports pic_pair := {
  p_inb port d := (u8 (pic_mask (if port =? PIC_MASTER_DATA then pp_master d else pp_slave d)), d);
  p_outb := pp_out;
  p_inw _ d := (0, d);
  p_outw _ _ d := d
}.
#[export] Instance pp_pic : Pic8259 pic_pair.
Proof.
  refine {| pic c d := byte_mask (match c with Master => pp_master d | Slave => pp_slave d end) |}.
  - intros c d. apply u8_range.
  - intros [] d; done.
  - intros [] [] [m s] v Hv; cbn; try done; unfold byte_mask, pic_data_write; cbn;
      [destruct (pic_expects m)|destruct (pic_expects s)]; cbn; rewrite ?u8_small by done; try done;
      by rewrite u8_small by apply u8_range.
  - intros [] [] [m s]; done.
  - intros [] [] [m s]; done.
Defined.

Definition pics_boot : pic_pair :=
  let r := {| pic_mask := 0; pic_expects := 0; pic_offset := 0 |} in {| pp_master := r; pp_slave := r |}.

Lemma pic_mask_one_line_witness : exists d', pic_set_mask 14 pics_boot = Ret (tt, d') /\ masked d' 14 = true.
Proof.
  destruct (pic_mask_one_line 14 pics_boot) as ((d' & H & Hm & _) & _); [lia|reflexivity|].
  exists d'. split; [exact H|]. rewrite Hm by lia. reflexivity.
Defined.

Definition idt_boot : idt_state pic_pair :=
  {| io := pics_boot; idt := replicate 256 idt_zero; isr_table := []; idtr := None; interrupts_on := false |}.

Lemma idt_init_correct_witness :
  exists s', idt_init (fun _ => 0xC0100000) (fun _ => 0xC0101000) 0xC0102000 0xC0200000 idt_boot = Ret (tt, s') /\
    interrupts_on s' = true.
Proof.
  destruct (idt_init_correct idt_boot (fun _ => 0xC0100000) (fun _ => 0xC0101000) 0xC0102000 0xC0200000)
    as (s' & H & _ & _ & _ & _ & _ & _ & _ & _ & Hon & _);
    [reflexivity|intros; unfold is_u32; lia|intros; unfold is_u32; lia|unfold is_u32; lia|reflexivity|reflexivity|].
  exists s'. split; [exact H|exact Hon].
Defined.
