(* ===== verification/Keyboard.v ===== *)
(** * Keyboard driver (src/src/drivers/keyboard.c)

    Decoding of scancode set 1 with its modifier state machine, and the
    256-slot ring of key events between the interrupt handler and its reader.
    [keyboard_callback] takes the byte [inb(KBD_DATA)] returns.

    The theorems show that the ring implements a FIFO queue as long as fewer
    than 256 events are pending, what happens at the 256th, and that break
    codes decode to the key of their make code. *)

From S2P Require Import Prelude.

(** ** Data of keyboard.h *)
Inductive keycode : Type :=
| KC_NONE | KC_ESC | KC_F1 | KC_F2 | KC_F3 | KC_F4 | KC_F5 | KC_F6 | KC_F7
| KC_F8 | KC_F9 | KC_F10 | KC_F11 | KC_F12 | KC_GRAVE | KC_1 | KC_2 | KC_3
| KC_4 | KC_5 | KC_6 | KC_7 | KC_8 | KC_9 | KC_0 | KC_MINUS | KC_EQUAL
| KC_BSPC | KC_TAB | KC_Q | KC_W | KC_E | KC_R | KC_T | KC_Y | KC_U
| KC_I | KC_O | KC_P | KC_LBR | KC_RBR | KC_ENTER | KC_LCTRL | KC_A | KC_S
| KC_D | KC_F | KC_G | KC_H | KC_J | KC_K | KC_L | KC_SEMI | KC_APOS
| KC_BSLASH | KC_LSHIFT | KC_Z | KC_X | KC_C | KC_V | KC_B | KC_N | KC_M
| KC_COMMA | KC_DOT | KC_SLASH | KC_RSHIFT | KC_KP_STAR | KC_LALT | KC_SPACE | KC_CAPS | KC_HOME
| KC_UP | KC_PGUP | KC_LEFT | KC_RIGHT | KC_END | KC_DOWN | KC_PGDN | KC_INS | KC_DEL
| KC_RCTRL | KC_RALT.

Record key_mods := { m_shift : bool; m_ctrl : bool; m_alt : bool; m_caps : bool }.

Record key_event := {
  code : keycode;
  pressed : bool;
  ascii : Z;
  mods : key_mods
}.

Definition KEYBOARD_BUFFER_SIZE : Z := 256.

(** [{0}] *)
Definition zero_event : key_event :=
  {| code := KC_NONE; pressed := false; ascii := 0;
     mods := {| m_shift := false; m_ctrl := false; m_alt := false; m_caps := false |} |}.

(** The file's static variables. *)
Record kbd := {
  s_shift : bool; s_ctrl : bool; s_alt : bool; s_caps : bool; s_e0 : bool;
  keyboard_buffer : list key_event;
  buffer_head : Z;
  buffer_tail : Z
}.

Definition kbd_boot : kbd :=
  {| s_shift := false; s_ctrl := false; s_alt := false; s_caps := false; s_e0 := false;
     keyboard_buffer := replicate (Z.to_nat KEYBOARD_BUFFER_SIZE) zero_event;
     buffer_head := 0; buffer_tail := 0 |}.

(** ** Scancode tables *)
Definition sc1_to_keycode : list keycode :=
  [KC_NONE; KC_ESC; KC_1; KC_2; KC_3; KC_4; KC_5; KC_6;
   KC_7; KC_8; KC_9; KC_0; KC_MINUS; KC_EQUAL; KC_BSPC; KC_TAB;
   KC_Q; KC_W; KC_E; KC_R; KC_T; KC_Y; KC_U; KC_I;
   KC_O; KC_P; KC_LBR; KC_RBR; KC_ENTER; KC_LCTRL; KC_A; KC_S;
   KC_D; KC_F; KC_G; KC_H; KC_J; KC_K; KC_L; KC_SEMI;
   KC_APOS; KC_GRAVE; KC_LSHIFT; KC_BSLASH; KC_Z; KC_X; KC_C; KC_V;
   KC_B; KC_N; KC_M; KC_COMMA; KC_DOT; KC_SLASH; KC_RSHIFT; KC_KP_STAR;
   KC_LALT; KC_SPACE; KC_CAPS; KC_F1; KC_F2; KC_F3; KC_F4; KC_F5;
   KC_F6; KC_F7; KC_F8; KC_F9; KC_F10; KC_NONE; KC_NONE; KC_NONE;
   KC_NONE; KC_NONE; KC_NONE; KC_NONE; KC_NONE; KC_NONE; KC_NONE; KC_NONE;
   KC_NONE; KC_NONE; KC_NONE; KC_NONE; KC_NONE; KC_NONE; KC_NONE; KC_NONE;
   KC_NONE; KC_NONE; KC_NONE; KC_NONE; KC_NONE; KC_NONE; KC_NONE; KC_NONE]
  ++ replicate 32 KC_NONE.

Definition e0_map (sc : Z) : keycode :=
  if sc =? 0x1D then KC_RCTRL
  else if sc =? 0x38 then KC_RALT
  else if sc =? 0x47 then KC_HOME
  else if sc =? 0x48 then KC_UP
  else if sc =? 0x49 then KC_PGUP
  else if sc =? 0x4B then KC_LEFT
  else if sc =? 0x4D then KC_RIGHT
  else if sc =? 0x4F then KC_END
  else if sc =? 0x50 then KC_DOWN
  else if sc =? 0x51 then KC_PGDN
  else if sc =? 0x52 then KC_INS
  else if sc =? 0x53 then KC_DEL
  else KC_NONE.

(** ** ASCII translation *)
Definition letter_from_keycode (kc : keycode) (shift caps : bool) : Z :=
  let upper := xorb shift caps in
  match kc with
  | KC_A => if upper then 65 else 97
  | KC_B => if upper then 66 else 98
  | KC_C => if upper then 67 else 99
  | KC_D => if upper then 68 else 100
  | KC_E => if upper then 69 else 101
  | KC_F => if upper then 70 else 102
  | KC_G => if upper then 71 else 103
  | KC_H => if upper then 72 else 104
  | KC_I => if upper then 73 else 105
  | KC_J => if upper then 74 else 106
  | KC_K => if upper then 75 else 107
  | KC_L => if upper then 76 else 108
  | KC_M => if upper then 77 else 109
  | KC_N => if upper then 78 else 110
  | KC_O => if upper then 79 else 111
  | KC_P => if upper then 80 else 112
  | KC_Q => if upper then 81 else 113
  | KC_R => if upper then 82 else 114
  | KC_S => if upper then 83 else 115
  | KC_T => if upper then 84 else 116
  | KC_U => if upper then 85 else 117
  | KC_V => if upper then 86 else 118
  | KC_W => if upper then 87 else 119
  | KC_X => if upper then 88 else 120
  | KC_Y => if upper then 89 else 121
  | KC_Z => if upper then 90 else 122
  | _ => 0
  end.

Definition symbol_from_keycode (kc : keycode) (shift : bool) : Z :=
  match kc with
  | KC_1 => if shift then 33 else 49
  | KC_2 => if shift then 64 else 50
  | KC_3 => if shift then 35 else 51
  | KC_4 => if shift then 36 else 52
  | KC_5 => if shift then 37 else 53
  | KC_6 => if shift then 94 else 54
  | KC_7 => if shift then 38 else 55
  | KC_8 => if shift then 42 else 56
  | KC_9 => if shift then 40 else 57
  | KC_0 => if shift then 41 else 48
  | KC_MINUS => if shift then 95 else 45
  | KC_EQUAL => if shift then 43 else 61
  | KC_LBR => if shift then 123 else 91
  | KC_RBR => if shift then 125 else 93
  | KC_BSLASH => if shift then 124 else 92
  | KC_SEMI => if shift then 58 else 59
  | KC_APOS => if shift then 34 else 39
  | KC_GRAVE => if shift then 126 else 96
  | KC_COMMA => if shift then 60 else 44
  | KC_DOT => if shift then 62 else 46
  | KC_SLASH => if shift then 63 else 47
  | KC_SPACE => 32
  | _ => 0
  end.

Definition ascii_from_keycode (kc : keycode) (shift caps ctrl : bool) : Z :=
  let ch := letter_from_keycode kc shift caps in
  if negb (ch =? 0) then ch
  else
    let ch := symbol_from_keycode kc shift in
    if negb (ch =? 0) then ch
    else
      match kc with
      | KC_ENTER => 10
      | KC_TAB => 9
      | KC_BSPC => 8
      | KC_ESC => 27
      | _ => 0
      end.

(** ** Decoding *)
Definition decode_make (k : kbd) (sc : Z) : outcome keycode :=
  if s_e0 k then Ret (e0_map sc)
  else if sc <? 128 then of_option (znth sc1_to_keycode sc)
  else Ret KC_NONE.

Definition decode_break (k : kbd) (sc : Z) : outcome keycode :=
  decode_make k (Z.land sc 0x7F).

Definition apply_modifier (kc : keycode) (down : bool) (k : kbd) : kbd :=
  let upd shift ctrl alt caps :=
    {| s_shift := shift; s_ctrl := ctrl; s_alt := alt; s_caps := caps; s_e0 := s_e0 k;
       keyboard_buffer := keyboard_buffer k;
       buffer_head := buffer_head k; buffer_tail := buffer_tail k |} in
  match kc with
  | KC_LSHIFT | KC_RSHIFT => upd down (s_ctrl k) (s_alt k) (s_caps k)
  | KC_LCTRL | KC_RCTRL => upd (s_shift k) down (s_alt k) (s_caps k)
  | KC_LALT | KC_RALT => upd (s_shift k) (s_ctrl k) down (s_caps k)
  | KC_CAPS => if down then upd (s_shift k) (s_ctrl k) (s_alt k) (negb (s_caps k)) else k
  | _ => k
  end.

Definition set_e0 (b : bool) (k : kbd) : kbd :=
  {| s_shift := s_shift k; s_ctrl := s_ctrl k; s_alt := s_alt k; s_caps := s_caps k; s_e0 := b;
     keyboard_buffer := keyboard_buffer k;
     buffer_head := buffer_head k; buffer_tail := buffer_tail k |}.

(** [keyboard_buffer[buffer_head] = event;] and the increment of the head. *)
Definition push_event (e : key_event) (k : kbd) : outcome kbd :=
  buf ← of_option (zset (keyboard_buffer k) (buffer_head k) e);
  Ret {| s_shift := s_shift k; s_ctrl := s_ctrl k; s_alt := s_alt k; s_caps := s_caps k;
         s_e0 := s_e0 k; keyboard_buffer := buf;
         buffer_head := u8 ((buffer_head k + 1) mod KEYBOARD_BUFFER_SIZE);
         buffer_tail := buffer_tail k |}.

Definition snapshot (k : kbd) : key_mods :=
  {| m_shift := s_shift k; m_ctrl := s_ctrl k; m_alt := s_alt k; m_caps := s_caps k |}.

Definition keyboard_callback (sc : Z) (k : kbd) : outcome kbd :=
  if sc =? 0xE0 then Ret (set_e0 true k)
  else
    let break_code := negb (Z.land sc 0x80 =? 0) in
    kc ← (if break_code then decode_break k sc else decode_make k sc);
    k ← match kc with
        | KC_NONE => Ret k
        | _ =>
            let k := apply_modifier kc (negb break_code) k in
            let event := {| code := kc; pressed := negb break_code;
                            ascii := if negb break_code
                                     then ascii_from_keycode kc (s_shift k) (s_caps k) (s_ctrl k)
                                     else 0;
                            mods := snapshot k |} in
            push_event event k
        end;
    Ret (set_e0 false k).

Definition keyboard_read (k : kbd) : outcome (option key_event * kbd) :=
  if negb (buffer_head k =? buffer_tail k) then
    e ← of_option (znth (keyboard_buffer k) (buffer_tail k));
    Ret (Some e,
         {| s_shift := s_shift k; s_ctrl := s_ctrl k; s_alt := s_alt k; s_caps := s_caps k;
            s_e0 := s_e0 k; keyboard_buffer := keyboard_buffer k;
            buffer_head := buffer_head k;
            buffer_tail := u8 ((buffer_tail k + 1) mod KEYBOARD_BUFFER_SIZE) |})
  else Ret (None, k).

(** ** Specification: a decoder in front of a FIFO queue *)

(** The key a byte stands for. *)
Definition key_of (k : kbd) (sc : Z) : keycode :=
  if sc =? 0xE0 then KC_NONE
  else if s_e0 k then e0_map (sc mod 128)
  else default KC_NONE (znth sc1_to_keycode (sc mod 128)).

(** The events a byte produces: at most one. *)
Definition event_of (k : kbd) (sc : Z) : list key_event :=
  match key_of k sc with
  | KC_NONE => []
  | kc =>
      let down := sc <? 128 in
      let k := apply_modifier kc down k in
      [{| code := kc; pressed := down;
          ascii := if down then ascii_from_keycode kc (s_shift k) (s_caps k) (s_ctrl k) else 0;
          mods := snapshot k |}]
  end.

(** The ring holds the queue [q]. *)
Record ring (k : kbd) (q : list key_event) : Prop := {
  rg_len : length (keyboard_buffer k) = 256%nat;
  rg_tail : 0 <= buffer_tail k < 256;
  rg_room : (length q < 256)%nat;
  rg_head : buffer_head k = (buffer_tail k + Z.of_nat (length q)) mod 256;
  rg_slots : forall i e, q !! i = Some e ->
    keyboard_buffer k !! Z.to_nat ((buffer_tail k + Z.of_nat i) mod 256) = Some e
}.

(** Interrupts and reads, with the events sent and received so far. *)
Inductive kbd_step : kbd * list key_event * list key_event ->
                     kbd * list key_event * list key_event -> Prop :=
| step_irq k sent got sc k' :
    0 <= sc < 256 -> keyboard_callback sc k = Ret k' ->
    (length (sent ++ event_of k sc) - length got < 256)%nat ->
    kbd_step (k, sent, got) (k', sent ++ event_of k sc, got)
| step_read k sent got e k' :
    keyboard_read k = Ret (Some e, k') -> kbd_step (k, sent, got) (k', sent, got ++ [e])
| step_read_none k sent got k' :
    keyboard_read k = Ret (None, k') -> kbd_step (k, sent, got) (k', sent, got).

(** ** Lemmas *)
Lemma land_0x80 sc : 0 <= sc < 256 -> negb (Z.land sc 0x80 =? 0) = negb (sc <? 128).
Proof.
  intros Hsc. f_equal.
  assert (Hb : Z.testbit sc 7 = negb (sc <? 128)).
  { rewrite Z.testbit_eqb by lia. change (2 ^ 7) with 128. zlia. }
  assert (Hl : Z.land sc 0x80 = if Z.testbit sc 7 then 128 else 0).
  { change 0x80 with (Z.shiftl 1 7). apply Z.bits_inj'. intros i Hi.
    rewrite Z.land_spec, shiftl_1_testbit by lia.
    destruct (Z.eqb_spec i 7) as [->|]; destruct (Z.testbit sc 7); try done.
    - change 128 with (Z.shiftl 1 7). rewrite shiftl_1_testbit by lia. lia.
    - by rewrite andb_false_r, Z.bits_0. }
  rewrite Hl, Hb. by destruct (sc <? 128).
Qed.

Lemma land_0x7F sc : Z.land sc 0x7F = sc mod 128.
Proof. change 0x7F with (Z.ones 7). by rewrite Z.land_ones by lia. Qed.

Lemma length_sc1 : length sc1_to_keycode = 128%nat.
Proof. done. Qed.

Lemma decode_key k sc : 0 <= sc < 256 -> sc <> 0xE0 ->
  (if negb (sc <? 128) then decode_break k sc else decode_make k sc) = Ret (key_of k sc).
Proof.
  intros Hsc HE0. unfold key_of. destruct (Z.eqb_spec sc 0xE0); [done|].
  unfold decode_break. rewrite land_0x7F.
  assert (Hm : forall x, 0 <= x < 128 -> decode_make k x =
    Ret (if s_e0 k then e0_map x else default KC_NONE (znth sc1_to_keycode x))).
  { intros x Hx. unfold decode_make. destruct (s_e0 k); [done|].
    destruct (Z.ltb_spec x 128); [|lia].
    destruct (znth_Some sc1_to_keycode x) as [kc Hkc]; [by rewrite length_sc1|]. by rewrite Hkc. }
  destruct (Z.ltb_spec sc 128); cbn [negb]; rewrite Hm by zlia.
  - by rewrite (Z.mod_small sc 128) by lia.
  - done.
Qed.

Lemma apply_modifier_ring kc down k :
  keyboard_buffer (apply_modifier kc down k) = keyboard_buffer k /\
  buffer_head (apply_modifier kc down k) = buffer_head k /\
  buffer_tail (apply_modifier kc down k) = buffer_tail k.
Proof. destruct kc; try done. by destruct down. Qed.

Lemma ring_same k k' q :
  keyboard_buffer k' = keyboard_buffer k -> buffer_head k' = buffer_head k ->
  buffer_tail k' = buffer_tail k -> ring k q -> ring k' q.
Proof. intros E1 E2 E3 [????]. split; rewrite ?E1, ?E2, ?E3; done. Qed.

Lemma ring_mod_inj t i j : 0 <= i < 256 -> 0 <= j < 256 ->
  (t + i) mod 256 = (t + j) mod 256 -> i = j.
Proof. intros. zlia. Qed.

(** The callback stores the event even when the ring is full. *)
Lemma push_event_ret k q e : ring k q -> exists k', push_event e k = Ret k' /\
  keyboard_buffer k' = <[Z.to_nat (buffer_head k) := e]> (keyboard_buffer k) /\
  buffer_tail k' = buffer_tail k /\
  buffer_head k' = (buffer_tail k + Z.of_nat (length q) + 1) mod 256.
Proof.
  intros [Hl Ht Hr Hh Hs]. unfold push_event, KEYBOARD_BUFFER_SIZE.
  rewrite zset_Some by (rewrite Hl, Hh; zlia). eexists. split; [done|].
  split_and!; [done|done|]. cbn [buffer_head]. unfold u8. rewrite Hh. zlia.
Qed.

Lemma push_event_spec k q e : ring k q -> (length q < 255)%nat ->
  exists k', push_event e k = Ret k' /\ ring k' (q ++ [e]).
Proof.
  intros Hrg Hq. destruct (push_event_ret k q e Hrg) as (k' & Hk & Hb & Htl & Hhd).
  destruct Hrg as [Hl Ht Hr Hh Hs]. exists k'. split; [done|].
  split; rewrite ?Hb, ?Htl, ?Hhd, ?length_insert, ?length_app; cbn [length]; [done|done|lia| |].
  - f_equal. lia.
  - intros i x. rewrite Hh. destruct (decide (i < length q)%nat) as [Hi|Hi].
    + rewrite lookup_app_l by done. intros Hx. rewrite list_lookup_insert_ne; [auto|].
      intros Heq%Z2Nat.inj; [|zlia|zlia]. apply ring_mod_inj in Heq; lia.
    + rewrite lookup_app_r by lia. intros Hx.
      assert (i = length q) as ->.
      { apply lookup_lt_Some in Hx as Hlt. cbn [length] in Hlt. lia. }
      rewrite Nat.sub_diag in Hx. injection Hx as <-. apply list_lookup_insert_eq. rewrite Hl. zlia.
Qed.

Lemma callback_event k sc : 0 <= sc < 256 ->
  keyboard_callback sc k =
    if sc =? 0xE0 then Ret (set_e0 true k)
    else
      match event_of k sc with
      | [e] => k' ← push_event e (apply_modifier (code e) (sc <? 128) k); Ret (set_e0 false k')
      | _ => Ret (set_e0 false k)
      end.
Proof.
  intros Hsc. unfold keyboard_callback. destruct (Z.eqb_spec sc 0xE0) as [|HE]; [done|].
  cbv zeta. rewrite land_0x80, decode_key by done. unfold event_of. rewrite negb_involutive.
  by destruct (key_of k sc).
Qed.

Lemma event_of_cases k sc : event_of k sc = [] \/ exists e, event_of k sc = [e].
Proof. unfold event_of. destruct (key_of k sc); eauto. Qed.

Lemma callback_spec k q sc : 0 <= sc < 256 -> ring k q -> (length (q ++ event_of k sc) < 256)%nat ->
  exists k', keyboard_callback sc k = Ret k' /\ ring k' (q ++ event_of k sc).
Proof.
  intros Hsc Hrg Hq. rewrite callback_event by done. destruct (Z.eqb_spec sc 0xE0) as [->|HE].
  { exists (set_e0 true k). split; [done|]. unfold event_of, key_of. cbn [Z.eqb Pos.eqb].
    rewrite app_nil_r. by apply (ring_same k). }
  destruct (event_of_cases k sc) as [E|[e E]]; rewrite E in *.
  - exists (set_e0 false k). split; [done|]. rewrite app_nil_r. by apply (ring_same k).
  - rewrite length_app in Hq. cbn [length] in Hq.
    destruct (apply_modifier_ring (code e) (sc <? 128) k) as (E1 & E2 & E3).
    destruct (push_event_spec (apply_modifier (code e) (sc <? 128) k) q e) as (k' & Hk & Hrg');
      [by apply (ring_same k)|lia|].
    rewrite Hk. exists (set_e0 false k'). split; [done|]. by apply (ring_same k').
Qed.

Lemma read_spec k q : ring k q ->
  match q with
  | [] => keyboard_read k = Ret (None, k)
  | e :: q => exists k', keyboard_read k = Ret (Some e, k') /\ ring k' q
  end.
Proof.
  intros [Hl Ht Hr Hh Hs]. unfold keyboard_read. destruct q as [|e q].
  - cbn [length] in Hh. rewrite Z.add_0_r, Z.mod_small in Hh by lia. by rewrite Hh, Z.eqb_refl.
  - cbn [length] in *. destruct (Z.eqb_spec (buffer_head k) (buffer_tail k)) as [E|_]; [exfalso; zlia|].
    cbn [negb]. pose proof (Hs 0%nat e eq_refl) as H0. rewrite Z.add_0_r, Z.mod_small in H0 by lia.
    unfold znth. destruct (Z.leb_spec 0 (buffer_tail k)); [|lia]. rewrite H0. eexists. split; [done|].
    split; cbn [keyboard_buffer buffer_head buffer_tail]; unfold u8, KEYBOARD_BUFFER_SIZE.
    + done.
    + zlia.
    + lia.
    + rewrite Hh. zlia.
    + intros i x Hx. rewrite <- (Hs (S i) x Hx). f_equal. f_equal. zlia.
Qed.

Lemma ring_boot : ring kbd_boot [].
Proof. split; [done|cbn; lia|cbn; lia|done|]. intros i e. by rewrite lookup_nil. Qed.

Lemma kbd_step_inv x y : kbd_step x y ->
  (exists q, ring x.1.1 q /\ x.1.2 = x.2 ++ q) -> exists q, ring y.1.1 q /\ y.1.2 = y.2 ++ q.
Proof.
  intros [k sent got sc k' Hsc Hcb Hroom|k sent got e k' Hrd|k sent got k' Hrd] (q & Hrg & Hq);
    cbn [fst snd] in *; subst sent.
  - exists (q ++ event_of k sc). split; [|by rewrite app_assoc].
    destruct (callback_spec k q sc Hsc Hrg) as (k2 & Hk2 & Hrg2).
    { rewrite <- app_assoc, length_app in Hroom. lia. }
    rewrite Hcb in Hk2. by injection Hk2 as ->.
  - pose proof (read_spec k q Hrg) as Hs. destruct q as [|e' q]; [congruence|].
    destruct Hs as (k2 & Hk2 & Hrg2). rewrite Hrd in Hk2. injection Hk2 as -> ->.
    exists q. split; [done|]. by rewrite <- app_assoc.
  - pose proof (read_spec k q Hrg) as Hs. destruct q as [|e' q].
    + rewrite Hrd in Hs. injection Hs as ->. by exists [].
    + destruct Hs as (k2 & Hk2 & _). congruence.
Qed.

(** ** Theorems *)

(** The ring is a FIFO queue: in every interleaving of interrupts and
    reads in which fewer than 256 events are pending, the events read are a
    prefix of the events decoded, in order; the next read returns the oldest
    pending event, and reports an empty queue only when nothing is pending. *)
Theorem keyboard_fifo k sent got :
  rtc kbd_step (kbd_boot, [], []) (k, sent, got) ->
  exists pending, sent = got ++ pending /\
    match pending with
    | [] => keyboard_read k = Ret (None, k)
    | e :: _ => exists k', keyboard_read k = Ret (Some e, k')
    end.
Proof.
  intros Hrun.
  assert (Hinv : exists q, ring k q /\ sent = got ++ q).
  { enough (forall x y, rtc kbd_step x y -> (exists q, ring x.1.1 q /\ x.1.2 = x.2 ++ q) ->
      exists q, ring y.1.1 q /\ y.1.2 = y.2 ++ q) as H.
    { apply (H _ _ Hrun). exists []. split; [apply ring_boot|done]. }
    induction 1 as [|x y z Hst _ IH]; [done|]. intros Hx. eapply IH, kbd_step_inv; done. }
  destruct Hinv as (q & Hrg & ->). exists q. split; [done|].
  pose proof (read_spec k q Hrg) as Hs. destruct q; [done|]. destruct Hs as (k' & ? & _). eauto.
Qed.

(** The 256th pending event empties the queue: with 255 events pending,
    the byte of one more event makes the next read report an empty queue, and
    all 256 events are lost. *)
Theorem keyboard_overflow_drops_all k q sc e :
  ring k q -> length q = 255%nat -> 0 <= sc < 256 -> event_of k sc = [e] ->
  exists k', keyboard_callback sc k = Ret k' /\ keyboard_read k' = Ret (None, k').
Proof.
  intros Hrg Hq Hsc He. rewrite callback_event, He by done.
  destruct (Z.eqb_spec sc 0xE0) as [->|_]; [done|].
  destruct (apply_modifier_ring (code e) (sc <? 128) k) as (E1 & E2 & E3).
  assert (Hrg' : ring (apply_modifier (code e) (sc <? 128) k) q) by (by apply (ring_same k)).
  destruct (push_event_ret _ q e Hrg') as (k' & Hk & _ & Htl & Hhd). rewrite Hk.
  exists (set_e0 false k'). split; [done|]. unfold keyboard_read. cbn [set_e0 buffer_head buffer_tail].
  pose proof (rg_tail _ _ Hrg). rewrite Hhd, Htl, Hq, E3.
  replace ((buffer_tail k + Z.of_nat 255 + 1) mod 256) with (buffer_tail k) by zlia.
  by rewrite Z.eqb_refl.
Qed.

(** Releasing a key reports the key that was pressed: a make code and its
    break code, each behind the same prefix state, decode to the same key, the
    first with [pressed] set, the second without and with no ASCII value. *)
Theorem break_matches_make k1 k2 sc :
  0 <= sc < 128 -> sc <> 0x60 -> s_e0 k1 = s_e0 k2 ->
  code <$> event_of k1 sc = code <$> event_of k2 (Z.lor sc 0x80) /\
  Forall (fun e => pressed e = true) (event_of k1 sc) /\
  Forall (fun e => pressed e = false /\ ascii e = 0) (event_of k2 (Z.lor sc 0x80)).
Proof.
  intros Hsc Hne He.
  assert (Z.lor sc 0x80 = sc + 128) as ->.
  { rewrite <- Z.add_lor_land. enough (Z.land sc 0x80 = 0) by lia.
    pose proof (land_0x80 sc ltac:(lia)) as H. destruct (Z.ltb_spec sc 128); [|lia].
    apply (f_equal negb) in H. rewrite !negb_involutive in H. lia. }
  assert (Hk : key_of k2 (sc + 128) = key_of k1 sc).
  { unfold key_of. rewrite He. replace ((sc + 128) mod 128) with (sc mod 128) by zlia.
    destruct (Z.eqb_spec sc 0xE0), (Z.eqb_spec (sc + 128) 0xE0); try lia. done. }
  unfold event_of. rewrite Hk. destruct (Z.ltb_spec sc 128), (Z.ltb_spec (sc + 128) 128); try lia.
  destruct (key_of k1 sc); cbn [fmap list_fmap code pressed ascii];
    (split; [done|split; repeat constructor]).
Qed.

(** ** Witnesses *)

(** Left shift and A are pressed; one event is read. *)
Lemma keyboard_fifo_witness : exists k sent got pending,
  rtc kbd_step (kbd_boot, [], []) (k, sent, got) /\ length got = 1%nat /\ length sent = 2%nat /\
  sent = got ++ pending.
Proof.
  set (k1 := match keyboard_callback 0x2A kbd_boot with Ret k => k | _ => kbd_boot end).
  set (k2 := match keyboard_callback 0x1E k1 with Ret k => k | _ => kbd_boot end).
  set (r := match keyboard_read k2 with Ret (Some e, k) => (e, k) | _ => (zero_event, kbd_boot) end).
  assert (Hrun : rtc kbd_step (kbd_boot, [], [])
    (r.2, ([] ++ event_of kbd_boot 0x2A) ++ event_of k1 0x1E, [] ++ [r.1])).
  { eapply rtc_l; [apply (step_irq _ [] [] 0x2A k1); [lia|by vm_compute|by apply Nat.ltb_lt]|].
    eapply rtc_l; [apply (step_irq k1 _ [] 0x1E k2); [lia|by vm_compute|by apply Nat.ltb_lt]|].
    eapply rtc_l; [apply (step_read k2 _ [] r.1 r.2); by vm_compute|]. apply rtc_refl. }
  destruct (keyboard_fifo _ _ _ Hrun) as (pending & Hp & _).
  exists r.2, (([] ++ event_of kbd_boot 0x2A) ++ event_of k1 0x1E), ([] ++ [r.1]), pending.
  split_and!; [exact Hrun|done|done|exact Hp].
Defined.

(** 255 events in a ring whose tail is 0. *)
Definition full_kbd : kbd :=
  {| s_shift := false; s_ctrl := false; s_alt := false; s_caps := false; s_e0 := false;
     keyboard_buffer := replicate 256 zero_event; buffer_head := 255; buffer_tail := 0 |}.

Lemma full_kbd_ring : ring full_kbd (replicate 255 zero_event).
Proof.
  split; [done|cbn; lia|rewrite length_replicate; lia|done|].
  intros i e [-> Hi]%lookup_replicate. cbn [full_kbd buffer_tail keyboard_buffer].
  apply lookup_replicate. split; [done|]. rewrite Z.mod_small by lia. lia.
Qed.

Lemma keyboard_overflow_drops_all_witness : exists k',
  keyboard_callback 0x1E full_kbd = Ret k' /\ keyboard_read k' = Ret (None, k').
Proof.
  eapply (keyboard_overflow_drops_all full_kbd (replicate 255 zero_event) 0x1E).
  - apply full_kbd_ring.
  - by rewrite length_replicate.
  - lia.
  - by vm_compute.
Defined.

Lemma break_matches_make_witness :
  code <$> event_of kbd_boot 0x1E = code <$> event_of kbd_boot (Z.lor 0x1E 0x80).
Proof. apply (break_matches_make kbd_boot kbd_boot 0x1E); [lia|lia|done]. Defined.
