(* ===== verification/Console.v ===== *)
(** * Text console (src/src/drivers/vga.c, src/src/lib/stdio.c,
      src/src/prog/terminal.c)

    The VGA text driver with its cursor, the terminal's scroll handler, and
    [printf] on top of the pluggable standard output.  The screen is the list of
    the 16-bit cells of the video memory, a write outside it is a [Fault]; port
    writes are logged, newest first. *)

From S2P Require Import Prelude Keyboard.

(** ** vga.c *)
Definition VGA_WIDTH : Z := 80.
Definition VGA_HEIGHT : Z := 25.
Definition VGA_COLOR_BLACK : Z := 0.
Definition VGA_COLOR_LIGHT_GREY : Z := 7.

(** The functions [vga_EOF_handler] points to. *)
Inductive eof_handler := EOF_null | EOF_vga_clear | EOF_scroll_down_once.

Record vga := {
  vga_row : Z;
  vga_column : Z;
  vga_color : Z;
  vga_EOF_handler : eof_handler;
  vga_buffer : list Z;
  vga_ports : list (Z * Z)
}.

Definition with_row (r : Z) (v : vga) : vga :=
  {| vga_row := r; vga_column := vga_column v; vga_color := vga_color v;
     vga_EOF_handler := vga_EOF_handler v; vga_buffer := vga_buffer v; vga_ports := vga_ports v |}.
Definition with_column (c : Z) (v : vga) : vga :=
  {| vga_row := vga_row v; vga_column := c; vga_color := vga_color v;
     vga_EOF_handler := vga_EOF_handler v; vga_buffer := vga_buffer v; vga_ports := vga_ports v |}.
Definition with_color (c : Z) (v : vga) : vga :=
  {| vga_row := vga_row v; vga_column := vga_column v; vga_color := c;
     vga_EOF_handler := vga_EOF_handler v; vga_buffer := vga_buffer v; vga_ports := vga_ports v |}.
Definition with_handler (h : eof_handler) (v : vga) : vga :=
  {| vga_row := vga_row v; vga_column := vga_column v; vga_color := vga_color v;
     vga_EOF_handler := h; vga_buffer := vga_buffer v; vga_ports := vga_ports v |}.
Definition with_buffer (b : list Z) (v : vga) : vga :=
  {| vga_row := vga_row v; vga_column := vga_column v; vga_color := vga_color v;
     vga_EOF_handler := vga_EOF_handler v; vga_buffer := b; vga_ports := vga_ports v |}.
Definition with_ports (p : list (Z * Z)) (v : vga) : vga :=
  {| vga_row := vga_row v; vga_column := vga_column v; vga_color := vga_color v;
     vga_EOF_handler := vga_EOF_handler v; vga_buffer := vga_buffer v; vga_ports := p |}.

Definition vga_entry_color (fg bg : Z) : Z := u8 (Z.lor fg (Z.shiftl bg 4)).
Definition vga_entry (uc color : Z) : Z := u16 (Z.lor (u8 uc) (Z.shiftl color 8)).

Definition outb (port val : Z) : ST vga unit :=
  st_modify (fun v => with_ports ((port, val) :: vga_ports v) v).

(** [vga_buffer[index]] *)
Definition vga_get (index : Z) : ST vga Z := fun v =>
  match znth (vga_buffer v) index with Some c => Ret (c, v) | None => Fault end.
Definition vga_put (index cell : Z) : ST vga unit := fun v =>
  match zset (vga_buffer v) index cell with Some b => Ret (tt, with_buffer b v) | None => Fault end.

Definition vga_move_cursor (row col : Z) : ST vga unit :=
  let pos := u16 (row *! VGA_WIDTH +! col) in
  outb 0x3D4 14;;
  outb 0x3D5 (Z.land (Z.shiftr pos 8) 0xFF);;
  outb 0x3D4 15;;
  outb 0x3D5 (Z.land pos 0xFF).

Definition vga_putchar_at (c color x y : Z) : ST vga unit :=
  vga_put (y *! VGA_WIDTH +! x) (vga_entry c color).

Definition vga_clear : ST vga unit :=
  let clear_color := vga_entry_color VGA_COLOR_LIGHT_GREY VGA_COLOR_BLACK in
  st_for (Z.to_nat VGA_HEIGHT) 0 (fun y =>
    st_for (Z.to_nat VGA_WIDTH) 0 (fun x =>
      vga_put (y *! VGA_WIDTH +! x) (vga_entry 32 clear_color)));;
  st_modify (with_row 0);;
  st_modify (with_column 0);;
  r ← st_gets vga_row; c ← st_gets vga_column;
  vga_move_cursor r c.

Definition vga_set_row (row : Z) : ST vga unit :=
  st_modify (with_row (if VGA_HEIGHT <=? row then VGA_HEIGHT - 1 else row));;
  r ← st_gets vga_row; c ← st_gets vga_column;
  vga_move_cursor r c.

Definition vga_set_col (col : Z) : ST vga unit :=
  st_modify (with_column (if VGA_WIDTH <=? col then VGA_WIDTH - 1 else col));;
  r ← st_gets vga_row; c ← st_gets vga_column;
  vga_move_cursor r c.

Definition vga_set_color (color : Z) : ST vga unit := st_modify (with_color (u8 color)).
Definition vga_get_color : ST vga Z := st_gets vga_color.
Definition vga_set_eof_handler (h : eof_handler) : ST vga unit := st_modify (with_handler h).

(** ** The terminal's end-of-screen handler (terminal.c) *)
Definition scroll_down_once : ST vga unit :=
  st_for (Z.to_nat (VGA_HEIGHT - 1)) 1 (fun y =>
    st_for (Z.to_nat VGA_WIDTH) 0 (fun x =>
      c ← vga_get (y *! VGA_WIDTH +! x);
      vga_put ((y - 1) *! VGA_WIDTH +! x) c));;
  current_color ← vga_get_color;
  st_for (Z.to_nat VGA_WIDTH) 0 (fun x =>
    vga_putchar_at 32 current_color x (VGA_HEIGHT - 1));;
  vga_set_col 0;;
  row ← st_gets vga_row;
  vga_set_row (row -! 1);;
  r ← st_gets vga_row; c ← st_gets vga_column;
  vga_move_cursor r c.

(** A call through [vga_EOF_handler]. *)
Definition call_eof_handler : ST vga unit :=
  h ← st_gets vga_EOF_handler;
  match h with
  | EOF_null => st_fault
  | EOF_vga_clear => vga_clear
  | EOF_scroll_down_once => scroll_down_once
  end.

Definition vga_putchar (c : Z) : ST vga unit :=
  (if c =? 10 then
     st_modify (fun v => with_row (vga_row v +! 1) v);; st_modify (with_column 0)
   else if c =? 8 then
     col ← st_gets vga_column;
     if 0 <? col then
       st_modify (with_column (col -! 1));;
       v ← st_get; vga_putchar_at 32 (vga_color v) (vga_column v) (vga_row v)
     else mret tt
   else
     v ← st_get; vga_putchar_at c (vga_color v) (vga_column v) (vga_row v);;
     st_modify (fun v => with_column (vga_column v +! 1) v);;
     col ← st_gets vga_column;
     if col =? VGA_WIDTH then
       st_modify (with_column 0);; st_modify (fun v => with_row (vga_row v +! 1) v)
     else mret tt);;
  row ← st_gets vga_row;
  (if row =? VGA_HEIGHT then call_eof_handler else mret tt);;
  r ← st_gets vga_row; c ← st_gets vga_column;
  vga_move_cursor r c.

(** [data] is the string without its terminator. *)
Fixpoint vga_writestring (data : list Z) : ST vga unit :=
  match data with
  | [] => mret tt
  | c :: data => vga_putchar c;; vga_writestring data
  end.

Definition vga_initialize : ST vga unit :=
  st_modify (with_row 0);;
  st_modify (with_column 0);;
  st_modify (with_color (vga_entry_color VGA_COLOR_LIGHT_GREY VGA_COLOR_BLACK));;
  st_modify (with_handler EOF_vga_clear);;
  vga_clear.

(** ** The screen invariant *)

(** The last four port writes set the hardware cursor to [pos]. *)
Definition cursor_at (v : vga) (pos : Z) : Prop :=
  exists hi lo rest,
    vga_ports v = (0x3D5, lo) :: (0x3D4, 15) :: (0x3D5, hi) :: (0x3D4, 14) :: rest /\
    0 <= lo < 256 /\ 0 <= hi < 256 /\ 256 * hi + lo = pos.

Record screen_ok (v : vga) : Prop := {
  so_len : length (vga_buffer v) = 2000%nat;
  so_row : 0 <= vga_row v < VGA_HEIGHT;
  so_col : 0 <= vga_column v < VGA_WIDTH;
  so_handler : vga_EOF_handler v <> EOF_null
}.

(** Row [y], column [x] of the screen. *)
Definition cell (v : vga) (y x : Z) : option Z := znth (vga_buffer v) (y * VGA_WIDTH + x).

(** ** Lemmas on the driver *)
Ltac vlia := unfold VGA_WIDTH, VGA_HEIGHT in *; lia.

Lemma grid_index y x : 0 <= y <= VGA_HEIGHT -> 0 <= x <= VGA_WIDTH ->
  y *! VGA_WIDTH +! x = y * VGA_WIDTH + x.
Proof. intros. rewrite (u32_small (y * VGA_WIDTH)), u32_small by (unfold is_u32; vlia). done. Qed.

Lemma wp_put v i c Q : 0 <= i < Z.of_nat (length (vga_buffer v)) ->
  Q tt (with_buffer (<[Z.to_nat i := c]> (vga_buffer v)) v) -> wp (vga_put i c) v Q.
Proof. intros Hi HQ. unfold wp, vga_put. by rewrite zset_Some. Qed.

Lemma wp_vga_get v i c Q : znth (vga_buffer v) i = Some c -> Q c v -> wp (vga_get i) v Q.
Proof. intros Hi HQ. unfold wp, vga_get. by rewrite Hi. Qed.

Lemma wp_move_cursor v row col Q :
  0 <= row <= VGA_HEIGHT -> 0 <= col <= VGA_WIDTH ->
  (forall p, cursor_at (with_ports p v) (row * VGA_WIDTH + col) -> Q tt (with_ports p v)) ->
  wp (vga_move_cursor row col) v Q.
Proof.
  intros Hr Hc HQ. unfold vga_move_cursor. rewrite grid_index by done.
  set (pos := row * VGA_WIDTH + col). assert (Hp : 0 <= pos < 65536) by (unfold pos; vlia).
  unfold u16. rewrite (Z.mod_small pos) by lia. change 0xFF with (Z.ones 8).
  rewrite !Z.land_ones, Z.shiftr_div_pow2 by lia. change (2 ^ 8) with 256.
  apply wp_bind, wp_modify, wp_bind, wp_modify, wp_bind, wp_modify, wp_modify.
  apply (HQ (_ :: _ :: _ :: _ :: vga_ports v)).
  eexists _, _, _. split; [done|]. zlia.
Qed.

(** A nested loop over the cells of rows [y0], ..., [y0 + h - 1]. *)
Lemma wp_grid {S} (J : Z -> S -> Prop) h y0 body s (Q : unit -> S -> Prop) :
  J (y0 * VGA_WIDTH) s ->
  (forall y x s, y0 <= y < y0 + Z.of_nat h -> 0 <= x < VGA_WIDTH -> J (y * VGA_WIDTH + x) s ->
     wp (body y x) s (fun _ s' => J (y * VGA_WIDTH + x + 1) s')) ->
  (forall s', J ((y0 + Z.of_nat h) * VGA_WIDTH) s' -> Q tt s') ->
  wp (st_for h y0 (fun y => st_for (Z.to_nat VGA_WIDTH) 0 (body y))) s Q.
Proof.
  intros H0 Hb HQ. apply (wp_for (fun y => J (y * VGA_WIDTH))); [done| |done].
  intros y s1 Hy H1. apply (wp_for (fun x => J (y * VGA_WIDTH + x))).
  - by rewrite Z.add_0_r.
  - intros x s2 Hx H2. replace (y * VGA_WIDTH + (x + 1)) with (y * VGA_WIDTH + x + 1) by lia.
    apply Hb; [done|vlia|done].
  - intros s2. by replace (y * VGA_WIDTH + (0 + Z.of_nat (Z.to_nat VGA_WIDTH))) with ((y + 1) * VGA_WIDTH) by vlia.
Qed.

(** [b'] is [b] with the cells that satisfy [P] replaced by [f]. *)
Definition repainted (b b' : list Z) (P : Z -> bool) (f : Z -> option Z) : Prop :=
  length b' = length b /\
  forall i, 0 <= i < Z.of_nat (length b) -> znth b' i = if P i then f i else znth b i.

Lemma repainted_refl b P f : (forall i, P i = false) -> repainted b b P f.
Proof. intros HP. split; [done|]. intros i _. by rewrite HP. Qed.

Lemma znth_insert_gen {A} (b : list A) i j x : 0 <= i < Z.of_nat (length b) -> 0 <= j ->
  znth (<[Z.to_nat i := x]> b) j = if j =? i then Some x else znth b j.
Proof.
  intros Hi Hj. unfold znth. destruct (Z.leb_spec 0 j); [|lia].
  destruct (Z.eqb_spec j i) as [->|].
  - apply list_lookup_insert_eq. lia.
  - apply list_lookup_insert_ne. lia.
Qed.

Lemma repainted_step b b' P P' f i x :
  repainted b b' P f -> 0 <= i < Z.of_nat (length b) -> f i = Some x ->
  (forall j, P' j = P j || (j =? i)) ->
  repainted b (<[Z.to_nat i := x]> b') P' f.
Proof.
  intros [Hl Hb] Hi Hx HP. split; [by rewrite length_insert|].
  intros j Hj. rewrite znth_insert_gen by lia. rewrite HP, Hb by done.
  destruct (Z.eqb_spec j i) as [->|]; [by rewrite orb_true_r|by rewrite orb_false_r].
Qed.

Lemma wp_vga_clear v Q : length (vga_buffer v) = 2000%nat ->
  (forall b p, repainted (vga_buffer v) b (fun _ => true) (fun _ => Some (vga_entry 32 7)) ->
     cursor_at (with_ports p v) 0 ->
     Q tt (with_ports p (with_column 0 (with_row 0 (with_buffer b v))))) ->
  wp vga_clear v Q.
Proof.
  intros Hl HQ. unfold vga_clear. apply wp_bind.
  apply (wp_grid (fun k s => exists b, s = with_buffer b v /\
    repainted (vga_buffer v) b (fun i => i <? k) (fun _ => Some (vga_entry 32 7)))).
  - exists (vga_buffer v). split; [by destruct v|]. split; [done|]. intros i Hi. case_bool; [vlia|done].
  - intros y x s Hy Hx (b & -> & Hb). rewrite grid_index by vlia.
    assert (Hk : 0 <= y * VGA_WIDTH + x < 2000) by vlia.
    apply wp_put; cbn [vga_buffer with_buffer]; [rewrite (proj1 Hb); lia|].
    eexists. split; [done|]. eapply repainted_step; [done|lia|done|]. intros j. lia.
  - intros s (b & -> & Hl' & Hb). apply wp_bind, wp_modify, wp_bind, wp_modify, wp_bind, wp_gets, wp_bind, wp_gets.
    apply wp_move_cursor; [cbn; vlia|cbn; vlia|]. intros p Hc. apply HQ; [split; [done|]|done].
    intros i Hi. rewrite Hb by done. case_bool; [done|vlia].
Qed.

(** Cells [P] of the whole buffer after a scroll. *)
Definition scrolled (color : Z) (b b' : list Z) : Prop :=
  length b' = length b /\
  forall i, 0 <= i < 2000 ->
    znth b' i = if i <? 1920 then znth b (i + 80) else Some (vga_entry 32 color).

Lemma wp_scroll v Q : length (vga_buffer v) = 2000%nat -> 1 <= vga_row v <= VGA_HEIGHT ->
  0 <= vga_column v <= VGA_WIDTH ->
  (forall b p, scrolled (vga_color v) (vga_buffer v) b ->
     cursor_at (with_ports p v) ((vga_row v - 1) * VGA_WIDTH) ->
     Q tt (with_ports p (with_row (vga_row v - 1) (with_column 0 (with_buffer b v))))) ->
  wp scroll_down_once v Q.
Proof.
  intros Hl Hrow Hcol HQ. unfold scroll_down_once. apply wp_bind.
  apply (wp_grid (fun k s => exists b, s = with_buffer b v /\
    repainted (vga_buffer v) b (fun i => i <? k - 80) (fun i => znth (vga_buffer v) (i + 80)))).
  { exists (vga_buffer v). split; [by destruct v|]. split; [done|]. intros i Hi. case_bool; [vlia|done]. }
  { intros y x s Hy Hx (b & -> & Hb). rewrite !grid_index by vlia.
    destruct (znth_Some (vga_buffer v) (y * VGA_WIDTH + x)) as [c Hc]; [rewrite Hl; vlia|].
    assert (Hk : 0 <= (y - 1) * VGA_WIDTH + x < 1920) by vlia.
    apply wp_bind, (wp_vga_get _ _ c).
    { cbn [vga_buffer with_buffer]. rewrite (proj2 Hb) by (rewrite Hl; vlia). case_bool; [vlia|done]. }
    apply wp_put; cbn [vga_buffer with_buffer]; [rewrite (proj1 Hb); lia|].
    eexists. split; [done|]. eapply repainted_step; [done|lia| |intros j; vlia].
    rewrite <- Hc. f_equal. vlia. }
  intros s (b & -> & Hb). apply wp_bind, wp_gets, wp_bind. cbn [vga_color with_buffer].
  apply (wp_for (fun k s => exists b, s = with_buffer b v /\ length b = 2000%nat /\
    forall i, 0 <= i < 1920 + k ->
      znth b i = if i <? 1920 then znth (vga_buffer v) (i + 80) else Some (vga_entry 32 (vga_color v)))).
  { exists b. split; [done|]. split; [rewrite (proj1 Hb); lia|]. intros i Hi.
    rewrite (proj2 Hb) by lia. repeat case_bool; try vlia. done. }
  { intros x s Hx (b' & -> & Hl' & Hb'). unfold vga_putchar_at. rewrite grid_index by vlia.
    apply wp_put; cbn [vga_buffer with_buffer]; [rewrite Hl'; vlia|].
    eexists. split; [done|]. split; [by rewrite length_insert|]. intros i Hi.
    rewrite znth_insert_gen by (rewrite ?Hl'; vlia).
    destruct (Z.eqb_spec i ((VGA_HEIGHT - 1) * VGA_WIDTH + x)) as [->|].
    - case_bool; [vlia|done].
    - apply Hb'. vlia. }
  intros s (b' & -> & Hl' & Hb').
  apply wp_bind, wp_bind, wp_modify, wp_bind, wp_gets, wp_bind, wp_gets.
  apply wp_move_cursor; [cbn; vlia|cbn; vlia|]. intros p1 _.
  apply wp_bind, wp_gets. cbn [vga_row with_ports with_column with_buffer].
  rewrite (u32_small (vga_row v - 1)) by (unfold is_u32; vlia).
  apply wp_bind, wp_bind, wp_modify, wp_bind, wp_gets, wp_bind, wp_gets.
  destruct (Z.leb_spec VGA_HEIGHT (vga_row v - 1)); [vlia|].
  apply wp_move_cursor; [cbn; vlia|cbn; vlia|]. intros p2 _.
  apply wp_bind, wp_gets, wp_bind, wp_gets.
  apply wp_move_cursor; [cbn; vlia|cbn; vlia|]. intros p3 Hc.
  apply (HQ b' p3).
  - split; [lia|]. intros i Hi. apply Hb'. vlia.
  - destruct Hc as (hi & lo & rest & Hp & H1 & H2 & H3). exists hi, lo, rest.
    cbn in H3. split_and!; [done|lia|lia|lia|lia|]. vlia.
Qed.

(** After the character: the cursor may stand below the last row. *)
Lemma wp_putchar_end v Q :
  length (vga_buffer v) = 2000%nat -> 0 <= vga_row v <= VGA_HEIGHT ->
  0 <= vga_column v < VGA_WIDTH -> vga_EOF_handler v <> EOF_null ->
  (forall v', screen_ok v' -> cursor_at v' (vga_row v' * VGA_WIDTH + vga_column v') ->
     vga_color v' = vga_color v -> vga_EOF_handler v' = vga_EOF_handler v ->
     (vga_row v < VGA_HEIGHT -> vga_row v' = vga_row v /\ vga_column v' = vga_column v /\
        vga_buffer v' = vga_buffer v) ->
     (vga_row v = VGA_HEIGHT -> vga_EOF_handler v = EOF_scroll_down_once ->
        vga_row v' = VGA_HEIGHT - 1 /\ vga_column v' = 0 /\
        scrolled (vga_color v) (vga_buffer v) (vga_buffer v')) -> Q tt v') ->
  wp (row ← st_gets vga_row;
      (if row =? VGA_HEIGHT then call_eof_handler else mret tt);;
      r ← st_gets vga_row; c ← st_gets vga_column; vga_move_cursor r c) v Q.
Proof.
  intros Hl Hr Hc Hh HQ. apply wp_bind, wp_gets, wp_bind.
  destruct (Z.eqb_spec (vga_row v) VGA_HEIGHT) as [E|E].
  - apply wp_bind, wp_gets. destruct (vga_EOF_handler v) eqn:Eh; [done|..].
    + apply wp_vga_clear; [done|]. intros b p [Hlb _] _.
      apply wp_bind, wp_gets, wp_bind, wp_gets. apply wp_move_cursor; [cbn; vlia|cbn; vlia|].
      intros p2 Hcur. apply HQ; try done; cbn; try vlia.
      split; cbn; [lia|vlia|vlia|by rewrite Eh].
    + apply wp_scroll; [done|vlia|vlia|]. intros b p Hs _.
      apply wp_bind, wp_gets, wp_bind, wp_gets. apply wp_move_cursor; [cbn; vlia|cbn; vlia|].
      intros p2 Hcur. apply HQ; try done; cbn; try vlia.
      * split; cbn; [by rewrite (proj1 Hs)|vlia|vlia|by rewrite Eh].
      * intros _ _. split_and!; [lia|done|apply Hs].
  - apply wp_ret, wp_bind, wp_gets, wp_bind, wp_gets. apply wp_move_cursor; [vlia|vlia|].
    intros p Hcur. apply HQ; try done. split; cbn; [done|vlia|vlia|done].
Qed.

Lemma wp_vga_putchar v c :
  screen_ok v -> wp (vga_putchar c) v (fun _ v' => screen_ok v' /\
    cursor_at v' (vga_row v' * VGA_WIDTH + vga_column v') /\
    vga_color v' = vga_color v /\ vga_EOF_handler v' = vga_EOF_handler v).
Proof.
  intros [Hl Hr Hc Hh]. unfold vga_putchar. apply wp_bind.
  repeat case_bool.
  - apply wp_bind, wp_modify, wp_modify. rewrite (u32_small (vga_row v + 1)) by (unfold is_u32; vlia).
    apply wp_putchar_end; cbn; [done|vlia|vlia|done|]. intros v' ? ? Hcol Hhan _ _. done.
  - apply wp_bind, wp_gets. case_bool.
    + rewrite (u32_small (vga_column v - 1)) by (unfold is_u32; vlia).
      apply wp_bind, wp_modify, wp_bind, wp_get. cbn [vga_color vga_column vga_row with_column].
      unfold vga_putchar_at. rewrite grid_index by vlia.
      apply wp_put; [cbn; rewrite Hl; vlia|].
      apply wp_putchar_end; cbn; [by rewrite length_insert|vlia|vlia|done|]. intros v' ? ? ? ? _ _. done.
    + apply wp_ret, wp_putchar_end; [done|vlia|vlia|done|]. intros v' ? ? ? ? _ _. done.
  - apply wp_bind, wp_get, wp_bind. unfold vga_putchar_at. rewrite grid_index by vlia.
    apply wp_put; [rewrite Hl; vlia|]. apply wp_bind, wp_modify, wp_bind, wp_gets.
    cbn [vga_column with_column with_buffer]. rewrite (u32_small (vga_column v + 1)) by (unfold is_u32; vlia).
    case_bool.
    + apply wp_bind, wp_modify, wp_modify. cbn [vga_row with_row with_column with_buffer].
      rewrite (u32_small (vga_row v + 1)) by (unfold is_u32; vlia).
      apply wp_putchar_end; cbn; [by rewrite length_insert|vlia|vlia|done|]. intros v' ? ? ? ? _ _. done.
    + apply wp_ret, wp_putchar_end; cbn; [by rewrite length_insert|vlia|vlia|done|].
      intros v' ? ? ? ? _ _. done.
Qed.

(** ** stdio.c *)

(** The pointers of [stdio_interface_t]: each is [NULL] or the function of the
    VGA driver, the only interface of the kernel. *)
Record stdio_interface := { if_init : bool; if_clear : bool; if_putc : bool; if_puts : bool }.

Record console := { screen : vga; active_interface : stdio_interface }.

Definition console_boot (v : vga) : console :=
  {| screen := v;
     active_interface := {| if_init := false; if_clear := false; if_putc := false; if_puts := false |} |}.

(** Code of the driver run on the console's screen. *)
Definition on_screen {A} (c : ST vga A) : ST console A := fun k =>
  match c (screen k) with
  | Ret (a, v) => Ret (a, {| screen := v; active_interface := active_interface k |})
  | Fault => Fault
  | Diverge => Diverge
  end.

Definition set_active (i : stdio_interface) : ST console unit :=
  st_modify (fun k => {| screen := screen k; active_interface := i |}).

(** [None] is a null pointer. *)
Definition stdio_set_interface (interface : option stdio_interface) : ST console unit :=
  match interface with
  | None => mret tt
  | Some i =>
      a ← st_gets active_interface;
      set_active {| if_clear := if_clear i || if_clear a;
                    if_init := if_init i || if_init a;
                    if_putc := if_putc i || if_putc a;
                    if_puts := if_puts i || if_puts a |}
  end.

Definition stdio_init : ST console unit :=
  a ← st_gets active_interface;
  if if_init a then on_screen vga_initialize
  else
    set_active {| if_clear := true; if_putc := true; if_puts := true; if_init := true |};;
    on_screen vga_initialize.

Definition stdio_clear : ST console unit :=
  a ← st_gets active_interface;
  if if_clear a then on_screen vga_clear else mret tt.

Definition putc (c : Z) : ST console unit :=
  a ← st_gets active_interface;
  if if_putc a then on_screen (vga_putchar c) else mret tt.

Definition puts (str : list Z) : ST console unit :=
  a ← st_gets active_interface;
  if if_puts a then on_screen (vga_writestring str) else mret tt.

(** Variadic arguments. *)
Inductive va_arg :=
| VaInt (z : Z)
| VaStr (s : list Z).

Definition va_int (args : list va_arg) : outcome (Z * list va_arg) :=
  match args with VaInt z :: rest => Ret (z, rest) | _ => Fault end.
Definition va_str (args : list va_arg) : outcome (list Z * list va_arg) :=
  match args with VaStr s :: rest => Ret (s, rest) | _ => Fault end.

(** [do { buffer[len++] = (val % 10) + '0'; val /= 10; } while (val > 0);] with
    the digits in [buffer], least significant first.  [%] and [/] truncate. *)
Fixpoint dec_digits (fuel : nat) (val : Z) (buffer : list Z) : outcome (list Z) :=
  match fuel with
  | O => Diverge
  | S fuel =>
      if 20 <=? Z.of_nat (length buffer) then Fault
      else
        let buffer := buffer ++ [u8 (Z.rem val 10 + 48)] in
        let val := Z.quot val 10 in
        if 0 <? val then dec_digits fuel val buffer else Ret buffer
  end.

Fixpoint hex_digits (fuel : nat) (val : Z) (buffer : list Z) : outcome (list Z) :=
  match fuel with
  | O => Diverge
  | S fuel =>
      if 20 <=? Z.of_nat (length buffer) then Fault
      else
        let digit := val mod 16 in
        let buffer := buffer ++ [if digit <? 10 then digit + 48 else digit - 10 + 97] in
        let val := val / 16 in
        if 0 <? val then hex_digits fuel val buffer else Ret buffer
  end.

(** [for (int i = len - 1; i >= 0; --i) { putc(buffer[i]); ++count; }] *)
Fixpoint put_all (cs : list Z) (count : Z) : ST console Z :=
  match cs with
  | [] => mret count
  | c :: cs => putc c;; put_all cs (count + 1)
  end.

(** [fmt] is the format string with its terminator; [i] is [p - format].  The
    conversions take the remaining variadic arguments. *)
Definition printf_conversion (c : Z) (args : list va_arg) (count : Z) :
    ST console (Z * list va_arg) :=
  if c =? 99 (* c *) then
    '(val, args) ← st_lift (va_int args);
    putc (u8 val);; mret (count + 1, args)
  else if c =? 115 (* s *) then
    '(val, args) ← st_lift (va_str args);
    puts val;; mret (count + Z.of_nat (length val), args)
  else if c =? 100 (* d *) then
    '(val, args) ← st_lift (va_int args);
    let val := s32 val in
    '(val, count) ← (if val <? 0 then putc 45;; mret (s32 (- val), count + 1)
                     else mret (val, count));
    buffer ← st_lift (dec_digits 21 val []);
    count ← put_all (rev buffer) count;
    mret (count, args)
  else if c =? 120 (* x *) then
    '(val, args) ← st_lift (va_int args);
    buffer ← st_lift (hex_digits 21 (u32 val) []);
    count ← put_all (rev buffer) count;
    mret (count, args)
  else if c =? 111 (* o *) then
    '(color, args) ← st_lift (va_int args);
    on_screen (vga_set_color color);; mret (count, args)
  else if c =? 37 then putc 37;; mret (count + 1, args)
  else putc 37;; putc c;; mret (count + 2, args).

Fixpoint printf_loop (fuel : nat) (fmt : list Z) (i : Z) (args : list va_arg) (count : Z) :
    ST console Z :=
  match fuel with
  | O => fun _ => Diverge
  | S fuel =>
      c ← st_lift (of_option (znth fmt i));
      if c =? 0 then mret count
      else if c =? 37 then
        c ← st_lift (of_option (znth fmt (i + 1)));
        '(count, args) ← printf_conversion c args count;
        printf_loop fuel fmt (i + 2) args count
      else
        putc c;;
        printf_loop fuel fmt (i + 1) args (count + 1)
  end.

Definition printf (fmt : list Z) (args : list va_arg) : ST console Z :=
  color ← on_screen vga_get_color;
  count ← printf_loop (S (length fmt)) fmt 0 args 0;
  on_screen (vga_set_color color);;
  mret count.

(** ** terminal.c *)
Definition is_printable_ascii (a : Z) : bool := (32 <=? a) && (a <=? 126).

Definition handle_non_printable_ascii (a : Z) : ST console unit :=
  if a =? 0x0A then putc 10
  else if a =? 0x08 then putc 8
  else putc 63.

Definition vga_interface : stdio_interface :=
  {| if_clear := true; if_init := true; if_putc := true; if_puts := true |}.

(** "%oWelcome to Iddo and Hillel amazing os!!!!\n" *)
Definition welcome : list Z :=
  [37; 111; 87; 101; 108; 99; 111; 109; 101; 32; 116; 111; 32; 73; 100; 100; 111; 32; 97; 110; 100;
   32; 72; 105; 108; 108; 101; 108; 32; 97; 109; 97; 122; 105; 110; 103; 32; 111; 115; 33; 33; 33;
   33; 10; 0].

Definition terminal_initialize : ST console unit :=
  stdio_set_interface (Some vga_interface);;
  stdio_init;;
  on_screen (vga_set_eof_handler EOF_scroll_down_once);;
  printf welcome [VaInt 5];;
  mret tt.

Definition terminal_handle_keypress (event : key_event) : ST console unit :=
  if pressed event && negb (ascii event =? 0) then
    if is_printable_ascii (ascii event) then putc (ascii event)
    else handle_non_printable_ascii (ascii event)
  else mret tt.

(** ** Specification of formatted output *)

(** The digits of [n] in base [b], most significant first, before [acc]. *)
Fixpoint to_digits (fuel : nat) (b n : Z) (acc : list Z) : list Z :=
  match fuel with
  | O => acc
  | S fuel => if n <? b then n :: acc else to_digits fuel b (n / b) (n mod b :: acc)
  end.

Definition digit_char (d : Z) : Z := if d <? 10 then d + 48 else d - 10 + 97.
Definition dec_string (z : Z) : list Z :=
  (if z <? 0 then [45] else []) ++ (digit_char <$> to_digits 32 10 (Z.abs z) []).
Definition hex_string (z : Z) : list Z := digit_char <$> to_digits 32 16 z [].

(** What [%d] prints for the word [z]: [INT_MIN] has no opposite, so that its only
    digit is a bracket. *)
Definition int_string (z : Z) : list Z :=
  if s32 z =? -2147483648 then [45; 40] else dec_string (s32 z).

(** A format string in pieces, each with its argument. *)
Inductive piece :=
| Lit (c : Z) | Chr (z : Z) | Str (s : list Z) | Dec (z : Z) | Hex (z : Z) | Color (z : Z) | Percent.

(** What is written to the screen: characters and colour changes. *)
Inductive output := OChar (c : Z) | OColor (z : Z).

Definition piece_ok (p : piece) : Prop :=
  match p with
  | Lit c => 0 < c < 256 /\ c <> 37
  | Hex z => 0 <= z < 4294967296
  | _ => True
  end.

Definition piece_format (p : piece) : list Z :=
  match p with
  | Lit c => [c] | Chr _ => [37; 99] | Str _ => [37; 115] | Dec _ => [37; 100]
  | Hex _ => [37; 120] | Color _ => [37; 111] | Percent => [37; 37]
  end.

Definition piece_args (p : piece) : list va_arg :=
  match p with
  | Chr z => [VaInt z] | Str s => [VaStr s] | Dec z => [VaInt z] | Hex z => [VaInt z]
  | Color z => [VaInt z] | _ => []
  end.

Definition piece_output (p : piece) : list output :=
  match p with
  | Lit c => [OChar c]
  | Chr z => [OChar (u8 z)]
  | Str s => OChar <$> s
  | Dec z => OChar <$> int_string z
  | Hex z => OChar <$> hex_string z
  | Color z => [OColor z]
  | Percent => [OChar 37]
  end.

Definition chars (os : list output) : list Z :=
  omap (fun o => match o with OChar c => Some c | OColor _ => None end) os.

Definition emit (o : output) : ST console unit :=
  match o with OChar c => putc c | OColor z => on_screen (vga_set_color z) end.
Fixpoint emits (os : list output) : ST console unit :=
  match os with [] => mret tt | o :: os => emit o;; emits os end.

(** ** Lemmas on formatted output *)
Lemma rev_dec fuel : forall n acc, 0 <= n < 10 ^ Z.of_nat fuel -> (0 < fuel)%nat ->
  (fuel + length acc <= 20)%nat ->
  dec_digits (S fuel) n (rev (digit_char <$> acc)) = Ret (rev (digit_char <$> to_digits fuel 10 n acc)).
Proof.
  induction fuel as [|fuel IH]; intros n acc Hn Hf Hl; [lia|].
  rewrite Nat2Z.inj_succ, Z.pow_succ_r in Hn by lia.
  cbn [dec_digits to_digits]. rewrite length_rev, length_fmap.
  destruct (Z.leb_spec 20 (Z.of_nat (length acc))); [lia|].
  rewrite Z.rem_mod_nonneg, Z.quot_div_nonneg by lia.
  assert (Hd : u8 (n mod 10 + 48) = digit_char (n mod 10)).
  { unfold u8, digit_char. destruct (Z.ltb_spec (n mod 10) 10); zlia. }
  rewrite Hd. clear Hd. change ([digit_char (n mod 10)]) with (rev [digit_char (n mod 10)]).
  rewrite <- rev_app_distr. change ([digit_char (n mod 10)] ++ (digit_char <$> acc))
    with (digit_char <$> (n mod 10 :: acc)).
  destruct (Z.ltb_spec n 10) as [Hs|Hs].
  - assert (n / 10 = 0) as -> by zlia. rewrite (Z.mod_small n 10) by lia. done.
  - destruct (Z.ltb_spec 0 (n / 10)); [|zlia].
    assert (0 < fuel)%nat by (destruct fuel; [cbn in Hn; lia|lia]).
    destruct fuel as [|fuel]; [lia|]. rewrite <- IH; [done|zlia|lia|cbn [length]; lia].
Qed.

Lemma rev_hex fuel : forall n acc, 0 <= n < 16 ^ Z.of_nat fuel -> (0 < fuel)%nat ->
  (fuel + length acc <= 20)%nat ->
  hex_digits (S fuel) n (rev (digit_char <$> acc)) = Ret (rev (digit_char <$> to_digits fuel 16 n acc)).
Proof.
  induction fuel as [|fuel IH]; intros n acc Hn Hf Hl; [lia|].
  rewrite Nat2Z.inj_succ, Z.pow_succ_r in Hn by lia.
  cbn [hex_digits to_digits]. rewrite length_rev, length_fmap.
  destruct (Z.leb_spec 20 (Z.of_nat (length acc))); [lia|].
  fold (digit_char (n mod 16)). change ([digit_char (n mod 16)]) with (rev [digit_char (n mod 16)]).
  rewrite <- rev_app_distr. change ([digit_char (n mod 16)] ++ (digit_char <$> acc))
    with (digit_char <$> (n mod 16 :: acc)).
  destruct (Z.ltb_spec n 16) as [Hs|Hs].
  - assert (n / 16 = 0) as -> by zlia. rewrite (Z.mod_small n 16) by lia. done.
  - destruct (Z.ltb_spec 0 (n / 16)); [|zlia].
    assert (0 < fuel)%nat by (destruct fuel; [cbn in Hn; lia|lia]).
    destruct fuel as [|fuel]; [lia|]. rewrite <- IH; [done|zlia|lia|cbn [length]; lia].
Qed.

(** More fuel gives the same digits. *)
Lemma to_digits_fuel b f1 : forall f2 n acc, 2 <= b -> 0 <= n < b ^ Z.of_nat f1 ->
  (0 < f1)%nat -> (f1 <= f2)%nat -> to_digits f1 b n acc = to_digits f2 b n acc.
Proof.
  induction f1 as [|f1 IH]; intros f2 n acc Hb Hn Hp Hle; [lia|].
  destruct f2 as [|f2]; [lia|]. cbn [to_digits]. destruct (Z.ltb_spec n b); [done|].
  rewrite Nat2Z.inj_succ, Z.pow_succ_r in Hn by lia.
  assert (0 < f1)%nat by (destruct f1; [cbn in Hn; lia|lia]).
  apply IH; [done| |done|lia]. split; [apply Z.div_pos; lia|]. apply Z.div_lt_upper_bound; lia.
Qed.

Lemma dec_digits_spec n : 0 <= n < 2147483648 ->
  dec_digits 21 n [] = Ret (rev (digit_char <$> to_digits 32 10 n [])).
Proof.
  intros Hn. rewrite <- (to_digits_fuel 10 20 32) by lia.
  change (@nil Z) with (rev (digit_char <$> [])) at 1. apply rev_dec; cbn [length]; lia.
Qed.

Lemma hex_digits_spec n : 0 <= n < 4294967296 ->
  hex_digits 21 n [] = Ret (rev (digit_char <$> to_digits 32 16 n [])).
Proof.
  intros Hn. rewrite <- (to_digits_fuel 16 20 32) by lia.
  change (@nil Z) with (rev (digit_char <$> [])) at 1. apply rev_hex; cbn [length]; lia.
Qed.

Lemma putc_ret c k r : active_interface k = vga_interface ->
  putc c k = Ret r -> active_interface r.2 = vga_interface.
Proof.
  intros Ha. unfold putc, mbind, ST_bind, st_gets. rewrite Ha. cbn [vga_interface if_putc].
  unfold on_screen. destruct (vga_putchar c (screen k)) as [[[] v]| |]; try done. by intros [= <-].
Qed.

Lemma emit_active o k r : active_interface k = vga_interface ->
  emit o k = Ret r -> active_interface r.2 = vga_interface.
Proof. intros Ha. destruct o; [by apply putc_ret|]. by intros [= <-]. Qed.

Lemma emits_cons o os k k1 : emits (o :: os) k = Ret (tt, k1) ->
  exists k0, emit o k = Ret (tt, k0) /\ emits os k0 = Ret (tt, k1).
Proof.
  cbn [emits]. unfold mbind, ST_bind. destruct (emit o k) as [[[] k0]| |]; [eauto|done|done].
Qed.

Lemma emits_app os1 : forall os2 k k1, active_interface k = vga_interface ->
  emits (os1 ++ os2) k = Ret (tt, k1) ->
  exists k0, emits os1 k = Ret (tt, k0) /\ active_interface k0 = vga_interface /\
    emits os2 k0 = Ret (tt, k1).
Proof.
  induction os1 as [|o os1 IH]; intros os2 k k1 Ha; [by exists k|].
  intros (k0 & Ho & Hos)%emits_cons. pose proof (emit_active _ _ _ Ha Ho) as Ha0.
  destruct (IH _ _ _ Ha0 Hos) as (k2 & H1 & H2 & H3). exists k2. split; [|done].
  cbn [emits]. unfold mbind, ST_bind. by rewrite Ho.
Qed.

Lemma put_all_spec cs : forall count k k1, emits (OChar <$> cs) k = Ret (tt, k1) ->
  put_all cs count k = Ret (count + Z.of_nat (length cs), k1).
Proof.
  induction cs as [|c cs IH]; intros count k k1.
  - intros [= <-]. cbn [put_all length]. unfold mret, ST_ret. by rewrite Z.add_0_r.
  - rewrite fmap_cons. intros (k0 & Ho & Hos)%emits_cons. cbn [put_all length]. unfold mbind, ST_bind.
    cbn [emit] in Ho. rewrite Ho, (IH (count + 1) k0 k1) by done. do 2 f_equal. lia.
Qed.

Lemma puts_spec s k k1 : active_interface k = vga_interface ->
  emits (OChar <$> s) k = Ret (tt, k1) -> puts s k = Ret (tt, k1).
Proof.
  intros Ha Hs. unfold puts, mbind, ST_bind, st_gets. rewrite Ha. cbn [vga_interface if_puts].
  unfold on_screen. revert k Ha Hs. induction s as [|c s IH]; intros k Ha.
  - intros [= <-]. by destruct k.
  - rewrite fmap_cons. intros (k0 & Ho & Hos)%emits_cons. pose proof (emit_active _ _ _ Ha Ho) as Ha0.
    specialize (IH k0 Ha0 Hos). cbn [vga_writestring]. unfold mbind, ST_bind.
    cbn [emit] in Ho. unfold putc, mbind, ST_bind, st_gets in Ho. rewrite Ha in Ho.
    cbn [vga_interface if_putc] in Ho. unfold on_screen in Ho.
    destruct (vga_putchar c (screen k)) as [[[] v]| |]; try done. injection Ho as <-.
    cbn [screen active_interface] in *. done.
Qed.

Lemma chars_fmap cs : chars (OChar <$> cs) = cs.
Proof. induction cs as [|c cs IH]; [done|]. cbn. f_equal. exact IH. Qed.

Lemma chars_app os1 os2 : chars (os1 ++ os2) = chars os1 ++ chars os2.
Proof. unfold chars. apply omap_app. Qed.

Lemma s32_range z : -2147483648 <= s32 z < 2147483648.
Proof. unfold s32, u32. destruct (Z.ltb_spec (z mod 4294967296) 2147483648); zlia. Qed.

(** One conversion of the format string. *)
Lemma conversion_spec p c args count k k1 :
  piece_ok p -> piece_format p = [37; c] -> active_interface k = vga_interface ->
  emits (piece_output p) k = Ret (tt, k1) ->
  printf_conversion c (piece_args p ++ args) count k =
    Ret ((count + Z.of_nat (length (chars (piece_output p))), args), k1).
Proof.
  intros Hok Hf Ha Hem. unfold printf_conversion.
  destruct p as [c'|z|s|z|z|z|]; cbn [piece_format piece_ok piece_output piece_args] in *;
    try discriminate Hf; injection Hf as <-; cbn [Z.eqb Pos.eqb app]; unfold st_lift, va_int, va_str, mbind, ST_bind; cbn [outcome_bind].
  - apply emits_cons in Hem as (k0 & Ho & Hk). cbn [emit] in Ho. injection Hk as ->. by rewrite Ho.
  - rewrite (puts_spec s k k1 Ha Hem), chars_fmap. done.
  - rewrite chars_fmap. pose proof (s32_range z) as Hz. unfold int_string in *. destruct (Z.eqb_spec (s32 z) (-2147483648)) as [E|E].
    + rewrite E. cbn [Z.ltb Z.compare]. rewrite !fmap_cons in Hem. apply emits_cons in Hem as (k0 & Ho & Hk).
      cbn [emit] in Ho. rewrite Ho. unfold mret, ST_ret.
      replace (dec_digits 21 (s32 (- -2147483648)) []) with (Ret [40]) by (by vm_compute).
      rewrite (put_all_spec [40] _ _ _ Hk). do 3 f_equal. cbn [length]. lia.
    + revert Hz E Hem. generalize (s32 z) as v. intros v Hz E Hem. unfold dec_string in *. destruct (Z.ltb_spec v 0).
      * cbn [app fmap list_fmap] in Hem. apply emits_cons in Hem as (k0 & Ho & Hk).
        cbn [emit] in Ho. rewrite Ho. unfold mret, ST_ret.
        assert (s32 (- v) = Z.abs v) as ->.
        { unfold s32, u32. rewrite Z.mod_small by lia. destruct (Z.ltb_spec (- v) 2147483648); lia. }
        rewrite dec_digits_spec by lia. rewrite rev_involutive, (put_all_spec _ _ _ _ Hk).
        do 3 f_equal. cbn [app length]. lia.
      * unfold mret, ST_ret. rewrite Z.abs_eq in * by lia. rewrite dec_digits_spec by lia.
        by rewrite rev_involutive, (put_all_spec _ _ _ _ Hem).
  - rewrite (u32_small z), hex_digits_spec by (unfold is_u32; lia). rewrite chars_fmap.
    by rewrite rev_involutive, (put_all_spec _ _ _ _ Hem).
  - apply emits_cons in Hem as (k0 & Ho & Hk). cbn [emit] in Ho. injection Hk as ->. rewrite Ho.
    unfold mret, ST_ret. cbn. by rewrite Z.add_0_r.
  - apply emits_cons in Hem as (k0 & Ho & Hk). cbn [emit] in Ho. injection Hk as ->. by rewrite Ho.
Qed.

Definition format_of (ps : list piece) : list Z := concat (piece_format <$> ps).
Definition args_of (ps : list piece) : list va_arg := concat (piece_args <$> ps).
Definition output_of (ps : list piece) : list output := concat (piece_output <$> ps).

Lemma piece_format_cases p : piece_ok p ->
  (exists c, p = Lit c) \/ exists c, piece_format p = [37; c].
Proof. destruct p; cbn; eauto. Qed.

Lemma znth_app_mid {A} (pre : list A) x post :
  znth (pre ++ x :: post) (Z.of_nat (length pre)) = Some x.
Proof.
  unfold znth. destruct (Z.leb_spec 0 (Z.of_nat (length pre))); [|lia].
  by rewrite Nat2Z.id, list_lookup_middle.
Qed.

Lemma printf_loop_spec ps : forall fuel pre args count k k1,
  Forall piece_ok ps -> (length ps < fuel)%nat -> active_interface k = vga_interface ->
  emits (output_of ps) k = Ret (tt, k1) ->
  printf_loop fuel (pre ++ format_of ps ++ [0]) (Z.of_nat (length pre)) (args_of ps ++ args) count k =
    Ret (count + Z.of_nat (length (chars (output_of ps))), k1).
Proof.
  induction ps as [|p ps IH]; intros fuel pre args count k k1 Hok Hfuel Ha Hem;
    (destruct fuel as [|fuel]; [cbn in Hfuel; lia|]); cbn [printf_loop].
  - cbn [format_of fmap list_fmap concat app]. rewrite znth_app_mid. injection Hem as <-.
    cbn. unfold mret, ST_ret. by rewrite Z.add_0_r.
  - apply Forall_cons_1 in Hok as [Hp Hok]. cbn [length] in Hfuel.
    unfold output_of in Hem. rewrite fmap_cons in Hem. cbn [concat] in Hem.
    destruct (emits_app _ _ _ _ Ha Hem) as (k0 & H1 & Ha0 & H2). fold (output_of ps) in H2.
    assert (Hlen : length (chars (output_of (p :: ps))) =
      (length (chars (piece_output p)) + length (chars (output_of ps)))%nat).
    { unfold output_of. rewrite fmap_cons. cbn [concat]. by rewrite chars_app, length_app. }
    rewrite Hlen. clear Hlen.
    unfold args_of, format_of. rewrite !fmap_cons. cbn [concat].
    fold (format_of ps) (args_of ps). rewrite <- !app_assoc.
    destruct (piece_format_cases p Hp) as [[c ->]|[c Hf]].
    + cbn [piece_format app]. rewrite znth_app_mid. destruct Hp as [Hc Hc37].
      unfold st_lift, of_option. unfold mbind at 1, ST_bind at 1.
      destruct (Z.eqb_spec c 0); [lia|]. destruct (Z.eqb_spec c 37); [lia|].
      cbn [piece_output] in H1. apply emits_cons in H1 as (k2 & Ho & Hk). injection Hk as ->.
      cbn [emit] in Ho. unfold mbind at 1, ST_bind at 1. rewrite Ho.
      pose proof (IH fuel (pre ++ [c]) args (count + 1) k0 k1 Hok ltac:(lia) Ha0 H2) as IH'.
      rewrite <- app_assoc, length_app in IH'. cbn [app length] in IH'.
      replace (Z.of_nat (length pre) + 1) with (Z.of_nat (length pre + 1)) by lia.
      cbn [piece_args app]. rewrite IH'. do 2 f_equal. cbn [piece_output chars]. cbn. lia.
    + rewrite Hf. cbn [app]. rewrite znth_app_mid.
      unfold st_lift, of_option. unfold mbind at 1, ST_bind at 1. cbn [Z.eqb Pos.eqb].
      pose proof (znth_app_mid (pre ++ [37]) c (format_of ps ++ [0])) as Hz.
      rewrite <- app_assoc, length_app in Hz. cbn [app length] in Hz.
      replace (Z.of_nat (length pre) + 1) with (Z.of_nat (length pre + 1)) by lia.
      unfold mbind at 1, ST_bind at 1. rewrite Hz.
      unfold mbind at 1, ST_bind at 1. rewrite (conversion_spec p c _ count k k0 Hp Hf Ha H1).
      pose proof (IH fuel (pre ++ [37; c]) args (count + Z.of_nat (length (chars (piece_output p))))
        k0 k1 Hok ltac:(lia) Ha0 H2) as IH'.
      rewrite <- app_assoc, length_app in IH'. cbn [app length] in IH'.
      replace (Z.of_nat (length pre) + 2) with (Z.of_nat (length pre + 2)) by lia.
      rewrite IH'. do 2 f_equal. lia.
Qed.

(** Output never faults on a valid screen. *)
Lemma emits_total os : forall k, active_interface k = vga_interface -> screen_ok (screen k) ->
  exists k1, emits os k = Ret (tt, k1) /\ active_interface k1 = vga_interface /\ screen_ok (screen k1).
Proof.
  induction os as [|o os IH]; intros k Ha Hs; [by exists k|].
  assert (exists k0, emit o k = Ret (tt, k0) /\ screen_ok (screen k0)) as (k0 & Ho & Hs0).
  { destruct o as [c|z]; cbn [emit].
    - unfold putc, mbind, ST_bind, st_gets. rewrite Ha. cbn [vga_interface if_putc]. unfold on_screen.
      pose proof (wp_vga_putchar (screen k) c Hs) as Hwp. unfold wp in Hwp.
      destruct (vga_putchar c (screen k)) as [[[] v]| |]; try done. eexists. split; [done|]. apply Hwp.
    - eexists. split; [done|]. destruct Hs. by split. }
  destruct (IH k0 (emit_active _ _ _ Ha Ho) Hs0) as (k1 & H1 & H2 & H3). exists k1.
  split_and!; [|done|done]. cbn [emits]. unfold mbind, ST_bind. by rewrite Ho.
Qed.

Lemma length_format ps : (length ps <= length (format_of ps))%nat.
Proof.
  induction ps as [|p ps IH]; [done|]. unfold format_of. rewrite fmap_cons. cbn [concat length].
  rewrite length_app. fold (format_of ps).
  assert (1 <= length (piece_format p))%nat by (destruct p; cbn; lia). lia.
Qed.

(** Value of a digit string. *)
Definition digits_value (b : Z) (ds : list Z) : Z := foldl (fun acc d => acc * b + d) 0 ds.

Definition char_digit (c : Z) : Z := if c <? 97 then c - 48 else c - 97 + 10.

Lemma to_digits_value b fuel : forall n acc, 2 <= b -> 0 <= n < b ^ Z.of_nat fuel ->
  (0 < fuel)%nat -> foldl (fun a d => a * b + d) 0 (to_digits fuel b n acc) =
  foldl (fun a d => a * b + d) n acc.
Proof.
  induction fuel as [|fuel IH]; intros n acc Hb Hn Hf; [lia|]. cbn [to_digits].
  destruct (Z.ltb_spec n b); [done|].
  rewrite Nat2Z.inj_succ, Z.pow_succ_r in Hn by lia.
  assert (0 < fuel)%nat by (destruct fuel; [cbn in Hn; lia|lia]).
  rewrite IH; [|done| |done].
  - cbn [foldl]. f_equal. pose proof (Z.div_mod n b). lia.
  - split; [apply Z.div_pos; lia|]. apply Z.div_lt_upper_bound; lia.
Qed.

Lemma to_digits_range b fuel : forall n acc, 2 <= b -> 0 <= n -> (0 < fuel)%nat ->
  n < b ^ Z.of_nat fuel ->
  Forall (fun d => 0 <= d < b) acc -> Forall (fun d => 0 <= d < b) (to_digits fuel b n acc).
Proof.
  induction fuel as [|fuel IH]; intros n acc Hb Hn Hf Hlt Hacc; [lia|]. cbn [to_digits].
  destruct (Z.ltb_spec n b); [constructor; [lia|done]|].
  rewrite Nat2Z.inj_succ, Z.pow_succ_r in Hlt by lia.
  assert (0 < fuel)%nat by (destruct fuel; [cbn in Hlt; lia|lia]).
  apply IH; [done|apply Z.div_pos; lia|done|apply Z.div_lt_upper_bound; lia|].
  constructor; [|done]. apply Z.mod_pos_bound. lia.
Qed.

Lemma char_digits ds : Forall (fun d => 0 <= d < 16) ds -> char_digit <$> (digit_char <$> ds) = ds.
Proof.
  induction 1 as [|d ds Hd _ IH]; [done|]. rewrite !fmap_cons, IH. f_equal.
  unfold char_digit, digit_char. destruct (Z.ltb_spec d 10); case_bool; lia.
Qed.

Lemma writestring_ok cs : forall v, screen_ok v ->
  wp (vga_writestring cs) v (fun _ v' => screen_ok v' /\ vga_color v' = vga_color v /\
    vga_EOF_handler v' = vga_EOF_handler v /\
    (cs <> [] -> cursor_at v' (vga_row v' * VGA_WIDTH + vga_column v'))).
Proof.
  induction cs as [|c cs IH]; intros v Hv; cbn [vga_writestring]; [by apply wp_ret|].
  apply wp_bind. eapply wp_mono; [by apply wp_vga_putchar|]. intros [] v1 (H1 & Hc & E1 & E2).
  destruct cs as [|c' cs]; [apply wp_ret; done|].
  eapply wp_mono; [by apply IH|]. intros [] v2 (H2 & E3 & E4 & Hc2).
  split_and!; [done|congruence|congruence|auto].
Qed.

(** ** Theorems *)

(** (C37) Writing any string to a valid screen returns, never touches a cell
    outside the 80 by 25 text buffer, leaves the cursor inside the screen, and
    programs the hardware cursor to that position, with either end-of-screen
    handler. *)
Theorem vga_writestring_safe v cs :
  screen_ok v -> exists v', vga_writestring cs v = Ret (tt, v') /\ screen_ok v' /\
    vga_color v' = vga_color v /\
    (cs <> [] -> cursor_at v' (vga_row v' * VGA_WIDTH + vga_column v')).
Proof.
  intros Hv. pose proof (writestring_ok cs v Hv) as H.
  apply wp_run in H as ([] & v' & Hr & ? & ? & _ & ?). by exists v'.
Qed.

(** Scrolling: a newline on the last row with the terminal's handler moves
    every line up by one, blanks the last line in the current colour and leaves
    the cursor at its first column. *)
Theorem newline_scrolls v :
  screen_ok v -> vga_row v = VGA_HEIGHT - 1 -> vga_EOF_handler v = EOF_scroll_down_once ->
  exists v', vga_putchar 10 v = Ret (tt, v') /\
    (forall y x, 0 <= y < VGA_HEIGHT - 1 -> 0 <= x < VGA_WIDTH -> cell v' y x = cell v (y + 1) x) /\
    (forall x, 0 <= x < VGA_WIDTH -> cell v' (VGA_HEIGHT - 1) x = Some (vga_entry 32 (vga_color v))) /\
    vga_row v' = VGA_HEIGHT - 1 /\ vga_column v' = 0.
Proof.
  intros [Hl Hr Hc Hh] Hrow Hhan.
  enough (wp (vga_putchar 10) v (fun _ v' => vga_row v' = VGA_HEIGHT - 1 /\ vga_column v' = 0 /\
    scrolled (vga_color v) (vga_buffer v) (vga_buffer v'))) as H.
  { apply wp_run in H as ([] & v' & Hrun & Hr' & Hc' & Hl' & Hs). exists v'.
    split; [done|]. unfold cell. split_and!; [..|done|done].
    - intros y x Hy Hx. rewrite Hs by vlia. case_bool; [|vlia]. f_equal. vlia.
    - intros x Hx. rewrite Hs by vlia. case_bool; [vlia|done]. }
  unfold vga_putchar. apply wp_bind. cbn [Z.eqb Pos.eqb].
  apply wp_bind, wp_modify, wp_modify. rewrite (u32_small (vga_row v + 1)) by (unfold is_u32; vlia).
  apply wp_putchar_end; cbn; [done|vlia|vlia|done|]. intros v' _ _ _ _ _ Hscroll.
  apply Hscroll; [vlia|done].
Qed.

Lemma printf_run ps k :
  Forall piece_ok ps -> active_interface k = vga_interface -> screen_ok (screen k) ->
  exists k1, emits (output_of ps) k = Ret (tt, k1) /\ screen_ok (screen k1) /\
    printf (format_of ps ++ [0]) (args_of ps) k =
      Ret (Z.of_nat (length (chars (output_of ps))),
           {| screen := with_color (u8 (vga_color (screen k))) (screen k1);
              active_interface := vga_interface |}).
Proof.
  intros Hok Ha Hs. destruct (emits_total (output_of ps) k Ha Hs) as (k1 & Hem & Ha1 & Hs1).
  exists k1. split_and!; [done|done|]. unfold printf.
  assert (Hk : {| screen := screen k; active_interface := active_interface k |} = k) by (by destruct k).
  unfold mbind, ST_bind, on_screen at 1, vga_get_color, st_gets. rewrite Hk.
  pose proof (printf_loop_spec ps (S (length (format_of ps ++ [0]))) [] [] 0 k k1 Hok) as Hloop.
  cbn [app length] in Hloop. change (Z.of_nat 0) with 0 in Hloop. rewrite app_nil_r in Hloop.
  rewrite Hloop; [|pose proof (length_format ps); rewrite length_app; lia|done|done].
  unfold on_screen, vga_set_color, st_modify. by rewrite Ha1.
Qed.

(** (C36) [printf] is correct on every format made of literals and supported
    conversions with matching arguments (a minus and a bracket for [INT_MIN]): it
    returns, has written exactly the expansion of the format to the screen in
    order, returns the number of characters written and restores the colour. *)
Theorem printf_correct ps k :
  Forall piece_ok ps -> active_interface k = vga_interface -> screen_ok (screen k) ->
  exists k1, emits (output_of ps) k = Ret (tt, k1) /\ screen_ok (screen k1) /\
    printf (format_of ps ++ [0]) (args_of ps) k =
      Ret (Z.of_nat (length (chars (output_of ps))),
           {| screen := with_color (u8 (vga_color (screen k))) (screen k1);
              active_interface := vga_interface |}).
Proof. apply printf_run. Qed.

(** The digits [%x] and [%d] print read back as the number: in base 16 for
    every 32-bit value and in base 10 for every nonnegative [int], with no
    character outside the digits of the base. *)
Theorem printed_numbers_read_back n :
  (0 <= n < 4294967296 ->
     digits_value 16 (char_digit <$> hex_string n) = n /\
     Forall (fun c => 0 <= char_digit c < 16) (hex_string n)) /\
  (0 <= n < 2147483648 ->
     digits_value 10 (char_digit <$> dec_string n) = n /\
     Forall (fun c => 48 <= c < 58) (dec_string n)).
Proof.
  split; intros Hn.
  - unfold hex_string, digits_value.
    assert (Hr : Forall (fun d => 0 <= d < 16) (to_digits 32 16 n [])).
    { apply to_digits_range; [lia|lia|lia|lia|constructor]. }
    rewrite char_digits by done. split; [apply to_digits_value; lia|].
    apply Forall_fmap. eapply Forall_impl; [|exact Hr]. intros d Hd. cbn in Hd |- *.
    unfold char_digit, digit_char. destruct (Z.ltb_spec d 10); case_bool; lia.
  - unfold dec_string, digits_value. destruct (Z.ltb_spec n 0); [lia|]. cbn [app].
    rewrite Z.abs_eq by lia.
    assert (Hr : Forall (fun d => 0 <= d < 10) (to_digits 32 10 n [])).
    { apply to_digits_range; [lia|lia|lia|lia|constructor]. }
    rewrite char_digits by (eapply Forall_impl; [|exact Hr]; cbn; lia).
    split; [apply to_digits_value; lia|].
    apply Forall_fmap. eapply Forall_impl; [|exact Hr]. intros d Hd. cbn in Hd |- *.
    unfold digit_char. destruct (Z.ltb_spec d 10); lia.
Qed.

(** A format that ends in a lone [%] makes [printf] read past the end of
    the format string. *)
Theorem printf_trailing_percent_overruns k :
  active_interface k = vga_interface -> screen_ok (screen k) -> printf [37; 0] [] k = Fault.
Proof.
  intros Ha Hs. unfold printf, mbind, ST_bind, on_screen at 1, vga_get_color, st_gets.
  assert (Hk : {| screen := screen k; active_interface := active_interface k |} = k) by (by destruct k).
  rewrite Hk. cbn [length].
  destruct (emits_total [OChar 37; OChar 0] k Ha Hs) as (k1 & Hem & _ & _).
  apply emits_cons in Hem as (k2 & H1 & Hem). apply emits_cons in Hem as (k3 & H2 & Hem).
  cbn [emit] in H1, H2.
  assert (Hc : printf_conversion 0 [] 0 k = Ret ((2, []), k3)).
  { unfold printf_conversion, mbind, ST_bind. cbn [Z.eqb Pos.eqb]. by rewrite H1, H2. }
  change (printf_loop 3 [37; 0] 0 [] 0 k) with
    (('(count, args) ← printf_conversion 0 [] 0; printf_loop 2 [37; 0] 2 args count) k).
  unfold mbind, ST_bind. by rewrite Hc.
Qed.

(** ** Witnesses *)
Definition sample_screen : vga :=
  {| vga_row := 24; vga_column := 3; vga_color := 7; vga_EOF_handler := EOF_scroll_down_once;
     vga_buffer := replicate 2000 0x0741; vga_ports := [] |}.

Lemma sample_screen_ok : screen_ok sample_screen.
Proof. split; cbn [sample_screen vga_buffer vga_row vga_column vga_EOF_handler]; [by rewrite length_replicate|vlia|vlia|done]. Qed.

Definition sample_console : console :=
  {| screen := sample_screen; active_interface := vga_interface |}.

Lemma vga_writestring_safe_witness : exists v',
  vga_writestring [72; 105; 10; 8] sample_screen = Ret (tt, v') /\ screen_ok v'.
Proof.
  destruct (vga_writestring_safe sample_screen [72; 105; 10; 8] sample_screen_ok) as (v' & H & Hs & _).
  exists v'. exact (conj H Hs).
Defined.

Lemma newline_scrolls_witness : exists v',
  vga_putchar 10 sample_screen = Ret (tt, v') /\ vga_row v' = 24.
Proof.
  destruct (newline_scrolls sample_screen sample_screen_ok eq_refl eq_refl) as (v' & H & _ & _ & Hr & _).
  exists v'. exact (conj H Hr).
Defined.

(** [printf("%d%%", -7)] *)
Lemma printf_correct_witness : exists k1,
  printf [37; 100; 37; 37; 0] [VaInt (-7)] sample_console = Ret (3, k1).
Proof.
  destruct (printf_correct [Dec (-7); Percent] sample_console) as (k1 & _ & _ & H).
  - repeat constructor.
  - reflexivity.
  - exact sample_screen_ok.
  - eexists. exact H.
Defined.

Lemma printed_numbers_read_back_witness :
  digits_value 16 (char_digit <$> hex_string 0xC0FFEE) = 0xC0FFEE /\
  hex_string 0xC0FFEE = [99; 48; 102; 102; 101; 101].
Proof.
  split; [|by vm_compute]. apply (proj1 (printed_numbers_read_back 0xC0FFEE)). lia.
Defined.

Lemma printf_trailing_percent_overruns_witness : printf [37; 0] [] sample_console = Fault.
Proof. apply printf_trailing_percent_overruns; [reflexivity|exact sample_screen_ok]. Defined.
