(* ===== verification/Text.v ===== *)
(** * String literals and messages

    Literals of the source as lists of characters, and what a [printf] of a known
    format does to a console that has been initialised. *)

From Stdlib Require Import Ascii.
From stdpp Require Export strings.
From S2P Require Import Prelude Keyboard Console.
Global Open Scope Z_scope.

Fixpoint cstr (s : string) : list Z :=
  match s with
  | EmptyString => []
  | String c s => Z.of_N (N_of_ascii c) :: cstr s
  end.
Definition NL : list Z := [10].

(** A literal as pieces of a format. *)
Definition lits (s : list Z) : list piece := Lit <$> s.

(** The console after [terminal_initialize], whatever has been printed since. *)
Definition console_ok (k : console) : Prop := active_interface k = vga_interface /\ screen_ok (screen k).

Lemma screen_ok_color v c : is_u8 c -> screen_ok v -> screen_ok (with_color c v).
Proof. intros Hc []. by split. Qed.

Lemma printf_total ps fmt args k : fmt = format_of ps ++ [0] -> args = args_of ps -> Forall piece_ok ps -> console_ok k ->
  exists n k', printf fmt args k = Ret (n, k') /\ console_ok k'.
Proof.
  intros -> -> Hok [Ha Hs]. destruct (printf_run ps k Hok Ha Hs) as (k1 & _ & Hs1 & ->). eexists _, _. split; [reflexivity|].
  split; [done|]. apply screen_ok_color; [apply u8_range|done].
Qed.

(** ** Formats read as pieces *)
Definition lit_ok (c : Z) : bool := (0 <? c) && (c <? 256) && negb (c =? 37).

(** The pieces of a format of [%d], [%s] and [%o] with matching arguments. *)
Fixpoint pieces_of (fmt : list Z) (args : list va_arg) : option (list piece) :=
  match fmt with
  | [] => match args with [] => Some [] | _ => None end
  | c :: fmt =>
      if c =? 37 then
        match fmt, args with
        | d :: fmt, VaInt z :: args =>
            if d =? 100 then cons (Dec z) <$> pieces_of fmt args
            else if d =? 111 then cons (Color z) <$> pieces_of fmt args
            else None
        | d :: fmt, VaStr s :: args => if d =? 115 then cons (Str s) <$> pieces_of fmt args else None
        | _, _ => None
        end
      else if lit_ok c then cons (Lit c) <$> pieces_of fmt args
      else None
  end.

Lemma pieces_of_spec fmt : forall args ps, pieces_of fmt args = Some ps ->
  fmt = format_of ps /\ args = args_of ps /\ Forall piece_ok ps.
Proof.
  remember (length fmt) as n eqn:En. assert (Hn : (length fmt <= n)%nat) by lia. clear En. revert fmt Hn.
  induction n as [|n IH]; intros [|c fmt] Hn args ps Hp; cbn [length] in Hn; try lia; cbn [pieces_of] in Hp.
  1,2: destruct args; [|done]; by injection Hp as <-.
  assert (Hcons : forall q fmt' args' ps', (length fmt' <= n)%nat -> cons q <$> pieces_of fmt' args' = Some ps' ->
    exists qs, ps' = q :: qs /\ fmt' = format_of qs /\ args' = args_of qs /\ Forall piece_ok qs).
  { intros q fmt' args' ps' Hl H. destruct (pieces_of fmt' args') as [qs|] eqn:E; [|done]. injection H as <-.
    destruct (IH fmt' Hl args' qs E) as (H1 & H2 & H3). by exists qs. }
  destruct (Z.eqb_spec c 37) as [->|Hc].
  - destruct fmt as [|d fmt]; [done|]. cbn [length] in Hn. destruct args as [|[z|s] args]; [done| |].
    + destruct (Z.eqb_spec d 100) as [->|]; [|destruct (Z.eqb_spec d 111) as [->|]; [|done]];
        apply Hcons in Hp as (qs & -> & -> & -> & Hq); try lia; (split; [done|split; [done|by constructor]]).
    + destruct (Z.eqb_spec d 115) as [->|]; [|done]. apply Hcons in Hp as (qs & -> & -> & -> & Hq); [|lia].
      split; [done|]. split; [done|by constructor].
  - destruct (lit_ok c) eqn:El; [|done]. apply Hcons in Hp as (qs & -> & -> & -> & Hq); [|lia].
    split; [done|]. split; [done|]. constructor; [|done]. unfold lit_ok in El. cbn. lia.
Qed.

(** What a message does: its output, and the colour of before. *)
Definition message (os : list output) : ST console unit :=
  color ← on_screen vga_get_color;
  emits os;;
  on_screen (vga_set_color color).

Lemma printf_pieces ps k : Forall piece_ok ps -> console_ok k ->
  exists n k', printf (format_of ps ++ [0]) (args_of ps) k = Ret (n, k') /\ message (output_of ps) k = Ret (tt, k') /\ console_ok k'.
Proof.
  intros Hok [Ha Hs]. destruct (printf_run ps k Hok Ha Hs) as (k1 & Hem & Hs1 & E).
  eexists _, _. split; [exact E|]. split.
  - unfold message. pstep reflexivity.
    pstep (cbn; replace {| screen := screen k; active_interface := active_interface k |} with k by (by destruct k); exact Hem).
    destruct (emits_total (output_of ps) k Ha Hs) as (k2 & Hem' & Ha2 & _). rewrite Hem in Hem'. injection Hem' as <-.
    cbn. unfold on_screen. cbn. by rewrite Ha2.
  - split; [done|]. apply screen_ok_color; [apply u8_range|done].
Qed.

Lemma printf_message fmt args ps k : pieces_of fmt args = Some ps -> console_ok k ->
  exists n k', printf (fmt ++ [0]) args k = Ret (n, k') /\ message (output_of ps) k = Ret (tt, k') /\ console_ok k'.
Proof. intros (-> & -> & Hok)%pieces_of_spec. by apply printf_pieces. Qed.

(** ** Transcripts

    [Typed] characters are written one by one; a message is what one [printf]
    writes. *)
Inductive shown := Typed (cs : list Z) | Said (os : list output).
Definition say (cs : list Z) : shown := Said (OChar <$> cs).

Definition show (m : shown) : ST console unit :=
  match m with Typed cs => emits (OChar <$> cs) | Said os => message os end.
Fixpoint display (ms : list shown) : ST console unit :=
  match ms with [] => mret tt | m :: ms => show m;; display ms end.

Lemma display_app ms1 ms2 k1 k2 : forall k, display ms1 k = Ret (tt, k1) -> display ms2 k1 = Ret (tt, k2) ->
  display (ms1 ++ ms2) k = Ret (tt, k2).
Proof.
  induction ms1 as [|m ms1 IH]; intros k; cbn [display app]; [by intros [= <-]|].
  intros ([] & k' & E & D1)%st_bind_inv D2. pstep (exact E). by apply IH.
Qed.

(** An empty screen, for the witnesses. *)
Definition blank_console : console :=
  {| screen := {| vga_row := 0; vga_column := 0; vga_color := 7; vga_EOF_handler := EOF_scroll_down_once;
                  vga_buffer := replicate 2000 0; vga_ports := [] |}; active_interface := vga_interface |}.
Lemma blank_console_ok : console_ok blank_console.
Proof. split; [done|]. split; [done|done|done|done]. Qed.
