(* ===== verification/BlockDev.v ===== *)
(** * Block devices (src/src/drivers/block_device.c, block_device.h)

    The registry of block devices, and the interface a file system uses:
    [BlockDevice] states what the [read_block] and [write_block] operations of
    a device promise, so that the file system is proved against the interface
    and any driver can discharge it. *)

From S2P Require Import Prelude.

(** ** The registry *)
Definition MAX_BLOCK_DEVICES : Z := 16.

(** The fields of [struct block_device] the kernel reads. *)
Record block_device := {
  bd_major : Z;
  bd_minor : Z;
  bd_block_size : Z;
  bd_has_ops : bool
}.

(** Pointers are addresses, 0 is [NULL]; [bd_store] holds the structures. *)
Record registry := {
  block_devices : list Z;
  bd_store : gmap Z block_device
}.

Definition registry_boot (store : gmap Z block_device) : registry :=
  {| block_devices := replicate (Z.to_nat MAX_BLOCK_DEVICES) 0; bd_store := store |}.

(** [for (i = 0; i < MAX_BLOCK_DEVICES; i++)]: the first slot that holds [p]. *)
Fixpoint find_slot (p : Z) (slots : list Z) : option nat :=
  match slots with
  | [] => None
  | q :: slots => if q =? p then Some 0%nat else S <$> find_slot p slots
  end.

(** A dereference of [dev]. *)
Definition bd_deref (r : registry) (dev : Z) : outcome block_device := of_option (bd_store r !! dev).

Definition block_device_register (dev : Z) (r : registry) : outcome (Z * registry) :=
  if dev =? 0 then Ret (-1, r)
  else
    d ← bd_deref r dev;
    if negb (bd_has_ops d) then Ret (-1, r)
    else
      match find_slot 0 (block_devices r) with
      | Some i => Ret (0, {| block_devices := <[i := dev]> (block_devices r); bd_store := bd_store r |})
      | None => Ret (-1, r)
      end.

Definition block_device_unregister (dev : Z) (r : registry) : outcome (Z * registry) :=
  if dev =? 0 then Ret (-1, r)
  else
    match find_slot dev (block_devices r) with
    | Some i => Ret (0, {| block_devices := <[i := 0]> (block_devices r); bd_store := bd_store r |})
    | None => Ret (-1, r)
    end.

Fixpoint find_device (r : registry) (major minor : Z) (slots : list Z) : outcome Z :=
  match slots with
  | [] => Ret 0
  | p :: slots =>
      if p =? 0 then find_device r major minor slots
      else
        d ← bd_deref r p;
        if (bd_major d =? major) && (bd_minor d =? minor) then Ret p
        else find_device r major minor slots
  end.

Definition block_device_get (major minor : Z) (r : registry) : outcome Z :=
  find_device r major minor (block_devices r).

(** ** The interface of a device's operations

    [bd_read b] is [read_block]: the block's bytes, or [None] when the
    operation returns an error; [bd_read_blocks] is [read_blocks].  [bd_write] is
    [write_block] and tells whether it returned 0.  [bd_set_block_size] is the
    assignment to the [block_size] field. *)
Class BlockDevice (D : Type) := {
  bd_read : Z -> D -> option (list Z) * D;
  bd_write : Z -> list Z -> D -> bool * D;
  bd_read_blocks : Z -> Z -> D -> option (list Z) * D;
  bd_set_block_size : Z -> D -> D
}.

(** A healthy device: blocks of [bs] bytes numbered below [n]; every read of one
    returns its contents and changes none, every write changes exactly that
    block.  The device may change its internal state on every request. *)
Class HealthyDevice (D : Type) `{!BlockDevice D} := {
  bd_block : D -> Z -> list Z;
  bd_blocks : D -> Z;
  bd_bs : D -> Z;
  bd_read_ok : forall d b, 0 <= b < bd_blocks d ->
    exists d', bd_read b d = (Some (bd_block d b), d') /\ bd_blocks d' = bd_blocks d /\ bd_bs d' = bd_bs d /\
      forall c, 0 <= c < bd_blocks d -> bd_block d' c = bd_block d c;
  bd_block_len : forall d b, 0 <= b < bd_blocks d -> Z.of_nat (length (bd_block d b)) = bd_bs d;
  bd_block_bytes : forall d b, 0 <= b < bd_blocks d -> Forall is_u8 (bd_block d b);
  bd_write_ok : forall d b buf, 0 <= b < bd_blocks d -> Z.of_nat (length buf) = bd_bs d ->
    Forall is_u8 buf ->
    exists d', bd_write b buf d = (true, d') /\ bd_blocks d' = bd_blocks d /\ bd_bs d' = bd_bs d /\
      forall c, 0 <= c < bd_blocks d -> bd_block d' c = if c =? b then buf else bd_block d c
}.

(** A disk in memory: a list of blocks. *)
Record ram_disk := { rd_bs : Z; rd_data : list (list Z) }.

(** The same bytes in blocks of [n] bytes. *)
Fixpoint chunks (fuel : nat) (n : nat) (l : list Z) : list (list Z) :=
  match fuel with
  | O => []
  | S fuel => if (length l <? n)%nat then [] else take n l :: chunks fuel n (drop n l)
  end.
Definition rd_reblock (bs : Z) (d : ram_disk) : ram_disk :=
  let bytes := concat (rd_data d) in
  {| rd_bs := bs; rd_data := chunks (length bytes) (Z.to_nat bs) bytes |}.
Definition rd_read_blocks (b n : Z) (d : ram_disk) : option (list Z) * ram_disk :=
  (slice (concat (rd_data d)) (b * rd_bs d) (n * rd_bs d), d).

Definition rd_read (b : Z) (d : ram_disk) : option (list Z) * ram_disk :=
  (znth (rd_data d) b, d).
Definition rd_write (b : Z) (buf : list Z) (d : ram_disk) : bool * ram_disk :=
  match zset (rd_data d) b buf with
  | Some l => (true, {| rd_bs := rd_bs d; rd_data := l |})
  | None => (false, d)
  end.

(** ** Lemmas *)
Lemma find_slot_Some p slots i : find_slot p slots = Some i ->
  slots !! i = Some p /\ forall j q, (j < i)%nat -> slots !! j = Some q -> q <> p.
Proof.
  revert i. induction slots as [|q slots IH]; intros i; cbn [find_slot]; [done|].
  destruct (Z.eqb_spec q p) as [->|Hne].
  - intros [= <-]. split; [done|]. intros j q' Hj. lia.
  - destruct (find_slot p slots) as [k|]; [|done]. intros [= <-].
    destruct (IH k eq_refl) as [H1 H2]. split; [done|].
    intros [|j] q' Hj; cbn; [congruence|]. apply H2. lia.
Qed.

Lemma find_slot_None p slots : find_slot p slots = None -> p ∉ slots.
Proof.
  induction slots as [|q slots IH]; cbn [find_slot]; [intros _; apply not_elem_of_nil|].
  destruct (Z.eqb_spec q p) as [->|Hne]; [done|].
  destruct (find_slot p slots) as [k|]; [done|]. intros _.
  apply not_elem_of_cons. split; [congruence|]. by apply IH.
Qed.

(** Every registered pointer is valid. *)
Definition registry_ok (r : registry) : Prop :=
  length (block_devices r) = Z.to_nat MAX_BLOCK_DEVICES /\
  forall p, p ∈ block_devices r -> p <> 0 -> is_Some (bd_store r !! p).

Definition has_number (r : registry) (p major minor : Z) : Prop :=
  exists d, bd_store r !! p = Some d /\ bd_major d = major /\ bd_minor d = minor.

Lemma find_device_spec r major minor slots :
  (forall p, p ∈ slots -> p <> 0 -> is_Some (bd_store r !! p)) ->
  exists p, find_device r major minor slots = Ret p /\
    (p = 0 /\ (forall q, q ∈ slots -> q <> 0 -> ~ has_number r q major minor) \/
     p <> 0 /\ p ∈ slots /\ has_number r p major minor).
Proof.
  induction slots as [|q slots IH]; intros Hok; cbn [find_device].
  - exists 0. split; [done|]. left. split; [done|]. intros q Hq. by apply not_elem_of_nil in Hq.
  - destruct IH as (p & Hp & Hcase); [intros p Hp; apply Hok; by right|].
    destruct (Z.eqb_spec q 0) as [->|Hq0].
    + exists p. split; [done|]. destruct Hcase as [[-> Hn]|(? & ? & ?)]; [left|right].
      * split; [done|]. intros x [->|Hx]%elem_of_cons; [done|]. auto.
      * split_and!; [done|by right|done].
    + destruct (Hok q) as [d Hd]; [by left|done|]. unfold bd_deref. rewrite Hd.
      cbn [of_option]. unfold mbind, outcome_bind. case_bool.
      * exists q. split; [done|]. right. split_and!; [done|by left|]. exists d. split; [done|lia].
      * exists p. split; [done|]. destruct Hcase as [[-> Hn]|(? & ? & ?)]; [left|right].
        -- split; [done|]. intros x [->|Hx]%elem_of_cons; [|auto].
           intros _ (d' & Hd' & ? & ?). rewrite Hd in Hd'. injection Hd' as <-. lia.
        -- split_and!; [done|by right|done].
Qed.

(** ** A disk in memory is a healthy device *)
#[export] Instance ram_device : BlockDevice ram_disk := {
  bd_read := rd_read;
  bd_write := rd_write;
  bd_read_blocks := rd_read_blocks;
  bd_set_block_size := rd_reblock
}.

Definition rd_block_ok (bs : Z) (b : list Z) : bool :=
  (Z.of_nat (length b) =? bs) && forallb (fun x => (0 <=? x) && (x <? 256)) b.

Lemma rd_block_ok_spec bs b :
  rd_block_ok bs b = true <-> Z.of_nat (length b) = bs /\ Forall is_u8 b.
Proof.
  unfold rd_block_ok. rewrite andb_true_iff, forallb_forall, List.Forall_forall, Z.eqb_eq.
  unfold is_u8. split; intros [H1 H2]; (split; [done|]); intros x Hx; specialize (H2 x Hx); lia.
Qed.

(** The number of blocks, when all of them are well formed. *)
Definition rd_blocks (d : ram_disk) : Z :=
  if forallb (rd_block_ok (rd_bs d)) (rd_data d) then Z.of_nat (length (rd_data d)) else 0.

Definition rd_block (d : ram_disk) (b : Z) : list Z := default [] (znth (rd_data d) b).

Lemma rd_blocks_inv d b : 0 <= b < rd_blocks d ->
  rd_blocks d = Z.of_nat (length (rd_data d)) /\ znth (rd_data d) b = Some (rd_block d b) /\
  (forall c, c ∈ rd_data d -> rd_block_ok (rd_bs d) c = true).
Proof.
  unfold rd_blocks, rd_block. destruct (forallb _ _) eqn:E; [|lia]. intros Hb.
  destruct (znth_Some (rd_data d) b) as [x Hx]; [lia|]. rewrite Hx. split_and!; [done|done|].
  intros c Hc. rewrite forallb_forall in E. apply E. by apply list_elem_of_In.
Qed.

Lemma rd_block_in d b : 0 <= b < rd_blocks d -> rd_block_ok (rd_bs d) (rd_block d b) = true.
Proof.
  intros Hb. destruct (rd_blocks_inv d b Hb) as (_ & Hz & Hok). apply Hok.
  apply znth_inv in Hz as [_ Hz]. by apply list_elem_of_lookup_2 in Hz.
Qed.

#[export] Instance ram_healthy : HealthyDevice ram_disk.
Proof.
  refine {| bd_block := rd_block; bd_blocks := rd_blocks; bd_bs := rd_bs |}.
  - intros d b Hb. destruct (rd_blocks_inv d b Hb) as (_ & Hz & _). exists d. cbn. unfold rd_read. by rewrite Hz.
  - intros d b Hb. by apply rd_block_in, rd_block_ok_spec in Hb as [? _].
  - intros d b Hb. by apply rd_block_in, rd_block_ok_spec in Hb as [_ ?].
  - intros d b buf Hb Hlen Hbytes. destruct (rd_blocks_inv d b Hb) as (Hn & Hz & Hok).
    cbn. unfold rd_write. rewrite zset_Some by lia. eexists. split; [done|].
    assert (Hall : forallb (rd_block_ok (rd_bs d)) (<[Z.to_nat b := buf]> (rd_data d)) = true).
    { apply forallb_forall. intros c Hc%list_elem_of_In. apply list_elem_of_lookup in Hc as [j Hj].
      apply list_lookup_insert_Some in Hj as [(_ & <- & _)|[_ Hj]]; [by apply rd_block_ok_spec|].
      apply Hok. by apply list_elem_of_lookup_2 in Hj. }
    unfold rd_blocks at 1. cbn [rd_bs rd_data]. rewrite Hall, length_insert. split_and!; [done|done|].
    intros c Hc. unfold rd_block. cbn [rd_data]. unfold znth.
    destruct (Z.leb_spec 0 c); [|lia]. destruct (Z.eqb_spec c b) as [->|Hne].
    + by rewrite list_lookup_insert_eq by lia.
    + by rewrite list_lookup_insert_ne by lia.
Defined.

(** ** Theorems *)

(** A registered device is found by its numbers: after a successful
    registration of a device with numbers no other registered device has, a
    lookup returns exactly that device; registration fails only when all slots
    are taken; and unregistering it makes the lookup return [NULL] again. *)
Theorem register_get_unregister r dev d :
  registry_ok r -> dev <> 0 -> bd_store r !! dev = Some d -> bd_has_ops d = true ->
  (forall q, q ∈ block_devices r -> q <> 0 -> ~ has_number r q (bd_major d) (bd_minor d)) ->
  exists ret r1, block_device_register dev r = Ret (ret, r1) /\ registry_ok r1 /\
    (ret = -1 /\ 0 ∉ block_devices r \/
     ret = 0 /\ block_device_get (bd_major d) (bd_minor d) r1 = Ret dev /\
     exists r2, block_device_unregister dev r1 = Ret (0, r2) /\ registry_ok r2 /\
       block_device_get (bd_major d) (bd_minor d) r2 = Ret 0).
Proof.
  intros [Hlen Hok] Hdev Hd Hops Huniq.
  assert (Hnin : dev ∉ block_devices r).
  { intros Hin. apply (Huniq dev Hin Hdev). by exists d. }
  unfold block_device_register. destruct (Z.eqb_spec dev 0); [done|].
  unfold bd_deref. rewrite Hd. unfold mbind, outcome_bind. cbn [of_option]. rewrite Hops. cbn [negb].
  destruct (find_slot 0 (block_devices r)) as [i|] eqn:Ei.
  2: { exists (-1), r. split; [done|]. split; [done|]. left. split; [done|]. by apply find_slot_None. }
  apply find_slot_Some in Ei as [Hi _]. pose proof (lookup_lt_Some _ _ _ Hi) as Hlt.
  set (r1 := {| block_devices := <[i := dev]> (block_devices r); bd_store := bd_store r |}).
  assert (Hin1 : forall p, p ∈ block_devices r1 -> p = dev \/ p ∈ block_devices r).
  { intros p [j Hj]%list_elem_of_lookup. cbn [block_devices r1] in Hj.
    apply list_lookup_insert_Some in Hj as [(_ & -> & _)|[_ Hj]]; [by left|].
    right. by apply list_elem_of_lookup_2 in Hj. }
  assert (Hok1 : registry_ok r1).
  { split; [cbn [block_devices r1]; by rewrite length_insert|]. intros p [->|Hp]%Hin1 Hp0; [by exists d|auto]. }
  exists 0, r1. split; [done|]. split; [done|]. right. split; [done|]. split.
  - destruct (find_device_spec r1 (bd_major d) (bd_minor d) (block_devices r1)) as (p & Hp & Hc).
    { apply Hok1. }
    unfold block_device_get. rewrite Hp. destruct Hc as [[-> Hno]|(Hp0 & Hpin & Hnum)].
    + exfalso. apply (Hno dev); [|done|by exists d]. eapply list_elem_of_lookup_2.
      cbn [block_devices r1]. by apply list_lookup_insert_eq.
    + destruct (Hin1 p Hpin) as [->|Hpr]; [done|]. exfalso. by apply (Huniq p).
  - unfold block_device_unregister. destruct (Z.eqb_spec dev 0); [done|].
    destruct (find_slot dev (block_devices r1)) as [k|] eqn:Ek.
    2: { exfalso. apply (find_slot_None _ _ Ek). eapply list_elem_of_lookup_2.
         cbn [block_devices r1]. by apply list_lookup_insert_eq. }
    apply find_slot_Some in Ek as [Hk _].
    assert (k = i) as ->.
    { cbn [block_devices r1] in Hk. apply list_lookup_insert_Some in Hk as [(-> & _ & _)|[_ Hk]]; [done|].
      exfalso. apply Hnin. by apply list_elem_of_lookup_2 in Hk. }
    cbn [block_devices r1]. rewrite list_insert_insert_eq.
    set (r2 := {| block_devices := <[i := 0]> (block_devices r); bd_store := _ |}).
    assert (Hin2 : forall p, p ∈ block_devices r2 -> p <> 0 -> p ∈ block_devices r).
    { intros p [j Hj]%list_elem_of_lookup Hp0. cbn [block_devices r2] in Hj.
      apply list_lookup_insert_Some in Hj as [(_ & <- & _)|[_ Hj]]; [done|].
      by apply list_elem_of_lookup_2 in Hj. }
    assert (Hok2 : registry_ok r2).
    { split; [cbn [block_devices r2]; by rewrite length_insert|]. intros p Hp Hp0. apply Hok; auto. }
    exists r2. split; [done|]. split; [done|]. unfold block_device_get.
    destruct (find_device_spec r2 (bd_major d) (bd_minor d) (block_devices r2)) as (p & Hp & Hc); [apply Hok2|].
    rewrite Hp. destruct Hc as [[-> _]|(Hp0 & Hpin & Hnum)]; [done|]. exfalso. by apply (Huniq p); auto.
Qed.

(** ** Witnesses *)
Definition hda : block_device :=
  {| bd_major := 3; bd_minor := 0; bd_block_size := 512; bd_has_ops := true |}.

Lemma register_get_unregister_witness :
  exists ret r1, block_device_register 100 (registry_boot {[100 := hda]}) = Ret (ret, r1) /\
    (ret = -1 \/ block_device_get 3 0 r1 = Ret 100).
Proof.
  destruct (register_get_unregister (registry_boot {[100 := hda]}) 100 hda) as (ret & r1 & H & _ & Hc).
  - split; [done|]. intros p Hp Hp0. by apply elem_of_replicate in Hp as [-> _].
  - done.
  - apply lookup_singleton_eq.
  - done.
  - intros q Hq Hq0. by apply elem_of_replicate in Hq as [-> _].
  - exists ret, r1. split; [exact H|]. destruct Hc as [[-> _]|(-> & Hg & _)]; [by left|by right].
Defined.
