(* ===== verification/Ata.v ===== *)
(** * The ATA disk driver (src/src/drivers/disk/ata.c)

    The driver programs the drive through ports and sleeps until the drive's
    interrupt request.  Requests can arrive between any two accesses, so every
    access of the driver is followed by [boundary], at which the CPU may take an
    interrupt and run the handlers of its vector.  The hardware is a parameter:
    [Ports] for the port instructions, [Cpu] for the arrival of interrupts.

    A sector is a list of 256 words.  This file holds the code; [AtaProof] the
    protocol of the drive and the theorems. *)

From S2P Require Import Prelude Interrupts BlockDev.

(** ** Constants (ata.h) *)
Definition ATA_DATA_PORT : Z := 0x1F0.
Definition ATA_ERROR_PORT : Z := 0x1F1.
Definition ATA_SECTOR_COUNT : Z := 0x1F2.
Definition ATA_LBA_LOW : Z := 0x1F3.
Definition ATA_LBA_MID : Z := 0x1F4.
Definition ATA_LBA_HIGH : Z := 0x1F5.
Definition ATA_DRIVE_SELECT : Z := 0x1F6.
Definition ATA_COMMAND_PORT : Z := 0x1F7.
Definition ATA_STATUS_PORT : Z := 0x1F7.
Definition ATA_CONTROL_PORT : Z := 0x3F6.
Definition ATA_CMD_READ_SECTORS : Z := 0x20.
Definition ATA_CMD_WRITE_SECTORS : Z := 0x30.
Definition ATA_CMD_IDENTIFY : Z := 0xEC.
Definition ATA_STATUS_BUSY : Z := 0x80.
Definition ATA_STATUS_READY : Z := 0x40.
Definition ATA_STATUS_DRQ : Z := 0x08.
Definition ATA_STATUS_ERROR : Z := 0x01.
Definition ATA_MASTER : Z := 0xA0.
Definition ATA_SLAVE : Z := 0xB0.
Definition ATA_IRQ_PRIMARY : Z := 14.
Definition ATA_IRQ_SECONDARY : Z := 15.
Definition ATA_SECTOR_SIZE : Z := 512.
Definition ATA_SECTOR_WORDS : Z := 256.
Definition ATA_MAX_SECTORS_PER_CMD : Z := 255.
Definition ATA_ERROR_NONE : Z := 0.
Definition ATA_ERROR_TIMEOUT : Z := -2.
Definition ATA_ERROR_FAULT : Z := -3.
Definition ATA_ERROR_UNKNOWN : Z := -5.

(** ** Arrival of interrupts

    [p_irq] tells which request, if any, the CPU takes at an instruction
    boundary; [p_hlt] which request ends a [hlt], nothing when none ever comes. *)
Class Cpu (D : Type) := {
  p_irq : D -> option Z * D;
  p_hlt : D -> option (Z * D)
}.

(** The machine, the static flag of the driver and the table of handlers. *)
Record ata (D : Type) := {
  hw : D;
  ata_irq_fired : Z;
  handlers : list Z
}.
Arguments hw {D} _. Arguments ata_irq_fired {D} _. Arguments handlers {D} _.

Section code.
Context {D : Type} `{!Ports D} `{!Cpu D}.

(** The addresses of the two interrupt handlers, and a bound on the interrupts
    taken in one wait. *)
Context (primary secondary : Z) (fuel : nat).

Abbreviation M := (ST (ata D)).

Definition set_hw (d : D) (s : ata D) : ata D :=
  {| hw := d; ata_irq_fired := ata_irq_fired s; handlers := handlers s |}.
Definition set_fired (v : Z) (s : ata D) : ata D :=
  {| hw := hw s; ata_irq_fired := v; handlers := handlers s |}.
Definition set_handlers (t : list Z) (s : ata D) : ata D :=
  {| hw := hw s; ata_irq_fired := ata_irq_fired s; handlers := t |}.

(** A port access, without an interrupt after it. *)
Definition on_hw {A} (c : ST D A) : M A := fun s =>
  match c (hw s) with
  | Ret (a, d) => Ret (a, set_hw d s)
  | Fault => Fault
  | Diverge => Diverge
  end.

(** ** Interrupt handlers *)
Definition ata_primary_irq_handler : M unit :=
  on_hw (inb ATA_STATUS_PORT);;
  st_modify (set_fired 1).

Definition ata_secondary_irq_handler : M unit :=
  on_hw (inb 0x177);;
  st_modify (set_fired 1).

(** Handlers of other devices do not touch the driver. *)
Definition call_handler (h : Z) : M unit :=
  if h =? primary then ata_primary_irq_handler
  else if h =? secondary then ata_secondary_irq_handler
  else mret tt.

Definition interrupt (irq : Z) : M unit :=
  isr_common_handler handlers (fun p v => on_hw (outb p v)) call_handler (irq_to_vector irq).

Definition boundary : M unit := fun s =>
  match p_irq (hw s) with
  | (Some irq, d) => interrupt irq (set_hw d s)
  | (None, d) => Ret (tt, set_hw d s)
  end.

(** Accesses of the driver itself. *)
Definition in_b (port : Z) : M Z := v ← on_hw (inb port); boundary;; mret v.
Definition out_b (port v : Z) : M unit := on_hw (outb port v);; boundary.
Definition in_w (port : Z) : M Z := v ← on_hw (inw port); boundary;; mret v.
Definition out_w (port v : Z) : M unit := on_hw (outw port v);; boundary.

(** ** Helpers *)
Definition ata_setup_lba (lba count : Z) : M unit :=
  out_b ATA_SECTOR_COUNT count;;
  out_b ATA_LBA_LOW (u8 (Z.land lba 0xFF));;
  out_b ATA_LBA_MID (u8 (Z.land (Z.shiftr lba 8) 0xFF));;
  out_b ATA_LBA_HIGH (u8 (Z.land (Z.shiftr lba 16) 0xFF));;
  out_b ATA_DRIVE_SELECT (Z.lor 0xE0 (Z.land (Z.shiftr lba 24) 0x0F)).

Fixpoint poll_drq_loop (n : nat) : M Z :=
  match n with
  | O => mret ATA_ERROR_TIMEOUT
  | S n =>
      status ← in_b ATA_STATUS_PORT;
      if negb (Z.land status ATA_STATUS_ERROR =? 0) then mret ATA_ERROR_FAULT
      else if negb (Z.land status ATA_STATUS_DRQ =? 0) then mret ATA_ERROR_NONE
      else poll_drq_loop n
  end.
Definition ata_poll_drq : M Z := poll_drq_loop (Z.to_nat 30000).

(** The words stored in [buffer[0]], [buffer[1]], ... *)
Fixpoint read_words (n : nat) : M (list Z) :=
  match n with
  | O => mret []
  | S n => w ← in_w ATA_DATA_PORT; ws ← read_words n; mret (w :: ws)
  end.
Definition ata_read_pio_data : M (list Z) := read_words (Z.to_nat ATA_SECTOR_WORDS).

Fixpoint write_words (ws : list Z) : M unit :=
  match ws with
  | [] => mret tt
  | w :: ws => out_w ATA_DATA_PORT w;; write_words ws
  end.
(** [buffer] must hold a sector. *)
Definition ata_write_pio_data (buffer : list Z) : M unit :=
  ws ← st_lift (of_option (slice buffer 0 ATA_SECTOR_WORDS));
  write_words ws.

Definition ata_prepare_irq : M unit := st_modify (set_fired 0);; boundary.

Definition hlt : M unit := fun s =>
  match p_hlt (hw s) with
  | Some (irq, d) => interrupt irq (set_hw d s)
  | None => Diverge
  end.

(** [while (!ata_irq_fired) hlt]: an interrupt can come between the test and
    the [hlt]. *)
Fixpoint wait_irq_loop (n : nat) : M unit :=
  match n with
  | O => fun _ => Diverge
  | S n =>
      fired ← st_gets ata_irq_fired;
      if negb (fired =? 0) then mret tt
      else boundary;; hlt;; wait_irq_loop n
  end.
Definition ata_wait_irq : M unit := wait_irq_loop fuel.

(** ** Public functions *)
Definition ata_select_drive (drive : Z) : M unit :=
  let sel := if drive =? 0 then ATA_MASTER else ATA_SLAVE in
  out_b ATA_DRIVE_SELECT sel;;
  on_hw io_wait;; boundary.

Fixpoint wait_ready_loop (n : nat) : M Z :=
  match n with
  | O => mret ATA_ERROR_TIMEOUT
  | S n =>
      status ← in_b ATA_STATUS_PORT;
      if negb (Z.land status ATA_STATUS_ERROR =? 0) then mret ATA_ERROR_FAULT
      else if (Z.land status ATA_STATUS_BUSY =? 0) && negb (Z.land status ATA_STATUS_READY =? 0)
      then mret ATA_ERROR_NONE
      else wait_ready_loop n
  end.
Definition ata_wait_ready (timeout_ms : Z) : M Z := wait_ready_loop (Z.to_nat (s32 (timeout_ms * 1000))).

Definition register_handler (irq handler : Z) : M unit :=
  t ← st_gets handlers;
  t ← st_lift (isr_register_handler (irq_to_vector irq) handler t);
  st_modify (set_handlers t);;
  boundary.

Definition ata_init : M Z :=
  register_handler ATA_IRQ_PRIMARY primary;;
  register_handler ATA_IRQ_SECONDARY secondary;;
  on_hw (pic_clear_mask 2);; boundary;;
  on_hw (pic_clear_mask ATA_IRQ_PRIMARY);; boundary;;
  on_hw (pic_clear_mask ATA_IRQ_SECONDARY);; boundary;;
  out_b ATA_CONTROL_PORT 0x00;;
  mret ATA_ERROR_NONE.

(** [for (i = 0; i < chunk; i++)], [n] sectors are left: the words read. *)
Fixpoint read_chunk (n : nat) : M (list Z) :=
  match n with
  | O => mret []
  | S n =>
      ata_wait_irq;;
      ws ← ata_read_pio_data;
      when (0 <? Z.of_nat n) ata_prepare_irq;;
      rest ← read_chunk n;
      mret (ws ++ rest)
  end.

(** [while (count > 0)]: the status and the words stored so far. *)
Fixpoint read_chunks (k : nat) (lba count : Z) (buffer : list Z) : M (Z * list Z) :=
  match k with
  | O => fun _ => Diverge
  | S k =>
      if count =? 0 then mret (ATA_ERROR_NONE, buffer)
      else
        let chunk := if ATA_MAX_SECTORS_PER_CMD <? count then ATA_MAX_SECTORS_PER_CMD else count in
        ata_select_drive 0;;
        r ← ata_wait_ready 1000;
        if negb (r =? ATA_ERROR_NONE) then mret (ATA_ERROR_TIMEOUT, buffer)
        else
          ata_setup_lba lba (u8 chunk);;
          ata_prepare_irq;;
          out_b ATA_COMMAND_PORT ATA_CMD_READ_SECTORS;;
          ws ← read_chunk (Z.to_nat chunk);
          read_chunks k (lba +! chunk) (count -! chunk) (buffer ++ ws)
  end.

Definition ata_read_sectors (lba count : Z) : M (Z * list Z) :=
  if count =? 0 then mret (ATA_ERROR_UNKNOWN, [])
  else read_chunks (S (Z.to_nat count)) lba count [].

(** [for (i = 0; i < chunk; i++)] of the transfer to the drive; the rest of the
    buffer is returned. *)
Fixpoint write_chunk (n : nat) (buffer : list Z) : M (list Z) :=
  match n with
  | O => mret buffer
  | S n =>
      ata_prepare_irq;;
      ata_write_pio_data buffer;;
      ata_wait_irq;;
      write_chunk n (drop (Z.to_nat ATA_SECTOR_WORDS) buffer)
  end.

Fixpoint write_chunks (k : nat) (lba count : Z) (buffer : list Z) : M Z :=
  match k with
  | O => fun _ => Diverge
  | S k =>
      if count =? 0 then mret ATA_ERROR_NONE
      else
        let chunk := if ATA_MAX_SECTORS_PER_CMD <? count then ATA_MAX_SECTORS_PER_CMD else count in
        ata_select_drive 0;;
        r ← ata_wait_ready 1000;
        if negb (r =? ATA_ERROR_NONE) then mret ATA_ERROR_TIMEOUT
        else
          ata_setup_lba lba (u8 chunk);;
          out_b ATA_COMMAND_PORT ATA_CMD_WRITE_SECTORS;;
          result ← ata_poll_drq;
          if negb (result =? ATA_ERROR_NONE) then mret result
          else
            buffer ← write_chunk (Z.to_nat chunk) buffer;
            write_chunks k (lba +! chunk) (count -! chunk) buffer
  end.

Definition ata_write_sectors (lba count : Z) (buffer : list Z) : M Z :=
  if count =? 0 then mret ATA_ERROR_UNKNOWN
  else write_chunks (S (Z.to_nat count)) lba count buffer.

Definition ata_read_sector (lba : Z) : M (Z * list Z) := ata_read_sectors lba 1.
Definition ata_write_sector (lba : Z) (buffer : list Z) : M Z := ata_write_sectors lba 1 buffer.

Definition ata_identify_drive (drive : Z) : M (Z * list Z) :=
  ata_select_drive drive;;
  r ← ata_wait_ready 1000;
  if negb (r =? ATA_ERROR_NONE) then mret (ATA_ERROR_TIMEOUT, [])
  else
    out_b ATA_SECTOR_COUNT 0;;
    out_b ATA_LBA_LOW 0;;
    out_b ATA_LBA_MID 0;;
    out_b ATA_LBA_HIGH 0;;
    ata_prepare_irq;;
    out_b ATA_COMMAND_PORT ATA_CMD_IDENTIFY;;
    status ← in_b ATA_CONTROL_PORT;
    if status =? 0 then mret (ATA_ERROR_FAULT, [])
    else
      ata_wait_irq;;
      ws ← ata_read_pio_data;
      mret (ATA_ERROR_NONE, ws).

(** ** The block device adapter

    A buffer of bytes is cast to words, low byte first. *)
Definition words_bytes (ws : list Z) : list Z := ws ≫= le_bytes 2.
Fixpoint bytes_words (bs : list Z) : list Z :=
  match bs with
  | a :: b :: bs => le_val [a; b] :: bytes_words bs
  | _ => []
  end.

Definition ata_blk_read_blocks (block_size start count : Z) : M (Z * list Z) :=
  let sectors_per_block := block_size / ATA_SECTOR_SIZE in
  let lba := start *! sectors_per_block in
  let total_sectors := count *! sectors_per_block in
  '(r, ws) ← ata_read_sectors lba total_sectors;
  mret (r, words_bytes ws).
Definition ata_blk_write_blocks (block_size start count : Z) (buf : list Z) : M Z :=
  let sectors_per_block := block_size / ATA_SECTOR_SIZE in
  let lba := start *! sectors_per_block in
  let total_sectors := count *! sectors_per_block in
  ata_write_sectors lba total_sectors (bytes_words buf).

Definition ata_blk_read_block (block_size block : Z) : M (Z * list Z) :=
  let sectors_per_block := block_size / ATA_SECTOR_SIZE in
  let lba := block *! sectors_per_block in
  '(r, ws) ← ata_read_sectors lba sectors_per_block;
  mret (r, words_bytes ws).
Definition ata_blk_write_block (block_size block : Z) (buf : list Z) : M Z :=
  let sectors_per_block := block_size / ATA_SECTOR_SIZE in
  let lba := block *! sectors_per_block in
  ata_write_sectors lba sectors_per_block (bytes_words buf).

Definition ata_drive_exists : M bool :=
  ata_select_drive 0;;
  status ← in_b ATA_STATUS_PORT;
  if (status =? 0x00) || (status =? 0xFF) then mret false
  else
    out_b ATA_SECTOR_COUNT 0x55;;
    out_b ATA_LBA_LOW 0xAA;;
    c ← in_b ATA_SECTOR_COUNT;
    if negb (c =? 0x55) then mret false
    else
      l ← in_b ATA_LBA_LOW;
      mret (l =? 0xAA).

(** The static [ata_block_dev], at address [dev]; the result is its address or
    [NULL], and the registry. *)
Definition ata_create_block_device (dev : Z) (r : registry) : M (Z * registry) :=
  ex ← ata_drive_exists;
  if negb ex then mret (0, r)
  else
    let r := {| block_devices := block_devices r;
                bd_store := <[dev := {| bd_major := 3; bd_minor := 0; bd_block_size := ATA_SECTOR_SIZE;
                                        bd_has_ops := true |}]> (bd_store r) |} in
    '(ret, r) ← st_lift (block_device_register dev r);
    if negb (ret =? 0) then mret (0, r) else mret (dev, r).
End code.
