(* ===== verification/AtaProof.v ===== *)
(** * Correctness of the ATA disk driver

    [AtaDrive] states what the driver relies on, as the ATA standard describes
    PIO transfers: the task file registers, the phases of a READ SECTORS and a
    WRITE SECTORS command, and when the drive may request an interrupt.  The drive
    is free to have the next sector ready, and to request, at any instruction after
    the last word of a sector; interrupts of other devices may come at any
    instruction.  The theorems hold for every such drive; [ata_device] makes it a
    block device for the file system. *)

From S2P Require Import Prelude Interrupts BlockDev Ata.

(** ** The drive *)

(** The phase of a command.  [lba] is the next sector to be transferred and [n]
    the number of sectors left, that one included. *)
Inductive phase :=
| Ready
| ReadWait (lba n : Z)
| ReadData (lba n k : Z)
| WriteData (lba n : Z) (ws : list Z)
| WriteWait (lba n : Z).

(** What the host can observe of the drive.  [d_delay] is how many more status
    reads find it busy, [d_lag] how many interrupts of other devices can come
    before its own. *)
Record drive := {
  d_phase : phase;
  d_regs : Z -> Z;
  d_data : Z -> list Z;
  d_size : Z;
  d_delay : nat;
  d_lag : nat
}.

(** The same drive up to its timing, in phase [p]. *)
Definition in_phase (a b : drive) (p : phase) : Prop :=
  d_phase b = p /\ d_regs b = d_regs a /\ d_data b = d_data a /\ d_size b = d_size a.

Definition is_register (port : Z) : bool := (ATA_SECTOR_COUNT <=? port) && (port <=? ATA_DRIVE_SELECT).
Definition is_ata_port (port : Z) : bool :=
  (ATA_DATA_PORT <=? port) && (port <=? ATA_COMMAND_PORT) || (port =? ATA_CONTROL_PORT).

(** The address and the count in the task file. *)
Definition reg_lba (a : drive) : Z :=
  d_regs a ATA_LBA_LOW + 256 * d_regs a ATA_LBA_MID + 65536 * d_regs a ATA_LBA_HIGH
    + 16777216 * (d_regs a ATA_DRIVE_SELECT mod 16).
Definition transfer_ok (a : drive) : Prop :=
  1 <= d_regs a ATA_SECTOR_COUNT /\ d_regs a ATA_DRIVE_SELECT / 16 = 0xE /\
  reg_lba a + d_regs a ATA_SECTOR_COUNT <= d_size a.

(** A request that is not the drive's. *)
Definition foreign (irq : Z) : Prop := 0 <= irq < 16 /\ irq <> ATA_IRQ_PRIMARY /\ irq <> ATA_IRQ_SECONDARY.

(** The phase after the drive's own request. *)
Definition after_irq (p : phase) : option phase :=
  match p with
  | ReadWait lba n => Some (ReadData lba n 0)
  | WriteWait lba n => Some (if n =? 0 then Ready else WriteData lba n [])
  | _ => None
  end.

Class AtaDrive (D : Type) `{!Ports D} `{!Cpu D} := {
  view : D -> drive;
  patience : nat;
  (** Timing is bounded. *)
  v_delay : forall d, Z.of_nat (d_delay (view d)) < 30000;
  v_lag : forall d, (d_lag (view d) < patience)%nat;
  (** Sectors are 256 words; an LBA has 28 bits. *)
  v_sector : forall d k, 0 <= k < d_size (view d) ->
    length (d_data (view d) k) = 256%nat /\ Forall (fun w => 0 <= w < 65536) (d_data (view d) k);
  v_size : forall d, 0 <= d_size (view d) <= 268435456;
  (** Ports of other devices. *)
  v_out_other : forall port v d, is_ata_port port = false -> view (p_outb port v d) = view d;
  (** The task file. *)
  v_out_reg : forall port v d, d_phase (view d) = Ready -> is_register port = true -> is_u8 v ->
    let a := view d in let b := view (p_outb port v d) in
    d_phase b = Ready /\ d_data b = d_data a /\ d_size b = d_size a /\
    forall q, d_regs b q = if q =? port then v else d_regs a q;
  (** Commands. *)
  v_read : forall d, d_phase (view d) = Ready -> transfer_ok (view d) ->
    in_phase (view d) (view (p_outb ATA_COMMAND_PORT ATA_CMD_READ_SECTORS d))
      (ReadWait (reg_lba (view d)) (d_regs (view d) ATA_SECTOR_COUNT));
  v_write : forall d, d_phase (view d) = Ready -> transfer_ok (view d) ->
    in_phase (view d) (view (p_outb ATA_COMMAND_PORT ATA_CMD_WRITE_SECTORS d))
      (WriteData (reg_lba (view d)) (d_regs (view d) ATA_SECTOR_COUNT) []);
  (** The status register, which also acknowledges a request. *)
  v_status : forall d, let r := p_inb ATA_STATUS_PORT d in
    in_phase (view d) (view r.2) (d_phase (view d)) /\
    match d_phase (view d) with
    | Ready => Z.land r.1 ATA_STATUS_ERROR = 0 /\
        if (d_delay (view d) =? 0)%nat
        then Z.land r.1 ATA_STATUS_BUSY = 0 /\ Z.land r.1 ATA_STATUS_READY <> 0
        else Z.land r.1 ATA_STATUS_BUSY <> 0 /\ (d_delay (view r.2) < d_delay (view d))%nat
    | WriteData _ _ _ => Z.land r.1 ATA_STATUS_ERROR = 0 /\
        if (d_delay (view d) =? 0)%nat then Z.land r.1 ATA_STATUS_DRQ <> 0
        else Z.land r.1 ATA_STATUS_DRQ = 0 /\ (d_delay (view r.2) < d_delay (view d))%nat
    | _ => True
    end;
  (** The data register. *)
  v_inw : forall d lba n k, d_phase (view d) = ReadData lba n k -> 0 <= k < 256 ->
    let r := p_inw ATA_DATA_PORT d in
    znth (d_data (view d) lba) k = Some r.1 /\
    in_phase (view d) (view r.2)
      (if k + 1 <? 256 then ReadData lba n (k + 1)
       else if n =? 1 then Ready else ReadWait (lba + 1) (n - 1));
  v_outw : forall d lba n ws w, d_phase (view d) = WriteData lba n ws -> 0 <= w < 65536 ->
    (length ws < 256)%nat -> Forall (fun u => 0 <= u < 65536) ws ->
    let a := view d in let b := view (p_outw ATA_DATA_PORT w d) in
    if Z.of_nat (length ws) + 1 <? 256 then in_phase a b (WriteData lba n (ws ++ [w]))
    else d_phase b = WriteWait (lba + 1) (n - 1) /\ d_regs b = d_regs a /\ d_size b = d_size a /\
         forall q, d_data b q = if q =? lba then ws ++ [w] else d_data a q;
  (** Requests at an instruction boundary. *)
  v_irq : forall d, let r := p_irq d in
    match r.1 with
    | None => in_phase (view d) (view r.2) (d_phase (view d))
    | Some irq =>
        foreign irq /\ in_phase (view d) (view r.2) (d_phase (view d)) \/
        irq = ATA_IRQ_PRIMARY /\ exists p, after_irq (d_phase (view d)) = Some p /\ in_phase (view d) (view r.2) p
    end;
  (** An instruction boundary does not put the drive off. *)
  v_irq_delay : forall d, (d_delay (view (p_irq d).2) <= d_delay (view d))%nat /\
    (d_lag (view (p_irq d).2) <= d_lag (view d))%nat;
  (** The end of a [hlt]: the timer or another device, or the drive, which comes
      before its lag is used up. *)
  v_hlt : forall d, exists irq d', p_hlt d = Some (irq, d') /\
    (foreign irq /\ in_phase (view d) (view d') (d_phase (view d)) /\
       (is_Some (after_irq (d_phase (view d))) -> (d_lag (view d') < d_lag (view d))%nat) \/
     irq = ATA_IRQ_PRIMARY /\ exists p, after_irq (d_phase (view d)) = Some p /\ in_phase (view d) (view d') p)
}.

(** ** Sectors and phases *)

(** The sectors from [lba] on, in one list. *)
Definition sectors (dt : Z -> list Z) (lba : Z) (n : nat) : list Z :=
  seq 0 n ≫= (fun i => dt (lba + Z.of_nat i)).

Lemma sectors_S dt lba n : sectors dt lba (S n) = dt lba ++ sectors dt (lba + 1) n.
Proof.
  unfold sectors. cbn [seq mbind list_bind]. rewrite Z.add_0_r. f_equal.
  generalize 0%nat. induction n as [|n IH]; intros k; cbn; [done|]. rewrite IH. do 2 f_equal. lia.
Qed.

Lemma sectors_app dt lba n m : sectors dt lba (n + m) = sectors dt lba n ++ sectors dt (lba + Z.of_nat n) m.
Proof.
  revert lba. induction n as [|n IH]; intros lba; [by rewrite Z.add_0_r|].
  cbn [Nat.add]. rewrite !sectors_S, IH, <- app_assoc. do 3 f_equal. lia.
Qed.

(** [dt] with the sectors from [lba] on replaced by the words of [buf]. *)
Fixpoint store_sectors (n : nat) (lba : Z) (buf : list Z) (dt : Z -> list Z) : Z -> list Z :=
  match n with
  | O => dt
  | S n => store_sectors n (lba + 1) (drop 256 buf) (fun k => if k =? lba then take 256 buf else dt k)
  end.

Definition words_ok (n : nat) (buf : list Z) : Prop :=
  length buf = (256 * n)%nat /\ Forall (fun w => 0 <= w < 65536) buf.

Lemma words_ok_drop n m buf : words_ok (n + m) buf -> words_ok m (drop (256 * n) buf).
Proof. intros [Hl Hw]. split; [rewrite length_drop; lia|by apply Forall_drop]. Qed.

Lemma store_sectors_app n : forall m lba buf dt,
  store_sectors (n + m) lba buf dt =
  store_sectors m (lba + Z.of_nat n) (drop (256 * n) buf) (store_sectors n lba buf dt).
Proof.
  induction n as [|n IH]; intros m lba buf dt; [by rewrite Z.add_0_r|].
  cbn [Nat.add store_sectors]. rewrite IH, drop_drop. f_equal; [lia|]. f_equal. lia.
Qed.

Lemma chunk_arith lba count sz : 0 <= lba -> 1 <= count -> lba + count <= sz -> 0 <= sz <= 268435456 ->
  let chunk := if ATA_MAX_SECTORS_PER_CMD <? count then ATA_MAX_SECTORS_PER_CMD else count in
  1 <= chunk <= 255 /\ chunk <= count /\ u8 chunk = chunk /\
  lba +! chunk = lba + chunk /\ count -! chunk = count - chunk.
Proof.
  intros Hl Hc Hs Hsz. cbv zeta. unfold ATA_MAX_SECTORS_PER_CMD.
  assert (Hr : 1 <= (if 255 <? count then 255 else count) <= 255) by (case_bool; lia).
  assert (Hle : (if 255 <? count then 255 else count) <= count) by (case_bool; lia).
  set (chunk := if 255 <? count then 255 else count) in *. clearbody chunk.
  split_and!; try lia; [apply u8_small; unfold is_u8; lia|apply u32_small; unfold is_u32; lia..].
Qed.

Lemma after_irq_quiet p p' : after_irq p = Some p' -> after_irq p' = None.
Proof. destruct p; cbn; try done; intros [= <-]; [done|]. by case_bool. Qed.

(** ** Rules *)
Section rules.
Context {D : Type} `{!Ports D} `{!Cpu D} `{!AtaDrive D}.
Context (primary secondary : Z) (fuel : nat).
Implicit Types s : ata D.

(** The handler table after [ata_init]. *)
Record table_ok (t : list Z) : Prop := {
  to_len : length t = 1024%nat;
  to_primary : znth t (isr_slot 46 0) = Some primary;
  to_upper : upper_slots_empty t 46;
  to_other : forall irq i, foreign irq -> 0 <= i < 4 ->
    exists h, znth t (isr_slot (irq_to_vector irq) i) = Some h /\ h <> primary /\ h <> secondary
}.

Hypothesis Hprimary : primary <> 0.

(** The driver's state: the handler table and the drive, up to timing. *)
Record at_phase (t : list Z) (p : phase) (rg : Z -> Z) (dt : Z -> list Z) (sz : Z) s : Prop := {
  ap_table : handlers s = t;
  ap_phase : d_phase (view (hw s)) = p;
  ap_regs : forall q, d_regs (view (hw s)) q = rg q;
  ap_data : forall k, d_data (view (hw s)) k = dt k;
  ap_size : d_size (view (hw s)) = sz
}.

Lemma at_in_phase t p rg dt sz s s' p' : at_phase t p rg dt sz s -> handlers s' = handlers s ->
  in_phase (view (hw s)) (view (hw s')) p' -> at_phase t p' rg dt sz s'.
Proof.
  intros [H1 H2 H3 H4 H5] Ht (E1 & E2 & E3 & E4). split; [congruence|done|..].
  - intros q. by rewrite E2.
  - intros k. by rewrite E3.
  - by rewrite E4.
Qed.

Lemma at_same_view t p rg dt sz s s' : at_phase t p rg dt sz s -> handlers s' = handlers s ->
  view (hw s') = view (hw s) -> at_phase t p rg dt sz s'.
Proof. intros [] Ht Hv. split; rewrite ?Hv; congruence. Qed.

(** *** Interrupts *)
Lemma wp_on_hw {A} (c : ST D A) s Q : wp c (hw s) (fun a d => Q a (set_hw d s)) -> wp (on_hw c) s Q.
Proof. unfold wp, on_hw. by destruct (c (hw s)) as [[a d]| |]. Qed.

Lemma wp_eoi num s Q : (forall d, view d = view (hw s) -> Q tt (set_hw d s)) ->
  wp (when (40 <=? num) (on_hw (outb 0xA0 0x20));; on_hw (outb 0x20 0x20)) s Q.
Proof.
  intros HQ. apply wp_bind.
  assert (Hout : forall s', view (hw s') = view (hw s) -> handlers s' = handlers s ->
    ata_irq_fired s' = ata_irq_fired s -> wp (on_hw (outb 0x20 0x20)) s' Q).
  { intros s' Hv Ht Hf. unfold wp, on_hw, outb.
    replace (set_hw _ s') with (set_hw (p_outb 32 (u8 32) (hw s')) s) by (unfold set_hw; by rewrite Ht, Hf).
    apply HQ. by rewrite v_out_other. }
  unfold when. destruct (40 <=? num).
  - unfold wp at 1, on_hw at 1, outb at 1. apply Hout; [|done|done]. cbn [hw set_hw]. by rewrite v_out_other.
  - by apply Hout.
Qed.

Lemma run_foreign irq n : forall i s, foreign irq -> table_ok (handlers s) -> 0 <= i -> i + Z.of_nat n = 4 ->
  run_handlers handlers (call_handler primary secondary) n i (irq_to_vector irq) s = Ret (tt, s).
Proof.
  induction n as [|n IH]; intros i s Hf Ht Hi Hn; [done|]. cbn [run_handlers].
  destruct (to_other _ Ht irq i Hf) as (h & Hh & Hp & Hs); [lia|].
  assert (Hu : u32 (isr_slot (irq_to_vector irq) i) = isr_slot (irq_to_vector irq) i).
  { apply u32_small. destruct Hf as [Hr _].
    unfold isr_slot, irq_to_vector, MAX_HANDELERS_PER_INTURRUPT, IRQ_BASE_VECTOR, is_u32. lia. }
  rewrite (st_bind_Ret _ _ s (handlers s) s) by done.
  rewrite (st_bind_Ret _ _ s h s) by (unfold st_lift; by rewrite Hu, Hh).
  rewrite (st_bind_Ret _ _ s tt s); [apply IH; (done || lia)|].
  unfold when, call_handler. destruct (Z.eqb_spec h primary), (Z.eqb_spec h secondary); try done.
  by destruct (negb (h =? 0)).
Qed.

Lemma wp_interrupt_foreign irq s Q : foreign irq -> table_ok (handlers s) ->
  (forall d, view d = view (hw s) -> Q tt (set_hw d s)) -> wp (interrupt primary secondary irq) s Q.
Proof.
  intros Hf Ht HQ. unfold interrupt, isr_common_handler. apply wp_bind. unfold wp at 1.
  rewrite run_foreign by done. by apply wp_eoi.
Qed.

Lemma wp_interrupt_primary s Q : table_ok (handlers s) ->
  (forall d, in_phase (view (hw s)) (view d) (d_phase (view (hw s))) -> Q tt (set_fired 1 (set_hw d s))) ->
  wp (interrupt primary secondary ATA_IRQ_PRIMARY) s Q.
Proof.
  intros Ht HQ. unfold interrupt, isr_common_handler. apply wp_bind.
  change (irq_to_vector ATA_IRQ_PRIMARY) with 46. change (Z.to_nat MAX_HANDELERS_PER_INTURRUPT) with 4%nat.
  set (d1 := (p_inb ATA_STATUS_PORT (hw s)).2).
  assert (E : run_handlers handlers (call_handler primary secondary) 4 0 46 s = Ret (tt, set_fired 1 (set_hw d1 s))).
  { change (run_handlers handlers (call_handler primary secondary) 4 0 46) with
      (t ← st_gets handlers; h ← st_lift (of_option (znth t (u32 (isr_slot 46 0))));
       when (negb (h =? 0)) (call_handler primary secondary h);;
       run_handlers handlers (call_handler primary secondary) 3 1 46).
    rewrite (st_bind_Ret _ _ s (handlers s) s) by done.
    rewrite (st_bind_Ret _ _ s primary s) by (unfold st_lift; change (u32 (isr_slot 46 0)) with (isr_slot 46 0);
      by rewrite (to_primary _ Ht)).
    rewrite (st_bind_Ret _ _ s tt (set_fired 1 (set_hw d1 s))).
    - apply run_empty_slots; [lia|lia|lia|apply (to_upper _ Ht)].
    - destruct (Z.eqb_spec primary 0); [done|]. unfold when, negb, call_handler. rewrite Z.eqb_refl.
      unfold ata_primary_irq_handler. unfold d1. unfold mbind, ST_bind, on_hw, inb.
      by destruct (p_inb ATA_STATUS_PORT (hw s)). }
  unfold wp at 1. rewrite E. apply wp_eoi. intros d Hd. cbn [hw set_hw set_fired] in Hd.
  destruct (v_status (hw s)) as [Hp _]. fold d1 in Hp. apply HQ. by rewrite Hd.
Qed.

(** A step at an instruction boundary: time passes, or the drive's request comes
    and sets the flag. *)
Lemma wp_boundary t p rg dt sz s Q : at_phase t p rg dt sz s -> table_ok t ->
  (forall s', at_phase t p rg dt sz s' -> ata_irq_fired s' = ata_irq_fired s ->
     (d_delay (view (hw s')) <= d_delay (view (hw s)))%nat ->
     (d_lag (view (hw s')) <= d_lag (view (hw s)))%nat -> Q tt s') ->
  (forall s' p', after_irq p = Some p' -> at_phase t p' rg dt sz s' -> ata_irq_fired s' = 1 -> Q tt s') ->
  wp (boundary primary secondary) s Q.
Proof.
  intros Hat Ht H1 H2. unfold wp, boundary. pose proof (v_irq (hw s)) as Hi. cbv zeta in Hi.
  destruct (v_irq_delay (hw s)) as [Hdl Hlg].
  destruct (p_irq (hw s)) as [[irq|] d]; cbn [fst snd] in *; rewrite (ap_phase _ _ _ _ _ _ Hat) in Hi.
  - assert (Htd : table_ok (handlers (set_hw d s))) by (cbn [handlers set_hw]; by rewrite (ap_table _ _ _ _ _ _ Hat)).
    destruct Hi as [[Hf Hp]|(-> & p' & Ha & Hp)].
    + apply wp_interrupt_foreign; [done|done|]. intros d' Hv. cbn [hw set_hw] in Hv.
      apply H1; cbn [hw set_hw]; [|done|by rewrite Hv|by rewrite Hv].
      eapply at_in_phase; [exact Hat|done|]. cbn [hw set_hw]. by rewrite Hv.
    + apply wp_interrupt_primary; [done|]. intros d' Hp'. cbn [hw set_hw] in Hp'.
      apply (H2 _ p'); [done| |done].
      assert (Hat1 : at_phase t p' rg dt sz (set_hw d s)) by (by eapply at_in_phase).
      eapply at_in_phase; [exact Hat1|done|]. cbn [hw set_hw set_fired].
      by rewrite <- (ap_phase _ _ _ _ _ _ Hat1).
  - apply H1; [|done|done|done]. by eapply at_in_phase.
Qed.

(** In a phase in which the drive makes no request. *)
Lemma wp_boundary_quiet t p rg dt sz s Q : at_phase t p rg dt sz s -> table_ok t -> after_irq p = None ->
  (forall s', at_phase t p rg dt sz s' -> ata_irq_fired s' = ata_irq_fired s ->
     (d_delay (view (hw s')) <= d_delay (view (hw s)))%nat -> Q tt s') ->
  wp (boundary primary secondary) s Q.
Proof.
  intros Hat Ht Hn HQ. eapply wp_boundary; [exact Hat|exact Ht|by auto|]. intros s' p' Hp. congruence.
Qed.

(** *** Accesses in the ready phase *)
Lemma wp_out_reg t rg dt sz s port v Q : at_phase t Ready rg dt sz s -> table_ok t -> is_register port = true ->
  (forall s', at_phase t Ready (fun q => if q =? port then u8 v else rg q) dt sz s' ->
     ata_irq_fired s' = ata_irq_fired s -> Q tt s') ->
  wp (out_b primary secondary port v) s Q.
Proof.
  intros Hat Ht Hr HQ. apply wp_bind. unfold wp at 1, on_hw, outb.
  destruct (v_out_reg port (u8 v) (hw s)) as (H1 & H2 & H3 & H4);
    [apply Hat|done|apply u8_range|].
  destruct Hat as [A1 A2 A3 A4 A5].
  eapply (wp_boundary_quiet t Ready (fun q => if q =? port then u8 v else rg q) dt sz); [|done|done|].
  - split; cbn [hw set_hw]; [done|done| |by intros k; rewrite H2|by rewrite H3].
    intros q. rewrite H4. by destruct (q =? port).
  - intros s' Hs' Hf _. by apply HQ.
Qed.

Lemma wp_wait_ready n : forall t rg dt sz s Q, at_phase t Ready rg dt sz s -> table_ok t ->
  (d_delay (view (hw s)) < n)%nat ->
  (forall s', at_phase t Ready rg dt sz s' -> ata_irq_fired s' = ata_irq_fired s -> Q ATA_ERROR_NONE s') ->
  wp (wait_ready_loop primary secondary n) s Q.
Proof.
  induction n as [|n IH]; intros t rg dt sz s Q Hat Ht Hd HQ; cbn [wait_ready_loop]; [lia|].
  apply wp_bind, wp_bind. unfold wp at 1, on_hw, inb.
  destruct (v_status (hw s)) as [Hp Hst]. destruct (p_inb ATA_STATUS_PORT (hw s)) as [v d]. cbn [fst snd] in *.
  rewrite (ap_phase _ _ _ _ _ _ Hat) in Hp, Hst. destruct Hst as [He Hst].
  assert (Hat1 : at_phase t Ready rg dt sz (set_hw d s)) by (by eapply at_in_phase).
  apply wp_bind. eapply wp_boundary_quiet; [exact Hat1|done|done|]. intros s' Hs' Hf Hdl.
  apply wp_ret. rewrite He. cbn [negb Z.eqb].
  destruct (Nat.eqb_spec (d_delay (view (hw s))) 0) as [E|E].
  - destruct Hst as [-> Hr]. rewrite (proj2 (Z.eqb_neq _ 0) Hr). by apply wp_ret, HQ.
  - destruct Hst as [Hb Hlt]. rewrite (proj2 (Z.eqb_neq _ 0) Hb). cbn [andb].
    cbn [hw set_hw] in Hdl. apply (IH t rg dt sz); [done|done|lia|]. intros s2 Hs2 Hf2. apply HQ; [done|].
    by rewrite Hf2, Hf.
Qed.

Lemma wp_poll_drq n : forall t lba m ws rg dt sz s Q, at_phase t (WriteData lba m ws) rg dt sz s -> table_ok t ->
  (d_delay (view (hw s)) < n)%nat ->
  (forall s', at_phase t (WriteData lba m ws) rg dt sz s' -> Q ATA_ERROR_NONE s') ->
  wp (poll_drq_loop primary secondary n) s Q.
Proof.
  induction n as [|n IH]; intros t lba m ws rg dt sz s Q Hat Ht Hd HQ; cbn [poll_drq_loop]; [lia|].
  apply wp_bind, wp_bind. unfold wp at 1, on_hw, inb.
  destruct (v_status (hw s)) as [Hp Hst]. destruct (p_inb ATA_STATUS_PORT (hw s)) as [v d]. cbn [fst snd] in *.
  rewrite (ap_phase _ _ _ _ _ _ Hat) in Hp, Hst. destruct Hst as [He Hst].
  assert (Hat1 : at_phase t (WriteData lba m ws) rg dt sz (set_hw d s)) by (by eapply at_in_phase).
  apply wp_bind. eapply wp_boundary_quiet; [exact Hat1|done|done|]. intros s' Hs' Hf Hdl.
  apply wp_ret. rewrite He. cbn [negb Z.eqb].
  destruct (Nat.eqb_spec (d_delay (view (hw s))) 0) as [E|E].
  - rewrite (proj2 (Z.eqb_neq _ 0) Hst). by apply wp_ret, HQ.
  - destruct Hst as [-> Hlt]. cbn [negb Z.eqb]. cbn [hw set_hw] in Hdl.
    eapply IH; [exact Hs'|done|lia|done].
Qed.

Lemma wp_select t rg dt sz s Q : at_phase t Ready rg dt sz s -> table_ok t ->
  (forall s' rg', at_phase t Ready rg' dt sz s' -> Q tt s') ->
  wp (ata_select_drive primary secondary 0) s Q.
Proof.
  intros Hat Ht HQ. apply wp_bind. eapply wp_out_reg; [exact Hat|done|done|]. intros s1 H1 _.
  apply wp_bind. unfold wp at 1, on_hw, io_wait, outb.
  eapply (wp_boundary_quiet t Ready); [|exact Ht|done|].
  - eapply at_same_view; [exact H1|done|]. cbn [hw set_hw]. by apply v_out_other.
  - intros s2 H2 _ _. by eapply HQ.
Qed.

Lemma wp_ready t rg dt sz s Q : at_phase t Ready rg dt sz s -> table_ok t ->
  (forall s', at_phase t Ready rg dt sz s' -> Q ATA_ERROR_NONE s') ->
  wp (ata_wait_ready primary secondary 1000) s Q.
Proof.
  intros Hat Ht HQ. unfold ata_wait_ready. change (s32 (1000 * 1000)) with 1000000.
  eapply wp_wait_ready; [exact Hat|done| |]; [|by auto].
  pose proof (v_delay (hw s)). lia.
Qed.

(** The task file after [ata_setup_lba]. *)
Definition addressed (rg : Z -> Z) (lba count : Z) : Prop :=
  rg ATA_SECTOR_COUNT = count /\ rg ATA_DRIVE_SELECT / 16 = 0xE /\
  rg ATA_LBA_LOW + 256 * rg ATA_LBA_MID + 65536 * rg ATA_LBA_HIGH + 16777216 * (rg ATA_DRIVE_SELECT mod 16) = lba.

Lemma wp_setup_lba t rg dt sz s lba count Q : at_phase t Ready rg dt sz s -> table_ok t ->
  0 <= lba < 268435456 -> is_u8 count ->
  (forall s' rg', at_phase t Ready rg' dt sz s' -> addressed rg' lba count -> Q tt s') ->
  wp (ata_setup_lba primary secondary lba count) s Q.
Proof.
  intros Hat Ht Hl Hc HQ. unfold ata_setup_lba.
  apply wp_bind. eapply wp_out_reg; [exact Hat|done|done|]. intros s1 H1 _.
  apply wp_bind. eapply wp_out_reg; [exact H1|done|done|]. intros s2 H2 _.
  apply wp_bind. eapply wp_out_reg; [exact H2|done|done|]. intros s3 H3 _.
  apply wp_bind. eapply wp_out_reg; [exact H3|done|done|]. intros s4 H4 _.
  eapply wp_out_reg; [exact H4|done|done|]. intros s5 H5 _. eapply HQ; [exact H5|].
  unfold addressed. cbn [Z.eqb ATA_SECTOR_COUNT ATA_DRIVE_SELECT ATA_LBA_LOW ATA_LBA_MID ATA_LBA_HIGH Pos.eqb].
  change 255 with (Z.ones 8). change 15 with (Z.ones 4). rewrite !land_mask, !Z.shiftr_div_pow2 by lia.
  change (2 ^ 8) with 256. change (2 ^ 16) with 65536. change (2 ^ 24) with 16777216. change (2 ^ 4) with 16.
  rewrite Z.lor_comm. change 224 with (Z.shiftl 14 4). rewrite (lor_low_high 4) by (change (2 ^ 4) with 16; zlia).
  change (2 ^ 4) with 16. rewrite (u8_small count) by done. unfold u8. split; [done|]. split; zlia.
Qed.

(** *** Waiting for the drive *)

(** The request of phase [p] is outstanding, or was taken and the flag is set. *)
Definition pending t p rg dt sz s : Prop :=
  exists p', after_irq p = Some p' /\ after_irq p' = None /\
    (ata_irq_fired s = 0 /\ at_phase t p rg dt sz s \/ ata_irq_fired s = 1 /\ at_phase t p' rg dt sz s).

(** An instruction boundary with the flag cleared leaves a request pending. *)
Lemma wp_boundary_pending t p p' rg dt sz s Q : at_phase t p rg dt sz s -> table_ok t ->
  after_irq p = Some p' -> ata_irq_fired s = 0 ->
  (forall s', pending t p rg dt sz s' -> Q tt s') -> wp (boundary primary secondary) s Q.
Proof.
  intros Hat Ht Ha Hf HQ. pose proof (after_irq_quiet p p' Ha) as H1.
  eapply wp_boundary; [exact Hat|done|..].
  - intros s' Hs' Hf' _ _. apply HQ. exists p'. split_and!; try done. left. by rewrite Hf'.
  - intros s' p2 Hp2 Hs' Hf'. rewrite Ha in Hp2. injection Hp2 as <-. apply HQ. exists p'.
    split_and!; try done. by right.
Qed.

Lemma wp_hlt t p rg dt sz s Q : at_phase t p rg dt sz s -> table_ok t ->
  (forall s', at_phase t p rg dt sz s' -> ata_irq_fired s' = ata_irq_fired s ->
     (is_Some (after_irq p) -> (d_lag (view (hw s')) < d_lag (view (hw s)))%nat) -> Q tt s') ->
  (forall s' p', after_irq p = Some p' -> at_phase t p' rg dt sz s' -> ata_irq_fired s' = 1 -> Q tt s') ->
  wp (hlt primary secondary) s Q.
Proof.
  intros Hat Ht H1 H2. unfold wp, hlt. destruct (v_hlt (hw s)) as (irq & d & -> & Hi).
  rewrite (ap_phase _ _ _ _ _ _ Hat) in Hi.
  assert (Htd : table_ok (handlers (set_hw d s))) by (cbn [handlers set_hw]; by rewrite (ap_table _ _ _ _ _ _ Hat)).
  destruct Hi as [(Hf & Hp & Hlag)|(-> & p' & Ha & Hp)].
  - apply wp_interrupt_foreign; [done|done|]. intros d' Hv. cbn [hw set_hw] in Hv.
    apply H1; cbn [hw set_hw]; [|done|by rewrite Hv].
    eapply at_in_phase; [exact Hat|done|]. cbn [hw set_hw]. by rewrite Hv.
  - apply wp_interrupt_primary; [done|]. intros d' Hp'. cbn [hw set_hw] in Hp'.
    apply (H2 _ p'); [done| |done].
    assert (Hat1 : at_phase t p' rg dt sz (set_hw d s)) by (by eapply at_in_phase).
    eapply at_in_phase; [exact Hat1|done|]. cbn [hw set_hw set_fired].
    by rewrite <- (ap_phase _ _ _ _ _ _ Hat1).
Qed.

Lemma wp_wait_fired n s Q : (0 < n)%nat -> ata_irq_fired s = 1 -> Q tt s ->
  wp (wait_irq_loop primary secondary n) s Q.
Proof. intros Hn Hf HQ. destruct n; [lia|]. cbn [wait_irq_loop]. apply wp_bind, wp_gets. by rewrite Hf. Qed.

Lemma wp_wait_loop n : forall t p p' rg dt sz s Q, at_phase t p rg dt sz s -> table_ok t ->
  after_irq p = Some p' -> ata_irq_fired s = 0 -> (S (d_lag (view (hw s))) < n)%nat ->
  (forall s', at_phase t p' rg dt sz s' -> Q tt s') ->
  wp (wait_irq_loop primary secondary n) s Q.
Proof.
  induction n as [|n IH]; intros t p p' rg dt sz s Q Hat Ht Ha Hf Hn HQ; [lia|]. cbn [wait_irq_loop].
  pose proof (after_irq_quiet p p' Ha) as Hp'.
  apply wp_bind, wp_gets. rewrite Hf. cbn [negb Z.eqb].
  apply wp_bind. eapply wp_boundary; [exact Hat|done|..].
  - intros s1 H1 Hf1 _ Hlag. apply wp_bind. eapply wp_hlt; [exact H1|done|..].
    + intros s2 H2 Hf2 Hl2. specialize (Hl2 (ex_intro _ p' Ha)).
      eapply IH; [exact H2|done|done|congruence|lia|done].
    + intros s2 p2 Hp2 H2 Hf2. rewrite Ha in Hp2. injection Hp2 as <-. apply wp_wait_fired; [lia|done|auto].
  - intros s1 p2 Hp2 H1 Hf1. rewrite Ha in Hp2. injection Hp2 as <-. apply wp_bind.
    eapply wp_hlt; [exact H1|done|..].
    + intros s2 H2 Hf2 _. apply wp_wait_fired; [lia|congruence|auto].
    + intros s2 p2 Hp2. congruence.
Qed.

Hypothesis Hfuel : (patience < fuel)%nat.

Lemma wp_wait_irq t p p' rg dt sz s Q : pending t p rg dt sz s -> table_ok t -> after_irq p = Some p' ->
  (forall s', at_phase t p' rg dt sz s' -> Q tt s') -> wp (ata_wait_irq primary secondary fuel) s Q.
Proof.
  intros (p2 & Ha & _ & Hc) Ht Ha' HQ. rewrite Ha in Ha'. injection Ha' as ->.
  destruct Hc as [[Hf Hat]|[Hf Hat]].
  - eapply wp_wait_loop; [exact Hat|done|done|done| |done]. pose proof (v_lag (hw s)). lia.
  - apply wp_wait_fired; [lia|done|auto].
Qed.

(** *** Reading *)

(** The phase after the last word of a sector. *)
Definition next_read (lba n : Z) : phase := if n =? 1 then Ready else ReadWait (lba + 1) (n - 1).

(** After the last word the next sector is awaited, or its request has already
    been taken. *)
Definition sector_read t lba n rg dt sz s : Prop :=
  at_phase t (next_read lba n) rg dt sz s \/ n <> 1 /\ at_phase t (ReadData (lba + 1) (n - 1) 0) rg dt sz s.

Lemma wp_read_words m : forall t lba n k rg dt sz s Q, at_phase t (ReadData lba n k) rg dt sz s -> table_ok t ->
  0 <= k -> k + Z.of_nat m = 256 -> (0 < m)%nat -> length (dt lba) = 256%nat ->
  (forall s', sector_read t lba n rg dt sz s' -> Q (drop (Z.to_nat k) (dt lba)) s') ->
  wp (read_words primary secondary m) s Q.
Proof.
  induction m as [|m IH]; intros t lba n k rg dt sz s Q Hat Ht Hk Hm Hm0 Hlen HQ; [lia|]. cbn [read_words].
  apply wp_bind, wp_bind. unfold wp at 1, on_hw, inw.
  destruct (v_inw (hw s) lba n k) as [Hw Hp]; [apply Hat|lia|].
  destruct (p_inw ATA_DATA_PORT (hw s)) as [w d]. cbn [fst snd] in *.
  rewrite (ap_data _ _ _ _ _ _ Hat) in Hw. apply znth_inv in Hw as [_ Hw].
  assert (Hat1 := at_in_phase _ _ _ _ _ _ (set_hw d s) _ Hat eq_refl Hp).
  rewrite (drop_S _ w _ Hw) in HQ. replace (S (Z.to_nat k)) with (Z.to_nat (k + 1)) in HQ by lia.
  apply wp_bind. destruct (Z.ltb_spec (k + 1) 256) as [Hlt|Hge].
  - eapply wp_boundary_quiet; [exact Hat1|done|done|]. intros s1 H1 _ _. apply wp_ret, wp_bind.
    eapply (IH t lba n (k + 1)); [exact H1|done|lia|lia|lia|done|]. intros s2 H2. apply wp_ret. by apply HQ.
  - assert (m = 0%nat) as -> by lia.
    assert (Hfin : forall s1, sector_read t lba n rg dt sz s1 -> wp (mret w) s1 (fun w s' => wp (ws ← read_words primary secondary 0; mret (w :: ws)) s' Q)).
    { intros s1 H1. apply wp_ret. cbn [read_words]. apply wp_bind, wp_ret, wp_ret. rewrite (drop_ge (dt lba)) in HQ by lia. by apply HQ. }
    eapply wp_boundary; [exact Hat1|done|..].
    + intros s1 H1 _ _ _. apply Hfin. by left.
    + intros s1 p' Hp' H1 _. apply Hfin. right. destruct (Z.eqb_spec n 1); [done|]. split; [done|]. by injection Hp' as <-.
Qed.

Lemma wp_prepare_quiet t p rg dt sz s Q : at_phase t p rg dt sz s -> table_ok t ->
  after_irq p = None ->
  (forall s', at_phase t p rg dt sz s' -> ata_irq_fired s' = 0 -> Q tt s') ->
  wp (ata_prepare_irq primary secondary) s Q.
Proof.
  intros Hat Ht Ha HQ. apply wp_bind, wp_modify.
  eapply (wp_boundary_quiet t p); [by eapply at_same_view|done|done|]. intros s' H1 Hf _. by apply HQ.
Qed.

(** The drive's request for the next sector, taken while the flag is still set from
    the last one, is forgotten when the flag is cleared: from then on only other
    devices wake the CPU. *)
Lemma wait_stuck n : forall t lba m k rg dt sz s, at_phase t (ReadData lba m k) rg dt sz s -> table_ok t ->
  ata_irq_fired s = 0 -> wait_irq_loop primary secondary n s = Diverge.
Proof.
  induction n as [|n IH]; intros t lba m k rg dt sz s Hat Ht Hf; [done|]. cbn [wait_irq_loop].
  rewrite (st_bind_Ret _ _ s (ata_irq_fired s) s) by done. rewrite Hf. cbn [Z.eqb negb].
  assert (Hb : wp (boundary primary secondary) s (fun _ s' => at_phase t (ReadData lba m k) rg dt sz s' /\ ata_irq_fired s' = 0)).
  { eapply wp_boundary_quiet; [exact Hat|done|done|]. intros s' H1 H2 _. split; [done|congruence]. }
  apply wp_run in Hb as ([] & s1 & Hb & Hat1 & Hf1). rewrite (st_bind_Ret _ _ _ _ _ Hb).
  assert (Hh : wp (hlt primary secondary) s1 (fun _ s' => at_phase t (ReadData lba m k) rg dt sz s' /\ ata_irq_fired s' = 0)).
  { eapply wp_hlt; [exact Hat1|done| |done]. intros s' H1 H2 _. split; [done|congruence]. }
  apply wp_run in Hh as ([] & s2 & Hh & Hat2 & Hf2). rewrite (st_bind_Ret _ _ _ _ _ Hh). by eapply IH.
Qed.

(** Whether that happens to one of the [n] sectors the loop has yet to read: after a
    sector that is not the last, the drive is already transferring the next one. *)
Fixpoint misses (n : nat) s : bool :=
  match n with
  | S (S _ as n) =>
      match (ata_wait_irq primary secondary fuel;; ata_read_pio_data primary secondary) s with
      | Ret (_, s2) =>
          match d_phase (view (hw s2)) with
          | ReadData _ _ _ => true
          | _ => match ata_prepare_irq primary secondary s2 with Ret (_, s3) => misses n s3 | _ => false end
          end
      | _ => false
      end
  | _ => false
  end.

Lemma misses_SS n s : misses (S (S n)) s =
  match (ata_wait_irq primary secondary fuel;; ata_read_pio_data primary secondary) s with
  | Ret (_, s2) =>
      match d_phase (view (hw s2)) with
      | ReadData _ _ _ => true
      | _ => match ata_prepare_irq primary secondary s2 with Ret (_, s3) => misses (S n) s3 | _ => false end
      end
  | _ => false
  end.
Proof. done. Qed.

Lemma sector_run t lba n rg dt sz s : pending t (ReadWait lba n) rg dt sz s -> table_ok t -> length (dt lba) = 256%nat ->
  exists s1 s2, ata_wait_irq primary secondary fuel s = Ret (tt, s1) /\
    ata_read_pio_data primary secondary s1 = Ret (dt lba, s2) /\ sector_read t lba n rg dt sz s2.
Proof.
  intros Hp Ht Hlen.
  assert (Hw : wp (ata_wait_irq primary secondary fuel) s (fun _ => at_phase t (ReadData lba n 0) rg dt sz)).
  { eapply wp_wait_irq; [exact Hp|done|done|]. by intros s1. }
  apply wp_run in Hw as ([] & s1 & Hw & H1). exists s1.
  assert (Hr : wp (ata_read_pio_data primary secondary) s1 (fun ws s2 => ws = dt lba /\ sector_read t lba n rg dt sz s2)).
  { eapply wp_read_words; [exact H1|done|lia|done|unfold ATA_SECTOR_WORDS; lia|done|]. by intros s2. }
  apply wp_run in Hr as (ws & s2 & Hr & -> & H2). by exists s2.
Qed.

(** Clearing the flag before the next sector's request leaves it pending. *)
Lemma prepare_run t lba n rg dt sz s : at_phase t (ReadWait lba n) rg dt sz s -> table_ok t ->
  exists s', ata_prepare_irq primary secondary s = Ret (tt, s') /\ pending t (ReadWait lba n) rg dt sz s'.
Proof.
  intros Hat Ht. enough (H : wp (ata_prepare_irq primary secondary) s (fun _ => pending t (ReadWait lba n) rg dt sz)).
  { apply wp_run in H as ([] & s' & H & Hp). by exists s'. }
  apply wp_bind, wp_modify. eapply wp_boundary_pending; [by eapply at_same_view|done|done|done|]. by intros s'.
Qed.

Lemma read_chunk_missed m : forall t lba rg dt sz s,
  pending t (ReadWait lba (Z.of_nat m)) rg dt sz s -> table_ok t -> (0 < m)%nat ->
  (forall k, lba <= k < lba + Z.of_nat m -> length (dt k) = 256%nat) ->
  if misses m s then read_chunk primary secondary fuel m s = Diverge
  else exists s', read_chunk primary secondary fuel m s = Ret (sectors dt lba m, s') /\ at_phase t Ready rg dt sz s'.
Proof.
  induction m as [|m IH]; intros t lba rg dt sz s Hp Ht Hm Hlen; [lia|].
  destruct (sector_run t lba _ rg dt sz s Hp Ht) as (s1 & s2 & Hw & Hr & H2); [apply Hlen; lia|].
  cbn [read_chunk]. rewrite (st_bind_Ret _ _ _ _ _ Hw), (st_bind_Ret _ _ _ _ _ Hr), sectors_S.
  unfold sector_read, next_read in H2. destruct m as [|m].
  { exists s2. change (Z.of_nat 1 =? 1) with true in H2. destruct H2 as [H2|[? _]]; [|done].
    split; [|done]. cbn [read_chunk when]. by rewrite (st_bind_Ret _ _ s2 tt s2), (st_bind_Ret _ _ s2 [] s2). }
  rewrite misses_SS, (st_bind_Ret _ _ _ _ _ Hw), Hr. destruct (Z.eqb_spec (Z.of_nat (S (S m))) 1); [lia|].
  replace (Z.of_nat (S (S m)) - 1) with (Z.of_nat (S m)) in H2 by lia.
  change (0 <? Z.of_nat (S m)) with true. cbn [when]. destruct H2 as [H2|[_ H2]]; rewrite (ap_phase _ _ _ _ _ _ H2).
  - destruct (prepare_run t _ _ rg dt sz s2 H2 Ht) as (s3 & H3 & Hp3). rewrite H3, (st_bind_Ret _ _ _ _ _ H3).
    specialize (IH t (lba + 1) rg dt sz s3 Hp3 Ht ltac:(lia) ltac:(intros k Hk; apply Hlen; lia)).
    destruct (misses (S m) s3); [by apply st_bind_Diverge|]. destruct IH as (s4 & H4 & Hat4). exists s4.
    by rewrite (st_bind_Ret _ _ _ _ _ H4).
  - assert (H3 : wp (ata_prepare_irq primary secondary) s2 (fun _ s' =>
      at_phase t (ReadData (lba + 1) (Z.of_nat (S m)) 0) rg dt sz s' /\ ata_irq_fired s' = 0)).
    { eapply wp_prepare_quiet; [exact H2|done|done|]. by intros s'. }
    apply wp_run in H3 as ([] & s3 & H3 & Hat3 & Hf3). rewrite (st_bind_Ret _ _ _ _ _ H3).
    cbn [read_chunk]. apply st_bind_Diverge, st_bind_Diverge. by eapply wait_stuck.
Qed.

(** A READ SECTORS command with the task file loaded. *)
Lemma wp_read_command t rg dt sz s lba count Q : at_phase t Ready rg dt sz s -> table_ok t ->
  addressed rg lba count -> 1 <= count -> lba + count <= sz -> ata_irq_fired s = 0 ->
  (forall s', pending t (ReadWait lba count) rg dt sz s' -> Q tt s') ->
  wp (out_b primary secondary ATA_COMMAND_PORT ATA_CMD_READ_SECTORS) s Q.
Proof.
  intros Hat Ht (A1 & A2 & A3) Hc Hsz Hf HQ. apply wp_bind. unfold wp at 1, on_hw, outb.
  change (u8 ATA_CMD_READ_SECTORS) with ATA_CMD_READ_SECTORS.
  assert (Hl : reg_lba (view (hw s)) = lba /\ d_regs (view (hw s)) ATA_SECTOR_COUNT = count).
  { unfold reg_lba. rewrite !(ap_regs _ _ _ _ _ _ Hat). done. }
  destruct Hl as [Hl Hn]. pose proof (v_read (hw s) (ap_phase _ _ _ _ _ _ Hat)) as Hr.
  rewrite Hl, Hn in Hr. eapply wp_boundary_pending; [eapply at_in_phase; [exact Hat|done|apply Hr]|done|done|done|exact HQ].
  unfold transfer_ok. rewrite Hl, !(ap_regs _ _ _ _ _ _ Hat), (ap_size _ _ _ _ _ _ Hat), A1. done.
Qed.

(** The sectors of the drive have 256 words. *)
Lemma sector_length t p rg dt sz s k : at_phase t p rg dt sz s -> 0 <= k < sz -> length (dt k) = 256%nat.
Proof.
  intros Hat Hk. rewrite <- (ap_data _ _ _ _ _ _ Hat). apply v_sector. by rewrite (ap_size _ _ _ _ _ _ Hat).
Qed.

(** The start of a command to read [chunk] sectors. *)
Definition issue_read (lba chunk : Z) : ST (ata D) Z :=
  ata_select_drive primary secondary 0;;
  r ← ata_wait_ready primary secondary 1000;
  if negb (r =? ATA_ERROR_NONE) then mret ATA_ERROR_TIMEOUT
  else
    ata_setup_lba primary secondary lba (u8 chunk);;
    ata_prepare_irq primary secondary;;
    out_b primary secondary ATA_COMMAND_PORT ATA_CMD_READ_SECTORS;;
    mret ATA_ERROR_NONE.

Lemma issue_read_run t rg dt sz s lba chunk : at_phase t Ready rg dt sz s -> table_ok t ->
  0 <= lba -> 1 <= chunk <= 255 -> lba + chunk <= sz -> sz <= 268435456 ->
  exists rg' s', pending t (ReadWait lba chunk) rg' dt sz s' /\ issue_read lba chunk s = Ret (ATA_ERROR_NONE, s').
Proof.
  intros Hat Ht Hl Hc Hsz Hmax.
  enough (H : wp (issue_read lba chunk) s (fun r s' => r = ATA_ERROR_NONE /\ exists rg', pending t (ReadWait lba chunk) rg' dt sz s')).
  { apply wp_run in H as (r & s' & H & -> & rg' & Hp). by exists rg', s'. }
  apply wp_bind. eapply wp_select; [exact Hat|done|]. intros s1 rg1 H1.
  apply wp_bind. eapply wp_ready; [exact H1|done|]. intros s2 H2.
  change (negb (ATA_ERROR_NONE =? ATA_ERROR_NONE)) with false. apply wp_bind.
  rewrite u8_small by (unfold is_u8; lia).
  eapply wp_setup_lba; [exact H2|done|lia|unfold is_u8; lia|]. intros s3 rg3 H3 Ha.
  apply wp_bind. eapply wp_prepare_quiet; [exact H3|done|done|]. intros s4 H4 Hf4.
  apply wp_bind. eapply wp_read_command; [exact H4|done|exact Ha|lia|lia|done|]. intros s5 H5.
  apply wp_ret. eauto.
Qed.

(** The loop over commands, by [issue_read]. *)
Lemma read_chunks_unfold k lba count buf s : count <> 0 ->
  let chunk := if ATA_MAX_SECTORS_PER_CMD <? count then ATA_MAX_SECTORS_PER_CMD else count in
  forall s', issue_read lba chunk s = Ret (ATA_ERROR_NONE, s') ->
  read_chunks primary secondary fuel (S k) lba count buf s =
    (ws ← read_chunk primary secondary fuel (Z.to_nat chunk);
     read_chunks primary secondary fuel k (lba +! chunk) (count -! chunk) (buf ++ ws)) s'.
Proof.
  intros Hc chunk s' H. cbn [read_chunks]. destruct (Z.eqb_spec count 0); [done|]. fold chunk. unfold issue_read in H.
  apply st_bind_inv in H as ([] & s1 & H1 & H). rewrite (st_bind_Ret _ _ _ _ _ H1).
  apply st_bind_inv in H as (r & s2 & H2 & H). rewrite (st_bind_Ret _ _ _ _ _ H2).
  destruct (negb (r =? ATA_ERROR_NONE)); [by injection H|].
  do 3 (apply st_bind_inv in H as ([] & ? & ?H & H); match goal with E : _ = Ret (tt, _) |- _ => rewrite (st_bind_Ret _ _ _ _ _ E); clear E end).
  by injection H as <-.
Qed.

(** Whether the request for a sector after the first of its command is missed. *)
Fixpoint misses_chunks (k : nat) (lba count : Z) s : bool :=
  match k with
  | O => false
  | S k =>
      if count =? 0 then false
      else
        let chunk := if ATA_MAX_SECTORS_PER_CMD <? count then ATA_MAX_SECTORS_PER_CMD else count in
        match issue_read lba chunk s with
        | Ret (_, s1) =>
            misses (Z.to_nat chunk) s1 ||
            match read_chunk primary secondary fuel (Z.to_nat chunk) s1 with
            | Ret (_, s2) => misses_chunks k (lba +! chunk) (count -! chunk) s2
            | _ => false
            end
        | _ => false
        end
  end.

Lemma read_chunks_missed k : forall t rg dt sz s lba count buf,
  at_phase t Ready rg dt sz s -> table_ok t -> 0 <= lba -> 0 <= count -> lba + count <= sz ->
  count < Z.of_nat k ->
  if misses_chunks k lba count s then read_chunks primary secondary fuel k lba count buf s = Diverge
  else exists s' rg', at_phase t Ready rg' dt sz s' /\
    read_chunks primary secondary fuel k lba count buf s = Ret ((ATA_ERROR_NONE, buf ++ sectors dt lba (Z.to_nat count)), s').
Proof.
  induction k as [|k IH]; intros t rg dt sz s lba count buf Hat Ht Hl Hc Hsz Hk; [lia|].
  cbn [misses_chunks]. destruct (Z.eqb_spec count 0) as [->|Hne].
  { exists s, rg. split; [done|]. cbn [read_chunks Z.eqb]. by rewrite app_nil_r. }
  pose proof (v_size (hw s)) as Hv. rewrite (ap_size _ _ _ _ _ _ Hat) in Hv.
  destruct (chunk_arith lba count sz) as (Hch & Hle & _ & El & Ec); [lia|lia|lia|lia|].
  pose proof (read_chunks_unfold k lba count buf s Hne) as Hun. cbv zeta in Hun |- *.
  set (chunk := if ATA_MAX_SECTORS_PER_CMD <? count then _ else _) in *. clearbody chunk.
  destruct (issue_read_run t rg dt sz s lba chunk Hat Ht) as (rg1 & s1 & Hp & Hi); [lia..|].
  rewrite (Hun s1 Hi), Hi, El, Ec. rewrite <- (Z2Nat.id chunk) in Hp by lia.
  pose proof (read_chunk_missed _ _ _ _ _ _ _ Hp Ht ltac:(lia)) as Hm.
  destruct (misses (Z.to_nat chunk) s1); cbn [orb].
  { apply st_bind_Diverge, Hm. intros j Hj. eapply sector_length; [exact Hat|lia]. }
  destruct Hm as (s2 & H2 & Hat2); [intros j Hj; eapply sector_length; [exact Hat|lia]|].
  rewrite (st_bind_Ret _ _ _ _ _ H2), H2.
  specialize (IH t rg1 dt sz s2 (lba + chunk) (count - chunk) (buf ++ sectors dt lba (Z.to_nat chunk)) Hat2 Ht).
  specialize (IH ltac:(lia) ltac:(lia) ltac:(lia) ltac:(lia)).
  destruct (misses_chunks k (lba + chunk) (count - chunk) s2); [done|]. destruct IH as (s' & rg' & Hat' & IH).
  exists s', rg'. split; [done|]. rewrite IH, <- app_assoc. do 3 f_equal.
  replace (Z.to_nat count) with (Z.to_nat chunk + Z.to_nat (count - chunk))%nat by lia.
  by rewrite sectors_app, Z2Nat.id by lia.
Qed.

(** *** Writing *)
Lemma wp_write_words ws : forall t lba n us rg dt sz s Q, at_phase t (WriteData lba n us) rg dt sz s -> table_ok t ->
  (length us + length ws)%nat = 256%nat -> ws <> [] -> Forall (fun w => 0 <= w < 65536) us -> Forall (fun w => 0 <= w < 65536) ws ->
  ata_irq_fired s = 0 ->
  (forall s', pending t (WriteWait (lba + 1) (n - 1)) rg (fun k => if k =? lba then us ++ ws else dt k) sz s' -> Q tt s') ->
  wp (write_words primary secondary ws) s Q.
Proof.
  induction ws as [|w ws IH]; intros t lba n us rg dt sz s Q Hat Ht Hl Hne Hu Hw Hf HQ; [done|]. cbn [write_words].
  apply Forall_cons_1 in Hw as [Hw Hws]. apply wp_bind, wp_bind. unfold wp at 1, on_hw, outw.
  replace (u16 w) with w by (unfold u16; symmetry; apply Z.mod_small; lia).
  cbn [length] in Hl.
  pose proof (v_outw (hw s) lba n us w (ap_phase _ _ _ _ _ _ Hat) Hw ltac:(lia) Hu) as Ho. cbv zeta in Ho.
  destruct (Z.ltb_spec (Z.of_nat (length us) + 1) 256) as [Hlt|Hge].
  - eapply wp_boundary_quiet; [eapply at_in_phase; [exact Hat|done|exact Ho]|done|done|]. intros s1 H1 Hf1 _.
    eapply (IH t lba n (us ++ [w])); [exact H1|done|rewrite length_app; cbn; lia| |
      by apply Forall_app_2; [|constructor]|done|by rewrite Hf1|].
    { intros ->. cbn in Hl. lia. }
    intros s2 H2. apply HQ. by rewrite <- app_assoc in H2.
  - destruct ws; [|cbn in Hl; lia]. destruct Ho as (O1 & O2 & O3 & O4). destruct Hat as [A1 A2 A3 A4 A5].
    eapply (wp_boundary_pending t (WriteWait (lba + 1) (n - 1)) _ rg
      (fun k => if k =? lba then us ++ [w] else dt k) sz); [|done|done|done|].
    + split; cbn [hw set_hw]; [done|done|by intros q; rewrite O2|..].
      * intros k. rewrite O4. case_bool; [done|apply A4].
      * by rewrite O3.
    + intros s1 H1. apply wp_ret. by apply HQ.
Qed.

Lemma wp_write_chunk m : forall t lba rg dt sz s buf extra Q,
  at_phase t (if (m =? 0)%nat then Ready else WriteData lba (Z.of_nat m) []) rg dt sz s -> table_ok t ->
  words_ok (m + extra) buf ->
  (forall s', at_phase t Ready rg (store_sectors m lba buf dt) sz s' -> Q (drop (256 * m) buf) s') ->
  wp (write_chunk primary secondary fuel m buf) s Q.
Proof.
  induction m as [|m IH]; intros t lba rg dt sz s buf extra Q Hat Ht Hb HQ; cbn [write_chunk].
  { apply wp_ret, HQ. exact Hat. }
  cbn [Nat.eqb] in Hat. pose proof Hb as [Hl Hw].
  apply wp_bind. eapply wp_prepare_quiet; [exact Hat|done|done|]. intros s1 H1 Hf1.
  apply wp_bind, wp_bind, (wp_lift_some _ (take 256 buf)).
  { unfold slice, ATA_SECTOR_WORDS. case_bool; [done|lia]. }
  eapply wp_write_words; [exact H1|done|rewrite length_take; cbn [length]; lia| |done|by apply Forall_take|done|].
  { intros E. apply (f_equal length) in E. rewrite length_take in E. cbn [length] in E. lia. }
  intros s2 H2. apply wp_bind. eapply wp_wait_irq; [exact H2|done|done|]. intros s3 H3.
  change (Z.to_nat ATA_SECTOR_WORDS) with 256%nat.
  eapply (IH t (lba + 1) rg (fun k => if k =? lba then take 256 buf else dt k) sz s3 (drop 256 buf) extra); [|done|apply (words_ok_drop 1); exact Hb|].
  - replace (Z.of_nat (S m) - 1) with (Z.of_nat m) in H3 by lia.
    destruct (Nat.eqb_spec m 0) as [E|E], (Z.eqb_spec (Z.of_nat m) 0); [exact H3|lia|lia|exact H3].
  - intros s4 H4. rewrite drop_drop. replace (256 + 256 * m)%nat with (256 * S m)%nat by lia. by apply HQ.
Qed.

Lemma wp_write_command t rg dt sz s lba count Q : at_phase t Ready rg dt sz s -> table_ok t ->
  addressed rg lba count -> 1 <= count -> lba + count <= sz ->
  (forall s', at_phase t (WriteData lba count []) rg dt sz s' -> Q tt s') ->
  wp (out_b primary secondary ATA_COMMAND_PORT ATA_CMD_WRITE_SECTORS) s Q.
Proof.
  intros Hat Ht (A1 & A2 & A3) Hc Hsz HQ. apply wp_bind. unfold wp at 1, on_hw, outb.
  change (u8 ATA_CMD_WRITE_SECTORS) with ATA_CMD_WRITE_SECTORS.
  assert (Hl : reg_lba (view (hw s)) = lba /\ d_regs (view (hw s)) ATA_SECTOR_COUNT = count).
  { unfold reg_lba. rewrite !(ap_regs _ _ _ _ _ _ Hat). done. }
  destruct Hl as [Hl Hn]. pose proof (v_write (hw s) (ap_phase _ _ _ _ _ _ Hat)) as Hr.
  rewrite Hl, Hn in Hr. eapply wp_boundary_quiet;
    [eapply at_in_phase; [exact Hat|done|apply Hr]|done|done|by intros s' Hs' _ _; apply HQ].
  unfold transfer_ok. rewrite Hl, !(ap_regs _ _ _ _ _ _ Hat), (ap_size _ _ _ _ _ _ Hat), A1. done.
Qed.

Lemma wp_write_chunks k : forall t rg dt sz s lba count buf Q,
  at_phase t Ready rg dt sz s -> table_ok t -> 0 <= lba -> 0 <= count -> lba + count <= sz ->
  count < Z.of_nat k -> words_ok (Z.to_nat count) buf ->
  (forall s' rg', at_phase t Ready rg' (store_sectors (Z.to_nat count) lba buf dt) sz s' -> Q ATA_ERROR_NONE s') ->
  wp (write_chunks primary secondary fuel k lba count buf) s Q.
Proof.
  induction k as [|k IH]; intros t rg dt sz s lba count buf Q Hat Ht Hl Hc Hsz Hk Hb HQ; [lia|].
  cbn [write_chunks]. destruct (Z.eqb_spec count 0) as [->|Hne].
  { apply wp_ret. by eapply HQ. }
  pose proof (v_size (hw s)) as Hv. rewrite (ap_size _ _ _ _ _ _ Hat) in Hv.
  destruct (chunk_arith lba count sz) as (Hch & Hle & Eu & El & Ec); [lia|lia|lia|lia|].
  set (chunk := if ATA_MAX_SECTORS_PER_CMD <? count then _ else _) in *. clearbody chunk.
  apply wp_bind. eapply wp_select; [exact Hat|done|]. intros s1 rg1 H1.
  apply wp_bind. eapply wp_ready; [exact H1|done|]. intros s2 H2.
  change (negb (ATA_ERROR_NONE =? ATA_ERROR_NONE)) with false.
  apply wp_bind. rewrite Eu. eapply wp_setup_lba; [exact H2|done|lia|unfold is_u8; lia|]. intros s3 rg3 H3 Ha.
  apply wp_bind. eapply wp_write_command; [exact H3|done|exact Ha|lia|lia|]. intros s5 H5.
  apply wp_bind. eapply wp_poll_drq; [exact H5|done| |].
  { pose proof (v_delay (hw s5)). lia. }
  intros s6 H6. change (negb (ATA_ERROR_NONE =? ATA_ERROR_NONE)) with false.
  replace (Z.to_nat count) with (Z.to_nat chunk + Z.to_nat (count - chunk))%nat in Hb, HQ by lia.
  apply wp_bind. eapply (wp_write_chunk _ t lba rg3 dt sz s6 buf); [|done|exact Hb|].
  { destruct (Nat.eqb_spec (Z.to_nat chunk) 0); [lia|]. by rewrite Z2Nat.id by lia. }
  intros s7 H7. rewrite El, Ec.
  eapply IH; [exact H7|done|lia|lia|lia|lia|by apply words_ok_drop|]. intros s8 rg8 H8.
  eapply HQ. rewrite store_sectors_app, Z2Nat.id by lia. exact H8.
Qed.
End rules.

(** ** What a transfer stores *)
Lemma store_sectors_lookup n : forall lba buf dt k,
  store_sectors n lba buf dt k =
    if (lba <=? k) && (k <? lba + Z.of_nat n) then take 256 (drop (256 * Z.to_nat (k - lba)) buf) else dt k.
Proof.
  induction n as [|n IH]; intros lba buf dt k; cbn [store_sectors]; [by case_bool; [lia|]|].
  rewrite IH. destruct (Z.eqb_spec k lba) as [->|Hne].
  - rewrite Z.sub_diag. by repeat case_bool; try lia.
  - destruct ((lba + 1 <=? k) && (k <? lba + 1 + Z.of_nat n)) eqn:E.
    + rewrite drop_drop. case_bool; [|lia]. do 2 f_equal. lia.
    + by case_bool; [lia|].
Qed.

Lemma sectors_ext dt dt' lba n : (forall k, lba <= k < lba + Z.of_nat n -> dt k = dt' k) ->
  sectors dt lba n = sectors dt' lba n.
Proof.
  revert lba. induction n as [|n IH]; intros lba H; [done|]. rewrite !sectors_S.
  rewrite (H lba) by lia. f_equal. apply IH. intros k Hk. apply H. lia.
Qed.

Lemma sectors_store n : forall lba buf dt, words_ok n buf -> sectors (store_sectors n lba buf dt) lba n = buf.
Proof.
  induction n as [|n IH]; intros lba buf dt Hb.
  { destruct Hb as [Hl _]. by destruct buf. }
  rewrite sectors_S, store_sectors_lookup, Z.sub_diag. case_bool; [|lia].
  change (drop (256 * Z.to_nat 0) buf) with buf.
  rewrite (sectors_ext _ (store_sectors n (lba + 1) (drop 256 buf) dt)).
  - rewrite IH by (apply (words_ok_drop 1 n); exact Hb). apply take_drop.
  - intros k Hk. rewrite !store_sectors_lookup. repeat case_bool; try lia. rewrite drop_drop. do 2 f_equal. lia.
Qed.

Lemma sectors_words dt lba n : (forall k, lba <= k < lba + Z.of_nat n -> length (dt k) = 256%nat /\
    Forall (fun w => 0 <= w < 65536) (dt k)) -> words_ok n (sectors dt lba n).
Proof.
  revert lba. induction n as [|n IH]; intros lba H; [by split|]. rewrite sectors_S.
  destruct (H lba) as [Hl Hw]; [lia|]. destruct (IH (lba + 1)) as [IHl IHw]; [intros k Hk; apply H; lia|].
  split; [rewrite length_app; lia|by apply Forall_app_2].
Qed.

(** ** Words and bytes *)
Lemma bytes_words_cons a b bs : bytes_words (a :: b :: bs) = le_val [a; b] :: bytes_words bs.
Proof. done. Qed.

Lemma bytes_words_bytes ws : Forall (fun w => 0 <= w < 65536) ws -> bytes_words (words_bytes ws) = ws.
Proof.
  induction 1 as [|w ws Hw _ IH]; [done|]. change (words_bytes (w :: ws)) with (le_bytes 2 w ++ words_bytes ws).
  cbn [le_bytes app]. rewrite bytes_words_cons. f_equal; [|exact IH].
  change [w mod 256; w / 256 mod 256] with (le_bytes 2 w). apply le_val_bytes_small. cbn. lia.
Qed.

Lemma words_bytes_words n : forall bs, length bs = (2 * n)%nat -> Forall is_u8 bs ->
  words_bytes (bytes_words bs) = bs /\ length (bytes_words bs) = n /\
  Forall (fun w => 0 <= w < 65536) (bytes_words bs).
Proof.
  induction n as [|n IH]; intros bs Hl Hb; [by destruct bs|].
  destruct bs as [|a [|b bs]]; cbn in Hl; [lia|lia|].
  apply Forall_cons_1 in Hb as [Ha Hb]. apply Forall_cons_1 in Hb as [Hb Hbs].
  destruct (IH bs) as (I1 & I2 & I3); [lia|done|]. rewrite bytes_words_cons.
  pose proof (le_val_range [a; b]) as Hr. split_and!.
  - change (words_bytes (le_val [a; b] :: bytes_words bs)) with (le_bytes 2 (le_val [a; b]) ++ words_bytes (bytes_words bs)).
    rewrite I1. change 2%nat with (length [a; b]). by rewrite le_bytes_val by (repeat constructor; apply Ha || apply Hb).
  - cbn [length]. lia.
  - constructor; [|done]. change 65536 with (256 ^ Z.of_nat (length [a; b])). apply Hr.
    repeat constructor; apply Ha || apply Hb.
Qed.

Lemma words_bytes_length ws : length (words_bytes ws) = (2 * length ws)%nat.
Proof.
  induction ws as [|w ws IH]; [done|]. change (words_bytes (w :: ws)) with (le_bytes 2 w ++ words_bytes ws).
  rewrite length_app, length_le_bytes, IH. cbn [length]. lia.
Qed.

Lemma words_bytes_u8 ws : Forall is_u8 (words_bytes ws).
Proof.
  induction ws as [|w ws IH]; [constructor|]. change (words_bytes (w :: ws)) with (le_bytes 2 w ++ words_bytes ws).
  apply Forall_app_2; [apply le_bytes_range|exact IH].
Qed.

(** ** Theorems on transfers *)
Section theorems.
Context {D : Type} `{!Ports D} `{!Cpu D} `{!AtaDrive D}.
Context (primary secondary : Z) (fuel : nat).
Hypothesis Hprimary : primary <> 0.
Hypothesis Hfuel : (patience < fuel)%nat.
Implicit Types s : ata D.

(** The handlers are registered and no command is in progress. *)
Definition driver_ready s : Prop :=
  table_ok primary secondary (handlers s) /\ d_phase (view (hw s)) = Ready.

(** The words of sector [k] and the number of sectors. *)
Definition disk s (k : Z) : list Z := d_data (view (hw s)) k.
Definition disk_size s : Z := d_size (view (hw s)).

Lemma driver_at s : driver_ready s ->
  at_phase (handlers s) Ready (d_regs (view (hw s))) (disk s) (disk_size s) s.
Proof. intros [Ht Hp]. by split. Qed.

Lemma at_driver t rg dt sz s s' : at_phase t Ready rg dt sz s' -> table_ok primary secondary t ->
  driver_ready s' /\ (forall k, disk s' k = dt k) /\ disk_size s' = sz /\ handlers s' = t.
Proof. intros [H1 H2 H3 H4 H5] Ht. split; [split; [by rewrite H1|done]|]. done. Qed.

(** The request for one of the sectors of the range, other than the first of its
    command, is taken while the flag is still set. *)
Definition request_missed (lba count : Z) s : bool :=
  misses_chunks primary secondary fuel (S (Z.to_nat count)) lba count s.

(** A command for one sector has no such request. *)
Lemma request_missed_one lba s : request_missed lba 1 s = false.
Proof.
  unfold request_missed. cbn [misses_chunks Z.to_nat Pos.to_nat Pos.iter_op Z.eqb].
  destruct (issue_read primary secondary lba _ s) as [[r s1]| |]; [|done|done]. cbn [misses orb].
  by destruct (read_chunk primary secondary fuel _ s1) as [[ws s2]| |].
Qed.

(** The driver is ready again and the disk is as it was. *)
Definition kept s s' : Prop :=
  driver_ready s' /\ (forall k, disk s' k = disk s k) /\ disk_size s' = disk_size s /\ handlers s' = handlers s.

Lemma read_sectors_run s lba count : driver_ready s -> 0 <= lba -> 1 <= count -> lba + count <= disk_size s ->
  if request_missed lba count s then ata_read_sectors primary secondary fuel lba count s = Diverge
  else exists s', ata_read_sectors primary secondary fuel lba count s =
      Ret ((ATA_ERROR_NONE, sectors (disk s) lba (Z.to_nat count)), s') /\ kept s s'.
Proof.
  intros Hr Hl Hc Hsz. pose proof (driver_at s Hr) as Hat. destruct Hr as [Ht _].
  unfold ata_read_sectors, request_missed. destruct (Z.eqb_spec count 0); [lia|].
  pose proof (read_chunks_missed primary secondary fuel Hprimary Hfuel (S (Z.to_nat count)) _ _ _ _ s lba count []
    Hat Ht Hl ltac:(lia) Hsz ltac:(lia)) as H.
  destruct (misses_chunks _ _ _ _ _ _ _); [done|]. destruct H as (s' & rg' & Hat' & H). exists s'. split; [done|]. by eapply at_driver.
Qed.

Lemma read_sector_run s lba : driver_ready s -> 0 <= lba < disk_size s ->
  exists s', ata_read_sector primary secondary fuel lba s = Ret ((ATA_ERROR_NONE, disk s lba), s') /\ kept s s'.
Proof.
  intros Hr Hl. pose proof (read_sectors_run s lba 1 Hr ltac:(lia) ltac:(lia) ltac:(lia)) as H.
  rewrite request_missed_one in H. destruct H as (s' & H & Hk). exists s'. split; [|done].
  unfold ata_read_sector. rewrite H. change (Z.to_nat 1) with 1%nat. rewrite sectors_S. unfold sectors. cbn.
  by rewrite app_nil_r.
Qed.

Lemma write_sectors_run s lba count buf : driver_ready s -> 0 <= lba -> 1 <= count -> lba + count <= disk_size s ->
  words_ok (Z.to_nat count) buf ->
  exists s', ata_write_sectors primary secondary fuel lba count buf s = Ret (ATA_ERROR_NONE, s') /\
    driver_ready s' /\ (forall k, disk s' k = store_sectors (Z.to_nat count) lba buf (disk s) k) /\
    disk_size s' = disk_size s /\ handlers s' = handlers s.
Proof.
  intros Hr Hl Hc Hsz Hb. pose proof (driver_at s Hr) as Hat. destruct Hr as [Ht _].
  enough (Hwp : wp (ata_write_sectors primary secondary fuel lba count buf) s (fun r s' =>
    r = ATA_ERROR_NONE /\ driver_ready s' /\
    (forall k, disk s' k = store_sectors (Z.to_nat count) lba buf (disk s) k) /\ disk_size s' = disk_size s /\
    handlers s' = handlers s)).
  { apply wp_run in Hwp as (r & s' & H & -> & ?). by exists s'. }
  unfold ata_write_sectors. destruct (Z.eqb_spec count 0); [lia|].
  eapply wp_write_chunks; [done|done|exact Hat|done|lia|lia|done|lia|done|].
  intros s' rg' Hat'. split; [done|]. by eapply at_driver.
Qed.

(** (C21) Reading sectors: for any range of sectors inside the drive, in whatever
    pieces of at most 255 the command limit cuts it, and whatever interrupts come
    in between, [ata_read_sectors] returns success with the words of exactly those
    sectors in order, and leaves the disk as it was and the driver ready for the
    next request -- unless the drive's request for a sector after the first of its
    command is taken before the driver has cleared its flag for it: then, and only
    then, the call sleeps for ever.  A read of one sector always returns. *)
Theorem ata_read_sectors_correct s lba count :
  driver_ready s -> 0 <= lba -> 1 <= count -> lba + count <= disk_size s ->
  (if request_missed lba count s then ata_read_sectors primary secondary fuel lba count s = Diverge
   else exists s', ata_read_sectors primary secondary fuel lba count s =
      Ret ((ATA_ERROR_NONE, sectors (disk s) lba (Z.to_nat count)), s') /\
    driver_ready s' /\ (forall k, disk s' k = disk s k) /\ disk_size s' = disk_size s /\
    handlers s' = handlers s) /\
  (count = 1 -> request_missed lba count s = false).
Proof. intros Hr Hl Hc Hsz. split; [by apply read_sectors_run|]. intros ->. apply request_missed_one. Qed.

(** (C22) Writing sectors and reading them back: [ata_write_sectors] always
    returns, whatever interrupts come in between, and stores the buffer in exactly
    the sectors of its range.  Afterwards [ata_read_sector] of any of them returns
    its part of the buffer, and [ata_read_sectors] of the whole range returns the
    buffer, unless it misses a request and sleeps for ever. *)
Theorem ata_write_read_roundtrip s lba count buf :
  driver_ready s -> 0 <= lba -> 1 <= count -> lba + count <= disk_size s -> words_ok (Z.to_nat count) buf ->
  exists s1, ata_write_sectors primary secondary fuel lba count buf s = Ret (ATA_ERROR_NONE, s1) /\
    driver_ready s1 /\ (forall k, (k < lba \/ lba + count <= k) -> disk s1 k = disk s k) /\
    (forall k, 0 <= k < count -> exists s2, ata_read_sector primary secondary fuel (lba + k) s1 =
       Ret ((ATA_ERROR_NONE, take 256 (drop (256 * Z.to_nat k) buf)), s2)) /\
    (if request_missed lba count s1 then ata_read_sectors primary secondary fuel lba count s1 = Diverge
     else exists s2, ata_read_sectors primary secondary fuel lba count s1 = Ret ((ATA_ERROR_NONE, buf), s2)).
Proof.
  intros Hr Hl Hc Hsz Hb. destruct (write_sectors_run s lba count buf) as (s1 & H1 & Hr1 & Hd1 & Hz1 & _); try done.
  exists s1. split; [done|]. split; [done|]. split; [|split].
  - intros k Hk. rewrite Hd1, store_sectors_lookup. by case_bool; [lia|].
  - intros k Hk. destruct (read_sector_run s1 (lba + k)) as (s2 & H2 & _); [done|lia|]. exists s2. rewrite H2. do 3 f_equal.
    rewrite Hd1, store_sectors_lookup. case_bool; [|lia]. do 3 f_equal. lia.
  - pose proof (read_sectors_run s1 lba count Hr1 Hl Hc ltac:(lia)) as H2. destruct (request_missed lba count s1); [done|].
    destruct H2 as (s2 & H2 & _). exists s2. rewrite H2. do 3 f_equal.
    rewrite <- (sectors_store (Z.to_nat count) lba buf (disk s) Hb). apply sectors_ext. intros k Hk. apply Hd1.
Qed.
End theorems.

(** ** The drive as a block device

    The device of the file system: the driver's state and [block_size].  A
    transfer that never ended would have no counterpart in the interface; it is
    given as an error. *)
Record ata_dev (D : Type) := { ad_driver : ata D; ad_block_size : Z }.
Arguments ad_driver {D} _. Arguments ad_block_size {D} _.

Section device.
Context {D : Type} `{!Ports D} `{!Cpu D}.
Context (primary secondary : Z) (fuel : nat).
Implicit Types d : ata_dev D.

Definition finish_read d (r : outcome ((Z * list Z) * ata D)) : option (list Z) * ata_dev D :=
  match r with
  | Ret ((code, bytes), s) =>
      (if code =? ATA_ERROR_NONE then Some bytes else None, {| ad_driver := s; ad_block_size := ad_block_size d |})
  | _ => (None, d)
  end.
Definition ad_read (b : Z) d : option (list Z) * ata_dev D :=
  finish_read d (ata_blk_read_block primary secondary fuel (ad_block_size d) b (ad_driver d)).
Definition ad_read_blocks (b n : Z) d : option (list Z) * ata_dev D :=
  finish_read d (ata_blk_read_blocks primary secondary fuel (ad_block_size d) b n (ad_driver d)).
Definition ad_write (b : Z) (buf : list Z) d : bool * ata_dev D :=
  match ata_blk_write_block primary secondary fuel (ad_block_size d) b buf (ad_driver d) with
  | Ret (code, s) => (code =? ATA_ERROR_NONE, {| ad_driver := s; ad_block_size := ad_block_size d |})
  | _ => (false, d)
  end.

(** [ata_blk_ops] *)
#[export] Instance ata_device : BlockDevice (ata_dev D) := {
  bd_read := ad_read;
  bd_write := ad_write;
  bd_read_blocks := ad_read_blocks;
  bd_set_block_size n d := {| ad_driver := ad_driver d; ad_block_size := n |}
}.
End device.

Section healthy.
Context {D : Type} `{!Ports D} `{!Cpu D} `{!AtaDrive D}.
Context (primary secondary : Z) (fuel : nat).
Implicit Types d : ata_dev D.

(** The handler table, checked. *)
Definition other_slot (t : list Z) (k : Z) : bool :=
  match znth t k with
  | Some h => negb (h =? primary) && negb (h =? secondary)
  | None => false
  end.
Definition foreign_irqs : list Z := [0; 1; 2; 3; 4; 5; 6; 7; 8; 9; 10; 11; 12; 13].
Definition table_okb (t : list Z) : bool :=
  (length t =? 1024)%nat && bool_decide (znth t 184 = Some primary) &&
  forallb (fun k => bool_decide (znth t k = Some 0)) [185; 186; 187] &&
  forallb (fun irq => forallb (fun i => other_slot t (isr_slot (irq_to_vector irq) i)) [0; 1; 2; 3]) foreign_irqs.

Lemma foreign_irqs_spec irq : foreign irq -> In irq foreign_irqs.
Proof. intros (Hr & H14 & H15). unfold ATA_IRQ_PRIMARY, ATA_IRQ_SECONDARY, foreign_irqs in *. cbn. lia. Qed.

Lemma table_okb_spec t : table_okb t = true -> table_ok primary secondary t.
Proof.
  unfold table_okb. rewrite !andb_true_iff, !forallb_forall. intros (((H1 & H2) & H3) & H4). split.
  - by apply Nat.eqb_eq.
  - by apply bool_decide_eq_true in H2.
  - intros i Hi. unfold isr_slot, MAX_HANDELERS_PER_INTURRUPT.
    assert (Hin : In (46 * 4 + i) [185; 186; 187]) by (cbn; lia).
    specialize (H3 _ Hin). by apply bool_decide_eq_true in H3.
  - intros irq i Hf Hi. specialize (H4 irq (foreign_irqs_spec irq Hf)). rewrite forallb_forall in H4.
    assert (Hin : In i [0; 1; 2; 3]) by (cbn; lia). specialize (H4 i Hin). unfold other_slot in H4.
    destruct (znth t (isr_slot (irq_to_vector irq) i)) as [h|]; [|done]. exists h. split; [done|]. lia.
Qed.

Definition readyb (s : ata D) : bool :=
  table_okb (handlers s) && match d_phase (view (hw s)) with Ready => true | _ => false end.

Lemma readyb_spec s : readyb s = true -> driver_ready primary secondary s.
Proof.
  unfold readyb. rewrite andb_true_iff. intros [Ht Hp]. split; [by apply table_okb_spec|].
  by destruct (d_phase (view (hw s))).
Qed.

(** A usable block size is a power of two of sectors, at most eight. *)
Definition block_size_ok (bs : Z) : bool := existsb (Z.eqb bs) [512; 1024; 2048; 4096].
Definition spb d : Z := ad_block_size d / ATA_SECTOR_SIZE.

Lemma block_size_ok_spec d : block_size_ok (ad_block_size d) = true ->
  1 <= spb d <= 8 /\ ad_block_size d = 512 * spb d.
Proof.
  unfold block_size_ok, spb, ATA_SECTOR_SIZE. cbn. rewrite orb_false_r, !orb_true_iff, !Z.eqb_eq.
  intros [-> |[-> |[-> | ->]]]; done.
Qed.

Definition ad_ready d : bool := readyb (ad_driver d) && block_size_ok (ad_block_size d).
Definition ad_blocks d : Z := if ad_ready d then disk_size (ad_driver d) / spb d else 0.
Definition ad_block d (b : Z) : list Z :=
  words_bytes (sectors (disk (ad_driver d)) (b * spb d) (Z.to_nat (spb d))).

Lemma ad_block_range d b : 0 <= b < ad_blocks d ->
  ad_ready d = true /\ 1 <= spb d <= 8 /\ ad_block_size d = 512 * spb d /\
  0 <= b * spb d /\ b * spb d + spb d <= disk_size (ad_driver d) /\ disk_size (ad_driver d) <= 268435456.
Proof.
  unfold ad_blocks. destruct (ad_ready d) eqn:E; [|lia]. intros Hb. split; [done|].
  unfold ad_ready in E. apply andb_true_iff in E as [_ E].
  destruct (block_size_ok_spec d E) as [Hs He]. split; [done|]. split; [done|].
  pose proof (v_size (hw (ad_driver d))) as Hv. fold (disk_size (ad_driver d)) in Hv.
  assert (b + 1 <= disk_size (ad_driver d) / spb d) by lia.
  assert (spb d * (disk_size (ad_driver d) / spb d) <= disk_size (ad_driver d)) by (apply Z.mul_div_le; lia).
  split; [nia|]. split; [nia|lia].
Qed.

(** A driver state that keeps everything the device promises. *)
Lemma ad_kept d s' : ad_ready d = true -> driver_ready primary secondary s' ->
  handlers s' = handlers (ad_driver d) -> disk_size s' = disk_size (ad_driver d) ->
  let d' := {| ad_driver := s'; ad_block_size := ad_block_size d |} in
  ad_blocks d' = ad_blocks d /\ spb d' = spb d.
Proof.
  intros Hr [_ Hp] Hh Hz. cbv zeta. split; [|done]. unfold ad_blocks, spb. rewrite Hr. cbn [ad_driver ad_block_size].
  enough (ad_ready {| ad_driver := s'; ad_block_size := ad_block_size d |} = true) as -> by by rewrite Hz.
  unfold ad_ready in *. cbn [ad_driver ad_block_size]. apply andb_true_iff in Hr as [Hr ->]. rewrite andb_true_r.
  unfold readyb in *. rewrite Hh, Hp. by apply andb_true_iff in Hr as [-> _].
Qed.

Lemma ad_block_words d b : 0 <= b < ad_blocks d ->
  words_ok (Z.to_nat (spb d)) (sectors (disk (ad_driver d)) (b * spb d) (Z.to_nat (spb d))).
Proof.
  intros Hb. destruct (ad_block_range d b Hb) as (_ & Hs & _ & H0 & H1 & _). apply sectors_words.
  intros k Hk. apply v_sector. fold (disk_size (ad_driver d)). lia.
Qed.

Hypothesis Hprimary : primary <> 0.
Hypothesis Hfuel : (patience < fuel)%nat.

Lemma ad_driver_ready d b : 0 <= b < ad_blocks d -> driver_ready primary secondary (ad_driver d).
Proof.
  intros Hb. destruct (ad_block_range d b Hb) as (Hr & _). apply readyb_spec. unfold ad_ready in Hr.
  by apply andb_true_iff in Hr as [Hr _].
Qed.

(** A request is missed when block [b] is read. *)
Definition block_missed d (b : Z) : bool := request_missed primary secondary fuel (b * spb d) (spb d) (ad_driver d).

Lemma blk_read_run d b : 0 <= b < ad_blocks d ->
  if block_missed d b then ata_blk_read_block primary secondary fuel (ad_block_size d) b (ad_driver d) = Diverge
  else exists s', ata_blk_read_block primary secondary fuel (ad_block_size d) b (ad_driver d) =
      Ret ((ATA_ERROR_NONE, ad_block d b), s') /\
    let d' := {| ad_driver := s'; ad_block_size := ad_block_size d |} in
    ad_blocks d' = ad_blocks d /\ forall c, ad_block d' c = ad_block d c.
Proof.
  intros Hb. pose proof (ad_driver_ready d b Hb) as Hrd. destruct (ad_block_range d b Hb) as (Hr & Hs & He & H0 & H1 & Hmax).
  pose proof (read_sectors_run primary secondary fuel Hprimary Hfuel (ad_driver d) (b * spb d) (spb d) Hrd H0 ltac:(lia) H1) as H.
  unfold block_missed, ata_blk_read_block. fold (spb d). rewrite u32_small by (unfold is_u32; lia).
  destruct (request_missed _ _ _ _ _ _); [by apply st_bind_Diverge|]. destruct H as (s' & H & Hr' & Hd & Hz & Hh).
  exists s'. rewrite (st_bind_Ret _ _ (ad_driver d) _ s' H). split; [done|].
  destruct (ad_kept d s' Hr Hr' Hh Hz) as [Hk Hk']. split; [done|]. intros c. unfold ad_block. rewrite Hk'. f_equal.
  apply sectors_ext. intros k _. apply Hd.
Qed.

Lemma blk_write_run d b buf : 0 <= b < ad_blocks d -> Z.of_nat (length buf) = ad_block_size d -> Forall is_u8 buf ->
  exists s', ata_blk_write_block primary secondary fuel (ad_block_size d) b buf (ad_driver d) = Ret (ATA_ERROR_NONE, s') /\
    let d' := {| ad_driver := s'; ad_block_size := ad_block_size d |} in ad_blocks d' = ad_blocks d /\
    forall c, 0 <= c < ad_blocks d -> ad_block d' c = if c =? b then buf else ad_block d c.
Proof.
  intros Hb Hlen Hbytes. pose proof (ad_driver_ready d b Hb) as Hrd.
  destruct (ad_block_range d b Hb) as (Hr & Hs & He & H0 & H1 & Hmax).
  destruct (words_bytes_words (256 * Z.to_nat (spb d)) buf) as (Hwb & Hwl & Hww); [lia|done|].
  destruct (write_sectors_run primary secondary fuel Hprimary Hfuel (ad_driver d) (b * spb d) (spb d) (bytes_words buf))
    as (s' & H & Hr' & Hd & Hz & Hh); [done|done|lia|done|by split|].
  destruct (ad_kept d s' Hr Hr' Hh Hz) as [Hk Hk'].
  exists s'. split.
  - unfold ata_blk_write_block. fold (spb d). by rewrite u32_small by (unfold is_u32; lia).
  - split; [done|]. intros c Hc. unfold ad_block. rewrite Hk'. cbn [ad_driver].
    rewrite (sectors_ext _ _ _ _ (fun k _ => Hd k)). destruct (Z.eqb_spec c b) as [->|Hne].
    + rewrite sectors_store by done. exact Hwb.
    + f_equal. apply sectors_ext. intros k Hk2. rewrite store_sectors_lookup. case_bool; [|done].
      destruct (ad_block_range d c Hc) as (_ & _ & _ & Hc0 & _ & _).
      assert (c + 1 <= b \/ b + 1 <= c) as [|] by lia; nia.
Qed.

(** The drive discharges the interface of the file system for the block sizes at
    which no request can be missed. *)
Section usable.
Context (usable : Z -> bool).
Hypothesis Husable : forall d b, usable (ad_block_size d) = true -> block_missed d b = false.

Definition usable_blocks d : Z := if usable (ad_block_size d) then ad_blocks d else 0.

Lemma usable_range d b : 0 <= b < usable_blocks d -> usable (ad_block_size d) = true /\ 0 <= b < ad_blocks d.
Proof. unfold usable_blocks. destruct (usable (ad_block_size d)); [done|lia]. Qed.

Lemma usable_same d d' : ad_block_size d' = ad_block_size d -> ad_blocks d' = ad_blocks d -> usable_blocks d' = usable_blocks d.
Proof. unfold usable_blocks. by intros -> ->. Qed.

Lemma ad_read_ok d b : 0 <= b < usable_blocks d ->
  exists d', ad_read primary secondary fuel b d = (Some (ad_block d b), d') /\ usable_blocks d' = usable_blocks d /\
    ad_block_size d' = ad_block_size d /\ forall c, 0 <= c < usable_blocks d -> ad_block d' c = ad_block d c.
Proof.
  intros [Hu Hb]%usable_range. pose proof (blk_read_run d b Hb) as H. rewrite Husable in H by done.
  destruct H as (s' & H & Hn & Hc). unfold ad_read. rewrite H. eexists. split; [done|]. by split; [apply usable_same|].
Qed.

Lemma ad_write_ok d b buf : 0 <= b < usable_blocks d -> Z.of_nat (length buf) = ad_block_size d -> Forall is_u8 buf ->
  exists d', ad_write primary secondary fuel b buf d = (true, d') /\ usable_blocks d' = usable_blocks d /\
    ad_block_size d' = ad_block_size d /\
    forall c, 0 <= c < usable_blocks d -> ad_block d' c = if c =? b then buf else ad_block d c.
Proof.
  intros [Hu Hb]%usable_range Hl Hw. destruct (blk_write_run d b buf Hb Hl Hw) as (s' & H & Hn & Hc).
  unfold ad_write. rewrite H. eexists. split; [done|]. split; [by apply usable_same|]. split; [done|].
  intros c [_ Hcb]%usable_range. by apply Hc.
Qed.

Definition ata_healthy : @HealthyDevice (ata_dev D) (ata_device primary secondary fuel).
Proof.
  refine (@Build_HealthyDevice (ata_dev D) (ata_device primary secondary fuel)
            ad_block usable_blocks ad_block_size ad_read_ok _ _ ad_write_ok).
  - intros d b [_ Hb]%usable_range. destruct (ad_block_range d b Hb) as (_ & Hs & He & _). destruct (ad_block_words d b Hb) as [Hl _].
    unfold ad_block. rewrite words_bytes_length. lia.
  - intros d b Hb. apply words_bytes_u8.
Defined.
End usable.

(** Blocks of one sector, as [ata_create_block_device] sets them, are usable with
    every drive. *)
Lemma block_missed_sector d b : ad_block_size d = ATA_SECTOR_SIZE -> block_missed d b = false.
Proof. intros E. unfold block_missed, spb. rewrite E. change (ATA_SECTOR_SIZE / ATA_SECTOR_SIZE) with 1. apply request_missed_one. Qed.

Definition ata_sectors_healthy : @HealthyDevice (ata_dev D) (ata_device primary secondary fuel) :=
  ata_healthy (fun bs => bs =? ATA_SECTOR_SIZE) (fun d b H => block_missed_sector d b (proj1 (Z.eqb_eq _ _) H)).
End healthy.

(** ** A drive in memory, for the witnesses

    It makes its requests while the CPU sleeps, after one timer tick; with
    [quick] it makes them at the next instruction instead. *)
Record sim := {
  sm_phase : phase;
  sm_regs : Z -> Z;
  sm_data : Z -> list Z;
  sm_size : Z;
  sm_ticks : nat
}.

Definition good_sector (l : list Z) : bool :=
  (length l =? 256)%nat && forallb (fun w => (0 <=? w) && (w <? 65536)) l.
Definition norm_sector (l : list Z) : list Z := if good_sector l then l else replicate 256 0.
Definition sim_size (d : sim) : Z := if (0 <=? sm_size d) && (sm_size d <=? 268435456) then sm_size d else 0.
Definition sim_view (d : sim) : drive :=
  {| d_phase := sm_phase d; d_regs := sm_regs d; d_data := fun k => norm_sector (sm_data d k);
     d_size := sim_size d; d_delay := 0; d_lag := Nat.min (sm_ticks d) 1 |}.
Definition sim_in (p : phase) (ticks : nat) (d : sim) : sim :=
  {| sm_phase := p; sm_regs := sm_regs d; sm_data := sm_data d; sm_size := sm_size d; sm_ticks := ticks |}.

Definition sim_inb (port : Z) (d : sim) : Z * sim :=
  if port =? ATA_STATUS_PORT then
    (match sm_phase d with Ready => 0x50 | ReadData _ _ _ | WriteData _ _ _ => 0x58 | _ => 0x80 end, d)
  else (u8 (sm_regs d port), d).
Definition sim_outb (port v : Z) (d : sim) : sim :=
  match sm_phase d with
  | Ready =>
      if is_register port then
        {| sm_phase := Ready; sm_regs := fun q => if q =? port then v else sm_regs d q;
           sm_data := sm_data d; sm_size := sm_size d; sm_ticks := sm_ticks d |}
      else if port =? ATA_COMMAND_PORT then
        let a := sim_view d in
        if v =? ATA_CMD_READ_SECTORS then sim_in (ReadWait (reg_lba a) (d_regs a ATA_SECTOR_COUNT)) 1 d
        else if v =? ATA_CMD_WRITE_SECTORS then sim_in (WriteData (reg_lba a) (d_regs a ATA_SECTOR_COUNT) []) 1 d
        else d
      else d
  | _ => d
  end.
Definition sim_inw (d : sim) : Z * sim :=
  match sm_phase d with
  | ReadData lba n k =>
      (default 0 (znth (norm_sector (sm_data d lba)) k),
       sim_in (if k + 1 <? 256 then ReadData lba n (k + 1)
               else if n =? 1 then Ready else ReadWait (lba + 1) (n - 1)) 1 d)
  | _ => (0, d)
  end.
Definition sim_outw (w : Z) (d : sim) : sim :=
  match sm_phase d with
  | WriteData lba n ws =>
      if Z.of_nat (length ws) + 1 <? 256 then sim_in (WriteData lba n (ws ++ [w])) 1 d
      else {| sm_phase := WriteWait (lba + 1) (n - 1); sm_regs := sm_regs d;
              sm_data := fun q => if q =? lba then ws ++ [w] else sm_data d q;
              sm_size := sm_size d; sm_ticks := 1 |}
  | _ => d
  end.
#[export] Instance sim_ports : Ports sim := {
  p_inb := sim_inb;
  p_outb := sim_outb;
  p_inw _ d := sim_inw d;
  p_outw _ w d := sim_outw w d
}.

Definition sim_hlt (d : sim) : option (Z * sim) :=
  match after_irq (sm_phase d), sm_ticks d with
  | Some p, O => Some (ATA_IRQ_PRIMARY, sim_in p 1 d)
  | _, n => Some (0, sim_in (sm_phase d) (Nat.min n 1 - 1) d)
  end.
Definition sim_irq (quick : bool) (d : sim) : option Z * sim :=
  match after_irq (sm_phase d) with
  | Some p => if quick then (Some ATA_IRQ_PRIMARY, sim_in p (sm_ticks d) d) else (None, d)
  | None => (None, d)
  end.
Definition sim_cpu (quick : bool) : Cpu sim := {| p_irq := sim_irq quick; p_hlt := sim_hlt |}.

Lemma norm_good l : length l = 256%nat -> Forall (fun w => 0 <= w < 65536) l -> norm_sector l = l.
Proof.
  intros Hl Hw. unfold norm_sector, good_sector. rewrite Hl. cbn [Nat.eqb andb].
  enough (forallb (fun w => (0 <=? w) && (w <? 65536)) l = true) as -> by done.
  apply forallb_forall. intros w Hin. rewrite Forall_forall in Hw. specialize (Hw w Hin). lia.
Qed.

Lemma norm_ok l : length (norm_sector l) = 256%nat /\ Forall (fun w => 0 <= w < 65536) (norm_sector l).
Proof.
  unfold norm_sector. destruct (good_sector l) eqn:E.
  - unfold good_sector in E. apply andb_true_iff in E as [El Ew]. split; [by apply Nat.eqb_eq|].
    apply Forall_forall. intros w Hw. rewrite forallb_forall in Ew. specialize (Ew w Hw). lia.
  - split; [by rewrite length_replicate|]. by apply Forall_replicate.
Qed.

Lemma sim_size_range d : 0 <= sim_size d <= 268435456.
Proof. unfold sim_size. case_bool; lia. Qed.

#[export] Instance sim_drive quick : @AtaDrive sim sim_ports (sim_cpu quick).
Proof.
  refine (@Build_AtaDrive sim sim_ports (sim_cpu quick) sim_view 2 _ _ _ _ _ _ _ _ _ _ _ _ _ _).
  - intros d. cbn. lia.
  - intros d. cbn [sim_view d_lag]. lia.
  - intros d k _. apply norm_ok.
  - intros d. apply sim_size_range.
  - intros port v d Hp. cbn. unfold sim_outb. destruct (sm_phase d); try done.
    unfold is_ata_port, is_register, ATA_DATA_PORT, ATA_COMMAND_PORT, ATA_SECTOR_COUNT, ATA_DRIVE_SELECT in *.
    repeat case_bool; try done; lia.
  - intros port v d Hp Hr Hv. cbn in *. unfold sim_outb. rewrite Hp, Hr. done.
  - intros d Hp _. cbn in *. unfold sim_outb. by rewrite Hp.
  - intros d Hp _. cbn in *. unfold sim_outb. by rewrite Hp.
  - intros d. cbn. split; [done|]. by destruct (sm_phase d).
  - intros d lba n k Hp Hk. cbn in *. unfold sim_inw. rewrite Hp. cbn. split; [|done].
    destruct (norm_ok (sm_data d lba)) as [Hl _].
    destruct (znth_Some (norm_sector (sm_data d lba)) k) as [w Hw]; [lia|]. by rewrite Hw.
  - intros d lba n ws w Hp Hw Hl Hws. cbn in *. unfold sim_outw. rewrite Hp.
    destruct (Z.ltb_spec (Z.of_nat (length ws) + 1) 256); [done|]. cbn. split_and!; try done.
    intros q. destruct (q =? lba); [|done]. apply norm_good; [rewrite length_app; cbn; lia|].
    apply Forall_app_2; [done|by constructor].
  - intros d. cbn. unfold sim_irq. destruct (sm_phase d) eqn:E; cbn; rewrite ?E; try done;
      (destruct quick; cbn; rewrite ?E; [|done]); right; split; [done|eexists; done|done|eexists; done].
  - intros d. cbn. unfold sim_irq. destruct (sm_phase d) eqn:E; cbn; try lia; destruct quick; cbn; lia.
  - intros d. cbn. unfold sim_hlt. destruct (sm_phase d) eqn:E; cbn; destruct (sm_ticks d) as [|tk] eqn:En; cbn;
      do 2 eexists; (split; [done|]); rewrite ?E;
      try (left; split; [unfold foreign, ATA_IRQ_PRIMARY, ATA_IRQ_SECONDARY; lia|]; split; [done|];
           intros [? ?]; try done; cbn; lia).
    all: right; split; [done|]; eexists; done.
Defined.

(** A drive of eight sectors, each of equal words, with the handlers registered. *)
Definition sim_start : ata sim :=
  {| hw := {| sm_phase := Ready; sm_regs := fun _ => 0; sm_data := fun k => replicate 256 (k + 1);
              sm_size := 8; sm_ticks := 1 |};
     ata_irq_fired := 0;
     handlers := <[184%nat := 1]> (<[188%nat := 2]> (replicate 1024 0)) |}.

Lemma sim_start_ready quick : driver_ready (Cpu0 := sim_cpu quick) 1 2 sim_start.
Proof. apply readyb_spec. vm_compute. done. Qed.

(** The unhurried drive delivers three sectors in one call; with the quick one a
    call for one sector returns. *)
Lemma ata_read_sectors_correct_witness : (exists s',
  ata_read_sectors (Cpu0 := sim_cpu false) 1 2 3 2 3 sim_start =
    Ret ((ATA_ERROR_NONE, replicate 256 3 ++ replicate 256 4 ++ replicate 256 5), s')) /\
  (exists s', ata_read_sectors (Cpu0 := sim_cpu true) 1 2 3 2 1 sim_start = Ret ((ATA_ERROR_NONE, replicate 256 3), s')).
Proof.
  split.
  - destruct (ata_read_sectors_correct (AtaDrive0 := sim_drive false) 1 2 3 ltac:(lia) (le_n 3) sim_start 2 3
      (sim_start_ready false) ltac:(lia) ltac:(lia) ltac:(vm_compute; done)) as [H _].
    assert (E : request_missed (AtaDrive0 := sim_drive false) 1 2 3 2 3 sim_start = false) by (vm_cast_no_check (eq_refl false)).
    rewrite E in H. destruct H as (s' & H & _). exists s'. rewrite H. reflexivity.
  - destruct (ata_read_sectors_correct (AtaDrive0 := sim_drive true) 1 2 3 ltac:(lia) (le_n 3) sim_start 2 1
      (sim_start_ready true) ltac:(lia) ltac:(lia) ltac:(vm_compute; done)) as [H E].
    rewrite (E eq_refl) in H. destruct H as (s' & H & _). exists s'. rewrite H. reflexivity.
Defined.

Lemma ata_write_read_roundtrip_witness : exists s1 s2,
  ata_write_sectors (Cpu0 := sim_cpu true) 1 2 3 6 2 (replicate 256 9 ++ replicate 256 65535) sim_start =
    Ret (ATA_ERROR_NONE, s1) /\
  ata_read_sector (Cpu0 := sim_cpu true) 1 2 3 7 s1 = Ret ((ATA_ERROR_NONE, replicate 256 65535), s2).
Proof.
  destruct (ata_write_read_roundtrip (AtaDrive0 := sim_drive true) 1 2 3 ltac:(lia) (le_n 3) sim_start 6 2
    (replicate 256 9 ++ replicate 256 65535)
    (sim_start_ready true) ltac:(lia) ltac:(lia) ltac:(vm_compute; done)) as (s1 & H1 & _ & _ & H2 & _).
  - split; [done|]. apply Forall_app_2; by apply Forall_replicate.
  - destruct (H2 1) as (s2 & H); [lia|]. exists s1, s2. exact (conj H1 H).
Defined.

(** ** The block device refines an array of blocks *)
Section refinement.
Context {D : Type} `{!Ports D} `{!Cpu D} `{!AtaDrive D}.
Context (primary secondary : Z) (fuel : nat).
Hypothesis Hprimary : primary <> 0.
Hypothesis Hfuel : (patience < fuel)%nat.

(** (C5) The adapter of the driver is a block device: with a block size of one
    to eight sectors, writing block [b] always succeeds and makes the disk, seen as
    an array of blocks, the same array with [b] replaced by the bytes of the
    buffer; reading a block afterwards returns the bytes the array holds for it and
    changes none, unless the request for a later sector of the block is taken
    before the driver has cleared its flag, when the call sleeps for ever; with
    blocks of one sector that does not happen. *)
Theorem ata_block_device_refines (d : ata_dev D) (b : Z) (buf : list Z) :
  0 <= b < ad_blocks primary secondary d -> Z.of_nat (length buf) = ad_block_size d -> Forall is_u8 buf ->
  exists s', ata_blk_write_block primary secondary fuel (ad_block_size d) b buf (ad_driver d) = Ret (ATA_ERROR_NONE, s') /\
    let d' := {| ad_driver := s'; ad_block_size := ad_block_size d |} in
    ad_blocks primary secondary d' = ad_blocks primary secondary d /\
    forall c, 0 <= c < ad_blocks primary secondary d ->
      (if block_missed primary secondary fuel d' c
       then ata_blk_read_block primary secondary fuel (ad_block_size d) c s' = Diverge
       else exists s2, ata_blk_read_block primary secondary fuel (ad_block_size d) c s' =
            Ret ((ATA_ERROR_NONE, if c =? b then buf else ad_block d c), s2) /\
          forall e, ad_block {| ad_driver := s2; ad_block_size := ad_block_size d |} e = ad_block d' e) /\
      (ad_block_size d = ATA_SECTOR_SIZE -> block_missed primary secondary fuel d' c = false).
Proof.
  intros Hb Hl Hu. destruct (blk_write_run primary secondary fuel Hprimary Hfuel d b buf Hb Hl Hu) as (s' & H & Hn & Hc).
  exists s'. split; [done|]. split; [done|]. intros c Hin. split; [|intros E; by apply block_missed_sector].
  set (d' := {| ad_driver := s'; ad_block_size := ad_block_size d |}) in *.
  pose proof (blk_read_run primary secondary fuel Hprimary Hfuel d' c ltac:(by rewrite Hn)) as Hr.
  destruct (block_missed primary secondary fuel d' c); [done|]. destruct Hr as (s2 & Hr & _ & He).
  exists s2. split; [|done]. rewrite <- Hc by done. exact Hr.
Qed.
End refinement.

Lemma ata_block_device_refines_witness :
  let bs := ATA_SECTOR_SIZE in
  exists s1, ata_blk_write_block (Cpu0 := sim_cpu true) 1 2 3 bs 5 (replicate 512 7) sim_start = Ret (ATA_ERROR_NONE, s1) /\
  exists s2, ata_blk_read_block (Cpu0 := sim_cpu true) 1 2 3 bs 5 s1 = Ret ((ATA_ERROR_NONE, replicate 512 7), s2).
Proof.
  cbv zeta. set (d := {| ad_driver := sim_start; ad_block_size := ATA_SECTOR_SIZE |}).
  assert (Hn : ad_blocks (AtaDrive0 := sim_drive true) 1 2 d = 8) by (vm_compute; done).
  destruct (ata_block_device_refines (AtaDrive0 := sim_drive true) 1 2 3 ltac:(lia) (le_n 3) d 5 (replicate 512 7))
    as (s1 & H & _ & Hr); [rewrite Hn; lia|done|by apply Forall_replicate|].
  exists s1. split; [exact H|]. destruct (Hr 5) as [Hr5 E]; [rewrite Hn; lia|].
  rewrite (E eq_refl) in Hr5. destruct Hr5 as (s2 & H2 & _). exists s2. exact H2.
Defined.

(** ** A request that comes too early *)

(** One step of a closed run, which returns [a]. *)
Ltac run_step a :=
  lazymatch goal with
  | |- (?m ≫= ?k) ?s = _ => rewrite (st_bind_Ret m k s a (final m s)); [|refine (run_final m s a _); vm_cast_no_check (eq_refl (Some a))]
  end; cbv beta iota; cbn [negb Z.eqb ATA_ERROR_NONE].

(** The second sector's request came while the flag was still set. *)
Lemma quick_chunk fuel (s : ata sim) ws :
  let read := ata_read_pio_data (Cpu0 := sim_cpu true) 1 2 in
  let prepare := ata_prepare_irq (Cpu0 := sim_cpu true) 1 2 in
  ata_irq_fired s = 1 -> ret_val (read s) = Some ws -> ret_val (prepare (final read s)) = Some tt ->
  table_okb 1 2 (handlers (final prepare (final read s))) = true ->
  ata_irq_fired (final prepare (final read s)) = 0 ->
  sm_phase (hw (final prepare (final read s))) = ReadData 1 1 0 ->
  read_chunk (Cpu0 := sim_cpu true) 1 2 fuel 2 s = Diverge.
Proof.
  intros read prepare Hw Hr Hp Ht Hf Hph. cbn [read_chunk]. destruct fuel as [|n]; [done|].
  rewrite (st_bind_Ret _ _ s tt s).
  2:{ unfold ata_wait_irq. cbn [wait_irq_loop]. rewrite (st_bind_Ret _ _ s (ata_irq_fired s) s) by done. by rewrite Hw. }
  rewrite (st_bind_Ret _ _ s ws _ (run_final read s ws Hr)), (st_bind_Ret _ _ _ tt _ (run_final prepare _ tt Hp)).
  apply st_bind_Diverge, st_bind_Diverge.
  eapply (wait_stuck (AtaDrive0 := sim_drive true) 1 2 ltac:(lia) (S n)); [|by apply table_okb_spec|done].
  by split.
Qed.

(** Lost interrupt: the flag is cleared only after a sector has been read,
    so a drive that has the next sector ready by the time its last word is
    fetched raises its request before the clearing, which then discards it.
    With such a drive a read of one sector succeeds but a read of two sleeps
    forever, however many timer interrupts wake it. *)
Theorem ata_read_sectors_lost_irq fuel :
  ata_read_sectors (Cpu0 := sim_cpu true) 1 2 fuel 0 2 sim_start = Diverge /\
  exists s', ata_read_sectors (Cpu0 := sim_cpu true) 1 2 (S fuel) 0 1 sim_start =
    Ret ((ATA_ERROR_NONE, replicate 256 1), s').
Proof.
  unfold ata_read_sectors. cbn [Z.eqb]. split.
  - change (S (Z.to_nat 2)) with 3%nat. cbn [read_chunks Z.eqb].
    run_step tt. run_step 0. do 3 run_step tt. apply st_bind_Diverge.
    apply (quick_chunk fuel _ (replicate 256 1)).
    + vm_cast_no_check (eq_refl 1).
    + vm_cast_no_check (eq_refl (Some (replicate 256 1))).
    + vm_cast_no_check (eq_refl (Some tt)).
    + vm_cast_no_check (eq_refl true).
    + vm_cast_no_check (eq_refl 0).
    + vm_cast_no_check (eq_refl (ReadData 1 1 0)).
  - change (S (Z.to_nat 1)) with 2%nat. cbn [read_chunks Z.eqb].
    eexists. run_step tt. run_step 0. do 3 run_step tt. run_step (replicate 256 1). reflexivity.
Qed.
