(* ===== verification/Ext2.v ===== *)
(** * The ext2 file system (src/src/fs/ext2)

    On-disk structures are kept as their bytes, read and written at the offsets
    of the packed C structures, so that copying a structure is copying its
    bytes.  The state is the block device, the kernel heap the code takes its
    buffers from, and the in-memory copies of the superblock and the group
    descriptors.  A block buffer is a value: a failed read leaves the contents
    the buffer had, for a fresh buffer those [kmalloc] returned.  An access
    outside a buffer and a division by zero are a [Fault].

    This file holds the code; [Ext2Proof] holds the theorems. *)

From S2P Require Import Prelude BlockDev.

(** ** What the file system asks of the kernel heap

    [kh_malloc n] returns the (arbitrary) bytes of a fresh buffer of [n] bytes,
    or nothing; [kh_free] gives one buffer back.  [kh_refusals] is a ghost
    counter that no code reads: the requests refused so far.  It lets a theorem
    say that the heap refused a request during one run.  [counted_heap] makes an
    instance out of any allocator. *)
Class KHeap (H : Type) := {
  kh_malloc : Z -> H -> option (list Z) * H;
  kh_free : H -> H;
  kh_refusals : H -> nat;
  kh_len : forall n h junk h', kh_malloc n h = (Some junk, h') -> 0 <= n ->
    Z.of_nat (length junk) = n /\ Forall is_u8 junk;
  kh_refuse : forall n h h', kh_malloc n h = (None, h') -> kh_refusals h' = S (kh_refusals h);
  kh_grant : forall n h junk h', kh_malloc n h = (Some junk, h') -> kh_refusals h' = kh_refusals h;
  kh_release : forall h, kh_refusals (kh_free h) = kh_refusals h
}.

(** Any allocator, with its refusals counted beside it. *)
Definition counted_heap {H : Type} (malloc : Z -> H -> option (list Z) * H) (free : H -> H)
  (len : forall n h junk h', malloc n h = (Some junk, h') -> 0 <= n -> Z.of_nat (length junk) = n /\ Forall is_u8 junk) :
  KHeap (H * nat).
Proof.
  refine {| kh_malloc := fun n h => let '(r, h1) := malloc n h.1 in (r, (h1, if r then h.2 else S h.2));
            kh_free := fun h => (free h.1, h.2); kh_refusals := snd |}.
  - intros n [h c] junk h' E Hn. cbn in E. destruct (malloc n h) as [r h1] eqn:Em. injection E as -> <-. by eapply len.
  - intros n [h c] h' E. cbn in E. destruct (malloc n h) as [r h1]. by injection E as -> <-.
  - intros n [h c] junk h' E. cbn in E. destruct (malloc n h) as [r h1]. by injection E as -> <-.
  - done.
Defined.

(** ** Constants of ext2.h and types.h *)
Definition EXT2_SUPERBLOCK_OFFSET : Z := 1024.
Definition EXT2_MAGIC : Z := 0xEF53.
Definition EXT2_ROOT_INO : Z := 2.
Definition EXT2_MIN_BLOCK_SIZE : Z := 1024.
Definition EXT2_MAX_BLOCK_SIZE : Z := 4096.
Definition EXT2_DYNAMIC_REV : Z := 1.
Definition EXT2_FT_UNKNOWN : Z := 0.
Definition EXT2_FT_REG_FILE : Z := 1.
Definition EXT2_FT_DIR : Z := 2.
Definition EXT2_FT_CHRDEV : Z := 3.
Definition EXT2_FT_BLKDEV : Z := 4.
Definition EXT2_FT_FIFO : Z := 5.
Definition EXT2_FT_SOCK : Z := 6.
Definition EXT2_FT_SYMLINK : Z := 7.
Definition sizeof_superblock : Z := 1024.
Definition sizeof_group_desc : Z := 32.
Definition sizeof_inode : Z := 128.
Definition sizeof_fs_data : Z := 28.
Definition sizeof_inode_data : Z := 136.
Definition sizeof_vfs_inode : Z := 64.

Definition FS_FILE_TYPE_MASK : Z := 0xF000.
Definition FS_FILE_TYPE_SOCKET : Z := 0xC000.
Definition FS_FILE_TYPE_LINK : Z := 0xA000.
Definition FS_FILE_TYPE_BLOCK : Z := 0x6000.
Definition FS_FILE_TYPE_DIR : Z := 0x4000.
Definition FS_FILE_TYPE_CHAR : Z := 0x2000.
Definition FS_FILE_TYPE_FIFO : Z := 0x1000.
Definition FS_FILE_TYPE_REGULAR : Z := 0x8000.
Definition FS_IS_DIR (mode : Z) : bool := Z.land mode FS_FILE_TYPE_MASK =? FS_FILE_TYPE_DIR.

(** ** Fields of the packed structures *)
Definition fld (n : nat) (buf : list Z) (off : Z) : Z := default 0 (get_le n buf off).
Definition set_fld (n : nat) (buf : list Z) (off v : Z) : list Z :=
  default buf (put_le n buf off v).

(** [ext2_superblock_t] *)
Definition s_inodes_count (sb : list Z) : Z := fld 4 sb 0.
Definition s_blocks_count (sb : list Z) : Z := fld 4 sb 4.
Definition s_free_blocks_count (sb : list Z) : Z := fld 4 sb 12.
Definition s_free_inodes_count (sb : list Z) : Z := fld 4 sb 16.
Definition s_first_data_block (sb : list Z) : Z := fld 4 sb 20.
Definition s_log_block_size (sb : list Z) : Z := fld 4 sb 24.
Definition s_blocks_per_group (sb : list Z) : Z := fld 4 sb 32.
Definition s_inodes_per_group (sb : list Z) : Z := fld 4 sb 40.
Definition s_magic (sb : list Z) : Z := fld 2 sb 56.
Definition s_rev_level (sb : list Z) : Z := fld 4 sb 76.
Definition s_inode_size (sb : list Z) : Z := fld 2 sb 88.
Definition set_free_blocks_count (v : Z) (sb : list Z) : list Z := set_fld 4 sb 12 (u32 v).
Definition set_free_inodes_count (v : Z) (sb : list Z) : list Z := set_fld 4 sb 16 (u32 v).

(** [ext2_group_desc_t] *)
Definition bg_block_bitmap (gd : list Z) : Z := fld 4 gd 0.
Definition bg_inode_bitmap (gd : list Z) : Z := fld 4 gd 4.
Definition bg_inode_table (gd : list Z) : Z := fld 4 gd 8.
Definition bg_free_blocks_count (gd : list Z) : Z := fld 2 gd 12.
Definition bg_free_inodes_count (gd : list Z) : Z := fld 2 gd 14.
Definition bg_used_dirs_count (gd : list Z) : Z := fld 2 gd 16.
Definition set_bg_free_blocks (v : Z) (gd : list Z) : list Z := set_fld 2 gd 12 (u16 v).
Definition set_bg_free_inodes (v : Z) (gd : list Z) : list Z := set_fld 2 gd 14 (u16 v).
Definition set_bg_used_dirs (v : Z) (gd : list Z) : list Z := set_fld 2 gd 16 (u16 v).

(** [ext2_inode_t] *)
Definition i_mode (di : list Z) : Z := fld 2 di 0.
Definition i_uid (di : list Z) : Z := fld 2 di 2.
Definition i_size (di : list Z) : Z := fld 4 di 4.
Definition i_atime (di : list Z) : Z := fld 4 di 8.
Definition i_ctime (di : list Z) : Z := fld 4 di 12.
Definition i_mtime (di : list Z) : Z := fld 4 di 16.
Definition i_gid (di : list Z) : Z := fld 2 di 24.
Definition i_links_count (di : list Z) : Z := fld 2 di 26.
Definition i_blocks (di : list Z) : Z := fld 4 di 28.
Definition i_flags (di : list Z) : Z := fld 4 di 32.
Definition i_block (di : list Z) (k : Z) : Z := fld 4 di (40 + 4 * k).
Definition set_i_mode (v : Z) (di : list Z) : list Z := set_fld 2 di 0 (u16 v).
Definition set_i_uid (v : Z) (di : list Z) : list Z := set_fld 2 di 2 (u16 v).
Definition set_i_size (v : Z) (di : list Z) : list Z := set_fld 4 di 4 (u32 v).
Definition set_i_atime (v : Z) (di : list Z) : list Z := set_fld 4 di 8 (u32 v).
Definition set_i_ctime (v : Z) (di : list Z) : list Z := set_fld 4 di 12 (u32 v).
Definition set_i_mtime (v : Z) (di : list Z) : list Z := set_fld 4 di 16 (u32 v).
Definition set_i_gid (v : Z) (di : list Z) : list Z := set_fld 2 di 24 (u16 v).
Definition set_i_links (v : Z) (di : list Z) : list Z := set_fld 2 di 26 (u16 v).
Definition set_i_blocks (v : Z) (di : list Z) : list Z := set_fld 4 di 28 (u32 v).
Definition set_i_flags (v : Z) (di : list Z) : list Z := set_fld 4 di 32 (u32 v).
Definition set_i_block (k v : Z) (di : list Z) : list Z := set_fld 4 di (40 + 4 * k) (u32 v).

(** [memset(p, 0, n)] *)
Definition zeroes (n : Z) : list Z := replicate (Z.to_nat n) 0.

(** The VFS inode with its [ext2_inode_data_t]. *)
Record inode := {
  ino : Z; mode : Z; size : Z; uid : Z; gid : Z; nlink : Z;
  atime : Z; mtime : Z; ctime : Z; blksize : Z; blocks : Z; flags : Z;
  ref_count : Z;
  disk_inode : list Z; block_group : Z; index_in_group : Z
}.

Definition with_disk (i : inode) (di : list Z) : inode :=
  {| ino := ino i; mode := mode i; size := size i; uid := uid i; gid := gid i; nlink := nlink i;
     atime := atime i; mtime := mtime i; ctime := ctime i; blksize := blksize i;
     blocks := blocks i; flags := flags i; ref_count := ref_count i;
     disk_inode := di; block_group := block_group i; index_in_group := index_in_group i |}.
Definition with_size (i : inode) (sz : Z) : inode :=
  {| ino := ino i; mode := mode i; size := sz; uid := uid i; gid := gid i; nlink := nlink i;
     atime := atime i; mtime := mtime i; ctime := ctime i; blksize := blksize i;
     blocks := blocks i; flags := flags i; ref_count := ref_count i;
     disk_inode := disk_inode i; block_group := block_group i; index_in_group := index_in_group i |}.
Definition with_blocks (i : inode) (b : Z) : inode :=
  {| ino := ino i; mode := mode i; size := size i; uid := uid i; gid := gid i; nlink := nlink i;
     atime := atime i; mtime := mtime i; ctime := ctime i; blksize := blksize i;
     blocks := b; flags := flags i; ref_count := ref_count i;
     disk_inode := disk_inode i; block_group := block_group i; index_in_group := index_in_group i |}.
Definition with_nlink (i : inode) (n : Z) : inode :=
  {| ino := ino i; mode := mode i; size := size i; uid := uid i; gid := gid i; nlink := n;
     atime := atime i; mtime := mtime i; ctime := ctime i; blksize := blksize i;
     blocks := blocks i; flags := flags i; ref_count := ref_count i;
     disk_inode := disk_inode i; block_group := block_group i; index_in_group := index_in_group i |}.
Definition with_mode (i : inode) (m : Z) : inode :=
  {| ino := ino i; mode := m; size := size i; uid := uid i; gid := gid i; nlink := nlink i;
     atime := atime i; mtime := mtime i; ctime := ctime i; blksize := blksize i;
     blocks := blocks i; flags := flags i; ref_count := ref_count i;
     disk_inode := disk_inode i; block_group := block_group i; index_in_group := index_in_group i |}.
Definition with_refs (i : inode) (n : Z) : inode :=
  {| ino := ino i; mode := mode i; size := size i; uid := uid i; gid := gid i; nlink := nlink i;
     atime := atime i; mtime := mtime i; ctime := ctime i; blksize := blksize i;
     blocks := blocks i; flags := flags i; ref_count := n;
     disk_inode := disk_inode i; block_group := block_group i; index_in_group := index_in_group i |}.

Section code.
Context {D H : Type} `{!BlockDevice D} `{!KHeap H}.

(** ** State: [ext2_fs_data_t] with the device and the heap *)
Record ext2 := {
  e_dev : D;
  e_heap : H;
  e_sb : list Z;
  e_group_desc : list (list Z);
  e_groups_count : Z;
  e_block_size : Z;
  e_inodes_per_block : Z;
  e_itable_blocks : Z
}.

Definition set_dev (d : D) (s : ext2) : ext2 :=
  {| e_dev := d; e_heap := e_heap s; e_sb := e_sb s; e_group_desc := e_group_desc s;
     e_groups_count := e_groups_count s; e_block_size := e_block_size s;
     e_inodes_per_block := e_inodes_per_block s; e_itable_blocks := e_itable_blocks s |}.
Definition set_heap (h : H) (s : ext2) : ext2 :=
  {| e_dev := e_dev s; e_heap := h; e_sb := e_sb s; e_group_desc := e_group_desc s;
     e_groups_count := e_groups_count s; e_block_size := e_block_size s;
     e_inodes_per_block := e_inodes_per_block s; e_itable_blocks := e_itable_blocks s |}.
Definition set_sb (sb : list Z) (s : ext2) : ext2 :=
  {| e_dev := e_dev s; e_heap := e_heap s; e_sb := sb; e_group_desc := e_group_desc s;
     e_groups_count := e_groups_count s; e_block_size := e_block_size s;
     e_inodes_per_block := e_inodes_per_block s; e_itable_blocks := e_itable_blocks s |}.
Definition set_gds (g : list (list Z)) (s : ext2) : ext2 :=
  {| e_dev := e_dev s; e_heap := e_heap s; e_sb := e_sb s; e_group_desc := g;
     e_groups_count := e_groups_count s; e_block_size := e_block_size s;
     e_inodes_per_block := e_inodes_per_block s; e_itable_blocks := e_itable_blocks s |}.

Abbreviation M := (ST ext2).

Definition kmalloc (n : Z) : M (option (list Z)) := fun s =>
  let '(r, h) := kh_malloc n (e_heap s) in Ret (r, set_heap h s).
Definition kfree : M unit := st_modify (fun s => set_heap (kh_free (e_heap s)) s).

(** Division of [uint32_t]; by zero it is a CPU fault. *)
Definition udiv (x y : Z) : M Z := if y =? 0 then st_fault else mret (x / y).
Definition umod (x y : Z) : M Z := if y =? 0 then st_fault else mret (x mod y).

(** Accesses to a buffer. *)
Definition rd (n : nat) (buf : list Z) (off : Z) : M Z := st_lift (of_option (get_le n buf off)).
Definition wr (n : nat) (buf : list Z) (off v : Z) : M (list Z) :=
  st_lift (of_option (put_le n buf off v)).
(** [memcpy(buf + off, src, n)] and [memcpy(dst, buf + off, n)] *)
Definition copy_in (buf : list Z) (off : Z) (src : list Z) : M (list Z) :=
  st_lift (of_option (blit buf off src)).
Definition copy_out (buf : list Z) (off n : Z) : M (list Z) :=
  st_lift (of_option (slice buf off n)).

(** [fs->group_desc[g]] *)
Definition get_gd (g : Z) : M (list Z) := fun s =>
  match znth (e_group_desc s) g with Some d => Ret (d, s) | None => Fault end.
Definition put_gd (g : Z) (d : list Z) : M unit := fun s =>
  match zset (e_group_desc s) g d with Some l => Ret (tt, set_gds l s) | None => Fault end.

(** ** Block I/O (block.c) *)

(** The status and the buffer afterwards. *)
Definition ext2_read_block (b : Z) (buf : list Z) : M (Z * list Z) := fun s =>
  match bd_read b (e_dev s) with
  | (Some data, d) => Ret ((0, data), set_dev d s)
  | (None, d) => Ret ((-1, buf), set_dev d s)
  end.

Definition ext2_write_block (b : Z) (buf : list Z) : M Z := fun s =>
  let '(ok, d) := bd_write b buf (e_dev s) in Ret (if ok then 0 else -1, set_dev d s).

(** Consecutive blocks; block 0 is no indirect block. *)
Definition ext2_read_blocks (start count : Z) (buf : list Z) : M (Z * list Z) := fun s =>
  match bd_read_blocks start count (e_dev s) with
  | (Some data, d) => Ret ((0, data), set_dev d s)
  | (None, d) => Ret ((-1, buf), set_dev d s)
  end.

Definition ext2_read_indirect_block (block : Z) (buf : list Z) : M (Z * list Z) :=
  if block =? 0 then mret (-1, buf) else ext2_read_block block buf.

Definition ext2_write_indirect_block (block : Z) (buf : list Z) : M Z :=
  if block =? 0 then mret (-1) else ext2_write_block block buf.

(** ** Metadata persistence (superblock.c) *)
Definition ext2_flush_superblock : M Z :=
  s ← st_get;
  if e_block_size s =? 1024 then ext2_write_block 1 (e_sb s)
  else
    r ← kmalloc (e_block_size s);
    match r with
    | None => mret (-1)
    | Some buf =>
        '(_, buf) ← ext2_read_block 0 buf;
        buf ← copy_in buf EXT2_SUPERBLOCK_OFFSET (e_sb s);
        ret ← ext2_write_block 0 buf;
        kfree;;
        mret ret
    end.

Definition ext2_flush_group_desc (group : Z) : M Z :=
  s ← st_get;
  let gd_per_block := e_block_size s / sizeof_group_desc in
  q ← udiv group gd_per_block;
  let gd_block := s_first_data_block (e_sb s) +! 1 +! q in
  r ← kmalloc (e_block_size s);
  match r with
  | None => mret (-1)
  | Some buf =>
      '(_, buf) ← ext2_read_block gd_block buf;
      m ← umod group gd_per_block;
      gd ← get_gd group;
      buf ← copy_in buf (m *! sizeof_group_desc) gd;
      ret ← ext2_write_block gd_block buf;
      kfree;;
      mret ret
  end.

(** ** Bitmaps *)

(** [bitmap[i / 8] & (1 << (i % 8))] *)
Definition test_bitmap (bitmap : list Z) (i : Z) : M bool :=
  b ← rd 1 bitmap (i / 8);
  mret (negb (Z.land b (Z.shiftl 1 (i mod 8)) =? 0)).
Definition set_bitmap (bitmap : list Z) (i : Z) : M (list Z) :=
  b ← rd 1 bitmap (i / 8);
  wr 1 bitmap (i / 8) (u8 (Z.lor b (Z.shiftl 1 (i mod 8)))).
Definition clear_bitmap (bitmap : list Z) (i : Z) : M (list Z) :=
  b ← rd 1 bitmap (i / 8);
  wr 1 bitmap (i / 8) (u8 (Z.land b (not32 (Z.shiftl 1 (i mod 8))))).

(** [for (i = 0; i < bits; i++)]: the first zero bit, [n] bits are left. *)
Fixpoint find_zero (n : nat) (i : Z) (bitmap : list Z) : M (option Z) :=
  match n with
  | O => mret None
  | S n =>
      used ← test_bitmap bitmap i;
      if (used : bool) then find_zero n (i + 1) bitmap else mret (Some i)
  end.

(** Number of blocks of group [g]; the last group may have fewer. *)
Definition group_bits (s : ext2) (g : Z) : Z :=
  let bits := s_blocks_per_group (e_sb s) in
  if g =? e_groups_count s -! 1 then
    let rem := s_blocks_count (e_sb s) -! g *! s_blocks_per_group (e_sb s)
                 -! s_first_data_block (e_sb s) in
    if rem <? bits then rem else bits
  else bits.

(** [for (g = 0; g < fs->groups_count; g++)], [n] groups are left. *)
Fixpoint alloc_block_groups (n : nat) (g : Z) (bitmap : list Z) : M Z :=
  match n with
  | O => kfree;; mret 0
  | S n =>
      gd ← get_gd g;
      if bg_free_blocks_count gd =? 0 then alloc_block_groups n (g + 1) bitmap
      else
        '(_, bitmap) ← ext2_read_block (bg_block_bitmap gd) bitmap;
        s ← st_get;
        found ← find_zero (Z.to_nat (group_bits s g)) 0 bitmap;
        match found with
        | None => alloc_block_groups n (g + 1) bitmap
        | Some i =>
            bitmap ← set_bitmap bitmap i;
            ext2_write_block (bg_block_bitmap gd) bitmap;;
            kfree;;
            put_gd g (set_bg_free_blocks (bg_free_blocks_count gd - 1) gd);;
            st_modify (fun s => set_sb (set_free_blocks_count (s_free_blocks_count (e_sb s) - 1) (e_sb s)) s);;
            ext2_flush_group_desc g;;
            ext2_flush_superblock;;
            s ← st_get;
            mret (s_first_data_block (e_sb s) +! g *! s_blocks_per_group (e_sb s) +! i)
        end
  end.

Definition ext2_alloc_block : M Z :=
  s ← st_get;
  if s_free_blocks_count (e_sb s) =? 0 then mret 0
  else
    r ← kmalloc (e_block_size s);
    match r with
    | None => mret 0
    | Some bitmap => alloc_block_groups (Z.to_nat (e_groups_count s)) 0 bitmap
    end.

Definition ext2_free_block (block : Z) : M unit :=
  s ← st_get;
  let rel := block -! s_first_data_block (e_sb s) in
  group ← udiv rel (s_blocks_per_group (e_sb s));
  index ← umod rel (s_blocks_per_group (e_sb s));
  r ← kmalloc (e_block_size s);
  match r with
  | None => mret tt
  | Some bitmap =>
      gd ← get_gd group;
      '(_, bitmap) ← ext2_read_block (bg_block_bitmap gd) bitmap;
      bitmap ← clear_bitmap bitmap index;
      ext2_write_block (bg_block_bitmap gd) bitmap;;
      kfree;;
      put_gd group (set_bg_free_blocks (bg_free_blocks_count gd + 1) gd);;
      st_modify (fun s => set_sb (set_free_blocks_count (s_free_blocks_count (e_sb s) + 1) (e_sb s)) s);;
      ext2_flush_group_desc group;;
      ext2_flush_superblock;;
      mret tt
  end.

Fixpoint alloc_inode_groups (n : nat) (g : Z) (bitmap : list Z) : M Z :=
  match n with
  | O => kfree;; mret 0
  | S n =>
      gd ← get_gd g;
      if bg_free_inodes_count gd =? 0 then alloc_inode_groups n (g + 1) bitmap
      else
        '(_, bitmap) ← ext2_read_block (bg_inode_bitmap gd) bitmap;
        s ← st_get;
        found ← find_zero (Z.to_nat (s_inodes_per_group (e_sb s))) 0 bitmap;
        match found with
        | None => alloc_inode_groups n (g + 1) bitmap
        | Some i =>
            bitmap ← set_bitmap bitmap i;
            ext2_write_block (bg_inode_bitmap gd) bitmap;;
            kfree;;
            put_gd g (set_bg_free_inodes (bg_free_inodes_count gd - 1) gd);;
            st_modify (fun s => set_sb (set_free_inodes_count (s_free_inodes_count (e_sb s) - 1) (e_sb s)) s);;
            ext2_flush_group_desc g;;
            ext2_flush_superblock;;
            s ← st_get;
            mret (g *! s_inodes_per_group (e_sb s) +! i +! 1)
        end
  end.

Definition ext2_alloc_inode : M Z :=
  s ← st_get;
  if s_free_inodes_count (e_sb s) =? 0 then mret 0
  else
    r ← kmalloc (e_block_size s);
    match r with
    | None => mret 0
    | Some bitmap => alloc_inode_groups (Z.to_nat (e_groups_count s)) 0 bitmap
    end.

Definition ext2_free_inode (n : Z) : M unit :=
  s ← st_get;
  group ← udiv (n -! 1) (s_inodes_per_group (e_sb s));
  index ← umod (n -! 1) (s_inodes_per_group (e_sb s));
  r ← kmalloc (e_block_size s);
  match r with
  | None => mret tt
  | Some bitmap =>
      gd ← get_gd group;
      '(_, bitmap) ← ext2_read_block (bg_inode_bitmap gd) bitmap;
      bitmap ← clear_bitmap bitmap index;
      ext2_write_block (bg_inode_bitmap gd) bitmap;;
      kfree;;
      put_gd group (set_bg_free_inodes (bg_free_inodes_count gd + 1) gd);;
      st_modify (fun s => set_sb (set_free_inodes_count (s_free_inodes_count (e_sb s) + 1) (e_sb s)) s);;
      ext2_flush_group_desc group;;
      ext2_flush_superblock;;
      mret tt
  end.

(** ** The block map of a file (block.c) *)
Definition ext2_get_block_ptr (di : list Z) (k : Z) : Z := if 14 <? k then 0 else i_block di k.
Definition ext2_set_block_ptr (di : list Z) (k b : Z) : list Z :=
  if 14 <? k then di else set_i_block k b di.

Definition ext2_alloc_indirect_block : M Z :=
  blk ← ext2_alloc_block;
  if blk =? 0 then mret 0
  else
    s ← st_get;
    r ← kmalloc (e_block_size s);
    match r with
    | None => ext2_free_block blk;; mret 0
    | Some _ =>
        ext2_write_block blk (zeroes (e_block_size s));;
        kfree;;
        mret blk
    end.

Definition ext2_resolve_block_num (di : list Z) (logical_block block_size : Z) : M Z :=
  let ptrs := block_size / 4 in
  if logical_block <? 12 then mret (i_block di logical_block)
  else
  let lb := logical_block -! 12 in
  if lb <? ptrs then
    if i_block di 12 =? 0 then mret 0
    else
      r ← kmalloc block_size;
      match r with
      | None => mret 0
      | Some ind =>
          '(_, ind) ← ext2_read_block (i_block di 12) ind;
          result ← rd 4 ind (4 * lb);
          kfree;; mret result
      end
  else
  let lb := lb -! ptrs in
  if lb <? ptrs *! ptrs then
    if i_block di 13 =? 0 then mret 0
    else
      r ← kmalloc block_size;
      match r with
      | None => mret 0
      | Some ind =>
          '(_, ind) ← ext2_read_block (i_block di 13) ind;
          idx1 ← udiv lb ptrs;
          idx2 ← umod lb ptrs;
          singly_blk ← rd 4 ind (4 * idx1);
          if singly_blk =? 0 then kfree;; mret 0
          else
            '(_, ind) ← ext2_read_block singly_blk ind;
            result ← rd 4 ind (4 * idx2);
            kfree;; mret result
      end
  else
  let lb := lb -! ptrs *! ptrs in
  if i_block di 14 =? 0 then mret 0
  else
    r ← kmalloc block_size;
    match r with
    | None => mret 0
    | Some ind =>
        '(_, ind) ← ext2_read_block (i_block di 14) ind;
        i1 ← udiv lb (ptrs *! ptrs);
        rem ← umod lb (ptrs *! ptrs);
        dbl_blk ← rd 4 ind (4 * i1);
        if dbl_blk =? 0 then kfree;; mret 0
        else
          '(_, ind) ← ext2_read_block dbl_blk ind;
          i2 ← udiv rem ptrs;
          i3 ← umod rem ptrs;
          sgl_blk ← rd 4 ind (4 * i2);
          if sgl_blk =? 0 then kfree;; mret 0
          else
            '(_, ind) ← ext2_read_block sgl_blk ind;
            result ← rd 4 ind (4 * i3);
            kfree;; mret result
    end.

(** The status and the inode afterwards. *)
Definition ext2_assign_block_num (di : list Z) (logical_block phys_block block_size : Z) :
    M (Z * list Z) :=
  let ptrs := block_size / 4 in
  if logical_block <? 12 then mret (0, set_i_block logical_block phys_block di)
  else
  let lb := logical_block -! 12 in
  if lb <? ptrs then
    di ← (if i_block di 12 =? 0 then
            b ← ext2_alloc_indirect_block; mret (set_i_block 12 b di)
          else mret di);
    if i_block di 12 =? 0 then mret (-1, di)
    else
      r ← kmalloc block_size;
      match r with
      | None => mret (-1, di)
      | Some ind =>
          '(_, ind) ← ext2_read_block (i_block di 12) ind;
          ind ← wr 4 ind (4 * lb) phys_block;
          ext2_write_block (i_block di 12) ind;;
          kfree;; mret (0, di)
      end
  else
  let lb := lb -! ptrs in
  if lb <? ptrs *! ptrs then
    di ← (if i_block di 13 =? 0 then
            b ← ext2_alloc_indirect_block; mret (set_i_block 13 b di)
          else mret di);
    if i_block di 13 =? 0 then mret (-1, di)
    else
      r ← kmalloc block_size;
      match r with
      | None => mret (-1, di)
      | Some ind =>
          '(_, ind) ← ext2_read_block (i_block di 13) ind;
          idx1 ← udiv lb ptrs;
          idx2 ← umod lb ptrs;
          p ← rd 4 ind (4 * idx1);
          ind ← (if p =? 0 then
                   b ← ext2_alloc_indirect_block;
                   ind ← wr 4 ind (4 * idx1) b;
                   if b =? 0 then mret None
                   else ext2_write_block (i_block di 13) ind;; mret (Some ind)
                 else mret (Some ind));
          match ind with
          | None => kfree;; mret (-1, di)
          | Some ind =>
              singly_blk ← rd 4 ind (4 * idx1);
              '(_, ind) ← ext2_read_block singly_blk ind;
              ind ← wr 4 ind (4 * idx2) phys_block;
              ext2_write_block singly_blk ind;;
              kfree;; mret (0, di)
          end
      end
  else mret (-1, di).

(** [for (i = start; i < ptrs; i++) if (ind[i]) { ext2_free_block(sb, ind[i]); ind[i] = 0; }] *)
Fixpoint free_entries (n : nat) (i : Z) (ind : list Z) : M (list Z) :=
  match n with
  | O => mret ind
  | S n =>
      p ← rd 4 ind (4 * i);
      ind ← (if p =? 0 then mret ind else ext2_free_block p;; wr 4 ind (4 * i) 0);
      free_entries n (i + 1) ind
  end.

(** [for (i = new_blocks; i < old_blocks && i < 12; i++)] on the direct blocks. *)
Fixpoint free_direct (n : nat) (i : Z) (di : list Z) : M (list Z) :=
  match n with
  | O => mret di
  | S n =>
      di ← (if i_block di i =? 0 then mret di
            else ext2_free_block (i_block di i);; mret (set_i_block i 0 di));
      free_direct n (i + 1) di
  end.

Definition ext2_truncate_inode (di : list Z) (new_size : Z) : M (Z * list Z) :=
  s ← st_get;
  let bs := e_block_size s in
  old_blocks ← udiv (i_size di +! bs -! 1) bs;
  new_blocks ← udiv (new_size +! bs -! 1) bs;
  di ← free_direct (Z.to_nat (Z.min old_blocks 12 - new_blocks)) new_blocks di;
  di ← (if (12 <? old_blocks) && negb (i_block di 12 =? 0) then
          let ptrs := bs / 4 in
          r ← kmalloc bs;
          match r with
          | None => mret di
          | Some ind =>
              '(_, ind) ← ext2_read_block (i_block di 12) ind;
              let start := if 12 <? new_blocks then new_blocks - 12 else 0 in
              ind ← free_entries (Z.to_nat (ptrs - start)) start ind;
              di ← (if new_blocks <=? 12 then
                      ext2_free_block (i_block di 12);; mret (set_i_block 12 0 di)
                    else ext2_write_block (i_block di 12) ind;; mret di);
              kfree;; mret di
          end
        else mret di);
  mret (0, set_i_blocks (new_blocks *! (bs / 512)) (set_i_size new_size di)).

(** ** Inodes (inode.c) *)
Definition inode_size_of (sb : list Z) : Z :=
  if EXT2_DYNAMIC_REV <=? s_rev_level sb then s_inode_size sb else 128.

Definition ext2_get_inode_block (n : Z) : M Z :=
  if n =? 0 then mret 0
  else
    s ← st_get;
    group ← udiv (n -! 1) (s_inodes_per_group (e_sb s));
    index ← umod (n -! 1) (s_inodes_per_group (e_sb s));
    block_offset ← udiv (index *! inode_size_of (e_sb s)) (e_block_size s);
    gd ← get_gd group;
    mret (bg_inode_table gd +! block_offset).

(** The block of the inode table that holds inode [n], and the offset in it. *)
Definition inode_location (n : Z) : M (Z * Z) :=
  s ← st_get;
  group ← udiv (n -! 1) (s_inodes_per_group (e_sb s));
  index ← umod (n -! 1) (s_inodes_per_group (e_sb s));
  let inode_size := inode_size_of (e_sb s) in
  inodes_per_block ← udiv (e_block_size s) inode_size;
  block_offset ← udiv index inodes_per_block;
  k ← umod index inodes_per_block;
  gd ← get_gd group;
  mret (bg_inode_table gd +! block_offset, k *! inode_size).

(** The status and the inode, [old] when the read fails. *)
Definition ext2_read_inode_raw (n : Z) (old : list Z) : M (Z * list Z) :=
  if n =? 0 then mret (-1, old)
  else
    '(blk, off) ← inode_location n;
    s ← st_get;
    r ← kmalloc (e_block_size s);
    match r with
    | None => mret (-1, old)
    | Some buf =>
        '(ret, buf) ← ext2_read_block blk buf;
        di ← (if ret =? 0 then copy_out buf off sizeof_inode else mret old);
        kfree;;
        mret (ret, di)
    end.

Definition ext2_write_inode_raw (n : Z) (di : list Z) : M Z :=
  if n =? 0 then mret (-1)
  else
    '(blk, off) ← inode_location n;
    s ← st_get;
    r ← kmalloc (e_block_size s);
    match r with
    | None => mret (-1)
    | Some buf =>
        '(ret, buf) ← ext2_read_block blk buf;
        if negb (ret =? 0) then kfree;; mret ret
        else
          buf ← copy_in buf off di;
          ret ← ext2_write_block blk buf;
          kfree;;
          mret ret
    end.

Definition ext2_read_inode (n : Z) : M (option inode) :=
  if n =? 0 then mret None
  else
    s ← st_get;
    r ← kmalloc sizeof_inode_data;
    match r with
    | None => mret None
    | Some _ =>
        '(ret, di) ← ext2_read_inode_raw n (zeroes sizeof_inode);
        if negb (ret =? 0) then kfree;; mret None
        else
          group ← udiv (n -! 1) (s_inodes_per_group (e_sb s));
          index ← umod (n -! 1) (s_inodes_per_group (e_sb s));
          r ← kmalloc sizeof_vfs_inode;
          match r with
          | None => kfree;; mret None
          | Some _ =>
              mret (Some {| ino := n; mode := i_mode di; size := i_size di; uid := i_uid di;
                            gid := i_gid di; nlink := i_links_count di; atime := i_atime di;
                            mtime := i_mtime di; ctime := i_ctime di; blksize := e_block_size s;
                            blocks := i_blocks di; flags := i_flags di; ref_count := 1;
                            disk_inode := di; block_group := group; index_in_group := index |})
          end
    end.

(** The VFS fields copied into the on-disk inode. *)
Definition sync_fields (i : inode) : list Z :=
  set_i_flags (flags i) (set_i_blocks (blocks i) (set_i_ctime (ctime i) (set_i_mtime (mtime i)
   (set_i_atime (atime i) (set_i_links (nlink i) (set_i_gid (gid i) (set_i_size (size i)
   (set_i_uid (uid i) (set_i_mode (mode i) (disk_inode i)))))))))).

Definition ext2_write_inode (i : inode) : M (Z * inode) :=
  let i := with_disk i (sync_fields i) in
  ret ← ext2_write_inode_raw (ino i) (disk_inode i);
  mret (ret, i).

(** [for (j = 0; j < ptrs; j++) if (ind[j]) ext2_free_block(sb, ind[j]);] *)
Fixpoint free_children (n : nat) (j : Z) (ind : list Z) : M unit :=
  match n with
  | O => mret tt
  | S n =>
      p ← rd 4 ind (4 * j);
      (if p =? 0 then mret tt else ext2_free_block p);;
      free_children n (j + 1) ind
  end.

Definition ext2_delete_inode (i : inode) : M (Z * inode) :=
  s ← st_get;
  di ← free_direct 12 0 (disk_inode i);
  di ← (if i_block di 12 =? 0 then mret di
        else
          r ← kmalloc (e_block_size s);
          match r with
          | None => mret tt
          | Some ind =>
              '(_, ind) ← ext2_read_block (i_block di 12) ind;
              free_children (Z.to_nat (e_block_size s / 4)) 0 ind;;
              kfree
          end;;
          ext2_free_block (i_block di 12);;
          mret (set_i_block 12 0 di));
  ext2_write_inode_raw (ino i) (zeroes sizeof_inode);;
  ext2_free_inode (ino i);;
  mret (0, with_disk i (zeroes sizeof_inode)).

(** [inode_put] and [inode_free] of vfs/inode.c on an ext2 inode. *)
Definition inode_put (i : inode) : M inode :=
  let i := with_refs i (ref_count i -! 1) in
  if ref_count i =? 0 then kfree;; kfree;; mret i
  else mret i.

(** ** File contents (ext2_ops.c) *)
Fixpoint read_loop (fuel : nat) (di : list Z) (bs offset count bytes_read : Z)
    (block_buf out : list Z) : M (Z * list Z) :=
  match fuel with
  | O => fun _ => Diverge
  | S fuel =>
      if count <=? bytes_read then mret (bytes_read, out)
      else
        let pos := offset +! bytes_read in
        blk ← udiv pos bs;
        boff ← umod pos bs;
        let chunk := bs -! boff in
        let chunk := if count -! bytes_read <? chunk then count -! bytes_read else chunk in
        phys ← ext2_resolve_block_num di blk bs;
        '(data, block_buf) ←
          (if phys =? 0 then mret (zeroes chunk, block_buf)
           else
             '(_, block_buf) ← ext2_read_block phys block_buf;
             data ← copy_out block_buf boff chunk;
             mret (data, block_buf));
        read_loop fuel di bs offset count (bytes_read +! chunk) block_buf (out ++ data)
  end.

(** The result and the bytes stored in [buf]. *)
Definition ext2_read (i : inode) (count offset : Z) : M (Z * list Z) :=
  s ← st_get;
  let bs := e_block_size s in
  if size i <=? offset then mret (0, [])
  else
    let count := if size i <? offset +! count then size i -! offset else count in
    if count =? 0 then mret (0, [])
    else
      r ← kmalloc bs;
      match r with
      | None => mret (-1, [])
      | Some block_buf =>
          '(n, out) ← read_loop (S (Z.to_nat count)) (disk_inode i) bs offset count 0 block_buf [];
          kfree;;
          mret (s32 n, out)
      end.

Fixpoint write_loop (fuel : nat) (i : inode) (buf : list Z) (bs offset bytes_written : Z)
    (block_buf : list Z) : M (Z * inode) :=
  match fuel with
  | O => fun _ => Diverge
  | S fuel =>
      let count := Z.of_nat (length buf) in
      if count <=? bytes_written then mret (bytes_written, i)
      else
        let pos := offset +! bytes_written in
        blk ← udiv pos bs;
        boff ← umod pos bs;
        let chunk := bs -! boff in
        let chunk := if count -! bytes_written <? chunk then count -! bytes_written else chunk in
        phys ← ext2_resolve_block_num (disk_inode i) blk bs;
        r ← (if phys =? 0 then
               phys ← ext2_alloc_block;
               if phys =? 0 then mret (None, i)
               else
                 '(ret, di) ← ext2_assign_block_num (disk_inode i) blk phys bs;
                 if negb (ret =? 0) then ext2_free_block phys;; mret (None, with_disk i di)
                 else
                   let di := set_i_blocks (i_blocks di + bs / 512) di in
                   let i := with_blocks (with_disk i di) (i_blocks di) in
                   mret (Some (phys, zeroes bs), i)
             else if negb (boff =? 0) || negb (chunk =? bs) then
               '(_, block_buf) ← ext2_read_block phys block_buf;
               mret (Some (phys, block_buf), i)
             else mret (Some (phys, block_buf), i));
        match r with
        | (None, i) => mret (bytes_written, i)
        | (Some (phys, block_buf), i) =>
            data ← copy_out buf bytes_written chunk;
            block_buf ← copy_in block_buf boff data;
            ext2_write_block phys block_buf;;
            write_loop fuel i buf bs offset (bytes_written +! chunk) block_buf
        end
  end.

Definition ext2_write (i : inode) (buf : list Z) (offset : Z) : M (Z * inode) :=
  s ← st_get;
  let bs := e_block_size s in
  r ← kmalloc bs;
  match r with
  | None => mret (-1, i)
  | Some block_buf =>
      '(n, i) ← write_loop (S (length buf)) i buf bs offset 0 block_buf;
      kfree;;
      let end_ := offset +! n in
      let i := if size i <? end_ then with_disk (with_size i end_) (set_i_size end_ (disk_inode i)) else i in
      '(_, i) ← ext2_write_inode i;
      mret (s32 n, i)
  end.

(** [fs_stat_t] *)
Record fs_stat := {
  st_ino : Z; st_mode : Z; st_size : Z; st_uid : Z; st_gid : Z; st_nlink : Z;
  st_atime : Z; st_mtime : Z; st_ctime : Z; st_blksize : Z; st_blocks : Z
}.

Definition ext2_stat (i : inode) : Z * fs_stat :=
  (0, {| st_ino := ino i; st_mode := mode i; st_size := size i; st_uid := uid i; st_gid := gid i;
         st_nlink := nlink i; st_atime := atime i; st_mtime := mtime i; st_ctime := ctime i;
         st_blksize := blksize i; st_blocks := blocks i |}).

Definition ext2_chmod (i : inode) (m : Z) : M (Z * inode) :=
  ext2_write_inode (with_mode i (Z.lor (Z.land (mode i) FS_FILE_TYPE_MASK) (Z.land m 0xFFF))).

(** ** Directories (directory.c) *)
Definition ext2_get_dir_entry_type (ext2_type : Z) : Z :=
  if ext2_type =? EXT2_FT_REG_FILE then FS_FILE_TYPE_REGULAR
  else if ext2_type =? EXT2_FT_DIR then FS_FILE_TYPE_DIR
  else if ext2_type =? EXT2_FT_CHRDEV then FS_FILE_TYPE_CHAR
  else if ext2_type =? EXT2_FT_BLKDEV then FS_FILE_TYPE_BLOCK
  else if ext2_type =? EXT2_FT_FIFO then FS_FILE_TYPE_FIFO
  else if ext2_type =? EXT2_FT_SOCK then FS_FILE_TYPE_SOCKET
  else if ext2_type =? EXT2_FT_SYMLINK then FS_FILE_TYPE_LINK
  else 0.

Definition ext2_set_dir_entry_type (vfs_type : Z) : Z :=
  let t := Z.land vfs_type FS_FILE_TYPE_MASK in
  if t =? FS_FILE_TYPE_REGULAR then EXT2_FT_REG_FILE
  else if t =? FS_FILE_TYPE_DIR then EXT2_FT_DIR
  else if t =? FS_FILE_TYPE_CHAR then EXT2_FT_CHRDEV
  else if t =? FS_FILE_TYPE_BLOCK then EXT2_FT_BLKDEV
  else if t =? FS_FILE_TYPE_FIFO then EXT2_FT_FIFO
  else if t =? FS_FILE_TYPE_SOCKET then EXT2_FT_SOCK
  else if t =? FS_FILE_TYPE_LINK then EXT2_FT_SYMLINK
  else EXT2_FT_UNKNOWN.

(** [(8 + name_len + 3) & ~3U] *)
Definition ext2_dir_rec_len (name_len : Z) : Z := Z.land (8 + name_len + 3) (not32 3).

(** The fields of the entry at [off]. *)
Definition de_inode (buf : list Z) (off : Z) : M Z := rd 4 buf off.
Definition de_rec_len (buf : list Z) (off : Z) : M Z := rd 2 buf (off + 4).
Definition de_name_len (buf : list Z) (off : Z) : M Z := rd 1 buf (off + 6).

(** [de->inode != 0 && de->name_len == nlen && memcmp(de->name, name, nlen) == 0] *)
Definition de_matches (buf : list Z) (off : Z) (name : list Z) : M bool :=
  n ← de_inode buf off;
  if n =? 0 then mret false
  else
    nl ← de_name_len buf off;
    if negb (nl =? Z.of_nat (length name)) then mret false
    else
      nm ← copy_out buf (off + 8) (Z.of_nat (length name));
      mret (bool_decide (nm = name)).

(** [while (off < bs)] of the search: the offset of the matching entry. *)
Fixpoint find_in_block (fuel : nat) (buf name : list Z) (bs off : Z) : M (option Z) :=
  match fuel with
  | O => fun _ => Diverge
  | S fuel =>
      if bs <=? off then mret None
      else
        rl ← de_rec_len buf off;
        if rl =? 0 then mret None
        else
          m ← de_matches buf off name;
          if (m : bool) then mret (Some off)
          else find_in_block fuel buf name bs (off +! rl)
  end.

(** [for (b = 0; b < dir_blocks; b++)], [n] blocks are left.  The result is the
    copied entry. *)
Fixpoint find_blocks (n : nat) (b : Z) (di name : list Z) (bs : Z) (block_buf : list Z) :
    M (option (list Z)) :=
  match n with
  | O => kfree;; mret None
  | S n =>
      phys ← ext2_resolve_block_num di b bs;
      if phys =? 0 then find_blocks n (b + 1) di name bs block_buf
      else
        '(_, block_buf) ← ext2_read_block phys block_buf;
        r ← find_in_block (S (Z.to_nat bs)) block_buf name bs 0;
        match r with
        | None => find_blocks n (b + 1) di name bs block_buf
        | Some off =>
            nl ← de_name_len block_buf off;
            let total := ext2_dir_rec_len nl in
            copy ← kmalloc total;
            match copy with
            | None => kfree;; mret None
            | Some _ =>
                e ← copy_out block_buf off total;
                kfree;; mret (Some e)
            end
        end
  end.

Definition ext2_find_dir_entry (dir : inode) (name : list Z) : M (option (list Z)) :=
  if negb (FS_IS_DIR (mode dir)) then mret None
  else
    s ← st_get;
    let bs := e_block_size s in
    dir_blocks ← udiv (size dir +! bs -! 1) bs;
    r ← kmalloc bs;
    match r with
    | None => mret None
    | Some block_buf => find_blocks (Z.to_nat dir_blocks) 0 (disk_inode dir) name bs block_buf
    end.

Definition ext2_lookup (dir : inode) (name : list Z) : M (option inode) :=
  r ← ext2_find_dir_entry dir name;
  match r with
  | None => mret None
  | Some de =>
      n ← de_inode de 0;
      kfree;;
      ext2_read_inode n
  end.

(** An entry written at [off], with [rec_len] untouched. *)
Definition fill_entry (buf : list Z) (off n nlen type : Z) (name : list Z) : M (list Z) :=
  buf ← wr 4 buf off n;
  buf ← wr 1 buf (off + 6) nlen;
  buf ← wr 1 buf (off + 7) type;
  copy_in buf (off + 8) name.

(** [while (off < bs)] of the insertion: the block with the entry added. *)
Fixpoint add_in_block (fuel : nat) (buf name : list Z) (bs off n need nlen type : Z) :
    M (option (list Z)) :=
  match fuel with
  | O => fun _ => Diverge
  | S fuel =>
      if bs <=? off then mret None
      else
        rl ← de_rec_len buf off;
        if rl =? 0 then mret None
        else
          nl ← de_name_len buf off;
          let actual := ext2_dir_rec_len nl in
          let slack := rl -! actual in
          di ← de_inode buf off;
          if (di =? 0) && (need <=? rl) then
            buf ← fill_entry buf off n nlen type name;
            mret (Some buf)
          else if need <=? slack then
            buf ← wr 2 buf (off + 4) (u16 actual);
            let off := off +! actual in
            buf ← wr 2 buf (off + 4) (u16 slack);
            buf ← fill_entry buf off n nlen type name;
            mret (Some buf)
          else add_in_block fuel buf name bs (off +! rl) n need nlen type
  end.

(** Some (status): an entry was added to one of the [n] blocks left. *)
Fixpoint add_blocks (n : nat) (b : Z) (di name : list Z) (bs inum need nlen type : Z)
    (block_buf : list Z) : M bool :=
  match n with
  | O => mret false
  | S n =>
      phys ← ext2_resolve_block_num di b bs;
      if phys =? 0 then add_blocks n (b + 1) di name bs inum need nlen type block_buf
      else
        '(_, block_buf) ← ext2_read_block phys block_buf;
        r ← add_in_block (S (Z.to_nat bs)) block_buf name bs 0 inum need nlen type;
        match r with
        | None => add_blocks n (b + 1) di name bs inum need nlen type block_buf
        | Some buf => ext2_write_block phys buf;; kfree;; mret true
        end
  end.

Definition ext2_add_dir_entry (dir : inode) (name : list Z) (inum type : Z) : M (Z * inode) :=
  if inum =? 0 then mret (-1, dir)
  else
    s ← st_get;
    let bs := e_block_size s in
    let raw_len := Z.of_nat (length name) in
    if 255 <? raw_len then mret (-1, dir)
    else
      let nlen := u8 raw_len in
      let need := ext2_dir_rec_len nlen in
      dir_blocks ← udiv (size dir +! bs -! 1) bs;
      r ← kmalloc bs;
      match r with
      | None => mret (-1, dir)
      | Some block_buf =>
          added ← add_blocks (Z.to_nat dir_blocks) 0 (disk_inode dir) name bs inum need nlen type block_buf;
          if (added : bool) then mret (0, dir)
          else
            new_blk ← ext2_alloc_block;
            if new_blk =? 0 then kfree;; mret (-1, dir)
            else
              '(ret, di) ← ext2_assign_block_num (disk_inode dir) dir_blocks new_blk bs;
              if negb (ret =? 0) then
                ext2_free_block new_blk;; kfree;; mret (-1, with_disk dir di)
              else
                buf ← fill_entry (zeroes bs) 0 inum nlen type name;
                buf ← wr 2 buf 4 (u16 bs);
                ext2_write_block new_blk buf;;
                kfree;;
                let dir := with_size dir (size dir +! bs) in
                let di := set_i_size (size dir) di in
                let di := set_i_blocks (i_blocks di + bs / 512) di in
                let dir := with_blocks (with_disk dir di) (i_blocks di) in
                '(_, dir) ← ext2_write_inode dir;
                mret (0, dir)
      end.

(** [while (off < bs)] of the removal; [prev] is the offset of the entry before. *)
Fixpoint remove_in_block (fuel : nat) (buf name : list Z) (bs off : Z) (prev : option Z) :
    M (option (list Z)) :=
  match fuel with
  | O => fun _ => Diverge
  | S fuel =>
      if bs <=? off then mret None
      else
        rl ← de_rec_len buf off;
        if rl =? 0 then mret None
        else
          m ← de_matches buf off name;
          if (m : bool) then
            match prev with
            | Some p =>
                prl ← de_rec_len buf p;
                buf ← wr 2 buf (p + 4) (u16 (prl + rl));
                mret (Some buf)
            | None => buf ← wr 4 buf off 0; mret (Some buf)
            end
          else remove_in_block fuel buf name bs (off +! rl) (Some off)
  end.

Fixpoint remove_blocks (n : nat) (b : Z) (di name : list Z) (bs : Z) (block_buf : list Z) : M Z :=
  match n with
  | O => kfree;; mret (-1)
  | S n =>
      phys ← ext2_resolve_block_num di b bs;
      if phys =? 0 then remove_blocks n (b + 1) di name bs block_buf
      else
        '(_, block_buf) ← ext2_read_block phys block_buf;
        r ← remove_in_block (S (Z.to_nat bs)) block_buf name bs 0 None;
        match r with
        | None => remove_blocks n (b + 1) di name bs block_buf
        | Some buf => ext2_write_block phys buf;; kfree;; mret 0
        end
  end.

Definition ext2_remove_dir_entry (dir : inode) (name : list Z) : M Z :=
  s ← st_get;
  let bs := e_block_size s in
  dir_blocks ← udiv (size dir +! bs -! 1) bs;
  r ← kmalloc bs;
  match r with
  | None => mret (-1)
  | Some block_buf => remove_blocks (Z.to_nat dir_blocks) 0 (disk_inode dir) name bs block_buf
  end.

(** [ext2_readdir]: the loop is that of [ext2_read]. *)
Definition ext2_readdir (dir : inode) (sz offset : Z) : M (Z * list Z) :=
  if negb (FS_IS_DIR (mode dir)) then mret (-1, [])
  else
    s ← st_get;
    let bs := e_block_size s in
    if size dir <=? offset then mret (0, [])
    else
      let sz := if size dir <? offset +! sz then size dir -! offset else sz in
      if sz =? 0 then mret (0, [])
      else
        r ← kmalloc bs;
        match r with
        | None => mret (-1, [])
        | Some block_buf =>
            '(n, out) ← read_loop (S (Z.to_nat sz)) (disk_inode dir) bs offset sz 0 block_buf [];
            kfree;;
            mret (s32 n, out)
        end.

Definition ext2_create (dir : inode) (name : list Z) (m : Z) : M (Z * inode) :=
  new_ino ← ext2_alloc_inode;
  if new_ino =? 0 then mret (-1, dir)
  else
    let raw := zeroes sizeof_inode in
    let raw := set_i_mode (Z.lor FS_FILE_TYPE_REGULAR (Z.land m 0xFFF)) raw in
    let raw := set_i_links 1 raw in
    ext2_write_inode_raw new_ino raw;;
    '(ret, dir) ← ext2_add_dir_entry dir name new_ino EXT2_FT_REG_FILE;
    if negb (ret =? 0) then ext2_free_inode new_ino;; mret (-1, dir)
    else mret (0, dir).

(** The first block of a new directory: the entries "." and "..". *)
Definition new_dir_block (bs new_ino parent : Z) : M (list Z) :=
  buf ← fill_entry (zeroes bs) 0 new_ino 1 EXT2_FT_DIR [46];
  buf ← wr 2 buf 4 12;
  buf ← fill_entry buf 12 parent 2 EXT2_FT_DIR [46; 46];
  wr 2 buf (12 + 4) (u16 (bs - 12)).

Definition ext2_mkdir (dir : inode) (name : list Z) (m : Z) : M (Z * inode) :=
  s ← st_get;
  let bs := e_block_size s in
  new_ino ← ext2_alloc_inode;
  if new_ino =? 0 then mret (-1, dir)
  else
    blk ← ext2_alloc_block;
    if blk =? 0 then ext2_free_inode new_ino;; mret (-1, dir)
    else
      r ← kmalloc bs;
      match r with
      | None => ext2_free_block blk;; ext2_free_inode new_ino;; mret (-1, dir)
      | Some _ =>
          buf ← new_dir_block bs new_ino (ino dir);
          ext2_write_block blk buf;;
          kfree;;
          let raw := zeroes sizeof_inode in
          let raw := set_i_mode (Z.lor FS_FILE_TYPE_DIR (Z.land m 0xFFF)) raw in
          let raw := set_i_size bs raw in
          let raw := set_i_links 2 raw in
          let raw := set_i_blocks (bs / 512) raw in
          let raw := set_i_block 0 blk raw in
          ext2_write_inode_raw new_ino raw;;
          '(ret, dir) ← ext2_add_dir_entry dir name new_ino EXT2_FT_DIR;
          if negb (ret =? 0) then
            ext2_free_block blk;; ext2_free_inode new_ino;; mret (-1, dir)
          else
            '(_, dir) ← ext2_write_inode (with_nlink dir (nlink dir +! 1));
            s ← st_get;
            group ← udiv (new_ino -! 1) (s_inodes_per_group (e_sb s));
            gd ← get_gd group;
            put_gd group (set_bg_used_dirs (bg_used_dirs_count gd + 1) gd);;
            ext2_flush_group_desc group;;
            mret (0, dir)
      end.

Definition ext2_unlink (dir : inode) (name : list Z) : M Z :=
  r ← ext2_lookup dir name;
  match r with
  | None => mret (-1)
  | Some target =>
      if FS_IS_DIR (mode target) then inode_put target;; mret (-1)
      else
        ret ← ext2_remove_dir_entry dir name;
        if negb (ret =? 0) then inode_put target;; mret (-1)
        else
          let target := with_nlink target (nlink target -! 1) in
          target ← (if nlink target =? 0 then '(_, t) ← ext2_delete_inode target; mret t
                    else '(_, t) ← ext2_write_inode target; mret t);
          inode_put target;;
          mret 0
  end.

(** The entries in use of one block. *)
Fixpoint count_in_block (fuel : nat) (buf : list Z) (bs off count : Z) : M Z :=
  match fuel with
  | O => fun _ => Diverge
  | S fuel =>
      if bs <=? off then mret count
      else
        rl ← de_rec_len buf off;
        if rl =? 0 then mret count
        else
          n ← de_inode buf off;
          count_in_block fuel buf bs (off +! rl) (if n =? 0 then count else count + 1)
  end.

Fixpoint count_blocks (n : nat) (b : Z) (di : list Z) (bs : Z) (block_buf : list Z) (count : Z) : M Z :=
  match n with
  | O => mret count
  | S n =>
      phys ← ext2_resolve_block_num di b bs;
      if phys =? 0 then count_blocks n (b + 1) di bs block_buf count
      else
        '(_, block_buf) ← ext2_read_block phys block_buf;
        count ← count_in_block (S (Z.to_nat bs)) block_buf bs 0 count;
        count_blocks n (b + 1) di bs block_buf count
  end.

Definition ext2_rmdir (dir : inode) (name : list Z) : M (Z * inode) :=
  r ← ext2_lookup dir name;
  match r with
  | None => mret (-1, dir)
  | Some target =>
      if negb (FS_IS_DIR (mode target)) then inode_put target;; mret (-1, dir)
      else
        s ← st_get;
        let bs := e_block_size s in
        r ← kmalloc bs;
        match r with
        | None => inode_put target;; mret (-1, dir)
        | Some block_buf =>
            blks ← udiv (size target +! bs -! 1) bs;
            entry_count ← count_blocks (Z.to_nat blks) 0 (disk_inode target) bs block_buf 0;
            kfree;;
            if 2 <? entry_count then inode_put target;; mret (-1, dir)
            else
              ret ← ext2_remove_dir_entry dir name;
              if negb (ret =? 0) then inode_put target;; mret (-1, dir)
              else
                '(_, dir) ← ext2_write_inode (with_nlink dir (nlink dir -! 1));
                '(_, target) ← ext2_delete_inode target;
                s ← st_get;
                group ← udiv (ino target -! 1) (s_inodes_per_group (e_sb s));
                gd ← get_gd group;
                (if 0 <? bg_used_dirs_count gd
                 then put_gd group (set_bg_used_dirs (bg_used_dirs_count gd - 1) gd)
                 else mret tt);;
                ext2_flush_group_desc group;;
                inode_put target;;
                mret (0, dir)
        end
  end.

(** ** Mounting (superblock.c) *)

(** [dev->ops->read_blocks(dev, 2, 2, sb)] in 512-byte sectors. *)
Definition ext2_read_superblock (buf : list Z) : M (Z * list Z) := fun s =>
  match bd_read_blocks 2 2 (e_dev s) with
  | (Some data, d) => Ret ((0, data), set_dev d s)
  | (None, d) => Ret ((-1, buf), set_dev d s)
  end.

(** [1024U << sb->s_log_block_size]; a shift by 32 or more is undefined. *)
Definition block_size_of (sb : list Z) : outcome Z :=
  if s_log_block_size sb <? 32 then Ret (u32 (Z.shiftl 1024 (s_log_block_size sb))) else Fault.

Definition ext2_validate_superblock (sb : list Z) : outcome Z :=
  if negb (s_magic sb =? EXT2_MAGIC) then Ret (-1)
  else
    block_size ← block_size_of sb;
    if (block_size <? EXT2_MIN_BLOCK_SIZE) || (EXT2_MAX_BLOCK_SIZE <? block_size) then Ret (-1)
    else if EXT2_DYNAMIC_REV <? s_rev_level sb then Ret (-1)
    else Ret 0.

(** [while (read < count)]: descriptors of one block at a time. *)
Fixpoint read_group_blocks (fuel : nat) (gd_block gd_per_block count : Z) (buf : list Z)
    (groups : list (list Z)) : M (list (list Z)) :=
  match fuel with
  | O => fun _ => Diverge
  | S fuel =>
      let read := Z.of_nat (length groups) in
      if count <=? read then mret groups
      else
        '(_, buf) ← ext2_read_block gd_block buf;
        let n := count - read in
        let n := if gd_per_block <? n then gd_per_block else n in
        bytes ← copy_out buf 0 (n *! sizeof_group_desc);
        read_group_blocks fuel (gd_block +! 1) gd_per_block count buf
          (groups ++ chunks (Z.to_nat n) (Z.to_nat sizeof_group_desc) bytes)
  end.

Definition ext2_read_group_desc (sb : list Z) (count : Z) : M (Z * list (list Z)) :=
  if count =? 0 then mret (-1, [])
  else
    block_size ← st_lift (block_size_of sb);
    let gd_per_block := block_size / sizeof_group_desc in
    r ← kmalloc block_size;
    match r with
    | None => mret (-1, [])
    | Some buf =>
        groups ← read_group_blocks (S (Z.to_nat count)) (s_first_data_block sb +! 1) gd_per_block count buf [];
        kfree;;
        mret (0, groups)
    end.

Definition ext2_get_block_group (sb : list Z) (n b : Z) : M Z :=
  if negb (n =? 0) then udiv (n -! 1) (s_inodes_per_group sb)
  else udiv (b -! s_first_data_block sb) (s_blocks_per_group sb).

(** [superblock_t] of a mounted volume. *)
Record superblock := { blocksize : Z; blocksize_bits : Z; root : inode }.

Definition ext2_fill_super : M (option superblock) :=
  r ← kmalloc sizeof_fs_data;
  match r with
  | None => mret None
  | Some _ =>
      r ← kmalloc sizeof_superblock;
      match r with
      | None => kfree;; mret None
      | Some raw_sb =>
          '(ret, raw_sb) ← ext2_read_superblock raw_sb;
          if negb (ret =? 0) then kfree;; kfree;; mret None
          else
            valid ← st_lift (ext2_validate_superblock raw_sb);
            if negb (valid =? 0) then kfree;; kfree;; mret None
            else
              block_size ← st_lift (block_size_of raw_sb);
              let inode_size := inode_size_of raw_sb in
              groups_count ← udiv (s_blocks_count raw_sb -! s_first_data_block raw_sb
                                     +! s_blocks_per_group raw_sb -! 1) (s_blocks_per_group raw_sb);
              inodes_per_block ← udiv block_size inode_size;
              itable_blocks ← udiv (s_inodes_per_group raw_sb *! inode_size +! block_size -! 1) block_size;
              st_modify (fun s =>
                {| e_dev := bd_set_block_size block_size (e_dev s); e_heap := e_heap s; e_sb := raw_sb;
                   e_group_desc := []; e_groups_count := groups_count; e_block_size := block_size;
                   e_inodes_per_block := inodes_per_block; e_itable_blocks := itable_blocks |});;
              r ← kmalloc (groups_count *! sizeof_group_desc);
              match r with
              | None => kfree;; kfree;; mret None
              | Some _ =>
                  '(ret, groups) ← ext2_read_group_desc raw_sb groups_count;
                  if negb (ret =? 0) then kfree;; kfree;; kfree;; mret None
                  else
                    st_modify (set_gds groups);;
                    r ← ext2_read_inode EXT2_ROOT_INO;
                    match r with
                    | None => kfree;; kfree;; kfree;; mret None
                    | Some i =>
                        mret (Some {| blocksize := block_size;
                                      blocksize_bits := 10 +! s_log_block_size raw_sb;
                                      root := i |})
                    end
              end
      end
  end.

(** The group descriptors and the superblock are given back. *)
Definition ext2_put_superblock : M unit :=
  kfree;; kfree;;
  st_modify (fun s => set_sb [] (set_gds [] s)).

Fixpoint sync_groups (n : nat) (g : Z) : M unit :=
  match n with
  | O => mret tt
  | S n => ext2_flush_group_desc g;; sync_groups n (g + 1)
  end.

Definition ext2_sync : M Z :=
  s ← st_get;
  ext2_flush_superblock;;
  sync_groups (Z.to_nat (e_groups_count s)) 0;;
  mret 0.

(** The six words [ext2_statfs] stores. *)
Definition ext2_statfs : M (Z * list Z) :=
  s ← st_get;
  mret (0, [s_blocks_count (e_sb s); s_free_blocks_count (e_sb s); s_inodes_count (e_sb s);
            s_free_inodes_count (e_sb s); e_block_size s; s_blocks_per_group (e_sb s)]).

End code.
Arguments ext2 D H : clear implicits.
