(* ===== verification/Ext2Proof.v ===== *)
(** * Correctness of the ext2 file system's allocation and inode I/O

    The device is any [HealthyDevice], the heap any [KHeap], which may refuse
    every request.  [fs_wf] is the on-disk layout the code relies on: bitmaps
    inside the device and apart from the superblock and the group descriptors. *)

From S2P Require Import Prelude BlockDev Ext2.

(** ** Bytes and fields *)
Lemma get_u8_znth buf off : get_le 1 buf off = znth buf off.
Proof.
  unfold get_le, slice, znth. destruct (Z.leb_spec 0 off); cbn [andb]; [|done].
  change (0 <=? Z.of_nat 1) with true. cbn [andb]. destruct (Z.leb_spec (off + Z.of_nat 1) (Z.of_nat (length buf))).
  - destruct (buf !! Z.to_nat off) as [x|] eqn:Hx; [|apply lookup_ge_None in Hx; lia].
    rewrite (drop_S buf x (Z.to_nat off) Hx), Nat2Z.id. change (Some (x + 256 * 0) = Some x). f_equal. lia.
  - cbn. symmetry. apply lookup_ge_None. lia.
Qed.

Lemma blit_one buf off v : 0 <= off < Z.of_nat (length buf) ->
  blit buf off [v] = Some (<[Z.to_nat off := v]> buf).
Proof.
  intros Hoff. unfold blit. cbn [length]. case_bool; [|lia]. f_equal.
  rewrite insert_take_drop by lia. cbn. do 3 f_equal. lia.
Qed.

Lemma put_u8_insert buf off v : 0 <= off < Z.of_nat (length buf) ->
  put_le 1 buf off v = Some (<[Z.to_nat off := v mod 256]> buf).
Proof. intros. unfold put_le. cbn [le_bytes]. by apply blit_one. Qed.

(** Bit [i] of a bitmap. *)
Definition bm_bit (bm : list Z) (i : Z) : bool :=
  Z.testbit (default 0 (znth bm (i / 8))) (i mod 8).

Definition buf_ok (bs : Z) (buf : list Z) : Prop :=
  Z.of_nat (length buf) = bs /\ Forall is_u8 buf.

Lemma buf_ok_insert bs buf off v : buf_ok bs buf -> is_u8 v -> buf_ok bs (<[off := v]> buf).
Proof.
  intros [Hl Hb] Hv. split; [by rewrite length_insert|]. by apply Forall_insert.
Qed.

Lemma buf_ok_znth bs buf k : buf_ok bs buf -> 0 <= k < bs ->
  exists b, znth buf k = Some b /\ is_u8 b.
Proof.
  intros [Hl Hb] Hk. destruct (znth_Some buf k) as [b Hz]; [lia|]. exists b. split; [done|].
  apply znth_inv in Hz as [_ Hz]. by eapply Forall_lookup_1 in Hz; [|exact Hb].
Qed.

Lemma mask_bit b k : is_u8 b -> 0 <= k < 8 ->
  negb (Z.land b (Z.shiftl 1 k) =? 0) = Z.testbit b k.
Proof.
  intros Hb Hk. destruct (Z.testbit b k) eqn:E.
  - apply negb_true_iff, Z.eqb_neq. intros H0.
    assert (H : Z.testbit (Z.land b (Z.shiftl 1 k)) k = true).
    { rewrite Z.land_spec, shiftl_1_testbit, Z.eqb_refl, E by lia. done. }
    by rewrite H0, Z.bits_0 in H.
  - apply negb_false_iff, Z.eqb_eq, Z.bits_inj'. intros i Hi.
    rewrite Z.land_spec, shiftl_1_testbit, Z.bits_0 by lia.
    destruct (Z.eqb_spec i k) as [->|]; [by rewrite E|by rewrite andb_false_r].
Qed.

Lemma set_mask b k i : is_u8 b -> 0 <= k < 8 -> 0 <= i < 8 ->
  Z.testbit (u8 (Z.lor b (Z.shiftl 1 k)) mod 256) i = Z.testbit b i || (i =? k).
Proof.
  intros Hb Hk Hi. unfold u8. rewrite Z.mod_mod by lia. change 256 with (2 ^ 8).
  rewrite Z.mod_pow2_bits_low, Z.lor_spec, shiftl_1_testbit by lia. done.
Qed.

Lemma clear_mask b k i : is_u8 b -> 0 <= k < 8 -> 0 <= i < 8 ->
  Z.testbit (u8 (Z.land b (not32 (Z.shiftl 1 k))) mod 256) i = Z.testbit b i && negb (i =? k).
Proof.
  intros Hb Hk Hi. unfold u8. rewrite Z.mod_mod by lia. change 256 with (2 ^ 8).
  rewrite Z.mod_pow2_bits_low, Z.land_spec by lia. unfold not32.
  rewrite u32_testbit, Z.lnot_spec, shiftl_1_testbit by lia.
  destruct (Z.ltb_spec i 32); [done|lia].
Qed.

Lemma bm_bit_insert bm k v i : 0 <= k < Z.of_nat (length bm) -> 0 <= i ->
  bm_bit (<[Z.to_nat k := v]> bm) i =
    if i / 8 =? k then Z.testbit v (i mod 8) else bm_bit bm i.
Proof.
  intros Hk Hi. unfold bm_bit, znth. destruct (Z.leb_spec 0 (i / 8)); [|zlia].
  destruct (Z.eqb_spec (i / 8) k) as [<-|Hne].
  - by rewrite list_lookup_insert_eq by lia.
  - by rewrite list_lookup_insert_ne by lia.
Qed.

(** ** Fields of structures *)
Lemma length_set_fld n buf off v : length (set_fld n buf off v) = length buf.
Proof.
  unfold set_fld. destruct (put_le n buf off v) as [b|] eqn:E; [|done]. cbn.
  by apply blit_length in E.
Qed.

Lemma put_le_is_Some n buf off v : 0 <= off -> off + Z.of_nat n <= Z.of_nat (length buf) ->
  exists b, put_le n buf off v = Some b.
Proof. intros. unfold put_le. apply blit_is_Some; [done|by rewrite length_le_bytes]. Qed.

Lemma fld_set_same n buf off v : 0 <= off -> off + Z.of_nat n <= Z.of_nat (length buf) ->
  0 <= v < 256 ^ Z.of_nat n -> fld n (set_fld n buf off v) off = v.
Proof.
  intros H1 H2 H3. destruct (put_le_is_Some n buf off v H1 H2) as [b Hb].
  unfold fld, set_fld. rewrite Hb. cbn. by rewrite (get_put_le_same n buf off v b Hb H3).
Qed.

Lemma fld_set_other n m buf off v off2 :
  off2 + Z.of_nat m <= off \/ off + Z.of_nat n <= off2 ->
  fld m (set_fld n buf off v) off2 = fld m buf off2.
Proof.
  intros Hd. unfold set_fld. destruct (put_le n buf off v) as [b|] eqn:E; [|done]. cbn.
  unfold fld. by rewrite (get_put_le_other n m buf off v b off2 E Hd).
Qed.

Lemma blit_bytes buf off src b : blit buf off src = Some b ->
  Forall is_u8 buf -> Forall is_u8 src -> Forall is_u8 b.
Proof.
  unfold blit. case_bool; [|done]. intros [= <-] Hb Hs.
  apply Forall_app_2; [by apply Forall_take|]. apply Forall_app_2; [done|by apply Forall_drop].
Qed.

Lemma bytes_set_fld n buf off v : Forall is_u8 buf -> Forall is_u8 (set_fld n buf off v).
Proof.
  intros Hb. unfold set_fld. destruct (put_le n buf off v) as [b|] eqn:E; [|done]. cbn.
  eapply blit_bytes; [exact E|done|apply le_bytes_range].
Qed.

Lemma fld_range n buf off : Forall is_u8 buf -> 0 <= fld n buf off < 256 ^ Z.of_nat n.
Proof.
  intros Hb. unfold fld, get_le. destruct (slice buf off (Z.of_nat n)) as [l|] eqn:E; cbn; [|lia].
  assert (Hl : length l = n) by (apply slice_length in E; lia).
  rewrite <- Hl. apply le_val_range. unfold slice in E. revert E. case_bool; [|done]. intros [= <-].
  by apply Forall_take, Forall_drop.
Qed.

Section proofs.
Context {D H : Type} `{!BlockDevice D} `{!HealthyDevice D} `{!KHeap H}.
Implicit Types s : ext2 D H.

(** ** Layout *)
Definition blk s (c : Z) : list Z := bd_block (e_dev s) c.
Definition in_dev s (c : Z) : Prop := 0 <= c < bd_blocks (e_dev s).

Definition sb_block s : Z := if e_block_size s =? 1024 then 1 else 0.
Definition gd_block s (g : Z) : Z :=
  s_first_data_block (e_sb s) + 1 + g / (e_block_size s / sizeof_group_desc).
Definition bitmap_of s (g : Z) : Z :=
  default 0 (bg_block_bitmap <$> znth (e_group_desc s) g).
Definition inode_bitmap_of s (g : Z) : Z :=
  default 0 (bg_inode_bitmap <$> znth (e_group_desc s) g).

Definition meta s (c : Z) : Prop :=
  c = sb_block s \/ exists g, 0 <= g < e_groups_count s /\ c = gd_block s g.

Record fs_wf s : Prop := {
  w_bs : e_block_size s = bd_bs (e_dev s);
  w_bs_val : e_block_size s = 1024 \/ e_block_size s = 2048 \/ e_block_size s = 4096;
  w_sb : buf_ok 1024 (e_sb s);
  w_gds : Z.of_nat (length (e_group_desc s)) = e_groups_count s;
  w_gd : Forall (buf_ok 32) (e_group_desc s);
  w_gc : 0 < e_groups_count s < 4294967296;
  w_bpg : 0 < s_blocks_per_group (e_sb s) <= 8 * e_block_size s;
  w_ipg : 0 < s_inodes_per_group (e_sb s) <= 8 * e_block_size s;
  w_last : s_first_data_block (e_sb s) + (e_groups_count s - 1) * s_blocks_per_group (e_sb s)
             < s_blocks_count (e_sb s);
  w_total : s_blocks_count (e_sb s) <=
              s_first_data_block (e_sb s) + e_groups_count s * s_blocks_per_group (e_sb s)
              /\ s_first_data_block (e_sb s) + e_groups_count s * s_blocks_per_group (e_sb s) < 4294967296;
  w_itotal : e_groups_count s * s_inodes_per_group (e_sb s) < 4294967296;
  w_meta : forall c, meta s c -> in_dev s c;
  w_gdb : forall g, 0 <= g < e_groups_count s -> is_u32 (gd_block s g);
  w_bm : forall g, 0 <= g < e_groups_count s ->
    in_dev s (bitmap_of s g) /\ ~ meta s (bitmap_of s g) /\
    in_dev s (inode_bitmap_of s g) /\ ~ meta s (inode_bitmap_of s g);
  w_bm_dist : forall g g', 0 <= g < e_groups_count s -> 0 <= g' < e_groups_count s ->
    bitmap_of s g = bitmap_of s g' -> g = g';
  w_ibm_dist : forall g g', 0 <= g < e_groups_count s -> 0 <= g' < e_groups_count s ->
    inode_bitmap_of s g = inode_bitmap_of s g' -> g = g';
  w_bm_ibm : forall g g', 0 <= g < e_groups_count s -> 0 <= g' < e_groups_count s ->
    bitmap_of s g <> inode_bitmap_of s g'
}.

(** Block [i] of group [g] is marked used. *)
Definition block_bit s (g i : Z) : bool := bm_bit (blk s (bitmap_of s g)) i.

(** Requests for memory refused so far, and between two states of a run. *)
Definition refusals s : nat := kh_refusals (e_heap s).
Definition refused s s' : Prop := (refusals s < refusals s')%nat.

(** The same metadata and the same device but for the blocks outside [P]. *)
Record same_but s s' (P : Z -> Prop) : Prop := {
  sm_sb : e_sb s' = e_sb s;
  sm_gds : e_group_desc s' = e_group_desc s;
  sm_gc : e_groups_count s' = e_groups_count s;
  sm_bs : e_block_size s' = e_block_size s;
  sm_blocks : bd_blocks (e_dev s') = bd_blocks (e_dev s);
  sm_dbs : bd_bs (e_dev s') = bd_bs (e_dev s);
  sm_blk : forall c, in_dev s c -> P c -> blk s' c = blk s c;
  sm_ref : (refusals s <= refusals s')%nat
}.

Lemma same_but_refl s P : same_but s s P.
Proof. by split. Qed.

Lemma same_but_heap s h P : (refusals s <= kh_refusals h)%nat -> same_but s (set_heap h s) P.
Proof. by split. Qed.

Lemma same_but_trans s1 s2 s3 P Q : same_but s1 s2 P -> same_but s2 s3 Q ->
  same_but s1 s3 (fun c => P c /\ Q c).
Proof.
  intros [A1 A2 A3 A4 A5 A6 A7 A8] [B1 B2 B3 B4 B5 B6 B7 B8]. split; try congruence; [|lia].
  intros c Hc [HP HQ]. rewrite B7, A7; try done. unfold in_dev in *. by rewrite A5.
Qed.

(** Reading before, reading after, and giving a buffer back. *)
Lemma same_but_true s1 s2 s3 : same_but s1 s2 (fun _ => True) -> same_but s2 s3 (fun _ => True) -> same_but s1 s3 (fun _ => True).
Proof. intros H1 H2. pose proof (same_but_trans _ _ _ _ _ H1 H2) as []. split; auto. Qed.

Lemma refused_later s s1 s' : (refusals s <= refusals s1)%nat -> refused s1 s' -> refused s s'.
Proof. unfold refused. lia. Qed.
Lemma refused_sooner s s1 s' : (refusals s1 <= refusals s')%nat -> refused s s1 -> refused s s'.
Proof. unfold refused. lia. Qed.

Lemma same_but_weaken s s' (P Q : Z -> Prop) :
  same_but s s' P -> (forall c, Q c -> P c) -> same_but s s' Q.
Proof. intros [] HPQ. split; auto. Qed.

Lemma same_but_in_dev s s' P c : same_but s s' P -> in_dev s c <-> in_dev s' c.
Proof. intros []. unfold in_dev. by rewrite sm_blocks0. Qed.

Lemma same_but_wf s s' P : same_but s s' P -> fs_wf s -> fs_wf s'.
Proof.
  intros [E1 E2 E3 E4 E5 E6 _ _] [].
  split; unfold meta, in_dev, sb_block, gd_block, bitmap_of, inode_bitmap_of in *;
    rewrite ?E1, ?E2, ?E3, ?E4, ?E5, ?E6; done.
Qed.

(** ** Rules for heap and device *)

(** The heap has no block buffer to give. *)
Definition no_buffer s : Prop := (kh_malloc (e_block_size s) (e_heap s)).1 = None.

Lemma wp_buf_alloc n s Q : 0 <= n ->
  (forall h, (kh_malloc n (e_heap s)).1 = None -> refused s (set_heap h s) -> Q None (set_heap h s)) ->
  (forall h junk, buf_ok n junk -> (refusals s <= kh_refusals h)%nat -> Q (Some junk) (set_heap h s)) -> wp (kmalloc n) s Q.
Proof.
  intros Hn HN HS. unfold wp, kmalloc. destruct (kh_malloc n (e_heap s)) as [[junk|] h] eqn:E.
  - apply HS; [by apply (kh_len n (e_heap s) junk h)|]. unfold refusals. by rewrite (kh_grant _ _ _ _ E).
  - apply HN; [done|]. unfold refused, refusals. cbn [e_heap set_heap]. rewrite (kh_refuse _ _ _ E). lia.
Qed.

Lemma wp_buf_free s Q : (forall h, (refusals s <= kh_refusals h)%nat -> Q tt (set_heap h s)) -> wp kfree s Q.
Proof. intros HQ. apply wp_modify, HQ. unfold refusals. by rewrite kh_release. Qed.

Lemma same_but_heap_l s h s' P : (refusals s <= kh_refusals h)%nat -> same_but (set_heap h s) s' P -> same_but s s' P.
Proof. intros Hle []. split; try done. etrans; [exact Hle|done]. Qed.
Lemma same_but_heap_r s h s' P : same_but s s' P -> (refusals s' <= kh_refusals h)%nat -> same_but s (set_heap h s') P.
Proof. intros [] Hle. split; try done. etrans; [done|exact Hle]. Qed.

Lemma refused_heap s h : refused s (set_heap h s) -> (refusals s <= kh_refusals h)%nat.
Proof. unfold refused, refusals. cbn. lia. Qed.

Lemma wp_read_block s b buf Q : in_dev s b ->
  (forall s', same_but s s' (fun _ => True) -> e_heap s' = e_heap s -> Q (0, blk s b) s') ->
  wp (ext2_read_block b buf) s Q.
Proof.
  intros Hb HQ. unfold wp, ext2_read_block.
  destruct (bd_read_ok _ _ Hb) as (d' & -> & Hbl & Hbs & Hc).
  apply HQ; [|done]. split; try done. intros c Hic _. exact (Hc c Hic).
Qed.

Lemma wp_write_block s b buf Q : in_dev s b -> buf_ok (bd_bs (e_dev s)) buf ->
  (forall s', same_but s s' (fun c => c <> b) -> blk s' b = buf -> Q 0 s') ->
  wp (ext2_write_block b buf) s Q.
Proof.
  intros Hb [Hl Hu] HQ. unfold wp, ext2_write_block.
  destruct (bd_write_ok (e_dev s) b buf Hb Hl Hu) as (d' & -> & Hbl & Hbs & Hc).
  apply HQ.
  - split; try done. intros c Hic Hne. unfold blk. cbn [e_dev set_dev]. rewrite Hc by done.
    by destruct (Z.eqb_spec c b).
  - unfold blk. cbn [e_dev set_dev]. rewrite Hc by done. by rewrite Z.eqb_refl.
Qed.

Lemma wp_udiv s x y Q : y <> 0 -> Q (x / y) s -> wp (udiv x y) s Q.
Proof. intros Hy HQ. unfold udiv. destruct (Z.eqb_spec y 0); [done|]. by apply wp_ret. Qed.

Lemma wp_umod s x y Q : y <> 0 -> Q (x mod y) s -> wp (umod x y) s Q.
Proof. intros Hy HQ. unfold umod. destruct (Z.eqb_spec y 0); [done|]. by apply wp_ret. Qed.

Lemma wp_get_gd s g gd Q : znth (e_group_desc s) g = Some gd -> Q gd s -> wp (get_gd g) s Q.
Proof. intros Hg HQ. unfold wp, get_gd. by rewrite Hg. Qed.

Lemma wp_put_gd s g gd Q : 0 <= g < Z.of_nat (length (e_group_desc s)) ->
  Q tt (set_gds (<[Z.to_nat g := gd]> (e_group_desc s)) s) -> wp (put_gd g gd) s Q.
Proof. intros Hg HQ. unfold wp, put_gd. by rewrite zset_Some. Qed.

Lemma wp_copy_in s buf off src Q :
  0 <= off -> off + Z.of_nat (length src) <= Z.of_nat (length buf) ->
  (forall b, blit buf off src = Some b -> Q b s) -> wp (copy_in buf off src) s Q.
Proof.
  intros H1 H2 HQ. unfold wp, copy_in, st_lift. destruct (blit_is_Some buf off src H1 H2) as [b Hb].
  rewrite Hb. by apply HQ.
Qed.

Lemma blk_ok s b : fs_wf s -> in_dev s b -> buf_ok (e_block_size s) (blk s b).
Proof.
  intros Hwf Hb. rewrite (w_bs _ Hwf). split; [by apply bd_block_len|by apply bd_block_bytes].
Qed.

Lemma wf_gd s g : fs_wf s -> 0 <= g < e_groups_count s ->
  exists gd, znth (e_group_desc s) g = Some gd /\ buf_ok 32 gd /\
    bg_block_bitmap gd = bitmap_of s g /\ bg_inode_bitmap gd = inode_bitmap_of s g.
Proof.
  intros Hwf Hg. destruct (znth_Some (e_group_desc s) g) as [gd Hgd]; [rewrite (w_gds _ Hwf); done|].
  exists gd. split; [done|]. unfold bitmap_of, inode_bitmap_of. rewrite Hgd. split; [|done].
  apply znth_inv in Hgd as [_ Hgd]. by eapply Forall_lookup_1 in Hgd; [|apply (w_gd _ Hwf)].
Qed.

(** A block is written and the buffer given back; [s] is the state before the
    block was read. *)
Lemma wp_write_free {A} s s1 b buf (ret : Z -> ST (ext2 D H) A) Q :
  same_but s s1 (fun _ => True) -> in_dev s b -> buf_ok (bd_bs (e_dev s)) buf ->
  (forall s', same_but s s' (fun c => c <> b) -> blk s' b = buf -> wp (ret 0) s' Q) ->
  wp (r ← ext2_write_block b buf; kfree;; ret r) s1 Q.
Proof.
  intros H1 Hin Hbuf HQ. apply wp_bind, wp_write_block.
  - by apply (same_but_in_dev _ _ _ _ H1).
  - by rewrite (sm_dbs _ _ _ H1).
  - intros s2 H2 Hb2. apply wp_bind, wp_buf_free. intros h' Hle. apply HQ; [|exact Hb2].
    apply same_but_heap_r; [|done]. eapply same_but_weaken; [eapply same_but_trans; [exact H1|exact H2]|]. cbn. tauto.
Qed.

(** ** Flushing metadata changes metadata blocks only *)
Lemma wp_flush_superblock s Q : fs_wf s ->
  (forall ret s', same_but s s' (fun c => c <> sb_block s) -> Q ret s') ->
  wp ext2_flush_superblock s Q.
Proof.
  intros Hwf HQ. apply wp_bind, wp_get.
  assert (Hin : in_dev s (sb_block s)) by (apply (w_meta _ Hwf); by left).
  unfold sb_block in *. destruct (Z.eqb_spec (e_block_size s) 1024) as [E|E].
  - apply wp_write_block; [done| |].
    + rewrite <- (w_bs _ Hwf), E. apply (w_sb _ Hwf).
    + intros s' Hs' _. by apply HQ.
  - pose proof (w_bs_val _ Hwf) as Hbs. apply wp_bind, wp_buf_alloc; [lia|..].
    { intros h _ Hr. apply wp_ret, HQ, same_but_heap. by apply refused_heap. }
    intros h junk Hj Hle. apply wp_bind, wp_read_block; [done|]. intros s1 H1 _.
    change (blk (set_heap h s) 0) with (blk s 0).
    destruct (blk_ok s 0 Hwf Hin) as [Hl Hb]. destruct (w_sb _ Hwf) as [Hsl Hsb].
    apply wp_bind, wp_copy_in; [done|unfold EXT2_SUPERBLOCK_OFFSET; lia|]. intros b Eb.
    apply (wp_write_free (set_heap h s) s1); [done|done| |].
    { change (e_dev (set_heap h s)) with (e_dev s). rewrite <- (w_bs _ Hwf).
      split; [by rewrite (blit_length _ _ _ _ Eb)|]. by eapply blit_bytes. }
    intros s' Hs' _. apply wp_ret, HQ. by eapply same_but_heap_l.
Qed.

Lemma gd_block_arith s g : fs_wf s -> 0 <= g < e_groups_count s ->
  e_block_size s / sizeof_group_desc <> 0 /\
  s_first_data_block (e_sb s) +! 1 +! g / (e_block_size s / sizeof_group_desc) = gd_block s g /\
  g mod (e_block_size s / sizeof_group_desc) *! sizeof_group_desc =
    g mod (e_block_size s / sizeof_group_desc) * 32 /\
  0 <= g mod (e_block_size s / sizeof_group_desc) * 32 <= e_block_size s - 32.
Proof.
  intros Hwf Hg. pose proof (w_gdb _ Hwf g Hg) as Hu. unfold gd_block, sizeof_group_desc in *.
  set (q := e_block_size s / 32) in *.
  assert (Hq : q = 32 \/ q = 64 \/ q = 128).
  { unfold q. destruct (w_bs_val _ Hwf) as [-> |[-> | ->]]; [by left|right; by left|right; by right]. }
  assert (He : e_block_size s = 32 * q) by (unfold q; destruct (w_bs_val _ Hwf) as [-> |[-> | ->]]; done).
  pose proof (fld_range 4 (e_sb s) 20 (proj2 (w_sb _ Hwf))) as Hf.
  fold (s_first_data_block (e_sb s)) in Hf. change (256 ^ Z.of_nat 4) with 4294967296 in Hf.
  assert (0 <= g / q) by (apply Z.div_pos; lia).
  pose proof (Z.mod_pos_bound g q ltac:(lia)). unfold is_u32 in Hu.
  split; [lia|]. split; [|split; [apply u32_small; unfold is_u32; lia|lia]].
  rewrite (u32_small (s_first_data_block (e_sb s) + 1)) by (unfold is_u32; lia).
  apply u32_small. unfold is_u32. lia.
Qed.

Lemma wp_flush_group_desc s g Q : fs_wf s -> 0 <= g < e_groups_count s ->
  (forall ret s', same_but s s' (fun c => c <> gd_block s g) -> Q ret s') ->
  wp (ext2_flush_group_desc g) s Q.
Proof.
  intros Hwf Hg HQ. destruct (gd_block_arith s g Hwf Hg) as (Hq & Eb & Eo & Ho).
  destruct (wf_gd s g Hwf Hg) as (gd & Hgd & [Hgl Hgb] & _ & _).
  assert (Hin : in_dev s (gd_block s g)) by (apply (w_meta _ Hwf); right; eauto).
  apply wp_bind, wp_get, wp_bind, wp_udiv; [done|]. cbv zeta. rewrite Eb.
  pose proof (w_bs_val _ Hwf) as Hbs. apply wp_bind, wp_buf_alloc; [lia|..].
  { intros h _ Hr. apply wp_ret, HQ, same_but_heap. by apply refused_heap. }
  intros h junk Hj Hle. apply wp_bind, wp_read_block; [done|]. intros s1 H1 _.
  apply wp_bind, wp_umod; [done|].
  apply wp_bind, (wp_get_gd _ _ gd); [by rewrite (sm_gds _ _ _ H1)|]. rewrite Eo.
  change (blk (set_heap h s) (gd_block s g)) with (blk s (gd_block s g)).
  destruct (blk_ok s _ Hwf Hin) as [Hl Hb].
  apply wp_bind, wp_copy_in; [lia|lia|]. intros b Eblit.
  apply (wp_write_free (set_heap h s) s1); [done|done| |].
  { change (e_dev (set_heap h s)) with (e_dev s). rewrite <- (w_bs _ Hwf).
    split; [by rewrite (blit_length _ _ _ _ Eblit)|]. by eapply blit_bytes. }
  intros s' Hs' _. apply wp_ret, HQ. by eapply same_but_heap_l.
Qed.

(** ** Bitmaps *)
Lemma wp_test_bitmap s bm i bs Q : buf_ok bs bm -> 0 <= i < 8 * bs ->
  Q (bm_bit bm i) s -> wp (test_bitmap bm i) s Q.
Proof.
  intros Hbm Hi HQ. destruct (buf_ok_znth bs bm (i / 8) Hbm) as (b & Hb & Hu); [zlia|].
  apply wp_bind. unfold wp at 1, rd, st_lift. rewrite get_u8_znth, Hb. apply wp_ret.
  rewrite mask_bit by (auto; zlia). unfold bm_bit in HQ. by rewrite Hb in HQ.
Qed.

Lemma wp_set_bitmap s bm i bs Q : buf_ok bs bm -> 0 <= i < 8 * bs ->
  (forall bm', buf_ok bs bm' -> (forall j, 0 <= j -> bm_bit bm' j = bm_bit bm j || (j =? i)) -> Q bm' s) ->
  wp (set_bitmap bm i) s Q.
Proof.
  intros Hbm Hi HQ. destruct (buf_ok_znth bs bm (i / 8) Hbm) as (b & Hb & Hu); [zlia|].
  apply wp_bind. unfold wp at 1, rd, st_lift. rewrite get_u8_znth, Hb. cbn [of_option].
  unfold wp, wr, st_lift. rewrite put_u8_insert by (rewrite (proj1 Hbm); zlia). apply HQ.
  - apply buf_ok_insert; [done|]. unfold is_u8. zlia.
  - intros j Hj. rewrite bm_bit_insert by (rewrite ?(proj1 Hbm); zlia).
    destruct (Z.eqb_spec (j / 8) (i / 8)) as [E|E].
    + rewrite set_mask by (auto; zlia). unfold bm_bit. rewrite E, Hb. cbn [default]. f_equal. zlia.
    + destruct (Z.eqb_spec j i) as [->|]; [done|by rewrite orb_false_r].
Qed.

Lemma wp_clear_bitmap s bm i bs Q : buf_ok bs bm -> 0 <= i < 8 * bs ->
  (forall bm', buf_ok bs bm' -> (forall j, 0 <= j -> bm_bit bm' j = bm_bit bm j && negb (j =? i)) -> Q bm' s) ->
  wp (clear_bitmap bm i) s Q.
Proof.
  intros Hbm Hi HQ. destruct (buf_ok_znth bs bm (i / 8) Hbm) as (b & Hb & Hu); [zlia|].
  apply wp_bind. unfold wp at 1, rd, st_lift. rewrite get_u8_znth, Hb. cbn [of_option].
  unfold wp, wr, st_lift. rewrite put_u8_insert by (rewrite (proj1 Hbm); zlia). apply HQ.
  - apply buf_ok_insert; [done|]. unfold is_u8. zlia.
  - intros j Hj. rewrite bm_bit_insert by (rewrite ?(proj1 Hbm); zlia).
    destruct (Z.eqb_spec (j / 8) (i / 8)) as [E|E].
    + rewrite clear_mask by (auto; zlia). unfold bm_bit. rewrite E, Hb. cbn [default]. f_equal. zlia.
    + destruct (Z.eqb_spec j i) as [->|]; [done|by rewrite andb_true_r].
Qed.

Lemma wp_find_zero bm bs n : forall s i Q, buf_ok bs bm -> 0 <= i -> i + Z.of_nat n <= 8 * bs ->
  ((forall j, i <= j < i + Z.of_nat n -> bm_bit bm j = true) -> Q None s) ->
  (forall k, i <= k < i + Z.of_nat n -> bm_bit bm k = false -> Q (Some k) s) ->
  wp (find_zero n i bm) s Q.
Proof.
  induction n as [|n IH]; intros s i Q Hbm Hi Hn HN HS; cbn [find_zero].
  - apply wp_ret, HN. lia.
  - apply wp_bind, (wp_test_bitmap s bm i bs); [done|lia|]. destruct (bm_bit bm i) eqn:E.
    + apply IH; [done|lia|lia| |].
      * intros Hall. apply HN. intros j Hj. destruct (decide (j = i)) as [->|]; [done|]. apply Hall. lia.
      * intros k Hk. apply HS. lia.
    + apply wp_ret, HS; [lia|done].
Qed.

(** ** Updates of the in-memory counters *)
Lemma wf_update_sb s sb : fs_wf s -> buf_ok 1024 sb ->
  s_first_data_block sb = s_first_data_block (e_sb s) ->
  s_blocks_per_group sb = s_blocks_per_group (e_sb s) ->
  s_inodes_per_group sb = s_inodes_per_group (e_sb s) ->
  s_blocks_count sb = s_blocks_count (e_sb s) -> fs_wf (set_sb sb s).
Proof.
  intros [] Hsb E1 E2 E3 E4.
  split; unfold meta, in_dev, sb_block, gd_block, bitmap_of, inode_bitmap_of in *;
    cbn [e_sb e_dev e_group_desc e_groups_count e_block_size set_sb]; rewrite ?E1, ?E2, ?E3, ?E4; done.
Qed.

Section update_gd.
Variables (s : ext2 D H) (g : Z) (gd gd' : list Z).
Hypothesis Hwf : fs_wf s.
Hypothesis Hg : 0 <= g < e_groups_count s.
Hypothesis Hgd : znth (e_group_desc s) g = Some gd.
Hypothesis Hok : buf_ok 32 gd'.
Hypothesis Hbb : bg_block_bitmap gd' = bg_block_bitmap gd.
Hypothesis Hib : bg_inode_bitmap gd' = bg_inode_bitmap gd.

Let s' := set_gds (<[Z.to_nat g := gd']> (e_group_desc s)) s.

Lemma update_gd_bitmaps g2 : 0 <= g2 ->
  bitmap_of s' g2 = bitmap_of s g2 /\ inode_bitmap_of s' g2 = inode_bitmap_of s g2.
Proof.
  intros Hg2. unfold bitmap_of, inode_bitmap_of. cbn [e_group_desc set_gds s'].
  rewrite znth_insert_list by (rewrite ?(w_gds _ Hwf); lia).
  destruct (Z.eqb_spec g2 g) as [->|]; [|done]. rewrite Hgd. cbn. by rewrite Hbb, Hib.
Qed.

Lemma wf_update_gd : fs_wf s'.
Proof.
  pose proof update_gd_bitmaps as Hb. pose proof Hwf as [].
  split; try done; cbn [e_group_desc set_gds s' e_groups_count].
  - by rewrite length_insert.
  - by apply Forall_insert.
  - intros g2 Hg2. destruct (Hb g2) as [-> ->]; [lia|]. by apply w_bm0.
  - intros g2 g3 H2 H3. destruct (Hb g2) as [-> _]; [lia|]. destruct (Hb g3) as [-> _]; [lia|]. auto.
  - intros g2 g3 H2 H3. destruct (Hb g2) as [_ ->]; [lia|]. destruct (Hb g3) as [_ ->]; [lia|]. auto.
  - intros g2 g3 H2 H3. destruct (Hb g2) as [-> _]; [lia|]. destruct (Hb g3) as [_ ->]; [lia|]. auto.
Qed.
End update_gd.

(** ** Changing one bit of the block bitmaps *)

(** [s'] is [s] with block bitmap bits [f], the counters changed by [d], and no
    other block touched except the superblock and the group descriptors. *)
Record bit_update s s' (g : Z) (d : Z) (f : Z -> bool) : Prop := {
  bu_wf : fs_wf s';
  bu_gc : e_groups_count s' = e_groups_count s;
  bu_bs : e_block_size s' = e_block_size s;
  bu_dev : bd_blocks (e_dev s') = bd_blocks (e_dev s);
  bu_bits : forall j, 0 <= j -> block_bit s' g j = f j;
  bu_other : forall g2 j, 0 <= g2 < e_groups_count s -> g2 <> g -> block_bit s' g2 j = block_bit s g2 j;
  bu_sb : e_sb s' = set_free_blocks_count (s_free_blocks_count (e_sb s) + d) (e_sb s);
  bu_gds : exists gd, znth (e_group_desc s) g = Some gd /\
    e_group_desc s' = <[Z.to_nat g := set_bg_free_blocks (bg_free_blocks_count gd + d) gd]> (e_group_desc s);
  bu_blk : forall c, in_dev s c -> ~ meta s c -> c <> bitmap_of s g -> blk s' c = blk s c;
  bu_ref : (refusals s <= refusals s')%nat
}.

(** The tail of allocation and release, for blocks and for inodes: a bitmap block
    [b] is written, the group's descriptor and the superblock get new counters and
    everything is flushed. *)
Record meta_update s s' (g : Z) (gd' sb' : list Z) (b : Z) (bm' : list Z) : Prop := {
  mu_wf : fs_wf s';
  mu_gc : e_groups_count s' = e_groups_count s;
  mu_bs : e_block_size s' = e_block_size s;
  mu_dev : bd_blocks (e_dev s') = bd_blocks (e_dev s);
  mu_sb : e_sb s' = sb';
  mu_gds : e_group_desc s' = <[Z.to_nat g := gd']> (e_group_desc s);
  mu_bm : forall g2, 0 <= g2 -> bitmap_of s' g2 = bitmap_of s g2 /\ inode_bitmap_of s' g2 = inode_bitmap_of s g2;
  mu_b : blk s' b = bm';
  mu_blk : forall c, in_dev s c -> ~ meta s c -> c <> b -> blk s' c = blk s c;
  mu_ref : (refusals s <= refusals s')%nat
}.

(** A change of the superblock's counters. *)
Record counter_sb (sb sb' : list Z) : Prop := {
  cs_ok : buf_ok 1024 sb -> buf_ok 1024 sb';
  cs_fdb : s_first_data_block sb' = s_first_data_block sb;
  cs_bpg : s_blocks_per_group sb' = s_blocks_per_group sb;
  cs_ipg : s_inodes_per_group sb' = s_inodes_per_group sb;
  cs_count : s_blocks_count sb' = s_blocks_count sb;
  cs_isize : inode_size_of sb' = inode_size_of sb
}.

Lemma counter_sb_set off v sb : 8 <= off < 17 -> counter_sb sb (set_fld 4 sb off v).
Proof.
  intros Hoff. split; try (apply fld_set_other; lia).
  - intros [Hl Hb]. split; [by rewrite length_set_fld|by apply bytes_set_fld].
  - unfold inode_size_of, s_rev_level, s_inode_size. by rewrite !fld_set_other by lia.
Qed.

(** A change of a group's counters. *)
Record counter_gd (gd gd' : list Z) : Prop := {
  cg_ok : buf_ok 32 gd -> buf_ok 32 gd';
  cg_bm : bg_block_bitmap gd' = bg_block_bitmap gd;
  cg_ibm : bg_inode_bitmap gd' = bg_inode_bitmap gd;
  cg_tab : bg_inode_table gd' = bg_inode_table gd
}.

Lemma counter_gd_set off v gd : 12 <= off -> counter_gd gd (set_fld 2 gd off v).
Proof.
  intros Hoff. split; try (apply fld_set_other; lia).
  intros [Hl Hb]. split; [by rewrite length_set_fld|by apply bytes_set_fld].
Qed.

Lemma wp_store_meta {A} s g gd gd' (fsb : list Z -> list Z) b bm' (ret : ST (ext2 D H) A) Q :
  fs_wf s -> 0 <= g < e_groups_count s -> znth (e_group_desc s) g = Some gd ->
  in_dev s b -> ~ meta s b -> buf_ok (e_block_size s) bm' -> counter_gd gd gd' -> counter_sb (e_sb s) (fsb (e_sb s)) ->
  (forall s', meta_update s s' g gd' (fsb (e_sb s)) b bm' -> wp ret s' Q) ->
  wp (ext2_write_block b bm';;
      kfree;;
      put_gd g gd';;
      st_modify (fun s => set_sb (fsb (e_sb s)) s);;
      ext2_flush_group_desc g;;
      ext2_flush_superblock;;
      ret) s Q.
Proof.
  intros Hwf Hg Hgd Hbin Hbmeta Hbm [Hgok Hf1 Hf2 Hf3] Hsb HQ.
  destruct (wf_gd s g Hwf Hg) as (gd0 & Hgd0 & Hgd0ok & _). rewrite Hgd in Hgd0. injection Hgd0 as <-. specialize (Hgok Hgd0ok).
  apply wp_bind, wp_write_block; [done|by rewrite <- (w_bs _ Hwf)|]. intros s1 H1 Hb1.
  apply wp_bind, wp_buf_free. intros h Hle.
  assert (Hwf1 : fs_wf (set_heap h s1)).
  { eapply same_but_wf; [by apply (same_but_heap s1 h (fun _ => True))|]. by eapply same_but_wf. }
  assert (Hg1 : 0 <= g < e_groups_count (set_heap h s1)).
  { cbn [e_groups_count set_heap]. by rewrite (sm_gc _ _ _ H1). }
  assert (Hgd1 : znth (e_group_desc (set_heap h s1)) g = Some gd).
  { cbn [e_group_desc set_heap]. by rewrite (sm_gds _ _ _ H1). }
  apply wp_bind, wp_put_gd; [rewrite (w_gds _ Hwf1); done|].
  pose proof (wf_update_gd _ g gd gd' Hwf1 Hg1 Hgd1 Hgok Hf1 Hf2) as Hwf2.
  pose proof (update_gd_bitmaps _ g gd gd' Hwf1 Hg1 Hgd1 Hf1 Hf2) as Hbm2.
  set (s2 := set_gds _ _) in *. apply wp_bind, wp_modify.
  assert (Esb : e_sb s2 = e_sb s) by (cbn [e_sb set_gds set_heap s2]; apply H1). rewrite Esb.
  destruct Hsb as [Hsbok Hfdb Hbpg Hipg Hcnt _].
  assert (Hwf3 : fs_wf (set_sb (fsb (e_sb s)) s2)).
  { apply wf_update_sb; rewrite ?Esb; try done. apply Hsbok, (w_sb _ Hwf). }
  set (s3 := set_sb (fsb (e_sb s)) s2) in *.
  assert (Egc : e_groups_count s3 = e_groups_count s) by (apply (sm_gc _ _ _ H1)).
  assert (Ebs : e_block_size s3 = e_block_size s) by (apply (sm_bs _ _ _ H1)).
  assert (Hgdb : forall g2, gd_block s3 g2 = gd_block s g2).
  { intros g2. unfold gd_block. rewrite Ebs. cbn [e_sb set_sb s3]. by rewrite Hfdb. }
  assert (Hsbb : sb_block s3 = sb_block s) by (unfold sb_block; by rewrite Ebs).
  apply wp_bind, wp_flush_group_desc; [done|by rewrite Egc|]. intros _ s4 H4.
  apply wp_bind, wp_flush_superblock; [by eapply same_but_wf|]. intros _ s5 H5.
  apply HQ.
  assert (H35 : same_but s3 s5 (fun c => ~ meta s c)).
  { eapply same_but_weaken; [eapply same_but_trans; [exact H4|exact H5]|]. cbn. intros c Hc.
    split; intros ->; apply Hc; [right; exists g; by rewrite Hgdb|left].
    unfold sb_block at 1. rewrite (sm_bs _ _ _ H4). by rewrite <- Hsbb. }
  assert (Hblk : forall c, in_dev s c -> ~ meta s c -> blk s5 c = blk s1 c).
  { intros c Hc Hm. refine (sm_blk _ _ _ H35 c _ Hm). unfold in_dev. change (e_dev s3) with (e_dev s1). by rewrite (sm_blocks _ _ _ H1). }
  split.
  - by eapply same_but_wf.
  - by rewrite (sm_gc _ _ _ H35).
  - by rewrite (sm_bs _ _ _ H35).
  - rewrite (sm_blocks _ _ _ H35). exact (sm_blocks _ _ _ H1).
  - by rewrite (sm_sb _ _ _ H35).
  - rewrite (sm_gds _ _ _ H35). cbn [e_group_desc set_sb s3 set_gds s2 set_heap]. by rewrite (sm_gds _ _ _ H1).
  - intros g2 Hg2. unfold bitmap_of, inode_bitmap_of. rewrite (sm_gds _ _ _ H35), <- (sm_gds _ _ _ H1). exact (Hbm2 g2 Hg2).
  - rewrite Hblk by done. exact Hb1.
  - intros c Hc Hm Hne. rewrite Hblk by done. by apply (sm_blk _ _ _ H1).
  - etrans; [apply H1|]. etrans; [exact Hle|apply H35].
Qed.

(** The block bitmap of group [g] is stored. *)
Lemma wp_store_bitmap {A} s g gd bm' d (f : Z -> bool) (ret : ST (ext2 D H) A) Q :
  fs_wf s -> 0 <= g < e_groups_count s -> znth (e_group_desc s) g = Some gd ->
  buf_ok (e_block_size s) bm' -> (forall j, 0 <= j -> bm_bit bm' j = f j) ->
  (forall s', bit_update s s' g d f -> wp ret s' Q) ->
  wp (ext2_write_block (bg_block_bitmap gd) bm';;
      kfree;;
      put_gd g (set_bg_free_blocks (bg_free_blocks_count gd + d) gd);;
      st_modify (fun s => set_sb (set_free_blocks_count (s_free_blocks_count (e_sb s) + d) (e_sb s)) s);;
      ext2_flush_group_desc g;;
      ext2_flush_superblock;;
      ret) s Q.
Proof.
  intros Hwf Hg Hgd Hbm Hbits HQ.
  destruct (wf_gd s g Hwf Hg) as (gd0 & Hgd0 & _ & Ebb & _). rewrite Hgd in Hgd0. injection Hgd0 as <-.
  destruct (w_bm _ Hwf g Hg) as (Hbin & Hbmeta & _ & _). rewrite Ebb.
  apply (wp_store_meta s g gd _ (fun sb => set_free_blocks_count (s_free_blocks_count sb + d) sb)); try done.
  { by apply counter_gd_set. }
  { by apply counter_sb_set. }
  intros s' [M1 M2 M3 M4 M5 M6 M7 M8 M9 M10]. apply HQ. split; try done.
  - intros j Hj. unfold block_bit. destruct (M7 g) as [-> _]; [lia|]. rewrite M8. auto.
  - intros g2 j Hg2 Hne. unfold block_bit. destruct (M7 g2) as [-> _]; [lia|].
    destruct (w_bm _ Hwf g2 Hg2) as (Hin2 & Hmeta2 & _ & _). rewrite M9; [done|done|done|].
    intros E. apply Hne. by apply (w_bm_dist _ Hwf).
  - by exists gd.
Qed.

(** *** Allocation *)
Lemma sb_ranges s : fs_wf s ->
  is_u32 (s_first_data_block (e_sb s)) /\ is_u32 (s_blocks_count (e_sb s)) /\
  is_u32 (s_free_blocks_count (e_sb s)).
Proof.
  intros Hwf. pose proof (proj2 (w_sb _ Hwf)) as Hb.
  split_and!; apply (fld_range 4 (e_sb s)); done.
Qed.

Lemma group_bits_spec s g : fs_wf s -> 0 <= g < e_groups_count s ->
  0 < group_bits s g <= s_blocks_per_group (e_sb s) /\
  s_first_data_block (e_sb s) + g * s_blocks_per_group (e_sb s) + group_bits s g <= s_blocks_count (e_sb s).
Proof.
  intros Hwf Hg. destruct (sb_ranges s Hwf) as (H1 & H2 & _). unfold is_u32 in *.
  pose proof (w_bpg _ Hwf) as Hbpg. pose proof (w_last _ Hwf) as Hlast. pose proof (w_total _ Hwf) as [Ht1 Ht2].
  pose proof (w_gc _ Hwf) as Hgc. unfold group_bits.
  set (bpg := s_blocks_per_group (e_sb s)) in *. set (fdb := s_first_data_block (e_sb s)) in *.
  rewrite (u32_small (e_groups_count s - 1)) by (unfold is_u32; lia).
  destruct (Z.eqb_spec g (e_groups_count s - 1)) as [->|Hne].
  - assert (0 <= (e_groups_count s - 1) * bpg < 4294967296) by nia.
    rewrite (u32_small ((e_groups_count s - 1) * bpg)) by (unfold is_u32; lia).
    rewrite (u32_small (s_blocks_count (e_sb s) - (e_groups_count s - 1) * bpg)) by (unfold is_u32; lia).
    rewrite u32_small by (unfold is_u32; lia). case_bool; lia.
  - assert (g * bpg + bpg <= (e_groups_count s - 1) * bpg) by nia. lia.
Qed.

(** All blocks of the groups from [g] on are used or their group is marked full. *)
Definition full_from s (g : Z) : Prop :=
  forall g2 gd, g <= g2 < e_groups_count s -> znth (e_group_desc s) g2 = Some gd ->
    bg_free_blocks_count gd <> 0 -> forall j, 0 <= j < group_bits s g2 -> block_bit s g2 j = true.

Lemma alloc_number s g i : fs_wf s -> 0 <= g < e_groups_count s -> 0 <= i < s_blocks_per_group (e_sb s) ->
  s_first_data_block (e_sb s) +! g *! s_blocks_per_group (e_sb s) +! i =
  s_first_data_block (e_sb s) + g * s_blocks_per_group (e_sb s) + i.
Proof.
  intros Hwf Hg Hi. destruct (sb_ranges s Hwf) as (H1 & _ & _). unfold is_u32 in H1.
  pose proof (w_total _ Hwf) as [_ Ht]. pose proof (w_bpg _ Hwf).
  assert (0 <= g * s_blocks_per_group (e_sb s) + s_blocks_per_group (e_sb s) <=
    e_groups_count s * s_blocks_per_group (e_sb s)) by nia.
  assert (0 <= g * s_blocks_per_group (e_sb s)) by nia.
  rewrite (u32_small (g * s_blocks_per_group (e_sb s))) by (unfold is_u32; lia).
  rewrite (u32_small (s_first_data_block (e_sb s) + g * s_blocks_per_group (e_sb s))) by (unfold is_u32; lia).
  apply u32_small. unfold is_u32. lia.
Qed.

(** *** Transport along a state that differs inside the device only *)
Lemma group_bits_same s s1 P g : same_but s s1 P -> group_bits s1 g = group_bits s g.
Proof. intros []. unfold group_bits. by rewrite sm_sb0, sm_gc0. Qed.

Lemma bitmap_of_same s s1 P g : same_but s s1 P -> bitmap_of s1 g = bitmap_of s g.
Proof. intros []. unfold bitmap_of. by rewrite sm_gds0. Qed.

Lemma block_bit_same s s1 g j : fs_wf s -> same_but s s1 (fun _ => True) -> 0 <= g < e_groups_count s ->
  block_bit s1 g j = block_bit s g j.
Proof.
  intros Hwf H1 Hg. unfold block_bit. rewrite (bitmap_of_same _ _ _ g H1).
  destruct (w_bm _ Hwf g Hg) as (Hin & _). by rewrite (sm_blk _ _ _ H1).
Qed.

Lemma bit_update_same s s1 s2 g d f1 f : fs_wf s -> same_but s s1 (fun _ => True) ->
  0 <= g < e_groups_count s -> bit_update s1 s2 g d f1 -> (forall j, 0 <= j -> f1 j = f j) ->
  bit_update s s2 g d f.
Proof.
  intros Hwf H1 Hg [U1 U2 Ubs Udev U3 U4 U5 U6 U7 U8] Hf. pose proof H1 as [E1 E2 E3 E4 E5 E6 E7 E8]. split.
  - done.
  - congruence.
  - congruence.
  - congruence.
  - intros j Hj. by rewrite U3, Hf.
  - intros g2 j Hg2 Hne. rewrite U4 by (done || by rewrite E3). by apply block_bit_same.
  - by rewrite U5, E1.
  - by rewrite E2 in U6.
  - intros c Hc Hm Hne. rewrite U7.
    + by apply E7.
    + by apply (same_but_in_dev _ _ _ _ H1).
    + unfold meta, sb_block, gd_block. by rewrite E1, E3, E4.
    + by rewrite (bitmap_of_same _ _ _ g H1).
  - by etrans.
Qed.

Lemma wp_alloc_block_groups n : forall s g bm Q,
  fs_wf s -> buf_ok (e_block_size s) bm -> 0 <= g -> g + Z.of_nat n = e_groups_count s ->
  (forall s', same_but s s' (fun _ => True) -> full_from s g -> Q 0 s') ->
  (forall s' g2 i, g <= g2 < e_groups_count s -> 0 <= i < group_bits s g2 ->
     block_bit s g2 i = false ->
     bit_update s s' g2 (-1) (fun j => block_bit s g2 j || (j =? i)) ->
     Q (s_first_data_block (e_sb s) + g2 * s_blocks_per_group (e_sb s) + i) s') ->
  wp (alloc_block_groups n g bm) s Q.
Proof.
  induction n as [|n IH]; intros s g bm Q Hwf Hbm Hg Hn HF HS; cbn [alloc_block_groups].
  - apply wp_bind, wp_buf_free. intros h Hle. apply wp_ret, HF; [by apply same_but_heap|].
    intros g2 gd Hg2. lia.
  - assert (Hgr : 0 <= g < e_groups_count s) by lia.
    destruct (wf_gd s g Hwf Hgr) as (gd & Hgd & _ & Ebb & _).
    destruct (w_bm _ Hwf g Hgr) as (Hbin & _ & _ & _).
    apply wp_bind, (wp_get_gd _ _ gd); [done|].
    assert (Hnext : forall g2, g + 1 <= g2 -> g <= g2) by lia.
    destruct (Z.eqb_spec (bg_free_blocks_count gd) 0) as [E0|E0].
    + apply IH; [done|done|lia|lia| |].
      * intros s' Hs' Hfull. apply HF; [done|]. intros g2 gd2 Hg2 Hgd2 Hne.
        destruct (decide (g2 = g)) as [->|]; [congruence|]. apply (Hfull g2 gd2); [lia|done|done].
      * intros s' g2 i Hg2. apply HS. lia.
    + rewrite Ebb. apply wp_bind, wp_read_block; [done|]. intros s1 H1 _. apply wp_bind, wp_get, wp_bind.
      rewrite (group_bits_same _ _ _ g H1).
      pose proof (blk_ok s _ Hwf Hbin) as Hbok. destruct (group_bits_spec s g Hwf Hgr) as [Hgb Hgb2].
      pose proof (w_bpg _ Hwf) as Hbpg. pose proof (same_but_wf _ _ _ H1 Hwf) as Hwf1.
      destruct H1 as [E1 E2 E3 E4 E5 E6 E7 E8] eqn:EH1. clear EH1.
      apply (wp_find_zero _ (e_block_size s)); [done|lia|lia| |].
      * intros Hall. apply IH; [done|by rewrite E4|lia|lia| |].
        -- intros s' Hs' Hfull. apply HF.
           { eapply same_but_weaken; [eapply same_but_trans; [exact H1|exact Hs']|]. done. }
           intros g2 gd2 Hg2 Hgd2 Hne j Hj.
           destruct (decide (g2 = g)) as [->|]; [apply Hall; lia|].
           rewrite <- (block_bit_same _ _ g2 j Hwf H1) by lia.
           apply (Hfull g2 gd2); [lia|by rewrite E2|done|]. by rewrite (group_bits_same _ _ _ g2 H1).
        -- intros s' g2 i Hg2 Hi Hf Hu. rewrite E3 in Hg2. rewrite (group_bits_same _ _ _ g2 H1) in Hi.
           rewrite (block_bit_same _ _ g2 i Hwf H1) in Hf by lia. rewrite E1.
           apply HS; [lia|done|done|]. eapply bit_update_same; [exact Hwf|exact H1| |exact Hu|]; [lia|].
           intros j Hj. cbv beta. by rewrite (block_bit_same _ _ g2 j Hwf H1) by lia.
      * intros i Hi Hfree. apply wp_bind, (wp_set_bitmap _ _ _ (e_block_size s)); [done|lia|].
        intros bm' Hbm' Hbits. rewrite <- Ebb.
        apply (wp_store_bitmap s1 g gd bm' (-1) (fun j => block_bit s g j || (j =? i)));
          [done|by rewrite E3|by rewrite E2|by rewrite E4|done|].
        intros s' Hu1. pose proof (bit_update_same _ _ _ g _ _ _ Hwf H1 Hgr Hu1 (fun j _ => eq_refl)) as Hu.
        apply wp_bind, wp_get, wp_ret. clear Hu1 E1 E2 E3 E4 E5 E6 E7 E8.
        assert (E1 : s_first_data_block (e_sb s') = s_first_data_block (e_sb s)).
        { rewrite (bu_sb _ _ _ _ _ Hu). apply fld_set_other. right. done. }
        assert (E2 : s_blocks_per_group (e_sb s') = s_blocks_per_group (e_sb s)).
        { rewrite (bu_sb _ _ _ _ _ Hu). apply fld_set_other. right. done. }
        rewrite E1, E2, alloc_number by (done || lia). apply HS; [lia|lia|done|done].
Qed.

Lemma wp_ext2_alloc_block s Q : fs_wf s ->
  (forall s', same_but s s' (fun _ => True) ->
     no_buffer s /\ refused s s' \/ s_free_blocks_count (e_sb s) = 0 \/ full_from s 0 -> Q 0 s') ->
  (forall s' g i, 0 <= g < e_groups_count s -> 0 <= i < group_bits s g ->
     block_bit s g i = false -> bit_update s s' g (-1) (fun j => block_bit s g j || (j =? i)) ->
     Q (s_first_data_block (e_sb s) + g * s_blocks_per_group (e_sb s) + i) s') ->
  wp ext2_alloc_block s Q.
Proof.
  intros Hwf HF HS. apply wp_bind, wp_get.
  destruct (Z.eqb_spec (s_free_blocks_count (e_sb s)) 0) as [E0|E0].
  { apply wp_ret, HF; [apply same_but_refl|auto]. }
  pose proof (w_bs_val _ Hwf). pose proof (w_gc _ Hwf).
  apply wp_bind, wp_buf_alloc; [lia|intros h Hnb Hr; apply wp_ret, HF; [by apply same_but_heap, refused_heap|by left]|].
  intros h junk Hj Hle.
  assert (Hh : same_but s (set_heap h s) (fun _ => True)) by (by apply same_but_heap).
  apply wp_alloc_block_groups; [by eapply same_but_wf|done|lia|cbn [e_groups_count set_heap]; lia| |].
  - intros s' Hs' Hfull. apply HF; [|right; right; exact Hfull].
    by eapply same_but_true.
  - intros s' g i Hg Hi Hb Hu. apply HS; [done|done|done|]. destruct Hu. split; try done. by etrans; [exact Hle|].
Qed.

(** *** Release *)
Lemma wp_ext2_free_block s block Q : fs_wf s ->
  s_first_data_block (e_sb s) <= block <
    s_first_data_block (e_sb s) + e_groups_count s * s_blocks_per_group (e_sb s) ->
  (forall s', same_but s s' (fun _ => True) -> no_buffer s -> refused s s' -> Q tt s') ->
  (forall s', let rel := block - s_first_data_block (e_sb s) in
     let g := rel / s_blocks_per_group (e_sb s) in
     let i := rel mod s_blocks_per_group (e_sb s) in
     bit_update s s' g 1 (fun j => block_bit s g j && negb (j =? i)) -> Q tt s') ->
  wp (ext2_free_block block) s Q.
Proof.
  intros Hwf Hb HF HS. destruct (sb_ranges s Hwf) as (H1 & _ & _). unfold is_u32 in H1.
  pose proof (w_bpg _ Hwf) as Hbpg. pose proof (w_total _ Hwf) as [_ Ht].
  pose proof (w_bs_val _ Hwf) as Hbs.
  apply wp_bind, wp_get. cbv zeta. rewrite u32_small by (unfold is_u32; lia).
  set (rel := block - s_first_data_block (e_sb s)) in *.
  apply wp_bind, wp_udiv; [lia|]. apply wp_bind, wp_umod; [lia|].
  set (g := rel / s_blocks_per_group (e_sb s)) in *. set (i := rel mod s_blocks_per_group (e_sb s)) in *.
  assert (Hg : 0 <= g < e_groups_count s).
  { split; [apply Z.div_pos; lia|]. apply Z.div_lt_upper_bound; lia. }
  assert (Hi : 0 <= i < s_blocks_per_group (e_sb s)) by (apply Z.mod_pos_bound; lia).
  apply wp_bind, wp_buf_alloc; [lia|intros h Hnb Hr; apply wp_ret, HF; [by apply same_but_heap, refused_heap|done|done]|]. intros h junk Hj Hle.
  assert (Hwfh : fs_wf (set_heap h s)) by (eapply same_but_wf; [by apply (same_but_heap s h (fun _ => True))|done]).
  destruct (wf_gd s g Hwf Hg) as (gd & Hgd & _ & Ebb & _).
  destruct (w_bm _ Hwf g Hg) as (Hbin & _ & _ & _).
  apply wp_bind, (wp_get_gd _ _ gd); [done|]. rewrite Ebb.
  apply wp_bind, wp_read_block; [done|]. intros s1 Hr%same_but_heap_l _; [|done].
  change (blk (set_heap h s) (bitmap_of s g)) with (blk s (bitmap_of s g)).
  pose proof (blk_ok s _ Hwf Hbin) as Hbok. pose proof (same_but_wf _ _ _ Hr Hwf) as Hwf1.
  apply wp_bind, (wp_clear_bitmap _ _ _ (e_block_size s)); [done|lia|]. intros bm' Hbm' Hbits.
  rewrite <- Ebb.
  apply (wp_store_bitmap s1 g gd bm' 1 (fun j => block_bit s g j && negb (j =? i)));
    [done|by rewrite (sm_gc _ _ _ Hr)|by rewrite (sm_gds _ _ _ Hr)|by rewrite (sm_bs _ _ _ Hr)|done|].
  intros s' Hu. apply wp_ret, HS. by eapply bit_update_same.
Qed.

(** ** Inode table *)
Definition loc_index s (n : Z) : Z := (n - 1) mod s_inodes_per_group (e_sb s).
Definition loc_group s (n : Z) : Z := (n - 1) / s_inodes_per_group (e_sb s).
Definition per_block s : Z := e_block_size s / inode_size_of (e_sb s).
Definition table_of s (g : Z) : Z := default 0 (bg_inode_table <$> znth (e_group_desc s) g).
Definition loc_blk s (n : Z) : Z := table_of s (loc_group s n) + loc_index s n / per_block s.
Definition loc_off s (n : Z) : Z := loc_index s n mod per_block s * inode_size_of (e_sb s).

Definition valid_ino s (n : Z) : Prop := 1 <= n <= e_groups_count s * s_inodes_per_group (e_sb s).

(** The inode tables lie in the device and those of different groups do not
    overlap. *)
Record itable_wf s : Prop := {
  it_size : 128 <= inode_size_of (e_sb s) <= e_block_size s;
  it_dev : forall n, valid_ino s n -> in_dev s (loc_blk s n) /\ is_u32 (loc_blk s n);
  it_dist : forall n n', valid_ino s n -> valid_ino s n' -> loc_group s n <> loc_group s n' ->
    loc_blk s n <> loc_blk s n'
}.

(** The bytes of inode [n] in the table. *)
Definition table_entry s (n : Z) : option (list Z) := slice (blk s (loc_blk s n)) (loc_off s n) 128.

Lemma loc_arith s n : fs_wf s -> itable_wf s -> valid_ino s n ->
  0 <= loc_group s n < e_groups_count s /\ 0 <= loc_index s n < s_inodes_per_group (e_sb s) /\
  1 <= per_block s /\ 0 <= loc_off s n /\ loc_off s n + inode_size_of (e_sb s) <= e_block_size s.
Proof.
  intros Hwf Hit Hn. unfold loc_off, valid_ino, loc_group, loc_index in *.
  pose proof (w_ipg _ Hwf). pose proof (it_size _ Hit) as Hsz.
  assert (H1 : 1 <= per_block s) by (apply Z.div_le_lower_bound; lia).
  assert (H2 : per_block s * inode_size_of (e_sb s) <= e_block_size s).
  { rewrite Z.mul_comm. apply Z.mul_div_le. lia. }
  set (i := (n - 1) mod s_inodes_per_group (e_sb s)).
  pose proof (Z.mod_pos_bound i (per_block s) ltac:(lia)).
  assert (0 <= i < s_inodes_per_group (e_sb s)) by (apply Z.mod_pos_bound; lia).
  set (m := i mod per_block s) in *. clearbody m. clearbody i.
  assert (0 <= m * inode_size_of (e_sb s) <= (per_block s - 1) * inode_size_of (e_sb s)).
  { split; [apply Z.mul_nonneg_nonneg; lia|apply Z.mul_le_mono_nonneg_r; lia]. }
  split; [|split; [done|split; [done|lia]]].
  split; [apply Z.div_pos; lia|apply Z.div_lt_upper_bound; lia].
Qed.

Lemma wp_inode_location s n Q : fs_wf s -> itable_wf s -> valid_ino s n ->
  Q (loc_blk s n, loc_off s n) s -> wp (inode_location n) s Q.
Proof.
  intros Hwf Hit Hn HQ. destruct (loc_arith s n Hwf Hit Hn) as (Hg & Hi & Hp & Ho1 & Ho2).
  pose proof (w_ipg _ Hwf) as Hipg. pose proof (w_itotal _ Hwf) as Htot. pose proof (it_size _ Hit) as Hsz.
  pose proof (w_bs_val _ Hwf) as Hbs. unfold valid_ino in Hn.
  destruct (it_dev _ Hit n Hn) as [_ Hu].
  destruct (wf_gd s _ Hwf Hg) as (gd & Hgd & _).
  apply wp_bind, wp_get. rewrite (u32_small (n - 1)) by (unfold is_u32; lia).
  apply wp_bind, wp_udiv; [lia|]. apply wp_bind, wp_umod; [lia|].
  apply wp_bind, wp_udiv; [lia|]. fold (loc_group s n) (loc_index s n) (per_block s).
  apply wp_bind, wp_udiv; [lia|]. apply wp_bind, wp_umod; [lia|].
  apply wp_bind, (wp_get_gd _ _ gd); [done|]. apply wp_ret.
  fold (loc_off s n). rewrite (u32_small (loc_off s n)) by (unfold is_u32; lia).
  assert (loc_blk s n = bg_inode_table gd + loc_index s n / per_block s) as E.
  { unfold loc_blk, table_of. by rewrite Hgd. }
  rewrite E in Hu, HQ. by rewrite u32_small.
Qed.

Lemma itable_same s s' P : same_but s s' P -> itable_wf s -> itable_wf s'.
Proof.
  intros [E1 E2 E3 E4 E5 E6 _ _] [].
  split; unfold valid_ino, in_dev, loc_blk, loc_group, loc_index, per_block, table_of in *;
    rewrite ?E1, ?E2, ?E3, ?E4, ?E5; done.
Qed.

Lemma loc_same s s' P n : same_but s s' P ->
  loc_blk s' n = loc_blk s n /\ loc_off s' n = loc_off s n /\ (valid_ino s' n <-> valid_ino s n).
Proof.
  intros [E1 E2 E3 E4 E5 E6 _ _].
  unfold valid_ino, loc_blk, loc_off, loc_group, loc_index, per_block, table_of.
  rewrite ?E1, ?E2, ?E3, ?E4. done.
Qed.

Lemma wp_read_inode_raw s n old Q : fs_wf s -> itable_wf s -> valid_ino s n ->
  (forall s', same_but s s' (fun _ => True) -> no_buffer s -> refused s s' -> Q (-1, old) s') ->
  (forall s' di, same_but s s' (fun _ => True) -> table_entry s n = Some di -> Q (0, di) s') ->
  wp (ext2_read_inode_raw n old) s Q.
Proof.
  intros Hwf Hit Hn HF HS. destruct (loc_arith s n Hwf Hit Hn) as (_ & _ & _ & Ho1 & Ho2).
  destruct (it_dev _ Hit n Hn) as [Hin _]. pose proof (it_size _ Hit). pose proof (w_bs_val _ Hwf).
  unfold ext2_read_inode_raw. destruct (Z.eqb_spec n 0) as [->|_]; [by destruct Hn|].
  apply wp_bind, wp_inode_location; [done|done|done|]. apply wp_bind, wp_get.
  apply wp_bind, wp_buf_alloc; [lia|intros h Hnb Hr; apply wp_ret, HF; [by apply same_but_heap, refused_heap|done|done]|]. intros h junk Hj Hle.
  apply wp_bind, wp_read_block; [done|]. intros s1 Hr%same_but_heap_l _; [|done]. cbn [Z.eqb].
  change (blk (set_heap h s) (loc_blk s n)) with (blk s (loc_blk s n)).
  destruct (blk_ok s _ Hwf Hin) as [Hl _].
  destruct (slice_is_Some (blk s (loc_blk s n)) (loc_off s n) sizeof_inode) as [di Hdi];
    [done|done|unfold sizeof_inode; lia|].
  apply wp_bind. unfold wp at 1, copy_out, st_lift. rewrite Hdi. cbn [of_option].
  apply wp_bind, wp_buf_free. intros h' Hle'. apply wp_ret, HS; [|done]. by apply same_but_heap_r.
Qed.

Lemma wp_write_inode_raw s n di Q : fs_wf s -> itable_wf s -> valid_ino s n -> buf_ok 128 di ->
  (forall s', same_but s s' (fun _ => True) -> no_buffer s -> refused s s' -> Q (-1) s') ->
  (forall s', same_but s s' (fun c => c <> loc_blk s n) ->
     (forall b, blit (blk s (loc_blk s n)) (loc_off s n) di = Some b -> blk s' (loc_blk s n) = b) -> Q 0 s') ->
  wp (ext2_write_inode_raw n di) s Q.
Proof.
  intros Hwf Hit Hn [Hdl Hdb] HF HS. destruct (loc_arith s n Hwf Hit Hn) as (_ & _ & _ & Ho1 & Ho2).
  destruct (it_dev _ Hit n Hn) as [Hin _]. pose proof (it_size _ Hit). pose proof (w_bs_val _ Hwf).
  unfold ext2_write_inode_raw. destruct (Z.eqb_spec n 0) as [->|_]; [by destruct Hn|].
  apply wp_bind, wp_inode_location; [done|done|done|]. apply wp_bind, wp_get.
  apply wp_bind, wp_buf_alloc; [lia|intros h Hnb Hr; apply wp_ret, HF; [by apply same_but_heap, refused_heap|done|done]|]. intros h junk Hj Hle.
  apply wp_bind, wp_read_block; [done|]. intros s1 Hr%same_but_heap_l _; [|done]. cbn [Z.eqb negb].
  change (blk (set_heap h s) (loc_blk s n)) with (blk s (loc_blk s n)).
  destruct (blk_ok s _ Hwf Hin) as [Hl Hb].
  apply wp_bind, wp_copy_in; [done|lia|]. intros b Eb.
  apply (wp_write_free s s1); [done|done| |].
  { rewrite <- (w_bs _ Hwf). split; [by rewrite (blit_length _ _ _ _ Eb)|]. by eapply blit_bytes. }
  intros s' Hs' Hb'. apply wp_ret, HS; [done|].
  intros b2 Eb2. rewrite Eb in Eb2. injection Eb2 as <-. exact Hb'.
Qed.

(** Writing inode [n] leaves the other entries of the table alone. *)
Lemma table_entry_write s s' n n' di :
  fs_wf s -> itable_wf s -> valid_ino s n -> valid_ino s n' -> buf_ok 128 di ->
  same_but s s' (fun c => c <> loc_blk s n) ->
  (forall b, blit (blk s (loc_blk s n)) (loc_off s n) di = Some b -> blk s' (loc_blk s n) = b) ->
  table_entry s' n' = if n' =? n then Some di else table_entry s n'.
Proof.
  intros Hwf Hit Hn Hn' [Hdl Hdb] Hs Hw. unfold table_entry.
  destruct (loc_same _ _ _ n' Hs) as (-> & -> & _).
  destruct (loc_arith s n Hwf Hit Hn) as (Hg & Hi & Hp & Ho1 & Ho2).
  destruct (loc_arith s n' Hwf Hit Hn') as (Hg' & Hi' & _ & Ho1' & Ho2').
  destruct (it_dev _ Hit n Hn) as [Hin _]. destruct (it_dev _ Hit n' Hn') as [Hin' _].
  pose proof (it_size _ Hit). destruct (blk_ok s _ Hwf Hin) as [Hl _].
  destruct (blit_is_Some (blk s (loc_blk s n)) (loc_off s n) di) as [b Eb]; [done|lia|].
  specialize (Hw b Eb). destruct (Z.eqb_spec n' n) as [->|Hne].
  - rewrite Hw. rewrite <- (slice_blit_same _ _ _ _ Eb). f_equal. lia.
  - destruct (decide (loc_blk s n' = loc_blk s n)) as [E|E].
    2: { by rewrite (sm_blk _ _ _ Hs). }
    rewrite E, Hw. eapply slice_blit_other; [done|].
    destruct (decide (loc_group s n = loc_group s n')) as [Eg|Eg].
    2: { exfalso. by apply (it_dist _ Hit n n' Hn Hn' Eg). }
    unfold loc_blk in E. rewrite Eg in E. assert (Eq : loc_index s n / per_block s = loc_index s n' / per_block s) by lia.
    assert (Hidx : loc_index s n <> loc_index s n').
    { intros Ei. apply Hne. unfold loc_index, loc_group in *. pose proof (w_ipg _ Hwf).
      pose proof (Z.div_mod (n - 1) (s_inodes_per_group (e_sb s))).
      pose proof (Z.div_mod (n' - 1) (s_inodes_per_group (e_sb s))). nia. }
    assert (Hm : loc_index s n mod per_block s <> loc_index s n' mod per_block s).
    { intros Em. apply Hidx. rewrite (Z.div_mod (loc_index s n) (per_block s)) by lia.
      rewrite (Z.div_mod (loc_index s n') (per_block s)) by lia. by rewrite Eq, Em. }
    unfold loc_off in *. nia.
Qed.
End proofs.

(** ** Theorems *)
Section theorems.
Context {D H : Type} `{!BlockDevice D} `{!HealthyDevice D} `{!KHeap H}.

(** (C16) [ext2_alloc_block] on a well-formed volume always returns and keeps
    the volume well formed.  Either it returns 0 and has changed nothing on the
    disk, because the heap has no buffer, the volume's free counter is 0 or
    every group is marked full or has no zero bit left; or it returns a block below [s_blocks_count] that was free and is now
    marked used; no other bit of any block bitmap changes, the free counters go
    down by one, and no block other than that bitmap, the superblock and the
    group descriptors is written. *)
Theorem ext2_alloc_block_correct (s : ext2 D H) : fs_wf s ->
  exists r s', ext2_alloc_block s = Ret (r, s') /\ fs_wf s' /\
    (r = 0 /\ same_but s s' (fun _ => True) /\
       (no_buffer s \/ s_free_blocks_count (e_sb s) = 0 \/ full_from s 0) \/
     exists g i, r = s_first_data_block (e_sb s) + g * s_blocks_per_group (e_sb s) + i /\
       0 <= g < e_groups_count s /\ 0 <= i < s_blocks_per_group (e_sb s) /\
       r < s_blocks_count (e_sb s) /\ block_bit s g i = false /\
       bit_update s s' g (-1) (fun j => block_bit s g j || (j =? i))).
Proof.
  intros Hwf. apply wp_run. apply wp_ext2_alloc_block; [done|..].
  - intros s' Hs' Hwhy. split; [by eapply same_but_wf|]. left. split; [done|]. split; [done|]. tauto.
  - intros s' g i Hg Hi Hb Hu. split; [apply Hu|]. right. exists g, i.
    destruct (group_bits_spec s g Hwf Hg) as [? ?]. split_and!; try done; lia.
Qed.

(** Setting a clear bit and clearing it again. *)
Lemma bit_updates_cancel (s s1 s2 : ext2 D H) g i : fs_wf s -> block_bit s g i = false ->
  bit_update s s1 g (-1) (fun j => block_bit s g j || (j =? i)) ->
  bit_update s1 s2 g 1 (fun j => block_bit s1 g j && negb (j =? i)) ->
  s_free_blocks_count (e_sb s2) = s_free_blocks_count (e_sb s) /\
  forall g j, 0 <= g < e_groups_count s -> 0 <= j -> block_bit s2 g j = block_bit s g j.
Proof.
  intros Hwf Hb Hu Hu2. destruct (sb_ranges s Hwf) as (_ & _ & Hfree). split.
  - rewrite (bu_sb _ _ _ _ _ Hu2). unfold s_free_blocks_count at 1, set_free_blocks_count at 1.
    destruct (w_sb _ (bu_wf _ _ _ _ _ Hu)) as [Hl1 _]. rewrite fld_set_same; [|lia|lia|apply u32_range].
    rewrite (bu_sb _ _ _ _ _ Hu). unfold s_free_blocks_count at 1, set_free_blocks_count.
    destruct (w_sb _ Hwf) as [Hl _]. rewrite fld_set_same; [|lia|lia|apply u32_range].
    unfold is_u32, u32 in *. zlia.
  - intros g2 j Hg2 Hj. destruct (decide (g2 = g)) as [->|Hne].
    + rewrite (bu_bits _ _ _ _ _ Hu2), (bu_bits _ _ _ _ _ Hu) by done.
      destruct (Z.eqb_spec j i) as [->|]; [by rewrite Hb|by rewrite orb_false_r, andb_true_r].
    + rewrite (bu_other _ _ _ _ _ Hu2), (bu_other _ _ _ _ _ Hu); [done|done|done| |done]. by rewrite (bu_gc _ _ _ _ _ Hu).
Qed.

(** Releasing a block that was just allocated restores the bitmaps and the
    free counter: the release does nothing if the heap has no buffer for it, and
    otherwise the bit of every block and [s_free_blocks_count] are as before the
    allocation. *)
Theorem ext2_alloc_free_roundtrip (s : ext2 D H) : fs_wf s ->
  exists r s1 s2, ext2_alloc_block s = Ret (r, s1) /\
    (r = 0 \/ ext2_free_block r s1 = Ret (tt, s2) /\ fs_wf s2 /\
      (no_buffer s1 /\ same_but s1 s2 (fun _ => True) \/
       s_free_blocks_count (e_sb s2) = s_free_blocks_count (e_sb s) /\
       forall g j, 0 <= g < e_groups_count s -> 0 <= j -> block_bit s2 g j = block_bit s g j)).
Proof.
  intros Hwf.
  assert (Hwp : wp ext2_alloc_block s (fun r s1 => r = 0 \/ exists s2, ext2_free_block r s1 = Ret (tt, s2) /\
    fs_wf s2 /\ (no_buffer s1 /\ same_but s1 s2 (fun _ => True) \/
       s_free_blocks_count (e_sb s2) = s_free_blocks_count (e_sb s) /\
       forall g j, 0 <= g < e_groups_count s -> 0 <= j -> block_bit s2 g j = block_bit s g j))).
  2: { apply wp_run in Hwp as (r & s1 & Hr & [Hz|(s2 & Hf)]); [exists r, s1, s1|exists r, s1, s2]; eauto. }
  apply wp_ext2_alloc_block; [done|intros s' _ _; by left|].
  intros s1 g i Hg Hi Hb Hu. right.
  destruct (group_bits_spec s g Hwf Hg) as [Hgb Hgb2]. pose proof (bu_wf _ _ _ _ _ Hu) as Hwf1.
  pose proof (w_bpg _ Hwf) as Hbpg. destruct (w_total _ Hwf) as [Ht1 Ht2].
  assert (E1 : s_first_data_block (e_sb s1) = s_first_data_block (e_sb s)).
  { rewrite (bu_sb _ _ _ _ _ Hu). apply fld_set_other. right. done. }
  assert (E2 : s_blocks_per_group (e_sb s1) = s_blocks_per_group (e_sb s)).
  { rewrite (bu_sb _ _ _ _ _ Hu). apply fld_set_other. right. done. }
  set (bpg := s_blocks_per_group (e_sb s)) in *. set (fdb := s_first_data_block (e_sb s)) in *.
  assert (Hrel : fdb + g * bpg + i - fdb = bpg * g + i) by lia.
  assert (Hmul : g * bpg + bpg <= e_groups_count s * bpg) by nia.
  assert (Hpos : 0 <= g * bpg) by nia.
  enough (Hwp : wp (ext2_free_block (fdb + g * bpg + i)) s1 (fun _ s2 => fs_wf s2 /\
    (no_buffer s1 /\ same_but s1 s2 (fun _ => True) \/
     s_free_blocks_count (e_sb s2) = s_free_blocks_count (e_sb s) /\
     forall g j, 0 <= g < e_groups_count s -> 0 <= j -> block_bit s2 g j = block_bit s g j))).
  { apply wp_run in Hwp as ([] & s2 & Hr & H2). exists s2. done. }
  apply wp_ext2_free_block; [done|rewrite E1, E2, (bu_gc _ _ _ _ _ Hu); lia|..].
  - intros s2 H2 Hnb _. split; [by eapply same_but_wf|by left].
  - intros s2. rewrite E1, E2, Hrel. cbv zeta.
    rewrite (Z.mul_comm bpg g), Z.div_add_l, Z.div_small, Z.add_0_r by lia.
    rewrite (Z.add_comm (g * bpg) i), Z_mod_plus_full, Z.mod_small by lia. intros Hu2.
    split; [apply Hu2|]. right. by eapply bit_updates_cancel.
Qed.

(** Inode records survive a round trip through the inode table:
    [ext2_write_inode_raw] of inode [n] fails only when the heap has no buffer,
    and after it [ext2_read_inode_raw] (which fails for the same reason only)
    returns the bytes written for [n] and the old bytes for every other inode,
    whatever block of the table they share. *)
Theorem inode_raw_roundtrip (s : ext2 D H) n di :
  fs_wf s -> itable_wf s -> valid_ino s n -> buf_ok 128 di ->
  exists ret s1, ext2_write_inode_raw n di s = Ret (ret, s1) /\
    (ret = -1 /\ no_buffer s /\ same_but s s1 (fun _ => True) \/
     ret = 0 /\ forall n' old, valid_ino s n' ->
       exists ret' di' s2, ext2_read_inode_raw n' old s1 = Ret ((ret', di'), s2) /\
         (ret' = -1 /\ no_buffer s1 \/ ret' = 0 /\ Some di' = if n' =? n then Some di else table_entry s n')).
Proof.
  intros Hwf Hit Hn Hdi. apply wp_run. apply wp_write_inode_raw; try done.
  - intros s' Hs' Hnb _. left. done.
  - intros s1 H1 Hw. right. split; [done|]. intros n' old Hn'.
    assert (Hwf1 : fs_wf s1) by (by eapply same_but_wf).
    assert (Hit1 : itable_wf s1) by (by eapply itable_same).
    assert (Hn1 : valid_ino s1 n') by (by apply (loc_same _ _ _ n' H1)).
    enough (wp (ext2_read_inode_raw n' old) s1 (fun r _ => r.1 = -1 /\ no_buffer s1 \/ r.1 = 0 /\
      Some r.2 = if n' =? n then Some di else table_entry s n')) as Hwp.
    { apply wp_run in Hwp as ([ret' di'] & s2 & Hr & Hc). by exists ret', di', s2. }
    apply wp_read_inode_raw; try done.
    + intros s2 _ Hnb _. by left.
    + intros s2 di' _ Hte. right. split; [done|]. cbn [snd]. rewrite <- Hte.
      by eapply table_entry_write.
Qed.

End theorems.

(** [ext2_validate_superblock] accepts exactly the superblocks with the
    ext2 magic, a block size of 1024, 2048 or 4096 bytes and revision 0 or 1, as
    long as the stored shift count is a legal one. *)
Theorem validate_superblock_spec sb :
  Forall is_u8 sb -> s_log_block_size sb < 32 ->
  ext2_validate_superblock sb = Ret 0 <->
  s_magic sb = EXT2_MAGIC /\ s_log_block_size sb <= 2 /\ s_rev_level sb <= 1.
Proof.
  intros Hb Hlog. unfold ext2_validate_superblock, block_size_of.
  pose proof (fld_range 4 sb 24 Hb) as Hr. fold (s_log_block_size sb) in Hr.
  destruct (Z.eqb_spec (s_magic sb) EXT2_MAGIC) as [Em|Em]; cbn [negb]; [|naive_solver].
  destruct (Z.ltb_spec (s_log_block_size sb) 32); [|lia].
  unfold mbind, outcome_bind. rewrite Z.shiftl_mul_pow2 by lia.
  assert (Hc : (u32 (1024 * 2 ^ s_log_block_size sb) <? EXT2_MIN_BLOCK_SIZE) ||
               (EXT2_MAX_BLOCK_SIZE <? u32 (1024 * 2 ^ s_log_block_size sb)) = negb (s_log_block_size sb <=? 2)).
  { assert (exists k, s_log_block_size sb = Z.of_nat k /\ (k < 32)%nat) as (k & -> & Hk).
    { exists (Z.to_nat (s_log_block_size sb)). lia. }
    do 32 (destruct k as [|k]; [by vm_compute|]). lia. }
  rewrite Hc. destruct (Z.leb_spec (s_log_block_size sb) 2); cbn [negb].
  - unfold EXT2_DYNAMIC_REV. destruct (Z.ltb_spec 1 (s_rev_level sb)); [|naive_solver].
    split; [done|]. intros (_ & _ & ?). lia.
  - split; [done|]. intros (_ & ? & _). lia.
Qed.

(** ** Witnesses *)

(** A heap that counts the buffers in use and never fails. *)
#[export] Instance counting_heap : KHeap nat.
Proof.
  refine {| kh_malloc := fun n h => (Some (zeroes n), S h); kh_free := pred; kh_refusals := fun _ => 0%nat |}; [|done..].
  intros n h junk h' [= <- <-] Hn. unfold zeroes. rewrite length_replicate.
  split; [lia|]. apply Forall_replicate. unfold is_u8. lia.
Defined.

Lemma never_refused {D} `{!BlockDevice D} (s s' : ext2 D nat) : ~ refused s s'.
Proof. exact (Nat.lt_irrefl 0). Qed.

(** A volume of one group: eight blocks of 1024 bytes from block 1 on, block
    bitmap in block 3 with five blocks in use, inode table in block 5. *)
Definition tiny_sb : list Z :=
  set_fld 2 (set_fld 4 (set_fld 4 (set_fld 4 (set_fld 4 (set_fld 4 (zeroes 1024)
    20 1) 4 9) 12 3) 32 8) 40 8) 56 EXT2_MAGIC.
Definition tiny_gd : list Z :=
  set_fld 2 (set_fld 4 (set_fld 4 (set_fld 4 (zeroes 32) 0 3) 4 4) 8 5) 12 3.
Definition tiny_disk : ram_disk :=
  {| rd_bs := 1024;
     rd_data := <[3%nat := 31 :: zeroes 1023]> (replicate 16 (zeroes 1024)) |}.
Definition tiny_fs : ext2 ram_disk nat :=
  {| e_dev := tiny_disk; e_heap := 0%nat; e_sb := tiny_sb; e_group_desc := [tiny_gd];
     e_groups_count := 1; e_block_size := 1024; e_inodes_per_block := 8; e_itable_blocks := 1 |}.

(** Boolean form of [buf_ok]. *)
Lemma buf_ok_check bs b : rd_block_ok bs b = true -> buf_ok bs b.
Proof. apply rd_block_ok_spec. Qed.

Lemma tiny_numbers :
  bd_blocks (e_dev tiny_fs) = 16 /\ sb_block tiny_fs = 1 /\ gd_block tiny_fs 0 = 2 /\
  bitmap_of tiny_fs 0 = 3 /\ inode_bitmap_of tiny_fs 0 = 4 /\
  s_blocks_per_group (e_sb tiny_fs) = 8 /\ s_inodes_per_group (e_sb tiny_fs) = 8 /\
  s_first_data_block (e_sb tiny_fs) = 1 /\ s_blocks_count (e_sb tiny_fs) = 9.
Proof. by vm_compute. Qed.

Lemma tiny_fs_wf : fs_wf tiny_fs.
Proof.
  destruct tiny_numbers as (En & Esb & Egd & Ebm & Eib & Ebpg & Eipg & Efdb & Ebc).
  assert (H0 : forall g, 0 <= g < e_groups_count tiny_fs -> g = 0) by (cbn [tiny_fs e_groups_count]; lia).
  assert (Hm : forall c, meta tiny_fs c -> c = 1 \/ c = 2).
  { intros c [->|(g & Hg%H0 & ->)]; [by left|]. subst g. by right. }
  split.
  - done.
  - by left.
  - apply buf_ok_check. by vm_compute.
  - done.
  - constructor; [|constructor]. apply buf_ok_check. by vm_compute.
  - cbn [tiny_fs e_groups_count]. lia.
  - rewrite Ebpg. cbn [tiny_fs e_block_size]. lia.
  - rewrite Eipg. cbn [tiny_fs e_block_size]. lia.
  - rewrite Efdb, Ebpg, Ebc. cbn [tiny_fs e_groups_count]. lia.
  - rewrite Efdb, Ebpg, Ebc. cbn [tiny_fs e_groups_count]. lia.
  - rewrite Eipg. cbn [tiny_fs e_groups_count]. lia.
  - intros c Hc%Hm. unfold in_dev. rewrite En. lia.
  - intros g ->%H0. rewrite Egd. unfold is_u32. lia.
  - intros g ->%H0. unfold in_dev. rewrite En, Ebm, Eib. split_and!; try lia; intros Hc%Hm; lia.
  - intros g g' ->%H0 ->%H0. done.
  - intros g g' ->%H0 ->%H0. done.
  - intros g g' ->%H0 ->%H0. rewrite Ebm, Eib. lia.
Qed.

Lemma tiny_itable : itable_wf tiny_fs.
Proof.
  destruct tiny_numbers as (En & _ & _ & _ & _ & _ & Eipg & _ & _).
  assert (Es : inode_size_of (e_sb tiny_fs) = 128) by (by vm_compute).
  assert (Et : table_of tiny_fs 0 = 5) by (by vm_compute).
  assert (Hg : forall n, valid_ino tiny_fs n -> loc_group tiny_fs n = 0 /\ 0 <= loc_index tiny_fs n < 8).
  { intros n Hn. unfold valid_ino, loc_group, loc_index in *. rewrite Eipg in *.
    cbn [tiny_fs e_groups_count] in Hn. zlia. }
  assert (Hb : forall n, valid_ino tiny_fs n -> loc_blk tiny_fs n = 5).
  { intros n Hn. destruct (Hg n Hn) as [E1 E2]. unfold loc_blk. rewrite E1, Et.
    unfold per_block. rewrite Es. change (e_block_size tiny_fs / 128) with 8. zlia. }
  split.
  - rewrite Es. cbn [tiny_fs e_block_size]. lia.
  - intros n Hn. rewrite (Hb n Hn). unfold in_dev, is_u32. rewrite En. lia.
  - intros n n' Hn Hn' Hne. exfalso. apply Hne.
    destruct (Hg n Hn) as [-> _]. by destruct (Hg n' Hn') as [-> _].
Qed.

(** The block an allocation on it returns. *)
Example tiny_alloc :
  match ext2_alloc_block tiny_fs with Ret (r, _) => r | _ => -1 end = 6.
Proof. by vm_compute. Qed.

Lemma ext2_alloc_block_correct_witness :
  exists s', ext2_alloc_block tiny_fs = Ret (6, s') /\ fs_wf s'.
Proof.
  destruct (ext2_alloc_block_correct tiny_fs tiny_fs_wf) as (r & s' & H & Hw & _).
  assert (r = 6) as Er.
  { pose proof tiny_alloc as Ha. rewrite H in Ha. exact Ha. }
  subst r. exists s'. exact (conj H Hw).
Defined.

Lemma ext2_alloc_free_roundtrip_witness :
  exists r s1 s2, ext2_alloc_block tiny_fs = Ret (r, s1) /\
    (r = 0 \/ ext2_free_block r s1 = Ret (tt, s2)).
Proof.
  destruct (ext2_alloc_free_roundtrip tiny_fs tiny_fs_wf) as (r & s1 & s2 & H & Hc).
  exists r, s1, s2. split; [exact H|]. destruct Hc as [Hz|[Hf _]]; [left; exact Hz|right; exact Hf].
Defined.

Lemma inode_raw_roundtrip_witness :
  exists ret s1, ext2_write_inode_raw 2 (replicate 128 7) tiny_fs = Ret (ret, s1).
Proof.
  destruct (inode_raw_roundtrip tiny_fs 2 (replicate 128 7)) as (ret & s1 & H & _).
  - exact tiny_fs_wf.
  - exact tiny_itable.
  - destruct tiny_numbers as (_ & _ & _ & _ & _ & _ & Eipg & _ & _). unfold valid_ino.
    rewrite Eipg. cbn [tiny_fs e_groups_count]. lia.
  - apply buf_ok_check. by vm_compute.
  - exists ret, s1. exact H.
Defined.

Lemma validate_superblock_spec_witness : ext2_validate_superblock tiny_sb = Ret 0.
Proof.
  apply (validate_superblock_spec tiny_sb).
  - apply (buf_ok_check 1024). by vm_compute.
  - by vm_compute.
  - by vm_compute.
Defined.
