(* ===== verification/DirBlock.v ===== *)
(** * Directory blocks of ext2 (src/src/fs/ext2/directory.c)

    A directory block is a sequence of variable-length entries that fills it
    exactly.  Searching, inserting, removing and counting entries of one block are
    operations on the list of the entries in use. *)

From S2P Require Import Prelude BlockDev Ext2 Ext2Proof.

(** ** Entries *)

(** An entry with the bytes of its record that the name does not use. *)
Record dirent := { d_ino : Z; d_type : Z; d_name : list Z; d_pad : list Z }.

Definition d_rec (e : dirent) : Z := 8 + Z.of_nat (length (d_name e)) + Z.of_nat (length (d_pad e)).
Definition dirent_bytes (e : dirent) : list Z :=
  le_bytes 4 (d_ino e) ++ le_bytes 2 (d_rec e) ++ le_bytes 1 (Z.of_nat (length (d_name e))) ++ le_bytes 1 (d_type e) ++
  d_name e ++ d_pad e.
Definition dir_block (es : list dirent) : list Z := concat (dirent_bytes <$> es).

Record dirent_ok (e : dirent) : Prop := {
  do_ino : is_u32 (d_ino e);
  do_type : is_u8 (d_type e);
  do_name : Forall is_u8 (d_name e);
  do_len : (length (d_name e) <= 255)%nat;
  do_pad : Forall is_u8 (d_pad e);
  do_align : d_rec e mod 4 = 0;
  do_max : d_rec e < 65536
}.

(** Well-formed contents of a block of [bs] bytes. *)
Definition dir_wf (bs : Z) (es : list dirent) : Prop := Forall dirent_ok es /\ Z.of_nat (length (dir_block es)) = bs.

Definition in_use (e : dirent) : bool := negb (d_ino e =? 0).
Definition matches (name : list Z) (e : dirent) : bool := in_use e && bool_decide (d_name e = name).

(** What the directory says: name, inode and type of the entries in use. *)
Definition listing : Type := list (list Z * Z * Z).
Definition live (es : list dirent) : listing :=
  (fun e => (d_name e, d_ino e, d_type e)) <$> List.filter in_use es.

Lemma live_app es1 es2 : live (es1 ++ es2) = live es1 ++ live es2.
Proof. unfold live. by rewrite List.filter_app, fmap_app. Qed.
Lemma live_cons e es : live (e :: es) = live [e] ++ live es.
Proof. apply (live_app [e] es). Qed.

Lemma length_dirent e : Z.of_nat (length (dirent_bytes e)) = d_rec e.
Proof. unfold dirent_bytes, d_rec. rewrite !length_app, !length_le_bytes. lia. Qed.
Lemma dir_block_app es1 es2 : dir_block (es1 ++ es2) = dir_block es1 ++ dir_block es2.
Proof. unfold dir_block. by rewrite fmap_app, concat_app. Qed.
Lemma dir_block_cons e es : dir_block (e :: es) = dirent_bytes e ++ dir_block es.
Proof. done. Qed.

Lemma dirent_bytes_u8 e : dirent_ok e -> Forall is_u8 (dirent_bytes e).
Proof. intros []. unfold dirent_bytes. repeat (apply Forall_app; split); try apply le_bytes_range; done. Qed.
Lemma dir_block_u8 es : Forall dirent_ok es -> Forall is_u8 (dir_block es).
Proof. induction 1 as [|e es He Hes IH]; [done|]. rewrite dir_block_cons. apply Forall_app. split; [by apply dirent_bytes_u8|done]. Qed.

(** [ext2_dir_rec_len]: the name rounded up to a multiple of four. *)
Lemma dir_rec_len_spec n : 0 <= n <= 255 -> ext2_dir_rec_len n = 4 * ((8 + n + 3) / 4).
Proof.
  intros Hn. unfold ext2_dir_rec_len. change (not32 3) with (Z.ones 32 - 3).
  assert (H : Z.land (8 + n + 3) (Z.ones 32 - 3) = Z.ldiff (8 + n + 3) 3).
  { apply Z.bits_inj'. intros k Hk. rewrite Z.land_spec, Z.ldiff_spec.
    destruct (Z.ltb_spec k 32).
    - f_equal. change (Z.ones 32 - 3) with (Z.ldiff (Z.ones 32) 3). rewrite Z.ldiff_spec, Z.ones_spec_low by lia. done.
    - rewrite (Z.bits_above_log2 (8 + n + 3)); [done|lia|]. pose proof (Z.log2_le_mono (8 + n + 3) 300 ltac:(lia)).
      change (Z.log2 300) with 8 in *. lia. }
  rewrite H. change 3 with (Z.ones 2) at 2. rewrite Z.ldiff_ones_r, Z.shiftr_div_pow2, Z.shiftl_mul_pow2 by lia. change (2 ^ 2) with 4. lia.
Qed.

(** The record of an entry that is no longer than its name needs. *)
Definition d_need (e : dirent) : Z := ext2_dir_rec_len (Z.of_nat (length (d_name e))).

Lemma need_le_rec e : dirent_ok e -> 8 + Z.of_nat (length (d_name e)) <= d_need e <= d_rec e.
Proof. intros []. unfold d_need. rewrite dir_rec_len_spec by lia. unfold d_rec in *. zlia. Qed.

Section blocks.
Context {D H : Type} `{!BlockDevice D} `{!KHeap H}.
Implicit Types s : ext2 D H.

(** ** The fields of one entry *)
Section entry.
Context (pre post : list Z) (e : dirent) (He : dirent_ok e).
Abbreviation buf := (pre ++ dirent_bytes e ++ post).
Abbreviation off := (Z.of_nat (length pre)).

Lemma read_ino s : de_inode buf off s = Ret (d_ino e, s).
Proof.
  unfold de_inode, rd, st_lift. rewrite (get_le_at 4 (d_ino e) _ pre (drop 4 (dirent_bytes e) ++ post)); [done|done|done|].
  destruct He as [Hi _ _ _ _ _ _]. unfold is_u32 in Hi. lia.
Qed.

Lemma read_rec s : de_rec_len buf off s = Ret (d_rec e, s).
Proof.
  unfold de_rec_len, rd, st_lift. rewrite (get_le_at 2 (d_rec e) _ (pre ++ le_bytes 4 (d_ino e)) (drop 6 (dirent_bytes e) ++ post)).
  - done.
  - by rewrite <- !app_assoc.
  - rewrite length_app, length_le_bytes. lia.
  - destruct He. unfold d_rec in *. lia.
Qed.

Lemma read_name_len s : de_name_len buf off s = Ret (Z.of_nat (length (d_name e)), s).
Proof.
  unfold de_name_len, rd, st_lift.
  rewrite (get_le_at 1 (Z.of_nat (length (d_name e))) _ (pre ++ le_bytes 4 (d_ino e) ++ le_bytes 2 (d_rec e)) (drop 7 (dirent_bytes e) ++ post)).
  - done.
  - by rewrite <- !app_assoc.
  - rewrite !length_app, !length_le_bytes. lia.
  - destruct He. lia.
Qed.

Lemma read_name s n : n = Z.of_nat (length (d_name e)) -> copy_out buf (off + 8) n s = Ret (d_name e, s).
Proof.
  intros ->. unfold copy_out, st_lift. rewrite (slice_at _ (pre ++ take 8 (dirent_bytes e)) (d_name e) (d_pad e ++ post)).
  - done.
  - unfold dirent_bytes. rewrite <- !app_assoc. reflexivity.
  - rewrite length_app, length_take. pose proof (length_dirent e). unfold d_rec in *. lia.
  - done.
Qed.

Lemma matches_run s name : de_matches buf off name s = Ret (matches name e, s).
Proof.
  unfold de_matches, matches, in_use. pstep (apply read_ino). destruct (Z.eqb_spec (d_ino e) 0); [done|]. cbn [negb andb].
  pstep (apply read_name_len). destruct (Z.eqb_spec (Z.of_nat (length (d_name e))) (Z.of_nat (length name))) as [E|E]; cbn [negb].
  - pstep (apply read_name; lia). done.
  - rewrite bool_decide_eq_false_2; [done|]. intros <-. done.
Qed.
End entry.

(** ** Searching *)
Fixpoint find_off (name : list Z) (off : Z) (es : list dirent) : option Z :=
  match es with
  | [] => None
  | e :: es => if matches name e then Some off else find_off name (off + d_rec e) es
  end.

Lemma rec_pos e : 8 <= d_rec e.
Proof. unfold d_rec. lia. Qed.

(** The offset after an entry, for a block that fits 32 bits. *)
Lemma next_off pre e es bs : Z.of_nat (length (pre ++ dir_block (e :: es))) = bs -> bs < 4294967296 ->
  Z.of_nat (length pre) < bs /\ Z.of_nat (length pre) +! d_rec e = Z.of_nat (length (pre ++ dirent_bytes e)).
Proof.
  rewrite dir_block_cons, !length_app. pose proof (length_dirent e). pose proof (rec_pos e). intros Hbs Hlt.
  split; [lia|]. rewrite u32_small by (unfold is_u32; lia). lia.
Qed.

Ltac walk := match goal with
  | Hbs : Z.of_nat (length (?pre ++ dir_block (?e :: ?es))) = ?bs, Hlt : ?bs < 4294967296 |- _ =>
      let H1 := fresh "Hoff" in let H2 := fresh "Hnext" in
      destruct (next_off pre e es bs Hbs Hlt) as [H1 H2];
      rewrite dir_block_cons; destruct (Z.leb_spec bs (Z.of_nat (length pre))); [lia|];
      pstep (by apply read_rec); destruct (Z.eqb_spec (d_rec e) 0); [pose proof (rec_pos e); lia|]
  end.

Lemma find_in_block_run name bs es : forall fuel pre s, Forall dirent_ok es -> (length es < fuel)%nat ->
  Z.of_nat (length (pre ++ dir_block es)) = bs -> bs < 4294967296 ->
  find_in_block fuel (pre ++ dir_block es) name bs (Z.of_nat (length pre)) s = Ret (find_off name (Z.of_nat (length pre)) es, s).
Proof.
  induction es as [|e es IH]; intros fuel pre s Hes Hf Hbs Hlt; (destruct fuel as [|fuel]; [lia|]); cbn [find_in_block find_off].
  - rewrite length_app in Hbs. cbn in Hbs. destruct (Z.leb_spec bs (Z.of_nat (length pre))); [done|lia].
  - apply Forall_cons_1 in Hes as [He Hes]. walk. pstep (by apply matches_run). destruct (matches name e); [done|].
    rewrite Hnext, app_assoc, IH; [|done|cbn [length] in Hf; lia|by rewrite <- app_assoc|done].
    rewrite length_app. pose proof (length_dirent e). do 3 f_equal. lia.
Qed.

Lemma find_off_None name es : forall off, find_off name off es = None <-> Forall (fun e => matches name e = false) es.
Proof.
  induction es as [|e es IH]; intros off; cbn [find_off]; [done|]. rewrite list.Forall_cons. destruct (matches name e); [by split; [|intros []]|].
  rewrite IH. tauto.
Qed.

Lemma find_off_Some name es : forall off k, find_off name off es = Some k ->
  exists es1 e es2, es = es1 ++ e :: es2 /\ matches name e = true /\ Forall (fun e => matches name e = false) es1 /\
    k = off + Z.of_nat (length (dir_block es1)).
Proof.
  induction es as [|e es IH]; intros off k; cbn [find_off]; [done|]. destruct (matches name e) eqn:E.
  - intros [= <-]. exists [], e, es. cbn. repeat split; [done|done|lia].
  - intros (es1 & e' & es2 & -> & Hm & Hn & ->)%IH. exists (e :: es1), e', es2. repeat split; [done|by constructor|].
    rewrite dir_block_cons, length_app. pose proof (length_dirent e). lia.
Qed.

Lemma count_in_block_run bs es : forall fuel pre count s, Forall dirent_ok es -> (length es < fuel)%nat ->
  Z.of_nat (length (pre ++ dir_block es)) = bs -> bs < 4294967296 ->
  count_in_block fuel (pre ++ dir_block es) bs (Z.of_nat (length pre)) count s = Ret (count + Z.of_nat (length (live es)), s).
Proof.
  induction es as [|e es IH]; intros fuel pre count s Hes Hf Hbs Hlt; (destruct fuel as [|fuel]; [lia|]); cbn [count_in_block].
  - rewrite length_app in Hbs. cbn in Hbs. destruct (Z.leb_spec bs (Z.of_nat (length pre))); [|lia]. cbn. unfold mret, ST_ret. do 2 f_equal. lia.
  - apply Forall_cons_1 in Hes as [He Hes]. walk. pstep (by apply read_ino).
    rewrite Hnext, app_assoc, IH; [|done|cbn [length] in Hf; lia|by rewrite <- app_assoc|done].
    unfold live. cbn [List.filter]. unfold in_use at 2. destruct (d_ino e =? 0); cbn [negb]; [done|]. rewrite fmap_cons. cbn [length]. do 2 f_equal. lia.
Qed.

(** ** Inserting *)
Section insert.
Context (n type : Z) (name : list Z).
Abbreviation need := (ext2_dir_rec_len (Z.of_nat (length name))).

(** The new entry in the record of an unused one. *)
Definition reuse (e : dirent) : dirent :=
  {| d_ino := n; d_type := type; d_name := name; d_pad := drop (length name) (d_name e ++ d_pad e) |}.

(** An entry cut to what its name needs, and the new entry in the rest. *)
Definition keep (e : dirent) : nat := Z.to_nat (d_need e - 8 - Z.of_nat (length (d_name e))).
Definition shrink (e : dirent) : dirent :=
  {| d_ino := d_ino e; d_type := d_type e; d_name := d_name e; d_pad := take (keep e) (d_pad e) |}.
Definition in_slack (e : dirent) : dirent :=
  {| d_ino := n; d_type := type; d_name := name; d_pad := drop (8 + length name) (drop (keep e) (d_pad e)) |}.

Fixpoint add_entry (es : list dirent) : option (list dirent) :=
  match es with
  | [] => None
  | e :: es =>
      if negb (in_use e) && (need <=? d_rec e) then Some (reuse e :: es)
      else if need <=? d_rec e - d_need e then Some (shrink e :: in_slack e :: es)
      else cons e <$> add_entry es
  end.

Lemma cut {B} (l : list B) a b : l = take a l ++ take b (drop a l) ++ drop (a + b) l.
Proof. rewrite <- drop_drop, take_drop. by rewrite take_drop. Qed.

(** The writes of [fill_entry] around the record length. *)
Lemma fill_entry_run pre a r b c old rest post nlen s : length a = 4%nat -> length r = 2%nat -> length b = 1%nat -> length c = 1%nat ->
  length old = length name ->
  fill_entry (pre ++ (a ++ r ++ b ++ c ++ old ++ rest) ++ post) (Z.of_nat (length pre)) n nlen type name s =
    Ret (pre ++ (le_bytes 4 n ++ r ++ le_bytes 1 nlen ++ le_bytes 1 type ++ name ++ rest) ++ post, s).
Proof.
  intros Ha Hr Hb Hc Ho. unfold fill_entry, wr, copy_in, st_lift.
  erewrite (put_le_at 4 n _ pre a); [|by rewrite <- !app_assoc|done|done]. cbn [of_option].
  pstep reflexivity.
  erewrite (put_le_at 1 nlen _ (pre ++ le_bytes 4 n ++ r) b (c ++ old ++ rest ++ post));
    [|by rewrite <- !app_assoc|rewrite !length_app, length_le_bytes; lia|done]. cbn [of_option].
  pstep reflexivity.
  erewrite (put_le_at 1 type _ (pre ++ le_bytes 4 n ++ r ++ le_bytes 1 nlen) c (old ++ rest ++ post));
    [|by rewrite <- !app_assoc|rewrite !length_app, !length_le_bytes; lia|done]. cbn [of_option].
  pstep reflexivity.
  erewrite (blit_at _ (pre ++ le_bytes 4 n ++ r ++ le_bytes 1 nlen ++ le_bytes 1 type) old (rest ++ post));
    [|by rewrite <- !app_assoc|rewrite !length_app, !length_le_bytes; lia|done]. cbn [of_option].
  by rewrite <- !app_assoc.
Qed.

Context (Hlen : (length name <= 255)%nat).

Lemma need_bounds : 8 + Z.of_nat (length name) <= need <= 8 + Z.of_nat (length name) + 3.
Proof. rewrite dir_rec_len_spec by lia. zlia. Qed.

Lemma reuse_rec e : need <= d_rec e -> d_rec (reuse e) = d_rec e.
Proof. pose proof need_bounds. unfold d_rec, reuse. cbn [d_name d_pad]. rewrite length_drop, length_app. lia. Qed.

Lemma shrink_rec e : dirent_ok e -> d_rec (shrink e) = d_need e.
Proof.
  intros He. pose proof (need_le_rec e He). unfold d_rec, shrink, keep in *. cbn [d_name d_pad]. rewrite length_take. lia.
Qed.

Lemma in_slack_rec e : dirent_ok e -> need <= d_rec e - d_need e -> d_rec (in_slack e) = d_rec e - d_need e.
Proof.
  intros He Hn. pose proof (need_le_rec e He). pose proof need_bounds. unfold d_rec, in_slack, keep in *. cbn [d_name d_pad].
  rewrite !length_drop. lia.
Qed.

Lemma fill_reuse pre e post s : need <= d_rec e ->
  fill_entry (pre ++ dirent_bytes e ++ post) (Z.of_nat (length pre)) n (Z.of_nat (length name)) type name s =
    Ret (pre ++ dirent_bytes (reuse e) ++ post, s).
Proof.
  intros Hn. pose proof need_bounds. unfold dirent_bytes at 1. rewrite <- (take_drop (length name) (d_name e ++ d_pad e)).
  rewrite fill_entry_run; try apply length_le_bytes.
  - unfold dirent_bytes. by rewrite reuse_rec.
  - rewrite length_take, length_app. unfold d_rec in Hn. lia.
Qed.

(** Splitting an entry: both record lengths are written, then the new entry. *)
Lemma split_entry pre e post s : dirent_ok e -> need <= d_rec e - d_need e ->
  (buf ← wr 2 (pre ++ dirent_bytes e ++ post) (Z.of_nat (length pre) + 4) (u16 (d_need e));
   buf ← wr 2 buf ((Z.of_nat (length pre) + d_need e) + 4) (u16 (d_rec e - d_need e));
   buf ← fill_entry buf (Z.of_nat (length pre) + d_need e) n (Z.of_nat (length name)) type name;
   mret (Some buf)) s = Ret (Some (pre ++ dirent_bytes (shrink e) ++ dirent_bytes (in_slack e) ++ post), s).
Proof.
  intros He Hn. pose proof (need_le_rec e He) as Hle. pose proof need_bounds. pose proof (do_max e He).
  unfold u16. rewrite !Z.mod_small by lia. set (rest := drop (keep e) (d_pad e)).
  assert (Hrest : Z.of_nat (length rest) = d_rec e - d_need e).
  { unfold rest, d_rec, keep in *. rewrite length_drop. lia. }
  assert (Hs : length (dirent_bytes (shrink e)) = Z.to_nat (d_need e)) by (pose proof (length_dirent (shrink e)); rewrite shrink_rec in *; [lia|done]).
  pstep (unfold wr, st_lift; erewrite (put_le_at 2 (d_need e) _ (pre ++ le_bytes 4 (d_ino e)) (le_bytes 2 (d_rec e))
    (drop 6 (dirent_bytes e) ++ post)); [reflexivity|by rewrite <- !app_assoc|rewrite length_app, length_le_bytes; lia|by rewrite length_le_bytes]).
  assert (E : (pre ++ le_bytes 4 (d_ino e)) ++ le_bytes 2 (d_need e) ++ drop 6 (dirent_bytes e) ++ post =
    pre ++ dirent_bytes (shrink e) ++ rest ++ post).
  { unfold dirent_bytes at 2. rewrite shrink_rec by done. cbn [shrink d_ino d_name d_type d_pad]. rewrite <- !app_assoc. do 3 f_equal.
    change (drop 6 (dirent_bytes e)) with (le_bytes 1 (Z.of_nat (length (d_name e))) ++ le_bytes 1 (d_type e) ++ d_name e ++ d_pad e).
    rewrite <- (take_drop (keep e) (d_pad e)) at 1. fold rest. by rewrite <- !app_assoc. }
  rewrite E. clear E.
  pstep (unfold wr, st_lift; erewrite (put_le_at 2 (d_rec e - d_need e) _ (pre ++ dirent_bytes (shrink e) ++ take 4 rest) (take 2 (drop 4 rest))
    (drop 6 rest ++ post)); [reflexivity| | |]).
  - set (tail := drop 6 rest).
    assert (Ht : tail = take 1 tail ++ take 1 (drop 1 tail) ++ take (length name) (drop 2 tail) ++ drop (8 + length name) rest).
    { rewrite (cut tail 1 1) at 1. do 2 f_equal. change (1 + 1)%nat with 2%nat. rewrite <- (take_drop (length name) (drop 2 tail)) at 1.
      f_equal. unfold tail. by rewrite !drop_drop. }
    rewrite Ht. replace (Z.of_nat (length pre) + d_need e) with (Z.of_nat (length (pre ++ dirent_bytes (shrink e)))) by (rewrite length_app; lia).
    replace ((pre ++ dirent_bytes (shrink e) ++ take 4 rest) ++ le_bytes 2 (d_rec e - d_need e) ++
        (take 1 tail ++ take 1 (drop 1 tail) ++ take (length name) (drop 2 tail) ++ drop (8 + length name) rest) ++ post)
      with ((pre ++ dirent_bytes (shrink e)) ++ (take 4 rest ++ le_bytes 2 (d_rec e - d_need e) ++ take 1 tail ++ take 1 (drop 1 tail) ++
        take (length name) (drop 2 tail) ++ drop (8 + length name) rest) ++ post) by (by rewrite <- !app_assoc).
    pstep (apply fill_entry_run; unfold tail; rewrite ?length_take, ?length_drop, ?length_le_bytes; lia).
    unfold mret, ST_ret. rewrite <- app_assoc. do 5 f_equal. unfold dirent_bytes. by rewrite in_slack_rec.
  - rewrite (cut rest 4 2) at 1. by rewrite <- !app_assoc.
  - rewrite !length_app, length_take. lia.
  - rewrite length_take, length_drop. lia.
Qed.

Lemma add_in_block_run bs es : forall fuel pre s, Forall dirent_ok es -> (length es < fuel)%nat ->
  Z.of_nat (length (pre ++ dir_block es)) = bs -> bs < 4294967296 ->
  add_in_block fuel (pre ++ dir_block es) name bs (Z.of_nat (length pre)) n need (Z.of_nat (length name)) type s =
    Ret ((fun es' => pre ++ dir_block es') <$> add_entry es, s).
Proof.
  induction es as [|e es IH]; intros fuel pre s Hes Hf Hbs Hlt; (destruct fuel as [|fuel]; [lia|]); cbn [add_in_block add_entry].
  - rewrite length_app in Hbs. cbn in Hbs. destruct (Z.leb_spec bs (Z.of_nat (length pre))); [done|lia].
  - apply Forall_cons_1 in Hes as [He Hes]. walk. pstep (by apply read_name_len). cbv zeta. fold (d_need e).
    pose proof (need_le_rec e He) as Hle. pose proof (do_max e He). pstep (by apply read_ino).
    rewrite (u32_small (d_rec e - d_need e)) by (unfold is_u32; lia).
    unfold in_use. rewrite negb_involutive. destruct (d_ino e =? 0); cbn [andb].
    + destruct (Z.leb_spec need (d_rec e)); [by pstep (by apply fill_reuse)|].
      destruct (Z.leb_spec need (d_rec e - d_need e)); [lia|].
      rewrite Hnext, app_assoc, IH; [|done|cbn [length] in Hf; lia|by rewrite <- app_assoc|done].
      destruct (add_entry es); cbn; [by rewrite <- app_assoc|done].
    + destruct (Z.leb_spec need (d_rec e - d_need e)).
      * rewrite (u32_small (_ + d_need e)) by (unfold is_u32; rewrite dir_block_cons, !length_app in Hbs; pose proof (length_dirent e); lia).
        by rewrite split_entry.
      * rewrite Hnext, app_assoc, IH; [|done|cbn [length] in Hf; lia|by rewrite <- app_assoc|done].
        destruct (add_entry es); cbn; [by rewrite <- app_assoc|done].
Qed.

Context (Hn : is_u32 n) (Hn0 : n <> 0) (Ht : is_u8 type) (Hname : Forall is_u8 name).

Lemma reuse_ok e : dirent_ok e -> need <= d_rec e -> dirent_ok (reuse e).
Proof.
  intros [] Hle. split; rewrite ?reuse_rec by done; try done. cbn. apply Forall_drop, Forall_app. done.
Qed.

Lemma shrink_ok e : dirent_ok e -> dirent_ok (shrink e).
Proof.
  intros He. pose proof (need_le_rec e He) as Hle. pose proof (shrink_rec e He) as Hr. destruct He.
  split; rewrite ?Hr; try done; [by apply Forall_take| |lia]. unfold d_need. rewrite dir_rec_len_spec by lia. zlia.
Qed.

Lemma in_slack_ok e : dirent_ok e -> need <= d_rec e - d_need e -> dirent_ok (in_slack e).
Proof.
  intros He Hle. pose proof (need_le_rec e He). pose proof (in_slack_rec e He Hle) as Hr. destruct He.
  split; rewrite ?Hr; try done; [by apply Forall_drop, Forall_drop| |lia].
  unfold d_need. rewrite dir_rec_len_spec by lia. zlia.
Qed.

(** Inserting adds one entry to the listing and keeps the block filled; it fails
    when no record has room. *)
Lemma add_entry_spec bs es es' : dir_wf bs es -> add_entry es = Some es' ->
  dir_wf bs es' /\ exists l1 l2, live es = l1 ++ l2 /\ live es' = l1 ++ (name, n, type) :: l2.
Proof.
  intros [Hes Hbs] Ha. assert (Hi : forall e, d_ino e = n -> d_name e = name -> d_type e = type -> live [e] = [(name, n, type)]).
  { intros e <- <- <-. unfold live. cbn. unfold in_use. by destruct (Z.eqb_spec (d_ino e) 0). }
  subst bs. revert es' Ha. induction Hes as [|e es He Hes IH]; intros es'; cbn [add_entry]; [done|].
  destruct (negb (in_use e) && (need <=? d_rec e)) eqn:E1; [|destruct (Z.leb_spec need (d_rec e - d_need e))].
  - intros [= <-]. apply andb_true_iff in E1 as [Hu Hle]. apply negb_true_iff in Hu. apply Z.leb_le in Hle. split; [split|].
    + constructor; [by apply reuse_ok|done].
    + rewrite !dir_block_cons, !length_app. pose proof (length_dirent e). pose proof (length_dirent (reuse e)). rewrite reuse_rec in * by done. lia.
    + exists [], (live es). rewrite live_cons, (live_cons (reuse e)), (Hi (reuse e)) by done. unfold live at 1. cbn. by rewrite Hu.
  - intros [= <-]. split; [split|].
    + constructor; [by apply shrink_ok|]. constructor; [by apply in_slack_ok|done].
    + rewrite !dir_block_cons, !length_app. pose proof (length_dirent e). pose proof (length_dirent (shrink e)).
      pose proof (length_dirent (in_slack e)). rewrite shrink_rec, in_slack_rec in * by done. pose proof (need_le_rec e He). lia.
    + exists (live [e]), (live es). rewrite live_cons. split; [done|]. rewrite live_cons, (live_cons (in_slack e)), (Hi (in_slack e)) by done.
      unfold live. cbn. unfold in_use. cbn [shrink d_ino]. by destruct (d_ino e =? 0).
  - destruct (add_entry es) as [es1|]; [|done]. intros [= <-]. destruct (IH es1 eq_refl) as ([Hok Hbs] & l1 & l2 & E & E').
    split; [split|].
    + by constructor.
    + rewrite !dir_block_cons, !length_app. lia.
    + exists (live [e] ++ l1), l2. rewrite live_cons, (live_cons e es1), E, E'. by rewrite <- !app_assoc.
Qed.

Definition has_room (e : dirent) : bool := (negb (in_use e) && (need <=? d_rec e)) || (need <=? d_rec e - d_need e).
Lemma add_entry_None es : add_entry es = None <-> Forall (fun e => has_room e = false) es.
Proof.
  induction es as [|e es IH]; cbn [add_entry]; [done|]. rewrite list.Forall_cons, <- IH. unfold has_room.
  destruct (negb (in_use e) && (need <=? d_rec e)); [by split; [|intros []]|].
  destruct (need <=? d_rec e - d_need e); [by split; [|intros []]|]. cbn [orb]. destruct (add_entry es); cbn; split; [done|by intros []|done|done].
Qed.
End insert.

(** ** Removing *)
Definition clear (e : dirent) : dirent := {| d_ino := 0; d_type := d_type e; d_name := d_name e; d_pad := d_pad e |}.
Definition absorb (p e : dirent) : dirent :=
  {| d_ino := d_ino p; d_type := d_type p; d_name := d_name p; d_pad := d_pad p ++ dirent_bytes e |}.

(** [p] is the entry before [es]. *)
Fixpoint remove_after (name : list Z) (p : dirent) (es : list dirent) : option (list dirent) :=
  match es with
  | [] => None
  | e :: es => if matches name e then Some (absorb p e :: es) else cons p <$> remove_after name e es
  end.
Definition remove_entry (name : list Z) (es : list dirent) : option (list dirent) :=
  match es with
  | [] => None
  | e :: es => if matches name e then Some (clear e :: es) else remove_after name e es
  end.

Lemma absorb_rec p e : d_rec (absorb p e) = d_rec p + d_rec e.
Proof. unfold d_rec at 1 2, absorb. cbn [d_name d_pad]. rewrite length_app. pose proof (length_dirent e). lia. Qed.

Lemma remove_after_run name bs es : forall fuel pre p s, dirent_ok p -> Forall dirent_ok es -> (length es < fuel)%nat ->
  Z.of_nat (length (pre ++ dir_block (p :: es))) = bs -> bs < 65536 ->
  remove_in_block fuel (pre ++ dir_block (p :: es)) name bs (Z.of_nat (length pre) + d_rec p) (Some (Z.of_nat (length pre))) s =
    Ret ((fun es' => pre ++ dir_block es') <$> remove_after name p es, s).
Proof.
  induction es as [|e es IH]; intros fuel pre p s Hp Hes Hf Hbs Hlt; (destruct fuel as [|fuel]; [lia|]); cbn [remove_in_block remove_after].
  - rewrite length_app, dir_block_cons, length_app in Hbs. pose proof (length_dirent p). change (length (dir_block [])) with 0%nat in Hbs.
    destruct (Z.leb_spec bs (Z.of_nat (length pre) + d_rec p)); [done|lia].
  - apply Forall_cons_1 in Hes as [He Hes]. pose proof (length_dirent p) as Hlp. pose proof (length_dirent e) as Hle.
    assert (Hb : pre ++ dir_block (p :: e :: es) = (pre ++ dirent_bytes p) ++ dir_block (e :: es)) by (by rewrite dir_block_cons, app_assoc).
    assert (Ho : Z.of_nat (length pre) + d_rec p = Z.of_nat (length (pre ++ dirent_bytes p))) by (rewrite length_app; lia).
    rewrite Hb in Hbs |- *. rewrite Ho. assert (Hlt' : bs < 4294967296) by lia. walk. pstep (by apply matches_run).
    destruct (matches name e).
    + rewrite <- app_assoc. pstep (by apply read_rec).
      pstep (unfold wr, st_lift; erewrite (put_le_at 2 _ _ (pre ++ le_bytes 4 (d_ino p)) (le_bytes 2 (d_rec p)) (drop 6 (dirent_bytes p) ++ dirent_bytes e ++ dir_block es));
        [reflexivity|by rewrite <- !app_assoc|rewrite length_app, length_le_bytes; lia|by rewrite length_le_bytes]).
      unfold mret, ST_ret. cbn [fmap option_fmap option_map of_option]. rewrite dir_block_cons. unfold dirent_bytes at 3. rewrite absorb_rec. unfold u16.
      rewrite dir_block_cons, !length_app in Hbs. rewrite Z.mod_small by (pose proof (rec_pos p); lia).
      change (drop 6 (dirent_bytes p)) with (le_bytes 1 (Z.of_nat (length (d_name p))) ++ le_bytes 1 (d_type p) ++ d_name p ++ d_pad p).
      cbn [absorb d_ino d_name d_type d_pad]. by rewrite <- !app_assoc.
    + rewrite Hnext, (length_app (pre ++ dirent_bytes p)), <- dir_block_cons.
      replace (Z.of_nat (length (pre ++ dirent_bytes p) + length (dirent_bytes e)))
        with (Z.of_nat (length (pre ++ dirent_bytes p)) + d_rec e) by lia.
      rewrite IH; [|done|done|cbn [length] in Hf; lia|done|done].
      destruct (remove_after name e es); cbn; [by rewrite <- app_assoc|done].
Qed.

Lemma remove_in_block_run name bs es fuel s : dir_wf bs es -> (length es < fuel)%nat -> bs < 65536 ->
  remove_in_block fuel (dir_block es) name bs 0 None s = Ret (dir_block <$> remove_entry name es, s).
Proof.
  intros [Hes Hbs] Hf Hlt. destruct fuel as [|fuel]; [lia|]. cbn [remove_in_block].
  destruct es as [|e es]; cbn [remove_entry].
  - cbn in Hbs. subst bs. done.
  - apply Forall_cons_1 in Hes as [He Hes]. pose proof (length_dirent e) as Hle. pose proof (rec_pos e).
    rewrite dir_block_cons, length_app in Hbs. destruct (Z.leb_spec bs 0); [lia|]. rewrite dir_block_cons.
    pstep (apply (read_rec [] _ e He)). destruct (Z.eqb_spec (d_rec e) 0); [lia|]. pstep (apply (matches_run [] _ e He)).
    destruct (matches name e).
    + pstep (unfold wr, st_lift; erewrite (put_le_at 4 0 _ [] (le_bytes 4 (d_ino e))); [reflexivity|reflexivity|done|by rewrite length_le_bytes]).
      done.
    + rewrite u32_small by (unfold is_u32; lia). rewrite <- dir_block_cons.
      pose proof (remove_after_run name bs es fuel [] e s He Hes) as Hr. cbn [app length] in Hr. change (Z.of_nat 0) with 0 in Hr. rewrite Hr;
        [by destruct (remove_after name e es)|cbn [length] in Hf; lia|by rewrite dir_block_cons, length_app|done].
Qed.

Lemma absorb_ok p e : dirent_ok p -> dirent_ok e -> d_rec p + d_rec e < 65536 -> dirent_ok (absorb p e).
Proof.
  intros Hp He Hlt. pose proof (dirent_bytes_u8 e He). destruct Hp, He. split; rewrite ?absorb_rec; try done.
  - by apply Forall_app.
  - rewrite Z.add_mod, do_align0, do_align1 by lia. done.
Qed.

Lemma matches_in_use name e : matches name e = true -> live [e] = [(name, d_ino e, d_type e)].
Proof. unfold matches, live. cbn. intros [Hu Hn]%andb_true_iff. apply bool_decide_eq_true in Hn as <-. by rewrite Hu. Qed.

Lemma live_absorb p e : live [absorb p e] = live [p].
Proof. unfold live. cbn. unfold in_use. cbn [absorb d_ino]. by destruct (d_ino p =? 0). Qed.

Lemma remove_after_spec name bs es : forall p es', dir_wf bs (p :: es) -> bs < 65536 -> remove_after name p es = Some es' ->
  dir_wf bs es' /\ exists l1 i t l2, live (p :: es) = l1 ++ (name, i, t) :: l2 /\ live es' = l1 ++ l2.
Proof.
  induction es as [|e es IH] in bs |- *; intros p es' [Hok Hbs] Hlt; cbn [remove_after]; [done|].
  apply Forall_cons_1 in Hok as [Hp Hok]. apply Forall_cons_1 in Hok as [He Hok].
  pose proof (length_dirent p). pose proof (length_dirent e). rewrite !dir_block_cons, !length_app in Hbs.
  destruct (matches name e) eqn:E.
  - intros [= <-]. split; [split|].
    + constructor; [apply absorb_ok; [done|done|lia]|done].
    + rewrite dir_block_cons, length_app. pose proof (length_dirent (absorb p e)). rewrite absorb_rec in *. lia.
    + exists (live [p]), (d_ino e), (d_type e), (live es). rewrite live_cons, (live_cons e), (live_cons (absorb p e)), (matches_in_use name e E), live_absorb.
      done.
  - destruct (remove_after name e es) as [es1|] eqn:Er; [|done]. intros [= <-].
    destruct (IH (bs - d_rec p) e es1) as ([Hok1 Hb1] & l1 & i & t & l2 & E1 & E2); [|pose proof (rec_pos p); lia|done|].
    { split; [by constructor|]. rewrite dir_block_cons, length_app. lia. }
    split; [split; [by constructor|rewrite dir_block_cons, length_app; lia]|].
    exists (live [p] ++ l1), i, t, l2. rewrite live_cons, (live_cons p es1), E1, E2. by rewrite <- !app_assoc.
Qed.

Lemma remove_entry_spec name bs es es' : dir_wf bs es -> bs < 65536 -> remove_entry name es = Some es' ->
  dir_wf bs es' /\ exists l1 i t l2, live es = l1 ++ (name, i, t) :: l2 /\ live es' = l1 ++ l2.
Proof.
  intros [Hok Hbs] Hlt. destruct es as [|e es]; cbn [remove_entry]; [done|]. destruct (matches name e) eqn:E.
  - apply Forall_cons_1 in Hok as [He Hok]. intros [= <-]. split; [split|].
    + constructor; [|done]. destruct He. by split.
    + exact Hbs.
    + exists [], (d_ino e), (d_type e), (live es). rewrite live_cons, (matches_in_use name e E). split; [done|]. done.
  - intros Hr. apply (remove_after_spec name bs es e es'); [by split|done|done].
Qed.

Lemma remove_entry_None name es : remove_entry name es = None <-> Forall (fun e => matches name e = false) es.
Proof.
  assert (Hra : forall es p, remove_after name p es = None <-> Forall (fun e => matches name e = false) es).
  { clear es. induction es as [|e es IH]; intros p; cbn [remove_after]; [done|]. rewrite list.Forall_cons, <- (IH e).
    destruct (matches name e); [by split; [|intros []]|]. destruct (remove_after name e es); cbn; split; [done|by intros []|done|done]. }
  destruct es as [|e es]; cbn [remove_entry]; [done|]. rewrite list.Forall_cons, <- (Hra es e).
  destruct (matches name e); [by split; [|intros []]|]. tauto.
Qed.

(** ** A block as a listing *)
Lemma dir_wf_length bs es : dir_wf bs es -> (length es < S (Z.to_nat bs))%nat.
Proof.
  intros [_ <-]. induction es as [|e es IH]; [cbn; lia|]. rewrite dir_block_cons, length_app. cbn [length].
  pose proof (length_dirent e). pose proof (rec_pos e). lia.
Qed.

(** A name is in no entry of a listing. *)
Definition absent (name : list Z) (l : listing) : Prop := forall i t, (name, i, t) ∉ l.

Lemma absent_live name es : Forall (fun e => matches name e = false) es <-> absent name (live es).
Proof.
  unfold absent, live. split.
  - intros Hf i t Hin. apply list_elem_of_fmap in Hin as (e & [= -> -> ->] & He). apply list_elem_of_In, filter_In in He as [He Hu].
    apply list_elem_of_In in He. rewrite list.Forall_forall in Hf. specialize (Hf e He). unfold matches in Hf. rewrite Hu in Hf.
    cbn [andb] in Hf. by apply bool_decide_eq_false in Hf.
  - intros Ha. apply list.Forall_forall. intros e He. unfold matches. destruct (in_use e) eqn:Hu; [|done]. cbn [andb].
    apply bool_decide_eq_false. intros <-. apply (Ha (d_ino e) (d_type e)). apply list_elem_of_fmap. exists e. split; [done|].
    apply list_elem_of_In, filter_In. split; [by apply list_elem_of_In|done].
Qed.

Lemma find_in_block_spec name bs es s : dir_wf bs es -> bs < 65536 ->
  exists r, find_in_block (S (Z.to_nat bs)) (dir_block es) name bs 0 s = Ret (r, s) /\
    match r with
    | None => absent name (live es)
    | Some off => exists es1 e es2, es = es1 ++ e :: es2 /\ matches name e = true /\ absent name (live es1) /\
        off = Z.of_nat (length (dir_block es1))
    end.
Proof.
  intros Hwf Hlt. pose proof (dir_wf_length bs es Hwf) as Hlen. destruct Hwf as [Hok Hbs].
  exists (find_off name 0 es). split; [apply (find_in_block_run name bs es _ [] s Hok Hlen Hbs); lia|].
  destruct (find_off name 0 es) as [k|] eqn:E.
  - destruct (find_off_Some name es 0 k E) as (es1 & e & es2 & -> & Hm & Hn & ->). exists es1, e, es2. by rewrite <- absent_live.
  - by apply absent_live, (find_off_None name es 0).
Qed.

(** A directory block is a list of names: on a block filled exactly by
    well-formed entries, the search finds the first entry in use with the name
    and its inode, or none when no entry has it; insertion adds exactly the new
    entry to the list, in an unused record or in the slack of one, and refuses
    only when no record has room; removal takes out exactly one entry with the
    name; the count is the length of the list.  The block stays well formed. *)
Theorem dir_block_refines bs es name n type s : dir_wf bs es -> bs < 65536 ->
  (exists r, find_in_block (S (Z.to_nat bs)) (dir_block es) name bs 0 s = Ret (r, s) /\
     match r with
     | None => absent name (live es)
     | Some off => exists l1 i t l2, live es = l1 ++ (name, i, t) :: l2 /\ absent name l1 /\ get_le 4 (dir_block es) off = Some i
     end) /\
  (exists r, remove_in_block (S (Z.to_nat bs)) (dir_block es) name bs 0 None s = Ret (r, s) /\
     match r with
     | None => absent name (live es)
     | Some buf => exists es', buf = dir_block es' /\ dir_wf bs es' /\
         exists l1 i t l2, live es = l1 ++ (name, i, t) :: l2 /\ live es' = l1 ++ l2
     end) /\
  count_in_block (S (Z.to_nat bs)) (dir_block es) bs 0 0 s = Ret (Z.of_nat (length (live es)), s) /\
  (is_u32 n -> n <> 0 -> is_u8 type -> Forall is_u8 name -> (length name <= 255)%nat ->
   exists r, add_in_block (S (Z.to_nat bs)) (dir_block es) name bs 0 n (ext2_dir_rec_len (Z.of_nat (length name)))
       (Z.of_nat (length name)) type s = Ret (r, s) /\
     match r with
     | None => Forall (fun e => has_room name e = false) es
     | Some buf => exists es', buf = dir_block es' /\ dir_wf bs es' /\
         exists l1 l2, live es = l1 ++ l2 /\ live es' = l1 ++ (name, n, type) :: l2
     end).
Proof.
  intros Hwf Hlt. pose proof (dir_wf_length bs es Hwf) as Hlen. pose proof Hwf as [Hok Hbs]. split; [|split; [|split]].
  - destruct (find_in_block_spec name bs es s Hwf Hlt) as (r & Hr & Hf). exists r. split; [done|]. destruct r as [off|]; [|done].
    destruct Hf as (es1 & e & es2 & -> & Hm & Hn & ->). exists (live es1), (d_ino e), (d_type e), (live es2).
    rewrite live_app, live_cons, (matches_in_use name e Hm). split; [done|]. split; [done|].
    apply Forall_app in Hok as [_ Hok]. apply Forall_cons_1 in Hok as [He _]. rewrite dir_block_app, dir_block_cons.
    pose proof (read_ino (dir_block es1) (dir_block es2) e He s) as Hi. unfold de_inode, rd, st_lift in Hi.
    destruct (get_le 4 _ _); [|done]. by injection Hi as ->.
  - exists (dir_block <$> remove_entry name es). split; [by apply remove_in_block_run|].
    destruct (remove_entry name es) as [es'|] eqn:E; cbn.
    + exists es'. split; [done|]. by apply (remove_entry_spec name).
    + by apply absent_live, remove_entry_None.
  - exact (count_in_block_run bs es _ [] 0 s Hok Hlen Hbs ltac:(lia)).
  - intros Hn Hn0 Ht Hname Hl. exists (dir_block <$> add_entry n type name es).
    split; [apply (add_in_block_run n type name Hl bs es _ [] s Hok Hlen Hbs); lia|].
    destruct (add_entry n type name es) as [es'|] eqn:E; cbn.
    + exists es'. split; [done|]. by apply (add_entry_spec n type name Hl Hn Hn0 Ht Hname).
    + by apply (add_entry_None n type name).
Qed.
End blocks.

(** ** Witness: the first block of a directory, with an entry and its slack *)
Definition small_dir : list dirent :=
  [{| d_ino := 2; d_type := 2; d_name := [46]; d_pad := [0; 0; 0] |};
   {| d_ino := 2; d_type := 2; d_name := [46; 46]; d_pad := replicate 26 0 |}].

Lemma small_dir_wf : dir_wf 48 small_dir.
Proof.
  split; [|done]. repeat constructor; cbn; unfold is_u32, is_u8; lia.
Qed.

Lemma dir_block_refines_witness :
  exists es', add_in_block (S (Z.to_nat 48)) (dir_block small_dir) [97] 48 0 5 (ext2_dir_rec_len (Z.of_nat (length [97])))
      (Z.of_nat (length [97])) 1 tiny_fs = Ret (Some (dir_block es'), tiny_fs) /\ dir_wf 48 es' /\ length (live es') = 3%nat.
Proof.
  destruct (dir_block_refines 48 small_dir [97] 5 1 tiny_fs small_dir_wf) as (_ & _ & _ & Hadd); [lia|].
  destruct Hadd as (r & Hr & Hc); [unfold is_u32; lia|lia|unfold is_u8; lia|repeat constructor; unfold is_u8; lia|cbn; lia|].
  destruct r as [r|].
  - destruct Hc as (es' & -> & Hwf & l1 & l2 & E1 & E2). exists es'. split; [exact Hr|]. split; [exact Hwf|].
    rewrite E2, length_app. cbn [length]. apply (f_equal length) in E1. rewrite length_app in E1. cbn in E1. lia.
  - apply Forall_cons_1 in Hc as [_ Hc]. apply Forall_cons_1 in Hc as [Hc _]. by vm_compute in Hc.
Defined.
