(* ===== verification/Ext2Layout.v ===== *)
(** * Data blocks of an ext2 volume

    What allocation and block writes keep: the layout of the volume, the
    allocation state of every block and the contents of the data blocks that are
    in use.  [vol_wf] is a volume whose metadata blocks are all marked used, so
    that allocation hands out data blocks only; [data_step] is a change of the
    volume that releases nothing and writes, among the data blocks in use, only
    those of a given set. *)

From S2P Require Import Prelude BlockDev Ext2 Ext2Proof.

Section layout.
Context {D H : Type} `{!BlockDevice D} `{!HealthyDevice D} `{!KHeap H}.
Implicit Types s : ext2 D H.

(** ** The layout: everything the position of a block depends on *)
Record same_layout s s' : Prop := {
  sl_fdb : s_first_data_block (e_sb s') = s_first_data_block (e_sb s);
  sl_bpg : s_blocks_per_group (e_sb s') = s_blocks_per_group (e_sb s);
  sl_ipg : s_inodes_per_group (e_sb s') = s_inodes_per_group (e_sb s);
  sl_count : s_blocks_count (e_sb s') = s_blocks_count (e_sb s);
  sl_isize : inode_size_of (e_sb s') = inode_size_of (e_sb s);
  sl_gc : e_groups_count s' = e_groups_count s;
  sl_bs : e_block_size s' = e_block_size s;
  sl_dev : bd_blocks (e_dev s') = bd_blocks (e_dev s);
  sl_bm : forall g, bitmap_of s' g = bitmap_of s g;
  sl_ibm : forall g, inode_bitmap_of s' g = inode_bitmap_of s g;
  sl_tab : forall g, table_of s' g = table_of s g
}.

#[export] Instance same_layout_equiv : Equivalence same_layout.
Proof.
  split.
  - by intros s.
  - intros s1 s2 []. by split.
  - intros s1 s2 s3 [] []. split; intros; etrans; eauto.
Qed.

Lemma same_but_layout s s' P : same_but s s' P -> same_layout s s'.
Proof. intros []. split; unfold bitmap_of, inode_bitmap_of, table_of; congruence. Qed.

Lemma znth_update {A} (l : list A) i j x (f : A -> Z) y : znth l i = Some y -> f x = f y ->
  default 0 (f <$> znth (<[Z.to_nat i := x]> l) j) = default 0 (f <$> znth l j).
Proof.
  intros Hi Hf. destruct (decide (0 <= j)) as [Hj|Hj].
  - pose proof (znth_inv _ _ _ Hi) as [Hi0 Hil]. pose proof (lookup_lt_Some _ _ _ Hil).
    rewrite znth_insert_list by lia. destruct (Z.eqb_spec j i) as [->|]; [|done]. rewrite Hi. cbn. by rewrite Hf.
  - unfold znth. by destruct (Z.leb_spec 0 j); [lia|].
Qed.

Lemma counters_layout s s' g gd gd' : counter_sb (e_sb s) (e_sb s') -> counter_gd gd gd' -> znth (e_group_desc s) g = Some gd ->
  e_group_desc s' = <[Z.to_nat g := gd']> (e_group_desc s) -> e_groups_count s' = e_groups_count s ->
  e_block_size s' = e_block_size s -> bd_blocks (e_dev s') = bd_blocks (e_dev s) -> same_layout s s'.
Proof.
  intros [] [] Hgd Egd Egc Ebs Edev. split; try done.
  all: intros g2; unfold bitmap_of, inode_bitmap_of, table_of; rewrite Egd; by eapply znth_update.
Qed.

Lemma bit_update_layout s s' g d f : bit_update s s' g d f -> same_layout s s'.
Proof.
  intros []. destruct bu_gds as (gd & Hgd & Egd). eapply counters_layout; [| |exact Hgd|exact Egd|done|done|done].
  - rewrite bu_sb. by apply counter_sb_set.
  - by apply counter_gd_set.
Qed.

Section same.
Context (s s' : ext2 D H) (Hl : same_layout s s').

Lemma in_dev_layout c : in_dev s' c <-> in_dev s c.
Proof. unfold in_dev. by rewrite (sl_dev _ _ Hl). Qed.
Lemma meta_layout c : meta s' c <-> meta s c.
Proof. unfold meta, sb_block, gd_block. by rewrite (sl_gc _ _ Hl), (sl_bs _ _ Hl), (sl_fdb _ _ Hl). Qed.
Lemma valid_ino_layout n : valid_ino s' n <-> valid_ino s n.
Proof. unfold valid_ino. by rewrite (sl_gc _ _ Hl), (sl_ipg _ _ Hl). Qed.
Lemma loc_layout n : loc_blk s' n = loc_blk s n /\ loc_off s' n = loc_off s n /\ loc_group s' n = loc_group s n.
Proof.
  unfold loc_blk, loc_off, loc_group, loc_index, per_block.
  by rewrite (sl_ipg _ _ Hl), (sl_isize _ _ Hl), (sl_bs _ _ Hl), (sl_tab _ _ Hl).
Qed.
Lemma group_bits_layout g : group_bits s' g = group_bits s g.
Proof. unfold group_bits. by rewrite (sl_gc _ _ Hl), (sl_bpg _ _ Hl), (sl_fdb _ _ Hl), (sl_count _ _ Hl). Qed.
Lemma itable_layout : itable_wf s -> itable_wf s'.
Proof.
  intros []. split.
  - by rewrite (sl_isize _ _ Hl), (sl_bs _ _ Hl).
  - intros n Hn%valid_ino_layout. destruct (loc_layout n) as (-> & _ & _). rewrite in_dev_layout. auto.
  - intros n n' Hn%valid_ino_layout Hn'%valid_ino_layout. destruct (loc_layout n) as (-> & _ & ->).
    destruct (loc_layout n') as (-> & _ & ->). auto.
Qed.
End same.

(** ** Data blocks *)

(** A block number that holds neither metadata, a bitmap nor inodes. *)
Record data_blk s (c : Z) : Prop := {
  db_dev : in_dev s c;
  db_pos : 0 < c;
  db_range : s_first_data_block (e_sb s) <= c < s_blocks_count (e_sb s);
  db_meta : ~ meta s c;
  db_bm : forall g, 0 <= g < e_groups_count s -> c <> bitmap_of s g;
  db_ibm : forall g, 0 <= g < e_groups_count s -> c <> inode_bitmap_of s g;
  db_tab : forall n, valid_ino s n -> c <> loc_blk s n
}.

Lemma data_blk_layout s s' c : same_layout s s' -> data_blk s c -> data_blk s' c.
Proof.
  intros Hl []. split.
  - by apply (in_dev_layout _ _ Hl).
  - done.
  - by rewrite (sl_fdb _ _ Hl), (sl_count _ _ Hl).
  - by rewrite (meta_layout _ _ Hl).
  - intros g. rewrite (sl_gc _ _ Hl), (sl_bm _ _ Hl). auto.
  - intros g. rewrite (sl_gc _ _ Hl), (sl_ibm _ _ Hl). auto.
  - intros n Hn%(valid_ino_layout _ _ Hl). destruct (loc_layout _ _ Hl n) as (-> & _). auto.
Qed.

(** Block [c] is marked used in its group's bitmap. *)
Definition rel s (c : Z) : Z := c - s_first_data_block (e_sb s).
Definition used s (c : Z) : bool :=
  block_bit s (rel s c / s_blocks_per_group (e_sb s)) (rel s c mod s_blocks_per_group (e_sb s)).

(** Inode [i] of group [g], and inode number [n], is marked used. *)
Definition ino_bit s (g i : Z) : bool := bm_bit (blk s (inode_bitmap_of s g)) i.
Definition ino_used s (n : Z) : bool := ino_bit s (loc_group s n) (loc_index s n).

(** Every block that is free is a data block, and the inode table is apart from
    the metadata and the bitmaps. *)
Record vol_wf s : Prop := {
  vw_fs : fs_wf s;
  vw_it : itable_wf s;
  vw_free : forall g i, 0 <= g < e_groups_count s -> 0 <= i < group_bits s g -> block_bit s g i = false ->
    data_blk s (s_first_data_block (e_sb s) + g * s_blocks_per_group (e_sb s) + i);
  vw_tab : forall n, valid_ino s n -> ~ meta s (loc_blk s n) /\
    (forall g, 0 <= g < e_groups_count s -> loc_blk s n <> bitmap_of s g /\ loc_blk s n <> inode_bitmap_of s g)
}.

Lemma rel_number s g i : fs_wf s -> 0 <= i < s_blocks_per_group (e_sb s) ->
  let c := s_first_data_block (e_sb s) + g * s_blocks_per_group (e_sb s) + i in
  rel s c / s_blocks_per_group (e_sb s) = g /\ rel s c mod s_blocks_per_group (e_sb s) = i.
Proof.
  intros Hwf Hi. cbv zeta. unfold rel.
  replace (s_first_data_block (e_sb s) + g * s_blocks_per_group (e_sb s) + i - s_first_data_block (e_sb s))
    with (i + g * s_blocks_per_group (e_sb s)) by lia.
  rewrite Z.div_add, Z_mod_plus_full, Z.div_small, Z.mod_small by lia. lia.
Qed.

Lemma number_rel s c : fs_wf s -> data_blk s c ->
  let g := rel s c / s_blocks_per_group (e_sb s) in let i := rel s c mod s_blocks_per_group (e_sb s) in
  0 <= g < e_groups_count s /\ 0 <= i < s_blocks_per_group (e_sb s) /\
  c = s_first_data_block (e_sb s) + g * s_blocks_per_group (e_sb s) + i.
Proof.
  intros Hwf []. cbv zeta. pose proof (w_bpg _ Hwf) as Hb. destruct (w_total _ Hwf) as [Ht _].
  unfold rel. set (bpg := s_blocks_per_group (e_sb s)) in *. set (r := c - s_first_data_block (e_sb s)).
  pose proof (Z.mod_pos_bound r bpg ltac:(lia)). pose proof (Z.div_mod r bpg ltac:(lia)).
  split; [|split; [lia|unfold r in *; lia]].
  split; [apply Z.div_pos; unfold r; lia|apply Z.div_lt_upper_bound; unfold r; lia].
Qed.

Lemma loc_number_group s n : fs_wf s -> valid_ino s n -> 0 <= loc_group s n < e_groups_count s.
Proof.
  intros Hwf Hn. pose proof (w_ipg _ Hwf). unfold valid_ino, loc_group in *.
  split; [apply Z.div_pos; lia|apply Z.div_lt_upper_bound; lia].
Qed.

(** ** Steps: data blocks outside [W] and inodes outside [T] are kept *)
Record vol_step s s' (W T : Z -> Prop) : Prop := {
  ds_wf : vol_wf s';
  ds_lay : same_layout s s';
  ds_used : forall c, data_blk s c -> used s c = true -> used s' c = true;
  ds_blk : forall c, data_blk s c -> used s c = true -> ~ W c -> blk s' c = blk s c;
  ds_tab : forall n, valid_ino s n -> ~ T n -> table_entry s' n = table_entry s n;
  ds_ino : forall n, valid_ino s n -> ~ T n -> ino_used s' n = ino_used s n;
  ds_ref : (refusals s <= refusals s')%nat
}.
Abbreviation data_step s s' W := (vol_step s s' W (fun _ => False)).

Lemma vol_step_trans s1 s2 s3 W T : vol_step s1 s2 W T -> vol_step s2 s3 W T -> vol_step s1 s3 W T.
Proof.
  intros [A1 A2 A3 A4 A5 A6 A7] [B1 B2 B3 B4 B5 B6 B7]. split; [done|by etrans|..|by etrans].
  - intros c Hc Hu. apply B3; [by eapply data_blk_layout|auto].
  - intros c Hc Hu HW. rewrite B4, A4; auto. by eapply data_blk_layout.
  - intros n Hn HT. rewrite B5; [auto| |done]. by apply (valid_ino_layout _ _ A2).
  - intros n Hn HT. rewrite B6; [auto| |done]. by apply (valid_ino_layout _ _ A2).
Qed.

Lemma vol_step_weaken s s' (W W' T T' : Z -> Prop) : vol_step s s' W T -> (forall c, W c -> W' c) -> (forall n, T n -> T' n) ->
  vol_step s s' W' T'.
Proof. intros [] HW HT. split; auto. Qed.
Lemma data_step_weaken s s' (W W' : Z -> Prop) : data_step s s' W -> (forall c, W c -> W' c) -> data_step s s' W'.
Proof. intros Hs HW. by eapply vol_step_weaken. Qed.

(** *** A change of one block leaves the bitmaps alone *)
Section one_block.
Context (s s' : ext2 D H) (b : Z) (Hv : vol_wf s) (Hs : same_but s s' (fun c => c <> b)).
Hypothesis Hb : forall g, 0 <= g < e_groups_count s -> b <> bitmap_of s g.

Lemma one_block_bits g j : 0 <= g < e_groups_count s -> block_bit s' g j = block_bit s g j.
Proof.
  intros Hg. unfold block_bit. rewrite (sl_bm _ _ (same_but_layout _ _ _ Hs)).
  destruct (w_bm _ (vw_fs _ Hv) g Hg) as (Hin & _). rewrite (sm_blk _ _ _ Hs); [done|done|]. intros E. by apply (Hb g).
Qed.

Lemma one_block_vol : vol_wf s'.
Proof.
  pose proof (same_but_layout _ _ _ Hs) as Hl. pose proof Hv as []. split.
  - by eapply same_but_wf.
  - by eapply itable_layout.
  - intros g i. rewrite (sl_gc _ _ Hl), (group_bits_layout _ _ Hl), (sl_fdb _ _ Hl), (sl_bpg _ _ Hl).
    intros Hg Hi. rewrite one_block_bits by done. intros Hf. eapply data_blk_layout; [exact Hl|auto].
  - intros n Hn%(valid_ino_layout _ _ Hl). destruct (loc_layout _ _ Hl n) as (-> & _). rewrite (meta_layout _ _ Hl).
    destruct (vw_tab0 n Hn) as [H1 H2]. split; [done|]. intros g. rewrite (sl_gc _ _ Hl), (sl_bm _ _ Hl), (sl_ibm _ _ Hl). auto.
Qed.

Lemma one_block_used c : data_blk s c -> used s' c = used s c.
Proof.
  intros Hc. pose proof (same_but_layout _ _ _ Hs) as Hl. unfold used, rel. rewrite (sl_fdb _ _ Hl), (sl_bpg _ _ Hl).
  apply one_block_bits. by apply (number_rel s c (vw_fs _ Hv) Hc).
Qed.
End one_block.

(** The inode bitmaps are kept when their blocks are. *)
Lemma ino_used_kept s s' n : fs_wf s -> same_layout s s' -> valid_ino s n ->
  (forall g, 0 <= g < e_groups_count s -> blk s' (inode_bitmap_of s g) = blk s (inode_bitmap_of s g)) ->
  ino_used s' n = ino_used s n.
Proof.
  intros Hwf Hl Hn Hb. unfold ino_used, ino_bit, loc_index. destruct (loc_layout _ _ Hl n) as (_ & _ & ->).
  rewrite (sl_ibm _ _ Hl), (sl_ipg _ _ Hl), Hb; [done|by apply loc_number_group].
Qed.

(** *** The operations as steps *)
Lemma same_but_data_step s s' W : vol_wf s -> same_but s s' (fun _ => True) -> data_step s s' W.
Proof.
  intros Hv Hs.
  assert (Hs1 : same_but s s' (fun c => c <> -1)) by (by eapply same_but_weaken).
  assert (Hb : forall g, 0 <= g < e_groups_count s -> -1 <> bitmap_of s g).
  { intros g Hg. destruct (w_bm _ (vw_fs _ Hv) g Hg) as ([? _] & _). lia. }
  split.
  - by eapply one_block_vol.
  - by eapply same_but_layout.
  - intros c Hc. by rewrite (one_block_used _ _ _ Hv Hs1 Hb).
  - intros c Hc _ _. apply (sm_blk _ _ _ Hs); [apply Hc|done].
  - intros n Hn _. unfold table_entry. destruct (loc_layout _ _ (same_but_layout _ _ _ Hs) n) as (-> & -> & _).
    rewrite (sm_blk _ _ _ Hs); [done| |done]. by apply (it_dev _ (vw_it _ Hv)).
  - intros n Hn _. apply ino_used_kept; [apply Hv|by eapply same_but_layout|done|]. intros g Hg.
    apply (sm_blk _ _ _ Hs); [|done]. by apply (w_bm _ (vw_fs _ Hv) g Hg).
  - apply Hs.
Qed.

Lemma write_data_step s s' b : vol_wf s -> data_blk s b -> same_but s s' (fun c => c <> b) -> data_step s s' (eq b).
Proof.
  intros Hv Hb Hs. pose proof (db_bm _ _ Hb) as Hbm. split.
  - by eapply one_block_vol.
  - by eapply same_but_layout.
  - intros c Hc. by rewrite (one_block_used _ _ _ Hv Hs Hbm).
  - intros c Hc _ Hne. apply (sm_blk _ _ _ Hs); [apply Hc|]. intros ->. by apply Hne.
  - intros n Hn _. unfold table_entry. destruct (loc_layout _ _ (same_but_layout _ _ _ Hs) n) as (-> & -> & _).
    rewrite (sm_blk _ _ _ Hs); [done| |]. { by apply (it_dev _ (vw_it _ Hv)). }
    intros E. by apply (db_tab _ _ Hb n Hn).
  - intros n Hn _. apply ino_used_kept; [apply Hv|by eapply same_but_layout|done|]. intros g Hg.
    apply (sm_blk _ _ _ Hs); [by apply (w_bm _ (vw_fs _ Hv) g Hg)|]. intros E. by apply (db_ibm _ _ Hb g Hg).
  - apply Hs.
Qed.

(** A change of the bits of one block bitmap keeps the data, the inodes and the
    layout. *)
Record kept s s' : Prop := {
  kp_wf : vol_wf s';
  kp_lay : same_layout s s';
  kp_blk : forall c, data_blk s c -> blk s' c = blk s c;
  kp_tab : forall n, valid_ino s n -> table_entry s' n = table_entry s n;
  kp_ino : forall n, valid_ino s n -> ino_used s' n = ino_used s n;
  kp_ref : (refusals s <= refusals s')%nat
}.

Lemma bit_update_kept s s' g d f : vol_wf s -> 0 <= g < e_groups_count s -> bit_update s s' g d f ->
  (forall i, 0 <= i < group_bits s g -> f i = false ->
     data_blk s (s_first_data_block (e_sb s) + g * s_blocks_per_group (e_sb s) + i)) -> kept s s'.
Proof.
  intros Hv Hg Hu Hfree. pose proof (bit_update_layout _ _ _ _ _ Hu) as Hl. pose proof (vw_fs _ Hv) as Hwf. split.
  - split.
    + apply Hu.
    + eapply itable_layout; [done|apply Hv].
    + intros g2 j. rewrite (sl_gc _ _ Hl), (group_bits_layout _ _ Hl), (sl_fdb _ _ Hl), (sl_bpg _ _ Hl).
      intros Hg2 Hj Hf. eapply data_blk_layout; [exact Hl|]. destruct (decide (g2 = g)) as [->|Hne].
      * apply Hfree; [done|]. by rewrite <- (bu_bits _ _ _ _ _ Hu) by lia.
      * apply (vw_free _ Hv); [done|done|]. by rewrite <- (bu_other _ _ _ _ _ Hu).
    + intros n Hn%(valid_ino_layout _ _ Hl). destruct (loc_layout _ _ Hl n) as (-> & _). rewrite (meta_layout _ _ Hl).
      destruct (vw_tab _ Hv n Hn) as [H1 H2]. split; [done|]. intros g2. rewrite (sl_gc _ _ Hl), (sl_bm _ _ Hl), (sl_ibm _ _ Hl). auto.
  - done.
  - intros c Hc. apply (bu_blk _ _ _ _ _ Hu); [apply Hc|apply Hc|]. by apply (db_bm _ _ Hc).
  - intros n Hn. unfold table_entry. destruct (loc_layout _ _ Hl n) as (-> & -> & _).
    destruct (vw_tab _ Hv n Hn) as [H1 H2]. rewrite (bu_blk _ _ _ _ _ Hu); [done| |done|by apply H2].
    by apply (it_dev _ (vw_it _ Hv)).
  - intros n Hn. apply ino_used_kept; [done|done|done|]. intros g2 Hg2. destruct (w_bm _ Hwf g2 Hg2) as (_ & _ & H3 & H4).
    apply (bu_blk _ _ _ _ _ Hu); [done|done|]. intros E. by apply (w_bm_ibm _ Hwf g g2).
  - apply Hu.
Qed.

(** A step followed by such a change that keeps the bits of the blocks in use before. *)
Lemma vol_step_kept s s2 s3 W T : vol_step s s2 W T -> kept s2 s3 ->
  (forall c, data_blk s c -> used s c = true -> used s3 c = true) -> vol_step s s3 W T.
Proof.
  intros [A1 A2 A3 A4 A5 A6 A7] [B1 B2 B3 B4 B5 B6] Hu. split; [done|by etrans|done|..|by etrans].
  - intros c Hc Huc HW. rewrite B3; [auto|by eapply data_blk_layout].
  - intros n Hn HT. rewrite B4; [auto|]. by apply (valid_ino_layout _ _ A2).
  - intros n Hn HT. rewrite B5; [auto|]. by apply (valid_ino_layout _ _ A2).
Qed.

(** The bit of a data block after such a change. *)
Lemma bit_update_used s s' g d f c : vol_wf s -> 0 <= g < e_groups_count s -> bit_update s s' g d f -> data_blk s c ->
  used s' c = if rel s c / s_blocks_per_group (e_sb s) =? g then f (rel s c mod s_blocks_per_group (e_sb s)) else used s c.
Proof.
  intros Hv Hg Hu Hc. pose proof (bit_update_layout _ _ _ _ _ Hu) as Hl. destruct (number_rel s c (vw_fs _ Hv) Hc) as (H1 & H2 & _).
  unfold used, rel in *. rewrite (sl_fdb _ _ Hl), (sl_bpg _ _ Hl).
  destruct (Z.eqb_spec ((c - s_first_data_block (e_sb s)) / s_blocks_per_group (e_sb s)) g) as [E|E].
  - rewrite E in *. by rewrite (bu_bits _ _ _ _ _ Hu) by lia.
  - by rewrite (bu_other _ _ _ _ _ Hu).
Qed.

(** A block of group [g] becomes used. *)
Lemma alloc_data_step s s' g i : vol_wf s -> 0 <= g < e_groups_count s -> 0 <= i < group_bits s g ->
  block_bit s g i = false -> bit_update s s' g (-1) (fun j => block_bit s g j || (j =? i)) ->
  let r := s_first_data_block (e_sb s) + g * s_blocks_per_group (e_sb s) + i in
  data_step s s' (fun _ => False) /\ data_blk s r /\ used s r = false /\ used s' r = true.
Proof.
  intros Hv Hg Hi Hfree Hu. cbv zeta. pose proof (vw_fs _ Hv) as Hwf. destruct (group_bits_spec s g Hwf Hg) as [Hgb _].
  pose proof (vw_free _ Hv g i Hg Hi Hfree) as Hd. set (r := _ + _) in *.
  destruct (rel_number s g i Hwf ltac:(lia)) as [E1 E2]. fold r in E1, E2.
  assert (Hur : used s r = false) by (unfold used; by rewrite E1, E2).
  split; [|split; [done|split; [done|]]].
  - apply (vol_step_kept s s); [apply same_but_data_step; [done|apply same_but_refl]|..].
    + eapply bit_update_kept; [done|exact Hg|exact Hu|]. intros j Hj [Hf _]%orb_false_iff. by apply (vw_free _ Hv).
    + intros c Hc Huc. rewrite (bit_update_used _ _ _ _ _ _ Hv Hg Hu Hc).
      destruct (Z.eqb_spec (rel s c / s_blocks_per_group (e_sb s)) g) as [E|E]; [|done]. unfold used in Huc. rewrite E in Huc. by rewrite Huc.
  - rewrite (bit_update_used _ _ _ _ _ _ Hv Hg Hu Hd), E1, E2, !Z.eqb_refl. apply orb_true_r.
Qed.

(** A block that was free before [s2] is released again. *)
Lemma wp_free_fresh s s2 b W T Q : vol_wf s -> vol_step s s2 W T -> data_blk s b -> used s b = false ->
  (forall s3, vol_step s s3 W T -> (refusals s2 <= refusals s3)%nat -> Q tt s3) -> wp (ext2_free_block b) s2 Q.
Proof.
  intros Hv Hs Hb Hfree HQ. pose proof (ds_wf _ _ _ _ Hs) as Hv2. pose proof (ds_lay _ _ _ _ Hs) as Hl.
  assert (Hb2 : data_blk s2 b) by (by eapply data_blk_layout). pose proof (vw_fs _ Hv2) as Hwf2.
  destruct (number_rel s2 b Hwf2 Hb2) as (Hg & Hi & En). pose proof (db_range _ _ Hb2) as Hr. destruct (w_total _ Hwf2) as [Ht _].
  apply wp_ext2_free_block; [done|lia|..].
  - intros s3 Hs3 _ _. apply HQ; [|apply Hs3]. pose proof (same_but_data_step s2 s3 (fun _ => False) Hv2 Hs3) as Hx.
    eapply vol_step_trans; [exact Hs|]. eapply vol_step_weaken; [exact Hx|by intros ? []|by intros ? []].
  - cbv zeta. fold (rel s2 b). intros s3 Hu. apply HQ; [|apply Hu]. apply (vol_step_kept s s2); [done|..].
    + eapply bit_update_kept; [done|exact Hg|exact Hu|]. intros j Hj [Hf|Hf]%andb_false_iff; [by apply (vw_free _ Hv2)|].
      apply negb_false_iff, Z.eqb_eq in Hf as ->. by rewrite <- En.
    + intros c Hc Huc. assert (Hc2 : data_blk s2 c) by (by eapply data_blk_layout).
      rewrite (bit_update_used _ _ _ _ _ _ Hv2 Hg Hu Hc2). pose proof (ds_used _ _ _ _ Hs c Hc Huc) as Hu2.
      destruct (number_rel s2 c Hwf2 Hc2) as (_ & _ & Ec).
      destruct (Z.eqb_spec (rel s2 c / s_blocks_per_group (e_sb s2)) (rel s2 b / s_blocks_per_group (e_sb s2))) as [E|E]; [|done].
      unfold used in Hu2. rewrite E in Hu2, Ec. rewrite Hu2.
      destruct (Z.eqb_spec (rel s2 c mod s_blocks_per_group (e_sb s2)) (rel s2 b mod s_blocks_per_group (e_sb s2))) as [E2|]; [|done].
      rewrite E2, <- En in Ec. congruence.
Qed.

(** A change of the metadata blocks and the counters only. *)
Lemma meta_bits s s' g j : fs_wf s -> same_layout s s' -> (forall c, in_dev s c -> ~ meta s c -> blk s' c = blk s c) ->
  0 <= g < e_groups_count s -> block_bit s' g j = block_bit s g j.
Proof. intros Hwf Hl Hb Hg. unfold block_bit. rewrite (sl_bm _ _ Hl). destruct (w_bm _ Hwf g Hg) as (H1 & H2 & _). by rewrite Hb. Qed.

Lemma meta_used s s' c : fs_wf s -> same_layout s s' -> (forall c, in_dev s c -> ~ meta s c -> blk s' c = blk s c) ->
  data_blk s c -> used s' c = used s c.
Proof.
  intros Hwf Hl Hb Hc. unfold used, rel. rewrite (sl_fdb _ _ Hl), (sl_bpg _ _ Hl). apply meta_bits; try done.
  by apply (number_rel s c Hwf Hc).
Qed.

Lemma meta_data_step s s' W : vol_wf s -> fs_wf s' -> same_layout s s' -> (refusals s <= refusals s')%nat ->
  (forall c, in_dev s c -> ~ meta s c -> blk s' c = blk s c) -> data_step s s' W.
Proof.
  intros Hv Hwf' Hl Href Hb. pose proof (vw_fs _ Hv) as Hwf.
  split.
  - split; [done|eapply itable_layout; [done|apply Hv]|..].
    + intros g j. rewrite (sl_gc _ _ Hl), (group_bits_layout _ _ Hl), (sl_fdb _ _ Hl), (sl_bpg _ _ Hl).
      intros Hg Hj. rewrite (meta_bits s s') by done. intros Hf. eapply data_blk_layout; [exact Hl|by apply (vw_free _ Hv)].
    + intros n Hn%(valid_ino_layout _ _ Hl). destruct (loc_layout _ _ Hl n) as (-> & _). rewrite (meta_layout _ _ Hl).
      destruct (vw_tab _ Hv n Hn) as [H1 H2]. split; [done|]. intros g. rewrite (sl_gc _ _ Hl), (sl_bm _ _ Hl), (sl_ibm _ _ Hl). auto.
  - done.
  - intros c Hc. by rewrite (meta_used s s').
  - intros c Hc _ _. apply Hb; apply Hc.
  - intros n Hn _. unfold table_entry. destruct (loc_layout _ _ Hl n) as (-> & -> & _).
    rewrite Hb; [done| |by apply (vw_tab _ Hv)]. by apply (it_dev _ (vw_it _ Hv)).
  - intros n Hn _. apply ino_used_kept; [done|done|done|]. intros g Hg. destruct (w_bm _ Hwf g Hg) as (_ & _ & H3 & H4). by rewrite Hb.
  - done.
Qed.

(** A group's counters are flushed, and changed and flushed. *)
Lemma wp_flush_counters {A} s g (ret : ST (ext2 D H) A) Q : vol_wf s -> 0 <= g < e_groups_count s ->
  (forall s', data_step s s' (fun _ => False) -> (forall c, data_blk s c -> used s' c = used s c) -> wp ret s' Q) ->
  wp (ext2_flush_group_desc g;; ret) s Q.
Proof.
  intros Hv Hg HQ. pose proof (vw_fs _ Hv) as Hwf. apply wp_bind, wp_flush_group_desc; [done|done|]. intros _ s2 H2.
  assert (Hl : same_layout s s2) by (by eapply same_but_layout).
  assert (Hb : forall c, in_dev s c -> ~ meta s c -> blk s2 c = blk s c).
  { intros c Hc1 Hc2. apply (sm_blk _ _ _ H2); [done|]. intros ->. apply Hc2. right. by exists g. }
  apply HQ; [apply meta_data_step; try done; [by eapply same_but_wf|apply H2]|intros c Hc; by apply meta_used].
Qed.

Lemma wp_store_counters {A} s g gd gd' (ret : ST (ext2 D H) A) Q : vol_wf s -> 0 <= g < e_groups_count s ->
  znth (e_group_desc s) g = Some gd -> counter_gd gd gd' ->
  (forall s', data_step s s' (fun _ => False) -> (forall c, data_blk s c -> used s' c = used s c) -> wp ret s' Q) ->
  wp (put_gd g gd';; ext2_flush_group_desc g;; ret) s Q.
Proof.
  intros Hv Hg Hgd Hc HQ. pose proof (vw_fs _ Hv) as Hwf. pose proof Hc as [Hok Hf1 Hf2 Hf3].
  destruct (wf_gd s g Hwf Hg) as (gd0 & Hgd0 & Hgok & _). rewrite Hgd in Hgd0. injection Hgd0 as <-.
  apply wp_bind, wp_put_gd; [by rewrite (w_gds _ Hwf)|].
  pose proof (wf_update_gd s g gd gd' Hwf Hg Hgd (Hok Hgok) Hf1 Hf2) as Hwf1. set (s1 := set_gds _ _) in *.
  assert (Hl : same_layout s s1) by (apply (counters_layout s s1 g gd gd'); try done; by split).
  assert (Hs1 : data_step s s1 (fun _ => False)) by (by apply meta_data_step).
  apply wp_flush_counters; [apply Hs1|done|]. intros s2 H2 Hu2. apply HQ; [by eapply vol_step_trans|].
  intros c Hc'. rewrite Hu2 by (by eapply data_blk_layout). by apply meta_used.
Qed.

(** ** Free blocks *)

(** The counter of free blocks of group [g]. *)
Definition group_free s (g : Z) : Z := default 0 (bg_free_blocks_count <$> znth (e_group_desc s) g).

(** Two states with the same block bitmaps and the same counters of free blocks. *)
Record same_space s s' : Prop := {
  sp_lay : same_layout s s';
  sp_free : s_free_blocks_count (e_sb s') = s_free_blocks_count (e_sb s);
  sp_gd : forall g, group_free s' g = group_free s g;
  sp_bit : forall g j, 0 <= g < e_groups_count s -> block_bit s' g j = block_bit s g j
}.

#[export] Instance same_space_equiv : Equivalence same_space.
Proof.
  split.
  - intros s. by split.
  - intros s1 s2 [A1 A2 A3 A4]. split; [by symmetry|done|by intros|]. intros g j. rewrite (sl_gc _ _ A1). intros Hg. by rewrite A4.
  - intros s1 s2 s3 [A1 A2 A3 A4] [B1 B2 B3 B4]. split; [by etrans|congruence|intros; congruence|].
    intros g j Hg. rewrite B4 by (by rewrite (sl_gc _ _ A1)). by apply A4.
Qed.

Lemma same_but_space s s' P : fs_wf s -> same_but s s' P -> (forall g, 0 <= g < e_groups_count s -> P (bitmap_of s g)) -> same_space s s'.
Proof.
  intros Hwf Hs HP. pose proof (same_but_layout _ _ _ Hs) as Hl. split; [done|by rewrite (sm_sb _ _ _ Hs)|by unfold group_free; rewrite (sm_gds _ _ _ Hs)|].
  intros g j Hg. unfold block_bit. rewrite (sl_bm _ _ Hl). destruct (w_bm _ Hwf g Hg) as (Hin & _). by rewrite (sm_blk _ _ _ Hs); [|..|by apply HP].
Qed.
Lemma same_space_read s s' : vol_wf s -> same_but s s' (fun _ => True) -> same_space s s'.
Proof. intros Hv Hs. eapply same_but_space; [apply Hv|exact Hs|done]. Qed.

(** The volume has no block to give: its counter of free blocks is 0, or every
    group is marked full or has no clear bit. *)
Definition no_space s : Prop := s_free_blocks_count (e_sb s) = 0 \/ full_from s 0.

#[export] Instance no_space_proper : Proper (same_space ==> iff) no_space.
Proof.
  enough (Hx : forall s s', same_space s s' -> no_space s -> no_space s') by (intros s s' Hs; split; apply Hx; [done|by symmetry]).
  intros s s' [Hl E1 E2 E3] [H0|Hfull]; [left; congruence|right]. intros g gd'. rewrite (sl_gc _ _ Hl), (group_bits_layout _ _ Hl).
  intros Hg Hgd Hne j Hj. rewrite E3 by done. specialize (E2 g). unfold group_free in E2. rewrite Hgd in E2. cbn in E2.
  destruct (znth (e_group_desc s) g) as [gd|] eqn:Egd; cbn in E2; [|done]. apply (Hfull g gd); [done|done|congruence|done].
Qed.

(** Free block [i] of group [g] is the last one an allocation can find: without
    it the counter is 0, or every group is marked full or has no clear bit. *)
Definition last_block s : Prop := exists g i, 0 <= g < e_groups_count s /\ 0 <= i < group_bits s g /\ block_bit s g i = false /\
  (s_free_blocks_count (e_sb s) = 1 \/
   forall g2, 0 <= g2 < e_groups_count s -> group_free s g2 <> (if g2 =? g then 1 else 0) ->
     forall j, 0 <= j < group_bits s g2 -> block_bit s g2 j = true \/ g2 = g /\ j = i).

#[export] Instance last_block_proper : Proper (same_space ==> iff) last_block.
Proof.
  enough (Hx : forall s s', same_space s s' -> last_block s -> last_block s') by (intros s s' Hs; split; apply Hx; [done|by symmetry]).
  intros s s' [Hl E1 E2 E3] (g & i & Hg & Hi & Hf & Hc). exists g, i. rewrite (sl_gc _ _ Hl), (group_bits_layout _ _ Hl), E1, E3 by done.
  split_and!; try done; try lia. destruct Hc as [|Hc]; [by left|right]. intros g2 Hg2. rewrite E2. intros Hne j.
  rewrite (group_bits_layout _ _ Hl), E3 by done. by apply Hc.
Qed.

(** The volume is full once a block has been taken: it was the last one. *)
Lemma alloc_last s s' g i : fs_wf s -> 0 <= g < e_groups_count s -> 0 <= i < group_bits s g -> block_bit s g i = false ->
  bit_update s s' g (-1) (fun j => block_bit s g j || (j =? i)) -> no_space s' -> last_block s.
Proof.
  intros Hwf Hg Hi Hf Hu Hns. pose proof (bit_update_layout _ _ _ _ _ Hu) as Hl. exists g, i. split_and!; try done; try lia.
  destruct Hns as [H0|Hfull]; [left|right].
  - destruct (sb_ranges s Hwf) as (_ & _ & Hr). destruct (w_sb _ Hwf) as [Hlen _]. rewrite (bu_sb _ _ _ _ _ Hu) in H0.
    unfold s_free_blocks_count at 1, set_free_blocks_count in H0. rewrite fld_set_same in H0; [|lia|lia|apply u32_range].
    unfold u32, is_u32 in *. zlia.
  - intros g2 Hg2 Hne j Hj. destruct (wf_gd s g2 Hwf Hg2) as (gd & Hgd & [Hlen Hb8] & _).
    unfold group_free in Hne. rewrite Hgd in Hne. cbn in Hne. destruct (bu_gds _ _ _ _ _ Hu) as (gd0 & Hgd0 & Egds).
    pose proof (znth_inv _ _ _ Hgd0) as [_ Hlk]. pose proof (lookup_lt_Some _ _ _ Hlk) as Hlt.
    assert (Hbit : forall gd', znth (e_group_desc s') g2 = Some gd' -> bg_free_blocks_count gd' <> 0 -> block_bit s' g2 j = true).
    { intros gd' E1 E2. apply (Hfull g2 gd'); [by rewrite (sl_gc _ _ Hl)|done|done|by rewrite (group_bits_layout _ _ Hl)]. }
    rewrite Egds, znth_insert_list in Hbit by lia. destruct (Z.eqb_spec g2 g) as [->|Hg2g].
    + rewrite Hgd in Hgd0. injection Hgd0 as <-. specialize (Hbit _ eq_refl). rewrite (bu_bits _ _ _ _ _ Hu) in Hbit by lia.
      apply orb_true_iff in Hbit as [|E%Z.eqb_eq]; [by left|by right|].
      pose proof (fld_range 2 gd 12 Hb8) as Hr. fold (bg_free_blocks_count gd) in Hr.
      unfold bg_free_blocks_count at 1, set_bg_free_blocks. rewrite fld_set_same; [|lia|lia|apply Z.mod_pos_bound; lia].
      change (256 ^ Z.of_nat 2) with 65536 in Hr. unfold u16. zlia.
    + left. rewrite <- (bu_other _ _ _ _ _ Hu) by done. by apply (Hbit gd).
Qed.

(** What allocation and writing an inode do to a volume. *)
Lemma wp_alloc_data s Q : vol_wf s ->
  (forall s', data_step s s' (fun _ => False) -> same_space s s' -> no_space s \/ refused s s' -> Q 0 s') ->
  (forall s' g i, data_step s s' (fun _ => False) -> 0 <= g < e_groups_count s -> 0 <= i < group_bits s g -> block_bit s g i = false ->
     bit_update s s' g (-1) (fun j => block_bit s g j || (j =? i)) ->
     let r := s_first_data_block (e_sb s) + g * s_blocks_per_group (e_sb s) + i in
     data_blk s r -> used s r = false -> used s' r = true -> Q r s') ->
  wp ext2_alloc_block s Q.
Proof.
  intros Hv HF HS. apply wp_ext2_alloc_block; [apply Hv|..].
  - intros s' Hs' Hwhy. apply HF; [by apply same_but_data_step|by apply same_space_read|]. unfold no_space. tauto.
  - intros s' g i Hg Hi Hf Hu. destruct (alloc_data_step s s' g i Hv Hg Hi Hf Hu) as (H1 & H2 & H3 & H4). by apply (HS s' g i).
Qed.

Lemma wp_write_data s b buf Q : vol_wf s -> data_blk s b -> buf_ok (e_block_size s) buf ->
  (forall s', data_step s s' (eq b) -> (forall c, data_blk s c -> used s' c = used s c) -> blk s' b = buf ->
     (forall c, data_blk s c -> c <> b -> blk s' c = blk s c) -> same_space s s' -> Q 0 s') ->
  wp (ext2_write_block b buf) s Q.
Proof.
  intros Hv Hb Hbuf HQ. apply wp_write_block; [apply Hb|by rewrite <- (w_bs _ (vw_fs _ Hv))|]. intros s' Hs' E.
  apply HQ; [by eapply write_data_step|intros c Hc; by apply (one_block_used _ _ _ Hv Hs' (db_bm _ _ Hb))|done|..].
  - intros c Hc Hne. apply (sm_blk _ _ _ Hs'); [apply Hc|done].
  - eapply same_but_space; [apply Hv|exact Hs'|]. intros g Hg E2. by apply (db_bm _ _ Hb g Hg).
Qed.

(** The inode table changes in one entry only. *)
Record inode_step s s' (n : Z) (di : list Z) : Prop := {
  is_step : vol_step s s' (fun _ => False) (eq n);
  is_used : forall c, data_blk s c -> used s' c = used s c;
  is_ino : forall m, valid_ino s m -> ino_used s' m = ino_used s m;
  is_entry : table_entry s' n = Some di;
  is_space : same_space s s'
}.

Lemma wp_write_inode_data s n di Q : vol_wf s -> valid_ino s n -> buf_ok 128 di ->
  (forall s', same_but s s' (fun _ => True) -> no_buffer s -> refused s s' -> Q (-1) s') ->
  (forall s', inode_step s s' n di -> Q 0 s') -> wp (ext2_write_inode_raw n di) s Q.
Proof.
  intros Hv Hn Hdi HF HS. pose proof Hv as []. apply wp_write_inode_raw; try done. intros s' Hs' Hw.
  destruct (vw_tab0 n Hn) as [Hm Hb].
  assert (Hbm : forall g, 0 <= g < e_groups_count s -> loc_blk s n <> bitmap_of s g) by (intros g Hg; by apply Hb).
  assert (Hte : forall n', valid_ino s n' -> table_entry s' n' = if n' =? n then Some di else table_entry s n')
    by (intros n' Hn'; by eapply table_entry_write).
  assert (Hib : forall n', valid_ino s n' -> ino_used s' n' = ino_used s n').
  { intros n' Hn'. apply ino_used_kept; [done|by eapply same_but_layout|done|]. intros g Hg.
    apply (sm_blk _ _ _ Hs'); [by apply (w_bm _ vw_fs0 g Hg)|]. intros E. by destruct (Hb g Hg). }
  apply HS. split; [split|..].
  - by eapply one_block_vol.
  - by eapply same_but_layout.
  - intros c Hc. by rewrite (one_block_used _ _ _ Hv Hs' Hbm).
  - intros c Hc _ _. apply (sm_blk _ _ _ Hs'); [apply Hc|by apply (db_tab _ _ Hc)].
  - intros n' Hn' Hne. rewrite Hte by done. destruct (Z.eqb_spec n' n); [by destruct Hne|done].
  - auto.
  - apply Hs'.
  - intros c Hc. by apply (one_block_used _ _ _ Hv Hs' Hbm).
  - done.
  - rewrite Hte by done. by rewrite Z.eqb_refl.
  - eapply same_but_space; [done|exact Hs'|]. intros g Hg E. by apply (Hbm g Hg).
Qed.
End layout.

Abbreviation data_step s s' W := (vol_step s s' W (fun _ => False)).
