(* ===== verification/Ext2Files.v ===== *)
(** * File contents on an ext2 volume (src/src/fs/ext2/ext2_ops.c)

    A file whose blocks are all among the twelve direct pointers of its inode is
    an array of bytes: [ext2_read] returns a stretch of it and [ext2_write]
    replaces one, allocating blocks as needed, and neither touches the blocks of
    another file. *)

From S2P Require Import Prelude BlockDev Ext2 Ext2Proof Ext2Layout.

Section files.
Context {D H : Type} `{!BlockDevice D} `{!HealthyDevice D} `{!KHeap H}.
Implicit Types s : ext2 D H.

(** ** The bytes of a file *)

(** Block [k] of the file with on-disk inode [di]; a hole is a block of zeros. *)
Definition file_block s (di : list Z) (k : nat) : list Z :=
  if i_block di (Z.of_nat k) =? 0 then zeroes (e_block_size s) else blk s (i_block di (Z.of_nat k)).
Definition file_blocks s (di : list Z) : list (list Z) := file_block s di <$> seq 0 12.
Definition file_data s (di : list Z) : list Z := concat (file_blocks s di).

(** The block map of a file: data blocks in use, no block twice. *)
Record ptrs_ok s (di : list Z) : Prop := {
  po_disk : buf_ok 128 di;
  po_ptr : forall k, 0 <= k < 12 -> i_block di k <> 0 -> data_blk s (i_block di k) /\ used s (i_block di k) = true;
  po_dist : forall j k, 0 <= j < 12 -> 0 <= k < 12 -> i_block di j <> 0 -> i_block di j = i_block di k -> j = k
}.
Definition owned (di : list Z) (c : Z) : Prop := exists k, 0 <= k < 12 /\ i_block di k = c /\ c <> 0.

(** An open file: its inode is in the table's range and its size in that of the
    direct pointers. *)
Record file_ok s (i : inode) : Prop := {
  fo_ptrs : ptrs_ok s (disk_inode i);
  fo_size : 0 <= size i <= 12 * e_block_size s;
  fo_ino : valid_ino s (ino i)
}.

Lemma s32_id z : 0 <= z < 2147483648 -> s32 z = z.
Proof. intros Hz. unfold s32. rewrite u32_small by (unfold is_u32; lia). by destruct (Z.ltb_spec z 2147483648); [|lia]. Qed.

Lemma length_zeroes n : 0 <= n -> Z.of_nat (length (zeroes n)) = n.
Proof. intros. unfold zeroes. rewrite length_replicate. lia. Qed.
Lemma zeroes_app a b : 0 <= a -> 0 <= b -> zeroes (a + b) = zeroes a ++ zeroes b.
Proof. intros. unfold zeroes. rewrite <- replicate_add. f_equal. lia. Qed.
Lemma zeroes_ok n : 0 <= n -> buf_ok n (zeroes n).
Proof. intros. split; [by apply length_zeroes|]. apply Forall_replicate. unfold is_u8. lia. Qed.

Lemma file_block_ok s di k : vol_wf s -> ptrs_ok s di -> (k < 12)%nat -> buf_ok (e_block_size s) (file_block s di k).
Proof.
  intros Hv Hp Hk. unfold file_block. pose proof (w_bs_val _ (vw_fs _ Hv)).
  destruct (Z.eqb_spec (i_block di (Z.of_nat k)) 0) as [|Hne]; [apply zeroes_ok; lia|].
  destruct (po_ptr _ _ Hp (Z.of_nat k) ltac:(lia) Hne) as [Hd _]. apply blk_ok; [apply Hv|apply Hd].
Qed.

Lemma file_blocks_lookup s di k : (k < 12)%nat -> file_blocks s di !! k = Some (file_block s di k).
Proof. intros Hk. unfold file_blocks. rewrite list_lookup_fmap, lookup_seq_lt by done. done. Qed.

Lemma file_blocks_ok s di : vol_wf s -> ptrs_ok s di ->
  Forall (fun b => Z.of_nat (length b) = e_block_size s) (file_blocks s di).
Proof.
  intros Hv Hp. apply list.Forall_forall. intros b (k & -> & Hk)%list_elem_of_fmap. apply elem_of_seq in Hk.
  apply (file_block_ok s di k); [done|done|lia].
Qed.

Lemma length_file_data s di : vol_wf s -> ptrs_ok s di -> Z.of_nat (length (file_data s di)) = 12 * e_block_size s.
Proof. intros Hv Hp. unfold file_data. rewrite (length_concat_blocks (e_block_size s)) by (by apply file_blocks_ok). cbn. lia. Qed.

(** Position [pos] of the file: block and offset. *)
Lemma pos_block s pos : vol_wf s -> 0 <= pos < 12 * e_block_size s ->
  let k := Z.to_nat (pos / e_block_size s) in let off := pos mod e_block_size s in
  (k < 12)%nat /\ pos / e_block_size s = Z.of_nat k /\ 0 <= off < e_block_size s /\ e_block_size s * Z.of_nat k + off = pos.
Proof.
  intros Hv Hpos. pose proof (w_bs_val _ (vw_fs _ Hv)). cbv zeta.
  pose proof (Z.mod_pos_bound pos (e_block_size s) ltac:(lia)). pose proof (Z.div_mod pos (e_block_size s) ltac:(lia)).
  assert (0 <= pos / e_block_size s) by (apply Z.div_pos; lia).
  assert (pos / e_block_size s < 12) by (apply Z.div_lt_upper_bound; lia). lia.
Qed.

(** ** Changes that leave a file alone *)
Lemma ptrs_ok_step s s' W T di : vol_step s s' W T -> ptrs_ok s di -> ptrs_ok s' di.
Proof.
  intros Hs []. split; [done| |done]. intros k Hk Hne. destruct (po_ptr0 k Hk Hne) as [Hd Hu].
  split; [by eapply data_blk_layout; [apply Hs|]|by apply (ds_used _ _ _ _ Hs)].
Qed.

Lemma file_block_step s s' W T di k : vol_step s s' W T -> ptrs_ok s di -> (k < 12)%nat -> ~ W (i_block di (Z.of_nat k)) ->
  file_block s' di k = file_block s di k.
Proof.
  intros Hs Hp Hk HW. unfold file_block. rewrite (sl_bs _ _ (ds_lay _ _ _ _ Hs)).
  destruct (Z.eqb_spec (i_block di (Z.of_nat k)) 0) as [|Hne]; [done|].
  destruct (po_ptr _ _ Hp (Z.of_nat k) ltac:(lia) Hne). by apply (ds_blk _ _ _ _ Hs).
Qed.

Lemma file_blocks_ext s s' di di' : (forall k, (k < 12)%nat -> file_block s' di' k = file_block s di k) ->
  file_blocks s' di' = file_blocks s di.
Proof. intros E. unfold file_blocks. apply list_fmap_ext. intros i k (-> & Hi)%lookup_seq. apply E. lia. Qed.

Lemma file_data_step s s' W T di : vol_step s s' W T -> ptrs_ok s di -> (forall c, owned di c -> ~ W c) ->
  file_data s' di = file_data s di.
Proof.
  intros Hs Hp HW. unfold file_data. f_equal. apply file_blocks_ext. intros k Hk. unfold file_block.
  rewrite (sl_bs _ _ (ds_lay _ _ _ _ Hs)). destruct (Z.eqb_spec (i_block di (Z.of_nat k)) 0) as [|Hne]; [done|].
  destruct (po_ptr _ _ Hp (Z.of_nat k) ltac:(lia) Hne). apply (ds_blk _ _ _ _ Hs); [done|done|].
  apply HW. exists (Z.of_nat k). split; [lia|done].
Qed.

Lemma file_ok_step s s' W T i : vol_step s s' W T -> file_ok s i -> file_ok s' i.
Proof.
  intros Hs []. split; [by eapply ptrs_ok_step|by rewrite (sl_bs _ _ (ds_lay _ _ _ _ Hs))|].
  by apply (valid_ino_layout _ _ (ds_lay _ _ _ _ Hs)).
Qed.

(** ** Reading *)
Lemma wp_resolve_direct s di k bs Q : 0 <= k < 12 -> Q (i_block di k) s -> wp (ext2_resolve_block_num di k bs) s Q.
Proof. intros Hk HQ. unfold ext2_resolve_block_num. destruct (Z.ltb_spec k 12); [|lia]. by apply wp_ret. Qed.

Lemma wp_copy_out s buf off n Q : 0 <= off -> 0 <= n -> off + n <= Z.of_nat (length buf) ->
  (forall l, slice buf off n = Some l -> Q l s) -> wp (copy_out buf off n) s Q.
Proof.
  intros H1 H2 H3 HQ. unfold wp, copy_out, st_lift. destruct (slice_is_Some buf off n H1 H2 H3) as [l Hl].
  rewrite Hl. by apply HQ.
Qed.

(** The chunk the loops take at [pos] when [rest] bytes are left. *)
Definition chunk_at (bs off rest : Z) : Z := if rest <? bs - off then rest else bs - off.

Lemma slice_zeroes n off k : 0 <= off -> 0 <= k -> off + k <= n -> slice (zeroes n) off k = Some (zeroes k).
Proof.
  intros. apply (slice_at _ (zeroes off) _ (zeroes (n - off - k))); [|by rewrite length_zeroes..].
  unfold zeroes. rewrite <- !replicate_add. f_equal. lia.
Qed.

Lemma wp_read_loop fuel : forall s di offset count done block_buf out Q,
  vol_wf s -> ptrs_ok s di -> 0 <= offset -> 0 <= done <= count -> offset + count <= 12 * e_block_size s ->
  (Z.to_nat (count - done) < fuel)%nat -> slice (file_data s di) offset done = Some out ->
  (forall s' out', same_but s s' (fun _ => True) -> slice (file_data s di) offset count = Some out' -> Q (count, out') s') ->
  wp (read_loop fuel di (e_block_size s) offset count done block_buf out) s Q.
Proof.
  induction fuel as [|fuel IH]; intros s di offset count dn block_buf out Q Hv Hp Ho Hd Hc Hf Hout HQ; [lia|].
  cbn [read_loop]. pose proof (w_bs_val _ (vw_fs _ Hv)) as Hbs. set (bs := e_block_size s) in *.
  destruct (Z.leb_spec count dn).
  { assert (dn = count) as -> by lia. apply wp_ret, HQ; [apply same_but_refl|done]. }
  rewrite (u32_small (offset + dn)) by (unfold is_u32; lia). apply wp_bind, wp_udiv; [lia|]. apply wp_bind, wp_umod; [lia|].
  destruct (pos_block s (offset + dn) Hv ltac:(fold bs; lia)) as (Hk & Ek & Hoff & Epos). fold bs in Hk, Ek, Hoff, Epos.
  set (k := Z.to_nat ((offset + dn) / bs)) in *. set (off := (offset + dn) mod bs) in *.
  rewrite (u32_small (bs - off)) by (unfold is_u32; lia). rewrite (u32_small (count - dn)) by (unfold is_u32; lia).
  cbv zeta. fold (chunk_at bs off (count - dn)). set (n := chunk_at bs off (count - dn)).
  assert (Hn : 0 < n <= count - dn /\ off + n <= bs) by (unfold n, chunk_at; case_bool; lia).
  rewrite Ek. apply wp_bind, wp_resolve_direct; [lia|]. apply wp_bind.
  assert (Hnext : forall s1 data bb, same_but s s1 (fun _ => True) -> slice (file_block s di k) off n = Some data ->
    wp (read_loop fuel di bs offset count (dn +! n) bb (out ++ data)) s1 Q).
  { intros s1 data bb Hs1 Hdata. rewrite (u32_small (dn + n)) by (unfold is_u32; lia).
    assert (Hst : data_step s s1 (fun _ => False)) by (by apply same_but_data_step).
    assert (Efd : file_data s1 di = file_data s di) by (eapply file_data_step; [exact Hst|done|naive_solver]).
    unfold bs. rewrite <- (sm_bs _ _ _ Hs1). apply IH; try lia.
    - apply Hst.
    - by eapply ptrs_ok_step.
    - rewrite (sm_bs _ _ _ Hs1). fold bs. lia.
    - rewrite Efd. apply slice_join; [done|]. rewrite <- Epos.
      apply (slice_concat bs _ k (file_block s di k)); [by apply file_blocks_ok|by apply file_blocks_lookup|done].
    - intros s2 out' Hs2 Hout'. apply HQ; [|by rewrite <- Efd].
      eapply same_but_weaken; [eapply same_but_trans; [exact Hs1|exact Hs2]|]. done. }
  destruct (Z.eqb_spec (i_block di (Z.of_nat k)) 0) as [E0|E0].
  - apply wp_ret. apply Hnext; [apply same_but_refl|]. unfold file_block. rewrite E0. cbn [Z.eqb]. fold bs. apply slice_zeroes; lia.
  - destruct (po_ptr _ _ Hp (Z.of_nat k) ltac:(lia) E0) as [Hdb _].
    apply wp_bind, wp_read_block; [apply Hdb|]. intros s1 Hs1 _.
    destruct (blk_ok s _ (vw_fs _ Hv) (db_dev _ _ Hdb)) as [Hlen _].
    apply wp_bind, wp_copy_out; [lia|lia|fold bs in Hlen; lia|]. intros data Hdata. apply wp_ret. apply Hnext; [done|].
    unfold file_block. by destruct (Z.eqb_spec (i_block di (Z.of_nat k)) 0).
Qed.

(** What a read of [count] bytes at [offset] returns. *)
Definition read_count (i : inode) (count offset : Z) : Z :=
  if size i <=? offset then 0 else Z.min count (size i - offset).

Lemma wp_ext2_read s i count offset Q : vol_wf s -> file_ok s i -> 0 <= offset -> 0 <= count -> offset + count < 4294967296 ->
  (forall s', same_but s s' (fun _ => True) -> no_buffer s -> refused s s' -> Q (-1, []) s') ->
  (forall s' out, same_but s s' (fun _ => True) ->
     (read_count i count offset = 0 /\ out = [] \/ slice (file_data s (disk_inode i)) offset (read_count i count offset) = Some out) ->
     Q (read_count i count offset, out) s') ->
  wp (ext2_read i count offset) s Q.
Proof.
  intros Hv [Hp Hsz Hino] Ho Hc Hoc HF HS. pose proof (w_bs_val _ (vw_fs _ Hv)) as Hbs. unfold ext2_read, read_count in *.
  apply wp_bind, wp_get. cbv zeta. destruct (Z.leb_spec (size i) offset).
  { apply wp_ret, HS; [apply same_but_refl|by left]. }
  rewrite (u32_small (offset + count)) by (unfold is_u32; lia). rewrite (u32_small (size i - offset)) by (unfold is_u32; lia).
  assert (Ec : (if size i <? offset + count then size i - offset else count) = Z.min count (size i - offset)) by (case_bool; lia).
  rewrite Ec. set (n := Z.min count (size i - offset)) in *. destruct (Z.eqb_spec n 0) as [E0|E0].
  { rewrite <- E0 at 1. apply wp_ret, HS; [apply same_but_refl|by left]. }
  apply wp_bind, wp_buf_alloc; [lia|intros h Hnb Hr; apply wp_ret, HF; [by apply same_but_heap, refused_heap|done|done]|]. intros h junk Hj Hle.
  assert (Hh : same_but s (set_heap h s) (fun _ => True)) by (by apply same_but_heap).
  assert (Hv1 : vol_wf (set_heap h s)) by (by eapply (same_but_data_step s _ (fun _ => False))).
  change (e_block_size s) with (e_block_size (set_heap h s)).
  apply wp_bind, wp_read_loop; [done| |lia|lia|cbn [e_block_size set_heap]; lia|lia| |].
  - eapply ptrs_ok_step; [|done]. by apply (same_but_data_step s _ (fun _ => False)).
  - change (file_data (set_heap h s) (disk_inode i)) with (file_data s (disk_inode i)).
    pose proof (length_file_data s (disk_inode i) Hv Hp).
    destruct (slice_is_Some (file_data s (disk_inode i)) offset 0) as [l Hl]; [lia|lia|lia|].
    rewrite Hl. apply slice_length in Hl. by destruct l.
  - intros s1 out Hs1%same_but_heap_l Hout; [|done]. apply wp_bind, wp_buf_free. intros h2 Hle2. apply wp_ret.
    rewrite s32_id by lia.
    apply HS; [by apply same_but_heap_r|]. by right.
Qed.

(** ** Writing *)

(** *** The pointers of an inode *)
Lemma i_block_set_blocks v di k : 0 <= k -> i_block (set_i_blocks v di) k = i_block di k.
Proof. intros Hk. apply fld_set_other. lia. Qed.
Lemma i_block_set_size v di k : 0 <= k -> i_block (set_i_size v di) k = i_block di k.
Proof. intros Hk. apply fld_set_other. lia. Qed.
Lemma i_block_set_block k v di j : buf_ok 128 di -> 0 <= k < 12 -> 0 <= j < 12 -> is_u32 v ->
  i_block (set_i_block k v di) j = if j =? k then v else i_block di j.
Proof.
  intros [Hl Hb] Hk Hj Hv. unfold i_block, set_i_block. rewrite u32_small by done. destruct (Z.eqb_spec j k) as [->|].
  - apply fld_set_same; [lia|lia|exact Hv].
  - apply fld_set_other. lia.
Qed.
Lemma buf_ok_set_fld n bs di off v : buf_ok bs di -> buf_ok bs (set_fld n di off v).
Proof. intros [Hl Hb]. split; [by rewrite length_set_fld|by apply bytes_set_fld]. Qed.

Lemma i_block_sync i k : 0 <= k -> i_block (sync_fields i) k = i_block (disk_inode i) k.
Proof. intros Hk. unfold sync_fields, i_block, set_i_flags, set_i_blocks, set_i_ctime, set_i_mtime, set_i_atime, set_i_links, set_i_gid,
  set_i_size, set_i_uid, set_i_mode. rewrite !fld_set_other by lia. done. Qed.
Lemma sync_fields_ok i : buf_ok 128 (disk_inode i) -> buf_ok 128 (sync_fields i).
Proof. intros Hd. unfold sync_fields. by repeat apply buf_ok_set_fld. Qed.

(** Only the pointers matter. *)
Lemma ptrs_ok_ext s di di' : buf_ok 128 di' -> (forall k, 0 <= k < 12 -> i_block di' k = i_block di k) -> ptrs_ok s di -> ptrs_ok s di'.
Proof.
  intros Hd E []. split; [done|..].
  - intros k Hk. rewrite E by done. auto.
  - intros j k Hj Hk. rewrite !E by done. auto.
Qed.
Lemma file_blocks_ptrs s di di' : (forall k, 0 <= k < 12 -> i_block di' k = i_block di k) -> file_blocks s di' = file_blocks s di.
Proof. intros E. apply file_blocks_ext. intros k Hk. unfold file_block. by rewrite E by lia. Qed.

(** *** A file grows by fresh blocks and is written in its own blocks only *)
Record file_step s (i : inode) s' (i' : inode) : Prop := {
  fs_step : data_step s s' (owned (disk_inode i));
  fs_ptrs : ptrs_ok s' (disk_inode i');
  fs_new : forall k, 0 <= k < 12 -> i_block (disk_inode i') k <> i_block (disk_inode i) k ->
    i_block (disk_inode i) k = 0 /\ used s (i_block (disk_inode i') k) = false;
  fs_meta : exists di b, i' = with_blocks (with_disk i di) b
}.

Lemma file_step_refl s i : vol_wf s -> ptrs_ok s (disk_inode i) -> file_step s i s i.
Proof.
  intros Hv Hp. split; [|done|done|exists (disk_inode i), (blocks i); by destruct i]. apply (data_step_weaken _ _ (fun _ => False)); [|naive_solver].
  apply same_but_data_step; [done|apply same_but_refl].
Qed.

Lemma file_step_owned s i s' i' c : file_step s i s' i' -> owned (disk_inode i') c -> owned (disk_inode i) c \/ used s c = false.
Proof.
  intros Hf (k & Hk & Hc & Hne). destruct (decide (i_block (disk_inode i') k = i_block (disk_inode i) k)) as [E|E].
  - left. exists k. by rewrite <- E.
  - right. rewrite <- Hc. by apply (fs_new _ _ _ _ Hf).
Qed.

Lemma file_step_trans s1 i1 s2 i2 s3 i3 : file_step s1 i1 s2 i2 -> file_step s2 i2 s3 i3 -> file_step s1 i1 s3 i3.
Proof.
  intros A B. pose proof (fs_step _ _ _ _ A) as [A1 A2 A3 A4 A5 A6 A7]. pose proof (fs_step _ _ _ _ B) as [B1 B2 B3 B4 B5 B6 B7].
  split.
  - split; [done|by etrans|..|by etrans].
    + intros c Hc Hu. apply B3; [by eapply data_blk_layout|auto].
    + intros c Hc Hu HW. rewrite B4, A4; auto; [by eapply data_blk_layout|].
      intros [Ho|Ho]%(file_step_owned _ _ _ _ _ A); [done|congruence].
    + intros n Hn _. rewrite B5; [auto| |tauto]. by apply (valid_ino_layout _ _ A2).
    + intros n Hn _. rewrite B6; [auto| |tauto]. by apply (valid_ino_layout _ _ A2).
  - apply B.
  - intros k Hk Hne. destruct (decide (i_block (disk_inode i2) k = i_block (disk_inode i1) k)) as [E|E].
    + rewrite <- E in *. destruct (fs_new _ _ _ _ B k Hk Hne) as [H0 Hu]. split; [done|].
      destruct (used s1 (i_block (disk_inode i3) k)) eqn:Eu; [|done]. exfalso.
      destruct (decide (i_block (disk_inode i3) k = 0)) as [E3|E3]; [congruence|].
      destruct (po_ptr _ _ (fs_ptrs _ _ _ _ B) k Hk E3) as [Hd _].
      assert (data_blk s1 (i_block (disk_inode i3) k)) as Hd1.
      { eapply (data_blk_layout s3); [|done]. symmetry. by etrans. }
      rewrite A3 in Hu by done. done.
    + destruct (fs_new _ _ _ _ A k Hk E) as [H0 Hu]. split; [done|].
      destruct (decide (i_block (disk_inode i3) k = i_block (disk_inode i2) k)) as [->|E3]; [done|].
      destruct (fs_new _ _ _ _ B k Hk E3) as [H2 _]. congruence.
  - destruct (fs_meta _ _ _ _ A) as (d1 & b1 & E1), (fs_meta _ _ _ _ B) as (d2 & b2 & E2). exists d2, b2. by rewrite E2, E1.
Qed.

(** *** One chunk *)

(** Block [r] becomes block [k] of the file. *)
Lemma ptrs_ok_assign s di k r v : ptrs_ok s di -> 0 <= k < 12 -> data_blk s r -> used s r = true -> is_u32 r ->
  (forall j, 0 <= j < 12 -> i_block di j <> r) -> ptrs_ok s (set_i_blocks v (set_i_block k r di)).
Proof.
  intros [Hd Hp Hdist] Hk Hr Hu Hr32 Hnew.
  assert (E : forall j, 0 <= j < 12 -> i_block (set_i_blocks v (set_i_block k r di)) j = if j =? k then r else i_block di j).
  { intros j Hj. by rewrite i_block_set_blocks, i_block_set_block by (done || lia). }
  split; [by repeat apply buf_ok_set_fld|..].
  - intros j Hj. rewrite E by done. destruct (Z.eqb_spec j k) as [->|]; auto.
  - intros j1 j2 H1 H2. rewrite !E by done. destruct (Z.eqb_spec j1 k), (Z.eqb_spec j2 k); [lia|..|auto].
    + intros _ Ejr. by destruct (Hnew j2 H2).
    + intros _ Ejr. by destruct (Hnew j1 H1).
Qed.

Lemma fresh_ptr s di r j : ptrs_ok s di -> data_blk s r -> used s r = false -> 0 <= j < 12 -> i_block di j <> r.
Proof.
  intros Hp Hr Hu Hj E. destruct (po_ptr _ _ Hp j Hj) as [_ Hu2]; [|congruence]. rewrite E. pose proof (db_pos _ _ Hr). lia.
Qed.

(** The block a chunk is written to and the buffer it is copied into. *)
Lemma wp_write_target s i k off n bb Q :
  vol_wf s -> ptrs_ok s (disk_inode i) -> 0 <= k < 12 -> buf_ok (e_block_size s) bb ->
  0 <= off -> 0 < n -> off + n <= e_block_size s ->
  (forall s', data_step s s' (fun _ => False) -> no_space s' \/ refused s s' -> Q (None, i) s') ->
  (forall s' i' bb', let di := disk_inode i in let di' := disk_inode i' in
     file_step s i s' i' -> i_block di' k <> 0 ->
     (forall j, (j < 12)%nat -> Z.of_nat j <> k -> file_block s' di' j = file_block s di j) ->
     buf_ok (e_block_size s) bb' ->
     (forall data, Z.of_nat (length data) = n -> blit bb' off data = blit (file_block s di (Z.to_nat k)) off data) ->
     Q (Some (i_block di' k, bb'), i') s') ->
  wp (let bs := e_block_size s in
      if i_block (disk_inode i) k =? 0 then
        phys ← ext2_alloc_block;
        if phys =? 0 then mret (None, i)
        else
          '(ret, di) ← ext2_assign_block_num (disk_inode i) k phys bs;
          if negb (ret =? 0) then ext2_free_block phys;; mret (None, with_disk i di)
          else
            let di := set_i_blocks (i_blocks di + bs / 512) di in
            let i := with_blocks (with_disk i di) (i_blocks di) in
            mret (Some (phys, zeroes bs), i)
      else if negb (off =? 0) || negb (n =? bs) then
        '(_, block_buf) ← ext2_read_block (i_block (disk_inode i) k) bb;
        mret (Some (i_block (disk_inode i) k, block_buf), i)
      else mret (Some (i_block (disk_inode i) k, bb), i)) s Q.
Proof.
  intros Hv Hp Hk Hbb Ho Hn Hon HF HS. cbv zeta. pose proof (w_bs_val _ (vw_fs _ Hv)) as Hbs.
  assert (Efb : file_block s (disk_inode i) (Z.to_nat k) =
    if i_block (disk_inode i) k =? 0 then zeroes (e_block_size s) else blk s (i_block (disk_inode i) k)).
  { unfold file_block. by rewrite Z2Nat.id by lia. }
  destruct (Z.eqb_spec (i_block (disk_inode i) k) 0) as [E0|E0].
  - apply wp_bind, wp_alloc_data; [done|..].
    { intros s' Hs' Hsp Hwhy. apply wp_ret. apply HF; [done|]. destruct Hwhy; [left; by rewrite <- Hsp|by right]. }
    intros s' g x Hs' _ _ _ _ r Hr Hfree Hused. clearbody r.
    pose proof (db_pos _ _ Hr) as Hpos. pose proof (db_range _ _ Hr) as Hrange.
    destruct (sb_ranges s (vw_fs _ Hv)) as (_ & Hcnt & _).
    assert (Hr32 : is_u32 r) by (unfold is_u32 in *; lia).
    destruct (Z.eqb_spec r 0); [lia|]. unfold ext2_assign_block_num. destruct (Z.ltb_spec k 12); [|lia].
    apply wp_bind, wp_ret. cbn [Z.eqb negb]. apply wp_ret. set (di' := set_i_blocks _ _).
    assert (E : forall j, 0 <= j < 12 -> i_block di' j = if j =? k then r else i_block (disk_inode i) j).
    { intros j Hj. unfold di'. by rewrite i_block_set_blocks, i_block_set_block by (done || lia || apply Hp). }
    assert (Hk' : i_block di' k = r) by (by rewrite E, Z.eqb_refl).
    rewrite <- Hk' at 1. apply (HS s' (with_blocks (with_disk i di') (i_blocks di')) (zeroes (e_block_size s))).
    + split; cbn [disk_inode with_blocks with_disk].
      * eapply data_step_weaken; [exact Hs'|naive_solver].
      * apply ptrs_ok_assign; [by eapply ptrs_ok_step|done|by eapply data_blk_layout; [apply Hs'|]|done|done|].
        intros j Hj. by apply (fresh_ptr s).
      * intros j Hj. rewrite E by done. destruct (Z.eqb_spec j k) as [->|]; done.
      * eexists _, _. reflexivity.
    + cbn [disk_inode with_blocks with_disk]. lia.
    + intros j Hj Hjk. cbn [disk_inode with_blocks with_disk].
      rewrite <- (file_block_step s s' _ _ (disk_inode i) j Hs' Hp Hj) by naive_solver.
      unfold file_block. rewrite E by lia. by destruct (Z.eqb_spec (Z.of_nat j) k).
    + apply zeroes_ok. lia.
    + intros data _. by rewrite Efb.
  - destruct (po_ptr _ _ Hp k Hk E0) as [Hd Hu]. pose proof (blk_ok s _ (vw_fs _ Hv) (db_dev _ _ Hd)) as Hblk.
    destruct (negb (off =? 0) || negb (n =? e_block_size s)) eqn:Efull.
    + apply wp_bind, wp_read_block; [apply Hd|]. intros s' Hs' _. apply wp_ret.
      assert (Hst : data_step s s' (fun _ => False)) by (by apply same_but_data_step).
      apply HS; [|done|..|done|intros data _; by rewrite Efb].
      * split; [eapply data_step_weaken; [exact Hst|naive_solver]|by eapply ptrs_ok_step|done|exists (disk_inode i), (blocks i); by destruct i].
      * intros j Hj _. eapply file_block_step; [exact Hst|done|done|naive_solver].
    + apply wp_ret. apply HS; [by apply file_step_refl|done|done|done|]. intros data Hdata.
      apply orb_false_iff in Efull as [E1%negb_false_iff%Z.eqb_eq E2%negb_false_iff%Z.eqb_eq]. subst off.
      rewrite !blit_full; [done|rewrite Efb; destruct Hblk; lia|destruct Hbb; lia].
Qed.

(** The block of the chunk is written. *)
Lemma write_chunk_blocks s i s1 i1 s2 k b : vol_wf s1 -> file_step s i s1 i1 -> 0 <= k < 12 -> i_block (disk_inode i1) k <> 0 ->
  (forall j, (j < 12)%nat -> Z.of_nat j <> k -> file_block s1 (disk_inode i1) j = file_block s (disk_inode i) j) ->
  data_step s1 s2 (eq (i_block (disk_inode i1) k)) -> blk s2 (i_block (disk_inode i1) k) = b ->
  file_step s i s2 i1 /\ file_blocks s2 (disk_inode i1) = <[Z.to_nat k := b]> (file_blocks s (disk_inode i)).
Proof.
  intros Hv1 Hf Hk Hne Hother Hst Hb. pose proof (fs_ptrs _ _ _ _ Hf) as Hp1. split.
  - eapply file_step_trans; [exact Hf|]. split.
    + eapply data_step_weaken; [exact Hst|]. intros c <-. by exists k.
    + by eapply ptrs_ok_step.
    + done.
    + exists (disk_inode i1), (blocks i1). by destruct i1.
  - apply list_eq. intros j. destruct (decide (j < 12)%nat) as [Hj|Hj].
    2: { rewrite !lookup_ge_None_2; [done|rewrite ?length_insert; unfold file_blocks; rewrite length_fmap, length_seq; lia..]. }
    rewrite file_blocks_lookup by done. destruct (decide (j = Z.to_nat k)) as [->|Hjk].
    + rewrite list_lookup_insert_eq by (unfold file_blocks; rewrite length_fmap, length_seq; lia). unfold file_block.
      rewrite Z2Nat.id by lia. destruct (Z.eqb_spec (i_block (disk_inode i1) k) 0); [done|by rewrite Hb].
    + rewrite list_lookup_insert_ne by done. rewrite file_blocks_lookup by done. f_equal. rewrite <- Hother by lia.
      eapply file_block_step; [exact Hst|done|done|]. intros E. apply Hjk. apply (po_dist _ _ Hp1) in E; [lia|done|lia|done].
Qed.

(** *** The loop *)

(** A write from [s] to [s'] that stops early: the volume is left without a free
    block, or the heap refused a request on the way. *)
Definition short_ok s s' (full : bool) : Prop := full = true \/ no_space s' \/ refused s s'.

Lemma wp_write_loop buf fuel : forall s i offset dn bb Q,
  vol_wf s -> ptrs_ok s (disk_inode i) -> Forall is_u8 buf -> 0 <= offset -> 0 <= dn <= Z.of_nat (length buf) ->
  offset + Z.of_nat (length buf) <= 12 * e_block_size s -> buf_ok (e_block_size s) bb ->
  (Z.to_nat (Z.of_nat (length buf) - dn) < fuel)%nat ->
  (forall n i' s' data, 0 <= n -> dn + n <= Z.of_nat (length buf) -> file_step s i s' i' ->
     slice buf dn n = Some data -> blit (file_data s (disk_inode i)) (offset + dn) data = Some (file_data s' (disk_inode i')) ->
     short_ok s s' (dn + n =? Z.of_nat (length buf)) -> Q (dn + n, i') s') ->
  wp (write_loop fuel i buf (e_block_size s) offset dn bb) s Q.
Proof.
  induction fuel as [|fuel IH]; intros s i offset dn bb Q Hv Hp Hbuf Ho Hd Hc Hbb Hf HQ; [lia|].
  cbn [write_loop]. pose proof (w_bs_val _ (vw_fs _ Hv)) as Hbs. set (bs := e_block_size s) in *. cbv zeta.
  assert (Hstop : forall s', data_step s s' (fun _ => False) -> short_ok s s' (dn =? Z.of_nat (length buf)) -> Q (dn, i) s').
  { intros s' Hs' Hshort. rewrite <- (Z.add_0_r dn). destruct (slice_is_Some buf dn 0) as [l Hl]; [lia|lia|lia|].
    pose proof (slice_length _ _ _ _ Hl). assert (l = []) as -> by (by destruct l).
    apply (HQ 0 i s' []); [lia|lia| |done| |by rewrite Z.add_0_r].
    - split; [by eapply data_step_weaken|by eapply ptrs_ok_step|done|exists (disk_inode i), (blocks i); by destruct i].
    - rewrite (file_data_step s s' _ _ _ Hs' Hp) by naive_solver. pose proof (length_file_data s _ Hv Hp) as Hlen. fold bs in Hlen.
      unfold blit. cbn [length]. case_bool; [|lia]. cbn [app]. by rewrite Nat.add_0_r, take_drop. }
  destruct (Z.leb_spec (Z.of_nat (length buf)) dn).
  { apply wp_ret, Hstop; [apply same_but_data_step; [done|apply same_but_refl]|]. left. lia. }
  rewrite (u32_small (offset + dn)) by (unfold is_u32; lia). apply wp_bind, wp_udiv; [lia|]. apply wp_bind, wp_umod; [lia|].
  destruct (pos_block s (offset + dn) Hv ltac:(fold bs; lia)) as (Hk & Ek & Hoff & Epos). fold bs in Hk, Ek, Hoff, Epos.
  set (k := Z.to_nat ((offset + dn) / bs)) in *. set (off := (offset + dn) mod bs) in *.
  rewrite (u32_small (bs - off)) by (unfold is_u32; lia).
  rewrite (u32_small (Z.of_nat (length buf) - dn)) by (unfold is_u32; lia).
  fold (chunk_at bs off (Z.of_nat (length buf) - dn)). set (n := chunk_at bs off (Z.of_nat (length buf) - dn)).
  assert (Hn : 0 < n <= Z.of_nat (length buf) - dn /\ off + n <= bs) by (unfold n, chunk_at; case_bool; lia).
  rewrite Ek. apply wp_bind, wp_resolve_direct; [lia|].
  apply wp_bind, (wp_write_target s i (Z.of_nat k) off n bb); [done|done|lia|done|lia|lia|fold bs; lia|..].
  - intros s' Hs' Hwhy. apply wp_ret, Hstop; [done|]. by right.
  - cbv zeta. intros s1 i1 bb1 Hf1 Hne Hother Hbb1 Hblit. rewrite Nat2Z.id in Hblit.
    pose proof (ds_wf _ _ _ _ (fs_step _ _ _ _ Hf1)) as Hv1. pose proof (ds_lay _ _ _ _ (fs_step _ _ _ _ Hf1)) as Hl1.
    apply wp_bind, wp_copy_out; [lia|lia|lia|]. intros data Hdata. pose proof (slice_length _ _ _ _ Hdata) as Hdl.
    assert (Hdu : Forall is_u8 data).
    { apply slice_inv in Hdata as (pre & post & -> & _ & _). apply Forall_app in Hbuf as [_ Hbuf]. by apply Forall_app in Hbuf as [? _]. }
    apply wp_bind, wp_copy_in; [lia|destruct Hbb1 as [Hbl _]; fold bs in Hbl; lia|]. intros b Hb.
    pose proof (fs_ptrs _ _ _ _ Hf1) as Hp1. destruct (po_ptr _ _ Hp1 (Z.of_nat k) ltac:(lia) Hne) as [Hdb _].
    apply wp_bind, wp_write_data; [done|done| |].
    { rewrite (sl_bs _ _ Hl1). split; [rewrite (blit_length _ _ _ _ Hb); apply Hbb1|]. eapply blit_bytes; [exact Hb|apply Hbb1|done]. }
    intros s2 Hs2 _ Eb _ _.
    destruct (write_chunk_blocks s i s1 i1 s2 (Z.of_nat k) b Hv1 Hf1 ltac:(lia) Hne Hother Hs2 Eb) as [Hf2 Eblk].
    rewrite Nat2Z.id in Eblk. rewrite Hblit in Hb by done.
    assert (Hstep : blit (file_data s (disk_inode i)) (offset + dn) data = Some (file_data s2 (disk_inode i1))).
    { unfold file_data. rewrite Eblk, <- Epos. eapply blit_concat; [by apply file_blocks_ok|by apply file_blocks_lookup|done]. }
    rewrite (u32_small (dn + n)) by (unfold is_u32; lia).
    pose proof (ds_lay _ _ _ _ (fs_step _ _ _ _ Hf2)) as Hl2. unfold bs. rewrite <- (sl_bs _ _ Hl2). apply IH; try lia.
    + apply (fs_step _ _ _ _ Hf2).
    + apply Hf2.
    + done.
    + rewrite (sl_bs _ _ Hl2). fold bs. lia.
    + rewrite (sl_bs _ _ Hl2). split; [|eapply blit_bytes; [exact Hb| |done]; by apply file_block_ok].
      rewrite (blit_length _ _ _ _ Hb). by apply file_block_ok.
    + intros n2 i2 s3 data2 Hn2 Hle Hf3 Hdata2 Hblit2 Hshort.
      replace (dn + n + n2) with (dn + (n + n2)) in * by lia.
      apply (HQ (n + n2) i2 s3 (data ++ data2)); [lia|lia|by eapply file_step_trans|by apply slice_join| |].
      * eapply blit_join; [exact Hstep|]. rewrite Hdl. by replace (offset + dn + n) with (offset + (dn + n)) by lia.
      * destruct Hshort as [|[|Hr]]; [by left|by right; left|right; right].
        eapply refused_later; [apply (ds_ref _ _ _ _ (fs_step _ _ _ _ Hf2))|done].
Qed.

(** *** The whole write *)

(** [n] bytes were written and the inode is [i'] now; its record in the table is
    up to date unless the heap refused a buffer for it. *)
Record write_done s (i : inode) (buf : list Z) (offset n : Z) (i' : inode) s' : Prop := {
  wd_len : 0 <= n <= Z.of_nat (length buf);
  wd_step : vol_step s s' (owned (disk_inode i)) (eq (ino i));
  wd_ok : file_ok s' i';
  wd_ino : ino i' = ino i /\ mode i' = mode i;
  wd_size : size i' = Z.max (size i) (offset + n);
  wd_data : blit (file_data s (disk_inode i)) offset (take (Z.to_nat n) buf) = Some (file_data s' (disk_inode i'));
  wd_short : short_ok s s' (n =? Z.of_nat (length buf));
  wd_inode : table_entry s' (ino i) = Some (disk_inode i') \/
    table_entry s' (ino i) = table_entry s (ino i) /\ refused s s'
}.

Lemma slice_take buf n data : slice buf 0 n = Some data -> data = take (Z.to_nat n) buf.
Proof. unfold slice. case_bool; [|done]. by intros [= <-]. Qed.

(** Storing the inode does not change the file. *)
Lemma wp_write_inode_file s i Q : vol_wf s -> ptrs_ok s (disk_inode i) -> valid_ino s (ino i) ->
  (forall s', same_but s s' (fun _ => True) -> no_buffer s -> refused s s' -> Q (-1, with_disk i (sync_fields i)) s') ->
  (forall s', inode_step s s' (ino i) (sync_fields i) -> Q (0, with_disk i (sync_fields i)) s') ->
  wp (ext2_write_inode i) s Q.
Proof.
  intros Hv Hp Hn HF HS. unfold ext2_write_inode. cbv zeta. apply wp_bind. cbn [ino disk_inode with_disk].
  apply wp_write_inode_data; [done|done|apply sync_fields_ok, Hp|..].
  - intros s' Hs' Hnb Hr. by apply wp_ret, HF.
  - intros s' Hs'. by apply wp_ret, HS.
Qed.

Lemma ptrs_ok_sync s i : ptrs_ok s (disk_inode i) -> ptrs_ok s (sync_fields i).
Proof. intros Hp. eapply ptrs_ok_ext; [apply sync_fields_ok, Hp|intros k Hk; apply i_block_sync; lia|done]. Qed.
Lemma file_data_sync s i : file_data s (sync_fields i) = file_data s (disk_inode i).
Proof. unfold file_data. f_equal. apply file_blocks_ptrs. intros k Hk. apply i_block_sync. lia. Qed.

(** The end of a write: the inode [i1] of the loop with its final size. *)
Lemma write_done_intro s i buf offset n data i1 s1 i2 s2 W :
  vol_wf s -> file_ok s i -> 0 <= n <= Z.of_nat (length buf) -> offset + Z.of_nat (length buf) <= 12 * e_block_size s -> 0 <= offset ->
  file_step s i s1 i1 -> slice buf 0 n = Some data ->
  blit (file_data s (disk_inode i)) offset data = Some (file_data s1 (disk_inode i1)) ->
  short_ok s s1 (n =? Z.of_nat (length buf)) ->
  ino i2 = ino i -> mode i2 = mode i -> size i2 = Z.max (size i) (offset + n) -> ptrs_ok s1 (disk_inode i2) ->
  file_data s1 (disk_inode i2) = file_data s1 (disk_inode i1) ->
  vol_step s1 s2 (fun _ => False) W -> (forall m, W m -> ino i = m) -> same_space s1 s2 ->
  (table_entry s2 (ino i) = Some (disk_inode i2) \/
    table_entry s2 (ino i) = table_entry s1 (ino i) /\ refused s1 s2) ->
  write_done s i buf offset n i2 s2.
Proof.
  intros Hv Hok Hn Hlen Ho Hf Hdata Hblit Hshort Hino Hmode Hsize Hp2 Efd Hst HW Hsp Htab.
  pose proof (fs_step _ _ _ _ Hf) as Hs1. pose proof (ds_lay _ _ _ _ Hs1) as Hl1. pose proof (ds_lay _ _ _ _ Hst) as Hl2.
  assert (Hfd : file_data s2 (disk_inode i2) = file_data s1 (disk_inode i1)).
  { rewrite <- Efd. eapply file_data_step; [exact Hst|done|naive_solver]. }
  split; try done.
  - eapply vol_step_trans; [eapply vol_step_weaken; [exact Hs1|done|tauto]|eapply vol_step_weaken; [exact Hst|tauto|exact HW]].
  - split.
    + by eapply ptrs_ok_step.
    + rewrite (sl_bs _ _ Hl2), (sl_bs _ _ Hl1), Hsize. pose proof (fo_size _ _ Hok). lia.
    + apply (valid_ino_layout _ _ Hl2), (valid_ino_layout _ _ Hl1). rewrite Hino. apply Hok.
  - rewrite Hfd, <- (slice_take _ _ _ Hdata). done.
  - destruct Hshort as [|[Hns|Hr]]; [by left|right; left; by rewrite <- Hsp|right; right]. eapply refused_sooner; [apply Hst|done].
  - destruct Htab as [|[Ht1 Ht2]]; [by left|]. right. split; [|eapply refused_later; [apply Hs1|done]]. rewrite Ht1.
    apply (ds_tab _ _ _ _ Hs1); [apply Hok|tauto].
Qed.

Lemma wp_ext2_write s i buf offset Q :
  vol_wf s -> file_ok s i -> Forall is_u8 buf -> 0 <= offset -> offset + Z.of_nat (length buf) <= 12 * e_block_size s ->
  (forall s', same_but s s' (fun _ => True) -> no_buffer s -> refused s s' -> Q (-1, i) s') ->
  (forall n i' s', write_done s i buf offset n i' s' -> Q (n, i') s') ->
  wp (ext2_write i buf offset) s Q.
Proof.
  intros Hv Hok Hbuf Ho Hlen HF HS. pose proof (w_bs_val _ (vw_fs _ Hv)) as Hbs. unfold ext2_write. apply wp_bind, wp_get. cbv zeta.
  apply wp_bind, wp_buf_alloc; [lia|intros h Hnb Hr; apply wp_ret, HF; [by apply same_but_heap, refused_heap|done|done]|]. intros h bb Hbb Hgr.
  assert (Hh : forall s h, vol_wf s -> (refusals s <= kh_refusals h)%nat -> data_step s (set_heap h s) (fun _ => False)).
  { intros s0 h0 Hv0 Hle0. apply same_but_data_step; [done|by apply same_but_heap]. }
  pose proof (Hh s h Hv Hgr) as Hsh. pose proof (file_ok_step _ _ _ _ _ Hsh Hok) as [Hp1 Hsz1 Hino1].
  change (e_block_size s) with (e_block_size (set_heap h s)).
  apply wp_bind, wp_write_loop; [apply Hsh|done|done|done|lia|done|done|lia|].
  intros n i1 s1 data Hn Hle Hf1 Hdata Hblit Hshort. rewrite Z.add_0_l, ?Z.add_0_r in *.
  assert (Hf : file_step s i s1 i1).
  { eapply file_step_trans; [|exact Hf1]. split; [eapply data_step_weaken; [exact Hsh|tauto]|done|done|].
    exists (disk_inode i), (blocks i). by destruct i. }
  assert (Hshort' : short_ok s s1 (n =? Z.of_nat (length buf))).
  { destruct Hshort as [|[|Hr]]; [by left|by right; left|right; right]. by eapply refused_later; [apply Hsh|]. }
  pose proof (fs_step _ _ _ _ Hf) as Hst. pose proof (ds_wf _ _ _ _ Hst) as Hv1.
  apply wp_bind, wp_buf_free. intros h1 Hle1. pose proof (Hh s1 h1 Hv1 Hle1) as Hsh1.
  assert (Hsp1 : same_space s1 (set_heap h1 s1)) by (apply same_space_read; [done|by apply same_but_heap]).
  rewrite (u32_small (offset + n)) by (unfold is_u32; lia).
  destruct (fs_meta _ _ _ _ Hf) as (d & b & Ei1).
  set (i2 := if size i1 <? offset + n then _ else _).
  assert (E2 : ino i2 = ino i /\ mode i2 = mode i /\ size i2 = Z.max (size i) (offset + n) /\
    buf_ok 128 (disk_inode i2) /\ forall k, 0 <= k < 12 -> i_block (disk_inode i2) k = i_block (disk_inode i1) k).
  { pose proof (po_disk _ _ (fs_ptrs _ _ _ _ Hf)) as Hbd. unfold i2. rewrite Ei1 in *. cbn [size with_blocks with_disk].
    destruct (Z.ltb_spec (size i) (offset + n)); cbn [ino mode size disk_inode with_blocks with_disk with_size] in *.
    - split_and!; [done|done|lia|by apply buf_ok_set_fld|]. intros k Hk. apply i_block_set_size. lia.
    - split_and!; [done|done|lia|done|done]. }
  destruct E2 as (Eino & Emode & Esize & Hbd2 & Eptr).
  assert (Hp2 : ptrs_ok s1 (disk_inode i2)) by (eapply ptrs_ok_ext; [done|exact Eptr|apply Hf]).
  assert (Efd2 : file_data s1 (disk_inode i2) = file_data s1 (disk_inode i1)).
  { unfold file_data. f_equal. by apply file_blocks_ptrs. }
  clearbody i2. rewrite s32_id by lia.
  assert (Hfin : forall s2 W, vol_step s1 s2 (fun _ => False) W -> (forall m, W m -> ino i = m) -> same_space s1 s2 ->
    (table_entry s2 (ino i) = Some (sync_fields i2) \/ table_entry s2 (ino i) = table_entry s1 (ino i) /\ refused s1 s2) ->
    Q (n, with_disk i2 (sync_fields i2)) s2).
  { intros s2 W H1 H2 Hsp H3. apply HS. eapply write_done_intro; [done|done|lia|done|done|exact Hf|exact Hdata|exact Hblit|done|..].
    - done.
    - done.
    - done.
    - by apply ptrs_ok_sync.
    - cbn [disk_inode with_disk]. by rewrite file_data_sync.
    - exact H1.
    - done.
    - done.
    - done. }
  assert (Hvi : valid_ino s1 (ino i2)).
  { rewrite Eino. apply (valid_ino_layout _ _ (ds_lay _ _ _ _ Hst)), Hok. }
  apply wp_bind, wp_write_inode_file; [apply Hsh1|by eapply ptrs_ok_step|done|..].
  - intros s2 Hs2 _ Hr. pose proof (same_space_read _ _ (ds_wf _ _ _ _ Hsh1) Hs2) as Hsp2.
    apply (same_but_data_step _ _ (fun _ => False) (ds_wf _ _ _ _ Hsh1)) in Hs2. apply wp_ret.
    pose proof (vol_step_trans _ _ _ _ _ Hsh1 Hs2) as H12.
    apply (Hfin s2 (fun _ => False)); [done|tauto|by etrans|]. right. split.
    + apply (ds_tab _ _ _ _ H12); [by rewrite <- Eino|tauto].
    + exact (refused_later _ (set_heap h1 s1) _ Hle1 Hr).
  - intros s2 [Hs2 _ Hib Hent Hsp2]. apply wp_ret. apply (Hfin s2 (eq (ino i2))).
    + eapply vol_step_trans; [eapply vol_step_weaken; [exact Hsh1|done|tauto]|done].
    + intros m <-. done.
    + by etrans.
    + left. by rewrite <- Eino.
Qed.

(** What the file holds up to its size. *)
Definition contents s (i : inode) : list Z := take (Z.to_nat (size i)) (file_data s (disk_inode i)).

Lemma slice_contents s i count offset out : vol_wf s -> file_ok s i -> 0 <= offset -> 0 <= count ->
  (read_count i count offset = 0 /\ out = [] \/
   slice (file_data s (disk_inode i)) offset (read_count i count offset) = Some out) ->
  out = take (Z.to_nat count) (drop (Z.to_nat offset) (contents s i)) /\ read_count i count offset = Z.of_nat (length out).
Proof.
  intros Hv [Hp Hsz _] Ho Hc Hout. pose proof (length_file_data s _ Hv Hp) as Hlen. unfold contents.
  assert (Hl : length (take (Z.to_nat (size i)) (file_data s (disk_inode i))) = Z.to_nat (size i)) by (rewrite length_take; lia).
  unfold read_count in *. destruct (Z.leb_spec (size i) offset).
  { assert (out = []) as ->.
    { destruct Hout as [[_ ->]|Hs]; [done|]. apply slice_length in Hs. by destruct out. }
    split; [|done]. rewrite drop_ge by lia. by rewrite take_nil. }
  assert (out = take (Z.to_nat (Z.min count (size i - offset))) (drop (Z.to_nat offset) (file_data s (disk_inode i)))) as ->.
  { destruct Hout as [[E ->]|Hs]; [by rewrite E|]. revert Hs. unfold slice. case_bool; [|done]. by intros [= <-]. }
  split; [|rewrite length_take, length_drop; lia].
  assert (E : (Z.to_nat (size i) = Z.to_nat offset + (Z.to_nat (size i) - Z.to_nat offset))%nat) by lia.
  rewrite E, <- take_drop_commute, take_take. f_equal. lia.
Qed.
End files.

(** ** Theorems *)
Section theorems.
Context {D H : Type} `{!BlockDevice D} `{!HealthyDevice D} `{!KHeap H}.

(** (C15) [ext2_read] returns a stretch of the file: on a file in the direct
    blocks it always returns, changes nothing on the volume, and either reports -1
    because the heap has no block buffer or stores the bytes of the file from
    [offset] on, at most [count] and none beyond the size, holes as zeros, and
    reports their number. *)
Theorem ext2_read_contents (s : ext2 D H) i count offset :
  vol_wf s -> file_ok s i -> 0 <= offset -> 0 <= count -> offset + count < 4294967296 ->
  exists n out s', ext2_read i count offset s = Ret ((n, out), s') /\ same_but s s' (fun _ => True) /\
    (n = -1 /\ out = [] /\ no_buffer s \/
     out = take (Z.to_nat count) (drop (Z.to_nat offset) (contents s i)) /\ n = Z.of_nat (length out)).
Proof.
  intros Hv Hf Ho Hc Hoc.
  enough (Hwp : wp (ext2_read i count offset) s (fun r s' => same_but s s' (fun _ => True) /\
    (r.1 = -1 /\ r.2 = [] /\ no_buffer s \/
     r.2 = take (Z.to_nat count) (drop (Z.to_nat offset) (contents s i)) /\ r.1 = Z.of_nat (length r.2)))).
  { apply wp_run in Hwp as ([n out] & s' & Hr & Hq). by exists n, out, s'. }
  apply wp_ext2_read; try done.
  - intros s' Hs' Hnb _. split; [done|by left].
  - intros s' out Hs' Hout. split; [done|]. right. by apply slice_contents.
Qed.

(** (C7) [ext2_write] replaces a stretch of the file: it always returns, and
    either reports -1 with nothing changed because the heap has no block buffer,
    or the file's bytes from [offset] on are the first [n] bytes of the buffer and
    all others are kept, the size is the larger of the old size and
    [offset + n], and [n] is the whole length unless the volume is left with no
    free block or the heap refused a request during this write.  The stretch lies
    in the twelve direct blocks of the file.  The volume stays well formed, every file that shares no block with
    this one keeps its bytes, and the inode table changes in this inode's entry
    only, which is the new inode unless the heap refused a request during the write. *)
Theorem ext2_write_refines (s : ext2 D H) i buf offset :
  vol_wf s -> file_ok s i -> Forall is_u8 buf -> 0 <= offset -> offset + Z.of_nat (length buf) <= 12 * e_block_size s ->
  exists n i' s', ext2_write i buf offset s = Ret ((n, i'), s') /\
    (n = -1 /\ i' = i /\ no_buffer s /\ same_but s s' (fun _ => True) \/
     0 <= n <= Z.of_nat (length buf) /\ vol_wf s' /\ file_ok s' i' /\ ino i' = ino i /\
     size i' = Z.max (size i) (offset + n) /\
     blit (file_data s (disk_inode i)) offset (take (Z.to_nat n) buf) = Some (file_data s' (disk_inode i')) /\
     (n = Z.of_nat (length buf) \/ no_space s' \/ refused s s') /\
     (forall j, file_ok s j -> (forall c, owned (disk_inode j) c -> ~ owned (disk_inode i) c) ->
        file_ok s' j /\ contents s' j = contents s j) /\
     (forall m, valid_ino s m -> m <> ino i -> table_entry s' m = table_entry s m) /\
     (table_entry s' (ino i) = Some (disk_inode i') \/
      table_entry s' (ino i) = table_entry s (ino i) /\ refused s s')).
Proof.
  intros Hv Hf Hb Ho Hl.
  enough (Hwp : wp (ext2_write i buf offset) s (fun r s' => r = (-1, i) /\ no_buffer s /\ same_but s s' (fun _ => True) \/
    write_done s i buf offset r.1 r.2 s')).
  { apply wp_run in Hwp as ([n i'] & s' & Hr & Hq). exists n, i', s'. split; [done|].
    destruct Hq as [([= -> ->] & Hnb & Hs)|[W1 W2 W3 W4 W5 W6 W7 W8]]; [by left|]. right. cbn [fst snd] in *.
    split_and!; try done; [apply W1|apply W1|apply W2|by destruct W4|by destruct W7 as [->%Z.eqb_eq|]; [left|right]| |].
    - intros j Hj Hd. split; [by eapply file_ok_step|]. unfold contents. f_equal. by eapply file_data_step; [..|apply Hj|].
    - intros m Hm Hne. apply (ds_tab _ _ _ _ W2); [done|]. by intros <-. }
  apply wp_ext2_write; try done; [intros s' Hs' Hnb _; by left|intros n i' s' Hw; by right].
Qed.

(** (C14) What was written is read back.  For a stretch within the twelve direct
    blocks of a file, [ext2_write] reports -1 only when the heap has no block buffer
    for it, and otherwise the number [n] of bytes written, which is the whole buffer
    unless the volume is left with no free block or the heap refused a request during
    the write; [ext2_read] of [n] bytes at the same offset then returns exactly the
    first [n] bytes of the buffer, or -1 when the heap has no buffer for it. *)
Theorem ext2_write_read_roundtrip (s : ext2 D H) i buf offset :
  vol_wf s -> file_ok s i -> Forall is_u8 buf -> 0 <= offset -> offset + Z.of_nat (length buf) <= 12 * e_block_size s ->
  exists n i' s', ext2_write i buf offset s = Ret ((n, i'), s') /\
    (n = -1 /\ no_buffer s \/
     (n = Z.of_nat (length buf) \/ no_space s' \/ refused s s') /\
     exists r out s2, ext2_read i' n offset s' = Ret ((r, out), s2) /\
       (r = -1 /\ no_buffer s' \/ r = n /\ out = take (Z.to_nat n) buf)).
Proof.
  intros Hv Hf Hb Ho Hl. pose proof (w_bs_val _ (vw_fs _ Hv)) as Hbs.
  enough (Hwp : wp (ext2_write i buf offset) s (fun r s' => r.1 = -1 /\ no_buffer s \/ write_done s i buf offset r.1 r.2 s')).
  { apply wp_run in Hwp as ([n i'] & s' & Hr & Hq). exists n, i', s'. split; [done|].
    destruct Hq as [|[W1 W2 W3 W4 W5 W6 W7 W8]]; [by left|]. right. cbn [fst snd] in *.
    split; [by destruct W7 as [->%Z.eqb_eq|]; [left|right]|].
    enough (Hwp : wp (ext2_read i' n offset) s' (fun r _ => r.1 = -1 /\ no_buffer s' \/ r.1 = n /\ r.2 = take (Z.to_nat n) buf)).
    { apply wp_run in Hwp as ([r out] & s2 & Hr2 & Hq). by exists r, out, s2. }
    assert (Ec : read_count i' n offset = n) by (unfold read_count; rewrite W5; case_bool; lia).
    apply wp_ext2_read; try done; try lia; [apply W2|intros; by left|]. intros s2 out _. rewrite Ec. intros Hout. right. split; [done|].
    assert (Hln : Z.of_nat (length (take (Z.to_nat n) buf)) = n) by (rewrite length_take; lia).
    apply slice_blit_same in W6. rewrite Hln in W6. destruct Hout as [[-> ->]|Hout]; [done|].
    rewrite W6 in Hout. by injection Hout. }
  apply wp_ext2_write; try done; [intros s' Hs' Hnb _; by left|intros n i' s' Hw; by right].
Qed.
End theorems.

(** ** Witnesses *)

Lemma tiny_vol_wf : vol_wf tiny_fs.
Proof.
  destruct tiny_numbers as (En & Esb & Egd & Ebm & Eib & Ebpg & Eipg & Efdb & Ebc).
  assert (H0 : forall g, 0 <= g < e_groups_count tiny_fs -> g = 0) by (cbn [tiny_fs e_groups_count]; lia).
  assert (Hm : forall c, meta tiny_fs c -> c = 1 \/ c = 2).
  { intros c [->|(g & Hg%H0 & ->)]; [by left|]. subst g. by right. }
  assert (Hl : forall n, valid_ino tiny_fs n -> loc_blk tiny_fs n = 5).
  { intros n Hn. unfold valid_ino in Hn. rewrite Eipg in Hn. cbn [tiny_fs e_groups_count] in Hn.
    assert (n = 1 \/ n = 2 \/ n = 3 \/ n = 4 \/ n = 5 \/ n = 6 \/ n = 7 \/ n = 8) as Hc by lia.
    destruct_or! Hc; subst n; by vm_compute. }
  split.
  - exact tiny_fs_wf.
  - exact tiny_itable.
  - intros g i Hg Hi Hf. pose proof (H0 g Hg) as ->. destruct (group_bits_spec tiny_fs 0 tiny_fs_wf Hg) as [Hgb _].
    rewrite Ebpg in *. rewrite Efdb.
    assert (5 <= i < 8) as Hi5.
    { destruct (decide (5 <= i)); [lia|]. exfalso. assert (i = 0 \/ i = 1 \/ i = 2 \/ i = 3 \/ i = 4) as Hc by lia.
      destruct_or! Hc; subst i; by vm_compute in Hf. }
    split; unfold in_dev; rewrite ?En, ?Efdb, ?Ebc; try lia.
    + intros Hc%Hm. lia.
    + intros g2 ->%H0. rewrite Ebm. lia.
    + intros g2 ->%H0. rewrite Eib. lia.
    + intros n Hn. rewrite Hl by done. lia.
  - intros n Hn. rewrite Hl by done. split; [intros Hc%Hm; lia|]. intros g ->%H0. rewrite Ebm, Eib. lia.
Qed.

Lemma i_block_zeroes k : 0 <= k < 15 -> i_block (zeroes 128) k = 0.
Proof.
  intros Hk. unfold i_block, fld, get_le. change (Z.of_nat 4) with 4. rewrite slice_zeroes by lia. by vm_compute.
Qed.

(** An empty file and one of 1500 bytes, a hole and one block. *)
Definition tiny_file (sz : Z) : inode :=
  {| ino := 3; mode := FS_FILE_TYPE_REGULAR; size := sz; uid := 0; gid := 0; nlink := 1; atime := 0; mtime := 0; ctime := 0;
     blksize := 1024; blocks := 0; flags := 0; ref_count := 1; disk_inode := zeroes 128; block_group := 0; index_in_group := 2 |}.

Lemma tiny_file_ok sz : 0 <= sz <= 12288 -> file_ok tiny_fs (tiny_file sz).
Proof.
  intros Hsz. split.
  - split; cbn [disk_inode tiny_file].
    + by apply zeroes_ok.
    + intros k Hk Hne. by rewrite i_block_zeroes in Hne by lia.
    + intros j k Hj Hk Hne. by rewrite i_block_zeroes in Hne by lia.
  - cbn [size tiny_file tiny_fs e_block_size]. lia.
  - destruct tiny_numbers as (_ & _ & _ & _ & _ & _ & Eipg & _). unfold valid_ino. rewrite Eipg. cbn [tiny_fs e_groups_count ino tiny_file]. lia.
Qed.

Lemma ext2_read_contents_witness :
  exists n out s', ext2_read (tiny_file 1500) 1000 1000 tiny_fs = Ret ((n, out), s') /\ (n = -1 \/ n = 500).
Proof.
  destruct (ext2_read_contents tiny_fs (tiny_file 1500) 1000 1000) as (n & out & s' & Hr & _ & Hc).
  - exact tiny_vol_wf.
  - apply tiny_file_ok. lia.
  - lia.
  - lia.
  - lia.
  - exists n, out, s'. split; [exact Hr|]. destruct Hc as [[Hc _]|[Ho Hn]]; [by left|]. right. rewrite Hn, Ho.
    rewrite length_take, length_drop. unfold contents. rewrite length_take. cbn [size tiny_file disk_inode].
    pose proof (length_file_data tiny_fs (zeroes 128) tiny_vol_wf) as Hl. cbn [tiny_fs e_block_size] in Hl.
    assert (Hp : ptrs_ok tiny_fs (zeroes 128)) by (apply (tiny_file_ok 0); lia).
    specialize (Hl Hp). cbn [tiny_file disk_inode]. lia.
Defined.

Lemma tiny_write_hyp : Forall is_u8 [104; 105] /\ 1023 + Z.of_nat (length [104; 105]) <= 12 * e_block_size tiny_fs.
Proof. split; [repeat constructor; unfold is_u8; lia|cbn [length tiny_fs e_block_size]; lia]. Qed.

Lemma ext2_write_refines_witness :
  exists n i' s', ext2_write (tiny_file 1500) [104; 105] 1023 tiny_fs = Ret ((n, i'), s') /\ (n = -1 \/ 0 <= n <= 2 /\ size i' = 1500).
Proof.
  destruct (ext2_write_refines tiny_fs (tiny_file 1500) [104; 105] 1023) as (n & i' & s' & Hr & Hc).
  - exact tiny_vol_wf.
  - apply tiny_file_ok. lia.
  - apply tiny_write_hyp.
  - lia.
  - apply tiny_write_hyp.
  - exists n, i', s'. split; [exact Hr|]. destruct Hc as [[Hc _]|(Hn & _ & _ & _ & Hs & _)]; [by left|right].
    cbn [length] in Hn. cbn [size tiny_file] in Hs. split; lia.
Defined.

Lemma ext2_write_read_roundtrip_witness :
  exists n i' s', ext2_write (tiny_file 0) [104; 105] 1023 tiny_fs = Ret ((n, i'), s').
Proof.
  destruct (ext2_write_read_roundtrip tiny_fs (tiny_file 0) [104; 105] 1023) as (n & i' & s' & Hr & _).
  - exact tiny_vol_wf.
  - apply tiny_file_ok. lia.
  - apply tiny_write_hyp.
  - lia.
  - apply tiny_write_hyp.
  - exists n, i', s'. exact Hr.
Defined.
