(* ===== verification/Ext2Inodes.v ===== *)
(** * Inode allocation and loading on an ext2 volume (src/src/fs/ext2/inode.c)

    Allocating or releasing an inode changes one bit of one inode bitmap and the
    counters; the data blocks, the block bitmaps and the inode table are kept. *)

From S2P Require Import Prelude BlockDev Ext2 Ext2Proof DirBlock Ext2Layout Ext2Files.

Section inodes.
Context {D H : Type} `{!BlockDevice D} `{!HealthyDevice D} `{!KHeap H}.
Implicit Types s : ext2 D H.

Definition ino_number s (g i : Z) : Z := g * s_inodes_per_group (e_sb s) + i + 1.

Lemma ino_number_spec s g i : fs_wf s -> 0 <= g < e_groups_count s -> 0 <= i < s_inodes_per_group (e_sb s) ->
  valid_ino s (ino_number s g i) /\ loc_group s (ino_number s g i) = g /\ loc_index s (ino_number s g i) = i /\
  g *! s_inodes_per_group (e_sb s) +! i +! 1 = ino_number s g i.
Proof.
  intros Hwf Hg Hi. pose proof (w_itotal _ Hwf) as Ht. pose proof (w_ipg _ Hwf).
  unfold valid_ino, loc_group, loc_index, ino_number. set (ipg := s_inodes_per_group (e_sb s)) in *.
  assert (g * ipg + ipg <= e_groups_count s * ipg) by nia. assert (0 <= g * ipg) by nia.
  replace (g * ipg + i + 1 - 1) with (i + g * ipg) by lia. rewrite Z.div_add, Z_mod_plus_full, Z.div_small, Z.mod_small by lia.
  rewrite (u32_small (g * ipg)) by (unfold is_u32; lia). rewrite (u32_small (g * ipg + i)) by (unfold is_u32; lia).
  rewrite u32_small by (unfold is_u32; lia). lia.
Qed.

Lemma loc_number s n : fs_wf s -> valid_ino s n ->
  0 <= loc_group s n < e_groups_count s /\ 0 <= loc_index s n < s_inodes_per_group (e_sb s) /\
  n = ino_number s (loc_group s n) (loc_index s n).
Proof.
  intros Hwf Hn. pose proof (w_ipg _ Hwf). unfold valid_ino, ino_number, loc_group, loc_index in *.
  set (ipg := s_inodes_per_group (e_sb s)) in *. pose proof (Z.mod_pos_bound (n - 1) ipg ltac:(lia)).
  pose proof (Z.div_mod (n - 1) ipg ltac:(lia)). split; [|split; [done|lia]].
  split; [apply Z.div_pos; lia|apply Z.div_lt_upper_bound; lia].
Qed.

(** ** One inode bit changes *)
Record ino_step s s' (n : Z) (v : bool) : Prop := {
  io_step : vol_step s s' (fun _ => False) (eq n);
  io_tab : forall n', valid_ino s n' -> table_entry s' n' = table_entry s n';
  io_used : forall c, data_blk s c -> used s' c = used s c;
  io_bits : forall n', valid_ino s n' -> ino_used s' n' = if n' =? n then v else ino_used s n';
  io_space : same_space s s'
}.

(** The tail of [ext2_alloc_inode] and [ext2_free_inode]. *)
Lemma wp_store_ibitmap {A} s g gd bm' d n v (ret : ST (ext2 D H) A) Q :
  vol_wf s -> valid_ino s n -> loc_group s n = g -> znth (e_group_desc s) g = Some gd ->
  buf_ok (e_block_size s) bm' ->
  (forall j, 0 <= j -> bm_bit bm' j = if j =? loc_index s n then v else ino_bit s g j) ->
  (forall s', ino_step s s' n v -> wp ret s' Q) ->
  wp (ext2_write_block (bg_inode_bitmap gd) bm';;
      kfree;;
      put_gd g (set_bg_free_inodes (bg_free_inodes_count gd + d) gd);;
      st_modify (fun s => set_sb (set_free_inodes_count (s_free_inodes_count (e_sb s) + d) (e_sb s)) s);;
      ext2_flush_group_desc g;;
      ext2_flush_superblock;;
      ret) s Q.
Proof.
  intros Hv Hn Hgn Hgd Hbm Hbits HQ. pose proof (vw_fs _ Hv) as Hwf. destruct (loc_number s n Hwf Hn) as (Hg & Hi & En).
  rewrite Hgn in Hg. destruct (wf_gd s g Hwf Hg) as (gd0 & Hgd0 & _ & _ & Eib). rewrite Hgd in Hgd0. injection Hgd0 as <-.
  destruct (w_bm _ Hwf g Hg) as (_ & _ & Hbin & Hbmeta). rewrite Eib.
  assert (Hcg : counter_gd gd (set_bg_free_inodes (bg_free_inodes_count gd + d) gd)) by (by apply counter_gd_set).
  assert (Hcs : counter_sb (e_sb s) (set_free_inodes_count (s_free_inodes_count (e_sb s) + d) (e_sb s))) by (by apply counter_sb_set).
  apply (wp_store_meta s g gd _ (fun sb => set_free_inodes_count (s_free_inodes_count sb + d) sb)); try done.
  intros s' [M1 M2 M3 M4 M5 M6 M7 M8 M9 M10]. apply HQ.
  assert (Hl : same_layout s s') by (eapply counters_layout; [rewrite M5; exact Hcs|exact Hcg|exact Hgd|done|done|done|done]).
  assert (Hbit : forall g2 j, 0 <= g2 < e_groups_count s -> block_bit s' g2 j = block_bit s g2 j).
  { intros g2 j Hg2. unfold block_bit. rewrite (sl_bm _ _ Hl). destruct (w_bm _ Hwf g2 Hg2) as (H1 & H2 & _).
    rewrite M9; [done|done|done|]. by apply (w_bm_ibm _ Hwf). }
  assert (Hused : forall c, data_blk s c -> used s' c = used s c).
  { intros c Hc. unfold used, rel. rewrite (sl_fdb _ _ Hl), (sl_bpg _ _ Hl). apply Hbit. by apply (number_rel s c Hwf Hc). }
  assert (Htab : forall n2, valid_ino s n2 -> table_entry s' n2 = table_entry s n2).
  { intros n2 Hn2. unfold table_entry. destruct (loc_layout _ _ Hl n2) as (-> & -> & _).
    destruct (vw_tab _ Hv n2 Hn2) as [H1 H2]. rewrite M9; [done| |done|by apply H2]. by apply (it_dev _ (vw_it _ Hv)). }
  assert (Hib : forall n2, valid_ino s n2 -> ino_used s' n2 = if n2 =? n then v else ino_used s n2).
  { intros n2 Hn2. destruct (loc_number s n2 Hwf Hn2) as (Hg2 & Hi2 & En2). destruct (loc_layout _ _ Hl n2) as (_ & _ & Elg).
    assert (Eli : loc_index s' n2 = loc_index s n2) by (unfold loc_index; by rewrite (sl_ipg _ _ Hl)).
    unfold ino_used. rewrite Elg, Eli. unfold ino_bit. rewrite (sl_ibm _ _ Hl).
    destruct (decide (loc_group s n2 = g)) as [Eg|Eg].
    - rewrite Eg, M8, Hbits by lia. unfold ino_bit.
      destruct (Z.eqb_spec (loc_index s n2) (loc_index s n)) as [E|E], (Z.eqb_spec n2 n) as [E2|E2]; try done; [|congruence].
      exfalso. apply E2. rewrite En2, En. congruence.
    - destruct (w_bm _ Hwf _ Hg2) as (_ & _ & H3 & H4). rewrite M9; [|done|done|].
      + destruct (Z.eqb_spec n2 n) as [->|]; [congruence|done].
      + intros E. apply Eg. by apply (w_ibm_dist _ Hwf). }
  split; [split|done|done|done|split; [done| | |done]].
  - split.
    + done.
    + by eapply itable_layout; [|apply Hv].
    + intros g2 j. rewrite (sl_gc _ _ Hl), (group_bits_layout _ _ Hl), (sl_fdb _ _ Hl), (sl_bpg _ _ Hl).
      intros Hg2 Hj. rewrite Hbit by done. intros Hf. eapply data_blk_layout; [exact Hl|by apply (vw_free _ Hv)].
    + intros n2 Hn2%(valid_ino_layout _ _ Hl). destruct (loc_layout _ _ Hl n2) as (-> & _). rewrite (meta_layout _ _ Hl).
      destruct (vw_tab _ Hv n2 Hn2) as [H1 H2]. split; [done|]. intros g2. rewrite (sl_gc _ _ Hl), (sl_bm _ _ Hl), (sl_ibm _ _ Hl). auto.
  - done.
  - intros c Hc. by rewrite Hused.
  - intros c Hc _ _. apply M9; [apply Hc|apply Hc|by apply (db_ibm _ _ Hc)].
  - intros n2 Hn2 _. by apply Htab.
  - intros n2 Hn2 Hne. rewrite Hib by done. destruct (Z.eqb_spec n2 n) as [->|]; [by destruct Hne|done].
  - done.
  - rewrite M5. apply fld_set_other. lia.
  - intros g2. unfold group_free. rewrite M6. eapply znth_update; [exact Hgd|]. apply fld_set_other. lia.
Qed.

(** ** Allocation *)
Definition ino_full_from s (g : Z) : Prop :=
  forall g2 gd, g <= g2 < e_groups_count s -> znth (e_group_desc s) g2 = Some gd ->
    bg_free_inodes_count gd <> 0 -> forall j, 0 <= j < s_inodes_per_group (e_sb s) -> ino_bit s g2 j = true.
(** The volume has no inode to give. *)
Definition no_inode s : Prop := s_free_inodes_count (e_sb s) = 0 \/ ino_full_from s 0.

Lemma ino_bit_same s s1 g j : fs_wf s -> same_but s s1 (fun _ => True) -> 0 <= g < e_groups_count s ->
  ino_bit s1 g j = ino_bit s g j.
Proof.
  intros Hwf H1 Hg. unfold ino_bit. rewrite (sl_ibm _ _ (same_but_layout _ _ _ H1)).
  destruct (w_bm _ Hwf g Hg) as (_ & _ & Hin & _). by rewrite (sm_blk _ _ _ H1).
Qed.

Lemma ino_used_same s s1 n : fs_wf s -> same_but s s1 (fun _ => True) -> valid_ino s n -> ino_used s1 n = ino_used s n.
Proof.
  intros Hwf H1 Hn. pose proof (same_but_layout _ _ _ H1) as Hl. destruct (loc_number s n Hwf Hn) as (Hg & _).
  unfold ino_used. destruct (loc_layout _ _ Hl n) as (_ & _ & ->). unfold loc_index. rewrite (sl_ipg _ _ Hl). by apply ino_bit_same.
Qed.

Lemma ino_step_same s s1 s2 n v : vol_wf s -> same_but s s1 (fun _ => True) -> ino_step s1 s2 n v -> ino_step s s2 n v.
Proof.
  intros Hv H1 [A1 At A2 A3 A4]. assert (Hst : data_step s s1 (fun _ => False)) by (by apply same_but_data_step).
  pose proof (ds_lay _ _ _ _ Hst) as Hl. split.
  - eapply vol_step_trans; [eapply vol_step_weaken; [exact Hst|done|by intros ? []]|done].
  - intros n2 Hn2. rewrite At by (by apply (valid_ino_layout _ _ Hl)). apply (ds_tab _ _ _ _ Hst); [done|tauto].
  - intros c Hc. rewrite A2 by (by eapply data_blk_layout). destruct (used s c) eqn:E; [by apply (ds_used _ _ _ _ Hst)|].
    unfold used, rel in *. rewrite (sl_fdb _ _ Hl), (sl_bpg _ _ Hl). rewrite (block_bit_same s s1); [done|apply Hv|done|].
    by apply (number_rel s c (vw_fs _ Hv) Hc).
  - intros n2 Hn2. rewrite A3 by (by apply (valid_ino_layout _ _ Hl)). destruct (n2 =? n); [done|]. by apply ino_used_same; [apply Hv|..].
  - etrans; [by apply same_space_read|done].
Qed.

Lemma wp_alloc_inode_groups k : forall s g bm Q,
  vol_wf s -> buf_ok (e_block_size s) bm -> 0 <= g -> g + Z.of_nat k = e_groups_count s ->
  (forall s', same_but s s' (fun _ => True) -> ino_full_from s g -> Q 0 s') ->
  (forall s' n, valid_ino s n -> ino_used s n = false -> ino_step s s' n true -> Q n s') ->
  wp (alloc_inode_groups k g bm) s Q.
Proof.
  induction k as [|k IH]; intros s g bm Q Hv Hbm Hg Hk HF HS; cbn [alloc_inode_groups].
  { apply wp_bind, wp_buf_free. intros h Hle. apply wp_ret, HF; [by apply same_but_heap|]. intros g2 gd Hg2. lia. }
  pose proof (vw_fs _ Hv) as Hwf. assert (Hgr : 0 <= g < e_groups_count s) by lia.
  destruct (wf_gd s g Hwf Hgr) as (gd & Hgd & _ & _ & Eib). destruct (w_bm _ Hwf g Hgr) as (_ & _ & Hbin & _).
  apply wp_bind, (wp_get_gd _ _ gd); [done|]. destruct (Z.eqb_spec (bg_free_inodes_count gd) 0) as [E0|E0].
  { apply IH; [done|done|lia|lia| |done]. intros s' Hs' Hfull. apply HF; [done|]. intros g2 gd2 Hg2 Hgd2 Hne.
    destruct (decide (g2 = g)) as [->|]; [congruence|]. apply (Hfull g2 gd2); [lia|done|done]. }
  rewrite Eib. apply wp_bind, wp_read_block; [done|]. intros s1 H1 _. apply wp_bind, wp_get, wp_bind.
  pose proof (blk_ok s _ Hwf Hbin) as Hbok. pose proof (w_ipg _ Hwf) as Hipg. rewrite (sm_sb _ _ _ H1).
  assert (Hv1 : vol_wf s1) by (by eapply (same_but_data_step s s1 (fun _ => False))).
  apply (wp_find_zero _ (e_block_size s)); [done|lia|lia|..].
  - intros Hall. apply IH; [done|by rewrite (sm_bs _ _ _ H1)|lia|by rewrite (sm_gc _ _ _ H1); lia| |].
    + intros s' Hs' Hfull. apply HF; [eapply same_but_weaken; [by eapply same_but_trans|done]|].
      intros g2 gd2 Hg2 Hgd2 Hne j Hj. destruct (decide (g2 = g)) as [->|]; [apply Hall; lia|].
      rewrite <- (ino_bit_same s s1 g2 j Hwf H1) by lia. apply (Hfull g2 gd2); [rewrite (sm_gc _ _ _ H1); lia| | |].
      * by rewrite (sm_gds _ _ _ H1).
      * done.
      * by rewrite (sm_sb _ _ _ H1).
    + intros s' n Hn Hfree Hst. apply (valid_ino_layout _ _ (same_but_layout _ _ _ H1)) in Hn.
      rewrite (ino_used_same s s1) in Hfree by done. apply HS; [done|done|by eapply ino_step_same].
  - intros i Hi Hfree. apply wp_bind, (wp_set_bitmap _ _ _ (e_block_size s)); [done|lia|]. intros bm' Hbm' Hbits.
    destruct (ino_number_spec s g i Hwf Hgr ltac:(lia)) as (Hn & Elg & Eli & Eu). set (n := ino_number s g i) in *.
    assert (Hfn : ino_used s n = false) by (unfold ino_used; rewrite Elg, Eli; exact Hfree).
    pose proof (same_but_layout _ _ _ H1) as Hl1. destruct (loc_layout _ _ Hl1 n) as (_ & _ & Elg1). rewrite <- Eib.
    assert (Eli1 : loc_index s1 n = i) by (unfold loc_index; rewrite (sl_ipg _ _ Hl1); exact Eli).
    apply (wp_store_ibitmap s1 g gd bm' (-1) n true).
    + done.
    + by apply (valid_ino_layout _ _ Hl1).
    + by rewrite Elg1.
    + by rewrite (sm_gds _ _ _ H1).
    + by rewrite (sm_bs _ _ _ H1).
    + intros j Hj. rewrite Hbits by done. rewrite Eli1, (ino_bit_same s s1 g j Hwf H1 Hgr). unfold ino_bit.
      destruct (Z.eqb_spec j i); [by rewrite orb_true_r|by rewrite orb_false_r].
    + intros s' Hst%(ino_step_same s s1 s' n true Hv H1). apply wp_bind, wp_get, wp_ret.
      rewrite (sl_ipg _ _ (ds_lay _ _ _ _ (io_step _ _ _ _ Hst))). fold n in Eu. rewrite Eu. by apply HS.
Qed.

Lemma wp_alloc_inode s Q : vol_wf s ->
  (forall s', data_step s s' (fun _ => False) -> no_inode s \/ refused s s' -> Q 0 s') ->
  (forall s' n, valid_ino s n -> ino_used s n = false -> ino_step s s' n true -> Q n s') ->
  wp ext2_alloc_inode s Q.
Proof.
  intros Hv HF HS. apply wp_bind, wp_get. pose proof (w_bs_val _ (vw_fs _ Hv)). pose proof (w_gc _ (vw_fs _ Hv)).
  destruct (Z.eqb_spec (s_free_inodes_count (e_sb s)) 0) as [E0|E0].
  { apply wp_ret, HF; [apply same_but_data_step; [done|apply same_but_refl]|left; by left]. }
  apply wp_bind, wp_buf_alloc; [lia|intros h _ Hr; apply wp_ret, HF; [apply same_but_data_step; [done|by apply same_but_heap, refused_heap]|by right]|].
  intros h junk Hj Hle. assert (Hh : same_but s (set_heap h s) (fun _ => True)) by (by apply same_but_heap).
  apply wp_alloc_inode_groups; [by eapply (same_but_data_step s _ (fun _ => False))|done|lia|cbn [e_groups_count set_heap]; lia|..].
  - intros s' Hs' Hfull. apply HF; [|left; by right].
    apply same_but_data_step; [done|]. eapply same_but_weaken; [by eapply same_but_trans|done].
  - intros s' n Hn Hfree Hst. apply HS; [done|done|by eapply ino_step_same].
Qed.

(** ** Release *)
Lemma wp_free_inode s n Q : vol_wf s -> valid_ino s n ->
  (forall s', same_but s s' (fun _ => True) -> no_buffer s -> refused s s' -> Q tt s') ->
  (forall s', ino_step s s' n false -> Q tt s') -> wp (ext2_free_inode n) s Q.
Proof.
  intros Hv Hn HF HS. pose proof (vw_fs _ Hv) as Hwf. pose proof (w_ipg _ Hwf) as Hipg. pose proof (w_itotal _ Hwf) as Htot.
  pose proof (w_bs_val _ Hwf) as Hbs. destruct (loc_number s n Hwf Hn) as (Hg & Hi & _).
  apply wp_bind, wp_get. unfold valid_ino in Hn. rewrite (u32_small (n - 1)) by (unfold is_u32; lia).
  apply wp_bind, wp_udiv; [lia|]. apply wp_bind, wp_umod; [lia|]. fold (loc_group s n) (loc_index s n).
  apply wp_bind, wp_buf_alloc; [lia|intros h Hnb Hr; apply wp_ret, HF; [by apply same_but_heap, refused_heap|done|done]|].
  intros h junk Hj Hle. destruct (wf_gd s _ Hwf Hg) as (gd & Hgd & _ & _ & Eib). destruct (w_bm _ Hwf _ Hg) as (_ & _ & Hbin & _).
  apply wp_bind, (wp_get_gd _ _ gd); [done|]. rewrite Eib. apply wp_bind, wp_read_block; [done|]. intros s1 H1%same_but_heap_l _; [|done].
  change (blk (set_heap h s) (inode_bitmap_of s (loc_group s n))) with (blk s (inode_bitmap_of s (loc_group s n))).
  pose proof (blk_ok s _ Hwf Hbin) as Hbok. apply wp_bind, (wp_clear_bitmap _ _ _ (e_block_size s)); [done|lia|]. intros bm' Hbm' Hbits.
  assert (Hv1 : vol_wf s1) by (by eapply (same_but_data_step s s1 (fun _ => False))). rewrite <- Eib.
  pose proof (same_but_layout _ _ _ H1) as Hl1. destruct (loc_layout _ _ Hl1 n) as (_ & _ & Elg1).
  assert (Eli1 : loc_index s1 n = loc_index s n) by (unfold loc_index; by rewrite (sl_ipg _ _ Hl1)).
  apply (wp_store_ibitmap s1 (loc_group s n) gd bm' 1 n false).
  - done.
  - by apply (valid_ino_layout _ _ Hl1).
  - done.
  - by rewrite (sm_gds _ _ _ H1).
  - by rewrite (sm_bs _ _ _ H1).
  - intros j Hj2. rewrite Hbits by done. rewrite Eli1, (ino_bit_same s s1 _ j Hwf H1 Hg). unfold ino_bit.
    destruct (Z.eqb_spec j (loc_index s n)); [by rewrite andb_false_r|by rewrite andb_true_r].
  - intros s' Hst. apply wp_ret, HS. by eapply ino_step_same.
Qed.

(** ** Loading an inode *)

(** The VFS inode made of inode [n] of the table. *)
Definition loaded s (n : Z) (di : list Z) : inode :=
  {| ino := n; mode := i_mode di; size := i_size di; uid := i_uid di; gid := i_gid di; nlink := i_links_count di;
     atime := i_atime di; mtime := i_mtime di; ctime := i_ctime di; blksize := e_block_size s; blocks := i_blocks di;
     flags := i_flags di; ref_count := 1; disk_inode := di; block_group := loc_group s n; index_in_group := loc_index s n |}.

Lemma wp_read_inode s n Q : vol_wf s -> valid_ino s n ->
  (forall s', same_but s s' (fun _ => True) -> refused s s' -> Q None s') ->
  (forall s' di, same_but s s' (fun _ => True) -> table_entry s n = Some di -> Q (Some (loaded s n di)) s') ->
  wp (ext2_read_inode n) s Q.
Proof.
  intros Hv Hn HF HS. pose proof (vw_fs _ Hv) as Hwf. pose proof (w_ipg _ Hwf) as Hipg. pose proof (w_itotal _ Hwf) as Htot.
  unfold ext2_read_inode. pose proof Hn as Hn'. unfold valid_ino in Hn'. destruct (Z.eqb_spec n 0); [lia|].
  apply wp_bind, wp_get. apply wp_bind, wp_buf_alloc; [done|intros h _ Hr; apply wp_ret, HF; [by apply same_but_heap, refused_heap|done]|].
  intros h junk _ Hle. assert (Hh : same_but s (set_heap h s) (fun _ => True)) by (by apply same_but_heap).
  assert (Hv1 : vol_wf (set_heap h s)) by (by eapply (same_but_data_step s _ (fun _ => False))).
  apply wp_bind, wp_read_inode_raw; [apply Hv1|apply Hv1|done|..].
  - intros s1 Hs1%same_but_heap_l _ Hr; [|done]. cbn [Z.eqb negb]. apply wp_bind, wp_buf_free. intros h2 Hle2.
    apply wp_ret, HF; [by apply same_but_heap_r|]. apply (refused_sooner _ s1); [exact Hle2|]. by apply (refused_later _ (set_heap h s)).
  - intros s1 di Hs1%same_but_heap_l Hdi; [|done]. cbn [Z.eqb negb]. rewrite (u32_small (n - 1)) by (unfold is_u32; lia).
    apply wp_bind, wp_udiv; [lia|]. apply wp_bind, wp_umod; [lia|].
    apply wp_bind, wp_buf_alloc; [done|..].
    + intros h2 _ Hr. apply wp_bind, wp_buf_free. intros h3 Hle3. apply wp_ret, HF.
      * apply same_but_heap_r; [|done]. by apply same_but_heap_r, refused_heap.
      * apply (refused_sooner _ (set_heap h2 s1)); [exact Hle3|]. eapply refused_later; [apply Hs1|done].
    + intros h2 junk2 _ Hle2. apply wp_ret. apply HS; [by apply same_but_heap_r|done].
Qed.
End inodes.
