(* ===== verification/Ext2Dirs.v ===== *)
(** * Directories on an ext2 volume (src/src/fs/ext2/directory.c)

    A directory in the direct blocks of its inode is a list of names: searching,
    adding and removing an entry on disk are the operations of [DirBlock] on the
    blocks in their order, a block is added when none has room, and the volume
    outside the directory's blocks is kept. *)

From S2P Require Import Prelude BlockDev Ext2 Ext2Proof DirBlock Ext2Layout Ext2Files Ext2Inodes.

Section dirs.
Context {D H : Type} `{!BlockDevice D} `{!HealthyDevice D} `{!KHeap H}.
Implicit Types s : ext2 D H.

(** ** The entries of a directory *)
Record dir_ok s (dir : inode) (ess : list (list dirent)) : Prop := {
  dk_file : file_ok s dir;
  dk_size : size dir = e_block_size s * Z.of_nat (length ess);
  dk_blk : forall k es, ess !! k = Some es -> i_block (disk_inode dir) (Z.of_nat k) <> 0 /\
    blk s (i_block (disk_inode dir) (Z.of_nat k)) = dir_block es /\ dir_wf (e_block_size s) es
}.

(** What it lists, block after block. *)
Definition dlist (ess : list (list dirent)) : listing := live (concat ess).

Lemma dlist_app l1 l2 : dlist (l1 ++ l2) = dlist l1 ++ dlist l2.
Proof. unfold dlist. by rewrite concat_app, live_app. Qed.
Lemma dlist_cons es l : dlist (es :: l) = live es ++ dlist l.
Proof. exact (live_app es (concat l)). Qed.

Lemma absent_app name l1 l2 : absent name l1 -> absent name l2 -> absent name (l1 ++ l2).
Proof. intros H1 H2 i t [Hin|Hin]%elem_of_app; [by eapply H1|by eapply H2]. Qed.

(** The block of the [k]th list of entries. *)
Lemma dir_ptr s dir ess k es : vol_wf s -> dir_ok s dir ess -> ess !! k = Some es ->
  let p := i_block (disk_inode dir) (Z.of_nat k) in
  (k < 12)%nat /\ p <> 0 /\ data_blk s p /\ used s p = true /\ blk s p = dir_block es /\ dir_wf (e_block_size s) es.
Proof.
  intros Hv [] Hk. cbv zeta. destruct (dk_blk0 k es Hk) as (Hne & Hb & Hwf). pose proof (lookup_lt_Some _ _ _ Hk) as Hlt.
  pose proof (fo_size _ _ dk_file0) as Hsz. rewrite dk_size0 in Hsz. pose proof (w_bs_val _ (vw_fs _ Hv)).
  assert (Hk12 : 0 <= Z.of_nat k < 12) by nia.
  destruct (po_ptr _ _ (fo_ptrs _ _ dk_file0) _ Hk12 Hne) as [Hd Hu]. split_and!; try done. lia.
Qed.

Lemma dir_ok_step s s' W T dir ess : vol_wf s -> vol_step s s' W T -> dir_ok s dir ess ->
  (forall c, owned (disk_inode dir) c -> ~ W c) -> dir_ok s' dir ess.
Proof.
  intros Hv Hs Hdir HW. pose proof Hdir as []. split; [by eapply file_ok_step|by rewrite (sl_bs _ _ (ds_lay _ _ _ _ Hs))|].
  intros k es Hk. destruct (dir_ptr s dir ess k es Hv Hdir Hk) as (Hk12 & Hne & Hd & Hu & Hb & Hwf).
  split; [done|]. rewrite (sl_bs _ _ (ds_lay _ _ _ _ Hs)). split; [|done]. rewrite <- Hb.
  apply (ds_blk _ _ _ _ Hs); [done|done|]. apply HW. exists (Z.of_nat k). split; [lia|done].
Qed.

Lemma dir_ok_same s s' dir ess : vol_wf s -> same_but s s' (fun _ => True) -> dir_ok s dir ess -> dir_ok s' dir ess.
Proof.
  intros Hv Hs Hd. eapply (dir_ok_step s s' (fun _ => False) (fun _ => False)); [done|by apply same_but_data_step|done|naive_solver].
Qed.

(** One block rewritten. *)
Lemma dir_ok_update s s' dir l1 es es' l2 : vol_wf s -> dir_ok s dir (l1 ++ es :: l2) ->
  let p := i_block (disk_inode dir) (Z.of_nat (length l1)) in
  data_step s s' (eq p) -> blk s' p = dir_block es' -> dir_wf (e_block_size s) es' -> dir_ok s' dir (l1 ++ es' :: l2).
Proof.
  intros Hv Hd. cbv zeta. intros Hs Hb Hwf. pose proof (sl_bs _ _ (ds_lay _ _ _ _ Hs)) as Ebs.
  destruct (dir_ptr s dir _ (length l1) es Hv Hd) as (Hk1 & Hne1 & _); [by rewrite list_lookup_middle|].
  split; [eapply file_ok_step; [exact Hs|apply Hd]|rewrite Ebs, (dk_size _ _ _ Hd), !length_app; done|].
  intros k e Hk. rewrite Ebs. destruct (decide (k = length l1)) as [->|Hne].
  - rewrite list_lookup_middle in Hk by done. injection Hk as <-. done.
  - assert (Hk' : (l1 ++ es :: l2) !! k = Some e).
    { destruct (decide (k < length l1)%nat); [by rewrite lookup_app_l in Hk |- *|].
      rewrite lookup_app_r in Hk |- * by lia. destruct (k - length l1)%nat eqn:E; [lia|done]. }
    destruct (dir_ptr s dir _ k e Hv Hd Hk') as (Hk2 & Hne2 & Hd2 & Hu2 & Hb2 & Hwf2). split; [done|]. split; [|done].
    rewrite (ds_blk _ _ _ _ Hs); [done|done|done|]. intros E. apply Hne.
    apply (po_dist _ _ (fo_ptrs _ _ (dk_file _ _ _ Hd))) in E; [lia|lia|lia|done].
Qed.

(** The number of blocks the loops visit. *)
Lemma wp_dir_blocks s dir ess Q : vol_wf s -> dir_ok s dir ess -> Q (Z.of_nat (length ess)) s ->
  wp (udiv (size dir +! e_block_size s -! 1) (e_block_size s)) s Q.
Proof.
  intros Hv Hd HQ. pose proof (w_bs_val _ (vw_fs _ Hv)) as Hbs. pose proof (fo_size _ _ (dk_file _ _ _ Hd)) as Hsz.
  pose proof (dk_size _ _ _ Hd) as Es.
  rewrite (u32_small (size dir + e_block_size s)) by (unfold is_u32; lia). rewrite u32_small by (unfold is_u32; lia).
  apply wp_udiv; [lia|]. rewrite Es. set (bs := e_block_size s) in *. set (n := Z.of_nat (length ess)) in *.
  replace ((bs * n + bs - 1) / bs) with n; [done|]. replace (bs * n + bs - 1) with ((bs - 1) + n * bs) by lia.
  rewrite Z.div_add, Z.div_small by lia. lia.
Qed.

Lemma wp_of_run {A} (c : ST (ext2 D H) A) s a s' (Q : A -> ext2 D H -> Prop) : c s = Ret (a, s') -> Q a s' -> wp c s Q.
Proof. intros E HQ. unfold wp. by rewrite E. Qed.

(** ** Searching *)

(** The inode number in the copy of an entry that the search returns. *)
Lemma entry_ino_bytes e : dirent_ok e -> get_le 4 (take (Z.to_nat (d_need e)) (dirent_bytes e)) 0 = Some (d_ino e).
Proof.
  intros He. pose proof (need_le_rec e He) as Hneed.
  apply (get_le_at 4 (d_ino e) _ [] (take (Z.to_nat (d_need e) - 4) (drop 4 (dirent_bytes e)))); [|done|apply He].
  unfold dirent_bytes. rewrite take_app_ge by (rewrite length_le_bytes; lia). by rewrite length_le_bytes.
Qed.

Lemma wp_find_blocks name dir l2 : forall s l1 bb Q, vol_wf s -> dir_ok s dir (l1 ++ l2) ->
  (forall s', same_but s s' (fun _ => True) -> absent name (dlist l2) \/ refused s s' -> Q None s') ->
  (forall s' e a b, same_but s s' (fun _ => True) -> dirent_ok e -> dlist l2 = a ++ (name, d_ino e, d_type e) :: b ->
     absent name a -> Q (Some (take (Z.to_nat (d_need e)) (dirent_bytes e))) s') ->
  wp (find_blocks (length l2) (Z.of_nat (length l1)) (disk_inode dir) name (e_block_size s) bb) s Q.
Proof.
  induction l2 as [|es l2 IH]; intros s l1 bb Q Hv Hd HN HS; cbn [length find_blocks].
  { apply wp_bind, wp_buf_free. intros h Hle. apply wp_ret, HN; [by apply same_but_heap|left; by intros i t ?%elem_of_nil]. }
  destruct (dir_ptr s dir _ (length l1) es Hv Hd) as (Hk & Hne & Hdb & _ & Hb & Hwf); [by rewrite list_lookup_middle|].
  apply wp_bind, wp_resolve_direct; [lia|]. destruct (Z.eqb_spec (i_block (disk_inode dir) (Z.of_nat (length l1))) 0); [done|].
  apply wp_bind, wp_read_block; [apply Hdb|]. intros s1 Hs1 _. rewrite Hb. pose proof (w_bs_val _ (vw_fs _ Hv)) as Hbs.
  destruct (find_in_block_spec name (e_block_size s) es s1 Hwf ltac:(lia)) as (r & Hr & Hc).
  apply wp_bind. eapply wp_of_run; [exact Hr|]. destruct r as [off|].
  - destruct Hc as (es1 & e & es2 & -> & Hm & Hab & ->). destruct Hwf as [Hok Hlen].
    apply Forall_app in Hok as [_ Hok]. apply Forall_cons_1 in Hok as [He _]. pose proof (need_le_rec e He) as Hneed.
    rewrite dir_block_app, dir_block_cons.
    apply wp_bind. eapply wp_of_run; [by apply read_name_len|]. fold (d_need e).
    apply wp_bind, wp_buf_alloc; [lia|..].
    + intros h _ Href. apply wp_bind, wp_buf_free. intros h2 Hle2.
      apply wp_ret, HN; [apply same_but_heap_r; [by apply same_but_heap_r, refused_heap|done]|].
      right. apply (refused_sooner _ (set_heap h s1)); [exact Hle2|]. eapply refused_later; [apply Hs1|exact Href].
    + intros h junk _ Hgr. apply wp_bind. unfold copy_out, st_lift. pose proof (length_dirent e) as Hle.
      rewrite (slice_at _ (dir_block es1) (take (Z.to_nat (d_need e)) (dirent_bytes e))
        (drop (Z.to_nat (d_need e)) (dirent_bytes e) ++ dir_block es2)).
      * eapply wp_of_run; [done|]. apply wp_bind, wp_buf_free. intros h2 Hle2. apply wp_ret.
        apply (HS _ e (live es1) (live es2 ++ dlist l2)); [apply same_but_heap_r; [by apply same_but_heap_r|done]|done| |done].
        by rewrite dlist_cons, live_app, live_cons, (matches_in_use name e Hm), <- app_assoc.
      * rewrite (app_assoc (take _ _)), take_drop. done.
      * done.
      * rewrite length_take. lia.
  - pose proof (dir_ok_same _ _ _ _ Hv Hs1 Hd) as Hd1. rewrite cons_middle, app_assoc in Hd1.
    assert (Hv1 : vol_wf s1) by (by eapply (same_but_data_step s s1 (fun _ => False))).
    replace (Z.of_nat (length l1) + 1) with (Z.of_nat (length (l1 ++ [es]))) by (rewrite length_app; cbn; lia).
    rewrite <- (sm_bs _ _ _ Hs1). apply IH; [done|done|..].
    + intros s' Hs' Hwhy. apply HN; [eapply same_but_weaken; [by eapply same_but_trans|done]|].
      destruct Hwhy as [Hab|Href]; [left; rewrite dlist_cons; by apply absent_app|right]. eapply refused_later; [apply Hs1|done].
    + intros s' e a b Hs' He E Ha. apply (HS s' e (live es ++ a) b); [eapply same_but_weaken; [by eapply same_but_trans|done]|done| |by apply absent_app].
      by rewrite dlist_cons, E, <- app_assoc.
Qed.

Lemma wp_find_dir_entry s dir ess name Q : vol_wf s -> dir_ok s dir ess -> FS_IS_DIR (mode dir) = true ->
  (forall s', same_but s s' (fun _ => True) -> absent name (dlist ess) \/ refused s s' -> Q None s') ->
  (forall s' e a b, same_but s s' (fun _ => True) -> dirent_ok e -> dlist ess = a ++ (name, d_ino e, d_type e) :: b ->
     absent name a -> Q (Some (take (Z.to_nat (d_need e)) (dirent_bytes e))) s') ->
  wp (ext2_find_dir_entry dir name) s Q.
Proof.
  intros Hv Hd Hm HN HS. unfold ext2_find_dir_entry. rewrite Hm. cbn [negb]. pose proof (w_bs_val _ (vw_fs _ Hv)) as Hbs.
  apply wp_bind, wp_get. cbv zeta. apply wp_bind, (wp_dir_blocks s dir ess); [done|done|].
  apply wp_bind, wp_buf_alloc; [lia|..].
  - intros h _ Hr. apply wp_ret, HN; [by apply same_but_heap, refused_heap|by right].
  - intros h junk _ Hle. rewrite Nat2Z.id. assert (Hs : same_but s (set_heap h s) (fun _ => True)) by (by apply same_but_heap).
    change (e_block_size s) with (e_block_size (set_heap h s)). apply (wp_find_blocks name dir ess _ []).
    + by eapply (same_but_data_step s _ (fun _ => False)).
    + by eapply dir_ok_same.
    + intros s' Hs' Hwhy. apply HN; [by eapply same_but_heap_l|]. destruct Hwhy as [|Hr]; [by left|right]. exact (refused_later _ (set_heap h s) _ Hle Hr).
    + intros s' e a b Hs'. apply HS. by eapply same_but_heap_l.
Qed.

(** ** Rewriting one block *)
Lemma wp_store_dir_block {A} s dir l1 es es' l2 (r : A) Q : vol_wf s -> dir_ok s dir (l1 ++ es :: l2) ->
  dir_wf (e_block_size s) es' ->
  (forall s', data_step s s' (owned (disk_inode dir)) -> dir_ok s' dir (l1 ++ es' :: l2) -> Q r s') ->
  wp (ext2_write_block (i_block (disk_inode dir) (Z.of_nat (length l1))) (dir_block es');; kfree;; mret r) s Q.
Proof.
  intros Hv Hd Hwf HQ.
  destruct (dir_ptr s dir _ (length l1) es Hv Hd) as (Hk & Hne & Hdb & Hu & _); [by rewrite list_lookup_middle|].
  apply wp_bind, wp_write_data; [done|done| |].
  { destruct Hwf as [Hok Hl]. split; [done|by apply dir_block_u8]. }
  intros s1 Hs1 _ Hb _ _. apply wp_bind, wp_buf_free. intros h Hle. apply wp_ret. pose proof (ds_wf _ _ _ _ Hs1) as Hv1.
  assert (Hh : same_but s1 (set_heap h s1) (fun _ => True)) by (by apply same_but_heap). apply HQ.
  - eapply vol_step_trans; [eapply data_step_weaken; [exact Hs1|]|by apply same_but_data_step].
    intros c <-. exists (Z.of_nat (length l1)). split; [lia|done].
  - eapply dir_ok_same; [done|exact Hh|]. by apply (dir_ok_update s s1 dir l1 es).
Qed.

(** ** Removing an entry *)
Lemma wp_remove_blocks name dir l2 : forall s l1 bb Q, vol_wf s -> dir_ok s dir (l1 ++ l2) ->
  (forall s', same_but s s' (fun _ => True) -> absent name (dlist l2) -> Q (-1) s') ->
  (forall s' l2', data_step s s' (owned (disk_inode dir)) -> dir_ok s' dir (l1 ++ l2') ->
     (exists x i t y, dlist l2 = x ++ (name, i, t) :: y /\ dlist l2' = x ++ y) -> Q 0 s') ->
  wp (remove_blocks (length l2) (Z.of_nat (length l1)) (disk_inode dir) name (e_block_size s) bb) s Q.
Proof.
  induction l2 as [|es l2 IH]; intros s l1 bb Q Hv Hd HN HS; cbn [length remove_blocks].
  { apply wp_bind, wp_buf_free. intros h Hle. apply wp_ret, HN; [by apply same_but_heap|by intros i t ?%elem_of_nil]. }
  destruct (dir_ptr s dir _ (length l1) es Hv Hd) as (Hk & Hne & Hdb & _ & Hb & Hwf); [by rewrite list_lookup_middle|].
  apply wp_bind, wp_resolve_direct; [lia|]. destruct (Z.eqb_spec (i_block (disk_inode dir) (Z.of_nat (length l1))) 0); [done|].
  apply wp_bind, wp_read_block; [apply Hdb|]. intros s1 Hs1 _. rewrite Hb. pose proof (w_bs_val _ (vw_fs _ Hv)) as Hbs.
  pose proof (dir_ok_same _ _ _ _ Hv Hs1 Hd) as Hd1.
  assert (Hst1 : data_step s s1 (owned (disk_inode dir))) by (by apply same_but_data_step). pose proof (ds_wf _ _ _ _ Hst1) as Hv1.
  apply wp_bind. eapply wp_of_run; [apply remove_in_block_run; [done|by apply dir_wf_length|lia]|].
  destruct (remove_entry name es) as [es'|] eqn:E; cbn [fmap option_fmap option_map].
  - destruct (remove_entry_spec name _ es es' Hwf ltac:(lia) E) as (Hwf' & x & i & t & y & E1 & E2).
    eapply wp_store_dir_block; [done|exact Hd1|by rewrite (sm_bs _ _ _ Hs1)|]. intros s2 Hs2 Hd2. apply (HS s2 (es' :: l2)); [|done|].
    + by eapply vol_step_trans.
    + exists x, i, t, (y ++ dlist l2). rewrite !dlist_cons, E1, E2. by rewrite <- !app_assoc.
  - apply remove_entry_None, absent_live in E. rewrite cons_middle, app_assoc in Hd1.
    replace (Z.of_nat (length l1) + 1) with (Z.of_nat (length (l1 ++ [es]))) by (rewrite length_app; cbn; lia).
    rewrite <- (sm_bs _ _ _ Hs1). apply IH; [done|done|..].
    + intros s' Hs' Hab. apply HN; [eapply same_but_weaken; [by eapply same_but_trans|done]|].
      rewrite dlist_cons. by apply absent_app.
    + intros s' l2' Hs' Hd' (x & i & t & y & E1 & E2). apply (HS s' (es :: l2')).
      * by eapply vol_step_trans.
      * by rewrite cons_middle, app_assoc.
      * exists (live es ++ x), i, t, y. rewrite !dlist_cons, E1, E2. by rewrite <- !app_assoc.
Qed.

Lemma wp_remove_dir_entry s dir ess name Q : vol_wf s -> dir_ok s dir ess ->
  (forall s', same_but s s' (fun _ => True) -> absent name (dlist ess) \/ refused s s' -> Q (-1) s') ->
  (forall s' ess', data_step s s' (owned (disk_inode dir)) -> dir_ok s' dir ess' ->
     (exists x i t y, dlist ess = x ++ (name, i, t) :: y /\ dlist ess' = x ++ y) -> Q 0 s') ->
  wp (ext2_remove_dir_entry dir name) s Q.
Proof.
  intros Hv Hd HN HS. unfold ext2_remove_dir_entry. pose proof (w_bs_val _ (vw_fs _ Hv)) as Hbs.
  apply wp_bind, wp_get. cbv zeta. apply wp_bind, (wp_dir_blocks s dir ess); [done|done|].
  apply wp_bind, wp_buf_alloc; [lia|intros h _ Hr; apply wp_ret, HN; [by apply same_but_heap, refused_heap|by right]|].
  intros h junk _ Hle. rewrite Nat2Z.id. assert (Hs : same_but s (set_heap h s) (fun _ => True)) by (by apply same_but_heap).
  assert (Hst : data_step s (set_heap h s) (owned (disk_inode dir))) by (by apply same_but_data_step).
  change (e_block_size s) with (e_block_size (set_heap h s)). apply (wp_remove_blocks name dir ess _ []).
  - apply Hst.
  - by eapply dir_ok_same.
  - intros s' Hs' Hab. apply HN; [by eapply same_but_heap_l|by left].
  - intros s' l2' Hs'. apply HS. by eapply vol_step_trans.
Qed.

(** ** Adding an entry *)
Section add.
Context (inum type : Z) (name : list Z).
Hypothesis Hlen : (length name <= 255)%nat.
Hypothesis Hinum : is_u32 inum.
Hypothesis Hinum0 : inum <> 0.
Hypothesis Htype : is_u8 type.
Hypothesis Hname : Forall is_u8 name.

(** No entry of the directory has room for the new one. *)
Definition no_room (ess : list (list dirent)) : Prop := Forall (Forall (fun e => has_room name e = false)) ess.

Definition added (l l' : listing) : Prop := exists x y, l = x ++ y /\ l' = x ++ (name, inum, type) :: y.

Lemma wp_add_blocks dir l2 : forall s l1 bb Q, vol_wf s -> dir_ok s dir (l1 ++ l2) ->
  (forall s', same_but s s' (fun _ => True) -> no_room l2 -> Q false s') ->
  (forall s' l2', data_step s s' (owned (disk_inode dir)) -> dir_ok s' dir (l1 ++ l2') -> added (dlist l2) (dlist l2') -> Q true s') ->
  wp (add_blocks (length l2) (Z.of_nat (length l1)) (disk_inode dir) name (e_block_size s) inum
        (ext2_dir_rec_len (Z.of_nat (length name))) (Z.of_nat (length name)) type bb) s Q.
Proof.
  induction l2 as [|es l2 IH]; intros s l1 bb Q Hv Hd HN HS; cbn [length add_blocks].
  { apply wp_ret, HN; [apply same_but_refl|constructor]. }
  destruct (dir_ptr s dir _ (length l1) es Hv Hd) as (Hk & Hne & Hdb & _ & Hb & Hwf); [by rewrite list_lookup_middle|].
  apply wp_bind, wp_resolve_direct; [lia|]. destruct (Z.eqb_spec (i_block (disk_inode dir) (Z.of_nat (length l1))) 0); [done|].
  apply wp_bind, wp_read_block; [apply Hdb|]. intros s1 Hs1 _. rewrite Hb. pose proof (w_bs_val _ (vw_fs _ Hv)) as Hbs.
  pose proof (dir_ok_same _ _ _ _ Hv Hs1 Hd) as Hd1. pose proof Hwf as [Hok Hbl].
  assert (Hst1 : data_step s s1 (owned (disk_inode dir))) by (by apply same_but_data_step). pose proof (ds_wf _ _ _ _ Hst1) as Hv1.
  apply wp_bind. eapply wp_of_run; [apply (add_in_block_run inum type name Hlen (e_block_size s) es _ []); [done|by apply dir_wf_length|done|lia]|].
  destruct (add_entry inum type name es) as [es'|] eqn:E; cbn [fmap option_fmap option_map].
  - destruct (add_entry_spec inum type name Hlen Hinum Hinum0 Htype Hname _ es es' Hwf E) as (Hwf' & x & y & E1 & E2).
    eapply wp_store_dir_block; [done|exact Hd1|by rewrite (sm_bs _ _ _ Hs1)|]. intros s2 Hs2 Hd2. apply (HS s2 (es' :: l2)); [|done|].
    + by eapply vol_step_trans.
    + exists x, (y ++ dlist l2). rewrite !dlist_cons, E1, E2. by rewrite <- !app_assoc.
  - rewrite cons_middle, app_assoc in Hd1.
    replace (Z.of_nat (length l1) + 1) with (Z.of_nat (length (l1 ++ [es]))) by (rewrite length_app; cbn; lia).
    rewrite <- (sm_bs _ _ _ Hs1). apply IH; [done|done|..].
    + intros s' Hs' Hno. apply HN; [by eapply same_but_true|]. constructor; [by apply (add_entry_None inum type)|done].
    + intros s' l2' Hs' Hd' (x & y & E1 & E2). apply (HS s' (es :: l2')).
      * by eapply vol_step_trans.
      * by rewrite cons_middle, app_assoc.
      * exists (live es ++ x), y. rewrite !dlist_cons, E1, E2. by rewrite <- !app_assoc.
Qed.

(** *** A new block *)
Definition new_entry (bs : Z) : dirent :=
  {| d_ino := inum; d_type := type; d_name := name; d_pad := zeroes (bs - 8 - Z.of_nat (length name)) |}.

Lemma new_entry_rec bs : 1024 <= bs -> d_rec (new_entry bs) = bs.
Proof. intros Hbs. unfold d_rec, new_entry. cbn [d_name d_pad]. rewrite length_zeroes by lia. lia. Qed.

Lemma new_entry_wf bs : bs = 1024 \/ bs = 2048 \/ bs = 4096 -> dir_wf bs [new_entry bs].
Proof.
  intros Hbs. pose proof (new_entry_rec bs ltac:(lia)) as Hr. split.
  - constructor; [|done]. split; rewrite ?Hr; try done; [apply zeroes_ok; lia|destruct_or! Hbs; by subst bs|lia].
  - rewrite dir_block_cons, length_app. pose proof (length_dirent (new_entry bs)). cbn [length dir_block concat fmap list_fmap]. lia.
Qed.

Lemma new_entry_live bs : live [new_entry bs] = [(name, inum, type)].
Proof. unfold live. cbn. unfold in_use. cbn. by destruct (Z.eqb_spec inum 0). Qed.

Lemma new_block_run bs s : bs = 1024 \/ bs = 2048 \/ bs = 4096 ->
  (buf ← fill_entry (zeroes bs) 0 inum (Z.of_nat (length name)) type name; wr 2 buf 4 (u16 bs)) s =
    Ret (dir_block [new_entry bs], s).
Proof.
  intros Hbs. set (k := bs - 8 - Z.of_nat (length name)).
  assert (Ez : zeroes bs = [] ++ (zeroes 4 ++ zeroes 2 ++ zeroes 1 ++ zeroes 1 ++ zeroes (Z.of_nat (length name)) ++ zeroes k) ++ []).
  { rewrite app_nil_r, <- !zeroes_app by (unfold k; lia). cbn [app]. f_equal. unfold k. lia. }
  pose proof (fill_entry_run inum type name [] (zeroes 4) (zeroes 2) (zeroes 1) (zeroes 1) (zeroes (Z.of_nat (length name))) (zeroes k) []
    (Z.of_nat (length name)) s eq_refl eq_refl eq_refl eq_refl) as Hfill.
  rewrite <- Ez in Hfill. specialize (Hfill ltac:(unfold zeroes; rewrite length_replicate; lia)).
  change (Z.of_nat (length (@nil Z))) with 0 in Hfill.
  unfold mbind, ST_bind. rewrite Hfill. unfold wr, st_lift.
  rewrite (put_le_at 2 (u16 bs) _ (le_bytes 4 inum) (zeroes 2)
    (le_bytes 1 (Z.of_nat (length name)) ++ le_bytes 1 type ++ name ++ zeroes k)).
  - cbn [of_option]. rewrite dir_block_cons. unfold dirent_bytes. rewrite new_entry_rec by lia. cbn [new_entry d_ino d_name d_type d_pad].
    fold k. cbn [dir_block concat fmap list_fmap]. rewrite app_nil_r. do 3 f_equal.
    assert (u16 bs = bs) as -> by (unfold u16; destruct_or! Hbs; by subst bs). done.
  - cbn [app]. by rewrite app_nil_r.
  - by rewrite length_le_bytes.
  - done.
Qed.
End add.

(** *** The directory with one more block *)
Lemma dir_ok_extend s s2 s3 dir dir' ess es r : vol_wf s -> dir_ok s dir ess -> (length ess < 12)%nat ->
  data_step s s2 (fun _ => False) -> data_blk s r -> used s r = false -> used s2 r = true ->
  data_step s2 s3 (eq r) -> blk s3 r = dir_block es -> dir_wf (e_block_size s) es ->
  buf_ok 128 (disk_inode dir') -> ino dir' = ino dir -> size dir' = size dir + e_block_size s ->
  (forall j, 0 <= j < 12 -> i_block (disk_inode dir') j = if j =? Z.of_nat (length ess) then r else i_block (disk_inode dir) j) ->
  data_step s s3 (fun _ => False) /\ dir_ok s3 dir' (ess ++ [es]) /\
  (forall c, owned (disk_inode dir') c -> owned (disk_inode dir) c \/ used s c = false).
Proof.
  intros Hv Hd Hlt Hs2 Hr Hfree Hused Hs3 Hb Hwf Hbuf Hino Hsize Hptr. pose proof (w_bs_val _ (vw_fs _ Hv)) as Hbs.
  pose proof (ds_lay _ _ _ _ Hs2) as Hl2. pose proof (ds_lay _ _ _ _ Hs3) as Hl3. pose proof (db_pos _ _ Hr) as Hpos.
  assert (Hst : data_step s s3 (fun _ => False)).
  { split; [apply Hs3|by etrans|..|etrans; [apply Hs2|apply Hs3]].
    - intros c Hc Hu. apply (ds_used _ _ _ _ Hs3); [by eapply data_blk_layout|by apply (ds_used _ _ _ _ Hs2)].
    - intros c Hc Hu _. trans (blk s2 c).
      + apply (ds_blk _ _ _ _ Hs3); [by eapply data_blk_layout|by apply (ds_used _ _ _ _ Hs2)|]. intros ->. congruence.
      + by apply (ds_blk _ _ _ _ Hs2); [..|tauto].
    - intros n Hn HT. trans (table_entry s2 n).
      + apply (ds_tab _ _ _ _ Hs3); [by apply (valid_ino_layout _ _ Hl2)|done].
      + by apply (ds_tab _ _ _ _ Hs2).
    - intros n Hn HT. trans (ino_used s2 n).
      + apply (ds_ino _ _ _ _ Hs3); [by apply (valid_ino_layout _ _ Hl2)|done].
      + by apply (ds_ino _ _ _ _ Hs2). }
  pose proof (fo_ptrs _ _ (dk_file _ _ _ Hd)) as Hp. pose proof (ptrs_ok_step _ _ _ _ _ Hst Hp) as Hp3.
  destruct (sb_ranges s (vw_fs _ Hv)) as (_ & Hcnt & _). pose proof (db_range _ _ Hr) as Hrange.
  split; [done|]. split.
  - split; [split|..].
    + apply (ptrs_ok_ext s3 (set_i_blocks 0 (set_i_block (Z.of_nat (length ess)) r (disk_inode dir)))); [done| |].
      * intros j Hj. rewrite Hptr, i_block_set_blocks by lia. rewrite i_block_set_block; [done|apply Hp|lia|done|unfold is_u32 in *; lia].
      * apply ptrs_ok_assign; [done|lia|by eapply data_blk_layout; [|exact Hr]; etrans| |unfold is_u32 in *; lia|].
        -- apply (ds_used _ _ _ _ Hs3); [by eapply data_blk_layout|done].
        -- intros j Hj. by apply (fresh_ptr s).
    + rewrite (sl_bs _ _ (ds_lay _ _ _ _ Hst)), Hsize, (dk_size _ _ _ Hd). nia.
    + rewrite Hino. apply (valid_ino_layout _ _ (ds_lay _ _ _ _ Hst)), (dk_file _ _ _ Hd).
    + rewrite (sl_bs _ _ (ds_lay _ _ _ _ Hst)), Hsize, (dk_size _ _ _ Hd), length_app. cbn [length]. lia.
    + intros k e Hk. rewrite (sl_bs _ _ (ds_lay _ _ _ _ Hst)).
      pose proof (lookup_lt_Some _ _ _ Hk) as Hkl. rewrite length_app in Hkl. cbn [length] in Hkl. rewrite Hptr by lia.
      destruct (Z.eqb_spec (Z.of_nat k) (Z.of_nat (length ess))) as [E|E].
      * assert (k = length ess) as -> by lia. rewrite list_lookup_middle in Hk by done. injection Hk as <-. split; [lia|done].
      * rewrite lookup_app_l in Hk by lia. destruct (dir_ptr s dir ess k e Hv Hd Hk) as (Hk2 & Hne2 & Hd2 & Hu2 & Hb2 & Hwf2).
        split; [done|]. split; [|done]. rewrite (ds_blk _ _ _ _ Hst) by tauto. done.
  - intros c (k & Hk & Hc & Hne). rewrite Hptr in Hc by done. destruct (Z.eqb_spec k (Z.of_nat (length ess))).
    + right. by subst c.
    + left. by exists k.
Qed.

(** *** The whole insertion *)

(** The entry was added: the directory's inode is [dir'] now, and its record in the
    table is up to date unless the heap refused a request on the way. *)
Record dir_added (inum type : Z) (name : list Z) s (dir : inode) ess s' (dir' : inode) ess' : Prop := {
  da_step : vol_step s s' (owned (disk_inode dir)) (eq (ino dir));
  da_ok : dir_ok s' dir' ess';
  da_list : added inum type name (dlist ess) (dlist ess');
  da_ino : ino dir' = ino dir /\ mode dir' = mode dir /\ nlink dir' = nlink dir;
  da_new : forall c, owned (disk_inode dir') c -> owned (disk_inode dir) c \/ used s c = false;
  da_tab : table_entry s' (ino dir) = Some (disk_inode dir') \/ table_entry s' (ino dir) = table_entry s (ino dir) /\
    (dir' = dir \/ refused s s')
}.

(** Only the pointers, the size and the number of the inode matter. *)
Lemma dir_ok_sync s dir ess : dir_ok s dir ess -> dir_ok s (with_disk dir (sync_fields dir)) ess.
Proof.
  intros [[Hp Hsz Hino] Hs Hb]. split; [split; [by apply ptrs_ok_sync|done|done]|done|]. cbn [disk_inode with_disk].
  intros k es Hk. rewrite i_block_sync by lia. auto.
Qed.
Lemma owned_sync dir c : owned (sync_fields dir) c -> owned (disk_inode dir) c.
Proof. intros (k & Hk & Hc & Hne). rewrite i_block_sync in Hc by lia. by exists k. Qed.

Section insertion.
Context (inum type : Z) (name : list Z).
Hypothesis Hlen : (length name <= 255)%nat.
Hypothesis Hinum : is_u32 inum.
Hypothesis Hinum0 : inum <> 0.
Hypothesis Htype : is_u8 type.
Hypothesis Hname : Forall is_u8 name.

(** The end of the insertion of a block: the directory's inode is stored. *)
Lemma wp_store_dir s s3 dir dir1 ess es Q : vol_wf s -> dir_ok s dir ess ->
  ino dir1 = ino dir -> mode dir1 = mode dir -> nlink dir1 = nlink dir ->
  data_step s s3 (fun _ => False) -> dir_ok s3 dir1 (ess ++ [es]) -> live es = [(name, inum, type)] ->
  (forall c, owned (disk_inode dir1) c -> owned (disk_inode dir) c \/ used s c = false) ->
  (forall s' dir' ess', dir_added inum type name s dir ess s' dir' ess' -> Q (0, dir') s') ->
  wp ('(_, dir) ← ext2_write_inode dir1; mret (0, dir)) s3 Q.
Proof.
  intros Hv Hd Eino Emode Enlink Hst Hok Hlive Hnew HS. pose proof (ds_wf _ _ _ _ Hst) as Hv3. pose proof (dk_file _ _ _ Hok) as Hf.
  assert (Hfin : forall s4 W, vol_step s3 s4 (fun _ => False) W -> (forall n, W n -> ino dir = n) ->
    (table_entry s4 (ino dir) = Some (sync_fields dir1) \/ table_entry s4 (ino dir) = table_entry s3 (ino dir) /\ refused s3 s4) ->
    Q (0, with_disk dir1 (sync_fields dir1)) s4).
  { intros s4 W Hs4 HW Htab. eapply HS. split; cbn [ino mode nlink disk_inode with_disk].
    - eapply vol_step_trans; [eapply vol_step_weaken; [exact Hst|tauto|tauto]|eapply vol_step_weaken; [exact Hs4|tauto|exact HW]].
    - eapply dir_ok_step; [done|exact Hs4|by apply dir_ok_sync|tauto].
    - exists (dlist ess), []. rewrite dlist_app, app_nil_r. split; [done|]. f_equal. rewrite dlist_cons, Hlive. done.
    - done.
    - intros c Hc%owned_sync. by apply Hnew.
    - destruct Htab as [|[Ht Hnb]]; [by left|]. right. split.
      + rewrite Ht. apply (ds_tab _ _ _ _ Hst); [apply (dk_file _ _ _ Hd)|tauto].
      + right. eapply refused_later; [apply Hst|done]. }
  assert (Hvi : valid_ino s3 (ino dir)) by (rewrite <- Eino; apply Hf).
  apply wp_bind, wp_write_inode_file; [done|apply Hf|apply Hf|..].
  - intros s4 Hs4%(same_but_data_step _ _ (fun _ => False) ltac:(done)) _ Hr. apply wp_ret. apply (Hfin s4 (fun _ => False)); [done|tauto|]. right. split; [|done].
    apply (ds_tab _ _ _ _ Hs4); [done|tauto].
  - intros s4 [Hs4 _ _ Hent _]. apply wp_ret. apply (Hfin s4 (eq (ino dir1))); [done|by intros n <-|left; by rewrite <- Eino].
Qed.

Lemma wp_add_new_block s dir ess Q : vol_wf s -> dir_ok s dir ess -> (length ess < 12)%nat ->
  (forall s', data_step s s' (fun _ => False) -> no_space s \/ refused s s' -> Q (-1, dir) s') ->
  (forall s' dir' ess', dir_added inum type name s dir ess s' dir' ess' -> Q (0, dir') s') ->
  wp (let bs := e_block_size s in
      new_blk ← ext2_alloc_block;
      if new_blk =? 0 then kfree;; mret (-1, dir)
      else
        '(ret, di) ← ext2_assign_block_num (disk_inode dir) (Z.of_nat (length ess)) new_blk bs;
        if negb (ret =? 0) then ext2_free_block new_blk;; kfree;; mret (-1, with_disk dir di)
        else
          buf ← fill_entry (zeroes bs) 0 inum (Z.of_nat (length name)) type name;
          buf ← wr 2 buf 4 (u16 bs);
          ext2_write_block new_blk buf;;
          kfree;;
          let dir := with_size dir (size dir +! bs) in
          let di := set_i_size (size dir) di in
          let di := set_i_blocks (i_blocks di + bs / 512) di in
          let dir := with_blocks (with_disk dir di) (i_blocks di) in
          '(_, dir) ← ext2_write_inode dir;
          mret (0, dir)) s Q.
Proof.
  intros Hv Hd Hlt HF HS. cbv zeta. pose proof (w_bs_val _ (vw_fs _ Hv)) as Hbs.
  apply wp_bind, wp_alloc_data; [done|..].
  { intros s2 Hs2 _ Hwhy. apply wp_bind, wp_buf_free. intros h2 Hle2. apply wp_ret, HF.
    - eapply vol_step_trans; [exact Hs2|]. apply same_but_data_step; [apply Hs2|by apply same_but_heap].
    - destruct Hwhy as [|Hr]; [by left|right]. exact (refused_sooner _ _ (set_heap h2 s2) Hle2 Hr). }
  intros s2 g x Hs2 _ _ _ _ r Hr Hfree Hused. clearbody r. pose proof (db_pos _ _ Hr) as Hpos. destruct (Z.eqb_spec r 0); [lia|].
  destruct (sb_ranges s (vw_fs _ Hv)) as (_ & Hcnt & _). pose proof (db_range _ _ Hr) as Hrange.
  assert (Hr32 : is_u32 r) by (unfold is_u32 in *; lia).
  unfold ext2_assign_block_num. destruct (Z.ltb_spec (Z.of_nat (length ess)) 12); [|lia].
  apply wp_bind, wp_ret. cbn [Z.eqb negb].
  pose proof (new_block_run inum type name Hlen (e_block_size s) s2 Hbs) as Hnb.
  unfold mbind, ST_bind in Hnb. destruct (fill_entry _ _ _ _ _ _ s2) as [[buf sx]| |] eqn:Efill; try done.
  apply wp_bind. eapply wp_of_run; [exact Efill|]. apply wp_bind. eapply wp_of_run; [exact Hnb|].
  pose proof (new_entry_wf inum type name Hlen Hinum Htype Hname (e_block_size s) Hbs) as Hwf.
  pose proof (ds_lay _ _ _ _ Hs2) as Hl2. pose proof (ds_wf _ _ _ _ Hs2) as Hv2.
  apply wp_bind, wp_write_data; [done|by eapply data_blk_layout| |].
  { rewrite (sl_bs _ _ Hl2). destruct Hwf. split; [done|by apply dir_block_u8]. }
  intros s3 Hs3 _ Hb3 _ _. apply wp_bind, wp_buf_free. intros h3 Hle3.
  pose proof (fo_size _ _ (dk_file _ _ _ Hd)) as Hsz. pose proof (dk_size _ _ _ Hd) as Esz.
  rewrite (u32_small (size dir + e_block_size s)) by (unfold is_u32; lia).
  set (dir1 := with_blocks _ _).
  pose proof (po_disk _ _ (fo_ptrs _ _ (dk_file _ _ _ Hd))) as Hbd.
  assert (Hbd1 : buf_ok 128 (disk_inode dir1)) by (by repeat apply buf_ok_set_fld).
  assert (Hptr : forall j, 0 <= j < 12 ->
    i_block (disk_inode dir1) j = if j =? Z.of_nat (length ess) then r else i_block (disk_inode dir) j).
  { intros j Hj. unfold dir1. cbn [disk_inode with_blocks with_disk].
    rewrite i_block_set_blocks, i_block_set_size by lia. apply i_block_set_block; [done|lia|done|done]. }
  destruct (dir_ok_extend s s2 s3 dir dir1 ess [new_entry inum type name (e_block_size s)] r Hv Hd Hlt Hs2 Hr Hfree Hused Hs3 Hb3)
    as (Hst & Hok & Hnew); [done|done|done|done|done|].
  pose proof (ds_wf _ _ _ _ Hst) as Hv3. assert (Hh : same_but s3 (set_heap h3 s3) (fun _ => True)) by (by apply same_but_heap).
  eapply (wp_store_dir s _ dir dir1 ess); [done|done|done|done|done| | |by apply new_entry_live|done|done].
  - eapply vol_step_trans; [exact Hst|by apply same_but_data_step].
  - by eapply dir_ok_same.
Qed.

(** The state before may differ by what reading changes. *)
Lemma dir_added_same s s1 dir ess s' dir' ess' : vol_wf s -> valid_ino s (ino dir) -> same_but s s1 (fun _ => True) ->
  dir_added inum type name s1 dir ess s' dir' ess' -> dir_added inum type name s dir ess s' dir' ess'.
Proof.
  intros Hv Hn Hs [A1 A2 A3 A4 A5 A6]. assert (Hst : forall W, data_step s s1 W) by (intros W; by apply same_but_data_step).
  split; try done.
  - eapply vol_step_trans; [eapply vol_step_weaken; [apply (Hst (fun _ => False))|tauto|tauto]|done].
  - intros c Hc. destruct (A5 c Hc) as [|Hu]; [by left|right]. destruct (used s c) eqn:E; [|done].
    destruct Hc as (k & Hk & Hc & Hne). rewrite <- Hc in Hne. destruct (po_ptr _ _ (fo_ptrs _ _ (dk_file _ _ _ A2)) k Hk Hne) as [Hd _].
    rewrite Hc in Hd. rewrite (ds_used _ _ _ _ (Hst (fun _ => False))) in Hu; [done| |done].
    eapply data_blk_layout; [|exact Hd]. symmetry. etrans; [apply (ds_lay _ _ _ _ (Hst (fun _ => False)))|apply A1].
  - pose proof (ds_tab _ _ _ _ (Hst (fun _ => False)) (ino dir) Hn ltac:(tauto)) as E. rewrite E in A6.
    destruct A6 as [|(E1 & Hc)]; [by left|]. right. split; [done|]. destruct Hc as [|Hr]; [by left|right].
    eapply refused_later; [apply Hs|done].
Qed.

Lemma wp_add_dir_entry s dir ess Q : vol_wf s -> dir_ok s dir ess -> (length ess < 12)%nat ->
  (forall s', data_step s s' (fun _ => False) ->
     no_room name ess /\ no_space s \/ refused s s' -> Q (-1, dir) s') ->
  (forall s' dir' ess', dir_added inum type name s dir ess s' dir' ess' -> Q (0, dir') s') ->
  wp (ext2_add_dir_entry dir name inum type) s Q.
Proof.
  intros Hv Hd Hlt HF HS. pose proof (w_bs_val _ (vw_fs _ Hv)) as Hbs. unfold ext2_add_dir_entry.
  destruct (Z.eqb_spec inum 0); [done|]. apply wp_bind, wp_get. cbv zeta.
  destruct (Z.ltb_spec 255 (Z.of_nat (length name))); [lia|].
  assert (u8 (Z.of_nat (length name)) = Z.of_nat (length name)) as -> by (unfold u8; rewrite Z.mod_small; lia).
  apply wp_bind, (wp_dir_blocks s dir ess); [done|done|].
  assert (Hsame : forall s1 W, same_but s s1 (fun _ => True) -> data_step s s1 W) by (intros; by apply same_but_data_step).
  apply wp_bind, wp_buf_alloc; [lia|intros h _ Hr; apply wp_ret, HF; [by apply Hsame, same_but_heap, refused_heap|by right]|].
  intros h junk _ Hle. rewrite Nat2Z.id. set (s0 := set_heap h s).
  assert (Hs0 : same_but s s0 (fun _ => True)) by (by apply same_but_heap).
  change (e_block_size s) with (e_block_size s0).
  apply wp_bind, (wp_add_blocks inum type name Hlen Hinum Hinum0 Htype Hname dir ess s0 []).
  - by apply (Hsame s0 (fun _ => False)).
  - by eapply dir_ok_same.
  - intros s1 Hs1 Hno. assert (Hs01 : same_but s s1 (fun _ => True)) by (eapply same_but_weaken; [by eapply same_but_trans|done]).
    pose proof (Hsame s1 (fun _ => False) Hs01) as Hst1. rewrite <- (sm_bs _ _ _ Hs1).
    apply (wp_add_new_block s1 dir ess); [apply Hst1|by eapply dir_ok_same|done|..].
    + intros s' Hs' Hwhy. apply HF; [by eapply vol_step_trans|]. destruct Hwhy as [Hns|Hr]; [left|right].
      * split; [done|]. by rewrite (same_space_read s s1 Hv Hs01).
      * eapply refused_later; [apply Hs01|done].
    + intros s' dir' ess' Hadd. apply (HS s' dir' ess'). eapply dir_added_same; [done|apply (dk_file _ _ _ Hd)|exact Hs01|done].
  - intros s1 ess' Hs1 Hd1 Hadd. apply wp_ret. apply (HS s1 dir ess').
    assert (Hst : data_step s s1 (owned (disk_inode dir))) by (eapply vol_step_trans; [by apply Hsame|exact Hs1]).
    split; try done.
    + eapply vol_step_weaken; [exact Hst|done|tauto].
    + intros c Hc. by left.
    + right. split; [|by left]. apply (ds_tab _ _ _ _ Hst); [apply (dk_file _ _ _ Hd)|tauto].
Qed.
End insertion.

(** (C8) A directory on disk is a list of names.  On a directory of fewer than
    twelve blocks, each well formed: the search returns the first entry with the
    name, with its inode, or none when the list has no such name; removal takes
    exactly one entry with the name out of the list and fails only when there is
    none; insertion adds exactly the new entry, in a block with room or in a new
    block, and fails only when no entry of the directory has room for it and the
    volume has no free block.  Each may also fail because the heap refused a request
    during this very call.  Nothing outside the directory's blocks and
    its inode changes, the directory stays well formed and so does the volume. *)
Theorem ext2_directory_refines s dir ess name inum type :
  vol_wf s -> dir_ok s dir ess -> FS_IS_DIR (mode dir) = true -> (length ess < 12)%nat ->
  (length name <= 255)%nat -> Forall is_u8 name -> is_u32 inum -> inum <> 0 -> is_u8 type ->
  (exists r s', ext2_find_dir_entry dir name s = Ret (r, s') /\ same_but s s' (fun _ => True) /\
     match r with
     | None => absent name (dlist ess) \/ refused s s'
     | Some e => exists a n t b, dlist ess = a ++ (name, n, t) :: b /\ absent name a /\ get_le 4 e 0 = Some n
     end) /\
  (exists r s', ext2_remove_dir_entry dir name s = Ret (r, s') /\ data_step s s' (owned (disk_inode dir)) /\
     (r = -1 /\ dir_ok s' dir ess /\ (absent name (dlist ess) \/ refused s s') \/
      r = 0 /\ exists ess' a n t b, dir_ok s' dir ess' /\ dlist ess = a ++ (name, n, t) :: b /\ dlist ess' = a ++ b)) /\
  (exists r dir' s', ext2_add_dir_entry dir name inum type s = Ret ((r, dir'), s') /\
     vol_step s s' (owned (disk_inode dir)) (eq (ino dir)) /\
     (r = -1 /\ dir' = dir /\ dir_ok s' dir ess /\ (no_room name ess /\ no_space s \/ refused s s') \/
      r = 0 /\ exists ess' a b, dir_ok s' dir' ess' /\ dlist ess = a ++ b /\ dlist ess' = a ++ (name, inum, type) :: b)).
Proof.
  intros Hv Hd Hm Hlt Hlen Hname Hi Hi0 Ht. split; [|split].
  - apply wp_run, (wp_find_dir_entry s dir ess); try done. intros s' e a b Hs' He E Ha. split; [done|].
    exists a, (d_ino e), (d_type e), b. split; [done|]. split; [done|]. by apply entry_ino_bytes.
  - apply wp_run, (wp_remove_dir_entry s dir ess); [done|done|..].
    + intros s' Hs' Hwhy. split; [by apply same_but_data_step|left]. split; [done|]. split; [by eapply dir_ok_same|done].
    + intros s' ess' Hs' Hd' (x & i & t & y & E1 & E2). split; [done|right]. split; [done|]. by exists ess', x, i, t, y.
  - enough (Hwp : wp (ext2_add_dir_entry dir name inum type) s (fun r s' => vol_step s s' (owned (disk_inode dir)) (eq (ino dir)) /\
      (r.1 = -1 /\ r.2 = dir /\ dir_ok s' dir ess /\ (no_room name ess /\ no_space s \/ refused s s') \/
       r.1 = 0 /\ exists ess' a b, dir_ok s' r.2 ess' /\ dlist ess = a ++ b /\ dlist ess' = a ++ (name, inum, type) :: b))).
    { apply wp_run in Hwp as ([r dir'] & s' & Hr & Hq). by exists r, dir', s'. }
    apply (wp_add_dir_entry inum type name Hlen Hi Hi0 Ht Hname s dir ess); [done|done|done|..].
    + intros s' Hs' Hwhy. split; [eapply vol_step_weaken; [exact Hs'|by intros ? []|by intros ? []]|left].
      split; [done|]. split; [done|]. split; [|done]. eapply dir_ok_step; [exact Hv|exact Hs'|done|naive_solver].
    + intros s' dir' ess' [A1 A2 (x & y & E1 & E2) _ _ _]. split; [done|right]. split; [done|]. by exists ess', x, y.
Qed.
End dirs.
