(* ===== verification/Ext2Tree.v ===== *)
(** * Names and files together (src/src/fs/ext2/directory.c, inode.c)

    [ext2_lookup] and [ext2_create] put the directory, the inode table and the
    bitmaps together: a created name is found, leads to a fresh inode with the
    contents of an empty file, and no other file is touched. *)

From S2P Require Import Prelude BlockDev Ext2 Ext2Proof DirBlock Ext2Layout Ext2Files Ext2Inodes Ext2Dirs.

Section tree.
Context {D H : Type} `{!BlockDevice D} `{!HealthyDevice D} `{!KHeap H}.
Implicit Types s : ext2 D H.

(** ** Lookup *)
Definition names_ok s (l : listing) : Prop := forall name n t, (name, n, t) ∈ l -> valid_ino s n.

Lemma entry_inode e s : dirent_ok e -> de_inode (take (Z.to_nat (d_need e)) (dirent_bytes e)) 0 s = Ret (d_ino e, s).
Proof. intros He. unfold de_inode, rd, st_lift. by rewrite entry_ino_bytes. Qed.

Lemma loaded_same s s' n di : same_layout s s' -> loaded s' n di = loaded s n di.
Proof. intros Hl. unfold loaded, loc_group, loc_index. by rewrite (sl_bs _ _ Hl), (sl_ipg _ _ Hl). Qed.

Lemma wp_lookup s dir ess name Q : vol_wf s -> dir_ok s dir ess -> FS_IS_DIR (mode dir) = true -> names_ok s (dlist ess) ->
  (forall s', same_but s s' (fun _ => True) -> absent name (dlist ess) \/ refused s s' -> Q None s') ->
  (forall s' n t a b di, same_but s s' (fun _ => True) -> dlist ess = a ++ (name, n, t) :: b -> absent name a ->
     table_entry s n = Some di -> Q (Some (loaded s n di)) s') ->
  wp (ext2_lookup dir name) s Q.
Proof.
  intros Hv Hd Hm Hval HN HS. unfold ext2_lookup. apply wp_bind, (wp_find_dir_entry s dir ess); [done|done|done|..].
  - intros s' Hs' Hwhy. apply wp_ret. by apply HN.
  - intros s1 e a b Hs1 He E Ha. apply wp_bind. eapply wp_of_run; [by apply entry_inode|].
    apply wp_bind, wp_buf_free. intros h Hle. assert (Hs2 : same_but s (set_heap h s1) (fun _ => True)) by (by apply same_but_heap_r).
    assert (Hn : valid_ino s (d_ino e)) by (apply (Hval name _ (d_type e)); rewrite E; set_solver).
    assert (Hst : data_step s (set_heap h s1) (fun _ => False)) by (by apply same_but_data_step).
    apply wp_read_inode; [apply Hst|by apply (valid_ino_layout _ _ (ds_lay _ _ _ _ Hst))|..].
    + intros s3 Hs3 Hr. apply HN; [by eapply same_but_true|right]. eapply refused_later; [apply Hs2|done].
    + intros s3 di Hs3 Hdi. rewrite (loaded_same s) by apply Hst. rewrite (ds_tab _ _ _ _ Hst) in Hdi by tauto.
      eapply (HS _ (d_ino e) (d_type e)); [eapply same_but_weaken; [by eapply same_but_trans|done]|exact E|done|done].
Qed.

(** The first entry with the name is the one added when there was none. *)
Lemma added_first inum type name l l' a b n t : absent name l -> added inum type name l l' ->
  l' = a ++ (name, n, t) :: b -> n = inum /\ t = type.
Proof.
  intros Hab (x & y & -> & ->) E.
  assert (Hin : (name, n, t) ∈ x ++ (name, inum, type) :: y) by (rewrite E; set_solver).
  apply elem_of_app in Hin as [Hin|Hin]; [exfalso; apply (Hab n t); set_solver|].
  apply elem_of_cons in Hin as [Hin|Hin]; [by injection Hin|]. exfalso. apply (Hab n t). set_solver.
Qed.
Lemma added_present inum type name l l' : added inum type name l l' -> (name, inum, type) ∈ l'.
Proof. intros (x & y & _ & ->). set_solver. Qed.
Lemma added_elem inum type name l l' x : added inum type name l l' -> x ∈ l' -> x = (name, inum, type) \/ x ∈ l.
Proof. intros (a & b & -> & ->). set_solver. Qed.

(** ** Create *)
Definition new_file (m : Z) : list Z :=
  set_i_links 1 (set_i_mode (Z.lor FS_FILE_TYPE_REGULAR (Z.land m 0xFFF)) (zeroes sizeof_inode)).

Lemma new_file_ok m : buf_ok 128 (new_file m).
Proof. apply buf_ok_set_fld, buf_ok_set_fld. by apply zeroes_ok. Qed.

(** A new name for a fresh inode. *)
Record created (m : Z) (name : list Z) s (dir : inode) ess s' (dir' : inode) ess' (n : Z) : Prop := {
  cr_step : vol_step s s' (owned (disk_inode dir)) (fun k => k = n \/ k = ino dir);
  cr_ino : valid_ino s n /\ ino_used s n = false /\ ino_used s' n = true;
  cr_dir : dir_ok s' dir' ess';
  cr_same : ino dir' = ino dir /\ mode dir' = mode dir /\ nlink dir' = nlink dir;
  cr_list : added n EXT2_FT_REG_FILE name (dlist ess) (dlist ess');
  cr_new : table_entry s' n = Some (new_file m) \/ refused s s'
}.

Section create.
Context (m : Z) (name : list Z).
Hypothesis Hlen : (length name <= 255)%nat.
Hypothesis Hname : Forall is_u8 name.

Lemma wp_ext2_create s dir ess Q : vol_wf s -> dir_ok s dir ess -> (length ess < 12)%nat -> ino_used s (ino dir) = true ->
  (forall s' n, vol_step s s' (fun _ => False) (eq n) -> n <> ino dir ->
     (forall k, valid_ino s k -> ino_used s' k = ino_used s k) \/ refused s s' ->
     no_inode s \/ no_room name ess /\ no_space s \/ refused s s' -> Q (-1, dir) s') ->
  (forall s' dir' ess' n, created m name s dir ess s' dir' ess' n -> Q (0, dir') s') ->
  wp (ext2_create dir name m) s Q.
Proof.
  intros Hv Hd Hlt Hdu HF HS. unfold ext2_create. pose proof (fo_ino _ _ (dk_file _ _ _ Hd)) as Hdi.
  apply wp_bind, wp_alloc_inode; [done|..].
  { intros s1 Hs1 Hr. apply wp_ret. apply (HF s1 (-1)); [eapply vol_step_weaken; [exact Hs1|done|by intros ? []]|unfold valid_ino in Hdi; lia|..|tauto].
    left. intros k Hk. apply (ds_ino _ _ _ _ Hs1); [done|tauto]. }
  intros s1 n Hn Hfree Hs1. pose proof (w_itotal _ (vw_fs _ Hv)) as Htot.
  assert (Hn0 : n <> 0) by (unfold valid_ino in Hn; lia). destruct (Z.eqb_spec n 0); [done|].
  assert (Hnd : n <> ino dir) by (intros ->; congruence). cbv zeta. fold (new_file m).
  pose proof (io_step _ _ _ _ Hs1) as Hst1. pose proof (ds_wf _ _ _ _ Hst1) as Hv1.
  apply wp_bind.
  assert (Hrest : forall s2, vol_step s s2 (fun _ => False) (eq n) -> ino_used s2 n = true -> same_space s s2 ->
    (table_entry s2 n = Some (new_file m) \/ refused s s2) ->
    wp ('(ret, dir) ← ext2_add_dir_entry dir name n EXT2_FT_REG_FILE;
        if negb (ret =? 0) then ext2_free_inode n;; mret (-1, dir) else mret (0, dir)) s2 Q).
  { intros s2 Hst2 Hu2 Hsp2 Htab. pose proof (ds_wf _ _ _ _ Hst2) as Hv2. pose proof (ds_lay _ _ _ _ Hst2) as Hl2.
    assert (Hd2 : dir_ok s2 dir ess) by (eapply dir_ok_step; [exact Hv|exact Hst2|done|naive_solver]).
    assert (Hn2 : valid_ino s2 n) by (by apply (valid_ino_layout _ _ Hl2)).
    apply wp_bind, (wp_add_dir_entry n EXT2_FT_REG_FILE name Hlen) with (ess := ess); try done.
    - unfold valid_ino in Hn. unfold is_u32. lia.
    - intros s3 Hs3 Hwhy. pose proof (ds_wf _ _ _ _ Hs3) as Hv3. cbn [Z.eqb negb].
      assert (Hst3 : vol_step s s3 (fun _ => False) (eq n)).
      { eapply vol_step_trans; [exact Hst2|eapply vol_step_weaken; [exact Hs3|done|by intros ? []]]. }
      assert (Hend : forall s5, vol_step s3 s5 (fun _ => False) (eq n) -> (forall k, valid_ino s k -> ino_used s5 k = ino_used s k) \/ refused s s5 ->
        Q (-1, dir) s5).
      { intros s5 Hs5 Hbits. apply (HF s5 n); [by eapply vol_step_trans|done|done|].
        destruct Hwhy as [[Hno Hns]|Hr]; [rewrite <- Hsp2 in Hns; tauto|]. right; right. eapply refused_later; [apply Hst2|]. eapply refused_sooner; [apply Hs5|done]. }
      apply wp_bind, wp_free_inode; [done|by apply (valid_ino_layout _ _ (ds_lay _ _ _ _ Hs3))|..].
      + intros s5 Hs5%(same_but_data_step _ _ (fun _ => False) Hv3) _ Hr. apply wp_ret, Hend; [eapply vol_step_weaken; [exact Hs5|done|tauto]|].
        right. eapply refused_later; [apply Hst3|done].
      + intros s5 Hs5. apply wp_ret, Hend; [apply Hs5|left]. intros k Hk.
        rewrite (io_bits _ _ _ _ Hs5) by (by apply (valid_ino_layout _ _ (ds_lay _ _ _ _ Hst3))).
        destruct (Z.eqb_spec k n) as [->|Hne]; [done|]. apply (ds_ino _ _ _ _ Hst3); [done|congruence].
    - intros s3 dir' ess' [A1 A2 A3 A4 A5 A6]. cbn [Z.eqb negb]. apply wp_ret. apply (HS s3 dir' ess' n). split; try done.
      + eapply vol_step_trans; [eapply vol_step_weaken; [exact Hst2|by intros ? []|by left]|eapply vol_step_weaken; [exact A1|done|by right]].
      + split; [done|]. split; [done|]. rewrite (ds_ino _ _ _ _ A1); [done|done|]. intros E. by apply Hnd.
      + destruct Htab as [Ht|Hr]; [left|right; eapply refused_sooner; [apply A1|done]]. rewrite (ds_tab _ _ _ _ A1); [done|done|]. intros E. by apply Hnd. }
  assert (Hn1 : valid_ino s1 n) by (by apply (valid_ino_layout _ _ (ds_lay _ _ _ _ Hst1))).
  assert (Hu1 : ino_used s1 n = true) by (rewrite (io_bits _ _ _ _ Hs1) by done; by rewrite Z.eqb_refl).
  apply wp_write_inode_data; [done|done|apply new_file_ok|..].
  - intros s2 Hs2 _ Hr. assert (Hx : data_step s1 s2 (fun _ => False)) by (by apply same_but_data_step).
    apply Hrest; [eapply vol_step_trans; [exact Hst1|eapply vol_step_weaken; [exact Hx|done|by intros ? []]]|..].
    + rewrite (ds_ino _ _ _ _ Hx); [done|done|tauto].
    + etrans; [apply Hs1|by apply same_space_read].
    + right. eapply refused_later; [apply Hst1|done].
  - intros s2 [Hs2 _ Hib Hent Hsp]. apply Hrest; [by eapply vol_step_trans|by rewrite Hib|etrans; [apply Hs1|done]|by left].
Qed.
End create.

(** ** The first block of a new directory *)
Definition dots (bs n parent : Z) : list dirent :=
  [{| d_ino := n; d_type := EXT2_FT_DIR; d_name := [46]; d_pad := zeroes 3 |};
   {| d_ino := parent; d_type := EXT2_FT_DIR; d_name := [46; 46]; d_pad := zeroes (bs - 22) |}].

Lemma new_dir_block_run bs n parent s : 1024 <= bs <= 4096 -> new_dir_block bs n parent s = Ret (dir_block (dots bs n parent), s).
Proof.
  intros Hbs.
  assert (Ez : zeroes bs = [] ++ (zeroes 4 ++ zeroes 2 ++ zeroes 1 ++ zeroes 1 ++ zeroes 1 ++ zeroes (bs - 9)) ++ []).
  { rewrite app_nil_r, <- !zeroes_app by lia. cbn [app]. f_equal. lia. }
  unfold new_dir_block. rewrite Ez. pstep (apply (fill_entry_run n EXT2_FT_DIR [46] []); done).
  assert (E1 : wr 2 ([] ++ (le_bytes 4 n ++ zeroes 2 ++ le_bytes 1 1 ++ le_bytes 1 EXT2_FT_DIR ++ [46] ++ zeroes (bs - 9)) ++ []) 4 12 s =
    Ret ((le_bytes 4 n ++ le_bytes 2 12 ++ le_bytes 1 1 ++ le_bytes 1 EXT2_FT_DIR ++ [46] ++ zeroes 3) ++
      (zeroes 4 ++ zeroes 2 ++ zeroes 1 ++ zeroes 1 ++ zeroes 2 ++ zeroes (bs - 22)) ++ [], s)).
  { unfold wr, st_lift. rewrite (put_le_at 2 12 _ (le_bytes 4 n) (zeroes 2) (le_bytes 1 1 ++ le_bytes 1 EXT2_FT_DIR ++ [46] ++ zeroes (bs - 9)));
      [|cbn [app]; by rewrite app_nil_r|by rewrite length_le_bytes|done].
    replace (zeroes (bs - 9)) with (zeroes 3 ++ zeroes 4 ++ zeroes 2 ++ zeroes 1 ++ zeroes 1 ++ zeroes 2 ++ zeroes (bs - 22))
      by (rewrite <- !zeroes_app by lia; f_equal; lia).
    cbn [of_option]. rewrite app_nil_r, <- !app_assoc. done. }
  pstep (exact E1). clear E1 Ez. set (pre := le_bytes 4 n ++ _).
  assert (Hpre : Z.of_nat (length pre) = 12) by done. rewrite <- Hpre at 1.
  pstep (apply (fill_entry_run parent EXT2_FT_DIR [46; 46] pre); done).
  unfold wr, st_lift.
  rewrite (put_le_at 2 (u16 (bs - 12)) _ (pre ++ le_bytes 4 parent) (zeroes 2)
    (le_bytes 1 2 ++ le_bytes 1 EXT2_FT_DIR ++ [46; 46] ++ zeroes (bs - 22)));
    [|by rewrite app_nil_r, <- !app_assoc|rewrite length_app, length_le_bytes; lia|done].
  cbn [of_option]. do 2 f_equal. unfold dots. rewrite !dir_block_cons. unfold dirent_bytes at 2. cbn [d_ino d_type d_name d_pad].
  unfold d_rec. cbn [d_name d_pad]. rewrite length_zeroes by lia. cbn [length dir_block concat fmap list_fmap].
  replace (8 + Z.of_nat 2 + (bs - 22)) with (bs - 12) by lia.
  assert (u16 (bs - 12) = bs - 12) as -> by (unfold u16; rewrite Z.mod_small; lia).
  unfold pre. rewrite app_nil_r, <- !app_assoc. done.
Qed.

Lemma dots_wf bs n parent : bs = 1024 \/ bs = 2048 \/ bs = 4096 -> is_u32 n -> is_u32 parent -> dir_wf bs (dots bs n parent).
Proof.
  intros Hbs Hn Hp. assert (Hr : d_rec {| d_ino := parent; d_type := EXT2_FT_DIR; d_name := [46; 46]; d_pad := zeroes (bs - 22) |} = bs - 12).
  { unfold d_rec. cbn [d_name d_pad length]. rewrite length_zeroes by lia. lia. }
  assert (Hdot : Forall is_u8 [46; 46]) by (repeat constructor; unfold is_u8; lia).
  split.
  - unfold dots. repeat apply Forall_cons_2; [..|apply Forall_nil_2]; split; rewrite ?Hr; cbn [d_ino d_type d_name d_pad length]; try done; try lia.
    + repeat constructor; unfold is_u8; lia.
    + apply zeroes_ok. lia.
    + apply zeroes_ok. lia.
    + destruct_or! Hbs; by subst bs.
  - unfold dots. rewrite !dir_block_cons, !length_app. cbn [dir_block concat fmap list_fmap length].
    pose proof (length_dirent {| d_ino := parent; d_type := EXT2_FT_DIR; d_name := [46; 46]; d_pad := zeroes (bs - 22) |}) as H2.
    pose proof (length_dirent {| d_ino := n; d_type := EXT2_FT_DIR; d_name := [46]; d_pad := zeroes 3 |}) as H1.
    rewrite Hr in H2. unfold d_rec in H1. cbn [d_name d_pad] in H1. rewrite (length_zeroes 3) in H1 by lia. cbn [length] in H1. lia.
Qed.

(** A stored empty file, loaded. *)
Lemma new_file_fields m : i_size (new_file m) = 0 /\ i_links_count (new_file m) = 1 /\
  i_mode (new_file m) = Z.lor FS_FILE_TYPE_REGULAR (Z.land m 0xFFF).
Proof.
  assert (Hz : Z.of_nat (length (zeroes sizeof_inode)) = 128) by done.
  unfold new_file, i_size, i_links_count, i_mode, set_i_links, set_i_mode. split; [|split].
  - rewrite !fld_set_other by lia. by vm_compute.
  - apply fld_set_same; [lia|rewrite length_set_fld; lia|done].
  - rewrite fld_set_other by lia. rewrite fld_set_same; [|lia|lia|apply Z.mod_pos_bound; lia].
    unfold u16. apply Z.mod_small. split; [apply Z.lor_nonneg; split; [done|apply Z.land_nonneg; by right]|].
    apply Z.log2_lt_cancel. change (Z.log2 65536) with 16. rewrite Z.log2_lor; [|done|apply Z.land_nonneg; by right].
    assert (Z.log2 (Z.land m 4095) <= 11).
    { change 4095 with (Z.ones 12). rewrite Z.land_ones by lia. pose proof (Z.mod_pos_bound m (2 ^ 12) ltac:(lia)).
      pose proof (Z.log2_le_mono (m mod 2 ^ 12) 4095 ltac:(change (2 ^ 12) with 4096 in *; lia)). by change (Z.log2 4095) with 11 in *. }
    change (Z.log2 FS_FILE_TYPE_REGULAR) with 15. lia.
Qed.

(** (C9) A created name is found.  Creating a file under a name the directory
    does not list either reports -1, with the directory's listing unchanged and no
    inode left marked, because the volume has no free inode, or no entry of the
    directory has room and the volume no free block; or it reports 0, the
    directory lists exactly one more entry, for an inode that was free and is now
    marked used, and [ext2_lookup] of the name then returns that inode as the
    table has it: an empty regular file with one link and the permissions asked
    for.  Either outcome may also be due to the heap refusing a request during the
    call itself.  The contents of every file that shares
    no block with the directory and every other inode are unchanged. *)
Theorem ext2_create_lookup s dir ess name m :
  vol_wf s -> dir_ok s dir ess -> FS_IS_DIR (mode dir) = true -> (length ess < 12)%nat -> ino_used s (ino dir) = true ->
  names_ok s (dlist ess) -> (length name <= 255)%nat -> Forall is_u8 name -> absent name (dlist ess) ->
  exists r dir' s', ext2_create dir name m s = Ret ((r, dir'), s') /\ vol_wf s' /\
    (forall j, file_ok s j -> (forall c, owned (disk_inode j) c -> ~ owned (disk_inode dir) c) ->
       file_ok s' j /\ contents s' j = contents s j) /\
    (r = -1 /\ dir' = dir /\ dir_ok s' dir ess /\
       ((forall k, valid_ino s k -> ino_used s' k = ino_used s k) \/ refused s s') /\
       (no_inode s \/ no_room name ess /\ no_space s \/ refused s s') \/
     r = 0 /\ exists n ess', dir_ok s' dir' ess' /\ added n EXT2_FT_REG_FILE name (dlist ess) (dlist ess') /\
       ino_used s n = false /\ ino_used s' n = true /\
       (forall k, valid_ino s k -> k <> n -> k <> ino dir -> table_entry s' k = table_entry s k) /\
       exists x s2, ext2_lookup dir' name s' = Ret (x, s2) /\
         (x = None /\ refused s' s2 \/
          exists di, x = Some (loaded s' n di) /\ table_entry s' n = Some di /\
            (i_size di = 0 /\ i_links_count di = 1 /\ i_mode di = Z.lor FS_FILE_TYPE_REGULAR (Z.land m 0xFFF) \/
             refused s s'))).
Proof.
  intros Hv Hd Hm Hlt Hdu Hval Hlen Hname Hab.
  assert (Hfr : forall s' T, vol_step s s' (owned (disk_inode dir)) T -> forall j, file_ok s j ->
    (forall c, owned (disk_inode j) c -> ~ owned (disk_inode dir) c) -> file_ok s' j /\ contents s' j = contents s j).
  { intros s' T Hs j Hj Hdis. split; [by eapply file_ok_step|]. unfold contents. f_equal. by eapply file_data_step; [|apply Hj|]. }
  match goal with |- exists r dir' s', _ = _ /\ @?P r dir' s' =>
    enough (Hwp : wp (ext2_create dir name m) s (fun r s' => P r.1 r.2 s')) by
      (apply wp_run in Hwp as ([r dir'] & s' & Hr & Hq); by exists r, dir', s') end.
  apply (wp_ext2_create m name Hlen Hname s dir ess); [done|done|done|done|..].
  - intros s' n Hs' Hne Hbits Hwhy. assert (Hs2 : vol_step s s' (owned (disk_inode dir)) (eq n)) by (eapply vol_step_weaken; [exact Hs'|by intros ? []|done]).
    split; [apply Hs'|]. split; [by eapply Hfr|]. left. split; [done|]. split; [done|].
    split; [eapply dir_ok_step; [exact Hv|exact Hs'|done|naive_solver]|done].
  - intros s' dir' ess' n [C1 (C2 & C3 & C4) C5 (C6 & C7 & _) C8 C9]. pose proof (ds_wf _ _ _ _ C1) as Hv'.
    pose proof (ds_lay _ _ _ _ C1) as Hl. split; [done|]. split; [by eapply Hfr|]. right. split; [done|]. exists n, ess'.
    split; [done|]. split; [done|]. split; [done|]. split; [done|]. split.
    { intros k Hk H1 H2. apply (ds_tab _ _ _ _ C1); [done|]. by intros [|]. }
    cbn [snd].
    enough (Hwp : wp (ext2_lookup dir' name) s' (fun x s2 => x = None /\ refused s' s2 \/
      exists di, x = Some (loaded s' n di) /\ table_entry s' n = Some di)).
    { apply wp_run in Hwp as (x & s2 & Hr & Hq). exists x, s2. split; [done|]. destruct Hq as [|(di & E & Ht)]; [by left|right].
      exists di. split; [done|]. split; [done|]. destruct C9 as [Ht2|]; [left|by right]. rewrite Ht in Ht2. injection Ht2 as ->. apply new_file_fields. }
    apply (wp_lookup s' dir' ess'); [done|done|by rewrite C7|..].
    + intros nm k t Hin. apply (valid_ino_layout _ _ Hl). destruct (added_elem _ _ _ _ _ _ C8 Hin) as [[= -> -> ->]|Hin2]; [done|by eapply Hval].
    + intros s2 _ [Habs|Hh]; [|by left]. exfalso. by eapply (Habs n), added_present.
    + intros s2 k t a b di _ E Ha Ht. right. destruct (added_first _ _ _ _ _ _ _ _ _ Hab C8 E) as [-> _]. by exists di.
Qed.
End tree.

(** ** Witnesses: the volume of [Ext2Proof] with a root directory in block 6 and
    six free inodes *)
Definition tree_disk : ram_disk :=
  {| rd_bs := 1024;
     rd_data := <[6%nat := dir_block (dots 1024 2 2)]> (<[4%nat := 3 :: zeroes 1023]> (<[3%nat := 63 :: zeroes 1023]> (rd_data tiny_disk))) |}.
Definition tree_fs : ext2 ram_disk nat :=
  set_sb (set_free_inodes_count 6 tiny_sb) (set_gds [set_bg_free_inodes 6 tiny_gd] (set_dev tree_disk tiny_fs)).
Definition tree_root : inode :=
  {| ino := 2; mode := FS_FILE_TYPE_DIR; size := 1024; uid := 0; gid := 0; nlink := 2; atime := 0; mtime := 0; ctime := 0;
     blksize := 1024; blocks := 2; flags := 0; ref_count := 1; disk_inode := set_i_block 0 6 (zeroes 128);
     block_group := 0; index_in_group := 1 |}.

Lemma tree_dev : same_but tiny_fs (set_dev tree_disk tiny_fs) (fun c => c <> 3 /\ c <> 4 /\ c <> 6).
Proof.
  split; try done. intros c [Hc0 Hc1] Hne. cbn [tiny_fs e_dev] in Hc1. change (bd_blocks tiny_disk) with 16 in Hc1.
  assert (c = 0 \/ c = 1 \/ c = 2 \/ c = 5 \/ c = 7 \/ c = 8 \/ c = 9 \/ c = 10 \/ c = 11 \/ c = 12 \/ c = 13 \/ c = 14 \/ c = 15) as Hc by lia.
  destruct_or! Hc; subst c; by vm_compute.
Qed.

Lemma tree_wf : fs_wf tree_fs /\ same_layout tiny_fs tree_fs.
Proof.
  pose proof (same_but_wf _ _ _ tree_dev tiny_fs_wf) as H1.
  assert (Hcg : counter_gd tiny_gd (set_bg_free_inodes 6 tiny_gd)) by (by apply counter_gd_set).
  assert (Hcs : counter_sb tiny_sb (set_free_inodes_count 6 tiny_sb)) by (by apply counter_sb_set).
  split.
  - unfold tree_fs. apply wf_update_sb; [|..].
    + apply (wf_update_gd (set_dev tree_disk tiny_fs) 0 tiny_gd); [done|cbn; lia|done| |apply Hcg|apply Hcg].
      apply Hcg, buf_ok_check. by vm_compute.
    + apply Hcs, (w_sb _ tiny_fs_wf).
    + apply Hcs.
    + apply Hcs.
    + apply Hcs.
    + apply Hcs.
  - by apply (counters_layout tiny_fs tree_fs 0 tiny_gd (set_bg_free_inodes 6 tiny_gd)).
Qed.

Lemma tree_vol_wf : vol_wf tree_fs.
Proof.
  destruct tree_wf as [Hwf Hl]. pose proof tiny_vol_wf as [_ Hit Hfree Htab]. split.
  - done.
  - by eapply itable_layout.
  - intros g i. rewrite (sl_gc _ _ Hl), (group_bits_layout _ _ Hl), (sl_fdb _ _ Hl), (sl_bpg _ _ Hl).
    intros Hg Hi Hf. eapply data_blk_layout; [exact Hl|]. apply Hfree; [done|done|].
    destruct (block_bit tiny_fs g i) eqn:E; [|done]. exfalso.
    destruct (group_bits_spec tiny_fs g tiny_fs_wf Hg) as [Hgb _].
    destruct tiny_numbers as (_ & _ & _ & _ & _ & Ebpg & _). rewrite Ebpg in Hgb.
    assert (g = 0) as -> by (cbn [tiny_fs e_groups_count] in Hg; lia).
    assert (i = 0 \/ i = 1 \/ i = 2 \/ i = 3 \/ i = 4 \/ i = 5 \/ i = 6 \/ i = 7) as Hc by lia.
    destruct_or! Hc; subst i; vm_compute in Hf, E; congruence.
  - intros n Hn%(valid_ino_layout _ _ Hl). destruct (loc_layout _ _ Hl n) as (-> & _). rewrite (meta_layout _ _ Hl).
    destruct (Htab n Hn) as [H1 H2]. split; [done|]. intros g. rewrite (sl_gc _ _ Hl), (sl_bm _ _ Hl), (sl_ibm _ _ Hl). auto.
Qed.

Lemma tree_root_ptr k : 0 <= k < 12 -> i_block (disk_inode tree_root) k = if k =? 0 then 6 else 0.
Proof.
  intros Hk. cbn [disk_inode tree_root]. rewrite i_block_set_block; [|by apply zeroes_ok|lia|done|unfold is_u32; lia].
  destruct (k =? 0); [done|apply i_block_zeroes; lia].
Qed.

Lemma tree_root_ok : dir_ok tree_fs tree_root [dots 1024 2 2].
Proof.
  destruct tree_wf as [Hwf Hl]. split.
  - split; [split|..].
    + apply buf_ok_set_fld. by apply zeroes_ok.
    + intros k Hk. rewrite tree_root_ptr by done. destruct (Z.eqb_spec k 0); [|done]. intros _. split; [|by vm_compute].
      eapply data_blk_layout; [exact Hl|]. apply (vw_free _ tiny_vol_wf 0 5); [cbn; lia| |by vm_compute]. by vm_compute.
    + intros j k Hj Hk. rewrite !tree_root_ptr by done. destruct (Z.eqb_spec j 0), (Z.eqb_spec k 0); lia.
    + cbn. lia.
    + apply (valid_ino_layout _ _ Hl). destruct tiny_numbers as (_ & _ & _ & _ & _ & _ & Eipg & _). unfold valid_ino.
      rewrite Eipg. cbn [tiny_fs e_groups_count ino tree_root]. lia.
  - done.
  - intros [|k] es Hk; [|done]. cbn in Hk. injection Hk as <-. rewrite tree_root_ptr by lia. split; [done|]. split; [done|].
    apply dots_wf; [by left|unfold is_u32; lia..].
Qed.

Lemma tree_absent : absent [97] (dlist [dots 1024 2 2]).
Proof. intros i t Hin. change (dlist [dots 1024 2 2]) with [([46], 2, 2); ([46; 46], 2, 2)] in Hin. set_solver. Qed.

Lemma tree_names : names_ok tree_fs (dlist [dots 1024 2 2]).
Proof.
  intros nm n t Hin. change (dlist [dots 1024 2 2]) with [([46], 2, 2); ([46; 46], 2, 2)] in Hin.
  assert (n = 2) as -> by set_solver. exact (fo_ino _ _ (dk_file _ _ _ tree_root_ok)).
Qed.

Lemma tree_name_ok : Forall is_u8 [97].
Proof. repeat constructor; unfold is_u8; lia. Qed.

Lemma ext2_directory_refines_witness :
  exists r s', ext2_find_dir_entry tree_root [97] tree_fs = Ret (r, s').
Proof.
  destruct (ext2_directory_refines tree_fs tree_root [dots 1024 2 2] [97] 3 1) as [(r & s' & Hr & _) _].
  - exact tree_vol_wf.
  - exact tree_root_ok.
  - done.
  - cbn. lia.
  - cbn. lia.
  - exact tree_name_ok.
  - unfold is_u32. lia.
  - lia.
  - unfold is_u8. lia.
  - exists r, s'. exact Hr.
Defined.

(** The volume has an inode, a block and room in its root to give. *)
Lemma tree_has_inode : ~ no_inode tree_fs.
Proof.
  intros [H0|Hf]; [by vm_compute in H0|]. specialize (Hf 0 (set_bg_free_inodes 6 tiny_gd) ltac:(cbn; lia) eq_refl ltac:(by vm_compute) 2).
  assert (E : ino_bit tree_fs 0 2 = false) by (by vm_compute). rewrite Hf in E; [done|]. by vm_compute.
Qed.
Lemma tree_has_space : ~ no_space tree_fs.
Proof.
  intros [H0|Hf]; [by vm_compute in H0|]. specialize (Hf 0 (set_bg_free_inodes 6 tiny_gd) ltac:(cbn; lia) eq_refl ltac:(by vm_compute) 6).
  assert (E : block_bit tree_fs 0 6 = false) by (by vm_compute). rewrite Hf in E; [done|]. by vm_compute.
Qed.
Lemma tree_has_room : ~ no_room [97] [dots 1024 2 2].
Proof. intros Hr. apply Forall_inv, Forall_inv_tail, Forall_inv in Hr. by vm_compute in Hr. Qed.

Lemma ext2_create_lookup_witness :
  exists dir' s' n ess', ext2_create tree_root [97] 0x1A4 tree_fs = Ret ((0, dir'), s') /\ ino_used s' n = true /\
    added n EXT2_FT_REG_FILE [97] (dlist [dots 1024 2 2]) (dlist ess').
Proof.
  destruct (ext2_create_lookup tree_fs tree_root [dots 1024 2 2] [97] 0x1A4) as (r & dir' & s' & Hr & Hv & _ & Hc).
  - exact tree_vol_wf.
  - exact tree_root_ok.
  - done.
  - cbn. lia.
  - by vm_compute.
  - exact tree_names.
  - cbn. lia.
  - exact tree_name_ok.
  - exact tree_absent.
  - destruct Hc as [(_ & _ & _ & _ & [Hi|[[Hn _]|Hf]])|(-> & n & ess' & _ & Ha & _ & Hu & _)].
    + by destruct (tree_has_inode Hi).
    + by destruct (tree_has_room Hn).
    + by destruct (never_refused _ _ Hf).
    + exists dir', s', n, ess'. split; [exact Hr|]. split; [exact Hu|exact Ha].
Defined.
