(* ===== verification/Ext2Mkdir.v ===== *)
(** * Making a directory (src/src/fs/ext2/directory.c, [ext2_mkdir])

    A new directory has its own inode and block, with the entries "." and "..",
    its parent lists it and has one more link; when a step fails, the inode and the
    block are released and the parent is as before. *)

From S2P Require Import Prelude BlockDev Ext2 Ext2Proof DirBlock Ext2Layout Ext2Files Ext2Inodes Ext2Dirs Ext2Tree.

Section mkdir.
Context {D H : Type} `{!BlockDevice D} `{!HealthyDevice D} `{!KHeap H}.
Implicit Types s : ext2 D H.

(** ** The inode of a new directory *)
Definition new_dir (m bs b : Z) : list Z :=
  set_i_block 0 b (set_i_blocks (bs / 512) (set_i_links 2 (set_i_size bs
    (set_i_mode (Z.lor FS_FILE_TYPE_DIR (Z.land m 0xFFF)) (zeroes sizeof_inode))))).

Lemma new_dir_ok m bs b : buf_ok 128 (new_dir m bs b).
Proof. repeat apply buf_ok_set_fld. by apply zeroes_ok. Qed.

Lemma new_dir_ptr m bs b k : is_u32 b -> 0 <= k < 12 -> i_block (new_dir m bs b) k = if k =? 0 then b else 0.
Proof.
  intros Hb Hk. unfold new_dir. rewrite i_block_set_block; [|repeat apply buf_ok_set_fld; by apply zeroes_ok|lia|done|done].
  destruct (Z.eqb_spec k 0); [done|]. rewrite i_block_set_blocks by lia.
  transitivity (i_block (zeroes 128) k); [|apply i_block_zeroes; lia].
  unfold i_block, set_i_links, set_i_size, set_i_mode. by rewrite !fld_set_other by lia.
Qed.

Lemma new_dir_size m bs b : 0 <= bs <= 4096 -> i_size (new_dir m bs b) = bs.
Proof.
  intros Hbs. unfold new_dir, i_size, set_i_block, set_i_blocks, set_i_links. rewrite !fld_set_other by lia.
  unfold set_i_size. rewrite fld_set_same; [by rewrite u32_small by (unfold is_u32; lia)|lia| |apply u32_range].
  unfold set_i_mode. rewrite length_set_fld. change (Z.of_nat (length (zeroes sizeof_inode))) with 128. lia.
Qed.

(** The new directory lists "." and "..". *)
Lemma new_dir_dir_ok s n m b parent : vol_wf s -> valid_ino s n -> data_blk s b -> used s b = true ->
  is_u32 parent -> blk s b = dir_block (dots (e_block_size s) n parent) ->
  dir_ok s (loaded s n (new_dir m (e_block_size s) b)) [dots (e_block_size s) n parent].
Proof.
  intros Hv Hn Hb Hu Hp Hblk. pose proof (w_bs_val _ (vw_fs _ Hv)) as Hbs. pose proof (db_pos _ _ Hb) as Hpos.
  destruct (sb_ranges s (vw_fs _ Hv)) as (_ & Hcnt & _). pose proof (db_range _ _ Hb) as Hr.
  assert (Hb32 : is_u32 b) by (unfold is_u32 in *; lia).
  pose proof (w_itotal _ (vw_fs _ Hv)) as Htot. assert (Hn32 : is_u32 n) by (unfold valid_ino, is_u32 in *; lia).
  split; [split; [split|..]|..]; cbn [disk_inode loaded size ino].
  - apply new_dir_ok.
  - intros k Hk. rewrite new_dir_ptr by done. by destruct (k =? 0).
  - intros j k Hj Hk. rewrite !new_dir_ptr by done. destruct (Z.eqb_spec j 0), (Z.eqb_spec k 0); lia.
  - rewrite new_dir_size by lia. lia.
  - done.
  - rewrite new_dir_size by lia. cbn [length]. lia.
  - intros [|k] es Hk; [|done]. cbn in Hk. injection Hk as <-. rewrite new_dir_ptr by (done || lia). change (Z.of_nat 0 =? 0) with true. cbv iota.
    split; [lia|]. split; [done|]. by apply dots_wf.
Qed.

Lemma dots_live bs n parent : n <> 0 -> parent <> 0 ->
  live (dots bs n parent) = [([46], n, EXT2_FT_DIR); ([46; 46], parent, EXT2_FT_DIR)].
Proof. intros Hn Hp. unfold live, dots. cbn. unfold in_use. cbn. destruct (Z.eqb_spec n 0), (Z.eqb_spec parent 0); done. Qed.

(** ** The whole operation *)
Record made (m : Z) (name : list Z) s (dir : inode) ess s' (dir' : inode) ess' (n b : Z) : Prop := {
  mk_step : vol_step s s' (owned (disk_inode dir)) (fun k => k = n \/ k = ino dir);
  mk_ino : valid_ino s n /\ ino_used s n = false /\ ino_used s' n = true;
  mk_blk : data_blk s b /\ used s b = false;
  mk_dir : dir_ok s' dir' ess';
  mk_same : ino dir' = ino dir /\ mode dir' = mode dir /\ nlink dir' = nlink dir +! 1;
  mk_list : added n EXT2_FT_DIR name (dlist ess) (dlist ess');
  mk_sub : dir_ok s' (loaded s' n (new_dir m (e_block_size s) b)) [dots (e_block_size s) n (ino dir)];
  mk_new : table_entry s' n = Some (new_dir m (e_block_size s) b) \/ refused s s'
}.

(** The reasons of a failure between [s] and [s']: the volume has no free inode or
    no free block, or one block only where the parent needs one more itself, or the
    heap refused a request on the way. *)
Definition make_refused (name : list Z) (ess : list (list dirent)) s s' : Prop :=
  no_inode s \/ no_space s \/ no_room name ess /\ last_block s \/ refused s s'.

Section run.
Context (m : Z) (name : list Z) (s : ext2 D H) (dir : inode) (ess : list (list dirent)).
Hypothesis Hlen : (length name <= 255)%nat.
Hypothesis Hname : Forall is_u8 name.
Hypothesis Hv : vol_wf s.
Hypothesis Hd : dir_ok s dir ess.
Hypothesis Hlt : (length ess < 12)%nat.
Hypothesis Hdu : ino_used s (ino dir) = true.

(** Releasing the inode, and the block and the inode, of a failed attempt. *)
Lemma wp_undo_inode {A} s1 n (r : A) Q : valid_ino s n -> vol_step s s1 (fun _ => False) (eq n) ->
  (forall s', vol_step s s' (fun _ => False) (eq n) -> (refusals s1 <= refusals s')%nat -> Q r s') -> wp (ext2_free_inode n;; mret r) s1 Q.
Proof.
  intros Hn Hs HQ. apply wp_bind, wp_free_inode; [apply Hs|by apply (valid_ino_layout _ _ (ds_lay _ _ _ _ Hs))|..].
  - intros s2 Hs2%(same_but_data_step _ _ (fun _ => False) (ds_wf _ _ _ _ Hs)) _ _. apply wp_ret, HQ; [|apply Hs2].
    eapply vol_step_trans; [exact Hs|]. eapply vol_step_weaken; [exact Hs2|done|by intros ? []].
  - intros s2 [Hs2 _ _ _ _]. apply wp_ret, HQ; [by eapply vol_step_trans|apply Hs2].
Qed.

Lemma wp_undo {A} s1 n b (r : A) Q : valid_ino s n -> vol_step s s1 (fun _ => False) (eq n) -> data_blk s b -> used s b = false ->
  (forall s', vol_step s s' (fun _ => False) (eq n) -> (refusals s1 <= refusals s')%nat -> Q r s') ->
  wp (ext2_free_block b;; ext2_free_inode n;; mret r) s1 Q.
Proof.
  intros Hn Hs Hb Hu HQ. apply wp_bind, (wp_free_fresh s s1 b (fun _ => False) (eq n)); try done. intros s2 Hs2 Hle2.
  apply wp_undo_inode; [done|done|]. intros s3 Hs3 Hle3. apply HQ; [done|by etrans].
Qed.

(** The end: the parent gets a link and the group a directory. *)
Lemma wp_mkdir_end s1 dir1 ess1 n Q : vol_wf s1 -> dir_ok s1 dir1 ess1 -> valid_ino s1 n -> n <> ino dir1 ->
  (forall s2, vol_step s1 s2 (fun _ => False) (eq (ino dir1)) ->
     dir_ok s2 (with_disk (with_nlink dir1 (nlink dir1 +! 1)) (sync_fields (with_nlink dir1 (nlink dir1 +! 1)))) ess1 ->
     Q (0, with_disk (with_nlink dir1 (nlink dir1 +! 1)) (sync_fields (with_nlink dir1 (nlink dir1 +! 1)))) s2) ->
  wp ('(_, dir) ← ext2_write_inode (with_nlink dir1 (nlink dir1 +! 1));
      s ← st_get;
      group ← udiv (n -! 1) (s_inodes_per_group (e_sb s));
      gd ← get_gd group;
      put_gd group (set_bg_used_dirs (bg_used_dirs_count gd + 1) gd);;
      ext2_flush_group_desc group;;
      mret (0, dir)) s1 Q.
Proof.
  intros Hv1 Hd1 Hn Hne HQ. set (d2 := with_nlink dir1 _) in *.
  assert (Hd2 : dir_ok s1 d2 ess1) by (destruct Hd1 as [[] ? ?]; by split).
  assert (Hrest : forall s2, vol_step s1 s2 (fun _ => False) (eq (ino dir1)) ->
    wp (s ← st_get;
        group ← udiv (n -! 1) (s_inodes_per_group (e_sb s));
        gd ← get_gd group;
        put_gd group (set_bg_used_dirs (bg_used_dirs_count gd + 1) gd);;
        ext2_flush_group_desc group;;
        mret (0, with_disk d2 (sync_fields d2))) s2 Q).
  { intros s2 Hs2. pose proof (ds_wf _ _ _ _ Hs2) as Hv2. pose proof (vw_fs _ Hv2) as Hwf2. pose proof (w_ipg _ Hwf2).
    pose proof (w_itotal _ Hwf2). assert (Hn2 : valid_ino s2 n) by (by apply (valid_ino_layout _ _ (ds_lay _ _ _ _ Hs2))).
    destruct (loc_number s2 n Hwf2 Hn2) as (Hg & _). unfold valid_ino in Hn2.
    apply wp_bind, wp_get. rewrite (u32_small (n - 1)) by (unfold is_u32; lia). apply wp_bind, wp_udiv; [lia|].
    fold (loc_group s2 n). destruct (wf_gd s2 _ Hwf2 Hg) as (gd & Hgd & _). apply wp_bind, (wp_get_gd _ _ gd); [done|].
    apply (wp_store_counters s2 (loc_group s2 n) gd); [done|done|done|by apply counter_gd_set|]. intros s3 Hs3 _. apply wp_ret.
    assert (Hs13 : vol_step s1 s3 (fun _ => False) (eq (ino dir1))).
    { eapply vol_step_trans; [exact Hs2|]. eapply vol_step_weaken; [exact Hs3|done|by intros ? []]. }
    apply HQ; [done|]. eapply dir_ok_step; [exact Hv1|exact Hs13|by apply dir_ok_sync|naive_solver]. }
  pose proof (dk_file _ _ _ Hd2) as Hf2.
  apply wp_bind, wp_write_inode_file; [done|apply Hf2|apply Hf2|..].
  - intros s2 Hs2%(same_but_data_step _ _ (fun _ => False) Hv1) _ _. apply Hrest. eapply vol_step_weaken; [exact Hs2|done|by intros ? []].
  - intros s2 [Hs2 _ _ _ _]. by apply Hrest.
Qed.

(** A block that was free is written. *)
Lemma vol_step_fresh s1 s2 b W T : vol_step s s1 W T -> data_step s1 s2 (eq b) -> used s b = false -> vol_step s s2 W T.
Proof.
  intros [A1 A2 A3 A4 A5 A6 A7] [B1 B2 B3 B4 B5 B6 B7] Hb. split; [done|by etrans|..|by etrans].
  - intros c Hc Hu. apply B3; [by eapply data_blk_layout|auto].
  - intros c Hc Hu HW. rewrite B4; [auto|by eapply data_blk_layout|auto|]. intros ->. congruence.
  - intros n Hn HT. rewrite B5; [auto| |tauto]. by apply (valid_ino_layout _ _ A2).
  - intros n Hn HT. rewrite B6; [auto| |tauto]. by apply (valid_ino_layout _ _ A2).
Qed.

(** The second half: inode [n] and block [b] are taken and the block is written. *)
Lemma wp_mkdir_link s1 n b Q : valid_ino s n -> ino_used s n = false -> data_blk s b -> used s b = false ->
  vol_step s s1 (fun _ => False) (eq n) -> ino_used s1 n = true -> used s1 b = true ->
  blk s1 b = dir_block (dots (e_block_size s) n (ino dir)) -> (no_space s1 -> last_block s) ->
  (forall s', make_refused name ess s s' -> vol_step s s' (fun _ => False) (eq n) -> Q (-1, dir) s') ->
  (forall s' dir' ess', made m name s dir ess s' dir' ess' n b -> Q (0, dir') s') ->
  wp (ext2_write_inode_raw n (new_dir m (e_block_size s) b);;
      '(ret, dir) ← ext2_add_dir_entry dir name n EXT2_FT_DIR;
      if negb (ret =? 0) then
        ext2_free_block b;; ext2_free_inode n;; mret (-1, dir)
      else
        '(_, dir) ← ext2_write_inode (with_nlink dir (nlink dir +! 1));
        s ← st_get;
        group ← udiv (n -! 1) (s_inodes_per_group (e_sb s));
        gd ← get_gd group;
        put_gd group (set_bg_used_dirs (bg_used_dirs_count gd + 1) gd);;
        ext2_flush_group_desc group;;
        mret (0, dir)) s1 Q.
Proof.
  intros Hn Hfree Hb Hbfree Hs1 Hu1 Hbu1 Hblk1 Hlast HF HS. pose proof (dk_file _ _ _ Hd) as Hfile.
  assert (Hnd : n <> ino dir) by (intros ->; congruence). pose proof (w_itotal _ (vw_fs _ Hv)) as Htot.
  assert (Hnow : ~ owned (disk_inode dir) b).
  { intros (k & Hk & Hc & Hne). rewrite <- Hc in Hne. destruct (po_ptr _ _ (fo_ptrs _ _ Hfile) k Hk Hne) as [_ Hu]. rewrite Hc in Hu. congruence. }
  assert (Hrest : forall s2, vol_step s s2 (fun _ => False) (eq n) -> ino_used s2 n = true -> used s2 b = true ->
    blk s2 b = dir_block (dots (e_block_size s) n (ino dir)) -> same_space s1 s2 ->
    (table_entry s2 n = Some (new_dir m (e_block_size s) b) \/ refused s s2) ->
    wp ('(ret, dir) ← ext2_add_dir_entry dir name n EXT2_FT_DIR;
      if negb (ret =? 0) then
        ext2_free_block b;; ext2_free_inode n;; mret (-1, dir)
      else
        '(_, dir) ← ext2_write_inode (with_nlink dir (nlink dir +! 1));
        s ← st_get;
        group ← udiv (n -! 1) (s_inodes_per_group (e_sb s));
        gd ← get_gd group;
        put_gd group (set_bg_used_dirs (bg_used_dirs_count gd + 1) gd);;
        ext2_flush_group_desc group;;
        mret (0, dir)) s2 Q).
  { intros s2 Hs2 Hu2 Hbu2 Hblk2 Hsp2 Htab. pose proof (ds_wf _ _ _ _ Hs2) as Hv2. pose proof (ds_lay _ _ _ _ Hs2) as Hl2.
    assert (Hd2 : dir_ok s2 dir ess) by (eapply dir_ok_step; [exact Hv|exact Hs2|done|naive_solver]).
    assert (Hn2 : valid_ino s2 n) by (by apply (valid_ino_layout _ _ Hl2)). assert (Hb2 : data_blk s2 b) by (by eapply data_blk_layout).
    apply wp_bind, (wp_add_dir_entry n EXT2_FT_DIR name Hlen) with (ess := ess); try done.
    - unfold valid_ino in Hn. unfold is_u32. lia.
    - unfold valid_ino in Hn. lia.
    - intros s3 Hs3 Hwhy. cbn [Z.eqb negb].
      assert (Hst : vol_step s s3 (fun _ => False) (eq n)).
      { eapply vol_step_trans; [exact Hs2|eapply vol_step_weaken; [exact Hs3|done|by intros ? []]]. }
      apply wp_undo; [done|done|done|done|]. intros s5 Hs5 Hle5. apply HF; [|done]. unfold make_refused.
      destruct Hwhy as [[Hno Hns]|Hr]; [rewrite <- Hsp2 in Hns; tauto|]. do 3 right.
      eapply refused_later; [apply Hs2|]. by eapply refused_sooner.
    - intros s3 dir1 ess1 [A1 A2 A3 (A4 & A4' & A4'') A5 A6]. cbn [Z.eqb negb]. pose proof (ds_wf _ _ _ _ A1) as Hv3.
      pose proof (ds_lay _ _ _ _ A1) as Hl3.
      apply (wp_mkdir_end s3 dir1 ess1); [done|done|by apply (valid_ino_layout _ _ Hl3)|by rewrite A4|]. intros s4 Hs4 Hd4.
      pose proof (ds_lay _ _ _ _ Hs4) as Hl4. rewrite A4 in Hs4.
      assert (Hs24 : vol_step s2 s4 (owned (disk_inode dir)) (eq (ino dir))).
      { eapply vol_step_trans; [exact A1|]. eapply vol_step_weaken; [exact Hs4|by intros ? []|done]. }
      assert (Hs04 : vol_step s s4 (owned (disk_inode dir)) (fun k => k = n \/ k = ino dir)).
      { eapply vol_step_trans; [eapply vol_step_weaken; [exact Hs2|by intros ? []|by left]|eapply vol_step_weaken; [exact Hs24|done|by right]]. }
      assert (Hine : ~ ino dir = n) by (intros E; by apply Hnd).
      apply (HS s4 _ ess1). pose proof (sl_bs _ _ (ds_lay _ _ _ _ Hs04)) as Ebs. split; try done.
      + split; [done|]. split; [done|]. by rewrite (ds_ino _ _ _ _ Hs24).
      + cbn [ino mode nlink with_disk with_nlink]. by rewrite A4''.
      + rewrite <- Ebs. apply new_dir_dir_ok; [apply Hs4|by apply (valid_ino_layout _ _ (ds_lay _ _ _ _ Hs04))| | | |].
        * eapply data_blk_layout; [|exact Hb]. apply Hs04.
        * by apply (ds_used _ _ _ _ Hs24).
        * pose proof (fo_ino _ _ Hfile) as Hdi. unfold valid_ino, is_u32 in *. lia.
        * rewrite (ds_blk _ _ _ _ Hs24) by done. by rewrite Ebs.
      + destruct Htab as [Ht|Hr]; [left|right; eapply refused_sooner; [apply Hs24|done]]. rewrite (ds_tab _ _ _ _ Hs24); done. }
  pose proof (ds_wf _ _ _ _ Hs1) as Hv1. pose proof (ds_lay _ _ _ _ Hs1) as Hl1.
  assert (Hb1 : data_blk s1 b) by (by eapply data_blk_layout). assert (Hn1 : valid_ino s1 n) by (by apply (valid_ino_layout _ _ Hl1)).
  apply wp_bind, wp_write_inode_data; [done|done|apply new_dir_ok|..].
  - intros s2 Hs2 _ Hr. assert (Hx : data_step s1 s2 (fun _ => False)) by (by apply same_but_data_step). apply Hrest.
    + eapply vol_step_trans; [exact Hs1|eapply vol_step_weaken; [exact Hx|done|by intros ? []]].
    + rewrite (ds_ino _ _ _ _ Hx); [done|done|tauto].
    + by apply (ds_used _ _ _ _ Hx).
    + rewrite (ds_blk _ _ _ _ Hx); [done|done|done|tauto].
    + by apply same_space_read.
    + right. eapply refused_later; [apply Hs1|done].
  - intros s2 [Hs2 Hus Hib Hent Hsp2]. apply Hrest; [by eapply vol_step_trans|by rewrite Hib|by rewrite Hus| |done|by left].
    rewrite (ds_blk _ _ _ _ Hs2); [done|done|done|tauto].
Qed.

Lemma wp_mkdir Q :
  (forall s' n, make_refused name ess s s' -> vol_step s s' (fun _ => False) (eq n) -> n <> ino dir -> Q (-1, dir) s') ->
  (forall s' dir' ess' n b, made m name s dir ess s' dir' ess' n b -> Q (0, dir') s') ->
  wp (ext2_mkdir dir name m) s Q.
Proof.
  intros HF HS. unfold ext2_mkdir. pose proof (w_bs_val _ (vw_fs _ Hv)) as Hbs. pose proof (dk_file _ _ _ Hd) as Hfile.
  apply wp_bind, wp_get. cbv zeta. apply wp_bind, wp_alloc_inode; [done|..].
  { intros s1 Hs1 Hr. apply wp_ret. apply (HF s1 (-1)); [unfold make_refused; tauto|eapply vol_step_weaken; [exact Hs1|done|by intros ? []]|].
    pose proof (fo_ino _ _ Hfile) as Hdi. unfold valid_ino in Hdi. lia. }
  intros s1 n Hn Hfree [Hs1 _ Hus1 Hib1 Hsp1]. assert (Hn0 : n <> 0) by (unfold valid_ino in Hn; lia). destruct (Z.eqb_spec n 0); [done|].
  assert (Hnd : n <> ino dir) by (intros ->; congruence). pose proof (ds_wf _ _ _ _ Hs1) as Hv1. pose proof (ds_lay _ _ _ _ Hs1) as Hl1.
  assert (Hst : forall sx W, data_step s1 sx W -> (forall c, W c -> False) -> vol_step s sx (fun _ => False) (eq n)).
  { intros sx W Hx HW. eapply vol_step_trans; [exact Hs1|eapply vol_step_weaken; [exact Hx|done|by intros ? []]]. }
  apply wp_bind, wp_alloc_data; [done|..].
  { intros s2 Hs2 _ Hr. apply wp_undo_inode; [done|by eapply Hst|]. intros s3 Hs3 Hle3. apply (HF s3 n); [|done|done]. unfold make_refused.
    destruct Hr as [Hns|Hr]; [rewrite <- Hsp1 in Hns; tauto|]. do 3 right. eapply refused_later; [apply Hs1|]. by eapply refused_sooner. }
  intros s2 g i Hs2 Hg Hi Hfi Hu2 b Hb1 Hbf1 Hbu2.
  assert (Hlast : no_space s2 -> last_block s) by (intros Hns; rewrite Hsp1; by eapply (alloc_last s1 s2 g i); [apply Hv1|..]).
  clear Hu2. clearbody b. assert (Hb : data_blk s b) by (eapply data_blk_layout; [symmetry; exact Hl1|done]).
  assert (Hbf : used s b = false) by (by rewrite <- Hus1). pose proof (db_pos _ _ Hb) as Hpos. destruct (Z.eqb_spec b 0); [lia|].
  assert (Hs02 : vol_step s s2 (fun _ => False) (eq n)) by (by eapply Hst). pose proof (ds_wf _ _ _ _ Hs02) as Hv2.
  apply wp_bind, wp_buf_alloc; [lia|..].
  { intros h _ Hr. assert (Hh : data_step s2 (set_heap h s2) (fun _ => False)) by (apply same_but_data_step; [done|by apply same_but_heap, refused_heap]).
    apply wp_undo; [done| |done|done|].
    - eapply vol_step_trans; [exact Hs02|eapply vol_step_weaken; [exact Hh|done|by intros ? []]].
    - intros s3 Hs3 Hle3. apply (HF s3 n); [|done|done]. do 3 right. eapply refused_later; [apply Hs02|]. by eapply refused_sooner. }
  intros h junk _ Hle. set (s3 := set_heap h s2).
  assert (Hsp3 : same_space s2 s3) by (apply same_space_read; [done|by apply same_but_heap]).
  assert (Hh : data_step s2 s3 (fun _ => False)) by (apply same_but_data_step; [done|by apply same_but_heap]).
  assert (Hs03 : vol_step s s3 (fun _ => False) (eq n)).
  { eapply vol_step_trans; [exact Hs02|eapply vol_step_weaken; [exact Hh|done|by intros ? []]]. }
  apply wp_bind. eapply wp_of_run; [apply new_dir_block_run; lia|].
  pose proof (ds_lay _ _ _ _ Hs03) as Hl3. assert (Hb3 : data_blk s3 b) by (by eapply data_blk_layout).
  pose proof (w_itotal _ (vw_fs _ Hv)) as Htot. pose proof (fo_ino _ _ Hfile) as Hdi.
  assert (Hdots : dir_wf (e_block_size s) (dots (e_block_size s) n (ino dir))).
  { apply dots_wf; [done|unfold valid_ino, is_u32 in *; lia..]. }
  apply wp_bind, wp_write_data; [apply Hs03|done|rewrite (sl_bs _ _ Hl3); destruct Hdots; split; [done|by apply dir_block_u8]|].
  intros s4 Hs4 Hus4 Hb4 _ Hsp4. apply wp_bind, wp_buf_free. intros h5 Hle5. pose proof (vol_step_fresh s3 s4 b _ _ Hs03 Hs4 Hbf) as Hs04.
  assert (Hh5 : data_step s4 (set_heap h5 s4) (fun _ => False)) by (apply same_but_data_step; [apply Hs4|by apply same_but_heap]).
  assert (Hsp5 : same_space s4 (set_heap h5 s4)) by (apply same_space_read; [apply Hs4|by apply same_but_heap]).
  assert (Hb4' : data_blk s4 b) by (eapply data_blk_layout; [apply Hs4|done]).
  assert (Hu4 : used s4 b = true) by (rewrite Hus4 by done; by apply (ds_used _ _ _ _ Hh); [eapply data_blk_layout; [apply Hs02|]|]).
  apply (wp_mkdir_link (set_heap h5 s4) n b); try done.
  - eapply vol_step_trans; [exact Hs04|eapply vol_step_weaken; [exact Hh5|done|by intros ? []]].
  - assert (Hs14 : data_step s1 s4 (eq b)).
    { eapply vol_step_trans; [eapply data_step_weaken; [exact Hs2|by intros ? []]|].
      eapply vol_step_trans; [eapply data_step_weaken; [exact Hh|by intros ? []]|done]. }
    change (ino_used s4 n = true). rewrite (ds_ino _ _ _ _ Hs14); [|by apply (valid_ino_layout _ _ Hl1)|tauto].
    rewrite Hib1 by done. by rewrite Z.eqb_refl.
  - by rewrite <- Hsp5, <- Hsp4, <- Hsp3.
  - intros s' Hr Hs'. by apply (HF s' n).
  - intros s' dir' ess' Hm. by apply (HS s' dir' ess' n b).
Qed.
End run.

(** (C10) A new directory is found and lists itself and its parent.  Making a
    directory under a name the parent does not list either reports -1, with the
    parent's listing unchanged, because the volume has no free inode or no free block,
    or one free block only where no entry of the parent has room for the name; or it
    reports 0, the parent lists exactly one more entry and has one more link, and
    [ext2_lookup] of the name then returns the inode, which was free and is now in
    use: a directory of one block that lists exactly "." for itself and ".." for the
    parent.  Either outcome may also be due to the heap refusing a request during the
    call itself.  Files that share no block with the parent keep their contents. *)
Theorem ext2_mkdir_lookup s dir ess name m :
  vol_wf s -> dir_ok s dir ess -> FS_IS_DIR (mode dir) = true -> (length ess < 12)%nat -> ino_used s (ino dir) = true ->
  names_ok s (dlist ess) -> (length name <= 255)%nat -> Forall is_u8 name -> absent name (dlist ess) ->
  exists r dir' s', ext2_mkdir dir name m s = Ret ((r, dir'), s') /\ vol_wf s' /\
    (forall j, file_ok s j -> (forall c, owned (disk_inode j) c -> ~ owned (disk_inode dir) c) ->
       file_ok s' j /\ contents s' j = contents s j) /\
    (r = -1 /\ dir' = dir /\ dir_ok s' dir ess /\ make_refused name ess s s' \/
     r = 0 /\ nlink dir' = nlink dir +! 1 /\ exists n ess', dir_ok s' dir' ess' /\
       added n EXT2_FT_DIR name (dlist ess) (dlist ess') /\ ino_used s n = false /\ ino_used s' n = true /\
       exists x s2, ext2_lookup dir' name s' = Ret (x, s2) /\
         (x = None /\ refused s' s2 \/
          exists sub, x = Some sub /\ ino sub = n /\
            ((exists es, dir_ok s' sub [es] /\ live es = [([46], n, EXT2_FT_DIR); ([46; 46], ino dir, EXT2_FT_DIR)]) \/
             refused s s'))).
Proof.
  intros Hv Hd Hm Hlt Hdu Hval Hlen Hname Hab.
  assert (Hfr : forall s' T, vol_step s s' (owned (disk_inode dir)) T -> forall j, file_ok s j ->
    (forall c, owned (disk_inode j) c -> ~ owned (disk_inode dir) c) -> file_ok s' j /\ contents s' j = contents s j).
  { intros s' T Hs j Hj Hdis. split; [by eapply file_ok_step|]. unfold contents. f_equal. by eapply file_data_step; [|apply Hj|]. }
  match goal with |- exists r dir' s', _ = _ /\ @?P r dir' s' =>
    enough (Hwp : wp (ext2_mkdir dir name m) s (fun r s' => P r.1 r.2 s')) by
      (apply wp_run in Hwp as ([r dir'] & s' & Hr & Hq); by exists r, dir', s') end.
  apply (wp_mkdir m name s dir ess Hlen Hname Hv Hd Hlt Hdu).
  - intros s' n Hwhy Hs' Hne. assert (Hs2 : vol_step s s' (owned (disk_inode dir)) (eq n)) by (eapply vol_step_weaken; [exact Hs'|by intros ? []|done]).
    split; [apply Hs'|]. split; [by eapply Hfr|]. left. split; [done|]. split; [done|].
    split; [eapply dir_ok_step; [exact Hv|exact Hs'|done|naive_solver]|done].
  - intros s' dir' ess' n b [C1 (C2 & C3 & C4) Cb C5 (C6 & C7 & C7') C8 Csub C9]. pose proof (ds_wf _ _ _ _ C1) as Hv'.
    pose proof (ds_lay _ _ _ _ C1) as Hl. split; [done|]. split; [by eapply Hfr|]. right. split; [done|]. split; [done|]. exists n, ess'.
    split; [done|]. split; [done|]. split; [done|]. split; [done|]. cbn [snd].
    enough (Hwp : wp (ext2_lookup dir' name) s' (fun x s2 => x = None /\ refused s' s2 \/
      exists di, x = Some (loaded s' n di) /\ table_entry s' n = Some di)).
    { apply wp_run in Hwp as (x & s2 & Hr & Hq). exists x, s2. split; [done|]. destruct Hq as [|(di & E & Ht)]; [by left|right].
      exists (loaded s' n di). split; [done|]. split; [done|]. destruct C9 as [Ht2|]; [left|by right].
      rewrite Ht in Ht2. injection Ht2 as ->. eexists. split; [exact Csub|]. apply dots_live; [unfold valid_ino in C2; lia|].
      pose proof (fo_ino _ _ (dk_file _ _ _ Hd)) as Hdi. unfold valid_ino in Hdi. lia. }
    apply (wp_lookup s' dir' ess'); [done|done|by rewrite C7|..].
    + intros nm k t Hin. apply (valid_ino_layout _ _ Hl). destruct (added_elem _ _ _ _ _ _ C8 Hin) as [[= -> -> ->]|Hin2]; [done|by eapply Hval].
    + intros s2 _ [Habs|Hh]; [|by left]. exfalso. by eapply (Habs n), added_present.
    + intros s2 k t a b2 di _ E Ha Ht. right. destruct (added_first _ _ _ _ _ _ _ _ _ Hab C8 E) as [-> _]. by exists di.
Qed.
End mkdir.

Lemma ext2_mkdir_lookup_witness :
  exists dir' s', ext2_mkdir tree_root [97] 0x1ED tree_fs = Ret ((0, dir'), s') /\ nlink dir' = 3.
Proof.
  destruct (ext2_mkdir_lookup tree_fs tree_root [dots 1024 2 2] [97] 0x1ED) as (r & dir' & s' & Hr & Hv & _ & Hc).
  - exact tree_vol_wf.
  - exact tree_root_ok.
  - done.
  - cbn. lia.
  - by vm_compute.
  - exact tree_names.
  - cbn. lia.
  - exact tree_name_ok.
  - exact tree_absent.
  - exists dir', s'. destruct Hc as [(_ & _ & _ & [Hi|[Hs|[[Hn _]|Hf]]])|(-> & Hl & _)].
    + by destruct (tree_has_inode Hi).
    + by destruct (tree_has_space Hs).
    + by destruct (tree_has_room Hn).
    + by destruct (never_refused _ _ Hf).
    + split; [exact Hr|]. rewrite Hl. by vm_compute.
Defined.
