(* ===== verification/Ext2Unlink.v ===== *)
(** * Removing files and directories (src/src/fs/ext2/inode.c, directory.c)

    [ext2_delete_inode] releases the blocks and the inode of a file, [ext2_unlink]
    and [ext2_rmdir] take the name out of its directory first.  What is released
    becomes free, every other block and inode is kept, and the name is gone. *)

From S2P Require Import Prelude BlockDev Ext2 Ext2Proof DirBlock Ext2Layout Ext2Files Ext2Inodes Ext2Dirs Ext2Tree Ext2Mkdir.

Section unlink.
Context {D H : Type} `{!BlockDevice D} `{!HealthyDevice D} `{!KHeap H}.
Implicit Types s : ext2 D H.

(** ** Releases: blocks in [R] and inodes in [T] may become free, nothing is written *)
Record released s s' (R T : Z -> Prop) : Prop := {
  rl_wf : vol_wf s';
  rl_lay : same_layout s s';
  rl_keep : forall c, data_blk s c -> ~ R c -> used s' c = used s c;
  rl_free : forall c, data_blk s c -> used s c = false -> used s' c = false;
  rl_blk : forall c, data_blk s c -> ~ R c -> used s c = true -> blk s' c = blk s c;
  rl_tab : forall n, valid_ino s n -> ~ T n -> table_entry s' n = table_entry s n;
  rl_ino : forall n, valid_ino s n -> ~ T n -> ino_used s' n = ino_used s n;
  rl_ref : (refusals s <= refusals s')%nat
}.

Lemma released_trans s1 s2 s3 R T : released s1 s2 R T -> released s2 s3 R T -> released s1 s3 R T.
Proof.
  intros [A1 A2 A3 A4 A5 A6 A7 A8] [B1 B2 B3 B4 B5 B6 B7 B8].
  assert (Hd : forall c, data_blk s1 c -> data_blk s2 c) by (intros c; by apply data_blk_layout).
  assert (Hn : forall n, valid_ino s1 n -> valid_ino s2 n) by (intros n; by apply (valid_ino_layout _ _ A2)).
  split; [done|by etrans|..]; intros.
  - rewrite B3; auto.
  - auto.
  - rewrite B5; auto. rewrite A3; auto.
  - rewrite B6; auto.
  - rewrite B7; auto.
  - by etrans.
Qed.

Lemma released_weaken s s' (R R' T T' : Z -> Prop) : released s s' R T -> (forall c, R c -> R' c) -> (forall n, T n -> T' n) ->
  released s s' R' T'.
Proof. intros [] HR HT. split; auto. Qed.

Lemma used_same s s' c : vol_wf s -> same_but s s' (fun _ => True) -> data_blk s c -> used s' c = used s c.
Proof.
  intros Hv Hs Hc. apply (one_block_used s s' (-1) Hv); [by eapply same_but_weaken| |done].
  intros g Hg. destruct (w_bm _ (vw_fs _ Hv) g Hg) as ([? _] & _). lia.
Qed.

Lemma released_same s s' R T : vol_wf s -> same_but s s' (fun _ => True) -> released s s' R T.
Proof.
  intros Hv Hs. destruct (same_but_data_step s s' (fun _ => False) Hv Hs) as [B1 B2 B3 B4 B5 B6 B7].
  split; try done; intros; first [by rewrite (used_same s s' _ Hv Hs)|by apply B4; auto|by apply B5; auto|by apply B6; auto].
Qed.

Lemma released_inode s s' n di R : inode_step s s' n di -> released s s' R (eq n).
Proof. intros [[A1 A2 A3 A4 A5 A6 A7] B1 B2 _ _]. split; try done; intros; try (by rewrite B1); auto. Qed.

Lemma released_ino s s' n v R : ino_step s s' n v -> released s s' R (eq n).
Proof. intros [[A1 A2 A3 A4 A5 A6 A7] At B1 _ _]. split; try done; intros; try (by rewrite B1); auto. Qed.

Lemma wp_release_block s b Q : vol_wf s -> data_blk s b ->
  (forall s', released s s' (eq b) (fun _ => False) -> refused s s' \/ used s' b = false -> Q tt s') ->
  wp (ext2_free_block b) s Q.
Proof.
  intros Hv Hb HQ. pose proof (vw_fs _ Hv) as Hwf. destruct (number_rel s b Hwf Hb) as (Hg & Hi & En).
  pose proof (db_range _ _ Hb) as Hr. destruct (w_total _ Hwf) as [Ht _].
  apply wp_ext2_free_block; [done|lia|intros s' Hs' _ Hr2; apply HQ; [by apply released_same|by left]|].
  cbv zeta. fold (rel s b). intros s' Hu.
  assert (Hus : forall c, data_blk s c -> used s' c = used s c && negb (c =? b)).
  { intros c Hc. rewrite (bit_update_used _ _ _ _ _ _ Hv Hg Hu Hc). destruct (number_rel s c Hwf Hc) as (_ & _ & Ec). unfold used.
    destruct (Z.eqb_spec (rel s c / s_blocks_per_group (e_sb s)) (rel s b / s_blocks_per_group (e_sb s))) as [E|E].
    - rewrite E. f_equal. f_equal. rewrite E in Ec.
      destruct (Z.eqb_spec (rel s c mod s_blocks_per_group (e_sb s)) (rel s b mod s_blocks_per_group (e_sb s))) as [E2|E2], (Z.eqb_spec c b) as [E3|E3]; try done.
      + rewrite E2, <- En in Ec. done.
      + by subst.
    - destruct (Z.eqb_spec c b); [by subst|]. by rewrite andb_true_r. }
  destruct (bit_update_kept s s' _ _ _ Hv Hg Hu) as [K1 K2 K3 K4 K5 K6].
  { intros j Hj [Hf|Hf]%andb_false_iff; [by apply (vw_free _ Hv)|]. apply negb_false_iff, Z.eqb_eq in Hf as ->. by rewrite <- En. }
  apply HQ; [|right; rewrite Hus, Z.eqb_refl by done; by rewrite andb_false_r]. split; try done.
  - intros c Hc Hne. rewrite Hus by done. destruct (Z.eqb_spec c b) as [->|]; [by destruct Hne|]. by rewrite andb_true_r.
  - intros c Hc Hf. by rewrite Hus, Hf by done.
  - auto.
  - auto.
  - auto.
Qed.

(** ** The direct blocks of a file *)
Definition listed (di : list Z) (lo hi c : Z) : Prop := exists k, lo <= k < hi /\ i_block di k = c /\ c <> 0.

Lemma wp_free_direct m : forall k s di n Q, vol_wf s -> 0 <= k -> k + Z.of_nat m = 12 -> buf_ok 128 di ->
  (forall j, k <= j < 12 -> i_block di j <> 0 -> data_blk s (i_block di j)) ->
  (forall s' di', i_block di' 12 = i_block di 12 -> released s s' (listed di k 12) (eq n) ->
     refused s s' \/ (forall c, listed di k 12 c -> used s' c = false) -> Q di' s') ->
  wp (free_direct m k di) s Q.
Proof.
  induction m as [|m IH]; intros k s di n Q Hv Hk Hm Hdi Hd HQ; cbn [free_direct].
  { apply wp_ret, HQ; [done|apply released_same; [done|apply same_but_refl]|]. right. intros c (j & Hj & _). lia. }
  destruct (Z.eqb_spec (i_block di k) 0) as [E|E].
  { apply wp_bind, wp_ret.
    assert (Hl : forall c, listed di (k + 1) 12 c <-> listed di k 12 c).
    { intros c. split; intros (j & Hj & Ej & Hc); exists j; [split; [lia|done]|]. split; [|done].
      destruct (decide (j = k)) as [->|]; [congruence|lia]. }
    apply (IH _ _ _ n); [done|lia|lia|done|intros j Hj; apply Hd; lia|]. intros s' di' E12 Hr Hf. apply HQ; [done|..].
    - eapply released_weaken; [exact Hr|by intros c ?%Hl|done].
    - destruct Hf as [|Hf]; [by left|right; intros c ?%Hl; auto]. }
  apply wp_bind, wp_bind. apply wp_release_block; [done|apply Hd; [lia|done]|]. intros s1 Hs1 Hb1. apply wp_ret.
  pose proof (rl_lay _ _ _ _ Hs1) as Hl1. set (di1 := set_i_block k 0 di).
  assert (Ei : forall j, 0 <= j < 12 -> i_block di1 j = if j =? k then 0 else i_block di j).
  { intros j Hj. apply i_block_set_block; [done|lia|done|unfold is_u32; lia]. }
  assert (Hl : forall c, listed di1 (k + 1) 12 c -> listed di k 12 c).
  { intros c (j & Hj & Ej & Hc). exists j. rewrite Ei in Ej by lia. destruct (Z.eqb_spec j k); [lia|]. split; [lia|done]. }
  assert (Hs1' : released s s1 (listed di k 12) (eq n)).
  { eapply released_weaken; [exact Hs1| |by intros ? []]. intros c <-. exists k. split; [lia|done]. }
  apply (IH _ _ _ n); [apply Hs1|lia|lia|by apply buf_ok_set_fld|..].
  { intros j Hj. rewrite Ei by lia. destruct (Z.eqb_spec j k); [lia|]. intros Hne. eapply data_blk_layout; [exact Hl1|]. apply Hd; [lia|done]. }
  intros s' di' E12 Hr Hf.
  assert (Hr' : released s1 s' (listed di k 12) (eq n)) by (by eapply released_weaken).
  apply HQ.
  - rewrite E12. apply fld_set_other. lia.
  - by eapply released_trans.
  - destruct Hb1 as [Hno|Hb1].
    { left. eapply refused_sooner; [apply Hr|done]. }
    destruct Hf as [Hno|Hf].
    + left. eapply refused_later; [apply Hs1|done].
    + right. intros c (j & Hj & Ej & Hc). destruct (decide (j = k)) as [->|].
      * subst c. apply (rl_free _ _ _ _ Hr'); [|done]. eapply data_blk_layout; [exact Hl1|]. apply Hd; [lia|done].
      * apply Hf. exists j. split; [lia|]. split; [|done]. rewrite Ei by lia. by destruct (Z.eqb_spec j k).
Qed.

(** ** Deleting an inode *)
Record deleted s' (n : Z) (di : list Z) : Prop := {
  dl_blocks : forall c, owned di c -> used s' c = false;
  dl_ino : ino_used s' n = false;
  dl_entry : table_entry s' n = Some (zeroes sizeof_inode)
}.

Lemma wp_delete_inode s i Q : vol_wf s -> ptrs_ok s (disk_inode i) -> i_block (disk_inode i) 12 = 0 -> valid_ino s (ino i) ->
  (forall s', released s s' (owned (disk_inode i)) (eq (ino i)) ->
     refused s s' \/ deleted s' (ino i) (disk_inode i) ->
     Q (0, with_disk i (zeroes sizeof_inode)) s') ->
  wp (ext2_delete_inode i) s Q.
Proof.
  intros Hv Hp E12 Hn HQ. unfold ext2_delete_inode. set (n := ino i) in *. set (R := owned (disk_inode i)) in *.
  apply wp_bind, wp_get, wp_bind, (wp_free_direct 12 0 s (disk_inode i) n); [done|lia|lia|apply Hp|..].
  { intros j Hj Hne. by apply (po_ptr _ _ Hp). }
  intros s1 di1 E1 Hs1 Hf1. rewrite E1, E12, Z.eqb_refl. apply wp_bind, wp_ret.
  change (listed (disk_inode i) 0 12) with R in *. pose proof (rl_wf _ _ _ _ Hs1) as Hv1.
  assert (Hval : forall s2, released s s2 R (eq n) -> valid_ino s2 n) by (intros s2 [_ Hl]; by apply (valid_ino_layout _ _ Hl)).
  assert (Hend : forall s2, released s1 s2 R (eq n) -> refused s1 s2 \/ table_entry s2 n = Some (zeroes sizeof_inode) ->
    wp (ext2_free_inode n;; mret (0, with_disk i (zeroes sizeof_inode))) s2 Q).
  { intros s2 Hs2 Ht. assert (Hs02 : released s s2 R (eq n)) by (by eapply released_trans).
    pose proof (rl_wf _ _ _ _ Hs2) as Hv2. apply wp_bind, wp_free_inode; [done|by apply Hval|..].
    - intros s3 Hs3 _ Hno. apply wp_ret, HQ; [|left; eapply refused_later; [apply Hs02|done]].
      eapply released_trans; [exact Hs02|]. by apply released_same.
    - intros s3 Hs3. apply wp_ret. pose proof (released_ino _ _ _ _ R Hs3) as Hr3.
      apply HQ; [by eapply released_trans|].
      destruct Hf1 as [Hno|Hf1]; [left; eapply refused_sooner; [|exact Hno]; etrans; [apply Hs2|apply Hr3]|].
      destruct Ht as [Hno|Ht]; [left; eapply refused_later; [apply Hs1|]; by eapply refused_sooner; [apply Hr3|]|]. right. split.
      + intros c Hc. assert (data_blk s c) by (destruct Hc as (k & Hk & <- & Hne); by apply (po_ptr _ _ Hp)).
        apply (rl_free _ _ _ _ Hr3); [by eapply data_blk_layout; [apply Hs02|]|].
        apply (rl_free _ _ _ _ Hs2); [by eapply data_blk_layout; [apply Hs1|]|]. by apply Hf1.
      + rewrite (io_bits _ _ _ _ Hs3) by (by apply Hval). by rewrite Z.eqb_refl.
      + rewrite (io_tab _ _ _ _ Hs3) by (by apply Hval). done. }
  apply wp_bind, wp_write_inode_data; [done|by apply Hval|by apply zeroes_ok|..].
  - intros s2 Hs2 _ Hno. apply Hend; [by apply released_same|]. by left.
  - intros s2 Hs2. apply Hend; [by eapply released_inode|]. right. apply Hs2.
Qed.

(** ** A change followed by a release *)
Record pruned s s' (W R T : Z -> Prop) : Prop := {
  pr_wf : vol_wf s';
  pr_lay : same_layout s s';
  pr_blk : forall c, data_blk s c -> used s c = true -> ~ R c -> used s' c = true /\ (~ W c -> blk s' c = blk s c);
  pr_tab : forall n, valid_ino s n -> ~ T n -> table_entry s' n = table_entry s n;
  pr_ino : forall n, valid_ino s n -> ~ T n -> ino_used s' n = ino_used s n;
  pr_ref : (refusals s <= refusals s')%nat
}.

Lemma pruned_step s s' W R T : vol_step s s' W T -> pruned s s' W R T.
Proof. intros []. split; auto. Qed.

Lemma pruned_release s s1 s2 W R T : pruned s s1 W R T -> released s1 s2 R T -> pruned s s2 W R T.
Proof.
  intros [A1 A2 A3 A4 A5 A6] [B1 B2 B3 B4 B5 B6 B7 B8]. split; [done|by etrans|..|by etrans].
  - intros c Hc Hu HR. destruct (A3 c Hc Hu HR) as [Hu1 Hb1]. assert (Hc1 : data_blk s1 c) by (by eapply data_blk_layout).
    split; [by rewrite B3|]. intros HW. rewrite B5; auto.
  - intros n Hn HT. rewrite B6; auto. by apply (valid_ino_layout _ _ A2).
  - intros n Hn HT. rewrite B7; auto. by apply (valid_ino_layout _ _ A2).
Qed.

Lemma pruned_trans s s1 s2 W R T : pruned s s1 W R T -> pruned s1 s2 W R T -> pruned s s2 W R T.
Proof.
  intros [A1 A2 A3 A4 A5 A6] [B1 B2 B3 B4 B5 B6]. split; [done|by etrans|..|by etrans].
  - intros c Hc Hu HR. destruct (A3 c Hc Hu HR) as [Hu1 Hb1]. destruct (B3 c) as [Hu2 Hb2]; [by eapply data_blk_layout|done|done|].
    split; [done|]. intros HW. rewrite Hb2; auto.
  - intros n Hn HT. rewrite B4; auto. by apply (valid_ino_layout _ _ A2).
  - intros n Hn HT. rewrite B5; auto. by apply (valid_ino_layout _ _ A2).
Qed.

(** Files and directories apart from the blocks changed and released are kept. *)
Section apart.
Context s s' (W R T : Z -> Prop) (Hpr : pruned s s' W R T).

Lemma pruned_ptrs di : ptrs_ok s di -> (forall c, owned di c -> ~ R c) -> ptrs_ok s' di.
Proof.
  intros [Hb Hp Hd] HR. split; [done| |done]. intros k Hk Hne. destruct (Hp k Hk Hne) as [Hdb Hu].
  split; [by eapply data_blk_layout; [apply Hpr|]|]. apply (pr_blk _ _ _ _ _ Hpr); [done|done|]. apply HR. by exists k.
Qed.

Lemma pruned_file_ok i : file_ok s i -> (forall c, owned (disk_inode i) c -> ~ R c) -> file_ok s' i.
Proof.
  intros [Hp Hs Hn] HR. split; [by apply pruned_ptrs|by rewrite (sl_bs _ _ (pr_lay _ _ _ _ _ Hpr))|].
  by apply (valid_ino_layout _ _ (pr_lay _ _ _ _ _ Hpr)).
Qed.

Lemma pruned_contents i : file_ok s i -> (forall c, owned (disk_inode i) c -> ~ R c /\ ~ W c) -> contents s' i = contents s i.
Proof.
  intros [Hp _ _] HW. unfold contents, file_data. do 2 f_equal. apply file_blocks_ext. intros k Hk. unfold file_block.
  rewrite (sl_bs _ _ (pr_lay _ _ _ _ _ Hpr)). destruct (Z.eqb_spec (i_block (disk_inode i) (Z.of_nat k)) 0) as [|Hne]; [done|].
  destruct (po_ptr _ _ Hp (Z.of_nat k) ltac:(lia) Hne) as [Hd Hu].
  destruct (HW (i_block (disk_inode i) (Z.of_nat k))) as [HR HWk]; [exists (Z.of_nat k); split; [lia|done]|].
  by apply (pr_blk _ _ _ _ _ Hpr).
Qed.

Lemma pruned_dir_ok dir ess : vol_wf s -> dir_ok s dir ess -> (forall c, owned (disk_inode dir) c -> ~ R c /\ ~ W c) -> dir_ok s' dir ess.
Proof.
  intros Hv Hd HW. pose proof Hd as [Hf Hs Hb]. split; [apply pruned_file_ok; [done|intros c Hc; by apply HW]|by rewrite (sl_bs _ _ (pr_lay _ _ _ _ _ Hpr))|].
  intros k es Hk. destruct (dir_ptr s dir ess k es Hv Hd Hk) as (Hk12 & Hne & Hdb & Hu & Hbk & Hwf).
  split; [done|]. rewrite (sl_bs _ _ (pr_lay _ _ _ _ _ Hpr)). split; [|done]. rewrite <- Hbk.
  destruct (HW (i_block (disk_inode dir) (Z.of_nat k))) as [HR HWk]; [exists (Z.of_nat k); split; [lia|done]|].
  by apply (pr_blk _ _ _ _ _ Hpr).
Qed.
End apart.

Lemma wp_inode_put s i Q : (forall i' h, (refusals s <= kh_refusals h)%nat -> Q i' (set_heap h s)) -> wp (inode_put i) s Q.
Proof.
  intros HQ. unfold inode_put. cbv zeta. destruct (_ =? 0).
  - apply wp_bind, wp_buf_free. intros h1 H1. apply wp_bind, wp_buf_free. intros h2 H2. apply wp_ret. apply (HQ _ h2). etrans; [exact H1|exact H2].
  - apply wp_ret. specialize (HQ (with_refs i (ref_count i -! 1)) (e_heap s) ltac:(done)). by destruct s.
Qed.

Lemma deleted_heap s n di h : deleted s n di -> deleted (set_heap h s) n di.
Proof. intros []. by split. Qed.

(** ** Unlinking *)

(** An entry that is the only one with its name. *)
Lemma only_split (name : list Z) (i t n t2 : Z) x y : forall a b : listing,
  x ++ (name, i, t) :: y = a ++ (name, n, t2) :: b -> absent name (a ++ b) -> x ++ y = a ++ b.
Proof.
  induction x as [|e x IH]; intros [|e' a] b E Hab; cbn [app] in E |- *.
  - by injection E.
  - injection E as <- _. exfalso. apply (Hab i t). set_solver.
  - injection E as -> <-. exfalso. apply (Hab i t). set_solver.
  - injection E as -> E. f_equal. apply (IH a b E). intros i' t' Hin. apply (Hab i' t'). set_solver.
Qed.

Lemma names_ok_sub s l l' : (forall e, e ∈ l' -> e ∈ l) -> names_ok s l -> names_ok s l'.
Proof. intros Hs Hn name n t Hin. by eapply Hn, Hs. Qed.

(** The file to be removed: its blocks are its own, among the direct ones. *)
Record victim s (dir : inode) (n : Z) (di : list Z) : Prop := {
  vc_entry : table_entry s n = Some di;
  vc_ptrs : ptrs_ok s di;
  vc_single : i_block di 12 = 0;
  vc_other : n <> ino dir;
  vc_apart : forall c, owned di c -> ~ owned (disk_inode dir) c
}.

(** The same inode with a link less. *)
Record fewer_links (di di' : list Z) : Prop := {
  fl_links : i_links_count di' = u16 (i_links_count di - 1);
  fl_size : i_size di' = i_size di;
  fl_mode : i_mode di' = i_mode di;
  fl_block : forall k, 0 <= k -> i_block di' k = i_block di k
}.

Lemma u16_u32 z : u16 (u32 z) = u16 z.
Proof. unfold u16, u32. apply Z.mod_mod_divide. by exists 65536. Qed.

Lemma sync_fewer_links s n di : buf_ok 128 di ->
  fewer_links di (sync_fields (with_nlink (loaded s n di) (i_links_count di -! 1))).
Proof.
  intros [Hl Hb]. split.
  - unfold sync_fields, set_i_flags, set_i_blocks, set_i_ctime, set_i_mtime, set_i_atime, i_links_count. rewrite !fld_set_other by lia.
    unfold set_i_links. rewrite fld_set_same; [cbn [nlink with_nlink]; apply u16_u32|lia| |].
    + unfold set_i_gid, set_i_size, set_i_uid, set_i_mode. rewrite !length_set_fld. cbn [disk_inode with_nlink loaded]. lia.
    + unfold u16. apply Z.mod_pos_bound. lia.
  - unfold sync_fields, set_i_flags, set_i_blocks, set_i_ctime, set_i_mtime, set_i_atime, set_i_links, set_i_gid, i_size.
    rewrite !fld_set_other by lia. unfold set_i_size. pose proof (fld_range 4 di 4 Hb) as Hr.
    rewrite fld_set_same; [cbn [size with_nlink loaded]; by rewrite u32_small|lia| |apply u32_range].
    unfold set_i_uid, set_i_mode. rewrite !length_set_fld. cbn [disk_inode with_nlink loaded]. lia.
  - unfold sync_fields, set_i_flags, set_i_blocks, set_i_ctime, set_i_mtime, set_i_atime, set_i_links, set_i_gid, set_i_size, set_i_uid, i_mode.
    rewrite !fld_set_other by lia. unfold set_i_mode. pose proof (fld_range 2 di 0 Hb) as Hr.
    rewrite fld_set_same; [cbn [mode with_nlink loaded]; by apply Z.mod_small|lia|cbn [disk_inode with_nlink loaded]; lia|].
    apply Z.mod_pos_bound. lia.
  - intros k Hk. by rewrite i_block_sync.
Qed.

Section run.
Context (s : ext2 D H) (dir : inode) (ess : list (list dirent)) (name : list Z) (a : listing) (n t : Z) (b : listing) (di : list Z).
Hypothesis Hv : vol_wf s.
Hypothesis Hd : dir_ok s dir ess.
Hypothesis Hm : FS_IS_DIR (mode dir) = true.
Hypothesis Hnm : names_ok s (dlist ess).
Hypothesis Hl : dlist ess = a ++ (name, n, t) :: b.
Hypothesis Hab : absent name (a ++ b).
Hypothesis Hvc : victim s dir n di.

Definition cut s' := pruned s s' (owned (disk_inode dir)) (owned di) (eq n).

(** The lookup finds the file. *)
Lemma wp_lookup_victim Q :
  (forall s', same_but s s' (fun _ => True) -> refused s s' -> Q None s') ->
  (forall s', same_but s s' (fun _ => True) -> Q (Some (loaded s n di)) s') ->
  wp (ext2_lookup dir name) s Q.
Proof.
  intros HN HS. apply (wp_lookup s dir ess); try done.
  - intros s' Hs' [Habs|]; [|by apply HN]. exfalso. apply (Habs n t). rewrite Hl. set_solver.
  - intros s' n' t' x y di' Hs' E Hx Hdi. rewrite Hl in E.
    assert (Hin : (name, n', t') ∈ a ++ (name, n, t) :: b) by (rewrite E; set_solver).
    assert (n' = n) as ->.
    { apply elem_of_app in Hin as [Hin|[Hin|Hin]%elem_of_cons]; [|by injection Hin|]; exfalso; apply (Hab n' t'); set_solver. }
    rewrite (vc_entry _ _ _ _ Hvc) in Hdi. injection Hdi as <-. by apply HS.
Qed.

(** The entry is taken out. *)
Lemma wp_remove_victim s1 Q : same_but s s1 (fun _ => True) ->
  (forall s', same_but s s' (fun _ => True) -> refused s s' -> Q (-1) s') ->
  (forall s' ess', data_step s s' (owned (disk_inode dir)) -> dir_ok s' dir ess' -> dlist ess' = a ++ b -> Q 0 s') ->
  wp (ext2_remove_dir_entry dir name) s1 Q.
Proof.
  intros Hs1 HN HS. assert (Hst : data_step s s1 (owned (disk_inode dir))) by (by apply same_but_data_step).
  apply (wp_remove_dir_entry s1 dir ess); [apply Hst|by eapply dir_ok_same|..].
  - intros s' Hs' [Habs|Hno].
    + exfalso. apply (Habs n t). rewrite Hl. set_solver.
    + apply HN; [by eapply same_but_true|]. eapply refused_later; [apply Hs1|done].
  - intros s' ess' Hs' Hd' (x & i & t' & y & E1 & E2). apply (HS s' ess'); [by eapply vol_step_trans|done|].
    rewrite E2. rewrite Hl in E1. by apply (only_split name i t' n t x y a b).
Qed.

(** What became of the file. *)
Definition removal s' : Prop :=
  (if i_links_count di =? 1 then deleted s' n di else exists di', table_entry s' n = Some di' /\ fewer_links di di') \/
  refused s s'.

Lemma wp_unlink Q :
  (forall s', same_but s s' (fun _ => True) -> FS_IS_DIR (i_mode di) = true \/ refused s s' -> Q (-1) s') ->
  (forall s' ess', cut s' -> dir_ok s' dir ess' -> dlist ess' = a ++ b -> FS_IS_DIR (i_mode di) = false -> removal s' -> Q 0 s') ->
  wp (ext2_unlink dir name) s Q.
Proof.
  intros HF HS. pose proof Hvc as [Hent Hp E12 Hne Hap]. pose proof (po_disk _ _ Hp) as Hdi.
  assert (Hn : valid_ino s n) by (apply (Hnm name n t); rewrite Hl; set_solver).
  unfold ext2_unlink. apply wp_bind, wp_lookup_victim; [intros s' Hs' Hr; apply wp_ret, HF; [done|by right]|].
  intros s1 Hs1. change (mode (loaded s n di)) with (i_mode di). destruct (FS_IS_DIR (i_mode di)) eqn:Ed.
  { apply wp_bind, wp_inode_put. intros i' h Hle. apply wp_ret, HF; [by apply same_but_heap_r|by left]. }
  apply wp_bind, wp_remove_victim; [done|..].
  { intros s2 Hs2 Hr. cbn [Z.eqb negb]. apply wp_bind, wp_inode_put. intros i' h Hle. apply wp_ret, HF; [by apply same_but_heap_r|right].
    exact (refused_sooner _ s2 (set_heap h s2) Hle Hr). }
  intros s2 ess' Hs2 Hd2 E2. cbn [Z.eqb negb]. cbv zeta.
  pose proof (ds_wf _ _ _ _ Hs2) as Hv2. assert (Hn2 : valid_ino s2 n) by (by apply (valid_ino_layout _ _ (ds_lay _ _ _ _ Hs2))).
  assert (Hc2 : cut s2) by (apply pruned_step; eapply vol_step_weaken; [exact Hs2|done|by intros ? []]).
  assert (Hp2 : ptrs_ok s2 di) by (by eapply ptrs_ok_step).
  assert (Hend : forall i s3, released s2 s3 (owned di) (eq n) -> removal s3 -> wp (inode_put i;; mret 0) s3 Q).
  { intros i s3 Hs3 Hr. apply wp_bind, wp_inode_put. intros i' h Hle. apply wp_ret.
    assert (Hh : released s3 (set_heap h s3) (owned di) (eq n)) by (apply released_same; [apply Hs3|by apply same_but_heap]).
    assert (Hs4 : released s2 (set_heap h s3) (owned di) (eq n)) by (by eapply released_trans).
    apply (HS _ ess'); [by eapply pruned_release| |done|done|].
    - eapply (pruned_dir_ok s2 _ (fun _ => False)); [|done|done|intros c Hc; split; [by intros ?%Hap|tauto]].
      eapply pruned_release; [|exact Hs4]. apply pruned_step. eapply vol_step_weaken; [apply (same_but_data_step s2 s2 (fun _ => False)); [done|apply same_but_refl]|done|by intros ? []].
    - destruct Hr as [Hr|Hr]; [left|right; exact (refused_sooner _ s3 (set_heap h s3) Hle Hr)].
      destruct (i_links_count di =? 1); [by apply deleted_heap|exact Hr]. }
  set (tg := with_nlink (loaded s n di) _). pose proof (fld_range 2 di 26 (proj2 Hdi)) as Hrg.
  assert (Ez : (nlink tg =? 0) = (i_links_count di =? 1)).
  { cbn [tg nlink with_nlink loaded]. unfold i_links_count in *. change (256 ^ Z.of_nat 2) with 65536 in Hrg.
    destruct (Z.eqb_spec (fld 2 di 26) 1) as [->|]; [done|]. apply Z.eqb_neq. unfold u32.
    destruct (decide (fld 2 di 26 = 0)) as [->|]; [by vm_compute|]. rewrite Z.mod_small; lia. }
  rewrite Ez. unfold removal in Hend. destruct (i_links_count di =? 1) eqn:El.
  - apply wp_bind, wp_bind, (wp_delete_inode s2 tg); [done|exact Hp2|exact E12|exact Hn2|].
    intros s3 Hs3 Hr. apply wp_ret, Hend; [exact Hs3|]. destruct Hr as [Hno|Hr]; [right; eapply refused_later; [apply Hs2|done]|by left].
  - apply wp_bind, wp_bind, (wp_write_inode_file s2 tg); [done|exact Hp2|exact Hn2|..].
    + intros s3 Hs3 _ Hno. apply wp_ret, Hend; [by apply released_same|]. right. eapply refused_later; [apply Hs2|done].
    + intros s3 Hs3. apply wp_ret, Hend; [by eapply released_inode|]. left. exists (sync_fields tg). split; [apply Hs3|by apply sync_fewer_links].
Qed.
End run.

(** ** Removing a directory *)
Lemma wp_count_blocks dir l2 : forall s l1 bb count Q, vol_wf s -> dir_ok s dir (l1 ++ l2) ->
  (forall s', same_but s s' (fun _ => True) -> Q (count + Z.of_nat (length (dlist l2))) s') ->
  wp (count_blocks (length l2) (Z.of_nat (length l1)) (disk_inode dir) (e_block_size s) bb count) s Q.
Proof.
  induction l2 as [|es l2 IH]; intros s l1 bb count Q Hv Hd HQ; cbn [length count_blocks].
  { apply wp_ret. rewrite <- (Z.add_0_r count). apply HQ, same_but_refl. }
  destruct (dir_ptr s dir _ (length l1) es Hv Hd) as (Hk & Hne & Hdb & _ & Hb & Hwf); [by rewrite list_lookup_middle|].
  apply wp_bind, wp_resolve_direct; [lia|]. destruct (Z.eqb_spec (i_block (disk_inode dir) (Z.of_nat (length l1))) 0); [done|].
  apply wp_bind, wp_read_block; [apply Hdb|]. intros s1 Hs1 _. rewrite Hb. pose proof (w_bs_val _ (vw_fs _ Hv)) as Hbs.
  pose proof (dir_wf_length _ _ Hwf) as Hlen. destruct Hwf as [Hok Ebs].
  apply wp_bind. eapply wp_of_run; [apply (count_in_block_run (e_block_size s) es _ []); [done|lia|done|lia]|].
  pose proof (dir_ok_same _ _ _ _ Hv Hs1 Hd) as Hd1. rewrite cons_middle, app_assoc in Hd1.
  replace (Z.of_nat (length l1) + 1) with (Z.of_nat (length (l1 ++ [es]))) by (rewrite length_app; cbn; lia).
  rewrite <- (sm_bs _ _ _ Hs1). apply IH; [by eapply (same_but_data_step s s1 (fun _ => False))|done|].
  intros s' Hs'. rewrite <- Z.add_assoc, <- Nat2Z.inj_add, <- length_app, <- dlist_cons.
  apply HQ. eapply same_but_weaken; [by eapply same_but_trans|done].
Qed.

(** A change that releases nothing keeps what was deleted. *)
Abbreviation unchanged s s' := (released s s' (fun _ => False) (fun _ => False)).

Lemma unchanged_step s s' : data_step s s' (fun _ => False) -> (forall c, data_blk s c -> used s' c = used s c) -> unchanged s s'.
Proof. intros [] Hu. split; auto. intros c Hc. rewrite Hu; auto. Qed.

Lemma deleted_unchanged s s' n di : unchanged s s' -> valid_ino s n -> (forall c, owned di c -> data_blk s c) ->
  deleted s n di -> deleted s' n di.
Proof.
  intros [A1 A2 A3 A4 A5 A6 A7 A8] Hn Hdb [B1 B2 B3]. split.
  - intros c Hc. rewrite A3 by auto. auto.
  - by rewrite A7 by tauto.
  - by rewrite A6 by tauto.
Qed.

(** The end of [ext2_rmdir]: the directory count of the group, and the inode is dropped. *)
Lemma wp_rmdir_count {A} s i (r : A) Q : vol_wf s -> valid_ino s (ino i) -> (forall s', unchanged s s' -> Q r s') ->
  wp (s ← st_get;
      group ← udiv (ino i -! 1) (s_inodes_per_group (e_sb s));
      gd ← get_gd group;
      (if 0 <? bg_used_dirs_count gd then put_gd group (set_bg_used_dirs (bg_used_dirs_count gd - 1) gd) else mret tt);;
      ext2_flush_group_desc group;;
      inode_put i;;
      mret r) s Q.
Proof.
  intros Hv Hn HQ. pose proof (vw_fs _ Hv) as Hwf. pose proof (w_ipg _ Hwf). pose proof (w_itotal _ Hwf).
  assert (Hend : forall s', data_step s s' (fun _ => False) -> (forall c, data_blk s c -> used s' c = used s c) ->
    wp (inode_put i;; mret r) s' Q).
  { intros s' Hs' Hu. apply wp_bind, wp_inode_put. intros i' h Hle. apply wp_ret, HQ.
    eapply released_trans; [by apply unchanged_step|]. apply released_same; [apply Hs'|by apply same_but_heap]. }
  destruct (loc_number s (ino i) Hwf Hn) as (Hg & _). unfold valid_ino in Hn.
  apply wp_bind, wp_get. rewrite (u32_small (ino i - 1)) by (unfold is_u32; lia). apply wp_bind, wp_udiv; [lia|].
  fold (loc_group s (ino i)). destruct (wf_gd s _ Hwf Hg) as (gd & Hgd & _). apply wp_bind, (wp_get_gd _ _ gd); [done|].
  destruct (0 <? bg_used_dirs_count gd).
  - apply (wp_store_counters s (loc_group s (ino i)) gd); [done|done|done|by apply counter_gd_set|done].
  - by apply wp_bind, wp_ret, wp_flush_counters.
Qed.

Lemma disk_with_disk i d : disk_inode (with_disk i d) = d.
Proof. done. Qed.

(** A directory apart from the blocks released stays as it is. *)
Lemma released_dir_ok s s' R T dir ess : vol_wf s -> released s s' R T -> dir_ok s dir ess ->
  (forall c, owned (disk_inode dir) c -> ~ R c) -> dir_ok s' dir ess.
Proof.
  intros Hv Hs Hd HR. eapply (pruned_dir_ok s _ (fun _ => False) R T); [|done|done|intros c Hc; split; [by apply HR|tauto]].
  eapply pruned_release; [|exact Hs]. apply pruned_step. eapply vol_step_weaken; [apply (same_but_data_step s s (fun _ => False)); [done|apply same_but_refl]|done|by intros ? []].
Qed.

Section rmdir.
Context (s : ext2 D H) (dir : inode) (ess : list (list dirent)) (name : list Z) (a : listing) (n t : Z) (b : listing) (di : list Z).
Context (sub : list (list dirent)).
Hypothesis Hv : vol_wf s.
Hypothesis Hd : dir_ok s dir ess.
Hypothesis Hm : FS_IS_DIR (mode dir) = true.
Hypothesis Hnm : names_ok s (dlist ess).
Hypothesis Hl : dlist ess = a ++ (name, n, t) :: b.
Hypothesis Hab : absent name (a ++ b).
Hypothesis Hvc : victim s dir n di.
Hypothesis Hsub : dir_ok s (loaded s n di) sub.

Definition cut_dir s' := pruned s s' (owned (disk_inode dir)) (owned di) (fun k => k = n \/ k = ino dir).
Definition dir_removal s' : Prop := deleted s' n di \/ refused s s'.

(** Everything after the entry was taken out. *)
Lemma wp_rmdir_end s2 ess' Q : data_step s s2 (owned (disk_inode dir)) -> dir_ok s2 dir ess' ->
  (forall s' dir', cut_dir s' -> dir_ok s' dir' ess' -> ino dir' = ino dir /\ mode dir' = mode dir /\ nlink dir' = nlink dir -! 1 ->
     (forall c, owned (disk_inode dir') c -> owned (disk_inode dir) c) -> dir_removal s' -> Q (0, dir') s') ->
  wp ('(_, dir) ← ext2_write_inode (with_nlink dir (nlink dir -! 1));
      '(_, target) ← ext2_delete_inode (loaded s n di);
      s ← st_get;
      group ← udiv (ino target -! 1) (s_inodes_per_group (e_sb s));
      gd ← get_gd group;
      (if 0 <? bg_used_dirs_count gd then put_gd group (set_bg_used_dirs (bg_used_dirs_count gd - 1) gd) else mret tt);;
      ext2_flush_group_desc group;;
      inode_put target;;
      mret (0, dir)) s2 Q.
Proof.
  intros Hs2 Hd2 HQ. pose proof Hvc as [Hent Hp E12 Hne Hap]. set (T := fun k => k = n \/ k = ino dir).
  assert (Hn : valid_ino s n) by (apply (Hnm name n t); rewrite Hl; set_solver).
  remember (with_nlink dir (nlink dir -! 1)) as d2 eqn:E2. remember (with_disk d2 (sync_fields d2)) as d3 eqn:E3.
  assert (Hd2' : dir_ok s2 d2 ess') by (destruct Hd2 as [[] ? ?]; subst d2; by split).
  assert (Hd3 : dir_ok s2 d3 ess') by (rewrite E3; exact (dir_ok_sync s2 d2 ess' Hd2')).
  assert (Ho3 : forall c, owned (disk_inode d3) c -> owned (disk_inode dir) c).
  { rewrite E3, disk_with_disk. intros c Hc. apply owned_sync in Hc. rewrite E2 in Hc. exact Hc. }
  assert (Hap3 : forall c, owned (disk_inode d3) c -> ~ owned di c) by (intros c Hc%Ho3 Hc2; by eapply Hap).
  assert (Hsame : ino d3 = ino dir /\ mode d3 = mode dir /\ nlink d3 = nlink dir -! 1) by (by subst).
  pose proof (ds_wf _ _ _ _ Hs2) as Hv2.
  assert (Hc2 : cut_dir s2) by (apply pruned_step; eapply vol_step_weaken; [exact Hs2|done|by intros ? []]).
  assert (Hcut : forall sx, released s2 sx (owned di) T -> cut_dir sx) by (intros sx Hx; by eapply pruned_release).
  assert (Hdel : forall s3, released s2 s3 (fun _ => False) T ->
    wp ('(_, target) ← ext2_delete_inode (loaded s n di);
      s ← st_get;
      group ← udiv (ino target -! 1) (s_inodes_per_group (e_sb s));
      gd ← get_gd group;
      (if 0 <? bg_used_dirs_count gd then put_gd group (set_bg_used_dirs (bg_used_dirs_count gd - 1) gd) else mret tt);;
      ext2_flush_group_desc group;;
      inode_put target;;
      mret (0, d3)) s3 Q).
  { intros s3 Hs3. pose proof (rl_wf _ _ _ _ Hs3) as Hv3.
    assert (Hs3' : released s2 s3 (owned di) T) by (eapply released_weaken; [exact Hs3|by intros ? []|done]).
    assert (Hval : forall sx, cut_dir sx -> valid_ino sx n) by (intros sx Hx; by apply (valid_ino_layout _ _ (pr_lay _ _ _ _ _ Hx))).
    assert (Hp3 : ptrs_ok s3 di).
    { assert (Hp2 : ptrs_ok s2 di) by (by eapply ptrs_ok_step). destruct Hp2 as [P1 P2 P3]. split; [done| |done]. intros k Hk Hk0.
      destruct (P2 k Hk Hk0) as [Hdb Hu]. split; [by eapply data_blk_layout; [apply Hs3|]|]. rewrite (rl_keep _ _ _ _ Hs3); [done|done|by intros []]. }
    apply wp_bind, (wp_delete_inode s3 (loaded s n di)); [done|exact Hp3|exact E12|by apply Hval, Hcut|].
    cbn [disk_inode loaded ino]. intros s4 Hs4 Hres.
    assert (Hw : forall sx, released s3 sx (owned di) (eq n) -> released s2 sx (owned di) T).
    { intros sx Hx. eapply released_trans; [exact Hs3'|eapply released_weaken; [exact Hx|done|by left]]. }
    apply wp_rmdir_count; [apply Hs4|by apply Hval, Hcut, Hw|]. intros s5 Hs5.
    assert (Hs25 : released s2 s5 (owned di) T).
    { eapply released_trans; [by apply Hw|]. eapply released_weaken; [exact Hs5|by intros ? []|by intros ? []]. }
    apply HQ; [by apply Hcut|apply (released_dir_ok s2 s5 (owned di) T); [done|exact Hs25|exact Hd3|exact Hap3]|exact Hsame|exact Ho3|].
    destruct Hres as [Hno|Hres]; [right|left].
    { eapply refused_later; [etrans; [apply Hs2|apply Hs3]|]. by eapply refused_sooner; [apply Hs5|]. }
    eapply deleted_unchanged; [exact Hs5|by apply Hval, Hcut, Hw| |exact Hres].
    intros c (k & Hk & <- & Hk0). eapply data_blk_layout; [apply Hs4|]. by apply (po_ptr _ _ Hp3). }
  pose proof (dk_file _ _ _ Hd2) as [Hf1 _ Hf3].
  apply wp_bind, wp_write_inode_file; [done|by subst d2|by subst d2|..]; rewrite <- E3.
  - intros s3 Hs3 _ _. apply Hdel. by apply released_same.
  - intros s3 Hs3. apply Hdel. eapply released_weaken; [by eapply (released_inode _ _ _ _ (fun _ => False))|done|].
    intros k <-. right. by subst d2.
Qed.

Lemma wp_rmdir Q :
  (forall s', same_but s s' (fun _ => True) ->
     FS_IS_DIR (i_mode di) = false \/ (2 < length (dlist sub))%nat \/ refused s s' -> Q (-1, dir) s') ->
  (forall s' dir' ess', cut_dir s' -> dir_ok s' dir' ess' -> dlist ess' = a ++ b ->
     ino dir' = ino dir /\ mode dir' = mode dir /\ nlink dir' = nlink dir -! 1 ->
     (forall c, owned (disk_inode dir') c -> owned (disk_inode dir) c) ->
     FS_IS_DIR (i_mode di) = true -> (length (dlist sub) <= 2)%nat -> dir_removal s' -> Q (0, dir') s') ->
  wp (ext2_rmdir dir name) s Q.
Proof.
  intros HF HS. unfold ext2_rmdir. apply wp_bind, (wp_lookup_victim s dir ess name a n t b di); try done.
  { intros s' Hs' Hr. apply wp_ret, HF; [done|by right; right]. }
  intros s1 Hs1. change (mode (loaded s n di)) with (i_mode di). destruct (FS_IS_DIR (i_mode di)) eqn:Ed; cbn [negb].
  2: { apply wp_bind, wp_inode_put. intros i' h Hle. apply wp_ret, HF; [by apply same_but_heap_r|by left]. }
  apply wp_bind, wp_get. cbv zeta. pose proof (w_bs_val _ (vw_fs _ Hv)) as Hbs. rewrite (sm_bs _ _ _ Hs1).
  apply wp_bind, wp_buf_alloc; [lia|..].
  { intros h _ Hr. apply wp_bind, wp_inode_put. intros i' h2 Hle2. apply wp_ret, HF.
    - apply same_but_heap_r; [by apply same_but_heap_r, refused_heap|done].
    - right; right. apply (refused_sooner _ (set_heap h s1)); [exact Hle2|]. eapply refused_later; [apply Hs1|done]. }
  intros h bb _ Hle1. set (s2 := set_heap h s1). assert (Hs2 : same_but s s2 (fun _ => True)) by (by apply same_but_heap_r).
  assert (Hst2 : data_step s s2 (fun _ => False)) by (by apply same_but_data_step). pose proof (ds_wf _ _ _ _ Hst2) as Hv2.
  assert (Hsub2 : dir_ok s2 (loaded s n di) sub) by (exact (dir_ok_same s s2 _ _ Hv Hs2 Hsub)).
  rewrite <- (sm_bs _ _ _ Hs2). apply wp_bind, (wp_dir_blocks s2 (loaded s n di) sub); [done|done|]. rewrite Nat2Z.id.
  apply wp_bind, (wp_count_blocks (loaded s n di) sub s2 []); [done|done|]. intros s3 Hs3.
  assert (Hs03 : same_but s s3 (fun _ => True)) by (eapply same_but_weaken; [by eapply same_but_trans|done]).
  apply wp_bind, wp_buf_free. intros h3 Hle3. rewrite Z.add_0_l. destruct (Z.ltb_spec 2 (Z.of_nat (length (dlist sub)))) as [Hgt|Hle].
  { apply wp_bind, wp_inode_put. intros i' h4 Hle4. apply wp_ret, HF; [apply same_but_heap_r; [by apply same_but_heap_r|done]|]. right; left. lia. }
  apply wp_bind, (wp_remove_victim s dir ess name a n t b di); try done; [by apply same_but_heap_r|..].
  { intros s4 Hs4 Hr. cbn [Z.eqb negb]. apply wp_bind, wp_inode_put. intros i' h4 Hle4. apply wp_ret, HF; [by apply same_but_heap_r|right; right].
    exact (refused_sooner _ s4 (set_heap h4 s4) Hle4 Hr). }
  intros s4 ess' Hs4 Hd4 E4. change (negb (0 =? 0)) with false. cbv iota. apply (wp_rmdir_end s4 ess'); [done|done|]. intros s' dir' H1 H2 H3 H4 H5.
  apply (HS s' dir' ess'); try done. clear -Hle. lia.
Qed.
End rmdir.

(** ** Theorems *)

(** The name is not found any more. *)
Lemma lookup_gone s dir ess name : vol_wf s -> dir_ok s dir ess -> FS_IS_DIR (mode dir) = true -> names_ok s (dlist ess) ->
  absent name (dlist ess) -> exists s2, ext2_lookup dir name s = Ret (None, s2).
Proof.
  intros Hv Hd Hm Hnm Hab. enough (Hwp : wp (ext2_lookup dir name) s (fun x _ => x = None)).
  { apply wp_run in Hwp as (x & s2 & Hr & ->). by exists s2. }
  apply (wp_lookup s dir ess); try done. intros s' n t a b di _ E _ _. exfalso. apply (Hab n t). rewrite E. set_solver.
Qed.

(** (C11) A removed file is gone and its space is free.  Unlinking the only entry
    with a name, for a file whose blocks are among the direct ones and its own,
    always returns.  It reports -1 and changes nothing when the inode is a directory
    or the heap refused a buffer; otherwise it reports 0, the directory lists exactly
    the other entries, in order, and [ext2_lookup] of the name finds nothing.  If it
    was the last link, every block of the file and its inode are marked free and its
    entry in the inode table is zeroed; if not, the entry has one link less and the
    same size and blocks; in either case unless the heap refused a buffer on the way.
    Files that share no block with the directory or the file keep their bytes, and
    every other inode keeps its entry and its mark. *)
Theorem ext2_unlink_removes s dir ess name a n t b di :
  vol_wf s -> dir_ok s dir ess -> FS_IS_DIR (mode dir) = true -> names_ok s (dlist ess) ->
  dlist ess = a ++ (name, n, t) :: b -> absent name (a ++ b) -> victim s dir n di ->
  exists r s', ext2_unlink dir name s = Ret (r, s') /\ vol_wf s' /\
    (forall j, file_ok s j -> (forall c, owned (disk_inode j) c -> ~ owned di c /\ ~ owned (disk_inode dir) c) ->
       file_ok s' j /\ contents s' j = contents s j) /\
    (forall k, valid_ino s k -> k <> n -> table_entry s' k = table_entry s k /\ ino_used s' k = ino_used s k) /\
    (r = -1 /\ dir_ok s' dir ess /\ (FS_IS_DIR (i_mode di) = true \/ refused s s') \/
     r = 0 /\ FS_IS_DIR (i_mode di) = false /\ exists ess', dir_ok s' dir ess' /\ dlist ess' = a ++ b /\
       (exists s2, ext2_lookup dir name s' = Ret (None, s2)) /\
       ((if i_links_count di =? 1 then deleted s' n di else exists di', table_entry s' n = Some di' /\ fewer_links di di') \/
        refused s s')).
Proof.
  intros Hv Hd Hm Hnm Hl Hab Hvc.
  match goal with |- exists r s', _ = _ /\ @?P r s' =>
    enough (Hwp : wp (ext2_unlink dir name) s (fun r s' => P r s')) by (apply wp_run in Hwp as (r & s' & Hr & Hq); by exists r, s') end.
  apply (wp_unlink s dir ess name a n t b di); try done; cbv beta.
  - intros s' Hs' Hwhy. pose proof (same_but_data_step s s' (fun _ => False) Hv Hs') as Hst. split; [apply Hst|]. split; [|split].
    + intros j Hj _. split; [by eapply file_ok_step|]. unfold contents. f_equal. eapply file_data_step; [exact Hst|apply Hj|naive_solver].
    + intros k Hk _. split; [by apply (ds_tab _ _ _ _ Hst); [|tauto]|by apply (ds_ino _ _ _ _ Hst); [|tauto]].
    + left. split; [done|]. split; [by eapply dir_ok_same|done].
  - intros s' ess' Hc Hd' E Hnd Hr. pose proof (pr_wf _ _ _ _ _ Hc) as Hv'. split; [done|]. split; [|split].
    + intros j Hj Hap. split; [eapply pruned_file_ok; [exact Hc|done|intros c Hc'; by apply Hap]|by eapply pruned_contents].
    + intros k Hk Hne. split; [apply (pr_tab _ _ _ _ _ Hc)|apply (pr_ino _ _ _ _ _ Hc)]; try done; by intros ->.
    + right. split; [done|]. split; [done|]. exists ess'. split; [done|]. split; [done|]. split; [|exact Hr].
      apply (lookup_gone s' dir ess'); try done; [|by rewrite E]. intros nm k t' Hin. apply (valid_ino_layout _ _ (pr_lay _ _ _ _ _ Hc)).
      apply (Hnm nm k t'). rewrite Hl. rewrite E in Hin. set_solver.
Qed.

(** (C12) A directory is removed exactly when it is empty.  For a subdirectory in
    the direct blocks, apart from its parent's, under a name its parent lists once,
    [ext2_rmdir] always returns.  It reports -1 and changes nothing when the inode is
    no directory, when it lists more than two entries, or when the heap refused a
    buffer; otherwise the parent lists exactly the other entries and has one link
    less, the name is not found, and the directory's blocks and inode are free, unless
    the heap refused a buffer on the way.  Files that share no block with the two
    directories keep their bytes. *)
Theorem ext2_rmdir_removes s dir ess name a n t b di sub :
  vol_wf s -> dir_ok s dir ess -> FS_IS_DIR (mode dir) = true -> names_ok s (dlist ess) ->
  dlist ess = a ++ (name, n, t) :: b -> absent name (a ++ b) -> victim s dir n di -> dir_ok s (loaded s n di) sub ->
  exists r dir' s', ext2_rmdir dir name s = Ret ((r, dir'), s') /\ vol_wf s' /\
    (forall j, file_ok s j -> (forall c, owned (disk_inode j) c -> ~ owned di c /\ ~ owned (disk_inode dir) c) ->
       file_ok s' j /\ contents s' j = contents s j) /\
    (r = -1 /\ dir' = dir /\ dir_ok s' dir ess /\ dir_ok s' (loaded s n di) sub /\
       (FS_IS_DIR (i_mode di) = false \/ (2 < length (dlist sub))%nat \/ refused s s') \/
     r = 0 /\ FS_IS_DIR (i_mode di) = true /\ (length (dlist sub) <= 2)%nat /\ nlink dir' = nlink dir -! 1 /\
     exists ess', dir_ok s' dir' ess' /\ dlist ess' = a ++ b /\ (exists s2, ext2_lookup dir' name s' = Ret (None, s2)) /\
       (deleted s' n di \/ refused s s')).
Proof.
  intros Hv Hd Hm Hnm Hl Hab Hvc Hsub.
  match goal with |- exists r dir' s', _ = _ /\ @?P r dir' s' =>
    enough (Hwp : wp (ext2_rmdir dir name) s (fun r s' => P r.1 r.2 s')) by
      (apply wp_run in Hwp as ([r dir'] & s' & Hr & Hq); by exists r, dir', s') end.
  apply (wp_rmdir s dir ess name a n t b di sub); try done; cbv beta; cbn [fst snd].
  - intros s' Hs' Hwhy. pose proof (same_but_data_step s s' (fun _ => False) Hv Hs') as Hst. split; [apply Hst|]. split.
    + intros j Hj _. split; [by eapply file_ok_step|]. unfold contents. f_equal. eapply file_data_step; [exact Hst|apply Hj|naive_solver].
    + left. split; [done|]. split; [done|]. split; [by eapply dir_ok_same|]. split; [exact (dir_ok_same s s' _ _ Hv Hs' Hsub)|done].
  - intros s' dir' ess' Hc Hd' E (Ei & Em & En) _ Hdir Hlen Hr. pose proof (pr_wf _ _ _ _ _ Hc) as Hv'. split; [done|]. split.
    + intros j Hj Hap. split; [eapply pruned_file_ok; [exact Hc|done|intros c Hc'; by apply Hap]|by eapply pruned_contents].
    + right. split; [done|]. split; [done|]. split; [done|]. split; [done|]. exists ess'. split; [done|]. split; [done|].
      split; [|exact Hr]. apply (lookup_gone s' dir' ess'); try done; [by rewrite Em| |by rewrite E].
      intros nm k t' Hin. apply (valid_ino_layout _ _ (pr_lay _ _ _ _ _ Hc)). apply (Hnm nm k t'). rewrite Hl. rewrite E in Hin. set_solver.
Qed.
End unlink.

(** ** Witnesses: a full volume whose root lists a file "a" with a block and an
    empty directory "d" *)
Definition home_entries : list dirent :=
  [{| d_ino := 2; d_type := EXT2_FT_DIR; d_name := [46]; d_pad := zeroes 3 |};
   {| d_ino := 2; d_type := EXT2_FT_DIR; d_name := [46; 46]; d_pad := zeroes 2 |};
   {| d_ino := 3; d_type := EXT2_FT_REG_FILE; d_name := [97]; d_pad := zeroes 3 |};
   {| d_ino := 4; d_type := EXT2_FT_DIR; d_name := [100]; d_pad := zeroes 979 |}].
Definition home_file : list Z := set_i_block 0 7 (set_i_size 5 (new_file 0x1A4)).
Definition home_dir : list Z := new_dir 0x1ED 1024 8.
Definition home_disk : ram_disk :=
  {| rd_bs := 1024;
     rd_data := <[3%nat := 255 :: zeroes 1023]> (<[4%nat := 15 :: zeroes 1023]>
       (<[5%nat := zeroes 256 ++ home_file ++ home_dir ++ zeroes 512]>
       (<[6%nat := dir_block home_entries]> (<[8%nat := dir_block (dots 1024 4 2)]> (rd_data tree_disk))))) |}.
Definition home_fs : ext2 ram_disk nat := set_dev home_disk tree_fs.

Lemma home_dev : same_but tree_fs home_fs (fun c => c <> 3 /\ c <> 4 /\ c <> 5 /\ c <> 6 /\ c <> 8).
Proof.
  split; [reflexivity..| |reflexivity]. intros c [Hc0 Hc1] Hne. cbn [tree_fs e_dev set_dev set_gds set_sb] in Hc1. change (bd_blocks tree_disk) with 16 in Hc1.
  assert (c = 0 \/ c = 1 \/ c = 2 \/ c = 7 \/ c = 9 \/ c = 10 \/ c = 11 \/ c = 12 \/ c = 13 \/ c = 14 \/ c = 15) as Hc by lia.
  destruct_or! Hc; subst c; by vm_compute.
Qed.

Lemma home_layout : same_layout tiny_fs home_fs.
Proof. etrans; [apply tree_wf|]. eapply same_but_layout, home_dev. Qed.

(** Every block is in use. *)
Lemma home_bits g i : 0 <= g < e_groups_count tiny_fs -> 0 <= i < 8 -> block_bit home_fs g i = true.
Proof.
  intros Hg Hi. assert (g = 0) as -> by (cbn [tiny_fs e_groups_count] in Hg; lia).
  assert (i = 0 \/ i = 1 \/ i = 2 \/ i = 3 \/ i = 4 \/ i = 5 \/ i = 6 \/ i = 7) as Hc by lia.
  destruct_or! Hc; subst i; by vm_compute.
Qed.

Lemma home_vol_wf : vol_wf home_fs.
Proof.
  pose proof home_layout as Hl. pose proof tiny_vol_wf as [_ Hit Hfree Htab]. split.
  - eapply same_but_wf; [exact home_dev|apply tree_wf].
  - by eapply itable_layout.
  - intros g i. rewrite (sl_gc _ _ Hl), (group_bits_layout _ _ Hl), (sl_fdb _ _ Hl), (sl_bpg _ _ Hl). intros Hg Hi.
    destruct (group_bits_spec tiny_fs g tiny_fs_wf Hg) as [Hgb _]. destruct tiny_numbers as (_ & _ & _ & _ & _ & Ebpg & _).
    rewrite Ebpg in Hgb. by rewrite home_bits by lia.
  - intros n Hn%(valid_ino_layout _ _ Hl). destruct (loc_layout _ _ Hl n) as (-> & _). rewrite (meta_layout _ _ Hl).
    destruct (Htab n Hn) as [H1 H2]. split; [done|]. intros g. rewrite (sl_gc _ _ Hl), (sl_bm _ _ Hl), (sl_ibm _ _ Hl). auto.
Qed.

(** Blocks 6 to 8 are data blocks in use. *)
Lemma home_data b : 6 <= b <= 8 -> data_blk home_fs b /\ used home_fs b = true.
Proof.
  intros Hb. split.
  - eapply data_blk_layout; [exact home_layout|]. replace b with (1 + 0 * 8 + (b - 1)) by lia. apply (vw_free _ tiny_vol_wf 0 (b - 1)); [cbn; lia|..].
    + change (group_bits tiny_fs 0) with 8. lia.
    + assert (b = 6 \/ b = 7 \/ b = 8) as Hc by lia. destruct_or! Hc; subst b; by vm_compute.
  - assert (b = 6 \/ b = 7 \/ b = 8) as Hc by lia. destruct_or! Hc; subst b; by vm_compute.
Qed.

Lemma home_ino n : 1 <= n <= 8 -> valid_ino home_fs n.
Proof.
  intros Hn. apply (valid_ino_layout _ _ home_layout). destruct tiny_numbers as (_ & _ & _ & _ & _ & _ & Eipg & _). unfold valid_ino.
  rewrite Eipg. cbn [tiny_fs e_groups_count]. lia.
Qed.

Lemma one_ptr_ok di b : buf_ok 128 di -> 6 <= b <= 8 -> (forall k, 0 <= k < 12 -> i_block di k = if k =? 0 then b else 0) ->
  ptrs_ok home_fs di.
Proof.
  intros Hdi Hb Hp. split; [done|..].
  - intros k Hk. rewrite Hp by done. destruct (Z.eqb_spec k 0); [|done]. intros _. by apply home_data.
  - intros j k Hj Hk. rewrite !Hp by done. destruct (Z.eqb_spec j 0), (Z.eqb_spec k 0); lia.
Qed.

Lemma home_file_ptr k : 0 <= k < 12 -> i_block home_file k = if k =? 0 then 7 else 0.
Proof.
  intros Hk. unfold home_file. rewrite i_block_set_block; [|repeat apply buf_ok_set_fld; by apply zeroes_ok|lia|done|unfold is_u32; lia].
  destruct (k =? 0); [done|]. rewrite i_block_set_size by lia.
  transitivity (i_block (zeroes 128) k); [|apply i_block_zeroes; lia].
  unfold i_block, new_file, set_i_links, set_i_mode. by rewrite !fld_set_other by lia.
Qed.
Lemma home_dir_ptr k : 0 <= k < 12 -> i_block home_dir k = if k =? 0 then 8 else 0.
Proof. intros Hk. apply new_dir_ptr; [unfold is_u32; lia|done]. Qed.

Lemma one_owned di b c : (forall k, 0 <= k < 12 -> i_block di k = if k =? 0 then b else 0) -> owned di c -> c = b.
Proof. intros Hp (k & Hk & <- & Hne). rewrite Hp in Hne |- * by done. by destruct (k =? 0). Qed.

Lemma home_entries_wf : dir_wf 1024 home_entries.
Proof.
  split.
  - repeat apply Forall_cons_2; [..|apply Forall_nil_2]; split; cbn [d_ino d_type d_name d_pad length]; try done; try (by vm_compute);
      try (unfold is_u32, is_u8; lia); try (apply zeroes_ok; lia); repeat constructor; unfold is_u8; lia.
  - by vm_compute.
Qed.

Lemma home_root_ok : dir_ok home_fs tree_root [home_entries].
Proof.
  split.
  - split; [|cbn; lia|by apply home_ino]. apply (one_ptr_ok _ 6); [apply buf_ok_set_fld; by apply zeroes_ok|lia|exact tree_root_ptr].
  - done.
  - intros [|k] es Hk; [|done]. cbn in Hk. injection Hk as <-. rewrite tree_root_ptr by lia. split; [done|]. split; [|exact home_entries_wf].
    by vm_compute.
Qed.

Definition home_list : listing := [([46], 2, EXT2_FT_DIR); ([46; 46], 2, EXT2_FT_DIR); ([97], 3, EXT2_FT_REG_FILE); ([100], 4, EXT2_FT_DIR)].
Lemma home_dlist : dlist [home_entries] = home_list.
Proof. done. Qed.

Lemma home_names : names_ok home_fs (dlist [home_entries]).
Proof. intros nm n t Hin. rewrite home_dlist in Hin. apply home_ino. unfold home_list in Hin. set_solver by lia. Qed.

Lemma home_victim n di b : n <> 2 -> table_entry home_fs n = Some di -> buf_ok 128 di -> 7 <= b <= 8 -> i_block di 12 = 0 ->
  (forall k, 0 <= k < 12 -> i_block di k = if k =? 0 then b else 0) -> victim home_fs tree_root n di.
Proof.
  intros Hn He Hdi Hb H12 Hp. split; [exact He| |exact H12|exact Hn|].
  - apply (one_ptr_ok _ b); [exact Hdi|lia|exact Hp].
  - intros c Hc%(one_owned _ b) Hc2; [|exact Hp]. apply (one_owned _ 6) in Hc2; [lia|exact tree_root_ptr].
Qed.

Lemma home_sub_ok : dir_ok home_fs (loaded home_fs 4 home_dir) [dots 1024 4 2].
Proof.
  destruct (home_data 8 ltac:(lia)) as [H1 H2]. assert (Hb : blk home_fs 8 = dir_block (dots 1024 4 2)) by (by vm_compute).
  exact (new_dir_dir_ok home_fs 4 0x1ED 8 2 home_vol_wf (home_ino 4 ltac:(lia)) H1 H2 ltac:(unfold is_u32; lia) Hb).
Qed.

Lemma ext2_unlink_removes_witness : exists s', ext2_unlink tree_root [97] home_fs = Ret (0, s') /\ ino_used s' 3 = false /\ used s' 7 = false.
Proof.
  destruct (ext2_unlink_removes home_fs tree_root [home_entries] [97] [([46], 2, EXT2_FT_DIR); ([46; 46], 2, EXT2_FT_DIR)] 3 EXT2_FT_REG_FILE
    [([100], 4, EXT2_FT_DIR)] home_file) as (r & s' & Hr & _ & _ & _ & Hc).
  - exact home_vol_wf.
  - exact home_root_ok.
  - done.
  - exact home_names.
  - reflexivity.
  - intros i t. cbn [app]. set_solver.
  - apply (home_victim 3 home_file 7); [lia|by vm_compute|repeat apply buf_ok_set_fld; by apply zeroes_ok|lia|by vm_compute|exact home_file_ptr].
  - exists s'. destruct Hc as [(-> & _ & [Hd|Hh])|(-> & _ & ess' & _ & _ & _ & [Hd|Hh])]; [by vm_compute in Hd| | |].
    + by destruct (never_refused _ _ Hh).
    + split; [exact Hr|]. replace (i_links_count home_file =? 1) with true in Hd by (by vm_compute). destruct Hd as [D1 D2 _].
      split; [exact D2|]. apply D1. exists 0. split; [lia|]. split; [exact (home_file_ptr 0 ltac:(lia))|lia].
    + by destruct (never_refused _ _ Hh).
Defined.

Lemma ext2_rmdir_removes_witness : exists dir' s', ext2_rmdir tree_root [100] home_fs = Ret ((0, dir'), s') /\ nlink dir' = 1 /\ used s' 8 = false.
Proof.
  destruct (ext2_rmdir_removes home_fs tree_root [home_entries] [100]
    [([46], 2, EXT2_FT_DIR); ([46; 46], 2, EXT2_FT_DIR); ([97], 3, EXT2_FT_REG_FILE)] 4 EXT2_FT_DIR [] home_dir [dots 1024 4 2])
    as (r & dir' & s' & Hr & _ & _ & Hc).
  - exact home_vol_wf.
  - exact home_root_ok.
  - done.
  - exact home_names.
  - reflexivity.
  - intros i t. cbn [app]. set_solver.
  - apply (home_victim 4 home_dir 8); [lia|by vm_compute|apply new_dir_ok|lia|by vm_compute|exact home_dir_ptr].
  - exact home_sub_ok.
  - exists dir', s'. destruct Hc as [(_ & _ & _ & _ & [Hd|[Hd|Hh]])|(-> & _ & _ & Hn & ess' & _ & _ & _ & [Hd|Hh])].
    + by vm_compute in Hd.
    + change (length (dlist [dots 1024 4 2])) with 2%nat in Hd. lia.
    + by destruct (never_refused _ _ Hh).
    + split; [exact Hr|]. split; [exact Hn|]. apply (dl_blocks _ _ _ Hd). exists 0. split; [lia|]. split; [exact (home_dir_ptr 0 ltac:(lia))|lia].
    + by destruct (never_refused _ _ Hh).
Defined.
