(* ===== verification/Ext2Runs.v ===== *)
(** * Sequences of operations on an ext2 volume

    Every operation called on a well-formed volume, with inodes that are what
    they claim to be, returns and leaves a well-formed volume of the same layout:
    progress and preservation for the calls of block.c, inode.c, directory.c and
    ext2_ops.c in the range of the direct blocks. *)

From S2P Require Import Prelude BlockDev Ext2 Ext2Proof DirBlock Ext2Layout Ext2Files Ext2Inodes Ext2Dirs Ext2Tree Ext2Mkdir Ext2Unlink.

Inductive call :=
| CAllocBlock | CFreeBlock (b : Z) | CAllocInode | CFreeInode (n : Z) | CLoadInode (n : Z) | CStoreInode (i : inode)
| CRead (i : inode) (count offset : Z) | CWrite (i : inode) (buf : list Z) (offset : Z)
| CLookup (dir : inode) (name : list Z) | CAdd (dir : inode) (name : list Z) (inum type : Z) | CRemove (dir : inode) (name : list Z)
| CCreate (dir : inode) (name : list Z) (m : Z) | CMkdir (dir : inode) (name : list Z) (m : Z)
| CUnlink (dir : inode) (name : list Z) | CRmdir (dir : inode) (name : list Z).

Section runs.
Context {D H : Type} `{!BlockDevice D} `{!HealthyDevice D} `{!KHeap H}.
Implicit Types s : ext2 D H.

Definition exec (c : call) : ST (ext2 D H) unit :=
  match c with
  | CAllocBlock => ext2_alloc_block;; mret tt
  | CFreeBlock b => ext2_free_block b
  | CAllocInode => ext2_alloc_inode;; mret tt
  | CFreeInode n => ext2_free_inode n
  | CLoadInode n => ext2_read_inode n;; mret tt
  | CStoreInode i => ext2_write_inode i;; mret tt
  | CRead i count offset => ext2_read i count offset;; mret tt
  | CWrite i buf offset => ext2_write i buf offset;; mret tt
  | CLookup dir name => ext2_lookup dir name;; mret tt
  | CAdd dir name inum type => ext2_add_dir_entry dir name inum type;; mret tt
  | CRemove dir name => ext2_remove_dir_entry dir name;; mret tt
  | CCreate dir name m => ext2_create dir name m;; mret tt
  | CMkdir dir name m => ext2_mkdir dir name m;; mret tt
  | CUnlink dir name => ext2_unlink dir name;; mret tt
  | CRmdir dir name => ext2_rmdir dir name;; mret tt
  end.

Definition name_ok (name : list Z) : Prop := (length name <= 255)%nat /\ Forall is_u8 name.
(** A directory of at most [n] blocks, its inode in use and its entries valid. *)
Definition is_dir s (dir : inode) (n : nat) : Prop :=
  exists ess, dir_ok s dir ess /\ (length ess <= n)%nat /\ FS_IS_DIR (mode dir) = true /\ names_ok s (dlist ess) /\ ino_used s (ino dir) = true.

(** A directory that lists the name once, for inode [n] of the table with its own direct blocks. *)
Definition lists s (dir : inode) (name : list Z) (n : Z) (di : list Z) : Prop :=
  exists ess a t b, dir_ok s dir ess /\ FS_IS_DIR (mode dir) = true /\ names_ok s (dlist ess) /\
    dlist ess = a ++ (name, n, t) :: b /\ absent name (a ++ b) /\ victim s dir n di.

Definition call_ok s (c : call) : Prop :=
  match c with
  | CAllocBlock | CAllocInode => True
  | CFreeBlock b => data_blk s b
  | CFreeInode n | CLoadInode n => valid_ino s n
  | CStoreInode i => file_ok s i
  | CRead i count offset => file_ok s i /\ 0 <= offset /\ 0 <= count /\ offset + count < 4294967296
  | CWrite i buf offset => file_ok s i /\ Forall is_u8 buf /\ 0 <= offset /\ offset + Z.of_nat (length buf) <= 12 * e_block_size s
  | CLookup dir name | CRemove dir name => is_dir s dir 12
  | CAdd dir name inum type => is_dir s dir 11 /\ name_ok name /\ valid_ino s inum /\ is_u8 type
  | CCreate dir name m | CMkdir dir name m => is_dir s dir 11 /\ name_ok name
  | CUnlink dir name => exists n di, lists s dir name n di
  | CRmdir dir name => exists n di sub, lists s dir name n di /\ dir_ok s (loaded s n di) sub
  end.

Definition preserved s s' : Prop := vol_wf s' /\ same_layout s s'.

Lemma step_preserved s s' W T : vol_step s s' W T -> preserved s s'.
Proof. intros []. by split. Qed.
Lemma same_preserved s s' : vol_wf s -> same_but s s' (fun _ => True) -> preserved s s'.
Proof. intros Hv Hs. by eapply step_preserved, (same_but_data_step s s' (fun _ => False)). Qed.

(** Releasing a data block. *)
Lemma wp_free_preserved s b Q : vol_wf s -> data_blk s b -> (forall s', preserved s s' -> Q tt s') -> wp (ext2_free_block b) s Q.
Proof.
  intros Hv Hb HQ. pose proof (vw_fs _ Hv) as Hwf. destruct (number_rel s b Hwf Hb) as (Hg & Hi & En).
  pose proof (db_range _ _ Hb) as Hr. destruct (w_total _ Hwf) as [Ht _].
  apply wp_ext2_free_block; [done|lia|intros s' Hs' _ _; by apply HQ, same_preserved|].
  cbv zeta. fold (rel s b). intros s' Hu. apply HQ.
  destruct (bit_update_kept s s' _ _ _ Hv Hg Hu) as [K1 K2 _ _ _ _]; [|by split].
  intros j Hj [Hf|Hf]%andb_false_iff; [by apply (vw_free _ Hv)|]. apply negb_false_iff, Z.eqb_eq in Hf as ->. by rewrite <- En.
Qed.

#[local] Hint Resolve same_preserved : core.

Lemma wp_exec s c : vol_wf s -> call_ok s c -> wp (exec c) s (fun _ s' => preserved s s').
Proof.
  intros Hv Hc. destruct c; cbn [exec call_ok] in *; try apply wp_bind.
  - apply wp_alloc_data; [done|..]; intros; by eapply wp_ret, step_preserved.
  - by apply wp_free_preserved.
  - apply wp_alloc_inode; [done|..].
    + intros s' Hs' _. by eapply wp_ret, step_preserved.
    + intros s' n _ _ [Hs' _ _ _ _]. by eapply wp_ret, step_preserved.
  - apply wp_free_inode; [done|done|..].
    + intros s' Hs' _ _. eauto.
    + intros s' [Hs' _ _ _ _]. by eapply step_preserved.
  - apply wp_read_inode; [done|done|..]; intros; apply wp_ret; eauto.
  - apply wp_write_inode_file; [done|apply Hc|apply Hc|..].
    + intros s' Hs' _ _. apply wp_ret. eauto.
    + intros s' [Hs' _ _ _ _]. by eapply wp_ret, step_preserved.
  - destruct Hc as (Hf & H1 & H2 & H3). apply wp_ext2_read; try done; intros; apply wp_ret; eauto.
  - destruct Hc as (Hf & H1 & H2 & H3). apply wp_ext2_write; try done.
    + intros s' Hs' _ _. apply wp_ret. eauto.
    + intros n i' s' [_ Hs' _ _ _ _ _ _]. by eapply wp_ret, step_preserved.
  - destruct Hc as (ess & Hd & Hl & Hm & Hn & _). apply (wp_lookup s dir ess); try done; intros; apply wp_ret; eauto.
  - destruct Hc as ((ess & Hd & Hl & Hm & Hn & _) & [Hlen Hname] & Hi & Ht). pose proof (w_itotal _ (vw_fs _ Hv)).
    apply (wp_add_dir_entry inum type name Hlen) with (ess := ess); try done; try (unfold valid_ino, is_u32 in *; lia).
    + intros s' Hs' _. by eapply wp_ret, step_preserved.
    + intros s' dir' ess' [Hs' _ _ _ _ _]. by eapply wp_ret, step_preserved.
  - destruct Hc as (ess & Hd & Hl & Hm & Hn & _). apply (wp_remove_dir_entry s dir ess); try done.
    + intros s' Hs' _. apply wp_ret. eauto.
    + intros s' ess' Hs' _ _. by eapply wp_ret, step_preserved.
  - destruct Hc as ((ess & Hd & Hl & Hm & Hn & Hu) & [Hlen Hname]). apply (wp_ext2_create m name Hlen Hname s dir ess); try done; [lia|..].
    + intros s' n Hs' _ _ _. by eapply wp_ret, step_preserved.
    + intros s' dir' ess' n [Hs' _ _ _ _ _]. by eapply wp_ret, step_preserved.
  - destruct Hc as ((ess & Hd & Hl & Hm & Hn & Hu) & [Hlen Hname]). apply (wp_mkdir m name s dir ess Hlen Hname Hv Hd); [lia|done|..].
    + intros s' n _ Hs' _. by eapply wp_ret, step_preserved.
    + intros s' dir' ess' n b [Hs' _ _ _ _ _ _ _]. by eapply wp_ret, step_preserved.
  - destruct Hc as (n & di & ess & a & t & b & H1 & H2 & H3 & H4 & H5 & H6). apply (wp_unlink s dir ess name a n t b di); try done.
    + intros s' Hs' _. apply wp_ret. eauto.
    + intros s' ess' [Hv' Hl' _ _ _ _] _ _ _ _. by apply wp_ret.
  - destruct Hc as (n & di & sub & (ess & a & t & b & H1 & H2 & H3 & H4 & H5 & H6) & H7).
    apply (wp_rmdir s dir ess name a n t b di sub); try done.
    + intros s' Hs' _. apply wp_ret. eauto.
    + intros s' dir' ess' [Hv' Hl' _ _ _ _] _ _ _ _ _ _ _. by apply wp_ret.
Qed.

(** A sequence of legal calls. *)
Inductive run : ext2 D H -> ext2 D H -> Prop :=
| run_nil s : run s s
| run_call s c s1 s2 : run s s1 -> call_ok s1 c -> exec c s1 = Ret (tt, s2) -> run s s2.

Lemma run_preserved s s' : run s s' -> vol_wf s -> preserved s s'.
Proof.
  induction 1 as [s|s c s1 s2 Hrun IH Hok He]; intros Hv; [by split|]. destruct (IH Hv) as [Hv1 Hl1].
  pose proof (wp_exec s1 c Hv1 Hok) as Hwp. unfold wp in Hwp. rewrite He in Hwp. destruct Hwp as [Hv2 Hl2]. split; [done|by etrans].
Qed.

(** (C13) Operations on a well-formed volume never go wrong: after any sequence of
    legal calls - allocating and releasing blocks and inodes, loading and storing
    inodes, reading and writing files, looking up, adding and removing names, creating
    and removing files and directories - the volume is well formed and its layout is the one it
    was mounted with, and every further legal call returns, without a fault, to a
    well-formed volume. *)
Theorem volume_runs_safe s s' : vol_wf s -> run s s' ->
  vol_wf s' /\ same_layout s s' /\
  forall c, call_ok s' c -> exists s2, exec c s' = Ret (tt, s2) /\ vol_wf s2 /\ same_layout s s2.
Proof.
  intros Hv Hrun. destruct (run_preserved s s' Hrun Hv) as [Hv' Hl]. split; [done|]. split; [done|]. intros c Hc.
  pose proof (wp_exec s' c Hv' Hc) as Hwp. apply wp_run in Hwp as ([] & s2 & He & Hv2 & Hl2). exists s2.
  split; [done|]. split; [done|by etrans].
Qed.
End runs.

Lemma volume_runs_safe_witness : exists s' s2, run tree_fs s' /\ exec (CMkdir tree_root [97] 0x1ED) tree_fs = Ret (tt, s') /\
  exec CAllocBlock s' = Ret (tt, s2) /\ vol_wf s2.
Proof.
  assert (Hok : call_ok tree_fs (CMkdir tree_root [97] 0x1ED)).
  { split; [|split; [cbn; lia|exact tree_name_ok]]. exists [dots 1024 2 2]. split; [exact tree_root_ok|]. split; [cbn; lia|].
    split; [done|]. split; [exact tree_names|by vm_compute]. }
  destruct (volume_runs_safe tree_fs tree_fs tree_vol_wf (run_nil _)) as (_ & _ & Hnext). destruct (Hnext _ Hok) as (s' & He & _).
  assert (Hrun : run tree_fs s') by (eapply run_call; [apply run_nil|exact Hok|exact He]).
  destruct (volume_runs_safe tree_fs s' tree_vol_wf Hrun) as (_ & _ & Hnext2). destruct (Hnext2 CAllocBlock I) as (s2 & He2 & Hv2 & _).
  exists s', s2. exact (conj Hrun (conj He (conj He2 Hv2))).
Defined.
