(* ===== verification/LinkedList.v ===== *)
(** * Singly linked lists in a store

    The registry of file system types and the mount table are lists of
    structures linked by a [next] field.  This file holds the two loops the code
    runs over them and what they do to the sequence of addresses. *)

From S2P Require Import Prelude.

Section list.
Context {N : Type} (next : N -> Z) (set_next : Z -> N -> N).
Implicit Types (m : gmap Z N) (p q : Z).

(** [for (p = head; p; p = p->next) if (test(p)) return p;] *)
Fixpoint find_node (fuel : nat) (test : N -> bool) m p : outcome Z :=
  match fuel with
  | O => Diverge
  | S fuel =>
      if p =? 0 then Ret 0
      else
        n ← of_option (m !! p);
        if test n then Ret p else find_node fuel test m (next n)
  end.

(** [pp] points to the head of the list or to the [next] field of a node. *)
Inductive slot := Head | Next (p : Z).

Definition load_slot m (head : Z) (pp : slot) : outcome Z :=
  match pp with
  | Head => Ret head
  | Next p => n ← of_option (m !! p); Ret (next n)
  end.
Definition store_slot m (head : Z) (pp : slot) (v : Z) : outcome (Z * gmap Z N) :=
  match pp with
  | Head => Ret (v, m)
  | Next p => n ← of_option (m !! p); Ret (head, <[p := set_next v n]> m)
  end.

(** [while ( *pp) { if ( *pp == x) { *pp = x->next; x->next = NULL; return } pp = &( *pp)->next; }]:
    whether [x] was found, the head and the store. *)
Fixpoint unlink_node (fuel : nat) (x : Z) m (head : Z) (pp : slot) : outcome (bool * Z * gmap Z N) :=
  match fuel with
  | O => Diverge
  | S fuel =>
      p ← load_slot m head pp;
      if p =? 0 then Ret (false, head, m)
      else if p =? x then
        n ← of_option (m !! x);
        '(head, m) ← store_slot m head pp (next n);
        n ← of_option (m !! x);
        Ret (true, head, <[x := set_next 0 n]> m)
      else unlink_node fuel x m head (Next p)
  end.

(** ** The sequence of addresses *)
Fixpoint chain m (p : Z) (l : list Z) : Prop :=
  match l with
  | [] => p = 0
  | q :: l => p = q /\ q <> 0 /\ exists n, m !! q = Some n /\ chain m (next n) l
  end.

(** A well-formed list: linked, and no address twice. *)
Definition linked m (head : Z) (l : list Z) : Prop := chain m head l /\ NoDup l.

Hypothesis next_set : forall v n, next (set_next v n) = v.

Lemma chain_insert m p l x n : chain m p l -> x ∉ l -> chain (<[x := n]> m) p l.
Proof.
  revert p. induction l as [|q l IH]; intros p; cbn; [done|]. rewrite not_elem_of_cons.
  intros (-> & Hq & k & Hk & Hc) [Hx Hl]. split; [done|]. split; [done|].
  exists k. rewrite lookup_insert_ne by done. eauto.
Qed.

Lemma chain_delete m p l x : chain m p l -> x ∉ l -> chain (delete x m) p l.
Proof.
  revert p. induction l as [|q l IH]; intros p; cbn; [done|]. rewrite not_elem_of_cons.
  intros (-> & Hq & k & Hk & Hc) [Hx Hl]. split; [done|]. split; [done|].
  exists k. rewrite lookup_delete_ne by done. eauto.
Qed.

(** The same links and keys: the other fields may differ. *)
Lemma chain_same m m' p l : chain m p l ->
  (forall q n, q ∈ l -> m !! q = Some n -> exists n', m' !! q = Some n' /\ next n' = next n) -> chain m' p l.
Proof.
  revert p. induction l as [|q l IH]; intros p; cbn; [done|].
  intros (-> & Hq & k & Hk & Hc) Hs. split; [done|]. split; [done|].
  destruct (Hs q k) as (k' & Hk' & Hn); [left|done|]. exists k'. split; [done|]. rewrite Hn. apply IH; [done|].
  intros r n Hr. apply Hs. by right.
Qed.

Lemma chain_lookup m p l q : chain m p l -> q ∈ l -> q <> 0 /\ is_Some (m !! q).
Proof.
  revert p. induction l as [|r l IH]; intros p; cbn; [by rewrite elem_of_nil|]. rewrite elem_of_cons.
  intros (-> & Hr & k & Hk & Hc) [-> |Hq]; [|eauto]. split; [done|]. by exists k.
Qed.

Lemma chain_length m p l : chain m p l -> NoDup l -> (length l <= size m)%nat.
Proof.
  intros Hc Hd. assert (Hsub : list_to_set l ⊆ (dom m : gset Z)).
  { intros q Hq. rewrite elem_of_list_to_set in Hq. apply elem_of_dom. by destruct (chain_lookup m p l q Hc Hq). }
  apply subseteq_size in Hsub. rewrite size_dom, size_list_to_set in Hsub by done. done.
Qed.

(** *** Searching *)
Lemma find_node_spec test m l : forall fuel p, chain m p l -> (length l < fuel)%nat ->
  exists r, find_node fuel test m p = Ret r /\
    ((r = 0 /\ forall q n, q ∈ l -> m !! q = Some n -> test n = false) \/
     (exists l1 l2 n, l = l1 ++ r :: l2 /\ r <> 0 /\ m !! r = Some n /\ test n = true /\
        forall q k, q ∈ l1 -> m !! q = Some k -> test k = false)).
Proof.
  induction l as [|q l IH]; intros [|fuel] p Hc Hf; cbn [length] in Hf; try lia; cbn [find_node chain] in *.
  - subst p. exists 0. split; [done|]. left. split; [done|]. intros q n. by rewrite elem_of_nil.
  - destruct Hc as (-> & Hq & n & Hn & Hc). destruct (Z.eqb_spec q 0); [done|]. rewrite Hn. cbn.
    destruct (test n) eqn:Ht.
    + exists q. split; [done|]. right. exists [], l, n. repeat split; try done. intros r k. by rewrite elem_of_nil.
    + destruct (IH fuel (next n) Hc) as (r & Hr & [(-> & Hnone)|(l1 & l2 & k & -> & Hr0 & Hk & Htk & Hb)]); [lia|..].
      * exists 0. split; [done|]. left. split; [done|]. intros r k. rewrite elem_of_cons.
        intros [-> |Hin] Hk; [congruence|]. by eapply Hnone.
      * exists r. split; [done|]. right. exists (q :: l1), l2, k. repeat split; try done.
        intros r' k'. rewrite elem_of_cons. intros [-> |Hin] Hk'; [congruence|]. by eapply Hb.
Qed.

(** *** Removing *)

(** The list from the slot [pp] on. *)
Definition chain_slot m (head : Z) (pp : slot) (l : list Z) : Prop :=
  match pp with
  | Head => chain m head l
  | Next p => (p ∉ l) /\ exists n, m !! p = Some n /\ chain m (next n) l
  end.

Lemma load_cons m head pp q l : chain_slot m head pp (q :: l) ->
  load_slot m head pp = Ret q /\ q <> 0 /\ exists n, m !! q = Some n /\ chain m (next n) l.
Proof.
  destruct pp as [|p]; cbn [chain_slot chain load_slot]; [by intros (-> & ? & ?)|].
  intros (_ & n & -> & Hq & ? & ?). cbn. by rewrite Hq.
Qed.

Lemma unlink_absent x m head l : forall fuel pp, chain_slot m head pp l -> NoDup l -> x ∉ l -> (length l < fuel)%nat ->
  unlink_node fuel x m head pp = Ret (false, head, m).
Proof.
  induction l as [|q l IH]; intros [|fuel] pp Hc Hd Hx Hf; cbn [length] in Hf; try lia; cbn [unlink_node].
  - destruct pp as [|p]; cbn [chain_slot chain load_slot] in *; [by rewrite Hc|].
    destruct Hc as (_ & n & -> & Hn). cbn. by rewrite Hn.
  - apply not_elem_of_cons in Hx as [Hxq Hx]. apply list.NoDup_cons in Hd as [Hql Hd].
    destruct (load_cons m head pp _ _ Hc) as (-> & Hq & Hn). cbn. destruct (Z.eqb_spec q 0); [done|]. destruct (Z.eqb_spec q x); [done|].
    apply IH; [by split|done|done|lia].
Qed.

(** Storing in the slot before a node cuts the node out. *)
Lemma unlink_here m head pp q l n : chain_slot m head pp (q :: l) -> NoDup (q :: l) -> m !! q = Some n ->
  exists head' m', store_slot m head pp (next n) = Ret (head', m') /\
    m' !! q = Some n /\ chain_slot m' head' pp l /\
    (forall r, r <> q -> match pp with Next p => r <> p | Head => True end -> m' !! r = m !! r) /\
    match pp with
    | Head => m' = m
    | Next p => head' = head /\ exists k, m !! p = Some k /\ m' !! p = Some (set_next (next n) k)
    end.
Proof.
  intros Hc Hd Hn. apply list.NoDup_cons in Hd as [Hql Hd]. destruct pp as [|p]; cbn [store_slot chain_slot chain] in *.
  - destruct Hc as (_ & _ & k & Hk & Hc). assert (k = n) as -> by congruence. by exists (next n), m.
  - destruct Hc as (Hp & k & Hk & _ & Hq0 & k' & Hk' & Hc). assert (k' = n) as -> by congruence.
    apply not_elem_of_cons in Hp as [Hpq Hp]. exists head, (<[p := set_next (next n) k]> m). rewrite Hk.
    split; [done|]. split; [by rewrite lookup_insert_ne|]. split.
    + split; [done|]. exists (set_next (next n) k). rewrite lookup_insert_eq. split; [done|]. rewrite next_set.
      by apply chain_insert.
    + split; [intros r _ Hr; by rewrite lookup_insert_ne|]. split; [done|]. exists k. by rewrite lookup_insert_eq.
Qed.

(** A node may change its link only; the removed one's link is cleared. *)
Definition relinked (x : Z) m m' : Prop := forall q, match m !! q, m' !! q with
  | Some n, Some n' => exists v, n' = set_next v n \/ n' = n
  | None, None => True
  | _, _ => False
  end.

Hypothesis set_set : forall v w n, set_next v (set_next w n) = set_next v n.

Lemma unlink_present x m l1 l2 : forall fuel head pp, chain_slot m head pp (l1 ++ x :: l2) -> NoDup (l1 ++ x :: l2) ->
  (length (l1 ++ x :: l2) < fuel)%nat ->
  exists head' m', unlink_node fuel x m head pp = Ret (true, head', m') /\
    chain_slot m' head' pp (l1 ++ l2) /\ relinked x m m' /\ (exists n, m !! x = Some n /\ m' !! x = Some (set_next 0 n)) /\
    match pp with Head => True | Next _ => head' = head end /\
    (forall r, r ∉ l1 ++ x :: l2 -> match pp with Next p => r <> p | Head => True end -> m' !! r = m !! r).
Proof.
  revert m. induction l1 as [|q l1 IH]; intros m [|fuel] head pp Hc Hd Hf; cbn [length app] in Hf; try lia;
    cbn [unlink_node app] in *.
  - destruct (load_cons m head pp _ _ Hc) as (-> & Hx & n & Hn & _). cbn. destruct (Z.eqb_spec x 0); [done|]. rewrite Z.eqb_refl, Hn. cbn.
    destruct (unlink_here m head pp x l2 n Hc Hd Hn) as (head' & m' & -> & Hx' & Hc' & Ho & Hpp). cbn. rewrite Hx'. cbn.
    exists head', (<[x := set_next 0 n]> m'). split; [done|].
    apply list.NoDup_cons in Hd as [Hxl Hd]. split; [|split; [|split]].
    + destruct pp as [|p]; cbn [chain_slot] in *; [by apply chain_insert|].
      destruct Hc' as (Hp & k & Hk & Hc'). split; [done|]. destruct Hc as [Hpx _]. apply not_elem_of_cons in Hpx as [Hpx _].
      exists k. rewrite lookup_insert_ne by done. split; [done|]. by apply chain_insert.
    + intros r. destruct (decide (r = x)) as [->|Hr].
      { rewrite lookup_insert_eq, Hn. exists 0. by left. }
      rewrite lookup_insert_ne by done. destruct pp as [|p].
      { subst m'. destruct (m !! r) as [k|]; [|done]. exists 0. by right. }
      destruct Hpp as (_ & k & Hk & Hk'). destruct (decide (r = p)) as [->|Hrp].
      { rewrite Hk, Hk'. exists (next n). by left. }
      rewrite Ho by done. destruct (m !! r) as [k2|]; [|done]. exists 0. by right.
    + exists n. by rewrite lookup_insert_eq.
    + split; [destruct pp; [done|by destruct Hpp]|].
      intros r Hr Hrp. apply not_elem_of_cons in Hr as [Hr _]. rewrite lookup_insert_ne by done. by apply Ho.
  - destruct (load_cons m head pp _ _ Hc) as (-> & Hq & n & Hn & Hcn). cbn. destruct (Z.eqb_spec q 0); [done|].
    pose proof Hd as Hd'. apply list.NoDup_cons in Hd as [Hql Hd].
    destruct (Z.eqb_spec q x) as [->|Hqx]; [exfalso; apply Hql; set_solver|].
    destruct (IH m fuel head (Next q)) as (head' & m' & Hrun & Hc' & Hrl & Hxx & Hhd & Ho); [|done|lia|].
    { split; [done|]. by exists n. }
    exists head', m'. split; [done|]. subst head'. split; [|split; [done|split; [done|split]]].
    + destruct Hc' as (Hq' & k & Hk & Hck). destruct pp as [|p]; cbn [chain_slot] in *.
      * cbn [chain] in *. destruct Hc as (-> & _). split; [done|]. split; [done|]. by exists k.
      * destruct Hc as (Hp & kp & Hkp & Hcp). cbn [chain] in Hcp. destruct Hcp as (Hpq & _).
        apply not_elem_of_cons in Hp as [Hne Hp]. split.
        { rewrite not_elem_of_cons. split; [done|]. set_solver. }
        exists kp. rewrite Ho by done. split; [done|]. cbn [chain]. split; [done|]. split; [done|]. by exists k.
    + by destruct pp.
    + intros r Hr Hrp. apply not_elem_of_cons in Hr as [Hr1 Hr2]. by apply Ho.
Qed.
End list.
