(* ===== verification/Vfs.v ===== *)
(** * The virtual file system (src/src/fs/vfs)

    Inodes, superblocks, mounts, dentries, open files and file system types are
    objects in stores, named by their addresses; 0 is [NULL].  An access to an
    address that holds no object (never allocated, or freed) is a fault, so that a
    wrong reference count shows.  [Backend] is the interface to a mounted file
    system: the operation tables [file_ops_t] and [superblock_ops_t]; [Ext2Vfs]
    makes ext2 an instance.  Messages to the console are left out.

    This file holds the code; [VfsProof] the theorems. *)

From S2P Require Import Prelude BlockDev Ext2 LinkedList.

(** ** Interfaces *)

(** The operations of a file system; the first argument is the address of the
    superblock.  [be_malloc] tells whether [kmalloc] returns memory. *)
Class Backend (F : Type) := {
  be_malloc : Z -> F -> bool * F;
  be_free : F -> F;
  be_lookup : Z -> inode -> list Z -> ST F (option inode);
  be_create : Z -> inode -> list Z -> Z -> ST F (Z * inode);
  be_mkdir : Z -> inode -> list Z -> Z -> ST F (Z * inode);
  be_unlink : Z -> inode -> list Z -> ST F Z;
  be_rmdir : Z -> inode -> list Z -> ST F (Z * inode);
  be_read : Z -> inode -> Z -> Z -> ST F (Z * list Z);
  be_write : Z -> inode -> list Z -> Z -> ST F (Z * inode);
  be_chmod : Z -> inode -> Z -> ST F (Z * inode);
  be_readdir : Z -> inode -> Z -> Z -> ST F (Z * list Z);
  be_fill_super : Z -> Z -> ST F (option superblock);
  be_put_superblock : Z -> ST F unit;
  be_drop : Z -> ST F unit;
  be_sync : Z -> ST F Z
}.

(** Where the kernel heap puts an object: [ad_pick] gives an address and
    [ad_give] takes one back. *)
Class Addresses (A : Type) := {
  ad_pick : A -> Z * A;
  ad_give : Z -> A -> A
}.

(** ** Objects *)

(** [struct inode]: [vn_inode] holds the data fields, [vn_fs_data] and [vn_ops]
    tell whether the pointers [fs_data] and [f_ops] are set. *)
Record vnode := { vn_inode : inode; vn_sb : Z; vn_fs_data : bool; vn_ops : bool }.

Record super := {
  sb_dev : Z; sb_blocksize : Z; sb_blocksize_bits : Z; sb_flags : Z; sb_type : list Z;
  sb_root : Z; sb_fs_data : bool; sb_ops : bool
}.

Record mount_t := { mnt_dev : Z; mnt_type : list Z; mnt_flags : Z; mnt_sb : Z; mnt_next : Z }.
Definition set_mnt_next (v : Z) (m : mount_t) : mount_t :=
  {| mnt_dev := mnt_dev m; mnt_type := mnt_type m; mnt_flags := mnt_flags m; mnt_sb := mnt_sb m; mnt_next := v |}.
Definition set_mnt_sb (v : Z) (m : mount_t) : mount_t :=
  {| mnt_dev := mnt_dev m; mnt_type := mnt_type m; mnt_flags := mnt_flags m; mnt_sb := v; mnt_next := mnt_next m |}.

(** [fst_name] is [None] for a null name; [fst_mount] is a code address. *)
Record filesystem_type := { fst_name : option (list Z); fst_mount : Z; fst_next : Z }.
Definition set_fst_next (v : Z) (t : filesystem_type) : filesystem_type :=
  {| fst_name := fst_name t; fst_mount := fst_mount t; fst_next := v |}.

Record dentry := { d_name : list Z; d_name_len : Z; d_inode : Z; d_ref_count : Z }.
Record file := { f_inode : Z; f_flags : Z; f_offset : Z; f_ref_count : Z }.

Definition FILE_FLAG_READ : Z := 1.
Definition FILE_FLAG_WRITE : Z := 2.
Definition FILE_FLAG_APPEND : Z := 4.
Definition sizeof_superblock_t : Z := 32.
Definition sizeof_mount : Z := 20.
Definition sizeof_dentry : Z := 24.
Definition sizeof_file : Z := 16.

(** "ext2" *)
Definition ext2_name : list Z := [101; 120; 116; 50].

Record vfs (F A : Type) := {
  v_fs : F;
  v_mem : A;
  v_reg : registry;
  v_inodes : gmap Z vnode;
  v_supers : gmap Z super;
  v_mounts : gmap Z mount_t;
  mount_list : Z;
  root_mount : Z;
  v_types : gmap Z filesystem_type;
  filesystem_list : Z;
  v_dentries : gmap Z dentry;
  v_files : gmap Z file
}.
Arguments v_fs {F A} _. Arguments v_mem {F A} _. Arguments v_reg {F A} _. Arguments v_inodes {F A} _.
Arguments v_supers {F A} _. Arguments v_mounts {F A} _. Arguments mount_list {F A} _. Arguments root_mount {F A} _.
Arguments v_types {F A} _. Arguments filesystem_list {F A} _. Arguments v_dentries {F A} _. Arguments v_files {F A} _.

Section code.
Context {F A : Type} `{!Backend F} `{!Addresses A}.
(** The code address of [ext2_mount]. *)
Context (ext2_mount_fn : Z).
Implicit Types s : vfs F A.

Definition with_fs (f : F) s : vfs F A :=
  {| v_fs := f; v_mem := v_mem s; v_reg := v_reg s; v_inodes := v_inodes s; v_supers := v_supers s;
     v_mounts := v_mounts s; mount_list := mount_list s; root_mount := root_mount s; v_types := v_types s;
     filesystem_list := filesystem_list s; v_dentries := v_dentries s; v_files := v_files s |}.
Definition with_mem (a : A) s : vfs F A :=
  {| v_fs := v_fs s; v_mem := a; v_reg := v_reg s; v_inodes := v_inodes s; v_supers := v_supers s;
     v_mounts := v_mounts s; mount_list := mount_list s; root_mount := root_mount s; v_types := v_types s;
     filesystem_list := filesystem_list s; v_dentries := v_dentries s; v_files := v_files s |}.
Definition with_inodes (m : gmap Z vnode) s : vfs F A :=
  {| v_fs := v_fs s; v_mem := v_mem s; v_reg := v_reg s; v_inodes := m; v_supers := v_supers s;
     v_mounts := v_mounts s; mount_list := mount_list s; root_mount := root_mount s; v_types := v_types s;
     filesystem_list := filesystem_list s; v_dentries := v_dentries s; v_files := v_files s |}.
Definition with_supers (m : gmap Z super) s : vfs F A :=
  {| v_fs := v_fs s; v_mem := v_mem s; v_reg := v_reg s; v_inodes := v_inodes s; v_supers := m;
     v_mounts := v_mounts s; mount_list := mount_list s; root_mount := root_mount s; v_types := v_types s;
     filesystem_list := filesystem_list s; v_dentries := v_dentries s; v_files := v_files s |}.
Definition with_mounts (m : gmap Z mount_t) (head root : Z) s : vfs F A :=
  {| v_fs := v_fs s; v_mem := v_mem s; v_reg := v_reg s; v_inodes := v_inodes s; v_supers := v_supers s;
     v_mounts := m; mount_list := head; root_mount := root; v_types := v_types s;
     filesystem_list := filesystem_list s; v_dentries := v_dentries s; v_files := v_files s |}.
Definition with_types (m : gmap Z filesystem_type) (head : Z) s : vfs F A :=
  {| v_fs := v_fs s; v_mem := v_mem s; v_reg := v_reg s; v_inodes := v_inodes s; v_supers := v_supers s;
     v_mounts := v_mounts s; mount_list := mount_list s; root_mount := root_mount s; v_types := m;
     filesystem_list := head; v_dentries := v_dentries s; v_files := v_files s |}.
Definition with_dentries (m : gmap Z dentry) s : vfs F A :=
  {| v_fs := v_fs s; v_mem := v_mem s; v_reg := v_reg s; v_inodes := v_inodes s; v_supers := v_supers s;
     v_mounts := v_mounts s; mount_list := mount_list s; root_mount := root_mount s; v_types := v_types s;
     filesystem_list := filesystem_list s; v_dentries := m; v_files := v_files s |}.
Definition with_files (m : gmap Z file) s : vfs F A :=
  {| v_fs := v_fs s; v_mem := v_mem s; v_reg := v_reg s; v_inodes := v_inodes s; v_supers := v_supers s;
     v_mounts := v_mounts s; mount_list := mount_list s; root_mount := root_mount s; v_types := v_types s;
     filesystem_list := filesystem_list s; v_dentries := v_dentries s; v_files := m |}.

Abbreviation M := (ST (vfs F A)).

Definition on_fs {B} (c : ST F B) : M B := fun s =>
  match c (v_fs s) with
  | Ret (b, f) => Ret (b, with_fs f s)
  | Fault => Fault
  | Diverge => Diverge
  end.

(** *** Memory *)

(** An address for an object that has been allocated. *)
Definition pick : M Z := fun s => let '(p, a) := ad_pick (v_mem s) in Ret (p, with_mem a s).
(** [kmalloc] of an object, and of memory no pointer of the model refers to. *)
Definition kmalloc_data (n : Z) : M bool := fun s =>
  let '(ok, f) := be_malloc n (v_fs s) in Ret (ok, with_fs f s).
Definition kmalloc (n : Z) : M Z :=
  ok ← kmalloc_data n;
  if (ok : bool) then pick else mret 0.
Definition kfree_data : M unit := st_modify (fun s => with_fs (be_free (v_fs s)) s).
Definition kfree (p : Z) : M unit :=
  kfree_data;; st_modify (fun s => with_mem (ad_give p (v_mem s)) s).

(** *** Accesses *)
Definition get_vnode (p : Z) : M vnode := s ← st_get; st_lift (of_option (v_inodes s !! p)).
Definition put_vnode (p : Z) (v : vnode) : M unit := st_modify (fun s => with_inodes (<[p := v]> (v_inodes s)) s).
Definition get_super (p : Z) : M super := s ← st_get; st_lift (of_option (v_supers s !! p)).
Definition put_super (p : Z) (x : super) : M unit := st_modify (fun s => with_supers (<[p := x]> (v_supers s)) s).
Definition get_mount_t (p : Z) : M mount_t := s ← st_get; st_lift (of_option (v_mounts s !! p)).
Definition get_file (p : Z) : M file := s ← st_get; st_lift (of_option (v_files s !! p)).
Definition put_file (p : Z) (x : file) : M unit := st_modify (fun s => with_files (<[p := x]> (v_files s)) s).
Definition get_dentry (p : Z) : M dentry := s ← st_get; st_lift (of_option (v_dentries s !! p)).
Definition put_dentry (p : Z) (x : dentry) : M unit :=
  st_modify (fun s => with_dentries (<[p := x]> (v_dentries s)) s).
Definition get_device (p : Z) : M block_device := s ← st_get; st_lift (bd_deref (v_reg s) p).

Definition set_inode (v : vnode) (i : inode) : vnode :=
  {| vn_inode := i; vn_sb := vn_sb v; vn_fs_data := vn_fs_data v; vn_ops := vn_ops v |}.
Definition set_refs (v : vnode) (n : Z) : vnode := set_inode v (with_refs (vn_inode v) n).

(** ** Inodes (inode.c) *)
Definition new_inode (n bs : Z) : inode :=
  {| ino := n; mode := 0; size := 0; uid := 0; gid := 0; nlink := 0; atime := 0; mtime := 0; ctime := 0;
     blksize := bs; blocks := 0; flags := 0; ref_count := 1; disk_inode := []; block_group := 0;
     index_in_group := 0 |}.

Definition inode_new (sb n : Z) : M Z :=
  p ← kmalloc sizeof_vfs_inode;
  if p =? 0 then mret 0
  else
    x ← get_super sb;
    put_vnode p {| vn_inode := new_inode n (sb_blocksize x); vn_sb := sb; vn_fs_data := false; vn_ops := false |};;
    mret p.

Definition inode_get (p : Z) : M unit :=
  if p =? 0 then mret tt
  else v ← get_vnode p; put_vnode p (set_refs v (ref_count (vn_inode v) +! 1)).

(** [ext2_release] does nothing. *)
Definition inode_free (p : Z) : M unit :=
  if p =? 0 then mret tt
  else
    v ← get_vnode p;
    when (vn_fs_data v) kfree_data;;
    kfree p;;
    st_modify (fun s => with_inodes (delete p (v_inodes s)) s).

Definition inode_put (p : Z) : M unit :=
  if p =? 0 then mret tt
  else
    v ← get_vnode p;
    let n := ref_count (vn_inode v) -! 1 in
    put_vnode p (set_refs v n);;
    if n =? 0 then inode_free p else mret tt.

(** ** Dentries (dentry.c) *)
Definition dentry_new (name : list Z) (name_len inode : Z) : M Z :=
  p ← kmalloc sizeof_dentry;
  if p =? 0 then mret 0
  else
    ok ← kmalloc_data (name_len +! 1);
    if negb (ok : bool) then kfree p;; mret 0
    else
      name_copy ← st_lift (of_option (slice name 0 name_len));
      put_dentry p {| d_name := name_copy; d_name_len := name_len; d_inode := inode; d_ref_count := 1 |};;
      when (negb (inode =? 0)) (inode_get inode);;
      mret p.

Definition set_d_refs (d : dentry) (n : Z) : dentry :=
  {| d_name := d_name d; d_name_len := d_name_len d; d_inode := d_inode d; d_ref_count := n |}.

Definition dentry_get (p : Z) : M unit :=
  if p =? 0 then mret tt else d ← get_dentry p; put_dentry p (set_d_refs d (d_ref_count d +! 1)).

(** [fs_data] is never set. *)
Definition dentry_free (p : Z) : M unit :=
  if p =? 0 then mret tt
  else
    d ← get_dentry p;
    when (negb (d_inode d =? 0)) (inode_put (d_inode d));;
    kfree_data;;
    kfree p;;
    st_modify (fun s => with_dentries (delete p (v_dentries s)) s).

Definition dentry_put (p : Z) : M unit :=
  if p =? 0 then mret tt
  else
    d ← get_dentry p;
    let n := d_ref_count d -! 1 in
    put_dentry p (set_d_refs d n);;
    if n =? 0 then dentry_free p else mret tt.

(** *** Path resolution *)
Definition SLASH : Z := 47.

(** [while ( *path == '/') path++] *)
Fixpoint skip_slashes (path : list Z) : list Z :=
  match path with
  | c :: rest => if c =? SLASH then skip_slashes rest else path
  | [] => []
  end.

(** [while ( *path && *path != '/' && i < 255) component[i++] = *path++], [n]
    characters of room are left: the component and the rest. *)
Fixpoint take_component (n : nat) (path : list Z) : list Z * list Z :=
  match n, path with
  | S n, c :: rest =>
      if c =? SLASH then ([], path)
      else let '(name, rest) := take_component n rest in (c :: name, rest)
  | _, _ => ([], path)
  end.

(** [current->f_ops->lookup(current, component)] *)
Definition call_lookup (current : Z) (component : list Z) : M Z :=
  v ← get_vnode current;
  r ← on_fs (be_lookup (vn_sb v) (vn_inode v) component);
  match r with
  | None => mret 0
  | Some i =>
      p ← pick;
      put_vnode p {| vn_inode := i; vn_sb := vn_sb v; vn_fs_data := true; vn_ops := true |};;
      mret p
  end.

(** A path is the list of its characters, without the terminator. *)
Fixpoint lookup_loop (fuel : nat) (current : Z) (path : list Z) : M Z :=
  match fuel with
  | O => fun _ => Diverge
  | S fuel =>
      match path with
      | [] => mret current
      | _ =>
          match skip_slashes path with
          | [] => mret current
          | path =>
              let '(component, path) := take_component 255 path in
              v ← get_vnode current;
              if negb (vn_ops v) then inode_put current;; mret 0
              else
                next ← call_lookup current component;
                inode_put current;;
                if next =? 0 then mret 0 else lookup_loop fuel next path
          end
      end
  end.

Definition path_lookup_relative (start : Z) (path : option (list Z)) : M Z :=
  match path with
  | None => mret 0
  | Some path =>
      if start =? 0 then mret 0
      else inode_get start;; lookup_loop (S (length path)) start path
  end.

Definition get_root_mount : M Z := st_gets root_mount.

Definition path_lookup (path : option (list Z)) : M Z :=
  match path with
  | Some (c :: rest) =>
      if negb (c =? SLASH) then mret 0
      else
        rmnt ← get_root_mount;
        if rmnt =? 0 then mret 0
        else
          m ← get_mount_t rmnt;
          if mnt_sb m =? 0 then mret 0
          else
            x ← get_super (mnt_sb m);
            if sb_root x =? 0 then mret 0
            else
              match skip_slashes rest with
              | [] => inode_get (sb_root x);; mret (sb_root x)
              | path => path_lookup_relative (sb_root x) (Some path)
              end
  | _ => mret 0
  end.

(** ** Open files (file.c) *)
Definition file_open (path : option (list Z)) (fl : Z) : M Z :=
  match path with
  | None => mret 0
  | _ =>
      inode ← path_lookup path;
      if inode =? 0 then mret 0
      else
        p ← kmalloc sizeof_file;
        if p =? 0 then inode_put inode;; mret 0
        else
          put_file p {| f_inode := inode; f_flags := fl; f_offset := 0; f_ref_count := 1 |};;
          mret p
  end.

Definition file_close (p : Z) : M Z :=
  if p =? 0 then mret (-1)
  else
    f ← get_file p;
    when (negb (f_inode f =? 0)) (inode_put (f_inode f));;
    kfree p;;
    st_modify (fun s => with_files (delete p (v_files s)) s);;
    mret 0.

Definition set_f_offset (f : file) (n : Z) : file :=
  {| f_inode := f_inode f; f_flags := f_flags f; f_offset := n; f_ref_count := f_ref_count f |}.

(** The status and the bytes stored in [buf]. *)
Definition file_read (p count : Z) : M (Z * list Z) :=
  if p =? 0 then mret (-1, [])
  else
    f ← get_file p;
    if f_inode f =? 0 then mret (-1, [])
    else
      v ← get_vnode (f_inode f);
      if negb (vn_ops v) then mret (-1, [])
      else
        '(ret, bytes) ← on_fs (be_read (vn_sb v) (vn_inode v) count (f_offset f));
        when (0 <? ret) (put_file p (set_f_offset f (f_offset f +! ret)));;
        mret (ret, bytes).

Definition file_write (p : Z) (buf : list Z) : M Z :=
  if p =? 0 then mret (-1)
  else
    f ← get_file p;
    if f_inode f =? 0 then mret (-1)
    else
      v ← get_vnode (f_inode f);
      let f := if negb (Z.land (f_flags f) FILE_FLAG_APPEND =? 0) then set_f_offset f (size (vn_inode v)) else f in
      put_file p f;;
      if negb (vn_ops v) then mret (-1)
      else
        '(ret, i) ← on_fs (be_write (vn_sb v) (vn_inode v) buf (f_offset f));
        put_vnode (f_inode f) (set_inode v i);;
        when (0 <? ret) (put_file p (set_f_offset f (f_offset f +! ret)));;
        mret ret.

Definition file_seek (p offset : Z) : M Z :=
  if p =? 0 then mret (-1)
  else
    f ← get_file p;
    put_file p (set_f_offset f offset);;
    mret (s32 offset).

Definition file_stat (p : Z) : M (Z * option fs_stat) :=
  if p =? 0 then mret (-1, None)
  else
    f ← get_file p;
    if f_inode f =? 0 then mret (-1, None)
    else
      v ← get_vnode (f_inode f);
      if negb (vn_ops v) then mret (-1, None)
      else let '(ret, st) := ext2_stat (vn_inode v) in mret (ret, Some st).

(** ** File system types (filesystem.c)

    [strcmp] is 0 exactly on equal strings; the types in the list have names. *)
Definition same_name (name : list Z) (t : filesystem_type) : bool :=
  match fst_name t with Some n => bool_decide (n = name) | None => false end.

Definition register_filesystem (fs : Z) : M Z :=
  if fs =? 0 then mret (-1)
  else
    s ← st_get;
    t ← st_lift (of_option (v_types s !! fs));
    match fst_name t with
    | None => mret (-1)
    | Some name =>
        p ← st_lift (find_node fst_next (S (map_size (v_types s))) (same_name name) (v_types s) (filesystem_list s));
        if negb (p =? 0) then mret (-1)
        else
          st_modify (with_types (<[fs := set_fst_next (filesystem_list s) t]> (v_types s)) fs);;
          mret 0
    end.

Definition unregister_filesystem (fs : Z) : M Z :=
  if fs =? 0 then mret (-1)
  else
    s ← st_get;
    '(found, head, m) ← st_lift (unlink_node fst_next set_fst_next (S (map_size (v_types s))) fs (v_types s)
                                    (filesystem_list s) Head);
    st_modify (with_types m head);;
    mret (if (found : bool) then 0 else -1).

Definition get_filesystem (name : option (list Z)) : M Z :=
  match name with
  | None => mret 0
  | Some name =>
      s ← st_get;
      st_lift (find_node fst_next (S (map_size (v_types s))) (same_name name) (v_types s) (filesystem_list s))
  end.

(** [ext2_fs_type], at address [ext2_type]. *)
Definition ext2_init (ext2_type : Z) : M Z := register_filesystem ext2_type.

Definition filesystem_init (ext2_type : Z) : M Z :=
  st_modify (fun s => with_types (v_types s) 0 s);;
  ext2_init ext2_type;;
  mret 0.

(** ** Superblocks (superblock.c) *)
Definition superblock_new (dev : Z) (type : list Z) : M Z :=
  p ← kmalloc sizeof_superblock_t;
  if p =? 0 then mret 0
  else
    ok ← kmalloc_data (Z.of_nat (length type) +! 1);
    if negb (ok : bool) then kfree p;; mret 0
    else
      put_super p {| sb_dev := dev; sb_blocksize := 4096; sb_blocksize_bits := 12; sb_flags := 0; sb_type := type;
                     sb_root := 0; sb_fs_data := false; sb_ops := false |};;
      mret p.

Definition superblock_free (p : Z) : M unit :=
  if p =? 0 then mret tt
  else
    x ← get_super p;
    when (sb_ops x) (on_fs (be_put_superblock p));;
    when (negb (sb_root x =? 0)) (inode_put (sb_root x));;
    when (sb_fs_data x) (on_fs (be_drop p));;
    kfree_data;;
    kfree p;;
    st_modify (fun s => with_supers (delete p (v_supers s)) s).

(** [ext2_mount] of ext2/superblock.c *)
Definition ext2_mount (dev : Z) : M Z :=
  if dev =? 0 then mret 0
  else
    d ← get_device dev;
    sb ← superblock_new (bd_major d) ext2_name;
    if sb =? 0 then mret 0
    else
      r ← on_fs (be_fill_super sb dev);
      match r with
      | None => superblock_free sb;; mret 0
      | Some info =>
          p ← pick;
          put_vnode p {| vn_inode := root info; vn_sb := sb; vn_fs_data := true; vn_ops := true |};;
          x ← get_super sb;
          put_super sb {| sb_dev := sb_dev x; sb_blocksize := blocksize info;
                          sb_blocksize_bits := blocksize_bits info; sb_flags := sb_flags x; sb_type := sb_type x;
                          sb_root := p; sb_fs_data := true; sb_ops := true |};;
          mret sb
      end.

(** ** Mounts (mount.c) *)
Definition mount_alloc : M Z :=
  p ← kmalloc sizeof_mount;
  (if p =? 0 then mret tt
   else st_modify (fun s => with_mounts
          (<[p := {| mnt_dev := 0; mnt_type := []; mnt_flags := 0; mnt_sb := 0; mnt_next := 0 |}]> (v_mounts s))
          (mount_list s) (root_mount s) s));;
  mret p.

Definition mount_free (mnt : Z) : M unit :=
  if mnt =? 0 then mret tt
  else
    kfree mnt;;
    st_modify (fun s => with_mounts (delete mnt (v_mounts s)) (mount_list s) (root_mount s) s).

Definition mount_add (mnt : Z) : M unit :=
  if mnt =? 0 then mret tt
  else
    m ← get_mount_t mnt;
    st_modify (fun s => with_mounts (<[mnt := set_mnt_next (mount_list s) m]> (v_mounts s)) mnt (root_mount s) s).

Definition mount_remove (mnt : Z) : M unit :=
  if mnt =? 0 then mret tt
  else
    s ← st_get;
    '(_, head, m) ← st_lift (unlink_node mnt_next set_mnt_next (S (map_size (v_mounts s))) mnt (v_mounts s)
                                (mount_list s) Head);
    st_modify (with_mounts m head (root_mount s)).

(** A call of the [mount] function of a type. *)
Definition call_mount (fn dev : Z) : M Z := if fn =? ext2_mount_fn then ext2_mount dev else st_fault.

Definition mount (dev : Z) (type : option (list Z)) (fl : Z) : M Z :=
  match type with
  | None => mret 0
  | _ =>
      if dev =? 0 then mret 0
      else
        fs_type ← get_filesystem type;
        if fs_type =? 0 then mret 0
        else
          s ← st_get;
          t ← st_lift (of_option (v_types s !! fs_type));
          sb ← call_mount (fst_mount t) dev;
          if sb =? 0 then mret 0
          else
            mnt ← mount_alloc;
            if mnt =? 0 then superblock_free sb;; mret 0
            else
              d ← get_device dev;
              st_modify (fun s => with_mounts
                (<[mnt := {| mnt_dev := bd_major d; mnt_type := default [] (fst_name t); mnt_flags := fl;
                             mnt_sb := sb; mnt_next := 0 |}]> (v_mounts s)) (mount_list s) (root_mount s) s);;
              mount_add mnt;;
              st_modify (fun s => if root_mount s =? 0 then with_mounts (v_mounts s) (mount_list s) mnt s else s);;
              mret mnt
  end.

Definition umount (mnt : Z) : M Z :=
  if mnt =? 0 then mret (-1)
  else
    m ← get_mount_t mnt;
    (if mnt_sb m =? 0 then mret tt
     else
       x ← get_super (mnt_sb m);
       when (sb_ops x) (on_fs (be_sync (mnt_sb m));; mret tt);;
       superblock_free (mnt_sb m);;
       m ← get_mount_t mnt;
       st_modify (fun s => with_mounts (<[mnt := set_mnt_sb 0 m]> (v_mounts s)) (mount_list s) (root_mount s) s));;
    mount_remove mnt;;
    st_modify (fun s => if root_mount s =? mnt then with_mounts (v_mounts s) (mount_list s) 0 s else s);;
    mount_free mnt;;
    mret 0.

Definition get_mount (dev : Z) : M Z :=
  s ← st_get;
  st_lift (find_node mnt_next (S (map_size (v_mounts s))) (fun m => mnt_dev m =? dev) (v_mounts s) (mount_list s)).

(** [create] is [ata_create_block_device]. *)
Definition mount_init (create : M Z) : M Z :=
  st_modify (fun s => with_mounts (v_mounts s) 0 0 s);;
  dev ← create;
  if dev =? 0 then mret (-1)
  else
    mnt ← mount dev (Some ext2_name) 0;
    if mnt =? 0 then mret (-1) else mret 0.
End code.
