(* ===== verification/VfsProof.v ===== *)
(** * Correctness of the virtual file system

    Path resolution is a fold of [lookup] over the components of the path, with
    every intermediate inode released; reference counts are the numbers of
    references along every run; the registry and the mount table are lists. *)

From S2P Require Import Prelude BlockDev Ext2 LinkedList Vfs.

(** ** What the code relies on *)

(** The heap gives addresses that are in use nowhere. *)
Class AddressLaws (A : Type) `{!Addresses A} := {
  ad_used : A -> gset Z;
  ad_pick_ok : forall a, (ad_pick a).1 <> 0 /\ ((ad_pick a).1 ∉ ad_used a) /\
    ad_used (ad_pick a).2 = {[(ad_pick a).1]} ∪ ad_used a;
  ad_give_ok : forall p a, ad_used (ad_give p a) = ad_used a ∖ {[p]}
}.

(** A looked-up inode is a new object with one reference. *)
Class LookupOne (F : Type) `{!Backend F} :=
  lookup_one : forall sb i name f j f', be_lookup sb i name f = Ret (Some j, f') -> ref_count j = 1.

(** Reading a file of a volume whose [fs_data] has been freed is a fault. *)
Class DropFrees (F : Type) `{!Backend F} := {
  be_gone : Z -> F -> Prop;
  gone_drop : forall sb f u f', be_drop sb f = Ret (u, f') -> be_gone sb f';
  gone_free : forall sb f, be_gone sb f -> be_gone sb (be_free f);
  gone_read : forall sb f i n off, be_gone sb f -> be_read sb i n off f = Fault
}.

(** ** Components of a path *)

(** The fields between slashes, and the components: the fields that are not empty. *)
Fixpoint fields (path : list Z) : list (list Z) :=
  match path with
  | [] => [[]]
  | c :: path =>
      if c =? SLASH then [] :: fields path
      else match fields path with x :: xs => (c :: x) :: xs | [] => [[c]] end
  end.
Definition nonempty (x : list Z) : bool := match x with [] => false | _ => true end.
Definition components (path : list Z) : list (list Z) := List.filter nonempty (fields path).

Lemma fields_cons path : exists x xs, fields path = x :: xs.
Proof.
  destruct path as [|c path]; cbn [fields]; [by do 2 eexists|]. destruct (c =? SLASH); [by do 2 eexists|].
  destruct (fields path); by do 2 eexists.
Qed.

Lemma components_slash path : components (SLASH :: path) = components path.
Proof. done. Qed.

Lemma components_skip path : components (skip_slashes path) = components path.
Proof.
  induction path as [|c path IH]; cbn [skip_slashes]; [done|]. destruct (Z.eqb_spec c SLASH) as [->|]; [|done].
  by rewrite IH, components_slash.
Qed.

Lemma skip_slashes_length path : (length (skip_slashes path) <= length path)%nat.
Proof. induction path as [|c path IH]; cbn; [done|]. case_bool; cbn; lia. Qed.

Lemma skip_slashes_head path c rest : skip_slashes path = c :: rest -> c <> SLASH.
Proof.
  induction path as [|d path IH]; cbn [skip_slashes]; [done|]. destruct (Z.eqb_spec d SLASH); [done|].
  by intros [= <- <-].
Qed.

(** What the copying loop takes, and where it stops. *)
Lemma take_component_spec n : forall path,
  let '(name, rest) := take_component n path in
  path = name ++ rest /\ (SLASH ∉ name) /\ (length name <= n)%nat /\
  (length name = n \/ rest = [] \/ exists r, rest = SLASH :: r).
Proof.
  induction n as [|n IH]; intros path; cbn [take_component].
  { destruct path; split_and!; try done; [set_solver|by left|set_solver|by left]. }
  destruct path as [|c path]; [split_and!; try done; [set_solver|cbn; lia|by right; left]|].
  destruct (Z.eqb_spec c SLASH) as [->|Hc].
  { split_and!; [done|set_solver|cbn; lia|]. right. right. by exists path. }
  specialize (IH path). destruct (take_component n path) as [name rest]. destruct IH as (-> & Hn & Hl & Hs).
  split_and!; [done|set_solver|cbn; lia|]. destruct Hs as [Hs|Hs]; [left; cbn; lia|by right].
Qed.

Lemma fields_app name rest : SLASH ∉ name ->
  fields (name ++ rest) = match fields rest with x :: xs => (name ++ x) :: xs | [] => [name] end.
Proof.
  intros Hn. induction name as [|c name IH]; cbn [app].
  { by destruct (fields_cons rest) as (x & xs & ->). }
  apply not_elem_of_cons in Hn as [Hc Hn]. cbn [fields]. destruct (Z.eqb_spec c SLASH); [congruence|].
  rewrite IH by done. by destruct (fields rest).
Qed.

(** A component is at most 255 characters long. *)
Definition fits (x : list Z) : Prop := (length x <= 255)%nat.

Lemma take_component_components path c rest :
  path = c :: rest -> c <> SLASH -> Forall fits (components path) ->
  let '(name, rest) := take_component 255 path in
  components path = name :: components rest /\ (length rest < length path)%nat.
Proof.
  intros -> Hc Hf. pose proof (take_component_spec 255 (c :: rest)) as H.
  destruct (take_component 255 (c :: rest)) as [name rest']. destruct H as (Hp & Hn & Hl & Hs).
  assert (Hne : name <> []).
  { intros ->. cbn in Hp. destruct Hs as [Hs|[-> |[r ->]]]; [done|done|congruence]. }
  assert (Hlen : (length rest' < length (c :: rest))%nat).
  { rewrite Hp, length_app. destruct name; [done|cbn; lia]. }
  split; [|done]. revert Hf. rewrite Hp. unfold components. rewrite fields_app by done.
  destruct (fields_cons rest') as (x & xs & Ef). rewrite Ef. cbn [List.filter].
  assert (E2 : nonempty (name ++ x) = true) by (by destruct name). rewrite E2. intros Hf.
  destruct Hs as [Hs|[-> |[r ->]]].
  - apply Forall_cons_1 in Hf as [Hx _]. unfold fits in Hx. rewrite length_app in Hx.
    destruct x; [|cbn in Hx; lia]. by rewrite app_nil_r.
  - injection Ef as <- <-. by rewrite app_nil_r.
  - cbn [fields] in Ef. rewrite Z.eqb_refl in Ef. injection Ef as <- <-. by rewrite app_nil_r.
Qed.

(** ** Equality of states *)
Lemma vfs_ext {F A} (s s' : vfs F A) :
  v_fs s = v_fs s' -> v_mem s = v_mem s' -> v_reg s = v_reg s' -> v_inodes s = v_inodes s' ->
  v_supers s = v_supers s' -> v_mounts s = v_mounts s' -> mount_list s = mount_list s' ->
  root_mount s = root_mount s' -> v_types s = v_types s' -> filesystem_list s = filesystem_list s' ->
  v_dentries s = v_dentries s' -> v_files s = v_files s' -> s = s'.
Proof. destruct s, s'. cbn. intros. by subst. Qed.
Ltac vfs_ext := apply vfs_ext; try reflexivity.

(** ** References to inodes *)
Section inodes.
Context {F A : Type} `{!Backend F} `{!Addresses A}.
Implicit Types s : vfs F A.

Definition refs (v : vnode) : Z := ref_count (vn_inode v).

(** The file system after an inode's memory has been given back. *)
Definition fs_freed (v : vnode) (f : F) : F := be_free (if vn_fs_data v then be_free f else f).
Definition inode_gone (p : Z) (v : vnode) s : vfs F A :=
  with_inodes (delete p (v_inodes s)) (with_mem (ad_give p (v_mem s)) (with_fs (fs_freed v (v_fs s)) s)).

Lemma inode_get_run p v s : p <> 0 -> v_inodes s !! p = Some v -> 0 <= refs v < 4294967295 ->
  inode_get p s = Ret (tt, with_inodes (<[p := set_refs v (refs v + 1)]> (v_inodes s)) s).
Proof.
  intros Hp Hv Hr. unfold inode_get. destruct (Z.eqb_spec p 0); [done|].
  rewrite (st_bind_Ret _ _ s v s). { unfold put_vnode. unfold refs in *. rewrite u32_small by (unfold is_u32; lia). done. }
  unfold get_vnode, mbind, ST_bind, st_get, st_lift. by rewrite Hv.
Qed.

Lemma inode_put_run p v s : p <> 0 -> v_inodes s !! p = Some v -> 1 <= refs v < 4294967296 ->
  inode_put p s = Ret (tt, if refs v =? 1 then inode_gone p v s
                           else with_inodes (<[p := set_refs v (refs v - 1)]> (v_inodes s)) s).
Proof.
  intros Hp Hv Hr. unfold inode_put. destruct (Z.eqb_spec p 0); [done|].
  rewrite (st_bind_Ret _ _ s v s) by (unfold get_vnode, mbind, ST_bind, st_get, st_lift; by rewrite Hv).
  fold (refs v). rewrite u32_small by (unfold is_u32; lia). unfold put_vnode.
  rewrite (st_bind_Ret _ _ s tt (with_inodes (<[p := set_refs v (refs v - 1)]> (v_inodes s)) s)) by done.
  destruct (Z.eqb_spec (refs v) 1) as [E|E]; destruct (Z.eqb_spec (refs v - 1) 0) as [E'|E']; try lia; [|done].
  unfold inode_free. destruct (Z.eqb_spec p 0); [done|].
  unfold get_vnode, kfree, kfree_data, when, st_modify, mbind, ST_bind, st_get, st_lift.
  cbn [v_inodes with_inodes]. rewrite lookup_insert_eq. cbn [of_option vn_fs_data set_refs set_inode].
  unfold inode_gone, fs_freed. destruct (vn_fs_data v); do 2 f_equal; vfs_ext; apply delete_insert_eq.
Qed.

(** *** Resolving the components one after the other *)
Definition new_vnode (sb : Z) (i : inode) : vnode :=
  {| vn_inode := i; vn_sb := sb; vn_fs_data := true; vn_ops := true |}.

(** The reference definition: [lookup] in turn; the memory of the inodes in
    between, but not of the first one, is given back. *)
Fixpoint walk (first : bool) (sb : Z) (i : inode) (cs : list (list Z)) : ST F (option inode) :=
  match cs with
  | [] => mret (Some i)
  | c :: cs =>
      r ← be_lookup sb i c;
      when (negb first) (st_modify (fun f => be_free (be_free f)));;
      match r with
      | None => mret None
      | Some j => walk false sb j cs
      end
  end.
End inodes.

Section lookup.
Context {F A : Type} `{!Backend F} `{!Addresses A} `{!AddressLaws A} `{!LookupOne F}.
Implicit Types s : vfs F A.

(** How the result of a resolution relates to the state [s] it starts in: the
    inode found is the only new object, and none is lost. *)
Inductive resolved s (sb : Z) : outcome (option inode * F) -> outcome (Z * vfs F A) -> Prop :=
| resolved_none f a : ad_used a = ad_used (v_mem s) ->
    resolved s sb (Ret (None, f)) (Ret (0, with_mem a (with_fs f s)))
| resolved_some f i p a : p <> 0 -> p ∉ ad_used (v_mem s) -> ad_used a = {[p]} ∪ ad_used (v_mem s) ->
    ref_count i = 1 ->
    resolved s sb (Ret (Some i, f))
      (Ret (p, with_inodes (<[p := new_vnode sb i]> (v_inodes s)) (with_mem a (with_fs f s))))
| resolved_fault : resolved s sb Fault Fault
| resolved_diverge : resolved s sb Diverge Diverge.

(** The inodes are at addresses in use. *)
Definition inodes_used s : Prop := forall p, is_Some (v_inodes s !! p) -> p <> 0 /\ p ∈ ad_used (v_mem s).

(** A state with the inode [i] being visited at [p]. *)
Definition visiting s (p : Z) (sb : Z) (i : inode) (a : A) (f : F) : vfs F A :=
  with_inodes (<[p := new_vnode sb i]> (v_inodes s)) (with_mem a (with_fs f s)).

Lemma call_lookup_run s p v c : v_inodes s !! p = Some v ->
  call_lookup p c s =
  match be_lookup (vn_sb v) (vn_inode v) c (v_fs s) with
  | Ret (None, f) => Ret (0, with_fs f s)
  | Ret (Some j, f) =>
      Ret ((ad_pick (v_mem s)).1, visiting s (ad_pick (v_mem s)).1 (vn_sb v) j (ad_pick (v_mem s)).2 f)
  | Fault => Fault
  | Diverge => Diverge
  end.
Proof.
  intros Hv. unfold call_lookup. rewrite (st_bind_Ret _ _ s v s).
  - unfold mbind, ST_bind, on_fs. destruct (be_lookup _ _ c (v_fs s)) as [[[j|] f]| |]; try done.
    unfold pick. cbn [v_mem with_fs]. by destruct (ad_pick (v_mem s)).
  - unfold get_vnode, mbind, ST_bind, st_get, st_lift. by rewrite Hv.
Qed.

(** One step of the loop. *)
Lemma lookup_loop_end fuel p path s : components path = [] -> lookup_loop (S fuel) p path s = Ret (p, s).
Proof.
  intros Hc. cbn [lookup_loop]. destruct path as [|c0 path0]; [done|].
  destruct (skip_slashes (c0 :: path0)) as [|c rest] eqn:E; [done|]. exfalso.
  pose proof (components_skip (c0 :: path0)) as Hs. rewrite E, Hc in Hs. apply skip_slashes_head in E.
  unfold components in Hs. cbn [fields] in Hs. destruct (Z.eqb_spec c SLASH); [done|].
  by destruct (fields rest).
Qed.

Lemma lookup_loop_step fuel p path s c cs : components path = c :: cs -> Forall fits (components path) ->
  exists rest, components rest = cs /\ (length rest < length path)%nat /\
    lookup_loop (S fuel) p path s =
    (v ← get_vnode p;
     if negb (vn_ops v) then inode_put p;; mret 0
     else
       next ← call_lookup p c;
       inode_put p;;
       if next =? 0 then mret 0 else lookup_loop fuel next rest) s.
Proof.
  intros Hc Hf. cbn [lookup_loop]. destruct path as [|c0 path0]; [done|].
  destruct (skip_slashes (c0 :: path0)) as [|d rest] eqn:E.
  { pose proof (components_skip (c0 :: path0)) as Hs. by rewrite E, Hc in Hs. }
  pose proof (components_skip (c0 :: path0)) as Hs. rewrite E in Hs.
  pose proof (skip_slashes_length (c0 :: path0)) as Hl. rewrite E in Hl.
  pose proof (take_component_components (d :: rest) d rest eq_refl (skip_slashes_head _ _ _ E)) as Ht.
  rewrite Hs in Ht. specialize (Ht Hf). destruct (take_component 255 (d :: rest)) as [name rest'].
  destruct Ht as [Ht Hlen]. rewrite Hc in Ht. injection Ht as -> ->. exists rest'. split; [done|]. split; [lia|done].
Qed.

Lemma get_vnode_run p v s : v_inodes s !! p = Some v -> get_vnode p s = Ret (v, s).
Proof. intros Hv. unfold get_vnode, mbind, ST_bind, st_get, st_lift. by rewrite Hv. Qed.

(** Releasing the inode visited, alone or after the next one has been found. *)
Lemma put_visiting s p sb i a f : p <> 0 -> ref_count i = 1 -> v_inodes s !! p = None ->
  inode_put p (visiting s p sb i a f) = Ret (tt, with_mem (ad_give p a) (with_fs (be_free (be_free f)) s)).
Proof.
  intros Hp Hi Hn. rewrite (inode_put_run p (new_vnode sb i)); [|done|apply lookup_insert_eq|unfold refs; cbn; lia].
  unfold refs. cbn [vn_inode new_vnode]. rewrite Hi. cbn [Z.eqb Pos.eqb]. do 2 f_equal. vfs_ext. cbn.
  by rewrite delete_insert_id.
Qed.

Lemma put_visiting_next s p q sb i j a a' f f' : p <> 0 -> ref_count i = 1 -> v_inodes s !! p = None -> p <> q ->
  inode_put p (visiting (visiting s p sb i a f) q sb j a' f') =
  Ret (tt, visiting s q sb j (ad_give p a') (be_free (be_free f'))).
Proof.
  intros Hp Hi Hn Hpq. rewrite (inode_put_run p (new_vnode sb i)); [|done| |unfold refs; cbn; lia].
  - unfold refs. cbn [vn_inode new_vnode]. rewrite Hi. cbn [Z.eqb Pos.eqb]. do 2 f_equal. vfs_ext. cbn.
    rewrite delete_insert_ne by done. by rewrite delete_insert_id.
  - cbn. rewrite lookup_insert_ne by done. apply lookup_insert_eq.
Qed.

Lemma loop_visiting fuel : forall path s p sb i a f,
  (length path < fuel)%nat -> Forall fits (components path) -> inodes_used s ->
  p <> 0 -> p ∉ ad_used (v_mem s) -> ad_used a = {[p]} ∪ ad_used (v_mem s) -> ref_count i = 1 ->
  resolved s sb (walk false sb i (components path) f) (lookup_loop fuel p path (visiting s p sb i a f)).
Proof.
  induction fuel as [|fuel IH]; intros path s p sb i a f Hl Hfit Hu Hp Hpu Ha Hi; [lia|].
  assert (Hn : v_inodes s !! p = None).
  { apply eq_None_not_Some. intros H. by destruct (Hu p H). }
  destruct (components path) as [|c cs] eqn:Ec.
  { rewrite lookup_loop_end by done. by constructor. }
  destruct (lookup_loop_step fuel p path (visiting s p sb i a f) c cs Ec) as (rest & <- & Hlen & ->); [by rewrite Ec|].
  apply Forall_cons_1 in Hfit as [_ Hfit].
  assert (Hv : v_inodes (visiting s p sb i a f) !! p = Some (new_vnode sb i)) by apply lookup_insert_eq.
  rewrite (st_bind_Ret _ _ _ _ _ (get_vnode_run p _ _ Hv)). cbn [vn_ops new_vnode negb walk].
  pose proof (call_lookup_run _ p _ c Hv) as Hcall. cbn [vn_sb vn_inode new_vnode v_fs v_mem visiting with_inodes with_mem with_fs] in Hcall.
  pose proof (lookup_one sb i c f) as Hone. destruct (be_lookup sb i c f) as [[[j|] f1]| |] eqn:Eb.
  - destruct (ad_pick_ok a) as (Hq0 & Hqu & Hqa). destruct (ad_pick a) as [q a']. cbn [fst snd] in *.
    assert (Hpq : p <> q) by set_solver.
    rewrite (st_bind_Ret _ _ _ _ _ Hcall), (st_bind_Ret _ _ _ _ _ Eb).
    rewrite (st_bind_Ret _ _ _ _ _ (put_visiting_next s p q sb i j a a' f f1 Hp Hi Hn Hpq)). destruct (Z.eqb_spec q 0); [done|].
    rewrite (st_bind_Ret _ _ f1 tt (be_free (be_free f1))) by done.
    apply IH; [lia|done|done|done| | |by eapply Hone]; [set_solver|rewrite ad_give_ok, Hqa, Ha; set_solver].
  - rewrite (st_bind_Ret _ _ _ _ _ Hcall), (st_bind_Ret _ _ _ _ _ Eb).
    change (with_fs f1 (visiting s p sb i a f)) with (visiting s p sb i a f1).
    rewrite (st_bind_Ret _ _ _ _ _ (put_visiting s p sb i a f1 Hp Hi Hn)). rewrite (st_bind_Ret _ _ f1 tt (be_free (be_free f1))) by done.
    constructor. rewrite ad_give_ok, Ha. set_solver.
  - rewrite (st_bind_Fault _ _ _ Hcall), (st_bind_Fault _ _ _ Eb). constructor.
  - rewrite (st_bind_Diverge _ _ _ Hcall), (st_bind_Diverge _ _ _ Eb). constructor.
Qed.

(** *** From the root *)
Lemma set_refs_back v n : set_refs (set_refs v n) (refs v) = v.
Proof. destruct v as [[] ? ? ?]. done. Qed.

(** [v] with one reference more. *)
Definition held (v : vnode) : vnode := set_refs v (refs v + 1).
Lemma refs_held v : refs (held v) = refs v + 1.
Proof. done. Qed.
Definition holding s (r : Z) (v : vnode) : vfs F A := with_inodes (<[r := held v]> (v_inodes s)) s.

Lemma put_holding s r v : r <> 0 -> v_inodes s !! r = Some v -> 1 <= refs v < 4294967295 ->
  forall f, inode_put r (with_fs f (holding s r v)) = Ret (tt, with_fs f s).
Proof.
  intros Hr Hv Hn f. rewrite (inode_put_run r (held v)); [|done|apply lookup_insert_eq|rewrite refs_held; lia].
  rewrite refs_held. destruct (Z.eqb_spec (refs v + 1) 1); [lia|].
  rewrite Z.add_simpl_r. unfold held. rewrite set_refs_back. do 2 f_equal. vfs_ext. cbn.
  rewrite insert_insert_eq. by apply insert_id.
Qed.

Lemma put_holding_next s r v q sb j a f : r <> 0 -> v_inodes s !! r = Some v -> 1 <= refs v < 4294967295 -> r <> q ->
  inode_put r (visiting (holding s r v) q sb j a f) = Ret (tt, visiting s q sb j a f).
Proof.
  intros Hr Hv Hn Hq. rewrite (inode_put_run r (held v)); [|done| |rewrite refs_held; lia].
  - rewrite refs_held. destruct (Z.eqb_spec (refs v + 1) 1); [lia|].
    rewrite Z.add_simpl_r. unfold held. rewrite set_refs_back. do 2 f_equal. vfs_ext. cbn.
    rewrite (insert_insert_ne _ r q) by done. rewrite insert_insert_eq. by rewrite (insert_id _ r).
  - cbn. rewrite lookup_insert_ne by done. apply lookup_insert_eq.
Qed.

Lemma path_lookup_relative_run s r v path : r <> 0 -> v_inodes s !! r = Some v -> vn_ops v = true ->
  1 <= refs v < 4294967295 -> inodes_used s -> Forall fits (components path) ->
  match components path with
  | [] => path_lookup_relative r (Some path) s = Ret (r, holding s r v)
  | cs => resolved s (vn_sb v) (walk true (vn_sb v) (vn_inode (held v)) cs (v_fs s))
            (path_lookup_relative r (Some path) s)
  end.
Proof.
  intros Hr Hv Ho Hn Hu Hfit. unfold path_lookup_relative. destruct (Z.eqb_spec r 0); [done|].
  assert (Hget : inode_get r s = Ret (tt, holding s r v)) by (apply inode_get_run; [done|done|lia]).
  rewrite (st_bind_Ret _ _ _ _ _ Hget). destruct (components path) as [|c cs] eqn:Ec.
  { by apply lookup_loop_end. }
  destruct (lookup_loop_step (length path) r path (holding s r v) c cs Ec) as (rest & <- & Hlen & ->); [by rewrite Ec|].
  apply Forall_cons_1 in Hfit as [_ Hfit].
  assert (Hv1 : v_inodes (holding s r v) !! r = Some (held v)) by apply lookup_insert_eq.
  rewrite (st_bind_Ret _ _ _ _ _ (get_vnode_run r _ _ Hv1)).
  assert (vn_ops (held v) = true) as -> by done. cbn [negb walk].
  pose proof (call_lookup_run _ r _ c Hv1) as Hcall. change (vn_sb (held v)) with (vn_sb v) in Hcall.
  change (v_fs (holding s r v)) with (v_fs s) in Hcall. change (v_mem (holding s r v)) with (v_mem s) in Hcall.
  pose proof (lookup_one (vn_sb v) (vn_inode (held v)) c (v_fs s)) as Hone.
  destruct (be_lookup (vn_sb v) (vn_inode (held v)) c (v_fs s)) as [[[j|] f1]| |] eqn:Eb.
  - destruct (ad_pick_ok (v_mem s)) as (Hq0 & Hqu & Hqa). destruct (ad_pick (v_mem s)) as [q a']. cbn [fst snd] in *.
    assert (Hpq : r <> q). { intros ->. apply Hqu. apply Hu. by exists v. }
    rewrite (st_bind_Ret _ _ _ _ _ Hcall), (st_bind_Ret _ _ _ _ _ Eb).
    rewrite (st_bind_Ret _ _ _ _ _ (put_holding_next s r v q (vn_sb v) j a' f1 Hr Hv Hn Hpq)).
    destruct (Z.eqb_spec q 0); [done|]. rewrite (st_bind_Ret _ _ f1 tt f1) by done.
    apply loop_visiting; [lia|done|done|done|done|done|by eapply Hone].
  - rewrite (st_bind_Ret _ _ _ _ _ Hcall), (st_bind_Ret _ _ _ _ _ Eb).
    rewrite (st_bind_Ret _ _ _ _ _ (put_holding s r v Hr Hv Hn f1)), (st_bind_Ret _ _ f1 tt f1) by done.
    change (with_fs f1 s) with (with_mem (v_mem s) (with_fs f1 s)) at 1. by constructor.
  - rewrite (st_bind_Fault _ _ _ Hcall), (st_bind_Fault _ _ _ Eb). constructor.
  - rewrite (st_bind_Diverge _ _ _ Hcall), (st_bind_Diverge _ _ _ Eb). constructor.
Qed.

(** A file system is mounted as the root, and [r] is its root directory. *)
Definition mounted_root s (r : Z) (v : vnode) : Prop :=
  exists m x, root_mount s <> 0 /\ v_mounts s !! root_mount s = Some m /\ mnt_sb m <> 0 /\
    v_supers s !! mnt_sb m = Some x /\ sb_root x = r /\ r <> 0 /\ v_inodes s !! r = Some v.

Lemma path_lookup_run s r v rest : mounted_root s r v -> vn_ops v = true -> 1 <= refs v < 4294967295 ->
  inodes_used s -> Forall fits (components rest) ->
  match components rest with
  | [] => path_lookup (Some (SLASH :: rest)) s = Ret (r, holding s r v)
  | cs => resolved s (vn_sb v) (walk true (vn_sb v) (vn_inode (held v)) cs (v_fs s))
            (path_lookup (Some (SLASH :: rest)) s)
  end.
Proof.
  intros (m & x & Hm0 & Hm & Hsb & Hx & <- & Hr & Hv) Ho Hn Hu Hfit. unfold path_lookup. rewrite Z.eqb_refl.
  cbn [negb]. unfold get_root_mount. rewrite (st_bind_Ret _ _ s (root_mount s) s) by done.
  destruct (Z.eqb_spec (root_mount s) 0); [done|].
  rewrite (st_bind_Ret _ _ s m s) by (unfold get_mount_t, mbind, ST_bind, st_get, st_lift; by rewrite Hm).
  destruct (Z.eqb_spec (mnt_sb m) 0); [done|].
  rewrite (st_bind_Ret _ _ s x s) by (unfold get_super, mbind, ST_bind, st_get, st_lift; by rewrite Hx).
  destruct (Z.eqb_spec (sb_root x) 0); [done|].
  rewrite <- (components_skip rest) in Hfit |- *. destruct (skip_slashes rest) as [|c path] eqn:E.
  - assert (Hget : inode_get (sb_root x) s = Ret (tt, holding s (sb_root x) v)) by (apply inode_get_run; [done|done|lia]).
    by rewrite (st_bind_Ret _ _ _ _ _ Hget).
  - by apply path_lookup_relative_run.
Qed.

(** (C4) Path resolution is a fold of lookups: for an absolute path whose
    components are at most 255 characters long, [path_lookup] returns exactly
    what looking up the components between the slashes one after the other
    from the root directory returns, failures included; the only inode it leaves
    allocated is the result, with one reference, and every other inode keeps its
    reference count.  The path of the root itself adds a reference to it. *)
Theorem path_lookup_folds s r v rest : mounted_root s r v -> vn_ops v = true -> 1 <= refs v < 4294967295 ->
  inodes_used s -> Forall fits (components rest) ->
  match components rest with
  | [] => path_lookup (Some (SLASH :: rest)) s = Ret (r, holding s r v)
  | cs => resolved s (vn_sb v) (walk true (vn_sb v) (vn_inode (held v)) cs (v_fs s))
            (path_lookup (Some (SLASH :: rest)) s)
  end.
Proof. apply path_lookup_run. Qed.
End lookup.

(** ** Components that are too long *)
Section long.
Context {F A : Type} `{!Backend F} `{!Addresses A}.
Implicit Types s : vfs F A.

Lemma loop_S fuel p path : lookup_loop (S fuel) p path =
  match path with
  | [] => mret p
  | _ =>
      match skip_slashes path with
      | [] => mret p
      | path =>
          let '(component, path) := take_component 255 path in
          v ← get_vnode p;
          if negb (vn_ops v) then inode_put p;; mret 0
          else
            next ← call_lookup p component;
            inode_put p;;
            if next =? 0 then mret 0 else lookup_loop fuel next path
      end
  end.
Proof. done. Qed.

Lemma loop_slash fuel p path s : lookup_loop (S fuel) p (SLASH :: path) s = lookup_loop (S fuel) p path s.
Proof. cbn [lookup_loop skip_slashes]. rewrite Z.eqb_refl. by destruct path. Qed.

Lemma take_component_app c d : SLASH ∉ c -> take_component (length c) (c ++ d) = (c, d).
Proof.
  induction c as [|x c IH]; cbn [length app take_component]; [done|]. rewrite not_elem_of_cons. intros [Hx Hc].
  destruct (Z.eqb_spec x SLASH); [congruence|]. by rewrite IH.
Qed.

Lemma take_component_shorter n path : (length (take_component n path).2 <= length path)%nat.
Proof.
  pose proof (take_component_spec n path) as H. destruct (take_component n path) as [name rest].
  destruct H as (-> & _). cbn. rewrite length_app. lia.
Qed.

Lemma take_component_progress c path : c <> SLASH ->
  (length (take_component 255 (c :: path)).2 < length (c :: path))%nat.
Proof.
  intros Hc. pose proof (take_component_spec 255 (c :: path)) as H.
  destruct (take_component 255 (c :: path)) as [name rest]. destruct H as (Hp & _ & _ & Hs). rewrite Hp, length_app.
  destruct name as [|x name]; cbn [length snd]; [|lia]. cbn in Hp.
  destruct Hs as [Hs|[-> |[r ->]]]; [done|done|congruence].
Qed.

(** Any fuel above the length of the path does. *)
Lemma loop_fuel n : forall m p path s, (length path < n)%nat -> (length path < m)%nat ->
  lookup_loop n p path s = lookup_loop m p path s.
Proof.
  induction n as [|n IH]; intros [|m] p path s Hn Hm; try lia. cbn [lookup_loop].
  destruct path as [|c0 path0]; [done|]. destruct (skip_slashes (c0 :: path0)) as [|c path] eqn:E; [done|].
  pose proof (skip_slashes_length (c0 :: path0)) as Hl. rewrite E in Hl.
  pose proof (take_component_progress c path (skip_slashes_head _ _ _ E)) as Hp.
  destruct (take_component 255 (c :: path)) as [name rest]. cbn [snd] in Hp.
  apply st_bind_ext. intros v s1. destruct (vn_ops v); [|done]. cbn [negb].
  apply st_bind_ext. intros next s2. apply st_bind_ext. intros _ s3. destruct (next =? 0); [done|]. apply IH; lia.
Qed.

Lemma skip_slashes_app c d : SLASH ∉ c -> c <> [] -> skip_slashes (c ++ d) = c ++ d.
Proof.
  destruct c as [|x c]; [done|]. rewrite not_elem_of_cons. intros [Hx _] _. cbn.
  destruct (Z.eqb_spec x SLASH); [congruence|done].
Qed.

Lemma loop_long n p c d s : length c = 255%nat -> SLASH ∉ c -> (length (c ++ d) < n)%nat ->
  lookup_loop n p (c ++ d) s = lookup_loop (S n) p (c ++ SLASH :: d) s.
Proof.
  intros Hc Hs Hn. destruct n as [|n]; [lia|].
  assert (Hne : c <> []) by (by intros ->). rewrite length_app in Hn.
  pose proof (take_component_app c d Hs) as T1. pose proof (take_component_app c (SLASH :: d) Hs) as T2.
  rewrite Hc in T1, T2. pose proof (skip_slashes_app c d Hs Hne) as S1. pose proof (skip_slashes_app c (SLASH :: d) Hs Hne) as S2.
  rewrite !loop_S, S1, S2. destruct c as [|x c]; [done|]. cbn [app] in *. rewrite T1, T2.
  apply st_bind_ext. intros v s1. destruct (vn_ops v); [|done]. cbn [negb].
  apply st_bind_ext. intros next s2. apply st_bind_ext. intros _ s3. destruct (next =? 0); [done|].
  rewrite loop_slash. apply loop_fuel; cbn in *; lia.
Qed.

(** A component of more than 255 characters is not refused: it is cut, so
    a path with a 255-character prefix [c] of a longer component resolves, in
    every state, to whatever the path with a slash after [c] resolves to. *)
Theorem path_lookup_splits_long_component s c d : length c = 255%nat -> SLASH ∉ c ->
  path_lookup (Some (SLASH :: c ++ d)) s = path_lookup (Some (SLASH :: c ++ SLASH :: d)) s.
Proof.
  intros Hc Hs. assert (Hne : c <> []) by (by intros ->). unfold path_lookup. rewrite Z.eqb_refl. cbn [negb].
  rewrite !skip_slashes_app by done. apply st_bind_ext. intros rm s1. destruct (rm =? 0); [done|].
  apply st_bind_ext. intros m s2. destruct (mnt_sb m =? 0); [done|]. apply st_bind_ext. intros x s3.
  destruct (sb_root x =? 0) eqn:Er; [done|]. destruct c as [|y c]; [done|]. cbn [app].
  unfold path_lookup_relative. rewrite Er. apply st_bind_ext. intros _ s4.
  change (y :: c ++ d) with ((y :: c) ++ d). change (y :: c ++ SLASH :: d) with ((y :: c) ++ SLASH :: d).
  rewrite (loop_long (S (length ((y :: c) ++ d))) _ _ _ _ Hc Hs) by lia.
  apply loop_fuel; rewrite !length_app; cbn; lia.
Qed.
End long.

(** ** Unmounting *)
Section umount.
Context {F A : Type} `{!Backend F} `{!Addresses A} `{!DropFrees F}.
Implicit Types s : vfs F A.

(** An inode survives giving up a reference to another one, or one of several. *)
Lemma inode_put_keeps r q v s s' u : inode_put r s = Ret (u, s') -> v_inodes s !! q = Some v ->
  (r = q -> 2 <= refs v < 4294967296) ->
  v_files s' = v_files s /\ exists w, v_inodes s' !! q = Some w /\ vn_sb w = vn_sb v /\ vn_ops w = vn_ops v.
Proof.
  intros Hrun Hv Hr. unfold inode_put in Hrun. destruct (Z.eqb_spec r 0); [injection Hrun as <- <-; by eauto|].
  apply st_bind_inv in Hrun as (w & s1 & Hw & Hrun). unfold get_vnode, mbind, ST_bind, st_get, st_lift in Hw.
  destruct (v_inodes s !! r) as [x|] eqn:Hx; [|done]. injection Hw as -> <-.
  apply st_bind_inv in Hrun as ([] & s2 & Hp & Hrun). injection Hp as <-.
  destruct (decide (r = q)) as [->|Hne].
  - assert (w = v) as -> by congruence. specialize (Hr eq_refl). fold (refs v) in Hrun.
    rewrite u32_small in Hrun by (unfold is_u32; lia). destruct (Z.eqb_spec (refs v - 1) 0); [lia|].
    injection Hrun as _ <-. split; [done|]. cbn. rewrite lookup_insert_eq. by eexists.
  - assert (Hq : (<[r := set_refs w (ref_count (vn_inode w) -! 1)]> (v_inodes s)) !! q = Some v)
      by (by rewrite lookup_insert_ne).
    destruct (ref_count (vn_inode w) -! 1 =? 0); [|injection Hrun as _ <-; cbn; rewrite Hq; by eauto].
    unfold inode_free in Hrun. destruct (Z.eqb_spec r 0); [done|].
    unfold get_vnode, kfree, kfree_data, when, st_modify, mbind, ST_bind, st_get, st_lift in Hrun.
    cbn [v_inodes with_inodes] in Hrun. rewrite lookup_insert_eq in Hrun. cbn in Hrun.
    destruct (vn_fs_data w); injection Hrun as _ <-; (split; [done|]); cbn; rewrite lookup_delete_ne by done; rewrite Hq; by eauto.
Qed.

Lemma when_inv (b : bool) (c : ST (vfs F A) unit) s u s' : when b c s = Ret (u, s') ->
  (b = true /\ c s = Ret (u, s')) \/ (b = false /\ s' = s).
Proof. destruct b; cbn; [by left|]. intros [= _ <-]. by right. Qed.

Lemma on_fs_inv {B} (c : ST F B) s b s' : on_fs c s = Ret (b, s') -> exists f, c (v_fs s) = Ret (b, f) /\ s' = with_fs f s.
Proof. unfold on_fs. destruct (c (v_fs s)) as [[b' f]| |]; [|done|done]. intros [= <- <-]. by exists f. Qed.

Lemma mount_remove_inv mnt s u s' : mount_remove mnt s = Ret (u, s') ->
  exists m h, s' = with_mounts m h (root_mount s) s.
Proof.
  unfold mount_remove. destruct (mnt =? 0).
  - intros [= _ <-]. exists (v_mounts s), (mount_list s). vfs_ext.
  - intros (s1 & s2 & [= <- <-] & H)%st_bind_inv. apply st_bind_inv in H as ([[b h] m] & s2 & Hl & [= _ <-]).
    unfold st_lift in Hl. destruct (unlink_node _ _ _ _ _ _ _) as [r| |]; [|done|done]. injection Hl as _ <-. by exists m, h.
Qed.

Lemma superblock_free_drops sb x q v s s' u : superblock_free sb s = Ret (u, s') -> sb <> 0 ->
  v_supers s !! sb = Some x -> sb_fs_data x = true ->
  v_inodes s !! q = Some v -> (sb_root x = q -> 2 <= refs v < 4294967296) ->
  v_files s' = v_files s /\ be_gone sb (v_fs s') /\
  exists w, v_inodes s' !! q = Some w /\ vn_sb w = vn_sb v /\ vn_ops w = vn_ops v.
Proof.
  intros Hrun Hsb Hx Hd Hv Hr. unfold superblock_free in Hrun. destruct (Z.eqb_spec sb 0); [done|].
  apply st_bind_inv in Hrun as (x' & s1 & Hx' & Hrun). unfold get_super, mbind, ST_bind, st_get, st_lift in Hx'.
  rewrite Hx in Hx'. injection Hx' as <- <-.
  apply st_bind_inv in Hrun as ([] & s2 & H2 & Hrun).
  assert (E2 : v_files s2 = v_files s /\ v_inodes s2 = v_inodes s).
  { apply when_inv in H2 as [[_ (f & _ & ->)%on_fs_inv]|[_ ->]]; done. }
  destruct E2 as [Ef2 Ei2]. apply st_bind_inv in Hrun as ([] & s3 & H3 & Hrun).
  assert (E3 : v_files s3 = v_files s2 /\ exists w, v_inodes s3 !! q = Some w /\ vn_sb w = vn_sb v /\ vn_ops w = vn_ops v).
  { apply when_inv in H3 as [[_ H3]|[_ ->]]; [|rewrite Ei2, Hv; by eauto].
    eapply inode_put_keeps; [exact H3|by rewrite Ei2|done]. }
  destruct E3 as [Ef3 Hw]. apply st_bind_inv in Hrun as ([] & s4 & H4 & Hrun). rewrite Hd in H4. cbn [when] in H4.
  apply on_fs_inv in H4 as (f & Hdrop & ->). apply gone_drop in Hdrop.
  unfold kfree, kfree_data, st_modify, mbind, ST_bind in Hrun. injection Hrun as _ <-. cbn.
  split; [congruence|]. split; [by do 2 apply gone_free|done].
Qed.

(** (C40) Unmounting does not look at open files: when [umount] of a volume
    returns while a file of it is open, the file's inode still refers to the
    freed superblock, and the next read of the file accesses freed memory. *)
Theorem umount_open_file_faults s s' mnt m x p f v n r :
  v_mounts s !! mnt = Some m -> mnt_sb m <> 0 -> v_supers s !! mnt_sb m = Some x -> sb_fs_data x = true ->
  p <> 0 -> v_files s !! p = Some f -> f_inode f <> 0 -> v_inodes s !! f_inode f = Some v ->
  vn_sb v = mnt_sb m -> vn_ops v = true -> (sb_root x = f_inode f -> 2 <= refs v < 4294967296) ->
  umount mnt s = Ret (r, s') -> mnt <> 0 ->
  file_read p n s' = Fault.
Proof.
  intros Hm Hsb Hx Hd Hp Hf Hq Hv Hvs Ho Hr Hrun Hmnt. unfold umount in Hrun. destruct (Z.eqb_spec mnt 0); [done|].
  apply st_bind_inv in Hrun as (m' & s1 & Hm' & Hrun). unfold get_mount_t, mbind, ST_bind, st_get, st_lift in Hm'.
  rewrite Hm in Hm'. injection Hm' as <- <-. apply st_bind_inv in Hrun as ([] & s2 & H2 & Hrun).
  destruct (Z.eqb_spec (mnt_sb m) 0); [done|].
  apply st_bind_inv in H2 as (x' & s3 & Hx' & H2). unfold get_super, mbind, ST_bind, st_get, st_lift in Hx'.
  rewrite Hx in Hx'. injection Hx' as <- <-. apply st_bind_inv in H2 as ([] & s4 & H4 & H2).
  assert (E4 : exists fs, s4 = with_fs fs s).
  { apply when_inv in H4 as [[_ H4]|[_ ->]]; [|exists (v_fs s); by vfs_ext].
    apply st_bind_inv in H4 as (b & s5 & (fs & _ & ->)%on_fs_inv & [= <-]). by exists fs. }
  destruct E4 as [fs ->]. apply st_bind_inv in H2 as ([] & s6 & H6 & H2).
  destruct (superblock_free_drops _ x (f_inode f) v _ _ _ H6 Hsb Hx Hd Hv Hr) as (Ef & Hg & w & Hw & Hws & Hwo).
  apply st_bind_inv in H2 as (m2 & s7 & Hm2 & H2).
  assert (s7 = s6) as -> by (unfold get_mount_t, mbind, ST_bind, st_get, st_lift in Hm2; by destruct (v_mounts s6 !! mnt); [injection Hm2 as _ <-|]).
  injection H2 as <-.
  assert (Hfin : v_files s' = v_files s6 /\ v_inodes s' = v_inodes s6 /\ be_gone (mnt_sb m) (v_fs s')).
  { apply st_bind_inv in Hrun as ([] & s8 & (mm & h & ->)%mount_remove_inv & Hrun).
    apply st_bind_inv in Hrun as ([] & s9 & [= <-] & Hrun). apply st_bind_inv in Hrun as ([] & s10 & H10 & [= _ <-]).
    unfold mount_free in H10. destruct (Z.eqb_spec mnt 0); [done|].
    unfold kfree, kfree_data, st_modify, mbind, ST_bind in H10. injection H10 as <-.
    cbn [root_mount with_mounts]. destruct (root_mount s6 =? mnt); (split; [done|]; split; [done|]); by apply gone_free. }
  destruct Hfin as (Ff & Fi & Fg). unfold file_read. destruct (Z.eqb_spec p 0); [done|].
  rewrite (st_bind_Ret _ _ s' f s').
  2:{ unfold get_file, mbind, ST_bind, st_get, st_lift. rewrite Ff, Ef. cbn [v_files with_fs]. by rewrite Hf. }
  destruct (Z.eqb_spec (f_inode f) 0); [done|].
  rewrite (st_bind_Ret _ _ s' w s').
  2:{ unfold get_vnode, mbind, ST_bind, st_get, st_lift. by rewrite Fi, Hw. }
  rewrite Hwo, Ho. cbn [negb]. apply st_bind_Fault. unfold on_fs. rewrite Hws, Hvs. by rewrite gone_read.
Qed.
End umount.

(** ** The registry of file system types *)
Section registry.
Context {F A : Type} `{!Backend F} `{!Addresses A}.
Implicit Types s : vfs F A.

(** The abstract registry: addresses and names, the latest registration first. *)
Definition reg_get (name : list Z) (al : list (Z * list Z)) : Z :=
  match List.find (fun x => bool_decide (x.2 = name)) al with Some x => x.1 | None => 0 end.
Definition reg_register (p : Z) (name : list Z) (al : list (Z * list Z)) : Z * list (Z * list Z) :=
  if reg_get name al =? 0 then (0, (p, name) :: al) else (-1, al).
Definition reg_unregister (p : Z) (al : list (Z * list Z)) : Z * list (Z * list Z) :=
  if bool_decide (p ∈ al.*1) then (0, filter (fun x => x.1 <> p) al) else (-1, al).

Definition has_name s (x : Z * list Z) : Prop := exists t, v_types s !! x.1 = Some t /\ fst_name t = Some x.2.
Definition registry_is s (al : list (Z * list Z)) : Prop :=
  linked fst_next (v_types s) (filesystem_list s) al.*1 /\ Forall (has_name s) al.

Lemma registry_find s al name : registry_is s al ->
  find_node fst_next (S (map_size (v_types s))) (same_name name) (v_types s) (filesystem_list s) = Ret (reg_get name al).
Proof.
  intros [[Hc Hd] Hn]. pose proof (chain_length _ _ _ _ Hc Hd) as Hlen.
  destruct (find_node_spec fst_next (same_name name) (v_types s) al.*1 (S (map_size (v_types s))) (filesystem_list s) Hc)
    as (r & -> & H); [unfold stdpp.base.size in Hlen; lia|]. f_equal.
  clear Hd Hlen Hc. unfold reg_get. induction al as [|[p n] al IH].
  { destruct H as [[-> _]|(l1 & l2 & t & Hl & _)]; [done|]. by destruct l1. }
  apply Forall_cons_1 in Hn as [(t & Ht & Hname) Hn]. cbn [fst snd] in *. cbn [List.find snd].
  assert (Hs : same_name name t = bool_decide (n = name)) by (unfold same_name; by rewrite Hname).
  destruct H as [[-> H]|(l1 & l2 & k & Hl & Hr & Hk & Hkt & Hb)].
  - assert (Hf : same_name name t = false) by (apply (H p); [cbn; left|done]). rewrite <- Hs, Hf. apply IH; [done|].
    left. split; [done|]. intros q w Hq. apply H. cbn. by right.
  - destruct l1 as [|p' l1]; cbn in Hl; injection Hl as -> Hl.
    + assert (k = t) as -> by congruence. by rewrite <- Hs, Hkt.
    + assert (Hf : same_name name t = false) by (apply (Hb p'); [left|done]). rewrite <- Hs, Hf. apply IH; [done|].
      right. exists l1, l2, k. repeat split; try done. intros q w Hq. apply Hb. by right.
Qed.

Lemma reg_get_0 name al : Forall (fun x => x.1 <> 0) al -> reg_get name al = 0 -> Forall (fun x => x.2 <> name) al.
Proof.
  unfold reg_get. induction al as [|[p n] al IH]; [done|]. intros [Hp Hal]%Forall_cons_1. cbn in *.
  case_bool_decide; [done|]. intros H0. constructor; [done|]. by apply IH.
Qed.

Lemma has_name_relinked s s' x t : has_name s x -> v_types s' !! x.1 = Some t ->
  (forall k, v_types s !! x.1 = Some k -> fst_name t = fst_name k) -> has_name s' x.
Proof. intros (k & Hk & Hn) Ht Hs. exists t. split; [done|]. by rewrite (Hs k Hk). Qed.

Lemma filter_split (l1 l2 : list (Z * list Z)) p n : NoDup (l1 ++ (p, n) :: l2).*1 ->
  filter (fun x => x.1 <> p) (l1 ++ (p, n) :: l2) = l1 ++ l2.
Proof.
  rewrite fmap_app, fmap_cons. cbn [fst]. intros (_ & H1 & [H2 _]%list.NoDup_cons)%list.NoDup_app.
  assert (Hid : forall l : list (Z * list Z), p ∉ l.*1 -> filter (fun x => x.1 <> p) l = l).
  { induction l as [|[q m] l IH]; [done|]. rewrite fmap_cons, not_elem_of_cons. cbn [fst]. intros [Hq Hl].
    rewrite filter_cons_True by (cbn; congruence). by rewrite IH. }
  rewrite list.filter_app, filter_cons_False by (cbn; intros E; by apply E). rewrite !Hid; [done|done|].
  intros Hin. apply (H1 p Hin). left.
Qed.

Lemma register_refines s al fs t name : registry_is s al -> fs <> 0 -> fs ∉ al.*1 ->
  v_types s !! fs = Some t -> fst_name t = Some name ->
  exists s', register_filesystem fs s = Ret ((reg_register fs name al).1, s') /\
    registry_is s' (reg_register fs name al).2.
Proof.
  intros Hreg Hfs Hin Ht Hname. pose proof Hreg as [[Hc Hd] Hn]. unfold register_filesystem. destruct (Z.eqb_spec fs 0); [done|].
  rewrite (st_bind_Ret _ _ s s s) by done. rewrite (st_bind_Ret _ _ s t s) by (unfold st_lift; by rewrite Ht).
  rewrite Hname, (st_bind_Ret _ _ s (reg_get name al) s) by (unfold st_lift; by rewrite (registry_find s al name Hreg)).
  unfold reg_register. destruct (reg_get name al =? 0); cbn [negb]; [|by eexists].
  eexists. split; [done|]. cbn [fst snd]. split; [split|].
  + cbn. split; [done|]. split; [done|]. eexists. rewrite lookup_insert_eq. split; [done|]. cbn. by apply chain_insert.
  + by apply list.NoDup_cons.
  + constructor; [exists (set_fst_next (filesystem_list s) t); cbn; by rewrite lookup_insert_eq|].
    eapply list.Forall_impl; [exact Hn|]. intros [q m] (k & Hk & Hm). cbn [fst snd] in *. unfold has_name. cbn.
    destruct (decide (q = fs)) as [->|Hq]; [rewrite lookup_insert_eq; eexists; split; [done|]; cbn; congruence|].
    rewrite lookup_insert_ne by done. by exists k.
Qed.

Lemma unregister_refines s al fs : registry_is s al -> fs <> 0 ->
  exists s', unregister_filesystem fs s = Ret ((reg_unregister fs al).1, s') /\
    registry_is s' (reg_unregister fs al).2.
Proof.
  intros Hreg Hfs. pose proof Hreg as [[Hc Hd] Hn]. unfold unregister_filesystem. destruct (Z.eqb_spec fs 0); [done|].
  rewrite (st_bind_Ret _ _ s s s) by done. pose proof (chain_length _ _ _ _ Hc Hd) as Hlen.
  unfold reg_unregister. case_bool_decide as Hin.
  + apply list_elem_of_fmap in Hin as ([p nm0] & -> & Hin). cbn [fst].
    apply list_elem_of_split in Hin as (l1 & l2 & ->).
    rewrite fmap_app, fmap_cons in Hc, Hd, Hlen. cbn [fst] in *.
    destruct (unlink_present fst_next set_fst_next (fun _ _ => eq_refl) (fun _ _ _ => eq_refl) p (v_types s) l1.*1 l2.*1
      (S (map_size (v_types s))) (filesystem_list s) Head Hc Hd) as (head & m & Hrun & Hc' & Hrl & _);
      [unfold stdpp.base.size in Hlen; lia|].
    rewrite (st_bind_Ret _ _ s (true, head, m) s) by (unfold st_lift; by rewrite Hrun).
    eexists. split; [done|]. cbn [fst snd]. rewrite filter_split by (by rewrite fmap_app, fmap_cons).
    split; [split|].
    * by rewrite fmap_app.
    * rewrite fmap_app. apply NoDup_ListNoDup, List.NoDup_remove_1 with p, NoDup_ListNoDup. exact Hd.
    * apply Forall_app in Hn as [Hn1 [_ Hn2]%Forall_cons_1].
      eapply list.Forall_impl; [by apply Forall_app_2|]. intros [q nm] (k & Hk & Hm). cbn [fst snd] in *.
      specialize (Hrl q). unfold has_name. cbn. rewrite Hk in Hrl. destruct (m !! q) as [k'|]; [|done].
      exists k'. split; [done|]. by destruct Hrl as [v [-> | ->]].
  + rewrite (st_bind_Ret _ _ s (false, filesystem_list s, v_types s) s).
    * eexists. split; [done|]. exact Hreg.
    * unfold st_lift. rewrite (unlink_absent fst_next set_fst_next fs (v_types s) (filesystem_list s) al.*1);
        [done|done|done|done|unfold stdpp.base.size in Hlen; lia].
Qed.

(** The registry of file system types refines a list of named entries:
    registration adds an entry in front unless the name is taken, lookup by
    name returns the entry of that name or null, and removal takes out exactly the
    entry of the given address; each operation returns. *)
Theorem filesystem_registry_refines s al : registry_is s al ->
  (forall fs t name, fs <> 0 -> fs ∉ al.*1 -> v_types s !! fs = Some t -> fst_name t = Some name ->
     exists s', register_filesystem fs s = Ret ((reg_register fs name al).1, s') /\
       registry_is s' (reg_register fs name al).2) /\
  (forall name, get_filesystem (Some name) s = Ret (reg_get name al, s)) /\
  (forall fs, fs <> 0 -> exists s', unregister_filesystem fs s = Ret ((reg_unregister fs al).1, s') /\
     registry_is s' (reg_unregister fs al).2).
Proof.
  intros Hreg. split; [|split].
  - intros. by apply (register_refines s al fs t).
  - intros name. unfold get_filesystem. rewrite (st_bind_Ret _ _ s s s) by done.
    unfold st_lift. by rewrite (registry_find s al name Hreg).
  - intros. by apply unregister_refines.
Qed.
End registry.

(** ** A file system in memory, for the witnesses

    Every directory has every entry but "x"; an inode's number encodes its path,
    and a file holds ten copies of it, of which a call reads at most three.  The
    state is the list of mounted superblocks. *)
Definition toy_short (n off : Z) : Z := Z.max 0 (Z.min 3 (Z.min n (10 - off))).
Definition toy_on {B} (sb : Z) (b : B) : ST (list Z) B := fun f =>
  if existsb (Z.eqb sb) f then Ret (b, f) else Fault.
#[export] Instance toy_backend : Backend (list Z) := {
  be_malloc _ f := (true, f);
  be_free f := f;
  be_lookup sb i name := toy_on sb (match name with
    | [120] => None
    | c :: _ => Some (new_inode (256 * ino i + c) 1024)
    | [] => None
    end);
  be_create sb i name m := toy_on sb (0, i);
  be_mkdir sb i name m := toy_on sb (0, i);
  be_unlink sb i name := toy_on sb 0;
  be_rmdir sb i name := toy_on sb (0, i);
  be_read sb i n off := let k := toy_short n off in
    toy_on sb (k, take (Z.to_nat k) (drop (Z.to_nat off) (replicate 10 (ino i))));
  be_write sb i buf off := toy_on sb (Z.of_nat (length buf), i);
  be_chmod sb i m := toy_on sb (0, i);
  be_readdir sb i n off := toy_on sb (0, []);
  be_fill_super sb dev f := Ret (Some {| blocksize := 1024; blocksize_bits := 10; root := new_inode 2 1024 |}, sb :: f);
  be_put_superblock sb := toy_on sb tt;
  be_drop sb f := Ret (tt, List.filter (fun x => negb (sb =? x)) f);
  be_sync sb := toy_on sb 0
}.

#[export] Instance toy_one : LookupOne (list Z).
Proof.
  intros sb i name f j f'. cbn. unfold toy_on. destruct (existsb (Z.eqb sb) f); [|done]. intros [= H <-].
  destruct name as [|c name]; [done|]. destruct (decide (c :: name = [120])) as [[= -> ->]|Hne]; [done|].
  assert (E : Some (new_inode (256 * ino i + c) 1024) = Some j).
  { rewrite <- H. destruct c as [|c|c]; try done. do 7 (destruct c; try done). by destruct name. }
  by injection E as <-.
Qed.

#[export] Instance toy_drop : DropFrees (list Z).
Proof.
  refine (@Build_DropFrees (list Z) _ (fun sb f => existsb (Z.eqb sb) f = false) _ _ _).
  - intros sb f u f'. cbn. intros [= _ <-]. induction f as [|x f IH]; [done|]. cbn.
    destruct (sb =? x) eqn:E; cbn; [done|]. by rewrite E.
  - done.
  - intros sb f i n off Hg. cbn. unfold toy_on. by rewrite Hg.
Defined.

(** Addresses: a set, the next one above all. *)
Definition set_top (a : gset Z) : Z := foldr Z.max 0 (elements a).
#[export] Instance set_addresses : Addresses (gset Z) := {
  ad_pick a := (1 + set_top a, {[1 + set_top a]} ∪ a);
  ad_give p a := a ∖ {[p]}
}.

Lemma set_top_spec (a : gset Z) : 0 <= set_top a /\ forall p, p ∈ a -> p <= set_top a.
Proof.
  unfold set_top. assert (H : forall l, 0 <= foldr Z.max 0 l /\ forall p, p ∈ l -> p <= foldr Z.max 0 l).
  { induction l as [|x l [IH1 IH2]]; [split; [done|]; set_solver|]. cbn. split; [lia|]. intros p.
    rewrite elem_of_cons. intros [-> |Hp]; [lia|]. specialize (IH2 p Hp). lia. }
  destruct (H (elements a)) as [H1 H2]. split; [done|]. intros p Hp. apply H2. set_solver.
Qed.

#[export] Instance set_address_laws : AddressLaws (gset Z).
Proof.
  refine (@Build_AddressLaws (gset Z) _ (fun a => a) _ _).
  - intros a. cbn. destruct (set_top_spec a) as [H1 H2]. split; [lia|]. split; [|done].
    intros Hin. apply H2 in Hin. lia.
  - done.
Defined.

(** One volume, mounted: the mount at 10, the superblock at 20, its root at 30. *)
Definition toy_state : vfs (list Z) (gset Z) :=
  {| v_fs := [20]; v_mem := {[10; 20; 30]}; v_reg := registry_boot ∅;
     v_inodes := {[30 := new_vnode 20 (new_inode 2 1024)]};
     v_supers := {[20 := {| sb_dev := 3; sb_blocksize := 1024; sb_blocksize_bits := 10; sb_flags := 0;
                            sb_type := ext2_name; sb_root := 30; sb_fs_data := true; sb_ops := true |}]};
     v_mounts := {[10 := {| mnt_dev := 3; mnt_type := ext2_name; mnt_flags := 0; mnt_sb := 20; mnt_next := 0 |}]};
     mount_list := 10; root_mount := 10;
     v_types := {[5 := {| fst_name := Some ext2_name; fst_mount := 7; fst_next := 0 |}]}; filesystem_list := 5;
     v_dentries := ∅; v_files := ∅ |}.

Lemma toy_root : mounted_root toy_state 30 (new_vnode 20 (new_inode 2 1024)).
Proof. by do 2 eexists. Qed.

Lemma toy_inodes_used : inodes_used toy_state.
Proof.
  intros p [v Hv]. cbn in Hv. apply lookup_singleton_Some in Hv as [<- _]. split; [done|]. vm_compute. done.
Qed.

(** "/a//b/" resolves through the inode of "a". *)
Definition toy_walk : outcome (option inode * list Z) :=
  walk true 20 (vn_inode (held (new_vnode 20 (new_inode 2 1024)))) [[97]; [98]] [20].

Lemma path_lookup_folds_witness :
  toy_walk = Ret (Some (new_inode (256 * (256 * 2 + 97) + 98) 1024), [20]) /\
  resolved toy_state 20 toy_walk (path_lookup (Some [SLASH; 97; SLASH; SLASH; 98; SLASH]) toy_state).
Proof.
  split; [reflexivity|].
  assert (H := path_lookup_folds toy_state 30 (new_vnode 20 (new_inode 2 1024)) [97; SLASH; SLASH; 98; SLASH] toy_root eq_refl
    ltac:(vm_compute; split; congruence) toy_inodes_used ltac:(repeat constructor)).
  change (components [97; SLASH; SLASH; 98; SLASH]) with [[97]; [98]] in H. exact H.
Defined.

Lemma path_lookup_splits_long_component_witness :
  path_lookup (Some (SLASH :: replicate 255 97 ++ [98])) toy_state =
  path_lookup (Some (SLASH :: replicate 255 97 ++ [SLASH; 98])) toy_state.
Proof.
  apply (path_lookup_splits_long_component toy_state (replicate 255 97) [98] eq_refl).
  intros [H _]%elem_of_replicate. discriminate H.
Defined.

(** A file is opened, the volume unmounted, and the file read. *)
Definition toy_opened : vfs (list Z) (gset Z) :=
  final (file_open (Some [SLASH; 97]) FILE_FLAG_READ) toy_state.
Definition toy_unmounted : vfs (list Z) (gset Z) :=
  final (umount 10) toy_opened.

Lemma umount_open_file_faults_witness :
  umount 10 toy_opened = Ret (0, toy_unmounted) /\ file_read 32 4 toy_unmounted = Fault.
Proof.
  assert (Hv : ret_val (umount 10 toy_opened) = Some 0) by (vm_cast_no_check (eq_refl (Some 0))).
  pose proof (run_final (umount 10) toy_opened 0 Hv) as Hu. split; [exact Hu|].
  eapply (umount_open_file_faults toy_opened toy_unmounted 10 _ _ 32 _ _ 4 0);
    [vm_compute; reflexivity|cbn; lia|vm_compute; reflexivity|reflexivity|lia|vm_compute; reflexivity|cbn; lia|
     vm_compute; reflexivity|reflexivity|reflexivity|cbn; lia|exact Hu|lia].
Defined.

Lemma filesystem_registry_refines_witness : registry_is toy_state [(5, ext2_name)] /\
  get_filesystem (Some ext2_name) toy_state = Ret (5, toy_state) /\
  exists s', unregister_filesystem 5 toy_state = Ret (0, s') /\ registry_is s' [].
Proof.
  assert (H : registry_is toy_state [(5, ext2_name)]).
  { split; [split; [|by apply NoDup_singleton]|].
    - cbn. split; [done|]. split; [done|]. by eexists.
    - constructor; [|done]. by eexists. }
  split; [exact H|]. destruct (filesystem_registry_refines toy_state [(5, ext2_name)] H) as (_ & H1 & H2).
  split; [apply H1|]. destruct (H2 5 ltac:(lia)) as (s' & H3 & H4). exists s'. split; [exact H3|exact H4].
Defined.
