(* ===== verification/VfsRefs.v ===== *)
(** * Reference counts of the virtual file system

    The invariant of the object stores: the count in every inode is the number
    of pointers to it, no pointer dangles, and the objects are at distinct
    addresses in use.  Every operation on files and dentries keeps it. *)

From S2P Require Import Prelude BlockDev Ext2 LinkedList Vfs VfsProof.

(** ** Counting *)
Section count.
Context {V : Type}.
Implicit Types (m : gmap Z V) (P : V -> bool).

Definition count P m : Z := map_fold (fun _ v n => (if P v then 1 else 0) + n) 0 m.

Lemma count_empty P : count P ∅ = 0.
Proof. done. Qed.

Lemma count_insert P m k v : m !! k = None -> count P (<[k := v]> m) = (if P v then 1 else 0) + count P m.
Proof.
  intros Hk. unfold count.
  rewrite (map_fold_insert_L (fun _ v n => (if P v then 1 else 0) + n) 0 k v m); [done| |done]. intros. lia.
Qed.

Lemma count_delete P m k v : m !! k = Some v -> count P m = (if P v then 1 else 0) + count P (delete k m).
Proof.
  intros Hk. rewrite <- (insert_delete_id m k v Hk) at 1. apply count_insert. apply lookup_delete_eq.
Qed.

Lemma count_replace P m k v w : m !! k = Some v -> P w = P v -> count P (<[k := w]> m) = count P m.
Proof.
  intros Hk Hp. rewrite <- insert_delete_eq, count_insert by apply lookup_delete_eq.
  rewrite (count_delete P m k v Hk), Hp. done.
Qed.

Lemma count_range P m : 0 <= count P m <= Z.of_nat (base.size m).
Proof.
  induction m as [|k v m Hk IH] using map_ind; [done|]. rewrite count_insert by done.
  rewrite map_size_insert_None by done. case_bool; lia.
Qed.

Lemma count_pos P m k v : m !! k = Some v -> P v = true -> 1 <= count P m.
Proof. intros Hk Hp. rewrite (count_delete P m k v Hk), Hp. pose proof (count_range P (delete k m)). lia. Qed.

Lemma count_witness P m : 1 <= count P m -> exists k v, m !! k = Some v /\ P v = true.
Proof.
  induction m as [|k v m Hk IH] using map_ind; [by rewrite count_empty|]. rewrite count_insert by done.
  destruct (P v) eqn:Hp; [exists k, v; by rewrite lookup_insert_eq|]. intros Hc.
  destruct IH as (k' & v' & Hk' & Hv'); [lia|]. exists k', v'. rewrite lookup_insert_ne by congruence. done.
Qed.

(** Whether an address holds an object. *)
Definition occ m (p : Z) : Z := match m !! p with Some _ => 1 | None => 0 end.

Lemma occ_insert m k v p : occ (<[k := v]> m) p = if p =? k then 1 else occ m p.
Proof.
  unfold occ. destruct (Z.eqb_spec p k) as [->|Hp]; [by rewrite lookup_insert_eq|]. by rewrite lookup_insert_ne.
Qed.

Lemma occ_delete m k p : occ (delete k m) p = if p =? k then 0 else occ m p.
Proof.
  unfold occ. destruct (Z.eqb_spec p k) as [->|Hp]; [by rewrite lookup_delete_eq|]. by rewrite lookup_delete_ne.
Qed.

Lemma occ_range m p : 0 <= occ m p <= 1.
Proof. unfold occ. destruct (m !! p); lia. Qed.

Lemma occ_some m p v : m !! p = Some v -> occ m p = 1.
Proof. unfold occ. by intros ->. Qed.

Lemma occ_none m p : occ m p = 0 -> m !! p = None.
Proof. unfold occ. by destruct (m !! p). Qed.
End count.

(** ** What is asked of the file system

    Writing a file hands back its inode with the count it had.  Whether a call of
    the file system returns at all is not assumed: [tracks] relates an operation to
    the outcome of the calls it makes. *)
Class WriteKeeps (F : Type) `{!Backend F} :=
  write_keeps : forall sb i buf off f r j f', be_write sb i buf off f = Ret ((r, j), f') -> ref_count j = ref_count i.

(** [c] returns with [Q] when the outcome [o] is a return, and does not return otherwise. *)
Definition tracks {B C S} (o : outcome B) (c : ST S C) (s : S) (Q : C -> S -> Prop) : Prop :=
  match o with Ret _ => wp c s Q | _ => forall r, c s <> Ret r end.

Lemma tracks_bind_Ret {B C C' S} (o : outcome B) (c : ST S C) (k : C -> ST S C') s x s1 Q :
  c s = Ret (x, s1) -> tracks o (k x) s1 Q -> tracks o (x ← c; k x) s Q.
Proof. intros E. unfold tracks, wp. by rewrite (st_bind_Ret _ _ _ _ _ E). Qed.

Lemma tracks_wp {B C S} (b : B) (c : ST S C) s Q : wp c s Q -> tracks (Ret b) c s Q.
Proof. done. Qed.

Lemma tracks_bind {B C C' S} (o : outcome B) (c : ST S C) (k : C -> ST S C') s Q :
  tracks o c s (fun x s1 => wp (k x) s1 Q) -> tracks o (x ← c; k x) s Q.
Proof.
  unfold tracks. destruct o; [by intros ?%wp_bind|..]; intros Hn r Hr; unfold mbind, ST_bind in Hr;
    (destruct (c s) as [[x s1]| |]; [exact (Hn _ eq_refl)|done|done]).
Qed.

Lemma tracks_mono {B C S} (o : outcome B) (c : ST S C) s (Q Q' : C -> S -> Prop) :
  tracks o c s Q -> (forall x s', Q x s' -> Q' x s') -> tracks o c s Q'.
Proof. unfold tracks. destruct o; [|done..]. intros Hw HQ. by eapply wp_mono. Qed.

(** The components of a path as the loop takes them, at most 255 characters each. *)
Fixpoint pieces (fuel : nat) (path : list Z) : list (list Z) :=
  match fuel with
  | O => []
  | S fuel =>
      match skip_slashes path with
      | [] => []
      | path => let '(c, rest) := take_component 255 path in c :: pieces fuel rest
      end
  end.

Section invariant.
Context {F A : Type} `{!Backend F} `{!Addresses A} `{!AddressLaws A} `{!LookupOne F} `{!WriteKeeps F}.
Implicit Types s : vfs F A.

(** The pointers to an inode: open files, roots of superblocks and dentries. *)
Definition nrefs s (p : Z) : Z :=
  count (fun x => f_inode x =? p) (v_files s) + count (fun x => sb_root x =? p) (v_supers s) +
  count (fun x => d_inode x =? p) (v_dentries s).
Definition objs s (p : Z) : Z :=
  occ (v_inodes s) p + occ (v_files s) p + occ (v_dentries s) p + occ (v_supers s) p.

(** How many objects can point to an inode. *)
Definition handles s : Z := Z.of_nat (base.size (v_files s) + base.size (v_supers s) + base.size (v_dentries s)).

(** The references [qs] are held in local variables of the code. *)
Fixpoint extra (qs : list Z) (p : Z) : Z :=
  match qs with [] => 0 | q :: qs => (if q =? p then 1 else 0) + extra qs p end.

(** The file system mounted as the root has a root directory. *)
Definition root_ptr s (r : Z) : Prop :=
  exists m x, root_mount s <> 0 /\ v_mounts s !! root_mount s = Some m /\ mnt_sb m <> 0 /\
    v_supers s !! mnt_sb m = Some x /\ sb_root x = r /\ r <> 0.

Record vfs_inv (qs : list Z) s : Prop := {
  iv_objs : forall p, objs s p <= 1;
  iv_used : forall p, objs s p <> 0 -> p <> 0 /\ p ∈ ad_used (v_mem s);
  iv_refs : forall p v, v_inodes s !! p = Some v -> refs v = nrefs s p + extra qs p /\ 1 <= refs v;
  iv_live : forall p v, v_inodes s !! p = Some v -> vn_ops v = true;
  iv_ptr : forall p, p <> 0 -> 1 <= nrefs s p + extra qs p -> is_Some (v_inodes s !! p);
  iv_root : exists r, root_ptr s r;
  iv_dentry : forall p d, v_dentries s !! p = Some d -> 1 <= d_ref_count d < 4294967296;
  iv_file : forall p f, v_files s !! p = Some f -> f_inode f <> 0;
  iv_few : handles s < 4294967290
}.

(** ** Bounds *)
Ltac ranges s p :=
  pose proof (occ_range (v_inodes s) p); pose proof (occ_range (v_files s) p);
  pose proof (occ_range (v_dentries s) p); pose proof (occ_range (v_supers s) p).

Lemma extra_nonneg qs p : 0 <= extra qs p.
Proof. induction qs as [|q qs IH]; cbn; [done|]. case_bool; lia. Qed.

Lemma nrefs_range s p : 0 <= nrefs s p <= handles s.
Proof.
  unfold nrefs, handles. pose proof (count_range (fun x => f_inode x =? p) (v_files s)).
  pose proof (count_range (fun x => sb_root x =? p) (v_supers s)).
  pose proof (count_range (fun x => d_inode x =? p) (v_dentries s)). lia.
Qed.

Lemma nrefs_bound qs s p : vfs_inv qs s -> nrefs s p < 4294967290.
Proof. intros Hi. pose proof (nrefs_range s p). pose proof (iv_few _ _ Hi). lia. Qed.

Lemma objs_used qs s p : vfs_inv qs s -> p ∉ ad_used (v_mem s) -> objs s p = 0.
Proof. intros Hi Hp. destruct (Z.eqb_spec (objs s p) 0) as [E|E]; [done|]. by destruct (iv_used _ _ Hi p E). Qed.

Lemma inode_used qs s p v : vfs_inv qs s -> v_inodes s !! p = Some v -> p <> 0 /\ p ∈ ad_used (v_mem s).
Proof. intros Hi Hv. apply (iv_used _ _ Hi). unfold objs. apply occ_some in Hv. ranges s p. lia. Qed.

(** An address without an object is nobody's pointer. *)
Lemma nrefs_free qs s p : vfs_inv qs s -> p <> 0 -> objs s p = 0 -> nrefs s p = 0 /\ extra qs p = 0.
Proof.
  intros Hi Hp Ho. pose proof (nrefs_range s p). pose proof (extra_nonneg qs p).
  enough (~ 1 <= nrefs s p + extra qs p) by lia. intros H1.
  destruct (iv_ptr _ _ Hi p Hp H1) as [v Hv]. apply occ_some in Hv. unfold objs in Ho. ranges s p. lia.
Qed.

(** ** Steps of the code and the invariant *)
Lemma inv_fs qs s f : vfs_inv qs s -> vfs_inv qs (with_fs f s).
Proof. intros [H1 H2 H3 H4 H5 H6 H7 H8 H9]. by split. Qed.

Lemma inv_mem qs s a : vfs_inv qs s -> ad_used (v_mem s) ⊆ ad_used a -> vfs_inv qs (with_mem a s).
Proof. intros [H1 H2 H3 H4 H5 H6 H7 H8 H9] Ha. split; try done. intros p Hp. destruct (H2 p Hp). set_solver. Qed.

(** Giving back an address that holds no object. *)
Lemma inv_give qs s p : vfs_inv qs s -> objs s p = 0 -> vfs_inv qs (with_mem (ad_give p (v_mem s)) s).
Proof.
  intros [H1 H2 H3 H4 H5 H6 H7 H8 H9] Hp. split; try done. intros r Hr. change (objs s r <> 0) in Hr.
  destruct (H2 r Hr) as [H0 Hu]. split; [done|]. cbn. rewrite ad_give_ok. apply elem_of_difference. split; [done|].
  rewrite elem_of_singleton. congruence.
Qed.

(** The state after [inode_put]. *)
Definition put_result (q : Z) (v : vnode) s : vfs F A :=
  if refs v =? 1 then inode_gone q v s else with_inodes (<[q := set_refs v (refs v - 1)]> (v_inodes s)) s.

(** A change of the inode at [q] that gives up one reference to it. *)
Lemma inv_put q qs v s : vfs_inv (q :: qs) s -> v_inodes s !! q = Some v -> vfs_inv qs (put_result q v s).
Proof.
  intros Hi Hv. pose proof (iv_refs _ _ Hi q v Hv) as [Hr Hr1]. cbn [extra] in Hr. rewrite Z.eqb_refl in Hr.
  pose proof (extra_nonneg qs q). pose proof (nrefs_range s q). destruct (inode_used _ _ _ _ Hi Hv) as [Hq0 Hqu].
  destruct Hi as [H1 H2 H3 H4 H5 H6 H7 H8 H9]. unfold put_result.
  assert (Hex : forall p, p <> q -> extra (q :: qs) p = extra qs p).
  { intros p Hp. cbn. destruct (Z.eqb_spec q p); [congruence|lia]. }
  destruct (Z.eqb_spec (refs v) 1) as [E|E].
  - assert (Hobj : forall p, objs (inode_gone q v s) p = if p =? q then objs s p - 1 else objs s p).
    { intros p. unfold objs, inode_gone. cbn. rewrite occ_delete. destruct (Z.eqb_spec p q) as [->|]; [|done].
      apply occ_some in Hv. lia. }
    split; try done.
    + intros p. rewrite Hobj. specialize (H1 p). case_bool; lia.
    + intros p. rewrite Hobj. specialize (H1 p). pose proof Hv as Ho. apply occ_some in Ho.
      destruct (Z.eqb_spec p q) as [->|Hp].
      { unfold objs in *. ranges s q. lia. }
      intros Hne. destruct (H2 p Hne). split; [done|]. cbn. rewrite ad_give_ok. set_solver.
    + intros p w Hw. cbn in Hw. apply lookup_delete_Some in Hw as [Hp Hw]. rewrite <- (Hex p) by done. by apply H3.
    + intros p w Hw. cbn in Hw. apply lookup_delete_Some in Hw as [Hp Hw]. by apply (H4 p w).
    + intros p Hp0 Hp. change (nrefs (inode_gone q v s) p) with (nrefs s p) in Hp.
      assert (p <> q) by (intros ->; lia). cbn. rewrite lookup_delete_ne by done. apply H5; [done|]. by rewrite Hex.
  - assert (Hobj : forall p, objs (with_inodes (<[q := set_refs v (refs v - 1)]> (v_inodes s)) s) p = objs s p).
    { intros p. unfold objs. cbn. rewrite occ_insert. destruct (Z.eqb_spec p q) as [->|]; [|done].
      apply occ_some in Hv. lia. }
    split; try done.
    + intros p. rewrite Hobj. apply H1.
    + intros p. rewrite Hobj. apply H2.
    + intros p w. cbn. destruct (decide (p = q)) as [->|Hp].
      * rewrite lookup_insert_eq. intros [= <-]. change (refs (set_refs v (refs v - 1))) with (refs v - 1).
        change (nrefs (with_inodes (<[q := set_refs v (refs v - 1)]> (v_inodes s)) s) q) with (nrefs s q). lia.
      * rewrite lookup_insert_ne by done. rewrite <- (Hex p) by done. apply H3.
    + intros p w. cbn. destruct (decide (p = q)) as [->|Hp]; [|rewrite lookup_insert_ne by done; apply H4].
      rewrite lookup_insert_eq. intros [= <-]. exact (H4 q v Hv).
    + intros p Hp0 Hp. cbn. destruct (decide (p = q)) as [->|Hne]; [rewrite lookup_insert_eq; by eexists|].
      rewrite lookup_insert_ne by done. apply H5; [done|]. by rewrite Hex.
Qed.

(** A new reference to an inode that is there. *)
Lemma inv_get qs q v s : vfs_inv qs s -> v_inodes s !! q = Some v -> vfs_inv (q :: qs) (holding s q v).
Proof.
  intros Hi Hv. destruct Hi as [H1 H2 H3 H4 H5 H6 H7 H8 H9]. unfold holding.
  assert (Hobj : forall p, objs (with_inodes (<[q := held v]> (v_inodes s)) s) p = objs s p).
  { intros p. unfold objs. cbn. rewrite occ_insert. destruct (Z.eqb_spec p q) as [->|]; [|done].
    apply occ_some in Hv. lia. }
  split; try done.
  - intros p. rewrite Hobj. apply H1.
  - intros p. rewrite Hobj. apply H2.
  - intros p w. cbn. destruct (decide (p = q)) as [->|Hp].
    + rewrite lookup_insert_eq, Z.eqb_refl. intros [= <-]. rewrite refs_held.
      change (nrefs (with_inodes (<[q := held v]> (v_inodes s)) s) q) with (nrefs s q). specialize (H3 q v Hv). lia.
    + rewrite lookup_insert_ne by done. destruct (Z.eqb_spec q p); [congruence|]. apply H3.
  - intros p w. cbn. destruct (decide (p = q)) as [->|Hp]; [|rewrite lookup_insert_ne by done; apply H4].
    rewrite lookup_insert_eq. intros [= <-]. exact (H4 q v Hv).
  - intros p Hp0 Hp. cbn. destruct (decide (p = q)) as [->|Hne]; [rewrite lookup_insert_eq; by eexists|].
    rewrite lookup_insert_ne by done. apply H5; [done|]. cbn in Hp. destruct (Z.eqb_spec q p); [congruence|done].
Qed.

(** A new inode with one reference. *)
Lemma inv_new qs p sb i a f s : vfs_inv qs s -> p <> 0 -> p ∉ ad_used (v_mem s) ->
  ad_used a = {[p]} ∪ ad_used (v_mem s) -> ref_count i = 1 ->
  vfs_inv (p :: qs) (visiting s p sb i a f).
Proof.
  intros Hi Hp0 Hpu Ha Href. pose proof (objs_used _ _ _ Hi Hpu) as Ho.
  destruct (nrefs_free _ _ _ Hi Hp0 Ho) as [Hn He]. destruct Hi as [H1 H2 H3 H4 H5 H6 H7 H8 H9].
  assert (Hobj : forall r, objs (visiting s p sb i a f) r = if r =? p then 1 else objs s r).
  { intros r. unfold objs, visiting in *. cbn. rewrite occ_insert. destruct (Z.eqb_spec r p) as [->|]; [|done].
    ranges s p. lia. }
  split; try done.
  - intros r. rewrite Hobj. specialize (H1 r). case_bool; lia.
  - intros r. rewrite Hobj. cbn. rewrite Ha. destruct (Z.eqb_spec r p) as [->|Hr]; [set_solver|].
    intros Hne. destruct (H2 r Hne). set_solver.
  - intros r w. cbn. destruct (decide (r = p)) as [->|Hr].
    + rewrite lookup_insert_eq, Z.eqb_refl. intros [= <-]. unfold refs. cbn [vn_inode new_vnode].
      change (nrefs (visiting s p sb i a f) p) with (nrefs s p). lia.
    + rewrite lookup_insert_ne by done. destruct (Z.eqb_spec p r); [congruence|]. apply H3.
  - intros r w. cbn. destruct (decide (r = p)) as [->|Hr]; [rewrite lookup_insert_eq; by intros [= <-]|].
    rewrite lookup_insert_ne by done. apply H4.
  - intros r Hr0 Hr. cbn. destruct (decide (r = p)) as [->|Hne]; [rewrite lookup_insert_eq; by eexists|].
    rewrite lookup_insert_ne by done. apply H5; [done|]. cbn in Hr. destruct (Z.eqb_spec p r); [congruence|done].
Qed.

(** *** Open files and dentries hold references *)

(** A change of the files and dentries that accounts for every reference. *)
Lemma inv_holders qs qs' s s' : vfs_inv qs s ->
  v_inodes s' = v_inodes s -> v_fs s' = v_fs s -> v_mem s' = v_mem s -> (forall r, root_ptr s r -> root_ptr s' r) ->
  (forall r, r <> 0 -> nrefs s' r + extra qs' r = nrefs s r + extra qs r) ->
  (forall r, objs s' r <= 1 /\ (objs s' r <> 0 -> r <> 0 /\ r ∈ ad_used (v_mem s))) ->
  (forall p d, v_dentries s' !! p = Some d -> 1 <= d_ref_count d < 4294967296) ->
  (forall p f, v_files s' !! p = Some f -> f_inode f <> 0) -> handles s' < 4294967290 ->
  vfs_inv qs' s'.
Proof.
  intros Hi Ei Ef Em Hr Hn Ho Hd Hf Hfew. pose proof (fun p v => inode_used qs s p v Hi) as Hu.
  destruct Hi as [H1 H2 H3 H4 H5 [r H6] H7 H8 H9].
  split; [apply Ho|rewrite Em; apply Ho| | | |exists r; by apply Hr|done|done|done]; rewrite Ei, ?Ef; [|done|].
  - intros p v Hv. destruct (Hu p v Hv) as [Hp _]. rewrite Hn by done. by apply H3.
  - intros p Hp. rewrite Hn by done. by apply H5.
Qed.

(** A new object, an object gone and an object replaced. *)
Lemma objs_add {V} (m : gmap Z V) p x qs s r : vfs_inv qs s -> p <> 0 -> p ∈ ad_used (v_mem s) -> objs s p = 0 ->
  let o := objs s r - occ m r + occ (<[p := x]> m) r in
  0 <= occ m p <= objs s p -> o <= 1 /\ (o <> 0 -> r <> 0 /\ r ∈ ad_used (v_mem s)).
Proof.
  intros Hi Hp Hu Ho o Hm. unfold o. rewrite occ_insert. destruct (Z.eqb_spec r p) as [->|Hr].
  - split; [lia|done].
  - replace (objs s r - occ m r + occ m r) with (objs s r) by lia. split; [apply (iv_objs _ _ Hi)|apply (iv_used _ _ Hi)].
Qed.

Lemma objs_del {V} (m : gmap Z V) p qs s r : vfs_inv qs s ->
  let o := objs s r - occ m r + occ (delete p m) r in
  occ m r <= objs s r -> o <= 1 /\ (o <> 0 -> r <> 0 /\ r ∈ ad_used (v_mem s)).
Proof.
  intros Hi o Hm. pose proof (iv_objs _ _ Hi r). pose proof (iv_used _ _ Hi r) as Hu. unfold o. rewrite occ_delete.
  pose proof (occ_range m r). destruct (r =? p); (split; [lia|intros Hne; apply Hu; lia]).
Qed.

Lemma objs_set {V} (m : gmap Z V) p x y qs s r : vfs_inv qs s -> m !! p = Some x ->
  let o := objs s r - occ m r + occ (<[p := y]> m) r in
  o <= 1 /\ (o <> 0 -> r <> 0 /\ r ∈ ad_used (v_mem s)).
Proof.
  intros Hi Hx o. unfold o. rewrite occ_insert. apply occ_some in Hx.
  replace (objs s r - occ m r + (if r =? p then 1 else occ m r)) with (objs s r)
    by (destruct (Z.eqb_spec r p) as [->|]; lia).
  split; [apply (iv_objs _ _ Hi)|apply (iv_used _ _ Hi)].
Qed.

Lemma objs_files m s r : objs (with_files m s) r = objs s r - occ (v_files s) r + occ m r.
Proof. unfold objs. cbn. lia. Qed.
Lemma objs_dentries m s r : objs (with_dentries m s) r = objs s r - occ (v_dentries s) r + occ m r.
Proof. unfold objs. cbn. lia. Qed.
Lemma nrefs_files m s r : nrefs (with_files m s) r =
  nrefs s r - count (fun x => f_inode x =? r) (v_files s) + count (fun x => f_inode x =? r) m.
Proof. unfold nrefs. cbn. lia. Qed.
Lemma nrefs_dentries m s r : nrefs (with_dentries m s) r =
  nrefs s r - count (fun x => d_inode x =? r) (v_dentries s) + count (fun x => d_inode x =? r) m.
Proof. unfold nrefs. cbn. lia. Qed.

Ltac in_objs s p := unfold objs; ranges s p; lia.

Lemma inv_file_add qs p x s : vfs_inv (f_inode x :: qs) s -> handles s < 4294967289 -> f_inode x <> 0 -> p <> 0 -> objs s p = 0 ->
  p ∈ ad_used (v_mem s) -> vfs_inv qs (with_files (<[p := x]> (v_files s)) s).
Proof.
  intros Hi Hfew Hq Hp0 Ho Hpu.
  assert (Hf : v_files s !! p = None) by (apply occ_none; unfold objs in Ho; ranges s p; lia).
  apply (inv_holders _ _ _ _ Hi); [done|done|done|done|..].
  - intros r _. rewrite nrefs_files, count_insert by done. cbn. lia.
  - intros r. rewrite objs_files. apply (objs_add _ p x _ _ _ Hi); [done..|in_objs s p].
  - apply (iv_dentry _ _ Hi).
  - intros r f. cbn. intros [[<- <-]|[_ H]]%lookup_insert_Some; [done|by apply (iv_file _ _ Hi r)].
  - unfold handles in *. cbn. rewrite map_size_insert_None by done. lia.
Qed.

Lemma inv_file_del qs p x s : vfs_inv qs s -> v_files s !! p = Some x ->
  vfs_inv (f_inode x :: qs) (with_files (delete p (v_files s)) s).
Proof.
  intros Hi Hx. apply (inv_holders _ _ _ _ Hi); [done|done|done|done|..].
  - intros r _. rewrite nrefs_files, (count_delete _ (v_files s) p x Hx). cbn. lia.
  - intros r. rewrite objs_files. apply (objs_del _ p _ _ _ Hi). in_objs s r.
  - apply (iv_dentry _ _ Hi).
  - intros r f. cbn. intros [_ Hf]%lookup_delete_Some. by apply (iv_file _ _ Hi r).
  - pose proof (iv_few _ _ Hi). unfold handles in *. cbn. rewrite map_size_delete_Some by by eexists. lia.
Qed.

Lemma inv_file_set qs p x y s : vfs_inv qs s -> v_files s !! p = Some x -> f_inode y = f_inode x ->
  vfs_inv qs (with_files (<[p := y]> (v_files s)) s).
Proof.
  intros Hi Hx Hy. apply (inv_holders _ _ _ _ Hi); [done|done|done|done|..].
  - intros r _. rewrite nrefs_files, (count_replace _ _ p x y Hx) by by rewrite Hy. lia.
  - intros r. rewrite objs_files. by apply (objs_set _ p x y _ _ _ Hi).
  - apply (iv_dentry _ _ Hi).
  - intros r f. cbn. intros [[<- <-]|[_ H]]%lookup_insert_Some; [|by apply (iv_file _ _ Hi r)].
    rewrite Hy. by apply (iv_file _ _ Hi p).
  - pose proof (iv_few _ _ Hi). unfold handles in *. cbn. rewrite map_size_insert_Some by by eexists. lia.
Qed.

(** The references a pointer stands for: none when it is null. *)
Definition ref (q : Z) : list Z := if q =? 0 then [] else [q].
Lemma extra_ref q r : r <> 0 -> extra (ref q) r = if q =? r then 1 else 0.
Proof.
  intros Hr. unfold ref. destruct (Z.eqb_spec q 0) as [->|]; cbn [extra]; [|lia]. destruct (Z.eqb_spec 0 r); lia.
Qed.

Lemma inv_dentry_add p x s : vfs_inv (ref (d_inode x)) s -> handles s < 4294967289 -> p <> 0 -> objs s p = 0 ->
  p ∈ ad_used (v_mem s) -> 1 <= d_ref_count x < 4294967296 -> vfs_inv [] (with_dentries (<[p := x]> (v_dentries s)) s).
Proof.
  intros Hi Hfew Hp0 Ho Hpu Hc.
  assert (Hf : v_dentries s !! p = None) by (apply occ_none; unfold objs in Ho; ranges s p; lia).
  apply (inv_holders _ _ _ _ Hi); [done|done|done|done|..].
  - intros r Hr. rewrite nrefs_dentries, count_insert, extra_ref by done. cbn. lia.
  - intros r. rewrite objs_dentries. apply (objs_add _ p x _ _ _ Hi); [done..|in_objs s p].
  - intros r f. cbn. intros [[<- <-]|[_ H]]%lookup_insert_Some; [done|by apply (iv_dentry _ _ Hi r)].
  - apply (iv_file _ _ Hi).
  - unfold handles in *. cbn. rewrite map_size_insert_None by done. lia.
Qed.

Lemma inv_dentry_del p x s : vfs_inv [] s -> v_dentries s !! p = Some x ->
  vfs_inv (ref (d_inode x)) (with_dentries (delete p (v_dentries s)) s).
Proof.
  intros Hi Hx. apply (inv_holders _ _ _ _ Hi); [done|done|done|done|..].
  - intros r Hr. rewrite nrefs_dentries, (count_delete _ (v_dentries s) p x Hx), extra_ref by done. cbn. lia.
  - intros r. rewrite objs_dentries. apply (objs_del _ p _ _ _ Hi). in_objs s r.
  - intros r f. cbn. intros [_ Hf]%lookup_delete_Some. by apply (iv_dentry _ _ Hi r).
  - apply (iv_file _ _ Hi).
  - pose proof (iv_few _ _ Hi). unfold handles in *. cbn. rewrite map_size_delete_Some by by eexists. lia.
Qed.

Lemma inv_dentry_set qs p x y s : vfs_inv qs s -> v_dentries s !! p = Some x -> d_inode y = d_inode x ->
  1 <= d_ref_count y < 4294967296 -> vfs_inv qs (with_dentries (<[p := y]> (v_dentries s)) s).
Proof.
  intros Hi Hx Hy Hc. apply (inv_holders _ _ _ _ Hi); [done|done|done|done|..].
  - intros r _. rewrite nrefs_dentries, (count_replace _ _ p x y Hx) by by rewrite Hy. lia.
  - intros r. rewrite objs_dentries. by apply (objs_set _ p x y _ _ _ Hi).
  - intros r f. cbn. intros [[<- <-]|[_ H]]%lookup_insert_Some; [done|by apply (iv_dentry _ _ Hi r)].
  - apply (iv_file _ _ Hi).
  - pose proof (iv_few _ _ Hi). unfold handles in *. cbn. rewrite map_size_insert_Some by by eexists. lia.
Qed.

(** ** The operations *)
Lemma wp_vfs_kmalloc n qs s Q : vfs_inv qs s ->
  (forall f, vfs_inv qs (with_fs f s) -> Q 0 (with_fs f s)) ->
  (forall f a p, p <> 0 -> objs s p = 0 -> p ∈ ad_used a -> vfs_inv qs (with_mem a (with_fs f s)) ->
     Q p (with_mem a (with_fs f s))) ->
  wp (kmalloc n) s Q.
Proof.
  intros Hi H0 H1. unfold kmalloc, kmalloc_data.
  destruct (be_malloc n (v_fs s)) as [ok f] eqn:E. pose proof (inv_fs _ _ f Hi) as Hf.
  eapply wp_bind_Ret; [by rewrite E|]. destruct ok; [|by apply H0]. unfold wp, pick. cbn [v_mem with_fs].
  destruct (ad_pick_ok (v_mem s)) as (Hp0 & Hpu & Hpa). destruct (ad_pick (v_mem s)) as [p a]. cbn [fst snd] in *.
  apply H1; [done|by eapply objs_used|set_solver|]. apply inv_mem; [done|]. cbn. set_solver.
Qed.

Lemma inode_there q qs s : vfs_inv qs s -> q <> 0 -> 1 <= nrefs s q + extra qs q ->
  exists v, v_inodes s !! q = Some v /\ vn_ops v = true /\ 1 <= refs v < 4294967295 + extra qs q.
Proof.
  intros Hi Hq Hn. destruct (iv_ptr _ _ Hi q Hq Hn) as [v Hv]. pose proof (iv_live _ _ Hi q v Hv).
  destruct (iv_refs _ _ Hi q v Hv). exists v. pose proof (nrefs_bound _ _ q Hi). repeat split; (done || lia).
Qed.

(** The references in local variables are few. *)
Definition few (qs : list Z) : Prop := (length qs <= 2)%nat.
Lemma extra_few qs q : few qs -> extra qs q <= 2.
Proof.
  unfold few. intros H. destruct qs as [|a [|b [|]]]; cbn in *; try lia; repeat case_bool; lia.
Qed.

Lemma inode_put_inv q qs s : vfs_inv (q :: qs) s -> few (q :: qs) -> q <> 0 ->
  exists v, v_inodes s !! q = Some v /\ inode_put q s = Ret (tt, put_result q v s) /\ vfs_inv qs (put_result q v s).
Proof.
  intros Hi Hfew Hq. pose proof (extra_few _ q Hfew). pose proof (nrefs_bound _ _ q Hi). pose proof (nrefs_range s q).
  pose proof (extra_nonneg qs q).
  destruct (inode_there q _ s Hi Hq) as (v & Hv & _); [cbn; rewrite Z.eqb_refl; lia|].
  destruct (iv_refs _ _ Hi q v Hv). exists v. split; [done|]. split; [|by apply inv_put].
  apply inode_put_run; [done|done|lia].
Qed.

Lemma handles_put q v s : handles (put_result q v s) = handles s.
Proof. unfold put_result. by destruct (refs v =? 1). Qed.

(** One step of the walk: the inode at [q] is released. *)
Definition released_fs (first : bool) (f : F) : F := if first then f else be_free (be_free f).
Definition visited (first : bool) (v : vnode) : Prop := if first then 2 <= refs v else refs v = 1 /\ vn_fs_data v = true.

Lemma put_result_fs first q v s : visited first v -> v_fs (put_result q v s) = released_fs first (v_fs s).
Proof.
  unfold put_result, visited, released_fs. destruct first.
  - intros Hr. destruct (Z.eqb_spec (refs v) 1); [lia|done].
  - intros [-> Hd]. cbn. unfold fs_freed. by rewrite Hd.
Qed.

Lemma lookup_loop_tracks fuel : forall q v path s first Q, (length path < fuel)%nat -> vfs_inv [q] s -> q <> 0 ->
  v_inodes s !! q = Some v -> visited first v ->
  (forall p s', vfs_inv (ref p) s' -> handles s' = handles s -> Q p s') ->
  tracks (walk first (vn_sb v) (vn_inode v) (pieces fuel path) (v_fs s)) (lookup_loop fuel q path) s Q.
Proof.
  assert (Href : forall q, q <> 0 -> ref q = [q]) by (intros q Hq; unfold ref; by destruct (Z.eqb_spec q 0)).
  induction fuel as [|fuel IH]; intros q v path s first Q Hl Hi Hq Hv Hvis HQ; [lia|]. rewrite loop_S. cbn [pieces].
  destruct path as [|c0 path0]; [apply HQ; [by rewrite Href|done]|].
  destruct (skip_slashes (c0 :: path0)) as [|c path] eqn:E; [apply HQ; [by rewrite Href|done]|].
  pose proof (skip_slashes_length (c0 :: path0)) as Hl'. rewrite E in Hl'.
  pose proof (take_component_progress c path (skip_slashes_head _ _ _ E)) as Hp.
  destruct (take_component 255 (c :: path)) as [name rest]. cbn [snd] in Hp. cbn [walk].
  eapply tracks_bind_Ret; [by apply get_vnode_run|]. rewrite (iv_live _ _ Hi q v Hv). cbn [negb].
  pose proof (call_lookup_run s q v name Hv) as Hcall. pose proof (lookup_one (vn_sb v) (vn_inode v) name (v_fs s)) as Hone.
  unfold mbind at 1, ST_bind at 1. destruct (be_lookup (vn_sb v) (vn_inode v) name (v_fs s)) as [[[j|] f]| |].
  - specialize (Hone j f eq_refl). destruct (ad_pick_ok (v_mem s)) as (Hp0 & Hpu & Hpa).
    destruct (ad_pick (v_mem s)) as [p a]. cbn [fst snd] in *. eapply tracks_bind_Ret; [exact Hcall|].
    pose proof (inv_new _ p (vn_sb v) j a f s Hi Hp0 Hpu Hpa Hone) as Hi2. set (s1 := visiting s p (vn_sb v) j a f) in *.
    assert (Hswap : vfs_inv [q; p] s1).
    { destruct Hi2 as [G1 G2 G3 G4 G5 G6 G7 G8 G9]. split; try done.
      - intros r w Hw. specialize (G3 r w Hw). cbn in *. lia.
      - intros r Hr0 Hr1. apply G5; [done|]. cbn in *. lia. }
    assert (Hqp : q <> p) by (intros ->; by destruct (inode_used _ _ _ _ Hi Hv)).
    destruct (inode_put_inv q [p] _ Hswap) as (w & Hw & Hput & Hi3); [unfold few; cbn; lia|done|].
    assert (w = v) as -> by (cbn in Hw; rewrite lookup_insert_ne in Hw by done; congruence).
    eapply tracks_bind_Ret; [exact Hput|]. destruct (Z.eqb_spec p 0); [done|].
    pose proof (put_result_fs first q v s1 Hvis) as Efs. change (v_fs s1) with f in Efs.
    rewrite (st_bind_Ret _ _ f tt (v_fs (put_result q v s1))) by (rewrite Efs; by destruct first).
    apply (IH p (new_vnode (vn_sb v) j)); [lia|done|done| |done|].
    + unfold put_result. destruct (refs v =? 1); cbn; [rewrite lookup_delete_ne by done|rewrite lookup_insert_ne by done]; apply lookup_insert_eq.
    + intros p' s' H1 H2. apply HQ; [done|]. by rewrite H2, handles_put.
  - eapply tracks_bind_Ret; [exact Hcall|]. pose proof (inv_fs _ _ f Hi) as Hi2.
    destruct (inode_put_inv q [] _ Hi2) as (w & _ & Hput & Hi3); [unfold few; cbn; lia|done|].
    eapply tracks_bind_Ret; [exact Hput|]. destruct first; apply HQ; try done; by rewrite handles_put.
  - intros r. by rewrite (st_bind_Fault _ _ _ Hcall).
  - intros r. by rewrite (st_bind_Diverge _ _ _ Hcall).
Qed.

Lemma root_there s r : vfs_inv [] s -> root_ptr s r -> exists v, mounted_root s r v /\ 1 <= refs v < 4294967295.
Proof.
  intros Hi (m & x & Hm0 & Hm & Hsb & Hx & Hr & Hr0).
  assert (Hn : 1 <= nrefs s r).
  { unfold nrefs. pose proof (count_pos (fun x => sb_root x =? r) (v_supers s) _ x Hx ltac:(lia)).
    pose proof (count_range (fun x => f_inode x =? r) (v_files s)).
    pose proof (count_range (fun x => d_inode x =? r) (v_dentries s)). lia. }
  destruct (inode_there r [] s Hi Hr0) as (v & Hv & _ & Hb); [cbn; lia|]. exists v. cbn in Hb. split; [|lia].
  by exists m, x.
Qed.

(** The lookups [path_lookup] makes in the file system. *)
Definition root_vnode s : option vnode :=
  m ← v_mounts s !! root_mount s; x ← v_supers s !! mnt_sb m; v_inodes s !! sb_root x.
Definition path_walk path s : outcome (option inode * F) :=
  match path, root_vnode s with
  | Some (c :: rest), Some v =>
      if c =? SLASH then
        let path := skip_slashes rest in walk true (vn_sb v) (vn_inode (held v)) (pieces (S (length path)) path) (v_fs s)
      else Ret (None, v_fs s)
  | _, _ => Ret (None, v_fs s)
  end.

Lemma path_lookup_tracks path s Q : vfs_inv [] s -> (forall p s', vfs_inv (ref p) s' -> handles s' = handles s -> Q p s') ->
  tracks (path_walk path s) (path_lookup path) s Q.
Proof.
  intros Hi HQ. destruct (iv_root _ _ Hi) as [r Hr].
  destruct (root_there s r Hi Hr) as (v & (m & x & Hm0 & Hm & Hsb & Hx & <- & Hr0 & Hv) & Hrv).
  assert (Hroot : root_vnode s = Some v) by (unfold root_vnode; rewrite Hm; cbn; rewrite Hx; cbn; done).
  unfold path_lookup, path_walk. rewrite Hroot. destruct path as [[|c rest]|]; [by apply HQ| |by apply HQ].
  destruct (c =? SLASH); [|by apply HQ]. cbn [negb]. eapply tracks_bind_Ret; [done|]. unfold get_root_mount.
  destruct (Z.eqb_spec (root_mount s) 0); [done|].
  eapply tracks_bind_Ret; [unfold get_mount_t, mbind, ST_bind, st_get, st_lift; by rewrite Hm|].
  destruct (Z.eqb_spec (mnt_sb m) 0); [done|].
  eapply tracks_bind_Ret; [unfold get_super, mbind, ST_bind, st_get, st_lift; by rewrite Hx|].
  assert (Er : (sb_root x =? 0) = false) by (by apply Z.eqb_neq). rewrite Er.
  assert (Hget : inode_get (sb_root x) s = Ret (tt, holding s (sb_root x) v)) by (apply inode_get_run; [done|done|lia]).
  pose proof (inv_get [] _ v s Hi Hv) as Hi2. cbv zeta.
  destruct (skip_slashes rest) as [|c' path].
  - apply tracks_wp. eapply wp_bind_Ret; [exact Hget|]. apply HQ; [|done]. unfold ref. by rewrite Er.
  - unfold path_lookup_relative. rewrite Er. eapply tracks_bind_Ret; [exact Hget|].
    apply (lookup_loop_tracks _ _ (held v) _ (holding s (sb_root x) v)); [lia|done|done|apply lookup_insert_eq| |done].
    unfold visited. rewrite refs_held. lia.
Qed.

(** *** Files *)
Lemma nrefs_file s p x : v_files s !! p = Some x -> 1 <= nrefs s (f_inode x).
Proof.
  intros Hx. unfold nrefs. pose proof (count_pos (fun y => f_inode y =? f_inode x) (v_files s) p x Hx ltac:(lia)).
  pose proof (count_range (fun y => sb_root y =? f_inode x) (v_supers s)).
  pose proof (count_range (fun y => d_inode y =? f_inode x) (v_dentries s)). lia.
Qed.

Lemma file_inode s p x : vfs_inv [] s -> v_files s !! p = Some x ->
  exists v, v_inodes s !! f_inode x = Some v /\ vn_ops v = true /\ f_inode x <> 0 /\ p <> 0.
Proof.
  intros Hi Hx. pose proof (iv_file _ _ Hi p x Hx) as Hq. pose proof (nrefs_file s p x Hx).
  destruct (inode_there (f_inode x) [] s Hi Hq) as (v & Hv & Ho & _); [cbn; lia|]. exists v. repeat split; try done.
  apply occ_some in Hx. apply (iv_used _ _ Hi). unfold objs. ranges s p. lia.
Qed.

Lemma get_file_run p x s : v_files s !! p = Some x -> get_file p s = Ret (x, s).
Proof. intros Hx. unfold get_file, mbind, ST_bind, st_get, st_lift. by rewrite Hx. Qed.

Lemma file_open_tracks path fl s : vfs_inv [] s -> handles s < 4294967289 ->
  tracks (path_walk path s) (file_open path fl) s (fun _ s' => vfs_inv [] s').
Proof.
  intros Hi Hfew. unfold file_open. destruct path as [path|]; [|done]. apply tracks_bind.
  apply path_lookup_tracks; [done|]. intros q s1 H1 Hh. destruct (Z.eqb_spec q 0) as [->|Hq]; [done|].
  assert (ref q = [q]) as E by (unfold ref; by destruct (Z.eqb_spec q 0)). rewrite E in H1.
  apply wp_bind. apply (wp_vfs_kmalloc _ _ _ _ H1).
  - intros f Hf. cbn [Z.eqb]. destruct (inode_put_inv q [] _ Hf) as (v & _ & Hput & Hi3); [unfold few; cbn; lia|done|].
    eapply wp_bind_Ret; [exact Hput|]. done.
  - intros f a p Hp0 Ho Hu Ha. destruct (Z.eqb_spec p 0); [done|]. eapply wp_bind_Ret; [done|]. apply wp_ret.
    apply inv_file_add; [done|by rewrite <- Hh in Hfew|done..].
Qed.

(** Releasing an object's inode and then the object, in the order of the code,
    comes to the same state as the other order. *)
Lemma objs_put_result q v s r : v_inodes s !! q = Some v -> objs (put_result q v s) r <= objs s r.
Proof.
  intros Hv. apply occ_some in Hv. unfold put_result, objs. ranges s r. destruct (refs v =? 1); cbn.
  - rewrite occ_delete. case_bool; lia.
  - rewrite occ_insert. destruct (Z.eqb_spec r q) as [->|]; lia.
Qed.

Lemma objs_nonneg s r : 0 <= objs s r.
Proof. unfold objs. ranges s r. lia. Qed.

Lemma inv_kfree qs p s : vfs_inv qs s -> objs s p = 0 ->
  vfs_inv qs (with_mem (ad_give p (v_mem s)) (with_fs (be_free (v_fs s)) s)).
Proof.
  intros Hi Ho. apply (inv_give qs (with_fs (be_free (v_fs s)) s) p); [|done]. by apply inv_fs.
Qed.

Lemma wp_file_close p s : vfs_inv [] s -> is_Some (v_files s !! p) -> wp (file_close p) s (fun _ s' => vfs_inv [] s').
Proof.
  intros Hi [x Hx]. destruct (file_inode s p x Hi Hx) as (v & Hv & _ & Hq & Hp). unfold file_close.
  destruct (Z.eqb_spec p 0); [done|]. eapply wp_bind_Ret; [by apply get_file_run|].
  destruct (Z.eqb_spec (f_inode x) 0); [done|]. cbn [negb when].
  assert (Hrv : 1 <= refs v < 4294967296).
  { destruct (iv_refs _ _ Hi _ v Hv) as [Hr ?]. pose proof (nrefs_bound _ _ (f_inode x) Hi). cbn in Hr. lia. }
  eapply wp_bind_Ret; [by apply inode_put_run|]. fold (put_result (f_inode x) v s).
  pose proof (inv_file_del [] p x s Hi Hx) as H1.
  pose proof (inv_put (f_inode x) [] v _ H1 Hv) as H2.
  assert (Ho : objs (put_result (f_inode x) v (with_files (delete p (v_files s)) s)) p = 0).
  { pose proof (objs_put_result (f_inode x) v (with_files (delete p (v_files s)) s) p Hv) as Hle.
    pose proof (objs_nonneg (put_result (f_inode x) v (with_files (delete p (v_files s)) s)) p).
    rewrite objs_files, occ_delete, Z.eqb_refl in Hle. apply occ_some in Hx. pose proof (iv_objs _ _ Hi p). lia. }
  pose proof (inv_kfree _ p _ H2 Ho) as H3. do 2 (eapply wp_bind_Ret; [done|]). apply wp_ret.
  eapply (eq_rect _ (vfs_inv [])); [exact H3|]. unfold put_result. destruct (refs v =? 1); vfs_ext.
Qed.

Lemma on_fs_run {B} (c : ST F B) s b f : c (v_fs s) = Ret (b, f) -> on_fs c s = Ret (b, with_fs f s).
Proof. unfold on_fs. by intros ->. Qed.

Lemma on_fs_tracks {B C} (c : ST F B) (k : B -> ST (vfs F A) C) s Q :
  (forall b f, c (v_fs s) = Ret (b, f) -> wp (k b) (with_fs f s) Q) -> tracks (c (v_fs s)) (x ← on_fs c; k x) s Q.
Proof.
  intros Hk. unfold tracks. destruct (c (v_fs s)) as [[b f]| |] eqn:E.
  - eapply wp_bind_Ret; [by apply on_fs_run|]. by apply Hk.
  - intros r. rewrite st_bind_Fault; [done|]. unfold on_fs. by rewrite E.
  - intros r. rewrite st_bind_Diverge; [done|]. unfold on_fs. by rewrite E.
Qed.

(** The call of the file system behind a read and behind a write. *)
Definition file_vnode s (p : Z) : option (file * vnode) := x ← v_files s !! p; v ← v_inodes s !! f_inode x; Some (x, v).
Definition write_offset (x : file) (v : vnode) : Z :=
  if negb (Z.land (f_flags x) FILE_FLAG_APPEND =? 0) then size (vn_inode v) else f_offset x.

Lemma file_vnode_run s p x v : v_files s !! p = Some x -> v_inodes s !! f_inode x = Some v -> file_vnode s p = Some (x, v).
Proof. intros Hx Hv. unfold file_vnode. rewrite Hx. cbn. rewrite Hv. done. Qed.

Lemma file_read_tracks p n s x v : vfs_inv [] s -> file_vnode s p = Some (x, v) ->
  tracks (be_read (vn_sb v) (vn_inode v) n (f_offset x) (v_fs s)) (file_read p n) s (fun _ s' => vfs_inv [] s').
Proof.
  intros Hi Hxv. unfold file_vnode in Hxv. destruct (v_files s !! p) as [x'|] eqn:Hx; [|done]. cbn in Hxv.
  destruct (file_inode s p x' Hi Hx) as (v' & Hv & Ho & Hq & Hp). rewrite Hv in Hxv. injection Hxv as -> ->. unfold file_read.
  destruct (Z.eqb_spec p 0); [done|]. eapply tracks_bind_Ret; [by apply get_file_run|].
  destruct (Z.eqb_spec (f_inode x) 0); [done|]. eapply tracks_bind_Ret; [by apply get_vnode_run|]. rewrite Ho. cbn [negb].
  apply on_fs_tracks. intros [r bytes] f _. pose proof (inv_fs _ _ f Hi) as Hi2. apply wp_bind.
  destruct (0 <? r); cbn [when]; [|done]. apply wp_modify, wp_ret. by eapply inv_file_set.
Qed.

(** The file system hands back the inode with the same references. *)
Lemma inv_set_inode qs q v j s : vfs_inv qs s -> v_inodes s !! q = Some v -> ref_count j = refs v ->
  vfs_inv qs (with_inodes (<[q := set_inode v j]> (v_inodes s)) s).
Proof.
  intros Hi Hv Hj. destruct Hi as [H1 H2 H3 H4 H5 H6 H7 H8 H9].
  assert (Hobj : forall r, objs (with_inodes (<[q := set_inode v j]> (v_inodes s)) s) r = objs s r).
  { intros r. unfold objs. cbn. rewrite occ_insert. destruct (Z.eqb_spec r q) as [->|]; [|done].
    apply occ_some in Hv. lia. }
  split; try done.
  - intros r. rewrite Hobj. apply H1.
  - intros r. rewrite Hobj. apply H2.
  - intros r w. cbn. intros [[<- <-]|[_ Hw]]%lookup_insert_Some; [|by apply H3].
    unfold refs. cbn [vn_inode set_inode]. rewrite Hj. by apply (H3 q v).
  - intros r w. cbn. intros [[<- <-]|[_ Hw]]%lookup_insert_Some; [|by apply (H4 r)]. exact (H4 q v Hv).
  - intros r Hr0 Hr. cbn. destruct (decide (r = q)) as [->|Hne]; [rewrite lookup_insert_eq; by eexists|].
    rewrite lookup_insert_ne by done. by apply H5.
Qed.

Lemma file_write_tracks p buf s x v : vfs_inv [] s -> file_vnode s p = Some (x, v) ->
  tracks (be_write (vn_sb v) (vn_inode v) buf (write_offset x v) (v_fs s)) (file_write p buf) s (fun _ s' => vfs_inv [] s').
Proof.
  intros Hi Hxv. unfold file_vnode in Hxv. destruct (v_files s !! p) as [x'|] eqn:Hx; [|done]. cbn in Hxv.
  destruct (file_inode s p x' Hi Hx) as (v' & Hv & Ho & Hq & Hp). rewrite Hv in Hxv. injection Hxv as -> ->. unfold file_write.
  destruct (Z.eqb_spec p 0); [done|]. eapply tracks_bind_Ret; [by apply get_file_run|].
  destruct (Z.eqb_spec (f_inode x) 0); [done|]. eapply tracks_bind_Ret; [by apply get_vnode_run|].
  set (y := if negb (Z.land (f_flags x) FILE_FLAG_APPEND =? 0) then _ else _). cbv zeta.
  assert (Hy : f_inode y = f_inode x) by (unfold y; by destruct (negb _)).
  assert (Eo : write_offset x v = f_offset y) by (unfold write_offset, y; by destruct (negb _)). rewrite Eo.
  pose proof (inv_file_set _ p x y s Hi Hx Hy) as Hi1.
  eapply tracks_bind_Ret; [done|]. rewrite Ho. cbn [negb].
  apply (on_fs_tracks _ _ (with_files (<[p := y]> (v_files s)) s)). intros [r j] f Hr.
  pose proof (inv_fs _ _ f Hi1) as Hi2. rewrite Hy.
  pose proof (inv_set_inode _ (f_inode x) v j _ Hi2 Hv (write_keeps _ _ _ _ _ _ _ _ Hr)) as Hi3.
  eapply wp_bind_Ret; [done|]. apply wp_bind. destruct (0 <? r); cbn [when]; [|done].
  apply wp_modify, wp_ret. eapply (inv_file_set _ p y); [exact Hi3|apply lookup_insert_eq|done].
Qed.

Lemma wp_file_seek p off s : vfs_inv [] s -> is_Some (v_files s !! p) ->
  wp (file_seek p off) s (fun _ s' => vfs_inv [] s').
Proof.
  intros Hi [x Hx]. destruct (file_inode s p x Hi Hx) as (_ & _ & _ & _ & Hp). unfold file_seek.
  destruct (Z.eqb_spec p 0); [done|]. eapply wp_bind_Ret; [by apply get_file_run|]. eapply wp_bind_Ret; [done|].
  apply wp_ret. by eapply inv_file_set.
Qed.

(** *** Dentries *)
Lemma get_dentry_run p x s : v_dentries s !! p = Some x -> get_dentry p s = Ret (x, s).
Proof. intros Hx. unfold get_dentry, mbind, ST_bind, st_get, st_lift. by rewrite Hx. Qed.

Lemma dentry_addr s p x : vfs_inv [] s -> v_dentries s !! p = Some x -> p <> 0.
Proof. intros Hi Hx. apply occ_some in Hx. apply (iv_used _ _ Hi). unfold objs. ranges s p. lia. Qed.

Lemma slice_prefix (l : list Z) n : 0 <= n <= Z.of_nat (length l) -> slice l 0 n = Some (take (Z.to_nat n) l).
Proof. intros Hn. unfold slice. case_bool; [done|lia]. Qed.

Lemma wp_dentry_new name len q s : vfs_inv [] s -> q = 0 \/ is_Some (v_inodes s !! q) ->
  0 <= len <= Z.of_nat (length name) -> handles s < 4294967289 -> wp (dentry_new name len q) s (fun _ s' => vfs_inv [] s').
Proof.
  intros Hi Hq Hlen Hfew. unfold dentry_new. apply wp_bind, (wp_vfs_kmalloc _ _ _ _ Hi); [done|].
  intros f a p Hp0 Ho Hu Ha. destruct (Z.eqb_spec p 0); [done|].
  unfold kmalloc_data. destruct (be_malloc (len +! 1) f) as [ok f1] eqn:E.
  eapply wp_bind_Ret; [cbn [v_fs with_mem with_fs]; by rewrite E|].
  pose proof (inv_fs _ _ f1 Ha) as Hi1. set (s1 := with_fs f1 (with_mem a (with_fs f s))) in *.
  assert (Ho1 : objs s1 p = 0) by done. destruct ok; cbn [negb].
  - eapply wp_bind; eapply wp_lift_some; [by apply slice_prefix|].
    set (x := {| d_name := _; d_name_len := len; d_inode := q; d_ref_count := 1 |}).
    eapply wp_bind_Ret; [done|]. apply wp_bind. destruct Hq as [-> |[v Hv]].
    + cbn [Z.eqb negb when]. apply wp_ret, wp_ret. by apply (inv_dentry_add p x s1).
    + destruct (inode_used _ _ _ _ Hi Hv) as [Hq0 _]. destruct (Z.eqb_spec q 0) as [|Hne]; [done|]. cbn [negb when].
      assert (Hrv : 0 <= refs v < 4294967295).
      { destruct (iv_refs _ _ Hi _ v Hv) as [Hr ?]. pose proof (nrefs_bound _ _ q Hi). cbn in Hr. lia. }
      unfold wp at 1. rewrite (inode_get_run q v) by done. apply wp_ret.
      assert (H2 : vfs_inv (ref q) (holding s1 q v)).
      { unfold ref. destruct (Z.eqb_spec q 0); [done|]. by apply inv_get. }
      assert (H3 : vfs_inv [] (with_dentries (<[p := x]> (v_dentries s)) (holding s1 q v))).
      { apply (inv_dentry_add p x (holding s1 q v)); try done. unfold holding, objs in *. cbn in *. rewrite occ_insert.
        destruct (Z.eqb_spec p q) as [->|]; [|done]. apply occ_some in Hv. ranges s q. lia. }
      eapply (eq_rect _ (vfs_inv [])); [exact H3|]. vfs_ext.
  - eapply wp_bind_Ret; [done|]. apply wp_ret. by apply (inv_kfree [] p s1).
Qed.

Lemma wp_dentry_get p x s : vfs_inv [] s -> v_dentries s !! p = Some x -> d_ref_count x < 4294967295 ->
  wp (dentry_get p) s (fun _ s' => vfs_inv [] s').
Proof.
  intros Hi Hx Hc. pose proof (dentry_addr s p x Hi Hx). pose proof (iv_dentry _ _ Hi p x Hx). unfold dentry_get.
  destruct (Z.eqb_spec p 0); [done|]. eapply wp_bind_Ret; [by apply get_dentry_run|]. apply wp_modify.
  eapply inv_dentry_set; [done|done|done|]. cbn. rewrite u32_small by (unfold is_u32; lia). lia.
Qed.

Lemma objs_after_delete q v p s : v_inodes s !! q = Some v -> objs s p = 0 -> objs (put_result q v s) p = 0.
Proof. intros Hv Ho. pose proof (objs_put_result q v s p Hv). pose proof (objs_nonneg (put_result q v s) p). lia. Qed.

Lemma wp_dentry_free p x s : p <> 0 -> v_dentries s !! p = Some x ->
  vfs_inv (ref (d_inode x)) (with_dentries (delete p (v_dentries s)) s) ->
  objs (with_dentries (delete p (v_dentries s)) s) p = 0 ->
  wp (dentry_free p) s (fun _ s' => vfs_inv [] s').
Proof.
  intros Hp Hx H1 Ho. unfold dentry_free. destruct (Z.eqb_spec p 0); [done|].
  eapply wp_bind_Ret; [by apply get_dentry_run|]. set (s1 := with_dentries (delete p (v_dentries s)) s) in *.
  destruct (Z.eqb_spec (d_inode x) 0) as [E|Hq]; cbn [negb when].
  - unfold ref in H1. rewrite E in H1. cbn [Z.eqb] in H1. do 3 (eapply wp_bind_Ret; [done|]). apply wp_modify.
    pose proof (inv_fs _ _ (be_free (v_fs s1)) H1) as H2.
    pose proof (inv_kfree _ p _ H2 Ho) as H3. eapply (eq_rect _ (vfs_inv [])); [exact H3|]. vfs_ext.
  - assert (E : ref (d_inode x) = [d_inode x]) by (unfold ref; by destruct (Z.eqb_spec (d_inode x) 0)). rewrite E in H1.
    destruct (inode_put_inv (d_inode x) [] s1 H1) as (v & Hv & _ & H2); [unfold few; cbn; lia|done|].
    assert (Hrv : 1 <= refs v < 4294967296).
    { destruct (iv_refs _ _ H1 _ v Hv) as [Hr ?]. pose proof (nrefs_bound _ _ (d_inode x) H1). cbn in Hr.
      rewrite Z.eqb_refl in Hr. lia. }
    eapply wp_bind_Ret; [by apply inode_put_run|]. fold (put_result (d_inode x) v s).
    do 2 (eapply wp_bind_Ret; [done|]). apply wp_modify.
    pose proof (inv_fs _ _ (be_free (v_fs (put_result (d_inode x) v s1))) H2) as H3.
    pose proof (inv_kfree _ p _ H3 (objs_after_delete _ v p s1 Hv Ho)) as H4.
    eapply (eq_rect _ (vfs_inv [])); [exact H4|]. unfold put_result. destruct (refs v =? 1); vfs_ext.
Qed.

Lemma wp_dentry_put p s : vfs_inv [] s -> is_Some (v_dentries s !! p) ->
  wp (dentry_put p) s (fun _ s' => vfs_inv [] s').
Proof.
  intros Hi [x Hx]. pose proof (dentry_addr s p x Hi Hx). pose proof (iv_dentry _ _ Hi p x Hx) as Hc. unfold dentry_put.
  destruct (Z.eqb_spec p 0); [done|]. eapply wp_bind_Ret; [by apply get_dentry_run|].
  rewrite u32_small by (unfold is_u32; lia). eapply wp_bind_Ret; [done|]. destruct (Z.eqb_spec (d_ref_count x - 1) 0) as [E|E].
  - apply (wp_dentry_free p (set_d_refs x (d_ref_count x - 1))); [done|apply lookup_insert_eq| |];
      cbn [v_dentries with_dentries]; rewrite delete_insert_eq.
    + exact (inv_dentry_del p x s Hi Hx).
    + change (objs (with_dentries (delete p (v_dentries s)) s) p = 0).
      rewrite objs_dentries, occ_delete, Z.eqb_refl. apply occ_some in Hx. pose proof (iv_objs _ _ Hi p).
      unfold objs in *. ranges s p. lia.
  - apply wp_ret. eapply inv_dentry_set; [done|done|done|]. cbn. lia.
Qed.

(** ** Runs *)
Inductive vfs_op :=
| Open (path : list Z) (fl : Z)
| Close (p : Z)
| Read (p n : Z)
| Write (p : Z) (buf : list Z)
| Seek (p off : Z)
| DentryNew (name : list Z) (len q : Z)
| DentryGet (p : Z)
| DentryPut (p : Z).

Definition forget {B} (c : ST (vfs F A) B) : ST (vfs F A) unit := c;; mret tt.
Definition run_op (op : vfs_op) : ST (vfs F A) unit :=
  match op with
  | Open path fl => forget (file_open (Some path) fl)
  | Close p => forget (file_close p)
  | Read p n => forget (file_read p n)
  | Write p buf => forget (file_write p buf)
  | Seek p off => forget (file_seek p off)
  | DentryNew name len q => forget (dentry_new name len q)
  | DentryGet p => dentry_get p
  | DentryPut p => dentry_put p
  end.

(** The handles are live, and there is room for another in the counts: an
    object takes sixteen bytes or more of the 4 GB of addresses. *)
Definition op_ok (op : vfs_op) s : Prop :=
  match op with
  | Open _ _ => handles s < 4294967289
  | Close p | Read p _ | Write p _ | Seek p _ => is_Some (v_files s !! p)
  | DentryNew name len q => (q = 0 \/ is_Some (v_inodes s !! q)) /\ 0 <= len <= Z.of_nat (length name) /\
      handles s < 4294967289
  | DentryGet p => exists d, v_dentries s !! p = Some d /\ d_ref_count d < 4294967295
  | DentryPut p => is_Some (v_dentries s !! p)
  end.

(** What the file system itself answers to the calls an operation makes. *)
Definition fs_calls (op : vfs_op) s : outcome unit :=
  let void {B} (o : outcome B) : outcome unit := match o with Ret _ => Ret tt | Fault => Fault | Diverge => Diverge end in
  match op with
  | Open path _ => void (path_walk (Some path) s)
  | Read p n => match file_vnode s p with
      | Some (x, v) => void (be_read (vn_sb v) (vn_inode v) n (f_offset x) (v_fs s))
      | None => Ret tt
      end
  | Write p buf => match file_vnode s p with
      | Some (x, v) => void (be_write (vn_sb v) (vn_inode v) buf (write_offset x v) (v_fs s))
      | None => Ret tt
      end
  | _ => Ret tt
  end.

Inductive vfs_run : list vfs_op -> vfs F A -> vfs F A -> Prop :=
| run_nil s : vfs_run [] s s
| run_cons op ops s s1 s2 : op_ok op s -> run_op op s = Ret (tt, s1) -> vfs_run ops s1 s2 -> vfs_run (op :: ops) s s2.

Lemma wp_forget {B} (c : ST (vfs F A) B) s (Q : vfs F A -> Prop) :
  wp c s (fun _ => Q) -> wp (forget c) s (fun _ => Q).
Proof. intros H. unfold forget. apply wp_bind. eapply wp_mono; [exact H|]. done. Qed.
Lemma forget_tracks {B C} (o : outcome B) (c : ST (vfs F A) C) s (Q : vfs F A -> Prop) :
  tracks o c s (fun _ => Q) -> tracks o (forget c) s (fun _ => Q).
Proof. intros H. unfold forget. by apply tracks_bind. Qed.

Lemma void_tracks {B C} (o : outcome B) (c : ST (vfs F A) C) s Q :
  tracks o c s Q -> tracks (match o with Ret _ => Ret tt | Fault => Fault | Diverge => Diverge end) c s Q.
Proof. by destruct o. Qed.

Lemma live_vnode s p : vfs_inv [] s -> is_Some (v_files s !! p) -> exists x v, file_vnode s p = Some (x, v).
Proof. intros Hi [x Hx]. destruct (file_inode s p x Hi Hx) as (v & Hv & _). exists x, v. by apply file_vnode_run. Qed.

Lemma run_op_tracks op s : vfs_inv [] s -> op_ok op s -> tracks (fs_calls op s) (run_op op) s (fun _ s' => vfs_inv [] s').
Proof.
  intros Hi Hok. destruct op; cbn [run_op op_ok fs_calls] in *.
  - by apply void_tracks, forget_tracks, file_open_tracks.
  - by apply wp_forget, wp_file_close.
  - destruct (live_vnode s p Hi Hok) as (x & v & E). rewrite E. by apply void_tracks, forget_tracks, file_read_tracks.
  - destruct (live_vnode s p Hi Hok) as (x & v & E). rewrite E. by apply void_tracks, forget_tracks, file_write_tracks.
  - by apply wp_forget, wp_file_seek.
  - destruct Hok as (? & ? & ?). by apply wp_forget, wp_dentry_new.
  - destruct Hok as (d & Hd & Hc). by eapply wp_dentry_get.
  - by apply wp_dentry_put.
Qed.

Lemma vfs_run_inv ops s s' : vfs_run ops s s' -> vfs_inv [] s -> vfs_inv [] s'.
Proof.
  induction 1 as [|op ops s s1 s2 Hok Hrun _ IH]; [done|]. intros Hi. apply IH.
  pose proof (run_op_tracks op s Hi Hok) as Ht. unfold tracks, wp in Ht. rewrite Hrun in Ht.
  destruct (fs_calls op s); [done|by destruct (Ht (tt, s1))..].
Qed.

(** (C3) Reference counting is exact and no pointer dangles: after any
    sequence of opening, closing, reading, writing and seeking files and of
    creating, sharing and releasing dentries, the count in every inode is the
    number of files, dentries and superblocks that point to it; an operation
    on a live handle returns exactly when the file system's own calls behind it
    return, so the virtual file system itself never touches freed memory; and once
    all files and dentries are gone, only root directories of mounted volumes are
    left, so nothing leaks. *)
Theorem vfs_references_exact ops s s' : vfs_inv [] s -> vfs_run ops s s' ->
  (forall p v, v_inodes s' !! p = Some v -> ref_count (vn_inode v) = nrefs s' p) /\
  (forall op, op_ok op s' -> fs_calls op s' = Ret tt <-> exists s'', run_op op s' = Ret (tt, s'')) /\
  (v_files s' = ∅ -> v_dentries s' = ∅ ->
   forall p, is_Some (v_inodes s' !! p) -> exists k x, v_supers s' !! k = Some x /\ sb_root x = p).
Proof.
  intros Hi Hrun. apply vfs_run_inv in Hrun; [|done]. split; [|split].
  - intros p v Hv. destruct (iv_refs _ _ Hrun p v Hv) as [H _]. cbn in H. unfold refs in H. lia.
  - intros op Hok. pose proof (run_op_tracks op s' Hrun Hok) as Ht. unfold tracks in Ht. destruct (fs_calls op s') as [[]| |].
    + split; [|done]. intros _. apply wp_run in Ht as ([] & s'' & H & _). by exists s''.
    + split; [done|]. intros (s'' & H). by destruct (Ht (tt, s'')).
    + split; [done|]. intros (s'' & H). by destruct (Ht (tt, s'')).
  - intros Hf Hd p [v Hv]. destruct (iv_refs _ _ Hrun p v Hv) as [H H1]. unfold nrefs in H. rewrite Hf, Hd in H.
    rewrite !count_empty in H. cbn in H.
    destruct (count_witness (fun x => sb_root x =? p) (v_supers s')) as (k & x & Hx & Hp); [lia|].
    exists k, x. split; [done|]. by apply Z.eqb_eq.
Qed.
End invariant.

(** ** A witness *)
#[export] Instance toy_write_keeps : WriteKeeps (list Z).
Proof. intros sb i buf off f r j f'. cbn. unfold toy_on. destruct (existsb (Z.eqb sb) f); [|done]. by intros [= _ <- _]. Qed.

Lemma toy_inv : vfs_inv [] toy_state.
Proof.
  assert (Hobj : forall p, objs toy_state p = (if p =? 30 then 1 else 0) + (if p =? 20 then 1 else 0)).
  { intros p. unfold objs, toy_state. cbn [v_inodes v_files v_dentries v_supers].
    unfold singletonM, map_singleton. rewrite !occ_insert. unfold occ. rewrite !lookup_empty. repeat case_bool; lia. }
  split.
  - intros p. rewrite Hobj. repeat case_bool; lia.
  - intros p. rewrite Hobj. cbn. intros Hp. split; [repeat case_bool; lia|].
    destruct (Z.eqb_spec p 30), (Z.eqb_spec p 20); set_solver.
  - intros p v. cbn. intros [<- <-]%lookup_singleton_Some. vm_compute. split; congruence.
  - intros p v. cbn. intros [<- <-]%lookup_singleton_Some. done.
  - intros p Hp. unfold nrefs. cbn [v_files v_supers v_dentries toy_state extra]. rewrite !count_empty.
    unfold singletonM, map_singleton at 1. rewrite count_insert by done. rewrite count_empty. cbn [sb_root].
    destruct (Z.eqb_spec 30 p) as [<-|]; [by eexists|lia].
  - exists 30. by do 2 eexists.
  - intros p d. cbn. by rewrite lookup_empty.
  - intros p f. cbn. by rewrite lookup_empty.
  - vm_compute. done.
Qed.

(** Open "/a" (at 32, its inode at 31), read, write and close it. *)
Definition toy_ops : list vfs_op := [Open [SLASH; 97] FILE_FLAG_READ; Read 32 4; Write 32 [1; 2]; Close 32].
Definition toy_end : vfs (list Z) (gset Z) :=
  fold_left (fun s op => match run_op op s with Ret (_, s') => s' | _ => s end) toy_ops toy_state.

Lemma vfs_references_exact_witness : v_files toy_end = ∅ /\
  forall p, is_Some (v_inodes toy_end !! p) -> exists k x, v_supers toy_end !! k = Some x /\ sb_root x = p.
Proof.
  assert (Hrun : vfs_run toy_ops toy_state toy_end).
  { repeat (eapply run_cons; [|vm_compute; reflexivity|]; [vm_compute; (done || by eexists)|]). apply run_nil. }
  destruct (vfs_references_exact toy_ops toy_state toy_end toy_inv Hrun) as (_ & _ & H).
  split; [vm_compute; reflexivity|]. apply H; vm_compute; reflexivity.
Defined.
