(* ===== verification/FsLib.v ===== *)
(** * The file library (src/src/lib/fs.c)

    One-call operations on paths over the virtual file system.  A result of
    type [size_t] is a 32-bit number, error codes included. *)

From S2P Require Import Prelude BlockDev Ext2 LinkedList Vfs VfsProof VfsRefs.

Definition FS_OK : Z := 0.
Definition FS_ERR_INVAL : Z := -2.
Definition FS_ERR_NOT_FOUND : Z := -3.
Definition FS_ERR_NOT_DIR : Z := -4.
Definition FS_ERR_NOT_FILE : Z := -5.
Definition FS_ERR_IO : Z := -6.
Definition FS_ERR_NOMEM : Z := -7.
Definition FS_ENTRY_UNKNOWN : Z := 0.
Definition FS_ENTRY_FILE : Z := 1.
Definition FS_ENTRY_DIR : Z := 2.
Definition FS_ENTRY_LINK : Z := 3.

Definition FS_IS_FILE (m : Z) : bool := Z.land m FS_FILE_TYPE_MASK =? FS_FILE_TYPE_REGULAR.

(** ** Splitting a path *)

(** [while (i > 0 && f(path[i])) i--] *)
Fixpoint back_while (f : Z -> bool) (path : list Z) (i : nat) : nat :=
  match i with
  | O => O
  | S j => if f (default 0 (path !! i)) then back_while f path j else i
  end.

(** The parent and the name, [None] for the result -1. *)
Definition split_absolute_path (path : list Z) (pmax nmax : Z) : option (list Z * list Z) :=
  let len := length path in
  if (len <=? 1)%nat then None
  else if negb (default 0 (path !! 0%nat) =? SLASH) then None
  else
    let fin := back_while (fun c => c =? SLASH) path (len - 1) in
    let slash := back_while (fun c => negb (c =? SLASH)) path fin in
    let nstart := S slash in
    let nlen := Z.of_nat fin - Z.of_nat nstart + 1 in
    if (nlen <=? 0) || (nmax <=? nlen) then None
    else
      let name := take (Z.to_nat nlen) (drop nstart path) in
      if (slash =? 0)%nat then Some ([SLASH], name)
      else if pmax <=? Z.of_nat slash then None
      else Some (take slash path, name).

Record fs_dir_entry := { de_name : list Z; de_ino : Z; de_type : Z }.

Section code.
Context {F A : Type} `{!Backend F} `{!Addresses A}.
Abbreviation M := (ST (vfs F A)).

(** The parent inode and the name, or an error code. *)
Definition resolve_parent (path : list Z) (nmax : Z) : M (Z + Z * list Z) :=
  match split_absolute_path path 256 nmax with
  | None => mret (inl FS_ERR_INVAL)
  | Some (parent_path, name) =>
      parent ← path_lookup (Some parent_path);
      if parent =? 0 then mret (inl FS_ERR_NOT_FOUND) else mret (inr (parent, name))
  end.

(** Calls through [parent->f_ops]. *)
Definition call_create (p : Z) (name : list Z) (m : Z) : M Z :=
  v ← get_vnode p;
  if negb (vn_ops v) then st_fault
  else '(rc, i) ← on_fs (be_create (vn_sb v) (vn_inode v) name m); put_vnode p (set_inode v i);; mret rc.
Definition call_mkdir (p : Z) (name : list Z) (m : Z) : M Z :=
  v ← get_vnode p;
  if negb (vn_ops v) then st_fault
  else '(rc, i) ← on_fs (be_mkdir (vn_sb v) (vn_inode v) name m); put_vnode p (set_inode v i);; mret rc.
Definition call_rmdir (p : Z) (name : list Z) : M Z :=
  v ← get_vnode p;
  if negb (vn_ops v) then st_fault
  else '(rc, i) ← on_fs (be_rmdir (vn_sb v) (vn_inode v) name); put_vnode p (set_inode v i);; mret rc.
Definition call_unlink (p : Z) (name : list Z) : M Z :=
  v ← get_vnode p;
  if negb (vn_ops v) then st_fault else on_fs (be_unlink (vn_sb v) (vn_inode v) name).

(** Resolve the parent, make one call on it, release it. *)
Definition on_parent (path : option (list Z)) (call : Z -> list Z -> M Z) : M Z :=
  match path with
  | None => mret FS_ERR_INVAL
  | Some path =>
      r ← resolve_parent path 256;
      match r with
      | inl err => mret err
      | inr (parent, name) =>
          rc ← call parent name;
          inode_put parent;;
          mret (if rc =? 0 then FS_OK else FS_ERR_IO)
      end
  end.

(** ** File operations *)
Definition fs_create_file (path : option (list Z)) : M Z :=
  on_parent path (fun p name => call_create p name 420).
Definition fs_remove_file (path : option (list Z)) : M Z := on_parent path call_unlink.

(** [while (total < buf_size)]: the bytes read. *)
Fixpoint read_file_loop (fuel : nat) (f buf_size : Z) (acc : list Z) : M (list Z) :=
  match fuel with
  | O => fun _ => Diverge
  | S fuel =>
      if negb (Z.of_nat (length acc) <? buf_size) then mret acc
      else
        '(n, bytes) ← file_read f (buf_size - Z.of_nat (length acc));
        if n <=? 0 then mret acc
        else
          bytes ← st_lift (of_option (slice bytes 0 n));
          read_file_loop fuel f buf_size (acc ++ bytes)
  end.

Definition fs_read_file (path : option (list Z)) (buf_size : Z) : M (Z * list Z) :=
  match path with
  | None => mret (u32 FS_ERR_INVAL, [])
  | Some _ =>
      if buf_size =? 0 then mret (u32 FS_ERR_INVAL, [])
      else
        f ← file_open path FILE_FLAG_READ;
        if f =? 0 then mret (u32 FS_ERR_NOT_FOUND, [])
        else
          bytes ← read_file_loop (S (Z.to_nat buf_size)) f buf_size [];
          file_close f;;
          mret (Z.of_nat (length bytes), bytes)
  end.

Definition write_flags (path : option (list Z)) (data : list Z) (fl : Z) : M Z :=
  match path with
  | None => mret (u32 FS_ERR_INVAL)
  | Some _ =>
      f ← file_open path fl;
      if f =? 0 then mret (u32 FS_ERR_NOT_FOUND)
      else
        n ← file_write f data;
        file_close f;;
        mret (if n <? 0 then u32 FS_ERR_IO else u32 n)
  end.
Definition fs_write_file (path : option (list Z)) (data : list Z) : M Z := write_flags path data FILE_FLAG_WRITE.
Definition fs_append_file (path : option (list Z)) (data : list Z) : M Z :=
  write_flags path data (Z.lor FILE_FLAG_WRITE FILE_FLAG_APPEND).

(** ** Directory operations *)
Definition fs_create_dir (path : option (list Z)) : M Z :=
  on_parent path (fun p name => call_mkdir p name 493).
Definition fs_remove_dir (path : option (list Z)) : M Z := on_parent path call_rmdir.

Definition entry_type (ft : Z) : Z :=
  if ft =? EXT2_FT_REG_FILE then FS_ENTRY_FILE
  else if ft =? EXT2_FT_DIR then FS_ENTRY_DIR
  else if ft =? EXT2_FT_SYMLINK then FS_ENTRY_LINK
  else FS_ENTRY_UNKNOWN.

Definition is_dot (name : list Z) : bool := bool_decide (name = [46]) || bool_decide (name = [46; 46]).

(** [while (off < bytes && count < max_entries)]; a read past the bytes of the
    directory is a fault. *)
Fixpoint list_loop (fuel : nat) (raw : list Z) (max_entries : Z) (skip_dot : bool) (off : Z)
    (entries : list fs_dir_entry) : outcome (list fs_dir_entry) :=
  match fuel with
  | O => Diverge
  | S fuel =>
      if (off <? Z.of_nat (length raw)) && (Z.of_nat (length entries) <? max_entries) then
        rec_len ← of_option (get_u16 raw (off + 4));
        if rec_len =? 0 then Ret entries
        else
          inum ← of_option (get_u32 raw off);
          entries ←
            (if inum =? 0 then Ret entries
             else
               nlen ← of_option (get_u8 raw (off + 6));
               name ← of_option (slice raw (off + 8) nlen);
               ft ← of_option (get_u8 raw (off + 7));
               if negb skip_dot || negb (is_dot name)
               then Ret (entries ++ [{| de_name := name; de_ino := inum; de_type := entry_type ft |}])
               else Ret entries);
          list_loop fuel raw max_entries skip_dot (off +! rec_len) entries
      else Ret entries
  end.

Definition fs_list_dir (path : option (list Z)) (max_entries : Z) (skip_dot : bool) : M (Z * list fs_dir_entry) :=
  match path with
  | None => mret (u32 FS_ERR_INVAL, [])
  | Some _ =>
      if max_entries =? 0 then mret (u32 FS_ERR_INVAL, [])
      else
        dir ← path_lookup path;
        if dir =? 0 then mret (u32 FS_ERR_NOT_FOUND, [])
        else
          v ← get_vnode dir;
          if negb (FS_IS_DIR (mode (vn_inode v))) then inode_put dir;; mret (u32 FS_ERR_NOT_DIR, [])
          else
            let dir_size := size (vn_inode v) in
            if dir_size =? 0 then inode_put dir;; mret (0, [])
            else
              raw ← kmalloc_data dir_size;
              if negb (raw : bool) then inode_put dir;; mret (u32 FS_ERR_NOMEM, [])
              else
                '(n, bytes) ← on_fs (be_readdir (vn_sb v) (vn_inode v) dir_size 0);
                inode_put dir;;
                if n <=? 0 then kfree_data;; mret (if n =? 0 then 0 else u32 FS_ERR_IO, [])
                else
                  raw ← st_lift (of_option (slice bytes 0 n));
                  entries ← st_lift (list_loop (S (length raw)) raw max_entries skip_dot 0 []);
                  kfree_data;;
                  mret (Z.of_nat (length entries), entries)
  end.

(** ** Queries *)
Definition fs_stat (path : option (list Z)) : M (Z * option fs_stat) :=
  match path with
  | None => mret (FS_ERR_INVAL, None)
  | Some _ =>
      f ← file_open path FILE_FLAG_READ;
      if f =? 0 then mret (FS_ERR_NOT_FOUND, None)
      else
        '(rc, st) ← file_stat f;
        file_close f;;
        mret (if rc =? 0 then FS_OK else FS_ERR_IO, st)
  end.

(** Resolve an inode, look at it, release it. *)
Definition query (path : option (list Z)) (none : Z) (look : inode -> Z) : M Z :=
  inode ← path_lookup path;
  if inode =? 0 then mret none
  else
    v ← get_vnode inode;
    let result := look (vn_inode v) in
    inode_put inode;;
    mret result.

Definition fs_exists (path : option (list Z)) : M Z :=
  match path with None => mret 0 | _ => query path 0 (fun _ => 1) end.
Definition fs_is_dir (path : option (list Z)) : M Z :=
  match path with None => mret 0 | _ => query path 0 (fun i => if FS_IS_DIR (mode i) then 1 else 0) end.
Definition fs_is_file (path : option (list Z)) : M Z :=
  match path with None => mret 0 | _ => query path 0 (fun i => if FS_IS_FILE (mode i) then 1 else 0) end.
Definition fs_file_size (path : option (list Z)) : M Z :=
  match path with
  | None => mret (u32 FS_ERR_INVAL)
  | _ => query path (u32 FS_ERR_NOT_FOUND)
           (fun i => if negb (FS_IS_FILE (mode i)) then u32 FS_ERR_NOT_FILE else size i)
  end.
End code.

(** ** Splitting is correct *)
Lemma back_while_spec f path i : let j := back_while f path i in
  (j <= i)%nat /\ (forall m, (j < m <= i)%nat -> f (default 0 (path !! m)) = true) /\
  (j = 0%nat \/ f (default 0 (path !! j)) = false).
Proof.
  induction i as [|i IH]; cbn [back_while]; [split; [lia|]; split; [lia|by left]|].
  destruct (f (default 0 (path !! S i))) eqn:E; cbv zeta.
  - destruct IH as (H1 & H2 & H3). split; [lia|]. split; [|done]. intros m Hm.
    destruct (decide (m = S i)) as [->|]; [done|]. apply H2. lia.
  - split; [lia|]. split; [lia|by right].
Qed.

Lemma fields_snoc l r : fields (l ++ SLASH :: r) = fields l ++ fields r.
Proof.
  induction l as [|c l IH]; cbn [app fields]; [by rewrite Z.eqb_refl|].
  destruct (c =? SLASH); [by rewrite IH|]. rewrite IH. by destruct (fields_cons l) as (x & xs & ->).
Qed.

Lemma components_snoc l r : components (l ++ SLASH :: r) = components l ++ components r.
Proof. unfold components. by rewrite fields_snoc, List.filter_app. Qed.

Lemma components_slashes k : components (replicate k SLASH) = [].
Proof. induction k as [|k IH]; [done|]. cbn [replicate]. by rewrite components_slash. Qed.

Lemma components_name name k : SLASH ∉ name -> name <> [] -> components (name ++ replicate k SLASH) = [name].
Proof.
  intros Hn Hne. unfold components. rewrite fields_app by done.
  assert (H : exists xs, fields (replicate k SLASH) = [] :: xs /\ List.filter nonempty xs = []).
  { pose proof (components_slashes k) as Hc. unfold components in Hc. destruct k as [|k]; [by exists []|].
    cbn [replicate fields] in *. rewrite Z.eqb_refl in *. by eexists. }
  destruct H as (xs & -> & Hxs). rewrite app_nil_r. cbn [List.filter]. destruct name; [done|]. cbn. by rewrite Hxs.
Qed.

Lemma all_slashes (l : list Z) : (forall m, (m < length l)%nat -> default 0 (l !! m) = SLASH) -> l = replicate (length l) SLASH.
Proof.
  intros H. apply list_eq. intros m. destruct (decide (m < length l)%nat) as [Hm|Hm].
  - rewrite lookup_replicate_2 by done. specialize (H m Hm). destruct (l !! m) eqn:E; [cbn in H; by subst|].
    apply lookup_ge_None in E. lia.
  - rewrite !(proj2 (lookup_ge_None _ _)); [done|rewrite length_replicate; lia|lia].
Qed.

(** The last component: the path up to the slash before it, it, and slashes. *)
Lemma split_decompose path : (1 < length path)%nat -> default 0 (path !! 0%nat) = SLASH ->
  let fin := back_while (fun c => c =? SLASH) path (length path - 1) in
  let slash := back_while (fun c => negb (c =? SLASH)) path fin in
  let name := take (fin - slash) (drop (S slash) path) in
  (fin = 0%nat -> components path = []) /\
  (fin <> 0%nat -> (slash < fin)%nat /\ (fin < length path)%nat /\ (SLASH ∉ name) /\ length name = (fin - slash)%nat /\
     exists k, path = take slash path ++ SLASH :: name ++ replicate k SLASH).
Proof.
  intros Hlen H0 fin slash name.
  destruct (back_while_spec (fun c => c =? SLASH) path (length path - 1)) as (E1 & E2 & E3). fold fin in E1, E2, E3.
  destruct (back_while_spec (fun c => negb (c =? SLASH)) path fin) as (S1 & S2 & S3). fold slash in S1, S2, S3.
  assert (Htail : forall d, (fin <= d)%nat -> drop (S d) path = replicate (length path - S d) SLASH).
  { intros d Hd. rewrite <- length_drop. apply all_slashes. intros m Hm. rewrite length_drop in Hm.
    rewrite lookup_drop. apply Z.eqb_eq, E2. lia. }
  assert (Hsl : default 0 (path !! slash) = SLASH).
  { destruct S3 as [S3|S3]; [by rewrite S3|]. apply negb_false_iff, Z.eqb_eq in S3. done. }
  split.
  - intros Hf. destruct path as [|c path']; [cbn in Hlen; lia|]. cbn in H0. subst c.
    specialize (Htail 0%nat ltac:(lia)). change (drop 1 (SLASH :: path')) with path' in Htail.
    rewrite Htail, components_slash. apply components_slashes.
  - intros Hf. destruct E3 as [E3|E3]; [done|].
    assert (Hne : slash <> fin) by (intros E; rewrite <- E, Hsl in E3; done).
    assert (Hlt : (slash < fin)%nat) by lia. split; [done|]. split; [lia|].
    assert (Hnl : length name = (fin - slash)%nat) by (unfold name; rewrite length_take, length_drop; lia).
    split; [|split; [done|]].
    + intros Hin. apply list_elem_of_lookup in Hin as [m Hm]. pose proof (lookup_lt_Some _ _ _ Hm) as Hml.
      unfold name in Hm. rewrite lookup_take in Hm. destruct (decide (m < fin - slash)%nat); [|lia].
      rewrite lookup_drop in Hm. specialize (S2 (S slash + m)%nat ltac:(lia)). rewrite Hm in S2. done.
    + exists (length path - S fin)%nat. rewrite <- (take_drop slash path) at 1. f_equal.
      destruct (path !! slash) as [c|] eqn:Ec; [|apply lookup_ge_None in Ec; lia]. cbn in Hsl. subst c.
      rewrite (drop_S path SLASH slash Ec). f_equal. rewrite <- (take_drop (fin - slash) (drop (S slash) path)) at 1.
      f_equal. rewrite drop_drop. replace (S slash + (fin - slash))%nat with (S fin) by lia. apply Htail. lia.
Qed.

Lemma take_head (path : list Z) n : (0 < n)%nat -> default 0 (path !! 0%nat) = SLASH -> path <> [] ->
  exists r, take n path = SLASH :: r.
Proof. intros Hn H0 Hp. destruct n as [|n]; [lia|]. destruct path as [|c path]; [done|]. cbn in *. subst c. by eexists. Qed.

(** Splitting a path is correct: when it succeeds, the parent is an
    absolute path, the name is a component of at most [nmax - 1] characters, and
    the components of the path are those of the parent followed by the name,
    whatever repeated or trailing slashes it has; it fails only for a path that
    is not absolute, that names the root, or whose name or parent is too long
    for its buffer. *)
Theorem split_absolute_path_correct path pmax nmax :
  match split_absolute_path path pmax nmax with
  | Some (parent, name) =>
      (exists r, parent = SLASH :: r) /\ components path = components parent ++ [name] /\
      (SLASH ∉ name) /\ 0 < Z.of_nat (length name) < nmax /\ (parent = [SLASH] \/ Z.of_nat (length parent) < pmax)
  | None =>
      (forall r, path <> SLASH :: r) \/ components path = [] \/
      exists parent name, components path = components parent ++ [name] /\
        (nmax <= Z.of_nat (length name) \/ pmax <= Z.of_nat (length parent))
  end.
Proof.
  unfold split_absolute_path. destruct (Nat.leb_spec (length path) 1) as [Hlen|Hlen].
  { destruct path as [|c [|]]; [by left| |cbn in Hlen; lia]. destruct (decide (c = SLASH)) as [->|Hc]; [by right; left|].
    left. congruence. }
  destruct (Z.eqb_spec (default 0 (path !! 0%nat)) SLASH) as [H0|H0]; cbn [negb].
  2:{ left. intros r ->. done. }
  destruct (split_decompose path Hlen H0) as [Hroot Hsplit].
  set (fin := back_while _ path (length path - 1)) in *. set (slash := back_while _ path fin) in *.
  replace (Z.of_nat fin - Z.of_nat (S slash) + 1) with (Z.of_nat fin - Z.of_nat slash) by lia.
  assert (Hpath : path <> []) by (by intros ->).
  destruct (decide (fin = 0)%nat) as [Hf|Hf].
  { destruct (Z.leb_spec (Z.of_nat fin - Z.of_nat slash) 0); cbn [orb]; [right; left; by apply Hroot|lia]. }
  destruct (Hsplit Hf) as (Hlt & Hfl & Hn & Hnl & k & Hdec).
  replace (Z.to_nat (Z.of_nat fin - Z.of_nat slash)) with (fin - slash)%nat by lia.
  set (name := take (fin - slash) (drop (S slash) path)) in *.
  assert (Hname : name <> []) by (intros E; rewrite E in Hnl; cbn in Hnl; lia).
  assert (Hcomp : components path = components (take slash path) ++ [name]).
  { rewrite Hdec at 1. by rewrite components_snoc, components_name. }
  destruct (Z.leb_spec (Z.of_nat fin - Z.of_nat slash) 0); [lia|]. cbn [orb].
  destruct (Z.leb_spec nmax (Z.of_nat fin - Z.of_nat slash)).
  { right. right. exists (take slash path), name. split; [done|]. left. lia. }
  destruct (Nat.eqb_spec slash 0) as [E|E].
  - split; [by eexists|]. rewrite Hcomp, E. split; [done|]. split; [done|]. split; [lia|by left].
  - destruct (Z.leb_spec pmax (Z.of_nat slash)).
    + right. right. exists (take slash path), name. split; [done|]. right. rewrite length_take. lia.
    + split; [apply take_head; [lia|done|done]|]. split; [done|]. split; [done|]. split; [lia|right]. rewrite length_take. lia.
Qed.

(** ** Queries are answered from the resolved inode *)
Section queries.
Context {F A : Type} `{!Backend F} `{!Addresses A} `{!AddressLaws A} `{!LookupOne F}.
Implicit Types s : vfs F A.

(** The answer to a query: [look] of the inode the components resolve to, or
    [none]; the objects are as before. *)
Inductive answered s (none : Z) (look : inode -> Z) : outcome (option inode * F) -> outcome (Z * vfs F A) -> Prop :=
| answered_none f a : ad_used a = ad_used (v_mem s) ->
    answered s none look (Ret (None, f)) (Ret (none, with_mem a (with_fs f s)))
| answered_some i f a : ad_used a = ad_used (v_mem s) ->
    answered s none look (Ret (Some i, f)) (Ret (look i, with_mem a (with_fs (be_free (be_free f)) s)))
| answered_fault : answered s none look Fault Fault
| answered_diverge : answered s none look Diverge Diverge.

Lemma query_run s r v rest none look : mounted_root s r v -> vn_ops v = true -> 1 <= refs v < 4294967295 ->
  inodes_used s -> Forall fits (components rest) ->
  match components rest with
  | [] => query (Some (SLASH :: rest)) none look s = Ret (look (vn_inode (held v)), s)
  | cs => answered s none look (walk true (vn_sb v) (vn_inode (held v)) cs (v_fs s))
            (query (Some (SLASH :: rest)) none look s)
  end.
Proof.
  intros Hr Ho Hn Hu Hfit. pose proof (path_lookup_run s r v rest Hr Ho Hn Hu Hfit) as Hl. unfold query.
  destruct (components rest) as [|c cs].
  - destruct Hr as (m & x & _ & _ & _ & _ & _ & Hr0 & Hv). rewrite (st_bind_Ret _ _ _ _ _ Hl).
    destruct (Z.eqb_spec r 0); [done|].
    rewrite (st_bind_Ret _ _ _ _ _ (get_vnode_run r (held v) (holding s r v) (lookup_insert_eq _ _ _))).
    rewrite (st_bind_Ret _ _ (holding s r v) tt s); [done|].
    change (holding s r v) with (with_fs (v_fs s) (holding s r v)).
    rewrite (put_holding s r v Hr0 Hv Hn). do 2 f_equal. by vfs_ext.
  - remember (walk true (vn_sb v) (vn_inode (held v)) (c :: cs) (v_fs s)) as w.
    remember (path_lookup (Some (SLASH :: rest)) s) as o eqn:Eo. symmetry in Eo.
    destruct Hl as [f a Ha|f i p a Hp Hpu Ha Hi| |].
    + rewrite (st_bind_Ret _ _ _ _ _ Eo). by constructor.
    + fold (visiting s p (vn_sb v) i a f) in Eo. rewrite (st_bind_Ret _ _ _ _ _ Eo).
      destruct (Z.eqb_spec p 0); [done|].
      rewrite (st_bind_Ret _ _ _ _ _ (get_vnode_run p (new_vnode (vn_sb v) i) _ (lookup_insert_eq _ _ _))).
      assert (Hnone : v_inodes s !! p = None). { apply eq_None_not_Some. intros H. by destruct (Hu p H). }
      rewrite (st_bind_Ret _ _ _ _ _ (put_visiting s p (vn_sb v) i a f Hp Hi Hnone)).
      apply answered_some. rewrite ad_give_ok, Ha. set_solver.
    + rewrite (st_bind_Fault _ _ _ Eo). constructor.
    + rewrite (st_bind_Diverge _ _ _ Eo). constructor.
Qed.

(** The queries answer from the inode the path resolves to and leave
    nothing behind: for a path with components, [fs_exists], [fs_is_dir],
    [fs_is_file] and [fs_file_size] return the existence, the type and the size of
    what looking up the components from the root gives, or their error value, and
    afterwards no inode, file or address is held that was not held before. *)
Theorem fs_queries_correct s r v rest c cs : mounted_root s r v -> vn_ops v = true -> 1 <= refs v < 4294967295 ->
  inodes_used s -> Forall fits (components rest) -> components rest = c :: cs ->
  let path := Some (SLASH :: rest) in
  let w := walk true (vn_sb v) (vn_inode (held v)) (c :: cs) (v_fs s) in
  answered s 0 (fun _ => 1) w (fs_exists path s) /\
  answered s 0 (fun i => if FS_IS_DIR (mode i) then 1 else 0) w (fs_is_dir path s) /\
  answered s 0 (fun i => if FS_IS_FILE (mode i) then 1 else 0) w (fs_is_file path s) /\
  answered s (u32 FS_ERR_NOT_FOUND) (fun i => if negb (FS_IS_FILE (mode i)) then u32 FS_ERR_NOT_FILE else size i) w
    (fs_file_size path s).
Proof.
  intros Hr Ho Hn Hu Hfit Hc. pose proof (fun none look => query_run s r v rest none look Hr Ho Hn Hu Hfit) as H.
  rewrite Hc in H. split_and!; apply H.
Qed.
End queries.

(** ** Reading a whole file

    What reading one file asks of a file system: [be_holds f sb i bytes] says that
    [i] is a readable file of the volume [sb] with these contents.  A read within
    32 bits then returns: it reports an error only when the kernel heap has refused
    it a request, counted by [be_refusals], and otherwise returns some of the bytes
    at the offset, at least one unless it is at the end. *)
Class Readable (F : Type) `{!Backend F} := {
  be_holds : F -> Z -> inode -> list Z -> Prop;
  be_refusals : F -> nat;
  be_release : forall f, be_refusals (be_free f) = be_refusals f;
  be_read_some : forall sb i bytes n off f, be_holds f sb i bytes -> 0 < n ->
    0 <= off <= Z.of_nat (length bytes) -> off + n < 4294967296 ->
    exists k out f', be_read sb i n off f = Ret ((k, out), f') /\ be_holds f' sb i bytes /\
      (k < 0 /\ (be_refusals f < be_refusals f')%nat \/
       (be_refusals f <= be_refusals f')%nat /\ 0 <= k <= n /\ off + k <= Z.of_nat (length bytes) /\
       (off < Z.of_nat (length bytes) -> 1 <= k) /\ out = take (Z.to_nat k) (drop (Z.to_nat off) bytes))
}.

Section read.
Context {F A : Type} `{!Backend F} `{!Addresses A} `{!Readable F}.
Implicit Types s : vfs F A.

(** The heap has refused a request between [s] and [s']. *)
Definition fs_refused s s' : Prop := (be_refusals (v_fs s) < be_refusals (v_fs s'))%nat.

(** The file at [p], at offset [off] of the inode [v] at [q], which holds [bytes]. *)
Definition reading s (p q fl off : Z) (v : vnode) (bytes : list Z) : Prop :=
  v_files s !! p = Some {| f_inode := q; f_flags := fl; f_offset := off; f_ref_count := 1 |} /\
  v_inodes s !! q = Some v /\ be_holds (v_fs s) (vn_sb v) (vn_inode v) bytes.

Section loop.
Context (p q fl : Z) (v : vnode) (bytes : list Z).
Hypothesis Hp : p <> 0.
Hypothesis Hq : q <> 0.
Hypothesis Ho : vn_ops v = true.
Hypothesis Hlen : Z.of_nat (length bytes) < 4294967296.

(** A call advances the offset by the bytes it returns, unless the heap refused it. *)
Lemma file_read_run s off n : reading s p q fl off v bytes -> 0 < n -> 0 <= off <= Z.of_nat (length bytes) -> off + n < 4294967296 ->
  exists k out s', file_read p n s = Ret ((k, out), s') /\ v_inodes s' = v_inodes s /\ delete p (v_files s') = delete p (v_files s) /\
    (k < 0 /\ reading s' p q fl off v bytes /\ fs_refused s s' \/
     0 <= k <= n /\ off + k <= Z.of_nat (length bytes) /\ (off < Z.of_nat (length bytes) -> 1 <= k) /\
     reading s' p q fl (off + k) v bytes /\ (be_refusals (v_fs s) <= be_refusals (v_fs s'))%nat /\
     out = take (Z.to_nat k) (drop (Z.to_nat off) bytes)).
Proof.
  intros (Hf & Hv & Hb) Hn Hoff Hon.
  destruct (be_read_some (vn_sb v) (vn_inode v) bytes n off (v_fs s) Hb Hn Hoff Hon) as (k & out & f & Hr & Hb' & Hk).
  exists k, out. unfold file_read.
  destruct (Z.eqb_spec p 0); [done|]. rewrite (st_bind_Ret _ _ _ _ _ (get_file_run p _ s Hf)). cbn [f_inode].
  destruct (Z.eqb_spec q 0); [done|]. rewrite (st_bind_Ret _ _ _ _ _ (get_vnode_run q v s Hv)), Ho. cbn [negb f_offset].
  rewrite (st_bind_Ret _ _ _ _ _ (on_fs_run _ s _ f Hr)). destruct (Z.ltb_spec 0 k) as [Hk0|Hk0]; cbn [when].
  - destruct Hk as [[? _]|(Hle & Hk1 & Hk2 & Hk3 & Ek)]; [lia|].
    unfold put_file. rewrite (st_bind_Ret _ _ _ tt _ eq_refl). eexists. split; [done|]. cbn. rewrite delete_insert_eq.
    split; [done|]. split; [done|]. right. repeat split; try done; try lia.
    cbn. rewrite lookup_insert_eq. unfold set_f_offset. cbn. by rewrite u32_small by (unfold is_u32; lia).
  - exists (with_fs f s). split; [done|]. split; [done|]. split; [done|].
    destruct Hk as [[? Hlt]|(Hle & Hk1 & Hk2 & Hk3 & Ek)]; [by left|]. right. assert (k = 0) as -> by lia.
    rewrite Z.add_0_r. repeat split; try done; lia.
Qed.

Lemma read_loop_run fuel : forall s buf_size acc, reading s p q fl (Z.of_nat (length acc)) v bytes ->
  acc = take (length acc) bytes -> Z.of_nat (length acc) <= buf_size < 4294967296 -> (Z.to_nat buf_size < fuel + length acc)%nat ->
  exists out off s', read_file_loop fuel p buf_size acc s = Ret (out, s') /\ reading s' p q fl off v bytes /\
    v_inodes s' = v_inodes s /\ delete p (v_files s') = delete p (v_files s) /\
    (be_refusals (v_fs s) <= be_refusals (v_fs s'))%nat /\ out = take (length out) bytes /\ Z.of_nat (length out) <= buf_size /\
    (out = take (Z.to_nat buf_size) bytes \/ fs_refused s s').
Proof.
  induction fuel as [|fuel IH]; intros s buf_size acc Hrd Hacc Hle Hfuel; [lia|].
  cbn [read_file_loop]. assert (Hal : (length acc <= length bytes)%nat) by (rewrite Hacc, length_take; lia).
  destruct (Z.ltb_spec (Z.of_nat (length acc)) buf_size) as [Hlt|Hge]; cbn [negb].
  2:{ exists acc, (Z.of_nat (length acc)), s. replace (Z.to_nat buf_size) with (length acc) by lia. split_and!; auto; lia. }
  destruct (file_read_run s _ (buf_size - Z.of_nat (length acc)) Hrd) as (k & out & s1 & Hrun & Hi & Hd & Hk); [lia..|].
  rewrite (st_bind_Ret _ _ _ _ _ Hrun). destruct (Z.leb_spec k 0) as [Hk0|Hk0].
  - destruct Hk as [(_ & Hrd1 & Href)|(Hk1 & Hk2 & Hk3 & Hrd1 & Href & _)].
    + exists acc, (Z.of_nat (length acc)), s1. unfold fs_refused in *. split_and!; auto; lia.
    + exists acc, (Z.of_nat (length acc) + k), s1. split_and!; auto; [lia|].
      left. rewrite take_ge by lia. rewrite Hacc, take_ge by lia. done.
  - destruct Hk as [[? _]|(Hk1 & Hk2 & Hk3 & Hrd1 & Href & ->)]; [lia|]. rewrite Nat2Z.id.
    set (piece := take (Z.to_nat k) (drop (length acc) bytes)).
    assert (Hpl : length piece = Z.to_nat k) by (unfold piece; rewrite length_take, length_drop; lia).
    rewrite (st_bind_Ret _ _ s1 piece s1).
    2:{ unfold st_lift. rewrite slice_prefix by lia. rewrite take_ge by lia. done. }
    assert (Ha : Z.of_nat (length (acc ++ piece)) = Z.of_nat (length acc) + k) by (rewrite length_app; lia).
    destruct (IH s1 buf_size (acc ++ piece)) as (o & off & s' & H1 & H2 & H3 & H4 & H5 & H6 & H7 & H8).
    + by rewrite Ha.
    + rewrite length_app, Hpl, <- take_take_drop. unfold piece. by rewrite <- Hacc.
    + lia.
    + lia.
    + exists o, off, s'. unfold fs_refused in *. split_and!; try done; try congruence; [lia|].
      destruct H8; [by left|right; lia].
Qed.
End loop.

(** (C32) Reading a whole file: once the file has been opened, [fs_read_file]
    returns, reports the number of bytes it stored and closes the file.  The bytes
    are the first [buf_size] of the file, or all of it when it is shorter, however
    few bytes the file system returns per call; only when the heap has refused a
    request during the call may they be a shorter prefix of the file. *)
Theorem fs_read_file_correct s s1 path p q v bytes buf_size : 0 < buf_size < 4294967296 ->
  file_open (Some path) FILE_FLAG_READ s = Ret (p, s1) -> p <> 0 -> q <> 0 -> reading s1 p q FILE_FLAG_READ 0 v bytes ->
  vn_ops v = true -> 1 <= refs v < 4294967296 -> Z.of_nat (length bytes) < 4294967296 ->
  exists out s', fs_read_file (Some path) buf_size s = Ret ((Z.of_nat (length out), out), s') /\
    (out = take (Z.to_nat buf_size) bytes \/
     fs_refused s1 s' /\ out = take (length out) bytes /\ Z.of_nat (length out) <= buf_size) /\
    v_files s' = delete p (v_files s1) /\
    v_inodes s' = (if refs v =? 1 then delete q (v_inodes s1)
                   else <[q := set_refs v (refs v - 1)]> (v_inodes s1)).
Proof.
  intros Hb Hopen Hp Hq Hrd Ho Hr Hlen. unfold fs_read_file. destruct (Z.eqb_spec buf_size 0); [lia|].
  rewrite (st_bind_Ret _ _ _ _ _ Hopen). destruct (Z.eqb_spec p 0); [done|].
  destruct (read_loop_run p q FILE_FLAG_READ v bytes Hp Hq Ho Hlen (S (Z.to_nat buf_size)) s1 buf_size [] Hrd eq_refl)
    as (out & off & s2 & Hrun & (Hf & Hv & _) & Hi & Hd & Href & Hpre & Hle & Hall); [cbn; lia|cbn; lia|].
  rewrite (st_bind_Ret _ _ _ _ _ Hrun). unfold file_close. destruct (Z.eqb_spec p 0); [done|].
  set (close := (f ← get_file p; _) : ST (vfs F A) Z).
  assert (Hclose : exists s', close s2 = Ret (0, s') /\ v_files s' = delete p (v_files s2) /\
    be_refusals (v_fs s') = be_refusals (v_fs s2) /\
    v_inodes s' = (if refs v =? 1 then delete q (v_inodes s2) else <[q := set_refs v (refs v - 1)]> (v_inodes s2))).
  { unfold close. rewrite (st_bind_Ret _ _ _ _ _ (get_file_run p _ s2 Hf)). cbn [f_inode].
    destruct (Z.eqb_spec q 0); [done|]. cbn [negb when].
    rewrite (st_bind_Ret _ _ _ _ _ (inode_put_run q v s2 Hq Hv Hr)).
    eexists. split; [done|]. destruct (refs v =? 1); (split; [done|]); (split; [|done]); cbn; unfold fs_freed; repeat case_match; rewrite ?be_release; done. }
  destruct Hclose as (s' & Hc & Hcf & Hcr & Hci). rewrite (st_bind_Ret _ _ _ _ _ Hc). exists out, s'.
  split; [done|]. split; [|by rewrite Hcf, Hci, Hd, Hi]. unfold fs_refused in *. rewrite Hcr.
  destruct Hall; [by left|by right].
Qed.
End read.

(** ** Witnesses *)
#[export] Instance toy_readable : Readable (list Z).
Proof.
  refine (@Build_Readable (list Z) _ (fun f sb i bytes => existsb (Z.eqb sb) f = true /\ bytes = replicate 10 (ino i))
    (fun _ => 0%nat) (fun _ => eq_refl) _).
  intros sb i bytes n off f [Hsb ->] Hn Hoff _. rewrite length_replicate in *. exists (toy_short n off), (take (Z.to_nat (toy_short n off)) (drop (Z.to_nat off) (replicate 10 (ino i)))), f.
  split; [cbn; unfold toy_on; by rewrite Hsb|]. split; [done|]. right. unfold toy_short. repeat split; lia.
Defined.

Lemma fs_queries_correct_witness :
  answered toy_state 0 (fun _ => 1) toy_walk (fs_exists (Some [SLASH; 97; SLASH; 98]) toy_state).
Proof.
  exact (proj1 (fs_queries_correct toy_state 30 (new_vnode 20 (new_inode 2 1024)) [97; SLASH; 98] [97] [[98]] toy_root eq_refl
    ltac:(vm_compute; split; congruence) toy_inodes_used ltac:(repeat constructor) eq_refl)).
Defined.

(** "/a" holds ten bytes, read in four calls. *)
Lemma fs_read_file_correct_witness : exists s',
  fs_read_file (Some [SLASH; 97]) 100 toy_state = Ret ((10, replicate 10 609), s') /\ v_files s' = ∅.
Proof.
  destruct (fs_read_file_correct toy_state toy_opened [SLASH; 97] 32 31 (new_vnode 20 (new_inode 609 1024)) (replicate 10 609) 100)
    as (out & s' & H & Hout & Hf & _);
    [lia|refine (run_final _ _ 32 _); vm_cast_no_check (eq_refl (Some 32))|lia|lia| |reflexivity
    |vm_compute; split; congruence|vm_compute; reflexivity|].
  - split; [vm_compute; reflexivity|]. split; [vm_compute; reflexivity|]. vm_compute. done.
  - destruct Hout as [->|[Hr _]]; [|by apply Nat.lt_irrefl in Hr].
    exists s'. split; [exact H|]. rewrite Hf. vm_compute. reflexivity.
Defined.
