(* ===== verification/Ext2Vfs.v ===== *)
(** * ext2 under the virtual file system (src/src/fs/ext2/ext2_ops.c)

    The operation tables [ext2_file_ops] and [ext2_sb_ops] as an instance of
    [Backend]: every mounted volume has its [ext2_fs_data_t], found through the
    superblock; the heap and the devices are shared. *)

From S2P Require Import Prelude BlockDev Ext2 Ext2Proof Ext2Layout Ext2Files LinkedList Vfs VfsProof VfsRefs FsLib.

(** [ext2_fs_data_t]; [fd_dev] is the address of the device. *)
Record fs_data := {
  fd_dev : Z; fd_sb : list Z; fd_group_desc : list (list Z); fd_groups_count : Z; fd_block_size : Z;
  fd_inodes_per_block : Z; fd_itable_blocks : Z
}.
Definition fs_data_zero (dev : Z) : fs_data :=
  {| fd_dev := dev; fd_sb := []; fd_group_desc := []; fd_groups_count := 0; fd_block_size := 0;
     fd_inodes_per_block := 0; fd_itable_blocks := 0 |}.

(** The heap, the devices by address, and the volumes by the address of their
    superblock. *)
Record volumes (D H : Type) := { xv_heap : H; xv_devs : gmap Z D; xv_fs : gmap Z fs_data }.
Arguments xv_heap {D H} _. Arguments xv_devs {D H} _. Arguments xv_fs {D H} _.

Section ops.
Context {D H : Type} `{!BlockDevice D} `{!KHeap H}.
Abbreviation V := (volumes D H).

Definition load (f : V) (fd : fs_data) (d : D) : ext2 D H :=
  {| e_dev := d; e_heap := xv_heap f; e_sb := fd_sb fd; e_group_desc := fd_group_desc fd;
     e_groups_count := fd_groups_count fd; e_block_size := fd_block_size fd;
     e_inodes_per_block := fd_inodes_per_block fd; e_itable_blocks := fd_itable_blocks fd |}.
Definition unload (dev : Z) (e : ext2 D H) : fs_data :=
  {| fd_dev := dev; fd_sb := e_sb e; fd_group_desc := e_group_desc e; fd_groups_count := e_groups_count e;
     fd_block_size := e_block_size e; fd_inodes_per_block := e_inodes_per_block e;
     fd_itable_blocks := e_itable_blocks e |}.

(** Run [c] on the volume [fd] of superblock [sb]. *)
Definition on_data {B} (sb : Z) (fd : fs_data) (c : ST (ext2 D H) B) : ST V B := fun f =>
  match xv_devs f !! fd_dev fd with
  | None => Fault
  | Some d =>
      match c (load f fd d) with
      | Ret (b, e) =>
          Ret (b, {| xv_heap := e_heap e; xv_devs := <[fd_dev fd := e_dev e]> (xv_devs f);
                     xv_fs := <[sb := unload (fd_dev fd) e]> (xv_fs f) |})
      | Fault => Fault
      | Diverge => Diverge
      end
  end.
(** [sb->fs_data] of a superblock that has been freed is a fault. *)
Definition on_volume {B} (sb : Z) (c : ST (ext2 D H) B) : ST V B := fun f =>
  match xv_fs f !! sb with
  | None => Fault
  | Some fd => on_data sb fd c f
  end.

Definition vol_malloc (n : Z) (f : V) : bool * V :=
  let '(r, h) := kh_malloc n (xv_heap f) in
  (match r with Some _ => true | None => false end, {| xv_heap := h; xv_devs := xv_devs f; xv_fs := xv_fs f |}).
Definition vol_free (f : V) : V :=
  {| xv_heap := kh_free (xv_heap f); xv_devs := xv_devs f; xv_fs := xv_fs f |}.
(** [kfree(sb->fs_data)] *)
Definition vol_drop (sb : Z) : ST V unit := fun f =>
  Ret (tt, {| xv_heap := kh_free (xv_heap f); xv_devs := xv_devs f; xv_fs := delete sb (xv_fs f) |}).
(** [ext2_fill_super]; on failure [sb->fs_data] stays null. *)
Definition vol_fill_super (sb dev : Z) : ST V (option superblock) :=
  r ← on_data sb (fs_data_zero dev) ext2_fill_super;
  when (negb (bool_decide (is_Some r)))
    (st_modify (fun f => {| xv_heap := xv_heap f; xv_devs := xv_devs f; xv_fs := delete sb (xv_fs f) |}));;
  mret r.

#[export] Instance ext2_backend : Backend V := {
  be_malloc := vol_malloc;
  be_free := vol_free;
  be_lookup sb i name := on_volume sb (ext2_lookup i name);
  be_create sb i name m := on_volume sb (ext2_create i name m);
  be_mkdir sb i name m := on_volume sb (ext2_mkdir i name m);
  be_unlink sb i name := on_volume sb (ext2_unlink i name);
  be_rmdir sb i name := on_volume sb (ext2_rmdir i name);
  be_read sb i n off := on_volume sb (ext2_read i n off);
  be_write sb i buf off := on_volume sb (ext2_write i buf off);
  be_chmod sb i m := on_volume sb (ext2_chmod i m);
  be_readdir sb i n off := on_volume sb (ext2_readdir i n off);
  be_fill_super := vol_fill_super;
  be_put_superblock sb := on_volume sb ext2_put_superblock;
  be_drop := vol_drop;
  be_sync sb := on_volume sb ext2_sync
}.
End ops.

(** ** What the virtual file system relies on *)
Section laws.
Context {D H : Type} `{!BlockDevice D} `{!KHeap H}.

(** A call that returns has run on the volume of its superblock. *)
Lemma on_volume_inv {B} sb (c : ST (ext2 D H) B) f b f' : on_volume sb c f = Ret (b, f') -> exists e e', c e = Ret (b, e').
Proof.
  unfold on_volume, on_data. destruct (xv_fs f !! sb) as [fd|]; [|done]. destruct (xv_devs f !! fd_dev fd) as [d|]; [|done].
  destruct (c (load f fd d)) as [[r e]| |] eqn:E; [|done|done]. intros [= -> _]. eauto.
Qed.

Lemma read_inode_one n : returns (ext2_read_inode (D := D) (H := H) n) (fun r => forall j, r = Some j -> ref_count j = 1).
Proof.
  unfold ext2_read_inode. destruct (n =? 0); [by apply returns_ret|]. apply returns_bind. intros s.
  apply returns_bind. intros [b|]; [|by apply returns_ret]. apply returns_bind. intros [ret di].
  destruct (negb (ret =? 0)); [apply returns_bind; intros _; by apply returns_ret|].
  do 3 (apply returns_bind; intros ?). destruct a1 as [b'|]; [|apply returns_bind; intros _; by apply returns_ret].
  apply returns_ret. by intros j [= <-].
Qed.

Lemma lookup_one_ext2 i name : returns (ext2_lookup (D := D) (H := H) i name) (fun r => forall j, r = Some j -> ref_count j = 1).
Proof.
  unfold ext2_lookup. apply returns_bind. intros [de|]; [|by apply returns_ret].
  apply returns_bind. intros n. apply returns_bind. intros _. apply read_inode_one.
Qed.

#[export] Instance ext2_lookup_one : LookupOne (volumes D H).
Proof.
  intros sb i name f j f' (e & e' & E)%on_volume_inv. by eapply lookup_one_ext2.
Qed.

(** The inode a write hands back is the one it was given, with a new size, new
    blocks and new on-disk bytes. *)
Abbreviation same_refs i := (fun r : Z * inode => ref_count r.2 = ref_count i).

Lemma write_inode_refs i : returns (ext2_write_inode (D := D) (H := H) i) (same_refs i).
Proof.
  unfold ext2_write_inode. cbv zeta. apply returns_bind. intros ret. by apply returns_ret.
Qed.

Lemma write_loop_refs fuel i0 buf bs offset : forall i n block_buf, ref_count i = ref_count i0 ->
  returns (write_loop (D := D) (H := H) fuel i buf bs offset n block_buf) (same_refs i0).
Proof.
  induction fuel as [|fuel IH]; intros i n block_buf Hi; [done|]. cbn [write_loop].
  destruct (_ <=? _); [by apply returns_ret|]. do 2 (apply returns_bind; intros ?). cbv zeta.
  apply returns_bind. intros phys.
  apply (returns_then _ _ (fun r => ref_count r.2 = ref_count i0)).
  - destruct (phys =? 0).
    + apply returns_bind. intros b. destruct (b =? 0); [by apply returns_ret|].
      apply returns_bind. intros [ret di]. destruct (negb (ret =? 0)); [|by apply returns_ret].
      apply returns_bind. intros _. by apply returns_ret.
    + destruct (_ || _); [|by apply returns_ret]. apply returns_bind. intros [? b]. by apply returns_ret.
  - intros [[[b block_buf']|] i1]; cbn [snd]; intros Hi1; [|by apply returns_ret].
    do 3 (apply returns_bind; intros ?). by apply IH.
Qed.

Lemma ext2_write_refs i buf off : returns (ext2_write (D := D) (H := H) i buf off) (same_refs i).
Proof.
  unfold ext2_write. apply returns_bind. intros s. cbv zeta. apply returns_bind. intros [b|]; [|by apply returns_ret].
  eapply returns_then; [by apply write_loop_refs|]. intros [n i1]. cbn [snd]. intros Hi. apply returns_bind. intros _.
  eapply returns_then; [apply write_inode_refs|]. intros [r i2]. cbn [snd]. intros Hi2. apply returns_ret.
  cbn [snd]. rewrite Hi2. by destruct (_ <? _).
Qed.

#[export] Instance ext2_write_keeps : WriteKeeps (volumes D H).
Proof. intros sb i buf off f r j f' (e & e' & E)%on_volume_inv. by eapply (ext2_write_refs i buf off) in E. Qed.

#[export] Instance ext2_drop : DropFrees (volumes D H).
Proof.
  refine (@Build_DropFrees (volumes D H) _ (fun sb f => xv_fs f !! sb = None) _ _ _).
  - intros sb f u f'. cbn. unfold vol_drop. intros [= _ <-]. apply lookup_delete_eq.
  - done.
  - intros sb f i n off Hg. cbn. unfold on_volume. by rewrite Hg.
Defined.
End laws.

(** ** Reading a file of a mounted volume *)
Section readable.
Context {D H : Type} `{!BlockDevice D} `{!HealthyDevice D} `{!KHeap H}.
Abbreviation V := (volumes D H).

(** The volume of [sb] is well formed, and [i] is a file of it, in its direct
    blocks, with these contents. *)
Definition holds (f : V) (sb : Z) (i : inode) (bytes : list Z) : Prop :=
  exists fd d, xv_fs f !! sb = Some fd /\ xv_devs f !! fd_dev fd = Some d /\
    vol_wf (load f fd d) /\ file_ok (load f fd d) i /\ bytes = contents (load f fd d) i.

(** A call that leaves the volume as it is but for the heap. *)
Lemma holds_kept f sb i bytes fd d e : xv_fs f !! sb = Some fd -> xv_devs f !! fd_dev fd = Some d ->
  vol_wf (load f fd d) -> file_ok (load f fd d) i -> bytes = contents (load f fd d) i ->
  same_but (load f fd d) e (fun _ => True) ->
  holds {| xv_heap := e_heap e; xv_devs := <[fd_dev fd := e_dev e]> (xv_devs f);
           xv_fs := <[sb := unload (fd_dev fd) e]> (xv_fs f) |} sb i bytes.
Proof.
  intros Hf Hd Hv Hi -> Hs. exists (unload (fd_dev fd) e), (e_dev e). cbn [xv_fs xv_devs fd_dev unload].
  rewrite !lookup_insert_eq. split; [done|]. split; [done|].
  set (f' := {| xv_heap := _ |}). assert (El : load f' (unload (fd_dev fd) e) (e_dev e) = e) by (by destruct e).
  rewrite El. pose proof (same_but_data_step _ _ (fun _ => False) Hv Hs) as Hst.
  split; [by eapply ds_wf|]. split; [by eapply file_ok_step|].
  unfold contents. f_equal. symmetry. apply (file_data_step _ _ _ _ _ Hst); [apply Hi|]. by intros c _ ?.
Qed.

#[export] Instance ext2_readable : Readable (volumes D H).
Proof.
  refine (@Build_Readable (volumes D H) _ holds (fun f => kh_refusals (xv_heap f)) (fun f => kh_release _) _).
  intros sb i bytes n off f (fd & d & Hf & Hd & Hv & Hi & ->) Hn Hoff Hon.
  enough (Hwp : wp (ext2_read i n off) (load f fd d) (fun r e => same_but (load f fd d) e (fun _ => True) /\
    (r.1 < 0 /\ refused (load f fd d) e \/
     r.2 = take (Z.to_nat n) (drop (Z.to_nat off) (contents (load f fd d) i)) /\ r.1 = Z.of_nat (length r.2)))).
  { apply wp_run in Hwp as ([k out] & e & Hr & Hs & Hk). cbn [fst snd] in Hk.
    eexists k, out, _. cbn [be_read ext2_backend]. unfold on_volume, on_data. rewrite Hf, Hd, Hr. split; [done|].
    split; [by eapply holds_kept|]. destruct Hk as [[? ?]|[Eo Ek]]; [by left|]. right.
    rewrite Eo, length_take, length_drop in Ek. split; [apply Hs|]. repeat split; try lia.
    rewrite Eo, Ek, Nat2Z.id. destruct (Nat.min_spec (Z.to_nat n) (length (contents (load f fd d) i) - Z.to_nat off)) as [[? ->]|[? ->]];
      [done|]. by rewrite !take_ge by (rewrite length_drop; lia). }
  apply wp_ext2_read; [done|done|lia|lia|lia| |].
  - intros s' Hs' _ Href. split; [done|by left].
  - intros s' out Hs' Hout. split; [done|]. right. apply slice_contents; try done; lia.
Defined.
End readable.
