(* ===== verification/Shell.v ===== *)
(** * The file-system shell (src/src/prog/shell.c)

    Line input, tokens, the commands and the automated tests, over the file
    library, the console and the queue of key events.  A line is the list of its
    characters without the terminator. *)

From S2P Require Import Prelude Keyboard Console Text BlockDev Ext2 LinkedList Vfs FsLib.

(** [h_keys] are the events [keyboard_read] will deliver; when there are none the
    shell sleeps. *)
Record shell (F A : Type) := {
  h_vfs : vfs F A; h_con : console; h_keys : list key_event; t_pass : Z; t_fail : Z
}.
Arguments h_vfs {F A} _. Arguments h_con {F A} _. Arguments h_keys {F A} _. Arguments t_pass {F A} _. Arguments t_fail {F A} _.

(** [(short)n] *)
Definition s16 (z : Z) : Z := let r := z mod 65536 in if r <? 32768 then r else r - 65536.
Definition FS_ERR : Z := -1.
Definition FS_IS_LINK (m : Z) : bool := Z.land m FS_FILE_TYPE_MASK =? FS_FILE_TYPE_LINK.

(** ** Tokens *)
Definition is_blank (c : Z) : bool := (c =? 32) || (c =? 9).

Fixpoint skip_spaces (s : list Z) : list Z :=
  match s with
  | c :: r => if is_blank c then skip_spaces r else s
  | [] => []
  end.

(** The loop stops at the end of the string, at a blank and after [n] = [max - 1]
    characters. *)
Fixpoint take_token (n : nat) (p : list Z) : list Z * list Z :=
  match n, p with
  | S n, c :: r => if is_blank c then ([], p) else let '(t, q) := take_token n r in (c :: t, q)
  | _, _ => ([], p)
  end.

(** The result, the token and the cursor. *)
Definition next_token (cursor : list Z) (max : Z) : bool * list Z * list Z :=
  match skip_spaces cursor with
  | [] => (false, [], cursor)
  | p => let '(t, q) := take_token (Z.to_nat (max - 1)) p in (true, t, q)
  end.

Definition entry_type_tag (type : Z) : list Z :=
  if type =? FS_ENTRY_DIR then cstr "DIR "
  else if type =? FS_ENTRY_FILE then cstr "FILE"
  else if type =? FS_ENTRY_LINK then cstr "LINK"
  else cstr " -- ".

Definition fs_err_str (err : Z) : list Z :=
  if err =? FS_ERR then cstr "error"
  else if err =? FS_ERR_INVAL then cstr "invalid path"
  else if err =? FS_ERR_NOT_FOUND then cstr "not found"
  else if err =? FS_ERR_NOT_DIR then cstr "not a directory"
  else if err =? FS_ERR_NOT_FILE then cstr "not a file"
  else if err =? FS_ERR_IO then cstr "I/O error"
  else if err =? FS_ERR_NOMEM then cstr "out of memory"
  else cstr "unknown error".

(** A buffer printed as a string ends at its first null character. *)
Fixpoint until_nul (s : list Z) : list Z :=
  match s with [] => [] | c :: s => if c =? 0 then [] else c :: until_nul s end.

Section code.
Context {F A : Type} `{!Backend F} `{!Addresses A}.
Abbreviation M := (ST (shell F A)).
Implicit Types h : shell F A.

Definition on_vfs {B} (c : ST (vfs F A) B) : M B := fun h =>
  match c (h_vfs h) with
  | Ret (b, v) => Ret (b, {| h_vfs := v; h_con := h_con h; h_keys := h_keys h; t_pass := t_pass h; t_fail := t_fail h |})
  | Fault => Fault
  | Diverge => Diverge
  end.
Definition on_con {B} (c : ST console B) : M B := fun h =>
  match c (h_con h) with
  | Ret (b, k) => Ret (b, {| h_vfs := h_vfs h; h_con := k; h_keys := h_keys h; t_pass := t_pass h; t_fail := t_fail h |})
  | Fault => Fault
  | Diverge => Diverge
  end.
Definition set_keys (ks : list key_event) : M unit :=
  st_modify (fun h => {| h_vfs := h_vfs h; h_con := h_con h; h_keys := ks; t_pass := t_pass h; t_fail := t_fail h |}).
Definition set_counts (p f : Z) : M unit :=
  st_modify (fun h => {| h_vfs := h_vfs h; h_con := h_con h; h_keys := h_keys h; t_pass := p; t_fail := f |}).

(** [printf(format, args)] *)
Definition print (format : list Z) (args : list va_arg) : M unit := on_con (printf (format ++ [0]) args);; mret tt.

(** ** Line input *)

(** The line so far is [buf[0..pos-1]]. *)
Fixpoint readline_loop (keys : list key_event) (max : Z) (line : list Z) : M (list Z * list key_event) :=
  match keys with
  | [] => fun _ => Diverge
  | ev :: keys =>
      if negb (pressed ev) then readline_loop keys max line
      else
        match code ev with
        | KC_ENTER => on_con (putc 10);; mret (line, keys)
        | KC_BSPC =>
            if 0 <? Z.of_nat (length line) then on_con (putc 8);; readline_loop keys max (removelast line)
            else readline_loop keys max line
        | _ =>
            if (32 <=? ascii ev) && (ascii ev <=? 126) && (Z.of_nat (length line) <? max - 1) then
              on_con (putc (ascii ev));; readline_loop keys max (line ++ [ascii ev])
            else readline_loop keys max line
        end
  end.

Definition shell_readline (max : Z) : M (list Z) :=
  keys ← st_gets h_keys;
  '(line, rest) ← readline_loop keys max [];
  set_keys rest;;
  mret line.

(** ** Commands *)
Fixpoint print_entries (es : list fs_dir_entry) : M unit :=
  match es with
  | [] => mret tt
  | e :: es =>
      print (cstr "  [%s] ino=%d  %s" ++ NL) [VaStr (entry_type_tag (de_type e)); VaInt (de_ino e); VaStr (until_nul (de_name e))];;
      print_entries es
  end.

Definition cmd_ls (path : list Z) : M unit :=
  let path := match path with [] => [SLASH] | _ => path end in
  '(n, entries) ← on_vfs (fs_list_dir (Some path) 64 true);
  if s16 n <? 0 then print (cstr "ls: '%s': %s" ++ NL) [VaStr path; VaStr (fs_err_str (s16 n))]
  else print_entries entries.

Definition cmd_cat (path : list Z) : M unit :=
  match path with
  | [] => print (cstr "cat: missing path" ++ NL) []
  | _ =>
      '(n, buf) ← on_vfs (fs_read_file (Some path) 4096);
      if s16 n <? 0 then print (cstr "cat: '%s': %s" ++ NL) [VaStr path; VaStr (fs_err_str (s16 n))]
      else print (cstr "%s" ++ NL) [VaStr (until_nul buf)]
  end.

(** [touch], [mkdir], [rm] and [rmdir]: the four functions differ in the name and
    the library function. *)
Definition path_command (name : list Z) (op : option (list Z) -> ST (vfs F A) Z) (path : list Z) : M unit :=
  match path with
  | [] => print (name ++ cstr ": missing path" ++ NL) []
  | _ =>
      rc ← on_vfs (op (Some path));
      if rc <? 0 then print (name ++ cstr ": '%s': %s" ++ NL) [VaStr path; VaStr (fs_err_str rc)]
      else print (name ++ cstr ": %s -> OK" ++ NL) [VaStr path]
  end.
Definition cmd_touch : list Z -> M unit := path_command (cstr "touch") fs_create_file.
Definition cmd_mkdir : list Z -> M unit := path_command (cstr "mkdir") fs_create_dir.
Definition cmd_rm : list Z -> M unit := path_command (cstr "rm") fs_remove_file.
Definition cmd_rmdir : list Z -> M unit := path_command (cstr "rmdir") fs_remove_dir.

Definition cmd_write (args : list Z) : M unit :=
  let '(found, path, cursor) := next_token args 256 in
  if negb found then print (cstr "write: usage: write <path> <text>" ++ NL) []
  else
    match skip_spaces cursor with
    | [] => print (cstr "write: missing text" ++ NL) []
    | text =>
        n ← on_vfs (fs_write_file (Some path) text);
        if s16 n <? 0 then print (cstr "write: '%s': %s" ++ NL) [VaStr path; VaStr (fs_err_str (s16 n))]
        else print (cstr "write: wrote %d bytes to %s" ++ NL) [VaInt n; VaStr path]
    end.

Definition stat_type (m : Z) : list Z :=
  let type := cstr "???" in
  let type := if FS_IS_DIR m then cstr "DIR" else type in
  let type := if FS_IS_FILE m then cstr "FILE" else type in
  if FS_IS_LINK m then cstr "LINK" else type.

(** [%o] is a change of colour for [printf].  [st] is set when [rc] is 0. *)
Definition cmd_stat (path : list Z) : M unit :=
  match path with
  | [] => print (cstr "stat: missing path" ++ NL) []
  | _ =>
      '(rc, st) ← on_vfs (fs_stat (Some path));
      if rc <? 0 then print (cstr "stat: '%s': %s" ++ NL) [VaStr path; VaStr (fs_err_str rc)]
      else
        st ← st_lift (of_option st);
        print (cstr "  path  : %s" ++ NL) [VaStr path];;
        print (cstr "  ino   : %d" ++ NL) [VaInt (st_ino st)];;
        print (cstr "  type  : %s" ++ NL) [VaStr (stat_type (st_mode st))];;
        print (cstr "  mode  : 0%o" ++ NL) [VaInt (Z.land (st_mode st) 0xFFF)];;
        print (cstr "  size  : %d bytes" ++ NL) [VaInt (st_size st)];;
        print (cstr "  nlink : %d" ++ NL) [VaInt (st_nlink st)];;
        print (cstr "  blocks: %d" ++ NL) [VaInt (st_blocks st)]
  end.

Definition help : M unit :=
  print (cstr "  ls [path]           list directory" ++ NL) [];;
  print (cstr "  cat <path>          print file contents" ++ NL) [];;
  print (cstr "  touch <path>        create empty file" ++ NL) [];;
  print (cstr "  write <path> <txt>  write text to file" ++ NL) [];;
  print (cstr "  mkdir <path>        create directory" ++ NL) [];;
  print (cstr "  rm <path>           remove file" ++ NL) [];;
  print (cstr "  rmdir <path>        remove empty directory" ++ NL) [];;
  print (cstr "  stat <path>         show inode metadata" ++ NL) [];;
  print (cstr "  exit                leave the shell" ++ NL) [].

(** Without a token [arg] is the empty string. *)
Definition with_arg (cursor : list Z) (c : list Z -> M unit) : M unit :=
  let '(_, arg, _) := next_token cursor 256 in c arg.

Definition is_cmd (cmd : list Z) (name : string) : bool := bool_decide (cmd = cstr name).

Definition shell_dispatch (line : list Z) : M unit :=
  let '(found, cmd, cursor) := next_token line 64 in
  if negb found then mret tt
  else if is_cmd cmd "ls" then
    let '(found, arg, _) := next_token cursor 256 in
    if negb found then cmd_ls [SLASH] else cmd_ls arg
  else if is_cmd cmd "cat" then with_arg cursor cmd_cat
  else if is_cmd cmd "touch" then with_arg cursor cmd_touch
  else if is_cmd cmd "write" then cmd_write cursor
  else if is_cmd cmd "mkdir" then with_arg cursor cmd_mkdir
  else if is_cmd cmd "rm" then with_arg cursor cmd_rm
  else if is_cmd cmd "rmdir" then with_arg cursor cmd_rmdir
  else if is_cmd cmd "stat" then with_arg cursor cmd_stat
  else if is_cmd cmd "help" then help
  else print (cstr "unknown command: '%s' (type 'help')" ++ NL) [VaStr cmd].

(** Every line takes a key at least, so that the keys bound the rounds. *)
Fixpoint shell_loop (fuel : nat) : M unit :=
  match fuel with
  | O => fun _ => Diverge
  | S fuel =>
      print (cstr "fs> ") [];;
      line ← shell_readline 256;
      if is_cmd line "exit" then mret tt
      else shell_dispatch line;; shell_loop fuel
  end.

Definition fs_test_shell : M unit :=
  e ← on_vfs (fs_exists (Some [SLASH]));
  if e =? 0 then print (cstr "[fs-shell] No filesystem mounted. Shell unavailable." ++ NL) []
  else
    print (NL ++ cstr "=== FS Test Shell (type 'help' for commands) ===" ++ NL) [];;
    keys ← st_gets h_keys;
    shell_loop (S (length keys));;
    print (cstr "[fs-shell] exited." ++ NL) [].

(** ** Automated tests *)
Definition T (name : list Z) (ok : bool) : M unit :=
  p ← st_gets t_pass;
  f ← st_gets t_fail;
  if ok then print (cstr "  [PASS] %s" ++ NL) [VaStr name];; set_counts (s32 (p + 1)) f
  else print (cstr "  [FAIL] %s" ++ NL) [VaStr name];; set_counts p (s32 (f + 1)).

Definition heading (s : string) : M unit := print (NL ++ cstr "-- " ++ cstr s ++ cstr " --" ++ NL) [].
Definition test_txt : list Z := cstr "/test.txt".
Definition mydir : list Z := cstr "/mydir".
Definition inner_txt : list Z := cstr "/mydir/inner.txt".
Definition msg : list Z := cstr "Hello from ext2 test!".

(** Step 4: read the file back. *)
Definition test_read : M unit :=
  heading "cat /test.txt";;
  '(n, buf) ← on_vfs (fs_read_file (Some test_txt) 63);
  T (cstr "read back > 0 bytes") (0 <? s16 n);;
  when (0 <? s16 n)
    (print (cstr "  content: " ++ [34] ++ cstr "%s" ++ [34] ++ NL) [VaStr (until_nul buf)];;
     T (cstr "content matches") (bool_decide (until_nul buf = msg))).

(** Steps that call a library function and expect [FS_OK]. *)
Definition test_step (title name : string) (op : ST (vfs F A) Z) : M unit :=
  heading title;;
  rc ← on_vfs op;
  T (cstr name) (rc =? FS_OK).

Definition test_filesystem : M unit :=
  set_counts 0 0;;
  print (NL ++ cstr "=== Filesystem Automated Tests ===" ++ NL ++ NL) [];;
  e ← on_vfs (fs_exists (Some [SLASH]));
  T (cstr "root exists") (negb (e =? 0));;
  d ← on_vfs (fs_is_dir (Some [SLASH]));
  T (cstr "root is a directory") (negb (d =? 0));;
  e ← on_vfs (fs_exists (Some [SLASH]));
  if e =? 0 then print (cstr "  Cannot continue without a mounted filesystem." ++ NL) []
  else
    heading "ls /";; cmd_ls [SLASH];;
    test_step "create /test.txt" "create /test.txt" (fs_create_file (Some test_txt));;
    heading "write /test.txt";;
    written ← on_vfs (fs_write_file (Some test_txt) msg);
    T (cstr "write 21 bytes") (written =? 21);;
    test_read;;
    heading "stat /test.txt";; cmd_stat test_txt;;
    test_step "mkdir /mydir" "mkdir /mydir" (fs_create_dir (Some mydir));;
    heading "ls / (after changes)";; cmd_ls [SLASH];;
    test_step "touch /mydir/inner.txt" "create /mydir/inner.txt" (fs_create_file (Some inner_txt));;
    heading "ls /mydir";; cmd_ls mydir;;
    test_step "rm /test.txt" "unlink /test.txt" (fs_remove_file (Some test_txt));;
    test_step "rm /mydir/inner.txt" "unlink inner.txt" (fs_remove_file (Some inner_txt));;
    test_step "rmdir /mydir" "rmdir /mydir" (fs_remove_dir (Some mydir));;
    heading "ls / (after cleanup)";; cmd_ls [SLASH];;
    p ← st_gets t_pass;
    f ← st_gets t_fail;
    print (NL ++ cstr "=== Results: %d passed, %d failed ===" ++ NL) [VaInt p; VaInt f].
End code.
