(* ===== verification/ShellProof.v ===== *)
(** * The shell is correct

    Words of a line against [next_token], line editing, and the shell as an
    interpreter of lines: what a line does to the file system and what it
    shows. *)

From S2P Require Import Prelude Keyboard Console Text BlockDev Ext2 LinkedList Vfs VfsProof FsLib Shell.

(** ** Words *)

(** The maximal blank-free segments of a line. *)
Fixpoint words (s : list Z) : list (list Z) :=
  match s with
  | [] => []
  | c :: r =>
      if is_blank c then words r
      else
        match r with
        | [] => [[c]]
        | c' :: _ =>
            if is_blank c' then [c] :: words r
            else match words r with w :: ws => (c :: w) :: ws | [] => [[c]] end
        end
  end.

(** What follows the first word of a line. *)
Fixpoint drop_word (s : list Z) : list Z :=
  match s with c :: r => if is_blank c then s else drop_word r | [] => [] end.
Definition after_word (s : list Z) : list Z := drop_word (skip_spaces s).

Lemma skip_spaces_words s : words (skip_spaces s) = words s.
Proof. induction s as [|c s IH]; [done|]. cbn [skip_spaces words]. destruct (is_blank c) eqn:E; [done|]. cbn [words]. by rewrite E. Qed.

Lemma skip_spaces_head s c r : skip_spaces s = c :: r -> is_blank c = false.
Proof. induction s as [|d s IH]; [done|]. cbn [skip_spaces]. destruct (is_blank d) eqn:E; [done|]. by intros [= -> ->]. Qed.

Lemma skip_spaces_length s : (length (skip_spaces s) <= length s)%nat.
Proof. induction s as [|c s IH]; [done|]. cbn [skip_spaces]. destruct (is_blank c); cbn [length]; lia. Qed.

Lemma words_cons c r : is_blank c = false -> exists w ws, words (c :: r) = (c :: w) :: ws.
Proof.
  revert c. induction r as [|d r IH]; intros c Hc; cbn [words]; rewrite Hc; [by eexists _, _|].
  destruct (is_blank d) eqn:E; [by eexists _, _|]. destruct (IH d E) as (w & ws & H). cbn [words] in H. rewrite E in H. rewrite H.
  by eexists _, _.
Qed.

(** Taking a token of at most [n] characters off a line that starts with a word. *)
Lemma take_token_spec n : forall c r w ws, is_blank c = false -> words (c :: r) = w :: ws -> (0 < n)%nat ->
  exists q, take_token n (c :: r) = (take n w, q) /\ (length q <= length r)%nat /\
    words q = (if (length w <=? n)%nat then ws else drop n w :: ws) /\ ((length w <= n)%nat -> q = drop_word (c :: r)).
Proof.
  induction n as [|n IH]; intros c r w ws Hc Hw Hn; [lia|]. cbn [take_token drop_word]. rewrite Hc.
  cbn [words] in Hw. rewrite Hc in Hw. destruct r as [|d r].
  - injection Hw as <- <-. exists []. destruct n; split_and!; done.
  - destruct (is_blank d) eqn:Ed.
    + injection Hw as <- <-. exists (d :: r). cbn [drop_word]. rewrite Ed.
      assert (take_token n (d :: r) = ([], d :: r)) as -> by (destruct n; cbn [take_token]; [done|by rewrite Ed]).
      split; [by destruct n|]. split; [done|]. split; [|done]. cbn [words]. by rewrite Ed.
    + destruct (words_cons d r Ed) as (v & vs & Ev). rewrite Ev in Hw. injection Hw as <- <-. destruct n as [|n].
      * exists (d :: r). split; [done|]. split; [done|]. split; [exact Ev|]. cbn. lia.
      * destruct (IH d r (d :: v) vs Ed Ev ltac:(lia)) as (q & E & Hl & Hq & Hb). exists q. rewrite E.
        split; [done|]. split; [cbn [length]; lia|]. split; [exact Hq|]. intros H. apply Hb. cbn [length] in *. lia.
Qed.

Lemma next_token_none cursor max : words cursor = [] -> next_token cursor max = (false, [], cursor).
Proof.
  unfold next_token. rewrite <- skip_spaces_words. destruct (skip_spaces cursor) as [|c r] eqn:E; [done|].
  destruct (words_cons c r (skip_spaces_head _ _ _ E)) as (? & ? & ->). done.
Qed.

Lemma next_token_some cursor max w ws : 1 < max -> words cursor = w :: ws ->
  exists q, next_token cursor max = (true, take (Z.to_nat (max - 1)) w, q) /\ (length q < length cursor)%nat /\
    words q = (if (length w <=? Z.to_nat (max - 1))%nat then ws else drop (Z.to_nat (max - 1)) w :: ws) /\
    ((length w <= Z.to_nat (max - 1))%nat -> q = after_word cursor).
Proof.
  intros Hm. unfold next_token, after_word. pose proof (skip_spaces_length cursor) as Hl. rewrite <- skip_spaces_words.
  destruct (skip_spaces cursor) as [|c r] eqn:E; [done|]. pose proof (skip_spaces_head _ _ _ E) as Hc. intros Ew.
  destruct (take_token_spec (Z.to_nat (max - 1)) c r w ws Hc Ew ltac:(lia)) as (q & -> & Hq & Hws & Hd).
  exists q. split; [done|]. split; [cbn [length] in Hl; lia|done].
Qed.

Lemma words_first s w ws : words s = w :: ws -> w <> [] /\ (length w <= length s)%nat.
Proof.
  revert w ws. induction s as [|c s IH]; intros w ws; [done|]. cbn [words length]. destruct (is_blank c) eqn:E.
  - intros H. destruct (IH _ _ H). split; [done|lia].
  - destruct s as [|d s]; [intros [= <- <-]; cbn; split; [done|lia]|]. destruct (is_blank d); [intros [= <- <-]; cbn; split; [done|lia]|].
    destruct (words (d :: s)) as [|v vs]; intros [= <- <-]; [cbn; split; [done|lia]|]. destruct (IH v vs eq_refl). cbn [length] in *. split; [done|lia].
Qed.

(** A word that fits is the token. *)
Lemma next_token_fits cursor max w ws : words cursor = w :: ws -> Z.of_nat (length cursor) < max ->
  next_token cursor max = (true, w, after_word cursor) /\ words (after_word cursor) = ws /\
  (length (after_word cursor) < length cursor)%nat /\ w <> [].
Proof.
  intros Hw Hm. destruct (words_first _ _ _ Hw) as [Hne Hl].
  assert (0 < length w)%nat by (destruct w; [done|cbn; lia]).
  destruct (next_token_some cursor max w ws) as (q & E & Hq & Hws & Ha); [lia|done|].
  specialize (Ha ltac:(lia)). subst q. rewrite take_ge in E by lia. destruct (Nat.leb_spec (length w) (Z.to_nat (max - 1))); [|lia].
  done.
Qed.

(** [next_token] returns the first word of the line and leaves the cursor
    at the following words; a word too long for the buffer is cut to
    [max - 1] characters and its tail is the next token.  Without a word it
    answers 0 and leaves the cursor, and every token found shortens the line. *)
Theorem next_token_correct cursor max : 1 < max ->
  match words cursor with
  | [] => next_token cursor max = (false, [], cursor)
  | w :: ws => exists q, next_token cursor max = (true, take (Z.to_nat (max - 1)) w, q) /\ (length q < length cursor)%nat /\
      words q = (if (length w <=? Z.to_nat (max - 1))%nat then ws else drop (Z.to_nat (max - 1)) w :: ws)
  end.
Proof.
  intros Hm. destruct (words cursor) as [|w ws] eqn:E; [by apply next_token_none|].
  destruct (next_token_some cursor max w ws Hm E) as (q & H1 & H2 & H3 & _). by exists q.
Qed.

(** ** Line editing *)
Definition is_enter (ev : key_event) : bool := pressed ev && match code ev with KC_ENTER => true | _ => false end.
Definition is_bspc (ev : key_event) : bool := match code ev with KC_BSPC => true | _ => false end.
Definition printable (c : Z) : bool := (32 <=? c) && (c <=? 126).

(** A key that is not Enter: the line after it and what is echoed. *)
Definition keystroke (max : Z) (line : list Z) (ev : key_event) : list Z * list Z :=
  if negb (pressed ev) then (line, [])
  else if is_bspc ev then match line with [] => ([], []) | _ => (removelast line, [8]) end
  else if printable (ascii ev) && (Z.of_nat (length line) <? max - 1) then (line ++ [ascii ev], [ascii ev])
  else (line, []).

Fixpoint edit (max : Z) (line : list Z) (evs : list key_event) : list Z * list Z :=
  match evs with
  | [] => (line, [])
  | ev :: evs =>
      let '(line, out) := keystroke max line ev in
      let '(line, outs) := edit max line evs in
      (line, out ++ outs)
  end.

Lemma code_view {B} (kc : keycode) (a b c : B) :
  match kc with KC_ENTER => a | KC_BSPC => b | _ => c end =
  if match kc with KC_ENTER => true | _ => false end then a
  else if match kc with KC_BSPC => true | _ => false end then b else c.
Proof. by destruct kc. Qed.

Lemma edit_ok max evs : forall line, Z.of_nat (length line) <= max - 1 -> Forall (fun c => printable c = true) line ->
  Z.of_nat (length (edit max line evs).1) <= max - 1 /\ Forall (fun c => printable c = true) (edit max line evs).1.
Proof.
  induction evs as [|ev evs IH]; intros line Hl Hp; [done|]. cbn [edit].
  assert (H : Z.of_nat (length (keystroke max line ev).1) <= max - 1 /\ Forall (fun c => printable c = true) (keystroke max line ev).1).
  { unfold keystroke. destruct (negb (pressed ev)); [done|]. destruct (is_bspc ev).
    - destruct line as [|c line]; [done|]. cbn [fst]. rewrite removelast_firstn_len. split; [|by apply Forall_take].
      rewrite length_take. cbn [length] in *. lia.
    - destruct (printable (ascii ev) && _) eqn:Eb; [|done]. apply andb_true_iff in Eb as [E1 E2]. cbn [fst].
      rewrite length_app. cbn [length]. split; [lia|]. apply Forall_app. split; [done|]. by constructor. }
  destruct (keystroke max line ev) as [line1 out]. specialize (IH line1 (proj1 H) (proj2 H)). by destruct (edit max line1 evs).
Qed.

Lemma edit_typed max evs : forall line, Forall (fun ev => pressed ev = true -> is_bspc ev = false /\ printable (ascii ev) = true) evs ->
  Z.of_nat (length line + length (List.filter pressed evs)) <= max - 1 ->
  edit max line evs = (line ++ (ascii <$> List.filter pressed evs), ascii <$> List.filter pressed evs).
Proof.
  induction evs as [|ev evs IH]; intros line Hf Hl; cbn [edit List.filter] in *; [by rewrite app_nil_r|].
  apply Forall_cons in Hf as [Hev Hf]. unfold keystroke. destruct (pressed ev) eqn:Ep; cbn [negb].
  - destruct (Hev eq_refl) as [-> ->]. cbn [length] in Hl. destruct (Z.ltb_spec (Z.of_nat (length line)) (max - 1)); [|lia].
    cbn [andb]. rewrite IH by (done || (rewrite length_app; cbn [length]; lia)). cbn. by rewrite <- app_assoc.
  - by rewrite IH by done.
Qed.

Section lines.
Context {F A : Type} `{!Backend F} `{!Addresses A}.
Implicit Types h : shell F A.

Definition with_con (k : console) h : shell F A :=
  {| h_vfs := h_vfs h; h_con := k; h_keys := h_keys h; t_pass := t_pass h; t_fail := t_fail h |}.
Definition with_keys (ks : list key_event) h : shell F A :=
  {| h_vfs := h_vfs h; h_con := h_con h; h_keys := ks; t_pass := t_pass h; t_fail := t_fail h |}.

Lemma shell_con_run {B} (c : ST console B) h b k : c (h_con h) = Ret (b, k) -> on_con c h = Ret (b, with_con k h).
Proof. intros E. unfold on_con. by rewrite E. Qed.

Lemma emits_cons_run c cs k k1 : emits (OChar <$> c :: cs) k = Ret (tt, k1) ->
  exists k0, putc c k = Ret (tt, k0) /\ emits (OChar <$> cs) k0 = Ret (tt, k1).
Proof. rewrite fmap_cons. apply emits_cons. Qed.

Lemma readline_loop_run max evs e rest : forall line h k, Forall (fun ev => is_enter ev = false) evs -> is_enter e = true ->
  emits (OChar <$> (edit max line evs).2 ++ [10]) (h_con h) = Ret (tt, k) ->
  readline_loop (evs ++ e :: rest) max line h = Ret (((edit max line evs).1, rest), with_con k h).
Proof.
  induction evs as [|ev evs IH]; intros line h k Hf He Hem; cbn [app readline_loop].
  - apply andb_true_iff in He as [-> He]. cbn [negb]. rewrite code_view, He. cbn [edit snd app] in Hem.
    apply emits_cons_run in Hem as (k0 & Ho & [= ->]). by pstep (apply shell_con_run; exact Ho).
  - apply Forall_cons in Hf as [Hev Hf]. specialize (IH (keystroke max line ev).1). cbn [edit] in *.
    unfold keystroke in *. unfold is_enter in Hev. destruct (pressed ev); cbn [negb andb fst] in *.
    2: { destruct (edit max line evs) as [l2 o2]. by apply IH. }
    rewrite code_view, Hev. fold (is_bspc ev). fold (printable (ascii ev)). destruct (is_bspc ev).
    + destruct line as [|c line]; cbn [fst] in IH.
      * destruct (edit max [] evs) as [l2 o2]. by apply IH.
      * destruct (Z.ltb_spec 0 (Z.of_nat (length (c :: line)))); [|cbn [length] in *; lia].
        destruct (edit max (removelast (c :: line)) evs) as [l2 o2]. apply emits_cons_run in Hem as (k0 & Ho & Hem).
        pstep (apply shell_con_run; exact Ho). rewrite (IH (with_con k0 h) k) by done. done.
    + destruct (printable (ascii ev) && _); cbn [fst] in IH.
      * destruct (edit max (line ++ [ascii ev]) evs) as [l2 o2]. apply emits_cons_run in Hem as (k0 & Ho & Hem).
        pstep (apply shell_con_run; exact Ho). rewrite (IH (with_con k0 h) k) by done. done.
      * destruct (edit max line evs) as [l2 o2]. by apply IH.
Qed.

Lemma shell_readline_run max evs e rest h : Forall (fun ev => is_enter ev = false) evs -> is_enter e = true ->
  h_keys h = evs ++ e :: rest -> console_ok (h_con h) ->
  exists k, emits (OChar <$> (edit max [] evs).2 ++ [10]) (h_con h) = Ret (tt, k) /\ console_ok k /\
    shell_readline max h = Ret ((edit max [] evs).1, with_keys rest (with_con k h)).
Proof.
  intros Hf He Hk [Ha Hs]. destruct (emits_total (OChar <$> (edit max [] evs).2 ++ [10]) (h_con h) Ha Hs) as (k & Hem & Hc).
  exists k. split; [done|]. split; [done|]. unfold shell_readline. pstep reflexivity. rewrite Hk.
  pstep (by apply readline_loop_run). done.
Qed.

(** (C38) Reading a line takes the keys up to the first Enter and returns what they
    edit: printable characters are appended while fewer than [max - 1] are there,
    Backspace removes the last one, releases and other keys change nothing.  The
    line fits its buffer and has printable characters only, every edit and the
    end of the line are echoed, and keys without Backspace that fit give exactly
    their characters. *)
Theorem shell_readline_correct max evs e rest h : 1 <= max -> Forall (fun ev => is_enter ev = false) evs -> is_enter e = true ->
  h_keys h = evs ++ e :: rest -> console_ok (h_con h) ->
  exists line shown k, edit max [] evs = (line, shown) /\ emits (OChar <$> shown ++ [10]) (h_con h) = Ret (tt, k) /\
    shell_readline max h = Ret (line, with_keys rest (with_con k h)) /\
    Z.of_nat (length line) <= max - 1 /\ Forall (fun c => 32 <= c <= 126) line /\
    (Forall (fun ev => pressed ev = true -> is_bspc ev = false /\ printable (ascii ev) = true) evs ->
     Z.of_nat (length (List.filter pressed evs)) <= max - 1 -> line = ascii <$> List.filter pressed evs).
Proof.
  intros Hm Hf He Hk Hc. destruct (shell_readline_run max evs e rest h Hf He Hk Hc) as (k & Hem & _ & E).
  destruct (edit_ok max evs [] ltac:(cbn; lia) ltac:(done)) as [Hl Hp].
  exists (edit max [] evs).1, (edit max [] evs).2, k. split; [by destruct (edit max [] evs)|]. split; [done|]. split; [done|].
  split; [done|]. split.
  - eapply Forall_impl; [exact Hp|]. unfold printable. cbn. lia.
  - intros Ht Hn. by rewrite edit_typed.
Qed.
End lines.

(** ** What a line does and shows *)
Definition failed (name path : list Z) (err : Z) : shown :=
  say (name ++ cstr ": '" ++ path ++ cstr "': " ++ fs_err_str err ++ NL).
Definition missing_path (name : list Z) : shown := say (name ++ cstr ": missing path" ++ NL).
Definition entry_line (e : fs_dir_entry) : shown :=
  say (cstr "  [" ++ entry_type_tag (de_type e) ++ cstr "] ino=" ++ int_string (de_ino e) ++ cstr "  " ++ until_nul (de_name e) ++ NL).

Section effects.
Context {F A : Type} `{!Backend F} `{!Addresses A}.
Implicit Types h : shell F A.
Abbreviation V := (ST (vfs F A)).

Definition ls_effect (path : list Z) : V (list shown) :=
  '(n, entries) ← fs_list_dir (Some path) 64 true;
  mret (if s16 n <? 0 then [failed (cstr "ls") path (s16 n)] else entry_line <$> entries).

Definition cat_effect (path : list Z) : V (list shown) :=
  '(n, buf) ← fs_read_file (Some path) 4096;
  mret (if s16 n <? 0 then [failed (cstr "cat") path (s16 n)] else [say (until_nul buf ++ NL)]).

Definition path_effect (name : list Z) (op : option (list Z) -> V Z) (path : list Z) : V (list shown) :=
  rc ← op (Some path);
  mret (if rc <? 0 then [failed name path rc] else [say (name ++ cstr ": " ++ path ++ cstr " -> OK" ++ NL)]).

Definition write_effect (path text : list Z) : V (list shown) :=
  n ← fs_write_file (Some path) text;
  mret (if s16 n <? 0 then [failed (cstr "write") path (s16 n)]
        else [say (cstr "write: wrote " ++ int_string n ++ cstr " bytes to " ++ path ++ NL)]).

Definition stat_lines (path : list Z) (st : Ext2.fs_stat) : list shown :=
  [say (cstr "  path  : " ++ path ++ NL);
   say (cstr "  ino   : " ++ int_string (st_ino st) ++ NL);
   say (cstr "  type  : " ++ stat_type (st_mode st) ++ NL);
   Said ((OChar <$> cstr "  mode  : 0") ++ [OColor (Z.land (st_mode st) 0xFFF); OChar 10]);
   say (cstr "  size  : " ++ int_string (st_size st) ++ cstr " bytes" ++ NL);
   say (cstr "  nlink : " ++ int_string (st_nlink st) ++ NL);
   say (cstr "  blocks: " ++ int_string (st_blocks st) ++ NL)].

Definition stat_effect (path : list Z) : V (list shown) :=
  '(rc, st) ← fs_stat (Some path);
  if rc <? 0 then mret [failed (cstr "stat") path rc]
  else st ← st_lift (of_option st); mret (stat_lines path st).

Definition help_lines : list shown :=
  (fun s => say (cstr s ++ NL)) <$>
  ["  ls [path]           list directory"; "  cat <path>          print file contents";
   "  touch <path>        create empty file"; "  write <path> <txt>  write text to file";
   "  mkdir <path>        create directory"; "  rm <path>           remove file";
   "  rmdir <path>        remove empty directory"; "  stat <path>         show inode metadata";
   "  exit                leave the shell"]%string.

(** A command on one path. *)
Definition on_path (name : list Z) (e : list Z -> V (list shown)) (args : list (list Z)) : V (list shown) :=
  match args with [] => mret [missing_path name] | p :: _ => e p end.

Definition commands : list (string * (list (list Z) -> V (list shown))) :=
  [("ls", fun args => ls_effect (hd [SLASH] args));
   ("cat", on_path (cstr "cat") cat_effect);
   ("touch", on_path (cstr "touch") (path_effect (cstr "touch") fs_create_file));
   ("mkdir", on_path (cstr "mkdir") (path_effect (cstr "mkdir") fs_create_dir));
   ("rm", on_path (cstr "rm") (path_effect (cstr "rm") fs_remove_file));
   ("rmdir", on_path (cstr "rmdir") (path_effect (cstr "rmdir") fs_remove_dir));
   ("stat", on_path (cstr "stat") stat_effect);
   ("help", fun _ => mret help_lines)]%string.

(** A line is its words; "write" also takes the text after the path as it is. *)
Definition line_effect (line : list Z) : V (list shown) :=
  match words line with
  | [] => mret []
  | cmd :: args =>
      if bool_decide (cmd = cstr "write") then
        match args with
        | [] => mret [say (cstr "write: usage: write <path> <text>" ++ NL)]
        | [_] => mret [say (cstr "write: missing text" ++ NL)]
        | path :: _ => write_effect path (skip_spaces (after_word (after_word line)))
        end
      else
        match List.find (fun c => bool_decide (cmd = cstr c.1)) commands with
        | Some (_, e) => e args
        | None => mret [say (cstr "unknown command: '" ++ take 63 cmd ++ cstr "' (type 'help')" ++ NL)]
        end
  end.

(** [c] has the effect [e] on the file system and shows what [e] returns. *)
Definition after (v : vfs F A) (k : console) h : shell F A :=
  {| h_vfs := v; h_con := k; h_keys := h_keys h; t_pass := t_pass h; t_fail := t_fail h |}.
Definition does (c : ST (shell F A) unit) (e : V (list shown)) : Prop := forall h, console_ok (h_con h) ->
  match e (h_vfs h) with
  | Ret (ms, v) => exists k, display ms (h_con h) = Ret (tt, k) /\ console_ok k /\ c h = Ret (tt, after v k h)
  | Fault => c h = Fault
  | Diverge => c h = Diverge
  end.

Lemma does_ret : does (mret tt) (mret []).
Proof. intros h Hok. exists (h_con h). split; [done|]. split; [done|]. by destruct h. Qed.

Lemma does_print fmt args ps os : pieces_of fmt args = Some ps -> output_of ps = os -> does (print fmt args) (mret [Said os]).
Proof.
  intros Hp <- h Hok. destruct (printf_message fmt args ps (h_con h) Hp Hok) as (n & k & E & Em & Hk). exists k.
  split; [cbn [display show]; pstep (exact Em); done|]. split; [done|].
  unfold print. by pstep (apply shell_con_run; exact E).
Qed.

Lemma does_seq c1 c2 ms1 e2 : does c1 (mret ms1) -> does c2 e2 -> does (c1;; c2) (ms2 ← e2; mret (ms1 ++ ms2)).
Proof.
  intros H1 H2 h Hok. destruct (H1 h Hok) as (k1 & D1 & Hk1 & E1). specialize (H2 (after (h_vfs h) k1 h) Hk1). cbn [h_vfs after] in H2.
  unfold mbind, ST_bind at 1. destruct (e2 (h_vfs h)) as [[ms2 v]| |]; cbn.
  - destruct H2 as (k2 & D2 & Hk2 & E2). exists k2. split; [|split; [done|]].
    + by apply display_app with k1.
    + unfold ST_bind. rewrite E1. rewrite E2. done.
  - unfold ST_bind. by rewrite E1.
  - unfold ST_bind. by rewrite E1.
Qed.

Lemma does_cons c1 c2 m ms : does c1 (mret [m]) -> does c2 (mret ms) -> does (c1;; c2) (mret (m :: ms)).
Proof. exact (does_seq c1 c2 [m] (mret ms)). Qed.

Lemma does_vfs {B} (c : V B) (f : B -> ST (shell F A) unit) e : (forall b, does (f b) (e b)) ->
  does (b ← on_vfs c; f b) (b ← c; e b).
Proof.
  intros H h Hok. unfold mbind, ST_bind, on_vfs. destruct (c (h_vfs h)) as [[b v]| |]; [|done|done].
  exact (H b {| h_vfs := v; h_con := h_con h; h_keys := h_keys h; t_pass := t_pass h; t_fail := t_fail h |} Hok).
Qed.

Lemma does_lift {B} (o : option B) (f : B -> ST (shell F A) unit) e : (forall b, does (f b) (e b)) ->
  does (b ← st_lift (of_option o); f b) (b ← st_lift (of_option o); e b).
Proof. intros H h Hok. destruct o as [b|]; [|done]. exact (H b h Hok). Qed.

Lemma does_if (b : bool) c1 c2 ms1 ms2 : does c1 (mret ms1) -> does c2 (mret ms2) ->
  does (if b then c1 else c2) (mret (if b then ms1 else ms2)).
Proof. by destruct b. Qed.

(** A message whose format is known. *)
Ltac prints :=
  solve [eapply does_print; [reflexivity|];
         unfold entry_line, failed, missing_path, say; rewrite ?fmap_app; reflexivity].

Lemma does_entries es : does (print_entries es) (mret (entry_line <$> es)).
Proof.
  induction es as [|e es IH]; [apply does_ret|]. cbn [print_entries]. rewrite fmap_cons.
  apply does_cons; [prints|exact IH].
Qed.

Lemma does_ls path : path <> [] -> does (cmd_ls path) (ls_effect path).
Proof.
  intros Hp. unfold cmd_ls, ls_effect. destruct path as [|c path]; [done|]. apply does_vfs. intros [n es].
  apply does_if; [prints|apply does_entries].
Qed.

Lemma does_cat path : path <> [] -> does (cmd_cat path) (cat_effect path).
Proof.
  intros Hp. unfold cmd_cat, cat_effect. destruct path as [|c path]; [done|]. apply does_vfs. intros [n buf].
  apply does_if; prints.
Qed.

Lemma does_path name op path : path <> [] -> name ∈ [cstr "touch"; cstr "mkdir"; cstr "rm"; cstr "rmdir"] ->
  does (path_command name op path) (path_effect name op path).
Proof.
  intros Hp Hn. unfold path_command, path_effect. destruct path as [|c path]; [done|]. apply does_vfs. intros rc.
  repeat (apply elem_of_cons in Hn as [->|Hn]; [apply does_if; prints|]). by apply not_elem_of_nil in Hn.
Qed.

Lemma does_stat path : path <> [] -> does (cmd_stat path) (stat_effect path).
Proof.
  intros Hp. unfold cmd_stat, stat_effect. destruct path as [|c path]; [done|]. apply does_vfs. intros [rc st].
  destruct (rc <? 0); [prints|]. apply does_lift. intros x. unfold stat_lines.
  repeat first [prints | apply does_cons].
Qed.

Lemma does_help : does help (mret help_lines).
Proof. unfold help, help_lines. repeat first [prints | apply does_cons]. Qed.

Lemma with_arg_does cursor name c e : Z.of_nat (length cursor) <= 255 -> (forall p, p <> [] -> does (c p) (e p)) ->
  does (c []) (mret [missing_path name]) -> does (with_arg cursor c) (on_path name e (words cursor)).
Proof.
  intros Hl Hp H0. unfold with_arg, on_path. destruct (words cursor) as [|w ws] eqn:Ew.
  - by rewrite next_token_none.
  - destruct (next_token_fits cursor 256 w ws Ew ltac:(lia)) as (-> & _ & _ & Hne). by apply Hp.
Qed.

Lemma does_write cursor line : Z.of_nat (length cursor) <= 255 -> cursor = after_word line ->
  does (cmd_write cursor)
    (match words cursor with
     | [] => mret [say (cstr "write: usage: write <path> <text>" ++ NL)]
     | [_] => mret [say (cstr "write: missing text" ++ NL)]
     | path :: _ => write_effect path (skip_spaces (after_word (after_word line)))
     end).
Proof.
  intros Hl <-. unfold cmd_write. destruct (words cursor) as [|w ws] eqn:Ew; [rewrite next_token_none by done; prints|].
  destruct (next_token_fits cursor 256 w ws Ew ltac:(lia)) as (-> & Hws & _ & _). cbn [negb].
  rewrite <- skip_spaces_words in Hws. destruct (skip_spaces (after_word cursor)) as [|c text] eqn:Et.
  - cbn [words] in Hws. subst ws. prints.
  - destruct (words_cons c text (skip_spaces_head _ _ _ Et)) as (v & vs & E). subst ws. rewrite E.
    unfold write_effect. apply does_vfs. intros n. apply does_if; prints.
Qed.

Lemma is_cmd_take cmd name : (length (cstr name) < 63)%nat -> is_cmd (take 63 cmd) name = bool_decide (cmd = cstr name).
Proof.
  intros Hn. unfold is_cmd. apply bool_decide_ext. destruct (decide (length cmd <= 63)%nat); [by rewrite take_ge|].
  split; intros E; [apply (f_equal length) in E; rewrite length_take in E; lia|subst cmd; lia].
Qed.

(** The commands that take a path, given the arguments that follow. *)
Lemma does_command cmd args cursor : words cursor = args -> Z.of_nat (length cursor) <= 255 -> cmd <> cstr "write" ->
  does
    (if bool_decide (cmd = cstr "ls") then
       let '(found, arg, _) := next_token cursor 256 in if negb found then cmd_ls [SLASH] else cmd_ls arg
     else if bool_decide (cmd = cstr "cat") then with_arg cursor cmd_cat
     else if bool_decide (cmd = cstr "touch") then with_arg cursor cmd_touch
     else if bool_decide (cmd = cstr "mkdir") then with_arg cursor cmd_mkdir
     else if bool_decide (cmd = cstr "rm") then with_arg cursor cmd_rm
     else if bool_decide (cmd = cstr "rmdir") then with_arg cursor cmd_rmdir
     else if bool_decide (cmd = cstr "stat") then with_arg cursor cmd_stat
     else if bool_decide (cmd = cstr "help") then help
     else print (cstr "unknown command: '%s' (type 'help')" ++ NL) [VaStr (take 63 cmd)])
    (match List.find (fun c => bool_decide (cmd = cstr c.1)) commands with
     | Some (_, e) => e args
     | None => mret [say (cstr "unknown command: '" ++ take 63 cmd ++ cstr "' (type 'help')" ++ NL)]
     end).
Proof.
  intros Hw Hl Hne. subst args. cbn [commands List.find fst].
  case_bool_decide.
  { destruct (words cursor) as [|w ws] eqn:Ew; [rewrite next_token_none by done; by apply does_ls|].
    destruct (next_token_fits cursor 256 w ws Ew ltac:(lia)) as (-> & _ & _ & Hw). by apply does_ls. }
  case_bool_decide. { apply with_arg_does; [done|apply does_cat|prints]. }
  case_bool_decide. { apply with_arg_does; [done|intros; apply does_path; [done|set_solver]|prints]. }
  case_bool_decide. { apply with_arg_does; [done|intros; apply does_path; [done|set_solver]|prints]. }
  case_bool_decide. { apply with_arg_does; [done|intros; apply does_path; [done|set_solver]|prints]. }
  case_bool_decide. { apply with_arg_does; [done|intros; apply does_path; [done|set_solver]|prints]. }
  case_bool_decide. { apply with_arg_does; [done|apply does_stat|prints]. }
  case_bool_decide; [apply does_help|prints].
Qed.

Lemma does_line line : Z.of_nat (length line) <= 255 -> does (shell_dispatch line) (line_effect line).
Proof.
  intros Hl. unfold shell_dispatch, line_effect. destruct (words line) as [|cmd args] eqn:Ew; [rewrite next_token_none by done; apply does_ret|].
  destruct (next_token_some line 64 cmd args) as (q & -> & Hq & Hws & Ha); [lia|done|]. cbn [negb].
  change (Z.to_nat (64 - 1)) with 63%nat in *. rewrite !is_cmd_take by (cbn; lia).
  destruct (bool_decide (cmd = cstr "write")) eqn:Ewr.
  - apply bool_decide_eq_true in Ewr. subst cmd. cbn in Ha, Hws. specialize (Ha ltac:(lia)).
    rewrite !bool_decide_eq_false_2 by done. rewrite <- Hws. apply does_write; [lia|done].
  - apply bool_decide_eq_false in Ewr.
    destruct (decide (length cmd <= 63)%nat) as [Hc|Hc].
    + destruct (Nat.leb_spec (length cmd) 63); [|lia]. apply does_command; [done|lia|done].
    + assert (Hno : forall n, (length (cstr n) <= 63)%nat -> bool_decide (cmd = cstr n) = false).
      { intros n Hn. apply bool_decide_eq_false_2. intros ->. lia. }
      cbn [commands List.find fst]. rewrite !Hno by (cbn; lia). prints.
Qed.

(** (C28) The shell carries out a command line: its first word selects the command
    and the second is the path ("write" also takes the rest of the line, as it
    is); the command calls the one function of the file library it is for,
    changes the file system as that call does and nothing else, and shows the
    call's result or its error.  An empty line does nothing, a missing path and
    an unknown command are reported without a call.  The limits of the token
    buffers never matter for a line of the shell. *)
Theorem shell_dispatch_correct line h : Z.of_nat (length line) <= 255 -> console_ok (h_con h) ->
  match line_effect line (h_vfs h) with
  | Ret (ms, v) => exists k, display ms (h_con h) = Ret (tt, k) /\ console_ok k /\ shell_dispatch line h = Ret (tt, after v k h)
  | Fault => shell_dispatch line h = Fault
  | Diverge => shell_dispatch line h = Diverge
  end.
Proof. intros Hl Hok. exact (does_line line Hl h Hok). Qed.

(** ** A session

    [inputs] are the keys typed at each prompt, without the Enter that ends them;
    the line "exit" is the last. *)
Definition line_of (evs : list key_event) : list Z := (edit 256 [] evs).1.
Definition echo_of (evs : list key_event) : list Z := (edit 256 [] evs).2.

Fixpoint leaves (inputs : list (list key_event)) : Prop :=
  match inputs with
  | [] => False
  | evs :: inputs => if bool_decide (line_of evs = cstr "exit") then inputs = [] else leaves inputs
  end.

Definition typed_at_prompt (evs : list key_event) : list shown := [say (cstr "fs> "); Typed (echo_of evs ++ [10])].

Fixpoint session (inputs : list (list key_event)) : V (list shown) :=
  match inputs with
  | [] => mret []
  | evs :: inputs =>
      if bool_decide (line_of evs = cstr "exit") then mret (typed_at_prompt evs)
      else
        ms ← line_effect (line_of evs);
        ms' ← session inputs;
        mret (typed_at_prompt evs ++ ms ++ ms')
  end.

Definition keys_of (inputs : list (list key_event)) (enter : key_event) : list key_event :=
  concat ((fun evs => evs ++ [enter]) <$> inputs).

Lemma prompt_run evs e rest h : Forall (fun ev => is_enter ev = false) evs -> is_enter e = true ->
  h_keys h = evs ++ e :: rest -> console_ok (h_con h) ->
  exists k, display (typed_at_prompt evs) (h_con h) = Ret (tt, k) /\ console_ok k /\
    forall f : list Z -> ST (shell F A) unit,
      (print (cstr "fs> ") [];; line ← shell_readline 256; f line) h = f (line_of evs) (with_keys rest (with_con k h)).
Proof.
  intros Hf He Hk Hok.
  destruct (does_print (cstr "fs> ") [] (lits (cstr "fs> ")) _ eq_refl eq_refl h Hok) as (k1 & D1 & Hk1 & E1).
  destruct (shell_readline_run 256 evs e rest (after (h_vfs h) k1 h) Hf He Hk Hk1) as (k & Hem & Hk2 & E2).
  exists k. split; [|split; [done|]].
  - refine (display_app [_] [_] k1 k _ D1 _). cbn [display show]. by pstep (exact Hem).
  - intros f. pstep (exact E1). pstep (exact E2). done.
Qed.

Lemma line_of_fits evs : Z.of_nat (length (line_of evs)) <= 255.
Proof. apply (edit_ok 256 evs []); [cbn; lia|done]. Qed.

Lemma shell_loop_run e rest inputs : forall fuel h, leaves inputs -> Forall (Forall (fun ev => is_enter ev = false)) inputs ->
  is_enter e = true -> (length inputs <= fuel)%nat -> h_keys h = keys_of inputs e ++ rest -> console_ok (h_con h) ->
  match session inputs (h_vfs h) with
  | Ret (ms, v) => exists k, display ms (h_con h) = Ret (tt, k) /\ console_ok k /\
      shell_loop fuel h = Ret (tt, with_keys rest (after v k h))
  | Fault => shell_loop fuel h = Fault
  | Diverge => shell_loop fuel h = Diverge
  end.
Proof.
  induction inputs as [|evs inputs IH]; intros fuel h Hlv Hf He Hfuel Hk Hok; [done|].
  destruct fuel as [|fuel]; [cbn [length] in Hfuel; lia|]. apply Forall_cons in Hf as [Hevs Hf]. cbn [leaves session shell_loop] in *.
  unfold keys_of in Hk. rewrite fmap_cons in Hk. cbn [concat] in Hk. fold (keys_of inputs e) in Hk. rewrite <- !app_assoc in Hk. cbn [app] in Hk.
  destruct (prompt_run evs e _ h Hevs He Hk Hok) as (k1 & D1 & Hk1 & E1). rewrite E1. unfold is_cmd.
  destruct (bool_decide (line_of evs = cstr "exit")).
  - subst inputs. exists k1. split; [done|]. split; [done|]. done.
  - pose proof (does_line (line_of evs) (line_of_fits evs) (with_keys (keys_of inputs e ++ rest) (with_con k1 h)) Hk1) as HL.
    cbn [h_vfs with_keys with_con] in HL. destruct (line_effect (line_of evs) (h_vfs h)) as [[ms v]| |] eqn:El.
    + destruct HL as (k2 & D2 & Hk2 & E2). erewrite (st_bind_Ret (shell_dispatch _)) by exact E2.
      erewrite (st_bind_Ret (line_effect _)) by exact El.
      specialize (IH fuel (after v k2 (with_keys (keys_of inputs e ++ rest) (with_con k1 h))) Hlv Hf He ltac:(cbn [length] in Hfuel; lia) eq_refl Hk2).
      cbn [h_vfs after h_con] in IH. destruct (session inputs v) as [[ms' v']| |] eqn:Es.
      * erewrite (st_bind_Ret (session _)) by exact Es. destruct IH as (k3 & D3 & Hk3 & E3). exists k3. split; [|done].
        eapply display_app; [exact D1|]. by eapply display_app.
      * erewrite (st_bind_Fault (session _)) by exact Es. done.
      * erewrite (st_bind_Diverge (session _)) by exact Es. done.
    + erewrite (st_bind_Fault (line_effect _)) by exact El. by apply st_bind_Fault.
    + erewrite (st_bind_Diverge (line_effect _)) by exact El. by apply st_bind_Diverge.
Qed.

Lemma keys_of_length inputs e : (length inputs <= length (keys_of inputs e))%nat.
Proof.
  unfold keys_of. induction inputs as [|evs inputs IH]; [done|]. rewrite fmap_cons. cbn [concat length].
  rewrite !length_app. cbn [length]. lia.
Qed.

Definition banner : shown := say (NL ++ cstr "=== FS Test Shell (type 'help' for commands) ===" ++ NL).

(** (C29) A session of the shell: with a file system mounted, the lines typed at the
    prompts are edited, echoed and carried out one after the other until the line
    "exit", after which the shell returns with the rest of the keys unread;
    without one it says so and returns, no key read. *)
Theorem fs_test_shell_session inputs e rest h r v0 : leaves inputs -> Forall (Forall (fun ev => is_enter ev = false)) inputs ->
  is_enter e = true -> h_keys h = keys_of inputs e ++ rest -> console_ok (h_con h) ->
  fs_exists (Some [SLASH]) (h_vfs h) = Ret (r, v0) ->
  if r =? 0 then
    exists k, display [say (cstr "[fs-shell] No filesystem mounted. Shell unavailable." ++ NL)] (h_con h) = Ret (tt, k) /\
      fs_test_shell h = Ret (tt, after v0 k h)
  else
    match session inputs v0 with
    | Ret (ms, v) => exists k, display (banner :: ms ++ [say (cstr "[fs-shell] exited." ++ NL)]) (h_con h) = Ret (tt, k) /\
        fs_test_shell h = Ret (tt, with_keys rest (after v k h))
    | Fault => fs_test_shell h = Fault
    | Diverge => fs_test_shell h = Diverge
    end.
Proof.
  intros Hlv Hf He Hk Hok Hex. unfold fs_test_shell.
  assert (E0 : on_vfs (fs_exists (Some [SLASH])) h = Ret (r, after v0 (h_con h) h)) by (unfold on_vfs; by rewrite Hex).
  rewrite (st_bind_Ret _ _ _ _ _ E0). clear E0. destruct (r =? 0).
  - edestruct (does_print (cstr "[fs-shell] No filesystem mounted. Shell unavailable." ++ NL) [] _ _ eq_refl eq_refl
      (after v0 (h_con h) h) Hok) as (k & D & _ & E). exists k. split; [exact D|exact E].
  - edestruct (does_print (NL ++ cstr "=== FS Test Shell (type 'help' for commands) ===" ++ NL) [] _ _ eq_refl eq_refl
      (after v0 (h_con h) h) Hok) as (k1 & D1 & Hk1 & E1). rewrite (st_bind_Ret _ _ _ _ _ E1). clear E1.
    rewrite (st_bind_Ret (st_gets h_keys) _ _ (h_keys h) (after v0 k1 h)) by done.
    pose proof (shell_loop_run e rest inputs (S (length (h_keys h))) (after v0 k1 h) Hlv Hf He) as HL. cbn [h_vfs after h_con] in HL.
    specialize (HL ltac:(rewrite Hk, length_app; pose proof (keys_of_length inputs e); lia) Hk Hk1).
    destruct (session inputs v0) as [[ms v]| |].
    + destruct HL as (k2 & D2 & Hk2 & E2). rewrite (st_bind_Ret _ _ _ _ _ E2). clear E2.
      edestruct (does_print (cstr "[fs-shell] exited." ++ NL) [] _ _ eq_refl eq_refl (with_keys rest (after v k2 h)) Hk2)
        as (k & D & _ & E). exists k. split; [|exact E].
      refine (display_app [_] _ k1 k _ D1 _). eapply display_app; [exact D2|exact D].
    + by apply st_bind_Fault.
    + by apply st_bind_Diverge.
Qed.
End effects.

(** ** Witnesses *)
Definition key (c : Z) : key_event :=
  {| code := KC_A; pressed := true; ascii := c; mods := {| m_shift := false; m_ctrl := false; m_alt := false; m_caps := false |} |}.
Definition enter : key_event :=
  {| code := KC_ENTER; pressed := true; ascii := 10; mods := {| m_shift := false; m_ctrl := false; m_alt := false; m_caps := false |} |}.
Definition bspc : key_event :=
  {| code := KC_BSPC; pressed := true; ascii := 8; mods := {| m_shift := false; m_ctrl := false; m_alt := false; m_caps := false |} |}.
Definition press (s : string) : list key_event := key <$> cstr s.

Definition toy_inputs : list (list key_event) := [press "rm /a"; press "exiy" ++ bspc :: press "t"].
Definition toy_shell (ks : list key_event) : shell (list Z) (gset Z) :=
  {| h_vfs := toy_state; h_con := blank_console; h_keys := ks; t_pass := 0; t_fail := 0 |}.

Lemma next_token_correct_witness :
  (exists q, next_token (cstr "  touch  /a b") 64 = (true, cstr "touch", q) /\ words q = [cstr "/a"; cstr "b"]) /\
  (exists q, next_token (cstr "abcd e") 4 = (true, cstr "abc", q) /\ words q = [cstr "d"; cstr "e"]) /\
  next_token (cstr "   ") 64 = (false, [], cstr "   ").
Proof.
  split; [|split].
  - destruct (next_token_correct (cstr "  touch  /a b") 64 ltac:(lia)) as (q & H1 & _ & H2). by exists q.
  - destruct (next_token_correct (cstr "abcd e") 4 ltac:(lia)) as (q & H1 & _ & H2). by exists q.
  - exact (next_token_correct (cstr "   ") 64 ltac:(lia)).
Defined.

(** "lz", Backspace, "s", Enter. *)
Lemma shell_readline_correct_witness : exists k,
  shell_readline 256 (toy_shell ((press "lz" ++ bspc :: press "s") ++ enter :: press "x")) =
    Ret (cstr "ls", with_keys (press "x") (with_con k (toy_shell ((press "lz" ++ bspc :: press "s") ++ enter :: press "x")))).
Proof.
  destruct (shell_readline_correct 256 (press "lz" ++ bspc :: press "s") enter (press "x")
    (toy_shell ((press "lz" ++ bspc :: press "s") ++ enter :: press "x"))) as (line & sh & k & He & _ & H & _);
    [lia|by repeat constructor|done|done|apply blank_console_ok|].
  injection He as <- <-. exists k. exact H.
Defined.

Lemma shell_dispatch_correct_witness : exists k,
  shell_dispatch (cstr " rm  /a ") (toy_shell []) = Ret (tt, after (final (line_effect (cstr " rm  /a ")) toy_state) k (toy_shell [])) /\
  display [say (cstr "rm: /a -> OK" ++ NL)] blank_console = Ret (tt, k).
Proof.
  assert (E : line_effect (cstr " rm  /a ") toy_state =
    Ret ([say (cstr "rm: /a -> OK" ++ NL)], final (line_effect (cstr " rm  /a ")) toy_state)).
  { refine (run_final (line_effect (cstr " rm  /a ")) toy_state [say (cstr "rm: /a -> OK" ++ NL)] _). vm_compute. reflexivity. }
  pose proof (shell_dispatch_correct (cstr " rm  /a ") (toy_shell []) ltac:(cbn; lia) blank_console_ok) as H.
  cbn [h_vfs toy_shell] in H. rewrite E in H. destruct H as (k & D & _ & R). exists k. split; [exact R|exact D].
Defined.

Lemma fs_test_shell_session_witness : exists k v,
  fs_test_shell (toy_shell (keys_of toy_inputs enter ++ press "x")) =
    Ret (tt, with_keys (press "x") (after v k (toy_shell (keys_of toy_inputs enter ++ press "x")))).
Proof.
  pose proof (fs_test_shell_session toy_inputs enter (press "x") (toy_shell (keys_of toy_inputs enter ++ press "x")) 1
    (final (fs_exists (Some [SLASH])) toy_state)) as H. cbn [h_vfs toy_shell Z.eqb] in H.
  assert (E : session toy_inputs (final (fs_exists (Some [SLASH])) toy_state) =
    Ret (typed_at_prompt (press "rm /a") ++ [say (cstr "rm: /a -> OK" ++ NL)] ++ typed_at_prompt (press "exiy" ++ bspc :: press "t"),
         final (session toy_inputs) (final (fs_exists (Some [SLASH])) toy_state))).
  { refine (run_final (session toy_inputs) (final (fs_exists (Some [SLASH])) toy_state) _ _). vm_compute. reflexivity. }
  rewrite E in H. destruct H as (k & _ & R);
    [reflexivity|by repeat constructor|done|done|apply blank_console_ok
    |refine (run_final (fs_exists (Some [SLASH])) toy_state 1 _); vm_compute; reflexivity|].
  eexists k, _. exact R.
Defined.
