(* ===== verification/Pmm.v ===== *)
(** * Physical page allocator (src/src/kernel/memory/pmm.c)

    The bitmap of used page frames, its initialisation from the multiboot
    memory map, allocation and release of frames.  The bitmap is the array
    [_pmm_bitmap_start] of the linker script (32768 words); the linker symbols
    [_kernel_start] and [_kernel_end] are arguments. *)

From S2P Require Import Prelude.

(** ** Constants of memory-defs.h and pmm.h *)
Definition KERNEL_HIGHER_HALF : Z := 0xC0000000.
Definition MEMORY_SPACE : Z := 0x100000000.
Definition PAGE_SIZE : Z := 4096.
Definition MAX_PAGES : Z := 1048576.
Definition PAGE_TABLE_COUNT : Z := 256.
Definition BITMAP_ENTRY_BITS : Z := 32.
Definition BITMAP_ALL_BITS_SET : Z := 0xFFFFFFFF.
Definition MEMORY_4GB_LIMIT : Z := 0x100000000.

(** [x & ~(PAGE_SIZE - 1)] on 64-bit operands. *)
Definition page_mask64 (z : Z) : Z := Z.land z 0xFFFFFFFFFFFFF000.

(** ** Memory map entries (multiboot.h) *)
Record multiboot_mmap_entry := {
  me_size : Z;
  me_addr : Z;
  me_len : Z;
  me_type : Z
}.

Definition MULTIBOOT_MEMORY_AVAILABLE : Z := 1.

(** The packed structure at byte offset [off] of the map. *)
Definition read_mmap_entry (buf : list Z) (off : Z) : option multiboot_mmap_entry :=
  size ← get_u32 buf off;
  addr ← get_u64 buf (off + 4);
  len ← get_u64 buf (off + 12);
  type ← get_u32 buf (off + 20);
  Some {| me_size := size; me_addr := addr; me_len := len; me_type := type |}.

(** ** State *)
Record pmm := {
  bitmap : list Z;
  usable_end_words : Z;
  last_alloc : Z
}.

Definition with_bitmap (p : pmm) (bm : list Z) : pmm :=
  {| bitmap := bm; usable_end_words := usable_end_words p; last_alloc := last_alloc p |}.

(** ** Bit operations *)
Definition update_word (bm : list Z) (i : Z) (f : Z -> Z) : outcome (list Z) :=
  w ← of_option (znth bm i);
  of_option (zset bm i (f w)).

Definition clear_bit (bit : Z) (bm : list Z) : outcome (list Z) :=
  update_word bm (bit / BITMAP_ENTRY_BITS)
    (fun w => Z.land w (not32 (Z.shiftl 1 (bit mod BITMAP_ENTRY_BITS)))).

Definition set_bit (bit : Z) (bm : list Z) : outcome (list Z) :=
  update_word bm (bit / BITMAP_ENTRY_BITS)
    (fun w => Z.lor w (Z.shiftl 1 (bit mod BITMAP_ENTRY_BITS))).

Definition test_bit (bit : Z) (bm : list Z) : outcome Z :=
  w ← of_option (znth bm (bit / BITMAP_ENTRY_BITS));
  Ret (Z.land (Z.shiftr w (bit mod BITMAP_ENTRY_BITS)) 1).

(** ** Initialisation *)

(** [for (i = 0; i < n; i++) bitmap[i] = BITMAP_ALL_BITS_SET]. *)
Definition fill_words (n : Z) (bm : list Z) : outcome (list Z) :=
  if n <=? Z.of_nat (length bm)
  then Ret (replicate (Z.to_nat n) BITMAP_ALL_BITS_SET ++ drop (Z.to_nat n) bm)
  else Fault.

(** [for (addr = start; addr < end; addr += PAGE_SIZE)] of one available
    region. *)
Fixpoint mark_available (fuel : nat) (addr end_ : Z) (bm : list Z) : outcome (list Z) :=
  match fuel with
  | O => Diverge
  | S fuel =>
      if addr <? end_ then
        bm' ← (if addr <? MEMORY_4GB_LIMIT
               then clear_bit (u32 (addr / PAGE_SIZE)) bm else Ret bm);
        mark_available fuel (u64 (addr + PAGE_SIZE)) end_ bm'
      else Ret bm
  end.

(** Iterations of a page loop over [start, end_), plus the exit test. *)
Definition page_fuel (start end_ : Z) : nat :=
  S (Z.to_nat ((end_ - start + PAGE_SIZE - 1) / PAGE_SIZE)).

Definition region_start (e : multiboot_mmap_entry) : Z :=
  page_mask64 (u64 (me_addr e + PAGE_SIZE - 1)).
Definition region_end (e : multiboot_mmap_entry) : Z :=
  page_mask64 (u64 (me_addr e + me_len e)).

(** One turn of the map loop: the new bitmap and [usable_end]. *)
Definition process_entry (e : multiboot_mmap_entry) (bm : list Z) (usable_end : Z) :
    outcome (list Z * Z) :=
  if me_type e =? MULTIBOOT_MEMORY_AVAILABLE then
    let start := region_start e in
    let end_ := region_end e in
    bm' ← mark_available (page_fuel start end_) start end_ bm;
    Ret (bm', if usable_end <? end_ then end_ else usable_end)
  else Ret (bm, usable_end).

(** [while ((uintptr_t)entry < mmap_end)]: [mmap] is the address of the first
    byte of [buf]. *)
Fixpoint walk_mmap (fuel : nat) (buf : list Z) (mmap entry mmap_end : Z)
    (bm : list Z) (usable_end : Z) : outcome (list Z * Z) :=
  match fuel with
  | O => Diverge
  | S fuel =>
      if entry <? mmap_end then
        e ← of_option (read_mmap_entry buf (entry - mmap));
        '(bm', ue') ← process_entry e bm usable_end;
        walk_mmap fuel buf mmap (entry +! (me_size e + 4)) mmap_end bm' ue'
      else Ret (bm, usable_end)
  end.

(** [for (addr = kernel_start_phys; addr < kernel_end_phys; addr += PAGE_SIZE)]. *)
Fixpoint reserve_range (fuel : nat) (addr end_ : Z) (bm : list Z) : outcome (list Z) :=
  match fuel with
  | O => Diverge
  | S fuel =>
      if addr <? end_ then
        bm' ← set_bit (addr / PAGE_SIZE) bm;
        reserve_range fuel (addr +! PAGE_SIZE) end_ bm'
      else Ret bm
  end.

Definition pages_to_words (usable_end : Z) : Z :=
  let pages := u32 (u64 (usable_end + PAGE_SIZE - 1) / PAGE_SIZE) in
  (pages +! (BITMAP_ENTRY_BITS - 1)) / BITMAP_ENTRY_BITS.

Definition pmm_init (kernel_start kernel_end : Z) (buf : list Z) (mmap length_ : Z)
    (p : pmm) : outcome pmm :=
  let mmap_end := mmap +! length_ in
  bm ← fill_words (MAX_PAGES / BITMAP_ENTRY_BITS) (bitmap p);
  '(bm, usable_end) ← walk_mmap (S (length buf)) buf mmap mmap mmap_end bm 0;
  let kernel_start_phys := kernel_start in
  let kernel_end_phys := kernel_end -! KERNEL_HIGHER_HALF in
  bm ← fill_words (PAGE_TABLE_COUNT / BITMAP_ENTRY_BITS) bm;
  bm ← reserve_range (page_fuel kernel_start_phys kernel_end_phys)
         kernel_start_phys kernel_end_phys bm;
  Ret {| bitmap := bm;
         usable_end_words := pages_to_words usable_end;
         last_alloc := last_alloc p |}.

(** ** Allocation and release *)

(** The body of the [do ... while (i != start)] loop. *)
Fixpoint alloc_scan (fuel : nat) (p : pmm) (i start : Z) : outcome (Z * pmm) :=
  match fuel with
  | O => Diverge
  | S fuel =>
      word ← of_option (znth (bitmap p) i);
      let next :=
        let i1 := i +! 1 in
        let i2 := if usable_end_words p <=? i1 then 0 else i1 in
        if i2 =? start then Ret (0, p) else alloc_scan fuel p i2 start in
      if negb (word =? BITMAP_ALL_BITS_SET) then
        let ffs := builtin_ffs (not32 word) in
        if 0 <? ffs then
          let bit := ffs - 1 in
          bm' ← of_option (zset (bitmap p) i (Z.lor word (Z.shiftl 1 bit)));
          Ret ((i *! BITMAP_ENTRY_BITS +! bit) *! PAGE_SIZE,
               {| bitmap := bm';
                  usable_end_words := usable_end_words p;
                  last_alloc := i |})
        else next
      else next
  end.

Definition pmm_alloc_page (p : pmm) : outcome (Z * pmm) :=
  let i := last_alloc p in
  if usable_end_words p =? 0 then Ret (0, p)
  else alloc_scan (Z.to_nat (usable_end_words p)) p i i.

Definition pmm_free_page (addr : Z) (p : pmm) : outcome pmm :=
  bm' ← clear_bit (u32 (addr / PAGE_SIZE)) (bitmap p);
  Ret (with_bitmap p bm').

(** ** Abstraction: which frames are in use *)
Definition bit_at (bm : list Z) (n : Z) : bool :=
  match znth bm (n / 32) with
  | Some w => Z.testbit w (n mod 32)
  | None => true
  end.

Definition page_used (p : pmm) (n : Z) : bool := bit_at (bitmap p) n.

(** Frames the scan of [pmm_alloc_page] covers. *)
Definition frame_limit (p : pmm) : Z := 32 * usable_end_words p.

Record pmm_wf (p : pmm) : Prop := {
  wf_words : Forall is_u32 (bitmap p);
  wf_usable : 0 <= usable_end_words p <= Z.of_nat (length (bitmap p));
  wf_size : Z.of_nat (length (bitmap p)) <= 32768;
  wf_last : last_alloc p = 0 \/ 0 <= last_alloc p < usable_end_words p
}.

(** ** Bit-level lemmas *)
Lemma znth_insert (bm : list Z) i j x :
  0 <= i < Z.of_nat (length bm) ->
  znth (<[Z.to_nat i := x]> bm) j = if decide (j = i) then Some x else znth bm j.
Proof.
  intros Hi. unfold znth. destruct (decide (j = i)) as [->|].
  - case_bool; [|lia]. rewrite list_lookup_insert_eq; [done|lia].
  - case_bool; [|done]. rewrite list_lookup_insert_ne; [done|lia].
Qed.

Lemma bit_at_insert bm i x n :
  0 <= i < Z.of_nat (length bm) ->
  bit_at (<[Z.to_nat i := x]> bm) n =
    if decide (n / 32 = i) then Z.testbit x (n mod 32) else bit_at bm n.
Proof. intros Hi. unfold bit_at. rewrite znth_insert by done. by destruct (decide _). Qed.

Lemma update_word_spec bm i f :
  Forall is_u32 bm -> 0 <= i < Z.of_nat (length bm) ->
  (forall w, is_u32 w -> is_u32 (f w)) ->
  exists w, znth bm i = Some w /\ is_u32 w /\
    update_word bm i f = Ret (<[Z.to_nat i := f w]> bm) /\
    Forall is_u32 (<[Z.to_nat i := f w]> bm).
Proof.
  intros Hf Hi Hu. destruct (znth_Some bm i Hi) as [w Hw]. exists w.
  destruct (znth_inv _ _ _ Hw) as [_ Hl].
  assert (is_u32 w) by (eapply Forall_lookup_1; eauto).
  split_and!; [done|done| |].
  - unfold update_word. rewrite Hw. simpl. by rewrite zset_Some.
  - apply Forall_insert; auto.
Qed.

Lemma is_u32_land a b : is_u32 a -> 0 <= b -> is_u32 (Z.land a b).
Proof.
  intros Ha Hb. apply is_u32_bits; [apply Z.land_nonneg; lia|].
  intros i Hi. rewrite Z.land_spec, (testbit_lt_pow2 a 32); [done|exact Ha|lia].
Qed.

Lemma is_u32_lor a b : is_u32 a -> is_u32 b -> is_u32 (Z.lor a b).
Proof.
  intros Ha Hb. unfold is_u32 in *. apply is_u32_bits; [apply Z.lor_nonneg; lia|].
  intros i Hi. rewrite Z.lor_spec, (testbit_lt_pow2 a 32), (testbit_lt_pow2 b 32);
    (done || lia || idtac). all: cbn; lia.
Qed.

Lemma is_u32_bit k : 0 <= k < 32 -> is_u32 (Z.shiftl 1 k).
Proof.
  intros Hk. apply is_u32_bits.
  - apply Z.shiftl_nonneg. lia.
  - intros i Hi. rewrite shiftl_1_testbit by lia. lia.
Qed.

#[export] Hint Resolve is_u32_land is_u32_lor is_u32_bit : kernel.

(** Both bit updates, as one statement: [clear_bit] and [set_bit] change
    exactly the bit they name. *)
Lemma clear_bit_spec bm n :
  Forall is_u32 bm -> 0 <= n < 32 * Z.of_nat (length bm) ->
  exists bm', clear_bit n bm = Ret bm' /\ Forall is_u32 bm' /\
    length bm' = length bm /\
    forall m, bit_at bm' m = bit_at bm m && negb (m =? n).
Proof.
  intros Hf Hn.
  destruct (update_word_spec bm (n / 32)
    (fun w => Z.land w (not32 (Z.shiftl 1 (n mod 32))))) as (w & Hw & Hu & He & Hf').
  { done. } { zlia. }
  { intros. apply is_u32_land; [done|]. apply u32_range. }
  eexists. split_and!; [exact He|done|apply length_insert|].
  intros m. rewrite bit_at_insert by zlia.
  destruct (decide (m / 32 = n / 32)) as [Hd|Hd].
  - unfold bit_at. rewrite Hd, Hw, Z.land_spec, not32_testbit, shiftl_1_testbit
      by first [zlia | apply is_u32_bit; zlia].
    destruct (Z.testbit w (m mod 32)); simpl; zlia.
  - destruct (Z.eqb_spec m n) as [->|]; [done|]. by rewrite andb_true_r.
Qed.

Lemma set_bit_spec bm n :
  Forall is_u32 bm -> 0 <= n < 32 * Z.of_nat (length bm) ->
  exists bm', set_bit n bm = Ret bm' /\ Forall is_u32 bm' /\
    length bm' = length bm /\
    forall m, bit_at bm' m = bit_at bm m || (m =? n).
Proof.
  intros Hf Hn.
  destruct (update_word_spec bm (n / 32)
    (fun w => Z.lor w (Z.shiftl 1 (n mod 32)))) as (w & Hw & Hu & He & Hf').
  { done. } { zlia. }
  { intros. apply is_u32_lor; [done|]. apply is_u32_bit. zlia. }
  eexists. split_and!; [exact He|done|apply length_insert|].
  intros m. rewrite bit_at_insert by zlia.
  destruct (decide (m / 32 = n / 32)) as [Hd|Hd].
  - unfold bit_at. rewrite Hd, Hw, Z.lor_spec, shiftl_1_testbit by zlia.
    destruct (Z.testbit w (m mod 32)); simpl; zlia.
  - destruct (Z.eqb_spec m n) as [->|]; [done|]. by rewrite orb_false_r.
Qed.

Lemma test_bit_spec bm n :
  0 <= n < 32 * Z.of_nat (length bm) -> test_bit n bm = Ret (Z.b2z (bit_at bm n)).
Proof.
  intros Hn. unfold test_bit, bit_at, BITMAP_ENTRY_BITS.
  destruct (znth_Some bm (n / 32)) as [w ->]; [zlia|]. simpl. f_equal.
  apply Z.bits_inj'. intros i Hi.
  rewrite Z.land_spec, Z.shiftr_spec by lia.
  destruct (decide (i = 0)) as [->|].
  - rewrite Z.b2z_bit0, andb_true_r. done.
  - rewrite (testbit_lt_pow2 1 1), andb_false_r by lia.
    symmetry. apply (testbit_lt_pow2 _ 1); [|lia]. destruct (Z.testbit _ _); simpl; lia.
Qed.

(** A word that is not all ones has a first zero bit, which [ffs] finds. *)
Lemma ffs_zero_bit w :
  is_u32 w -> w <> BITMAP_ALL_BITS_SET ->
  0 < builtin_ffs (not32 w) /\
  0 <= builtin_ffs (not32 w) - 1 < 32 /\
  Z.testbit w (builtin_ffs (not32 w) - 1) = false.
Proof.
  intros Hw Hne.
  assert (Hnot : not32 w = 4294967295 - w).
  { unfold not32, u32, is_u32 in *. rewrite Z.lnot_eq_pred_opp. zlia. }
  destruct (builtin_ffs_spec (not32 w)) as [Hp Hb].
  { rewrite Hnot. unfold is_u32, BITMAP_ALL_BITS_SET in *. lia. }
  rewrite not32_testbit in Hb by (lia || done).
  apply andb_true_iff in Hb as [Hlt Hn].
  split_and!; [lia|lia|lia|]. by apply negb_true_iff in Hn.
Qed.

Lemma all_ones_bit m : 0 <= m -> Z.testbit BITMAP_ALL_BITS_SET (m mod 32) = true.
Proof.
  intros Hm. change BITMAP_ALL_BITS_SET with (Z.ones 32).
  apply Z.ones_spec_low. zlia.
Qed.

(** ** The allocation scan *)

(** Words still to be examined when the scan that began at [start] is at [i]. *)
Definition scan_rest (start U i j : Z) : Prop :=
  if start <=? i then i <= j < U \/ 0 <= j < start else i <= j < start.

Definition scan_left (start U i : Z) : Z :=
  if start <=? i then U - i + start else start - i.

(** What one call of the scan establishes. *)
Definition scan_result (p : pmm) (rest : Z -> Prop) (r : Z) (p' : pmm) : Prop :=
  (exists j w bit, rest j /\ znth (bitmap p) j = Some w /\ 0 <= bit < 32 /\
     Z.testbit w bit = false /\
     r = (j * 32 + bit) * 4096 /\
     p' = {| bitmap := <[Z.to_nat j := Z.lor w (Z.shiftl 1 bit)]> (bitmap p);
             usable_end_words := usable_end_words p; last_alloc := j |}) \/
  (r = 0 /\ p' = p /\
   forall j, rest j -> znth (bitmap p) j = Some BITMAP_ALL_BITS_SET).

Lemma alloc_scan_spec fuel p i start :
  pmm_wf p -> 0 <= i < usable_end_words p -> 0 <= start < usable_end_words p ->
  scan_left start (usable_end_words p) i <= Z.of_nat fuel ->
  exists r p', alloc_scan fuel p i start = Ret (r, p') /\
    scan_result p (scan_rest start (usable_end_words p) i) r p'.
Proof.
  intros [Hf Hus Hsz _]. revert i.
  induction fuel as [|fuel IH]; intros i Hi Hs Hfuel.
  { unfold scan_left in Hfuel. case_bool; lia. }
  cbn [alloc_scan]. destruct (znth_Some (bitmap p) i) as [w Hw]; [lia|].
  destruct (znth_inv _ _ _ Hw) as [_ Hl].
  assert (Hu : is_u32 w) by (eapply Forall_lookup_1; eauto).
  rewrite Hw. cbn [mbind outcome_bind of_option].
  destruct (Z.eqb_spec w BITMAP_ALL_BITS_SET) as [->|Hne]; cbn [negb].
  - (* the word is full: go on *)
    rewrite (u32_small (i + 1)) by (unfold is_u32; lia).
    set (i2 := if usable_end_words p <=? i + 1 then 0 else i + 1).
    destruct (Z.eqb_spec i2 start) as [He|He].
    + eexists _, _. split; [done|]. right. split_and!; [done|done|].
      intros j Hj. assert (j = i) as ->; [|done].
      unfold scan_rest in Hj. subst i2. case_bool; case_bool; lia.
    + destruct (IH i2) as (r & p' & Hr & Hres).
      { subst i2. case_bool; lia. } { done. }
      { unfold scan_left in *. subst i2. repeat case_bool; lia. }
      exists r, p'. split; [done|].
      assert (Hrest : forall j, scan_rest start (usable_end_words p) i j ->
        j = i \/ scan_rest start (usable_end_words p) i2 j).
      { intros j. unfold scan_rest. subst i2. repeat case_bool; lia. }
      destruct Hres as [(j & w' & b & Hj & Hx)|(-> & -> & Hall)]; [left|right].
      * exists j, w', b. split; [|done].
        revert Hj. unfold scan_rest. subst i2. repeat case_bool; lia.
      * split_and!; [done|done|]. intros j Hj.
        destruct (Hrest j Hj) as [->|]; [done|auto].
  - (* a free bit in this word *)
    destruct (ffs_zero_bit w Hu Hne) as (Hp & Hb & Hz).
    destruct (Z.ltb_spec 0 (builtin_ffs (not32 w))); [|lia].
    rewrite zset_Some by lia. cbn [mbind outcome_bind of_option].
    eexists _, _. split; [done|]. left. exists i, w, (builtin_ffs (not32 w) - 1).
    split_and!; try done; try lia.
    + unfold scan_rest. case_bool; lia.
    + unfold BITMAP_ENTRY_BITS, PAGE_SIZE.
      rewrite (u32_small (i * 32)) by (unfold is_u32; lia).
      rewrite (u32_small (i * 32 + _)) by (unfold is_u32; lia).
      apply u32_small. unfold is_u32; lia.
Qed.

(** The contract of [pmm_alloc_page]: the frame it hands out was free and is
    now the only new used one, or there was none. *)
Definition alloc_outcome (p : pmm) (r : Z) (p' : pmm) : Prop :=
  (exists n, r = n * 4096 /\ 0 <= n < frame_limit p /\ page_used p n = false /\
     forall m, 0 <= m -> page_used p' m = page_used p m || (m =? n)) \/
  (r = 0 /\ p' = p /\ forall n, 0 <= n < frame_limit p -> page_used p n = true).

Lemma scan_result_outcome p r p' (rest : Z -> Prop) :
  pmm_wf p ->
  (forall j, rest j <-> 0 <= j < usable_end_words p) ->
  scan_result p rest r p' -> alloc_outcome p r p' /\ pmm_wf p' /\
    usable_end_words p' = usable_end_words p.
Proof.
  intros [Hf Hus Hsz Hla] Hrest
    [(j & w & bit & Hj & Hw & Hb & Hz & -> & ->)|(-> & -> & Hall)].
  - rewrite Hrest in Hj. split_and!; [left; exists (j * 32 + bit)| |done].
    + assert (Hdiv : (j * 32 + bit) / 32 = j) by zlia.
      assert (Hmod : (j * 32 + bit) mod 32 = bit) by zlia.
      unfold frame_limit, page_used. split_and!; [done|lia|lia| |].
      * unfold bit_at. by rewrite Hdiv, Hw, Hmod.
      * intros m Hm. simpl. rewrite bit_at_insert by lia.
        destruct (decide (m / 32 = j)) as [Hd|Hd].
        -- unfold bit_at. rewrite Hd, Hw, Z.lor_spec, shiftl_1_testbit by lia.
           destruct (Z.testbit w (m mod 32)); simpl; zlia.
        -- destruct (Z.eqb_spec m (j * 32 + bit)); [zlia|]. by rewrite orb_false_r.
    + destruct (znth_inv _ _ _ Hw) as [_ Hl]. split; simpl.
      * apply Forall_insert; [done|].
        apply is_u32_lor; [by eapply Forall_lookup_1|by apply is_u32_bit].
      * rewrite length_insert. lia.
      * rewrite length_insert. lia.
      * lia.
  - split_and!; [right|by split|done]. split_and!; [done|done|].
    intros n Hn. unfold page_used, bit_at, frame_limit in *.
    rewrite Hall by (rewrite Hrest; zlia). apply all_ones_bit. lia.
Qed.

Lemma pmm_alloc_page_spec p : pmm_wf p ->
  exists r p', pmm_alloc_page p = Ret (r, p') /\ alloc_outcome p r p' /\ pmm_wf p' /\
    usable_end_words p' = usable_end_words p.
Proof.
  intros Hwf. pose proof (wf_usable p Hwf) as Hus. unfold pmm_alloc_page.
  destruct (Z.eqb_spec (usable_end_words p) 0) as [H0|H0].
  - exists 0, p. split_and!; [done| |done|done]. right. split_and!; [done|done|].
    unfold frame_limit. lia.
  - assert (Hla : 0 <= last_alloc p < usable_end_words p)
      by (destruct (wf_last p Hwf); lia).
    destruct (alloc_scan_spec (Z.to_nat (usable_end_words p)) p
      (last_alloc p) (last_alloc p)) as (r & p' & Hr & Hres); try done.
    { unfold scan_left. case_bool; lia. }
    exists r, p'. split; [done|].
    eapply scan_result_outcome; [done| |done].
    intros j. unfold scan_rest. case_bool; lia.
Qed.

Lemma pmm_free_page_spec p n :
  pmm_wf p -> 0 <= n < 32 * Z.of_nat (length (bitmap p)) ->
  exists p', pmm_free_page (n * 4096) p = Ret p' /\ pmm_wf p' /\
    usable_end_words p' = usable_end_words p /\
    forall m, page_used p' m = page_used p m && negb (m =? n).
Proof.
  intros [Hf Hus Hsz Hla] Hn.
  destruct (clear_bit_spec (bitmap p) n) as (bm & Hc & Hf' & Hl & Hb); [done|lia|].
  exists (with_bitmap p bm). unfold pmm_free_page, PAGE_SIZE.
  rewrite Z.div_mul, (u32_small n) by (unfold is_u32; lia). rewrite Hc.
  split_and!; [done| |done|done]. split; simpl; rewrite ?Hl; done.
Qed.

(** ** Runs of the allocator

    The state is paired with the list of frames handed out and not yet given
    back; only such frames are freed. *)
Inductive pmm_step : pmm * list Z -> pmm * list Z -> Prop :=
| step_alloc p live r p' :
    pmm_alloc_page p = Ret (r, p') -> r <> 0 -> pmm_step (p, live) (p', r :: live)
| step_exhausted p live p' :
    pmm_alloc_page p = Ret (0, p') -> pmm_step (p, live) (p', live)
| step_free p live1 r live2 p' :
    pmm_free_page r p = Ret p' -> pmm_step (p, live1 ++ r :: live2) (p', live1 ++ live2).

Record run_inv (p0 p : pmm) (live : list Z) : Prop := {
  ri_wf : pmm_wf p;
  ri_limit : usable_end_words p = usable_end_words p0;
  ri_nodup : NoDup live;
  ri_live : forall r, r ∈ live ->
    exists n, r = n * 4096 /\ 0 < n < frame_limit p0 /\ page_used p0 n = false;
  ri_used : forall n, 0 <= n ->
    page_used p n = page_used p0 n || bool_decide (n * 4096 ∈ live)
}.

Lemma run_inv_init p0 : pmm_wf p0 -> run_inv p0 p0 [].
Proof.
  intros Hwf. split; [done|done|constructor| |].
  - intros r Hr. by apply not_elem_of_nil in Hr.
  - intros n _. rewrite bool_decide_eq_false_2 by apply not_elem_of_nil.
    by rewrite orb_false_r.
Qed.

Lemma run_inv_step p0 s s' :
  page_used p0 0 = true -> pmm_step s s' ->
  run_inv p0 (fst s) (snd s) -> run_inv p0 (fst s') (snd s').
Proof.
  intros H0 Hstep [Hwf Hlim Hnd Hlive Hused].
  destruct Hstep as [p live r p' Ha Hr|p live p' Ha|p live1 r live2 p' Hf];
    cbn [fst snd] in *.
  - destruct (pmm_alloc_page_spec p Hwf) as (r2 & p2 & Ha2 & Ho & Hwf' & Hus).
    rewrite Ha in Ha2. injection Ha2 as -> ->.
    destruct Ho as [(n & -> & Hn & Hfree & Hnew)|(-> & _ & _)]; [|lia].
    rewrite Hused, orb_false_iff, bool_decide_eq_false in Hfree by lia.
    destruct Hfree as [Hfree Hnin].
    assert (Hn0 : 0 < n < frame_limit p0).
    { unfold frame_limit in *. rewrite <- Hlim. split; [|lia].
      destruct (decide (n = 0)) as [->|]; [congruence|lia]. }
    split; [done|congruence|by constructor| |].
    + intros r [->|Hin]%elem_of_cons; [by exists n|auto].
    + intros m Hm. rewrite Hnew, Hused, <- orb_assoc by lia. f_equal.
      destruct (Z.eqb_spec m n) as [->|Hne].
      * rewrite orb_true_r. symmetry. apply bool_decide_eq_true. by left.
      * rewrite orb_false_r. apply bool_decide_ext.
        rewrite elem_of_cons. split; [by right|intros [|]; [lia|done]].
  - destruct (pmm_alloc_page_spec p Hwf) as (r2 & p2 & Ha2 & Ho & Hwf' & Hus).
    rewrite Ha in Ha2. injection Ha2 as <- <-.
    destruct Ho as [(n & Hn0 & _ & Hfree & _)|(_ & -> & _)]; [|done].
    assert (n = 0) as -> by lia. rewrite Hused, H0 in Hfree by lia. done.
  - destruct (Hlive r) as (n & -> & Hn & Hp0).
    { apply elem_of_app. right. by left. }
    destruct (pmm_free_page_spec p n) as (p2 & Hf2 & Hwf' & Hus & Hnew); [done| |].
    { pose proof (wf_usable p Hwf). unfold frame_limit in Hn. lia. }
    rewrite Hf in Hf2. injection Hf2 as <-.
    apply list.NoDup_app in Hnd as (Hnd1 & Hdis & Hnd2).
    apply list.NoDup_cons in Hnd2 as [Hnin Hnd2].
    split; [done|congruence| | |].
    + apply list.NoDup_app. split_and!; [done| |done].
      intros x Hx Hx2. apply (Hdis x Hx). by right.
    + intros x Hx. apply Hlive. apply elem_of_app in Hx as [|]; apply elem_of_app;
        [by left|right; by right].
    + intros m Hm. rewrite Hnew, Hused by done.
      destruct (Z.eqb_spec m n) as [->|Hne].
      * rewrite andb_false_r, Hp0. symmetry. apply bool_decide_eq_false.
        rewrite elem_of_app. intros [Hx|Hx]; [|done]. apply (Hdis _ Hx). by left.
      * rewrite andb_true_r. f_equal. apply bool_decide_ext.
        rewrite !elem_of_app, elem_of_cons. intuition lia.
Qed.

(** ** Initialisation lemmas *)
Lemma page_mask64_spec z :
  0 <= z < 18446744073709551616 -> page_mask64 z = z / 4096 * 4096.
Proof.
  intros Hz. unfold page_mask64.
  change 4096 with (2 ^ 12). rewrite <- Z.shiftr_div_pow2, <- Z.shiftl_mul_pow2 by lia.
  apply Z.bits_inj'. intros i Hi.
  rewrite Z.land_spec, Z.shiftl_spec by lia.
  change 0xFFFFFFFFFFFFF000 with (Z.shiftl (Z.ones 52) 12).
  rewrite Z.shiftl_spec by lia.
  destruct (decide (i < 12)).
  - rewrite !(Z.testbit_neg_r _ (i - 12)) by lia. apply andb_false_r.
  - rewrite Z.shiftr_spec by lia. replace (i - 12 + 12) with i by lia.
    rewrite Z.testbit_ones by lia.
    destruct (decide (i < 64)).
    + replace (i - 12 <? 52) with true by lia. replace (0 <=? i - 12) with true by lia.
      by rewrite andb_true_r.
    + rewrite (testbit_lt_pow2 z 64); [done|exact Hz|lia].
Qed.

Lemma fill_words_spec bm n :
  0 <= n <= Z.of_nat (length bm) -> Forall is_u32 bm ->
  exists bm', fill_words n bm = Ret bm' /\ length bm' = length bm /\
    Forall is_u32 bm' /\
    forall m, 0 <= m < 32 * Z.of_nat (length bm) ->
      bit_at bm' m = bit_at bm m || (m <? 32 * n).
Proof.
  intros Hn Hf. unfold fill_words. case_bool; [|lia]. eexists. split_and!; [done| | |].
  - rewrite length_app, length_replicate, length_drop. lia.
  - apply Forall_app. split; [|by apply Forall_drop].
    apply Forall_replicate. unfold is_u32, BITMAP_ALL_BITS_SET. lia.
  - intros m Hm. unfold bit_at, znth. case_bool; [|zlia].
    destruct (Z.ltb_spec m (32 * n)).
    + rewrite lookup_app_l by (rewrite length_replicate; zlia).
      rewrite lookup_replicate_2 by zlia. rewrite all_ones_bit by lia.
      by rewrite orb_true_r.
    + rewrite lookup_app_r; rewrite length_replicate; [|zlia].
      rewrite lookup_drop, orb_false_r.
      replace (Z.to_nat n + (Z.to_nat (m / 32) - Z.to_nat n))%nat
        with (Z.to_nat (m / 32)) by zlia. done.
Qed.

Lemma mark_available_spec fuel s e bm :
  0 <= s -> 4096 * e < 18446744073709551616 ->
  Forall is_u32 bm -> Z.of_nat (length bm) = 32768 ->
  Z.max 0 (e - s) < Z.of_nat fuel ->
  exists bm', mark_available fuel (4096 * s) (4096 * e) bm = Ret bm' /\
    length bm' = length bm /\ Forall is_u32 bm' /\
    forall m, 0 <= m < MAX_PAGES ->
      bit_at bm' m = bit_at bm m && negb ((s <=? m) && (m <? e)).
Proof.
  revert s bm. induction fuel as [|fuel IH]; intros s bm Hs He Hf Hl Hfuel.
  { lia. }
  cbn [mark_available]. destruct (Z.ltb_spec (4096 * s) (4096 * e)).
  2: { exists bm. split_and!; [done..|]. intros m Hm.
       replace ((s <=? m) && (m <? e)) with false by lia. by rewrite andb_true_r. }
  unfold u64, PAGE_SIZE, MEMORY_4GB_LIMIT in *.
  replace ((4096 * s + 4096) mod 18446744073709551616) with (4096 * (s + 1))
    by (rewrite Z.mod_small; lia).
  destruct (Z.ltb_spec (4096 * s) 4294967296).
  - replace (4096 * s / 4096) with s by zlia. rewrite (u32_small s) by (unfold is_u32; lia).
    destruct (clear_bit_spec bm s) as (bm1 & -> & Hf1 & Hl1 & Hb1); [done|lia|].
    cbn [mbind outcome_bind].
    destruct (IH (s + 1) bm1) as (bm2 & -> & Hl2 & Hf2 & Hb2); try done; try lia.
    exists bm2. split_and!; [done|lia|done|]. intros m Hm.
    rewrite Hb2, Hb1, <- andb_assoc by done. f_equal. lia.
  - cbn [mbind outcome_bind].
    destruct (IH (s + 1) bm) as (bm2 & -> & Hl2 & Hf2 & Hb2); try done; try lia.
    exists bm2. split_and!; [done|lia|done|]. intros m Hm.
    rewrite Hb2 by done. f_equal. unfold MAX_PAGES in Hm. lia.
Qed.

Lemma reserve_range_spec fuel s e bm :
  0 <= s -> 0 <= e -> e + 4096 < 4294967296 -> Forall is_u32 bm ->
  Z.of_nat (length bm) = 32768 -> Z.max 0 ((e + 4095) / 4096 - s) < Z.of_nat fuel ->
  4096 * s < 4294967296 ->
  exists bm', reserve_range fuel (4096 * s) e bm = Ret bm' /\
    length bm' = length bm /\ Forall is_u32 bm' /\
    forall m, bit_at bm' m = bit_at bm m || ((s <=? m) && (4096 * m <? e)).
Proof.
  revert s bm. induction fuel as [|fuel IH]; intros s bm Hs He0 He Hf Hl Hfuel Hs2.
  { lia. }
  cbn [reserve_range]. destruct (Z.ltb_spec (4096 * s) e).
  2: { exists bm. split_and!; [done..|]. intros m.
       replace ((s <=? m) && (4096 * m <? e)) with false by lia. by rewrite orb_false_r. }
  unfold PAGE_SIZE. replace (4096 * s / 4096) with s by zlia.
  destruct (set_bit_spec bm s) as (bm1 & -> & Hf1 & Hl1 & Hb1); [done|lia|].
  cbn [mbind outcome_bind].
  rewrite (u32_small (4096 * s + 4096)) by (unfold is_u32; lia).
  replace (4096 * s + 4096) with (4096 * (s + 1)) by lia.
  destruct (IH (s + 1) bm1) as (bm2 & -> & Hl2 & Hf2 & Hb2); try done; try zlia.
  exists bm2. split_and!; [done|lia|done|]. intros m.
  rewrite Hb2, Hb1, <- orb_assoc. f_equal. lia.
Qed.

(** *** The memory map as the boot loader lays it out *)

(** One entry in memory: the packed structure, then the bytes its [size]
    field announces beyond the fields. *)
Definition entry_bytes (e : multiboot_mmap_entry) : list Z :=
  le_bytes 4 (me_size e) ++ le_bytes 8 (me_addr e) ++ le_bytes 8 (me_len e) ++
  le_bytes 4 (me_type e) ++ replicate (Z.to_nat (me_size e - 20)) 0.

Record entry_ok (e : multiboot_mmap_entry) : Prop := {
  eo_size : 20 <= me_size e < 4294967296;
  eo_addr : 0 <= me_addr e;
  eo_len : 0 <= me_len e;
  eo_end : me_addr e + me_len e + 4096 < 18446744073709551616;
  eo_type : is_u32 (me_type e)
}.

(** Frame [n] lies wholly inside an available region. *)
Definition frame_available (n : Z) (e : multiboot_mmap_entry) : bool :=
  (me_type e =? MULTIBOOT_MEMORY_AVAILABLE) &&
  (me_addr e <=? n * PAGE_SIZE) && ((n + 1) * PAGE_SIZE <=? me_addr e + me_len e).

Definition usable_end_of (es : list multiboot_mmap_entry) : Z :=
  foldl (fun ue e => if me_type e =? MULTIBOOT_MEMORY_AVAILABLE
                     then Z.max (region_end e) ue else ue) 0 es.

Lemma length_entry_bytes e :
  entry_ok e -> Z.of_nat (length (entry_bytes e)) = me_size e + 4.
Proof.
  intros [Hs _ _ _ _]. unfold entry_bytes.
  rewrite !length_app, !length_le_bytes, length_replicate. lia.
Qed.

Lemma read_entry_app pre e post :
  entry_ok e ->
  read_mmap_entry (pre ++ entry_bytes e ++ post) (Z.of_nat (length pre)) = Some e.
Proof.
  intros [Hs Ha Hl He Ht]. unfold is_u32 in Ht. unfold read_mmap_entry, entry_bytes.
  rewrite <- !app_assoc. rewrite get_le_app by lia. cbn [mbind option_bind].
  assert (Hat : forall m n v l1 l2, length l1 = m -> 0 <= v < 256 ^ Z.of_nat n ->
    get_le n (pre ++ l1 ++ le_bytes n v ++ l2) (Z.of_nat (length pre) + Z.of_nat m) = Some v).
  { intros m n v l1 l2 <- Hv. rewrite app_assoc, <- Nat2Z.inj_add, <- length_app.
    by apply get_le_app. }
  rewrite (Hat 4%nat 8%nat) by (by rewrite ?length_le_bytes || lia). cbn [mbind option_bind].
  rewrite (app_assoc (le_bytes 4 _) (le_bytes 8 _)).
  rewrite (Hat 12%nat 8%nat) by (by rewrite ?length_app, ?length_le_bytes || lia).
  cbn [mbind option_bind].
  rewrite (app_assoc (le_bytes 4 _ ++ _) (le_bytes 8 _)).
  rewrite (Hat 20%nat 4%nat) by (by rewrite ?length_app, ?length_le_bytes || lia).
  cbn [mbind option_bind]. by destruct e.
Qed.

Lemma region_bounds e : entry_ok e ->
  region_start e = 4096 * ((me_addr e + 4095) / 4096) /\
  region_end e = 4096 * ((me_addr e + me_len e) / 4096).
Proof.
  intros [_ Ha Hl He _]. unfold region_start, region_end, u64, PAGE_SIZE.
  rewrite !Z.mod_small by lia. rewrite !page_mask64_spec by lia.
  replace (me_addr e + 4096 - 1) with (me_addr e + 4095) by lia. lia.
Qed.

Lemma process_entry_spec e bm ue :
  entry_ok e -> Forall is_u32 bm -> Z.of_nat (length bm) = 32768 ->
  exists bm', process_entry e bm ue =
      Ret (bm', if me_type e =? MULTIBOOT_MEMORY_AVAILABLE
                then Z.max (region_end e) ue else ue) /\
    length bm' = length bm /\ Forall is_u32 bm' /\
    forall m, 0 <= m < MAX_PAGES -> bit_at bm' m = bit_at bm m && negb (frame_available m e).
Proof.
  intros Ho Hf Hl. destruct (region_bounds e Ho) as [Hrs Hre]. destruct Ho as [Hs Ha Hln He Ht].
  unfold process_entry, frame_available.
  destruct (Z.eqb_spec (me_type e) MULTIBOOT_MEMORY_AVAILABLE); cbn [andb].
  2: { exists bm. split_and!; [done..|]. intros. by rewrite andb_true_r. }
  destruct (mark_available_spec (page_fuel (region_start e) (region_end e))
    ((me_addr e + 4095) / 4096) ((me_addr e + me_len e) / 4096) bm)
    as (bm' & Hm & Hl' & Hf' & Hb'); try done; try zlia.
  { rewrite Hrs, Hre. unfold page_fuel, PAGE_SIZE. zlia. }
  exists bm'. rewrite <- Hrs, <- Hre in Hm. rewrite Hm. cbn [mbind outcome_bind].
  split_and!; [|done|done|].
  - do 2 f_equal. case_bool; lia.
  - intros m Hm2. rewrite Hb' by done. unfold PAGE_SIZE. do 3 f_equal.
    + clear - Ha. destruct (Z.leb_spec (me_addr e) (m * 4096)); zlia.
    + clear - Ha Hln.
      destruct (Z.leb_spec ((m + 1) * 4096) (me_addr e + me_len e)); zlia.
Qed.

Lemma walk_mmap_spec es : forall fuel pre bm ue mmap,
  Forall entry_ok es -> Forall is_u32 bm -> Z.of_nat (length bm) = 32768 ->
  (length es < fuel)%nat -> 0 <= mmap ->
  let buf := pre ++ concat (entry_bytes <$> es) in
  mmap + Z.of_nat (length buf) < 4294967296 ->
  exists bm', walk_mmap fuel buf mmap (mmap + Z.of_nat (length pre))
      (mmap + Z.of_nat (length buf)) bm ue
      = Ret (bm', foldl (fun ue e => if me_type e =? MULTIBOOT_MEMORY_AVAILABLE
                     then Z.max (region_end e) ue else ue) ue es) /\
    length bm' = length bm /\ Forall is_u32 bm' /\
    forall m, 0 <= m < MAX_PAGES ->
      bit_at bm' m = bit_at bm m && negb (existsb (frame_available m) es).
Proof.
  induction es as [|e es IH]; intros fuel pre bm ue mmap Hes Hf Hl Hfuel Hmm buf Hbuf.
  - destruct fuel as [|fuel]; [lia|]. cbn [walk_mmap]. subst buf. simpl.
    rewrite app_nil_r, Z.ltb_irrefl. exists bm. split_and!; [done..|].
    intros. by rewrite andb_true_r.
  - apply Forall_cons_1 in Hes as [He Hes].
    destruct fuel as [|fuel]; [simpl in Hfuel; lia|]. cbn [walk_mmap].
    assert (Hb : buf = pre ++ entry_bytes e ++ concat (entry_bytes <$> es)) by done.
    pose proof (length_entry_bytes e He) as Hle. pose proof (eo_size e He) as Hsz.
    assert (Hlb : length buf = (length pre + (length (entry_bytes e) +
      length (concat (entry_bytes <$> es))))%nat) by (rewrite Hb, !length_app; lia).
    destruct (Z.ltb_spec (mmap + Z.of_nat (length pre)) (mmap + Z.of_nat (length buf)));
      [|lia].
    replace (mmap + Z.of_nat (length pre) - mmap) with (Z.of_nat (length pre)) by lia.
    assert (Hr : read_mmap_entry buf (Z.of_nat (length pre)) = Some e)
      by (rewrite Hb; by apply read_entry_app).
    rewrite Hr. cbn [mbind outcome_bind of_option].
    destruct (process_entry_spec e bm ue) as (bm1 & -> & Hl1 & Hf1 & Hb1);
      [done..|]. cbn [mbind outcome_bind].
    rewrite (u32_small (mmap + Z.of_nat (length pre) + (me_size e + 4)))
      by (unfold is_u32; lia).
    set (ue1 := if me_type e =? MULTIBOOT_MEMORY_AVAILABLE
                then Z.max (region_end e) ue else ue).
    destruct (IH fuel (pre ++ entry_bytes e) bm1 ue1 mmap)
      as (bm2 & Hw & Hl2 & Hf2 & Hb2); try done; try (simpl in Hfuel; lia).
    { rewrite <- app_assoc. fold (fmap entry_bytes es). rewrite <- Hb. done. }
    rewrite <- app_assoc, <- Hb in Hw. rewrite length_app in Hw.
    replace (mmap + Z.of_nat (length pre) + (me_size e + 4))
      with (mmap + Z.of_nat (length pre + length (entry_bytes e))) by lia.
    exists bm2. rewrite Hw. split_and!; [done|lia|done|].
    intros m Hm. rewrite Hb2, Hb1, <- andb_assoc by done. cbn [existsb].
    by rewrite negb_orb.
Qed.

(** The frames reserved whatever the map says: the first 256 and the kernel
    image. *)
Definition frame_reserved (kernel_start kernel_end n : Z) : bool :=
  (n <? PAGE_TABLE_COUNT) ||
  ((kernel_start / PAGE_SIZE <=? n) &&
   (n * PAGE_SIZE <? kernel_end - KERNEL_HIGHER_HALF)).

(** Where the linker puts the kernel: a page-aligned physical start and a
    virtual end in the higher half. *)
Record kernel_image_ok (kernel_start kernel_end : Z) : Prop := {
  ki_start : 0 <= kernel_start < 4294967296;
  ki_aligned : kernel_start mod 4096 = 0;
  ki_end : KERNEL_HIGHER_HALF <= kernel_end < 4294967296
}.

Lemma pmm_init_frames_gen ks ke es mmap p :
  kernel_image_ok ks ke -> Forall entry_ok es ->
  let buf := concat (entry_bytes <$> es) in
  0 <= mmap -> mmap + Z.of_nat (length buf) < 4294967296 ->
  Z.of_nat (length (bitmap p)) = 32768 -> Forall is_u32 (bitmap p) ->
  exists p', pmm_init ks ke buf mmap (Z.of_nat (length buf)) p = Ret p' /\
    Forall is_u32 (bitmap p') /\
    Z.of_nat (length (bitmap p')) = 32768 /\
    last_alloc p' = last_alloc p /\
    usable_end_words p' = pages_to_words (usable_end_of es) /\
    forall n, 0 <= n < MAX_PAGES ->
      page_used p' n = frame_reserved ks ke n || negb (existsb (frame_available n) es).
Proof.
  intros [Hks Hal Hke] Hes buf Hmm Hbuf Hl Hf. unfold pmm_init.
  change (MAX_PAGES / BITMAP_ENTRY_BITS) with 32768.
  change (PAGE_TABLE_COUNT / BITMAP_ENTRY_BITS) with 8.
  rewrite (u32_small (mmap + _)) by (unfold is_u32; lia).
  destruct (fill_words_spec (bitmap p) 32768)
    as (bm1 & -> & Hl1 & Hf1 & Hb1); [lia|done|].
  cbn [mbind outcome_bind].
  destruct (walk_mmap_spec es (S (length buf)) [] bm1 0 mmap)
    as (bm2 & Hw & Hl2 & Hf2 & Hb2); try done; try lia.
  { subst buf. assert (length es <= length (concat (entry_bytes <$> es)))%nat; [|lia].
    clear - Hes. induction Hes as [|e es He _ IH]; [simpl; lia|].
    rewrite fmap_cons. cbn [concat length].
    pose proof (length_entry_bytes e He). pose proof (eo_size e He).
    rewrite length_app. lia. }
  rewrite app_nil_l, Z.add_0_r in Hw. fold buf in Hw. rewrite Hw.
  cbn [mbind outcome_bind]. unfold KERNEL_HIGHER_HALF in *.
  rewrite (u32_small (ke - _)) by (unfold is_u32; lia).
  destruct (fill_words_spec bm2 8)
    as (bm3 & -> & Hl3 & Hf3 & Hb3); [lia|done|].
  cbn [mbind outcome_bind].
  destruct (reserve_range_spec (page_fuel ks (ke - 0xC0000000)) (ks / 4096)
    (ke - 0xC0000000) bm3) as (bm4 & Hr & Hl4 & Hf4 & Hb4);
    try done; try lia; try (unfold page_fuel, PAGE_SIZE; zlia).
  replace (4096 * (ks / 4096)) with ks in Hr by zlia. rewrite Hr.
  cbn [mbind outcome_bind]. eexists. split_and!; try done; simpl; try lia.
  intros n Hn. unfold page_used, frame_reserved. simpl.
  rewrite Hb4, Hb3, Hb2, Hb1 by (unfold MAX_PAGES in *; lia).
  unfold MAX_PAGES, BITMAP_ENTRY_BITS, PAGE_TABLE_COUNT, PAGE_SIZE, KERNEL_HIGHER_HALF in *.
  replace (n <? 32 * 32768) with true by lia.
  change (32 * 8) with 256.
  rewrite orb_true_r. simpl. rewrite (Z.mul_comm n 4096).
  by destruct (existsb _ es), (n <? 256), (_ && _).
Qed.

Lemma usable_end_of_range es : Forall entry_ok es ->
  0 <= usable_end_of es < 18446744073709551616 - 4096 /\ usable_end_of es mod 4096 = 0.
Proof.
  intros Hes. unfold usable_end_of.
  enough (H : forall ue, 0 <= ue < 18446744073709551616 - 4096 /\ ue mod 4096 = 0 ->
    let r := foldl (fun ue e => if me_type e =? MULTIBOOT_MEMORY_AVAILABLE
                     then Z.max (region_end e) ue else ue) ue es in
    0 <= r < 18446744073709551616 - 4096 /\ r mod 4096 = 0) by (by apply H).
  induction Hes as [|e es He _ IH]; intros ue Hue; [done|].
  apply IH. case_bool; [|done].
  rewrite (proj2 (region_bounds e He)). destruct He. zlia.
Qed.

(** The scan runs off the bitmap when [usable_end_words] exceeds it and every
    word is full. *)
Lemma alloc_scan_off_end fuel p i start :
  Forall (fun w => w = BITMAP_ALL_BITS_SET) (bitmap p) ->
  Z.of_nat (length (bitmap p)) < usable_end_words p < 4294967296 ->
  0 <= start <= i -> i <= Z.of_nat (length (bitmap p)) ->
  Z.of_nat (length (bitmap p)) - i < Z.of_nat fuel ->
  alloc_scan fuel p i start = Fault.
Proof.
  intros Hall Hus. revert i. induction fuel as [|fuel IH]; intros i Hs Hi Hfuel; [lia|].
  cbn [alloc_scan]. destruct (decide (i = Z.of_nat (length (bitmap p)))) as [->|].
  - by rewrite znth_None by lia.
  - destruct (znth_Some (bitmap p) i) as [w Hw]; [lia|]. rewrite Hw.
    cbn [mbind outcome_bind of_option]. apply znth_inv in Hw as [_ Hw].
    eapply Forall_lookup_1 in Hw; [|done]. simpl in Hw. subst w.
    rewrite Z.eqb_refl. cbn [negb].
    rewrite (u32_small (i + 1)) by (unfold is_u32; lia).
    destruct (Z.leb_spec (usable_end_words p) (i + 1)); [lia|].
    destruct (Z.eqb_spec (i + 1) start); [lia|]. apply IH; lia.
Qed.

(** ** Theorems *)

(** (C1) No frame is handed out twice and none is lost: along every sequence
    of allocations, failed allocations and releases of held frames, the held
    frames are distinct, page aligned, inside the scanned range and were free
    at the start, and the frames in use are exactly those in use at the start
    plus the held ones. *)
Theorem pmm_runs_exclusive p0 p live :
  pmm_wf p0 -> page_used p0 0 = true -> rtc pmm_step (p0, []) (p, live) ->
  NoDup live /\
  (forall r, r ∈ live ->
     exists n, r = n * 4096 /\ 0 < n < frame_limit p0 /\ page_used p0 n = false) /\
  (forall n, 0 <= n -> page_used p n = page_used p0 n || bool_decide (n * 4096 ∈ live)).
Proof.
  intros Hwf H0 Hrun.
  assert (Hi : run_inv p0 (fst (p, live)) (snd (p, live))).
  { remember (p0, []) as s0 eqn:Hs0. remember (p, live) as s1 eqn:Hs1. clear Hs1.
    assert (Hinit : run_inv p0 (fst s0) (snd s0)) by (subst; by apply run_inv_init).
    clear Hs0. induction Hrun; [done|]. eauto using run_inv_step. }
  by destruct Hi.
Qed.

(** (C35) [pmm_alloc_page] always returns: it hands out a frame of the scanned
    range that was free, marks that frame used and no other, or it returns 0
    with the state unchanged when every frame of the range is in use. *)
Theorem pmm_alloc_page_total p :
  pmm_wf p ->
  exists r p', pmm_alloc_page p = Ret (r, p') /\ pmm_wf p' /\
    ((exists n, r = n * 4096 /\ 0 <= n < frame_limit p /\ page_used p n = false /\
        forall m, 0 <= m -> page_used p' m = page_used p m || (m =? n)) \/
     (r = 0 /\ p' = p /\ forall n, 0 <= n < frame_limit p -> page_used p n = true)).
Proof.
  intros Hwf. destruct (pmm_alloc_page_spec p Hwf) as (r & p' & Ha & Ho & Hw & _).
  by exists r, p'.
Qed.

Lemma pmm_init_frames_run ks ke es mmap p :
  kernel_image_ok ks ke -> Forall entry_ok es ->
  let buf := concat (entry_bytes <$> es) in
  0 <= mmap -> mmap + Z.of_nat (length buf) < 4294967296 ->
  Z.of_nat (length (bitmap p)) = 32768 -> Forall is_u32 (bitmap p) -> last_alloc p = 0 ->
  exists p', pmm_init ks ke buf mmap (Z.of_nat (length buf)) p = Ret p' /\
    (forall n, 0 <= n < MAX_PAGES ->
      page_used p' n = frame_reserved ks ke n || negb (existsb (frame_available n) es)) /\
    (usable_end_of es <= MEMORY_4GB_LIMIT -> pmm_wf p').
Proof.
  intros Hk Hes buf Hmm Hbuf Hl Hf Hla.
  destruct (pmm_init_frames_gen ks ke es mmap p) as (p' & Hi & Hf' & Hl' & Hla' & Hus & Hb);
    try done.
  exists p'. split_and!; [done|done|]. intros Hlim.
  destruct (usable_end_of_range es Hes) as [Hr Hm].
  split; [done| |lia|lia].
  rewrite Hus, Hl'. unfold pages_to_words, u64, u32, MEMORY_4GB_LIMIT, PAGE_SIZE,
    BITMAP_ENTRY_BITS in *. zlia.
Qed.

(** After [pmm_init] on a memory map, a frame below 4 GB is free exactly
    when it lies wholly in an available region, is not one of the first 256
    and does not belong to the kernel image; the allocator state is well
    formed when no available region ends above 4 GB. *)
Theorem pmm_init_frames ks ke es mmap p :
  kernel_image_ok ks ke -> Forall entry_ok es ->
  let buf := concat (entry_bytes <$> es) in
  0 <= mmap -> mmap + Z.of_nat (length buf) < 4294967296 ->
  Z.of_nat (length (bitmap p)) = 32768 -> Forall is_u32 (bitmap p) -> last_alloc p = 0 ->
  exists p', pmm_init ks ke buf mmap (Z.of_nat (length buf)) p = Ret p' /\
    (forall n, 0 <= n < MAX_PAGES ->
      page_used p' n = frame_reserved ks ke n || negb (existsb (frame_available n) es)) /\
    (usable_end_of es <= MEMORY_4GB_LIMIT -> pmm_wf p').
Proof. apply pmm_init_frames_run. Qed.

(** Available memory above 4 GB breaks the allocator: [pmm_init] then sets
    [usable_end_words] beyond the 32768 words of the bitmap, and once every
    frame below 4 GB is in use [pmm_alloc_page] reads past its end. *)
Theorem pmm_above_4gb_faults ks ke es mmap p :
  kernel_image_ok ks ke -> Forall entry_ok es ->
  let buf := concat (entry_bytes <$> es) in
  0 <= mmap -> mmap + Z.of_nat (length buf) < 4294967296 ->
  Z.of_nat (length (bitmap p)) = 32768 -> Forall is_u32 (bitmap p) -> last_alloc p = 0 ->
  MEMORY_4GB_LIMIT < usable_end_of es < 0x80000000000 ->
  exists p', pmm_init ks ke buf mmap (Z.of_nat (length buf)) p = Ret p' /\
    Z.of_nat (length (bitmap p')) < usable_end_words p' /\
    (Forall (fun w => w = BITMAP_ALL_BITS_SET) (bitmap p') -> pmm_alloc_page p' = Fault).
Proof.
  intros Hk Hes buf Hmm Hbuf Hl Hf Hla Hue.
  destruct (pmm_init_frames_gen ks ke es mmap p) as (p' & Hi & Hf' & Hl' & Hla' & Hus & Hb);
    try done.
  destruct (usable_end_of_range es Hes) as [Hr Hm].
  assert (Hw : 32768 < usable_end_words p' < 4294967296).
  { rewrite Hus. unfold pages_to_words, u64, u32, MEMORY_4GB_LIMIT, PAGE_SIZE,
      BITMAP_ENTRY_BITS in *. zlia. }
  exists p'. split_and!; [done|lia|]. intros Hall. unfold pmm_alloc_page.
  destruct (Z.eqb_spec (usable_end_words p') 0); [lia|].
  apply alloc_scan_off_end; [done|lia|lia|lia|lia].
Qed.

(** ** Witnesses *)
Definition small_pmm : pmm :=
  {| bitmap := [0xFFFFFFF3; 0xFFFFFFFF]; usable_end_words := 2; last_alloc := 0 |}.

Lemma small_pmm_wf : pmm_wf small_pmm.
Proof. split; simpl; [repeat constructor; unfold is_u32; lia|lia|lia|by left]. Qed.

(** Two allocations, then the first frame is given back. *)
Lemma pmm_runs_exclusive_witness :
  exists p, rtc pmm_step (small_pmm, []) (p, [12288]) /\ NoDup [12288] /\
    page_used p 3 = page_used small_pmm 3 || bool_decide (3 * 4096 ∈ [12288]).
Proof.
  assert (Hrun : exists p, rtc pmm_step (small_pmm, []) (p, [12288])).
  { eexists. eapply rtc_l; [eapply step_alloc; [reflexivity|done]|].
    eapply rtc_l; [eapply step_alloc; [reflexivity|done]|].
    eapply rtc_l; [eapply (step_free _ [12288] 8192 []); reflexivity|]. apply rtc_refl. }
  destruct Hrun as [p Hrun]. exists p. split; [exact Hrun|].
  destruct (pmm_runs_exclusive small_pmm p [12288] small_pmm_wf eq_refl Hrun)
    as (Hnd & _ & Hu).
  split; [exact Hnd|]. by apply (Hu 3).
Defined.

Lemma pmm_alloc_page_total_witness :
  pmm_wf small_pmm /\
  exists r p', pmm_alloc_page small_pmm = Ret (r, p') /\ pmm_wf p'.
Proof.
  split; [exact small_pmm_wf|].
  destruct (pmm_alloc_page_total small_pmm small_pmm_wf) as (r & p' & H & Hw & _).
  by exists r, p'.
Defined.

(** The map of a small PC: 640 KB low memory, a hole, memory up to 16 MB. *)
Definition sample_map : list multiboot_mmap_entry :=
  [{| me_size := 20; me_addr := 0; me_len := 0x9FC00; me_type := 1 |};
   {| me_size := 20; me_addr := 0x9FC00; me_len := 0x400; me_type := 2 |};
   {| me_size := 24; me_addr := 0x100000; me_len := 0xF00000; me_type := 1 |}].

Definition blank_pmm : pmm :=
  {| bitmap := replicate (Z.to_nat 32768) 0; usable_end_words := 0; last_alloc := 0 |}.

Lemma sample_map_ok : Forall entry_ok sample_map.
Proof. repeat constructor; simpl; unfold is_u32; lia. Qed.

Lemma blank_pmm_ok :
  Z.of_nat (length (bitmap blank_pmm)) = 32768 /\ Forall is_u32 (bitmap blank_pmm).
Proof.
  split; [vm_compute; reflexivity|]. apply Forall_replicate. unfold is_u32. lia.
Qed.

Lemma pmm_init_frames_witness :
  exists p', pmm_init 0x200000 0xC0310000 (concat (entry_bytes <$> sample_map)) 0xC0250000
      (Z.of_nat (length (concat (entry_bytes <$> sample_map)))) blank_pmm = Ret p' /\
    page_used p' 1000 = false /\ page_used p' 0x210 = true /\ pmm_wf p'.
Proof.
  destruct blank_pmm_ok as [Hl Hf].
  destruct (pmm_init_frames 0x200000 0xC0310000 sample_map 0xC0250000 blank_pmm)
    as (p' & Hi & Hb & Hwf).
  - split; vm_compute; split; (reflexivity || discriminate).
  - exact sample_map_ok.
  - lia.
  - vm_compute. reflexivity.
  - exact Hl.
  - exact Hf.
  - reflexivity.
  - exists p'. split; [exact Hi|]. split; [|split].
    + rewrite Hb by (unfold MAX_PAGES; lia). reflexivity.
    + rewrite Hb by (unfold MAX_PAGES; lia). reflexivity.
    + apply Hwf. vm_compute. discriminate.
Defined.

Definition big_map : list multiboot_mmap_entry :=
  [{| me_size := 20; me_addr := 0x100000000; me_len := 0x8000000; me_type := 1 |}].

Definition all_used (o : outcome pmm) : bool :=
  match o with Ret p => forallb (Z.eqb BITMAP_ALL_BITS_SET) (bitmap p) | _ => false end.

Lemma all_used_check o p :
  all_used o = true -> o = Ret p -> Forall (fun w => w = BITMAP_ALL_BITS_SET) (bitmap p).
Proof.
  intros H ->. unfold all_used in H. induction (bitmap p) as [|w bm IH]; [constructor|].
  cbn [forallb] in H. apply andb_true_iff in H as [Hw Hbm].
  constructor; [by apply Z.eqb_eq in Hw|auto].
Qed.

(** A machine whose only available region is above 4 GB. *)
Lemma pmm_above_4gb_faults_witness :
  exists p', pmm_init 0x200000 0xC0310000 (concat (entry_bytes <$> big_map)) 0xC0250000
      (Z.of_nat (length (concat (entry_bytes <$> big_map)))) blank_pmm = Ret p' /\
    Z.of_nat (length (bitmap p')) < usable_end_words p' /\ pmm_alloc_page p' = Fault.
Proof.
  destruct blank_pmm_ok as [Hl Hf].
  destruct (pmm_above_4gb_faults 0x200000 0xC0310000 big_map 0xC0250000 blank_pmm)
    as (p' & Hi & Hlt & Hfault).
  - split; vm_compute; split; (reflexivity || discriminate).
  - repeat constructor; simpl; unfold is_u32; lia.
  - lia.
  - vm_compute. reflexivity.
  - exact Hl.
  - exact Hf.
  - reflexivity.
  - vm_compute. split; reflexivity.
  - exists p'. split; [exact Hi|]. split; [exact Hlt|]. apply Hfault.
    eapply all_used_check; [|exact Hi]. vm_compute. reflexivity.
Defined.
