(* ===== verification/Vmm.v ===== *)
(** * The virtual memory manager (src/src/kernel/memory/vmm.c)

    The machine is modelled as far as the code depends on it: physical memory
    as 32-bit words, the page-directory register and a translation cache that
    keeps an entry until it is invalidated, with the [PAGE_GLOBAL] entries
    surviving a write of [cr3] (boot.s sets [CR4.PGE]).  The kernel reaches its
    own page tables through the recursive entry 1023 of the page directory, so
    [pd_window] and [pt_window] accesses are ordinary virtual accesses here.
    Code runs in ring 0; the RW and USER bits are stored, not enforced.
    Messages printed on failure are left out. *)

From S2P Require Import Prelude Pmm.

(** ** Constants (vmm.h) *)
Definition PAGE_PRESENT : Z := 0x001.
Definition PAGE_RW : Z := 0x002.
Definition PAGE_USER : Z := 0x004.
Definition PAGE_GLOBAL : Z := 0x100.
Definition PD_INDEX_SHIFT : Z := 22.
Definition PT_INDEX_SHIFT : Z := 12.
Definition PD_PT_INDEX_MASK : Z := 0x3FF.
Definition VMM_FREE_LIST_MAX_SIZE : Z := 128.
Definition PD_WINDOW : Z := 0xFFFFF000.
Definition PTS_WINDOW : Z := 0xFFC00000.
Definition PTS_SCRATCH_WINDOW : Z := 0xFF800000.
Definition PD_SCRATCH_WINDOW : Z := 0xFFFFE000.

Definition pd_index (v : Z) : Z := Z.land (Z.shiftr v PD_INDEX_SHIFT) PD_PT_INDEX_MASK.
Definition pt_index (v : Z) : Z := Z.land (Z.shiftr v PT_INDEX_SHIFT) PD_PT_INDEX_MASK.

(** [e & 0xFFFFF000] and [e & PAGE_PRESENT] *)
Definition frame_of (e : Z) : Z := Z.land e 0xFFFFF000.
Definition present (e : Z) : bool := negb (Z.land e PAGE_PRESENT =? 0).
Definition is_global (e : Z) : bool := negb (Z.land e PAGE_GLOBAL =? 0).

(** ** State: the machine, the frame allocator and the statics of vmm.c *)
Record vm := {
  phys : gmap Z Z;
  cr3 : Z;
  tlb : gmap Z Z;
  frames : pmm;
  fl_head : Z;
  fl_tail : Z;
  fl_count : Z;
  last_free : Z
}.

Definition set_phys (m : gmap Z Z) (s : vm) : vm :=
  {| phys := m; cr3 := cr3 s; tlb := tlb s; frames := frames s; fl_head := fl_head s;
     fl_tail := fl_tail s; fl_count := fl_count s; last_free := last_free s |}.
Definition set_cr3 (c : Z) (s : vm) : vm :=
  {| phys := phys s; cr3 := c; tlb := tlb s; frames := frames s; fl_head := fl_head s;
     fl_tail := fl_tail s; fl_count := fl_count s; last_free := last_free s |}.
Definition set_tlb (t : gmap Z Z) (s : vm) : vm :=
  {| phys := phys s; cr3 := cr3 s; tlb := t; frames := frames s; fl_head := fl_head s;
     fl_tail := fl_tail s; fl_count := fl_count s; last_free := last_free s |}.
Definition set_frames (p : pmm) (s : vm) : vm :=
  {| phys := phys s; cr3 := cr3 s; tlb := tlb s; frames := p; fl_head := fl_head s;
     fl_tail := fl_tail s; fl_count := fl_count s; last_free := last_free s |}.
Definition set_free_list (h t c : Z) (s : vm) : vm :=
  {| phys := phys s; cr3 := cr3 s; tlb := tlb s; frames := frames s; fl_head := h;
     fl_tail := t; fl_count := c; last_free := last_free s |}.
Definition set_last_free (a : Z) (s : vm) : vm :=
  {| phys := phys s; cr3 := cr3 s; tlb := tlb s; frames := frames s; fl_head := fl_head s;
     fl_tail := fl_tail s; fl_count := fl_count s; last_free := a |}.

(** ** The memory management unit *)
Definition pread (a : Z) : ST vm Z := fun s =>
  match phys s !! a with Some w => Ret (w, s) | None => Fault end.
Definition pwrite (a w : Z) : ST vm unit := fun s =>
  match phys s !! a with Some _ => Ret (tt, set_phys (<[a := w]> (phys s)) s) | None => Fault end.

(** The page-table entry of [v]: from the cache, else by a walk that fills it. *)
Definition mmu_entry (v : Z) : ST vm Z :=
  s ← st_get;
  match tlb s !! Z.shiftr v 12 with
  | Some pte => mret pte
  | None =>
      pde ← pread (frame_of (cr3 s) + 4 * pd_index v);
      if negb (present pde) then st_fault
      else
        pte ← pread (frame_of pde + 4 * pt_index v);
        if negb (present pte) then st_fault
        else
          st_modify (fun s => set_tlb (<[Z.shiftr v 12 := pte]> (tlb s)) s);;
          mret pte
  end.

Definition translate (v : Z) : ST vm Z :=
  pte ← mmu_entry v;
  mret (frame_of pte + Z.land v 0xFFF).
Definition vread (v : Z) : ST vm Z := pa ← translate v; pread pa.
Definition vwrite (v w : Z) : ST vm unit := pa ← translate v; pwrite pa w.

(** [window[i]] *)
Definition window_get (base i : Z) : ST vm Z := vread (base +! 4 *! i).
Definition window_set (base i w : Z) : ST vm unit := vwrite (base +! 4 *! i) w.

(** [memset(v, 0, PAGE_SIZE)] of a whole page, word by word. *)
Definition memset_page (v : Z) : ST vm unit :=
  st_for 1024 0 (fun i => vwrite (v +! 4 * i) 0).

(** ** Low-level helpers *)
Definition vmm_read_cr3 : ST vm Z := st_gets cr3.
Definition vmm_write_cr3 (phys_addr : Z) : ST vm unit :=
  st_modify (fun s => set_tlb (filter (fun kv => is_global kv.2 = true) (tlb s)) (set_cr3 phys_addr s)).
Definition vmm_flush_cr3 : ST vm unit := c ← vmm_read_cr3; vmm_write_cr3 c.
Definition vmm_invlpg (addr : Z) : ST vm unit :=
  st_modify (fun s => set_tlb (delete (Z.shiftr addr 12) (tlb s)) s).

Definition pmm_alloc : ST vm Z := fun s =>
  match pmm_alloc_page (frames s) with
  | Ret (r, p) => Ret (r, set_frames p s)
  | Fault => Fault
  | Diverge => Diverge
  end.
Definition pmm_free (addr : Z) : ST vm unit := fun s =>
  match pmm_free_page addr (frames s) with
  | Ret p => Ret (tt, set_frames p s)
  | Fault => Fault
  | Diverge => Diverge
  end.

(** A [free_list_node_t] is the page itself: [next] at 0, [prev] at 4. *)
Definition free_list_add (node : Z) : ST vm unit :=
  s ← st_get;
  vwrite node (fl_head s);;
  vwrite (node +! 4) 0;;
  (if negb (fl_head s =? 0) then
     vwrite (fl_head s +! 4) node;;
     st_modify (fun s => set_free_list node (fl_tail s) (fl_count s +! 1) s)
   else st_modify (fun s => set_free_list node node (fl_count s +! 1) s)).

Definition free_list_pop : ST vm Z :=
  s ← st_get;
  if fl_tail s =? 0 then mret 0
  else
    let node := fl_tail s in
    tail ← vread (node +! 4);
    st_modify (fun s => set_free_list (fl_head s) tail (fl_count s) s);;
    (if negb (tail =? 0) then vwrite tail 0
     else st_modify (fun s => set_free_list 0 tail (fl_count s) s));;
    vwrite (node +! 4) 0;;
    vwrite node 0;;
    st_modify (fun s => set_free_list (fl_head s) (fl_tail s) (fl_count s -! 1) s);;
    mret node.

Definition PAGE_ALIGN_UP (x : Z) : Z := Z.land (x +! PAGE_SIZE -! 1) (not32 (PAGE_SIZE - 1)).

Definition vmm_switch_address_space (phys_addr : Z) : ST vm unit :=
  if phys_addr =? 0 then mret tt
  else vmm_write_cr3 phys_addr;; vmm_flush_cr3.

(** ** Translation *)
Definition vmm_virt_to_phys (vaddr : Z) : ST vm Z :=
  pde ← window_get PD_WINDOW (Z.shiftr vaddr 22);
  if negb (present pde) then mret 0
  else
    pte ← window_get PTS_WINDOW (Z.shiftr vaddr 12);
    if negb (present pte) then mret 0
    else mret (Z.land pte 0xFFFFF000 +! Z.land vaddr 0xFFF).

Definition vmm_is_mapped (vaddr : Z) : ST vm bool :=
  pde ← window_get 0xFFFFF000 (Z.shiftr vaddr PD_INDEX_SHIFT);
  if negb (present pde) then mret false
  else
    pte ← window_get 0xFFC00000 (Z.shiftr vaddr PT_INDEX_SHIFT);
    mret (present pte).

(** ** Mapping and unmapping *)
Definition vmm_set_pde_at (window_base vaddr paddr flags : Z) : ST vm unit :=
  let pd_num := Z.shiftr vaddr PD_INDEX_SHIFT in
  window_set window_base pd_num (Z.lor (Z.land paddr 0xFFFFF000) flags).

Definition vmm_set_pte_at (window_base vaddr paddr flags : Z) : ST vm unit :=
  let page_num := Z.shiftr vaddr PT_INDEX_SHIFT in
  window_set window_base page_num (Z.lor (Z.land paddr 0xFFFFF000) flags);;
  when (window_base =? PTS_WINDOW) (vmm_invlpg vaddr).

Definition KERNEL_FLAGS : Z := Z.lor (Z.lor PAGE_PRESENT PAGE_RW) PAGE_GLOBAL.
Definition USER_FLAGS : Z := Z.lor (Z.lor PAGE_PRESENT PAGE_RW) PAGE_USER.

Definition vmm_map_kernel_page (vaddr phys_addr : Z) : ST vm unit :=
  vmm_set_pte_at PTS_WINDOW vaddr phys_addr KERNEL_FLAGS.

Definition vmm_map_user_page (vaddr phys_addr : Z) : ST vm unit :=
  let pd_idx := Z.shiftr vaddr 22 in
  pde ← window_get PD_WINDOW pd_idx;
  go ← (if Z.land pde PAGE_PRESENT =? 0 then
          new_pt_phys ← pmm_alloc;
          if new_pt_phys =? 0 then mret false
          else
            vmm_set_pde_at PD_WINDOW vaddr new_pt_phys USER_FLAGS;;
            let pt_vaddr := PTS_WINDOW +! pd_idx *! PAGE_SIZE in
            vmm_invlpg pt_vaddr;;
            memset_page pt_vaddr;;
            mret true
        else mret true);
  if (go : bool) then vmm_set_pte_at PTS_WINDOW vaddr phys_addr USER_FLAGS else mret tt.

Definition vmm_unmap_page (vaddr : Z) : ST vm unit := vmm_set_pte_at PTS_WINDOW vaddr 0 0.

(** ** Kernel pages *)
Definition vmm_alloc_kernel_page_at (vaddr : Z) : ST vm bool :=
  phys ← pmm_alloc;
  if phys =? 0 then mret false
  else
    vmm_map_kernel_page vaddr phys;;
    memset_page vaddr;;
    mret true.

(** [do { ... } while (i != start)]: [i >= MEMORY_SPACE] compares a 32-bit
    value with 2^32 and is never true. *)
Fixpoint kernel_page_scan (fuel : nat) (i start : Z) : ST vm Z :=
  match fuel with
  | O => fun _ => Diverge
  | S fuel =>
      let i := if MEMORY_SPACE <=? i then KERNEL_HIGHER_HALF else i in
      mapped ← vmm_is_mapped i;
      ok ← (if negb mapped then vmm_alloc_kernel_page_at i else mret false);
      if (ok : bool) then mret i
      else
        let i := i +! PAGE_SIZE in
        if i =? start then mret 0 else kernel_page_scan fuel i start
  end.

Definition vmm_alloc_kernel_page : ST vm Z :=
  s ← st_get;
  if 0 <? fl_count s then free_list_pop
  else
    when ((last_free s <? KERNEL_HIGHER_HALF) || (MEMORY_SPACE <=? last_free s))
      (st_modify (set_last_free KERNEL_HIGHER_HALF));;
    s ← st_get;
    let start := PAGE_ALIGN_UP (last_free s) in
    kernel_page_scan (Z.to_nat (MEMORY_SPACE / PAGE_SIZE)) start start.

(** [while (free_list.count > VMM_FREE_LIST_MAX_SIZE)]; one round is enough when
    every release trims the list. *)
Fixpoint trim_free_list (fuel : nat) : ST vm unit :=
  match fuel with
  | O => fun _ => Diverge
  | S fuel =>
      s ← st_get;
      if fl_count s <=? VMM_FREE_LIST_MAX_SIZE then mret tt
      else
        to_free ← free_list_pop;
        if to_free =? 0 then mret tt
        else
          phys ← vmm_virt_to_phys to_free;
          when (negb (phys =? 0)) (vmm_unmap_page to_free;; pmm_free phys);;
          trim_free_list fuel
  end.

Definition vmm_free_kernel_page (vaddr : Z) : ST vm unit :=
  if negb (vaddr mod PAGE_SIZE =? 0) then mret tt
  else
    free_list_add vaddr;;
    s ← st_get;
    trim_free_list (Z.to_nat (fl_count s + 1)).

(** ** User pages *)
Definition vmm_alloc_user_page_at (vaddr : Z) : ST vm bool :=
  phys ← pmm_alloc;
  if phys =? 0 then mret false
  else
    vmm_map_user_page vaddr phys;;
    memset_page vaddr;;
    mret true.

Definition vmm_free_user_page (vaddr : Z) : ST vm unit :=
  paddr ← vmm_virt_to_phys vaddr;
  when (negb (paddr =? 0)) (vmm_unmap_page vaddr;; pmm_free paddr).

(** ** Address spaces *)
Definition vmm_create_address_space : ST vm Z :=
  new_pd_phys ← pmm_alloc;
  if new_pd_phys =? 0 then mret 0
  else
    window_set PD_WINDOW 1022 (Z.lor new_pd_phys KERNEL_FLAGS);;
    vmm_invlpg PD_SCRATCH_WINDOW;;
    st_for 768 0 (fun i => window_set PD_SCRATCH_WINDOW i 0);;
    st_for 254 768 (fun i => e ← window_get PD_WINDOW i; window_set PD_SCRATCH_WINDOW i e);;
    window_set PD_SCRATCH_WINDOW 1023 (Z.lor new_pd_phys KERNEL_FLAGS);;
    window_set PD_WINDOW 1022 0;;
    vmm_invlpg PD_SCRATCH_WINDOW;;
    mret new_pd_phys.

Definition vmm_destroy_address_space (pd_phys : Z) : ST vm unit :=
  vmm_set_pde_at PD_WINDOW PD_SCRATCH_WINDOW pd_phys (Z.lor PAGE_PRESENT PAGE_RW);;
  st_for 768 0 (fun i =>
    pde ← window_get PD_SCRATCH_WINDOW i;
    when (present pde) (
      st_for 1024 0 (fun j =>
        pte ← window_get PTS_SCRATCH_WINDOW (i *! 1024 +! j);
        when (present pte) (
          pte ← window_get PTS_SCRATCH_WINDOW (i *! 1024 +! j);
          pmm_free (Z.land pte 0xFFFFF000)));;
      pde ← window_get PD_SCRATCH_WINDOW i;
      pmm_free (Z.land pde 0xFFFFF000)));;
  vmm_set_pte_at PD_WINDOW PD_SCRATCH_WINDOW 0 0;;
  pmm_free pd_phys.
