(* ===== verification/VmmProof.v ===== *)
(** * Correctness of the virtual memory manager

    [vm_wf] is the state between two calls in the running address space: the
    recursive entry points at the page directory, the tables of entries 0 to
    1021 are distinct allocated frames, and the translation cache agrees with
    the tables.  The theorems follow page allocation, address-space creation
    and the two calls that go wrong. *)

From S2P Require Import Prelude Pmm Vmm.

(** ** Arithmetic of entries and addresses *)
Lemma frame_of_mod e : is_u32 e -> frame_of e = e - e mod 4096.
Proof.
  intros He. unfold frame_of. change 0xFFFFF000 with (not32 (Z.ones 12)).
  by rewrite land_not32_ones by (done || lia).
Qed.

Lemma frame_of_frame f : is_u32 f -> f mod 4096 = 0 -> frame_of f = f.
Proof. intros Hu Hf. rewrite frame_of_mod by done. lia. Qed.

Lemma present_odd e : present e = Z.odd e.
Proof.
  unfold present, PAGE_PRESENT. change 1 with (Z.ones 1). rewrite Z.land_ones by lia.
  change (2 ^ 1) with 2. rewrite Zmod_odd. by destruct (Z.odd e).
Qed.

(** An entry made of a frame and flags. *)
Lemma lor_flags f flags : f mod 4096 = 0 -> 0 <= flags < 4096 -> Z.lor f flags = f + flags.
Proof.
  intros Hf Hfl. symmetry. rewrite Z.add_nocarry_lxor.
  - apply Z.bits_inj'. intros i Hi. rewrite Z.lxor_spec, Z.lor_spec.
    destruct (Z.testbit f i) eqn:E1, (Z.testbit flags i) eqn:E2; try done.
    exfalso. destruct (decide (i < 12)) as [Hlt|Hge].
    + rewrite <- (Z.mod_pow2_bits_low f 12) in E1 by lia. change (2 ^ 12) with 4096 in E1.
      by rewrite Hf, Z.bits_0 in E1.
    + by rewrite (testbit_lt_pow2 flags 12) in E2 by lia.
  - apply Z.bits_inj'. intros i Hi. rewrite Z.land_spec, Z.bits_0.
    destruct (decide (i < 12)) as [Hlt|Hge].
    + rewrite <- (Z.mod_pow2_bits_low f 12) by lia. change (2 ^ 12) with 4096.
      by rewrite Hf, Z.bits_0.
    + by rewrite (testbit_lt_pow2 flags 12), andb_false_r by lia.
Qed.

Lemma entry_parts f flags : is_u32 f -> f mod 4096 = 0 -> 0 <= flags < 4096 ->
  is_u32 (Z.lor f flags) /\ frame_of (Z.lor f flags) = f /\ present (Z.lor f flags) = Z.odd flags.
Proof.
  intros Hu Hf Hfl. rewrite lor_flags by done. unfold is_u32 in *.
  assert (Hr : f + flags < 4294967296) by zlia.
  split; [lia|]. split; [rewrite frame_of_mod by (unfold is_u32; lia); zlia|].
  rewrite present_odd. rewrite Z.odd_add.
  assert (Z.odd f = false) as ->; [|by destruct (Z.odd flags)].
  rewrite <- Z.negb_even. apply negb_false_iff, Z.even_spec. exists (f / 2). zlia.
Qed.

Lemma shiftr_12 v : Z.shiftr v 12 = v / 4096.
Proof. by rewrite Z.shiftr_div_pow2. Qed.
Lemma shiftr_22 v : Z.shiftr v 22 = v / 4194304.
Proof. by rewrite Z.shiftr_div_pow2. Qed.

Lemma pd_index_vpn v : is_u32 v -> pd_index v = v / 4096 / 1024.
Proof.
  intros Hv. unfold pd_index, PD_INDEX_SHIFT, PD_PT_INDEX_MASK. rewrite shiftr_22.
  change 0x3FF with (Z.ones 10). rewrite Z.land_ones by lia. change (2 ^ 10) with 1024.
  unfold is_u32 in Hv. zlia.
Qed.
Lemma pt_index_vpn v : is_u32 v -> pt_index v = (v / 4096) mod 1024.
Proof.
  intros Hv. unfold pt_index, PT_INDEX_SHIFT, PD_PT_INDEX_MASK. rewrite shiftr_12.
  change 0x3FF with (Z.ones 10). by rewrite Z.land_ones by lia.
Qed.
Lemma land_offset v : Z.land v 0xFFF = v mod 4096.
Proof. change 0xFFF with (Z.ones 12). by rewrite Z.land_ones by lia. Qed.

(** Words of different frames are different. *)
Lemma frames_apart f g j k : f mod 4096 = 0 -> g mod 4096 = 0 -> f <> g ->
  0 <= j < 1024 -> 0 <= k < 1024 -> f + 4 * j <> g + 4 * k.
Proof. intros. zlia. Qed.

(** ** The walk as a function *)
Definition base (s : vm) : Z := frame_of (cr3 s).
Definition pde (s : vm) (i : Z) : option Z := phys s !! (base s + 4 * i).

(** The page-table entry of virtual page [m], when [m] is mapped. *)
Definition walk (s : vm) (m : Z) : option Z :=
  d ← pde s (m / 1024);
  if present d then
    e ← phys s !! (frame_of d + 4 * (m mod 1024));
    if present e then Some e else None
  else None.

(** The words the walk of [m] reads. *)
Definition uses (s : vm) (m a : Z) : Prop :=
  a = base s + 4 * (m / 1024) \/
  exists d, pde s (m / 1024) = Some d /\ present d = true /\ a = frame_of d + 4 * (m mod 1024).

Lemma walk_agree s s' m : base s' = base s ->
  (forall a, uses s m a -> phys s' !! a = phys s !! a) ->
  walk s' m = walk s m /\ forall a, uses s' m a <-> uses s m a.
Proof.
  intros Hb Ha. assert (Hd : pde s' (m / 1024) = pde s (m / 1024)).
  { unfold pde. rewrite Hb. apply Ha. by left. }
  unfold walk, uses. rewrite Hd, Hb. split; [|done].
  destruct (pde s (m / 1024)) as [d|] eqn:E; [|done]. cbn.
  destruct (present d) eqn:Ep; [|done]. rewrite Ha; [done|]. right. eauto.
Qed.

(** A state whose cache also holds [e] for page [m]. *)
Definition cached (m e : Z) (s : vm) : vm := set_tlb (<[m := e]> (tlb s)) s.

Lemma cached_id m e s : tlb s !! m = Some e -> cached m e s = s.
Proof. intros H. unfold cached. rewrite insert_id by done. by destruct s. Qed.

Lemma cached_cached m e s : cached m e (cached m e s) = cached m e s.
Proof. unfold cached. cbn [tlb set_tlb]. by rewrite insert_insert_eq. Qed.

Definition hit_ok (s : vm) (m e : Z) : Prop := forall e', tlb s !! m = Some e' -> e' = e.

Lemma wp_translate s v e Q : is_u32 v -> walk s (v / 4096) = Some e -> hit_ok s (v / 4096) e ->
  Q (frame_of e + v mod 4096) (cached (v / 4096) e s) -> wp (translate v) s Q.
Proof.
  intros Hv Hw Hh HQ. apply wp_bind, wp_bind, wp_get. rewrite shiftr_12.
  destruct (tlb s !! (v / 4096)) as [e'|] eqn:Et.
  - pose proof (Hh e' Et); subst e'. apply wp_ret, wp_ret. rewrite land_offset.
    rewrite (cached_id _ _ _ Et) in HQ. exact HQ.
  - unfold walk, pde, base in Hw. rewrite pd_index_vpn, pt_index_vpn by done.
    destruct (phys s !! (frame_of (cr3 s) + 4 * (v / 4096 / 1024))) as [d|] eqn:Ed; [|done].
    cbn in Hw. destruct (present d) eqn:Ep; [|done].
    destruct (phys s !! (frame_of d + 4 * ((v / 4096) mod 1024))) as [e'|] eqn:Ee; [|done].
    cbn in Hw. destruct (present e') eqn:Epe; [|done]. injection Hw as ->.
    apply wp_bind. unfold wp at 1, pread at 1. rewrite Ed, Ep. cbn [negb].
    apply wp_bind. unfold wp at 1, pread at 1. rewrite Ee, Epe. cbn [negb].
    apply wp_bind, wp_modify, wp_ret, wp_ret. by rewrite land_offset.
Qed.

Lemma wp_vread s v e w Q : is_u32 v -> walk s (v / 4096) = Some e -> hit_ok s (v / 4096) e ->
  phys s !! (frame_of e + v mod 4096) = Some w ->
  Q w (cached (v / 4096) e s) -> wp (vread v) s Q.
Proof.
  intros Hv Hw Hh Hp HQ. apply wp_bind, (wp_translate _ _ e); [done|done|done|].
  unfold wp, pread. cbn [phys cached set_tlb]. by rewrite Hp.
Qed.

Lemma wp_vwrite s v e w Q : is_u32 v -> walk s (v / 4096) = Some e -> hit_ok s (v / 4096) e ->
  is_Some (phys s !! (frame_of e + v mod 4096)) ->
  Q tt (set_phys (<[frame_of e + v mod 4096 := w]> (phys s)) (cached (v / 4096) e s)) ->
  wp (vwrite v w) s Q.
Proof.
  intros Hv Hw Hh [x Hp] HQ. apply wp_bind, (wp_translate _ _ e); [done|done|done|].
  unfold wp, pwrite. cbn [phys cached set_tlb]. by rewrite Hp.
Qed.

(** [m'] is [m] with the first [n] words of frame [f] cleared. *)
Definition zeroed (f n : Z) (m m' : gmap Z Z) : Prop :=
  (forall k, 0 <= k < n -> m' !! (f + 4 * k) = Some 0) /\
  (forall a, (forall k, 0 <= k < n -> a <> f + 4 * k) -> m' !! a = m !! a).

Lemma zeroed_refl f m : zeroed f 0 m m.
Proof. split; [lia|done]. Qed.

Lemma zeroed_step f n m m' : 0 <= n -> zeroed f n m m' -> zeroed f (n + 1) m (<[f + 4 * n := 0]> m').
Proof.
  intros Hn [H1 H2]. split.
  - intros k Hk. destruct (decide (k = n)) as [->|]; [apply lookup_insert_eq|].
    rewrite lookup_insert_ne by lia. apply H1. lia.
  - intros a Ha. rewrite lookup_insert_ne by (intros <-; apply (Ha n); lia).
    apply H2. intros k Hk. apply Ha. lia.
Qed.

Lemma set_phys_cached ph m e s : set_phys ph (cached m e s) = cached m e (set_phys ph s).
Proof. done. Qed.

Lemma wp_memset_page s v e Q :
  is_u32 v -> v mod 4096 = 0 -> walk s (v / 4096) = Some e -> hit_ok s (v / 4096) e ->
  (forall k, 0 <= k < 1024 -> is_Some (phys s !! (frame_of e + 4 * k))) ->
  (forall a k, uses s (v / 4096) a -> 0 <= k < 1024 -> a <> frame_of e + 4 * k) ->
  (forall ph, zeroed (frame_of e) 1024 (phys s) ph ->
     Q tt (set_phys ph (cached (v / 4096) e s))) ->
  wp (memset_page v) s Q.
Proof.
  intros Hv Hv0 Hw Hh Hram Huse HQ. set (f := frame_of e) in *. set (m := v / 4096) in *.
  apply (wp_for (fun i s' => exists ph s0, zeroed f i (phys s) ph /\ s' = set_phys ph s0 /\
    (s0 = s /\ i = 0 \/ s0 = cached m e s))).
  - exists (phys s), s. split_and!; [apply zeroed_refl|by destruct s|by left].
  - intros i s' Hi (ph & s0 & Hz & -> & Hs0). cbn [Z.of_nat] in Hi.
    assert (E0 : base s0 = base s /\ phys s0 = phys s /\ hit_ok s0 m e /\ cached m e s0 = cached m e s).
    { destruct Hs0 as [[-> _]| ->]; [done|]. split_and!; [done|done| |apply cached_cached].
      intros e'. cbn [tlb cached set_tlb]. rewrite lookup_insert_eq. by intros [= ->]. }
    destruct E0 as (Eb & Ep & Hh0 & Ec). unfold is_u32 in Hv.
    assert (Ev : v +! 4 * i = v + 4 * i) by (apply u32_small; unfold is_u32; zlia).
    assert (Em : (v + 4 * i) / 4096 = m) by (unfold m; zlia).
    assert (Eo : (v + 4 * i) mod 4096 = 4 * i) by zlia.
    assert (Hwk : walk (set_phys ph s0) m = Some e).
    { rewrite <- Hw. apply walk_agree; [done|]. intros a Ha. cbn [phys set_phys].
      apply Hz. intros k Hk. apply Huse; [done|lia]. }
    rewrite Ev. apply (wp_vwrite _ _ e); [unfold is_u32; zlia|by rewrite Em|by rewrite Em|..].
    + rewrite Eo. cbn [phys set_phys]. fold f. rewrite (proj2 Hz) by lia. by apply Hram.
    + rewrite Eo, Em. cbn [phys set_phys]. fold f.
      exists (<[f + 4 * i := 0]> ph), (cached m e s). split_and!.
      * apply zeroed_step; [lia|done].
      * by rewrite <- Ec.
      * by right.
  - intros s' (ph & s0 & Hz & -> & [[_ ?]| ->]); [lia|]. by apply HQ.
Qed.

(** ** The invariant *)
Definition ram_frame (s : vm) (f : Z) : Prop :=
  f mod 4096 = 0 /\ is_u32 f /\
  forall k, 0 <= k < 1024 -> exists w, phys s !! (f + 4 * k) = Some w /\ is_u32 w.

Definition frame_used (s : vm) (f : Z) : Prop := page_used (frames s) (f / 4096) = true.

(** Frame [f] holds table [i] of the running address space. *)
Definition table (s : vm) (i f : Z) : Prop :=
  exists e, pde s i = Some e /\ present e = true /\ frame_of e = f.

Definition vpn_ok (m : Z) : Prop := 0 <= m < 1048576 /\ m / 1024 <> 1022.

Record vm_wf (s : vm) : Prop := {
  v_base : ram_frame s (base s) /\ frame_used s (base s);
  v_self : table s 1023 (base s);
  v_tables : forall i f, 0 <= i < 1022 -> table s i f ->
    ram_frame s f /\ frame_used s f /\ f <> base s;
  v_dist : forall i j f, 0 <= i < 1022 -> 0 <= j < 1022 -> table s i f -> table s j f -> i = j;
  v_tlb : forall m e, tlb s !! m = Some e -> vpn_ok m /\ walk s m = Some e;
  v_pmm : pmm_wf (frames s);
  v_zero : page_used (frames s) 0 = true;
  v_ram : forall n, 0 <= n < frame_limit (frames s) -> ram_frame s (n * 4096)
}.

Lemma wf_hit s m e : vm_wf s -> walk s m = Some e -> hit_ok s m e.
Proof. intros Hwf Hw e' He'. apply (v_tlb _ Hwf) in He' as [_ He']. congruence. Qed.

Lemma table_fun s i f g : table s i f -> table s i g -> f = g.
Proof. intros (e & He & _ & <-) (e' & He' & _ & <-). congruence. Qed.

(** The words read by the walk of [m]: entries of the directory or of the
    table of [m]. *)
Lemma uses_cases s m a : vm_wf s -> vpn_ok m -> uses s m a ->
  (exists k, 0 <= k < 1024 /\ a = base s + 4 * k /\
     (k = m / 1024 \/ m / 1024 = 1023 /\ k = m mod 1024)) \/
  (exists f, m / 1024 < 1022 /\ table s (m / 1024) f /\ a = f + 4 * (m mod 1024)).
Proof.
  intros Hwf [Hm Hne] [->|(d & Hd & Hp & ->)].
  - left. exists (m / 1024). split_and!; [zlia|zlia|done|by left].
  - destruct (decide (m / 1024 = 1023)) as [E|].
    + left. exists (m mod 1024). split_and!; [zlia|zlia| |by right].
      destruct (v_self _ Hwf) as (e & He & _ & Hf). rewrite <- Hf, E in *. congruence.
    + right. exists (frame_of d). split_and!; [zlia| |done]. by exists d.
Qed.

(** ** The windows of the recursive mapping *)
Lemma walk_pd_window s : vm_wf s ->
  exists e, walk s 1048575 = Some e /\ frame_of e = base s.
Proof.
  intros Hwf. destruct (v_self _ Hwf) as (e & He & Hp & Hf). exists e. split; [|done].
  unfold walk. change (1048575 / 1024) with 1023. rewrite He. cbn [mbind option_bind]. rewrite Hp.
  change (1048575 mod 1024) with 1023. rewrite Hf. unfold pde in He. rewrite He. cbn. by rewrite Hp.
Qed.

(** The window of table [i] shows the frame of directory entry [i]. *)
Lemma walk_pt_window s i d : vm_wf s -> 0 <= i < 1024 -> pde s i = Some d -> present d = true ->
  walk s (1047552 + i) = Some d.
Proof.
  intros Hwf Hi Hd Hpd. destruct (v_self _ Hwf) as (e & He & Hp & Hf).
  unfold walk. replace ((1047552 + i) / 1024) with 1023 by zlia.
  rewrite He. cbn [mbind option_bind]. rewrite Hp, Hf.
  replace ((1047552 + i) mod 1024) with i by zlia. unfold pde in Hd. rewrite Hd. cbn. by rewrite Hpd.
Qed.

Lemma window_pd i : 0 <= i < 1024 ->
  PD_WINDOW +! 4 *! i = 0xFFFFF000 + 4 * i /\ (0xFFFFF000 + 4 * i) / 4096 = 1048575 /\
  (0xFFFFF000 + 4 * i) mod 4096 = 4 * i /\ is_u32 (0xFFFFF000 + 4 * i).
Proof.
  intros Hi. unfold PD_WINDOW. rewrite (u32_small (4 * i)) by (unfold is_u32; lia).
  rewrite u32_small by (unfold is_u32; lia). unfold is_u32. split_and!; try lia; zlia.
Qed.

Lemma window_pt m : 0 <= m < 1048576 ->
  PTS_WINDOW +! 4 *! m = 0xFFC00000 + 4 * m /\ (0xFFC00000 + 4 * m) / 4096 = 1047552 + m / 1024 /\
  (0xFFC00000 + 4 * m) mod 4096 = 4 * (m mod 1024) /\ is_u32 (0xFFC00000 + 4 * m).
Proof.
  intros Hm. unfold PTS_WINDOW. rewrite (u32_small (4 * m)) by (unfold is_u32; lia).
  rewrite u32_small by (unfold is_u32; lia). unfold is_u32. split_and!; try lia; zlia.
Qed.

Lemma wf_cached s m e : vm_wf s -> vpn_ok m -> walk s m = Some e -> vm_wf (cached m e s).
Proof.
  intros [] Hm Hw. split; try done. intros m' e'. cbn [tlb cached set_tlb].
  destruct (decide (m' = m)) as [->|].
  - rewrite lookup_insert_eq. intros [= <-]. done.
  - rewrite lookup_insert_ne by done. apply v_tlb0.
Qed.

Lemma vpn_ok_pd : vpn_ok 1048575.
Proof. by split. Qed.

Lemma wp_pd_get s i w Q : vm_wf s -> 0 <= i < 1024 -> pde s i = Some w ->
  (forall e, walk s 1048575 = Some e -> vm_wf (cached 1048575 e s) -> Q w (cached 1048575 e s)) ->
  wp (window_get PD_WINDOW i) s Q.
Proof.
  intros Hwf Hi Hw HQ. destruct (walk_pd_window s Hwf) as (e & He & Hf).
  destruct (window_pd i Hi) as (E1 & E2 & E3 & E4). unfold window_get. rewrite E1.
  apply (wp_vread _ _ e w); rewrite ?E2, ?E3, ?Hf; [done|done|by apply wf_hit|done|].
  apply HQ; [done|]. apply wf_cached; [done|apply vpn_ok_pd|done].
Qed.

(** ** Carrying the invariant over a step *)
Definition ram_keeps (s s' : vm) : Prop :=
  forall a w, phys s !! a = Some w -> is_u32 w -> exists w', phys s' !! a = Some w' /\ is_u32 w'.

Lemma ram_keeps_insert s s' a w : phys s' = <[a := w]> (phys s) -> is_u32 w -> ram_keeps s s'.
Proof.
  intros E Hw b x Hb Hx. rewrite E. destruct (decide (b = a)) as [->|].
  - exists w. by rewrite lookup_insert_eq.
  - exists x. by rewrite lookup_insert_ne.
Qed.

Lemma ram_keeps_zeroed s s' f n : zeroed f n (phys s) (phys s') -> ram_keeps s s'.
Proof.
  intros [H1 H2] a w Ha Hw.
  destruct (decide (0 <= (a - f) / 4 < n /\ (a - f) mod 4 = 0)) as [Hin|Hout].
  - exists 0. split; [|unfold is_u32; lia]. replace a with (f + 4 * ((a - f) / 4)) by zlia.
    apply H1. lia.
  - exists w. split; [|done]. rewrite H2; [done|]. intros k Hk ->. apply Hout. zlia.
Qed.

Lemma ram_frame_keeps s s' f : ram_keeps s s' -> ram_frame s f -> ram_frame s' f.
Proof.
  intros Hk (H1 & H2 & H3). split_and!; [done|done|]. intros k Hk'.
  destruct (H3 k Hk') as (w & Hw & Hu). by eapply Hk.
Qed.

(** The frame allocator only moved on: same range, no frame released. *)
Definition more_used (s s' : vm) : Prop :=
  pmm_wf (frames s') /\ frame_limit (frames s') = frame_limit (frames s) /\
  forall n, 0 <= n -> page_used (frames s) n = true -> page_used (frames s') n = true.

Lemma more_used_refl s s' : vm_wf s -> frames s' = frames s -> more_used s s'.
Proof. intros Hwf E. unfold more_used. rewrite E. split_and!; [apply Hwf|done|done]. Qed.

Lemma used_more s s' f : more_used s s' -> is_u32 f -> frame_used s f -> frame_used s' f.
Proof. intros (_ & _ & H) [Hf _] Hu. apply H; [apply Z.div_pos; lia|done]. Qed.

Lemma wf_transfer s s' : vm_wf s -> base s' = base s ->
  (forall i, 0 <= i < 1024 -> i <> 1022 -> pde s' i = pde s i) ->
  ram_keeps s s' -> more_used s s' ->
  (forall m e, tlb s' !! m = Some e -> vpn_ok m /\ walk s' m = Some e) -> vm_wf s'.
Proof.
  intros Hwf Hb Hpde Hram Hused Htlb.
  assert (Ht : forall i f, 0 <= i < 1024 -> i <> 1022 -> table s' i f <-> table s i f).
  { intros i f Hi Hne. unfold table. by rewrite Hpde. }
  split.
  - rewrite Hb. destruct (v_base _ Hwf) as [Hr Hu]. split; [by eapply ram_frame_keeps|].
    eapply used_more; [done|apply Hr|done].
  - rewrite Hb. apply Ht; [lia|lia|apply Hwf].
  - intros i f Hi Hf. apply Ht in Hf; [|lia|lia]. rewrite Hb.
    destruct (v_tables _ Hwf i f Hi Hf) as (Hr & Hu & Hne).
    split_and!; [by eapply ram_frame_keeps| |done]. eapply used_more; [done|apply Hr|done].
  - intros i j f Hi Hj Hf Hg. apply Ht in Hf; [|lia|lia]. apply Ht in Hg; [|lia|lia].
    by eapply (v_dist _ Hwf).
  - done.
  - apply Hused.
  - apply Hused; [lia|apply Hwf].
  - intros n Hn. eapply ram_frame_keeps; [done|]. apply (v_ram _ Hwf).
    by rewrite <- (proj1 (proj2 Hused)).
Qed.

(** Words of base and tables, by cases. *)
Lemma base_word s i : vm_wf s -> 0 <= i < 1024 -> exists w, pde s i = Some w /\ is_u32 w.
Proof. intros Hwf Hi. destruct (v_base _ Hwf) as [(_ & _ & H) _]. by apply H. Qed.

(** ** Setting a page-table entry *)
Record pte_set (s s' : vm) (m w : Z) : Prop := {
  ps_wf : vm_wf s';
  ps_cr3 : cr3 s' = cr3 s;
  ps_frames : frames s' = frames s;
  ps_phys : exists T, table s (m / 1024) T /\ phys s' = <[T + 4 * (m mod 1024) := w]> (phys s);
  ps_walk : walk s' m = if present w then Some w else None;
  ps_other : forall m', vpn_ok m' -> m' <> m -> walk s' m' = walk s m'
}.

Lemma wp_set_pte s v paddr flags T Q :
  vm_wf s -> is_u32 v -> v / 4194304 < 1022 -> table s (v / 4096 / 1024) T ->
  let w := Z.lor (Z.land paddr 0xFFFFF000) flags in
  is_u32 w -> (forall s', pte_set s s' (v / 4096) w -> Q tt s') ->
  wp (vmm_set_pte_at PTS_WINDOW v paddr flags) s Q.
Proof.
  intros Hwf Hv Hlow HT w Hw HQ. unfold is_u32 in Hv. set (m := v / 4096) in *.
  assert (Hm : 0 <= m < 1048576 /\ 0 <= m / 1024 < 1022) by (unfold m; zlia). destruct Hm as [Hm Hi].
  pose proof HT as HT'. destruct HT' as (d & Hd & Hpd & HdT).
  pose proof (walk_pt_window s (m / 1024) d Hwf ltac:(lia) Hd Hpd) as Hwin.
  destruct (window_pt m Hm) as (E1 & E2 & E3 & E4).
  destruct (v_tables _ Hwf _ _ Hi HT) as ((HT4 & HTu & HTram) & _ & HTb).
  destruct (v_base _ Hwf) as [(Hb4 & _ & _) _].
  unfold vmm_set_pte_at, PT_INDEX_SHIFT. rewrite shiftr_12. fold m w. cbv zeta.
  apply wp_bind. unfold window_set. rewrite E1.
  destruct (HTram (m mod 1024) ltac:(zlia)) as (x & Hx & _).
  apply (wp_vwrite _ _ d); rewrite ?E2, ?E3, ?HdT; [done|done|by apply wf_hit|by eexists|].
  rewrite Z.eqb_refl. unfold when, vmm_invlpg. apply wp_modify. rewrite shiftr_12. fold m.
  apply HQ. set (pa := T + 4 * (m mod 1024)).
  set (s' := set_tlb _ (set_phys _ _)).
  assert (Hne : forall m' a, vpn_ok m' -> m' <> m -> uses s m' a -> a <> pa).
  { intros m' a Hm' Hmm Ha. destruct (uses_cases s m' a Hwf Hm' Ha) as [(k & Hk & -> & _)|(f & Hlt & Hf & ->)].
    - apply frames_apart; [done|done|congruence|done|zlia].
    - destruct Hm' as [Hm' _]. destruct (decide (f = T)) as [->|HfT].
      + assert (m' / 1024 = m / 1024) by (eapply (v_dist _ Hwf); [zlia|lia|done|done]). unfold pa. zlia.
      + destruct (v_tables _ Hwf (m' / 1024) f ltac:(zlia) Hf) as ((? & _) & _).
        apply frames_apart; [done|done|done|zlia|zlia]. }
  assert (Hoth : forall m', vpn_ok m' -> m' <> m -> walk s' m' = walk s m').
  { intros m' Hm' Hmm. apply walk_agree; [done|]. intros a Ha. cbn [phys s' set_tlb set_phys].
    rewrite lookup_insert_ne; [done|]. intros <-. by apply (Hne m' pa). }
  assert (Hpde : forall i, 0 <= i < 1024 -> pde s' i = pde s i).
  { intros i Hi'. unfold pde. cbn [phys s' set_tlb set_phys]. rewrite lookup_insert_ne; [done|].
    apply frames_apart; [done|done|exact HTb|zlia|done]. }
  split; [|done|done|by exists T| |done].
  - apply (wf_transfer s); [done|done|auto|by eapply ram_keeps_insert|by apply more_used_refl|].
    intros m' e'. cbn [tlb s' set_tlb set_phys cached]. rewrite lookup_delete_Some. intros [Hmm Ht].
    assert (vpn_ok m' /\ walk s m' = Some e') as [Hok Hwk].
    { destruct (decide (m' = 1047552 + m / 1024)) as [->|].
      - rewrite lookup_insert_eq in Ht. injection Ht as <-. split; [split; zlia|done].
      - rewrite lookup_insert_ne in Ht by done. by apply (v_tlb _ Hwf). }
    split; [done|]. by rewrite Hoth.
  - unfold walk. rewrite Hpde by lia. rewrite Hd. cbn [mbind option_bind]. rewrite Hpd, HdT.
    cbn [phys s' set_tlb set_phys]. rewrite lookup_insert_eq. cbn. done.
Qed.

(** ** Taking a frame *)

(** Neither the directory nor a table of the running address space. *)
Definition data_frame (s : vm) (f : Z) : Prop :=
  f <> base s /\ forall i, 0 <= i < 1022 -> ~ table s i f.

Lemma unused_data s f : vm_wf s -> page_used (frames s) (f / 4096) = false -> data_frame s f.
Proof.
  intros Hwf Hf. split.
  - intros ->. destruct (v_base _ Hwf) as [_ Hu]. unfold frame_used in Hu. congruence.
  - intros i Hi Ht. destruct (v_tables _ Hwf i f Hi Ht) as (_ & Hu & _). unfold frame_used in Hu. congruence.
Qed.

(** [s'] is [s] with the free frame [n] taken. *)
Record frame_taken (s s' : vm) (n : Z) : Prop := {
  ft_wf : vm_wf s';
  ft_state : exists p, s' = set_frames p s;
  ft_range : 0 < n < frame_limit (frames s);
  ft_free : page_used (frames s) n = false;
  ft_used : forall k, 0 <= k -> page_used (frames s') k = page_used (frames s) k || (k =? n);
  ft_limit : frame_limit (frames s') = frame_limit (frames s)
}.

Definition no_frame (s : vm) : Prop :=
  forall n, 0 <= n < frame_limit (frames s) -> page_used (frames s) n = true.

Lemma wp_pmm_alloc s Q : vm_wf s -> (no_frame s -> Q 0 s) ->
  (forall n s', frame_taken s s' n -> Q (n * 4096) s') -> wp pmm_alloc s Q.
Proof.
  intros Hwf HN HS. unfold wp, pmm_alloc.
  destruct (pmm_alloc_page_spec (frames s) (v_pmm _ Hwf)) as (r & p & -> & Ho & Hp & Hu).
  destruct Ho as [(n & -> & Hn & Hf & Hall)|(-> & -> & Hfull)].
  - apply HS. assert (n <> 0) by (intros ->; rewrite (v_zero _ Hwf) in Hf; done).
    assert (Hm : more_used s (set_frames p s)).
    { split_and!; [done|unfold frame_limit; cbn [frames set_frames]; lia|]. intros k Hk Hku.
      cbn [frames set_frames]. by rewrite Hall, Hku. }
    split; [|by exists p|lia|done|done|unfold frame_limit; cbn [frames set_frames]; lia].
    apply (wf_transfer s); [done|done|done|intros ? ?; eauto|done|]. apply Hwf.
  - enough (set_frames (frames s) s = s) as -> by auto. by destruct s.
Qed.

Lemma taken_frame s s' n : vm_wf s -> frame_taken s s' n ->
  ram_frame s' (n * 4096) /\ frame_used s' (n * 4096) /\ data_frame s' (n * 4096) /\ n * 4096 <> 0.
Proof.
  intros Hwf [Hwf' [p ->] Hn Hf Hu Hl]. split_and!.
  - apply (v_ram _ Hwf'). rewrite Hl. lia.
  - unfold frame_used. rewrite Z.div_mul by lia. rewrite Hu by lia. by rewrite Z.eqb_refl, orb_true_r.
  - apply (unused_data s); [done|]. by rewrite Z.div_mul by lia.
  - lia.
Qed.

(** ** Clearing a page that is not a table *)
Record page_zeroed (s s' : vm) (f : Z) : Prop := {
  pz_wf : vm_wf s';
  pz_cr3 : cr3 s' = cr3 s;
  pz_frames : frames s' = frames s;
  pz_phys : zeroed f 1024 (phys s) (phys s');
  pz_walk : forall m, vpn_ok m -> walk s' m = walk s m
}.

Lemma wp_zero_data s v e Q : vm_wf s -> is_u32 v -> v mod 4096 = 0 -> vpn_ok (v / 4096) ->
  walk s (v / 4096) = Some e -> ram_frame s (frame_of e) -> data_frame s (frame_of e) ->
  (forall s', page_zeroed s s' (frame_of e) -> Q tt s') -> wp (memset_page v) s Q.
Proof.
  intros Hwf Hv Hv0 Hm Hw (Hf4 & _ & Hram) [Hfb Hft] HQ.
  destruct (v_base _ Hwf) as [(Hb4 & _ & _) _].
  assert (Huse : forall m a k, vpn_ok m -> uses s m a -> 0 <= k < 1024 -> a <> frame_of e + 4 * k).
  { intros m a k Hok Ha Hk. destruct (uses_cases s m a Hwf Hok Ha) as [(j & Hj & -> & _)|(f & Hlt & Hf & ->)].
    - apply frames_apart; [done|done|congruence|done|done].
    - assert (0 <= m / 1024 < 1022) by (destruct Hok; zlia).
      destruct (v_tables _ Hwf (m / 1024) f ltac:(done) Hf) as ((? & _) & _).
      apply frames_apart; [done|done| |zlia|done]. intros ->. by apply (Hft (m / 1024)). }
  apply (wp_memset_page s v e); [done|done|done|by apply wf_hit| | |].
  - intros k Hk. destruct (Hram k Hk) as (w & -> & _). eauto.
  - intros a k. by apply Huse.
  - intros ph Hz. apply HQ. set (s' := set_phys ph _).
    assert (Hwalk : forall m, vpn_ok m -> walk s' m = walk s m).
    { intros m Hok. apply walk_agree; [done|]. intros a Ha. cbn [phys s' set_phys].
      apply Hz. intros k Hk. by apply (Huse m). }
    split; [|done|done|done|done].
    apply (wf_transfer s); [done|done| | |by apply more_used_refl|].
    + intros i Hi _. unfold pde. cbn [phys s' set_phys]. apply Hz. intros k Hk.
      apply frames_apart; [done|done|exact (not_eq_sym Hfb)|done|done].
    + by eapply ram_keeps_zeroed.
    + intros m e'. cbn [tlb s' set_phys cached set_tlb]. destruct (decide (m = v / 4096)) as [->|].
      * rewrite lookup_insert_eq. intros [= <-]. split; [done|]. by rewrite Hwalk.
      * rewrite lookup_insert_ne by done. intros Ht. destruct (v_tlb _ Hwf _ _ Ht) as [? ?].
        split; [done|]. by rewrite Hwalk.
Qed.

(** ** Adding a page table *)
Record table_added (s s' : vm) (i f : Z) : Prop := {
  ta_wf : vm_wf s';
  ta_cr3 : cr3 s' = cr3 s;
  ta_frames : frames s' = frames s;
  ta_table : forall j g, 0 <= j < 1024 -> table s' j g <-> if j =? i then g = f else table s j g;
  ta_phys : forall a, a <> base s + 4 * i -> (forall k, 0 <= k < 1024 -> a <> f + 4 * k) ->
    phys s' !! a = phys s !! a;
  ta_walk : forall m, 0 <= m < 1046528 -> walk s' m = walk s m
}.

(** The invariant for the finished table: [s3] has the entry [w] in slot [i] and
    a cleared table in [P]. *)
Lemma wf_table_added s s3 i P w d ph :
  vm_wf s -> 0 <= i < 1022 -> pde s i = Some d -> present d = false ->
  ram_frame s P -> frame_used s P -> data_frame s P ->
  is_u32 w -> frame_of w = P -> present w = true ->
  zeroed P 1024 (<[base s + 4 * i := w]> (phys s)) ph ->
  cr3 s3 = cr3 s -> frames s3 = frames s -> phys s3 = ph ->
  (forall m e, tlb s3 !! m = Some e -> m = 1047552 + i /\ e = w \/
     m <> 1047552 + i /\ vpn_ok m /\ walk s m = Some e) ->
  table_added s s3 i P.
Proof.
  intros Hwf Hi Hd Hdp HP HPu [HPb HPt] Hw HwP Hwp [Hz1 Hz2] Ec Ef Ep Htlb.
  pose proof HP as (HP4 & HPu32 & HPram). destruct (v_base _ Hwf) as [Hbr Hbu].
  pose proof Hbr as (Hb4 & _ & _).
  assert (Eb : base s3 = base s) by (unfold base; by rewrite Ec).
  assert (Hdir : forall j, 0 <= j < 1024 -> pde s3 j = if j =? i then Some w else pde s j).
  { intros j Hj. unfold pde. rewrite Ep, Eb, Hz2.
    - destruct (Z.eqb_spec j i) as [->|]; [apply lookup_insert_eq|by rewrite lookup_insert_ne by lia].
    - intros k Hk. apply frames_apart; [done|done|congruence|done|done]. }
  assert (Hframe : forall a, a <> base s + 4 * i -> (forall k, 0 <= k < 1024 -> a <> P + 4 * k) ->
    phys s3 !! a = phys s !! a).
  { intros a Ha HaP. by rewrite Ep, Hz2, lookup_insert_ne by (done || congruence). }
  assert (Htab : forall j f, 0 <= j < 1024 -> table s3 j f <-> if j =? i then f = P else table s j f).
  { intros j f Hj. unfold table. rewrite Hdir by done. destruct (Z.eqb_spec j i) as [->|]; [|done]. split.
    - intros (e & [= <-] & _ & <-). done.
    - intros ->. by exists w. }
  assert (Hkeep : ram_keeps s s3).
  { intros a x Ha Hx. destruct (ram_keeps_insert s (set_phys (<[base s + 4 * i := w]> (phys s)) s) _ w eq_refl Hw a x Ha Hx)
      as (x1 & Hx1 & Hu1). rewrite Ep.
    by apply (ram_keeps_zeroed (set_phys (<[base s + 4 * i := w]> (phys s)) s) (set_phys ph s) P 1024 (conj Hz1 Hz2) a x1). }
  assert (Hsame : forall m, vpn_ok m -> m / 1024 <> i -> m <> 1047552 + i -> walk s3 m = walk s m).
  { intros m Hok Hmi Hmw. apply walk_agree; [done|]. intros a Ha. pose proof Hok as [Hm _].
    destruct (uses_cases s m a Hwf Hok Ha) as [(k & Hk & -> & Hkm)|(f & Hlt & Hf & ->)].
    - apply Hframe; [|intros j Hj; apply frames_apart; congruence || lia].
      enough (k <> i) by lia. destruct Hkm as [-> |[E ->]]; [done|]. zlia.
    - destruct (v_tables _ Hwf (m / 1024) f ltac:(zlia) Hf) as ((Hf4 & _) & _ & Hfb).
      apply Hframe; [apply frames_apart; [done|done|done|zlia|lia]|].
      intros j Hj. apply frames_apart; [done|done| |zlia|done]. intros ->. by apply (HPt (m / 1024) ltac:(zlia)). }
  assert (Hrange : forall m, m / 1024 = i -> walk s3 m = None /\ walk s m = None).
  { intros m E. unfold walk. rewrite E, Hdir, Z.eqb_refl, Hd by lia. cbn. rewrite Hdp, Hwp, HwP. split; [|done].
    rewrite Ep, Hz1 by zlia. done. }
  assert (Hwin : walk s3 (1047552 + i) = Some w).
  { destruct (v_self _ Hwf) as (e & He & Hpe & Hfe). unfold walk.
    replace ((1047552 + i) / 1024) with 1023 by zlia. replace ((1047552 + i) mod 1024) with i by zlia.
    rewrite Hdir by lia. destruct (Z.eqb_spec 1023 i); [lia|]. rewrite He. cbn. rewrite Hpe, Hfe.
    specialize (Hdir i ltac:(lia)). unfold pde in Hdir. rewrite Eb in Hdir. rewrite Hdir, Z.eqb_refl.
    cbn. by rewrite Hwp. }
  split; [|done|done|exact Htab|exact Hframe|].
  - split.
    + rewrite Eb. unfold frame_used. rewrite Ef. split; [by eapply ram_frame_keeps|done].
    + rewrite Eb. apply Htab; [lia|]. destruct (Z.eqb_spec 1023 i); [lia|apply Hwf].
    + intros j f Hj Hf. apply Htab in Hf; [|lia]. rewrite Eb. unfold frame_used. rewrite Ef.
      destruct (Z.eqb_spec j i) as [->|].
      * subst f. split_and!; [by eapply ram_frame_keeps|done|done].
      * destruct (v_tables _ Hwf j f Hj Hf) as (? & ? & ?). split_and!; [by eapply ram_frame_keeps|done|done].
    + intros j k f Hj Hk Hf Hg. apply Htab in Hf; [|lia]. apply Htab in Hg; [|lia].
      destruct (Z.eqb_spec j i) as [->|], (Z.eqb_spec k i) as [->|]; [done|subst f..|].
      * exfalso. by apply (HPt k Hk).
      * exfalso. by apply (HPt j Hj).
      * by eapply (v_dist _ Hwf).
    + intros m e [[-> ->]|(Hm & Hok & Hwk)]%Htlb; [split; [split; zlia|done]|].
      split; [done|]. rewrite Hsame; [done|done| |done].
      intros E. destruct (Hrange m E) as [_ E2]. congruence.
    + rewrite Ef. apply Hwf.
    + rewrite Ef. apply Hwf.
    + rewrite Ef. intros n Hn. eapply ram_frame_keeps; [done|]. by apply (v_ram _ Hwf).
  - intros m Hm. destruct (decide (m / 1024 = i)) as [E|].
    + destruct (Hrange m E) as [-> ->]. done.
    + apply Hsame; [split; zlia|done|zlia].
Qed.

Lemma wp_new_table {A} s v P d (k : ST vm A) Q :
  vm_wf s -> is_u32 v -> v / 4194304 < 1022 ->
  pde s (v / 4194304) = Some d -> present d = false ->
  ram_frame s P -> frame_used s P -> data_frame s P ->
  (forall s', table_added s s' (v / 4194304) P -> wp k s' Q) ->
  wp (vmm_set_pde_at PD_WINDOW v P USER_FLAGS;;
      vmm_invlpg (PTS_WINDOW +! v / 4194304 *! PAGE_SIZE);;
      memset_page (PTS_WINDOW +! v / 4194304 *! PAGE_SIZE);; k) s Q.
Proof.
  intros Hwf Hv Hlt Hd Hdp HP HPu HPd HQ. unfold vmm_set_pde_at, PD_INDEX_SHIFT. rewrite shiftr_22.
  set (i := v / 4194304) in *.
  assert (Hi : 0 <= i < 1022) by (unfold i, is_u32 in *; zlia). clearbody i.
  pose proof HP as (HP4 & HPu32 & HPram). pose proof HPd as [HPb HPt].
  destruct (v_base _ Hwf) as [(Hb4 & _ & Hbram) _].
  destruct (walk_pd_window s Hwf) as (self & Hself & Hselff).
  destruct (window_pd i ltac:(lia)) as (E1 & E2 & E3 & E4).
  destruct (entry_parts P USER_FLAGS HPu32 HP4) as (Hw & HwP & Hwp); [done|].
  change (Z.odd USER_FLAGS) with true in Hwp. fold (frame_of P).
  rewrite (frame_of_frame P) by done. set (w := Z.lor P USER_FLAGS) in *. clearbody w.
  apply wp_bind. unfold window_set. rewrite E1.
  apply (wp_vwrite _ _ self); rewrite ?E2, ?E3, ?Hselff; [done|done|by apply wf_hit|by eexists|].
  assert (Ept : PTS_WINDOW +! i *! PAGE_SIZE = 4290772992 + i * 4096).
  { unfold PTS_WINDOW, PAGE_SIZE. rewrite (u32_small (i * 4096)) by (unfold is_u32; lia).
    apply u32_small. unfold is_u32. lia. }
  rewrite Ept. apply wp_bind. unfold vmm_invlpg. apply wp_modify. rewrite shiftr_12.
  assert (Em : (4290772992 + i * 4096) / 4096 = 1047552 + i) by zlia. rewrite Em.
  set (s2 := set_tlb _ _).
  assert (Hpde2 : forall j, 0 <= j < 1024 -> pde s2 j = if j =? i then Some w else pde s j).
  { intros j Hj. unfold pde. change (phys s2) with (<[base s + 4 * i := w]> (phys s)).
    change (base s2) with (base s).
    destruct (Z.eqb_spec j i) as [->|]; [apply lookup_insert_eq|by rewrite lookup_insert_ne by lia]. }
  assert (Huse : forall a k, uses s2 (1047552 + i) a -> 0 <= k < 1024 -> a <> P + 4 * k).
  { intros a j Ha Hj. destruct (v_self _ Hwf) as (e & He & Hpe & Hfe).
    destruct Ha as [->|(e' & He' & _ & ->)].
    - apply frames_apart; [done|done|exact (not_eq_sym HPb)|zlia|done].
    - replace ((1047552 + i) / 1024) with 1023 in He' by zlia.
      replace ((1047552 + i) mod 1024) with i by zlia. rewrite Hpde2 in He' by lia.
      destruct (Z.eqb_spec 1023 i); [lia|]. rewrite He in He'. injection He' as <-. rewrite Hfe.
      apply frames_apart; [done|done|exact (not_eq_sym HPb)|lia|done]. }
  apply wp_bind, (wp_memset_page s2 _ w); rewrite ?Em, ?HwP.
  - unfold is_u32. lia.
  - zlia.
  - destruct (v_self _ Hwf) as (e & He & Hpe & Hfe). unfold walk.
    replace ((1047552 + i) / 1024) with 1023 by zlia. replace ((1047552 + i) mod 1024) with i by zlia.
    rewrite Hpde2 by lia. destruct (Z.eqb_spec 1023 i); [lia|]. rewrite He. cbn [mbind option_bind].
    rewrite Hpe, Hfe. change (phys s2) with (<[base s + 4 * i := w]> (phys s)). rewrite lookup_insert_eq. cbn. by rewrite Hwp.
  - intros e'. cbn [tlb s2 set_tlb]. by rewrite lookup_delete_eq.
  - intros j Hj. destruct (HPram j Hj) as (x & Hx & _). change (phys s2) with (<[base s + 4 * i := w]> (phys s)).
    rewrite lookup_insert_ne; [by eexists|]. apply frames_apart; [done|done|exact (not_eq_sym HPb)|lia|done].
  - exact Huse.
  - intros ph Hz. apply HQ.
    apply (wf_table_added s _ i P w d ph); try done.
    intros m e. cbn [tlb set_phys cached set_tlb s2].
    destruct (decide (m = 1047552 + i)) as [->|Hne].
    + rewrite lookup_insert_eq. intros [= <-]. by left.
    + rewrite lookup_insert_ne, lookup_delete_ne by done. intros Ht. right. split; [done|].
      destruct (decide (m = 1048575)) as [->|].
      * rewrite lookup_insert_eq in Ht. injection Ht as <-. split; [apply vpn_ok_pd|done].
      * rewrite lookup_insert_ne in Ht by done. by apply (v_tlb _ Hwf).
Qed.

(** ** Installing a cleared page *)
Record installed (s s' : vm) (v f flags T : Z) : Prop := {
  in_wf : vm_wf s';
  in_cr3 : cr3 s' = cr3 s;
  in_frames : frames s' = frames s;
  in_walk : walk s' (v / 4096) = Some (Z.lor f flags);
  in_other : forall m, vpn_ok m -> m <> v / 4096 -> walk s' m = walk s m;
  in_zero : forall k, 0 <= k < 1024 -> phys s' !! (f + 4 * k) = Some 0;
  in_phys : forall a, a <> T + 4 * ((v / 4096) mod 1024) ->
    (forall k, 0 <= k < 1024 -> a <> f + 4 * k) -> phys s' !! a = phys s !! a
}.

Lemma wp_install s v f flags T Q :
  vm_wf s -> is_u32 v -> v mod 4096 = 0 -> v / 4194304 < 1022 -> table s (v / 4096 / 1024) T ->
  ram_frame s f -> data_frame s f -> 0 <= flags < 4096 -> Z.odd flags = true ->
  (forall s', installed s s' v f flags T -> Q true s') ->
  wp (vmm_set_pte_at PTS_WINDOW v f flags) s (fun _ s1 => wp (memset_page v;; mret true) s1 Q).
Proof.
  intros Hwf Hv Hv0 Hlow HT Hf Hfd Hfl Hodd HQ. pose proof Hf as (Hf4 & Hfu & Hfr).
  destruct (entry_parts f flags Hfu Hf4 Hfl) as (Hw & Hwf' & Hwp). rewrite Hodd in Hwp.
  assert (Hok : vpn_ok (v / 4096)) by (unfold is_u32 in Hv; split; zlia).
  apply (wp_set_pte _ _ _ _ T); [done|done|done|done|..]; fold (frame_of f); rewrite (frame_of_frame f) by done; [done|].
  intros s1 [W1 C1 F1 (T' & HT' & P1) K1 O1]. rewrite (table_fun _ _ _ _ HT' HT) in P1.
  assert (Hi : 0 <= v / 4096 / 1024 < 1022) by (unfold is_u32 in Hv; zlia).
  destruct (v_tables _ Hwf _ _ Hi HT) as ((HT4 & _ & _) & _ & HTb).
  destruct (v_base _ Hwf) as [(Hb4 & _ & _) _].
  assert (HTf : f <> T) by (intros ->; by apply (proj2 Hfd _ Hi)).
  rewrite Hwp in K1. assert (Eb : base s1 = base s) by (unfold base; by rewrite C1).
  assert (Hkeep : ram_keeps s s1) by (by eapply ram_keeps_insert).
  apply wp_bind, (wp_zero_data _ _ (Z.lor f flags)); try done; rewrite ?Hwf'.
  - by eapply ram_frame_keeps.
  - split; [rewrite Eb; apply Hfd|]. intros j Hj (e & He & Hpe & Hfe). apply (proj2 Hfd j Hj). exists e.
    split_and!; [|done|done]. rewrite <- He. unfold pde. rewrite P1, Eb, lookup_insert_ne; [done|].
    apply frames_apart; [done|done|done|zlia|lia].
  - intros s2 [W2 C2 F2 [Z1 Z2] K2]. apply wp_ret, HQ. split.
    + done.
    + congruence.
    + congruence.
    + by rewrite K2.
    + intros m Hm Hne. rewrite K2 by done. by apply O1.
    + done.
    + intros a Ha Haf. rewrite Z2 by done. by rewrite P1, lookup_insert_ne by congruence.
Qed.

(** [v] has become the zeroed page [f]; no other page and no data frame in use
    has changed. *)
Record page_mapped (s s' : vm) (v f flags : Z) : Prop := {
  pm_wf : vm_wf s';
  pm_walk : walk s' (v / 4096) = Some (Z.lor f flags);
  pm_other : forall m, 0 <= m < 1046528 -> m <> v / 4096 -> walk s' m = walk s m;
  pm_zero : forall k, 0 <= k < 1024 -> phys s' !! (f + 4 * k) = Some 0;
  pm_frame : exists n, f = n * 4096 /\ 0 < n < frame_limit (frames s) /\
    page_used (frames s) n = false /\ page_used (frames s') n = true;
  pm_used : forall n, 0 <= n -> page_used (frames s) n = true -> page_used (frames s') n = true;
  pm_data : forall g k, ram_frame s g -> frame_used s g -> data_frame s g -> 0 <= k < 1024 ->
    phys s' !! (g + 4 * k) = phys s !! (g + 4 * k)
}.

Lemma used_not_free s f n : frame_used s f -> page_used (frames s) n = false -> f <> n * 4096.
Proof. intros Hu Hf ->. unfold frame_used in Hu. rewrite Z.div_mul in Hu by lia. congruence. Qed.

(** The state [s0] just before the entry is written: [n] taken, the other pages
    and the data frames as in [s]. *)
Lemma mapped_installed s s0 s' v n flags T :
  (forall m, 0 <= m < 1046528 -> walk s0 m = walk s m) ->
  (forall g k, ram_frame s g -> frame_used s g -> data_frame s g -> 0 <= k < 1024 ->
     phys s0 !! (g + 4 * k) = phys s !! (g + 4 * k)) ->
  0 < n < frame_limit (frames s) -> page_used (frames s) n = false ->
  page_used (frames s0) n = true ->
  (forall k, 0 <= k -> page_used (frames s) k = true -> page_used (frames s0) k = true) ->
  T mod 4096 = 0 -> (forall g, ram_frame s g -> frame_used s g -> data_frame s g -> g <> T) ->
  installed s0 s' v (n * 4096) flags T -> page_mapped s s' v (n * 4096) flags.
Proof.
  intros Hwalk Hdata Hn Hfree Hn0 Hused HT4 HT [W C F K O Z P]. split.
  - done.
  - done.
  - intros m Hm Hne. rewrite O by (done || split; zlia). by apply Hwalk.
  - done.
  - exists n. rewrite F. done.
  - intros k. rewrite F. apply Hused.
  - intros g k Hg Hgu Hgd Hk. rewrite P, Hdata; try done.
    + apply frames_apart; [apply Hg|done|by apply HT|done|zlia].
    + intros j Hj. apply frames_apart; [apply Hg|zlia|by eapply used_not_free|done|done].
Qed.

Lemma table_not_data s g T i : 0 <= i < 1022 -> data_frame s g -> table s i T -> g <> T.
Proof. intros Hi [_ Hg] HT ->. by apply (Hg i). Qed.

Lemma installed_table s s' v f flags T i g :
  vm_wf s -> 0 <= v / 4096 / 1024 < 1022 -> table s (v / 4096 / 1024) T -> data_frame s f ->
  f mod 4096 = 0 -> installed s s' v f flags T -> 0 <= i < 1024 -> table s' i g <-> table s i g.
Proof.
  intros Hwf Hv HT Hf Hf4 Hin Hi. unfold table, pde, base. rewrite (in_cr3 _ _ _ _ _ _ Hin).
  fold (base s). destruct (v_base _ Hwf) as [(Hb4 & _) _].
  destruct (v_tables _ Hwf _ _ Hv HT) as ((HT4 & _) & _ & HTb).
  rewrite (in_phys _ _ _ _ _ _ Hin); [done| |].
  - apply frames_apart; [done|done|congruence|done|zlia].
  - intros k Hk. apply frames_apart; [done|done|exact (not_eq_sym (proj1 Hf))|done|done].
Qed.

(** Mapping a kernel page: its table exists. *)
Lemma wp_alloc_kernel_page_at s v T Q :
  vm_wf s -> is_u32 v -> v mod 4096 = 0 -> v / 4194304 < 1022 -> table s (v / 4096 / 1024) T ->
  (no_frame s -> Q false s) ->
  (forall s' f, page_mapped s s' v f KERNEL_FLAGS -> cr3 s' = cr3 s ->
     (forall i g, 0 <= i < 1024 -> table s' i g <-> table s i g) -> Q true s') ->
  wp (vmm_alloc_kernel_page_at v) s Q.
Proof.
  intros Hwf Hv Hv0 Hlow HT HN HS. apply wp_bind, wp_pmm_alloc; [done|intros Hno; by apply wp_ret, HN|].
  intros n s1 H1. destruct (taken_frame s s1 n Hwf H1) as (Hr & Hu & Hd & Hnz).
  destruct (Z.eqb_spec (n * 4096) 0); [done|]. apply wp_bind. unfold vmm_map_kernel_page.
  assert (Hi : 0 <= v / 4096 / 1024 < 1022) by (unfold is_u32 in Hv; zlia).
  destruct H1 as [W1 [p ->] Hn Hfree Hus Hl].
  apply (wp_install _ _ _ _ T); try done.
  intros s' Hin. apply (HS s' (n * 4096)).
  - apply (mapped_installed s (set_frames p s) s' v n KERNEL_FLAGS T); try done.
    + rewrite Hus by lia. by rewrite Z.eqb_refl, orb_true_r.
    + intros k Hk Hku. by rewrite Hus, Hku by done.
    + by destruct (v_tables _ Hwf _ _ Hi HT) as ((? & _) & _).
    + intros g _ _ Hg. by eapply table_not_data.
  - apply Hin.
  - intros i g Hi'. eapply (installed_table (set_frames p s)); [done|exact Hi|exact HT|done|zlia|exact Hin|done].
Qed.

(** Runs that may also fault, under condition [F]. *)
Definition runs {S A} (c : ST S A) (s : S) (Q : A -> S -> Prop) (F : Prop) : Prop :=
  match c s with Ret (a, s') => Q a s' | Fault => F | Diverge => False end.

Lemma runs_wp {S A} (c : ST S A) s Q F : wp c s Q -> runs c s Q F.
Proof. unfold wp, runs. by destruct (c s) as [[a s']| |]. Qed.

Lemma runs_bind {S A B} (c : ST S A) (k : A -> ST S B) s Q F :
  runs c s (fun a s' => runs (k a) s' Q F) F -> runs (c ≫= k) s Q F.
Proof. unfold runs, mbind, ST_bind. by destruct (c s) as [[a s']| |]. Qed.

(** An access to an unmapped page faults. *)
Lemma translate_unmapped s v : is_u32 v -> tlb s !! (v / 4096) = None -> walk s (v / 4096) = None ->
  translate v s = Fault.
Proof.
  intros Hv Ht Hw. unfold translate, mmu_entry, mbind, ST_bind, st_get.
  rewrite shiftr_12, Ht, pd_index_vpn, pt_index_vpn by done.
  unfold walk, pde, base in Hw. unfold pread.
  destruct (phys s !! (frame_of (cr3 s) + 4 * (v / 4096 / 1024))) as [d|] eqn:Ed; [|done].
  cbn in Hw. destruct (present d) eqn:Ep; [|done]. cbn [negb].
  destruct (phys s !! (frame_of d + 4 * ((v / 4096) mod 1024))) as [e|] eqn:Ee; [|done].
  cbn in Hw. by destruct (present e).
Qed.

Lemma st_for_fault {S} n i (body : Z -> ST S unit) s : body i s = Fault ->
  st_for (Datatypes.S n) i body s = Fault.
Proof. intros Hb. cbn [st_for]. unfold mbind, ST_bind. by rewrite Hb. Qed.

Lemma memset_unmapped s v : is_u32 v -> tlb s !! (v / 4096) = None -> walk s (v / 4096) = None ->
  memset_page v s = Fault.
Proof.
  intros Hv Ht Hw. apply (st_for_fault 1023). rewrite Z.mul_0_r, Z.add_0_r, (u32_small v Hv).
  unfold vwrite, mbind, ST_bind. by rewrite translate_unmapped.
Qed.

(** One frame is left, and the page table of [v] would need it too. *)
Definition table_starved (s : vm) (v : Z) : Prop :=
  (forall T, ~ table s (v / 4194304) T) /\
  exists n, 0 < n < frame_limit (frames s) /\ page_used (frames s) n = false /\
    forall k, 0 <= k < frame_limit (frames s) -> k <> n -> page_used (frames s) k = true.

(** Mapping a user page: the table is added when it is missing. *)
Lemma runs_alloc_user_page_at s v Q :
  vm_wf s -> is_u32 v -> v mod 4096 = 0 -> v / 4194304 < 1022 ->
  (no_frame s -> Q false s) ->
  (forall s' f, page_mapped s s' v f USER_FLAGS -> Q true s') ->
  runs (vmm_alloc_user_page_at v) s Q (table_starved s v).
Proof.
  intros Hwf Hv Hv0 Hlow HN HS. apply runs_bind, runs_wp, wp_pmm_alloc;
    [done|intros Hno; by apply runs_wp, wp_ret, HN|].
  intros n s1 H1. destruct (taken_frame s s1 n Hwf H1) as (Hr & Hu & Hd & Hnz).
  destruct (Z.eqb_spec (n * 4096) 0); [done|]. apply runs_bind.
  destruct H1 as [W1 [p ->] Hn Hfree Hus Hl]. set (s1 := set_frames p s) in *.
  unfold vmm_map_user_page. rewrite shiftr_22. set (i := v / 4194304) in *.
  assert (Hi : 0 <= i < 1022) by (unfold i, is_u32 in *; zlia).
  assert (Ei : v / 4096 / 1024 = i) by (unfold i, is_u32 in *; zlia).
  destruct (base_word s1 i W1 ltac:(lia)) as (d & Hpd & _).
  apply runs_bind, runs_wp, (wp_pd_get _ _ d); [done|lia|done|]. intros e He W2. set (s2 := cached 1048575 e s1) in *.
  assert (Hprep : forall k, 0 <= k -> page_used (frames s) k = true -> page_used (frames s2) k = true).
  { intros k Hk Hku. change (frames s2) with (frames s1). by rewrite Hus, Hku by done. }
  assert (Hn2 : page_used (frames s2) n = true).
  { change (frames s2) with (frames s1). rewrite Hus by lia. by rewrite Z.eqb_refl, orb_true_r. }
  assert (Hodd : Z.odd USER_FLAGS = true) by done.
  assert (Hinst : forall s0 T, wp (vmm_set_pte_at PTS_WINDOW v (n * 4096) USER_FLAGS) s0
      (fun _ s5 => wp (memset_page v;; mret true) s5 Q) ->
    runs (vmm_set_pte_at PTS_WINDOW v (n * 4096) USER_FLAGS) s0
      (fun _ s5 => runs (memset_page v;; mret true) s5 Q T) T).
  { intros s0 T Hw. apply runs_wp. eapply wp_mono; [exact Hw|]. intros a s5. apply runs_wp. }
  apply runs_bind. destruct (present d) eqn:Ep.
  - assert ((Z.land d PAGE_PRESENT =? 0) = false) as -> by (unfold present in Ep; by destruct (_ =? 0)).
    apply runs_wp, wp_ret, Hinst. assert (HT : table s2 (v / 4096 / 1024) (frame_of d)) by (rewrite Ei; by exists d).
    apply (wp_install _ _ _ _ (frame_of d)); try done. intros s' Hin. apply (HS s' (n * 4096)).
    apply (mapped_installed s s2 s' v n USER_FLAGS (frame_of d)); try done.
    + rewrite Ei in HT. by destruct (v_tables _ W2 _ _ Hi HT) as ((? & _) & _).
    + intros g _ _ Hg. rewrite Ei in HT. eapply table_not_data; [exact Hi|done|exact HT].
  - assert ((Z.land d PAGE_PRESENT =? 0) = true) as -> by (unfold present in Ep; by destruct (_ =? 0)).
    apply runs_bind, runs_wp, wp_pmm_alloc; [done| |].
    + intros Hno. apply runs_wp, wp_ret, runs_wp, wp_ret.
      assert (Hw : walk s2 (v / 4096) = None).
      { unfold walk. rewrite Ei. change (pde s2 i) with (pde s1 i). rewrite Hpd. cbn. by rewrite Ep. }
      unfold runs, mbind, ST_bind. rewrite memset_unmapped; [|done| |done].
      * split; [|exists n; split_and!; [lia|lia|done|]].
        -- intros T (e' & He' & Hpe & _). change (pde s (v / 4194304)) with (pde s1 i) in He'. congruence.
        -- intros k Hk Hkn. specialize (Hno k). change (frames s2) with (frames s1) in Hno.
           rewrite Hl, Hus in Hno by lia. specialize (Hno Hk). by destruct (Z.eqb_spec k n), (page_used (frames s) k).
      * destruct (tlb s2 !! (v / 4096)) as [e'|] eqn:Et; [|done].
        apply (v_tlb _ W2) in Et as [_ Et]. congruence.
    + intros n2 s3 H3. destruct (taken_frame s2 s3 n2 W2 H3) as (Hr3 & Hu3 & Hd3 & Hnz3).
      destruct (Z.eqb_spec (n2 * 4096) 0); [done|].
      destruct H3 as [W3 [p3 ->] Hn3 Hfree3 Hus3 Hl3]. set (s3 := set_frames p3 s2) in *.
      cbv zeta. fold i. apply runs_wp, (wp_new_table _ _ _ d); try done.
      intros s4 [W4 C4 F4 T4 P4 K4]. fold i in T4, P4. apply wp_ret, Hinst.
      assert (Hne : n * 4096 <> n2 * 4096) by (intros E; assert (n = n2) by lia; congruence).
      assert (Hn2' : page_used (frames s) n2 = false).
      { destruct (page_used (frames s) n2) eqn:E; [|done]. rewrite Hprep in Hfree3 by (lia || done). done. }
      assert (Hb4 : base s mod 4096 = 0) by (destruct (v_base _ Hwf) as [(? & _) _]; done).
      assert (Hkeep : ram_frame s4 (n * 4096)).
      { destruct Hr as (R1 & R2 & R3). split_and!; [done|done|]. intros k Hk. rewrite P4; [by apply R3| |].
        - apply frames_apart; [done|done|exact (proj1 Hd)|done|lia].
        - intros j Hj. apply frames_apart; [done|zlia|done|done|done]. }
      assert (Hdata4 : data_frame s4 (n * 4096)).
      { split; [unfold base; rewrite C4; exact (proj1 Hd)|]. intros j Hj Hj'. apply T4 in Hj'; [|lia].
        destruct (decide (j = i)) as [->|Hji]; [rewrite Z.eqb_refl in Hj'; congruence|].
        rewrite (proj2 (Z.eqb_neq j i) Hji) in Hj'. by apply (proj2 Hd j Hj). }
      assert (HT4 : table s4 (v / 4096 / 1024) (n2 * 4096)) by (rewrite Ei; apply T4; [lia|]; by rewrite Z.eqb_refl).
      apply (wp_install _ _ _ _ (n2 * 4096)); try done. intros s' Hin. apply (HS s' (n * 4096)).
      apply (mapped_installed s s4 s' v n USER_FLAGS (n2 * 4096)); try done.
      * intros g k Hg Hgu Hgd Hk. rewrite P4; [done| |].
        -- apply frames_apart; [apply Hg|done|exact (proj1 Hgd)|done|lia].
        -- intros j Hj. apply frames_apart; [apply Hg|zlia|by eapply used_not_free|done|done].
      * rewrite F4, Hus3 by lia. by rewrite Hn2.
      * intros k Hk Hku. rewrite F4, Hus3 by lia. by rewrite Hprep.
      * zlia.
      * intros g _ Hgu _. by eapply used_not_free.
Qed.

(** ** Theorems *)

(** (C19) [vmm_alloc_user_page_at] of a page-aligned user address, three cases.
    It returns false and changes nothing when no frame is free.  Otherwise the
    address is mapped with user flags to a frame that was free, the page reads
    as zero, a missing page table has been added, and every other page of the
    address space and every data frame in use is as before.  Only when a single
    frame is left and the page table is missing too does the call fault, on the
    page it failed to map. *)
Theorem vmm_alloc_user_page_correct s v :
  vm_wf s -> 0 <= v < KERNEL_HIGHER_HALF -> v mod PAGE_SIZE = 0 ->
  vmm_alloc_user_page_at v s = Ret (false, s) /\ no_frame s \/
  (exists f s', vmm_alloc_user_page_at v s = Ret (true, s') /\ page_mapped s s' v f USER_FLAGS) \/
  vmm_alloc_user_page_at v s = Fault /\ table_starved s v.
Proof.
  unfold KERNEL_HIGHER_HALF, PAGE_SIZE. intros Hwf Hv Hv0.
  pose proof (runs_alloc_user_page_at s v (fun ok s' =>
    ok = false /\ s' = s /\ no_frame s \/ ok = true /\ exists f, page_mapped s s' v f USER_FLAGS)) as H.
  unfold runs in H. destruct (vmm_alloc_user_page_at v s) as [[ok s']| |].
  - destruct H as [(-> & -> & ?)|(-> & f & ?)]; try done; [unfold is_u32; lia|zlia|by left|right|by left|].
    + eauto.
    + right. left. exists f, s'. done.
  - right. right. split; [done|]. apply H; try done; [unfold is_u32; lia|zlia|by left|eauto 10].
  - exfalso. apply H; try done; [unfold is_u32; lia|zlia|by left|eauto 10].
Qed.

(** ** Witnesses *)

(** A machine with 32 cleared frames; frame 1 holds a directory with nothing but
    the recursive entry, whose flags are [g]. *)
Definition demo_vm (g : Z) : vm :=
  {| phys := <[4096 + 4 * 1023 := 4096 + g]> (zero_words (Z.to_nat 32768) 0 ∅);
     cr3 := 4096; tlb := ∅;
     frames := {| bitmap := [3]; usable_end_words := 1; last_alloc := 0 |};
     fl_head := 0; fl_tail := 0; fl_count := 0; last_free := KERNEL_HIGHER_HALF |}.

Lemma demo_word g k : 0 <= k < 32768 -> 4 * k <> 8188 -> phys (demo_vm g) !! (4 * k) = Some 0.
Proof.
  intros Hk Hne. unfold demo_vm. cbn [phys]. rewrite lookup_insert_ne by lia.
  rewrite zero_words_lookup. case_bool; [done|].
  assert ((4 * k - 0) mod 4 = 0) by zlia. lia.
Qed.

Lemma demo_dir g i : 0 <= i < 1023 -> pde (demo_vm g) i = Some 0.
Proof.
  intros Hi. unfold pde. change (base (demo_vm g)) with 4096.
  replace (4096 + 4 * i) with (4 * (1024 + i)) by lia. apply demo_word; lia.
Qed.

Lemma demo_self g : pde (demo_vm g) 1023 = Some (4096 + g).
Proof. apply lookup_insert_eq. Qed.

Lemma demo_ram g n : 0 <= g < 4096 -> 0 <= n < 32 -> ram_frame (demo_vm g) (n * 4096).
Proof.
  intros Hg Hn. split_and!; [zlia|unfold is_u32; lia|]. intros k Hk.
  replace (n * 4096 + 4 * k) with (4 * (1024 * n + k)) by lia.
  destruct (decide (4 * (1024 * n + k) = 8188)) as [E|].
  - exists (4096 + g). rewrite E. split; [apply lookup_insert_eq|unfold is_u32; lia].
  - exists 0. split; [apply demo_word; lia|unfold is_u32; lia].
Qed.

Lemma demo_vm_wf g : 0 <= g < 4096 -> Z.odd g = true -> vm_wf (demo_vm g).
Proof.
  intros Hg Hodd.
  assert (He : present (4096 + g) = true /\ frame_of (4096 + g) = 4096).
  { destruct (entry_parts 4096 g) as (_ & Hf & Hp); [by unfold is_u32|done|done|].
    rewrite lor_flags in Hf, Hp by done. by rewrite Hp, Hf. }
  assert (Hno : forall i f, 0 <= i < 1022 -> ~ table (demo_vm g) i f).
  { intros i f Hi (e & E & Hp & _). rewrite demo_dir in E by lia. by injection E as <-. }
  split.
  - change (base (demo_vm g)) with (1 * 4096). split; [apply demo_ram; lia|done].
  - exists (4096 + g). split; [apply demo_self|done].
  - intros i f Hi Ht. by apply Hno in Ht.
  - intros i j f Hi Hj Ht. by apply Hno in Ht.
  - intros m e. cbn [tlb demo_vm]. by rewrite lookup_empty.
  - split; cbn; [|lia|lia|by left]. constructor; [by unfold is_u32|constructor].
  - done.
  - intros n Hn. by apply demo_ram.
Qed.

Lemma vmm_alloc_user_page_correct_witness :
  exists f s', vmm_alloc_user_page_at 0x8048000 (demo_vm 3) = Ret (true, s') /\
    page_mapped (demo_vm 3) s' 0x8048000 f USER_FLAGS.
Proof.
  destruct (vmm_alloc_user_page_correct (demo_vm 3) 0x8048000) as [[_ Hno]|[H|[_ (_ & n & Hn & _ & Hone)]]].
  - apply demo_vm_wf; [lia|done].
  - unfold KERNEL_HIGHER_HALF. lia.
  - done.
  - exfalso. specialize (Hno 2). assert (page_used (frames (demo_vm 3)) 2 = true) as E by (apply Hno; by vm_compute).
    vm_compute in E. discriminate E.
  - exact H.
  - exfalso. destruct (decide (n = 2)) as [->|Hne].
    + assert (page_used (frames (demo_vm 3)) 3 = true) as E by (apply Hone; [by vm_compute|lia]).
      vm_compute in E. discriminate E.
    + assert (page_used (frames (demo_vm 3)) 2 = true) as E by (apply Hone; [by vm_compute|lia]).
      vm_compute in E. discriminate E.
Defined.
