(* ===== verification/VmmSpace.v ===== *)
(** * Address spaces of the virtual memory manager

    Creation of a page directory through the scratch slot, switching to it, and
    the two operations that go wrong: destroying an address space, and the
    recursive entry that stays in the translation cache over a switch. *)

From S2P Require Import Prelude Pmm Vmm VmmProof.

(** ** Creating an address space *)

(** While the new directory in frame [P] is filled through the scratch slot: [w]
    is in slot 1022 and entry [k] of the new directory is [c k]. *)
Record filling (s s' : vm) (P w : Z) (c : Z -> Z) : Prop := {
  fi_cr3 : cr3 s' = cr3 s;
  fi_frames : frames s' = frames s;
  fi_phys : forall a, a <> base s + 4 * 1022 -> (forall k, 0 <= k < 1024 -> a <> P + 4 * k) ->
    phys s' !! a = phys s !! a;
  fi_slot : phys s' !! (base s + 4 * 1022) = Some w;
  fi_words : forall k, 0 <= k < 1024 -> phys s' !! (P + 4 * k) = Some (c k);
  fi_tlb : forall m e, tlb s' !! m = Some e -> m <> 1048574 ->
    tlb s !! m = Some e \/ m = 1048575 /\ walk s m = Some e;
  fi_scratch : forall e, tlb s' !! 1048574 = Some e -> e = w
}.

Section filling.
Context (s : vm) (P : Z).
Hypothesis Hwf : vm_wf s.
Hypothesis HP : ram_frame s P.
Hypothesis HPd : data_frame s P.

Lemma filling_dir s' w c k : filling s s' P w c -> 0 <= k < 1024 -> k <> 1022 -> pde s' k = pde s k.
Proof.
  intros Hf Hk Hne. unfold pde, base. rewrite (fi_cr3 _ _ _ _ _ Hf). fold (base s).
  apply (fi_phys _ _ _ _ _ Hf); [lia|]. intros j Hj. destruct (v_base _ Hwf) as [(? & _) _].
  apply frames_apart; [done|apply HP|exact (not_eq_sym (proj1 HPd))|done|done].
Qed.

(** Every page but the scratch one is translated as in [s]. *)
Lemma filling_walk s' w c m : filling s s' P w c -> vpn_ok m -> m <> 1048574 -> walk s' m = walk s m.
Proof.
  intros Hf Hok Hne. apply walk_agree; [unfold base; by rewrite (fi_cr3 _ _ _ _ _ Hf)|].
  intros a Ha. pose proof Hok as [Hm _]. destruct (v_base _ Hwf) as [(Hb4 & _) _].
  destruct (uses_cases s m a Hwf Hok Ha) as [(k & Hk & -> & Hkm)|(f & Hlt & Hft & ->)].
  - apply (fi_phys _ _ _ _ _ Hf); [enough (k <> 1022) by lia; destruct Hok; destruct Hkm; zlia|].
    intros j Hj. apply frames_apart; [done|apply HP|exact (not_eq_sym (proj1 HPd))|done|done].
  - assert (Hi : 0 <= m / 1024 < 1022) by zlia.
    destruct (v_tables _ Hwf _ f Hi Hft) as ((Hf4 & _) & _ & Hfb).
    apply (fi_phys _ _ _ _ _ Hf); [apply frames_apart; [done|done|done|zlia|lia]|].
    intros j Hj. apply frames_apart; [done|apply HP| |zlia|done]. intros ->. by apply (proj2 HPd _ Hi).
Qed.

Lemma filling_self s' w c : filling s s' P w c ->
  exists e, walk s' 1048575 = Some e /\ frame_of e = base s /\ hit_ok s' 1048575 e /\ walk s 1048575 = Some e.
Proof.
  intros Hf. destruct (walk_pd_window s Hwf) as (e & He & Hfe). exists e.
  rewrite (filling_walk _ _ _ _ Hf vpn_ok_pd) by done. split_and!; [done|done| |done].
  intros e' He'. destruct (fi_tlb _ _ _ _ _ Hf _ _ He') as [Ht|[_ Ht]]; [done| |congruence].
  apply (v_tlb _ Hwf) in Ht as [_ Ht]. congruence.
Qed.

Lemma filling_cached s' w c e : filling s s' P w c -> walk s 1048575 = Some e ->
  filling s (cached 1048575 e s') P w c.
Proof.
  intros [] He. split; try done; cbn [tlb cached set_tlb].
  - intros m e'. destruct (decide (m = 1048575)) as [->|].
    + rewrite lookup_insert_eq. intros [= <-] _. by right.
    + rewrite lookup_insert_ne by done. auto.
  - intros e'. rewrite lookup_insert_ne by done. auto.
Qed.

(** [current_pd[i]] *)
Lemma wp_filling_get s' w c i x Q : filling s s' P w c -> 0 <= i < 1024 -> i <> 1022 -> pde s i = Some x ->
  (forall s2, filling s s2 P w c -> Q x s2) -> wp (window_get PD_WINDOW i) s' Q.
Proof.
  intros Hf Hi Hne Hx HQ. destruct (filling_self _ _ _ Hf) as (e & He & Hfe & Hh & He0).
  destruct (window_pd i Hi) as (E1 & E2 & E3 & E4). unfold window_get. rewrite E1.
  apply (wp_vread _ _ e x); rewrite ?E2, ?E3, ?Hfe; [done|done|done| |].
  - rewrite <- Hx, <- (filling_dir _ _ _ _ Hf Hi Hne). unfold pde, base. by rewrite (fi_cr3 _ _ _ _ _ Hf).
  - by apply HQ, filling_cached.
Qed.

(** [new_pd[i] = x] *)
Lemma wp_filling_set s' w c i x Q : filling s s' P w c -> present w = true -> frame_of w = P ->
  0 <= i < 1024 ->
  (forall s2, filling s s2 P w (fun k => if k =? i then x else c k) -> Q tt s2) ->
  wp (window_set PD_SCRATCH_WINDOW i x) s' Q.
Proof.
  intros Hf Hpw HwP Hi HQ.
  assert (Ea : PD_SCRATCH_WINDOW +! 4 *! i = 4294959104 + 4 * i).
  { unfold PD_SCRATCH_WINDOW. rewrite (u32_small (4 * i)) by (unfold is_u32; lia).
    apply u32_small. unfold is_u32. lia. }
  assert (Em : (4294959104 + 4 * i) / 4096 = 1048574) by zlia.
  assert (Eo : (4294959104 + 4 * i) mod 4096 = 4 * i) by zlia.
  assert (Hw : walk s' 1048574 = Some w).
  { destruct (v_self _ Hwf) as (e & He & Hpe & Hfe). unfold walk. change (1048574 / 1024) with 1023.
    rewrite (filling_dir _ _ _ 1023 Hf) by lia. rewrite He. cbn [mbind option_bind]. rewrite Hpe, Hfe.
    change (1048574 mod 1024) with 1022. rewrite (fi_slot _ _ _ _ _ Hf). cbn. by rewrite Hpw. }
  unfold window_set. rewrite Ea.
  apply (wp_vwrite _ _ w); rewrite ?Em, ?Eo, ?HwP; [unfold is_u32; lia|done| | |].
  - intros e. apply (fi_scratch _ _ _ _ _ Hf).
  - rewrite (fi_words _ _ _ _ _ Hf) by done. eauto.
  - apply HQ. destruct Hf as [F1 F2 F3 F4 F5 F6 F7]. pose proof HPd as [HPb _].
    destruct (v_base _ Hwf) as [(Hb4 & _) _]. pose proof HP as (HP4 & _).
    split; try done; cbn [phys tlb set_phys cached set_tlb].
    + intros a Ha Hak. rewrite lookup_insert_ne; [auto|]. intros <-. by apply (Hak i).
    + rewrite lookup_insert_ne; [done|]. apply frames_apart; [done|done|done|done|lia].
    + intros k Hk. destruct (Z.eqb_spec k i) as [->|]; [apply lookup_insert_eq|].
      rewrite lookup_insert_ne by lia. auto.
    + intros m e Ht Hm. rewrite lookup_insert_ne in Ht by done. auto.
    + intros e. rewrite lookup_insert_eq. by intros [= <-].
Qed.

(** [current_pd[1022] = x] and the invalidation of the scratch page. *)
Lemma wp_filling_slot {A} s' w c x (k : ST vm A) Q : filling s s' P w c ->
  (forall s2, filling s s2 P x c -> tlb s2 !! 1048574 = None -> tlb s2 !! 1048575 = walk s 1048575 ->
     wp k s2 Q) ->
  wp (window_set PD_WINDOW 1022 x;; vmm_invlpg PD_SCRATCH_WINDOW;; k) s' Q.
Proof.
  intros Hf HQ. destruct (filling_self _ _ _ Hf) as (e & He & Hfe & Hh & He0).
  destruct (window_pd 1022 ltac:(lia)) as (E1 & E2 & E3 & E4). apply wp_bind. unfold window_set. rewrite E1.
  apply (wp_vwrite _ _ e); rewrite ?E2, ?E3, ?Hfe; [done|done|done| |].
  { rewrite (fi_slot _ _ _ _ _ Hf). eauto. }
  apply wp_bind. unfold vmm_invlpg. apply wp_modify. rewrite shiftr_12.
  change (PD_SCRATCH_WINDOW / 4096) with 1048574. pose proof (filling_cached _ _ _ _ Hf He0) as Hc.
  destruct Hc as [F1 F2 F3 F4 F5 F6 F7]. pose proof HPd as [HPb _]. pose proof HP as (HP4 & _).
  destruct (v_base _ Hwf) as [(Hb4 & _) _].
  apply HQ; cbn [phys tlb set_phys cached set_tlb].
  - split; try done; cbn [phys tlb set_phys cached set_tlb].
    + intros a Ha Hak. rewrite lookup_insert_ne by congruence. by apply F3.
    + apply lookup_insert_eq.
    + intros j Hj. rewrite lookup_insert_ne; [by apply F5|].
      apply frames_apart; [done|done|exact (not_eq_sym HPb)|lia|done].
    + intros m e' Ht Hm. rewrite lookup_delete_ne in Ht by done. by apply F6.
    + intros e'. by rewrite lookup_delete_eq.
  - apply lookup_delete_eq.
  - rewrite lookup_delete_ne by done. by rewrite lookup_insert_eq.
Qed.

Lemma filling_ext s' w c c' : (forall k, 0 <= k < 1024 -> c k = c' k) ->
  filling s s' P w c -> filling s s' P w c'.
Proof. intros Hc []. split; try done. intros k Hk. rewrite <- Hc by done. auto. Qed.

(** The state before the first write. *)
Lemma filling_start : exists w, filling s s P w (fun k => default 0 (phys s !! (P + 4 * k))).
Proof.
  destruct (v_base _ Hwf) as [(_ & _ & Hb) _]. destruct (Hb 1022 ltac:(lia)) as (w & Hw & _). exists w.
  split; try done.
  - intros k Hk. destruct HP as (_ & _ & Hr). destruct (Hr k Hk) as (x & -> & _). done.
  - auto.
  - intros e Ht. apply (v_tlb _ Hwf) in Ht as [_ Ht]. destruct (v_self _ Hwf) as (d & Hd & Hp & Hf).
    unfold walk in Ht. change (1048574 / 1024) with 1023 in Ht. change (1048574 mod 1024) with 1022 in Ht.
    rewrite Hd in Ht. cbn [mbind option_bind] in Ht. rewrite Hp, Hf, Hw in Ht. cbn in Ht.
    by destruct (present w); simplify_eq.
Qed.

(** Steps 3 to 5: the entries of the new directory. *)
Lemma wp_filling_entries {A} s' w c (k : ST vm A) Q : filling s s' P w c -> present w = true -> frame_of w = P ->
  (forall s2, filling s s2 P w (fun j => if j <? 768 then 0 else
     if j <? 1022 then default 0 (pde s j) else if j =? 1023 then w else c j) -> wp k s2 Q) ->
  wp (st_for 768 0 (fun i => window_set PD_SCRATCH_WINDOW i 0);;
      st_for 254 768 (fun i => e ← window_get PD_WINDOW i; window_set PD_SCRATCH_WINDOW i e);;
      window_set PD_SCRATCH_WINDOW 1023 w;; k) s' Q.
Proof.
  intros Hf Hpw HwP HQ. apply wp_bind.
  apply (wp_for (fun i s2 => filling s s2 P w (fun j => if j <? i then 0 else c j))).
  { eapply filling_ext; [|exact Hf]. intros j Hj. cbn. destruct (Z.ltb_spec j 0); [lia|done]. }
  { intros i s2 Hi H2. eapply (wp_filling_set s2); [exact H2|done|done|lia|]. intros s3 H3.
    eapply filling_ext; [|exact H3]. intros j Hj. cbn.
    destruct (Z.eqb_spec j i), (Z.ltb_spec j i), (Z.ltb_spec j (i + 1)); (done || lia). }
  intros s3 H3. apply wp_bind. change (0 + Z.of_nat 768) with 768 in H3.
  apply (wp_for (fun i s2 => filling s s2 P w (fun j => if j <? 768 then 0 else
     if j <? i then default 0 (pde s j) else c j))).
  { eapply filling_ext; [|exact H3]. intros j Hj. cbn. destruct (Z.ltb_spec j 768); done. }
  { intros i s2 Hi H2. destruct (base_word s i Hwf ltac:(lia)) as (x & Hx & _).
    apply wp_bind. eapply (wp_filling_get s2); [exact H2|lia|lia|exact Hx|]. intros s4 H4.
    eapply (wp_filling_set s4); [exact H4|done|done|lia|]. intros s5 H5. eapply filling_ext; [|exact H5].
    intros j Hj. cbn. destruct (Z.eqb_spec j i) as [Eji|], (Z.ltb_spec j 768), (Z.ltb_spec j i), (Z.ltb_spec j (i + 1));
      try lia; try done. subst j. by rewrite Hx. }
  intros s5 H5. change (768 + Z.of_nat 254) with 1022 in H5. apply wp_bind.
  eapply (wp_filling_set s5); [exact H5|done|done|lia|]. intros s6 H6. apply HQ. eapply filling_ext; [|exact H6].
  intros j Hj. cbn. destruct (Z.eqb_spec j 1023), (Z.ltb_spec j 768), (Z.ltb_spec j 1022); (done || lia).
Qed.
End filling.

(** The finished directory in frame [P] of frame number [n]. *)
Record created (s s' : vm) (n : Z) : Prop := {
  cd_wf : vm_wf s';
  cd_cr3 : cr3 s' = cr3 s;
  cd_frame : 0 < n < frame_limit (frames s) /\ page_used (frames s) n = false;
  cd_used : forall k, 0 <= k -> page_used (frames s') k = page_used (frames s) k || (k =? n);
  cd_walk : forall m, 0 <= m < 1046528 -> walk s' m = walk s m;
  cd_user : forall k, 0 <= k < 768 -> phys s' !! (n * 4096 + 4 * k) = Some 0;
  cd_kernel : forall k, 768 <= k < 1022 -> phys s' !! (n * 4096 + 4 * k) = pde s k;
  cd_scratch : phys s' !! (n * 4096 + 4 * 1022) = phys s !! (n * 4096 + 4 * 1022);
  cd_self : phys s' !! (n * 4096 + 4 * 1023) = Some (Z.lor (n * 4096) KERNEL_FLAGS);
  cd_slot : pde s' 1022 = Some 0;
  cd_phys : forall a, a <> base s + 4 * 1022 -> (forall k, 0 <= k < 1024 -> a <> n * 4096 + 4 * k) ->
    phys s' !! a = phys s !! a;
  cd_tlb : forall m e, tlb s' !! m = Some e -> tlb s !! m = Some e \/ m = 1048575 /\ pde s 1023 = Some e;
  cd_touched : pde s 1023 = tlb s' !! 1048575
}.

Lemma walk_self s e : vm_wf s -> walk s 1048575 = Some e -> pde s 1023 = Some e.
Proof.
  intros Hwf. destruct (v_self _ Hwf) as (d & Hd & Hp & Hf). unfold walk.
  change (1048575 / 1024) with 1023. change (1048575 mod 1024) with 1023. rewrite Hd. cbn [mbind option_bind].
  rewrite Hp, Hf. unfold pde in Hd. rewrite Hd. cbn. rewrite Hp. done.
Qed.

Lemma wp_create s Q : vm_wf s -> (no_frame s -> Q 0 s) ->
  (forall s' n, created s s' n -> Q (n * 4096) s') -> wp vmm_create_address_space s Q.
Proof.
  intros Hwf HN HS. apply wp_bind, wp_pmm_alloc; [done|intros; by apply wp_ret, HN|].
  intros n s1 H1. destruct (taken_frame s s1 n Hwf H1) as (HP & Hu & HPd & Hnz).
  destruct (Z.eqb_spec (n * 4096) 0); [done|]. destruct H1 as [W1 [p E1] Hn Hfree Hus Hl].
  set (P := n * 4096) in *. pose proof HP as (HP4 & HPu & HPr). pose proof HPd as [HPb HPt].
  destruct (entry_parts P KERNEL_FLAGS HPu HP4) as (Hw & HwP & Hwp); [done|].
  change (Z.odd KERNEL_FLAGS) with true in Hwp. set (w := Z.lor P KERNEL_FLAGS) in *.
  destruct (filling_start s1 P W1 HP) as [w0 F0].
  eapply (wp_filling_slot s1 P W1 HP HPd); [exact F0|]. intros s2 F2 _ _.
  eapply (wp_filling_entries s1 P W1 HP HPd); [exact F2|done|done|]. intros s3 F3.
  eapply (wp_filling_slot s1 P W1 HP HPd); [exact F3|]. intros s4 F4 Hsc Hpd. apply wp_ret, HS.
  assert (Edir : forall k, pde s1 k = pde s k) by (by subst s1).
  destruct (v_base _ W1) as [(Hb4 & _) _].
  assert (Hwords : forall k, 0 <= k < 1024 -> phys s4 !! (P + 4 * k) = Some (if k <? 768 then 0 else
     if k <? 1022 then default 0 (pde s1 k) else if k =? 1023 then w else default 0 (phys s1 !! (P + 4 * k))))
    by apply (fi_words _ _ _ _ _ F4).
  split.
  - apply (wf_transfer s1); [done|unfold base; by rewrite (fi_cr3 _ _ _ _ _ F4)| | | |].
    + intros i Hi Hne. eapply (filling_dir s1 P W1 HP HPd); [exact F4|done|done].
    + intros a x Ha Hx. destruct (decide (a = base s1 + 4 * 1022)) as [->|Hna].
      { exists 0. rewrite (fi_slot _ _ _ _ _ F4). split; [done|unfold is_u32; lia]. }
      destruct (decide (P <= a < P + 4096 /\ (a - P) mod 4 = 0)) as [Hin|Hout].
      * replace a with (P + 4 * ((a - P) / 4)) by zlia. rewrite Hwords by zlia. eexists. split; [done|].
        set (k := (a - P) / 4). repeat case_bool; [unfold is_u32; lia| |done|].
        -- destruct (base_word s1 k W1 ltac:(lia)) as (y & -> & Hy). done.
        -- destruct (HPr k ltac:(unfold k in *; zlia)) as (y & -> & Hy). done.
      * exists x. split; [|done]. rewrite (fi_phys _ _ _ _ _ F4); [done|done|]. intros k Hk ->. apply Hout. zlia.
    + apply more_used_refl; [done|apply F4].
    + intros m e Ht. assert (Hm : m <> 1048574) by congruence.
      assert (vpn_ok m /\ walk s1 m = Some e) as [Hok Hwk].
      { destruct (fi_tlb _ _ _ _ _ F4 m e Ht Hm) as [Ht1|[-> Hwk]]; [by apply (v_tlb _ W1)|].
        split; [apply vpn_ok_pd|done]. }
      split; [done|]. by rewrite (filling_walk s1 P W1 HP HPd _ _ _ _ F4).
  - rewrite (fi_cr3 _ _ _ _ _ F4). by subst s1.
  - done.
  - intros k Hk. rewrite (fi_frames _ _ _ _ _ F4). by apply Hus.
  - intros m Hm. rewrite (filling_walk s1 P W1 HP HPd _ _ _ _ F4); [by subst s1|split; zlia|lia].
  - intros k Hk. rewrite Hwords by lia. destruct (Z.ltb_spec k 768); [done|lia].
  - intros k Hk. rewrite Hwords by lia. destruct (Z.ltb_spec k 768); [lia|]. destruct (Z.ltb_spec k 1022); [|lia].
    destruct (base_word s1 k W1 ltac:(lia)) as (x & Hx & _). rewrite Hx, <- Edir. by rewrite Hx.
  - rewrite Hwords by lia. cbn. destruct (HPr 1022 ltac:(lia)) as (x & Hx & _). rewrite Hx. cbn. rewrite <- Hx. by subst s1.
  - by rewrite Hwords by lia.
  - unfold pde, base. rewrite (fi_cr3 _ _ _ _ _ F4). apply (fi_slot _ _ _ _ _ F4).
  - intros a Ha Hak. rewrite (fi_phys _ _ _ _ _ F4); [by subst s1|by subst s1|done].
  - intros m e Ht. assert (Hm : m <> 1048574) by congruence.
    destruct (fi_tlb _ _ _ _ _ F4 m e Ht Hm) as [Ht1|[-> Hwk]]; [left; by subst s1|right].
    split; [done|]. rewrite <- Edir. by apply walk_self.
  - rewrite Hpd. destruct (walk_pd_window s1 W1) as (e & He & _). rewrite He, <- Edir. symmetry.
    rewrite <- (walk_self s1 e W1 He). done.
Qed.

(** ** Switching to the new address space *)

(** Only kernel pages are cached as global. *)
Definition kernel_globals (s : vm) : Prop :=
  forall m e, tlb s !! m = Some e -> is_global e = true -> 786432 <= m < 1046528.

Definition switched (n : Z) (s : vm) : vm :=
  set_tlb (filter (fun kv => is_global kv.2 = true) (filter (fun kv => is_global kv.2 = true) (tlb s)))
    (set_cr3 n s).

Lemma switch_ret n s : n <> 0 -> vmm_switch_address_space n s = Ret (tt, switched n s).
Proof. intros Hn. unfold vmm_switch_address_space. by destruct (Z.eqb_spec n 0). Qed.

Lemma switched_tlb n s m e : tlb (switched n s) !! m = Some e <->
  tlb s !! m = Some e /\ is_global e = true.
Proof. cbn [tlb switched set_tlb]. rewrite !map_lookup_filter_Some. cbn. tauto. Qed.

Lemma switched_base n s : is_u32 n -> n mod 4096 = 0 -> base (switched n s) = n.
Proof. intros. by apply frame_of_frame. Qed.

Section switch.
Context (s s1 : vm) (n : Z).
Hypothesis Hwf : vm_wf s.
Hypothesis Hc : created s s1 n.

Let P := n * 4096.
Let s2 := switched P s1.

Lemma new_frame : ram_frame s1 P /\ frame_used s1 P /\ data_frame s P /\ P <> 0.
Proof.
  destruct (cd_frame _ _ _ Hc) as [Hn Hfree]. split_and!.
  - assert (Hr : ram_frame s P) by (apply (v_ram _ Hwf); lia). destruct Hr as (R1 & R2 & _).
    split_and!; [done|done|]. intros k Hk.
    destruct (decide (k < 768)); [exists 0; split; [apply (cd_user _ _ _ Hc); lia|unfold is_u32; lia]|].
    destruct (decide (k < 1022)).
    { destruct (base_word s k Hwf ltac:(lia)) as (w & Hw & Hu). exists w. by rewrite (cd_kernel _ _ _ Hc) by lia. }
    destruct (decide (k = 1022)) as [->|].
    { destruct (v_ram _ Hwf n ltac:(lia)) as (_ & _ & Hr). destruct (Hr 1022 ltac:(lia)) as (w & Hw & Hu).
      exists w. unfold P. by rewrite (cd_scratch _ _ _ Hc). }
    replace k with 1023 by lia. eexists. split; [apply (cd_self _ _ _ Hc)|]. by apply entry_parts.
  - unfold frame_used, P. rewrite Z.div_mul, (cd_used _ _ _ Hc), Z.eqb_refl by lia. by rewrite orb_true_r.
  - apply unused_data; [done|]. unfold P. by rewrite Z.div_mul.
  - lia.
Qed.

Lemma new_base : base s2 = P.
Proof. destruct new_frame as ((H1 & H2 & _) & _). by apply switched_base. Qed.

Lemma new_dir k : 0 <= k < 1022 -> pde s2 k = if k <? 768 then Some 0 else pde s1 k.
Proof.
  intros Hk. unfold pde at 1. rewrite new_base. change (phys s2) with (phys s1).
  destruct (Z.ltb_spec k 768); [apply (cd_user _ _ _ Hc); lia|]. rewrite (cd_kernel _ _ _ Hc) by lia.
  unfold pde, base. rewrite (cd_cr3 _ _ _ Hc). fold (base s). symmetry.
  destruct new_frame as ((H1 & _) & _ & [Hb _] & _). destruct (v_base _ Hwf) as [(Hb4 & _) _].
  apply (cd_phys _ _ _ Hc); [lia|]. intros j Hj. apply frames_apart; [done|done|exact (not_eq_sym Hb)|lia|done].
Qed.

Lemma new_walk m : 0 <= m < 1046528 -> walk s2 m = if m <? 786432 then None else walk s1 m.
Proof.
  intros Hm. unfold walk. rewrite new_dir by zlia.
  destruct (Z.ltb_spec (m / 1024) 768), (Z.ltb_spec m 786432); (done || zlia).
Qed.

Lemma new_table k f : 0 <= k < 1022 -> table s2 k f -> table s1 k f /\ f <> P.
Proof.
  intros Hk (e & He & Hp & Hf). rewrite new_dir in He by done.
  destruct (Z.ltb_spec k 768); [by injection He as <-|]. assert (HT : table s1 k f) by (by exists e).
  split; [done|]. destruct new_frame as (_ & _ & [_ Ht] & _). intros ->. apply (Ht k Hk). exists e.
  split_and!; [|done|done]. rewrite <- He. unfold pde, base. rewrite (cd_cr3 _ _ _ Hc). fold (base s). symmetry.
  destruct new_frame as ((H1 & _) & _ & [Hb _] & _). destruct (v_base _ Hwf) as [(Hb4 & _) _].
  apply (cd_phys _ _ _ Hc); [lia|]. intros j Hj. apply frames_apart; [done|done|exact (not_eq_sym Hb)|lia|done].
Qed.

Lemma switched_wf : kernel_globals s1 -> vm_wf s2.
Proof.
  intros Hg. pose proof (cd_wf _ _ _ Hc) as W1. destruct new_frame as (HP & HPu & HPd & _).
  split.
  - rewrite new_base. done.
  - rewrite new_base. destruct HP as (H1 & H2 & _).
    destruct (entry_parts P KERNEL_FLAGS H2 H1) as (_ & Hf & Hp); [done|]. eexists.
    unfold pde. rewrite new_base. split; [apply (cd_self _ _ _ Hc)|done].
  - intros i f Hi [Ht Hne]%new_table; [|done]. rewrite new_base.
    destruct (v_tables _ W1 i f Hi Ht) as (Hr & Hu & _). done.
  - intros i j f Hi Hj [Hf _]%new_table [Hg' _]%new_table; [|done|done]. by eapply (v_dist _ W1).
  - intros m e [Ht Hglob]%switched_tlb. specialize (Hg m e Ht Hglob).
    destruct (v_tlb _ W1 m e Ht) as [Hok Hw]. split; [done|]. rewrite new_walk by lia.
    by destruct (Z.ltb_spec m 786432); [lia|].
  - apply W1.
  - apply W1.
  - apply W1.
Qed.
End switch.

(** ** Theorems *)

(** (C20) [vmm_create_address_space] from a space whose recursive entry is not
    global, as in the one boot.s sets up, and with only kernel pages cached as
    global, followed by the switch to it (from a space it has made itself, whose
    recursive entry is global, see [pd_window_stale_after_switch]): either there is
    no free frame, 0 is
    returned and nothing has changed, or the current space still translates
    every page as before, and in the new one no user page is mapped, every
    kernel page is translated as in the old one, and the invariant of the
    memory manager holds, so that pages can be allocated there. *)
Theorem address_space_create_switch s e :
  vm_wf s -> kernel_globals s -> pde s 1023 = Some e -> is_global e = false ->
  exists r s1, vmm_create_address_space s = Ret (r, s1) /\
    (r = 0 /\ s1 = s /\ no_frame s \/
     r <> 0 /\ vm_wf s1 /\ (forall m, 0 <= m < 1046528 -> walk s1 m = walk s m) /\
     exists s2, vmm_switch_address_space r s1 = Ret (tt, s2) /\ vm_wf s2 /\
       (forall m, 0 <= m < 786432 -> walk s2 m = None) /\
       (forall m, 786432 <= m < 1046528 -> walk s2 m = walk s m)).
Proof.
  intros Hwf Hg He Hng. apply wp_run. apply wp_create; [done|by left|].
  intros s1 n Hc. right. destruct (new_frame s s1 n Hwf Hc) as (_ & _ & _ & Hnz).
  split_and!; [done|apply (cd_wf _ _ _ Hc)|apply (cd_walk _ _ _ Hc)|]. exists (switched (n * 4096) s1).
  split; [by apply switch_ret|]. split_and!.
  - apply (switched_wf s); [done|done|]. intros m e' Ht Hge.
    destruct (cd_tlb _ _ _ Hc _ _ Ht) as [Ht'|[_ He']]; [by eapply Hg|congruence].
  - intros m Hm. rewrite (new_walk s s1 n) by (done || lia). by destruct (Z.ltb_spec m 786432); [|lia].
  - intros m Hm. rewrite (new_walk s s1 n) by (done || lia). destruct (Z.ltb_spec m 786432); [lia|].
    apply (cd_walk _ _ _ Hc). lia.
Qed.

(** From a space made by [vmm_create_address_space], whose recursive entry
    is global, a switch leaves that entry in the translation cache: in the next
    space the window that should show its page directory still shows the old
    one. *)
Theorem pd_window_stale_after_switch s e r s1 s2 i :
  vm_wf s -> pde s 1023 = Some e -> is_global e = true ->
  vmm_create_address_space s = Ret (r, s1) -> r <> 0 ->
  vmm_switch_address_space r s1 = Ret (tt, s2) -> 0 <= i < 1024 ->
  base s2 = r /\ r <> base s /\
  exists w, phys s2 !! (base s + 4 * i) = Some w /\ window_get PD_WINDOW i s2 = Ret (w, s2).
Proof.
  intros Hwf He Hge Hcr Hr Hsw Hi.
  assert (Hw : wp vmm_create_address_space s (fun r s1 => r = 0 \/ exists n, r = n * 4096 /\ created s s1 n)).
  { apply wp_create; [done|by left|]. intros s' n Hc. right. eauto. }
  unfold wp in Hw. rewrite Hcr in Hw. destruct Hw as [|(n & -> & Hc)]; [done|].
  rewrite switch_ret in Hsw by done. injection Hsw as <-.
  destruct (new_frame s s1 n Hwf Hc) as ((H4 & Hu & _) & _ & [Hb _] & _).
  assert (Hbase : base (switched (n * 4096) s1) = n * 4096) by (by apply switched_base).
  split_and!; [done|done|]. destruct (base_word s1 i (cd_wf _ _ _ Hc) Hi) as (w & Hw & _).
  assert (Eb : base s1 = base s) by (unfold base; by rewrite (cd_cr3 _ _ _ Hc)).
  unfold pde in Hw. rewrite Eb in Hw. exists w. split; [done|].
  assert (Ht : tlb (switched (n * 4096) s1) !! 1048575 = Some e).
  { apply switched_tlb. split; [|done]. by rewrite <- (cd_touched _ _ _ Hc). }
  destruct (v_self _ Hwf) as (e' & He' & _ & Hf). rewrite He in He'. injection He' as <-.
  destruct (window_pd i Hi) as (E1 & E2 & E3 & E4). unfold window_get. rewrite E1.
  unfold vread, translate, mmu_entry, mbind, ST_bind, st_get. rewrite shiftr_12, E2, Ht.
  unfold mret, ST_ret, pread. rewrite land_offset, E3, Hf.
  change (phys (switched (n * 4096) s1)) with (phys s1). by rewrite Hw.
Qed.

(** The first steps of [vmm_destroy_address_space]. *)
Lemma destroy_run s pd e x :
  vm_wf s -> pde s 1022 = Some x -> present x = false ->
  is_u32 pd -> pd mod PAGE_SIZE = 0 -> pd <> base s ->
  phys s !! (pd + 4 * 1022) = Some e -> present e = false ->
  exists s1, vmm_set_pde_at PD_WINDOW PD_SCRATCH_WINDOW pd (Z.lor PAGE_PRESENT PAGE_RW) s = Ret (tt, s1) /\
    cr3 s1 = cr3 s /\ phys s1 = <[base s + 4 * 1023 := Z.lor pd 3]> (phys s) /\
    window_get PD_SCRATCH_WINDOW 0 s1 = Fault /\ vmm_destroy_address_space pd s = Fault.
Proof.
  unfold PAGE_SIZE. intros Hwf Hx Hxp Hu H4 Hne He Hep.
  destruct (walk_pd_window s Hwf) as (self & Hself & Hselff).
  destruct (window_pd 1023 ltac:(lia)) as (E1 & E2 & E3 & E4).
  destruct (base_word s 1023 Hwf ltac:(lia)) as (d & Hd & _).
  set (w := Z.lor (Z.land pd 0xFFFFF000) (Z.lor PAGE_PRESENT PAGE_RW)).
  set (s1 := set_phys (<[base s + 4 * 1023 := w]> (phys s)) (cached 1048575 self s)).
  assert (Hset : vmm_set_pde_at PD_WINDOW PD_SCRATCH_WINDOW pd (Z.lor PAGE_PRESENT PAGE_RW) s = Ret (tt, s1)).
  { assert (Hwp : wp (window_set PD_WINDOW 1023 w) s (fun _ s' => s' = s1)).
    { unfold window_set. rewrite E1.
      apply (wp_vwrite _ _ self); rewrite ?E2, ?E3, ?Hselff; [done|done|by apply wf_hit|by eexists|done]. }
    unfold wp in Hwp. change (vmm_set_pde_at PD_WINDOW PD_SCRATCH_WINDOW pd (Z.lor PAGE_PRESENT PAGE_RW) s)
      with (window_set PD_WINDOW 1023 w s). destruct (window_set PD_WINDOW 1023 w s) as [[[] s']| |]; [|done|done].
    by rewrite Hwp. }
  destruct (entry_parts pd 3 Hu H4) as (_ & Hfw & Hpw); [lia|].
  assert (Ew : w = Z.lor pd 3) by (unfold w; fold (frame_of pd); by rewrite frame_of_frame).
  destruct (v_base _ Hwf) as [(Hb4 & _) _].
  assert (Hwalk : walk s1 1048574 = None).
  { unfold walk, pde. change (1048574 / 1024) with 1023. change (base s1) with (base s).
    cbn [phys s1 set_phys]. rewrite lookup_insert_eq. cbn [mbind option_bind].
    rewrite Ew, Hpw, Hfw. change (Z.odd 3) with true. cbv iota. change (1048574 mod 1024) with 1022.
    rewrite lookup_insert_ne; [rewrite He; cbn; by rewrite Hep|].
    apply frames_apart; [done|done|congruence|lia|lia]. }
  assert (Htlb : tlb s1 !! 1048574 = None).
  { cbn [tlb s1 set_phys cached set_tlb]. rewrite lookup_insert_ne by done.
    destruct (tlb s !! 1048574) as [e'|] eqn:Et; [|done]. apply (v_tlb _ Hwf) in Et as [_ Et].
    destruct (v_self _ Hwf) as (e2 & He2 & Hp2 & Hf2). unfold walk in Et.
    change (1048574 / 1024) with 1023 in Et. change (1048574 mod 1024) with 1022 in Et.
    rewrite He2 in Et. cbn [mbind option_bind] in Et. rewrite Hp2, Hf2 in Et.
    unfold pde in Hx. rewrite Hx in Et. cbn in Et. by rewrite Hxp in Et. }
  assert (Hget : window_get PD_SCRATCH_WINDOW 0 s1 = Fault).
  { change (window_get PD_SCRATCH_WINDOW 0 s1) with (vread 4294959104 s1). unfold vread, mbind, ST_bind.
    by rewrite translate_unmapped. }
  exists s1. split; [exact Hset|]. split; [done|]. split; [cbn; by rewrite <- Ew|]. split; [exact Hget|].
  unfold vmm_destroy_address_space. rewrite (st_bind_Ret _ _ _ _ _ Hset).
  unfold mbind at 1, ST_bind at 1. rewrite (st_for_fault 767); [done|].
  unfold mbind at 1, ST_bind at 1. by rewrite Hget.
Qed.

(** (C39) [vmm_destroy_address_space] damages the running address space and
    page-faults.  Its first write puts the victim into entry 1023 of the current
    page directory, the recursive one, and leaves the scratch slot 1022 as it was:
    every other word of memory is kept.  The scratch window now shows entry 1022 of
    the victim's directory, and when that is not present, nor entry 1022 of the
    current one, the first read through the window, and with it the whole call,
    is a page fault. *)
Theorem vmm_destroy_address_space_faults s pd e x :
  vm_wf s -> pde s 1022 = Some x -> present x = false ->
  is_u32 pd -> pd mod PAGE_SIZE = 0 -> pd <> base s ->
  phys s !! (pd + 4 * 1022) = Some e -> present e = false ->
  exists s1, vmm_set_pde_at PD_WINDOW PD_SCRATCH_WINDOW pd (Z.lor PAGE_PRESENT PAGE_RW) s = Ret (tt, s1) /\
    phys s1 !! (base s + 4 * 1023) = Some (Z.lor pd 3) /\ pde s1 1022 = Some x /\
    (forall a, a <> base s + 4 * 1023 -> phys s1 !! a = phys s !! a) /\
    window_get PD_SCRATCH_WINDOW 0 s1 = Fault /\ vmm_destroy_address_space pd s = Fault.
Proof.
  intros Hwf Hx Hxp Hu H4 Hne He Hep. destruct (destroy_run s pd e x) as (s1 & Hs & Hc & Hp & Hg & Hf); try done.
  exists s1. split; [done|]. rewrite Hp. split; [apply lookup_insert_eq|].
  assert (Ho : forall a, a <> base s + 4 * 1023 -> phys s1 !! a = phys s !! a) by (intros a Ha; by rewrite Hp, lookup_insert_ne).
  split; [|split; [intros a Ha; by rewrite lookup_insert_ne|done]].
  unfold pde, base in *. rewrite Hc. rewrite Ho by lia. exact Hx.
Qed.

(** ** Witnesses *)
Lemma demo_has_frame g : ~ no_frame (demo_vm g).
Proof. intros H. assert (page_used (frames (demo_vm g)) 2 = true) as E by (apply H; by vm_compute). vm_compute in E. discriminate E. Qed.

Lemma address_space_create_switch_witness :
  exists r s1 s2, vmm_create_address_space (demo_vm 3) = Ret (r, s1) /\ r <> 0 /\
    vmm_switch_address_space r s1 = Ret (tt, s2) /\ vm_wf s2.
Proof.
  destruct (address_space_create_switch (demo_vm 3) (4096 + 3)) as (r & s1 & H1 & [(_ & _ & Hno)|H]).
  - apply demo_vm_wf; [lia|done].
  - intros m e H. cbn [tlb demo_vm] in H. by rewrite lookup_empty in H.
  - apply demo_self.
  - done.
  - exfalso. exact (demo_has_frame 3 Hno).
  - destruct H as (Hr & _ & _ & s2 & H2 & Hw & _). exists r, s1, s2.
    split; [exact H1|]. split; [exact Hr|]. split; [exact H2|exact Hw].
Defined.

Lemma pd_window_stale_after_switch_witness :
  exists r s1 s2, vmm_create_address_space (demo_vm 0x103) = Ret (r, s1) /\
    vmm_switch_address_space r s1 = Ret (tt, s2) /\ base s2 = r /\ r <> 4096 /\
    exists w, phys s2 !! (4096 + 4 * 0) = Some w /\ window_get PD_WINDOW 0 s2 = Ret (w, s2).
Proof.
  assert (Hwf : vm_wf (demo_vm 0x103)) by (apply demo_vm_wf; [lia|done]).
  assert (Hc : wp vmm_create_address_space (demo_vm 0x103) (fun r s1 => r <> 0)).
  { apply wp_create; [exact Hwf|intros Hno; exfalso; exact (demo_has_frame _ Hno)|].
    intros s' n Hcr. destruct (cd_frame _ _ _ Hcr). lia. }
  destruct (proj1 (wp_run vmm_create_address_space (demo_vm 0x103) _) Hc) as (r & s1 & H1 & Hr).
  exists r, s1, (switched r s1).
  pose proof (switch_ret r s1 Hr) as H2.
  destruct (pd_window_stale_after_switch (demo_vm 0x103) (4096 + 0x103) r s1 (switched r s1) 0)
    as (Hb & Hne & Hw); [exact Hwf|apply demo_self|reflexivity|exact H1|exact Hr|exact H2|lia|].
  split; [exact H1|]. split; [exact H2|]. split; [exact Hb|]. split; [exact Hne|exact Hw].
Defined.

Lemma vmm_destroy_address_space_faults_witness :
  exists s1, vmm_set_pde_at PD_WINDOW PD_SCRATCH_WINDOW 8192 (Z.lor PAGE_PRESENT PAGE_RW) (demo_vm 3) = Ret (tt, s1) /\
    phys s1 !! (base (demo_vm 3) + 4 * 1023) = Some (8192 + 3) /\ vmm_destroy_address_space 8192 (demo_vm 3) = Fault.
Proof.
  destruct (vmm_destroy_address_space_faults (demo_vm 3) 8192 0 0) as (s1 & Hs & H1 & _ & _ & _ & Hf).
  - apply demo_vm_wf; [lia|done].
  - apply demo_dir. lia.
  - done.
  - by unfold is_u32.
  - done.
  - done.
  - replace (8192 + 4 * 1022) with (4 * 3070) by lia. apply demo_word; lia.
  - done.
  - exists s1. split; [exact Hs|]. split; [exact H1|exact Hf].
Defined.
