(* ===== verification/Heap.v ===== *)
(** * Kernel heap (src/src/kernel/memory/heap-allocator.c)

    A free-list allocator with boundary tags.  The memory is a finite map from
    the addresses of mapped 32-bit words to their contents: a word that is not
    mapped is a page fault, [Fault].  Every address the allocator uses is a
    multiple of four, which the invariant states, so distinct addresses are
    distinct words.

    This file holds the code; [HeapProof] holds the invariant and theorems. *)

From S2P Require Import Prelude Pmm Vmm VmmProof.

(** ** Constants of heap-allocator.h *)
Definition BLOCK_ALIGN : Z := 4.
Definition BLOCK_FREE : Z := 1.
Definition KHEAP_START : Z := 0xC1000000.
Definition sizeof_block_header : Z := 4.
Definition sizeof_free_block_header : Z := 12.

(** [static uintptr_t heap_start = 0;] never assigned. *)
Definition heap_start : Z := 0.

(** [ALIGN_UP(x)] *)
Definition ALIGN_UP (x : Z) : Z := Z.land (x +! (BLOCK_ALIGN - 1)) (not32 (BLOCK_ALIGN - 1)).

(** ** What the heap asks of the virtual memory manager

    [kp_alloc v a] is [vmm_alloc_kernel_page_at(a)]: it backs the page at [a]
    with a zeroed frame, or reports failure.  The pages the heap asks for are
    aligned and lie between [KHEAP_START] and the windows of the page tables. *)
Definition HEAP_TOP : Z := 0xFF800000.

Class KernelPages (V : Type) := {
  kp_alloc : V -> Z -> outcome (bool * V);
  pages_ok : V -> Prop;
  pages_total : forall v a, pages_ok v -> KHEAP_START <= a -> a + PAGE_SIZE <= HEAP_TOP ->
    a mod PAGE_SIZE = 0 ->
    exists b v', kp_alloc v a = Ret (b, v') /\ pages_ok v'
}.

Section code.
Context {V : Type} `{!KernelPages V}.

(** ** State *)
Record heap := {
  hmem : gmap Z Z;
  free_list_head : Z;
  heap_max : Z;
  hvm : V
}.

Definition set_hmem (s : heap) (m : gmap Z Z) : heap :=
  {| hmem := m; free_list_head := free_list_head s; heap_max := heap_max s; hvm := hvm s |}.
Definition set_head (s : heap) (h : Z) : heap :=
  {| hmem := hmem s; free_list_head := h; heap_max := heap_max s; hvm := hvm s |}.

Definition load (a : Z) : ST heap Z := fun s =>
  match hmem s !! a with Some v => Ret (v, s) | None => Fault end.
Definition store (a v : Z) : ST heap unit := fun s =>
  match hmem s !! a with Some _ => Ret (tt, set_hmem s (<[a := v]> (hmem s))) | None => Fault end.

(** The fields of [free_block_header_t]. *)
Definition next_free (b : Z) : Z := b + 4.
Definition prev_free (b : Z) : Z := b + 8.

(** ** Tag macros *)
Definition GET_SIZE (b : Z) : ST heap Z :=
  w ← load b; mret (Z.land w (not32 BLOCK_FREE)).
Definition SET_SIZE (b sz : Z) : ST heap unit :=
  w ← load b; store b (Z.lor (Z.land w BLOCK_FREE) sz).
Definition IS_FREE (b : Z) : ST heap bool :=
  w ← load b; mret (negb (Z.land w BLOCK_FREE =? 0)).
Definition SET_FREE (b : Z) : ST heap unit :=
  w ← load b; store b (Z.lor w BLOCK_FREE).
Definition CLEAR_FREE (b : Z) : ST heap unit :=
  w ← load b; store b (Z.land w (not32 BLOCK_FREE)).

Definition get_footer (header : Z) : ST heap Z :=
  sz ← GET_SIZE header; mret (header +! sz -! sizeof_block_header).

Definition update_footer (header : Z) : ST heap unit :=
  footer ← get_footer header;
  w ← load header;
  store footer w.

Definition create_free_block (addr size : Z) : ST heap Z :=
  SET_SIZE addr size;;
  SET_FREE addr;;
  update_footer addr;;
  store (prev_free addr) 0;;
  store (next_free addr) 0;;
  mret addr.

Definition add_free_block (block : Z) : ST heap unit :=
  head ← st_gets free_list_head;
  store (next_free block) head;;
  (if negb (head =? 0) then store (prev_free head) block else mret tt);;
  store (prev_free block) 0;;
  st_modify (fun s => set_head s block).

Definition remove_free_block (block : Z) : ST heap unit :=
  prev ← load (prev_free block);
  next ← load (next_free block);
  (if negb (prev =? 0) then store (next_free prev) next
   else st_modify (fun s => set_head s next));;
  next ← load (next_free block);
  (if negb (next =? 0)
   then prev ← load (prev_free block); store (prev_free next) prev
   else mret tt);;
  store (prev_free block) 0;;
  store (next_free block) 0.

Definition coalesce_blocks (a b : Z) : ST heap unit :=
  remove_free_block b;;
  sa ← GET_SIZE a;
  sb ← GET_SIZE b;
  SET_SIZE a (sa +! sb);;
  SET_FREE a;;
  update_footer a.

(** [(uintptr_t)MEMORY_SPACE] truncates 0x100000000 to 32 bits. *)
Definition coalesce_with_next (block : Z) : ST heap unit :=
  sz ← GET_SIZE block;
  hm ← st_gets heap_max;
  let next_addr := block +! sz in
  if (hm <? next_addr) || (u32 MEMORY_SPACE <=? next_addr) then mret tt
  else
    free ← IS_FREE next_addr;
    if (free : bool) then coalesce_blocks block next_addr else mret tt.

Definition coalesce_with_prev (block : Z) : ST heap unit :=
  if block <=? heap_start then mret tt
  else
    let prev_footer := block -! sizeof_block_header in
    if prev_footer <=? KHEAP_START then mret tt
    else
      free ← IS_FREE prev_footer;
      if negb free then mret tt
      else
        sz ← GET_SIZE prev_footer;
        coalesce_blocks (block -! sz) block.

(** [NULL] is 0. *)
Definition split_block (block want_size : Z) : ST heap Z :=
  current_size ← GET_SIZE block;
  if current_size <? want_size +! sizeof_free_block_header then mret 0
  else
    let new_addr := block +! want_size in
    let new_size := current_size -! want_size in
    SET_SIZE block want_size;;
    update_footer block;;
    new_block ← create_free_block new_addr new_size;
    add_free_block new_block;;
    mret new_block.

Definition map_kernel_page (addr : Z) : ST heap bool := fun s =>
  match kp_alloc (hvm s) addr with
  | Ret (b, v') =>
      Ret (b, {| hmem := if b then zero_words 1024 addr (hmem s) else hmem s;
                 free_list_head := free_list_head s;
                 heap_max := heap_max s; hvm := v' |})
  | Fault => Fault
  | Diverge => Diverge
  end.

Definition allocate_new_heap_page : ST heap bool :=
  addr ← st_gets heap_max;
  page ← map_kernel_page addr;
  if negb page then mret false
  else
    st_modify (fun s => {| hmem := hmem s; free_list_head := free_list_head s;
                           heap_max := heap_max s +! PAGE_SIZE; hvm := hvm s |});;
    block ← create_free_block addr PAGE_SIZE;
    add_free_block block;;
    coalesce_with_prev block;;
    mret page.

(** The block size [kmalloc] looks for: aligned payload, header and footer,
    at least a free header. *)
Definition block_size_for (size : Z) : Z :=
  let size := ALIGN_UP size in
  let size := size +! 2 * sizeof_block_header in
  if size <? sizeof_free_block_header then sizeof_free_block_header else size.

(** [while (cur)]: the first block of the free list that is large enough, taken
    out of the list and split. *)
Fixpoint first_fit (fuel : nat) (cur size : Z) : ST heap (option Z) :=
  match fuel with
  | O => fun _ => Diverge
  | S fuel =>
      if cur =? 0 then mret None
      else
        current_size ← GET_SIZE cur;
        if size <=? current_size then
          remove_free_block cur;;
          CLEAR_FREE cur;;
          (if size +! sizeof_free_block_header <=? current_size
           then split_block cur size;; mret tt
           else update_footer cur);;
          mret (Some (cur +! sizeof_block_header))
        else
          next ← load (next_free cur);
          first_fit fuel next size
  end.

(** Free blocks are at least 12 bytes, so a list longer than this is cyclic. *)
Definition list_fuel (s : heap) : nat := S (Z.to_nat ((heap_max s - KHEAP_START) / 12)).

Fixpoint kmalloc_rec (fuel : nat) (size : Z) : ST heap Z :=
  match fuel with
  | O => fun _ => Diverge
  | S fuel =>
      let size := block_size_for size in
      head ← st_gets free_list_head;
      ok ← (if head =? 0 then allocate_new_heap_page else mret true);
      if negb ok then mret 0
      else
        s ← st_get;
        r ← first_fit (list_fuel s) (free_list_head s) size;
        match r with
        | Some p => mret p
        | None =>
            ok ← allocate_new_heap_page;
            if negb ok then mret 0
            else kmalloc_rec fuel (size -! sizeof_block_header * 2)
        end
  end.

(** Every recursive call has added one page to the last block. *)
Definition kmalloc (size : Z) : ST heap Z :=
  kmalloc_rec (Z.to_nat (block_size_for size / PAGE_SIZE + 3)) size.

Definition kfree (ptr : Z) : ST heap unit :=
  if ptr =? 0 then mret tt
  else
    let block := ptr -! sizeof_block_header in
    SET_FREE block;;
    update_footer block;;
    add_free_block block;;
    coalesce_with_prev block;;
    coalesce_with_next block.

End code.
Arguments heap V : clear implicits.

(** ** The virtual memory manager as the source of kernel pages

    The kernel half of the running address space has all its page tables. *)
Definition kernel_tables (v : vm) : Prop :=
  forall i, 768 <= i < 1022 -> exists T, table v i T.

#[export] Instance vmm_pages : KernelPages vm.
Proof.
  refine {| kp_alloc := fun v a => vmm_alloc_kernel_page_at a v;
            pages_ok := fun v => vm_wf v /\ kernel_tables v |}.
  unfold KHEAP_START, HEAP_TOP, PAGE_SIZE. intros v a [Hwf Ht] Hlo Hhi Ha.
  destruct (Ht (a / 4096 / 1024) ltac:(zlia)) as [T HT]. apply wp_run.
  apply (wp_alloc_kernel_page_at v a T); [done|unfold is_u32; lia|done|zlia|done|done|].
  intros v' f Hm _ Htab. split; [apply Hm|]. intros i Hi. destruct (Ht i Hi) as [T' HT'].
  exists T'. apply Htab; [lia|done].
Defined.

(** The frame allocator alone, the mapping left out: a small source of pages
    for the examples. *)
Definition pmm_kernel_page (p : pmm) (vaddr : Z) : outcome (bool * pmm) :=
  '(phys, p') ← pmm_alloc_page p;
  Ret (negb (phys =? 0), p').

#[export] Instance pmm_pages : KernelPages pmm.
Proof.
  refine {| kp_alloc := pmm_kernel_page; pages_ok := pmm_wf |}.
  intros v a Hwf _ _ _. destruct (pmm_alloc_page_spec v Hwf) as (r & p' & Ha & _ & Hw & _).
  exists (negb (r =? 0)), p'. unfold pmm_kernel_page. by rewrite Ha.
Defined.

(** The heap before the first allocation. *)
Definition heap_boot {V} (v : V) : heap V :=
  {| hmem := ∅; free_list_head := 0; heap_max := KHEAP_START; hvm := v |}.
