(* ===== verification/HeapProof.v ===== *)
(** * Correctness of the kernel heap

    The invariant describes the heap by a finite map [B] from block addresses
    to sizes and free flags, and the free list by the list [fl] of addresses
    the doubly linked list visits.  The specifications of the operations are
    total ([wp]): with the invariant, no access leaves the mapped heap and
    every loop ends. *)

From S2P Require Import Prelude Pmm Heap.

(** The header word of a block. *)
Definition tag (sz : Z) (fr : bool) : Z := sz + (if fr then 1 else 0).

(** ** Tags *)
Lemma land_1 w : Z.land w BLOCK_FREE = w mod 2.
Proof. change BLOCK_FREE with (Z.ones 1). by rewrite Z.land_ones by lia. Qed.

Lemma even_lor_bit sz b : sz mod 2 = 0 -> 0 <= b < 2 -> Z.lor b sz = sz + b.
Proof.
  intros Hs Hb. rewrite Z.lor_comm. rewrite <- Z.add_lor_land.
  assert (Z.land sz b = 0) as ->; [|lia].
  assert (b = 0 \/ b = 1) as [-> | ->] by lia; [apply Z.land_0_r|].
  change 1 with BLOCK_FREE. by rewrite land_1.
Qed.

Lemma land_not1 w : is_u32 w -> Z.land w (not32 BLOCK_FREE) = w - w mod 2.
Proof. intros. change BLOCK_FREE with (Z.ones 1). by apply land_not32_ones; [|lia]. Qed.

Definition size_ok (sz : Z) : Prop := is_u32 sz /\ sz mod 4 = 0.

Lemma tag_mod2 sz fr : size_ok sz -> tag sz fr mod 2 = if fr then 1 else 0.
Proof. unfold size_ok, tag. intros [_ H]. destruct fr; zlia. Qed.

Lemma tag_is_u32 sz fr : size_ok sz -> is_u32 (tag sz fr).
Proof. unfold size_ok, tag, is_u32. intros [H ?]. destruct fr; zlia. Qed.

Lemma tag_size sz fr : size_ok sz -> Z.land (tag sz fr) (not32 BLOCK_FREE) = sz.
Proof.
  intros H. rewrite land_not1, tag_mod2 by auto using tag_is_u32.
  unfold tag. destruct fr; lia.
Qed.

Lemma tag_free_bit sz fr : size_ok sz -> Z.land (tag sz fr) BLOCK_FREE = if fr then 1 else 0.
Proof. intros. by rewrite land_1, tag_mod2. Qed.

Lemma tag_set_size w sz : size_ok sz ->
  Z.lor (Z.land w BLOCK_FREE) sz = tag sz (w mod 2 =? 1).
Proof.
  intros [_ H]. rewrite land_1, even_lor_bit by zlia. unfold tag. case_bool; zlia.
Qed.

Lemma tag_set_free sz fr : size_ok sz -> Z.lor (tag sz fr) BLOCK_FREE = tag sz true.
Proof.
  intros Hs. destruct fr; [unfold tag|].
  - rewrite <- (even_lor_bit sz 1) by (destruct Hs; zlia).
    rewrite (Z.lor_comm 1 sz), <- Z.lor_assoc. done.
  - destruct Hs. unfold tag. rewrite Z.add_0_r, Z.lor_comm. apply even_lor_bit; [zlia|].
    unfold BLOCK_FREE; lia.
Qed.

(** ** Memory and the doubly linked free list *)

(** The cells of [l], linked from [prev] on, the last one pointing to [fin]. *)
Fixpoint dll (m : gmap Z Z) (prev : Z) (l : list Z) (fin : Z) : Prop :=
  match l with
  | [] => True
  | x :: l => m !! next_free x = Some (hd fin l) /\ m !! prev_free x = Some prev /\
              dll m x l fin
  end.

Abbreviation last_or p l := (List.last l p).

Definition not_link (l : list Z) (k : Z) : Prop :=
  forall y, y ∈ l -> k <> next_free y /\ k <> prev_free y.

(** Cells of twelve bytes that do not overlap. *)
Definition spaced (l : list Z) : Prop :=
  forall x y, x ∈ l -> y ∈ l -> x <> y -> x + 12 <= y \/ y + 12 <= x.

Lemma dll_app m p l1 l2 fin :
  dll m p (l1 ++ l2) fin <-> dll m p l1 (hd fin l2) /\ dll m (last_or p l1) l2 fin.
Proof.
  revert p. induction l1 as [|x l1 IH]; intros p; simpl; [tauto|].
  rewrite IH. destruct l1 as [|y l1]; simpl.
  - tauto.
  - assert (Hl : forall q, last_or q (y :: l1) = last_or p (y :: l1)).
    { clear. intros q. revert y. induction l1 as [|z l1 IH]; intros y; [done|].
      exact (IH z). }
    specialize (Hl x). simpl in Hl. rewrite Hl. tauto.
Qed.

Lemma dll_frame m m' p l fin :
  (forall y, y ∈ l -> m' !! next_free y = m !! next_free y /\
                      m' !! prev_free y = m !! prev_free y) ->
  dll m p l fin -> dll m' p l fin.
Proof.
  revert p. induction l as [|x l IH]; intros p Hm; simpl; [done|].
  intros (Hn & Hp & Hd). destruct (Hm x) as [-> ->]; [by left|].
  split_and!; [done|done|]. apply IH; [|done]. intros y Hy. apply Hm. by right.
Qed.

Lemma dll_insert m p l fin k v :
  not_link l k -> dll m p l fin -> dll (<[k := v]> m) p l fin.
Proof.
  intros Hk. apply dll_frame. intros y Hy. destruct (Hk y Hy).
  by rewrite !lookup_insert_ne by done.
Qed.

Lemma dll_lookup m p l fin x : dll m p l fin -> x ∈ l ->
  exists n q, m !! next_free x = Some n /\ m !! prev_free x = Some q /\
    (n = fin \/ n ∈ l) /\ (q = p \/ q ∈ l).
Proof.
  revert p. induction l as [|y l IH]; intros p; [by intros _ ?%not_elem_of_nil|].
  intros (Hn & Hp & Hd) [->|Hx]%elem_of_cons.
  - exists (hd fin l), p. split_and!; [done|done| |by left].
    destruct l; [by left|right; right; by left].
  - destruct (IH y Hd Hx) as (n & q & ? & ? & Hn' & Hq').
    exists n, q. split_and!; [done|done| |].
    + destruct Hn'; [by left|right; by right].
    + right. destruct Hq' as [->|]; [by left|by right].
Qed.

Lemma not_link_spaced l x k :
  spaced (x :: l) -> x ∉ l -> k = next_free x \/ k = prev_free x -> not_link l k.
Proof.
  unfold next_free, prev_free. intros Hs Hx Hk y Hy.
  assert (x <> y) by congruence.
  destruct (Hs x y); [by left|by right|done| |]; unfold next_free, prev_free; lia.
Qed.

Lemma spaced_sub l l' : spaced l -> (forall x, x ∈ l' -> x ∈ l) -> spaced l'.
Proof. intros Hs Hsub x y Hx Hy. apply Hs; auto. Qed.

(** Which words a step may have changed and that it unmaps none. *)
Definition frame_off (P : Z -> Prop) (m m' : gmap Z Z) : Prop :=
  (forall k, P k -> m' !! k = m !! k) /\ (forall k, is_Some (m !! k) -> is_Some (m' !! k)).

Lemma frame_off_refl P m : frame_off P m m.
Proof. by split. Qed.

Lemma frame_off_insert (P : Z -> Prop) m m' k v :
  frame_off P m m' -> ~ P k -> frame_off P m (<[k := v]> m').
Proof.
  intros [H1 H2] Hk. split.
  - intros j Hj. rewrite lookup_insert_ne by congruence. auto.
  - intros j Hj. destruct (decide (j = k)) as [->|].
    + rewrite lookup_insert_eq. eauto.
    + rewrite lookup_insert_ne by done. auto.
Qed.

Lemma frame_off_trans (P : Z -> Prop) m1 m2 m3 :
  frame_off P m1 m2 -> frame_off P m2 m3 -> frame_off P m1 m3.
Proof.
  intros [H1 H2] [H3 H4]. split; [|auto]. intros k Hk. by rewrite H3, H1.
Qed.

Lemma frame_off_weaken (P Q : Z -> Prop) m m' :
  (forall k, Q k -> P k) -> frame_off P m m' -> frame_off Q m m'.
Proof. intros HPQ [H1 H2]. split; auto. Qed.

(** Linear arithmetic over heap addresses. *)
Ltac hlia := unfold KHEAP_START, HEAP_TOP, next_free, prev_free, is_u32 in *; lia.

Section proofs.
Context {V : Type} `{!KernelPages V}.
Implicit Types s : heap V.

(** ** Rules for memory accesses *)
Lemma wp_load s a v Q : hmem s !! a = Some v -> Q v s -> wp (load a) s Q.
Proof. intros Ha HQ. unfold wp, load. by rewrite Ha. Qed.

Lemma wp_store s a v w Q : hmem s !! a = Some w ->
  Q tt (set_hmem s (<[a := v]> (hmem s))) -> wp (store a v) s Q.
Proof. intros Ha HQ. unfold wp, store. by rewrite Ha. Qed.

Lemma wp_GET_SIZE s b sz fr Q : size_ok sz ->
  hmem s !! b = Some (tag sz fr) -> Q sz s -> wp (GET_SIZE b) s Q.
Proof.
  intros Hs Hb HQ. apply wp_bind, (wp_load _ _ _ _ Hb), wp_ret. by rewrite tag_size.
Qed.

Lemma wp_IS_FREE s b w Q :
  hmem s !! b = Some w -> Q (w mod 2 =? 1) s -> wp (IS_FREE b) s Q.
Proof.
  intros Hb HQ. apply wp_bind, (wp_load _ _ _ _ Hb), wp_ret. rewrite land_1.
  replace (negb (w mod 2 =? 0)) with (w mod 2 =? 1); [done|].
  pose proof (Z.mod_pos_bound w 2). lia.
Qed.

Lemma wp_SET_SIZE s b sz w Q : size_ok sz -> hmem s !! b = Some w ->
  Q tt (set_hmem s (<[b := tag sz (w mod 2 =? 1)]> (hmem s))) -> wp (SET_SIZE b sz) s Q.
Proof.
  intros Hs Hb HQ. apply wp_bind, (wp_load _ _ _ _ Hb), (wp_store _ _ _ _ _ Hb).
  by rewrite tag_set_size.
Qed.

Lemma wp_SET_FREE s b sz fr Q : size_ok sz -> hmem s !! b = Some (tag sz fr) ->
  Q tt (set_hmem s (<[b := tag sz true]> (hmem s))) -> wp (SET_FREE b) s Q.
Proof.
  intros Hs Hb HQ. apply wp_bind, (wp_load _ _ _ _ Hb), (wp_store _ _ _ _ _ Hb).
  by rewrite tag_set_free.
Qed.

Lemma wp_CLEAR_FREE s b sz fr Q : size_ok sz -> hmem s !! b = Some (tag sz fr) ->
  Q tt (set_hmem s (<[b := tag sz false]> (hmem s))) -> wp (CLEAR_FREE b) s Q.
Proof.
  intros Hs Hb HQ. apply wp_bind, (wp_load _ _ _ _ Hb), (wp_store _ _ _ _ _ Hb).
  rewrite tag_size by done. unfold tag in HQ. by rewrite Z.add_0_r in HQ.
Qed.

Lemma wp_update_footer s b sz fr w Q : size_ok sz ->
  is_u32 (b + sz) -> 4 <= b + sz -> hmem s !! b = Some (tag sz fr) ->
  hmem s !! (b + sz - 4) = Some w ->
  Q tt (set_hmem s (<[b + sz - 4 := tag sz fr]> (hmem s))) -> wp (update_footer b) s Q.
Proof.
  intros Hs Hu H4 Hb Hf HQ. apply wp_bind, wp_bind, (wp_GET_SIZE _ _ sz fr); [done|done|].
  apply wp_ret, wp_bind, (wp_load _ _ _ _ Hb).
  rewrite (u32_small (b + sz)) by done. unfold sizeof_block_header.
  rewrite u32_small by (unfold is_u32 in *; lia). by apply (wp_store _ _ _ _ _ Hf).
Qed.

(** A heap state with the same break and pages. *)
Definition same_arena s s' : Prop := heap_max s' = heap_max s /\ hvm s' = hvm s.

Lemma same_arena_trans s1 s2 s3 : same_arena s1 s2 -> same_arena s2 s3 -> same_arena s1 s3.
Proof. intros [??] [??]. split; congruence. Qed.

(** Redirecting the last pointer of a segment, and its first back pointer. *)
Lemma dll_relink_last m p l q fin n :
  dll m p (l ++ [q]) fin -> NoDup (l ++ [q]) -> spaced (l ++ [q]) ->
  dll (<[next_free q := n]> m) p (l ++ [q]) n.
Proof.
  intros [H1 (Hn & Hp & _)]%dll_app Hnd Hs. apply dll_app.
  assert (Hql : q ∉ l).
  { apply list.NoDup_app in Hnd as (_ & Hd & _). intros Hq. apply (Hd q Hq). by left. }
  split; [|simpl; split_and!; [by rewrite lookup_insert_eq| |done]].
  - apply dll_insert; [|done]. eapply not_link_spaced; [|done|by left].
    eapply spaced_sub; [exact Hs|]. intros x. rewrite elem_of_cons, elem_of_app, list_elem_of_singleton.
    tauto.
  - rewrite lookup_insert_ne by (unfold next_free, prev_free; lia). done.
Qed.

Lemma dll_relink_first m p p' n l fin :
  dll m p (n :: l) fin -> NoDup (n :: l) -> spaced (n :: l) ->
  dll (<[prev_free n := p']> m) p' (n :: l) fin.
Proof.
  intros (Hn & Hp & Hd) [Hnl Hnd]%list.NoDup_cons Hs. simpl. split_and!.
  - rewrite lookup_insert_ne by (unfold next_free, prev_free; lia). done.
  - by rewrite lookup_insert_eq.
  - apply dll_insert; [|done]. eapply not_link_spaced; [done|done|by right].
Qed.

(** Taking a block out of the free list, one pointer at a time. *)
Section remove.
Variables (s : heap V) (b : Z) (l1 l2 : list Z).
Hypothesis Hnd : NoDup (l1 ++ b :: l2).
Hypothesis Hs : spaced (l1 ++ b :: l2).
Hypothesis H0 : 0 ∉ l1 ++ b :: l2.

Lemma remove_not_in : b ∉ l1 ++ l2.
Proof.
  apply list.NoDup_app in Hnd as (_ & Hx & [Hb2 _]%list.NoDup_cons).
  intros [Hb|]%elem_of_app; [|done]. apply (Hx b Hb). by left.
Qed.

Lemma remove_in y : y ∈ l1 ++ l2 -> y ∈ l1 ++ b :: l2 /\ y <> 0.
Proof.
  intros Hy. assert (y ∈ l1 ++ b :: l2); [|split; [done|congruence]].
  apply elem_of_app. rewrite elem_of_cons. apply elem_of_app in Hy. tauto.
Qed.

Lemma remove_not_link k : k = next_free b \/ k = prev_free b -> not_link (l1 ++ l2) k.
Proof.
  intros Hk. eapply not_link_spaced; [|apply remove_not_in|done].
  eapply spaced_sub; [exact Hs|]. intros x.
  rewrite !elem_of_cons, !elem_of_app, elem_of_cons. tauto.
Qed.

Lemma remove_other y : y ∈ l1 ++ l2 ->
  next_free y <> next_free b /\ next_free y <> prev_free b /\
  prev_free y <> next_free b /\ prev_free y <> prev_free b.
Proof.
  intros Hy. destruct (remove_not_link (next_free b) (or_introl eq_refl) y Hy).
  destruct (remove_not_link (prev_free b) (or_intror eq_refl) y Hy). split_and!; congruence.
Qed.

Definition partly_removed (s1 : heap V) : Prop :=
  free_list_head s1 = hd 0 (l1 ++ l2) /\ same_arena s s1 /\
  frame_off (not_link (l1 ++ b :: l2)) (hmem s) (hmem s1) /\
  hmem s1 !! next_free b = Some (hd 0 l2) /\ hmem s1 !! prev_free b = Some (last_or 0 l1).

(** The forward link of the predecessor, or the head. *)
Lemma wp_unlink_next Q :
  free_list_head s = hd 0 (l1 ++ b :: l2) -> dll (hmem s) 0 (l1 ++ b :: l2) 0 ->
  (forall s1, partly_removed s1 -> dll (hmem s1) 0 l1 (hd 0 l2) ->
     dll (hmem s1) b l2 0 -> Q tt s1) ->
  wp (if negb (last_or 0 l1 =? 0) then store (next_free (last_or 0 l1)) (hd 0 l2)
      else st_modify (fun s => set_head s (hd 0 l2))) s Q.
Proof.
  intros Hh [Hd1 (Hn & Hp & Hd2)]%dll_app HQ. unfold partly_removed in HQ.
  pose proof remove_other as Hother. pose proof remove_in as Hin. pose proof Hnd as Hnd'.
  pose proof Hs as Hs'.
  destruct l1 as [|q l _] using rev_ind.
  - cbn [List.last Z.eqb negb]. apply wp_modify, HQ; done.
  - rewrite !last_last in *.
    assert (Hq : q ∈ (l ++ [q]) ++ l2) by set_solver.
    destruct (Hin q Hq) as [_ Hq0%Z.eqb_neq]. destruct (Hother q Hq) as (? & ? & _).
    rewrite Hq0. cbn [negb]. pose proof Hd1 as [_ (Hqn & _ & _)]%dll_app.
    apply list.NoDup_app in Hnd' as (Hnd1 & Hdj & _).
    apply (wp_store _ _ _ _ _ Hqn), HQ; cbn [hmem set_hmem free_list_head].
    + split_and!; [rewrite Hh; by destruct l|done|..|by rewrite lookup_insert_ne].
      * apply frame_off_insert; [apply frame_off_refl|]. intros Hl.
        destruct (Hl q) as [Hx _]; [set_solver|done].
      * by rewrite lookup_insert_ne.
    + eapply dll_relink_last; [done|done|]. eapply spaced_sub; [exact Hs'|]. set_solver.
    + apply dll_insert; [|done].
      eapply (not_link_spaced _ q); [eapply spaced_sub; [exact Hs'|]| |by left];
        [set_solver|]. intros Hq2. apply (Hdj q); set_solver.
Qed.

(** The backward link of the successor. *)
Lemma wp_unlink_prev s1 Q :
  partly_removed s1 -> dll (hmem s1) 0 l1 (hd 0 l2) -> dll (hmem s1) b l2 0 ->
  (forall s2, partly_removed s2 -> dll (hmem s2) 0 (l1 ++ l2) 0 -> Q tt s2) ->
  wp (if negb (hd 0 l2 =? 0) then prev ← load (prev_free b); store (prev_free (hd 0 l2)) prev
      else mret tt) s1 Q.
Proof.
  intros (Hh1 & Ha1 & Hf1 & Hn1 & Hp1) Hl1 Hl2 HQ. unfold partly_removed in HQ.
  pose proof remove_other as Hother. pose proof remove_in as Hin. pose proof Hnd as Hnd'.
  pose proof Hs as Hs'.
  destruct l2 as [|n l].
  - cbn [hd Z.eqb negb]. apply wp_ret, HQ; [done|]. apply dll_app. by split.
  - cbn [hd] in *. assert (Hn : n ∈ l1 ++ n :: l) by set_solver.
    destruct (Hin n Hn) as [_ Hn0%Z.eqb_neq]. destruct (Hother n Hn) as (_ & _ & ? & ?).
    rewrite Hn0. cbn [negb]. apply wp_bind, (wp_load _ _ _ _ Hp1).
    pose proof Hl2 as (_ & Hnp & _).
    apply list.NoDup_app in Hnd' as (_ & Hdj & [_ Hnd2]%list.NoDup_cons).
    apply (wp_store _ _ _ _ _ Hnp), HQ; cbn [hmem set_hmem free_list_head].
    + split_and!; [done|done|..|by rewrite lookup_insert_ne].
      * apply frame_off_insert; [done|]. intros Hl. destruct (Hl n) as [_ Hx]; [set_solver|done].
      * by rewrite lookup_insert_ne.
    + apply dll_app. split.
      * apply dll_insert; [|done].
        eapply (not_link_spaced _ n); [eapply spaced_sub; [exact Hs'|]| |by right];
          [set_solver|]. intros Hq2. apply (Hdj n); set_solver.
      * eapply dll_relink_first; [done|done|]. eapply spaced_sub; [exact Hs'|]. set_solver.
Qed.

Lemma wp_remove Q :
  free_list_head s = hd 0 (l1 ++ b :: l2) -> dll (hmem s) 0 (l1 ++ b :: l2) 0 ->
  (forall s', free_list_head s' = hd 0 (l1 ++ l2) -> dll (hmem s') 0 (l1 ++ l2) 0 ->
     frame_off (not_link (l1 ++ b :: l2)) (hmem s) (hmem s') -> same_arena s s' -> Q tt s') ->
  wp (remove_free_block b) s Q.
Proof.
  intros Hh Hd HQ. pose proof Hd as [_ (Hn & Hp & _)]%dll_app.
  apply wp_bind, (wp_load _ _ _ _ Hp), wp_bind, (wp_load _ _ _ _ Hn), wp_bind.
  apply wp_unlink_next; [done|done|]. intros s1 Hp1 Hl1 Hl2. pose proof Hp1 as (_ & _ & _ & Hn1 & _).
  apply wp_bind, (wp_load _ _ _ _ Hn1), wp_bind.
  apply (wp_unlink_prev s1); [done|done|done|]. intros s2 (Hh2 & Ha2 & Hf2 & Hn2 & Hp2) Hl.
  apply wp_bind, (wp_store _ _ _ _ _ Hp2). eapply wp_store; cbn [hmem set_hmem].
  { rewrite lookup_insert_ne by (unfold next_free, prev_free; lia). done. }
  apply HQ; cbn [hmem set_hmem free_list_head]; [done| | |done].
  - apply dll_insert; [apply remove_not_link; tauto|].
    apply dll_insert; [apply remove_not_link; tauto|done].
  - assert (b ∈ l1 ++ b :: l2) by set_solver.
    apply frame_off_insert; [apply frame_off_insert; [done|]|]; intros Hl'; destruct (Hl' b); done.
Qed.
End remove.

(** Pushing a block on the free list. *)
Lemma wp_add s b l v1 v2 Q :
  free_list_head s = hd 0 l -> dll (hmem s) 0 l 0 ->
  NoDup (b :: l) -> spaced (b :: l) -> 0 ∉ l ->
  hmem s !! next_free b = Some v1 -> hmem s !! prev_free b = Some v2 ->
  (forall s', free_list_head s' = b -> dll (hmem s') 0 (b :: l) 0 ->
     frame_off (not_link (b :: l)) (hmem s) (hmem s') -> same_arena s s' -> Q tt s') ->
  wp (add_free_block b) s Q.
Proof.
  intros Hh Hd Hnd Hs H0 Hn Hp HQ. pose proof Hnd as [Hbl Hnd2]%list.NoDup_cons.
  assert (Hnl : forall k, k = next_free b \/ k = prev_free b -> not_link l k).
  { intros k Hk. by eapply not_link_spaced. }
  apply wp_bind, wp_gets, wp_bind, (wp_store _ _ _ _ _ Hn), wp_bind.
  set (s1 := set_hmem s _).
  assert (Hd1 : dll (hmem s1) 0 l 0) by (apply dll_insert; auto).
  assert (Hn1 : hmem s1 !! next_free b = Some (hd 0 l))
    by (cbn [hmem set_hmem s1]; rewrite lookup_insert_eq; by f_equal).
  assert (Hp1 : hmem s1 !! prev_free b = Some v2).
  { cbn [hmem set_hmem s1]. rewrite lookup_insert_ne by (unfold next_free, prev_free; lia). done. }
  assert (Hf1 : frame_off (not_link (b :: l)) (hmem s) (hmem s1)).
  { apply frame_off_insert; [apply frame_off_refl|]. intros Hl. destruct (Hl b); [by left|done]. }
  assert (Hfin : forall s2, same_arena s s2 -> frame_off (not_link (b :: l)) (hmem s) (hmem s2) ->
    dll (hmem s2) b l 0 -> hmem s2 !! next_free b = Some (hd 0 l) ->
    is_Some (hmem s2 !! prev_free b) ->
    wp (store (prev_free b) 0;; st_modify (fun s => set_head s b)) s2 Q).
  { intros s2 Ha2 Hf2 Hd2 Hn2 [w Hp2]. apply wp_bind, (wp_store _ _ _ _ _ Hp2), wp_modify.
    apply HQ; cbn [hmem set_hmem set_head free_list_head]; [done| | |done].
    - cbn [dll]. split_and!; [|by rewrite lookup_insert_eq|apply dll_insert; auto].
      rewrite lookup_insert_ne by (unfold next_free, prev_free; lia). done.
    - apply frame_off_insert; [done|]. intros Hl. destruct (Hl b); [by left|done]. }
  rewrite Hh. destruct l as [|n l]; cbn [hd].
  - apply wp_ret. by apply Hfin; eauto.
  - assert (n <> 0) as Hn0%Z.eqb_neq by set_solver. rewrite Hn0. cbn [negb].
    pose proof Hd1 as (_ & Hnp & _). apply (wp_store _ _ _ _ _ Hnp), Hfin; cbn [hmem set_hmem].
    + done.
    + apply frame_off_insert; [done|]. intros Hl. destruct (Hl n); [set_solver|done].
    + eapply dll_relink_first; [exact Hd1|done|]. eapply spaced_sub; [exact Hs|]. set_solver.
    + destruct (Hnl (next_free b) (or_introl eq_refl) n); [by left|].
      by rewrite lookup_insert_ne.
    + destruct (Hnl (prev_free b) (or_intror eq_refl) n); [by left|].
      rewrite lookup_insert_ne by done. eauto.
Qed.

(** ** The heap invariant *)

(** The blocks tile the heap from [KHEAP_START] to [hm]. *)
Record geom (B : gmap Z (Z * bool)) (hm : Z) : Prop := {
  g_blk : forall a sz fr, B !! a = Some (sz, fr) ->
    KHEAP_START <= a /\ a mod 4 = 0 /\ 12 <= sz /\ sz mod 4 = 0 /\ a + sz <= hm;
  g_dis : forall a sz fr a' sz' fr', B !! a = Some (sz, fr) -> B !! a' = Some (sz', fr') ->
    a < a' -> a + sz <= a';
  g_prev : forall a, is_Some (B !! a) \/ a = hm ->
    a = KHEAP_START \/ exists p sz fr, B !! p = Some (sz, fr) /\ p + sz = a;
  g_hm : KHEAP_START <= hm <= HEAP_TOP /\ hm mod 4096 = 0
}.

(** Header and footer of a block.  The footer of a free block of twelve bytes
    is its [prev_free] link. *)
Definition tagged (m : gmap Z Z) (a sz : Z) (fr : bool) : Prop :=
  m !! a = Some (tag sz fr) /\
  (fr = false \/ 12 < sz -> m !! (a + sz - 4) = Some (tag sz fr)).

Definition mapped (m : gmap Z Z) (hm : Z) : Prop :=
  forall k, KHEAP_START <= k < hm -> k mod 4 = 0 -> is_Some (m !! k).

(** The invariant while free blocks may be missing from the free list [fl]. *)
Record heap_pre (s : heap V) (B : gmap Z (Z * bool)) (fl : list Z) : Prop := {
  hp_geom : geom B (heap_max s);
  hp_map : mapped (hmem s) (heap_max s);
  hp_tags : forall a sz fr, B !! a = Some (sz, fr) -> tagged (hmem s) a sz fr;
  hp_head : free_list_head s = hd 0 fl;
  hp_dll : dll (hmem s) 0 fl 0;
  hp_nodup : NoDup fl;
  hp_free : forall x, x ∈ fl -> exists sz, B !! x = Some (sz, true);
  hp_vm : pages_ok (hvm s)
}.

(** The invariant between operations. *)
Definition heap_inv (s : heap V) (B : gmap Z (Z * bool)) (fl : list Z) : Prop :=
  heap_pre s B fl /\ forall x sz, B !! x = Some (sz, true) -> x ∈ fl.

(** The payload words of the blocks in use are unchanged. *)
Definition keeps (B : gmap Z (Z * bool)) (m m' : gmap Z Z) : Prop :=
  forall a sz k, B !! a = Some (sz, false) -> a < k < a + sz - 4 -> m' !! k = m !! k.

Definition same_used (B B' : gmap Z (Z * bool)) : Prop :=
  forall a sz, B !! a = Some (sz, false) <-> B' !! a = Some (sz, false).

Lemma keeps_trans B B' m m' m'' :
  (forall a sz, B !! a = Some (sz, false) -> B' !! a = Some (sz, false)) ->
  keeps B m m' -> keeps B' m' m'' -> keeps B m m''.
Proof. intros HB H1 H2 a sz k Ha Hk. rewrite (H2 a sz k), (H1 a sz k); auto. Qed.

(** *** Geometry *)
Lemma geom_size_ok B hm a sz fr : geom B hm -> B !! a = Some (sz, fr) ->
  size_ok sz /\ is_u32 (a + sz) /\ 0 < a.
Proof.
  intros Hg Ha. destruct (g_blk _ _ Hg _ _ _ Ha) as (? & ? & ? & ? & ?).
  destruct (g_hm _ _ Hg). unfold size_ok. hlia.
Qed.

(** Two blocks are the same or apart. *)
Lemma geom_apart B hm a sz fr a' sz' fr' : geom B hm ->
  B !! a = Some (sz, fr) -> B !! a' = Some (sz', fr') ->
  a = a' /\ sz = sz' /\ fr = fr' \/ a + sz <= a' \/ a' + sz' <= a.
Proof.
  intros Hg Ha Ha'. destruct (Z.lt_trichotomy a a') as [|[->|]].
  - right. left. by eapply g_dis.
  - left. rewrite Ha in Ha'. by injection Ha' as -> ->.
  - right. right. by eapply g_dis.
Qed.

Section pre.
Variables (s : heap V) (B : gmap Z (Z * bool)) (fl : list Z).
Hypothesis Hpre : heap_pre s B fl.

Lemma pre_block x : x ∈ fl -> exists sz, B !! x = Some (sz, true) /\
  KHEAP_START <= x /\ x mod 4 = 0 /\ 12 <= sz /\ x + sz <= heap_max s.
Proof.
  intros [sz Hx]%(hp_free _ _ _ Hpre). exists sz.
  destruct (g_blk _ _ (hp_geom _ _ _ Hpre) _ _ _ Hx). split_and!; tauto.
Qed.

Lemma pre_spaced : spaced fl.
Proof.
  intros x y (sx & Hx & ?)%pre_block (sy & Hy & ?)%pre_block Hne.
  destruct (geom_apart _ _ _ _ _ _ _ _ (hp_geom _ _ _ Hpre) Hx Hy); lia.
Qed.

Lemma pre_nonzero : 0 ∉ fl.
Proof. intros (sz & _ & ? & _)%pre_block. hlia. Qed.

(** A change of links only. *)
Lemma pre_relink s' l fl' :
  frame_off (not_link l) (hmem s) (hmem s') -> (forall x, x ∈ l -> exists sz, B !! x = Some (sz, true)) ->
  same_arena s s' -> free_list_head s' = hd 0 fl' -> dll (hmem s') 0 fl' 0 ->
  NoDup fl' -> (forall x, x ∈ fl' -> x ∈ l) ->
  heap_pre s' B fl' /\ keeps B (hmem s) (hmem s').
Proof.
  intros [Hf Hm] Hl [Ha1 Ha2] Hh Hd Hnd Hsub.
  assert (Hnl : forall a sz fr k, B !! a = Some (sz, fr) -> a <= k < a + sz ->
    (fr = true -> k = a \/ 12 < sz /\ k = a + sz - 4) -> not_link l k).
  { intros a sz fr k Ha Hk Hfr y [sy Hy]%Hl.
    pose proof (g_blk _ _ (hp_geom _ _ _ Hpre) _ _ _ Hy).
    destruct (geom_apart _ _ _ _ _ _ _ _ (hp_geom _ _ _ Hpre) Ha Hy) as [(-> & -> & ->)|];
      [|hlia]. destruct Hfr; [done|hlia|hlia]. }
  split.
  - split; rewrite ?Ha1, ?Ha2; try apply Hpre; try done.
    + intros k Hk Hk4. apply Hm. by apply (hp_map _ _ _ Hpre).
    + intros a sz fr Ha. destruct (hp_tags _ _ _ Hpre _ _ _ Ha) as [T1 T2].
      pose proof (g_blk _ _ (hp_geom _ _ _ Hpre) _ _ _ Ha).
      split; [|intros Hc].
      * rewrite Hf; [done|]. apply (Hnl a sz fr); [done|lia|by left].
      * rewrite Hf; [auto|]. apply (Hnl a sz fr); [done|lia|].
        intros ->. destruct Hc; [done|]. right. lia.
    + intros x Hx. auto.
  - intros a sz k Ha Hk. apply Hf. by apply (Hnl a sz false k); [|lia|].
Qed.
End pre.

(** *** Free-list operations under the invariant *)
Lemma wp_remove_pre s B l1 b l2 Q :
  heap_pre s B (l1 ++ b :: l2) ->
  (forall s', heap_pre s' B (l1 ++ l2) -> keeps B (hmem s) (hmem s') -> same_arena s s' -> Q tt s') ->
  wp (remove_free_block b) s Q.
Proof.
  intros Hpre HQ.
  apply (wp_remove s b l1 l2); try apply Hpre;
    [by eapply pre_spaced|by eapply pre_nonzero|].
  intros s' Hh Hd Hf Ha.
  destruct (pre_relink s B _ Hpre s' (l1 ++ b :: l2) (l1 ++ l2)) as [Hp Hk]; try done.
  - apply Hpre.
  - pose proof (hp_nodup _ _ _ Hpre) as (? & Hdj & [_ ?]%list.NoDup_cons)%list.NoDup_app.
    apply list.NoDup_app. split_and!; [done| |done]. intros x Hx Hx2. apply (Hdj x Hx). by right.
  - intros x. rewrite !elem_of_app, elem_of_cons. tauto.
  - auto.
Qed.

Lemma wp_add_pre s B b sz fl Q :
  heap_pre s B fl -> B !! b = Some (sz, true) -> b ∉ fl ->
  (forall s', heap_pre s' B (b :: fl) -> keeps B (hmem s) (hmem s') -> same_arena s s' -> Q tt s') ->
  wp (add_free_block b) s Q.
Proof.
  intros Hpre Hb Hbf HQ. pose proof (hp_geom _ _ _ Hpre) as Hg.
  pose proof (g_blk _ _ Hg _ _ _ Hb) as (? & ? & ? & ? & ?).
  assert (Hnd : NoDup (b :: fl)) by (apply list.NoDup_cons; split; [done|apply Hpre]).
  assert (Hall : forall x, x ∈ b :: fl -> exists sz, B !! x = Some (sz, true)).
  { intros x [->|Hx]%elem_of_cons; [eauto|by apply (hp_free _ _ _ Hpre)]. }
  destruct (hp_map _ _ _ Hpre (next_free b)) as [v1 Hv1]; [hlia|unfold next_free; zlia|].
  destruct (hp_map _ _ _ Hpre (prev_free b)) as [v2 Hv2]; [hlia|unfold prev_free; zlia|].
  apply (wp_add s b fl v1 v2); try done; try apply Hpre.
  - intros x y [sx Hx]%Hall [sy Hy]%Hall Hne.
    pose proof (g_blk _ _ Hg _ _ _ Hx). pose proof (g_blk _ _ Hg _ _ _ Hy).
    destruct (geom_apart _ _ _ _ _ _ _ _ Hg Hx Hy); lia.
  - by eapply pre_nonzero.
  - intros s' Hh Hd Hf Ha.
    destruct (pre_relink s B _ Hpre s' (b :: fl) (b :: fl)) as [Hp Hk]; auto.
Qed.

(** Rewriting the tags of a region: the blocks of [B'] are blocks of [B]
    whose words are untouched, or are freshly tagged. *)
Lemma pre_retag s s' B B' fl :
  heap_pre s B fl -> geom B' (heap_max s) -> same_arena s s' ->
  free_list_head s' = free_list_head s ->
  (forall k, is_Some (hmem s !! k) -> is_Some (hmem s' !! k)) ->
  (forall a sz fr, B' !! a = Some (sz, fr) ->
     B !! a = Some (sz, fr) /\ hmem s' !! a = hmem s !! a /\
       hmem s' !! (a + sz - 4) = hmem s !! (a + sz - 4) \/
     tagged (hmem s') a sz fr) ->
  (forall x, x ∈ fl -> hmem s' !! next_free x = hmem s !! next_free x /\
     hmem s' !! prev_free x = hmem s !! prev_free x /\ exists sz, B' !! x = Some (sz, true)) ->
  heap_pre s' B' fl.
Proof.
  intros Hpre Hg [Ha1 Ha2] Hh Hm Ht Hl. split; rewrite ?Ha1, ?Ha2, ?Hh; try done; try apply Hpre.
  - intros k Hk Hk4. apply Hm. by apply (hp_map _ _ _ Hpre).
  - intros a sz fr Ha. destruct (Ht a sz fr Ha) as [(HB & E1 & E2)|]; [|done].
    unfold tagged. rewrite E1, E2. by apply (hp_tags _ _ _ Hpre).
  - eapply dll_frame; [|apply Hpre]. intros y Hy. destruct (Hl y Hy) as (? & ? & _). done.
  - intros x Hx. apply Hl, Hx.
Qed.

(** *** Geometry of splitting, coalescing and growing *)
Lemma geom_flag B hm a sz fr fr' : geom B hm -> B !! a = Some (sz, fr) ->
  geom (<[a := (sz, fr')]> B) hm.
Proof.
  intros Hg Ha.
  assert (Hl : forall x sx fx, <[a := (sz, fr')]> B !! x = Some (sx, fx) ->
    exists fx', B !! x = Some (sx, fx')).
  { intros x sx fx. destruct (decide (x = a)) as [->|].
    - rewrite lookup_insert_eq. intros [= <- <-]. eauto.
    - rewrite lookup_insert_ne by done. eauto. }
  split.
  - intros x sx fx [fx' Hx]%Hl. by apply (g_blk _ _ Hg _ _ _ Hx).
  - intros x sx fx y sy fy [fx' Hx]%Hl [fy' Hy]%Hl. by apply (g_dis _ _ Hg _ _ _ _ _ _ Hx Hy).
  - intros x Hx. destruct (g_prev _ _ Hg x) as [|(p & sp & fp & Hp & ?)].
    + destruct Hx as [[[sx fx] [? ?]%Hl]|]; eauto.
    + by left.
    + right. destruct (decide (p = a)) as [->|].
      * exists a, sz, fr'. rewrite lookup_insert_eq. rewrite Ha in Hp.
        injection Hp as -> ->. done.
      * exists p, sp, fp. by rewrite lookup_insert_ne.
  - apply Hg.
Qed.

Lemma geom_split B hm a sz fr w f1 f2 : geom B hm -> B !! a = Some (sz, fr) ->
  12 <= w -> w + 12 <= sz -> w mod 4 = 0 ->
  geom (<[a := (w, f1)]> (<[a + w := (sz - w, f2)]> B)) hm.
Proof.
  intros Hg Ha Hw1 Hw2 Hw4. pose proof (g_blk _ _ Hg _ _ _ Ha) as (Ha1 & Ha2 & Ha3 & Ha4 & Ha5).
  assert (Hl : forall x sx fx, <[a := (w, f1)]> (<[a + w := (sz - w, f2)]> B) !! x = Some (sx, fx) ->
    x = a /\ sx = w \/ x = a + w /\ sx = sz - w \/ x <> a /\ x <> a + w /\ B !! x = Some (sx, fx)).
  { intros x sx fx. destruct (decide (x = a)) as [->|].
    - rewrite lookup_insert_eq. intros [= <- <-]. by left.
    - rewrite lookup_insert_ne by done. destruct (decide (x = a + w)) as [->|].
      + rewrite lookup_insert_eq. intros [= <- <-]. right; by left.
      + rewrite lookup_insert_ne by done. auto. }
  split.
  - intros x sx fx [(-> & ->)|[(-> & ->)|(? & ? & Hx)]]%Hl; [lia|zlia|by apply (g_blk _ _ Hg _ _ _ Hx)].
  - intros x sx fx y sy fy Hx%Hl Hy%Hl Hxy.
    destruct Hx as [(-> & ->)|[(-> & ->)|(? & ? & Hx)]];
      destruct Hy as [(-> & ->)|[(-> & ->)|(? & ? & Hy)]]; try lia;
      try pose proof (g_blk _ _ Hg _ _ _ Hx); try pose proof (g_blk _ _ Hg _ _ _ Hy);
      try (destruct (geom_apart _ _ _ _ _ _ _ _ Hg Ha Hx); lia);
      try (destruct (geom_apart _ _ _ _ _ _ _ _ Hg Ha Hy); lia).
    by eapply (g_dis _ _ Hg).
  - intros x Hx. destruct (decide (x = a + w)) as [->|Hne].
    { right. exists a, w, f1. by rewrite lookup_insert_eq. }
    destruct (g_prev _ _ Hg x) as [|(p & sp & fp & Hp & Hpx)].
    + destruct Hx as [[[sx fx] [(-> & ->)|[(-> & ->)|(? & ? & ?)]]%Hl]|]; eauto; lia.
    + by left.
    + right. destruct (decide (p = a)) as [->|].
      * rewrite Ha in Hp. injection Hp as -> ->. exists (a + w), (sp - w), f2.
        rewrite lookup_insert_ne, lookup_insert_eq by lia. split; [done|lia].
      * exists p, sp, fp. rewrite !lookup_insert_ne; [done| |done].
        intros <-. pose proof (g_blk _ _ Hg _ _ _ Hp).
        destruct (geom_apart _ _ _ _ _ _ _ _ Hg Ha Hp); lia.
  - apply Hg.
Qed.

Lemma geom_merge B hm a sa b sb fa fb f : geom B hm ->
  B !! a = Some (sa, fa) -> B !! b = Some (sb, fb) -> a + sa = b ->
  geom (<[a := (sa + sb, f)]> (delete b B)) hm.
Proof.
  intros Hg Ha Hb Hab. pose proof (g_blk _ _ Hg _ _ _ Ha). pose proof (g_blk _ _ Hg _ _ _ Hb).
  assert (Hl : forall x sx fx, <[a := (sa + sb, f)]> (delete b B) !! x = Some (sx, fx) ->
    x = a /\ sx = sa + sb \/ x <> a /\ x <> b /\ B !! x = Some (sx, fx)).
  { intros x sx fx. destruct (decide (x = a)) as [->|].
    - rewrite lookup_insert_eq. intros [= <- <-]. by left.
    - rewrite lookup_insert_ne, lookup_delete_Some by done. intros []. right. split_and!; congruence. }
  split.
  - intros x sx fx [(-> & ->)|(? & ? & Hx)]%Hl; [zlia|by apply (g_blk _ _ Hg _ _ _ Hx)].
  - intros x sx fx y sy fy Hx%Hl Hy%Hl Hxy.
    destruct Hx as [(-> & ->)|(? & ? & Hx)]; destruct Hy as [(-> & ->)|(? & ? & Hy)]; try lia.
    + pose proof (g_blk _ _ Hg _ _ _ Hy).
      destruct (geom_apart _ _ _ _ _ _ _ _ Hg Ha Hy);
      destruct (geom_apart _ _ _ _ _ _ _ _ Hg Hb Hy); lia.
    + by eapply (g_dis _ _ Hg).
    + by eapply (g_dis _ _ Hg).
  - intros x Hx. destruct (g_prev _ _ Hg x) as [|(p & sp & fp & Hp & Hpx)].
    + destruct Hx as [[[sx fx] [(-> & ->)|(? & ? & ?)]%Hl]|]; eauto.
    + by left.
    + right. destruct (decide (p = b)) as [->|].
      * exists a, (sa + sb), f. rewrite lookup_insert_eq. split; [done|].
        rewrite Hb in Hp. injection Hp as -> ->. lia.
      * destruct (decide (p = a)) as [->|].
        -- rewrite Ha in Hp. injection Hp as -> ->. exfalso.
           destruct Hx as [[[sx fx] [(? & ?)|(? & ? & ?)]%Hl]|]; lia.
        -- exists p, sp, fp. by rewrite lookup_insert_ne, lookup_delete_ne.
  - apply Hg.
Qed.

Lemma geom_grow B hm f : geom B hm -> hm + 4096 <= HEAP_TOP ->
  geom (<[hm := (4096, f)]> B) (hm + 4096).
Proof.
  intros Hg Htop. pose proof (g_hm _ _ Hg) as [? ?].
  assert (Hl : forall x sx fx, <[hm := (4096, f)]> B !! x = Some (sx, fx) ->
    x = hm /\ sx = 4096 \/ x <> hm /\ B !! x = Some (sx, fx)).
  { intros x sx fx. destruct (decide (x = hm)) as [->|].
    - rewrite lookup_insert_eq. intros [= <- <-]. by left.
    - rewrite lookup_insert_ne by done. auto. }
  split.
  - intros x sx fx [(-> & ->)|(? & Hx)]%Hl; [zlia|].
    pose proof (g_blk _ _ Hg _ _ _ Hx). lia.
  - intros x sx fx y sy fy Hx%Hl Hy%Hl Hxy.
    destruct Hx as [(-> & ->)|(? & Hx)]; destruct Hy as [(-> & ->)|(? & Hy)]; try lia.
    + pose proof (g_blk _ _ Hg _ _ _ Hy). lia.
    + pose proof (g_blk _ _ Hg _ _ _ Hx). lia.
    + by eapply (g_dis _ _ Hg).
  - intros x Hx. destruct (decide (x = hm + 4096)) as [->|].
    { right. exists hm, 4096, f. by rewrite lookup_insert_eq. }
    destruct (g_prev _ _ Hg x) as [|(p & sp & fp & Hp & Hpx)].
    + destruct Hx as [[[sx fx] [(-> & ->)|(? & ?)]%Hl]|]; eauto. lia.
    + by left.
    + right. exists p, sp, fp. rewrite lookup_insert_ne; [done|].
      intros <-. pose proof (g_blk _ _ Hg _ _ _ Hp). lia.
  - split; [lia|zlia].
Qed.

(** *** Coalescing *)

(** A free block that ends where [b] ended and contains it. *)
Definition absorbed (B B' : gmap Z (Z * bool)) (b sb : Z) : Prop :=
  exists a sa, B' !! a = Some (sa, true) /\ a + sa = b + sb /\ sb <= sa /\
    forall p sp, B !! p = Some (sp, true) -> p + sp = b -> 12 < sp -> sp + sb <= sa.

Lemma insert_is_Some (m : gmap Z Z) i v k : is_Some (m !! k) -> is_Some (<[i := v]> m !! k).
Proof. intros. rewrite lookup_insert_is_Some. destruct (decide (i = k)); auto. Qed.

Lemma wp_coalesce_blocks s B a sa b sb fl Q :
  heap_inv s B (b :: fl) -> B !! a = Some (sa, true) -> B !! b = Some (sb, true) -> a + sa = b ->
  (forall s', heap_inv s' (<[a := (sa + sb, true)]> (delete b B)) fl ->
     keeps B (hmem s) (hmem s') -> same_arena s s' -> Q tt s') ->
  wp (coalesce_blocks a b) s Q.
Proof.
  intros [Hpre Hall] Ha Hb Hab HQ. pose proof (hp_geom _ _ _ Hpre) as Hg.
  pose proof (geom_merge _ _ _ _ _ _ _ _ true Hg Ha Hb Hab) as Hg'.
  pose proof (g_blk _ _ Hg _ _ _ Ha). pose proof (g_blk _ _ Hg _ _ _ Hb).
  destruct (geom_size_ok _ _ _ _ _ Hg Ha) as (Hsa & Hua & _).
  destruct (geom_size_ok _ _ _ _ _ Hg Hb) as (Hsb & Hub & _).
  destruct (geom_size_ok _ _ a (sa + sb) true Hg') as (Hsab & Huab & _);
    [by rewrite lookup_insert_eq|].
  apply wp_bind, (wp_remove_pre s B [] b fl); [done|]. intros s1 Hpre1 Hk1 Har1.
  cbn [app] in Hpre1. destruct (hp_tags _ _ _ Hpre1 _ _ _ Ha) as [Ha1 _].
  destruct (hp_tags _ _ _ Hpre1 _ _ _ Hb) as [Hb1 Hf1].
  apply wp_bind, (wp_GET_SIZE _ _ sa true); [done|done|].
  apply wp_bind, (wp_GET_SIZE _ _ sb true); [done|done|].
  rewrite (u32_small (sa + sb)) by apply Hsab.
  apply wp_bind, (wp_SET_SIZE _ _ _ (tag sa true)); [done|done|].
  apply wp_bind; eapply wp_SET_FREE; [done|cbn [hmem set_hmem]; apply lookup_insert_eq|].
  cbn [hmem set_hmem]. rewrite insert_insert_eq.
  destruct (hp_map _ _ _ Hpre1 (a + (sa + sb) - 4)) as [w Hw];
    [rewrite (proj1 Har1); hlia|zlia|].
  eapply (wp_update_footer _ _ (sa + sb) true w); [done|done|hlia|..]; cbn [hmem set_hmem].
  { apply lookup_insert_eq. }
  { rewrite lookup_insert_ne by lia. done. }
  assert (Hne : forall k v1 v2, k <> a -> k <> a + (sa + sb) - 4 ->
    <[a + (sa + sb) - 4 := v1]> (<[a := v2]> (hmem s1)) !! k = hmem s1 !! k).
  { intros. by rewrite !lookup_insert_ne by congruence. }
  assert (Hx : forall x sx fx, B !! x = Some (sx, fx) -> x <> a -> x <> b ->
    a + (sa + sb) <= x \/ x + sx <= a).
  { intros x sx fx Hx ? ?. pose proof (g_blk _ _ Hg _ _ _ Hx).
    destruct (geom_apart _ _ _ _ _ _ _ _ Hg Ha Hx);
    destruct (geom_apart _ _ _ _ _ _ _ _ Hg Hb Hx); lia. }
  assert (Hb_fl : b ∉ fl).
  { by pose proof (hp_nodup _ _ _ Hpre) as [? _]%list.NoDup_cons. }
  apply HQ; [split|..].
  - eapply (pre_retag s1); [done|by rewrite (proj1 Har1)|done|done|..]; cbn [hmem set_hmem].
    + intros k Hk. by do 2 apply insert_is_Some.
    + intros x sx fx. destruct (decide (x = a)) as [->|].
      * rewrite lookup_insert_eq. intros [= <- <-]. right. split.
        -- rewrite lookup_insert_ne, lookup_insert_eq by lia. done.
        -- intros _. by rewrite lookup_insert_eq.
      * rewrite lookup_insert_ne, lookup_delete_Some by done. intros [? HBx]. left.
        pose proof (g_blk _ _ Hg _ _ _ HBx).
        destruct (Hx _ _ _ HBx) as [|]; [done|done|..]; rewrite !Hne by lia; done.
    + intros x Hxf. destruct (hp_free _ _ _ Hpre1 x Hxf) as [sx HBx].
      assert (x <> b) by congruence. pose proof (g_blk _ _ Hg _ _ _ HBx).
      destruct (decide (x = a)) as [->|].
      * rewrite !Hne, lookup_insert_eq by hlia. eauto.
      * destruct (Hx _ _ _ HBx) as [|]; [done|done|..]; rewrite !Hne by hlia;
          rewrite lookup_insert_ne, lookup_delete_ne by congruence; eauto.
  - intros x sx. destruct (decide (x = a)) as [->|].
    + intros _. apply Hall in Ha. apply elem_of_cons in Ha as [|]; [lia|done].
    + rewrite lookup_insert_ne, lookup_delete_Some by done. intros [? HBx%Hall].
      apply elem_of_cons in HBx as [|]; [congruence|done].
  - intros x sx k HBx Hk. cbn [hmem set_hmem]. rewrite Hne.
    + by apply (Hk1 x sx k).
    + destruct (Hx x sx false); [done|congruence|congruence|lia|lia].
    + destruct (Hx x sx false); [done|congruence|congruence|lia|lia].
  - done.
Qed.

Lemma wp_coalesce_with_prev s B b sb fl Q :
  heap_inv s B (b :: fl) -> B !! b = Some (sb, true) ->
  (forall s' B' fl', heap_inv s' B' fl' -> same_used B B' -> keeps B (hmem s) (hmem s') ->
     same_arena s s' -> absorbed B B' b sb -> Q tt s') ->
  wp (coalesce_with_prev b) s Q.
Proof.
  intros Hinv Hb HQ. pose proof Hinv as [Hpre Hall]. pose proof (hp_geom _ _ _ Hpre) as Hg.
  pose proof (g_blk _ _ Hg _ _ _ Hb) as (Hb1 & Hb4 & Hb12 & _ & Hbm).
  destruct (g_hm _ _ Hg) as [Hhm _].
  unfold coalesce_with_prev, sizeof_block_header. rewrite (u32_small (b - 4)) by hlia.
  assert ((b <=? heap_start) = false) as -> by (unfold heap_start; hlia).
  (* nothing to merge *)
  assert (Hstay : (forall p sp, B !! p = Some (sp, true) -> p + sp = b -> sp <= 12) -> Q tt s).
  { intros Hno. apply (HQ s B (b :: fl)); [done|by split|intros ?; done|by split|].
    exists b, sb. split_and!; [done|lia|lia|]. intros p sp Hp Hpb ?. specialize (Hno p sp Hp Hpb). lia. }
  destruct (Z.leb_spec (b - 4) KHEAP_START) as [Hle|Hgt].
  { apply wp_ret, Hstay. intros p sp Hp Hpb. pose proof (g_blk _ _ Hg _ _ _ Hp). hlia. }
  destruct (g_prev _ _ Hg b) as [|(p & sp & fp & Hp & Hpb)]; [left; eauto|hlia|].
  assert (Huniq : forall p' sp' fp', B !! p' = Some (sp', fp') -> p' + sp' = b ->
    p' = p /\ sp' = sp /\ fp' = fp).
  { intros p' sp' fp' Hp' ?. pose proof (g_blk _ _ Hg _ _ _ Hp'). pose proof (g_blk _ _ Hg _ _ _ Hp).
    destruct (geom_apart _ _ _ _ _ _ _ _ Hg Hp' Hp); [done|lia]. }
  destruct (geom_size_ok _ _ _ _ _ Hg Hp) as (Hsp & Hup & _).
  destruct (hp_tags _ _ _ Hpre _ _ _ Hp) as [_ Hpf]. rewrite Hpb in Hpf.
  pose proof (g_blk _ _ Hg _ _ _ Hp) as (? & ? & ? & ? & ?).
  destruct fp; [destruct (decide (12 < sp)) as [H12|H12]|].
  - (* a free predecessor with a footer *)
    specialize (Hpf (or_intror H12)).
    apply wp_bind, (wp_IS_FREE _ _ _ _ Hpf). rewrite tag_mod2 by done. cbn [Z.eqb negb].
    apply wp_bind, (wp_GET_SIZE _ _ sp true); [done|done|].
    rewrite (u32_small (b - sp)) by hlia. replace (b - sp) with p by lia.
    apply (wp_coalesce_blocks s B p sp b sb fl); [done|done|done|done|].
    intros s' Hinv' Hk Har. apply (HQ s' _ fl Hinv'); [|done|done|].
    + intros x sx. destruct (decide (x = p)) as [->|].
      * rewrite lookup_insert_eq, Hp. naive_solver.
      * rewrite lookup_insert_ne by done. destruct (decide (x = b)) as [->|].
        -- rewrite lookup_delete_eq, Hb. naive_solver.
        -- by rewrite lookup_delete_ne.
    + exists p, (sp + sb). rewrite lookup_insert_eq. split_and!; [done|lia|lia|].
      intros p' sp' Hp' Hpb' _. destruct (Huniq _ _ _ Hp' Hpb') as (-> & -> & _). lia.
  - (* a free predecessor of twelve bytes: its footer is a link *)
    destruct (dll_lookup _ _ _ _ p (hp_dll _ _ _ Hpre) (Hall _ _ Hp)) as (n & q & _ & Hq & _ & Hqv).
    replace (prev_free p) with (b - 4) in Hq by hlia.
    apply wp_bind, (wp_IS_FREE _ _ _ _ Hq).
    assert (q mod 2 = 0) as ->.
    { destruct Hqv as [->|Hq']; [done|]. destruct (pre_block _ _ _ Hpre q Hq') as (? & _ & _ & ? & _). zlia. }
    apply wp_ret, Hstay. intros p' sp' Hp' Hpb'. destruct (Huniq _ _ _ Hp' Hpb') as (_ & -> & _). lia.
  - specialize (Hpf (or_introl eq_refl)).
    apply wp_bind, (wp_IS_FREE _ _ _ _ Hpf). rewrite tag_mod2 by done.
    apply wp_ret, Hstay. intros p' sp' Hp' Hpb'. by destruct (Huniq _ _ _ Hp' Hpb') as (_ & _ & ?).
Qed.

(** Forward coalescing never happens: the bound [(uintptr_t)MEMORY_SPACE] is 0. *)
Lemma wp_coalesce_with_next s b Q :
  is_Some (hmem s !! b) -> Q tt s -> wp (coalesce_with_next b) s Q.
Proof.
  intros [w Hb] HQ. apply wp_bind, wp_bind, (wp_load _ _ _ _ Hb), wp_ret, wp_bind, wp_gets.
  cbv zeta. change (u32 MEMORY_SPACE) with 0. set (y := _ +! _).
  assert ((0 <=? y) = true) as -> by (apply Z.leb_le, u32_range).
  by rewrite orb_true_r.
Qed.

(** *** Carving a block *)

Definition outside (lo hi k : Z) : Prop := k < lo \/ hi <= k.

(** Retagging within one region. *)
Lemma pre_region s s' B B' fl lo hi :
  heap_pre s B fl -> geom B' (heap_max s) -> same_arena s s' ->
  free_list_head s' = free_list_head s ->
  frame_off (outside lo hi) (hmem s) (hmem s') ->
  (forall a sz fr, B' !! a = Some (sz, fr) ->
     B !! a = Some (sz, fr) /\ (a + sz <= lo \/ hi <= a) \/ tagged (hmem s') a sz fr) ->
  (forall x, x ∈ fl -> (x + 12 <= lo \/ hi <= x) /\ exists sz, B' !! x = Some (sz, true)) ->
  heap_pre s' B' fl.
Proof.
  intros Hpre Hg Ha Hh [Hf Hm] Ht Hl. eapply pre_retag; [done|done|done|done|done|..].
  - intros a sz fr HB'. destruct (Ht _ _ _ HB') as [[HB Ho]|]; [|by right]. left.
    pose proof (g_blk _ _ Hg _ _ _ HB'). split_and!; [done|..]; apply Hf; unfold outside; lia.
  - intros x Hx. destruct (Hl x Hx) as [Ho HB]. split_and!; [..|done];
      apply Hf; unfold outside, next_free, prev_free; lia.
Qed.

(** Words of a region away from a block that is not in use. *)
Lemma keeps_region B hm a sz m m' : geom B hm -> B !! a = Some (sz, true) ->
  frame_off (outside a (a + sz)) m m' -> keeps B m m'.
Proof.
  intros Hg Ha [Hf _] x sx k Hx Hk. apply Hf. unfold outside.
  destruct (geom_apart _ _ _ _ _ _ _ _ Hg Ha Hx) as [(_ & _ & ?)|]; [done|lia].
Qed.

Lemma wp_create_free_block s a sz Q :
  size_ok sz -> 12 <= sz -> is_u32 (a + sz) -> 0 <= a -> a mod 4 = 0 ->
  (forall k, a <= k < a + sz -> k mod 4 = 0 -> is_Some (hmem s !! k)) ->
  (forall s', same_arena s s' -> free_list_head s' = free_list_head s ->
     frame_off (outside a (a + sz)) (hmem s) (hmem s') -> tagged (hmem s') a sz true -> Q a s') ->
  wp (create_free_block a sz) s Q.
Proof.
  intros Hs H12 Hu Ha0 Ha4 Hmap HQ. pose proof Hs as [_ Hs4].
  destruct (Hmap a) as [w Hw]; [lia|done|].
  apply wp_bind, (wp_SET_SIZE _ _ _ _ _ Hs Hw).
  apply wp_bind; eapply wp_SET_FREE; [done|cbn [hmem set_hmem]; apply lookup_insert_eq|].
  cbn [hmem set_hmem]. rewrite insert_insert_eq.
  destruct (Hmap (a + sz - 4)) as [wf Hwf]; [lia|zlia|].
  apply wp_bind; eapply (wp_update_footer _ _ sz true wf); [done|done|lia|..]; cbn [hmem set_hmem].
  { apply lookup_insert_eq. }
  { rewrite lookup_insert_ne by lia. done. }
  set (m2 := <[a + sz - 4 := _]> _).
  assert (Hm2 : forall k, is_Some (hmem s !! k) -> is_Some (m2 !! k)).
  { intros k Hk. unfold m2. by do 2 apply insert_is_Some. }
  destruct (Hm2 (prev_free a)) as [v Hv]; [apply Hmap; unfold prev_free; [lia|zlia]|].
  apply wp_bind; eapply wp_store; [exact Hv|]; cbn [hmem set_hmem].
  destruct (Hm2 (next_free a)) as [wn Hwn]; [apply Hmap; unfold next_free; [lia|zlia]|].
  apply wp_bind; eapply wp_store; cbn [hmem set_hmem].
  { rewrite lookup_insert_ne by (unfold next_free, prev_free; lia). done. }
  apply wp_ret, HQ; [done|done|..]; cbn [hmem set_hmem].
  - do 4 (apply frame_off_insert; [|unfold outside, next_free, prev_free; lia]).
    apply frame_off_refl.
  - split.
    + unfold m2. rewrite !lookup_insert_ne by (unfold next_free, prev_free; lia).
      apply lookup_insert_eq.
    + intros [|]; [done|]. unfold m2.
      rewrite !(lookup_insert_ne _ _ (a + sz - 4)) by (unfold next_free, prev_free; lia).
      apply lookup_insert_eq.
Qed.

(** The blocks in use of [B'] are those of [B] and the new one. *)
Definition used_add (B B' : gmap Z (Z * bool)) (b sz : Z) : Prop :=
  (forall a z, B' !! a = Some (z, false) <-> B !! a = Some (z, false) \/ a = b /\ z = sz) /\
  (forall z, B !! b <> Some (z, false)).

Section carve.
Variables (s : heap V) (B : gmap Z (Z * bool)) (fl : list Z) (b sz : Z).
Hypothesis Hpre : heap_pre s B fl.
Hypothesis Hb : B !! b = Some (sz, true).
Hypothesis Hbf : b ∉ fl.
Hypothesis Hall : forall x z, B !! x = Some (z, true) -> x = b \/ x ∈ fl.

Lemma carve_fl x : x ∈ fl -> x <> b /\ exists z, B !! x = Some (z, true) /\ 12 <= z /\
  (x + z <= b \/ b + sz <= x).
Proof.
  intros Hx. assert (x <> b) by congruence. split; [done|].
  destruct (pre_block _ _ _ Hpre x Hx) as (z & Hz & _ & _ & ? & _). exists z.
  split_and!; [done|done|].
  destruct (geom_apart _ _ _ _ _ _ _ _ (hp_geom _ _ _ Hpre) Hb Hz); lia.
Qed.

(** The whole block is used. *)
Lemma wp_take_whole Q :
  (forall s' B', heap_inv s' B' fl -> used_add B B' b sz -> keeps B (hmem s) (hmem s') ->
     same_arena s s' -> Q tt s') ->
  wp (CLEAR_FREE b;; update_footer b) s Q.
Proof.
  intros HQ. pose proof (hp_geom _ _ _ Hpre) as Hg.
  destruct (geom_size_ok _ _ _ _ _ Hg Hb) as (Hs & Hu & _).
  pose proof (g_blk _ _ Hg _ _ _ Hb) as (? & ? & ? & ? & ?).
  destruct (hp_tags _ _ _ Hpre _ _ _ Hb) as [Ht _].
  apply wp_bind, (wp_CLEAR_FREE _ _ sz true _ Hs Ht).
  destruct (hp_map _ _ _ Hpre (b + sz - 4)) as [w Hw]; [lia|zlia|].
  eapply (wp_update_footer _ _ sz false w); [done|done|hlia|..]; cbn [hmem set_hmem].
  { apply lookup_insert_eq. }
  { rewrite lookup_insert_ne by lia. done. }
  set (m' := <[b + sz - 4 := _]> _).
  assert (Hf : frame_off (outside b (b + sz)) (hmem s) m').
  { do 2 (apply frame_off_insert; [|unfold outside; lia]). apply frame_off_refl. }
  apply (HQ _ (<[b := (sz, false)]> B)); [split|..|done].
  - eapply (pre_region s _ B _ fl b (b + sz)); [done|by eapply geom_flag|done|done|done|..].
    + intros x sx fx. destruct (decide (x = b)) as [->|Hne].
      * rewrite lookup_insert_eq. intros [= <- <-]. right. cbn [hmem set_hmem]. unfold m'. split.
        -- rewrite lookup_insert_ne by lia. apply lookup_insert_eq.
        -- intros _. apply lookup_insert_eq.
      * rewrite lookup_insert_ne by done. intros Hx. left. split; [done|].
        destruct (geom_apart _ _ _ _ _ _ _ _ Hg Hb Hx); lia.
    + intros x (? & z & Hz & ? & ?)%carve_fl. rewrite lookup_insert_ne by done. split; [lia|eauto].
  - intros x z. destruct (decide (x = b)) as [->|]; [by rewrite lookup_insert_eq|].
    rewrite lookup_insert_ne by done. intros Hx. by destruct (Hall x z Hx).
  - split; [|rewrite Hb; done]. intros x z. destruct (decide (x = b)) as [->|].
    + rewrite lookup_insert_eq, Hb. naive_solver.
    + rewrite lookup_insert_ne by done. naive_solver.
  - cbn [hmem set_hmem]. by eapply keeps_region.
Qed.

(** The tail of the block goes back to the free list. *)
Lemma wp_take_split w Q :
  12 <= w -> w mod 4 = 0 -> w + 12 <= sz ->
  (forall s' B', heap_inv s' B' (b + w :: fl) -> used_add B B' b w ->
     keeps B (hmem s) (hmem s') -> same_arena s s' -> Q (b + w) s') ->
  wp (CLEAR_FREE b;; split_block b w) s Q.
Proof.
  intros Hw12 Hw4 Hws HQ. pose proof (hp_geom _ _ _ Hpre) as Hg.
  destruct (geom_size_ok _ _ _ _ _ Hg Hb) as (Hs & Hu & _).
  pose proof (g_blk _ _ Hg _ _ _ Hb) as (? & ? & ? & ? & ?).
  pose proof (geom_split _ _ _ _ _ w false true Hg Hb Hw12 Hws Hw4) as Hg'.
  set (B' := <[b := (w, false)]> _) in Hg'.
  destruct (geom_size_ok _ _ b w false Hg') as (Hsw & Huw & _); [apply lookup_insert_eq|].
  assert (Hb2 : B' !! (b + w) = Some (sz - w, true)).
  { unfold B'. rewrite lookup_insert_ne by lia. apply lookup_insert_eq. }
  destruct (geom_size_ok _ _ _ _ _ Hg' Hb2) as (Hs2 & Hu2 & _).
  destruct (hp_tags _ _ _ Hpre _ _ _ Hb) as [Ht _].
  apply wp_bind, (wp_CLEAR_FREE _ _ sz true _ Hs Ht).
  unfold split_block, sizeof_free_block_header.
  apply wp_bind; eapply (wp_GET_SIZE _ _ sz false);
    [done|cbn [hmem set_hmem]; apply lookup_insert_eq|].
  rewrite (u32_small (w + 12)), (u32_small (b + w)), (u32_small (sz - w)) by hlia.
  destruct (Z.ltb_spec sz (w + 12)); [lia|]. cbv zeta.
  apply wp_bind; eapply (wp_SET_SIZE _ _ _ (tag sz false));
    [done|cbn [hmem set_hmem]; apply lookup_insert_eq|].
  cbn [hmem set_hmem]. rewrite insert_insert_eq, tag_mod2 by done. cbn [Z.eqb].
  destruct (hp_map _ _ _ Hpre (b + w - 4)) as [v Hv]; [lia|zlia|].
  apply wp_bind; eapply (wp_update_footer _ _ w false v); [done|done|hlia|..]; cbn [hmem set_hmem].
  { apply lookup_insert_eq. }
  { rewrite lookup_insert_ne by lia. done. }
  set (s1 := set_hmem _ (<[b + w - 4 := _]> _)).
  assert (Hf1 : frame_off (outside b (b + sz)) (hmem s) (hmem s1)).
  { do 2 (apply frame_off_insert; [|unfold outside; lia]). apply frame_off_refl. }
  apply wp_bind, wp_create_free_block; [done|lia|done|hlia|zlia| |].
  { intros k Hk Hk4. apply Hf1. apply (hp_map _ _ _ Hpre); lia. }
  replace (b + w + (sz - w)) with (b + sz) by lia.
  intros s2 Ha2 Hh2 Hf2 Ht2.
  assert (Hf : frame_off (outside b (b + sz)) (hmem s) (hmem s2)).
  { eapply frame_off_trans; [done|]. eapply frame_off_weaken; [|done].
    unfold outside. lia. }
  assert (Hk2 : keeps B (hmem s) (hmem s2)) by (by eapply keeps_region).
  assert (Hp2 : heap_pre s2 B' fl).
  { eapply (pre_region s _ B _ fl b (b + sz)); [done|done|by apply Ha2|done|done|..].
    - intros x sx fx Hx. destruct (decide (x = b)) as [->|Hne].
      + unfold B' in Hx. rewrite lookup_insert_eq in Hx. injection Hx as <- <-. right.
        split; [|intros _]; rewrite (proj1 Hf2) by (unfold outside; lia);
          cbn [hmem set_hmem s1]; [|apply lookup_insert_eq].
        rewrite lookup_insert_ne by lia. apply lookup_insert_eq.
      + destruct (decide (x = b + w)) as [->|Hne2].
        * rewrite Hb2 in Hx. injection Hx as <- <-. by right.
        * unfold B' in Hx. rewrite !lookup_insert_ne in Hx by done. left. split; [done|].
          destruct (geom_apart _ _ _ _ _ _ _ _ Hg Hb Hx); lia.
    - intros x (? & z & Hz & ? & ?)%carve_fl. split; [lia|]. exists z.
      unfold B'. rewrite !lookup_insert_ne by lia. done. }
  assert (Hn : b + w ∉ fl) by (intros (_ & z & _ & ? & ?)%carve_fl; lia).
  apply wp_bind, (wp_add_pre s2 B' (b + w) (sz - w) fl); [done|done|done|].
  intros s3 Hp3 Hk3 Ha3. apply wp_ret.
  assert (Hu' : used_add B B' b w).
  { split; [|rewrite Hb; done]. intros x z. unfold B'. destruct (decide (x = b)) as [->|].
    - rewrite lookup_insert_eq, Hb. naive_solver.
    - rewrite lookup_insert_ne by done. destruct (decide (x = b + w)) as [->|].
      + rewrite lookup_insert_eq. split; [done|]. intros [Hx|]; [|lia].
        pose proof (g_blk _ _ Hg _ _ _ Hx). destruct (geom_apart _ _ _ _ _ _ _ _ Hg Hb Hx); lia.
      + rewrite lookup_insert_ne by done. naive_solver. }
  apply (HQ s3 B'); [split; [done|]|done|..].
  - intros x z Hx. apply elem_of_cons. unfold B' in Hx. destruct (decide (x = b)) as [->|].
    { by rewrite lookup_insert_eq in Hx. } rewrite lookup_insert_ne in Hx by done.
    destruct (decide (x = b + w)) as [->|]; [by left|]. rewrite lookup_insert_ne in Hx by done.
    right. by destruct (Hall x z Hx).
  - eapply keeps_trans; [|done|done]. intros x z Hx. apply Hu'. by left.
  - by eapply same_arena_trans; [apply Ha2|].
Qed.
End carve.

(** *** The search *)
Lemma wp_first_fit size fuel : forall s B l1 l2 Q,
  heap_inv s B (l1 ++ l2) -> (length l2 < fuel)%nat ->
  12 <= size < 2147483648 -> size mod 4 = 0 ->
  ((forall x sz, x ∈ l2 -> B !! x = Some (sz, true) -> sz < size) -> Q None s) ->
  (forall b sz s' B' fl', heap_inv s' B' fl' -> used_add B B' b sz -> size <= sz ->
     keeps B (hmem s) (hmem s') -> same_arena s s' -> KHEAP_START <= b < HEAP_TOP ->
     Q (Some (b + 4)) s') ->
  wp (first_fit fuel (hd 0 l2) size) s Q.
Proof.
  induction fuel as [|fuel IH]; intros s B l1 l2 Q Hinv Hfuel Hsz Hsz4 HN HS; [lia|].
  pose proof Hinv as [Hpre Hall]. pose proof (hp_geom _ _ _ Hpre) as Hg.
  destruct l2 as [|b l2]; cbn [first_fit hd].
  { apply wp_ret, HN. intros x sz Hx. by apply not_elem_of_nil in Hx. }
  assert (Hbin : b ∈ l1 ++ b :: l2) by (apply elem_of_app; right; by left).
  destruct (pre_block _ _ _ Hpre b Hbin) as (sz & Hb & Hb1 & _ & _ & Hbm).
  destruct (geom_size_ok _ _ _ _ _ Hg Hb) as (Hs & Hu & Hpos). destruct (g_hm _ _ Hg) as [Htop _].
  assert ((b =? 0) = false) as -> by lia.
  apply wp_bind, (wp_GET_SIZE _ _ sz true); [done|by apply (hp_tags _ _ _ Hpre)|].
  destruct (Z.leb_spec size sz) as [Hfit|Hnofit].
  - apply wp_bind, (wp_remove_pre s B l1 b l2); [done|]. intros s1 Hp1 Hk1 Ha1.
    assert (Hb1f : b ∉ l1 ++ l2).
    { pose proof (hp_nodup _ _ _ Hpre) as (_ & Hdj & [? _]%list.NoDup_cons)%list.NoDup_app.
      intros [Hx|]%elem_of_app; [|done]. apply (Hdj b Hx). by left. }
    assert (Hall1 : forall x z, B !! x = Some (z, true) -> x = b \/ x ∈ l1 ++ l2).
    { intros x z Hx%Hall. rewrite elem_of_app in Hx |- *. rewrite elem_of_cons in Hx. tauto. }
    assert (Hdone : forall w s' B' fl', heap_inv s' B' fl' -> used_add B B' b w -> size <= w ->
      keeps B (hmem s1) (hmem s') -> same_arena s1 s' -> Q (Some (u32 (b + sizeof_block_header))) s').
    { intros w s' B' fl' Hi Ha Hw Hk Har. unfold sizeof_block_header.
      rewrite u32_small by hlia. apply (HS b w s' B' fl'); try done; [|by eapply same_arena_trans|lia].
      by eapply keeps_trans; [|exact Hk1|exact Hk]. }
    unfold sizeof_free_block_header. rewrite (u32_small (size + 12)) by hlia.
    destruct (Z.leb_spec (size + 12) sz) as [H12|H12].
    + assert (Hw : wp (CLEAR_FREE b;; split_block b size) s1 (fun _ s' =>
        Q (Some (u32 (b + sizeof_block_header))) s')).
      { apply (wp_take_split s1 B (l1 ++ l2) b sz); try done; [lia|].
        intros s' B' ? ? ? ?. by eapply (Hdone size); [done|done|lia|..]. }
      apply wp_bind, (wp_mono _ _ _ _ (wp_bind_inv _ _ _ _ Hw)).
      intros _ s2 H2. apply wp_bind, wp_bind, (wp_mono _ _ _ _ H2). intros _ s3 H3. by do 2 apply wp_ret.
    + assert (Hw : wp (CLEAR_FREE b;; update_footer b) s1 (fun _ s' =>
        Q (Some (u32 (b + sizeof_block_header))) s')).
      { apply (wp_take_whole s1 B (l1 ++ l2) b sz); try done.
        intros s' B' ? ? ? ?. by eapply (Hdone sz). }
      apply wp_bind, (wp_mono _ _ _ _ (wp_bind_inv _ _ _ _ Hw)).
      intros _ s2 H2. apply wp_bind, (wp_mono _ _ _ _ H2). intros _ s3 H3. by apply wp_ret.
  - pose proof (hp_dll _ _ _ Hpre) as [_ (Hn & _ & _)]%dll_app.
    apply wp_bind, (wp_load _ _ _ _ Hn).
    apply (IH s B (l1 ++ [b]) l2); try done.
    + by rewrite <- app_assoc.
    + simpl in Hfuel. lia.
    + intros Hno. apply HN. intros x z [->|Hx]%elem_of_cons Hxz; [|by eauto].
      rewrite Hb in Hxz. by injection Hxz as <-.
Qed.

(** The free list is not longer than the fuel of the search. *)
Lemma free_list_short s B fl : heap_inv s B fl -> (length fl < list_fuel s)%nat.
Proof.
  intros [Hpre _]. unfold list_fuel. set (n := (heap_max s - KHEAP_START) / 12).
  set (idx := fun x => (x - KHEAP_START) / 12).
  assert (Hnd : NoDup (idx <$> fl)).
  { apply NoDup_fmap_2_strong; [|apply Hpre]. intros x y Hx Hy Hxy. unfold idx in Hxy.
    destruct (decide (x = y)) as [|Hne]; [done|].
    destruct (pre_spaced _ _ _ Hpre x y Hx Hy Hne); zlia. }
  assert (Hsub : (idx <$> fl) ⊆ seqZ 0 n).
  { intros i (x & -> & Hx)%list_elem_of_fmap. apply elem_of_seqZ.
    destruct (pre_block _ _ _ Hpre x Hx) as (sz & _ & ? & _ & ? & ?). unfold idx, n. zlia. }
  apply (NoDup_submseteq _ _ Hnd) in Hsub. apply submseteq_length in Hsub.
  rewrite length_fmap, length_seqZ in Hsub. lia.
Qed.

(** *** Growing *)
(** The last block is free and has at least [n] bytes. *)
Definition tail_free (B : gmap Z (Z * bool)) (hm n : Z) : Prop :=
  exists a sa, B !! a = Some (sa, true) /\ a + sa = hm /\ n <= sa.

(** The page source has just refused the page at the end of the heap. *)
Definition page_refused (s : heap V) : Prop :=
  exists v, pages_ok v /\ kp_alloc v (heap_max s) = Ret (false, hvm s).

Lemma wp_allocate_new_heap_page s B fl Q :
  heap_inv s B fl -> heap_max s + 4096 <= HEAP_TOP ->
  (forall ok s' B' fl', heap_inv s' B' fl' -> same_used B B' -> keeps B (hmem s) (hmem s') ->
     (ok = true -> heap_max s' = heap_max s + 4096 /\ tail_free B' (heap_max s') 4096 /\
        forall n, 12 < n -> tail_free B (heap_max s) n -> tail_free B' (heap_max s') (n + 4096)) ->
     (ok = false -> page_refused s') ->
     Q ok s') ->
  wp allocate_new_heap_page s Q.
Proof.
  intros [Hpre Hall] Htop HQ. pose proof (hp_geom _ _ _ Hpre) as Hg.
  destruct (g_hm _ _ Hg) as [[Hk1 _] Hk2].
  apply wp_bind, wp_gets, wp_bind. unfold wp at 1, map_kernel_page.
  destruct (pages_total (hvm s) (heap_max s) (hp_vm _ _ _ Hpre) Hk1 Htop Hk2) as (ok & v' & Hpg & Hv').
  rewrite Hpg. destruct ok; cbn [negb].
  2: { apply wp_ret, (HQ _ _ B fl); [|by split|intros ?; done|done|].
       - split; [|done]. destruct Hpre. by split.
       - intros _. exists (hvm s). split; [apply Hpre|exact Hpg]. }
  set (s1 := {| hmem := zero_words 1024 _ _ |}).
  apply wp_bind, wp_modify. cbn [hmem heap_max free_list_head hvm s1].
  unfold PAGE_SIZE. rewrite (u32_small (heap_max s + 4096)) by hlia.
  set (s2 := {| hmem := _; heap_max := _ |}).
  pose proof (geom_grow _ _ true Hg Htop) as Hg'. set (B' := <[heap_max s := _]> B) in Hg'.
  assert (Hm2 : forall k, hmem s2 !! k = if (heap_max s <=? k) && (k <? heap_max s + 4096) &&
      ((k - heap_max s) mod 4 =? 0) then Some 0 else hmem s !! k).
  { intros k. exact (zero_words_lookup 1024 (heap_max s) (hmem s) k). }
  assert (Hin : forall k, k < heap_max s -> hmem s2 !! k = hmem s !! k).
  { intros k Hk. rewrite Hm2. case_bool; [lia|done]. }
  assert (Hmap2 : mapped (hmem s2) (heap_max s2)).
  { intros k Hk Hk4. cbn [heap_max s2] in Hk. rewrite Hm2. case_bool; [eauto|].
    apply (hp_map _ _ _ Hpre); [|done].
    assert ((k - heap_max s) mod 4 = 0) by zlia. lia. }
  assert (Hnew : B !! heap_max s = None).
  { destruct (B !! heap_max s) as [[z f]|] eqn:E; [|done].
    pose proof (g_blk _ _ Hg _ _ _ E). lia. }
  assert (Hnf : heap_max s ∉ fl).
  { intros (z & Hz & _)%(pre_block _ _ _ Hpre). congruence. }
  apply wp_bind, wp_create_free_block.
  { split; [hlia|done]. } { lia. } { hlia. } { hlia. } { zlia. }
  { intros k Hk Hk4. apply Hmap2; cbn [heap_max s2]; [lia|done]. }
  intros s3 [Ha3 Hv3] Hh3 [Hf3 Hs3] Ht3.
  assert (Hk3 : forall k, k < heap_max s -> hmem s3 !! k = hmem s !! k).
  { intros k Hk. rewrite Hf3 by (unfold outside; lia). auto. }
  assert (Hlt : forall a sz fr, B !! a = Some (sz, fr) -> a + sz <= heap_max s /\ 12 <= sz).
  { intros a sz fr Ha. pose proof (g_blk _ _ Hg _ _ _ Ha). lia. }
  assert (Hp3 : heap_pre s3 B' fl).
  { split; rewrite ?Ha3, ?Hv3, ?Hh3; try done; try apply Hpre.
    - intros k Hk Hk4. apply Hs3. by apply Hmap2.
    - intros a sz fr. unfold B'. destruct (decide (a = heap_max s)) as [->|].
      + rewrite lookup_insert_eq. by intros [= <- <-].
      + rewrite lookup_insert_ne by done. intros Ha. pose proof (Hlt _ _ _ Ha).
        unfold tagged. rewrite !Hk3 by lia. by apply (hp_tags _ _ _ Hpre).
    - eapply dll_frame; [|apply Hpre]. intros y (z & Hz & _)%(pre_block _ _ _ Hpre).
      pose proof (Hlt _ _ _ Hz). rewrite !Hk3 by hlia. done.
    - intros x Hx. unfold B'. rewrite lookup_insert_ne by congruence. by apply (hp_free _ _ _ Hpre). }
  assert (Hb : B' !! heap_max s = Some (4096, true)) by apply lookup_insert_eq.
  assert (Hsu : same_used B B').
  { intros a z. unfold B'. destruct (decide (a = heap_max s)) as [->|];
      [rewrite lookup_insert_eq, Hnew; split; discriminate|by rewrite lookup_insert_ne]. }
  apply wp_bind, (wp_add_pre s3 B' (heap_max s) 4096 fl); [done|done|done|].
  intros s4 Hp4 Hk4 Ha4. apply wp_bind, (wp_coalesce_with_prev s4 B' (heap_max s) 4096 fl); [|done|].
  { split; [done|]. intros x z. unfold B'. destruct (decide (x = heap_max s)) as [->|]; [by left|].
    rewrite lookup_insert_ne by done. intros Hx%Hall. by right. }
  intros s5 B5 fl5 Hi5 Hsu5 Hk5 Ha5 (a & sa & Hsa & Hend & Hge & Hmerge).
  assert (Hhm : heap_max s5 = heap_max s + 4096).
  { destruct Ha5 as [-> _]. destruct Ha4 as [-> _]. done. }
  apply wp_ret, (HQ true s5 B5 fl5); [done|..].
  - intros x z. by rewrite (Hsu x z), (Hsu5 x z).
  - assert (keeps B (hmem s) (hmem s3)).
    { intros x z k Hx Hk. apply Hk3. pose proof (Hlt _ _ _ Hx). lia. }
    eapply (keeps_trans B B'); [by intros; apply Hsu|done|].
    eapply (keeps_trans B' B'); [done|done|done].
  - intros _. split_and!; [done|exists a, sa; split_and!; [done|lia|lia]|].
    intros n Hn (p & sp & Hp & Hpe & Hpn). exists a, sa. split_and!; [done|lia|].
    pose proof (Hlt _ _ _ Hp). assert (p <> heap_max s) by lia.
    assert (B' !! p = Some (sp, true)) as Hp' by (unfold B'; by rewrite lookup_insert_ne).
    specialize (Hmerge p sp Hp' Hpe). lia.
  - done.
Qed.

(** *** Block sizes *)
Lemma ALIGN_UP_spec x : 0 <= x < 2147483648 -> ALIGN_UP x = x + 3 - (x + 3) mod 4.
Proof.
  intros Hx. unfold ALIGN_UP. change (BLOCK_ALIGN - 1) with 3.
  rewrite (u32_small (x + 3)) by (unfold is_u32; lia).
  change 3 with (Z.ones 2) at 2. apply land_not32_ones; [unfold is_u32; lia|lia].
Qed.

Lemma block_size_for_spec size : 0 <= size < 2147483648 ->
  size + 8 <= block_size_for size <= size + 12 /\ 12 <= block_size_for size /\
  block_size_for size mod 4 = 0.
Proof.
  intros Hs. unfold block_size_for. rewrite ALIGN_UP_spec by done.
  unfold sizeof_block_header, sizeof_free_block_header.
  rewrite u32_small by (unfold is_u32; zlia). case_bool; zlia.
Qed.

(** The recursive call searches for the same block size. *)
Lemma block_size_for_again n : 12 <= n < 2147483648 -> n mod 4 = 0 ->
  block_size_for (u32 (n - sizeof_block_header * 2)) = n.
Proof.
  intros Hn Hn4. unfold block_size_for, sizeof_block_header.
  rewrite (u32_small (n - 4 * 2)), ALIGN_UP_spec by (unfold is_u32; lia).
  unfold sizeof_free_block_header.
  rewrite u32_small by (unfold is_u32; zlia). case_bool; zlia.
Qed.

(** *** [kmalloc] and [kfree] *)

(** What an allocation of [n] bytes of block does to the blocks in use. *)
Definition alloc_result (B B' : gmap Z (Z * bool)) (n p : Z) : Prop :=
  p = 0 /\ same_used B B' \/
  KHEAP_START + 4 <= p /\ exists sz, n <= sz /\ used_add B B' (p - 4) sz.

Lemma alloc_result_trans B B1 B2 n p :
  same_used B B1 -> alloc_result B1 B2 n p -> alloc_result B B2 n p.
Proof.
  intros H [[Hp H2]|(Hp & sz & Hsz & Ha & Hn)]; [left|right].
  - split; [done|]. intros a z. by rewrite (H a z), (H2 a z).
  - split; [done|]. exists sz. split_and!; [done|].
    split; [|intros z; by rewrite (H (p - 4) z)]. intros a z. by rewrite (Ha a z), (H a z).
Qed.

(** Enough fuel [f] and address space after [k] pages of progress. *)
Definition grow_room (s : heap V) (B : gmap Z (Z * bool)) (n k f : Z) : Prop :=
  0 <= k /\ 1 <= f /\ n <= 4096 * (k + f - 1) /\
  (0 < k -> tail_free B (heap_max s) (4096 * k)) /\
  heap_max s + 4096 * (f + (if k =? 0 then 1 else 0)) <= HEAP_TOP.

Lemma wp_kmalloc_rec fuel : forall s B fl size n k,
  block_size_for size = n -> 12 <= n < 2147483648 -> n mod 4 = 0 ->
  heap_inv s B fl -> grow_room s B n k (Z.of_nat fuel) ->
  wp (kmalloc_rec fuel size) s (fun p s' => exists B' fl', heap_inv s' B' fl' /\
     keeps B (hmem s) (hmem s') /\ alloc_result B B' n p /\ (p = 0 -> page_refused s')).
Proof.
  induction fuel as [|fuel IH]; intros s B fl size n k Hn Hn12 Hn4 Hinv (Hk0 & Hf & Hnk & Htail & Htop);
    [lia|].
  cbn [kmalloc_rec]. rewrite Hn. apply wp_bind, wp_gets, wp_bind.
  (* after the page for an empty list *)
  assert (Hmain : forall s1 B1 fl1 k1, heap_inv s1 B1 fl1 -> same_used B B1 ->
    keeps B (hmem s) (hmem s1) -> 0 < k1 \/ fl1 <> [] ->
    0 <= k1 -> n <= 4096 * (k1 + Z.of_nat fuel) ->
    (0 < k1 -> tail_free B1 (heap_max s1) (4096 * k1)) ->
    heap_max s1 + 4096 * Z.of_nat (S fuel) <= HEAP_TOP ->
    wp (s2 ← st_get; r ← first_fit (list_fuel s2) (free_list_head s2) n;
        match r with
        | Some p => mret p
        | None => ok ← allocate_new_heap_page;
            if negb ok then mret 0 else kmalloc_rec fuel (n -! sizeof_block_header * 2)
        end) s1 (fun p s' => exists B' fl', heap_inv s' B' fl' /\
          keeps B (hmem s) (hmem s') /\ alloc_result B B' n p /\
          (p = 0 -> page_refused s'))).
  { intros s1 B1 fl1 k1 Hi1 Hsu1 Hkp1 _ Hk1 Hn1 Ht1 Hr1. apply wp_bind, wp_get, wp_bind.
    rewrite (hp_head _ _ _ (proj1 Hi1)).
    apply (wp_first_fit n _ s1 B1 [] fl1); [done|by eapply free_list_short|done|done|..].
    - intros Hno. apply wp_bind, (wp_allocate_new_heap_page s1 B1 fl1); [done|lia|].
      intros ok s2 B2 fl2 Hi2 Hsu2 Hkp2 Hok Hno'.
      assert (Hsu : same_used B B2) by (intros a z; by rewrite (Hsu1 a z), (Hsu2 a z)).
      assert (Hkp : keeps B (hmem s) (hmem s2)).
      { eapply keeps_trans; [|done|done]. intros. by apply Hsu1. }
      destruct ok; cbn [negb].
      2: { apply wp_ret. exists B2, fl2. split_and!; [done|done|left; done|intros _; by apply Hno']. }
      destruct (Hok eq_refl) as (Hhm & Hpage & Hgrow).
      assert (Hlt : 0 < k1 -> 4096 * k1 < n).
      { intros (a & sa & Ha & _ & Hsa)%Ht1. enough (sa < n) by lia.
        apply (Hno a sa); [|done]. by apply (proj2 Hi1 a sa). }
      eapply wp_mono; [apply (IH s2 B2 fl2 _ n (k1 + 1)); [by apply block_size_for_again|done|done|done|]|].
      + split_and!; [lia|lia|lia| |].
        * intros _. destruct (decide (k1 = 0)) as [->|]; [done|].
          replace (4096 * (k1 + 1)) with (4096 * k1 + 4096) by lia. apply Hgrow; [lia|]. apply Ht1; lia.
        * rewrite Hhm. destruct (Z.eqb_spec (k1 + 1) 0); lia.
      + intros p s' (B' & fl' & ? & Hkp' & Hr & Hz). exists B', fl'. split_and!; [done| | |done].
        * eapply keeps_trans; [|exact Hkp|done]. intros. by apply Hsu.
        * by eapply alloc_result_trans.
    - intros b sz s2 B2 fl2 Hi2 Hua Hsz Hkp2 Ha2 Hb. apply wp_ret. exists B2, fl2.
      split_and!; [done| | |hlia].
      + eapply keeps_trans; [|done|done]. intros. by apply Hsu1.
      + eapply alloc_result_trans; [done|]. right. split; [lia|]. exists sz. split; [done|].
        by replace (b + 4 - 4) with b by lia. }
  destruct fl as [|b fl]; rewrite (hp_head _ _ _ (proj1 Hinv)); cbn [hd].
  - assert (k = 0) as ->.
    { destruct (decide (k = 0)) as [|Hk]; [done|]. destruct Htail as (a & sa & Ha & _); [lia|].
      by apply (proj2 Hinv), not_elem_of_nil in Ha. }
    cbn [Z.eqb] in Htop |- *. apply (wp_allocate_new_heap_page s B []); [done|lia|].
    intros ok s1 B1 fl1 Hi1 Hsu1 Hkp1 Hok Hno'. destruct ok; cbn [negb].
    2: { apply wp_ret. exists B1, fl1. split_and!; [done|done|left; done|intros _; by apply Hno']. }
    destruct (Hok eq_refl) as (Hhm & Hpage & _).
    eapply (Hmain s1 B1 fl1 1); try done; [by left|lia|lia].
  - assert (b <> 0) as Hb0%Z.eqb_neq.
    { intros ->. apply (pre_nonzero _ _ _ (proj1 Hinv)). by left. }
    rewrite Hb0. apply wp_ret. cbn [negb].
    eapply (Hmain s B (b :: fl) k); try done; [by right|lia|].
    destruct (k =? 0); lia.
Qed.

Lemma wp_kmalloc s B fl size :
  heap_inv s B fl -> 0 <= size -> heap_max s + size + 20480 <= HEAP_TOP ->
  wp (kmalloc size) s (fun p s' => exists B' fl', heap_inv s' B' fl' /\
     keeps B (hmem s) (hmem s') /\ alloc_result B B' (size + 8) p /\ (p = 0 -> page_refused s')).
Proof.
  intros Hinv Hs Htop. destruct (g_hm _ _ (hp_geom _ _ _ (proj1 Hinv))) as [[Hk _] _].
  destruct (block_size_for_spec size) as (Hb1 & Hb2 & Hb4); [hlia|].
  eapply wp_mono; [apply (wp_kmalloc_rec _ s B fl size (block_size_for size) 0); [done|hlia|done|done|]|].
  - unfold PAGE_SIZE. split_and!; [lia|zlia|zlia|lia|]. cbn [Z.eqb]. zlia.
  - intros p s' (B' & fl' & ? & ? & Hr & Hz). exists B', fl'. split_and!; [done|done| |done].
    destruct Hr as [|(? & sz & ? & ?)]; [by left|right]. split; [done|]. exists sz. split; [lia|done].
Qed.

Lemma kmalloc_total s B fl size :
  heap_inv s B fl -> 0 <= size -> heap_max s + size + 20480 <= HEAP_TOP ->
  exists p s' B' fl', kmalloc size s = Ret (p, s') /\ heap_inv s' B' fl' /\
    keeps B (hmem s) (hmem s') /\ alloc_result B B' (size + 8) p /\ (p = 0 -> page_refused s').
Proof.
  intros Hinv Hs Ht. apply (wp_kmalloc s B fl size) in Ht; [|done|done].
  apply wp_run in Ht as (p & s' & Hr & B' & fl' & H). by exists p, s', B', fl'.
Qed.

Lemma wp_kfree s B fl p sz :
  heap_inv s B fl -> B !! (p - 4) = Some (sz, false) ->
  wp (kfree p) s (fun _ s' => exists B' fl', heap_inv s' B' fl' /\ same_arena s s' /\
     (forall a z, B' !! a = Some (z, false) <-> B !! a = Some (z, false) /\ a <> p - 4) /\
     keeps (delete (p - 4) B) (hmem s) (hmem s') /\
     exists a sa, B' !! a = Some (sa, true) /\ a + sa = p - 4 + sz /\ sz <= sa).
Proof.
  intros [Hpre Hall] Hb. pose proof (hp_geom _ _ _ Hpre) as Hg. set (b := p - 4) in *.
  pose proof (g_blk _ _ Hg _ _ _ Hb) as (? & ? & ? & ? & ?). destruct (g_hm _ _ Hg) as [? _].
  destruct (geom_size_ok _ _ _ _ _ Hg Hb) as (Hs & Hu & _).
  unfold kfree, sizeof_block_header. assert ((p =? 0) = false) as -> by (unfold b in *; hlia).
  rewrite (u32_small (p - 4)) by hlia. cbv zeta. fold b.
  assert (Hbf : b ∉ fl) by (intros [z Hz]%(hp_free _ _ _ Hpre); congruence).
  destruct (hp_tags _ _ _ Hpre _ _ _ Hb) as [Ht Htf]. specialize (Htf (or_introl eq_refl)).
  apply wp_bind, (wp_SET_FREE _ _ sz false _ Hs Ht).
  apply wp_bind; eapply (wp_update_footer _ _ sz true (tag sz false)); [done|done|hlia|..]; cbn [hmem set_hmem].
  { apply lookup_insert_eq. }
  { rewrite lookup_insert_ne by lia. done. }
  set (s1 := set_hmem _ (<[b + sz - 4 := _]> _)).
  assert (Hf : frame_off (outside b (b + sz)) (hmem s) (hmem s1)).
  { do 2 (apply frame_off_insert; [|unfold outside; lia]). apply frame_off_refl. }
  pose proof (geom_flag _ _ _ _ _ true Hg Hb) as Hg1. set (B1 := <[b := _]> B) in Hg1.
  assert (Hb1 : B1 !! b = Some (sz, true)) by apply lookup_insert_eq.
  assert (Hne : forall x, x <> b -> B1 !! x = B !! x) by (intros; by apply lookup_insert_ne).
  assert (Hp1 : heap_pre s1 B1 fl).
  { eapply (pre_region s _ B _ fl b (b + sz)); [done|done|done|done|done|..].
    - intros x sx fx. destruct (decide (x = b)) as [->|].
      + rewrite Hb1. intros [= <- <-]. right. cbn [hmem set_hmem s1]. split.
        * rewrite lookup_insert_ne by lia. apply lookup_insert_eq.
        * intros _. apply lookup_insert_eq.
      + rewrite Hne by done. intros Hx. left. split; [done|].
        destruct (geom_apart _ _ _ _ _ _ _ _ Hg Hb Hx); lia.
    - intros x Hx. assert (x <> b) by congruence. rewrite Hne by done.
      destruct (pre_block _ _ _ Hpre x Hx) as (z & Hz & _ & _ & ? & _). split; [|eauto].
      destruct (geom_apart _ _ _ _ _ _ _ _ Hg Hb Hz); lia. }
  assert (Hk1 : keeps (delete b B) (hmem s) (hmem s1)).
  { intros x z k [? Hx]%lookup_delete_Some Hk. apply Hf. unfold outside.
    destruct (geom_apart _ _ _ _ _ _ _ _ Hg Hb Hx); lia. }
  assert (Hsub : forall x z, delete b B !! x = Some (z, false) -> B1 !! x = Some (z, false)).
  { intros x z [? Hx]%lookup_delete_Some. by rewrite Hne by congruence. }
  apply wp_bind, (wp_add_pre s1 B1 b sz fl); [done|done|done|]. intros s2 Hp2 Hk2 Ha2.
  apply wp_bind, (wp_coalesce_with_prev s2 B1 b sz fl); [split; [done|]|done|].
  { intros x z Hx. destruct (decide (x = b)) as [->|]; [by left|]. right.
    rewrite Hne in Hx by done. by apply (Hall x z). }
  intros s3 B3 fl3 Hi3 Hsu3 Hk3 Ha3 (a & sa & Hsa & Hend & Hge & _).
  assert (Har : same_arena s s3) by (eapply same_arena_trans; [exact Ha2|done]).
  apply wp_coalesce_with_next.
  { apply (hp_map _ _ _ (proj1 Hi3)); [|done]. rewrite (proj1 Har). lia. }
  exists B3, fl3. split_and!; [done|done|..].
  - intros x z. rewrite <- (Hsu3 x z). destruct (decide (x = b)) as [->|].
    + rewrite Hb1. split; [done|by intros []].
    + rewrite Hne by done. tauto.
  - eapply keeps_trans; [exact Hsub|done|]. by eapply keeps_trans; [|done|done].
  - eauto.
Qed.

(** ** Runs of the heap with its clients

    Ghost state: the live allocations with their requested sizes, and the
    words their owners have written since. *)
Record client := { live : gmap Z Z; shadow : gmap Z Z }.

Definition in_live (c : client) (p k : Z) : Prop :=
  exists n, live c !! p = Some n /\ p <= k < p + n.

Inductive heap_step : heap V * client -> heap V * client -> Prop :=
| step_kmalloc s c size p s' :
    0 <= size -> heap_max s + size + 20480 <= HEAP_TOP ->
    kmalloc size s = Ret (p, s') -> p <> 0 ->
    heap_step (s, c) (s', {| live := <[p := size]> (live c); shadow := shadow c |})
| step_kmalloc_fail s c size s' :
    0 <= size -> heap_max s + size + 20480 <= HEAP_TOP ->
    kmalloc size s = Ret (0, s') -> heap_step (s, c) (s', c)
| step_kfree s c p n s' :
    live c !! p = Some n -> kfree p s = Ret (tt, s') ->
    heap_step (s, c) (s', {| live := delete p (live c);
      shadow := filter (fun kv => ~ (p <= kv.1 < p + n)) (shadow c) |})
| step_write s c p k v s' :
    in_live c p k -> k mod 4 = 0 -> store k v s = Ret (tt, s') ->
    heap_step (s, c) (s', {| live := live c; shadow := <[k := v]> (shadow c) |}).

Record heap_run (s : heap V) (c : client) : Prop := {
  hr_inv : exists B fl, heap_inv s B fl /\
    forall p n, live c !! p = Some n ->
      0 <= n /\ exists sz, B !! (p - 4) = Some (sz, false) /\ n + 8 <= sz;
  hr_shadow : forall k v, shadow c !! k = Some v -> hmem s !! k = Some v;
  hr_owned : forall k v, shadow c !! k = Some v -> exists p, in_live c p k
}.

(** What [keeps] means for the owned words. *)
Lemma shadow_keeps B s s' c (sh' : gmap Z Z) :
  (forall p n, live c !! p = Some n -> exists sz, B !! (p - 4) = Some (sz, false) /\ n + 8 <= sz) ->
  (forall k v, sh' !! k = Some v -> shadow c !! k = Some v /\ exists p, in_live c p k) ->
  (forall k v, shadow c !! k = Some v -> hmem s !! k = Some v) ->
  keeps B (hmem s) (hmem s') -> forall k v, sh' !! k = Some v -> hmem s' !! k = Some v.
Proof.
  intros Hl Hsub Hsh Hk k v Hkv. destruct (Hsub k v Hkv) as [Hkv' (p & n & Hp & Hr)].
  destruct (Hl p n Hp) as (sz & HB & Hsz). rewrite (Hk (p - 4) sz k HB) by lia. auto.
Qed.

Lemma heap_run_step x y : heap_step x y -> heap_run x.1 x.2 -> heap_run y.1 y.2.
Proof.
  intros [s c size p s' Hs Ht Hrun Hp0|s c size s' Hs Ht Hrun|s c p n s' Hp Hrun
         |s c p k v s' Hk Hk4 Hrun] [(B & fl & Hinv & Hlive) Hsh Hown]; cbn [fst snd] in *.
  all: assert (Hl : forall p n, live c !! p = Some n ->
    exists sz, B !! (p - 4) = Some (sz, false) /\ n + 8 <= sz) by (intros ? ? []%Hlive; done).
  - apply (wp_kmalloc s B fl size) in Ht as Hwp; [|done|done]. unfold wp in Hwp. rewrite Hrun in Hwp.
    destruct Hwp as (B' & fl' & Hinv' & Hk & [[-> _]|(Hp & sz & Hsz & Hua & Hnew)] & _); [done|].
    split; cbn [live shadow].
    + exists B', fl'. split; [done|]. intros q m. destruct (decide (q = p)) as [->|].
      * rewrite lookup_insert_eq. intros [= <-]. split; [done|]. exists sz.
        split; [|done]. apply Hua. by right.
      * rewrite lookup_insert_ne by done. intros [? (z & Hz & ?)]%Hlive. split; [done|].
        exists z. split; [|done]. apply Hua. by left.
    + eapply (shadow_keeps B s s' c); [done| |done|done]. eauto.
    + intros k v (q & m & Hq & Hr)%Hown. exists q, m. split; [|done]. cbn [live].
      rewrite lookup_insert_ne; [done|]. intros <-. destruct (Hl _ _ Hq) as (z & Hz & _).
      by apply (Hnew z).
  - apply (wp_kmalloc s B fl size) in Ht as Hwp; [|done|done]. unfold wp in Hwp. rewrite Hrun in Hwp.
    destruct Hwp as (B' & fl' & Hinv' & Hk & [[_ Hsu]|(Hp & _)] & _); [|hlia].
    split; [exists B', fl'; split; [done|]| |done].
    + intros q m [? (z & Hz & ?)]%Hlive. split; [done|]. exists z. split; [by apply Hsu|done].
    + eapply (shadow_keeps B s s' c); [done| |done|done]. eauto.
  - destruct (Hl p n Hp) as (sz & HB & Hsz).
    pose proof (wp_kfree s B fl p sz Hinv HB) as Hwp. unfold wp in Hwp. rewrite Hrun in Hwp.
    destruct Hwp as (B' & fl' & Hinv' & _ & Hu & Hk & _).
    assert (Hdel : forall q m, delete p (live c) !! q = Some m -> q <> p /\ live c !! q = Some m).
    { intros q m [? ?]%lookup_delete_Some. split; congruence. }
    assert (Hfil : forall k v, filter (fun kv => ~ (p <= kv.1 < p + n)) (shadow c) !! k = Some v ->
      shadow c !! k = Some v /\ exists q, in_live {| live := delete p (live c); shadow := shadow c |} q k).
    { intros k v [Hkv Hnr]%map_lookup_filter_Some. split; [done|].
      destruct (Hown k v Hkv) as (q & m & Hq & Hr). exists q, m. split; [|done]. cbn [live].
      rewrite lookup_delete_ne; [done|]. intros <-. cbn [fst] in Hnr. rewrite Hp in Hq. injection Hq as <-. lia. }
    split; cbn [live shadow].
    + exists B', fl'. split; [done|]. intros q m [? [? (z & Hz & ?)]%Hlive]%Hdel. split; [done|].
      exists z. split; [|done]. apply Hu. split; [done|lia].
    + eapply (shadow_keeps (delete (p - 4) B) s s' {| live := delete p (live c); shadow := shadow c |});
        cbn [live shadow]; [|exact Hfil|done|done].
      intros q m [? (z & Hz & ?)%Hl]%Hdel. exists z. rewrite lookup_delete_ne by lia. done.
    + intros k v (Hkv & q & m & Hq & Hr)%Hfil. by exists q, m.
  - unfold store in Hrun. destruct (hmem s !! k) as [w|] eqn:Ek; [|done]. injection Hrun as <-.
    destruct Hk as (n & Hp & Hr). destruct (Hl p n Hp) as (sz & HB & Hsz).
    destruct Hinv as [Hpre Hall]. pose proof (hp_geom _ _ _ Hpre) as Hg.
    split; cbn [live shadow].
    + exists B, fl. split; [|done]. split; [|done].
      eapply (pre_retag s); [done|done|done|done|..]; cbn [hmem set_hmem].
      * intros j Hj. by apply insert_is_Some.
      * intros a z fr Ha. left. pose proof (g_blk _ _ Hg _ _ _ Ha). split; [done|].
        destruct (geom_apart _ _ _ _ _ _ _ _ Hg HB Ha) as [(<- & <- & <-)|];
          rewrite !lookup_insert_ne by lia; done.
      * intros y0 Hy0. destruct (pre_block _ _ _ Hpre y0 Hy0) as (z & Hz & _ & _ & ? & _).
        destruct (geom_apart _ _ _ _ _ _ _ _ Hg HB Hz) as [(_ & _ & ?)|]; [done|].
        rewrite !lookup_insert_ne by hlia. eauto.
    + intros j u. cbn [hmem set_hmem]. destruct (decide (j = k)) as [->|];
        [rewrite !lookup_insert_eq; done|rewrite !lookup_insert_ne by done; auto].
    + intros j u. destruct (decide (j = k)) as [->|]; [intros _; by exists p, n|].
      rewrite lookup_insert_ne by done. intros (q & m & ? & ?)%Hown. by exists q, m.
Qed.

Lemma heap_run_rtc x y : rtc heap_step x y -> heap_run x.1 x.2 -> heap_run y.1 y.2.
Proof. induction 1 as [|x y z Hst _ IH]; [done|]. intros Hx. eapply IH, heap_run_step; done. Qed.

Lemma heap_inv_boot (v : V) : pages_ok v -> heap_inv (heap_boot v) ∅ [].
Proof.
  intros Hv. split; [split|]; cbn [heap_boot hmem heap_max free_list_head hvm hd]; try done.
  - split.
    + intros a sz fr. by rewrite lookup_empty.
    + intros ? ? ? ? ? ?. by rewrite lookup_empty.
    + intros a [[? Ha]| ->]; [by rewrite lookup_empty in Ha|by left].
    + by vm_compute.
  - intros k ? _. unfold KHEAP_START in *. lia.
  - constructor.
  - intros x Hx. by apply not_elem_of_nil in Hx.
Qed.

Lemma heap_run_boot (v : V) : pages_ok v -> heap_run (heap_boot v) {| live := ∅; shadow := ∅ |}.
Proof.
  intros Hv. split; cbn [live shadow].
  - exists ∅, []. split; [by apply heap_inv_boot|]. intros p n. by rewrite lookup_empty.
  - intros k w. by rewrite lookup_empty.
  - intros k w. by rewrite lookup_empty.
Qed.
End proofs.

(** ** Theorems *)
Section theorems.
Context {V : Type} `{!KernelPages V}.

(** (C17) [kmalloc] always returns: with enough address space left it neither
    faults nor loops.  It keeps the heap invariant and every word of every
    block in use, and returns either [NULL], with the same blocks in use and
    only because the page source refused the next page of the heap, or
    the payload of one new block that holds the requested size between its
    tags and was not in use before. *)
Theorem kmalloc_correct (s : heap V) B fl size :
  heap_inv s B fl -> 0 <= size -> heap_max s + size + 20480 <= HEAP_TOP ->
  exists p s' B' fl', kmalloc size s = Ret (p, s') /\ heap_inv s' B' fl' /\
    keeps B (hmem s) (hmem s') /\ alloc_result B B' (size + 8) p /\ (p = 0 -> page_refused s').
Proof. apply kmalloc_total. Qed.

(** (C18) [kfree] of a block in use always returns, keeps the invariant and the
    contents of the other blocks, takes exactly that block out of use, and
    leaves its bytes inside one free block. *)
Theorem kfree_correct (s : heap V) B fl p sz :
  heap_inv s B fl -> B !! (p - 4) = Some (sz, false) ->
  exists s' B' fl', kfree p s = Ret (tt, s') /\ heap_inv s' B' fl' /\
    (forall a z, B' !! a = Some (z, false) <-> B !! a = Some (z, false) /\ a <> p - 4) /\
    keeps (delete (p - 4) B) (hmem s) (hmem s') /\
    exists a sa, B' !! a = Some (sa, true) /\ a + sa = p - 4 + sz /\ sz <= sa.
Proof.
  intros Hinv Hb. pose proof (wp_kfree s B fl p sz Hinv Hb) as Hwp.
  apply wp_run in Hwp as ([] & s' & Hr & B' & fl' & Hi & _ & H). by exists s', B', fl'.
Qed.

(** (C2) From an empty heap, after any sequence of allocations, releases and
    client writes: live allocations are word-aligned, lie inside the heap, do not
    overlap, and still hold every word their owners wrote. *)
Theorem heap_runs_disjoint (v : V) s c :
  pages_ok v ->
  rtc heap_step (heap_boot v, {| live := ∅; shadow := ∅ |}) (s, c) ->
  (forall p n, live c !! p = Some n ->
     p mod 4 = 0 /\ KHEAP_START < p /\ p + n < heap_max s <= HEAP_TOP) /\
  (forall p n q m, live c !! p = Some n -> live c !! q = Some m -> p < q -> p + n < q) /\
  (forall k w, shadow c !! k = Some w -> hmem s !! k = Some w).
Proof.
  intros Hv Hrun. assert (Hr : heap_run s c).
  { apply (heap_run_rtc _ _ Hrun). by apply heap_run_boot. }
  destruct Hr as [(B & fl & [Hpre _] & Hl) Hsh _]. pose proof (hp_geom _ _ _ Hpre) as Hg.
  split_and!; [..|done].
  - intros p n (? & sz & HB & ?)%Hl. pose proof (g_blk _ _ Hg _ _ _ HB). destruct (g_hm _ _ Hg).
    split_and!; [zlia|lia|lia|lia].
  - intros p n q m (? & sz & HB & ?)%Hl (? & sz' & HB' & ?)%Hl ?.
    pose proof (g_dis _ _ Hg _ _ _ _ _ _ HB HB'). lia.
Qed.

(** Freed memory is reused: after a block is released, an allocation that
    fits it succeeds without asking for a page. *)
Theorem kfree_kmalloc_reuses (s : heap V) B fl p sz size :
  heap_inv s B fl -> B !! (p - 4) = Some (sz, false) -> 0 <= size < 2147483648 ->
  block_size_for size <= sz ->
  exists s1 q s2, kfree p s = Ret (tt, s1) /\ kmalloc size s1 = Ret (q, s2) /\
    q <> 0 /\ heap_max s2 = heap_max s /\ hvm s2 = hvm s.
Proof.
  intros Hinv Hb Hsize Hfit. pose proof (wp_kfree s B fl p sz Hinv Hb) as Hwp.
  apply wp_run in Hwp as ([] & s1 & Hr & B1 & fl1 & Hi1 & Ha1 & _ & _ & a & sa & Hsa & _ & Hge).
  destruct (block_size_for_spec size Hsize) as (? & ? & ?).
  assert (Hbnd : block_size_for size < 2147483648).
  { pose proof (g_blk _ _ (hp_geom _ _ _ (proj1 Hinv)) _ _ _ Hb).
    destruct (g_hm _ _ (hp_geom _ _ _ (proj1 Hinv))). hlia. }
  assert (Hne : free_list_head s1 <> 0).
  { rewrite (hp_head _ _ _ (proj1 Hi1)). apply (proj2 Hi1) in Hsa.
    pose proof (pre_nonzero _ _ _ (proj1 Hi1)). destruct fl1; [by apply not_elem_of_nil in Hsa|]. set_solver. }
  enough (wp (kmalloc size) s1 (fun q s2 => q <> 0 /\ same_arena s1 s2)) as Hwp.
  { apply wp_run in Hwp as (q & s2 & Hr2 & Hq & Ha2). destruct (same_arena_trans _ _ _ Ha1 Ha2).
    by exists s1, q, s2. }
  unfold kmalloc. destruct (Z.to_nat _) eqn:E; [unfold PAGE_SIZE in E; zlia|]. cbn [kmalloc_rec].
  apply wp_bind, wp_gets, wp_bind. apply Z.eqb_neq in Hne. rewrite Hne. apply wp_ret. cbn [negb].
  apply wp_bind, wp_get, wp_bind. rewrite (hp_head _ _ _ (proj1 Hi1)).
  apply (wp_first_fit _ _ s1 B1 [] fl1); [done|by eapply free_list_short|lia|done|..].
  - intros Hno. specialize (Hno a sa (proj2 Hi1 _ _ Hsa) Hsa). lia.
  - intros b z s2 B2 fl2 _ _ _ _ Ha2 Hb2. apply wp_ret. split; [hlia|done].
Qed.

(** Requests close to 4 GiB wrap around: each of the eleven largest sizes
    is served exactly like a request of zero bytes, with a twelve-byte block. *)
Theorem kmalloc_size_wraps (s : heap V) size :
  0xFFFFFFF5 <= size < 0x100000000 -> kmalloc size s = kmalloc 0 s.
Proof.
  intros Hs. assert (Hb : block_size_for size = block_size_for 0).
  { assert (0xFFFFFFF5 + 11 = 0x100000000) by done.
    assert (exists i, size = 0xFFFFFFF5 + Z.of_nat i /\ (i < 11)%nat) as (i & -> & Hi).
    { exists (Z.to_nat (size - 0xFFFFFFF5)). lia. }
    clear Hs. do 11 (destruct i as [|i]; [by vm_compute|]). lia. }
  unfold kmalloc. rewrite Hb. by destruct (Z.to_nat _); cbn [kmalloc_rec]; rewrite ?Hb.
Qed.

(** A block is never merged with the free block behind it: the guard of
    [coalesce_with_next] holds for every address. *)
Theorem coalesce_with_next_dead (s : heap V) block :
  is_Some (hmem s !! block) -> coalesce_with_next block s = Ret (tt, s).
Proof.
  intros Hb. assert (wp (coalesce_with_next block) s (fun r s' => s' = s)) as Hwp.
  { by apply wp_coalesce_with_next. }
  by apply wp_run in Hwp as ([] & s' & ? & ->).
Qed.
End theorems.

(** ** Witnesses *)

(** The result of an allocation, [-1] when it does not return. *)
Definition result_of {S} (o : outcome (Z * S)) : Z :=
  match o with Ret (p, _) => p | _ => -1 end.

Lemma first_kmalloc_result :
  result_of (kmalloc 10 (heap_boot small_pmm)) = KHEAP_START + 4.
Proof. by vm_compute. Qed.

#[local] Opaque kmalloc kfree.

Lemma kmalloc_correct_witness :
  exists p s' B' fl', kmalloc 10 (heap_boot small_pmm) = Ret (p, s') /\ heap_inv s' B' fl' /\
    keeps ∅ ∅ (hmem s') /\ alloc_result ∅ B' (10 + 8) p /\ (p = 0 -> page_refused s').
Proof.
  apply (kmalloc_correct (heap_boot small_pmm) ∅ [] 10).
  - apply heap_inv_boot. exact small_pmm_wf.
  - lia.
  - by vm_compute.
Defined.

(** A heap with one block in use. *)
Lemma first_kmalloc : exists s B fl sz,
  kmalloc 10 (heap_boot small_pmm) = Ret (KHEAP_START + 4, s) /\ heap_inv s B fl /\
  B !! (KHEAP_START + 4 - 4) = Some (sz, false) /\ 20 <= sz.
Proof.
  destruct (kmalloc_total (heap_boot small_pmm) ∅ [] 10) as (p & s & B & fl & Hr & Hi & _ & Ha & _);
    [apply heap_inv_boot; exact small_pmm_wf|lia|by vm_compute|].
  pose proof first_kmalloc_result as Hp. rewrite Hr in Hp. cbn [result_of] in Hp. subst p.
  destruct Ha as [[? _]|(_ & sz & Hsz & Hu & _)]; [done|]. exists s, B, fl, sz.
  assert (HB : B !! (KHEAP_START + 4 - 4) = Some (sz, false)) by (apply (proj2 (Hu _ _)); right; by split).
  split; [exact Hr|]. split; [exact Hi|]. split; [exact HB|].
  pose proof (g_blk _ _ (hp_geom _ _ _ (proj1 Hi)) _ _ _ HB). zlia.
Qed.

Lemma kfree_correct_witness : exists s (B : gmap Z (Z * bool)),
  kmalloc 10 (heap_boot small_pmm) = Ret (KHEAP_START + 4, s) /\
  exists s' B' fl', kfree (KHEAP_START + 4) s = Ret (tt, s') /\ heap_inv s' B' fl' /\
    (forall a z, B' !! a = Some (z, false) <-> B !! a = Some (z, false) /\ a <> KHEAP_START + 4 - 4).
Proof.
  destruct first_kmalloc as (s & B & fl & sz & Hr & Hi & HB & _). exists s, B. split; [exact Hr|].
  destruct (kfree_correct s B fl (KHEAP_START + 4) sz Hi HB) as (s' & B' & fl' & H1 & H2 & H3 & _).
  exists s', B', fl'. exact (conj H1 (conj H2 H3)).
Defined.

Lemma heap_runs_disjoint_witness : exists s c,
  rtc heap_step (heap_boot small_pmm, {| live := ∅; shadow := ∅ |}) (s, c) /\
  live c !! (KHEAP_START + 4) = Some 10 /\ hmem s !! (KHEAP_START + 8) = Some 7.
Proof.
  destruct first_kmalloc as (s & B & fl & sz & Hr & Hi & HB & Hsz).
  pose proof (g_blk _ _ (hp_geom _ _ _ (proj1 Hi)) _ _ _ HB) as (_ & _ & _ & _ & Hm).
  destruct (hp_map _ _ _ (proj1 Hi) (KHEAP_START + 8)) as [w Hw];
    [clear Hr; unfold KHEAP_START in *; lia|reflexivity|].
  set (c1 := {| live := <[KHEAP_START + 4 := 10]> ∅; shadow := ∅ |}).
  set (c2 := {| live := live c1; shadow := <[KHEAP_START + 8 := 7]> (shadow c1) |}).
  set (s2 := set_hmem s (<[KHEAP_START + 8 := 7]> (hmem s))).
  assert (Hrun : rtc heap_step (heap_boot small_pmm, {| live := ∅; shadow := ∅ |}) (s2, c2)).
  { eapply rtc_l; [apply (step_kmalloc _ _ 10 (KHEAP_START + 4) s); [lia|by vm_compute|exact Hr|discriminate]|].
    eapply rtc_l; [|apply rtc_refl].
    apply (step_write _ c1 (KHEAP_START + 4) (KHEAP_START + 8) 7);
      [exists 10; split; [apply lookup_insert_eq|lia]|reflexivity|unfold store; rewrite Hw; reflexivity]. }
  destruct (@heap_runs_disjoint pmm pmm_pages small_pmm s2 c2 small_pmm_wf Hrun) as (_ & _ & Hsh).
  exists s2, c2. split_and!; [exact Hrun|apply lookup_insert_eq|].
  apply Hsh, lookup_insert_eq.
Defined.

Lemma kfree_kmalloc_reuses_witness : exists s s1 q s2,
  kmalloc 10 (heap_boot small_pmm) = Ret (KHEAP_START + 4, s) /\
  kfree (KHEAP_START + 4) s = Ret (tt, s1) /\ kmalloc 10 s1 = Ret (q, s2) /\ q <> 0.
Proof.
  destruct first_kmalloc as (s & B & fl & sz & Hr & Hi & HB & Hsz).
  destruct (kfree_kmalloc_reuses s B fl (KHEAP_START + 4) sz 10 Hi HB) as (s1 & q & s2 & H1 & H2 & H3 & _).
  - lia.
  - change (block_size_for 10) with 20. exact Hsz.
  - exists s, s1, q, s2. exact (conj Hr (conj H1 (conj H2 H3))).
Defined.

Lemma kmalloc_size_wraps_witness :
  kmalloc 0xFFFFFFFF (heap_boot small_pmm) = kmalloc 0 (heap_boot small_pmm).
Proof. apply kmalloc_size_wraps. lia. Defined.

Lemma coalesce_with_next_dead_witness :
  let s := {| hmem := {[ 100 := 17; 116 := 17 ]}; free_list_head := 0; heap_max := 200;
              hvm := small_pmm |} in
  coalesce_with_next 100 s = Ret (tt, s).
Proof. apply coalesce_with_next_dead. by eexists. Defined.
