(* ===== verification/Scheduler.v ===== *)
(** * The scheduler (src/src/kernel/scheduler/scheduler.c)

    Processes are structures linked in a ring.  The kernel services a process
    needs (heap, address spaces, memory accesses through the current address
    space, the task state segment) are the interface [Kernel].  [s_esp] is the
    stack pointer of the kernel code that runs; [switch_to_stack] of
    stack_switch.s saves it in one process and loads that of another, so that the
    code which called it goes on only when its process is switched to again. *)

From S2P Require Import Prelude Interrupts.

(** ** Interfaces and state *)
Class Kernel (K : Type) := {
  k_kmalloc : Z -> ST K Z;
  k_kfree : Z -> ST K unit;
  k_create_space : ST K Z;
  k_destroy_space : Z -> ST K unit;
  k_read_cr3 : ST K Z;
  k_switch_space : Z -> ST K unit;
  k_alloc_user_page : Z -> ST K bool;
  k_store : Z -> Z -> ST K unit;
  k_load : Z -> ST K Z;
  k_byte : Z -> ST K Z;
  k_copy : Z -> list Z -> ST K unit;
  k_tss_set_stack : Z -> ST K unit
}.

Definition PROCESS_MAX_TICKS : Z := 1.
Definition PROCESS_STACK_TOP : Z := 0xBFF00000.
Definition USER_STACK_PAGES : Z := 4.
Definition PAGE_SIZE : Z := 4096.
(** [interrupt_frame_t]: 19 words. *)
Definition sizeof_interrupt_frame : Z := 76.

Record process := {
  pid : Z; pd_phys : Z; kernel_esp : Z; kernel_stack_top : Z; kernel_stack_base : Z; p_next : Z
}.

Inductive scheduler_state := SCHED_STATE_OFF | SCHED_STATE_READY | SCHED_STATE_STARTING | SCHED_STATE_RUNNING.
#[export] Instance scheduler_state_eq_dec : EqDecision scheduler_state.
Proof. solve_decision. Defined.

Record sched (K : Type) := {
  s_kernel : K;
  s_esp : Z;
  s_procs : gmap Z process;
  next_pid : Z;
  current_process : Z;
  process_list : Z;
  current_process_ticks : Z;
  s_state : scheduler_state;
  s_handlers : list Z
}.
Arguments s_kernel {K} _. Arguments s_esp {K} _. Arguments s_procs {K} _. Arguments next_pid {K} _.
Arguments current_process {K} _. Arguments process_list {K} _. Arguments current_process_ticks {K} _.
Arguments s_state {K} _. Arguments s_handlers {K} _.

Section code.
Context {K : Type} `{!Kernel K}.
(** Code addresses: the handler [schedule] and [fork_ret]. *)
Context (schedule_fn fork_ret_fn : Z).
Implicit Types s : sched K.
Abbreviation M := (ST (sched K)).

Definition with_kernel (k : K) s : sched K :=
  {| s_kernel := k; s_esp := s_esp s; s_procs := s_procs s; next_pid := next_pid s; current_process := current_process s;
     process_list := process_list s; current_process_ticks := current_process_ticks s; s_state := s_state s;
     s_handlers := s_handlers s |}.
Definition with_esp (e : Z) s : sched K :=
  {| s_kernel := s_kernel s; s_esp := e; s_procs := s_procs s; next_pid := next_pid s; current_process := current_process s;
     process_list := process_list s; current_process_ticks := current_process_ticks s; s_state := s_state s;
     s_handlers := s_handlers s |}.
Definition with_procs (m : gmap Z process) s : sched K :=
  {| s_kernel := s_kernel s; s_esp := s_esp s; s_procs := m; next_pid := next_pid s; current_process := current_process s;
     process_list := process_list s; current_process_ticks := current_process_ticks s; s_state := s_state s;
     s_handlers := s_handlers s |}.
Definition with_pid (n : Z) s : sched K :=
  {| s_kernel := s_kernel s; s_esp := s_esp s; s_procs := s_procs s; next_pid := n; current_process := current_process s;
     process_list := process_list s; current_process_ticks := current_process_ticks s; s_state := s_state s;
     s_handlers := s_handlers s |}.
Definition with_current (p : Z) s : sched K :=
  {| s_kernel := s_kernel s; s_esp := s_esp s; s_procs := s_procs s; next_pid := next_pid s; current_process := p;
     process_list := process_list s; current_process_ticks := current_process_ticks s; s_state := s_state s;
     s_handlers := s_handlers s |}.
Definition with_list (p : Z) s : sched K :=
  {| s_kernel := s_kernel s; s_esp := s_esp s; s_procs := s_procs s; next_pid := next_pid s; current_process := current_process s;
     process_list := p; current_process_ticks := current_process_ticks s; s_state := s_state s;
     s_handlers := s_handlers s |}.
Definition with_ticks (n : Z) s : sched K :=
  {| s_kernel := s_kernel s; s_esp := s_esp s; s_procs := s_procs s; next_pid := next_pid s; current_process := current_process s;
     process_list := process_list s; current_process_ticks := n; s_state := s_state s;
     s_handlers := s_handlers s |}.
Definition with_state (x : scheduler_state) s : sched K :=
  {| s_kernel := s_kernel s; s_esp := s_esp s; s_procs := s_procs s; next_pid := next_pid s; current_process := current_process s;
     process_list := process_list s; current_process_ticks := current_process_ticks s; s_state := x;
     s_handlers := s_handlers s |}.
Definition with_handlers (t : list Z) s : sched K :=
  {| s_kernel := s_kernel s; s_esp := s_esp s; s_procs := s_procs s; next_pid := next_pid s; current_process := current_process s;
     process_list := process_list s; current_process_ticks := current_process_ticks s; s_state := s_state s;
     s_handlers := t |}.

Definition on_kernel {B} (c : ST K B) : M B := fun s =>
  match c (s_kernel s) with
  | Ret (b, k) => Ret (b, with_kernel k s)
  | Fault => Fault
  | Diverge => Diverge
  end.

Definition get_proc (p : Z) : M process := s ← st_get; st_lift (of_option (s_procs s !! p)).
Definition put_proc (p : Z) (x : process) : M unit := st_modify (fun s => with_procs (<[p := x]> (s_procs s)) s).

Definition set_next (v : Z) (x : process) : process :=
  {| pid := pid x; pd_phys := pd_phys x; kernel_esp := kernel_esp x; kernel_stack_top := kernel_stack_top x;
     kernel_stack_base := kernel_stack_base x; p_next := v |}.
Definition set_kernel_esp (v : Z) (x : process) : process :=
  {| pid := pid x; pd_phys := pd_phys x; kernel_esp := v; kernel_stack_top := kernel_stack_top x;
     kernel_stack_base := kernel_stack_base x; p_next := p_next x |}.

(** ** Switching *)

(** [switch_to_stack(&p->kernel_esp, new_esp)]; for a local variable the saved
    value is lost. *)
Definition switch_to_stack (old : option Z) (new_esp : Z) : M unit :=
  match old with
  | Some p => s ← st_get; x ← get_proc p; put_proc p (set_kernel_esp (s_esp s) x)
  | None => mret tt
  end;;
  st_modify (with_esp new_esp).

(** The arguments of [switch_to_stack] are evaluated before it stores. *)
Definition context_switch (from to : Z) : M unit :=
  st_modify (with_current to);;
  t ← get_proc to;
  on_kernel (k_tss_set_stack (kernel_stack_top t));;
  on_kernel (k_switch_space (pd_phys t));;
  switch_to_stack (Some from) (kernel_esp t).

Definition schedule : M unit :=
  s ← st_get;
  if bool_decide (s_state s = SCHED_STATE_STARTING) then
    st_modify (with_state SCHED_STATE_RUNNING);;
    c ← get_proc (current_process s);
    on_kernel (k_tss_set_stack (kernel_stack_top c));;
    on_kernel (k_switch_space (pd_phys c));;
    switch_to_stack None (kernel_esp c)
  else if negb (bool_decide (s_state s = SCHED_STATE_RUNNING)) || (current_process s =? 0) then mret tt
  else
    let ticks := current_process_ticks s +! 1 in
    st_modify (with_ticks ticks);;
    if PROCESS_MAX_TICKS <=? ticks then
      st_modify (with_ticks 0);;
      c ← get_proc (current_process s);
      let next_proc := if p_next c =? 0 then process_list s else p_next c in
      context_switch (current_process s) next_proc
    else mret tt.

(** From here on the code sleeps and only interrupts run. *)
Definition scheduler_init : M unit :=
  s ← st_get;
  if negb (bool_decide (s_state s = SCHED_STATE_READY)) then mret tt
  else
    t ← st_lift (isr_register_handler (irq_to_vector 0) schedule_fn (s_handlers s));
    st_modify (with_handlers t);;
    st_modify (with_state SCHED_STATE_STARTING).

(** [while (last->next != process_list) last = last->next;] *)
Fixpoint find_last (fuel : nat) (head last : Z) : M Z :=
  match fuel with
  | O => fun _ => Diverge
  | S fuel =>
      x ← get_proc last;
      if p_next x =? head then mret last else find_last fuel head (p_next x)
  end.

Definition scheduler_add_process (proc : Z) : M unit :=
  s ← st_get;
  if process_list s =? 0 then
    st_modify (with_list proc);;
    x ← get_proc proc;
    put_proc proc (set_next proc x)
  else
    last ← find_last (S (map_size (s_procs s))) (process_list s) (process_list s);
    x ← get_proc last;
    put_proc last (set_next proc x);;
    x ← get_proc proc;
    put_proc proc (set_next (process_list s) x).

Definition scheduler_start : M unit :=
  s ← st_get;
  if process_list s =? 0 then mret tt
  else
    st_modify (with_current (process_list s));;
    st_modify (with_state SCHED_STATE_READY);;
    x ← get_proc (process_list s);
    on_kernel (k_switch_space (pd_phys x));;
    scheduler_init.

(** ** Processes *)

(** [for (i = 0; i < USER_STACK_PAGES; i++)], [n] pages are left. *)
Fixpoint alloc_stack_pages (n : nat) (i : Z) : M bool :=
  match n with
  | O => mret true
  | S n =>
      ok ← on_kernel (k_alloc_user_page (PROCESS_STACK_TOP -! (i + 1) *! PAGE_SIZE));
      if (ok : bool) then alloc_stack_pages n (i + 1) else mret false
  end.

(** The words of the frame, lowest address first: gs fs es ds, edi esi ebp esp
    ebx edx ecx eax, int_no err_code, eip cs eflags useresp ss. *)
Definition initial_frame (entry : Z) : list Z :=
  [GDT_USER_DATA_SEL; GDT_USER_DATA_SEL; GDT_USER_DATA_SEL; GDT_USER_DATA_SEL;
   0; 0; 0; PROCESS_STACK_TOP; 0; 0; 0; 0;
   0; 0;
   entry; GDT_USER_CODE_SEL; 0x202; 0; GDT_USER_DATA_SEL].

Fixpoint store_words (a : Z) (ws : list Z) : M unit :=
  match ws with
  | [] => mret tt
  | w :: ws => on_kernel (k_store a w);; store_words (a +! 4) ws
  end.

Definition set_pid (v : Z) (x : process) : process :=
  {| pid := v; pd_phys := pd_phys x; kernel_esp := kernel_esp x; kernel_stack_top := kernel_stack_top x;
     kernel_stack_base := kernel_stack_base x; p_next := p_next x |}.
Definition set_stack (base top : Z) (x : process) : process :=
  {| pid := pid x; pd_phys := pd_phys x; kernel_esp := kernel_esp x; kernel_stack_top := top;
     kernel_stack_base := base; p_next := p_next x |}.
Definition set_pd (v : Z) (x : process) : process :=
  {| pid := pid x; pd_phys := v; kernel_esp := kernel_esp x; kernel_stack_top := kernel_stack_top x;
     kernel_stack_base := kernel_stack_base x; p_next := p_next x |}.
Definition update_proc (p : Z) (f : process -> process) : M unit := x ← get_proc p; put_proc p (f x).

Definition process_init (p entry : Z) : M unit :=
  s ← st_get;
  update_proc p (set_pid (next_pid s));;
  st_modify (with_pid (next_pid s +! 1));;
  kstack ← on_kernel (k_kmalloc (PAGE_SIZE * 2));
  if kstack =? 0 then mret tt
  else
    let top := kstack +! PAGE_SIZE * 2 in
    update_proc p (set_stack kstack top);;
    pd ← on_kernel k_create_space;
    update_proc p (set_pd pd);;
    old_cr3 ← on_kernel k_read_cr3;
    on_kernel (k_switch_space pd);;
    ok ← alloc_stack_pages (Z.to_nat USER_STACK_PAGES) 0;
    on_kernel (k_switch_space old_cr3);;
    if negb (ok : bool) then mret tt
    else
      let frame := top -! sizeof_interrupt_frame in
      store_words frame (initial_frame entry);;
      let stack_ptr := frame -! 4 in
      on_kernel (k_store stack_ptr fork_ret_fn);;
      update_proc p (set_kernel_esp stack_ptr);;
      update_proc p (set_next 0).

(** [for (a = start; a < end; a += PAGE_SIZE)] *)
Fixpoint alloc_pages (fuel : nat) (a fin : Z) : M bool :=
  match fuel with
  | O => fun _ => Diverge
  | S fuel =>
      if a <? fin then
        ok ← on_kernel (k_alloc_user_page a);
        if (ok : bool) then alloc_pages fuel (a +! PAGE_SIZE) fin else mret false
      else mret true
  end.

Definition page_mask (a : Z) : Z := Z.land a (not32 (PAGE_SIZE - 1)).

Definition process_load_user_memory (p vaddr : Z) (src : list Z) : M bool :=
  let len := Z.of_nat (length src) in
  if (p =? 0) || (len =? 0) then mret false
  else
    old_cr3 ← on_kernel k_read_cr3;
    x ← get_proc p;
    on_kernel (k_switch_space (pd_phys x));;
    let start := page_mask vaddr in
    let fin := page_mask (vaddr +! len +! PAGE_SIZE -! 1) in
    ok ← alloc_pages (S (Z.to_nat (len / PAGE_SIZE + 2))) start fin;
    if negb (ok : bool) then on_kernel (k_switch_space old_cr3);; mret false
    else
      on_kernel (k_copy vaddr src);;
      on_kernel (k_switch_space old_cr3);;
      mret true.

(** [while (p->next != proc && p->next != process_list) p = p->next;] *)
Fixpoint find_before (fuel : nat) (proc head p : Z) : M Z :=
  match fuel with
  | O => fun _ => Diverge
  | S fuel =>
      x ← get_proc p;
      if (p_next x =? proc) || (p_next x =? head) then mret p else find_before fuel proc head (p_next x)
  end.

(** [if (process_list == proc) process_list = proc->next;] *)
Definition move_head (proc : Z) : M unit :=
  s ← st_get;
  x ← get_proc proc;
  when (process_list s =? proc) (st_modify (with_list (p_next x))).

(** [for (;;) asm volatile("hlt");] *)
Definition halt : M unit := fun _ => Diverge.

(** The last process halts the machine. *)
Definition process_exit (proc : Z) : M unit :=
  x ← get_proc proc;
  if p_next x =? proc then halt
  else
    s ← st_get;
    p ← find_before (S (map_size (s_procs s))) proc (process_list s) (process_list s);
    y ← get_proc p;
    when (p_next y =? proc)
      (put_proc p (set_next (p_next x) y);; move_head proc);;
    s ← st_get;
    if proc =? current_process s then
      let next := process_list s in
      st_modify (with_current next);;
      t ← get_proc next;
      on_kernel (k_tss_set_stack (kernel_stack_top t));;
      on_kernel (k_switch_space (pd_phys t));;
      switch_to_stack None (kernel_esp t)
    else
      on_kernel (k_destroy_space (pd_phys x));;
      on_kernel (k_kfree (kernel_stack_base x));;
      on_kernel (k_kfree proc);;
      st_modify (fun s => with_procs (delete proc (s_procs s)) s).

Definition get_current_process : M Z := st_gets current_process.

(** ** Returning to user mode (stack_switch.s)

    The registers [fork_ret] loads; [iret] to user code pops the stack pointer
    and segment as well. *)
Record user_regs := {
  r_gs : Z; r_fs : Z; r_es : Z; r_ds : Z; r_edi : Z; r_esi : Z; r_ebp : Z; r_ebx : Z; r_edx : Z; r_ecx : Z; r_eax : Z;
  r_eip : Z; r_cs : Z; r_eflags : Z; r_esp : Z; r_ss : Z
}.

Fixpoint load_words (n : nat) (a : Z) : M (list Z) :=
  match n with
  | O => mret []
  | S n => w ← on_kernel (k_load a); ws ← load_words n (a +! 4); mret (w :: ws)
  end.

(** The [ret] of [switch_to_stack] into [fork_ret], and [fork_ret]. *)
Definition first_run : M user_regs :=
  s ← st_get;
  ret ← on_kernel (k_load (s_esp s));
  if negb (ret =? fork_ret_fn) then st_fault
  else
    ws ← load_words 19 (s_esp s +! 4);
    match ws with
    | [gs; fs; es; ds; edi; esi; ebp; _; ebx; edx; ecx; eax; _; _; eip; cs; eflags; useresp; ss] =>
        mret {| r_gs := gs; r_fs := fs; r_es := es; r_ds := ds; r_edi := edi; r_esi := esi; r_ebp := ebp; r_ebx := ebx;
                r_edx := edx; r_ecx := ecx; r_eax := eax; r_eip := eip; r_cs := cs; r_eflags := eflags;
                r_esp := useresp; r_ss := ss |}
    | _ => st_fault
    end.
End code.
