(* ===== verification/Machine.v ===== *)
(** * What the scheduler relies on

    The laws of the interface [Kernel]: the task state segment, the address space
    register and the kernel memory, which all address spaces share.  They say
    nothing of whether an allocation succeeds or a call returns; [KernelVm] shows
    them of the virtual memory manager and the heap.  A small machine that
    satisfies them is used for examples. *)

From S2P Require Import Prelude Interrupts Scheduler.

(** ** Registers

    A switch to the null address does nothing. *)
Class KernelLaws (K : Type) `{!Kernel K} := {
  k_cr3 : K -> Z;
  k_esp0 : K -> Z;
  k_tss_ok : forall v k, exists k', k_tss_set_stack v k = Ret (tt, k') /\ k_esp0 k' = v /\ k_cr3 k' = k_cr3 k;
  k_switch_ok : forall v k, v <> 0 -> exists k', k_switch_space v k = Ret (tt, k') /\ k_cr3 k' = v /\ k_esp0 k' = k_esp0 k;
  k_switch_null : forall k, k_switch_space 0 k = Ret (tt, k)
}.

(** ** Kernel memory

    [k_word k a] is the word at [a], if it is mapped.  The calls for address spaces
    and user memory keep it when they return, and only a switch changes the address
    space register. *)
Class KernelWords (K : Type) `{!Kernel K} `{!KernelLaws K} := {
  k_word : K -> Z -> option Z;
  k_keeps : K -> K -> Prop := fun k k' => k_cr3 k' = k_cr3 k /\ forall a, k_word k' a = k_word k a;
  kw_create : forall k pd k', k_create_space k = Ret (pd, k') -> k_keeps k k';
  kw_page : forall v k b k', k_alloc_user_page v k = Ret (b, k') -> k_keeps k k';
  kw_copy : forall v bs k k', k_copy v bs k = Ret (tt, k') -> k_keeps k k';
  kw_read_cr3 : forall k, k_read_cr3 k = Ret (k_cr3 k, k);
  kw_switch : forall v k k', k_switch_space v k = Ret (tt, k') -> forall a, k_word k' a = k_word k a;
  kw_store : forall a w k, is_Some (k_word k a) -> exists k', k_store a w k = Ret (tt, k') /\ k_cr3 k' = k_cr3 k /\
    forall b, k_word k' b = if decide (b = a) then Some w else k_word k b;
  kw_load : forall a w k, k_word k a = Some w -> k_load a k = Ret (w, k)
}.

(** ** A small machine *)
Record box := {
  b_cr3 : Z; b_esp0 : Z; b_brk : Z; b_spaces : Z; b_mem : Z -> Z; b_user : Z -> Z -> option Z
}.
Definition box_user (u : Z -> Z -> option Z) (k : box) : box :=
  {| b_cr3 := b_cr3 k; b_esp0 := b_esp0 k; b_brk := b_brk k; b_spaces := b_spaces k; b_mem := b_mem k; b_user := u |}.
Definition box_pages (n : Z) (k : box) : box :=
  {| b_cr3 := b_cr3 k; b_esp0 := b_esp0 k; b_brk := b_brk k + n; b_spaces := b_spaces k; b_mem := b_mem k;
     b_user := b_user k |}.
Definition box_space (k : box) : Z := 0x500000 + 4096 * Z.abs (b_spaces k).
Definition box_mapped (v n : Z) (k : box) : bool :=
  forallb (fun i => bool_decide (is_Some (b_user k (b_cr3 k) (v + i)))) (seqZ 0 n).

#[export] Instance box_kernel : Kernel box := {
  k_kmalloc n := fun k =>
    if (0 <? b_brk k) && (b_brk k + n <? 2 ^ 32) then Ret (b_brk k, box_pages n k) else Ret (0, k);
  k_kfree _ := mret tt;
  k_create_space := fun k => Ret (box_space k,
    {| b_cr3 := b_cr3 k; b_esp0 := b_esp0 k; b_brk := b_brk k; b_spaces := b_spaces k + 1; b_mem := b_mem k;
       b_user := fun q a => if bool_decide (q = box_space k /\ box_space k <> 0) then None else b_user k q a |});
  k_destroy_space _ := mret tt;
  k_read_cr3 := fun k => Ret (b_cr3 k, k);
  k_switch_space v := fun k => Ret (tt, if v =? 0 then k else
    {| b_cr3 := v; b_esp0 := b_esp0 k; b_brk := b_brk k; b_spaces := b_spaces k; b_mem := b_mem k; b_user := b_user k |});
  k_alloc_user_page v := fun k => Ret (true,
    box_user (fun q a => if true && bool_decide (q = b_cr3 k) && bool_decide (v <= a < v + 4096) then Some 0
                         else b_user k q a) k);
  k_store a w := fun k => Ret (tt,
    {| b_cr3 := b_cr3 k; b_esp0 := b_esp0 k; b_brk := b_brk k; b_spaces := b_spaces k;
       b_mem := fun b => if decide (b = a) then w else b_mem k b; b_user := b_user k |});
  k_load a := fun k => Ret (b_mem k a, k);
  k_byte a := fun k => match b_user k (b_cr3 k) a with Some b => Ret (b, k) | None => Fault end;
  k_copy v bs := fun k =>
    if box_mapped v (Z.of_nat (length bs)) k then
      Ret (tt, box_user (fun q a =>
        if bool_decide (q = b_cr3 k) && bool_decide (v <= a < v + Z.of_nat (length bs)) then bs !! Z.to_nat (a - v)
        else b_user k q a) k)
    else Fault;
  k_tss_set_stack v := fun k => Ret (tt,
    {| b_cr3 := b_cr3 k; b_esp0 := v; b_brk := b_brk k; b_spaces := b_spaces k; b_mem := b_mem k; b_user := b_user k |})
}.

#[export] Program Instance box_laws : KernelLaws box := {| k_cr3 := b_cr3; k_esp0 := b_esp0 |}.
Next Obligation. intros v k. eexists. split; [reflexivity|]. done. Qed.
Next Obligation. intros v k Hv. eexists. split; [reflexivity|]. by destruct (Z.eqb_spec v 0). Qed.
Next Obligation. done. Qed.

#[export] Program Instance box_words : KernelWords box := {| k_word k a := Some (b_mem k a) |}.
Next Obligation. by intros k pd k' [= _ <-]. Qed.
Next Obligation. by intros v k b k' [= _ <-]. Qed.
Next Obligation. intros v bs k k'. cbn. case_match; [|done]. by intros [= <-]. Qed.
Next Obligation. done. Qed.
Next Obligation. intros v k k' [= <-] a. by destruct (v =? 0). Qed.
Next Obligation. intros a w k _. eexists. split; [reflexivity|]. split; [done|]. intros b. cbn. by case_decide. Qed.
Next Obligation. by intros a w k [= <-]. Qed.

(** Three processes, numbered by their addresses. *)
Definition box_proc (p next : Z) : process :=
  {| pid := p; pd_phys := 0x100000 * p; kernel_esp := 0xD0000000 + 0x2000 * p + 100;
     kernel_stack_top := 0xD0000000 + 0x2000 * p + 0x2000; kernel_stack_base := 0xD0000000 + 0x2000 * p; p_next := next |}.
Definition box_sched (l : list (Z * Z)) (cur : Z) : sched box :=
  {| s_kernel := {| b_cr3 := 0x1000; b_esp0 := 0; b_brk := 0xD0100000; b_spaces := 0; b_mem := fun _ => 0;
                    b_user := fun _ _ => None |};
     s_esp := 0xD0000050; s_procs := list_to_map ((fun pn => (pn.1, box_proc pn.1 pn.2)) <$> l); next_pid := 5;
     current_process := cur; process_list := 1; current_process_ticks := 0; s_state := SCHED_STATE_RUNNING;
     s_handlers := [] |}.
