(* ===== verification/SchedulerProof.v ===== *)
(** * Correctness of the scheduler

    The processes form a ring; a timer interrupt switches to the next one, so
    that they take turns, and each resumes on its own kernel stack. *)

From S2P Require Import Prelude Interrupts Scheduler Machine.

(** ** Rings *)
Section ring.
Implicit Types m : gmap Z process.

(** The processes [l], linked from [p] on, with a link to [q] after the last. *)
Fixpoint seg m (p : Z) (l : list Z) (q : Z) : Prop :=
  match l with
  | [] => p = q
  | x :: l => p = x /\ x <> 0 /\ exists n, m !! x = Some n /\ seg m (p_next n) l q
  end.

Definition ring m (l : list Z) : Prop :=
  match l with [] => False | h :: _ => seg m h l h /\ NoDup l end.

Lemma seg_app m p l1 l2 q : seg m p (l1 ++ l2) q <-> exists r, seg m p l1 r /\ seg m r l2 q.
Proof.
  revert p. induction l1 as [|x l1 IH]; intros p; cbn; [split; [by exists p|by intros (r & -> & ?)]|]. split.
  - intros (-> & Hx & n & Hn & (r & H1 & H2)%IH). exists r. split; [|done]. eauto 10.
  - intros (r & (-> & Hx & n & Hn & H1) & H2). split; [done|]. split; [done|]. exists n. split; [done|].
    apply IH. by exists r.
Qed.

(** Links of other processes, and other fields, do not matter. *)
Lemma seg_same m m' p l q : seg m p l q ->
  (forall x n, x ∈ l -> m !! x = Some n -> exists n', m' !! x = Some n' /\ p_next n' = p_next n) -> seg m' p l q.
Proof.
  revert p. induction l as [|x l IH]; intros p; cbn; [done|]. intros (-> & Hx & n & Hn & H) Hs.
  split; [done|]. split; [done|]. destruct (Hs x n) as (n' & Hn' & E); [left|done|]. exists n'. rewrite E.
  split; [done|]. apply IH; [done|]. intros y k Hy. apply Hs. by right.
Qed.

Lemma seg_insert m x n p l q : seg m p l q -> x ∉ l -> seg (<[x := n]> m) p l q.
Proof.
  intros H Hx. eapply seg_same; [exact H|]. intros y k Hy Hk. exists k. rewrite lookup_insert_ne by set_solver. done.
Qed.

Lemma seg_lookup m p l q x : seg m p l q -> x ∈ l -> x <> 0 /\ is_Some (m !! x).
Proof.
  revert p. induction l as [|y l IH]; intros p; cbn; [by rewrite elem_of_nil|]. rewrite elem_of_cons.
  intros (-> & Hy & n & Hn & H) [-> |Hx]; [split; [done|by exists n]|eauto].
Qed.

(** Turning the ring. *)
Lemma ring_rotate m x l : ring m (x :: l) -> ring m (l ++ [x]).
Proof.
  intros [H Hd]. destruct l as [|y l]; [done|]. cbn [app]. split.
  - cbn in H. destruct H as (_ & Hx & n & Hn & Ey & Hy & k & Hk & H). subst y.
    change (p_next n :: l ++ [x]) with ((p_next n :: l) ++ [x]). apply seg_app. exists x. split; [cbn; by eauto 10|].
    cbn. by eauto 10.
  - change (y :: l ++ [x]) with ((y :: l) ++ [x]). apply list.NoDup_cons in Hd as [Hx Hd].
    apply list.NoDup_app. split; [done|]. split; [|apply NoDup_singleton]. intros z Hz. set_solver.
Qed.

Lemma ring_next m x l n : ring m (x :: l) -> m !! x = Some n -> p_next n <> 0 /\ exists r, l ++ [x] = p_next n :: r.
Proof.
  intros [H _] Hn. destruct H as (_ & Hx & k & Hk & H). assert (k = n) as -> by congruence. destruct l as [|y l]; cbn in *.
  - rewrite H. split; [done|]. by exists [].
  - destruct H as (-> & Hy & _). split; [done|]. by exists (l ++ [x]).
Qed.

Lemma ring_relabel m m' l : ring m l ->
  (forall x n, x ∈ l -> m !! x = Some n -> exists n', m' !! x = Some n' /\ p_next n' = p_next n) -> ring m' l.
Proof. destruct l as [|h l]; [done|]. intros [H Hd] Hs. split; [|done]. by eapply seg_same. Qed.

Lemma ring_lookup m l x : ring m l -> x ∈ l -> x <> 0 /\ is_Some (m !! x).
Proof. destruct l as [|h l]; [done|]. intros [H _]. by eapply seg_lookup. Qed.

(** The last link redirected. *)
Lemma seg_relink m p a q r v y : seg m p (a ++ [q]) r -> m !! q = Some y -> q ∉ a ->
  seg (<[q := set_next v y]> m) p (a ++ [q]) v.
Proof.
  intros (r' & H1 & Eq & Hq & _)%seg_app Hy Hqa. apply seg_app. exists r'. split; [by apply seg_insert|].
  split; [done|]. split; [done|]. rewrite lookup_insert_eq. by eexists.
Qed.

Lemma seg_last m p a q r : seg m p (a ++ [q]) r -> q <> 0 /\ exists y, m !! q = Some y /\ p_next y = r.
Proof. intros (r' & _ & _ & Hq & y & Hy & E)%seg_app. split; [done|]. by exists y. Qed.

Lemma ring_intro m h l : seg m h l h -> l <> [] -> NoDup l -> ring m l.
Proof. destruct l as [|x l]; [done|]. intros [-> H] _ Hd. by split; [split|]. Qed.

Lemma ring_elim m l : ring m l -> l <> [] /\ seg m (hd 0 l) l (hd 0 l) /\ NoDup l.
Proof. destruct l as [|x l]; [done|]. by intros [? ?]. Qed.

Lemma ring_length m l : ring m l -> (length l <= base.size m)%nat.
Proof.
  intros H. assert (Hd : NoDup l) by (destruct l; [done|by destruct H]).
  assert (Hsub : list_to_set l ⊆ (dom m : gset Z)).
  { intros q Hq. rewrite elem_of_list_to_set in Hq. apply elem_of_dom. by destruct (ring_lookup m l q H Hq). }
  apply subseteq_size in Hsub. rewrite size_dom, size_list_to_set in Hsub by done. done.
Qed.
End ring.

Section turns.
Context {K : Type} `{!Kernel K} `{!KernelLaws K}.
Implicit Types s : sched K.

Lemma get_proc_run p x s : s_procs s !! p = Some x -> get_proc p s = Ret (x, s).
Proof. intros H. unfold get_proc, mbind, ST_bind, st_get, st_lift. by rewrite H. Qed.

(** The machine is set up for the process at [p]; one without an address space of
    its own runs in that of its predecessor. *)
Definition loaded s (p : Z) : Prop :=
  current_process s = p /\ exists x, s_procs s !! p = Some x /\ (pd_phys x <> 0 -> k_cr3 (s_kernel s) = pd_phys x) /\
    k_esp0 (s_kernel s) = kernel_stack_top x.

(** A switch, also to the null address. *)
Lemma switch_space_run v k : exists k', k_switch_space v k = Ret (tt, k') /\ (v <> 0 -> k_cr3 k' = v) /\ k_esp0 k' = k_esp0 k /\
  (v = 0 -> k' = k).
Proof.
  destruct (decide (v = 0)) as [->|Hv].
  - exists k. by rewrite k_switch_null.
  - destruct (k_switch_ok v k Hv) as (k' & E & Hc & He). exists k'. done.
Qed.

(** Running, with the ring [l] from the current process on. *)
Definition running s (l : list Z) : Prop :=
  s_state s = SCHED_STATE_RUNNING /\ current_process_ticks s = 0 /\ ring (s_procs s) l /\ current_process s = hd 0 l.

(** One timer interrupt. *)
Lemma schedule_run s c l n y r : running s (c :: l) -> s_procs s !! c = Some n -> l ++ [c] = y :: r ->
  exists s' t, schedule s = Ret (tt, s') /\ s_procs s !! y = Some t /\ s_esp s' = kernel_esp t /\
    s_procs s' = <[c := set_kernel_esp (s_esp s) n]> (s_procs s) /\ running s' (y :: r) /\ loaded s' y /\
    process_list s' = process_list s.
Proof.
  intros (Hst & Htk & Hring & Hcur) Hn Hy. cbn [hd] in Hcur.
  destruct (ring_next _ c l n Hring Hn) as (Hn0 & r' & Hr'). rewrite Hy in Hr'. injection Hr' as -> ->.
  assert (Hyin : p_next n ∈ c :: l). { assert (Hy' : p_next n ∈ l ++ [c]) by (rewrite Hy; left). set_solver. }
  destruct (ring_lookup _ _ (p_next n) Hring Hyin) as (Hy0 & t & Ht).
  destruct (ring_lookup _ _ c Hring) as (Hc0 & _); [left|].
  unfold schedule. rewrite (st_bind_Ret _ _ s s s) by done. rewrite bool_decide_eq_false_2 by (rewrite Hst; done).
  rewrite (bool_decide_eq_true_2 _ Hst), Hcur, Htk. destruct (Z.eqb_spec c 0); [done|]. cbn [negb orb].
  change (PROCESS_MAX_TICKS <=? 0 +! 1) with true. cbv iota.
  rewrite (st_bind_Ret _ _ s tt (with_ticks (0 +! 1) s)) by done.
  rewrite (st_bind_Ret _ _ _ tt (with_ticks 0 (with_ticks (0 +! 1) s))) by done.
  rewrite (st_bind_Ret _ _ _ n (with_ticks 0 (with_ticks (0 +! 1) s))) by (by apply get_proc_run).
  destruct (Z.eqb_spec (p_next n) 0); [done|]. unfold context_switch.
  set (s1 := with_current (p_next n) (with_ticks 0 (with_ticks (0 +! 1) s))).
  rewrite (st_bind_Ret _ _ _ tt s1) by done. rewrite (st_bind_Ret _ _ s1 t s1) by (by apply get_proc_run).
  destruct (k_tss_ok (kernel_stack_top t) (s_kernel s)) as (k1 & E1 & Ek1 & _).
  destruct (switch_space_run (pd_phys t) k1) as (k2 & E2 & Ek2 & Ek3 & _).
  rewrite (st_bind_Ret _ _ s1 tt (with_kernel k1 s1)) by (unfold on_kernel; cbn; by rewrite E1).
  rewrite (st_bind_Ret _ _ _ tt (with_kernel k2 s1)) by (unfold on_kernel; cbn; by rewrite E2).
  unfold switch_to_stack. set (s2 := with_kernel k2 s1).
  set (s3 := with_procs (<[c := set_kernel_esp (s_esp s) n]> (s_procs s)) s2).
  rewrite (st_bind_Ret _ _ s2 tt s3).
  2:{ rewrite (st_bind_Ret _ _ s2 s2 s2) by done. by rewrite (st_bind_Ret _ _ s2 n s2) by (by apply get_proc_run). }
  exists (with_esp (kernel_esp t) s3), t. split; [done|]. split; [done|]. split; [done|]. split; [done|].
  assert (Hring' : ring (s_procs s3) (p_next n :: r')).
  { rewrite <- Hy. eapply ring_relabel; [by apply ring_rotate|]. intros x k _ Hk. cbn.
    destruct (decide (x = c)) as [->|Hx]; [|rewrite lookup_insert_ne by done; by exists k].
    rewrite lookup_insert_eq. eexists. split; [done|]. cbn. congruence. }
  split; [by split|]. split; [|done]. split; [done|]. cbn.
  destruct (decide (p_next n = c)) as [E|Hne].
  - rewrite E, lookup_insert_eq. assert (t = n) as -> by congruence. eexists. split; [done|]. cbn. by rewrite Ek3, Ek1.
  - rewrite lookup_insert_ne by done. exists t. split; [done|]. by rewrite Ek3, Ek1.
Qed.

(** *** Turns

    Each process runs until the next timer interrupt finds the kernel stack
    pointer at one of [es]. *)
Fixpoint turns (es : list Z) : ST (sched K) unit :=
  match es with
  | [] => mret tt
  | e :: es => st_modify (with_esp e);; schedule;; turns es
  end.

Lemma running_esp s l e : running s l -> running (with_esp e s) l.
Proof. by intros (? & ? & ? & ?). Qed.

(** The processes [b] have had their turns, in order; each one's stack pointer
    is saved, and no other process has changed. *)
Lemma turns_run b : forall a es s, b <> [] -> (2 <= length (b ++ a))%nat -> running s (b ++ a) -> length es = length b ->
  exists s', turns es s = Ret (tt, s') /\ running s' (a ++ b) /\ loaded s' (hd 0 (a ++ b)) /\
    (forall p, p ∉ b -> s_procs s' !! p = s_procs s !! p) /\
    (forall i p e x, b !! i = Some p -> es !! i = Some e -> s_procs s !! p = Some x ->
       s_procs s' !! p = Some (set_kernel_esp e x)) /\
    (exists t, s_procs s' !! hd 0 (a ++ b) = Some t /\ s_esp s' = kernel_esp t) /\ process_list s' = process_list s.
Proof.
  induction b as [|c b IH]; intros a es s Hb Hlen Hrun Hes; [done|]. destruct es as [|e es]; [done|].
  injection Hes as Hes. cbn [turns]. rewrite (st_bind_Ret _ _ s tt (with_esp e s)) by done.
  pose proof (running_esp s _ e Hrun) as Hrun1. cbn [app] in Hrun1.
  assert (Hd : NoDup (c :: b ++ a)) by (destruct Hrun as (_ & _ & Hr & _); by destruct Hr).
  destruct (ring_lookup (s_procs s) (c :: b ++ a) c) as (_ & n & Hn); [by destruct Hrun as (_ & _ & ? & _)|left|].
  destruct ((b ++ a) ++ [c]) as [|y r] eqn:Ey; [by destruct (b ++ a)|].
  destruct (schedule_run (with_esp e s) c (b ++ a) n y r Hrun1 Hn Ey) as (s1 & t & H1 & Ht & He & Hp & Hr1 & Hld & Hpl).
  rewrite (st_bind_Ret _ _ _ _ _ H1). cbn [s_procs with_esp s_esp process_list] in *.
  apply list.NoDup_cons in Hd as [Hcin Hd]. rewrite <- Ey, <- app_assoc in Hr1.
  destruct b as [|c2 b].
  - destruct es; [|done]. cbn [app] in *. assert (Ehd : hd 0 (a ++ [c]) = y) by (by rewrite Ey).
    assert (Hyc : y <> c). { destruct a as [|y' a]; [cbn in Hlen; lia|]. injection Ey as <- _. set_solver. }
    exists s1. split; [done|]. split; [done|]. rewrite Ehd. split; [done|]. split; [|split; [|split; [|done]]].
    + intros p Hpn. rewrite Hp, lookup_insert_ne by set_solver. done.
    + intros [|i] p e' x; cbn; [|done]. intros [= <-] [= <-] Hx. rewrite Hp, lookup_insert_eq. congruence.
    + exists t. by rewrite Hp, lookup_insert_ne.
  - destruct (IH (a ++ [c]) es s1) as (s' & H' & Hr' & Hld' & Ho & Hs & Ht' & Hpl'); [done| |done|done|].
    { rewrite !length_app in *. cbn in *. lia. }
    rewrite <- app_assoc in Hr', Hld', Ht'. cbn [app] in Hr', Hld', Ht'.
    exists s'. split; [done|]. split; [done|]. split; [done|]. split; [|split; [|split; [done|congruence]]].
    + intros p Hpn. apply not_elem_of_cons in Hpn as [Hpc Hpn]. rewrite (Ho p Hpn), Hp, lookup_insert_ne by done. done.
    + intros [|i] p e' x; cbn [lookup list_lookup].
      * intros [= <-] [= <-] Hx. rewrite (Ho c) by set_solver. rewrite Hp, lookup_insert_eq. congruence.
      * intros Hi Hei Hx. apply (Hs i p e' x Hi Hei). rewrite Hp, lookup_insert_ne; [done|].
        intros <-. apply Hcin. apply elem_of_app. left. by eapply list_elem_of_lookup_2.
Qed.

(** (C6) Round robin: with two or more processes, the timer interrupts make
    the processes current in the order of the ring, one per interrupt and each
    with its own kernel stack, and its own address space if it has one, loaded, so
    that every process
    runs within one round; after the round the first one is current again, and the
    kernel resumes it with the very stack pointer it was interrupted with,
    whatever the others did on theirs. *)
Theorem schedule_round_robin s c l e es : running s (c :: l) -> l <> [] -> length es = length l ->
  (forall j p, 0 < Z.of_nat j -> (c :: l) !! j = Some p ->
     exists sj, turns (take j (e :: es)) s = Ret (tt, sj) /\ loaded sj p) /\
  exists s', turns (e :: es) s = Ret (tt, s') /\ running s' (c :: l) /\ loaded s' c /\ s_esp s' = e.
Proof.
  intros Hrun Hl Hes. split.
  - intros j p Hj Hp. pose proof (lookup_lt_Some _ _ _ Hp) as Hlt. cbn [length] in Hlt.
    destruct (turns_run (take j (c :: l)) (drop j (c :: l)) (take j (e :: es)) s) as (s' & H & _ & Hld & _).
    + destruct j; [lia|done].
    + rewrite take_drop. destruct l; [done|cbn; lia].
    + by rewrite take_drop.
    + rewrite !length_take. cbn. lia.
    + exists s'. split; [done|]. rewrite (drop_S (c :: l) p j Hp) in Hld. exact Hld.
  - destruct (turns_run (c :: l) [] (e :: es) s) as (s' & H & Hr & Hld & _ & Hs & (t & Ht & He) & _); [done| | |cbn; lia|].
    + rewrite app_nil_r. destruct l; [done|cbn; lia].
    + by rewrite app_nil_r.
    + exists s'. split; [done|]. split; [done|]. split; [done|]. cbn [app hd] in Ht.
      destruct (ring_lookup (s_procs s) (c :: l) c) as (_ & n & Hn); [by destruct Hrun as (_ & _ & ? & _)|left|].
      rewrite (Hs 0%nat c e n eq_refl eq_refl Hn) in Ht. injection Ht as <-. exact He.
Qed.

(** A single process is not resumed correctly: the stack pointer to load
    is read before the current one is saved in the same structure, so the
    interrupt leaves the kernel on the stack pointer saved at the last switch,
    not on the one of the interrupted code. *)
Theorem schedule_alone_stale_stack s c n : running s [c] -> s_procs s !! c = Some n ->
  exists s', schedule s = Ret (tt, s') /\ current_process s' = c /\ s_esp s' = kernel_esp n.
Proof.
  intros Hrun Hn. destruct (schedule_run s c [] n c [] Hrun Hn eq_refl) as (s' & t & H & Ht & He & _ & _ & [Hc _] & _).
  exists s'. split; [done|]. split; [done|]. congruence.
Qed.

(** ** The process queue *)

(** The queue [l]: its first process is the head of the ring. *)
Definition queue s (l : list Z) : Prop :=
  process_list s = hd 0 l /\ (l = [] \/ ring (s_procs s) l).

(** The walk ends at the first process linked to one of the two it looks for. *)
Lemma find_before_run proc head a : forall fuel p q r s, seg (s_procs s) p (a ++ [q]) r -> r = proc \/ r = head ->
  (proc ∉ tail (a ++ [q])) -> (head ∉ tail (a ++ [q])) -> (length a < fuel)%nat ->
  find_before fuel proc head p s = Ret (q, s).
Proof.
  induction a as [|x a IH]; intros [|fuel] p q r s Hseg Hr Hp Hh Hf; cbn in Hf; try lia; cbn [find_before];
    destruct Hseg as (-> & Hx & n & Hn & Hseg); rewrite (st_bind_Ret _ _ s n s) by (by apply get_proc_run).
  - cbn in Hseg. rewrite Hseg. rewrite (proj2 (orb_true_iff _ _)); [done|]. rewrite !Z.eqb_eq. naive_solver.
  - cbn [app tail] in Hp, Hh. assert (Hin : p_next n ∈ a ++ [q]) by (destruct a; cbn in *; destruct Hseg as [-> _]; left).
    destruct (Z.eqb_spec (p_next n) proc); [congruence|]. destruct (Z.eqb_spec (p_next n) head); [congruence|].
    cbn [orb]. eapply IH; [exact Hseg|done| | |lia]; intros Ht; [apply Hp|apply Hh]; destruct a; cbn in *; set_solver.
Qed.

Lemma find_last_before fuel head : forall p s, find_last fuel head p s = find_before fuel head head p s.
Proof.
  induction fuel as [|fuel IH]; intros p s; [done|]. cbn. apply st_bind_ext. intros x s'.
  rewrite orb_diag. by case_match.
Qed.

Lemma ring_snoc l m : ring m l -> exists a q, l = a ++ [q].
Proof. destruct l as [|q a _] using rev_ind; [done|]. by exists a, q. Qed.

(** The list starts with [h]; none of its processes but the first is [h]. *)
Lemma NoDup_tail_hd (h : Z) l : NoDup l -> hd 0 l = h -> (h ∉ tail l).
Proof. destruct l as [|x l]; cbn; [set_solver|]. intros [? _]%list.NoDup_cons ->. done. Qed.

Lemma add_process_run s l proc x : queue s l -> proc <> 0 -> proc ∉ l -> s_procs s !! proc = Some x ->
  exists m, scheduler_add_process proc s = Ret (tt, with_procs m (with_list (hd proc l) s)) /\ ring m (l ++ [proc]) /\
    m !! proc = Some (set_next (hd proc l) x).
Proof.
  intros [Hh Hl] Hp0 Hpl Hx. unfold scheduler_add_process. rewrite (st_bind_Ret _ _ s s s) by done.
  destruct Hl as [-> | Hring].
  - rewrite Hh. cbn [hd Z.eqb]. rewrite (st_bind_Ret _ _ s tt (with_list proc s)) by done.
    rewrite (st_bind_Ret _ _ (with_list proc s) x (with_list proc s)) by (by apply get_proc_run).
    eexists. split; [reflexivity|]. cbn. rewrite lookup_insert_eq. split; [|done]. split; [|apply NoDup_singleton].
    by eauto 10.
  - destruct (ring_snoc _ _ Hring) as (a & q & ->). pose proof (ring_length _ _ Hring) as Hlen.
    destruct (ring_lookup _ _ q Hring) as (Hq0 & y & Hy); [set_solver|].
    assert (Ehd : hd proc (a ++ [q]) = process_list s) by (rewrite Hh; by destruct a). rewrite Ehd.
    destruct (ring_elim _ _ Hring) as (_ & Hseg & Hnd). rewrite <- Hh in Hseg.
    assert (Hh0 : process_list s <> 0).
    { destruct (ring_lookup _ _ (process_list s) Hring) as [? _]; [rewrite Hh; destruct a; left|done]. }
    destruct (Z.eqb_spec (process_list s) 0); [done|]. rewrite (st_bind_Ret _ _ s q s).
    2:{ rewrite find_last_before. eapply find_before_run; [exact Hseg|by left| | |];
          try (by apply NoDup_tail_hd). rewrite length_app in Hlen. cbn [length] in Hlen.
        change (base.size (s_procs s)) with (map_size (s_procs s)) in Hlen. lia. }
    rewrite (st_bind_Ret _ _ s y s) by (by apply get_proc_run).
    set (s1 := with_procs (<[q := set_next proc y]> (s_procs s)) s).
    rewrite (st_bind_Ret _ _ s tt s1) by done. rewrite (st_bind_Ret _ _ s1 x s1).
    2:{ apply get_proc_run. cbn. rewrite lookup_insert_ne by set_solver. done. }
    exists (<[proc := set_next (process_list s) x]> (s_procs s1)). split; [by destruct s|].
    assert (Hqa : q ∉ a) by (apply list.NoDup_app in Hnd; set_solver).
    assert (Hseg' : seg (<[proc := set_next (process_list s) x]> (s_procs s1)) (process_list s) ((a ++ [q]) ++ [proc])
                      (process_list s)).
    { apply seg_app. exists proc. split.
      - apply seg_insert; [|done]. cbn. by eapply seg_relink.
      - cbn. rewrite lookup_insert_eq. by eauto 10. }
    assert (Hnd' : NoDup ((a ++ [q]) ++ [proc])).
    { apply list.NoDup_app. split; [done|]. split; [set_solver|apply NoDup_singleton]. }
    split; [|by rewrite lookup_insert_eq]. eapply ring_intro; [exact Hseg'|by destruct a|done].
Qed.

Lemma filter_id (P : Z -> Prop) `{!forall x, Decision (P x)} (l : list Z) : (forall x, x ∈ l -> P x) -> filter P l = l.
Proof.
  induction l as [|x l IH]; intros Hp; [done|]. rewrite filter_cons_True by (apply Hp; left). f_equal. apply IH.
  intros y Hy. apply Hp. by right.
Qed.

(** A process out of the list. *)
Definition without (proc : Z) (l : list Z) : list Z := filter (fun p => p <> proc) l.

Lemma without_split proc a b : NoDup (a ++ proc :: b) ->
  without proc (a ++ proc :: b) = a ++ b /\ NoDup (a ++ b) /\ (proc ∉ a) /\ (proc ∉ b).
Proof.
  intros (Ha & Hd & [Hp Hb]%list.NoDup_cons)%list.NoDup_app. assert (Hpa : proc ∉ a) by set_solver.
  unfold without. rewrite list.filter_app, filter_cons_False by tauto.
  rewrite !filter_id by (intros y Hy <-; set_solver). split; [done|]. split; [|done].
  apply list.NoDup_app. split; [done|]. split; [set_solver|done].
Qed.

(** What the walk of [process_exit] finds, and the ring after the link over it. *)
Lemma exit_unlink s l proc x : process_list s = hd 0 l -> ring (s_procs s) l -> proc ∈ l -> l <> [proc] ->
  s_procs s !! proc = Some x ->
  p_next x <> proc /\ exists q y,
    find_before (S (map_size (s_procs s))) proc (process_list s) (process_list s) s = Ret (q, s) /\
    s_procs s !! q = Some y /\ p_next y = proc /\ q <> proc /\
    ring (<[q := set_next (p_next x) y]> (s_procs s)) (without proc l) /\
    hd 0 (without proc l) = (if process_list s =? proc then p_next x else process_list s).
Proof.
  intros Hh Hring Hin Hl Hx. destruct (ring_elim _ _ Hring) as (_ & Hseg & Hnd). rewrite <- Hh in Hseg.
  pose proof (ring_length _ _ Hring) as Hlen. change (base.size (s_procs s)) with (map_size (s_procs s)) in Hlen.
  apply list_elem_of_split in Hin as (a & b & ->). destruct (without_split proc a b Hnd) as (-> & Hnd' & Hpa & Hpb).
  pose proof (NoDup_tail_hd _ _ Hnd (eq_sym Hh)) as Hhd. rewrite length_app in Hlen.
  destruct a as [|q a _] using rev_ind.
  - cbn [app hd] in *. destruct b as [|q b _] using rev_ind; [done|]. rewrite Hh in *. destruct Hseg as (_ & Hp0 & x' & Hx' & Hseg).
    assert (x' = x) as -> by congruence. destruct (seg_last _ _ _ _ _ Hseg) as (Hq0 & y & Hy & Ey).
    assert (Hne : p_next x <> proc).
    { intros E. apply Hpb. rewrite <- E. destruct b; cbn in *; destruct Hseg as [-> _]; left. }
    assert (Hhd' : hd 0 (b ++ [q]) = p_next x) by (destruct b; cbn in *; by destruct Hseg as [-> _]).
    split; [done|]. exists q, y. split.
    { eapply (find_before_run _ _ (proc :: b)); [|left; reflexivity|done|done|cbn in *; rewrite length_app in Hlen; lia].
      split; [done|]. split; [done|]. exists x. split; [done|]. exact Hseg. }
    split; [done|]. split; [done|]. split; [set_solver|]. rewrite Z.eqb_refl. split; [|done].
    eapply ring_intro; [|by destruct b|done]. eapply seg_relink; [exact Hseg|done|].
    apply list.NoDup_app in Hnd'. set_solver.
  - destruct (seg_app (s_procs s) (process_list s) (a ++ [q]) (proc :: b) (process_list s)) as [Hs _].
    destruct (Hs Hseg) as (r & Hs1 & Hs2). destruct Hs2 as (-> & Hp0 & x' & Hx' & Hs2). assert (x' = x) as -> by congruence.
    destruct (seg_last _ _ _ _ _ Hs1) as (Hq0 & y & Hy & Ey).
    assert (Hhp : process_list s <> proc) by (rewrite Hh; destruct a; cbn in *; set_solver).
    assert (Hne : p_next x <> proc) by (destruct b; cbn in *; [congruence|destruct Hs2 as [-> _]; set_solver]).
    split; [done|]. exists q, y. split.
    { eapply (find_before_run _ _ a); [exact Hs1|by left| | |rewrite length_app in Hlen; lia];
        [destruct a; cbn in *; set_solver|]. destruct a; cbn in *; set_solver. }
    split; [done|]. split; [done|]. split; [set_solver|]. destruct (Z.eqb_spec (process_list s) proc); [done|].
    split; [|rewrite Hh; by destruct a]. eapply ring_intro; [|by destruct a|done]. apply seg_app. exists (p_next x).
    assert ((q ∉ a) /\ (q ∉ b)) as [Hqa Hqb]. { rewrite <- app_assoc in Hnd'. apply list.NoDup_app in Hnd' as (_ & Hq1 & Hq2).
      cbn in Hq2. apply list.NoDup_cons in Hq2. set_solver. }
    split; [by eapply seg_relink|by apply seg_insert].
Qed.

Lemma exit_run s l proc x : process_list s = hd 0 l -> ring (s_procs s) l -> proc ∈ l -> l <> [proc] ->
  s_procs s !! proc = Some x ->
  exists s1, ring (s_procs s1) (without proc l) /\ process_list s1 = hd 0 (without proc l) /\
    current_process s1 = current_process s /\ s_kernel s1 = s_kernel s /\ s_procs s1 !! proc = Some x /\
    process_exit proc s = (if proc =? current_process s1 then
        (st_modify (with_current (process_list s1));;
         t ← get_proc (process_list s1);
         on_kernel (k_tss_set_stack (kernel_stack_top t));;
         on_kernel (k_switch_space (pd_phys t));;
         switch_to_stack None (kernel_esp t)) s1
      else
        (on_kernel (k_destroy_space (pd_phys x));;
         on_kernel (k_kfree (kernel_stack_base x));;
         on_kernel (k_kfree proc);;
         st_modify (fun s => with_procs (delete proc (s_procs s)) s)) s1).
Proof.
  intros Hh Hring Hin Hl Hx. destruct (exit_unlink s l proc x Hh Hring Hin Hl Hx) as (Hne & q & y & Hf & Hy & Ey & Hqp & Hr & Hhd).
  set (s0 := with_procs (<[q := set_next (p_next x) y]> (s_procs s)) s).
  assert (Hx0 : s_procs s0 !! proc = Some x) by (cbn; by rewrite lookup_insert_ne).
  exists (if process_list s =? proc then with_list (p_next x) s0 else s0).
  unfold process_exit. rewrite (st_bind_Ret _ _ s x s) by (by apply get_proc_run).
  destruct (Z.eqb_spec (p_next x) proc) as [|_]; [done|]. rewrite (st_bind_Ret _ _ s s s) by done.
  rewrite (st_bind_Ret _ _ s q s Hf). rewrite (st_bind_Ret _ _ s y s) by (by apply get_proc_run).
  rewrite Ey, Z.eqb_refl. cbn [when].
  rewrite (st_bind_Ret _ _ s tt (if process_list s =? proc then with_list (p_next x) s0 else s0)).
  2:{ rewrite (st_bind_Ret _ _ s tt s0) by done. unfold move_head. rewrite (st_bind_Ret _ _ s0 s0 s0) by done.
      rewrite (st_bind_Ret _ _ s0 x s0) by (by apply get_proc_run). change (process_list s0) with (process_list s).
      by destruct (process_list s =? proc). }
  destruct (Z.eqb_spec (process_list s) proc) as [E|E]; do 5 (split; [done|]); rewrite (st_bind_Ret _ _ _ _ _ eq_refl);
    by destruct (proc =? _).
Qed.

Lemma exit_last_run s proc x : queue s [proc] -> s_procs s !! proc = Some x -> process_exit proc s = Diverge.
Proof.
  intros [_ [?|Hring]] Hx; [done|]. destruct (ring_elim _ _ Hring) as (_ & Hseg & _).
  destruct Hseg as (_ & _ & x' & Hx' & Hn). assert (x' = x) as -> by congruence. cbn in Hn.
  unfold process_exit. rewrite (st_bind_Ret _ _ s x s) by (by apply get_proc_run). by rewrite Hn, Z.eqb_refl.
Qed.

Lemma exit_current_run s l proc x : queue s l -> s_procs s !! proc = Some x -> proc ∈ l -> l <> [proc] ->
  current_process s = proc ->
  exists s' t, process_exit proc s = Ret (tt, s') /\ queue s' (without proc l) /\
    loaded s' (hd 0 (without proc l)) /\ s_procs s' !! hd 0 (without proc l) = Some t /\ s_esp s' = kernel_esp t /\
    s_procs s' !! proc = Some x.
Proof.
  intros [Hh Hl] Hx Hin Hne Hc. destruct Hl as [->|Hring]; [by apply elem_of_nil in Hin|].
  destruct (exit_run s l proc x Hh Hring Hin Hne Hx) as (s1 & Hr1 & Hl1 & Hc1 & Hk1 & Hx1 & ->).
  rewrite Hc1, Hc, Z.eqb_refl. rewrite (st_bind_Ret _ _ s1 tt (with_current (process_list s1) s1)) by done.
  destruct (ring_elim _ _ Hr1) as (Hne1 & _). assert (Hhin : process_list s1 ∈ without proc l).
  { rewrite Hl1. destruct (without proc l); [done|left]. }
  destruct (ring_lookup _ _ _ Hr1 Hhin) as (_ & t & Ht). set (s2 := with_current (process_list s1) s1).
  rewrite (st_bind_Ret _ _ s2 t s2) by (by apply get_proc_run).
  destruct (k_tss_ok (kernel_stack_top t) (s_kernel s2)) as (k1 & E1 & Ek1 & _).
  destruct (switch_space_run (pd_phys t) k1) as (k2 & E2 & Ek2 & Ek3 & _).
  rewrite (st_bind_Ret _ _ s2 tt (with_kernel k1 s2)) by (unfold on_kernel; by rewrite E1).
  rewrite (st_bind_Ret _ _ _ tt (with_kernel k2 s2)) by (unfold on_kernel; cbn; by rewrite E2).
  eexists _, t. split; [reflexivity|]. rewrite <- Hl1. split; [by split; [|right]|]. split; [|done].
  split; [done|]. exists t. cbn. by rewrite Ek3, Ek1.
Qed.

(** What [process_exit] has the kernel do for a process that is not current. *)
Definition exit_calls (x : process) (proc : Z) : ST K unit :=
  k_destroy_space (pd_phys x);; k_kfree (kernel_stack_base x);; k_kfree proc.

Lemma exit_calls_run x proc s : 
  (on_kernel (k_destroy_space (pd_phys x));; on_kernel (k_kfree (kernel_stack_base x));; on_kernel (k_kfree proc);;
   st_modify (fun s => with_procs (delete proc (s_procs s)) s)) s =
  match exit_calls x proc (s_kernel s) with
  | Ret (_, k) => Ret (tt, with_procs (delete proc (s_procs s)) (with_kernel k s))
  | Fault => Fault
  | Diverge => Diverge
  end.
Proof.
  unfold exit_calls, mbind, ST_bind, on_kernel.
  destruct (k_destroy_space (pd_phys x) (s_kernel s)) as [[[] ka]| |]; [|done|done]. cbn.
  destruct (k_kfree (kernel_stack_base x) ka) as [[[] kb]| |]; [|done|done]. cbn.
  by destruct (k_kfree proc kb) as [[[] kc]| |].
Qed.

Lemma exit_other_run s l proc x : queue s l -> s_procs s !! proc = Some x -> proc ∈ l -> l <> [proc] ->
  current_process s <> proc ->
  match exit_calls x proc (s_kernel s) with
  | Ret (_, k) => exists s', process_exit proc s = Ret (tt, s') /\ queue s' (without proc l) /\
      current_process s' = current_process s /\ s_procs s' !! proc = None /\ s_kernel s' = k
  | Fault => process_exit proc s = Fault
  | Diverge => process_exit proc s = Diverge
  end.
Proof.
  intros [Hh Hl] Hx Hin Hne Hc. destruct Hl as [->|Hring]; [by apply elem_of_nil in Hin|].
  destruct (exit_run s l proc x Hh Hring Hin Hne Hx) as (s1 & Hr1 & Hl1 & Hc1 & Hk1 & Hx1 & ->).
  rewrite Hc1. destruct (Z.eqb_spec proc (current_process s)) as [|_]; [congruence|].
  rewrite exit_calls_run, Hk1. destruct (exit_calls x proc (s_kernel s)) as [[[] k]| |]; [|done|done].
  eexists. split; [reflexivity|]. cbn. rewrite lookup_delete_eq. split; [|done]. split; [done|]. right. cbn.
  eapply ring_relabel; [exact Hr1|]. intros z n Hz Hn. exists n. rewrite lookup_delete_ne; [done|].
  intros ->. by apply list_elem_of_filter in Hz as [? _].
Qed.

(** (C23) The queue of processes refines a list: adding a process puts it at
    the end.  The exit of the only process halts; that of another takes out
    exactly that process.  When it is the current one, the process at the head
    of the queue (not the next one in the ring) goes on, on its own stack and
    address space, and the structure of the exiting one is not freed.  Otherwise
    the process is unlinked and its address space, kernel stack and structure are
    given back: when these kernel calls return, the current process stays and the
    structure is gone, and when they fault or never end, so does the exit. *)
Theorem process_queue_refines s l proc x : queue s l -> proc <> 0 -> s_procs s !! proc = Some x ->
  (proc ∉ l -> exists s', scheduler_add_process proc s = Ret (tt, s') /\ queue s' (l ++ [proc]) /\
     current_process s' = current_process s) /\
  (l = [proc] -> process_exit proc s = Diverge) /\
  (proc ∈ l -> l <> [proc] -> current_process s = proc ->
     exists s' t, process_exit proc s = Ret (tt, s') /\ queue s' (without proc l) /\
       loaded s' (hd 0 (without proc l)) /\ s_procs s' !! hd 0 (without proc l) = Some t /\ s_esp s' = kernel_esp t /\
       s_procs s' !! proc = Some x) /\
  (proc ∈ l -> l <> [proc] -> current_process s <> proc ->
     match exit_calls x proc (s_kernel s) with
     | Ret (_, k) => exists s', process_exit proc s = Ret (tt, s') /\ queue s' (without proc l) /\
         current_process s' = current_process s /\ s_procs s' !! proc = None /\ s_kernel s' = k
     | Fault => process_exit proc s = Fault
     | Diverge => process_exit proc s = Diverge
     end).
Proof.
  intros Hq Hp0 Hx. split; [|split; [|split]].
  - intros Hpl. destruct (add_process_run s l proc x Hq Hp0 Hpl Hx) as (m & Hrun & Hring & _).
    eexists. split; [exact Hrun|]. split; [|done]. split; [|by right]. cbn. by destruct l.
  - intros ->. by eapply exit_last_run.
  - intros Hin Hne Hc. by eapply exit_current_run.
  - intros Hin Hne Hc. by apply exit_other_run.
Qed.
End turns.

(** ** Witnesses *)
Ltac prove_ring := split; [cbn; repeat (split; [done|]); repeat (eexists; split; [reflexivity|]; repeat (split; [done|])); done
  |repeat constructor; set_solver].

Lemma schedule_alone_stale_stack_witness :
  exists s', schedule (box_sched [(1, 1)] 1) = Ret (tt, s') /\ s_esp s' = 0xD0000000 + 0x2000 + 100 /\
    s_esp (box_sched [(1, 1)] 1) <> s_esp s'.
Proof.
  destruct (schedule_alone_stale_stack (box_sched [(1, 1)] 1) 1 (box_proc 1 1)) as (s' & H & _ & He).
  - split; [done|]. split; [done|]. split; [|done]. prove_ring.
  - done.
  - exists s'. rewrite He. done.
Defined.

Lemma process_queue_refines_witness :
  (exists s', scheduler_add_process 4 (box_sched [(1, 2); (2, 3); (3, 1); (4, 0)] 2) = Ret (tt, s') /\
     queue s' [1; 2; 3; 4]) /\
  (exists s', process_exit 2 (box_sched [(1, 2); (2, 3); (3, 1)] 2) = Ret (tt, s') /\ queue s' [1; 3] /\ loaded s' 1) /\
  (exists s', process_exit 1 (box_sched [(1, 2); (2, 3); (3, 1)] 2) = Ret (tt, s') /\ queue s' [2; 3] /\
     s_procs s' !! 1 = None) /\
  process_exit 1 (box_sched [(1, 1)] 1) = Diverge.
Proof.
  split; [|split; [|split]].
  - destruct (process_queue_refines (box_sched [(1, 2); (2, 3); (3, 1); (4, 0)] 2) [1; 2; 3] 4 (box_proc 4 0))
      as (H & _); [split; [done|right; prove_ring]|done|done|]. destruct H as (s' & H & Hq & _); [set_solver|]. exists s'. split; [exact H|exact Hq].
  - destruct (process_queue_refines (box_sched [(1, 2); (2, 3); (3, 1)] 2) [1; 2; 3] 2 (box_proc 2 3))
      as (_ & _ & H & _); [split; [done|right; prove_ring]|done|done|].
    destruct H as (s' & t & H & Hq & Hl & _); [set_solver|done|done|]. exists s'.
    split; [exact H|]. split; [exact Hq|exact Hl].
  - destruct (process_queue_refines (box_sched [(1, 2); (2, 3); (3, 1)] 2) [1; 2; 3] 1 (box_proc 1 2))
      as (_ & _ & _ & H); [split; [done|right; prove_ring]|done|done|].
    destruct H as (s' & H & Hq & _ & Hn & _); [set_solver|done|done|]. exists s'.
    split; [exact H|]. split; [exact Hq|exact Hn].
  - destruct (process_queue_refines (box_sched [(1, 1)] 1) [1] 1 (box_proc 1 1))
      as (_ & H & _); [split; [done|right; prove_ring]|done|done|]. by apply H.
Defined.
