(* ===== verification/ProcessProof.v ===== *)
(** * New processes (src/src/kernel/scheduler/scheduler.c)

    [process_init] and what the first switch to a new process does.  Memory may run
    out and the memory manager may fault: what happens is stated by the outcome of
    the kernel calls the code makes. *)

From S2P Require Import Prelude Interrupts Scheduler Machine SchedulerProof.

Section start.
Context {K : Type} `{!Kernel K} `{!KernelLaws K} `{!KernelWords K} (fork_ret_fn : Z).
Implicit Types s : sched K.

Lemma on_kernel_run {B} (c : ST K B) s b k : c (s_kernel s) = Ret (b, k) -> on_kernel c s = Ret (b, with_kernel k s).
Proof. intros E. unfold on_kernel. by rewrite E. Qed.

(** A sequence of kernel calls is a kernel call. *)
Lemma on_kernel_bind {B C} (c : ST K B) (f : B -> ST K C) s :
  on_kernel (b ← c; f b) s = (b ← on_kernel c; on_kernel (f b)) s.
Proof. unfold on_kernel, mbind, ST_bind. by destruct (c (s_kernel s)) as [[b k]| |]. Qed.

Lemma update_proc_run p f s x : s_procs s !! p = Some x ->
  update_proc p f s = Ret (tt, with_procs (<[p := f x]> (s_procs s)) s).
Proof. intros H. unfold update_proc. by rewrite (st_bind_Ret _ _ s x s) by (by apply get_proc_run). Qed.

Lemma k_keeps_refl k : k_keeps k k.
Proof. by split. Qed.

Lemma k_keeps_trans k1 k2 k3 : k_keeps k1 k2 -> k_keeps k2 k3 -> k_keeps k1 k3.
Proof.
  intros [E1 H1] [E2 H2]. split; [congruence|]. intros a. by rewrite H2.
Qed.

(** *** The address space and the user stack *)

(** [alloc_stack_pages], as kernel calls. *)
Fixpoint stack_pages (n : nat) (i : Z) : ST K bool :=
  match n with
  | O => mret true
  | S n =>
      ok ← k_alloc_user_page (PROCESS_STACK_TOP - 4096 * (i + 1));
      if (ok : bool) then stack_pages n (i + 1) else mret false
  end.

(** The kernel calls of [process_init] after the kernel stack: a new address space
    and, in it, the pages below the top of the user stack. *)
Definition make_space : ST K (Z * bool) :=
  pd ← k_create_space;
  old_cr3 ← k_read_cr3;
  k_switch_space pd;;
  ok ← stack_pages 4 0;
  k_switch_space old_cr3;;
  mret (pd, ok).

Lemma stack_page i : 0 <= i < 4 -> PROCESS_STACK_TOP -! (i + 1) *! PAGE_SIZE = PROCESS_STACK_TOP - 4096 * (i + 1).
Proof. unfold u32, PROCESS_STACK_TOP, PAGE_SIZE. intros Hi. zlia. Qed.

Lemma alloc_stack_pages_calls n : forall i s, 0 <= i -> i + Z.of_nat n <= 4 ->
  alloc_stack_pages n i s = on_kernel (stack_pages n i) s.
Proof.
  induction n as [|n IH]; intros i s Hi Hn; [by destruct s|]. cbn [alloc_stack_pages stack_pages].
  rewrite stack_page by lia. rewrite on_kernel_bind. unfold mbind, ST_bind.
  destruct (on_kernel (k_alloc_user_page _) s) as [[[] s1]| |]; [apply IH; lia|by destruct s1|done|done].
Qed.

Lemma stack_pages_keeps n : forall i k b k', stack_pages n i k = Ret (b, k') -> k_keeps k k'.
Proof.
  induction n as [|n IH]; intros i k b k' E; cbn [stack_pages] in E; [injection E as _ <-; apply k_keeps_refl|].
  apply st_bind_inv in E as (ok & k1 & E1 & E). apply kw_page in E1. destruct ok; [|by injection E as _ <-].
  eapply k_keeps_trans; [exact E1|by eapply IH].
Qed.

(** The address space of the caller is restored, and the kernel memory is kept. *)
Lemma make_space_keeps k pd ok k' : k_cr3 k <> 0 -> make_space k = Ret ((pd, ok), k') -> k_keeps k k'.
Proof.
  intros Hc E. unfold make_space in E. apply st_bind_inv in E as (pd' & k1 & E1 & E). apply kw_create in E1 as [C1 W1].
  rewrite (st_bind_Ret _ _ _ _ _ (kw_read_cr3 k1)) in E. apply st_bind_inv in E as ([] & k2 & E2 & E).
  apply st_bind_inv in E as (b & k3 & [_ W3]%stack_pages_keeps & E). apply st_bind_inv in E as ([] & k4 & E4 & E).
  injection E as -> -> <-. destruct (k_switch_ok (k_cr3 k1) k3) as (k4' & E4' & C4 & _); [congruence|].
  rewrite E4 in E4'. injection E4' as <-. split; [congruence|]. intros a.
  by rewrite (kw_switch _ _ _ E4), W3, (kw_switch _ _ _ E2), W1.
Qed.

(** *** The kernel stack *)
Lemma store_words_run ws : forall a s, 0 <= a -> a + 4 * Z.of_nat (length ws) < 2 ^ 32 ->
  (forall i, 0 <= i < Z.of_nat (length ws) -> is_Some (k_word (s_kernel s) (a + 4 * i))) ->
  exists k, store_words a ws s = Ret (tt, with_kernel k s) /\ k_cr3 k = k_cr3 (s_kernel s) /\
    (forall i w, ws !! i = Some w -> k_word k (a + 4 * Z.of_nat i) = Some w) /\
    (forall b, b < a -> k_word k b = k_word (s_kernel s) b).
Proof.
  induction ws as [|w ws IH]; intros a s Ha Hlt Hmap.
  - exists (s_kernel s). split; [by destruct s|]. done.
  - cbn [length] in *. cbn [store_words]. destruct (kw_store a w (s_kernel s)) as (k & E & Ec & Hw).
    { specialize (Hmap 0). rewrite Z.mul_0_r, Z.add_0_r in Hmap. apply Hmap. lia. }
    rewrite (st_bind_Ret _ _ _ _ _ (on_kernel_run _ s tt k E)). rewrite u32_small by (unfold is_u32; lia).
    destruct (IH (a + 4) (with_kernel k s)) as (k' & E' & Ec' & Hi & Ho); [lia|lia| |].
    { intros i Hi. cbn. rewrite Hw. case_decide; [done|]. replace (a + 4 + 4 * i) with (a + 4 * (i + 1)) by lia.
      apply Hmap. lia. }
    exists k'. split; [exact E'|]. cbn in *. split; [congruence|]. split.
    + intros [|i] w' Hi'; cbn in Hi'.
      * injection Hi' as <-. rewrite Z.add_0_r, Ho by lia. rewrite Hw. by case_decide.
      * rewrite <- (Hi i w' Hi'). f_equal. lia.
    + intros b Hb. rewrite Ho by lia. rewrite Hw. case_decide; [lia|done].
Qed.

Lemma load_words_run ws : forall a s, 0 <= a -> a + 4 * Z.of_nat (length ws) < 2 ^ 32 ->
  (forall i w, ws !! i = Some w -> k_word (s_kernel s) (a + 4 * Z.of_nat i) = Some w) ->
  load_words (length ws) a s = Ret (ws, s).
Proof.
  induction ws as [|w ws IH]; intros a s Ha Hlt Hw; [done|]. cbn [length load_words] in *.
  rewrite (st_bind_Ret _ _ s w s).
  2:{ rewrite (on_kernel_run _ s w (s_kernel s)); [by destruct s|]. apply kw_load. rewrite <- (Hw 0%nat w eq_refl). f_equal. lia. }
  rewrite u32_small by (unfold is_u32; lia). rewrite (st_bind_Ret _ _ s ws s); [done|]. apply IH; [lia|lia|].
  intros i w' Hi. rewrite <- (Hw (S i) w' Hi). f_equal. lia.
Qed.

(** The registers a new process starts with. *)
Definition start_regs (entry : Z) : user_regs :=
  {| r_gs := GDT_USER_DATA_SEL; r_fs := GDT_USER_DATA_SEL; r_es := GDT_USER_DATA_SEL; r_ds := GDT_USER_DATA_SEL;
     r_edi := 0; r_esi := 0; r_ebp := 0; r_ebx := 0; r_edx := 0; r_ecx := 0; r_eax := 0;
     r_eip := entry; r_cs := GDT_USER_CODE_SEL; r_eflags := 0x202; r_esp := 0; r_ss := GDT_USER_DATA_SEL |}.

(** The kernel stack at [esp] is primed to start the process at [entry]. *)
Definition primed (entry : Z) (k : K) (esp : Z) : Prop :=
  0 <= esp /\ esp + 80 < 2 ^ 32 /\
  forall i w, (fork_ret_fn :: initial_frame entry) !! i = Some w -> k_word k (esp + 4 * Z.of_nat i) = Some w.

Lemma primed_keeps entry k k' esp : primed entry k esp -> (forall a, k_word k' a = k_word k a) ->
  primed entry k' esp.
Proof. intros (H1 & H2 & H3) Hk. split; [done|]. split; [done|]. intros i w Hw. by rewrite Hk, (H3 i w Hw). Qed.

Lemma first_run_primed entry s esp : primed entry (s_kernel s) esp ->
  exists s2, first_run fork_ret_fn (with_esp esp s) = Ret (start_regs entry, s2).
Proof.
  intros (H1 & H2 & Hw). change (2 ^ 32) with 4294967296 in H2. unfold first_run. eexists. pstep reflexivity. cbn [s_esp with_esp].
  pstep (apply on_kernel_run, kw_load; cbn; rewrite <- (Hw 0%nat fork_ret_fn eq_refl); f_equal; lia).
  rewrite Z.eqb_refl. cbn [negb]. rewrite (u32_small (esp + 4)) by (unfold is_u32; lia).
  pstep (apply (load_words_run (initial_frame entry))); [reflexivity|lia|cbn; lia|].
  intros i w Hi. cbn [s_kernel with_kernel with_esp]. rewrite <- (Hw (S i) w Hi). f_equal. lia.
Qed.

(** The last part of [process_init]: the frame on the kernel stack. *)
Lemma frame_run s p x entry a : s_procs s !! p = Some x -> 0 < a -> a + 8192 < 2 ^ 32 ->
  (forall i, 0 <= i < 2048 -> is_Some (k_word (s_kernel s) (a + 4 * i))) ->
  let frame := (a +! 8192) -! sizeof_interrupt_frame in
  exists k, (store_words frame (initial_frame entry);;
      on_kernel (k_store (frame -! 4) fork_ret_fn);;
      update_proc p (set_kernel_esp (frame -! 4));;
      update_proc p (set_next 0)) s =
      Ret (tt, with_procs (<[p := set_next 0 (set_kernel_esp (frame -! 4) x)]> (s_procs s)) (with_kernel k s)) /\
    k_cr3 k = k_cr3 (s_kernel s) /\ primed entry k (frame -! 4).
Proof.
  intros Hx Ha Hlt Hmap frame. change (2 ^ 32) with 4294967296 in *.
  assert (Ef : frame = a + 8116) by (subst frame; unfold u32, sizeof_interrupt_frame; zlia). rewrite Ef. clear Ef frame.
  replace ((a + 8116) -! 4) with (a + 8112) by (unfold u32; zlia).
  destruct (store_words_run (initial_frame entry) (a + 8116) s) as (k1 & E1 & Ec1 & Hi & Ho); [lia|cbn; lia| |].
  { intros i Hi. cbn in Hi. replace (a + 8116 + 4 * i) with (a + 4 * (2029 + i)) by lia. apply Hmap. lia. }
  pstep (exact E1). destruct (kw_store (a + 8112) fork_ret_fn k1) as (k2 & E2 & Ec2 & Hw).
  { rewrite Ho by lia. replace (a + 8112) with (a + 4 * 2028) by lia. apply Hmap. lia. }
  pstep (apply on_kernel_run; exact E2). pstep (apply update_proc_run; exact Hx).
  rewrite (update_proc_run p _ _ (set_kernel_esp (a + 8112) x)) by (cbn; by rewrite lookup_insert_eq).
  exists k2. split; [cbn; by rewrite insert_insert_eq|]. split; [congruence|].
  split; [lia|]. split; [lia|]. intros [|i] w Hi'; rewrite Hw.
  - injection Hi' as <-. rewrite Z.add_0_r. by case_decide.
  - case_decide; [lia|]. rewrite <- (Hi i w Hi'). f_equal. lia.
Qed.

(** The two pages [kmalloc] returned for the kernel stack. *)
Definition stack_block (k : K) (a : Z) : Prop :=
  0 < a /\ a + 8192 < 2 ^ 32 /\ forall i, 0 <= i < 2048 -> is_Some (k_word k (a + 4 * i)).

(** [x'] is the process of [s'] that [process_init] makes out of [x] with the kernel
    stack at [a], the address space [pd], and the pages of its user stack ([ok]). *)
Record initialised (entry a pd : Z) (ok : bool) (x : process) s (x' : process) s' : Prop := {
  in_pid : pid x' = next_pid s;
  in_next_pid : next_pid s' = next_pid s +! 1;
  in_list : process_list s' = process_list s;
  in_pd : pd_phys x' = pd;
  in_base : kernel_stack_base x' = a;
  in_top : kernel_stack_top x' = a + 2 * PAGE_SIZE;
  in_starved : ok = false -> kernel_esp x' = kernel_esp x /\ p_next x' = p_next x;
  in_ready : ok = true -> p_next x' = 0 /\ kernel_esp x' = kernel_stack_top x' - sizeof_interrupt_frame - 4 /\
    primed entry (s_kernel s') (kernel_esp x')
}.

(** Without memory for the kernel stack. *)
Lemma process_init_none s p x entry k1 : s_procs s !! p = Some x ->
  k_kmalloc (PAGE_SIZE * 2) (s_kernel s) = Ret (0, k1) ->
  process_init fork_ret_fn p entry s =
    Ret (tt, with_kernel k1 (with_pid (next_pid s +! 1) (with_procs (<[p := set_pid (next_pid s) x]> (s_procs s)) s))).
Proof.
  intros Hx Hm. unfold process_init. pstep reflexivity. pstep (by apply update_proc_run). pstep reflexivity.
  by pstep (by apply on_kernel_run).
Qed.

Lemma process_init_run s p x entry a k1 :
  s_procs s !! p = Some x -> k_kmalloc (PAGE_SIZE * 2) (s_kernel s) = Ret (a, k1) -> stack_block k1 a -> k_cr3 k1 <> 0 ->
  match make_space k1 with
  | Ret ((pd, ok), k5) => exists s' x', process_init fork_ret_fn p entry s = Ret (tt, s') /\
      s_procs s' = <[p := x']> (s_procs s) /\ k_cr3 (s_kernel s') = k_cr3 k1 /\ initialised entry a pd ok x s x' s'
  | Fault => process_init fork_ret_fn p entry s = Fault
  | Diverge => process_init fork_ret_fn p entry s = Diverge
  end.
Proof.
  intros Hx Hm (Hpos & Hlt & Hmap) Hc. change (PAGE_SIZE * 2) with 8192 in Hm. unfold process_init.
  pstep reflexivity. pstep (by apply update_proc_run). pstep reflexivity. change (PAGE_SIZE * 2) with 8192.
  pstep (by apply on_kernel_run). destruct (Z.eqb_spec a 0) as [->|Ha0]; [lia|].
  pstep (by apply update_proc_run, lookup_insert_eq).
  destruct (k_create_space k1) as [[pd k2]| |] eqn:E1.
  2,3: unfold make_space; rewrite ?(st_bind_Fault _ _ _ E1), ?(st_bind_Diverge _ _ _ E1);
    apply st_bind_Fault || apply st_bind_Diverge; unfold on_kernel; cbn; by rewrite E1.
  pstep (by apply on_kernel_run). pstep (by apply update_proc_run, lookup_insert_eq). pstep (apply on_kernel_run, kw_read_cr3).
  destruct (switch_space_run pd k2) as (k3 & E3 & _). pstep (by apply on_kernel_run).
  assert (Hms : make_space k1 = (ok ← stack_pages 4 0; k_switch_space (k_cr3 k2);; mret (pd, ok)) k3).
  { unfold make_space. by rewrite (st_bind_Ret _ _ _ _ _ E1), (st_bind_Ret _ _ _ _ _ (kw_read_cr3 k2)), (st_bind_Ret _ _ _ _ _ E3). }
  set (x1 := set_pd pd (set_stack a (a +! 8192) (set_pid (next_pid s) x))).
  set (s5 := fun k => with_kernel k (with_procs (<[p := x1]> (s_procs s)) (with_pid (next_pid s +! 1) s))).
  match goal with |- context [(alloc_stack_pages _ _ ≫= ?k) ?st] => assert (Est : st = s5 k3) end.
  { subst s5. cbn. by rewrite !insert_insert_eq. }
  rewrite Est. clear Est. destruct (stack_pages 4 0 k3) as [[ok k4]| |] eqn:E4.
  2,3: rewrite Hms; rewrite ?(st_bind_Fault _ _ _ E4), ?(st_bind_Diverge _ _ _ E4);
    apply st_bind_Fault || apply st_bind_Diverge; rewrite (alloc_stack_pages_calls 4 0) by lia; unfold on_kernel; change (s_kernel (s5 k3)) with k3; by rewrite E4.
  destruct (switch_space_run (k_cr3 k2) k4) as (k5 & E5 & _).
  assert (Hms5 : make_space k1 = Ret ((pd, ok), k5)).
  { by rewrite Hms, (st_bind_Ret _ _ _ _ _ E4), (st_bind_Ret _ _ _ _ _ E5). }
  rewrite Hms5. destruct (make_space_keeps k1 pd ok k5 Hc Hms5) as [C5 W5].
  pstep (rewrite (alloc_stack_pages_calls 4 0) by lia; apply on_kernel_run; exact E4). pstep (by apply on_kernel_run).
  change (with_kernel k5 (with_kernel k4 (s5 k3))) with (s5 k5).
  assert (Et : a +! 8192 = a + 8192) by (apply u32_small; unfold is_u32; lia).
  destruct ok; cbn [negb].
  - destruct (frame_run (s5 k5) p x1 entry a) as (k6 & E & C6 & Hpr); [apply lookup_insert_eq|done|done| |].
    { intros i Hi. cbn. rewrite W5. by apply Hmap. }
    eexists _, _. split; [exact E|]. split; [cbn; by rewrite insert_insert_eq|].
    split; [etransitivity; [exact C6|exact C5]|]. split; try done.
    intros _. split; [done|]. split; [|exact Hpr]. cbn. rewrite Et. unfold u32, sizeof_interrupt_frame in *. zlia.
  - by eexists (s5 k5), x1.
Qed.

(** (C24) A new process: [process_init] gives it the next process number.
    Without memory for the kernel stack nothing else is done.  Otherwise the
    outcome is that of the kernel calls for its address space and its user stack:
    when they fault or never end, so does [process_init]; when they return, it
    returns with the address space register as it was, and the process has the
    address space and the kernel stack.  If a page of the user stack could not be
    had, the process is not made ready (and the caller is not told); if all could,
    the first switch to its kernel stack returns through [fork_ret] to its entry
    point in user mode, with user segments and interrupts on; its user stack
    pointer, though, is 0 and not the top of the stack that was mapped for it. *)
Theorem process_init_first_run s p x entry a k1 :
  s_procs s !! p = Some x -> k_kmalloc (PAGE_SIZE * 2) (s_kernel s) = Ret (a, k1) -> k_cr3 k1 <> 0 ->
  (a = 0 -> process_init fork_ret_fn p entry s = Ret (tt, with_kernel k1 (with_pid (next_pid s +! 1)
     (with_procs (<[p := set_pid (next_pid s) x]> (s_procs s)) s)))) /\
  (stack_block k1 a ->
     match make_space k1 with
     | Ret ((pd, ok), _) => exists s' x', process_init fork_ret_fn p entry s = Ret (tt, s') /\
         s_procs s' = <[p := x']> (s_procs s) /\ k_cr3 (s_kernel s') = k_cr3 k1 /\
         pid x' = next_pid s /\ next_pid s' = next_pid s +! 1 /\ pd_phys x' = pd /\
         kernel_stack_base x' = a /\ kernel_stack_top x' = a + 2 * PAGE_SIZE /\
         (ok = false -> kernel_esp x' = kernel_esp x) /\
         (ok = true -> p_next x' = 0 /\ kernel_esp x' = kernel_stack_top x' - sizeof_interrupt_frame - 4 /\
            exists s2, first_run fork_ret_fn (with_esp (kernel_esp x') s') = Ret (start_regs entry, s2))
     | Fault => process_init fork_ret_fn p entry s = Fault
     | Diverge => process_init fork_ret_fn p entry s = Diverge
     end).
Proof.
  intros Hx Hm Hc. split; [intros ->; by apply process_init_none|]. intros Hb.
  pose proof (process_init_run s p x entry a k1 Hx Hm Hb Hc) as H.
  destruct (make_space k1) as [[[pd ok] k5]| |]; [|done|done]. destruct H as (s' & x' & E & Hp & Hc' & []).
  exists s', x'. do 8 (split; [done|]). split; [by intros []%in_starved0|].
  intros (Hn & He & Hpr)%in_ready0. split; [done|]. split; [done|]. by apply first_run_primed.
Qed.
End start.

(** ** Witness *)
Lemma process_init_first_run_witness :
  exists s' x', process_init 0xC0105000 4 0x08048000 (box_sched [(1, 1); (4, 0)] 1) = Ret (tt, s') /\
    s_procs s' !! 4 = Some x' /\ pid x' = 5 /\ kernel_stack_base x' = 0xD0100000 /\
    exists s2, first_run 0xC0105000 (with_esp (kernel_esp x') s') = Ret (start_regs 0x08048000, s2).
Proof.
  destruct (process_init_first_run 0xC0105000 (box_sched [(1, 1); (4, 0)] 1) 4 (box_proc 4 0) 0x08048000 0xD0100000
    (box_pages 8192 (s_kernel (box_sched [(1, 1); (4, 0)] 1)))) as [_ H].
  - done.
  - done.
  - done.
  - destruct H as (s' & x' & E & Hp & _ & Hpid & _ & _ & Hs & _ & _ & Ht).
    { split; [lia|]. split; [lia|]. intros i _. exact (mk_is_Some (Some (b_mem _ _)) _ eq_refl). }
    exists s', x'. split; [done|]. rewrite Hp, lookup_insert_eq. split; [done|]. split; [done|].
    split; [done|]. by apply Ht.
Defined.
