(* ===== verification/KernelVm.v ===== *)
(** * The kernel under the scheduler

    The interface [Kernel] by the components of this kernel: the heap, over the
    virtual memory manager, and the stack pointer of the task state segment.  The
    laws of [Machine] are theorems here.  On this kernel a process that is not the
    current one cannot be ended. *)

From S2P Require Import Prelude Pmm Vmm VmmProof VmmSpace Heap HeapProof Interrupts Scheduler Machine SchedulerProof ProcessProof.

Record kvm := { kv_heap : heap vm; kv_esp0 : Z }.

Definition with_heap (h : heap vm) (k : kvm) : kvm := {| kv_heap := h; kv_esp0 := kv_esp0 k |}.
Definition with_vm (v : vm) (k : kvm) : kvm :=
  with_heap {| hmem := hmem (kv_heap k); free_list_head := free_list_head (kv_heap k); heap_max := heap_max (kv_heap k); hvm := v |} k.
Definition kv_vm (k : kvm) : vm := hvm (kv_heap k).

Definition on_heap {B} (c : ST (heap vm) B) : ST kvm B := fun k =>
  match c (kv_heap k) with Ret (b, h) => Ret (b, with_heap h k) | Fault => Fault | Diverge => Diverge end.
Definition on_vm {B} (c : ST vm B) : ST kvm B := fun k =>
  match c (kv_vm k) with Ret (b, v) => Ret (b, with_vm v k) | Fault => Fault | Diverge => Diverge end.

(** ** Bytes of user memory

    The memory of the machine is kept by words, the first byte lowest. *)
Definition byte_shift (a : Z) : Z := 8 * (a mod 4).
Definition vbyte (a : Z) : ST vm Z :=
  w ← vread (a - a mod 4);
  mret (Z.land (Z.shiftr w (byte_shift a)) 0xFF).
Definition vput (a b : Z) : ST vm unit :=
  w ← vread (a - a mod 4);
  vwrite (a - a mod 4) (Z.lor (Z.land w (not32 (Z.shiftl 0xFF (byte_shift a)))) (Z.shiftl (u8 b) (byte_shift a))).
Fixpoint vcopy (v : Z) (bs : list Z) : ST vm unit :=
  match bs with [] => mret tt | b :: bs => vput v b;; vcopy (v +! 1) bs end.

(** Kernel stacks lie in the heap. *)
#[export] Instance kvm_kernel : Kernel kvm := {
  k_kmalloc n := on_heap (kmalloc n);
  k_kfree a := on_heap (kfree a);
  k_create_space := on_vm vmm_create_address_space;
  k_destroy_space pd := on_vm (vmm_destroy_address_space pd);
  k_read_cr3 := on_vm vmm_read_cr3;
  k_switch_space pd := on_vm (vmm_switch_address_space pd);
  k_alloc_user_page v := on_vm (vmm_alloc_user_page_at v);
  k_store a w := on_heap (store a w);
  k_load a := on_heap (load a);
  k_byte a := on_vm (vbyte a);
  k_copy v bs := on_vm (vcopy v bs);
  k_tss_set_stack e := st_modify (fun k => {| kv_heap := kv_heap k; kv_esp0 := e |})
}.

(** ** Only a switch changes the address space register *)
Definition keeps_cr3 {B} (c : ST vm B) : Prop := forall s b s', c s = Ret (b, s') -> cr3 s' = cr3 s.

Lemma keeps_bind {B C} (c : ST vm B) (f : B -> ST vm C) : keeps_cr3 c -> (forall b, keeps_cr3 (f b)) -> keeps_cr3 (b ← c; f b).
Proof. intros Hc Hf s b s' (a & s1 & E1 & E2)%st_bind_inv. by rewrite (Hf _ _ _ _ E2), (Hc _ _ _ E1). Qed.

Lemma keeps_ret {B} (b : B) : keeps_cr3 (mret b).
Proof. by intros s r s' [= _ <-]. Qed.

Lemma keeps_fault {B} : keeps_cr3 (st_fault : ST vm B).
Proof. done. Qed.

Lemma keeps_get : keeps_cr3 st_get.
Proof. by intros s r s' [= _ <-]. Qed.

Lemma keeps_modify f : (forall s, cr3 (f s) = cr3 s) -> keeps_cr3 (st_modify f).
Proof. by intros H s r s' [= _ <-]. Qed.

Lemma keeps_pread a : keeps_cr3 (pread a).
Proof. intros s r s'. unfold pread. case_match; [|done]. by intros [= _ <-]. Qed.

Lemma keeps_pwrite a w : keeps_cr3 (pwrite a w).
Proof. intros s r s'. unfold pwrite. case_match; [|done]. by intros [= _ <-]. Qed.

Lemma keeps_pmm_alloc : keeps_cr3 pmm_alloc.
Proof. intros s r s'. unfold pmm_alloc. case_match; [|done|done]. case_match. by intros [= _ <-]. Qed.

Lemma keeps_for n : forall i body, (forall j, keeps_cr3 (body j)) -> keeps_cr3 (st_for n i body).
Proof. induction n as [|n IH]; intros i body H; [apply keeps_ret|]. by apply keeps_bind; [|intros _; apply IH]. Qed.

Ltac keep := repeat first
  [ apply keeps_ret | apply keeps_fault | apply keeps_get | apply keeps_pread | apply keeps_pwrite | apply keeps_pmm_alloc
  | (apply keeps_modify; done) | (apply keeps_for; intros ?) | (apply keeps_bind; [|intros ?])
  | match goal with |- keeps_cr3 (match ?b with _ => _ end) => destruct b end | progress cbv zeta | progress unfold when ].

Lemma keeps_translate v : keeps_cr3 (translate v).
Proof. unfold translate, mmu_entry. keep. Qed.

Lemma keeps_vread v : keeps_cr3 (vread v).
Proof. unfold vread. apply keeps_bind; [apply keeps_translate|intros ?; keep]. Qed.

Lemma keeps_vwrite v w : keeps_cr3 (vwrite v w).
Proof. unfold vwrite. apply keeps_bind; [apply keeps_translate|intros ?; keep]. Qed.

Ltac keep_vm := repeat first
  [ apply keeps_vread | apply keeps_vwrite | progress unfold window_get, window_set, vmm_invlpg, memset_page, vmm_set_pte_at, vmm_set_pde_at | progress keep ].

Lemma keeps_create : keeps_cr3 vmm_create_address_space.
Proof. unfold vmm_create_address_space. keep_vm. Qed.

Lemma keeps_user_page v : keeps_cr3 (vmm_alloc_user_page_at v).
Proof. unfold vmm_alloc_user_page_at, vmm_map_user_page. keep_vm. Qed.

Lemma keeps_vcopy bs : forall v, keeps_cr3 (vcopy v bs).
Proof. induction bs as [|b bs IH]; intros v; [apply keeps_ret|]. cbn [vcopy]. unfold vput. apply keeps_bind; [keep_vm|done]. Qed.

(** ** The laws *)
Definition kvm_cr3 (k : kvm) : Z := cr3 (kv_vm k).

Lemma on_vm_keeps {B} (c : ST vm B) k b k' : keeps_cr3 c -> on_vm c k = Ret (b, k') ->
  kvm_cr3 k' = kvm_cr3 k /\ forall a, hmem (kv_heap k') !! a = hmem (kv_heap k) !! a.
Proof.
  intros Hc. unfold on_vm. destruct (c (kv_vm k)) as [[r v]| |] eqn:E; [|done|done]. intros [= _ <-]. split; [|done].
  unfold kvm_cr3. cbn. by eapply Hc.
Qed.

Lemma kvm_switch v k : v <> 0 -> on_vm (vmm_switch_address_space v) k = Ret (tt, with_vm (switched v (kv_vm k)) k).
Proof. intros Hv. unfold on_vm. by rewrite switch_ret. Qed.

#[export] Program Instance kvm_laws : KernelLaws kvm := {| k_cr3 := kvm_cr3; k_esp0 := kv_esp0 |}.
Next Obligation. intros v k. eexists. split; [reflexivity|]. done. Qed.
Next Obligation. intros v k Hv. eexists. split; [by apply kvm_switch|]. done. Qed.
Next Obligation. intros k. by destruct k as [[]]. Qed.

#[export] Program Instance kvm_words : KernelWords kvm := {| k_word k a := hmem (kv_heap k) !! a |}.
Next Obligation. intros k pd k' E. exact (on_vm_keeps _ _ _ _ keeps_create E). Qed.
Next Obligation. intros v k b k' E. exact (on_vm_keeps _ _ _ _ (keeps_user_page v) E). Qed.
Next Obligation. intros v bs k k' E. exact (on_vm_keeps _ _ _ _ (keeps_vcopy bs v) E). Qed.
Next Obligation. intros k. by destruct k as [[]]. Qed.
Next Obligation.
  intros v k k' E a. cbn in E. unfold on_vm in E. destruct (vmm_switch_address_space v (kv_vm k)) as [[[] w]| |]; [|done|done].
  by injection E as <-.
Qed.
Next Obligation.
  intros a w k Hw. cbn in *. unfold on_heap, store. destruct (hmem (kv_heap k) !! a) as [w'|] eqn:E; [|by destruct Hw].
  eexists. split; [reflexivity|]. split; [done|]. intros b. cbn. case_decide as Hb; [subst b; apply lookup_insert_eq|].
  by rewrite lookup_insert_ne.
Qed.
Next Obligation. intros a w k Hw. cbn in *. unfold on_heap, load. rewrite Hw. by destruct k. Qed.

(** The kernel stack [kmalloc] returns for a process is what [process_init] needs. *)
Lemma kvm_stack_block (k : kvm) B fl : heap_inv (kv_heap k) B fl -> heap_max (kv_heap k) + 28672 <= HEAP_TOP ->
  exists a k1, k_kmalloc 8192 k = Ret (a, k1) /\ (a = 0 \/ stack_block k1 a).
Proof.
  intros Hinv Hroom. destruct (kmalloc_total (kv_heap k) B fl 8192 Hinv) as (p & h & B' & fl' & E & [Hi _] & _ & Hres & _); [lia|lia|].
  exists p, (with_heap h k). split; [cbn; unfold on_heap; by rewrite E|]. destruct Hres as [[? _]|(Hp & sz & Hsz & Ha & _)]; [by left|right].
  assert (HB : B' !! (p - 4) = Some (sz, false)) by (apply (proj2 (Ha _ _)); right; by split).
  destruct (g_blk _ _ (hp_geom _ _ _ Hi) _ _ _ HB) as (H1 & H2 & _ & _ & H3). destruct (g_hm _ _ (hp_geom _ _ _ Hi)) as [Hm _].
  unfold KHEAP_START, HEAP_TOP in *. split; [lia|]. split; [lia|]. intros i Hi'.
  change (is_Some (hmem h !! (p + 4 * i))). apply (hp_map _ _ _ Hi); [unfold KHEAP_START; lia|zlia].
Qed.

(** ** Ending another process

    [process_exit] of a process that is not the current one unlinks it and calls
    [vmm_destroy_address_space], which writes over the recursive entry of the running
    page directory and page-faults, so the kernel stops: here under the two
    conditions that entry 1022 is absent in the current directory and in that of the
    process. *)
Theorem process_exit_other_faults (s : sched kvm) l proc x w e : let v := kv_vm (s_kernel s) in
  queue s l -> s_procs s !! proc = Some x -> proc ∈ l -> l <> [proc] -> current_process s <> proc ->
  vm_wf v -> pde v 1022 = Some w -> present w = false ->
  is_u32 (pd_phys x) -> pd_phys x mod 4096 = 0 -> pd_phys x <> base v ->
  phys v !! (pd_phys x + 4 * 1022) = Some e -> present e = false ->
  process_exit proc s = Fault.
Proof.
  intros v Hq Hx Hin Hne Hc Hwf Hw Hwp Hu Ha Hb He Hep. pose proof (exit_other_run s l proc x Hq Hx Hin Hne Hc) as H.
  destruct (destroy_run v (pd_phys x) e w) as (s1 & _ & _ & _ & _ & Hf); try done.
  assert (E : exit_calls x proc (s_kernel s) = Fault).
  { apply st_bind_Fault. cbn [k_destroy_space kvm_kernel]. unfold on_vm. fold v. by rewrite Hf. }
  by rewrite E in H.
Qed.

(** ** Witnesses *)

(** Three processes on the kernel of the demonstration machine; the directory of the
    second one is the frame at 8192. *)
Definition vm_proc (p pd next : Z) : process :=
  {| pid := p; pd_phys := pd; kernel_esp := 0xD0000000 + p; kernel_stack_top := 0xD0002000 + p;
     kernel_stack_base := 0xD0000000; p_next := next |}.
Definition vm_sched : sched kvm :=
  {| s_kernel := {| kv_heap := heap_boot (demo_vm 3); kv_esp0 := 0 |}; s_esp := 0xD0000050;
     s_procs := list_to_map [(1, vm_proc 1 4096 2); (2, vm_proc 2 8192 3); (3, vm_proc 3 12288 1)]; next_pid := 5;
     current_process := 1; process_list := 1; current_process_ticks := 0; s_state := SCHED_STATE_RUNNING;
     s_handlers := [] |}.

Lemma vm_ring : ring (s_procs vm_sched) [1; 2; 3].
Proof. prove_ring. Qed.

(** A round of the three processes. *)
Lemma schedule_round_robin_witness :
  (exists s2, turns [201] vm_sched = Ret (tt, s2) /\ loaded s2 2) /\
  exists s', turns [201; 202; 203] vm_sched = Ret (tt, s') /\ loaded s' 1 /\ s_esp s' = 201.
Proof.
  destruct (schedule_round_robin vm_sched 1 [2; 3] 201 [202; 203]) as [Ht (s' & H & _ & Hl & He)].
  - split; [done|]. split; [done|]. split; [exact vm_ring|done].
  - done.
  - done.
  - split; [exact (Ht 1%nat 2 ltac:(lia) eq_refl)|]. exists s'. split; [exact H|]. split; [exact Hl|exact He].
Defined.

Lemma process_exit_other_faults_witness : process_exit 2 vm_sched = Fault.
Proof.
  apply (process_exit_other_faults vm_sched [1; 2; 3] 2 (vm_proc 2 8192 3) 0 0).
  - split; [reflexivity|right; exact vm_ring].
  - reflexivity.
  - right. left.
  - discriminate.
  - discriminate.
  - apply demo_vm_wf; [lia|done].
  - apply demo_dir. lia.
  - reflexivity.
  - unfold is_u32. cbn. lia.
  - reflexivity.
  - discriminate.
  - replace (pd_phys (vm_proc 2 8192 3) + 4 * 1022) with (4 * 3070) by (cbn; lia). apply demo_word; lia.
  - reflexivity.
Defined.
