(* ===== verification/Elf.v ===== *)
(** * The ELF loader (src/src/kernel/elf.c)

    [load_elf] makes a process out of an executable image in a kernel buffer,
    the list of its bytes.  A read outside the buffer is a fault.  The segments
    are written through the interface [Kernel] to the address space of the new
    process. *)

From S2P Require Import Prelude Interrupts Scheduler.

Definition PT_LOAD : Z := 1.
(** [process_t]: six words. *)
Definition sizeof_process : Z := 24.
(** [elf_program_header_t]: eight words. *)
Definition sizeof_program_header : Z := 32.

Definition zero_process : process :=
  {| pid := 0; pd_phys := 0; kernel_esp := 0; kernel_stack_top := 0; kernel_stack_base := 0; p_next := 0 |}.

(** [header->ident[i] != m || ..], left to right. *)
Fixpoint magic_matches (buf : list Z) (i : Z) (ms : list Z) : outcome bool :=
  match ms with
  | [] => Ret true
  | m :: ms => b ← of_option (znth buf i); if b =? m then magic_matches buf (i + 1) ms else Ret false
  end.
Definition elf_magic : list Z := [0x7F; 69; 76; 70].

(** Fields of [elf_header_t]. *)
Definition elf_entry (buf : list Z) : outcome Z := of_option (get_u32 buf 24).
Definition elf_ph_offset (buf : list Z) : outcome Z := of_option (get_u32 buf 28).
Definition elf_ph_count (buf : list Z) : outcome Z := of_option (get_u16 buf 44).

Section code.
Context {K : Type} `{!Kernel K} (fork_ret_fn : Z).
Abbreviation M := (ST (sched K)).

(** [for (vaddr = ..; vaddr < fin; vaddr += PAGE_SIZE)]: the result of the
    allocation is not looked at. *)
Fixpoint load_pages (fuel : nat) (vaddr fin : Z) : M unit :=
  match fuel with
  | O => fun _ => Diverge
  | S fuel =>
      if vaddr <? fin then
        on_kernel (k_alloc_user_page (Z.land vaddr 0xFFFFF000));;
        load_pages fuel (vaddr +! PAGE_SIZE) fin
      else mret tt
  end.

(** The program header at offset [o] of the buffer. *)
Definition load_segment (buf : list Z) (o : Z) : M unit :=
  type ← st_lift (of_option (get_u32 buf o));
  if negb (type =? PT_LOAD) then mret tt
  else
    offset ← st_lift (of_option (get_u32 buf (o + 4)));
    vaddr ← st_lift (of_option (get_u32 buf (o + 8)));
    filesz ← st_lift (of_option (get_u32 buf (o + 16)));
    memsz ← st_lift (of_option (get_u32 buf (o + 20)));
    load_pages (S (S (Z.to_nat (memsz / PAGE_SIZE)))) vaddr (vaddr +! memsz);;
    src ← st_lift (of_option (slice buf offset filesz));
    on_kernel (k_copy vaddr src);;
    when (filesz <? memsz)
      (on_kernel (k_copy (vaddr +! filesz) (replicate (Z.to_nat (memsz - filesz)) 0))).

(** [for (i = 0; i < header->ph_count; i++)], [n] headers are left. *)
Fixpoint load_segments (n : nat) (buf : list Z) (o : Z) : M unit :=
  match n with
  | O => mret tt
  | S n => load_segment buf o;; load_segments n buf (o + sizeof_program_header)
  end.

(** [memset] of a null pointer faults. *)
Definition new_process : M Z :=
  proc ← on_kernel (k_kmalloc sizeof_process);
  if proc =? 0 then st_fault else put_proc proc zero_process;; mret proc.

Definition load_elf (buf : list Z) : M Z :=
  ok ← st_lift (magic_matches buf 0 elf_magic);
  if negb ok then mret (-1)
  else
    proc ← new_process;
    entry ← st_lift (elf_entry buf);
    process_init fork_ret_fn proc entry;;
    old_cr3 ← on_kernel k_read_cr3;
    x ← get_proc proc;
    on_kernel (k_switch_space (pd_phys x));;
    ph_offset ← st_lift (elf_ph_offset buf);
    ph_count ← st_lift (elf_ph_count buf);
    load_segments (Z.to_nat ph_count) buf ph_offset;;
    on_kernel (k_switch_space old_cr3);;
    scheduler_add_process proc;;
    mret 0.
End code.
