(* ===== verification/ElfProof.v ===== *)
(** * Correctness of the ELF loader

    An image is turned into a sequence of kernel calls, which map pages and copy
    bytes; what these calls leave in a user memory, and the two kinds of segments
    for which it is wrong. *)

From S2P Require Import Prelude Interrupts Scheduler Machine SchedulerProof ProcessProof Elf.

(** ** Images *)

(** A loadable segment. *)
Record segment := { sg_offset : Z; sg_vaddr : Z; sg_filesz : Z; sg_memsz : Z }.

(** The pages the loader maps for a segment: as many as its size takes, from the
    page of its first byte on. *)
Definition sg_pages (g : segment) : Z := (sg_memsz g + 4095) / 4096.
Definition in_pages (g : segment) (a : Z) : Prop :=
  sg_vaddr g / 4096 <= a / 4096 < sg_vaddr g / 4096 + sg_pages g.
Definition in_segment (g : segment) (a : Z) : Prop := sg_vaddr g <= a < sg_vaddr g + sg_memsz g.
#[export] Instance in_pages_dec g a : Decision (in_pages g a).
Proof. unfold in_pages. apply _. Defined.
#[export] Instance in_segment_dec g a : Decision (in_segment g a).
Proof. unfold in_segment. apply _. Defined.

(** The byte of the segment at address [a]: from the file, then zero. *)
Definition segment_byte (buf : list Z) (g : segment) (a : Z) : option Z :=
  if a - sg_vaddr g <? sg_filesz g then znth buf (sg_offset g + (a - sg_vaddr g)) else Some 0.

(** The header at [o]: a loadable segment or something else. *)
Definition header_at (buf : list Z) (o : Z) (h : option segment) : Prop :=
  match h with
  | None => exists t, get_u32 buf o = Some t /\ t <> PT_LOAD
  | Some g =>
      get_u32 buf o = Some PT_LOAD /\ get_u32 buf (o + 4) = Some (sg_offset g) /\
      get_u32 buf (o + 8) = Some (sg_vaddr g) /\ get_u32 buf (o + 16) = Some (sg_filesz g) /\
      get_u32 buf (o + 20) = Some (sg_memsz g)
  end.
Fixpoint headers_at (buf : list Z) (o : Z) (hs : list (option segment)) : Prop :=
  match hs with [] => True | h :: hs => header_at buf o h /\ headers_at buf (o + 32) hs end.

Definition KERNEL_HALF : Z := 0xC0000000.

(** A segment of user memory whose bytes are in the file. *)
Record segment_ok (buf : list Z) (g : segment) : Prop := {
  ok_vaddr : 0 <= sg_vaddr g;
  ok_sizes : 0 <= sg_filesz g <= sg_memsz g;
  ok_top : sg_vaddr g + sg_memsz g <= KERNEL_HALF;
  ok_file : is_Some (slice buf (sg_offset g) (sg_filesz g))
}.
(** The pages mapped for it cover it, as they do when it starts on a page. *)
Definition covered (g : segment) : Prop := sg_vaddr g mod 4096 + sg_memsz g <= 4096 * sg_pages g.

Lemma covered_aligned g : sg_vaddr g mod 4096 = 0 -> covered g.
Proof. unfold covered, sg_pages. intros ->. zlia. Qed.

Lemma covered_in g a : covered g -> in_segment g a -> in_pages g a.
Proof. unfold covered, in_segment, in_pages, sg_pages. intros. zlia. Qed.

Lemma page_base v : is_u32 v -> Z.land v 0xFFFFF000 = v / 4096 * 4096.
Proof.
  intros Hv. change 0xFFFFF000 with (not32 (Z.ones 12)). rewrite land_not32_ones by (done || lia).
  change (2 ^ 12) with 4096. zlia.
Qed.

Lemma slice_lookup buf off n l i : slice buf off n = Some l -> 0 <= i < n -> l !! Z.to_nat i = znth buf (off + i).
Proof.
  unfold slice, znth. case_bool; [|done]. intros [= <-] Hi. destruct (Z.leb_spec 0 (off + i)); [|lia].
  rewrite lookup_take_lt by lia. rewrite lookup_drop. f_equal. lia.
Qed.

(** ** The calls an image stands for *)

(** [Map v] is a call of [vmm_alloc_user_page_at], whose result the loader does not
    look at; [Copy] is a [memcpy] or [memset] to user memory. *)
Inductive mem_op := Map (v : Z) | Copy (v : Z) (bs : list Z).

(** [n] pages from page number [p] on. *)
Fixpoint map_ops (n : nat) (p : Z) : list mem_op :=
  match n with O => [] | S n => Map (4096 * p) :: map_ops n (p + 1) end.
Definition file_bytes (buf : list Z) (g : segment) : list Z := default [] (slice buf (sg_offset g) (sg_filesz g)).
Definition segment_ops (buf : list Z) (g : segment) : list mem_op :=
  map_ops (Z.to_nat (sg_pages g)) (sg_vaddr g / 4096) ++
  Copy (sg_vaddr g) (file_bytes buf g) ::
  (if sg_filesz g <? sg_memsz g
   then [Copy (sg_vaddr g + sg_filesz g) (replicate (Z.to_nat (sg_memsz g - sg_filesz g)) 0)] else []).
Definition loads (hs : list (option segment)) : list segment := omap id hs.
Definition image_ops (buf : list Z) (gs : list segment) : list mem_op := gs ≫= segment_ops buf.

(** ** Their effect on a user memory

    Mapping a page gives a zeroed one, also where one was mapped; a copy to memory
    that is not mapped faults, [None]. *)
Definition umem := Z -> option Z.
Definition mapped (u : umem) (v n : Z) : bool := forallb (fun i => bool_decide (is_Some (u (v + i)))) (seqZ 0 n).
Definition apply_op (o : mem_op) (u : umem) : option umem :=
  match o with
  | Map v => Some (fun a => if bool_decide (v <= a < v + 4096) then Some 0 else u a)
  | Copy v bs =>
      if mapped u v (Z.of_nat (length bs)) then
        Some (fun a => if bool_decide (v <= a < v + Z.of_nat (length bs)) then bs !! Z.to_nat (a - v) else u a)
      else None
  end.
Fixpoint apply_ops (os : list mem_op) (u : umem) : option umem :=
  match os with [] => Some u | o :: os => u ← apply_op o u; apply_ops os u end.

Lemma apply_ops_app os1 os2 u : apply_ops (os1 ++ os2) u = u' ← apply_ops os1 u; apply_ops os2 u'.
Proof. revert u. induction os1 as [|o os1 IH]; intros u; [done|]. cbn. by destruct (apply_op o u) as [u1|]; cbn. Qed.

Lemma mapped_spec u v n : mapped u v n = true <-> forall a, v <= a < v + n -> is_Some (u a).
Proof.
  unfold mapped. rewrite forallb_forall. split.
  - intros H a Ha. replace a with (v + (a - v)) by lia. apply (bool_decide_eq_true_1 _), H, list_elem_of_In, elem_of_seqZ. lia.
  - intros H i Hi%list_elem_of_In%elem_of_seqZ. apply bool_decide_eq_true_2, H. lia.
Qed.

Lemma map_ops_apply n : forall p u, exists u', apply_ops (map_ops n p) u = Some u' /\
  forall a, u' a = if bool_decide (p <= a / 4096 < p + Z.of_nat n) then Some 0 else u a.
Proof.
  induction n as [|n IH]; intros p u; cbn [map_ops apply_ops apply_op].
  - exists u. split; [done|]. intros a. by rewrite bool_decide_eq_false_2 by lia.
  - destruct (IH (p + 1) (fun a => if bool_decide (4096 * p <= a < 4096 * p + 4096) then Some 0 else u a)) as (u' & E & Hu).
    exists u'. split; [exact E|]. intros a. rewrite Hu. repeat case_bool_decide; try done; zlia.
Qed.

Lemma copy_apply u v bs os : (forall a, v <= a < v + Z.of_nat (length bs) -> is_Some (u a)) ->
  apply_ops (Copy v bs :: os) u =
    apply_ops os (fun a => if bool_decide (v <= a < v + Z.of_nat (length bs)) then bs !! Z.to_nat (a - v) else u a).
Proof. intros H. cbn [apply_ops apply_op]. by rewrite (proj2 (mapped_spec u v _) H). Qed.

Lemma copy_fault u v bs os a : v <= a < v + Z.of_nat (length bs) -> u a = None -> apply_ops (Copy v bs :: os) u = None.
Proof.
  intros Ha Hn. cbn [apply_ops apply_op]. destruct (mapped u v (Z.of_nat (length bs))) eqn:E; [|done].
  destruct (proj1 (mapped_spec _ _ _) E a Ha). congruence.
Qed.

(** The user memory [u] after a segment has been loaded over it. *)
Definition over (buf : list Z) (g : segment) (u : umem) (a : Z) : option Z :=
  if decide (in_segment g a) then segment_byte buf g a else if decide (in_pages g a) then Some 0 else u a.

Lemma file_bytes_spec buf g : segment_ok buf g ->
  slice buf (sg_offset g) (sg_filesz g) = Some (file_bytes buf g) /\ Z.of_nat (length (file_bytes buf g)) = sg_filesz g.
Proof.
  intros [_ Hs _ [src Hsrc]]. unfold file_bytes. rewrite Hsrc. split; [done|]. apply slice_length in Hsrc. cbn. lia.
Qed.

Lemma segment_ops_apply buf g u : segment_ok buf g -> covered g ->
  exists u', apply_ops (segment_ops buf g) u = Some u' /\ forall a, u' a = over buf g u a.
Proof.
  intros Hok Hcov. destruct (file_bytes_spec buf g Hok) as [Hsrc Hlen]. destruct Hok as [Hva [Hs1 Hs2] Hmt _].
  assert (Hp0 : 0 <= sg_pages g) by (unfold sg_pages; zlia).
  unfold segment_ops. rewrite apply_ops_app. destruct (map_ops_apply (Z.to_nat (sg_pages g)) (sg_vaddr g / 4096) u) as (u1 & -> & Hu1).
  rewrite Z2Nat.id in Hu1 by done. cbn [mbind option_bind].
  assert (Hin : forall a, in_segment g a -> u1 a = Some 0).
  { intros a Ha. rewrite Hu1, bool_decide_eq_true_2; [done|]. by apply covered_in. }
  rewrite copy_apply by (intros a Ha; rewrite Hin; [done|unfold in_segment; lia]). rewrite Hlen.
  set (u2 := fun a => if bool_decide (sg_vaddr g <= a < _) then _ else _).
  assert (Hu2 : forall a, u2 a = if decide (sg_vaddr g <= a < sg_vaddr g + sg_filesz g) then segment_byte buf g a
                                 else if decide (in_pages g a) then Some 0 else u a).
  { intros a. unfold u2, segment_byte. rewrite Hu1. fold (in_pages g a). repeat case_bool_decide; repeat case_decide; try done; try lia.
    all: destruct (Z.ltb_spec (a - sg_vaddr g) (sg_filesz g)); [|lia]; apply (slice_lookup _ _ _ _ _ Hsrc); lia. }
  clearbody u2. destruct (Z.ltb_spec (sg_filesz g) (sg_memsz g)) as [Hb|Hb].
  - rewrite copy_apply.
    2:{ rewrite length_replicate. intros a Ha. rewrite Hu2, decide_False, decide_True; [done| |lia].
        apply covered_in; [done|]. unfold in_segment. lia. }
    rewrite length_replicate, Z2Nat.id by lia. eexists. split; [reflexivity|]. intros a. cbn beta. rewrite Hu2. unfold over, segment_byte, in_segment.
    case_bool_decide.
    + rewrite decide_True by lia. destruct (Z.ltb_spec (a - sg_vaddr g) (sg_filesz g)); [lia|]. apply lookup_replicate_2. lia.
    + repeat case_decide; try done; lia.
  - exists u2. split; [done|]. intros a. rewrite Hu2. unfold over, in_segment. repeat case_decide; try done; lia.
Qed.

(** *** All segments *)
Definition overs (buf : list Z) (gs : list segment) (u : umem) : umem :=
  foldl (fun u g => over buf g u) u gs.

(** No page belongs to two segments. *)
Definition apart (gs : list segment) : Prop :=
  forall i j g h a, gs !! i = Some g -> gs !! j = Some h -> in_pages g a -> in_pages h a -> i = j.

Lemma overs_ext buf gs : forall u v a, (forall b, u b = v b) -> overs buf gs u a = overs buf gs v a.
Proof.
  induction gs as [|g gs IH]; intros u v a H; [apply H|]. cbn. apply IH. intros b. unfold over. by rewrite H.
Qed.

Lemma overs_outside buf gs : forall u a, Forall covered gs -> (forall g, g ∈ gs -> ~ in_pages g a) -> overs buf gs u a = u a.
Proof.
  induction gs as [|g gs IH]; intros u a Hc Hn; [done|]. apply Forall_cons_1 in Hc as [Hg Hc]. cbn.
  etransitivity; [apply IH; [done|set_solver]|]. pose proof (Hn g ltac:(left)) as Hp. unfold over.
  rewrite decide_False, decide_False; [done|done|]. intros Hs. by apply Hp, covered_in.
Qed.

Lemma overs_segment buf gs : forall u i g a, Forall covered gs -> apart gs -> gs !! i = Some g -> in_segment g a ->
  overs buf gs u a = segment_byte buf g a.
Proof.
  induction gs as [|h gs IH]; intros u i g a Hc Hap Hi Ha; [done|]. pose proof Hc as [Hh Hc']%Forall_cons_1. cbn.
  destruct i as [|i]; cbn in Hi.
  - injection Hi as ->. etransitivity; [apply overs_outside; [done|]|unfold over; by rewrite decide_True].
    intros h [j Hj]%list_elem_of_lookup Hin.
    by pose proof (Hap 0%nat (S j) g h a eq_refl Hj (covered_in _ _ Hh Ha) Hin).
  - eapply (IH _ i); [done| |done|done]. intros j1 j2 g1 g2 b H1 H2 P1 P2.
    pose proof (Hap (S j1) (S j2) g1 g2 b H1 H2 P1 P2). lia.
Qed.

Lemma image_ops_apply buf gs : forall u, Forall (segment_ok buf) gs -> Forall covered gs ->
  exists u', apply_ops (image_ops buf gs) u = Some u' /\ forall a, u' a = overs buf gs u a.
Proof.
  induction gs as [|g gs IH]; intros u Hok Hcov; [by exists u|].
  apply Forall_cons_1 in Hok as [Hg Hok], Hcov as [Hc Hcov].
  destruct (segment_ops_apply buf g u Hg Hc) as (u1 & E1 & H1). destruct (IH u1 Hok Hcov) as (u' & E & H).
  exists u'. split.
  - change (image_ops buf (g :: gs)) with (segment_ops buf g ++ image_ops buf gs). by rewrite apply_ops_app, E1.
  - intros a. rewrite H. cbn [overs foldl]. fold (overs buf gs). by apply overs_ext.
Qed.

(** ** The loader makes these calls *)
Section load.
Context {K : Type} `{!Kernel K} `{!KernelLaws K} `{!KernelWords K} (fork_ret_fn : Z).
Implicit Types s : sched K.

Definition do_op (o : mem_op) : ST K unit :=
  match o with
  | Map v => k_alloc_user_page v;; mret tt
  | Copy v bs => k_copy v bs
  end.
Fixpoint do_ops (os : list mem_op) : ST K unit :=
  match os with [] => mret tt | o :: os => do_op o;; do_ops os end.

Lemma do_ops_app os1 os2 k : do_ops (os1 ++ os2) k = (do_ops os1;; do_ops os2) k.
Proof.
  revert k. induction os1 as [|o os1 IH]; intros k; [done|]. cbn [app do_ops]. unfold mbind, ST_bind in *.
  destruct (do_op o k) as [[[] k1]| |]; [|done|done]. apply IH.
Qed.

Lemma do_ops_keeps os : forall k k', do_ops os k = Ret (tt, k') -> k_keeps k k'.
Proof.
  induction os as [|o os IH]; intros k k' E; cbn [do_ops] in E; [injection E as <-; apply k_keeps_refl|].
  apply st_bind_inv in E as ([] & k1 & E1 & E). eapply k_keeps_trans; [|by eapply IH]. destruct o as [v|v bs].
  - apply st_bind_inv in E1 as (b & k2 & E1%kw_page & E2). by injection E2 as <-.
  - by eapply kw_copy.
Qed.

(** A kernel call, then the rest, of the loader or of a sequence of calls. *)
Lemma seq_step {B C} (c : ST K B) (f : B -> ST (sched K) C) s :
  (b ← on_kernel c; f b) s =
    match c (s_kernel s) with Ret (b, k) => f b (with_kernel k s) | Fault => Fault | Diverge => Diverge end.
Proof. unfold mbind, ST_bind, on_kernel. by destruct (c (s_kernel s)) as [[b k]| |]. Qed.

Lemma call_step {B C} (c : ST K B) (f : B -> ST K C) s :
  on_kernel (b ← c; f b) s =
    match c (s_kernel s) with Ret (b, k) => on_kernel (f b) (with_kernel k s) | Fault => Fault | Diverge => Diverge end.
Proof. unfold mbind, ST_bind, on_kernel. by destruct (c (s_kernel s)) as [[b k]| |]. Qed.

Lemma on_kernel_ext {B} (c d : ST K B) s : c (s_kernel s) = d (s_kernel s) -> on_kernel c s = on_kernel d s.
Proof. unfold on_kernel. by intros ->. Qed.

Lemma load_pages_calls n : forall fuel v fin s, 0 <= v -> fin <= KERNEL_HALF ->
  (v < fin -> v + 4096 * (Z.of_nat n - 1) < fin) -> fin <= v + 4096 * Z.of_nat n -> (fin <= v -> n = 0%nat) -> (n < fuel)%nat ->
  load_pages fuel v fin s = on_kernel (do_ops (map_ops n (v / 4096))) s.
Proof.
  induction n as [|n IH]; intros [|fuel] v fin s Hv Hfin Hlo Hhi Hz Hfuel; try lia; cbn [load_pages map_ops do_ops].
  - destruct (Z.ltb_spec v fin); [lia|]. by destruct s.
  - destruct (Z.ltb_spec v fin) as [Hlt|]; [|naive_solver]. unfold KERNEL_HALF in *.
    rewrite page_base, Z.mul_comm by (unfold is_u32; lia). cbn [do_op]. rewrite seq_step, call_step. unfold mbind at 1, ST_bind at 1.
    destruct (k_alloc_user_page (4096 * (v / 4096)) (s_kernel s)) as [[b k]| |]; [|done|done]. cbn [mret ST_ret].
    rewrite u32_small by (unfold is_u32, PAGE_SIZE; lia).
    replace (v / 4096 + 1) with ((v + PAGE_SIZE) / 4096) by (unfold PAGE_SIZE; zlia).
    apply IH; unfold PAGE_SIZE, KERNEL_HALF in *; try lia; zlia.
Qed.

Lemma load_segment_calls buf o g s : header_at buf o (Some g) -> segment_ok buf g ->
  load_segment buf o s = on_kernel (do_ops (segment_ops buf g)) s.
Proof.
  intros (Ht & Ho & Hv & Hf & Hm) Hok. destruct (file_bytes_spec buf g Hok) as [Hsrc _].
  destruct Hok as [Hva [Hs1 Hs2] Hmt _]. unfold KERNEL_HALF in *.
  assert (Hp0 : 0 <= sg_pages g) by (unfold sg_pages; zlia).
  unfold load_segment. pstep (by rewrite Ht). cbn [PT_LOAD Z.eqb Pos.eqb negb].
  pstep (by rewrite Ho). pstep (by rewrite Hv). pstep (by rewrite Hf). pstep (by rewrite Hm).
  rewrite (u32_small (sg_vaddr g + sg_memsz g)), (u32_small (sg_vaddr g + sg_filesz g)) by (unfold is_u32; lia).
  assert (Hlp : load_pages (S (S (Z.to_nat (sg_memsz g / PAGE_SIZE)))) (sg_vaddr g) (sg_vaddr g + sg_memsz g) s =
    on_kernel (do_ops (map_ops (Z.to_nat (sg_pages g)) (sg_vaddr g / 4096))) s).
  { apply load_pages_calls; unfold KERNEL_HALF; rewrite ?Z2Nat.id by done; try lia; unfold sg_pages, PAGE_SIZE in *; zlia. }
  unfold segment_ops. rewrite (on_kernel_ext _ _ s (do_ops_app _ _ _)), call_step.
  unfold mbind at 1, ST_bind at 1. rewrite Hlp. unfold on_kernel at 1.
  destruct (do_ops (map_ops _ _) (s_kernel s)) as [[[] k]| |]; [|done|done].
  pstep (by rewrite Hsrc). cbn [do_ops do_op]. rewrite seq_step, call_step.
  destruct (k_copy (sg_vaddr g) (file_bytes buf g) _) as [[[] k2]| |]; [|done|done].
  destruct (sg_filesz g <? sg_memsz g); cbn [when do_ops do_op]; [|done]. rewrite call_step. unfold on_kernel at 1.
  by destruct (k_copy (sg_vaddr g + sg_filesz g) _ _) as [[[] k3]| |].
Qed.

Lemma load_segments_calls buf hs : forall o s, headers_at buf o hs -> Forall (segment_ok buf) (loads hs) ->
  load_segments (length hs) buf o s = on_kernel (do_ops (image_ops buf (loads hs))) s.
Proof.
  induction hs as [|h hs IH]; intros o s Hh Hok; [by destruct s|].
  destruct Hh as [Hh Hhs]. cbn [length load_segments]. destruct h as [g|].
  - apply Forall_cons_1 in Hok as [Hg Hok]. change (image_ops buf (loads (Some g :: hs))) with (segment_ops buf g ++ image_ops buf (loads hs)).
    rewrite (on_kernel_ext _ _ s (do_ops_app _ _ _)), call_step.
    unfold mbind at 1, ST_bind at 1. rewrite (load_segment_calls buf o g s Hh Hg). unfold on_kernel at 1.
    destruct (do_ops (segment_ops buf g) (s_kernel s)) as [[[] k]| |]; [|done|done]. by apply IH.
  - destruct Hh as (ty & Ht & Hne). pstep (unfold load_segment; pstep (by rewrite Ht);
      destruct (Z.eqb_spec ty PT_LOAD); [done|reflexivity]). by apply IH.
Qed.

(** *** The image *)
Record image (buf : list Z) (entry : Z) (hs : list (option segment)) : Prop := {
  im_magic : magic_matches buf 0 elf_magic = Ret true;
  im_entry : elf_entry buf = Ret entry;
  im_headers : exists o, elf_ph_offset buf = Ret o /\ headers_at buf o hs;
  im_count : elf_ph_count buf = Ret (Z.of_nat (length hs))
}.

(** *** What [process_init] leaves alone *)

(** Only the process at [p], the kernel and the process counter differ. *)
Definition only (p : Z) s s' : Prop :=
  process_list s' = process_list s /\ current_process s' = current_process s /\
  forall q, q <> p -> s_procs s' !! q = s_procs s !! q.
Definition touches {B} (p : Z) (c : ST (sched K) B) : Prop := forall s r s', c s = Ret (r, s') -> only p s s'.

Lemma only_trans p s1 s2 s3 : only p s1 s2 -> only p s2 s3 -> only p s1 s3.
Proof. intros (A1 & A2 & A3) (B1 & B2 & B3). split; [congruence|]. split; [congruence|]. intros q Hq. by rewrite B3, A3. Qed.

Lemma touches_bind {B C} p (c : ST (sched K) B) (f : B -> ST (sched K) C) :
  touches p c -> (forall b, touches p (f b)) -> touches p (b ← c; f b).
Proof. intros Hc Hf s r s' (b & s1 & E1 & E2)%st_bind_inv. eapply only_trans; [by eapply Hc|by eapply Hf]. Qed.

Lemma touches_ret {B} p (b : B) : touches p (mret b).
Proof. by intros s r s' [= _ <-]. Qed.

Lemma touches_kernel {B} p (c : ST K B) : touches p (on_kernel c).
Proof. intros s r s'. unfold on_kernel. destruct (c (s_kernel s)) as [[b k]| |]; [|done|done]. by intros [= _ <-]. Qed.

Lemma touches_update p f : touches p (update_proc p f).
Proof.
  intros s r s' (x & s1 & E1 & E2)%st_bind_inv. unfold get_proc, mbind, ST_bind, st_get, st_lift in E1.
  destruct (s_procs s !! p) as [y|]; [|done]. injection E1 as -> <-. injection E2 as _ <-. split; [done|]. split; [done|].
  intros q Hq. cbn. by rewrite lookup_insert_ne.
Qed.

Hint Resolve touches_ret touches_kernel touches_update : core.

Lemma touches_stack p n : forall i, touches p (alloc_stack_pages (K := K) n i).
Proof. induction n as [|n IH]; intros i; [apply touches_ret|]. apply touches_bind; [done|]. by intros []. Qed.

Lemma touches_store p ws : forall a, touches p (store_words (K := K) a ws).
Proof. induction ws as [|w ws IH]; intros a; [apply touches_ret|]. by apply touches_bind. Qed.

Hint Resolve touches_stack touches_store : core.

Lemma process_init_touches p entry : touches p (process_init fork_ret_fn p entry).
Proof.
  assert (Hm : forall n, touches p (st_modify (with_pid (K := K) n))) by (by intros n s r s' [= _ <-]).
  unfold process_init. intros s r s'. rewrite (st_bind_Ret _ _ s s s) by done. revert s r s'.
  enough (H : forall s0, touches p (update_proc p (set_pid (next_pid s0));; st_modify (with_pid (next_pid s0 +! 1));;
    kstack ← on_kernel (k_kmalloc (PAGE_SIZE * 2));
    if kstack =? 0 then mret tt
    else
      let top := kstack +! PAGE_SIZE * 2 in
      update_proc p (set_stack kstack top);;
      pd ← on_kernel k_create_space;
      update_proc p (set_pd pd);;
      old_cr3 ← on_kernel k_read_cr3;
      on_kernel (k_switch_space pd);;
      ok ← alloc_stack_pages (Z.to_nat USER_STACK_PAGES) 0;
      on_kernel (k_switch_space old_cr3);;
      if negb (ok : bool) then mret tt
      else
        let frame := top -! sizeof_interrupt_frame in
        store_words frame (initial_frame entry);;
        let stack_ptr := frame -! 4 in
        on_kernel (k_store stack_ptr fork_ret_fn);;
        update_proc p (set_kernel_esp stack_ptr);;
        update_proc p (set_next 0))) by (intros s; apply H).
  intros s0. do 2 (apply touches_bind; [done|intros ?]). apply touches_bind; [done|]. intros a. destruct (a =? 0); [done|]. cbv zeta.
  do 7 (apply touches_bind; [done|intros ?]). destruct (negb _); [done|]. do 3 (apply touches_bind; [done|intros ?]). done.
Qed.

Lemma queue_only s s' l p : queue s l -> p ∉ l -> only p s s' -> queue s' l.
Proof.
  intros [Hh Hl] Hp (El & _ & Em). split; [congruence|]. destruct Hl as [->|Hr]; [by left|right].
  eapply ring_relabel; [exact Hr|]. intros y n Hy Hn. exists n. rewrite Em by set_solver. done.
Qed.

(** *** Loading *)

(** The kernel calls that fill the address space [pd] with an image. *)
Definition fill (buf : list Z) (hs : list (option segment)) (pd old : Z) : ST K unit :=
  k_switch_space pd;; do_ops (image_ops buf (loads hs));; k_switch_space old.

Lemma load_elf_run s l buf entry hs p k0 s1 x :
  queue s l -> image buf entry hs -> Forall (segment_ok buf) (loads hs) ->
  k_kmalloc sizeof_process (s_kernel s) = Ret (p, k0) -> p <> 0 -> p ∉ l ->
  process_init fork_ret_fn p entry (with_procs (<[p := zero_process]> (s_procs s)) (with_kernel k0 s)) = Ret (tt, s1) ->
  s_procs s1 !! p = Some x ->
  match fill buf hs (pd_phys x) (k_cr3 (s_kernel s1)) (s_kernel s1) with
  | Ret (_, k) => exists s' v, load_elf fork_ret_fn buf s = Ret (0, s') /\ queue s' (l ++ [p]) /\ s_kernel s' = k /\
      s_procs s' !! p = Some (set_next v x)
  | Fault => load_elf fork_ret_fn buf s = Fault
  | Diverge => load_elf fork_ret_fn buf s = Diverge
  end.
Proof.
  intros Hq [Hmag Hent (o & Ho & Hhs) Hcnt] Hok Hp Hp0 Hpl Hinit Hx. unfold load_elf. pstep (by rewrite Hmag). cbn [negb].
  pstep (unfold new_process; pstep (by apply on_kernel_run); destruct (Z.eqb_spec p 0); [done|reflexivity]).
  pstep (by rewrite Hent). pstep (exact Hinit). pstep (apply on_kernel_run, kw_read_cr3). pstep (apply get_proc_run; exact Hx).
  destruct (switch_space_run (pd_phys x) (s_kernel s1)) as (k2 & E2 & _). pstep (apply on_kernel_run; exact E2).
  pstep (by rewrite Ho). pstep (by rewrite Hcnt). rewrite Nat2Z.id. unfold fill. rewrite (st_bind_Ret _ _ _ _ _ E2).
  destruct (do_ops (image_ops buf (loads hs)) k2) as [[[] k3]| |] eqn:E3.
  2,3: rewrite ?(st_bind_Fault _ _ _ E3), ?(st_bind_Diverge _ _ _ E3);
    apply st_bind_Fault || apply st_bind_Diverge; rewrite (load_segments_calls buf hs) by done; unfold on_kernel; cbn; by rewrite E3.
  destruct (switch_space_run (k_cr3 (s_kernel s1)) k3) as (k4 & E4 & _). rewrite (st_bind_Ret _ _ _ _ _ E3), E4.
  pstep (rewrite (load_segments_calls buf hs) by done; apply on_kernel_run; exact E3). pstep (apply on_kernel_run; exact E4).
  assert (Hq1 : queue s1 l).
  { eapply (queue_only s); [done|exact Hpl|]. apply process_init_touches in Hinit. eapply only_trans; [|exact Hinit].
    split; [done|]. split; [done|]. intros q Hqp. cbn. by rewrite lookup_insert_ne. }
  match goal with |- context [(scheduler_add_process p ≫= _) ?st] => destruct (add_process_run st l p x) as (m & E5 & Hring & Hm) end;
    [exact Hq1|done|done|exact Hx|].
  pstep (exact E5). eexists _, _. split; [reflexivity|]. split; [split; [cbn; by destruct l|by right]|]. split; [done|exact Hm].
Qed.

(** (C25) Loading an executable.  A buffer without the magic number is refused and
    nothing changes.  For an image whose loadable segments lie in user memory and
    in the file, once the process structure has been allocated and initialised,
    the outcome is that of one fixed sequence of kernel calls: the switch to the
    new address space, the mapping of the pages and the copies of every segment in
    the order of the headers, and the switch back.  When these return, [load_elf]
    returns 0 with the process at the end of the queue, and the process still
    starts at the image's entry point; when they fault or never end, so does
    [load_elf].  Carried out on a user memory, the calls for segments that start on
    pages and share none do not fault: they leave, for every segment, the bytes of
    the file followed by zeros up to its size in memory, and outside the pages of
    the segments what was there. *)
Theorem load_elf_correct s l buf :
  (magic_matches buf 0 elf_magic = Ret false -> load_elf fork_ret_fn buf s = Ret (-1, s)) /\
  (forall entry hs, image buf entry hs -> Forall (segment_ok buf) (loads hs) ->
     (forall p k0 s1 x, queue s l -> k_kmalloc sizeof_process (s_kernel s) = Ret (p, k0) -> p <> 0 -> p ∉ l ->
        process_init fork_ret_fn p entry (with_procs (<[p := zero_process]> (s_procs s)) (with_kernel k0 s)) = Ret (tt, s1) ->
        s_procs s1 !! p = Some x ->
        match fill buf hs (pd_phys x) (k_cr3 (s_kernel s1)) (s_kernel s1) with
        | Ret (_, k) => exists s' v, load_elf fork_ret_fn buf s = Ret (0, s') /\ queue s' (l ++ [p]) /\ s_kernel s' = k /\
            s_procs s' !! p = Some (set_next v x) /\
            (primed fork_ret_fn entry (s_kernel s1) (kernel_esp x) ->
               exists s2, first_run fork_ret_fn (with_esp (kernel_esp x) s') = Ret (start_regs entry, s2))
        | Fault => load_elf fork_ret_fn buf s = Fault
        | Diverge => load_elf fork_ret_fn buf s = Diverge
        end) /\
     (Forall (fun g => sg_vaddr g mod 4096 = 0) (loads hs) -> apart (loads hs) -> forall u : umem,
        exists u', apply_ops (image_ops buf (loads hs)) u = Some u' /\
          (forall g a, g ∈ loads hs -> in_segment g a -> u' a = segment_byte buf g a) /\
          (forall a, (forall g, g ∈ loads hs -> ~ in_pages g a) -> u' a = u a))).
Proof.
  split; [intros Hm; unfold load_elf; by pstep (by rewrite Hm)|]. intros entry hs Him Hok. split.
  - intros p k0 s1 x Hq Hp Hp0 Hpl Hinit Hx. pose proof (load_elf_run s l buf entry hs p k0 s1 x Hq Him Hok Hp Hp0 Hpl Hinit Hx) as H.
    destruct (fill _ _ _ _ _) as [[[] k]| |] eqn:Ef; [|done|done]. destruct H as (s' & v & E & Hq' & Hk & Hx').
    exists s', v. do 4 (split; [done|]). intros Hpr. apply first_run_primed. rewrite Hk. eapply primed_keeps; [exact Hpr|].
    unfold fill in Ef. apply st_bind_inv in Ef as ([] & k2 & E2 & Ef). apply st_bind_inv in Ef as ([] & k3 & [_ W3]%do_ops_keeps & E4).
    intros a. by rewrite (kw_switch _ _ _ E4), W3, (kw_switch _ _ _ E2).
  - intros Hal Hap u. assert (Hcov : Forall covered (loads hs)) by (eapply list.Forall_impl; [exact Hal|apply covered_aligned]).
    destruct (image_ops_apply buf (loads hs) u Hok Hcov) as (u' & E & Hu). exists u'. split; [done|]. split.
    + intros g a [i Hi]%list_elem_of_lookup Ha. rewrite Hu. by eapply overs_segment.
    + intros a Ha. rewrite Hu. by apply overs_outside.
Qed.
End load.

(** Segments that meet inside a page, as the text and data segments of an
    executable often do, are loaded wrongly: mapping the page again for the second
    one replaces it by a zeroed one, so the bytes of the first segment on that
    page are lost. *)
Theorem load_segments_shared_page buf g1 g2 b u :
  segment_ok buf g1 -> segment_ok buf g2 -> covered g1 -> covered g2 ->
  in_segment g1 b -> in_pages g2 b -> ~ in_segment g2 b ->
  exists u', apply_ops (image_ops buf [g1; g2]) u = Some u' /\ u' b = Some 0.
Proof.
  intros Hok1 Hok2 Hc1 Hc2 _ Hp Hs.
  destruct (image_ops_apply buf [g1; g2] u) as (u' & E & Hu);
    [exact (Forall_cons_2 _ _ _ Hok1 (Forall_cons_2 _ _ _ Hok2 (Forall_nil_2 _)))
    |exact (Forall_cons_2 _ _ _ Hc1 (Forall_cons_2 _ _ _ Hc2 (Forall_nil_2 _)))|].
  exists u'. split; [done|]. rewrite Hu. cbn. unfold over at 1. rewrite decide_False by done. by rewrite decide_True.
Qed.

(** A segment that starts inside a page and whose last page its size alone
    does not account for is not mapped completely: unless that page is mapped
    already, the kernel faults while it copies or clears the segment. *)
Theorem load_segment_last_page_missing buf g u : segment_ok buf g ->
  0 < sg_memsz g -> ~ covered g -> u ((sg_vaddr g / 4096 + sg_pages g) * 4096) = None ->
  apply_ops (segment_ops buf g) u = None.
Proof.
  intros Hok Hm0 Hcov Hnone. destruct (file_bytes_spec buf g Hok) as [Hsrc Hlen]. destruct Hok as [Hva [Hs1 Hs2] Hmt _].
  set (b := (sg_vaddr g / 4096 + sg_pages g) * 4096) in *.
  assert (Hp0 : 0 <= sg_pages g) by (unfold sg_pages; zlia).
  assert (Hb : sg_vaddr g <= b < sg_vaddr g + sg_memsz g) by (unfold covered, sg_pages in *; subst b; zlia).
  unfold segment_ops. rewrite apply_ops_app. destruct (map_ops_apply (Z.to_nat (sg_pages g)) (sg_vaddr g / 4096) u) as (u1 & -> & Hu1).
  rewrite Z2Nat.id in Hu1 by done. cbn [mbind option_bind].
  assert (Hu1b : u1 b = None) by (rewrite Hu1, bool_decide_eq_false_2; [done|]; subst b; zlia).
  destruct (decide (b < sg_vaddr g + sg_filesz g)) as [Hin|Hout].
  { apply (copy_fault _ _ _ _ b); [lia|done]. }
  rewrite copy_apply by (intros a Ha; rewrite Hu1, bool_decide_eq_true_2; [done|subst b; zlia]).
  destruct (Z.ltb_spec (sg_filesz g) (sg_memsz g)); [|lia].
  apply (copy_fault _ _ _ _ b); [rewrite length_replicate; lia|]. cbn beta. by rewrite bool_decide_eq_false_2 by lia.
Qed.

(** ** Witnesses *)

(** An image with one loadable segment, two words of which are in the file, and
    a header of another kind. *)
Definition word (v : Z) : list Z := le_bytes 4 v.
Definition program_header (type offset vaddr filesz memsz : Z) : list Z :=
  concat (word <$> [type; offset; vaddr; vaddr; filesz; memsz; 5; 4096]).
Definition elf_file (entry : Z) (ph : list (list Z)) (body : list Z) : list Z :=
  [0x7F; 69; 76; 70; 1; 1; 1; 0; 0; 0; 0; 0; 0; 0; 0; 0; 2; 0; 3; 0] ++ word 1 ++ word entry ++ word 52 ++ word 0 ++ word 0 ++
  [52; 0; 32; 0; Z.of_nat (length ph); 0; 0; 0; 0; 0; 0; 0] ++ concat ph ++ body.

Definition small_elf : list Z :=
  elf_file 0x08048004 [program_header 4 0 0 0 0; program_header 1 116 0x08048000 8 12] [1; 2; 3; 4; 5; 6; 7; 8].
Definition small_segment : segment := {| sg_offset := 116; sg_vaddr := 0x08048000; sg_filesz := 8; sg_memsz := 12 |}.

(** The process structure and its initialisation. *)
Definition elf_start : sched box := box_sched [(1, 2); (2, 1)] 1.
Definition elf_alloc : sched box :=
  with_procs (<[0xD0100000 := zero_process]> (s_procs elf_start)) (with_kernel (box_pages 24 (s_kernel elf_start)) elf_start).
Definition elf_init : sched box := final (process_init 0xC0105000 0xD0100000 0x08048004) elf_alloc.
Definition elf_fill : ST box unit := fill small_elf [None; Some small_segment] 0x500000 0x1000.

Lemma small_image : image small_elf 0x08048004 [None; Some small_segment] /\ Forall (segment_ok small_elf) [small_segment].
Proof.
  split.
  - split; [done|done| |done]. exists 52. split; [done|]. split; [by exists 4|]. split; [|done]. by repeat split.
  - constructor; [|done]. split; unfold small_segment, KERNEL_HALF; cbn -[slice]; [lia|lia|lia|by eexists].
Qed.

Lemma elf_start_queue : queue elf_start [1; 2].
Proof. split; [done|right]. unfold elf_start. prove_ring. Qed.

Lemma load_elf_correct_witness :
  (exists s', load_elf 0xC0105000 small_elf elf_start = Ret (0, s') /\ queue s' [1; 2; 0xD0100000]) /\
  (exists u', apply_ops (image_ops small_elf [small_segment]) (fun _ => None) = Some u' /\ u' 0x08048005 = Some 6 /\ u' 0x08048009 = Some 0).
Proof.
  destruct small_image as [Him Hok].
  destruct (load_elf_correct 0xC0105000 elf_start [1; 2] small_elf) as [_ H].
  destruct (H 0x08048004 [None; Some small_segment] Him Hok) as [Hrun Hmem]. split.
  - assert (Hi : process_init 0xC0105000 0xD0100000 0x08048004 elf_alloc = Ret (tt, elf_init)).
    { refine (run_final (process_init 0xC0105000 0xD0100000 0x08048004) elf_alloc tt _). vm_compute. reflexivity. }
    destruct (s_procs elf_init !! 0xD0100000) as [x|] eqn:Ex; [|vm_compute in Ex; discriminate Ex].
    assert (Hx : pd_phys x = 0x500000) by (vm_compute in Ex; injection Ex as <-; reflexivity).
    assert (Hc : k_cr3 (s_kernel elf_init) = 0x1000) by (vm_compute; reflexivity).
    specialize (Hrun 0xD0100000 (box_pages 24 (s_kernel elf_start)) elf_init x).
    rewrite Hx, Hc in Hrun. change (fill _ _ _ _) with elf_fill in Hrun.
    assert (Ef : elf_fill (s_kernel elf_init) = Ret (tt, final elf_fill (s_kernel elf_init))).
    { refine (run_final _ _ tt _). vm_compute. reflexivity. }
    rewrite Ef in Hrun. destruct Hrun as (s' & v & E & Hq & _); [exact elf_start_queue|reflexivity|lia|clear; set_solver|exact Hi|exact Ex|].
    exists s'. split; [exact E|exact Hq].
  - destruct (Hmem ltac:(by constructor)) with (u := fun _ : Z => @None Z) as (u' & E & Hs & _).
    { intros [|i] [|j] g h a Hi Hj _ _; cbn in *; done. }
    exists u'. split; [exact E|]. split; (etransitivity; [apply (Hs small_segment); [left|unfold in_segment; cbn; lia]|]); reflexivity.
Defined.

(** Text up to 0x08048804 and data from 0x08048808 on, in the same page. *)
Definition shared_elf : list Z :=
  elf_file 0 [program_header 1 116 0x08048800 4 4; program_header 1 120 0x08048808 4 4] [1; 2; 3; 4; 5; 6; 7; 8].
Definition text_segment : segment := {| sg_offset := 116; sg_vaddr := 0x08048800; sg_filesz := 4; sg_memsz := 4 |}.
Definition data_segment : segment := {| sg_offset := 120; sg_vaddr := 0x08048808; sg_filesz := 4; sg_memsz := 4 |}.

Lemma small_segment_ok o v : (o = 116 \/ o = 120) -> 0 <= v <= 0x10000000 ->
  segment_ok shared_elf {| sg_offset := o; sg_vaddr := v; sg_filesz := 4; sg_memsz := 4 |}.
Proof. intros [-> | ->] Hv; split; cbn -[slice]; unfold KERNEL_HALF; try lia; by eexists. Qed.

Lemma load_segments_shared_page_witness :
  segment_byte shared_elf text_segment 0x08048801 = Some 2 /\
  exists u', apply_ops (image_ops shared_elf [text_segment; data_segment]) (fun _ => None) = Some u' /\ u' 0x08048801 = Some 0.
Proof.
  split; [reflexivity|].
  apply (load_segments_shared_page shared_elf text_segment data_segment 0x08048801 (fun _ => None)).
  - apply small_segment_ok; lia.
  - apply small_segment_ok; lia.
  - by unfold covered.
  - by unfold covered.
  - by unfold in_segment.
  - by unfold in_pages.
  - unfold in_segment. cbn. lia.
Defined.

(** Six bytes across the end of a page. *)
Definition crossing_elf : list Z := elf_file 0 [program_header 1 84 0x08048FFE 4 6] [1; 2; 3; 4].

Lemma load_segment_last_page_missing_witness :
  apply_ops (segment_ops crossing_elf {| sg_offset := 84; sg_vaddr := 0x08048FFE; sg_filesz := 4; sg_memsz := 6 |}) (fun _ => None) = None.
Proof.
  apply load_segment_last_page_missing.
  - split; cbn -[slice]; unfold KERNEL_HALF; try lia. by eexists.
  - done.
  - unfold covered, sg_pages. cbn -[Z.modulo Z.div]. zlia.
  - done.
Defined.
