(* ===== verification/Syscall.v ===== *)
(** * System calls (src/src/kernel/syscall.c)

    The handler of vector 0x67 over the scheduler and the console.  [y_flags] is
    the flags register, whose bit 9 enables interrupts. *)

From S2P Require Import Prelude Interrupts Keyboard Console Text Scheduler Machine SchedulerProof ProcessProof.

Definition SYSCALL_EXIT : Z := 0.
Definition SYSCALL_WRITE : Z := 1.
Definition SYSCALL_READ : Z := 2.
Definition SYSCALL_COUNT : Z := 3.
Definition SYSCALL_SUCCESS : Z := 0.
Definition IF_BIT : Z := 0x200.

Record sys (K : Type) := { y_sched : sched K; y_con : console; y_flags : Z }.
Arguments y_sched {K} _. Arguments y_con {K} _. Arguments y_flags {K} _.

(** The registers of [interrupt_frame_t] that the calls use. *)
Record sys_frame := { f_eax : Z; f_ebx : Z; f_ecx : Z; f_edx : Z }.

Section code.
Context {K : Type} `{!Kernel K}.
Abbreviation M := (ST (sys K)).

Definition on_sched {B} (c : ST (sched K) B) : M B := fun y =>
  match c (y_sched y) with
  | Ret (b, s) => Ret (b, {| y_sched := s; y_con := y_con y; y_flags := y_flags y |})
  | Fault => Fault
  | Diverge => Diverge
  end.
Definition on_con {B} (c : ST console B) : M B := fun y =>
  match c (y_con y) with
  | Ret (b, k) => Ret (b, {| y_sched := y_sched y; y_con := k; y_flags := y_flags y |})
  | Fault => Fault
  | Diverge => Diverge
  end.
Definition set_flags (v : Z) : M unit :=
  st_modify (fun y => {| y_sched := y_sched y; y_con := y_con y; y_flags := v |}).

(** [pushfl; popl; cli] and [pushl; popfl]. *)
Definition lock_interrupts : M Z :=
  flags ← st_gets y_flags;
  set_flags (Z.land flags (not32 IF_BIT));;
  mret flags.
Definition unlock_interrupts (lock : Z) : M unit := set_flags lock.

(** The exiting process is the current one, so that [process_exit] goes on in
    another process and nothing is returned to this one. *)
Definition syscall_exit (fr : sys_frame) : M (option Z) :=
  current ← on_sched get_current_process;
  x ← on_sched (get_proc current);
  on_con (printf (cstr "Process %d exiting with code %d" ++ NL ++ [0]) [VaInt (pid x); VaInt (f_ebx fr)]);;
  on_sched (process_exit current);;
  mret None.

(** [for (i = 0; i < frame->edx; i++)], [n] characters are left. *)
Fixpoint write_loop (n : nat) (a : Z) : M unit :=
  match n with
  | O => mret tt
  | S n =>
      lock ← lock_interrupts;
      c ← on_sched (on_kernel (k_byte a));
      on_con (putc c);;
      unlock_interrupts lock;;
      write_loop n (a +! 1)
  end.

Definition syscall_write (fr : sys_frame) : M (option Z) :=
  write_loop (Z.to_nat (f_edx fr)) (f_ecx fr);;
  mret (Some SYSCALL_SUCCESS).

(** Entry 2 of the table is null. *)
Definition sys_table (num : Z) : option (sys_frame -> M (option Z)) :=
  if num =? SYSCALL_EXIT then Some syscall_exit
  else if num =? SYSCALL_WRITE then Some syscall_write
  else None.

Definition set_eax (v : Z) (fr : sys_frame) : sys_frame :=
  {| f_eax := v; f_ebx := f_ebx fr; f_ecx := f_ecx fr; f_edx := f_edx fr |}.

Definition unknown_syscall (num : Z) : M (option Z) :=
  on_con (printf (cstr "syscall: unknown syscall %d" ++ NL ++ [0]) [VaInt num]);;
  mret (Some 1).

(** The frame the caller resumes with, [None] when it does not resume. *)
Definition syscall_handler (fr : sys_frame) : M (option sys_frame) :=
  let num := f_eax fr in
  ret ← (if num <? SYSCALL_COUNT then
           match sys_table num with Some f => f fr | None => unknown_syscall num end
         else unknown_syscall num);
  match ret with
  | Some v => mret (Some (set_eax (u32 v) fr))
  | None => mret None
  end.

Definition syscall_init (handler : Z) : M unit :=
  s ← st_gets y_sched;
  t ← st_lift (isr_register_handler SYSCALL_INT handler (s_handlers s));
  on_sched (st_modify (with_handlers t)).
End code.

(** ** Correctness *)
Section correct.
Context {K : Type} `{!Kernel K} `{!KernelLaws K}.
Implicit Types y : sys K.

Definition with_con (k : console) y : sys K := {| y_sched := y_sched y; y_con := k; y_flags := y_flags y |}.
Definition y_kernel y : K := s_kernel (y_sched y).
Definition after_call (k : K) (c : console) y : sys K :=
  {| y_sched := with_kernel k (y_sched y); y_con := c; y_flags := y_flags y |}.

(** The [n] bytes at [a] of the current address space, as the kernel reads them. *)
Fixpoint user_read (n : nat) (a : Z) : ST K (list Z) :=
  match n with
  | O => mret []
  | S n => c ← k_byte a; cs ← user_read n (a +! 1); mret (c :: cs)
  end.

Lemma on_con_run {B} (c : ST console B) y b k : c (y_con y) = Ret (b, k) -> on_con c y = Ret (b, with_con k y).
Proof. intros E. unfold on_con. by rewrite E. Qed.

Lemma on_sched_run {B} (c : ST (sched K) B) y b s : c (y_sched y) = Ret (b, s) ->
  on_sched c y = Ret (b, {| y_sched := s; y_con := y_con y; y_flags := y_flags y |}).
Proof. intros E. unfold on_sched. by rewrite E. Qed.

Lemma write_loop_run n : forall a y, console_ok (y_con y) ->
  match user_read n a (y_kernel y) with
  | Ret (bs, k) => exists c, emits (OChar <$> bs) (y_con y) = Ret (tt, c) /\ console_ok c /\
      write_loop n a y = Ret (tt, after_call k c y)
  | Fault => write_loop n a y = Fault
  | Diverge => write_loop n a y = Diverge
  end.
Proof.
  induction n as [|n IH]; intros a y Hok; cbn [user_read write_loop].
  { exists (y_con y). split; [done|]. split; [done|]. by destruct y as [[]]. }
  destruct (k_byte a (y_kernel y)) as [[b k1]| |] eqn:Eb.
  2,3: rewrite ?(st_bind_Fault _ _ _ Eb), ?(st_bind_Diverge _ _ _ Eb); pstep reflexivity;
    apply st_bind_Fault || apply st_bind_Diverge; unfold y_kernel in Eb; unfold on_sched, on_kernel; cbn; by rewrite Eb.
  rewrite (st_bind_Ret _ _ _ _ _ Eb). set (r := (cs ← user_read n (a +! 1); _) k1).
  pstep reflexivity. pstep (apply on_sched_run, on_kernel_run; exact Eb).
  destruct (emits_total [OChar b] (y_con y) (proj1 Hok) (proj2 Hok)) as (c1 & Hem & Ha1 & Hs1).
  cbn [emits] in Hem. apply st_bind_inv in Hem as ([] & c2 & Ep & Hem). injection Hem as ->. cbn [emit] in Ep.
  pstep (apply on_con_run; exact Ep). pstep reflexivity.
  specialize (IH (a +! 1) (after_call k1 c1 y) (conj Ha1 Hs1)). change (y_kernel (after_call k1 c1 y)) with k1 in IH.
  match goal with |- context [write_loop n (a +! 1) ?st] => change st with (after_call k1 c1 y) end.
  unfold r, mbind, ST_bind. destruct (user_read n (a +! 1) k1) as [[bs k]| |]; [|done|done]. destruct IH as (c & Hem & Hc & E).
  exists c. split; [|by split]. rewrite fmap_cons. cbn [emits emit]. by pstep (exact Ep).
Qed.

(** A message of the handler. *)
Lemma say_run fmt args ps y : pieces_of fmt args = Some ps -> console_ok (y_con y) ->
  exists n k, display [Said (output_of ps)] (y_con y) = Ret (tt, k) /\ console_ok k /\
    on_con (printf (fmt ++ [0]) args) y = Ret (n, with_con k y).
Proof.
  intros Hp Hk. destruct (printf_message fmt args ps (y_con y) Hp Hk) as (n & k & E & D & Hk'). exists n, k.
  split; [cbn [display show]; by pstep (exact D)|]. split; [done|]. by apply on_con_run.
Qed.

Definition unknown_line (num : Z) : shown := say (cstr "syscall: unknown syscall " ++ int_string num ++ NL).
Definition exit_line (p code : Z) : shown :=
  say (cstr "Process " ++ int_string p ++ cstr " exiting with code " ++ int_string code ++ NL).

Lemma unknown_run y num : console_ok (y_con y) ->
  exists k, display [unknown_line num] (y_con y) = Ret (tt, k) /\ console_ok k /\ unknown_syscall num y = Ret (Some 1, with_con k y).
Proof.
  intros Hok. unfold unknown_syscall.
  edestruct (say_run (cstr "syscall: unknown syscall %d" ++ NL) [VaInt num] _ y eq_refl Hok) as (n & k & D & Hk & E).
  exists k. split; [rewrite <- D; unfold unknown_line, say; rewrite !fmap_app; reflexivity|]. split; [done|].
  by pstep (exact E).
Qed.

Lemma exit_message y c x fr : console_ok (y_con y) -> current_process (y_sched y) = c -> s_procs (y_sched y) !! c = Some x ->
  exists k, display [exit_line (pid x) (f_ebx fr)] (y_con y) = Ret (tt, k) /\ console_ok k /\
    syscall_exit fr y = (on_sched (process_exit c);; mret None) (with_con k y).
Proof.
  intros Hok Hc Hx.
  edestruct (say_run (cstr "Process %d exiting with code %d" ++ NL) [VaInt (pid x); VaInt (f_ebx fr)] _ y eq_refl Hok) as (n & k & D & Hk & E).
  exists k. split; [rewrite <- D; unfold exit_line, say; rewrite !fmap_app; reflexivity|]. split; [done|].
  unfold syscall_exit. pstep (apply on_sched_run; reflexivity). rewrite Hc.
  pstep (apply on_sched_run, get_proc_run; exact Hx).
  replace {| y_sched := y_sched y; y_con := y_con y; y_flags := y_flags y |} with y by (by destruct y).
  by pstep (exact E).
Qed.

(** (C26) System calls: "write" prints exactly the bytes the kernel reads from the
    caller's memory, in order, and returns 0 to it with the interrupt flag as it
    was; where that memory cannot be read, the kernel faults.  A number without a
    call prints "syscall: unknown syscall" and the number and returns 1.  "exit"
    prints the process number and the code, takes the current process out of the
    queue and goes on in the process at its head, on that one's kernel stack and
    address space, and halts when there is no other. *)
Theorem syscall_handler_correct fr y l c x : console_ok (y_con y) ->
  queue (y_sched y) l -> current_process (y_sched y) = c -> s_procs (y_sched y) !! c = Some x ->
  (f_eax fr = SYSCALL_WRITE ->
     match user_read (Z.to_nat (f_edx fr)) (f_ecx fr) (y_kernel y) with
     | Ret (bs, k) => exists con, emits (OChar <$> bs) (y_con y) = Ret (tt, con) /\ console_ok con /\
         syscall_handler fr y = Ret (Some (set_eax 0 fr), after_call k con y)
     | Fault => syscall_handler fr y = Fault
     | Diverge => syscall_handler fr y = Diverge
     end) /\
  (f_eax fr = SYSCALL_READ \/ SYSCALL_COUNT <= f_eax fr ->
     exists con, display [unknown_line (f_eax fr)] (y_con y) = Ret (tt, con) /\ console_ok con /\
       syscall_handler fr y = Ret (Some (set_eax 1 fr), with_con con y)) /\
  (f_eax fr = SYSCALL_EXIT -> c ∈ l ->
     if decide (l = [c]) then syscall_handler fr y = Diverge
     else exists y' t, syscall_handler fr y = Ret (None, y') /\ queue (y_sched y') (without c l) /\
       loaded (y_sched y') (hd 0 (without c l)) /\ s_procs (y_sched y') !! hd 0 (without c l) = Some t /\
       s_esp (y_sched y') = kernel_esp t /\ y_flags y' = y_flags y /\
       display [exit_line (pid x) (f_ebx fr)] (y_con y) = Ret (tt, y_con y') /\ console_ok (y_con y')).
Proof.
  intros Hok Hq Hc Hx. unfold syscall_handler. split; [|split].
  - intros ->.
    cbn [SYSCALL_WRITE SYSCALL_COUNT Z.ltb Z.compare Pos.compare Pos.compare_cont sys_table SYSCALL_EXIT Z.eqb Pos.eqb].
    unfold syscall_write. pose proof (write_loop_run (Z.to_nat (f_edx fr)) (f_ecx fr) y Hok) as H.
    destruct (user_read _ _ _) as [[bs k]| |]; [|by apply st_bind_Fault, st_bind_Fault|by apply st_bind_Diverge, st_bind_Diverge].
    destruct H as (con & Hem & Hcon & E). exists con. split; [done|]. split; [done|].
    by pstep (pstep (exact E); reflexivity).
  - intros Hn. unfold sys_table, SYSCALL_READ, SYSCALL_COUNT, SYSCALL_EXIT, SYSCALL_WRITE in *.
    destruct (unknown_run y (f_eax fr) Hok) as (k & D & Hk & E). exists k. split; [done|]. split; [done|].
    destruct (Z.ltb_spec (f_eax fr) 3).
    + destruct (Z.eqb_spec (f_eax fr) 0); [lia|]. destruct (Z.eqb_spec (f_eax fr) 1); [lia|]. by pstep (exact E).
    + by pstep (exact E).
  - intros -> Hin.
    cbn [SYSCALL_WRITE SYSCALL_COUNT Z.ltb Z.compare Pos.compare Pos.compare_cont sys_table SYSCALL_EXIT Z.eqb Pos.eqb].
    destruct (exit_message y c x fr Hok Hc Hx) as (k & D & Hk & E). case_decide as Hl.
    + subst l. apply st_bind_Diverge. rewrite E. apply st_bind_Diverge. unfold on_sched. cbn.
      by rewrite (exit_last_run _ c x Hq Hx).
    + destruct (exit_current_run (y_sched y) l c x Hq Hx Hin Hl Hc) as (s' & t & E' & Hq' & Hld & Ht & He & _).
      eexists _, t. split; [pstep (rewrite E; pstep (apply on_sched_run; exact E'); reflexivity); reflexivity|]. done.
Qed.
End correct.

(** ** Witness *)
Definition calling (eax ebx ecx edx : Z) : sys_frame := {| f_eax := eax; f_ebx := ebx; f_ecx := ecx; f_edx := edx |}.

(** Process 1 has "Hi" at 0x08048000. *)
Definition caller : sys box :=
  let s := box_sched [(1, 2); (2, 1)] 1 in
  {| y_sched := with_kernel (box_user (fun q a =>
       if q =? 0x1000 then if a =? 0x08048000 then Some 72 else if a =? 0x08048001 then Some 105 else None else None)
       (s_kernel s)) s;
     y_con := blank_console; y_flags := 0x202 |}.

Lemma syscall_handler_correct_witness :
  (exists k con, emits [OChar 72; OChar 105] blank_console = Ret (tt, con) /\
     syscall_handler (calling 1 1 0x08048000 2) caller = Ret (Some (calling 0 1 0x08048000 2), after_call k con caller)) /\
  (exists con, display [say (cstr "syscall: unknown syscall 2" ++ NL)] blank_console = Ret (tt, con) /\
     syscall_handler (calling 2 0 0 0) caller = Ret (Some (calling 1 0 0 0), with_con con caller)) /\
  (exists y', syscall_handler (calling 0 3 0 0) caller = Ret (None, y') /\ queue (y_sched y') [2]).
Proof.
  assert (Hq : queue (y_sched caller) [1; 2]) by (split; [reflexivity|right; prove_ring]).
  split; [|split].
  - destruct (syscall_handler_correct (calling 1 1 0x08048000 2) caller [1; 2] 1 (box_proc 1 2) blank_console_ok Hq
      eq_refl eq_refl) as (H & _). specialize (H eq_refl).
    assert (Er : user_read 2 0x08048000 (y_kernel caller) = Ret ([72; 105], y_kernel caller)) by reflexivity.
    change (Z.to_nat (f_edx (calling 1 1 0x08048000 2))) with 2%nat in H.
    change (f_ecx (calling 1 1 0x08048000 2)) with 0x08048000 in H. rewrite Er in H.
    destruct H as (con & He & _ & Hr). exists (y_kernel caller), con. split; [exact He|exact Hr].
  - destruct (syscall_handler_correct (calling 2 0 0 0) caller [1; 2] 1 (box_proc 1 2) blank_console_ok Hq
      eq_refl eq_refl) as (_ & H & _). destruct H as (con & D & _ & Hr); [by left|]. exists con. split; [exact D|exact Hr].
  - destruct (syscall_handler_correct (calling 0 3 0 0) caller [1; 2] 1 (box_proc 1 2) blank_console_ok Hq
      eq_refl eq_refl) as (_ & _ & H). specialize (H eq_refl ltac:(left)).
    rewrite decide_False in H by done. destruct H as (y' & t & E & Hq' & _). exists y'. split; [exact E|exact Hq'].
Defined.
