(* ===== verification/Boot.v ===== *)
(** * Start of the kernel (src/src/boot/loader.c, src/src/kernel/main.c)

    The memory map the boot loader hands over and the parts of main.c that put the
    components together.  [info] are the bytes of the multiboot information that
    boot.s copied to the address [virt]. *)

From S2P Require Import Prelude Interrupts Keyboard Console Text BlockDev Ext2 LinkedList Vfs FsLib Pmm.
From S2P Require Import Scheduler Machine SchedulerProof ProcessProof Elf ElfProof Syscall VfsProof.

(** ** loader.c *)
Definition MULTIBOOT_MAGIC : Z := 0x2BADB002.
Definition MULTIBOOT_INFO_MEM_MAP : Z := 0x040.

(** The fields of [multiboot_info_t] that are used. *)
Definition mb_flags (info : list Z) : outcome Z := of_option (get_u32 info 0).
Definition mb_mmap_length (info : list Z) : outcome Z := of_option (get_u32 info 44).
Definition mb_mmap_addr (info : list Z) : outcome Z := of_option (get_u32 info 48).

Record loader := { l_mmap : Z; l_length : Z }.

Definition loader_init (magic : Z) (info : list Z) (virt_addr phys_addr : Z) (l : loader) : outcome loader :=
  if negb (magic =? MULTIBOOT_MAGIC) then Diverge
  else
    flags ← mb_flags info;
    if negb (Z.land flags MULTIBOOT_INFO_MEM_MAP =? 0) then
      addr ← mb_mmap_addr info;
      len ← mb_mmap_length info;
      Ret {| l_mmap := virt_addr +! (addr -! phys_addr); l_length := len |}
    else Ret l.

Definition loader_get_memory_map (l : loader) : Z := l_mmap l.
Definition loader_get_memory_map_length (l : loader) : Z := l_length l.

(** The bytes of the map in the copy at [virt_addr]. *)
Definition map_bytes (info : list Z) (virt_addr : Z) (l : loader) : outcome (list Z) :=
  of_option (slice info (loader_get_memory_map l - virt_addr) (loader_get_memory_map_length l)).

(** ** main.c *)
Definition STD_COLOR_LIGHT_BLUE : Z := 9.
Definition STD_COLOR_LIGHT_GREEN : Z := 10.
Definition STD_COLOR_LIGHT_RED : Z := 12.

Definition print (format : list Z) (args : list va_arg) : ST console unit := printf (format ++ [0]) args;; mret tt.

(** [while ((uintptr_t)mmap < mmap_end)] *)
Fixpoint print_regions (fuel : nat) (buf : list Z) (mmap entry mmap_end : Z) : ST console unit :=
  match fuel with
  | O => fun _ => Diverge
  | S fuel =>
      if entry <? mmap_end then
        e ← st_lift (of_option (read_mmap_entry buf (entry - mmap)));
        print (cstr "Region: base=0x%x%x, len=0x%x%x, type=%o%d" ++ NL)
          [VaInt (u32 (Z.shiftr (me_addr e) 32)); VaInt (u32 (me_addr e)); VaInt (u32 (Z.shiftr (me_len e) 32));
           VaInt (u32 (me_len e)); VaInt (me_type e); VaInt (me_type e)];;
        print_regions fuel buf mmap (entry +! (me_size e + 4)) mmap_end
      else mret tt
  end.

Definition regions_legend : list Z :=
  cstr "%omaping all the memory regions." ++ NL ++ cstr "  %o1. %ofor usable, " ++ NL ++ cstr "  %o2. %ofor reserved" ++ NL.

Definition print_memory_regions (info : list Z) (virt_addr : Z) (l : loader) : ST console unit :=
  print regions_legend
    [VaInt STD_COLOR_LIGHT_BLUE; VaInt 1; VaInt STD_COLOR_LIGHT_BLUE; VaInt 2; VaInt STD_COLOR_LIGHT_BLUE];;
  buf ← st_lift (map_bytes info virt_addr l);
  let mmap := loader_get_memory_map l in
  print_regions (S (length buf)) buf mmap mmap (loader_get_memory_map_length l +! mmap).

(** [pmm_init] of the memory map, then [syscall_init]. *)
Definition init_memory_management {K} (kernel_start kernel_end : Z) (info : list Z) (virt_addr : Z) (l : loader)
    (syscall_fn : Z) (p : pmm) (y : sys K) : outcome (pmm * sys K) :=
  buf ← map_bytes info virt_addr l;
  p ← pmm_init kernel_start kernel_end buf (loader_get_memory_map l) (loader_get_memory_map_length l) p;
  '(_, y) ← syscall_init syscall_fn y;
  Ret (p, y).

(** *** Programs *)
Record machine (F A K : Type) := { m_vfs : vfs F A; m_sys : sys K }.
Arguments m_vfs {F A K} _. Arguments m_sys {F A K} _.

Section code.
Context {F A K : Type} `{!Backend F} `{!Addresses A} `{!Kernel K} (fork_ret_fn : Z).
Abbreviation M := (ST (machine F A K)).

Definition on_vfs {B} (c : ST (vfs F A) B) : M B := fun m =>
  match c (m_vfs m) with
  | Ret (b, v) => Ret (b, {| m_vfs := v; m_sys := m_sys m |})
  | Fault => Fault
  | Diverge => Diverge
  end.
Definition on_sys {B} (c : ST (sys K) B) : M B := fun m =>
  match c (m_sys m) with
  | Ret (b, y) => Ret (b, {| m_vfs := m_vfs m; m_sys := y |})
  | Fault => Fault
  | Diverge => Diverge
  end.
Definition kprint (format : list Z) (args : list va_arg) : M unit := on_sys (on_con (print format args)).
Definition kernel {B} (c : ST K B) : M B := on_sys (on_sched (on_kernel c)).

(** The bytes of the buffer that have been written: none when it is null, and then
    [fs_read_file] does nothing. *)
Definition read_program (path : list Z) (buffer size : Z) : M (list Z) :=
  if buffer =? 0 then mret []
  else '(_, bytes) ← on_vfs (fs_read_file (Some path) (u32 size)); mret bytes.

Definition add_elf_proc (path : list Z) : M unit :=
  size ← on_vfs (fs_file_size (Some path));
  let size := s32 size in
  kprint (cstr "File size: %d" ++ NL) [VaInt size];;
  buffer ← kernel (k_kmalloc (u32 size));
  bytes ← read_program path buffer size;
  rc ← on_sys (on_sched (load_elf fork_ret_fn bytes));
  if negb (rc =? 0) then kprint (cstr "%oELF verification failed!" ++ NL) [VaInt STD_COLOR_LIGHT_RED]
  else
    kprint (cstr "%oELF verification succeeded!" ++ NL) [VaInt STD_COLOR_LIGHT_GREEN];;
    kernel (k_kfree buffer).

Definition test_elf_loading : M unit :=
  kprint (cstr "%oTesting ELF loading..." ++ NL) [VaInt STD_COLOR_LIGHT_BLUE];;
  add_elf_proc (cstr "/public-bin/test1");;
  add_elf_proc (cstr "/public-bin/test2").

(** [Storing %d, in %x] of the word at [a]. *)
Definition report (format : string) (a : Z) : M unit :=
  v ← kernel (k_load a);
  kprint (cstr format ++ NL) [VaInt v; VaInt a].

Definition test_heap_allocator : M unit :=
  kprint (cstr "%oTesting kernel heap allocator:" ++ NL) [VaInt STD_COLOR_LIGHT_BLUE];;
  allocation ← kernel (k_kmalloc 4);
  kernel (k_store allocation 5);;
  report "Storing %d, in %x" allocation;;
  allocation2 ← kernel (k_kmalloc 4);
  kernel (k_store allocation2 10);;
  report "Storing %d, in %x" allocation2;;
  report "Check that %d is still at %x" allocation;;
  kprint (cstr "freeing second allocation" ++ NL) [];;
  kernel (k_kfree allocation2);;
  allocation2 ← kernel (k_kmalloc 4);
  kernel (k_store allocation2 15);;
  report "Storing %d, in %x" allocation2;;
  report "Check that %d is still at %x" allocation;;
  kernel (k_kfree allocation);;
  kernel (k_kfree allocation2).
End code.

(** ** The memory map *)

(** The multiboot information at [phys] says that the map of the regions [es] is
    [off] bytes further on, inside the copy. *)
Record handed_over (info : list Z) (virt phys : Z) (off : Z) (es : list multiboot_mmap_entry) : Prop := {
  ho_flags : exists f, mb_flags info = Ret f /\ Z.land f MULTIBOOT_INFO_MEM_MAP <> 0;
  ho_addr : mb_mmap_addr info = Ret (phys + off);
  ho_length : mb_mmap_length info = Ret (Z.of_nat (length (concat (entry_bytes <$> es))));
  ho_map : slice info off (Z.of_nat (length (concat (entry_bytes <$> es)))) = Some (concat (entry_bytes <$> es));
  ho_entries : Forall entry_ok es;
  ho_off : 0 <= off;
  ho_virt : 0 <= virt;
  ho_fits : virt + off + Z.of_nat (length (concat (entry_bytes <$> es))) < 4294967296
}.

Definition handed_map (virt off : Z) (es : list multiboot_mmap_entry) : loader :=
  {| l_mmap := virt + off; l_length := Z.of_nat (length (concat (entry_bytes <$> es))) |}.

Lemma loader_init_run info virt phys off es l : handed_over info virt phys off es ->
  loader_init MULTIBOOT_MAGIC info virt phys l = Ret (handed_map virt off es) /\
  map_bytes info virt (handed_map virt off es) = Ret (concat (entry_bytes <$> es)).
Proof.
  intros [(f & Hf & Hb) Ha Hl Hm _ Ho Hv Hfit]. unfold loader_init. rewrite Z.eqb_refl. cbn [negb]. rewrite Hf. cbn [mbind outcome_bind].
  destruct (Z.eqb_spec (Z.land f MULTIBOOT_INFO_MEM_MAP) 0); [done|]. cbn [negb]. rewrite Ha, Hl. cbn [mbind outcome_bind].
  split.
  - unfold handed_map. do 2 f_equal. replace (phys + off - phys) with off by lia. rewrite (u32_small off), u32_small by (unfold is_u32; lia). done.
  - unfold map_bytes, handed_map, loader_get_memory_map, loader_get_memory_map_length. cbn [l_mmap l_length].
    replace (virt + off - virt) with off by lia. by rewrite Hm.
Qed.

(** (C30) The memory map reaches the allocator: from the multiboot information that
    boot.s copied, [loader_init] finds the map in the copy and
    [init_memory_management] starts the physical memory manager with it, so that a
    frame below 4 GB is free exactly when it lies wholly in an available region
    the boot loader listed and is reserved neither for page tables nor for the
    kernel; the handler of the system calls is registered.  With another magic
    number the kernel stops. *)
Theorem boot_memory_map {K} info virt phys off es l ks ke fn p (y y' : sys K) :
  handed_over info virt phys off es -> kernel_image_ok ks ke ->
  Z.of_nat (length (bitmap p)) = 32768 -> Forall is_u32 (bitmap p) -> last_alloc p = 0 -> syscall_init fn y = Ret (tt, y') ->
  (exists l' p', loader_init MULTIBOOT_MAGIC info virt phys l = Ret l' /\
     init_memory_management ks ke info virt l' fn p y = Ret (p', y') /\
     (forall n, 0 <= n < MAX_PAGES ->
        page_used p' n = frame_reserved ks ke n || negb (existsb (frame_available n) es)) /\
     (usable_end_of es <= MEMORY_4GB_LIMIT -> pmm_wf p')) /\
  (forall magic, magic <> MULTIBOOT_MAGIC -> loader_init magic info virt phys l = Diverge).
Proof.
  intros Hh Hk Hlen Hbm Hla Hsys. destruct (loader_init_run info virt phys off es l Hh) as [E1 E2]. destruct Hh.
  destruct (pmm_init_frames_run ks ke es (virt + off) p) as (p' & Hp & Hfr & Hwf); [done|done|lia|lia|done|done|done|].
  split.
  - exists (handed_map virt off es), p'. split; [done|]. split; [|done]. unfold init_memory_management. rewrite E2. cbn [mbind outcome_bind].
    cbn [handed_map loader_get_memory_map loader_get_memory_map_length l_mmap l_length]. rewrite Hp. cbn [mbind outcome_bind].
    by rewrite Hsys.
  - intros magic Hm. unfold loader_init. by destruct (Z.eqb_spec magic MULTIBOOT_MAGIC).
Qed.

(** *** Its listing *)
Definition region_line (e : multiboot_mmap_entry) : shown :=
  Said ((OChar <$> cstr "Region: base=0x" ++ hex_string (u32 (Z.shiftr (me_addr e) 32)) ++ hex_string (u32 (me_addr e)) ++
                   cstr ", len=0x" ++ hex_string (u32 (Z.shiftr (me_len e) 32)) ++ hex_string (u32 (me_len e)) ++
                   cstr ", type=") ++
        OColor (me_type e) :: (OChar <$> int_string (me_type e) ++ NL)).

Definition legend : shown :=
  Said (OColor STD_COLOR_LIGHT_BLUE :: (OChar <$> cstr "maping all the memory regions." ++ NL ++ cstr "  ") ++
        OColor 1 :: (OChar <$> cstr "1. ") ++ OColor STD_COLOR_LIGHT_BLUE :: (OChar <$> cstr "for usable, " ++ NL ++ cstr "  ") ++
        OColor 2 :: (OChar <$> cstr "2. ") ++ OColor STD_COLOR_LIGHT_BLUE :: (OChar <$> cstr "for reserved" ++ NL)).

Lemma print_run fmt args ps k : pieces_of fmt args = Some ps -> console_ok k ->
  exists k', display [Said (output_of ps)] k = Ret (tt, k') /\ console_ok k' /\ print fmt args k = Ret (tt, k').
Proof.
  intros Hp Hk. destruct (printf_message fmt args ps k Hp Hk) as (n & k' & E & Em & Hk'). exists k'.
  split; [cbn [display show]; by pstep (exact Em)|]. split; [done|]. unfold print. by pstep (exact E).
Qed.

Lemma print_region_run e k : console_ok k ->
  exists k', show (region_line e) k = Ret (tt, k') /\ console_ok k' /\
    print (cstr "Region: base=0x%x%x, len=0x%x%x, type=%o%d" ++ NL)
      [VaInt (u32 (Z.shiftr (me_addr e) 32)); VaInt (u32 (me_addr e)); VaInt (u32 (Z.shiftr (me_len e) 32));
       VaInt (u32 (me_len e)); VaInt (me_type e); VaInt (me_type e)] k = Ret (tt, k').
Proof.
  intros Hk.
  destruct (printf_pieces (lits (cstr "Region: base=0x") ++ [Hex (u32 (Z.shiftr (me_addr e) 32)); Hex (u32 (me_addr e))] ++
     lits (cstr ", len=0x") ++ [Hex (u32 (Z.shiftr (me_len e) 32)); Hex (u32 (me_len e))] ++
     lits (cstr ", type=") ++ [Color (me_type e); Dec (me_type e); Lit 10]) k) as (n & k' & E & D & Hk'); [|done|].
  - repeat (apply list.Forall_app; split); try (apply list.Forall_fmap; vm_compute; repeat constructor; lia);
      repeat constructor; try done; apply u32_range.
  - exists k'. split; [|split; [done|unfold print; by pstep (exact E)]].
    rewrite <- D. unfold region_line, show. rewrite !fmap_app, <- !app_assoc. reflexivity.
Qed.

Lemma print_regions_run mmap es : forall fuel pre k, Forall entry_ok es -> console_ok k -> (length es < fuel)%nat -> 0 <= mmap ->
  let buf := pre ++ concat (entry_bytes <$> es) in
  mmap + Z.of_nat (length buf) < 4294967296 ->
  exists k', display (region_line <$> es) k = Ret (tt, k') /\ console_ok k' /\
    print_regions fuel buf mmap (mmap + Z.of_nat (length pre)) (mmap + Z.of_nat (length buf)) k = Ret (tt, k').
Proof.
  induction es as [|e es IH]; intros fuel pre k Hes Hk Hfuel Hm buf Hbuf; (destruct fuel as [|fuel]; [lia|]); cbn [print_regions].
  - subst buf. cbn. rewrite app_nil_r, Z.ltb_irrefl. by exists k.
  - apply Forall_cons in Hes as [He Hes]. pose proof (length_entry_bytes e He) as Hle. pose proof (eo_size e He) as Hsz.
    assert (Hb : buf = (pre ++ entry_bytes e) ++ concat (entry_bytes <$> es)) by (subst buf; rewrite fmap_cons; cbn [concat]; by rewrite app_assoc).
    assert (Hlb : Z.of_nat (length buf) = Z.of_nat (length pre) + (me_size e + 4) + Z.of_nat (length (concat (entry_bytes <$> es))))
      by (rewrite Hb, !length_app; lia).
    destruct (Z.ltb_spec (mmap + Z.of_nat (length pre)) (mmap + Z.of_nat (length buf))); [|lia].
    replace (mmap + Z.of_nat (length pre) - mmap) with (Z.of_nat (length pre)) by lia.
    pstep (rewrite Hb, <- app_assoc, read_entry_app by done; reflexivity).
    destruct (print_region_run e k Hk) as (k1 & D1 & Hk1 & E1). pstep (exact E1).
    rewrite u32_small by (unfold is_u32; lia).
    destruct (IH fuel (pre ++ entry_bytes e) k1) as (k' & D & Hk' & E); [done|done|cbn [length] in Hfuel; lia|done|by rewrite <- Hb|].
    exists k'. rewrite fmap_cons. cbn [display]. split; [by pstep (exact D1)|]. split; [done|].
    rewrite <- E, <- Hb. f_equal. rewrite length_app. lia.
Qed.

(** The listing of the memory map shows the regions the boot loader listed, all
    of them and in order, each with the two halves of its address and length in
    hexadecimal and its type. *)
Theorem print_memory_regions_correct info virt phys off es l k :
  handed_over info virt phys off es -> console_ok k ->
  exists l' k', loader_init MULTIBOOT_MAGIC info virt phys l = Ret l' /\
    display (legend :: (region_line <$> es)) k = Ret (tt, k') /\ print_memory_regions info virt l' k = Ret (tt, k').
Proof.
  intros Hh Hk. destruct (loader_init_run info virt phys off es l Hh) as [E1 E2]. destruct Hh.
  edestruct (print_run regions_legend [VaInt STD_COLOR_LIGHT_BLUE; VaInt 1; VaInt STD_COLOR_LIGHT_BLUE; VaInt 2; VaInt STD_COLOR_LIGHT_BLUE]
    _ k eq_refl Hk) as (k1 & D1 & Hk1 & P1).
  destruct (print_regions_run (virt + off) es (S (length (concat (entry_bytes <$> es)))) [] k1) as (k' & D & _ & E);
    [done|done| |lia|cbn [app]; lia|].
  { assert (H : (length es <= length (concat (entry_bytes <$> es)))%nat); [|lia]. clear -ho_entries0.
    induction ho_entries0 as [|e es He Hes IH]; [done|]. rewrite fmap_cons. cbn [concat length]. rewrite length_app.
    pose proof (length_entry_bytes e He). pose proof (eo_size e He). lia. }
  exists (handed_map virt off es), k'. split; [done|]. split; [exact (display_app [legend] _ k1 k' k D1 D)|].
  unfold print_memory_regions. pstep (exact P1). pstep (unfold st_lift; rewrite E2; reflexivity).
  cbn [handed_map loader_get_memory_map loader_get_memory_map_length l_mmap l_length app length] in *.
  rewrite u32_small by (unfold is_u32; lia). rewrite Z.add_0_r in E. rewrite <- E. f_equal. lia.
Qed.

(** ** Programs from files *)
Section programs.
Context {F A K : Type} `{!Backend F} `{!Addresses A} `{!Kernel K} (fork_ret_fn : Z).
Implicit Types m : machine F A K.

Definition with_console (k : console) m : machine F A K := {| m_vfs := m_vfs m; m_sys := with_con k (m_sys m) |}.
Definition with_files (v : vfs F A) m : machine F A K := {| m_vfs := v; m_sys := m_sys m |}.
Definition with_sched (s : sched K) m : machine F A K :=
  {| m_vfs := m_vfs m; m_sys := {| y_sched := s; y_con := y_con (m_sys m); y_flags := y_flags (m_sys m) |} |}.
Definition m_sched m : sched K := y_sched (m_sys m).
Definition m_con m : console := y_con (m_sys m).

Lemma kprint_run fmt args ps m : pieces_of fmt args = Some ps -> console_ok (m_con m) ->
  exists k, display [Said (output_of ps)] (m_con m) = Ret (tt, k) /\ console_ok k /\ kprint fmt args m = Ret (tt, with_console k m).
Proof.
  intros Hp Hok. destruct (print_run fmt args ps (m_con m) Hp Hok) as (k & D & Hk & E). exists k. split; [done|]. split; [done|].
  unfold kprint, on_sys, on_con. unfold m_con in E. by rewrite E.
Qed.

Lemma files_run {B} (c : ST (vfs F A) B) m b v : c (m_vfs m) = Ret (b, v) -> on_vfs c m = Ret (b, with_files v m).
Proof. intros E. unfold on_vfs. by rewrite E. Qed.

Lemma kernel_sched_run {B} (c : ST (sched K) B) m b s : c (m_sched m) = Ret (b, s) -> on_sys (on_sched c) m = Ret (b, with_sched s m).
Proof. intros E. unfold on_sys, on_sched. unfold m_sched in E. by rewrite E. Qed.

Lemma kernel_run {B} (c : ST K B) m b k : c (s_kernel (m_sched m)) = Ret (b, k) ->
  kernel c m = Ret (b, with_sched (with_kernel k (m_sched m)) m).
Proof. intros E. by apply kernel_sched_run, on_kernel_run. Qed.

Definition size_line (n : Z) : shown := say (cstr "File size: " ++ int_string n ++ NL).
Definition verdict (color : Z) (s : string) : shown := Said (OColor color :: (OChar <$> cstr s ++ NL)).

(** Up to the call of [load_elf]: the file is in a new buffer. *)
Definition read_in (path : list Z) m (n : Z) (v1 : vfs F A) (b : Z) (kb : K) (bytes : list Z) (v2 : vfs F A) : Prop :=
  fs_file_size (Some path) (m_vfs m) = Ret (n, v1) /\ 0 < n < 2147483648 /\
  k_kmalloc n (s_kernel (m_sched m)) = Ret (b, kb) /\ b <> 0 /\
  exists r, fs_read_file (Some path) n v1 = Ret ((r, bytes), v2).

Lemma add_elf_proc_read path m n v1 b kb bytes v2 : read_in path m n v1 b kb bytes v2 -> console_ok (m_con m) ->
  exists k, display [size_line n] (m_con m) = Ret (tt, k) /\ console_ok k /\
    let m1 := with_files v2 (with_sched (with_kernel kb (m_sched m)) (with_console k m)) in
    add_elf_proc fork_ret_fn path m =
      (rc ← on_sys (on_sched (load_elf fork_ret_fn bytes));
       if negb (rc =? 0) then kprint (cstr "%oELF verification failed!" ++ NL) [VaInt STD_COLOR_LIGHT_RED]
       else
         kprint (cstr "%oELF verification succeeded!" ++ NL) [VaInt STD_COLOR_LIGHT_GREEN];;
         kernel (k_kfree b)) m1.
Proof.
  intros (Hs & Hn & Hm & Hb & r & Hr) Hok. unfold add_elf_proc.
  assert (s32 n = n) as Hsn by (unfold s32; rewrite u32_small by (unfold is_u32; lia); destruct (Z.ltb_spec n 2147483648); lia).
  edestruct (kprint_run (cstr "File size: %d" ++ NL) [VaInt n] _ (with_files v1 m) eq_refl Hok) as (k & D & Hk & E).
  exists k. split; [rewrite <- D; unfold size_line, say; rewrite !fmap_app; reflexivity|]. split; [done|].
  pstep (by apply files_run). rewrite Hsn. pstep (exact E). rewrite u32_small by (unfold is_u32; lia).
  pstep (apply kernel_run; exact Hm). unfold read_program. destruct (Z.eqb_spec b 0); [done|].
  rewrite u32_small by (unfold is_u32; lia). pstep (pstep (apply files_run; exact Hr); reflexivity). done.
Qed.

(** (C31) Starting a program from its file: once the file is in a new buffer, the
    outcome is that of [load_elf] on its bytes: when that returns 0, the size and
    "ELF verification succeeded!" are shown and the buffer is given back, so that
    the outcome is then that of [kfree]; when it returns an error, the size and
    "ELF verification failed!" are shown and the buffer stays allocated; when it
    faults or never ends, so does the start.  A file that is no executable is such
    an error, and changes no process. *)
Theorem add_elf_proc_correct path m n v1 b kb bytes v2 : read_in path m n v1 b kb bytes v2 -> console_ok (m_con m) ->
  match load_elf fork_ret_fn bytes (with_kernel kb (m_sched m)) with
  | Ret (rc, s) =>
      if rc =? 0 then
        exists con, display [size_line n; verdict STD_COLOR_LIGHT_GREEN "ELF verification succeeded!"] (m_con m) = Ret (tt, con) /\
        match k_kfree b (s_kernel s) with
        | Ret (_, k) => add_elf_proc fork_ret_fn path m = Ret (tt, with_sched (with_kernel k s) (with_files v2 (with_console con m)))
        | Fault => add_elf_proc fork_ret_fn path m = Fault
        | Diverge => add_elf_proc fork_ret_fn path m = Diverge
        end
      else
        exists con, display [size_line n; verdict STD_COLOR_LIGHT_RED "ELF verification failed!"] (m_con m) = Ret (tt, con) /\
        add_elf_proc fork_ret_fn path m = Ret (tt, with_sched s (with_files v2 (with_console con m)))
  | Fault => add_elf_proc fork_ret_fn path m = Fault
  | Diverge => add_elf_proc fork_ret_fn path m = Diverge
  end /\
  (magic_matches bytes 0 elf_magic = Ret false ->
     exists con, display [size_line n; verdict STD_COLOR_LIGHT_RED "ELF verification failed!"] (m_con m) = Ret (tt, con) /\
       add_elf_proc fork_ret_fn path m = Ret (tt, with_sched (with_kernel kb (m_sched m)) (with_files v2 (with_console con m)))).
Proof.
  intros Hread Hok. destruct (add_elf_proc_read path m n v1 b kb bytes v2 Hread Hok) as (k & D & Hk & E). cbv zeta in E. rewrite E.
  set (m1 := with_files v2 (with_sched (with_kernel kb (m_sched m)) (with_console k m))).
  assert (Hbad : forall rc s, load_elf fork_ret_fn bytes (with_kernel kb (m_sched m)) = Ret (rc, s) -> (rc =? 0) = false ->
    exists con, display [size_line n; verdict STD_COLOR_LIGHT_RED "ELF verification failed!"] (m_con m) = Ret (tt, con) /\
      (rc ← on_sys (on_sched (load_elf fork_ret_fn bytes));
       if negb (rc =? 0) then kprint (cstr "%oELF verification failed!" ++ NL) [VaInt STD_COLOR_LIGHT_RED]
       else
         kprint (cstr "%oELF verification succeeded!" ++ NL) [VaInt STD_COLOR_LIGHT_GREEN];;
         kernel (k_kfree b)) m1 = Ret (tt, with_sched s (with_files v2 (with_console con m)))).
  { intros rc s El Erc.
    edestruct (kprint_run (cstr "%oELF verification failed!" ++ NL) [VaInt STD_COLOR_LIGHT_RED] _ (with_sched s m1) eq_refl Hk) as (k2 & D2 & _ & E2).
    exists k2. split; [exact (display_app [_] [_] k k2 _ D D2)|]. pstep (apply kernel_sched_run; exact El). by rewrite Erc. }
  split.
  - destruct (load_elf fork_ret_fn bytes (with_kernel kb (m_sched m))) as [[rc s]| |] eqn:El.
    2,3: apply st_bind_Fault || apply st_bind_Diverge; unfold on_sys, on_sched;
      change (y_sched (m_sys m1)) with (with_kernel kb (m_sched m)); by rewrite El.
    destruct (rc =? 0) eqn:Erc; [|by eapply Hbad].
    edestruct (kprint_run (cstr "%oELF verification succeeded!" ++ NL) [VaInt STD_COLOR_LIGHT_GREEN] _ (with_sched s m1) eq_refl Hk) as (k2 & D2 & _ & E2).
    exists k2. split; [exact (display_app [_] [_] k k2 _ D D2)|].
    pose proof (kernel_sched_run (load_elf fork_ret_fn bytes) m1 rc s El) as El'.
    destruct (k_kfree b (s_kernel s)) as [[[] kf]| |] eqn:Ef; rewrite (st_bind_Ret _ _ _ _ _ El'), Erc; cbn [negb];
      rewrite (st_bind_Ret _ _ _ _ _ E2).
    + by rewrite (kernel_run _ _ tt kf) by exact Ef.
    + unfold kernel, on_sys, on_sched, on_kernel. cbn. by rewrite Ef.
    + unfold kernel, on_sys, on_sched, on_kernel. cbn. by rewrite Ef.
  - intros Hmag. apply (Hbad (-1)); [|done]. unfold load_elf. by pstep (by rewrite Hmag).
Qed.

(** A program that does not exist stops the kernel: its size is the code
    [FS_ERR_NOT_FOUND], for which no buffer can be had, and [load_elf] then reads
    the magic number through the null pointer. *)
Theorem add_elf_proc_missing_faults path m v1 k0 : console_ok (m_con m) ->
  fs_file_size (Some path) (m_vfs m) = Ret (u32 FS_ERR_NOT_FOUND, v1) ->
  k_kmalloc (u32 FS_ERR_NOT_FOUND) (s_kernel (m_sched m)) = Ret (0, k0) ->
  add_elf_proc fork_ret_fn path m = Fault.
Proof.
  intros Hok Hs Hm. unfold add_elf_proc. pstep (by apply files_run).
  edestruct (kprint_run (cstr "File size: %d" ++ NL) [VaInt (s32 (u32 FS_ERR_NOT_FOUND))] _ (with_files v1 m) eq_refl Hok) as (k & _ & _ & E).
  pstep (exact E). pstep (apply kernel_run; exact Hm). pstep reflexivity. apply st_bind_Fault. reflexivity.
Qed.
End programs.

(** ** Witnesses *)

(** Two regions, listed 52 bytes into the information at 0x9500. *)
Definition sample_info : list Z :=
  le_bytes 4 0x40 ++ replicate 40 0 ++ le_bytes 4 (Z.of_nat (length (concat (entry_bytes <$> sample_map)))) ++
  le_bytes 4 (0x9500 + 52) ++ concat (entry_bytes <$> sample_map).

Lemma sample_handed_over : handed_over sample_info 0xC0250000 0x9500 52 sample_map.
Proof.
  split; [exists 0x40; split; [reflexivity|done]|reflexivity|reflexivity|reflexivity|exact sample_map_ok|lia|lia|vm_compute; reflexivity].
Qed.

Definition started : sys box :=
  {| y_sched := with_handlers (replicate (Z.to_nat 2560) 0) (box_sched [] 0); y_con := blank_console; y_flags := 0x202 |}.
Definition registered (fn : Z) : sys box :=
  {| y_sched := with_handlers (<[Z.to_nat (isr_slot SYSCALL_INT 0) := fn]> (replicate (Z.to_nat 2560) 0)) (box_sched [] 0);
     y_con := blank_console; y_flags := 0x202 |}.

Lemma boot_memory_map_witness :
  (exists l' p', loader_init MULTIBOOT_MAGIC sample_info 0xC0250000 0x9500 {| l_mmap := 0; l_length := 0 |} = Ret l' /\
    init_memory_management 0x200000 0xC0310000 sample_info 0xC0250000 l' 0xC0104000 blank_pmm started = Ret (p', registered 0xC0104000) /\
    page_used p' 1000 = false /\ page_used p' 0x210 = true /\ pmm_wf p') /\
  loader_init 7 sample_info 0xC0250000 0x9500 {| l_mmap := 0; l_length := 0 |} = Diverge.
Proof.
  destruct blank_pmm_ok as [Hl Hf].
  destruct (boot_memory_map sample_info 0xC0250000 0x9500 52 sample_map {| l_mmap := 0; l_length := 0 |} 0x200000 0xC0310000
    0xC0104000 blank_pmm started (registered 0xC0104000) sample_handed_over) as [(l' & p' & H1 & H2 & Hb & Hwf) Hm].
  - split; vm_compute; split; (reflexivity || discriminate).
  - exact Hl.
  - exact Hf.
  - reflexivity.
  - reflexivity.
  - split; [|apply Hm; done]. exists l', p'. split; [exact H1|]. split; [exact H2|]. split; [|split].
    + rewrite Hb by (unfold MAX_PAGES; lia). reflexivity.
    + rewrite Hb by (unfold MAX_PAGES; lia). reflexivity.
    + apply Hwf. vm_compute. discriminate.
Defined.

Lemma print_memory_regions_correct_witness : exists l' k',
  loader_init MULTIBOOT_MAGIC sample_info 0xC0250000 0x9500 {| l_mmap := 0; l_length := 0 |} = Ret l' /\
  display (legend :: (region_line <$> sample_map)) blank_console = Ret (tt, k') /\
  print_memory_regions sample_info 0xC0250000 l' blank_console = Ret (tt, k').
Proof. exact (print_memory_regions_correct _ _ _ _ _ _ _ sample_handed_over blank_console_ok). Defined.

(** A volume with the executable "p", the text "t" and no "x". *)
Inductive shelf := Shelf.
Definition shelf_file (name : list Z) : option (list Z) :=
  if bool_decide (name = cstr "p") then Some small_elf
  else if bool_decide (name = cstr "t") then Some (cstr "text")
  else None.
Definition shelf_inode (n : Z) (bytes : list Z) : inode :=
  {| ino := n; mode := FS_FILE_TYPE_REGULAR; size := Z.of_nat (length bytes); uid := 0; gid := 0; nlink := 1; atime := 0; mtime := 0;
     ctime := 0; blksize := 1024; blocks := 2; flags := 0; ref_count := 1; disk_inode := bytes; block_group := 0; index_in_group := 0 |}.
#[local] Instance shelf_backend : Backend shelf := {
  be_malloc _ f := (true, f);
  be_free f := f;
  be_lookup sb i name := mret (shelf_inode 5 <$> shelf_file name);
  be_create sb i name m := mret (-1, i);
  be_mkdir sb i name m := mret (-1, i);
  be_unlink sb i name := mret (-1);
  be_rmdir sb i name := mret (-1, i);
  be_read sb i n off := let bytes := take (Z.to_nat n) (drop (Z.to_nat off) (disk_inode i)) in mret (Z.of_nat (length bytes), bytes);
  be_write sb i buf off := mret (-1, i);
  be_chmod sb i m := mret (-1, i);
  be_readdir sb i n off := mret (0, []);
  be_fill_super sb dev := mret None;
  be_put_superblock sb := mret tt;
  be_drop sb := mret tt;
  be_sync sb := mret 0
}.
Definition shelf_vfs : vfs shelf (gset Z) :=
  {| v_fs := Shelf; v_mem := v_mem toy_state; v_reg := v_reg toy_state; v_inodes := v_inodes toy_state; v_supers := v_supers toy_state;
     v_mounts := v_mounts toy_state; mount_list := mount_list toy_state; root_mount := root_mount toy_state;
     v_types := v_types toy_state; filesystem_list := filesystem_list toy_state; v_dentries := v_dentries toy_state;
     v_files := v_files toy_state |}.
Definition shelf_machine : machine shelf (gset Z) box :=
  {| m_vfs := shelf_vfs; m_sys := {| y_sched := box_sched [(1, 2); (2, 1)] 1; y_con := blank_console; y_flags := 0x202 |} |}.
Definition sized (name : string) : vfs shelf (gset Z) := final (fs_file_size (Some (cstr name))) shelf_vfs.

Lemma shelf_read name n bytes : ret_val (fs_file_size (Some (cstr name)) shelf_vfs) = Some n ->
  ret_val (fs_read_file (Some (cstr name)) n (sized name)) = Some (n, bytes) -> 0 < n < 10000 ->
  read_in (cstr name) shelf_machine n (sized name) 0xD0100000 (box_pages n (s_kernel (box_sched [(1, 2); (2, 1)] 1))) bytes
    (final (fs_read_file (Some (cstr name)) n) (sized name)).
Proof.
  intros H1 H2 Hn. split; [exact (run_final _ _ n H1)|]. split; [lia|]. split.
  - cbn. unfold box_pages. cbn. destruct (Z.ltb_spec (0xD0100000 + n) (2 ^ 32)); [done|]. lia.
  - split; [lia|]. exists n. exact (run_final _ _ (n, bytes) H2).
Qed.

Definition shelf_elf : ST (sched box) Z := load_elf 0xC0105000 small_elf.
Definition shelf_loaded : sched box :=
  final shelf_elf (with_kernel (box_pages 124 (s_kernel (m_sched shelf_machine))) (m_sched shelf_machine)).

Lemma add_elf_proc_correct_witness :
  (exists con, display [size_line 124; verdict STD_COLOR_LIGHT_GREEN "ELF verification succeeded!"] blank_console = Ret (tt, con) /\
     exists m', add_elf_proc 0xC0105000 (cstr "/p") shelf_machine = Ret (tt, m') /\ m_con m' = con) /\
  (exists m', add_elf_proc 0xC0105000 (cstr "/t") shelf_machine = Ret (tt, m') /\ s_procs (m_sched m') = s_procs (m_sched shelf_machine)).
Proof.
  split.
  - destruct (add_elf_proc_correct 0xC0105000 (cstr "/p") shelf_machine 124 (sized "/p") 0xD0100000 _ small_elf _
      (shelf_read "/p" 124 small_elf eq_refl eq_refl ltac:(lia)) blank_console_ok) as [H _].
    change (load_elf 0xC0105000 small_elf) with shelf_elf in H.
    assert (El : shelf_elf (with_kernel (box_pages 124 (s_kernel (box_sched [(1, 2); (2, 1)] 1))) (m_sched shelf_machine)) = Ret (0, shelf_loaded)).
    { refine (run_final _ _ 0 _). vm_compute. reflexivity. }
    rewrite El in H. cbn [Z.eqb] in H. destruct H as (con & D & E). exists con. split; [exact D|]. eexists. split; [exact E|reflexivity].
  - destruct (add_elf_proc_correct 0xC0105000 (cstr "/t") shelf_machine 4 (sized "/t") 0xD0100000 _ (cstr "text") _
      (shelf_read "/t" 4 (cstr "text") eq_refl eq_refl ltac:(lia)) blank_console_ok) as [_ H].
    destruct (H eq_refl) as (con & _ & E). eexists. split; [exact E|reflexivity].
Defined.

Lemma add_elf_proc_missing_faults_witness : add_elf_proc 0xC0105000 (cstr "/x") shelf_machine = Fault.
Proof.
  refine (add_elf_proc_missing_faults 0xC0105000 (cstr "/x") shelf_machine (sized "/x") (s_kernel (box_sched [(1, 2); (2, 1)] 1))
    blank_console_ok (run_final _ _ (u32 FS_ERR_NOT_FOUND) _) _); reflexivity.
Defined.
