(* ===== verification/KernelMain.v ===== *)
(** * The kernel's own functions (src/src/kernel/main.c)

    What main.c does beyond the loader and the programs of [Boot]: it routes the
    keyboard and the timer interrupts, shows colours and the page directory, and
    loops over the key events, echoing each on the terminal. *)

From S2P Require Import Prelude Interrupts Keyboard Console Text BlockDev Vfs FsLib Pmm Scheduler Machine Elf Syscall Boot.

(** ** Definitions *)

(** *** Interrupts: [keyboard_callback] and [timer_interrupt_handler] are addresses *)
Section interrupts.
Context {D : Type} `{!Ports D}.

Definition init_keyboard (keyboard_callback : Z) : ST (idt_state D) unit :=
  s ← st_get;
  t ← st_lift (isr_register_handler (irq_to_vector 1) keyboard_callback (isr_table s));
  st_modify (set_isr_table t).

Definition init_hardware (timer_handler : Z) : ST (idt_state D) unit :=
  on_io (pic_clear_mask 1);;
  clock_init 100 timer_handler.
End interrupts.

(** *** Colours and the page directory *)
Definition colors_format : list Z := concat (replicate 16 (cstr "%oo")) ++ NL.
Definition print_all_colors_test : ST console unit := print colors_format (VaInt <$> seqZ 0 16).

(** [pd] are the entries read through the recursive mapping. *)
Definition dump_page_directory (pd : list Z) : ST console unit :=
  print (cstr "--- Page Directory Dump ---" ++ NL) [];;
  st_for 768 0 (fun i =>
    e ← st_lift (of_option (znth pd i));
    if negb (Z.land e 1 =? 0) then print (cstr "PDE [%d]: 0x%x + +") [VaInt i; VaInt e] else mret tt).

(** *** The tests run at the start *)
Section tests.
Context {F A K : Type} `{!Backend F} `{!Addresses A} `{!Kernel K} (fork_ret_fn : Z).

Definition run_tests (info : list Z) (virt_addr : Z) (l : loader) : ST (machine F A K) unit :=
  on_sys (on_con (print_memory_regions info virt_addr l));;
  test_heap_allocator;;
  on_sys (on_con print_all_colors_test);;
  test_elf_loading fork_ret_fn.
End tests.

(** *** The main loop: the keyboard's queue and the terminal *)
Record desk := { d_kbd : kbd; d_con : console }.

(** [keyboard_read] and the terminal; after an iteration the CPU halts until the
    next interrupt. *)
Definition main_iteration (d : desk) : outcome desk :=
  '(r, k) ← keyboard_read (d_kbd d);
  match r with
  | Some event => '(_, c) ← terminal_handle_keypress event (d_con d); Ret {| d_kbd := k; d_con := c |}
  | None => Ret {| d_kbd := k; d_con := d_con d |}
  end.

(** Keyboard interrupts and iterations, with the events decoded and handled so far. *)
Inductive desk_step : desk * list key_event * list key_event -> desk * list key_event * list key_event -> Prop :=
| desk_irq d sent got sc k :
    0 <= sc < 256 -> keyboard_callback sc (d_kbd d) = Ret k ->
    (length (sent ++ event_of (d_kbd d) sc) - length got < 256)%nat ->
    desk_step (d, sent, got) ({| d_kbd := k; d_con := d_con d |}, sent ++ event_of (d_kbd d) sc, got)
| desk_iteration d sent got d' :
    main_iteration d = Ret d' ->
    desk_step (d, sent, got) (d', sent, got ++ match keyboard_read (d_kbd d) with Ret (Some e, _) => [e] | _ => [] end).

(** ** Echo *)

(** What the terminal writes for an event. *)
Definition echo_char (a : Z) : Z :=
  if is_printable_ascii a then a else if a =? 0x0A then 10 else if a =? 0x08 then 8 else 63.
Definition echo (e : key_event) : list Z :=
  if pressed e && negb (ascii e =? 0) then [echo_char (ascii e)] else [].
Definition echoes (es : list key_event) : list output := OChar <$> concat (echo <$> es).

Lemma keypress_echo e k : console_ok k ->
  exists k', terminal_handle_keypress e k = Ret (tt, k') /\ emits (OChar <$> echo e) k = Ret (tt, k') /\ console_ok k'.
Proof.
  intros [Ha Hs]. unfold terminal_handle_keypress, echo. destruct (pressed e && negb (ascii e =? 0)).
  2: { exists k. done. }
  set (c := echo_char (ascii e)).
  destruct (emits_total [OChar c] k Ha Hs) as (k' & E & Ha' & Hs').
  assert (Ep : putc c k = Ret (tt, k')).
  { cbn [emits emit] in E. apply st_bind_inv in E as ([] & k1 & E1 & E2). rewrite E1. by injection E2 as ->. }
  exists k'. split; [|done]. rewrite <- Ep. unfold c, echo_char, handle_non_printable_ascii.
  destruct (is_printable_ascii (ascii e)); [done|]. destruct (ascii e =? 10); [done|]. by destruct (ascii e =? 8).
Qed.

Lemma emits_join os1 os2 : forall k k1 k2, emits os1 k = Ret (tt, k1) -> emits os2 k1 = Ret (tt, k2) -> emits (os1 ++ os2) k = Ret (tt, k2).
Proof.
  induction os1 as [|o os1 IH]; intros k k1 k2 E1 E2; cbn [emits app] in *; [by injection E1 as ->|].
  apply st_bind_inv in E1 as ([] & k3 & Eo & E1). pstep (exact Eo). by eapply IH.
Qed.

Definition desk_inv (k0 : console) (x : desk * list key_event * list key_event) : Prop :=
  exists q, ring (d_kbd x.1.1) q /\ x.1.2 = x.2 ++ q /\ emits (echoes x.2) k0 = Ret (tt, d_con x.1.1) /\ console_ok (d_con x.1.1).

Lemma iteration_run k0 d sent got : desk_inv k0 (d, sent, got) ->
  exists d', main_iteration d = Ret d' /\
    match keyboard_read (d_kbd d) with
    | Ret (Some e, _) => (exists q, sent = got ++ e :: q) /\ desk_inv k0 (d', sent, got ++ [e])
    | Ret (None, _) => sent = got /\ d' = d
    | _ => False
    end.
Proof.
  intros (q & Hrg & Hq & He & Hk). cbn [fst snd] in *. unfold main_iteration. pose proof (read_spec (d_kbd d) q Hrg) as Hs.
  destruct q as [|e q].
  - rewrite Hs. exists d. split; [by destruct d|]. by rewrite app_nil_r in Hq.
  - destruct Hs as (k & -> & Hrg'). destruct (keypress_echo e (d_con d) Hk) as (c & E1 & E2 & Hc).
    exists {| d_kbd := k; d_con := c |}. cbn [mbind outcome_bind]. rewrite E1. split; [done|]. split; [by exists q|].
    exists q. split; [done|]. split; [cbn [fst snd]; by rewrite <- app_assoc|]. split; [|done]. cbn [fst snd d_con].
    destruct Hk as [Ha _]. unfold echoes. rewrite fmap_app, concat_app, fmap_app. cbn [fmap list_fmap concat]. rewrite app_nil_r.
    by eapply emits_join.
Qed.

Lemma desk_step_inv k0 x y : desk_step x y -> desk_inv k0 x -> desk_inv k0 y.
Proof.
  intros [d sent got sc k Hsc Hcb Hroom|d sent got d' Hit] Hinv.
  - destruct Hinv as (q & Hrg & Hq & He). cbn [fst snd] in *. subst sent. exists (q ++ event_of (d_kbd d) sc).
    split; [|split; [by rewrite app_assoc|done]].
    destruct (callback_spec (d_kbd d) q sc Hsc Hrg) as (k2 & Hk2 & Hrg2); [rewrite <- app_assoc, length_app in Hroom; lia|].
    rewrite Hcb in Hk2. by injection Hk2 as ->.
  - destruct (iteration_run k0 d sent got Hinv) as (d2 & E & Hc). rewrite Hit in E. injection E as <-.
    destruct (keyboard_read (d_kbd d)) as [[[e|] k]| |]; [by destruct Hc|destruct Hc as [-> ->]; by rewrite app_nil_r|done|done].
Qed.

(** ** Theorems *)

(** (C27) The main loop echoes what is typed.  From a fresh keyboard and any
    console, in every interleaving of keyboard interrupts and loop iterations in
    which fewer than 256 events are pending, the screen is exactly what writing the
    echo of the events handled, one after the other, gives; the events handled are a
    prefix of those decoded, in order; the next iteration always returns, and it
    handles the oldest pending event if there is one and changes nothing
    otherwise. *)
Theorem main_loop_echoes k0 d sent got : console_ok k0 ->
  rtc desk_step ({| d_kbd := kbd_boot; d_con := k0 |}, [], []) (d, sent, got) ->
  emits (echoes got) k0 = Ret (tt, d_con d) /\ console_ok (d_con d) /\
  exists pending d', sent = got ++ pending /\ main_iteration d = Ret d' /\
    match pending with
    | [] => d' = d
    | e :: _ => emits (echoes (got ++ [e])) k0 = Ret (tt, d_con d')
    end.
Proof.
  intros Hk Hrun.
  assert (Hinv : desk_inv k0 (d, sent, got)).
  { enough (forall x y, rtc desk_step x y -> desk_inv k0 x -> desk_inv k0 y) as H.
    { apply (H _ _ Hrun). exists []. split; [apply ring_boot|done]. }
    induction 1 as [|x y z Hst _ IH]; [done|]. intros Hx. by eapply IH, desk_step_inv. }
  pose proof Hinv as (q & _ & Hq & He & Hc). cbn [fst snd] in *. split; [done|]. split; [done|].
  destruct (iteration_run k0 d sent got Hinv) as (d' & Hit & Hread). exists q, d'. split; [done|]. split; [done|].
  destruct (keyboard_read (d_kbd d)) as [[[e|] k]| |]; [|destruct Hread as [Hs ->]|done|done].
  - destruct Hread as ((q' & E) & (q2 & _ & _ & He2 & _)). rewrite Hq in E. apply app_inv_head in E as ->. exact He2.
  - rewrite Hs in Hq. rewrite <- (app_nil_r got) in Hq at 1. by apply app_inv_head in Hq as <-.
Qed.

(** A key is typed and echoed. *)
Lemma main_loop_echoes_witness : exists d sent got,
  rtc desk_step ({| d_kbd := kbd_boot; d_con := blank_console |}, [], []) (d, sent, got) /\
  chars (echoes got) = [97] /\ console_ok (d_con d).
Proof.
  destruct (callback_spec kbd_boot [] 0x1E ltac:(lia) ring_boot) as (k1 & E1 & Hrg); [apply Nat.ltb_lt; by vm_compute|].
  pose proof (@desk_irq {| d_kbd := kbd_boot; d_con := blank_console |} [] [] 0x1E k1 ltac:(lia) E1) as S1.
  specialize (S1 ltac:(apply Nat.ltb_lt; by vm_compute)). cbn [d_con] in S1.
  assert (Hinv : desk_inv blank_console ({| d_kbd := k1; d_con := blank_console |}, [] ++ event_of kbd_boot 0x1E, [])).
  { apply (desk_step_inv _ _ _ S1). exists []. split; [apply ring_boot|]. split; [done|]. split; [done|apply blank_console_ok]. }
  destruct (iteration_run _ _ _ _ Hinv) as (d' & Hit & Hc).
  pose proof (@desk_iteration {| d_kbd := k1; d_con := blank_console |} ([] ++ event_of kbd_boot 0x1E) [] d' Hit) as S2.
  assert (Hrun : rtc desk_step ({| d_kbd := kbd_boot; d_con := blank_console |}, [], []) _) by (eapply rtc_l; [exact S1|apply rtc_once, S2]).
  eexists _, _, _. split; [exact Hrun|].
  destruct (main_loop_echoes blank_console _ _ _ blank_console_ok Hrun) as (_ & Hk & _). split; [|exact Hk].
  cbn [d_kbd] in Hc |- *. destruct (keyboard_read k1) as [[[e|] k]| |]; [|destruct Hc as [Hs _]; by vm_compute in Hs|done|done].
  destruct Hc as ((q & Hq) & _). cbn [app] in Hq |- *. vm_compute in Hq. injection Hq as <- _. by vm_compute.
Defined.

(** ** Interrupt routing *)
Section routing.
Context {D : Type} `{!Ports D} `{!Pic8259 D}.

(** The ports of the timer chip are none of the interrupt controllers'. *)
Hypothesis pit_quiet : forall port v c (d : D), port = PIT_COMMAND_PORT \/ port = PIT_CHANNEL0 -> pic c (p_outb port v d) = pic c d.

Definition with_io (d : D) (s : idt_state D) : idt_state D :=
  {| io := d; idt := idt s; isr_table := isr_table s; idtr := idtr s; interrupts_on := interrupts_on s |}.

Lemma wp_register num handler (s : idt_state D) (Q : list Z -> idt_state D -> Prop) :
  length (isr_table s) = 1024%nat -> 0 <= num < 256 -> Q (<[Z.to_nat (isr_slot num 0) := handler]> (isr_table s)) s ->
  wp (st_lift (isr_register_handler num handler (isr_table s))) s Q.
Proof.
  intros Hl Hn HQ. unfold isr_register_handler. rewrite zset_Some by (unfold isr_slot, MAX_HANDELERS_PER_INTURRUPT; lia). exact HQ.
Qed.

(** A line is unmasked; nothing else changes. *)
Lemma wp_unmask irq (s : idt_state D) Q : 0 <= irq < 16 -> (forall c, pic_expects (pic c (io s)) = 0%nat) ->
  (forall d, (forall k, 0 <= k < 16 -> masked d k = negb (k =? irq) && masked (io s) k) ->
     (forall c, pic_offset (pic c d) = pic_offset (pic c (io s)) /\ pic_expects (pic c d) = 0%nat) -> Q tt (with_io d s)) ->
  wp (on_io (pic_clear_mask irq)) s Q.
Proof.
  intros Hi He HQ. apply wp_on_io. destruct (pic_mask_one_line irq (io s) Hi (He _)) as (_ & d & E & Hm & Ho).
  unfold wp. rewrite E. apply HQ; [done|]. intros c. destruct (Ho c) as [-> ->]. by rewrite He.
Qed.

(** After [idt_init], [init_keyboard] and [init_hardware] the keyboard and
    the timer, and only they, interrupt the kernel: of the sixteen request lines
    exactly lines 0 and 1 are unmasked, vectors 32 and 33 have exactly the timer's and
    the keyboard's handler and no other vector has one, the controllers deliver at
    vectors 32 and 40, and interrupts are on. *)
Theorem start_interrupts_route (s : idt_state D) exceptions irqs syscall idt_addr keyboard timer :
  length (idt s) = 256%nat -> (forall i, is_u32 (exceptions i)) -> (forall i, is_u32 (irqs i)) -> is_u32 syscall ->
  pic_expects (pic Master (io s)) = 0%nat -> pic_expects (pic Slave (io s)) = 0%nat ->
  exists s', (idt_init exceptions irqs syscall idt_addr;; init_keyboard keyboard;; init_hardware timer) s = Ret (tt, s') /\
    (forall irq, 0 <= irq < 16 -> masked (io s') irq = negb ((irq =? 0) || (irq =? 1))) /\
    (forall v i, 0 <= v < 256 -> 0 <= i < 4 -> znth (isr_table s') (isr_slot v i) =
       Some (if i =? 0 then if v =? 32 then timer else if v =? 33 then keyboard else 0 else 0)) /\
    pic_offset (pic Master (io s')) = 0x20 /\ pic_offset (pic Slave (io s')) = 0x28 /\ interrupts_on s' = true.
Proof.
  intros Hl Hex Hirq Hsys Hm Hs.
  destruct (idt_init_correct s exceptions irqs syscall idt_addr Hl Hex Hirq Hsys Hm Hs)
    as (s1 & E1 & _ & _ & _ & Hmask & Ho1 & Ho2 & Htab & _ & Hon & He).
  match goal with |- exists s', _ = _ /\ @?P s' => enough (Hwp : wp (init_keyboard keyboard;; init_hardware timer) s1 (fun _ s' => P s')) end.
  { apply wp_run in Hwp as ([] & s' & E & HP). exists s'. split; [by pstep (exact E1)|done]. }
  assert (Hlen : length (isr_table s1) = 1024%nat) by (by rewrite Htab).
  apply wp_bind, wp_bind, wp_get, wp_bind, wp_register; [done|unfold irq_to_vector, IRQ_BASE_VECTOR; lia|]. apply wp_modify.
  apply wp_bind, wp_unmask; [lia|done|]. cbn [io set_isr_table]. intros d2 Hd2 Ho.
  unfold clock_init. cbn [Z.eqb]. apply wp_bind, wp_on_io, wp_outb. apply wp_bind, wp_on_io, wp_outb. apply wp_bind, wp_on_io, wp_outb.
  cbn [io with_io set_isr_table]. set (d3 := p_outb _ _ (p_outb _ _ (p_outb _ _ d2))).
  assert (Hp3 : forall c, pic c d3 = pic c d2) by (intros c; unfold d3; rewrite !pit_quiet by (by (left + right)); done).
  apply wp_bind, wp_get, wp_bind, wp_register; [cbn [isr_table set_isr_table with_io]; by rewrite length_insert|unfold irq_to_vector, IRQ_BASE_VECTOR; lia|].
  apply wp_bind, wp_modify, wp_unmask; [lia|cbn [io set_isr_table]; intros c; rewrite Hp3; apply Ho|].
  cbn [io set_isr_table isr_table interrupts_on idtr idt with_io]. intros d4 Hd4 Ho4. split_and!.
  - intros irq Hi. rewrite Hd4 by done. unfold masked. rewrite Hp3. fold (masked d2 irq). rewrite Hd2, Hmask by done.
    destruct (irq =? 0), (irq =? 1); done.
  - intros v i Hv Hi. rewrite Htab. unfold isr_slot, MAX_HANDELERS_PER_INTURRUPT, irq_to_vector, IRQ_BASE_VECTOR.
    rewrite !znth_insert_list by (rewrite ?length_insert, ?length_replicate; lia).
    destruct (Z.eqb_spec (v * 4 + i) ((0 + 32) * 4 + 0)), (Z.eqb_spec (v * 4 + i) ((1 + 32) * 4 + 0)), (Z.eqb_spec i 0), (Z.eqb_spec v 32), (Z.eqb_spec v 33);
      try lia; try done; unfold znth; destruct (Z.leb_spec 0 (v * 4 + i)); try lia; apply lookup_replicate_2; lia.
  - destruct (Ho4 Master) as [-> _]. rewrite Hp3. destruct (Ho Master) as [-> _]. done.
  - destruct (Ho4 Slave) as [-> _]. rewrite Hp3. destruct (Ho Slave) as [-> _]. done.
  - done.
Qed.
End routing.

Lemma start_interrupts_route_witness :
  exists s', (idt_init (fun _ => 0xC0100000) (fun _ => 0xC0101000) 0xC0102000 0xC0200000;; init_keyboard 7;; init_hardware 8) idt_boot =
    Ret (tt, s') /\ masked (io s') 1 = false /\ masked (io s') 14 = true.
Proof.
  destruct (start_interrupts_route (D := pic_pair)
    ltac:(intros port v c [m s] [-> | ->]; reflexivity) idt_boot (fun _ => 0xC0100000) (fun _ => 0xC0101000) 0xC0102000 0xC0200000 7 8)
    as (s' & H & Hm & _);
    [reflexivity|intros; unfold is_u32; lia|intros; unfold is_u32; lia|unfold is_u32; lia|reflexivity|reflexivity|].
  exists s'. split; [exact H|]. split; [exact (Hm 1 ltac:(lia))|exact (Hm 14 ltac:(lia))].
Defined.

(** ** Colours and the page directory *)

(** The sixteen colours, each with a letter. *)
Lemma colors_shown k : console_ok k ->
  exists k', show (Said (concat ((fun c => [OColor c; OChar 111]) <$> seqZ 0 16) ++ [OChar 10])) k = Ret (tt, k') /\ console_ok k' /\
    print_all_colors_test k = Ret (tt, k').
Proof.
  intros Hk. destruct (print_run colors_format (VaInt <$> seqZ 0 16) (concat ((fun c => [Color c; Lit 111]) <$> seqZ 0 16) ++ [Lit 10]) k)
    as (k' & D & Hk' & E); [by vm_compute|done|]. exists k'. split; [|done].
  cbn [display] in D. apply st_bind_inv in D as ([] & k1 & D & [= ->]). exact D.
Qed.

Definition pde_line (i e : Z) : shown :=
  Said (OChar <$> cstr "PDE [" ++ int_string i ++ cstr "]: 0x" ++ hex_string e ++ cstr " + +").
(** The present entries of [pd] from [i] on. *)
Definition pde_lines (i : Z) (pd : list Z) : list shown :=
  concat (imap (fun j e => if Z.land e 1 =? 0 then [] else [pde_line (i + Z.of_nat j) e]) pd).

Lemma pde_line_run i e k : is_u32 e -> console_ok k ->
  exists k', show (pde_line i e) k = Ret (tt, k') /\ console_ok k' /\ print (cstr "PDE [%d]: 0x%x + +") [VaInt i; VaInt e] k = Ret (tt, k').
Proof.
  intros He Hk. destruct (printf_pieces (lits (cstr "PDE [") ++ [Dec i] ++ lits (cstr "]: 0x") ++ [Hex e] ++ lits (cstr " + +")) k)
    as (n & k' & E & D & Hk'); [|done|].
  - repeat (apply list.Forall_app; split); try (apply list.Forall_fmap; vm_compute; repeat constructor; lia); repeat constructor; try done; apply He.
  - exists k'. split; [|split; [done|unfold print; by pstep (exact E)]].
    rewrite <- D. unfold pde_line, show. rewrite !fmap_app. reflexivity.
Qed.

(** The dump lists the present entries of the user half, in order. *)
Lemma dump_page_directory_correct pd k : length pd = 1024%nat -> Forall is_u32 pd -> console_ok k ->
  exists k', display (say (cstr "--- Page Directory Dump ---" ++ NL) :: pde_lines 0 (take 768 pd)) k = Ret (tt, k') /\ console_ok k' /\
    dump_page_directory pd k = Ret (tt, k').
Proof.
  intros Hl Hpd Hk. destruct (print_run (cstr "--- Page Directory Dump ---" ++ NL) [] (lits (cstr "--- Page Directory Dump ---" ++ NL)) k)
    as (k1 & D1 & Hk1 & E1); [by vm_compute|done|].
  cbn [display] in D1. apply st_bind_inv in D1 as ([] & k2 & D1 & [= ->]).
  assert (Hloop : forall n i k, (i + n <= 768)%nat -> console_ok k ->
    exists k', display (pde_lines (Z.of_nat i) (take n (drop i pd))) k = Ret (tt, k') /\ console_ok k' /\
      st_for n (Z.of_nat i) (fun i => e ← st_lift (of_option (znth pd i));
        if negb (Z.land e 1 =? 0) then print (cstr "PDE [%d]: 0x%x + +") [VaInt i; VaInt e] else mret tt) k = Ret (tt, k')).
  { clear k Hk k1 Hk1 E1 D1. induction n as [|n IH]; intros i k Hi Hk; [by exists k|]. cbn [st_for].
    destruct (lookup_lt_is_Some_2 pd i) as [e He]; [lia|]. rewrite (drop_S _ _ _ He). cbn [take].
    assert (Heu : is_u32 e) by (by eapply Forall_lookup_1 in He).
    assert (El : pde_lines (Z.of_nat i) (e :: take n (drop (S i) pd)) =
      (if Z.land e 1 =? 0 then [] else [pde_line (Z.of_nat i) e]) ++ pde_lines (Z.of_nat (S i)) (take n (drop (S i) pd))).
    { unfold pde_lines. rewrite imap_cons. cbn [concat]. f_equal; [by rewrite Z.add_0_r|]. f_equal. apply imap_ext.
      intros j x _. cbn. by replace (Z.of_nat i + Z.of_nat (S j)) with (Z.of_nat (S i) + Z.of_nat j) by lia. }
    rewrite El. assert (Ez : znth pd (Z.of_nat i) = Some e) by (unfold znth; destruct (Z.leb_spec 0 (Z.of_nat i)); [by rewrite Nat2Z.id|lia]).
    replace (Z.of_nat i + 1) with (Z.of_nat (S i)) by lia.
    destruct (Z.land e 1 =? 0) eqn:Ep.
    - destruct (IH (S i) k) as (k' & D & Hk' & E); [lia|done|]. exists k'. split; [done|]. split; [done|].
      pstep (unfold mbind, ST_bind, st_lift; rewrite Ez; cbn; rewrite Ep; reflexivity). done.
    - destruct (pde_line_run (Z.of_nat i) e k Heu Hk) as (k1 & D1 & Hk1 & E1). destruct (IH (S i) k1) as (k' & D & Hk' & E); [lia|done|].
      exists k'. split; [cbn [app display]; by pstep (exact D1)|]. split; [done|].
      pstep (unfold mbind at 1, ST_bind at 1, st_lift; rewrite Ez; cbn [of_option]; rewrite Ep; exact E1). done. }
  destruct (Hloop 768%nat 0%nat k1) as (k' & D & Hk' & E); [lia|done|]. exists k'. split; [cbn [display]; by pstep (exact D1)|].
  split; [done|]. unfold dump_page_directory. pstep (exact E1). exact E.
Qed.
